(* ===== verification/_CoqProject ===== *)
-Q . S2P
Prelude.v
Sorting.v
Json.v
CanonicalJson.v
Storage.v
PayloadStore.v
Reconstruction.v
EventStore.v
Messages.v
AgentContext.v
Kernel.v
Model.v
Schema.v
UiSurface.v
Resources.v
ResourceHistory.v
ResourceSqlite.v
BuiltinKinds.v
DomainKinds.v
ModuleKinds.v
ModuleManifests.v
Policy.v
Leases.v
Paths.v
Grants.v
PolicyHash.v
Authorization.v
GrantSqlite.v
Queue.v
Streams.v
StreamSqlite.v
State.v
Ledger.v
LedgerSqlite.v
Catalog.v
Invocation.v
Compensation.v
LeaseTemplates.v
Meta.v
Host.v
Triggers.v
Failure.v
GrantPrimitive.v
CapabilityGrant.v
CapabilityAuthority.v
ResourcePrimitive.v
ResourceHandlers.v
MaterializedFiles.v
ResourceContracts.v
UiPrimitive.v
StorePrimitives.v
PrimitiveRuntime.v
DomainService.v
Approval.v
WorkerProtocol.v
ExternalWorkers.v
Bootstrap.v
