(* ===== verification/Prelude.v ===== *)
(** * Tron engine: verification library

    Tron is an agent server written in Rust (src/packages/agent).  Its core is the
    engine (src/packages/agent/src/engine): a catalog of workers and functions, a
    policy and grant layer that decides who may call what, an invocation path that
    runs a function at most once per idempotency key, a host that runs handlers
    under leases and compensation contracts, triggers, and durable stores (ledger,
    queue, streams, state, leases, compensation, versioned resources) in two
    implementations each, in memory and in SQLite.  This library models that core
    as executable definitions and proves the properties that make it correct.

    ** Parts and how they interact

    A client, agent or trigger asks for an [Invocation] (Model).  The live catalog
    (Catalog) finds the function; the kernel policy (Policy) checks visibility,
    delivery mode, health and idempotency; the grant named by the caller is
    checked against the function and the payload (Authorization, over Grants and
    Paths); the ledger (Ledger) reserves the idempotency key or yields the earlier
    answer; the schema validator (Schema) checks the payload; the grant's budget
    is spent (Grants); the handler runs outside the catalog lock; the answer is
    checked, stored and recorded (Invocation).  The host (Host) puts this together:
    it takes the lease that the function requires (LeaseTemplates, Leases), runs
    the handler and contains its panic, releases the lease, finishes the invocation
    and records its compensation (Compensation); it answers the engine's own meta
    functions (Meta) and fires triggers (Triggers), which call functions in turn,
    at once or through the queue (Queue).  Events are published (Streams), values
    kept (State), and the things agents work on are versioned resources
    (Resources) of declared kinds (BuiltinKinds, DomainKinds, ModuleKinds).
    Agents reach these stores through functions that the engine itself provides, the
    primitives: grants (GrantPrimitive), resources, goals, artifacts and files on disk
    (ResourcePrimitive), user interface surfaces (UiPrimitive), state, streams and the
    queue (StorePrimitives), and triggers, the catalog, workers and storage
    (PrimitiveRuntime); the host registers them when it is made (Bootstrap).  The workers
    of the domains keep their records as resources through the handle of the host
    (DomainService); the first of them is the approval of actions (Approval).
    Processes on the same machine join as external workers: they present a scoped
    token (WorkerProtocol), and the runtime (ExternalWorkers) registers their
    functions and triggers in the catalog and sends invocations to them.
    Beside the engine, each conversation is a session: a branching log of events
    (EventStore, over the payload storage) from which the messages that a model
    sees are rebuilt (Reconstruction).  The agent loop keeps these messages (Messages)
    in a context window whose size it accounts for and compacts (AgentContext).  For
    each operation the model asks for, it derives a grant of just that authority
    (CapabilityGrant, through the grant primitives of GrantPrimitive) and calls the
    engine under it; errors travel to clients as failure envelopes (Failure).

    ** Files

    - Prelude: results and the [?] operator, machine integers, UTF-8 strings,
      ordered maps, tactics and hint databases.
    - Json: serde_json values and the accessors the engine uses.
    - CanonicalJson: the canonical text of a value (idempotency fingerprints,
      policy hashes), proved injective.
    - Storage: shared/storage (payloads.rs, schema.rs, retention of maintenance.rs)
      and the session blob repository: payloads kept inline or in shared blobs.
    - PayloadStore: what a client may rely on of the payload storage, as a class,
      and its instance by Storage.
    - Reconstruction: domains/session/event_store: types and
      reconstruction/mod.rs, from events to the messages of a conversation.
    - EventStore: domains/session/event_store: store/event_store (event_log.rs,
      session_lifecycle.rs, state.rs) and the SQLite repositories of workspaces,
      sessions and events, over the class [PayloadStore].
    - Messages: shared/protocol/content.rs and messages/mod.rs, text truncation
      (shared/foundation/text.rs) and domains/agent/context/token_estimator.rs.
    - AgentContext: domains/agent/context (message_store.rs, summarizer.rs,
      compaction_engine, context_manager, compaction_trigger.rs, the snapshot) and
      domains/agent/loop/compaction_handler.
    - Kernel: kernel/errors.rs, ids.rs, types/*.rs (errors with their texts, ids,
      revisions, function, worker and trigger definitions).
    - Model: invocation/model.rs and catalog/discovery.rs (contexts, invocations,
      results, records, actors, queries).
    - Schema: kernel/schema.rs.  A Rust [expect] is an explicit [Panic] outcome.
    - Sorting: stable sorting and the best [k] of a list, as the listings use them.
    - UiSurface: durability/resources/ui_surface.rs.
    - Resources: durability/resources: types.rs, validation.rs, versions.rs and
      store/memory.rs (resources, versions, links, events).
    - ResourceHistory: the invariant of the in-memory resource store and what it
      gives: linear histories, immutable versions, no lost update.
    - ResourceSqlite: store/mod.rs and sqlite_codec.rs, listing, and the refinement
      of the in-memory store.
    - BuiltinKinds, DomainKinds, ModuleKinds: the tables of resource kinds and
      their JSON schemas (durability/resources/*_definitions.rs).
    - ModuleManifests: the built-in module manifests (module_registry_*_manifest.rs)
      and the installation of kinds and manifests at start-up.
    - Policy: kernel/policy.rs.
    - Leases: authority/leases.rs, the in-memory store and the SQLite table behind
      the class [LeaseStore], the contract both are proved to keep.
    - Paths: authority/grants/paths.rs and the working-directory normalization of
      shared/foundation/paths, over an abstract [FileSystem].
    - Grants: authority/grants/model.rs, derivation.rs and the in-memory store of
      mod.rs (derive, revoke, list, spend).
    - PolicyHash: authority/grants/policy_hash.rs.
    - Authorization: authority/grants/authorization.rs, whole.
    - GrantSqlite: the SQLite store of authority/grants/mod.rs with sqlite_codec.rs.
    - Queue: durability/queue: memory.rs, sqlite_store.rs, sqlite_codec.rs and the
      settlement of claimed items of runtime.rs.
    - Streams: durability/streams: mod.rs and memory.rs.
    - StreamSqlite: durability/streams/sqlite_store.rs, over the class
      [PayloadStore].
    - State: durability/state.rs, both stores.
    - Ledger: durability/ledger: outcome.rs, memory.rs, and the trait of mod.rs as
      the class [LedgerStore]: a store fails and changes nothing, or does what the
      in-memory store does with the records as it stores them.
    - LedgerSqlite: durability/ledger: sqlite_store/mod.rs, rows.rs and
      sqlite_codec.rs, the SQLite instance of [LedgerStore].
    - Catalog: catalog/registry: registration, change log, cleanup, grant checks,
      restart and search, polymorphic in the ledger store and the handlers.
    - Invocation: catalog/registry: invocation.rs, idempotency.rs and
      output_contract.rs.
    - Compensation: authority/compensation.rs, both stores behind the class
      [CompensationStore].
    - LeaseTemplates: invocation/host/invocation_support.rs, from a lease
      requirement to a lease request.
    - Meta: invocation/host/meta.rs, the engine's discovery, watch and delegation.
    - Host: invocation/host (invocation_handle.rs, invocation_support.rs,
      meta_invocation.rs, substrate_handle.rs) and the delivery of queue items,
      over any ledger, lease and compensation store.
    - Triggers: runtime/triggers.rs.
    - Failure: shared/server (failure.rs, errors.rs, error_mapping) and the capability
      results of shared/protocol/model_capabilities.rs.
    - GrantPrimitive: engine/primitives/grant.rs.
    - CapabilityGrant: domains/agent/loop/capability_invocation_executor (grant.rs and
      the execution of mod.rs), over any host.
    - CapabilityAuthority: the tables of CapabilityGrant compared with the demands of
      Authorization, and the derivation composed with the call that follows.
    - ResourcePrimitive: engine/primitives/resource, whole (inputs, handlers, answers,
      schemas, registrations), over the resource store and any [Disk].
    - ResourceHandlers: what every call does to the store and to the disk.
    - MaterializedFiles: the files that the primitives write, and reading them back.
    - ResourceContracts: the answers against the registered response schemas.
    - UiPrimitive: engine/primitives/ui, whole.
    - StorePrimitives: engine/primitives/state.rs, stream.rs and queue.rs.
    - PrimitiveRuntime: engine/primitives/trigger.rs, runtime.rs, catalog.rs, worker.rs
      and storage.rs, with the dispatch of the primitives that the host runs itself, over
      any [StorageRuntime].
    - DomainService: handlers of the domains over the resource and stream stores.
    - Approval: domains/approval (service.rs, support.rs, types.rs, explanation.rs,
      handlers.rs and the schemas of contract.rs).
    - WorkerProtocol: runtime/worker_protocol.rs and the checks of
      runtime/external_workers/validation.rs.
    - ExternalWorkers: runtime/external_workers (mod.rs, lifecycle.rs,
      registration.rs, proxy.rs) over the host, and the frames of a worker's socket
      (transport/runtime/external_workers.rs).
    - Bootstrap: engine/primitives/workers.rs and invocation/host/bootstrap.rs, the
      registration of the engine's own workers and functions.

    ** Conventions

    Constructors carry the enum's name as a prefix and record fields a short
    prefix of the struct's.  Ids are strings.  [u32] and [u64] are [Z] with
    saturation and wrap-around written out.  A [BTreeMap] is a [gmap], iterated in
    key order by [btree_entries].  A fallible function returns [result]; an
    operation of a store returns its result and the next store.  Generated ids
    and UUIDs are arguments, and so is the clock: an operation reads one instant
    [now] (where the code reads the clock twice within one operation the two
    reads are one).  Instants are unbounded integers of nanoseconds; the range of
    [DateTime] is not modelled.  SHA-256, zstd, the [{:?}] rendering, the JSON text of
    values and its length, RFC 3339 text, and the texts of conversion errors are
    parameters of the definitions that use them; the JSON text of a cascade path
    is a pair of parameters with their round trip as a hypothesis.  Parameters too
    are the redaction of texts, the floating-point sum of costs and the detection
    of a provider from a model name; the disk is an instance of the class [Disk], and
    [DiskLaws] says that a regular file written is read back and that canonical paths
    are clean (links whose target does not exist are not represented); the database
    behind the storage primitives is an instance of [StorageRuntime]; other
    floating-point values are binary64 floats of [SpecFloat].  A handler is a
    function of the invocation and the host that may change the host.  A SQLite table is a list or map of rows; of the text codecs of rows those that
    lose information are modelled (actor kinds and statuses of the queue), the
    others are taken as exact.  The JSON text of a stored payload parses back to the
    payload only where a theorem says so: exactness is assumed only of values without
    floats nested within the recursion limit of the parser, as serde_json documents.  The lease stores release
    without storage errors, so the branch of release_after_primary for a failed
    release is defined but not exercised.  Lock poisoning is not modelled.

    ** What the theorems show

    - Invocation: over any ledger store and in any interleaving, work starts at
      most once per key; with the in-memory ledger a retry that passes the policy and
      grant checks gets the first answer without running the handler, whatever else
      happened in between, and another payload under its key gets a conflict; only
      executions spend budget; every answer is recorded.
    - Grants and Authorization: authority never grows by derivation, revocation is
      final, budgets are spent exactly; authorization is exactly coverage by the
      grant; privileged operations need explicit grants; a derived grant
      authorizes nothing its ancestors would refuse; the policy hash is equal
      exactly for equal authority.
    - GrantSqlite: the SQLite grant store answers as the in-memory one, and callers
      whose reads and commits interleave never overspend a budget.
    - Policy and Schema: the checks accept exactly what their declarative forms
      describe; visibility isolates sessions and workspaces; payload validation
      cannot panic.
    - Catalog: the change log is contiguous and equal to the durable one; the
      engine namespace is reserved; a restart fails closed.
    - Leases, Queue, Streams, State: invariants over all reachable states (one
      holder per resource, bounded depth, final statuses, exclusive leases, no
      lost update), delivery of every visible event once, and agreement of the
      SQLite store with the in-memory one (StreamSqlite for streams, whose payloads
      must be ones that the payload storage reads back).
    - Ledger and LedgerSqlite: which errors survive storage and replay unchanged;
      the SQLite ledger refines the in-memory one.
    - Storage: a stored value is read back as its JSON text parses (without floats
      and deep nesting as itself) whatever else is stored or collected, unless it is a small
      value that poses as a reference; no reference is ever left without its blob.
    - Reconstruction: the messages rebuilt are those that the live events tell one
      after another, capability results included; each capability invocation is
      answered, and roles alternate.
    - EventStore: the log is a forest with one root per session or fork point;
      an append extends the history of its session by one event, a stored history
      never changes, a fork has the conversation of its source, counters are
      exact, and a session that another builds on cannot be deleted.
    - AgentContext: compaction keeps whole recent turns, as many as its bounds
      allow, and never separates a capability result from its invocation; a result
      put into the context fits its limit; the token accounting is exact.
    - Host: a handler runs only under its lease, the lease ends with it, a panic
      is an answer, every execution is recorded or safe to retry, and leaves one
      compensation record.
    - LeaseTemplates, Meta, Compensation: a payload cannot redirect a lease;
      watching delivers every visible change once; delegation keeps authority; one
      record per invocation.
    - Triggers: cascades end, run under the trigger's grant, and refusals are
      recorded.
    - CapabilityAuthority: the grant derived for a well-named capability call within
      its working directory authorizes that call, and has no wildcard.
    - ResourceHandlers, MaterializedFiles, ResourceContracts: every call of a resource
      primitive is a run of the store and writes only under the file roots of its
      grant, a regular file written is read back and verifies, and every answer conforms to
      its schema.
    - UiPrimitive: a submission is accepted exactly when it has an idempotency key and
      conforming input and is to a live action of the current version of a live
      surface.
    - StorePrimitives and Bootstrap: a queued call is delivered with the authority of the
      caller who enqueued it (from the SQLite queue with the actor kind that its codec
      reads); polling shows only visible events; a state written is read
      back; a new host serves every primitive with its own definition and handler, and
      bootstrapping it again changes nothing.
    - Approval: a check allows exactly when an approved decision is recorded for the
      current version of its request and both match and are in time; a decision ends
      every approval before it, and an approved request passes its check.
    - Failure: engine errors keep their envelope up to the client.
    - ExternalWorkers: an accepted hello is within an active grant and its token,
      connections stay within their token, and the functions that the connection of
      a disconnected worker lists cannot run.
    - Resources: the history of a resource is one line of immutable versions, a
      superseded version cannot be updated, listings return the newest matches,
      the SQLite store refines the in-memory one, accepted UI surfaces are bounded
      and free of forbidden content, and the built-in kinds and manifests install
      on every store.
    - Some theorems show deviations: a derived grant that omits its budget is
      unlimited ([omitted_budget_is_unlimited]), the SQLite queue turns user, cron
      and queue actors into System ([sqlite_queue_promotes_actors]), a promotion
      is lost by a restart ([promotion_is_lost_by_restart]), unregistering a
      worker leaves triggers without a target
      ([unregister_worker_leaves_dangling_trigger]), and a resource created in a
      blank scope breaks later listings of the SQLite store
      ([unreadable_scope_breaks_listing]), a small stored value can pose as a
      reference to the payload of another owner ([inline_value_forges_a_reference]),
      and two state entries can share one payload reference
      ([joined_owner_loses_a_payload]), a session with more than 10000 events loses
      its oldest ones ([long_history_loses_its_root]), and events cannot be listed
      from an offset without a limit ([offset_needs_a_limit]); a session resumed
      after a compaction has lost the turns that the live context kept
      ([resumed_session_loses_the_kept_turn]), a compaction reported as skipped can
      replace the summary ([skipped_compaction_replaces_the_summary]), and the
      answer to a repeated subscription has another creation time than the stored
      one ([resubscription_keeps_creation_time]); a refused hello disconnects the
      worker that it names ([refused_hello_disconnects_the_worker]), and a second
      hello of a durable worker makes it keep runnable functions after it
      disconnects ([second_hello_forgets_the_functions]); a subagent launch without
      the optional task id is always refused ([unnamed_launch_is_refused]), and the
      failure envelope of a domain error is lost when the error passes through the
      engine ([domain_failure_loses_the_envelope]); an applied patch writes outside the
      file roots of its grant ([patch_apply_writes_outside_the_roots]), a relative path
      is checked against another directory than the one written to
      ([relative_path_is_checked_elsewhere]), files cannot be made from artifacts or
      patches without a resource id ([materialize_needs_a_resource_id],
      [patch_apply_needs_a_resource_id]), a completion that fails leaves its decision
      ([failed_completion_keeps_its_decision]), a promotion revives a discarded file
      ([promotion_revives_a_discarded_file]), a directory recorded as an empty file is damaged by its verification
      ([verified_directory_is_damaged]), and a superseded surface reads as valid
      ([superseded_surface_reads_as_valid]); numbers cut to a narrower type give a queue
      item fewer attempts or a shorter lease than asked for
      ([large_attempt_bound_is_cut], [long_lease_lasts_a_millisecond]), an answer with a
      receipt id reads as queued ([receipt_of_the_target_reads_as_queued]),
      worker::health shows workers that are hidden from the caller
      ([worker_health_shows_hidden_workers]), and a refused decision ends the approval
      that held ([refused_decision_ends_the_approval]).

    ** Bounds and fuel

    Every definition is structurally recursive but [poll_pages] of Streams and
    [watch_pages] of Meta, the client's loops over pages, whose theorems need more
    fuel than there are events or changes, which is enough because each page that
    is not the last delivers at least one; and [render_loop] of LeaseTemplates,
    which starts with the length of the template as its fuel and consumes at least
    one character of it in each round.  [walk] of EventStore follows parents for as
    many levels as the recursive query of the code does (10000); the theorems say
    for which histories that is all of them.

    ** Not modelled, and the plan

    Next: session replay, the capability catalog, and the services of the other domains
    (procedural, git, jobs, subagents, context control) over DomainService.  Of the agent
    loop (domains/agent/loop) the compaction handler and the executor of capability
    invocations are modelled; turn execution is asynchronous code over providers.
    Outside the scope: network and process I/O (transport, providers, the framing
    and timeouts of worker sockets) and the Swift applications. *)

From stdpp Require Import base gmap strings list fin_maps sorting pretty.
From Stdlib Require Import ZArith Ascii String Lia.

#[local] Open Scope Z_scope.

(** ** Results

    Rust's [Result<A, E>] and the [?] operator.  [let? x := c in k] runs [c],
    returns its error at once, and otherwise continues with its value. *)

Inductive result (E A : Type) : Type :=
| Ok (a : A)
| Err (e : E).
Arguments Ok {E A} a.
Arguments Err {E A} e.

Declare Scope rust_scope.
Delimit Scope rust_scope with rust.

Notation "'let?' x ':=' c 'in' k" :=
  (match c with Ok x => k | Err err => Err err end)
  (at level 200, x pattern, c at level 200, k at level 200, right associativity) : rust_scope.
Notation "a =s b" := (String.eqb a b) (at level 70, no associativity) : rust_scope.
Notation "a +s b" := (String.append a b) (at level 60, right associativity) : rust_scope.

#[global] Open Scope rust_scope.

#[global] Instance result_eq_dec {E A} `{EqDecision E, EqDecision A} : EqDecision (result E A).
Proof. solve_decision. Defined.

Definition is_nil {A} (l : list A) : bool := match l with [] => true | _ => false end.
Definition is_ok {E A} (r : result E A) : bool := match r with Ok _ => true | Err _ => false end.
Definition is_some {A} (o : option A) : bool := match o with Some _ => true | None => false end.
Definition ok_or {E A} (o : option A) (e : E) : result E A :=
  match o with Some a => Ok a | None => Err e end.

#[global] Instance Ok_inj {E A} : Inj (=) (=) (@Ok E A).
Proof. by intros a b [= ->]. Qed.

(** [for x in xs { f(x)?; }] *)
Fixpoint try_each {E A} (f : A -> result E unit) (xs : list A) : result E unit :=
  match xs with
  | [] => Ok tt
  | x :: xs' => let? _ := f x in try_each f xs'
  end.

(** [xs.iter().map(f).collect::<Result<Vec<_>>>()] *)
Fixpoint try_map {E A B} (f : A -> result E B) (xs : list A) : result E (list B) :=
  match xs with
  | [] => Ok []
  | x :: xs' => let? y := f x in let? ys := try_map f xs' in Ok (y :: ys)
  end.

Lemma try_each_ok {E A} (f : A -> result E unit) xs :
  try_each f xs = Ok tt <-> Forall (fun x => f x = Ok tt) xs.
Proof.
  induction xs as [|x xs IH]; simpl.
  - split; auto.
  - rewrite Forall_cons, <- IH. destruct (f x) as [[]|e]; split; intuition congruence.
Qed.

Lemma seq_ok {E A} (c : result E unit) (k : result E A) a :
  (let? _ := c in k) = Ok a <-> c = Ok tt /\ k = Ok a.
Proof. destruct c as [[]|e]; split; intuition congruence. Qed.

(** [if let Some(x) = o { f(x)?; }] *)
Lemma when_some_ok {E A} (o : option A) (f : A -> result E unit) :
  match o with Some x => f x | None => Ok tt end = Ok tt <-> forall x, o = Some x -> f x = Ok tt.
Proof. destruct o; split; intros; simplify_eq; auto. Qed.

Lemma guard_ok {E} (b : bool) (e : E) :
  (if b then Err e else Ok tt) = Ok tt <-> b = false.
Proof. by destruct b. Qed.

Lemma guard_err_ok {E A} (b : bool) (e : E) (k : result E A) a :
  (if b then Err e else k) = Ok a <-> b = false /\ k = Ok a.
Proof. destruct b; split; intuition congruence. Qed.

Lemma is_some_iff {A} (o : option A) : is_some o = true <-> is_Some o.
Proof. destruct o; simpl; split; try done; eauto; by intros []. Qed.

(** ** Machine integers

    The engine's counters are [u32] and [u64], kept as [Z] in [0 .. 2^w - 1], and
    [i64]; [saturating_add] and the wrap-around of release builds are written out. *)

Definition u32_max : Z := 4294967295.
Definition u64_max : Z := 18446744073709551615.
Definition in_u32 (z : Z) : Prop := 0 <= z <= u32_max.
Definition in_u64 (z : Z) : Prop := 0 <= z <= u64_max.
Definition saturating_add_u32 (a b : Z) : Z := Z.min (a + b) u32_max.
Definition saturating_add_u64 (a b : Z) : Z := Z.min (a + b) u64_max.
Definition wrapping_add_u64 (a b : Z) : Z := (a + b) mod 2 ^ 64.
Definition i64_max : Z := 9223372036854775807.
Definition in_i64 (z : Z) : Prop := - i64_max - 1 <= z <= i64_max.
(** [as i64] and [as u32] of a [u64]. *)
Definition u64_as_i64 (z : Z) : Z := if z <=? i64_max then z else z - 2 ^ 64.
Definition u64_as_u32 (z : Z) : Z := z mod 2 ^ 32.
Definition wrapping_add_i64 (a b : Z) : Z := (a + b + 2 ^ 63) mod 2 ^ 64 - 2 ^ 63.

Lemma saturating_add_u32_range a b : in_u32 a -> 0 <= b -> in_u32 (saturating_add_u32 a b).
Proof. unfold in_u32, saturating_add_u32, u32_max. lia. Qed.
Lemma saturating_add_u64_range a b : in_u64 a -> 0 <= b -> in_u64 (saturating_add_u64 a b).
Proof. unfold in_u64, saturating_add_u64, u64_max. lia. Qed.
Lemma wrapping_add_u64_small a b :
  0 <= a -> 0 <= b -> a + b <= u64_max -> wrapping_add_u64 a b = a + b.
Proof. unfold wrapping_add_u64, u64_max. intros. apply Z.mod_small. lia. Qed.
Lemma wrapping_add_i64_small a b : in_i64 (a + b) -> wrapping_add_i64 a b = a + b.
Proof. unfold in_i64, wrapping_add_i64, i64_max. intros. rewrite Z.mod_small; lia. Qed.

(** ** Instants

    [DateTime<Utc>] is a [Z] count of nanoseconds; [Utc::now()] is always an
    argument of the operation that reads the clock. *)

Notation instant := Z (only parsing).
Definition add_ms (t : Z) (ms : Z) : Z := t + ms * 1000000.

Lemma add_ms_lt t ms : 0 < ms -> t < add_ms t ms.
Proof. unfold add_ms. lia. Qed.
Lemma add_ms_le t ms : 0 <= ms -> t <= add_ms t ms.
Proof. unfold add_ms. lia. Qed.

(** ** Strings

    A Rust [String] is its UTF-8 bytes.  [str::trim] removes the characters with
    the Unicode property White_Space, one to three bytes long. *)

Definition code (a : ascii) : Z := Z.of_N (N_of_ascii a).
Definition is_ws1 (a : ascii) : bool :=
  ((9 <=? code a) && (code a <=? 13)) || (code a =? 32).
Definition is_ws2 (a b : ascii) : bool :=
  (code a =? 194) && ((code b =? 133) || (code b =? 160)).
Definition is_ws3 (a b c : ascii) : bool :=
  ((code a =? 225) && (code b =? 154) && (code c =? 128))
  || ((code a =? 226) && (code b =? 128)
      && (((128 <=? code c) && (code c <=? 138)) || (code c =? 168) || (code c =? 169)
          || (code c =? 175)))
  || ((code a =? 226) && (code b =? 129) && (code c =? 159))
  || ((code a =? 227) && (code b =? 128) && (code c =? 128)).

Fixpoint trim_start (s : string) : string :=
  match s with
  | EmptyString => EmptyString
  | String a s1 =>
      if is_ws1 a then trim_start s1 else
      match s1 with
      | EmptyString => s
      | String b s2 =>
          if is_ws2 a b then trim_start s2 else
          match s2 with
          | EmptyString => s
          | String c s3 => if is_ws3 a b c then trim_start s3 else s
          end
      end
  end.

(** The same on the reversed bytes, for the end of the string. *)
Fixpoint trim_start_rev (s : string) : string :=
  match s with
  | EmptyString => EmptyString
  | String a s1 =>
      if is_ws1 a then trim_start_rev s1 else
      match s1 with
      | EmptyString => s
      | String b s2 =>
          if is_ws2 b a then trim_start_rev s2 else
          match s2 with
          | EmptyString => s
          | String c s3 => if is_ws3 c b a then trim_start_rev s3 else s
          end
      end
  end.

Fixpoint str_rev_app (s acc : string) : string :=
  match s with EmptyString => acc | String a s' => str_rev_app s' (String a acc) end.
Definition str_rev (s : string) : string := str_rev_app s EmptyString.
Definition trim (s : string) : string := str_rev (trim_start_rev (str_rev (trim_start s))).
(** [s.trim().is_empty()] *)
Definition is_blank (s : string) : bool := trim s =s "".

(** [text.chars().count()]: the bytes that are not UTF-8 continuation bytes. *)
Fixpoint chars_count (s : string) : Z :=
  match s with
  | EmptyString => 0
  | String a s' => (if (128 <=? code a) && (code a <=? 191) then 0 else 1) + chars_count s'
  end.

(** Characters: [char::is_ascii_alphanumeric], [to_ascii_lowercase] and
    [chars().all(..)] for a predicate that fails on all but ASCII characters. *)
Definition is_ascii_alphanumeric (a : ascii) : bool :=
  ((48 <=? code a) && (code a <=? 57)) || ((65 <=? code a) && (code a <=? 90))
  || ((97 <=? code a) && (code a <=? 122)).
Definition to_ascii_lowercase (a : ascii) : ascii :=
  if (65 <=? code a) && (code a <=? 90) then ascii_of_N (N_of_ascii a + 32) else a.

Fixpoint str_to_ascii_lowercase (s : string) : string :=
  match s with
  | EmptyString => EmptyString
  | String a s' => String (to_ascii_lowercase a) (str_to_ascii_lowercase s')
  end.
Fixpoint all_chars (f : ascii -> bool) (s : string) : bool :=
  match s with EmptyString => true | String a s' => f a && all_chars f s' end.

(** [s.starts_with(p)] and [s.contains(p)]. *)
Definition starts_with (s p : string) : bool := String.prefix p s.
Fixpoint contains (s p : string) : bool :=
  String.prefix p s || match s with EmptyString => false | String _ s' => contains s' p end.

(** [s.split_once(sep)]: the text before and after the first occurrence. *)
Fixpoint drop_str (n : nat) (s : string) : string :=
  match n, s with
  | O, _ => s
  | S n', String _ s' => drop_str n' s'
  | S _, EmptyString => EmptyString
  end.
Fixpoint split_once (s sep : string) : option (string * string) :=
  if String.prefix sep s then Some (EmptyString, drop_str (String.length sep) s)
  else match s with
       | EmptyString => None
       | String a s' =>
           match split_once s' sep with
           | Some (l, r) => Some (String a l, r)
           | None => None
           end
       end.

Lemma append_cons x a b : String x a +s b = String x (a +s b).
Proof. done. Qed.
Lemma append_assoc a b c : (a +s b) +s c = a +s b +s c.
Proof. induction a as [|x a IH]; [done|]. rewrite !append_cons. by f_equal. Qed.
Lemma append_nil_r a : a +s "" = a.
Proof. induction a as [|x a IH]; [done|]. rewrite append_cons. by f_equal. Qed.
Lemma str_app_inj_l (a b c : string) : a +s b = a +s c -> b = c.
Proof. induction a as [|x a IH]; [done|]. rewrite !append_cons. intros [= E]. by apply IH. Qed.

(** [items.join(sep)] *)
Fixpoint join (sep : string) (xs : list string) : string :=
  match xs with
  | [] => ""
  | [x] => x
  | x :: xs' => x +s sep +s join sep xs'
  end.

(** ** Ordered keys and ordered maps

    A Rust [BTreeMap] is a finite map that is iterated in key order.  The model
    is a [gmap] for lookups and updates, and [btree_entries] for iteration. *)

Class OrdKey (K : Type) := {
  key_leb : K -> K -> bool;
  key_leb_refl : forall a, key_leb a a = true;
  key_leb_trans : forall a b c, key_leb a b = true -> key_leb b c = true -> key_leb a c = true;
  key_leb_total : forall a b, key_leb a b = true \/ key_leb b a = true;
  key_leb_antisym : forall a b, key_leb a b = true -> key_leb b a = true -> a = b
}.

(** Byte order of strings, the order of Rust's [str::cmp]. *)
Fixpoint str_leb (a b : string) : bool :=
  match a, b with
  | EmptyString, _ => true
  | String _ _, EmptyString => false
  | String x a', String y b' =>
      if code x <? code y then true else if code x =? code y then str_leb a' b' else false
  end.

Lemma code_inj x y : code x = code y -> x = y.
Proof.
  unfold code. intros H%N2Z.inj.
  rewrite <- (ascii_N_embedding x), <- (ascii_N_embedding y). congruence.
Qed.

Lemma str_leb_refl a : str_leb a a = true.
Proof. induction a as [|x a IH]; simpl; [done|]. by rewrite Z.ltb_irrefl, Z.eqb_refl. Qed.
Lemma str_leb_total a b : str_leb a b = true \/ str_leb b a = true.
Proof.
  revert b. induction a as [|x a IH]; intros [|y b]; simpl; auto.
  destruct (Z.ltb_spec (code x) (code y)); auto.
  destruct (Z.eqb_spec (code x) (code y)) as [->|].
  - rewrite Z.ltb_irrefl, Z.eqb_refl. apply IH.
  - right. destruct (Z.ltb_spec (code y) (code x)); [done|lia].
Qed.
Lemma str_leb_antisym a b : str_leb a b = true -> str_leb b a = true -> a = b.
Proof.
  revert b. induction a as [|x a IH]; intros [|y b]; simpl; try done.
  destruct (Z.ltb_spec (code x) (code y)), (Z.ltb_spec (code y) (code x)); try lia;
    destruct (Z.eqb_spec (code x) (code y)) as [E|]; try done;
    destruct (Z.eqb_spec (code y) (code x)); try done; try lia.
  intros H1 H2. f_equal; [by apply code_inj|auto].
Qed.
Lemma str_leb_trans a b c : str_leb a b = true -> str_leb b c = true -> str_leb a c = true.
Proof.
  revert b c. induction a as [|x a IH]; intros [|y b] [|z c]; simpl; try done.
  destruct (Z.ltb_spec (code x) (code y)), (Z.ltb_spec (code y) (code z)),
    (Z.ltb_spec (code x) (code z)); try done; try lia;
  destruct (Z.eqb_spec (code x) (code y)), (Z.eqb_spec (code y) (code z)),
    (Z.eqb_spec (code x) (code z)); try done; try lia; eauto.
Qed.

#[global] Instance string_ord : OrdKey string := {|
  key_leb := str_leb;
  key_leb_refl := str_leb_refl;
  key_leb_trans := str_leb_trans;
  key_leb_total := str_leb_total;
  key_leb_antisym := str_leb_antisym
|}.

#[global] Program Instance Z_ord : OrdKey Z := {| key_leb := Z.leb |}.
Solve Obligations with (simpl; intros; rewrite ?Z.leb_le in *; lia).

(** Lexicographic order of pairs, the derived [Ord] of a struct. *)
#[global] Program Instance prod_ord {A B} `{EqDecision A} `{!OrdKey A, !OrdKey B} : OrdKey (A * B) := {|
  key_leb x y := if decide (fst x = fst y) then key_leb (snd x) (snd y) else key_leb (fst x) (fst y)
|}.
Next Obligation. intros. simpl. rewrite decide_True by done. apply key_leb_refl. Qed.
Next Obligation.
  intros A B ? ? ? [a1 b1] [a2 b2] [a3 b3]; simpl. repeat case_decide; subst; try done;
    eauto using key_leb_trans.
  intros H1 H2. assert (a2 = a3) by (by apply key_leb_antisym). by subst.
Qed.
Next Obligation.
  intros A B ? ? ? [a1 b1] [a2 b2]; simpl. repeat case_decide; subst; try done; apply key_leb_total.
Qed.
Next Obligation.
  intros A B ? ? ? [a1 b1] [a2 b2]; simpl. repeat case_decide; subst; try done; intros.
  - f_equal. by apply key_leb_antisym.
  - assert (a1 = a2) by (by apply key_leb_antisym). done.
Qed.

(** An order through an injection. *)
#[global] Program Definition inj_ord {A B} `{!OrdKey B} (f : A -> B) `{!Inj (=) (=) f} : OrdKey A := {|
  key_leb x y := key_leb (f x) (f y)
|}.
Next Obligation. intros. simpl. apply key_leb_refl. Qed.
Next Obligation. intros A B ? f ? a b c. simpl. apply key_leb_trans. Qed.
Next Obligation. intros A B ? f ? a b. simpl. apply key_leb_total. Qed.
Next Obligation. intros A B ? f ? a b H1 H2. apply (inj f). by apply key_leb_antisym. Qed.

Section btree.
  Context {K : Type} `{Countable K} `{!OrdKey K} {A : Type}.

Definition entry_le (a b : K * A) : Prop := key_leb (fst a) (fst b) = true.
#[global] Instance entry_le_dec : RelDecision entry_le.
Proof. intros a b. unfold entry_le. apply _. Defined.
#[global] Instance entry_le_trans : Transitive entry_le.
Proof. intros a b c. unfold entry_le. apply key_leb_trans. Qed.
#[global] Instance entry_le_total : Total entry_le.
Proof. intros a b. unfold entry_le. apply key_leb_total. Qed.

Definition btree_entries (m : gmap K A) : list (K * A) := merge_sort entry_le (map_to_list m).
Definition btree_values (m : gmap K A) : list A := map snd (btree_entries m).
Definition btree_keys (m : gmap K A) : list K := map fst (btree_entries m).

Lemma btree_entries_perm m : btree_entries m ≡ₚ map_to_list m.
Proof. apply merge_sort_Permutation. Qed.
Lemma elem_of_btree_entries m k a : (k, a) ∈ btree_entries m <-> m !! k = Some a.
Proof. rewrite btree_entries_perm. apply elem_of_map_to_list. Qed.
Lemma btree_entries_sorted m : StronglySorted entry_le (btree_entries m).
Proof. apply StronglySorted_merge_sort; apply _. Qed.
Lemma elem_of_btree_values m a : a ∈ btree_values m <-> exists k, m !! k = Some a.
Proof.
  unfold btree_values. rewrite list_elem_of_fmap. split.
  - intros [[k b] [-> Hin]]. exists k. by apply elem_of_btree_entries.
  - intros [k Hk]. exists (k, a). by rewrite elem_of_btree_entries.
Qed.
Lemma elem_of_btree_keys m k : k ∈ btree_keys m <-> is_Some (m !! k).
Proof.
  unfold btree_keys. rewrite list_elem_of_fmap. split.
  - intros [[k' b] [-> Hin]]. exists b. by apply elem_of_btree_entries.
  - intros [a Ha]. exists (k, a). by rewrite elem_of_btree_entries.
Qed.
Lemma btree_keys_nodup m : NoDup (btree_keys m).
Proof.
  unfold btree_keys. change (map fst (btree_entries m)) with ((btree_entries m).*1).
  rewrite btree_entries_perm. apply NoDup_fst_map_to_list.
Qed.

Lemma btree_values_insert m k a :
  m !! k = None -> btree_values (<[k := a]> m) ≡ₚ a :: btree_values m.
Proof.
  intros Hk. unfold btree_values.
  change (map snd ?l) with (snd <$> l). rewrite !btree_entries_perm.
  by rewrite map_to_list_insert.
Qed.
Lemma btree_values_delete m k a :
  m !! k = Some a -> btree_values m ≡ₚ a :: btree_values (delete k m).
Proof.
  intros Hk. rewrite <- (insert_delete_id m k a Hk) at 1.
  apply btree_values_insert. apply lookup_delete_eq.
Qed.
Lemma btree_values_update m k a b :
  m !! k = Some a -> btree_values (<[k := b]> m) ≡ₚ b :: btree_values (delete k m).
Proof.
  intros Hk. rewrite <- insert_delete_eq. apply btree_values_insert. apply lookup_delete_eq.
Qed.
End btree.

(** A map changed pointwise is iterated in the same order. *)
Lemma btree_entries_fmap {K} `{Countable K} `{!OrdKey K} {A B} (f : A -> B) (m : gmap K A) :
  btree_entries (f <$> m) = map (fun kv => (fst kv, f (snd kv))) (btree_entries m).
Proof.
  assert (btree_entries (f <$> m) ≡ₚ map (fun kv => (fst kv, f (snd kv))) (btree_entries m)) as Hp.
  { rewrite btree_entries_perm, map_to_list_fmap. change (map ?g ?l) with (g <$> l).
    rewrite btree_entries_perm. apply Permutation_refl'. apply list_fmap_ext. by intros ? [] ?. }
  apply (StronglySorted_unique_strong entry_le); [|apply btree_entries_sorted| |done].
  - intros [k x] [k' y] Hx Hy H1 H2. rewrite <- Hp in Hy.
    apply elem_of_btree_entries in Hx, Hy. unfold entry_le in *. simpl in *.
    rewrite (key_leb_antisym k k' H1 H2) in *. congruence.
  - eapply (StronglySorted_fmap _ entry_le); [|apply btree_entries_sorted]. done.
Qed.

Lemma filter_length_perm {A} (f : A -> bool) (l l' : list A) :
  l ≡ₚ l' -> List.length (List.filter f l) = List.length (List.filter f l').
Proof.
  induction 1 as [|x l l' _ IH|x y l|l l' l'' _ IH1 _ IH2]; simpl; try done.
  - destruct (f x); simpl; congruence.
  - destruct (f x), (f y); done.
  - congruence.
Qed.

Lemma filter_perm {A} (f : A -> bool) (l l' : list A) :
  l ≡ₚ l' -> List.filter f l ≡ₚ List.filter f l'.
Proof.
  induction 1 as [|x l l' _ IH|x y l|l l' l'' _ IH1 _ IH2]; simpl; try done.
  - by destruct (f x); rewrite ?IH.
  - destruct (f x), (f y); done || apply Permutation_swap.
  - by rewrite IH1.
Qed.
#[global] Instance filter_bool_proper {A} (f : A -> bool) :
  Proper (Permutation ==> Permutation) (List.filter f).
Proof. intros l l'. apply filter_perm. Qed.
Lemma filter_none {A} (f : A -> bool) (l : list A) :
  (forall x, x ∈ l -> f x = false) -> List.filter f l = [].
Proof.
  induction l as [|x l IH]; simpl; [done|]. intros Hf. rewrite (Hf x) by set_solver.
  apply IH. set_solver.
Qed.
(** [SELECT .. WHERE key = ?] on a unique column. *)
Lemma find_by_key {A} (key : A -> string) (rows : list A) k a :
  NoDup (map key rows) ->
  List.find (fun r => key r =s k) rows = Some a <-> a ∈ rows /\ key a = k.
Proof.
  induction rows as [|r rows IH]; simpl; [set_solver|]. rewrite NoDup_cons.
  intros [Hr Hnd]. destruct (String.eqb_spec (key r) k) as [<-|Hne].
  - split; [intros [= ->]; set_solver|]. intros [[->|Ha]%elem_of_cons Heq]; [done|].
    exfalso. apply Hr. rewrite <- Heq. by apply list_elem_of_fmap_2.
  - rewrite IH by done. set_solver.
Qed.

Section find_key.
  Context {A : Type} (key : A -> string).
Definition find_key (l : list A) (id : string) : option A := List.find (fun x => key x =s id) l.
Lemma find_key_spec l id e :
  NoDup (map key l) -> find_key l id = Some e <-> e ∈ l /\ key e = id.
Proof. intros Hl. by apply (find_by_key key). Qed.
Lemma find_key_none l id : find_key l id = None <-> id ∉ map key l.
Proof.
  unfold find_key. split.
  - intros Hn (e & -> & He)%list_elem_of_fmap.
    apply list_elem_of_In, (List.find_none _ _ Hn), String.eqb_neq in He. done.
  - intros Hn. destruct (List.find _ l) as [e|] eqn:E; [|done].
    apply List.find_some in E as [He Hk%String.eqb_eq]. destruct Hn. subst id.
    apply (list_elem_of_fmap_2 key). by apply list_elem_of_In.
Qed.
Lemma find_key_app l x id :
  find_key (l ++ [x]) id = match find_key l id with
                           | Some e => Some e
                           | None => if key x =s id then Some x else None
                           end.
Proof.
  unfold find_key. induction l as [|y l IH]; [done|]. simpl. by destruct (key y =s id).
Qed.
(** [UPDATE .. WHERE key = ?] *)
Lemma find_key_updated id f l r :
  (forall r, key (f r) = key r) -> find_key l id = Some r ->
  find_key (map (fun r => if key r =s id then f r else r) l) id = Some (f r).
Proof.
  intros Hf. unfold find_key. induction l as [|x l IH]; [done|]. simpl.
  destruct (key x =s id) eqn:E; simpl; [rewrite Hf, E; by intros [= ->]|rewrite E; auto].
Qed.
Lemma find_key_other id id' f l :
  (forall r, key (f r) = key r) -> id <> id' ->
  find_key (map (fun r => if key r =s id then f r else r) l) id' = find_key l id'.
Proof.
  intros Hf Hne. unfold find_key. induction l as [|x l IH]; [done|]. simpl.
  destruct (String.eqb_spec (key x) id) as [<-|]; [|by rewrite IH].
  rewrite Hf. by rewrite (proj2 (String.eqb_neq _ _) Hne).
Qed.
Lemma update_keys id f l :
  (forall r, key (f r) = key r) ->
  map key (map (fun r => if key r =s id then f r else r) l) = map key l.
Proof. intros Hf. rewrite map_map. apply map_ext. intros r. by destruct (_ =s _). Qed.
End find_key.

Lemma filter_filter {A} (f g : A -> bool) l :
  List.filter f (List.filter g l) = List.filter (fun x => g x && f x) l.
Proof. induction l as [|x l IH]; simpl; [done|]. destruct (g x); simpl; [|done]. by rewrite IH. Qed.
Lemma filter_sorted {A} (R : A -> A -> Prop) (f : A -> bool) l :
  StronglySorted R l -> StronglySorted R (List.filter f l).
Proof.
  induction 1 as [|x l Hs IH Hf]; simpl; [constructor|]. destruct (f x); [|done].
  constructor; [done|]. rewrite Forall_forall in *. intros y Hy. apply Hf.
  rewrite list_elem_of_In in Hy |- *. apply List.filter_In in Hy as [Hy _]. done.
Qed.

(** ** Proof automation

    [inv_ok] takes a hypothesis or goal about a chain of [let?] and [if] apart;
    the databases [tron] and [tronrw] carry the routine facts of the library. *)

Ltac inv_ok := repeat (case_match; simplify_eq/=).

Ltac bool_prop :=
  repeat match goal with
  | H : _ && _ = true |- _ => apply andb_true_iff in H as [? ?]
  | H : _ || _ = false |- _ => apply orb_false_iff in H as [? ?]
  | H : negb _ = true |- _ => apply negb_true_iff in H
  | H : negb _ = false |- _ => apply negb_false_iff in H
  | H : bool_decide _ = true |- _ => apply bool_decide_eq_true in H
  | H : bool_decide _ = false |- _ => apply bool_decide_eq_false in H
  | H : String.eqb _ _ = true |- _ => apply String.eqb_eq in H
  | H : String.eqb _ _ = false |- _ => apply String.eqb_neq in H
  | H : (_ <=? _) = true |- _ => apply Z.leb_le in H
  | H : (_ <=? _) = false |- _ => apply Z.leb_gt in H
  | H : (_ <? _) = true |- _ => apply Z.ltb_lt in H
  | H : (_ <? _) = false |- _ => apply Z.ltb_ge in H
  | H : (_ =? _) = true |- _ => apply Z.eqb_eq in H
  | H : (_ =? _) = false |- _ => apply Z.eqb_neq in H
  end.

Create HintDb tron discriminated.
#[export] Hint Resolve saturating_add_u32_range saturating_add_u64_range add_ms_lt add_ms_le
  str_leb_refl btree_keys_nodup : tron.
#[export] Hint Extern 5 (_ <= _)%Z => lia : tron.
#[export] Hint Extern 5 (_ < _)%Z => lia : tron.
