(* ===== verification/Sorting.v ===== *)
(** * Sorting and bounded selection

    [slice::sort_by] and [sort_by_key] sort stably: [stable_sort] is the insertion
    sort that does.  A loop that pushes, sorts and truncates keeps the first
    [k] elements of the sorted whole ([top_k_sort]); a stable sort of a list
    already ordered by a second key is ordered lexicographically
    ([stable_sort_lex]). *)

From stdpp Require Import base list sorting.
From Stdlib Require Import Bool Lia.
From S2P Require Import Prelude.

Section stable.
  Context {A : Type} (leb : A -> A -> bool).
  Implicit Types (x y : A) (l s : list A) (k : nat).

Fixpoint insert_stable x l : list A :=
  match l with
  | [] => [x]
  | y :: l' => if leb x y then x :: l else y :: insert_stable x l'
  end.
Definition stable_sort l : list A := foldr insert_stable [] l.

(** [v.push(x); v.sort_by(..); v.truncate(k)] *)
Definition bounded_push k (acc : list A) x : list A := take k (stable_sort (acc ++ [x])).
Definition top_k k l : list A := fold_left (bounded_push k) l [].

Definition le x y : Prop := leb x y = true.

Lemma insert_stable_perm x l : insert_stable x l ≡ₚ x :: l.
Proof.
  induction l as [|y l IH]; simpl; [done|]. destruct (leb x y); [done|].
  rewrite IH. apply perm_swap.
Qed.
Lemma stable_sort_perm l : stable_sort l ≡ₚ l.
Proof. induction l as [|x l IH]; simpl; [done|]. by rewrite insert_stable_perm, IH. Qed.

Section total.
  Hypothesis leb_total : forall x y, leb x y = true \/ leb y x = true.
  Hypothesis leb_trans : forall x y z, leb x y = true -> leb y z = true -> leb x z = true.

(** Order by [leb], ties by the second order [R]. *)
Definition lex (R : A -> A -> Prop) x y : Prop := le x y /\ (le y x -> R x y).

Lemma insert_stable_lex R x s :
  StronglySorted (lex R) s -> Forall (R x) s -> StronglySorted (lex R) (insert_stable x s).
Proof.
  induction 1 as [|y s Hs IH Hy]; intros Hx; simpl; [repeat constructor|].
  destruct (leb x y) eqn:Exy.
  - constructor; [by constructor|]. rewrite Forall_forall in Hx |- *. intros z Hz.
    split; [|auto]. apply elem_of_cons in Hz as [->|Hz]; [done|].
    rewrite Forall_forall in Hy. destruct (Hy z Hz) as [Hyz _]. exact (leb_trans _ _ _ Exy Hyz).
  - apply Forall_cons in Hx as [_ Hx]. constructor; [auto|].
    rewrite insert_stable_perm. constructor; [|done].
    split; [by destruct (leb_total x y) as [E|E]; [congruence|]|].
    unfold le. congruence.
Qed.

Lemma stable_sort_lex R l : StronglySorted R l -> StronglySorted (lex R) (stable_sort l).
Proof.
  induction 1 as [|x l Hl IH Hx]; simpl; [constructor|]. apply insert_stable_lex; [done|].
  by rewrite stable_sort_perm.
Qed.

Lemma stable_sort_sorted l : StronglySorted le (stable_sort l).
Proof.
  assert (StronglySorted (fun _ _ => True) l) as Hl
    by (induction l; constructor; [done|by apply Forall_true]).
  apply stable_sort_lex in Hl. induction Hl as [|x s Hs IH Hx]; constructor; [done|].
  eapply Forall_impl; [exact Hx|]. by intros y [].
Qed.

(** Sorted permutations agree where the order is antisymmetric. *)
Lemma sorted_perm_eq l s :
  (forall x y, x ∈ l -> y ∈ l -> le x y -> le y x -> x = y) ->
  StronglySorted le l -> StronglySorted le s -> l ≡ₚ s -> l = s.
Proof.
  intros Hanti Hl Hs Hp. apply (StronglySorted_unique_strong le); try done.
  intros x y Hx Hy. apply Hanti; [done|]. by rewrite Hp.
Qed.

Lemma insert_stable_sorted x s : StronglySorted le s -> StronglySorted le (insert_stable x s).
Proof.
  intros Hs. assert (StronglySorted (lex (fun _ _ => True)) (insert_stable x s)) as Hi.
  { apply insert_stable_lex; [|by apply Forall_true].
    induction Hs as [|y s Hs IH Hy]; constructor; [done|]. eapply Forall_impl; [exact Hy|]. done. }
  induction Hi as [|y s' Hs' IH Hy]; constructor; [done|]. eapply Forall_impl; [exact Hy|]. by intros z [].
Qed.

Lemma take_insert_take x k s : take k (insert_stable x (take k s)) = take k (insert_stable x s).
Proof.
  revert k. induction s as [|y s IH]; intros [|k]; simpl; try done.
  destruct (leb x y) eqn:E; simpl; [|by rewrite IH].
  f_equal. destruct k as [|k]; simpl; [done|]. by rewrite take_take, Nat.min_l by lia.
Qed.

Lemma take_sorted k s : StronglySorted le s -> StronglySorted le (take k s).
Proof. rewrite <- (take_drop k s) at 1. apply StronglySorted_app_1_l. Qed.

Lemma sort_snoc x l s :
  (forall a b, a ∈ x :: l -> b ∈ x :: l -> le a b -> le b a -> a = b) ->
  StronglySorted le s -> s ≡ₚ l -> stable_sort (l ++ [x]) = insert_stable x s.
Proof.
  intros Hanti Hs Hp. assert (l ++ [x] ≡ₚ x :: l) as Hx by (by rewrite Permutation_app_comm).
  apply sorted_perm_eq.
  - intros a b. rewrite stable_sort_perm, Hx. apply Hanti.
  - apply stable_sort_sorted.
  - by apply insert_stable_sorted.
  - by rewrite stable_sort_perm, insert_stable_perm, Hx, Hp.
Qed.

(** The push-sort-truncate loop selects the first [k] of the sorted list. *)
Lemma top_k_sort k l :
  (forall x y, x ∈ l -> y ∈ l -> le x y -> le y x -> x = y) ->
  top_k k l = take k (stable_sort l).
Proof.
  induction l as [|x l IH] using rev_ind; intros Hanti; [by destruct k|].
  assert (forall a, a ∈ x :: l <-> a ∈ l ++ [x]) as Hin.
  { intros a. by rewrite (Permutation_app_comm l [x]). }
  unfold top_k. rewrite fold_left_app. simpl.
  change (fold_left (bounded_push k) l []) with (top_k k l).
  rewrite IH by (intros a b Ha Hb; apply Hanti; apply Hin, elem_of_cons; auto).
  unfold bounded_push. rewrite (sort_snoc x l (stable_sort l)).
  2: { intros a b Ha Hb. apply Hanti; by apply Hin. }
  2: apply stable_sort_sorted.
  2: apply stable_sort_perm.
  rewrite (sort_snoc x (take k (stable_sort l)) (take k (stable_sort l)));
    [apply take_insert_take| |apply take_sorted, stable_sort_sorted|done].
  assert (forall a, a ∈ x :: take k (stable_sort l) -> a ∈ l ++ [x]) as Hsub.
  { intros a Ha. apply Hin. apply elem_of_cons in Ha as [->|Ha]; [left|]. right.
    apply elem_of_take in Ha as (i & Ha & _). apply list_elem_of_lookup_2 in Ha.
    by rewrite stable_sort_perm in Ha. }
  intros a b Ha Hb. apply Hanti; auto.
Qed.
End total.
End stable.

(** ** Weakening and reversal *)

Lemma sorted_impl {A} (R R' : A -> A -> Prop) l :
  (forall x y, R x y -> R' x y) -> StronglySorted R l -> StronglySorted R' l.
Proof. intros H. induction 1 as [|x l Hl IH Hx]; constructor; [done|]. eapply Forall_impl; [exact Hx|]. apply H. Qed.

Lemma sorted_rev {A} (R : A -> A -> Prop) l :
  StronglySorted R l -> StronglySorted (flip R) (rev l).
Proof.
  induction 1 as [|x l Hl IH Hx]; simpl; [constructor|].
  apply StronglySorted_app. split_and!; [|done|repeat constructor].
  intros a b Ha Hb. apply list_elem_of_singleton in Hb as ->.
  rewrite Forall_forall in Hx. apply Hx. rewrite list_elem_of_In in Ha |- *. by apply in_rev.
Qed.
