(* ===== verification/Json.v ===== *)
(** * JSON values

    The values the engine stores, validates and hashes: [serde_json::Value]
    with the accessors the engine calls on it ([get], [as_str], [as_u64],
    [pointer], ...).  Objects are association lists in the map's iteration
    order; [obj_insert] keeps them in the key order of the map.  The encoding of
    string literals is left to [serde_json] and is a parameter where a text is
    produced. *)

From stdpp Require Import base strings list pretty sorting countable.
From Stdlib Require Import ZArith Ascii String Lia Relation_Operators Transitive_Closure.
From S2P Require Import Prelude.

#[local] Open Scope Z_scope.

(** A number is an unsigned or a negative integer, or a float kept as its text. *)
Inductive number : Type :=
| PosInt (n : Z)
| NegInt (n : Z)
| Float (text : string).

Inductive Value : Type :=
| Null
| VBool (b : bool)
| VNumber (n : number)
| VString (s : string)
| VArray (items : list Value)
| VObject (fields : list (string * Value)).

Section value_ind.
  Variable P : Value -> Prop.
  Hypothesis Hnull : P Null.
  Hypothesis Hbool : forall b, P (VBool b).
  Hypothesis Hnum : forall n, P (VNumber n).
  Hypothesis Hstr : forall s, P (VString s).
  Hypothesis Harr : forall l, Forall P l -> P (VArray l).
  Hypothesis Hobj : forall l, Forall (fun kv => P (snd kv)) l -> P (VObject l).

Fixpoint Value_ind' (v : Value) : P v :=
  match v with
  | Null => Hnull
  | VBool b => Hbool b
  | VNumber n => Hnum n
  | VString s => Hstr s
  | VArray l =>
      Harr l ((fix go (l : list Value) : Forall P l :=
                 match l with
                 | [] => Forall_nil_2 _
                 | x :: l' => Forall_cons_2 _ _ _ (Value_ind' x) (go l')
                 end) l)
  | VObject l =>
      Hobj l ((fix go (l : list (string * Value)) : Forall (fun kv => P (snd kv)) l :=
                 match l with
                 | [] => Forall_nil_2 _
                 | x :: l' => Forall_cons_2 _ _ _ (Value_ind' (snd x)) (go l')
                 end) l)
  end.
End value_ind.

(** The direct components of a value, and induction over all components. *)
Inductive child : Value -> Value -> Prop :=
| child_item x l : In x l -> child x (VArray l)
| child_field k x l : In (k, x) l -> child x (VObject l).

Definition inside : Value -> Value -> Prop := Relation_Operators.clos_trans Value child.

Lemma child_wf : well_founded child.
Proof.
  intros v. induction v as [|b|n|s|l IH|l IH] using Value_ind'; constructor;
    intros w Hw; inversion Hw as [? ? Hin|k ? ? Hin]; subst.
  - by apply (proj1 (List.Forall_forall _ _) IH).
  - by apply (proj1 (List.Forall_forall _ _) IH (k, w)).
Qed.

Lemma Value_deep_ind (Q : Value -> Prop) :
  (forall v, (forall w, inside w v -> Q w) -> Q v) -> forall v, Q v.
Proof. apply (well_founded_ind (Transitive_Closure.wf_clos_trans _ _ child_wf)). Qed.

#[global] Instance number_eq_dec : EqDecision number.
Proof. solve_decision. Defined.

#[global] Instance Value_eq_dec : EqDecision Value.
Proof.
  unfold EqDecision, Decision. fix IH 1. intros v w.
  destruct v as [|b|n|s|l|l], w as [|b'|n'|s'|l'|l']; try (right; congruence).
  - by left.
  - destruct (decide (b = b')) as [->|]; [by left|right; congruence].
  - destruct (decide (n = n')) as [->|]; [by left|right; congruence].
  - destruct (decide (s = s')) as [->|]; [by left|right; congruence].
  - assert ({l = l'} + {l <> l'}) as [->|]; [|by left|right; congruence].
    revert l'. induction l as [|x l IHl]; intros [|y l']; try (right; congruence); [by left|].
    destruct (IH x y) as [->|]; [|right; congruence].
    destruct (IHl l') as [->|]; [by left|right; congruence].
  - assert ({l = l'} + {l <> l'}) as [->|]; [|by left|right; congruence].
    revert l'. induction l as [|[k x] l IHl]; intros [|[k' y] l']; try (right; congruence);
      [by left|].
    destruct (decide (k = k')) as [->|]; [|right; congruence].
    destruct (IH x y) as [->|]; [|right; congruence].
    destruct (IHl l') as [->|]; [by left|right; congruence].
Defined.

(** ** Comparison

    [PartialEq] of values.  Two float texts are equal as floats when the texts
    are equal, and both zeros are equal. *)
Definition number_eqb (a b : number) : bool :=
  match a, b with
  | PosInt x, PosInt y => x =? y
  | NegInt x, NegInt y => x =? y
  | Float x, Float y =>
      (x =s y) || (((x =s "0.0") || (x =s "-0.0")) && ((y =s "0.0") || (y =s "-0.0")))
  | _, _ => false
  end.

Fixpoint value_eqb (v w : Value) {struct v} : bool :=
  match v, w with
  | Null, Null => true
  | VBool a, VBool b => Bool.eqb a b
  | VNumber a, VNumber b => number_eqb a b
  | VString a, VString b => a =s b
  | VArray l, VArray l' =>
      (fix go (l l' : list Value) : bool :=
         match l, l' with
         | [], [] => true
         | x :: l, y :: l' => value_eqb x y && go l l'
         | _, _ => false
         end) l l'
  | VObject l, VObject l' =>
      (fix go (l l' : list (string * Value)) : bool :=
         match l, l' with
         | [], [] => true
         | (k, x) :: l, (k', y) :: l' => (k =s k') && value_eqb x y && go l l'
         | _, _ => false
         end) l l'
  | _, _ => false
  end.

Lemma value_eqb_refl v : value_eqb v v = true.
Proof.
  induction v as [|b|n|s|l IH|l IH] using Value_ind'; simpl; try done.
  - by destruct b.
  - destruct n; simpl; rewrite ?Z.eqb_refl, ?String.eqb_refl; done.
  - by rewrite String.eqb_refl.
  - induction IH as [|x l Hx _ IHl]; [done|]. by rewrite Hx.
  - induction IH as [|[k x] l Hx _ IHl]; [done|]. simpl in *. by rewrite String.eqb_refl, Hx.
Qed.

(** ** Accessors *)

Definition is_null (v : Value) : bool := match v with Null => true | _ => false end.
Definition is_boolean (v : Value) : bool := match v with VBool _ => true | _ => false end.
Definition is_number (v : Value) : bool := match v with VNumber _ => true | _ => false end.
Definition is_string (v : Value) : bool := match v with VString _ => true | _ => false end.
Definition is_array (v : Value) : bool := match v with VArray _ => true | _ => false end.
Definition is_object (v : Value) : bool := match v with VObject _ => true | _ => false end.
Definition as_bool (v : Value) : option bool := match v with VBool b => Some b | _ => None end.
Definition as_str (v : Value) : option string := match v with VString s => Some s | _ => None end.
Definition as_array (v : Value) : option (list Value) :=
  match v with VArray l => Some l | _ => None end.
Definition as_object (v : Value) : option (list (string * Value)) :=
  match v with VObject l => Some l | _ => None end.
Definition as_u64 (v : Value) : option Z :=
  match v with VNumber (PosInt n) => Some n | _ => None end.
Definition as_i64 (v : Value) : option Z :=
  match v with
  | VNumber (PosInt n) => if n <=? 9223372036854775807 then Some n else None
  | VNumber (NegInt n) => Some n
  | _ => None
  end.

Fixpoint obj_get {A} (fields : list (string * A)) (key : string) : option A :=
  match fields with
  | [] => None
  | (k, v) :: rest => if k =s key then Some v else obj_get rest key
  end.
Definition obj_contains {A} (fields : list (string * A)) (key : string) : bool :=
  is_some (obj_get fields key).
(** [Value::get] with a string index. *)
Definition vget (v : Value) (key : string) : option Value :=
  match v with VObject l => obj_get l key | _ => None end.

(** Insertion into a map kept in key order. *)
Fixpoint obj_insert (fields : list (string * Value)) (key : string) (v : Value)
  : list (string * Value) :=
  match fields with
  | [] => [(key, v)]
  | (k, w) :: rest =>
      if k =s key then (key, v) :: rest
      else if str_leb key k then (key, v) :: (k, w) :: rest
      else (k, w) :: obj_insert rest key v
  end.

Lemma obj_get_insert_eq fields key v : obj_get (obj_insert fields key v) key = Some v.
Proof.
  induction fields as [|[k w] rest IH]; simpl; [by rewrite String.eqb_refl|].
  destruct (String.eqb_spec k key) as [->|Hne]; simpl; [by rewrite String.eqb_refl|].
  destruct (str_leb key k); simpl; [by rewrite String.eqb_refl|].
  by apply String.eqb_neq in Hne as ->.
Qed.
Lemma obj_get_insert_ne fields key key' v :
  key' <> key -> obj_get (obj_insert fields key v) key' = obj_get fields key'.
Proof.
  intros Hne. apply not_eq_sym in Hne. apply String.eqb_neq in Hne.
  induction fields as [|[k w] rest IH]; simpl; [by rewrite Hne|].
  destruct (String.eqb_spec k key) as [->|Hk]; simpl; [by rewrite Hne|].
  destruct (str_leb key k); simpl; [by rewrite Hne|].
  destruct (k =s key'); [done|apply IH].
Qed.
Lemma obj_get_In {A} (fields : list (string * A)) key v :
  obj_get fields key = Some v -> In (key, v) fields.
Proof.
  induction fields as [|[k w] rest IH]; simpl; [done|].
  destruct (String.eqb_spec k key) as [->|]; intros; simplify_eq; auto.
Qed.

Lemma field_inside fields key v : obj_get fields key = Some v -> inside v (VObject fields).
Proof. intros H. apply t_step. apply obj_get_In in H. by apply child_field with key. Qed.
Lemma grandchild_inside fields key children k v :
  obj_get fields key = Some (VObject children) -> In (k, v) children ->
  inside v (VObject fields).
Proof.
  intros H Hin. apply t_trans with (VObject children).
  - apply t_step. by apply child_field with k.
  - by apply field_inside with key.
Qed.

(** ** Pointers (RFC 6901), as [Value::pointer] reads them *)

Fixpoint split_on (c : ascii) (s : string) (acc : string) : list string :=
  match s with
  | EmptyString => [str_rev acc]
  | String a s' => if Ascii.eqb a c then str_rev acc :: split_on c s' EmptyString
                   else split_on c s' (String a acc)
  end.
(** [s.split(c)] *)
Definition split_char (c : ascii) (s : string) : list string := split_on c s EmptyString.

(** [~1] is [/] and [~0] is [~]; the first is replaced before the second. *)
Fixpoint unescape1 (s : string) : string :=
  match s with
  | String "~" (String "1" s') => String "/" (unescape1 s')
  | String a s' => String a (unescape1 s')
  | EmptyString => EmptyString
  end.
Fixpoint unescape0 (s : string) : string :=
  match s with
  | String "~" (String "0" s') => String "~" (unescape0 s')
  | String a s' => String a (unescape0 s')
  | EmptyString => EmptyString
  end.

Definition digit_of (a : ascii) : option Z :=
  if (48 <=? code a) && (code a <=? 57) then Some (code a - 48) else None.
Fixpoint parse_digits (s : string) (acc : Z) : option Z :=
  match s with
  | EmptyString => Some acc
  | String a s' => match digit_of a with Some d => parse_digits s' (acc * 10 + d) | None => None end
  end.
(** [str::parse::<uN>] for a type with maximum [max]: an optional [+], then at
    least one digit. *)
Definition parse_uint (max : Z) (s : string) : option Z :=
  let body := match s with String "+" s' => s' | _ => s end in
  if body =s "" then None else
  match parse_digits body 0 with
  | Some n => if n <=? max then Some n else None
  | None => None
  end.
Definition parse_index (s : string) : option nat :=
  if starts_with s "+" || (starts_with s "0" && negb (Nat.eqb (String.length s) 1)) then None
  else match parse_uint u64_max s with Some n => Some (Z.to_nat n) | None => None end.

Fixpoint pointer_tokens (v : Value) (tokens : list string) : option Value :=
  match tokens with
  | [] => Some v
  | t :: rest =>
      let t := unescape0 (unescape1 t) in
      match v with
      | VObject l => match obj_get l t with Some w => pointer_tokens w rest | None => None end
      | VArray l =>
          match parse_index t with
          | Some i => match l !! i with Some w => pointer_tokens w rest | None => None end
          | None => None
          end
      | _ => None
      end
  end.
Definition pointer (v : Value) (p : string) : option Value :=
  if p =s "" then Some v
  else if negb (starts_with p "/") then None
  else pointer_tokens v (tl (split_char "/" p)).

(** ** Text *)

Definition number_to_string (n : number) : string :=
  match n with PosInt z | NegInt z => pretty z | Float t => t end.
Definition bool_to_string (b : bool) : string := if b then "true" else "false".

(** ** The [json!] macro

    [jobj] builds an object from fields in the order of the source text; the map
    keeps them in key order and the last value of a repeated key.  An [Option] is
    its value or [null]. *)

Definition jobj (fields : list (string * Value)) : Value :=
  VObject (fold_left (fun acc kv => obj_insert acc (fst kv) (snd kv)) fields []).
Lemma obj_get_fold fields : forall acc key,
  obj_get (fold_left (fun acc kv => obj_insert acc (fst kv) (snd kv)) fields acc) key
  = match obj_get (rev fields) key with Some v => Some v | None => obj_get acc key end.
Proof.
  induction fields as [|[k v] fields IH] using rev_ind; intros acc key; [done|].
  rewrite fold_left_app, rev_unit. simpl. destruct (String.eqb_spec k key) as [->|Hne].
  - apply obj_get_insert_eq.
  - rewrite obj_get_insert_ne by congruence. apply IH.
Qed.
Lemma obj_get_app {A} (l1 l2 : list (string * A)) key :
  obj_get (l1 ++ l2) key = match obj_get l1 key with Some v => Some v | None => obj_get l2 key end.
Proof. induction l1 as [|[k v] l1 IH]; simpl; [done|]. by destruct (k =s key). Qed.
Lemma obj_get_not_in {A} (l : list (string * A)) key : ~ In key (map fst l) -> obj_get l key = None.
Proof.
  induction l as [|[k v] l IH]; simpl; [done|]. intros Hn.
  destruct (String.eqb_spec k key) as [->|]; [exfalso; auto|]. apply IH. auto.
Qed.
Lemma jobj_get fields key :
  List.NoDup (map fst fields) -> vget (jobj fields) key = obj_get fields key.
Proof.
  unfold jobj. simpl. rewrite obj_get_fold. intros Hn.
  assert (obj_get (rev fields) key = obj_get fields key) as ->; [|by destruct (obj_get fields key)].
  induction fields as [|[k v] fields IH]; [done|]. inversion Hn as [|? ? Hk Hn']; subst. simpl in *.
  rewrite obj_get_app, IH by done. simpl. destruct (String.eqb_spec k key) as [->|].
  - by rewrite (obj_get_not_in fields key Hk).
  - by destruct (obj_get fields key).
Qed.
(** Values that serde_json reads back from their text: those without floating-point numbers, which it
    reads to within a unit in the last place only, and nested less deep than its recursion limit. *)
Fixpoint exact_within (depth : nat) (v : Value) : bool :=
  match v, depth with
  | VNumber (Float _), _ => false
  | VArray items, S depth => forallb (exact_within depth) items
  | VObject fields, S depth => forallb (fun kv => exact_within depth (snd kv)) fields
  | VArray _, O | VObject _, O => false
  | _, _ => true
  end.
Definition exact_json (v : Value) : bool := exact_within 127 v.
Lemma exact_insert depth fields key v :
  forallb (fun kv => exact_within depth (snd kv)) fields = true -> exact_within depth v = true ->
  forallb (fun kv => exact_within depth (snd kv)) (obj_insert fields key v) = true.
Proof.
  intros Hf Hv. induction fields as [|[k x] fields IH]; simpl in *; [by rewrite Hv|].
  apply andb_true_iff in Hf as [Hx Hf]. repeat case_match; simpl; rewrite ?Hv, ?Hx; simpl; auto.
Qed.
Lemma exact_jobj depth fields :
  forallb (fun kv => exact_within depth (snd kv)) fields = true -> exact_within (S depth) (jobj fields) = true.
Proof.
  unfold jobj. simpl. intros H. induction fields as [|[k v] fields IH] using rev_ind; [done|].
  rewrite forallb_app in H. apply andb_true_iff in H as [H Hv]. simpl in Hv. rewrite andb_true_r in Hv.
  rewrite fold_left_app. simpl. apply exact_insert; auto.
Qed.
Definition jnum (n : Z) : Value := VNumber (if n <? 0 then NegInt n else PosInt n).
Definition jopt (o : option Value) : Value := default Null o.
Definition jstr (o : option string) : Value := jopt (VString <$> o).
Definition jstrs (l : list string) : Value := VArray (map VString l).

Module JsonNotations.
Coercion VString : string >-> Value.
Coercion VBool : bool >-> Value.
Coercion jnum : Z >-> Value.
Notation "k '~>' v" := (@pair string Value k v) (at level 55) : rust_scope.
Notation "'j{' '}'" := (jobj nil) (at level 0) : rust_scope.
Notation "'j{' x ; .. ; y '}'" :=
  (jobj (@cons (string * Value) x .. (@cons (string * Value) y nil) ..)) (at level 0) : rust_scope.
Notation "'j[' ']'" := (VArray nil) (at level 0) : rust_scope.
Notation "'j[' x ; .. ; y ']'" :=
  (VArray (@cons Value x .. (@cons Value y nil) ..)) (at level 0) : rust_scope.
End JsonNotations.

Example pointer_nested :
  pointer (VObject [("delivery", VObject [("voidLossTolerant", VBool true)])])
    "/delivery/voidLossTolerant" = Some (VBool true).
Proof. reflexivity. Qed.
Example trim_blank : is_blank (String "009" (String "194" (String "160" " "))) = true.
Proof. reflexivity. Qed.
Example split_dots : split_char "." "a.b.c" = ["a"; "b"; "c"].
Proof. reflexivity. Qed.

(** ** Decimal texts read back *)

Lemma digit_of_char (n : N) : (n < 10)%N -> digit_of (pretty_N_char n) = Some (Z.of_N n).
Proof.
  intros Hn. destruct n as [|p]; [done|].
  do 4 (destruct p as [p|p|]; try reflexivity; try lia).
Qed.

Lemma parse_digits_pretty (n : N) s :
  parse_digits (pretty_N_go n s) 0 = parse_digits s (Z.of_N n).
Proof.
  revert s. induction (N.lt_wf_0 n) as [n _ IH]. intros s.
  destruct (decide (n = 0%N)) as [->|Hn]; [by rewrite pretty_N_go_0|].
  rewrite pretty_N_go_step by lia. rewrite IH by (apply N.div_lt; lia). simpl.
  rewrite digit_of_char by (apply N.mod_lt; lia). f_equal.
  rewrite N2Z.inj_div, N2Z.inj_mod by lia.
  pose proof (Z.div_mod (Z.of_N n) (Z.of_N 10) ltac:(lia)). lia.
Qed.

Lemma pretty_uint_digits (n : Z) : 0 <= n -> parse_digits (pretty n) 0 = Some n.
Proof.
  intros Hn. destruct n as [|p|p]; [done| |lia].
  change (pretty (Z.pos p)) with (pretty (N.pos p)). unfold pretty, pretty_N.
  by rewrite decide_False, parse_digits_pretty by done.
Qed.

(** [n.to_string()] parses back to [n]. *)
Lemma parse_uint_pretty max n : 0 <= n <= max -> parse_uint max (pretty n) = Some n.
Proof.
  intros Hn. pose proof (pretty_uint_digits n ltac:(lia)) as Hd. unfold parse_uint.
  destruct (pretty n) as [|a s] eqn:E; [|destruct (decide (a = "+"%char)) as [->|Ha]].
  - injection Hd as <-. discriminate E.
  - discriminate Hd.
  - replace (match String a s with String "+" s' => s' | _ => String a s end)
      with (String a s) by (destruct a as [[] [] [] [] [] [] [] []]; done).
    rewrite Hd. change (String a s =s "") with false. cbn. by rewrite (proj2 (Z.leb_le n max)) by lia.
Qed.

Lemma parse_digits_nonneg s acc n : 0 <= acc -> parse_digits s acc = Some n -> 0 <= n.
Proof.
  revert acc. induction s as [|a s IH]; intros acc Ha; simpl; [intros [= <-]; done|].
  unfold digit_of. destruct (_ && _) eqn:E; [|done]. apply andb_true_iff in E as [E _].
  apply IH. lia.
Qed.

Lemma parse_uint_range max s n : parse_uint max s = Some n -> 0 <= n <= max.
Proof.
  unfold parse_uint. destruct (_ =s ""); [done|]. intros Hp.
  destruct (parse_digits _ 0) as [k|] eqn:Ek; [|done]. destruct (k <=? max) eqn:Hk; [|done].
  injection Hp as <-. apply parse_digits_nonneg in Ek; lia.
Qed.

(** ** A text for values

    Some encoding of values as texts with its inverse, to instantiate the text of
    values in examples. *)

Definition leaf : Type := unit + bool + (Z + Z + string) + string.
Fixpoint value_tree (v : Value) : gen_tree (leaf + string) :=
  match v with
  | Null => GenLeaf (inl (inl (inl (inl tt))))
  | VBool b => GenLeaf (inl (inl (inl (inr b))))
  | VNumber (PosInt n) => GenLeaf (inl (inl (inr (inl (inl n)))))
  | VNumber (NegInt n) => GenLeaf (inl (inl (inr (inl (inr n)))))
  | VNumber (Float t) => GenLeaf (inl (inl (inr (inr t))))
  | VString s => GenLeaf (inl (inr s))
  | VArray l => GenNode 0 (map value_tree l)
  | VObject l => GenNode 1 (map (fun kv => GenNode 2 [GenLeaf (inr (fst kv)); value_tree (snd kv)]) l)
  end.
Fixpoint tree_value (t : gen_tree (leaf + string)) : Value :=
  match t with
  | GenLeaf (inl (inl (inl (inl _)))) => Null
  | GenLeaf (inl (inl (inl (inr b)))) => VBool b
  | GenLeaf (inl (inl (inr (inl (inl n))))) => VNumber (PosInt n)
  | GenLeaf (inl (inl (inr (inl (inr n))))) => VNumber (NegInt n)
  | GenLeaf (inl (inl (inr (inr t)))) => VNumber (Float t)
  | GenLeaf (inl (inr s)) => VString s
  | GenLeaf (inr _) => Null
  | GenNode 0 l => VArray (map tree_value l)
  | GenNode _ l =>
      VObject (map (fun t =>
        match t with
        | GenNode _ [GenLeaf (inr k); t] => (k, tree_value t)
        | _ => ("", Null)
        end) l)
  end.
Lemma tree_value_tree v : tree_value (value_tree v) = v.
Proof.
  induction v as [|b|n|s|l IH|l IH] using Value_ind'; simpl; try done.
  - by destruct n.
  - f_equal. rewrite map_map. induction IH as [|x l Hx _ IHl]; simpl; [done|]. by rewrite Hx, IHl.
  - f_equal. rewrite map_map. induction IH as [|[k x] l Hx _ IHl]; simpl in *; [done|].
    by rewrite Hx, IHl.
Qed.
#[global] Instance Value_countable : Countable Value :=
  inj_countable' value_tree tree_value tree_value_tree.

Fixpoint bits_text (p : positive) : string :=
  match p with
  | xH => ""
  | xO p => String "0" (bits_text p)
  | xI p => String "1" (bits_text p)
  end.
Fixpoint text_bits (s : string) : positive :=
  match s with
  | EmptyString => xH
  | String a s => if (a =? "0")%char then xO (text_bits s) else xI (text_bits s)
  end.
Definition value_text (v : Value) : string := bits_text (encode v).
Definition value_of_text (s : string) : option Value := decode (text_bits s).
Lemma value_of_value_text v : value_of_text (value_text v) = Some v.
Proof.
  unfold value_of_text, value_text. assert (forall p, text_bits (bits_text p) = p) as ->.
  { intros p. induction p as [p IH|p IH|]; simpl; by rewrite ?IH. }
  apply decode_encode.
Qed.
