(* ===== verification/CanonicalJson.v ===== *)
(** * Canonical JSON

    The canonical text of a value that idempotency fingerprints
    ([catalog/registry/idempotency.rs]) and policy hashes
    ([authority/grants/policy_hash.rs]) are computed from, and the proof that it
    determines the value: no two values have the same canonical text
    ([canonical_json_injective]).  The literal of a string is [serde_json]'s and a
    parameter: it starts with a quote and can be told from what follows it. *)

From stdpp Require Import base strings list pretty sorting.
From Stdlib Require Import ZArith Ascii String Lia.
From S2P Require Import Prelude Json.

#[local] Open Scope Z_scope.

(** ** The writer *)

Section writer.
  Variable encode : string -> string.

(* SRC engine/catalog/registry/idempotency.rs:317-355 write_canonical_json *)
Fixpoint write_canonical_json (value : Value) : string :=
  match value with
  | Null => "null"
  | VBool b => if b then "true" else "false"
  | VNumber n => number_to_string n
  | VString s => encode s
  | VArray values => "[" +s join "," (map write_canonical_json values) +s "]"
  | VObject values =>
      "{" +s join "," (map (fun '(key, text) => encode key +s ":" +s text)
                 (merge_sort entry_le
                    (map (fun kv => (fst kv, write_canonical_json (snd kv))) values))) +s "}"
  end.
End writer.

(** ** Values as [serde_json] has them

    Integers of one constructor each, floats whose text is not that of an
    integer, and objects with distinct keys in order. *)

Definition numeric_char (a : ascii) : bool :=
  is_some (digit_of a) || (a =? "-")%char || (a =? "+")%char || (a =? ".")%char
  || (a =? "e")%char || (a =? "E")%char.
Definition starts_number (s : string) : bool :=
  match s with String a _ => is_some (digit_of a) || (a =? "-")%char | EmptyString => false end.
Definition float_text (t : string) : bool :=
  starts_number t && all_chars numeric_char t
  && negb (all_chars (fun a => is_some (digit_of a) || (a =? "-")%char) t).
Fixpoint strictly_sorted (keys : list string) : bool :=
  match keys with
  | [] => true
  | k :: rest => forallb (fun k' => str_leb k k' && negb (k =s k')) rest && strictly_sorted rest
  end.
Fixpoint serde_value (v : Value) : bool :=
  match v with
  | VNumber (PosInt n) => 0 <=? n
  | VNumber (NegInt n) => n <? 0
  | VNumber (Float t) => float_text t
  | VArray l => forallb serde_value l
  | VObject l => strictly_sorted (map fst l) && forallb (fun kv => serde_value (snd kv)) l
  | _ => true
  end.

(** ** Texts *)

(** What may follow a value. *)
Definition delimited (s : string) : Prop :=
  match s with
  | EmptyString => True
  | String a _ => a = ","%char \/ a = "]"%char \/ a = "}"%char
  end.

(** Texts of number characters end where something else begins. *)
Lemma numeric_prefix a b x y :
  all_chars numeric_char a = true -> all_chars numeric_char b = true ->
  delimited x -> delimited y -> a +s x = b +s y -> a = b /\ x = y.
Proof.
  assert (forall c t z, numeric_char c = true -> delimited z -> String c t <> z) as Hne.
  { intros c t [|d z] Hc Hz E; [done|]. injection E as <- _. destruct Hz as [->|[->| ->]]; done. }
  revert b. induction a as [|c a IH]; intros [|d b]; rewrite ?append_cons; cbn [all_chars].
  - done.
  - intros _ [Hd _]%andb_true_iff Hx _ E. symmetry in E. by apply Hne in E.
  - intros [Hc _]%andb_true_iff _ _ Hy E. by apply Hne in E.
  - intros [_ Ha]%andb_true_iff [_ Hb]%andb_true_iff Hx Hy [= -> E].
    destruct (IH b Ha Hb Hx Hy E) as [-> ->]. done.
Qed.

Lemma digits_of_parse s acc n :
  parse_digits s acc = Some n -> all_chars (fun a => is_some (digit_of a)) s = true.
Proof.
  revert acc. induction s as [|a s IH]; intros acc; simpl; [done|].
  destruct (digit_of a) as [d|] eqn:Hd; [|done]. intros Hp. by rewrite (IH _ Hp).
Qed.

Lemma all_chars_impl (f g : ascii -> bool) s :
  (forall a, f a = true -> g a = true) -> all_chars f s = true -> all_chars g s = true.
Proof.
  intros H. induction s as [|a s IH]; simpl; [done|]. rewrite !andb_true_iff. intuition.
Qed.

(** The text of an integer: a sign and digits. *)
Lemma integer_text (n : Z) :
  starts_number (pretty n) = true /\
  all_chars (fun a => is_some (digit_of a) || (a =? "-")%char) (pretty n) = true.
Proof.
  assert (forall m, 0 <= m -> starts_number (pretty m) = true /\
    all_chars (fun a => is_some (digit_of a) || (a =? "-")%char) (pretty m) = true) as Hpos.
  { intros m Hm. pose proof (pretty_uint_digits m Hm) as Hd.
    pose proof (digits_of_parse _ _ _ Hd) as Hall. split.
    - destruct (pretty m) as [|a s] eqn:E.
      + exfalso. simpl in Hd. injection Hd as <-. discriminate E.
      + simpl in Hall |- *. apply andb_true_iff in Hall as [-> _]. done.
    - eapply all_chars_impl; [|exact Hall]. intros a Ha. by rewrite Ha. }
  destruct n as [|p|p]; [by apply Hpos|by apply Hpos|].
  change (pretty (Z.neg p)) with (String "-" (pretty (Z.pos p))). split; [done|].
  simpl. by apply Hpos.
Qed.

Lemma number_text n :
  serde_value (VNumber n) = true ->
  starts_number (number_to_string n) = true /\ all_chars numeric_char (number_to_string n) = true.
Proof.
  assert (forall a, is_some (digit_of a) || (a =? "-")%char = true -> numeric_char a = true) as Hc.
  { intros a. unfold numeric_char. destruct (is_some _), (a =? "-")%char; done. }
  destruct n as [n|n|t]; simpl; intros Hw.
  - destruct (integer_text n) as [? H]. split; [done|]. exact (all_chars_impl _ _ _ Hc H).
  - destruct (integer_text n) as [? H]. split; [done|]. exact (all_chars_impl _ _ _ Hc H).
  - unfold float_text in Hw. apply andb_true_iff in Hw as [[? ?]%andb_true_iff _]. done.
Qed.

Lemma number_text_inj a b :
  serde_value (VNumber a) = true -> serde_value (VNumber b) = true ->
  number_to_string a = number_to_string b -> a = b.
Proof.
  assert (forall (n : Z) t, float_text t = true -> pretty n <> t) as Hf.
  { intros n t Ht <-. unfold float_text in Ht. apply andb_true_iff in Ht as [_ Ht].
    destruct (integer_text n) as [_ H]. by rewrite H in Ht. }
  destruct a as [n|n|t], b as [m|m|u]; simpl; intros Ha Hb E;
    try (apply (inj pretty) in E; subst); try (f_equal; done); try lia.
  - by apply Hf in E.
  - by apply Hf in E.
  - symmetry in E. by apply Hf in E.
  - symmetry in E. by apply Hf in E.
Qed.

(** ** Unique reading *)

(** A rendered item is read back uniquely in front of a delimiter. *)
Definition readable {A} (render : A -> string) (a : A) : Prop :=
  forall b x y, delimited x -> delimited y -> render a +s x = render b +s y -> a = b /\ x = y.
Definition starts_with_none (close : ascii) (s : string) : Prop :=
  match s with String a _ => a <> close /\ a <> ","%char | EmptyString => False end.

Lemma first_differs close s x t :
  starts_with_none close s -> s +s x <> String close t.
Proof. destruct s as [|a s]; [done|]. intros [Ha _]. rewrite append_cons. congruence. Qed.

(** A closed list of readable items separated by commas. *)
Lemma list_readable {A} (render : A -> string) (valid : A -> Prop) close l l' x y :
  delimited (String close "") -> close <> ","%char ->
  (forall a, valid a -> starts_with_none close (render a)) ->
  Forall valid l -> Forall valid l' ->
  Forall (fun a => forall b x y, valid b -> delimited x -> delimited y ->
            render a +s x = render b +s y -> a = b /\ x = y) l ->
  join "," (map render l) +s String close x = join "," (map render l') +s String close y ->
  l = l' /\ x = y.
Proof.
  intros Hclose Hcomma Hstart Hv Hv' Hr. revert l' Hv'.
  induction Hr as [|a l Ha Hr IH]; intros l' Hv' E; destruct Hv' as [|b l' Hb Hv'].
  - injection E as ->. done.
  - exfalso. symmetry in E. destruct l'; cbn [map join] in E; rewrite ?append_assoc in E;
      eapply first_differs in E; eauto.
  - exfalso. apply Forall_cons in Hv as [Hva _].
    destruct l; cbn [map join] in E; rewrite ?append_assoc in E; eapply first_differs in E; eauto.
  - apply Forall_cons in Hv as [Hva Hv]. specialize (IH Hv).
    assert (forall t, delimited (String close t)) as Hd by (intros t; exact Hclose).
    assert (forall t, delimited ("," +s t)) as Hc by (intros t; left; done).
    destruct l as [|a2 l], l' as [|b2 l']; cbn [map join] in E; rewrite ?append_assoc in E.
    + destruct (Ha b _ _ Hb (Hd _) (Hd _) E) as [-> [= ->]]. done.
    + destruct (Ha b _ _ Hb (Hd _) (Hc _) E) as [_ E']. injection E' as E' _. congruence.
    + destruct (Ha b _ _ Hb (Hc _) (Hd _) E) as [_ E']. injection E' as E' _. congruence.
    + destruct (Ha b _ _ Hb (Hc _) (Hc _) E) as [-> E'].
      apply str_app_inj_l in E'. destruct (IH (b2 :: l') Hv' E') as [-> ->]. done.
Qed.

Lemma strictly_sorted_spec keys :
  strictly_sorted keys = true -> StronglySorted (fun a b => str_leb a b = true /\ a <> b) keys.
Proof.
  induction keys as [|k keys IH]; simpl; [constructor|]. intros [Hk Hs]%andb_true_iff.
  constructor; [auto|]. apply Forall_forall. intros k' Hk'%list_elem_of_In.
  rewrite forallb_forall in Hk. apply Hk in Hk'. apply andb_true_iff in Hk' as [Hle Hne].
  split; [done|]. intros ->. by rewrite String.eqb_refl in Hne.
Qed.

(** Sorting entries whose keys are in order changes nothing. *)
Lemma merge_sort_entries {A} (l : list (string * A)) :
  strictly_sorted (map fst l) = true -> merge_sort entry_le l = l.
Proof.
  intros Hs%strictly_sorted_spec.
  assert (NoDup (map fst l)) as Hnd.
  { clear -Hs. remember (map fst l) as ks. clear Heqks. induction Hs as [|k ks Hs IH Hk]; constructor; [|done].
    intros Hin. rewrite Forall_forall in Hk. by destruct (Hk k Hin). }
  apply (StronglySorted_unique_strong entry_le).
  - intros [k x] [k' y] Hx Hy H1 H2. rewrite merge_sort_Permutation in Hx.
    unfold entry_le in *. simpl in *. pose proof (str_leb_antisym k k' H1 H2) as ->.
    f_equal. apply list_elem_of_lookup in Hx as [i Hi], Hy as [j Hj].
    assert (i = j) as ->; [|congruence].
    apply (NoDup_lookup (map fst l) i j k' Hnd).
    + change (map fst l) with (fst <$> l). by rewrite list_lookup_fmap, Hi.
    + change (map fst l) with (fst <$> l). by rewrite list_lookup_fmap, Hj.
  - apply (StronglySorted_merge_sort entry_le).
  - clear Hnd. induction l as [|[k x] l IH]; [constructor|]. cbn in Hs.
    apply StronglySorted_inv in Hs as [Hs Hk]. constructor; [auto|].
    apply Forall_forall. intros [k' y] Hin. rewrite Forall_forall in Hk.
    destruct (Hk k') as [? _]; [|done]. by apply (list_elem_of_fmap_2 fst) in Hin.
  - apply merge_sort_Permutation.
Qed.

Definition quote : ascii := ascii_of_N 34.

Section injective.
  Variable encode : string -> string.
  (** A string literal starts with a quote, and where it ends does not depend on
      what follows. *)
  Hypothesis literal_quote : forall s, exists t, encode s = String quote t.
  Hypothesis literal_ends : forall a b x y, encode a +s x = encode b +s y -> a = b /\ x = y.

#[local] Notation write := (write_canonical_json encode).

(** The first character tells the kind of a value. *)
Definition kind_of (v : Value) : nat :=
  match v with
  | Null => 0 | VBool true => 1 | VBool false => 2 | VNumber _ => 3 | VString _ => 4
  | VArray _ => 5 | VObject _ => 6
  end%nat.
Definition char_kind (a : ascii) : option nat :=
  if (a =? "n")%char then Some 0%nat
  else if (a =? "t")%char then Some 1%nat
  else if (a =? "f")%char then Some 2%nat
  else if is_some (digit_of a) || (a =? "-")%char then Some 3%nat
  else if (a =? quote)%char then Some 4%nat
  else if (a =? "[")%char then Some 5%nat
  else if (a =? "{")%char then Some 6%nat else None.

Lemma digit_kind a : is_some (digit_of a) || (a =? "-")%char = true -> char_kind a = Some 3%nat.
Proof. intros H. by destruct a as [[] [] [] [] [] [] [] []]. Qed.

Lemma write_first v :
  serde_value v = true -> exists a t, write v = String a t /\ char_kind a = Some (kind_of v).
Proof.
  intros Hv. destruct v as [|[]|n|s|l|l]; cbn [write_canonical_json kind_of]; try by repeat eexists.
  - destruct (number_text n Hv) as [Hs _].
    destruct (number_to_string n) as [|a t]; [done|]. exists a, t. split; [done|]. by apply digit_kind.
  - destruct (literal_quote s) as [t ->]. by exists quote, t.
Qed.

Lemma same_kind v w x y :
  serde_value v = true -> serde_value w = true -> write v +s x = write w +s y -> kind_of v = kind_of w.
Proof.
  intros Hv Hw E. destruct (write_first v Hv) as (a & t & Ea & Ka), (write_first w Hw) as (b & u & Eb & Kb).
  rewrite Ea, Eb, !append_cons in E. injection E as -> _. congruence.
Qed.

Lemma value_start close v :
  serde_value v = true -> close = "]"%char \/ close = "}"%char -> starts_with_none close (write v).
Proof.
  intros Hv Hc. destruct (write_first v Hv) as (a & t & -> & Ha).
  split; [destruct Hc as [-> | ->]|]; intros ->; done.
Qed.

(** An entry of an object and its text. *)
Definition write_entry (kv : string * Value) : string :=
  encode (fst kv) +s ":" +s write (snd kv).

Lemma write_object l :
  strictly_sorted (map fst l) = true ->
  write (VObject l) = "{" +s join "," (map write_entry l) +s "}".
Proof.
  intros Hs. cbn [write_canonical_json]. rewrite merge_sort_entries by (by rewrite map_map).
  rewrite map_map. done.
Qed.

Lemma entry_start kv : starts_with_none "}" (write_entry kv).
Proof. unfold write_entry. destruct (literal_quote (fst kv)) as [t ->]. split; done. Qed.

Lemma value_readable v :
  serde_value v = true -> forall w x y, serde_value w = true -> delimited x -> delimited y ->
  write v +s x = write w +s y -> v = w /\ x = y.
Proof.
  induction v as [|b|n|s|l IH|l IH] using Value_ind'; intros Hv w x y Hw Hx Hy E;
    pose proof (same_kind _ _ _ _ Hv Hw E) as Hk; destruct w as [|b'|m|u|l'|l'];
    try (by destruct b); try (by destruct b'); try done.
  - cbn in E. apply str_app_inj_l in E. done.
  - assert (b = b') as <- by (by destruct b, b'). apply str_app_inj_l in E. done.
  - destruct (number_text n Hv) as [_ Hn], (number_text m Hw) as [_ Hm].
    destruct (numeric_prefix _ _ _ _ Hn Hm Hx Hy E) as [Et ->].
    by rewrite (number_text_inj n m Hv Hw Et).
  - cbn in E. destruct (literal_ends _ _ _ _ E) as [-> ->]. done.
  - cbn [write_canonical_json] in E. rewrite !append_assoc in E. apply str_app_inj_l in E.
    cbn in Hv, Hw. rewrite forallb_forall in Hv, Hw.
    destruct (list_readable write (fun v => serde_value v = true) "]" l l' x y) as [-> ->]; try done.
    + right. by left.
    + intros a Ha. apply value_start; auto.
    + apply Forall_forall. intros a Ha%list_elem_of_In. auto.
    + apply Forall_forall. intros a Ha%list_elem_of_In. auto.
    + apply Forall_forall. intros a Ha. rewrite Forall_forall in IH. apply IH; [done|].
      apply Hv. by apply list_elem_of_In.
  - cbn in Hv, Hw. apply andb_true_iff in Hv as [Hs Hv], Hw as [Hs' Hw].
    rewrite !write_object, !append_assoc in E by done. apply str_app_inj_l in E.
    rewrite forallb_forall in Hv, Hw.
    destruct (list_readable write_entry (fun kv => serde_value (snd kv) = true) "}" l l' x y)
      as [-> ->]; try done.
    + by right; right.
    + intros a _. apply entry_start.
    + apply Forall_forall. intros a Ha%list_elem_of_In. auto.
    + apply Forall_forall. intros a Ha%list_elem_of_In. auto.
    + apply Forall_forall. intros [k v] Ha [k' v'] x' y' Hv' Hx' Hy' Ee. unfold write_entry in Ee.
      simpl in Ee. rewrite !append_assoc in Ee. apply literal_ends in Ee as [-> Ee].
      apply str_app_inj_l in Ee. rewrite Forall_forall in IH.
      destruct (IH (k', v) Ha (Hv (k', v) (proj1 (list_elem_of_In _ _) Ha)) v' x' y' Hv' Hx' Hy' Ee)
        as [E1 ->]. simpl in E1. by subst.
Qed.

(** No two values have the same canonical text. *)
Lemma canonical_json_injective v w :
  serde_value v = true -> serde_value w = true -> write v = write w -> v = w.
Proof.
  intros Hv Hw E. destruct (value_readable v Hv w "" "") as [? _]; try done.
  by rewrite !append_nil_r.
Qed.
End injective.

(** A literal with these properties: quoted, with a mark before every character
    so that no quote inside is taken for the end. *)
Fixpoint marked (s : string) : string :=
  match s with
  | EmptyString => String quote ""
  | String a s => String "\" (String a (marked s))
  end.
Definition marked_literal (s : string) : string := String quote (marked s).
Lemma marked_literal_quote s : exists t, marked_literal s = String quote t.
Proof. by exists (marked s). Qed.
Lemma marked_literal_ends a b x y :
  marked_literal a +s x = marked_literal b +s y -> a = b /\ x = y.
Proof.
  unfold marked_literal. rewrite !append_cons. intros [= E]. revert b E.
  induction a as [|c a IH]; intros [|d b]; cbn [marked]; rewrite ?append_cons; try done.
  - intros [= E]. change (x = y) in E. by subst.
  - intros [= -> E]. by destruct (IH b E) as [-> ->].
Qed.
