(* ===== verification/Storage.v ===== *)
(** * Payload storage

    [shared/storage]: the content-addressed blob table, the payload references
    that own its blobs, inline and out-of-line JSON columns, retention, and the
    blob repository of the session store on top of them.  A JSON column of the
    SQLite stores is a text made by [store_json_value] and read back by
    [resolve_stored_json_value]: the JSON itself up to the inline threshold, and
    above it an envelope that names a blob.

    Bytes are strings.  SHA-256, zstd, the JSON text of a value and its parser,
    RFC 3339 texts and the calendar arithmetic of chrono are parameters.  A SQL
    statement fails on the constraints of its table only; an [anyhow] error is its
    outermost context. *)

From stdpp Require Import base gmap strings list pretty.
From Stdlib Require Import ZArith Ascii String Lia.
From S2P Require Import Prelude Json.
Import JsonNotations.

#[local] Open Scope Z_scope.

Definition Res (A : Type) : Type := result string A.

(** ** Text of bytes

    The characters of a byte string as [String::from_utf8_lossy] finds them: a
    character is its encoding, [None] is a maximal invalid part. *)

Definition byte_in (lo hi : Z) (a : ascii) : bool := (lo <=? code a) && (code a <=? hi).
Definition continuation : ascii -> bool := byte_in 128 191.
(** The range of the second byte after a leading byte of three or four. *)
Definition second_of_three (a b : ascii) : bool :=
  if code a =? 224 then byte_in 160 191 b
  else if code a =? 237 then byte_in 128 159 b else continuation b.
Definition second_of_four (a b : ascii) : bool :=
  if code a =? 240 then byte_in 144 191 b
  else if code a =? 244 then byte_in 128 143 b else continuation b.

Fixpoint utf8_chars (s : string) : list (option string) :=
  match s with
  | EmptyString => []
  | String a t =>
      if code a <=? 127 then Some (String a "") :: utf8_chars t
      else if byte_in 194 223 a then
        match t with
        | String b u =>
            if continuation b then Some (String a (String b "")) :: utf8_chars u
            else None :: utf8_chars t
        | _ => [None]
        end
      else if byte_in 224 239 a then
        match t with
        | String b u =>
            if second_of_three a b then
              match u with
              | String c v =>
                  if continuation c then Some (String a (String b (String c ""))) :: utf8_chars v
                  else None :: utf8_chars u
              | _ => [None]
              end
            else None :: utf8_chars t
        | _ => [None]
        end
      else if byte_in 240 244 a then
        match t with
        | String b u =>
            if second_of_four a b then
              match u with
              | String c v =>
                  if continuation c then
                    match v with
                    | String d w =>
                        if continuation d
                        then Some (String a (String b (String c (String d "")))) :: utf8_chars w
                        else None :: utf8_chars v
                    | _ => [None]
                    end
                  else None :: utf8_chars u
              | _ => [None]
              end
            else None :: utf8_chars t
        | _ => [None]
        end
      else None :: utf8_chars t
  end.

Definition replacement : string :=
  String (ascii_of_N 239) (String (ascii_of_N 191) (String (ascii_of_N 189) "")).
Definition chars_text (cs : list (option string)) : string :=
  String.concat "" (map (default replacement) cs).
Definition from_utf8 (s : string) : option string :=
  if forallb is_some (utf8_chars s) then Some s else None.

(* SRC shared/storage/mod.rs:451-458 payload_preview *)
Definition payload_preview (payload : string) (max_chars : nat) : string :=
  let text := utf8_chars payload in
  chars_text (take max_chars text)
    +s (if (max_chars <? List.length text)%nat then "..." else "").

(** ** Data *)

(* SRC shared/storage/mod.rs:57-57! DEFAULT_MAX_INLINE_PAYLOAD_BYTES *)
Definition DEFAULT_MAX_INLINE_PAYLOAD_BYTES : Z := 8 * 1024.
(* SRC shared/storage/mod.rs:62-62! ZSTD_COMPRESSION_THRESHOLD_BYTES *)
Definition ZSTD_COMPRESSION_THRESHOLD_BYTES : Z := 1024.
(* SRC shared/storage/mod.rs:68-68! PAYLOAD_REF_ENVELOPE_KEY *)
Definition PAYLOAD_REF_ENVELOPE_KEY : string := "__tronPayloadRef".
(* SRC shared/storage/mod.rs:50-50! CURRENT_STORAGE_GENERATION *)
Definition CURRENT_STORAGE_GENERATION : string := "modular-engine-v4".

Definition byte_len (s : string) : Z := Z.of_nat (String.length s).
(** [i64::try_from(n).unwrap_or(i64::MAX)] of a length. *)
Definition clamp_i64 (n : Z) : Z := Z.min n i64_max.

(* SRC domains/session/event_store/sqlite/row_types.rs:160-181 BlobRow *)
Record BlobRow := {
  bl_id : string;
  bl_hash : string;
  bl_content : string;
  bl_mime_type : string;
  bl_uncompressed_size : Z;
  bl_size_compressed : Z;
  bl_compression : string;
  bl_created_at : instant;
  bl_ref_count : Z
}.

(** A row of [storage_payload_refs]. *)
(* SRC shared/storage/schema.rs:85-103! ensure_storage_schema_inner *)
Record PayloadRefRow := {
  pr_id : string;
  pr_owner_kind : string;
  pr_owner_id : string;
  pr_field_name : string;
  pr_payload_hash : string;
  pr_payload_blob_id : option string;
  pr_payload_preview : string;
  pr_payload_size_bytes : Z;
  pr_payload_kind : string;
  pr_redaction_level : string;
  pr_retention_class : string;
  pr_trace_id : option string;
  pr_session_id : option string;
  pr_workspace_id : option string;
  pr_expires_at : option string;
  pr_created_at : instant
}.

(** A row of [logs], the columns that retention reads. *)
Record LogRow := { lo_component : string; lo_level : string; lo_timestamp : string }.
(** A row of [storage_retention_runs]. *)
(* SRC shared/storage/schema.rs:65-73! ensure_storage_schema_inner *)
Record RetentionRunRow := {
  rn_started_at : string;
  rn_finished_at : string;
  rn_rows_deleted : Z;
  rn_blobs_deleted : Z;
  rn_notes : string
}.

(** The tables; [logs] belongs to another schema and may be missing. *)
Record StorageTables := {
  st_generation : option string;
  st_blobs : list BlobRow;
  st_refs : list PayloadRefRow;
  st_logs : option (list LogRow);
  st_retention_runs : list RetentionRunRow
}.

(* SRC shared/storage/mod.rs:240-261 StoredPayloadRef *)
Record StoredPayloadRef := {
  sp_payload_ref_id : string;
  sp_payload_hash : string;
  sp_payload_blob_id : option string;
  sp_payload_preview : string;
  sp_payload_size_bytes : Z;
  sp_payload_kind : string;
  sp_redaction_level : string;
  sp_retention_class : string
}.
(** The derived [Serialize], with [skip_serializing_if] on the blob id. *)
Definition payload_ref_value (r : StoredPayloadRef) : Value :=
  jobj ([("payloadRefId", VString (sp_payload_ref_id r));
         ("payloadHash", VString (sp_payload_hash r))]
        ++ match sp_payload_blob_id r with
           | Some id => [("payloadBlobId", VString id)]
           | None => []
           end
        ++ [("payloadPreview", VString (sp_payload_preview r));
            ("payloadSizeBytes", jnum (sp_payload_size_bytes r));
            ("payloadKind", VString (sp_payload_kind r));
            ("redactionLevel", VString (sp_redaction_level r));
            ("retentionClass", VString (sp_retention_class r))]).
Definition envelope (r : StoredPayloadRef) : Value :=
  jobj [(PAYLOAD_REF_ENVELOPE_KEY, payload_ref_value r)].

(* SRC shared/storage/mod.rs:263-288 StorePayloadOptions *)
Record StorePayloadOptions := {
  so_owner_kind : string;
  so_owner_id : string;
  so_field_name : string;
  so_payload_kind : string;
  so_redaction_level : string;
  so_retention_class : string;
  so_trace_id : option string;
  so_session_id : option string;
  so_workspace_id : option string;
  so_expires_at : option string;
  so_inline_threshold : Z
}.
(* SRC shared/storage/mod.rs:293-312! StorePayloadOptions::new *)
Definition options_new (owner_kind owner_id field_name retention_class : string)
  : StorePayloadOptions :=
  {| so_owner_kind := owner_kind; so_owner_id := owner_id; so_field_name := field_name;
     so_payload_kind := "application/json"; so_redaction_level := "redacted";
     so_retention_class := retention_class; so_trace_id := None; so_session_id := None;
     so_workspace_id := None; so_expires_at := None;
     so_inline_threshold := DEFAULT_MAX_INLINE_PAYLOAD_BYTES |}.
(* SRC shared/storage/mod.rs:316-326! StorePayloadOptions::with_scope *)
Definition options_with_scope (trace_id session_id workspace_id : option string)
    (o : StorePayloadOptions) : StorePayloadOptions :=
  {| so_owner_kind := so_owner_kind o; so_owner_id := so_owner_id o;
     so_field_name := so_field_name o; so_payload_kind := so_payload_kind o;
     so_redaction_level := so_redaction_level o; so_retention_class := so_retention_class o;
     so_trace_id := trace_id; so_session_id := session_id; so_workspace_id := workspace_id;
     so_expires_at := so_expires_at o; so_inline_threshold := so_inline_threshold o |}.

(* SRC shared/storage/mod.rs:357-368 EncodedBlobContent *)
Record EncodedBlobContent := {
  en_content : string;
  en_compression : string;
  en_uncompressed_size : Z;
  en_size_compressed : Z
}.

(** ** Table access *)

Definition set_st_blobs (b : list BlobRow) (s : StorageTables) : StorageTables :=
  {| st_generation := st_generation s; st_blobs := b; st_refs := st_refs s; st_logs := st_logs s;
     st_retention_runs := st_retention_runs s |}.
Definition set_st_refs (r : list PayloadRefRow) (s : StorageTables) : StorageTables :=
  {| st_generation := st_generation s; st_blobs := st_blobs s; st_refs := r; st_logs := st_logs s;
     st_retention_runs := st_retention_runs s |}.
Definition set_st_generation (g : string) (s : StorageTables) : StorageTables :=
  {| st_generation := Some g; st_blobs := st_blobs s; st_refs := st_refs s; st_logs := st_logs s;
     st_retention_runs := st_retention_runs s |}.

(** [UPDATE blobs SET ref_count = .. WHERE id = ?1] *)
Definition set_ref_count (f : Z -> Z) (b : BlobRow) : BlobRow :=
  {| bl_id := bl_id b; bl_hash := bl_hash b; bl_content := bl_content b;
     bl_mime_type := bl_mime_type b; bl_uncompressed_size := bl_uncompressed_size b;
     bl_size_compressed := bl_size_compressed b; bl_compression := bl_compression b;
     bl_created_at := bl_created_at b; bl_ref_count := f (bl_ref_count b) |}.
Definition count_blob (id : string) (f : Z -> Z) (s : StorageTables) : StorageTables :=
  set_st_blobs (map (fun b => if bl_id b =s id then set_ref_count f b else b) (st_blobs s)) s.

Definition blob_by_id (id : string) (s : StorageTables) : option BlobRow :=
  List.find (fun b => bl_id b =s id) (st_blobs s).
Definition blob_by_hash (hash : string) (s : StorageTables) : option BlobRow :=
  List.find (fun b => bl_hash b =s hash) (st_blobs s).
Definition owns (kind id field : string) (r : PayloadRefRow) : bool :=
  (pr_owner_kind r =s kind) && (pr_owner_id r =s id) && (pr_field_name r =s field).
Definition ref_by_owner (kind id field : string) (s : StorageTables) : option PayloadRefRow :=
  List.find (owns kind id field) (st_refs s).
(** [EXISTS (SELECT 1 FROM storage_payload_refs WHERE payload_blob_id = blobs.id)] *)
Definition referenced (refs : list PayloadRefRow) (b : BlobRow) : bool :=
  existsb (fun r => bool_decide (pr_payload_blob_id r = Some (bl_id b))) refs.

Section operations.
  Variable hex_sha256 : string -> string.
  (** [zstd::bulk::compress(content, 3)] and [decompress(content, capacity)] *)
  Variable zstd_compress : string -> option string.
  Variable zstd_decompress : string -> Z -> option string.
  Variable to_json : Value -> string.
  Variable from_json : string -> option Value.
  Variable rfc3339 : instant -> string.

(** ** Schema *)

(* SRC shared/storage/schema.rs:240-258 verify_payload_blob_integrity *)
Definition dangling (s : StorageTables) : list PayloadRefRow :=
  List.filter (fun r =>
    match pr_payload_blob_id r with
    | Some id => negb (is_some (blob_by_id id s))
    | None => false
    end) (st_refs s).
(* SRC shared/storage/schema.rs:240-258 verify_payload_blob_integrity *)
Definition verify_payload_blob_integrity (s : StorageTables) : Res unit :=
  let n := Z.of_nat (List.length (dangling s)) in
  if 0 <? n
  then Err ("storage payload integrity failed: " +s pretty n
              +s " payload ref(s) point at missing blobs")
  else Ok tt.

(** The tables of the model have the columns of the current schema, so creating
    and verifying them changes nothing. *)
(* SRC shared/storage/schema.rs:25-148! ensure_storage_schema *)
Definition ensure_storage_schema (s : StorageTables) : Res StorageTables :=
  let? _ := verify_payload_blob_integrity s in
  match st_generation s with
  | Some generation =>
      if generation =s CURRENT_STORAGE_GENERATION then Ok s
      else Err ("storage generation marker mismatch: found " +s generation +s ", expected "
                  +s CURRENT_STORAGE_GENERATION)
  | None => Ok (set_st_generation CURRENT_STORAGE_GENERATION s)
  end.

(** ** Blobs *)

(* SRC shared/storage/payloads.rs:53-73 encode_blob_content *)
Definition encode_blob_content (content : string) : EncodedBlobContent :=
  let plain := {| en_content := content; en_compression := "none";
                  en_uncompressed_size := clamp_i64 (byte_len content);
                  en_size_compressed := clamp_i64 (byte_len content) |} in
  if ZSTD_COMPRESSION_THRESHOLD_BYTES <=? byte_len content
  then match zstd_compress content with
       | Some compressed =>
           if byte_len compressed <? byte_len content
           then {| en_content := compressed; en_compression := "zstd";
                   en_uncompressed_size := clamp_i64 (byte_len content);
                   en_size_compressed := clamp_i64 (byte_len compressed) |}
           else plain
       | None => plain
       end
  else plain.

(** [usize::try_from(size).unwrap_or(usize::MAX)] *)
Definition capacity (original_size : Z) : Z :=
  if original_size <? 0 then u64_max else original_size.
(* SRC shared/storage/payloads.rs:75-90 decode_blob_content *)
Definition decode_blob_content (content compression : string) (original_size : Z) : Res string :=
  if compression =s "none" then Ok content
  else if compression =s "zstd"
  then ok_or (zstd_decompress content (capacity original_size)) "failed to decode zstd blob"
  else Err ("unsupported blob compression " +s compression).

Definition decode_blob (b : BlobRow) : Res string :=
  decode_blob_content (bl_content b) (bl_compression b) (bl_uncompressed_size b).

(** [uuid] is the generated id of a blob that is new. *)
(* SRC shared/storage/payloads.rs:13-51 store_content_blob *)
Definition store_content_blob (now : instant) (uuid content mime_type : string)
    (s : StorageTables) : Res string * StorageTables :=
  let hash := hex_sha256 content in
  match blob_by_hash hash s with
  | Some existing =>
      (Ok (bl_id existing), count_blob (bl_id existing) (fun n => n + 1) s)
  | None =>
      let id := "blob_" +s uuid in
      let encoded := encode_blob_content content in
      if is_some (blob_by_id id s) then (Err "failed to store payload blob", s)
      else (Ok id,
            set_st_blobs (st_blobs s ++
              [{| bl_id := id; bl_hash := hash; bl_content := en_content encoded;
                  bl_mime_type := mime_type;
                  bl_uncompressed_size := en_uncompressed_size encoded;
                  bl_size_compressed := en_size_compressed encoded;
                  bl_compression := en_compression encoded; bl_created_at := now;
                  bl_ref_count := 1 |}]) s)
  end.

(* SRC shared/storage/payloads.rs:185-195 blob_hash_matches *)
Definition blob_hash_matches (blob_id expected_hash : string) (s : StorageTables) : bool :=
  match blob_by_id blob_id s with
  | Some b => bl_hash b =s expected_hash
  | None => false
  end.

(** ** Payload references *)

(** The row of the [INSERT]. *)
(* SRC shared/storage/payloads.rs:126-163! store_owned_payload_ref *)
Definition ref_row (now : instant) (id payload : string) (blob_id : option string)
    (o : StorePayloadOptions) : PayloadRefRow :=
  {| pr_id := id; pr_owner_kind := so_owner_kind o; pr_owner_id := so_owner_id o;
     pr_field_name := so_field_name o; pr_payload_hash := hex_sha256 payload;
     pr_payload_blob_id := blob_id; pr_payload_preview := payload_preview payload 512;
     pr_payload_size_bytes := clamp_i64 (byte_len payload); pr_payload_kind := so_payload_kind o;
     pr_redaction_level := so_redaction_level o; pr_retention_class := so_retention_class o;
     pr_trace_id := so_trace_id o; pr_session_id := so_session_id o;
     pr_workspace_id := so_workspace_id o; pr_expires_at := so_expires_at o;
     pr_created_at := now |}.
(** [DO UPDATE SET ..]: the stored row keeps its id, owner and creation time. *)
(* SRC shared/storage/payloads.rs:132-143! store_owned_payload_ref *)
Definition ref_update (new old : PayloadRefRow) : PayloadRefRow :=
  {| pr_id := pr_id old; pr_owner_kind := pr_owner_kind old; pr_owner_id := pr_owner_id old;
     pr_field_name := pr_field_name old; pr_payload_hash := pr_payload_hash new;
     pr_payload_blob_id := pr_payload_blob_id new; pr_payload_preview := pr_payload_preview new;
     pr_payload_size_bytes := pr_payload_size_bytes new; pr_payload_kind := pr_payload_kind new;
     pr_redaction_level := pr_redaction_level new; pr_retention_class := pr_retention_class new;
     pr_trace_id := pr_trace_id new; pr_session_id := pr_session_id new;
     pr_workspace_id := pr_workspace_id new; pr_expires_at := pr_expires_at new;
     pr_created_at := pr_created_at old |}.

(** The blob a payload goes to: none up to the threshold, the blob of the
    existing reference when it has the content already, or a stored one. *)
(* SRC shared/storage/payloads.rs:110-120! store_owned_payload_ref *)
Definition place_payload (now : instant) (uuid payload : string) (o : StorePayloadOptions)
    (existing : option PayloadRefRow) (s : StorageTables) : Res (option string) * StorageTables :=
  if so_inline_threshold o <? byte_len payload then
    match existing ≫= pr_payload_blob_id with
    | Some existing_blob_id =>
        if blob_hash_matches existing_blob_id (hex_sha256 payload) s
        then (Ok (Some existing_blob_id), s)
        else let '(id, s) := store_content_blob now uuid payload (so_payload_kind o) s in
             (let? id := id in Ok (Some id), s)
    | None =>
        let '(id, s) := store_content_blob now uuid payload (so_payload_kind o) s in
        (let? id := id in Ok (Some id), s)
    end
  else (Ok None, s).

(** [INSERT .. ON CONFLICT(owner_kind, owner_id, field_name) DO UPDATE] *)
(* SRC shared/storage/payloads.rs:126-163! store_owned_payload_ref *)
Definition upsert_ref (row : PayloadRefRow) (s : StorageTables) : Res StorageTables :=
  let owner := owns (pr_owner_kind row) (pr_owner_id row) (pr_field_name row) in
  if existsb owner (st_refs s)
  then Ok (set_st_refs (map (fun r => if owner r then ref_update row r else r) (st_refs s)) s)
  else if existsb (fun r => pr_id r =s pr_id row) (st_refs s)
  then Err "failed to record payload ref owner"
  else Ok (set_st_refs (st_refs s ++ [row]) s).

(** The count of the blob that the reference gave up. *)
(* SRC shared/storage/payloads.rs:164-172! store_owned_payload_ref *)
Definition leave_blob (existing : option PayloadRefRow) (blob_id : option string)
    (s : StorageTables) : StorageTables :=
  match existing ≫= pr_payload_blob_id with
  | Some old => if bool_decide (blob_id = Some old) then s
                else count_blob old (fun n => if 0 <? n then n - 1 else 0) s
  | None => s
  end.

(** [blob_uuid] and [ref_uuid] are the generated ids. *)
(* SRC shared/storage/payloads.rs:92-183 store_owned_payload_ref *)
Definition store_owned_payload_ref (now : instant) (blob_uuid ref_uuid payload : string)
    (o : StorePayloadOptions) (s : StorageTables) : Res StoredPayloadRef * StorageTables :=
  match ensure_storage_schema s with
  | Err e => (Err e, s)
  | Ok s =>
      let existing := ref_by_owner (so_owner_kind o) (so_owner_id o) (so_field_name o) s in
      match place_payload now blob_uuid payload o existing s with
      | (Err e, s) => (Err e, s)
      | (Ok blob_id, s) =>
          let id := default ("payload_ref_" +s ref_uuid) (pr_id <$> existing) in
          match upsert_ref (ref_row now id payload blob_id o) s with
          | Err e => (Err e, s)
          | Ok s =>
              (Ok {| sp_payload_ref_id := id; sp_payload_hash := hex_sha256 payload;
                     sp_payload_blob_id := blob_id; sp_payload_preview := payload_preview payload 512;
                     sp_payload_size_bytes := byte_len payload;
                     sp_payload_kind := so_payload_kind o;
                     sp_redaction_level := so_redaction_level o;
                     sp_retention_class := so_retention_class o |},
               leave_blob existing blob_id s)
          end
      end
  end.

(* SRC shared/storage/payloads.rs:208-221 store_json_bytes *)
Definition store_json_bytes (now : instant) (blob_uuid ref_uuid json_bytes : string)
    (o : StorePayloadOptions) (s : StorageTables) : Res string * StorageTables :=
  let '(reference, s) := store_owned_payload_ref now blob_uuid ref_uuid json_bytes o s in
  (let? reference := reference in
   if byte_len json_bytes <=? so_inline_threshold o
   then ok_or (from_utf8 json_bytes) "stored JSON bytes were not UTF-8"
   else Ok (to_json (envelope reference)), s).
(* SRC shared/storage/payloads.rs:197-206 store_json_value *)
Definition store_json_value (now : instant) (blob_uuid ref_uuid : string) (value : Value)
    (o : StorePayloadOptions) (s : StorageTables) : Res string * StorageTables :=
  store_json_bytes now blob_uuid ref_uuid (to_json value) o s.

(** The blob that a value names when it is taken for an envelope. *)
(* SRC shared/storage/payloads.rs:287-296! resolve_payload_ref_envelope *)
Definition envelope_blob_id (value : Value) : option string :=
  match vget value PAYLOAD_REF_ENVELOPE_KEY with
  | Some reference =>
      match vget reference "payloadBlobId" with
      | Some id => as_str id
      | None => vget reference "payload_blob_id" ≫= as_str
      end
  | None => None
  end.
(* SRC shared/storage/payloads.rs:283-305 resolve_payload_ref_envelope *)
Definition resolve_payload_ref_envelope (stored_json : string) (s : StorageTables)
  : Res (option string) :=
  match from_json stored_json ≫= envelope_blob_id with
  | None => Ok None
  | Some blob_id =>
      match blob_by_id blob_id s with
      | None => Err ("failed to load payload blob " +s blob_id)
      | Some b => let? bytes := decode_blob b in Ok (Some bytes)
      end
  end.
(* SRC shared/storage/payloads.rs:223-233 resolve_stored_json_value *)
Definition resolve_stored_json_value (stored_json : string) (s : StorageTables) : Res Value :=
  let? bytes := resolve_payload_ref_envelope stored_json s in
  match bytes with
  | Some bytes => ok_or (from_json bytes) "failed to parse blob-backed JSON payload"
  | None => ok_or (from_json stored_json) "failed to parse inline JSON payload"
  end.
(* SRC shared/storage/payloads.rs:235-241 resolve_stored_json_string *)
Definition resolve_stored_json_string (stored_json : string) (s : StorageTables) : Res string :=
  let? bytes := resolve_payload_ref_envelope stored_json s in
  match bytes with
  | Some bytes => ok_or (from_utf8 bytes) "blob-backed JSON payload was not UTF-8"
  | None => Ok stored_json
  end.

(** [INSERT OR IGNORE]: a row with the id or the owner is left as it is. *)
(* SRC shared/storage/payloads.rs:243-281 register_existing_blob_owner *)
Definition register_existing_blob_owner (now : instant) (uuid blob_id owner_kind field_name
    retention_class : string) (s : StorageTables) : Res unit * StorageTables :=
  match ensure_storage_schema s with
  | Err e => (Err e, s)
  | Ok s =>
      match blob_by_id blob_id s with
      | None => (Err "failed to lookup existing blob owner payload", s)
      | Some b =>
          let row :=
            {| pr_id := "payload_ref_" +s uuid; pr_owner_kind := owner_kind;
               pr_owner_id := blob_id; pr_field_name := field_name;
               pr_payload_hash := bl_hash b; pr_payload_blob_id := Some blob_id;
               pr_payload_preview := ""; pr_payload_size_bytes := bl_uncompressed_size b;
               pr_payload_kind := bl_mime_type b; pr_redaction_level := "binary";
               pr_retention_class := retention_class; pr_trace_id := None;
               pr_session_id := None; pr_workspace_id := None; pr_expires_at := None;
               pr_created_at := now |} in
          if existsb (fun r => (pr_id r =s pr_id row) || owns owner_kind blob_id field_name r)
               (st_refs s)
          then (Ok tt, s)
          else (Ok tt, set_st_refs (st_refs s ++ [row]) s)
      end
  end.

(** ** Retention *)

(** SQLite compares text byte by byte. *)
Definition text_lt (a b : string) : bool := negb (str_leb b a).
(** [component LIKE 'ios.%' AND lower(level) IN ('trace', 'debug') AND timestamp < ?1] *)
(* SRC shared/storage/maintenance.rs:141-143! retention_run *)
Definition verbose_log (cutoff : string) (l : LogRow) : bool :=
  starts_with (str_to_ascii_lowercase (lo_component l)) "ios."
  && ((str_to_ascii_lowercase (lo_level l) =s "trace")
      || (str_to_ascii_lowercase (lo_level l) =s "debug"))
  && text_lt (lo_timestamp l) cutoff.
(* SRC shared/storage/maintenance.rs:152-154! retention_run *)
Definition expired_ref (now : string) (r : PayloadRefRow) : bool :=
  ((pr_retention_class r =s "diagnostic_verbose") || (pr_retention_class r =s "pending"))
  && match pr_expires_at r with Some e => text_lt e now | None => false end.

Definition count_where {A} (f : A -> bool) (l : list A) : Z :=
  Z.of_nat (List.length (List.filter f l)).
Definition drop_where {A} (f : A -> bool) (l : list A) : list A :=
  List.filter (fun x => negb (f x)) l.

(* SRC shared/storage/maintenance.rs:211-224 count_verbose_logs *)
Definition count_verbose_logs (cutoff : string) (s : StorageTables) : Z :=
  match st_logs s with Some logs => count_where (verbose_log cutoff) logs | None => 0 end.
(* SRC shared/storage/maintenance.rs:226-239 count_expired_payload_refs *)
Definition count_expired_payload_refs (now : string) (s : StorageTables) : Z :=
  count_where (expired_ref now) (st_refs s).
(* SRC shared/storage/maintenance.rs:241-260 count_unowned_blobs *)
Definition count_unowned_blobs (s : StorageTables) : Z :=
  count_where (fun b => negb (referenced (st_refs s) b)) (st_blobs s).

(* SRC shared/storage/mod.rs:134-152 StorageRetentionReport *)
Record StorageRetentionReport := {
  rp_dry_run : bool;
  rp_verbose_retention_days : Z;
  rp_rows_deleted : Z;
  rp_blobs_deleted : Z;
  rp_payload_refs_deleted : Z;
  rp_started_at : string;
  rp_finished_at : string
}.

(** The transaction: logs, expired references, and then the blobs without a
    reference. *)
(* SRC shared/storage/maintenance.rs:133-188! retention_run *)
Definition retention_transaction (now cutoff : string) (days : Z) (s : StorageTables)
  : Z * Z * Z * StorageTables :=
  let rows_deleted := count_verbose_logs cutoff s in
  let logs := drop_where (verbose_log cutoff) <$> st_logs s in
  let expired := count_expired_payload_refs now s in
  let refs := drop_where (expired_ref now) (st_refs s) in
  let blobs_deleted := count_where (fun b => negb (referenced refs b)) (st_blobs s) in
  let blobs := List.filter (referenced refs) (st_blobs s) in
  (rows_deleted, expired, blobs_deleted,
   {| st_generation := st_generation s; st_blobs := blobs; st_refs := refs; st_logs := logs;
      st_retention_runs := st_retention_runs s ++
        [{| rn_started_at := now; rn_finished_at := now; rn_rows_deleted := rows_deleted;
            rn_blobs_deleted := blobs_deleted;
            rn_notes := "verbose_retention_days=" +s pretty days +s ";expired_refs_deleted="
                          +s pretty expired |}] |}).

(** [cutoff] is the instant that lies the given days before [now]; chrono's
    subtraction panics where it has no such instant, which the caller of this
    definition excludes.  The checkpoint after the commit changes no table. *)
(* SRC shared/storage/maintenance.rs:103-209 retention_run *)
Definition retention_run (now cutoff : instant) (dry_run : bool) (verbose_retention_days : Z)
    (s : StorageTables) : Res StorageRetentionReport * StorageTables :=
  let report rows refs blobs :=
    {| rp_dry_run := dry_run; rp_verbose_retention_days := verbose_retention_days;
       rp_rows_deleted := rows; rp_blobs_deleted := blobs; rp_payload_refs_deleted := refs;
       rp_started_at := rfc3339 now; rp_finished_at := rfc3339 now |} in
  match ensure_storage_schema s with
  | Err e => (Err e, s)
  | Ok s =>
      if dry_run
      then (Ok (report (count_verbose_logs (rfc3339 cutoff) s)
                  (count_expired_payload_refs (rfc3339 now) s) (count_unowned_blobs s)), s)
      else let '(rows, refs, blobs, s) :=
             retention_transaction (rfc3339 now) (rfc3339 cutoff) verbose_retention_days s in
           (Ok (report rows refs blobs), s)
  end.

(** ** The blob repository of the session store *)

(** The errors carry the context of the storage error. *)
(* SRC domains/session/event_store/sqlite/repositories/blob.rs:25-57 BlobRepo::store *)
Definition blob_repo_store (now : instant) (blob_uuid ref_uuid content mime_type : string)
    (s : StorageTables) : Res string * StorageTables :=
  match store_content_blob now blob_uuid content mime_type s with
  | (Err e, s) => (Err ("failed to store blob: " +s e), s)
  | (Ok blob_id, s) =>
      match register_existing_blob_owner now ref_uuid blob_id "domain_blob" "content" "audit" s with
      | (Err e, s) => (Err ("failed to record blob owner: " +s e), s)
      | (Ok _, s) => (Ok blob_id, s)
      end
  end.
(* SRC domains/session/event_store/sqlite/repositories/blob.rs:59-71 BlobRepo::get_content *)
Definition blob_repo_get_content (blob_id : string) (s : StorageTables) : Res (option string) :=
  match blob_by_id blob_id s with
  | None => Ok None
  | Some b =>
      match decode_blob b with
      | Ok content => Ok (Some content)
      | Err e => Err ("failed to decode blob: " +s e)
      end
  end.
(* SRC domains/session/event_store/sqlite/repositories/blob.rs:99-109 BlobRepo::get_ref_count *)
Definition blob_repo_get_ref_count (blob_id : string) (s : StorageTables) : option Z :=
  bl_ref_count <$> blob_by_id blob_id s.
(* SRC domains/session/event_store/sqlite/repositories/blob.rs:111-118 BlobRepo::increment_ref_count *)
Definition blob_repo_increment_ref_count (blob_id : string) (s : StorageTables)
  : bool * StorageTables :=
  (is_some (blob_by_id blob_id s), count_blob blob_id (fun n => n + 1) s).
(* SRC domains/session/event_store/sqlite/repositories/blob.rs:120-137 BlobRepo::decrement_ref_count *)
Definition blob_repo_decrement_ref_count (blob_id : string) (s : StorageTables)
  : option Z * StorageTables :=
  let s := count_blob blob_id (fun n => if 0 <? n then n - 1 else n) s in
  let count := blob_repo_get_ref_count blob_id s in
  (count,
   if bool_decide (count = Some 0)
   then set_st_refs (drop_where (owns "domain_blob" blob_id "content") (st_refs s)) s else s).
(* SRC domains/session/event_store/sqlite/repositories/blob.rs:139-151 BlobRepo::delete_unreferenced *)
Definition blob_repo_delete_unreferenced (s : StorageTables) : Z * StorageTables :=
  let gone b := (bl_ref_count b <=? 0) && negb (referenced (st_refs s) b) in
  (count_where gone (st_blobs s), set_st_blobs (drop_where gone (st_blobs s)) s).
(* SRC domains/session/event_store/sqlite/repositories/blob.rs:153-157 BlobRepo::count *)
Definition blob_repo_count (s : StorageTables) : Z := Z.of_nat (List.length (st_blobs s)).
(* SRC domains/session/event_store/sqlite/repositories/blob.rs:159-170 BlobRepo::get_total_size *)
Definition blob_repo_get_total_size (s : StorageTables) : Z * Z :=
  (foldr Z.add 0 (map bl_uncompressed_size (st_blobs s)),
   foldr Z.add 0 (map bl_size_compressed (st_blobs s))).
End operations.

(** ** Operations as a whole

    The operations on the tables, and the tables after a sequence of them. *)

Inductive storage_op : Type :=
| Op_store (now : instant) (blob_uuid ref_uuid payload : string) (o : StorePayloadOptions)
| Op_register (now : instant) (uuid blob_id owner_kind field_name retention_class : string)
| Op_retain (now cutoff : instant) (dry_run : bool) (days : Z)
| Op_blob_store (now : instant) (blob_uuid ref_uuid content mime_type : string)
| Op_increment (blob_id : string)
| Op_decrement (blob_id : string)
| Op_delete_unreferenced.

(** A [Vec] holds at most [isize::MAX] bytes. *)
Definition op_fits (op : storage_op) : Prop :=
  match op with
  | Op_store _ _ _ payload _ => byte_len payload <= i64_max
  | Op_blob_store _ _ _ content _ => byte_len content <= i64_max
  | _ => True
  end.

(** The operation leaves the reference of the owner alone. *)
Definition op_spares (kind id field : string) (op : storage_op) : Prop :=
  match op with
  | Op_store _ _ _ _ o => (so_owner_kind o, so_owner_id o, so_field_name o) <> (kind, id, field)
  | Op_decrement _ => kind <> "domain_blob"
  | _ => True
  end.

(** References that no retention run removes. *)
Definition durable_class (class : string) (expires_at : option string) : bool :=
  negb ((class =s "diagnostic_verbose") || (class =s "pending")) || negb (is_some expires_at).

Section guarantees.
  Variable hex_sha256 : string -> string.
  Variable zstd_compress : string -> option string.
  Variable zstd_decompress : string -> Z -> option string.
  Variable rfc3339 : instant -> string.
  (** Decompression with room for the content undoes compression. *)
  Hypothesis zstd_roundtrip : forall c z n,
    zstd_compress c = Some z -> byte_len c <= n -> zstd_decompress z n = Some c.

#[local] Notation store_content := (store_content_blob hex_sha256 zstd_compress).
#[local] Notation store_owned := (store_owned_payload_ref hex_sha256 zstd_compress).
#[local] Notation decode := (decode_blob zstd_decompress).

Definition storage_run (op : storage_op) (s : StorageTables) : StorageTables :=
  match op with
  | Op_store now bu ru payload o => snd (store_owned now bu ru payload o s)
  | Op_register now u blob kind field class =>
      snd (register_existing_blob_owner now u blob kind field class s)
  | Op_retain now cutoff dry days => snd (retention_run rfc3339 now cutoff dry days s)
  | Op_blob_store now bu ru content mime =>
      snd (blob_repo_store hex_sha256 zstd_compress now bu ru content mime s)
  | Op_increment id => snd (blob_repo_increment_ref_count id s)
  | Op_decrement id => snd (blob_repo_decrement_ref_count id s)
  | Op_delete_unreferenced => snd (blob_repo_delete_unreferenced s)
  end.

Inductive storage_path : StorageTables -> list storage_op -> StorageTables -> Prop :=
| path_nil s : storage_path s [] s
| path_cons s op ops s' :
    op_fits op -> storage_path (storage_run op s) ops s' -> storage_path s (op :: ops) s'.

Definition storage_empty (logs : option (list LogRow)) : StorageTables :=
  {| st_generation := None; st_blobs := []; st_refs := []; st_logs := logs;
     st_retention_runs := [] |}.
Definition storage_reachable (s : StorageTables) : Prop :=
  exists logs ops, storage_path (storage_empty logs) ops s.

(** *** The invariant *)

Definition has_blob (id hash : string) (s : StorageTables) : Prop :=
  exists b, b ∈ st_blobs s /\ bl_id b = id /\ bl_hash b = hash.
Definition ref_owner (r : PayloadRefRow) : string * string * string :=
  (pr_owner_kind r, pr_owner_id r, pr_field_name r).
Definition blob_ok (b : BlobRow) : Prop :=
  exists content, decode b = Ok content /\ hex_sha256 content = bl_hash b.
Definition ref_ok (s : StorageTables) (r : PayloadRefRow) : Prop :=
  forall id, pr_payload_blob_id r = Some id -> has_blob id (pr_payload_hash r) s.

Record storage_inv (s : StorageTables) : Prop := {
  si_generation : forall g, st_generation s = Some g -> g = CURRENT_STORAGE_GENERATION;
  si_ids : NoDup (map bl_id (st_blobs s));
  si_hashes : NoDup (map bl_hash (st_blobs s));
  si_blobs : Forall blob_ok (st_blobs s);
  si_owners : NoDup (map ref_owner (st_refs s));
  si_refs : Forall (ref_ok s) (st_refs s)
}.

Lemma blob_by_id_spec s id b :
  storage_inv s -> blob_by_id id s = Some b <-> b ∈ st_blobs s /\ bl_id b = id.
Proof. intros Hs. apply (find_by_key bl_id). apply Hs. Qed.

Lemma blob_by_hash_spec s h b :
  storage_inv s -> blob_by_hash h s = Some b <-> b ∈ st_blobs s /\ bl_hash b = h.
Proof. intros Hs. apply (find_by_key bl_hash). apply Hs. Qed.

Lemma blob_by_id_none s id : blob_by_id id s = None <-> id ∉ map bl_id (st_blobs s).
Proof.
  unfold blob_by_id. induction (st_blobs s) as [|b l IH]; simpl; [set_solver|].
  destruct (String.eqb_spec (bl_id b) id) as [<-|Hne]; [set_solver|]. rewrite IH. set_solver.
Qed.

Lemma blob_by_hash_none s h : blob_by_hash h s = None -> h ∉ map bl_hash (st_blobs s).
Proof.
  unfold blob_by_hash. induction (st_blobs s) as [|b l IH]; simpl; [set_solver|].
  destruct (String.eqb_spec (bl_hash b) h) as [<-|Hne]; [done|]. set_solver.
Qed.

Lemma ref_by_owner_spec s kind id field r :
  ref_by_owner kind id field s = Some r -> r ∈ st_refs s /\ ref_owner r = (kind, id, field).
Proof.
  unfold ref_by_owner. intros [Hr Ho]%find_some. apply list_elem_of_In in Hr. split; [done|].
  unfold owns in Ho. apply andb_true_iff in Ho as [[H1 H2]%andb_true_iff H3].
  apply String.eqb_eq in H1, H2, H3. unfold ref_owner. congruence.
Qed.

Lemma owns_iff kind id field r : owns kind id field r = true <-> ref_owner r = (kind, id, field).
Proof.
  unfold owns, ref_owner. rewrite !andb_true_iff, !String.eqb_eq. naive_solver.
Qed.

(** *** How the tables change *)

(** The blobs of [s] are blobs of [s'] up to their counts. *)
Definition blobs_kept (s s' : StorageTables) : Prop :=
  forall id hash, has_blob id hash s -> has_blob id hash s'.

Lemma ref_ok_kept s s' r : blobs_kept s s' -> ref_ok s r -> ref_ok s' r.
Proof. intros Hk Hr id Hid. apply Hk, Hr, Hid. Qed.

Lemma count_blob_same id f s :
  map bl_id (st_blobs (count_blob id f s)) = map bl_id (st_blobs s) /\
  map bl_hash (st_blobs (count_blob id f s)) = map bl_hash (st_blobs s) /\
  (Forall blob_ok (st_blobs s) -> Forall blob_ok (st_blobs (count_blob id f s))).
Proof.
  simpl. rewrite !map_map. split_and!.
  - apply map_ext. intros b. by destruct (_ =s _).
  - apply map_ext. intros b. by destruct (_ =s _).
  - rewrite !Forall_forall. intros Hb x (b & -> & Hin)%list_elem_of_fmap.
    specialize (Hb b Hin). by destruct (_ =s _).
Qed.

Lemma count_blob_kept id f s : blobs_kept s (count_blob id f s).
Proof.
  intros i h (b & Hb & <- & <-). exists (if bl_id b =s id then set_ref_count f b else b).
  split; [by apply (list_elem_of_fmap_2 (fun b => if bl_id b =s id then set_ref_count f b else b))|].
  by destruct (_ =s _).
Qed.

Lemma inv_count_blob id f s : storage_inv s -> storage_inv (count_blob id f s).
Proof.
  intros [Hg Hi Hh Hb Ho Hr]. destruct (count_blob_same id f s) as (Ei & Eh & Eb).
  constructor; rewrite ?Ei, ?Eh; auto.
  eapply Forall_impl; [exact Hr|]. intros r. apply ref_ok_kept, count_blob_kept.
Qed.

Lemma inv_generation s : storage_inv s -> storage_inv (set_st_generation CURRENT_STORAGE_GENERATION s).
Proof.
  intros [Hg Hi Hh Hb Ho Hr]. constructor; try done. intros g. simpl. congruence.
Qed.

(** *** Every operation keeps the invariant *)

Lemma dangling_none s : storage_inv s -> dangling s = [].
Proof.
  intros Hs. unfold dangling. apply filter_none. intros r Hr.
  destruct (pr_payload_blob_id r) as [id|] eqn:Hid; [|done].
  destruct (proj1 (Forall_forall _ _) (si_refs _ Hs) r Hr id Hid) as (b & Hb & Hi & _).
  by rewrite (proj2 (blob_by_id_spec s id b Hs)).
Qed.

(** The schema check passes, and sets the generation at most. *)
Lemma schema_ok s :
  storage_inv s -> exists s1, ensure_storage_schema s = Ok s1 /\ storage_inv s1 /\
    st_blobs s1 = st_blobs s /\ st_refs s1 = st_refs s.
Proof.
  intros Hs. unfold ensure_storage_schema, verify_payload_blob_integrity.
  rewrite dangling_none by done. simpl. destruct (st_generation s) as [g|] eqn:Hg.
  - rewrite (si_generation _ Hs g Hg). by exists s.
  - eexists. split; [done|]. split; [by apply inv_generation|done].
Qed.

Lemma encode_decodes content :
  byte_len content <= i64_max ->
  let e := encode_blob_content zstd_compress content in
  decode_blob_content zstd_decompress (en_content e) (en_compression e) (en_uncompressed_size e)
  = Ok content.
Proof.
  intros Hlen. unfold encode_blob_content. destruct (_ <=? _); [|done].
  destruct (zstd_compress content) as [z|] eqn:Hz; [|done]. destruct (_ <? _); [|done]. simpl.
  unfold decode_blob_content, capacity, clamp_i64. simpl.
  assert (0 <= byte_len content) by (unfold byte_len; lia).
  rewrite Z.min_l by done. rewrite (proj2 (Z.ltb_ge _ _)) by done.
  by rewrite (zstd_roundtrip _ _ _ Hz).
Qed.

Lemma inv_append_blob s b :
  storage_inv s -> bl_id b ∉ map bl_id (st_blobs s) -> bl_hash b ∉ map bl_hash (st_blobs s) ->
  blob_ok b -> storage_inv (set_st_blobs (st_blobs s ++ [b]) s).
Proof.
  intros [Hg Hi Hh Hb Ho Hr] Hid Hhash Hok. constructor; simpl; rewrite ?map_app; try done.
  - apply NoDup_app. split_and!; [done|set_solver|apply NoDup_singleton].
  - apply NoDup_app. split_and!; [done|set_solver|apply NoDup_singleton].
  - apply Forall_app. split; [done|by apply Forall_singleton].
  - eapply Forall_impl; [exact Hr|]. intros r. apply ref_ok_kept. intros id h (x & Hx & ?).
    exists x. set_solver.
Qed.

Lemma store_content_ok now uuid content mime s :
  storage_inv s -> byte_len content <= i64_max ->
  let '(res, s') := store_content now uuid content mime s in
  storage_inv s' /\ st_refs s' = st_refs s /\
  forall id, res = Ok id -> has_blob id (hex_sha256 content) s'.
Proof.
  intros Hs Hlen. unfold store_content_blob.
  destruct (blob_by_hash _ s) as [b|] eqn:Hb.
  - apply blob_by_hash_spec in Hb as [Hb Hh]; [|done]. split; [by apply inv_count_blob|].
    split; [done|]. intros id [= <-]. apply count_blob_kept. by exists b.
  - destruct (blob_by_id _ s) as [b|] eqn:Hid; simpl; [done|].
    apply blob_by_id_none in Hid. apply blob_by_hash_none in Hb. split_and!.
    + apply inv_append_blob; try done. exists content. split; [|done]. by apply encode_decodes.
    + done.
    + intros id [= <-]. eexists. split; [apply elem_of_app; right; by apply list_elem_of_singleton|done].
Qed.

Lemma place_ok now uuid payload o existing s :
  storage_inv s -> byte_len payload <= i64_max ->
  let '(res, s') := place_payload hex_sha256 zstd_compress now uuid payload o existing s in
  storage_inv s' /\ st_refs s' = st_refs s /\
  forall blob, res = Ok blob ->
    is_some blob = (so_inline_threshold o <? byte_len payload) /\
    forall id, blob = Some id -> has_blob id (hex_sha256 payload) s'.
Proof.
  intros Hs Hlen. unfold place_payload. destruct (_ <? _); [|split_and!; naive_solver].
  assert (let '(res, s') := (let '(id, s') := store_content now uuid payload (so_payload_kind o) s in
            (let? id := id in Ok (Some id), s')) in
    storage_inv s' /\ st_refs s' = st_refs s /\
    forall blob, res = Ok blob -> is_some blob = true /\
      forall id, blob = Some id -> has_blob id (hex_sha256 payload) s') as Hnew.
  { pose proof (store_content_ok now uuid payload (so_payload_kind o) s Hs Hlen) as Hc.
    destruct (store_content_blob _ _ _ _ _ _ _) as [[id|e] s']; destruct Hc as (Hi & Hr & Hb);
      split_and!; naive_solver. }
  destruct (existing ≫= _) as [old|]; [|exact Hnew].
  destruct (blob_hash_matches old (hex_sha256 payload) s) eqn:Hm; [|exact Hnew].
  unfold blob_hash_matches in Hm. destruct (blob_by_id old s) as [b|] eqn:Hb; [|done].
  apply String.eqb_eq in Hm. apply blob_by_id_spec in Hb as [Hb Hi]; [|done].
  split_and!; [done|done|]. intros blob [= <-]. split; [done|]. intros id [= <-]. by exists b.
Qed.

Lemma inv_refs s refs :
  storage_inv s -> NoDup (map ref_owner refs) -> Forall (ref_ok s) refs ->
  storage_inv (set_st_refs refs s).
Proof. intros [Hg Hi Hh Hb Ho Hr] Hn Hf. by constructor. Qed.

Lemma update_owner new r : ref_owner (ref_update new r) = ref_owner r.
Proof. done. Qed.

Lemma upsert_ok row s s' :
  storage_inv s -> ref_ok s row -> upsert_ref row s = Ok s' ->
  storage_inv s' /\ st_blobs s' = st_blobs s /\
  (exists r, r ∈ st_refs s' /\ ref_owner r = ref_owner row /\
     pr_payload_hash r = pr_payload_hash row /\ pr_payload_blob_id r = pr_payload_blob_id row /\
     pr_retention_class r = pr_retention_class row /\ pr_expires_at r = pr_expires_at row) /\
  (forall r, r ∈ st_refs s -> ref_owner r <> ref_owner row -> r ∈ st_refs s').
Proof.
  intros Hs Hrow. unfold upsert_ref. set (own := owns _ _ _).
  assert (forall r, own r = true <-> ref_owner r = ref_owner row) as Hown by (intros r; apply owns_iff).
  destruct (existsb own _) eqn:He.
  - intros [= <-]. apply existsb_exists in He as (r & Hr & Ho). split_and!.
    + apply inv_refs; [done| |].
      * rewrite map_map. erewrite map_ext; [apply (si_owners _ Hs)|]. intros x. by destruct (own x).
      * apply Forall_forall. intros x (y & -> & Hy)%list_elem_of_fmap.
        destruct (own y); [exact Hrow|]. by apply (proj1 (Forall_forall _ _) (si_refs _ Hs)).
    + done.
    + exists (ref_update row r). split_and!; try done; [|by apply Hown].
      apply list_elem_of_fmap. exists r. rewrite Ho. split; [done|by apply list_elem_of_In].
    + intros x Hx Hne. apply list_elem_of_fmap. exists x. split; [|done].
      destruct (own x) eqn:E; [by apply Hown in E|done].
  - destruct (existsb (fun r => pr_id r =s pr_id row) _); intros Hu; [done|].
    injection Hu as <-. split_and!.
    + apply inv_refs; [done| |].
      * rewrite map_app. apply NoDup_app. split_and!; [apply Hs| |apply NoDup_singleton].
        intros x (r & -> & Hr)%list_elem_of_fmap Heq%list_elem_of_singleton.
        apply Hown in Heq. assert (existsb own (st_refs s) = true) as E; [|congruence].
        apply existsb_exists. exists r. split; [by apply list_elem_of_In|done].
      * apply Forall_app. split; [apply Hs|by apply Forall_singleton].
    + done.
    + exists row. set_solver.
    + intros r Hr _. set_solver.
Qed.

Lemma inv_leave existing blob s : storage_inv s -> storage_inv (leave_blob existing blob s).
Proof.
  intros Hs. unfold leave_blob. destruct (existing ≫= _); [|done].
  case_bool_decide; [done|]. by apply inv_count_blob.
Qed.

Lemma leave_refs existing blob s : st_refs (leave_blob existing blob s) = st_refs s.
Proof. unfold leave_blob. destruct (existing ≫= _); [|done]. by case_bool_decide. Qed.

(** What the reference of an owner says after its payload was stored. *)
Definition stored_as (o : StorePayloadOptions) (payload : string) (blob : option string)
    (s : StorageTables) : Prop :=
  exists r, r ∈ st_refs s /\
    ref_owner r = (so_owner_kind o, so_owner_id o, so_field_name o) /\
    pr_payload_hash r = hex_sha256 payload /\ pr_payload_blob_id r = blob /\
    pr_retention_class r = so_retention_class o /\ pr_expires_at r = so_expires_at o.

Lemma store_owned_ok now bu ru payload o s :
  storage_inv s -> byte_len payload <= i64_max ->
  let '(res, s') := store_owned now bu ru payload o s in
  storage_inv s' /\
  (forall r, r ∈ st_refs s ->
     ref_owner r <> (so_owner_kind o, so_owner_id o, so_field_name o) -> r ∈ st_refs s') /\
  forall reference, res = Ok reference ->
    is_some (sp_payload_blob_id reference) = (so_inline_threshold o <? byte_len payload) /\
    stored_as o payload (sp_payload_blob_id reference) s'.
Proof.
  intros Hs Hlen. unfold store_owned_payload_ref.
  destruct (schema_ok s Hs) as (s1 & -> & Hs1 & _ & Hr1). rewrite <- Hr1.
  pose proof (place_ok now bu payload o
    (ref_by_owner (so_owner_kind o) (so_owner_id o) (so_field_name o) s1) s1 Hs1 Hlen) as Hp.
  destruct (place_payload _ _ _ _ _ _ _ _) as [[blob|e] s2]; destruct Hp as (Hs2 & Hr2 & Hb);
    rewrite <- Hr2; [|split_and!; done].
  destruct (Hb blob eq_refl) as [Hsome Hblob].
  destruct (upsert_ref _ s2) as [s3|e] eqn:Hu; [|split_and!; done].
  apply upsert_ok in Hu as (Hs3 & _ & (r & Hr & Ho & Hh & Hi & Hc & He) & Hkeep);
    [|done|exact Hblob].
  split_and!; [by apply inv_leave|by rewrite leave_refs|].
  intros reference [= <-]. split; [done|]. exists r. by rewrite leave_refs.
Qed.

Lemma register_ok now u blob kind field class s :
  storage_inv s ->
  let s' := snd (register_existing_blob_owner now u blob kind field class s) in
  storage_inv s' /\ forall r, r ∈ st_refs s -> r ∈ st_refs s'.
Proof.
  intros Hs. unfold register_existing_blob_owner.
  destruct (schema_ok s Hs) as (s1 & -> & Hs1 & _ & Hr1). rewrite <- Hr1.
  destruct (blob_by_id blob s1) as [b|] eqn:Hb; [|done].
  apply blob_by_id_spec in Hb as [Hb Hi]; [|done].
  destruct (existsb _ _) eqn:He; [done|]. cbn [snd]. split; [|set_solver].
  apply inv_refs; [done| |].
  - rewrite map_app. apply NoDup_app. split_and!; [apply Hs1| |apply NoDup_singleton].
    intros x (r & -> & Hr)%list_elem_of_fmap Heq%list_elem_of_singleton.
    rewrite <- not_true_iff_false in He. apply He, existsb_exists. exists r.
    split; [by apply list_elem_of_In|]. apply orb_true_iff. right. by apply owns_iff.
  - apply Forall_app. split; [apply Hs1|]. apply Forall_singleton. intros id [= <-]. by exists b.
Qed.

Lemma sublist_nodup {A B} (f : A -> B) (p : A -> bool) l :
  NoDup (map f l) -> NoDup (map f (List.filter p l)).
Proof.
  induction l as [|x l IH]; simpl; [done|]. rewrite NoDup_cons. intros [Hx Hl].
  destruct (p x); simpl; [|auto]. apply NoDup_cons. split; [|auto]. intros (y & E & Hy)%list_elem_of_fmap.
  apply Hx. apply list_elem_of_fmap. exists y. split; [done|].
  apply list_elem_of_In, filter_In in Hy as [Hy _]. by apply list_elem_of_In.
Qed.

Lemma elem_of_filter_bool {A} (p : A -> bool) l x : x ∈ List.filter p l <-> x ∈ l /\ p x = true.
Proof. by rewrite !list_elem_of_In, filter_In. Qed.

(** Deleting references, and then blobs that none of the rest names. *)
Lemma inv_collect s (keep_ref : PayloadRefRow -> bool) (keep_blob : BlobRow -> bool) s' :
  storage_inv s -> st_generation s' = st_generation s ->
  st_refs s' = List.filter keep_ref (st_refs s) ->
  st_blobs s' = List.filter keep_blob (st_blobs s) ->
  (forall b, referenced (st_refs s') b = true -> keep_blob b = true) -> storage_inv s'.
Proof.
  intros [Hg Hi Hh Hb Ho Hr] Eg Er Eb Hk. constructor; rewrite ?Eg, ?Er, ?Eb; auto using sublist_nodup.
  - apply Forall_forall. intros b [Hin _]%elem_of_filter_bool. by apply (proj1 (Forall_forall _ _) Hb).
  - apply Forall_forall. intros r Hin id Hid. pose proof Hin as [Hr' _]%elem_of_filter_bool.
    destruct (proj1 (Forall_forall _ _) Hr r Hr' id Hid) as (b & Hbl & Hbi & Hbh).
    exists b. split; [|done]. rewrite Eb. apply elem_of_filter_bool. split; [done|].
    apply Hk. rewrite Er. apply existsb_exists. exists r. split; [by apply list_elem_of_In|].
    apply bool_decide_true. congruence.
Qed.

Lemma retain_ok now cutoff dry days s :
  storage_inv s ->
  let s' := snd (retention_run rfc3339 now cutoff dry days s) in
  storage_inv s' /\ forall r, r ∈ st_refs s ->
    durable_class (pr_retention_class r) (pr_expires_at r) = true -> r ∈ st_refs s'.
Proof.
  intros Hs. unfold retention_run. destruct (schema_ok s Hs) as (s1 & -> & Hs1 & _ & Hr1).
  rewrite <- Hr1. destruct dry; [done|]. simpl. split.
  - eapply (inv_collect s1); [done..|]. by simpl.
  - intros r Hr Hd. apply elem_of_filter_bool. split; [done|]. unfold expired_ref, durable_class in *.
    destruct ((_ =s "diagnostic_verbose") || _); [|done]. simpl in *. by destruct (pr_expires_at r).
Qed.

Lemma decrement_ok id s :
  storage_inv s ->
  let s' := snd (blob_repo_decrement_ref_count id s) in
  storage_inv s' /\ forall r, r ∈ st_refs s -> pr_owner_kind r <> "domain_blob" -> r ∈ st_refs s'.
Proof.
  intros Hs. unfold blob_repo_decrement_ref_count. set (s1 := count_blob _ _ s).
  assert (storage_inv s1) as Hs1 by (by apply inv_count_blob). simpl.
  case_bool_decide; [|done]. split.
  - eapply (inv_collect s1 _ (fun _ => true)); try done. simpl. symmetry.
    induction (st_blobs s) as [|b l IH]; simpl; [done|]. by f_equal.
  - intros r Hr Hk. apply elem_of_filter_bool. split; [done|]. apply negb_true_iff, not_true_iff_false.
    intros [= E]%owns_iff. done.
Qed.

Lemma blob_store_ok now bu ru content mime s :
  storage_inv s -> byte_len content <= i64_max ->
  let s' := snd (blob_repo_store hex_sha256 zstd_compress now bu ru content mime s) in
  storage_inv s' /\ forall r, r ∈ st_refs s -> r ∈ st_refs s'.
Proof.
  intros Hs Hlen. unfold blob_repo_store.
  pose proof (store_content_ok now bu content mime s Hs Hlen) as Hc.
  destruct (store_content_blob _ _ _ _ _ _ _) as [[id|e] s1]; destruct Hc as (Hs1 & Hr1 & _);
    rewrite <- Hr1; [|done].
  pose proof (register_ok now ru id "domain_blob" "content" "audit" s1 Hs1) as Hr.
  by destruct (register_existing_blob_owner _ _ _ _ _ _ _) as [[u|e] s2].
Qed.

(** An operation keeps the invariant and the durable references it spares. *)
Lemma storage_run_ok op s :
  storage_inv s -> op_fits op ->
  storage_inv (storage_run op s) /\
  forall r, r ∈ st_refs s -> durable_class (pr_retention_class r) (pr_expires_at r) = true ->
    op_spares (pr_owner_kind r) (pr_owner_id r) (pr_field_name r) op ->
    r ∈ st_refs (storage_run op s).
Proof.
  intros Hs Hfit. destruct op; simpl in *.
  - pose proof (store_owned_ok now blob_uuid ref_uuid payload o s Hs Hfit) as H.
    destruct (store_owned_payload_ref _ _ _ _ _ _ _ _) as [res s']. destruct H as (Hs' & Hk & _).
    split; [done|]. intros r Hr _ Hne. apply Hk; [done|]. unfold ref_owner. congruence.
  - destruct (register_ok now uuid blob_id owner_kind field_name retention_class s Hs). auto.
  - destruct (retain_ok now cutoff dry_run days s Hs). auto.
  - destruct (blob_store_ok now blob_uuid ref_uuid content mime_type s Hs Hfit). auto.
  - split; [by apply inv_count_blob|done].
  - destruct (decrement_ok blob_id s Hs). auto.
  - split; [|done]. eapply (inv_collect s (fun _ => true)); try done.
    + simpl. symmetry. induction (st_refs s) as [|r l IH]; simpl; [done|]. by f_equal.
    + intros b Hb. simpl in *. by rewrite Hb, andb_false_r.
Qed.

Lemma storage_path_ok s ops s' :
  storage_path s ops s' -> storage_inv s ->
  storage_inv s' /\
  forall r, r ∈ st_refs s -> durable_class (pr_retention_class r) (pr_expires_at r) = true ->
    Forall (op_spares (pr_owner_kind r) (pr_owner_id r) (pr_field_name r)) ops -> r ∈ st_refs s'.
Proof.
  induction 1 as [s|s op ops s' Hfit Hp IH]; intros Hs; [done|].
  destruct (storage_run_ok op s Hs Hfit) as [Hs1 Hk]. destruct (IH Hs1) as [Hs' Hk'].
  split; [done|]. intros r Hr Hd Hf. apply Forall_cons in Hf as [Hf1 Hf2]. auto.
Qed.

Lemma inv_empty logs : storage_inv (storage_empty logs).
Proof. constructor; simpl; try done; constructor. Qed.

Lemma storage_reachable_inv s : storage_reachable s -> storage_inv s.
Proof. intros (logs & ops & Hp). by apply (storage_path_ok _ _ _ Hp), inv_empty. Qed.

(** An envelope names the blob of its reference. *)
Lemma envelope_names r id : sp_payload_blob_id r = Some id -> envelope_blob_id (envelope r) = Some id.
Proof.
  intros Hid. unfold envelope, payload_ref_value, envelope_blob_id. rewrite Hid.
  unfold jobj. cbn [app fold_left fst snd obj_insert vget obj_get].
  reflexivity.
Qed.

Lemma envelope_exact r : exact_json (envelope r) = true.
Proof.
  apply exact_jobj. cbn [forallb snd]. rewrite andb_true_r. apply exact_jobj.
  destruct (sp_payload_blob_id r); unfold jnum; simpl; by destruct (_ <? 0).
Qed.

(** In every reachable state of the payload tables the schema check passes, every
    payload reference that names a blob finds it, with content whose SHA-256 is the hash of
    the reference, and no two blobs hold the same hash: garbage collection never removes a
    blob that is still referenced. *)
Theorem payload_refs_always_resolve s :
  storage_reachable s ->
  is_ok (ensure_storage_schema s) = true /\
  (forall r id, r ∈ st_refs s -> pr_payload_blob_id r = Some id ->
     exists content, blob_repo_get_content zstd_decompress id s = Ok (Some content) /\
       hex_sha256 content = pr_payload_hash r) /\
  NoDup (map bl_hash (st_blobs s)).
Proof.
  intros Hs%storage_reachable_inv. split_and!; [|intros r id Hr Hid|apply Hs].
  - by destruct (schema_ok s Hs) as (s1 & -> & _).
  - destruct (proj1 (Forall_forall _ _) (si_refs _ Hs) r Hr id Hid) as (b & Hb & Hbi & Hh).
    destruct (proj1 (Forall_forall _ _) (si_blobs _ Hs) b Hb) as (content & Hd & Hc).
    exists content. unfold blob_repo_get_content.
    rewrite (proj2 (blob_by_id_spec s id b Hs)) by done. rewrite Hd. split; [done|congruence].
Qed.

  Variable to_json : Value -> string.
  Variable from_json : string -> option Value.
  (** The parser reads what the serializer writes. *)
  Hypothesis json_roundtrip : forall v, exact_json v = true -> from_json (to_json v) = Some v.

(** C34: A JSON value stored for an owner is read back, inline or from its compressed blob,
    as the value that its JSON text parses to, which for a value without floats and nested
    at most 127 levels is the value itself, after any later stores, retention runs, blob
    operations and garbage collections that do not replace the payload of that owner and
    field. This is for a text of at most i64::MAX bytes, a value that is not both small
    enough to be inline and shaped like a payload reference, a retention class that does not
    expire, and no other stored content with the SHA-256 of the text. *)
Theorem stored_json_is_read_back now bu ru v read o s text s1 ops s2 :
  storage_reachable s -> byte_len (to_json v) <= i64_max -> from_json (to_json v) = Some read ->
  store_json_value hex_sha256 zstd_compress to_json now bu ru v o s = (Ok text, s1) ->
  so_inline_threshold o < byte_len (to_json v) \/ envelope_blob_id read = None ->
  durable_class (so_retention_class o) (so_expires_at o) = true ->
  storage_path s1 ops s2 ->
  Forall (op_spares (so_owner_kind o) (so_owner_id o) (so_field_name o)) ops ->
  (forall b content, b ∈ st_blobs s2 -> decode b = Ok content ->
     hex_sha256 content = hex_sha256 (to_json v) -> content = to_json v) ->
  resolve_stored_json_value zstd_decompress from_json text s2 = Ok read /\ (exact_json v = true -> read = v).
Proof.
  intros Hs%storage_reachable_inv Hlen Hread Hst Hform Hdur Hpath Hspare Hsha.
  split; [|intros Hv; rewrite (json_roundtrip v Hv) in Hread; by injection Hread].
  unfold store_json_value, store_json_bytes in Hst.
  pose proof (store_owned_ok now bu ru (to_json v) o s Hs Hlen) as Ho.
  destruct (store_owned_payload_ref _ _ _ _ _ _ _ _) as [[reference|e] s']; [|done].
  destruct Ho as (Hs1 & _ & Href). destruct (Href reference eq_refl) as [Hblob (r & Hr & How & Hh & Hb & Hc & He)].
  injection Hst as Htext <-.
  destruct (storage_path_ok _ _ _ Hpath Hs1) as [Hs2 Hkeep].
  unfold resolve_stored_json_value, resolve_payload_ref_envelope.
  destruct (Z.leb_spec (byte_len (to_json v)) (so_inline_threshold o)) as [Hle|Hgt].
  - unfold from_utf8 in Htext. destruct (forallb _ _); [|done]. injection Htext as <-.
    rewrite Hread. simpl. destruct Hform as [Hgt| ->]; [lia|done].
  - injection Htext as <-. rewrite (proj2 (Z.ltb_lt _ _) Hgt) in Hblob.
    destruct (sp_payload_blob_id reference) as [id|] eqn:Hid; [|done].
    rewrite json_roundtrip by apply envelope_exact. simpl. rewrite (envelope_names _ _ Hid).
    assert (r ∈ st_refs s2) as Hr2.
    { apply Hkeep; [done|by rewrite Hc, He|]. unfold ref_owner in How. by injection How as -> -> ->. }
    destruct (proj1 (Forall_forall _ _) (si_refs _ Hs2) r Hr2 id Hb) as (b & Hbin & Hbid & Hbh).
    rewrite (proj2 (blob_by_id_spec s2 id b Hs2)) by done.
    destruct (proj1 (Forall_forall _ _) (si_blobs _ Hs2) b Hbin) as (content & Hdec & Hcontent).
    rewrite Hdec, (Hsha b content Hbin Hdec) by congruence. by rewrite Hread.
Qed.
End guarantees.

(** ** Samples *)

(** A hash without collisions, a compression that never pays, and texts with
    their parser. *)
Definition plain_hash (s : string) : string := s.
Definition tagged (s : string) : option string := Some (String "z" s).
Definition untag (s : string) (capacity : Z) : option string :=
  match s with
  | String _ s => if byte_len s <=? capacity then Some s else None
  | EmptyString => None
  end.
Definition clock_text (now : instant) : string := pretty now.

Lemma untag_tagged c z n : tagged c = Some z -> byte_len c <= n -> untag z n = Some c.
Proof. intros [= <-] Hn. simpl. by rewrite (proj2 (Z.leb_le _ _) Hn). Qed.

(** Options with a small threshold. *)
Definition small (o : StorePayloadOptions) : StorePayloadOptions :=
  {| so_owner_kind := so_owner_kind o; so_owner_id := so_owner_id o;
     so_field_name := so_field_name o; so_payload_kind := so_payload_kind o;
     so_redaction_level := so_redaction_level o; so_retention_class := so_retention_class o;
     so_trace_id := so_trace_id o; so_session_id := so_session_id o;
     so_workspace_id := so_workspace_id o; so_expires_at := so_expires_at o;
     so_inline_threshold := 64 |}.
Definition sample_options (id : string) : StorePayloadOptions :=
  small (options_new "engine_invocation" id "result" "audit").
Definition big_value : Value := j{"text" ~> "a long answer"}.
Definition sample_store (id : string) (v : Value) (s : StorageTables) : Res string * StorageTables :=
  store_json_value plain_hash tagged value_text 1 ("b" +s id) ("r" +s id) v (sample_options id) s.
Definition sample_read (text : string) (s : StorageTables) : Res Value :=
  resolve_stored_json_value untag value_of_text text s.
Definition sample_run := storage_run plain_hash tagged clock_text.

Definition storage1 : StorageTables := snd (sample_store "i1" big_value (storage_empty None)).
Definition text1 : string :=
  match fst (sample_store "i1" big_value (storage_empty None)) with Ok t => t | Err _ => "" end.
(** Another owner stores the same content, and a retention run follows. *)
Definition later_ops : list storage_op :=
  [Op_store 2 "b2" "r2" (value_text big_value) (sample_options "i2"); Op_retain 3 0 false 7;
   Op_delete_unreferenced].
Definition storage2 : StorageTables :=
  sample_run Op_delete_unreferenced
    (sample_run (Op_retain 3 0 false 7)
       (sample_run (Op_store 2 "b2" "r2" (value_text big_value) (sample_options "i2")) storage1)).

Lemma stored_json_is_read_back_witness :
  envelope_blob_id big_value = None /\ List.length (st_blobs storage2) = 1%nat /\
  List.length (st_refs storage2) = 2%nat /\ sample_read text1 storage2 = Ok big_value /\
  (exact_json big_value = true -> big_value = big_value).
Proof.
  split; [reflexivity|]. split; [vm_compute; reflexivity|]. split; [vm_compute; reflexivity|].
  apply (stored_json_is_read_back plain_hash tagged untag clock_text untag_tagged value_text value_of_text
    (fun v _ => value_of_value_text v) 1 "bi1" "ri1" big_value big_value
    (sample_options "i1") (storage_empty None) text1 storage1 later_ops storage2).
  - exists None, []. constructor.
  - vm_compute. discriminate.
  - apply value_of_value_text.
  - vm_compute. reflexivity.
  - right. reflexivity.
  - reflexivity.
  - unfold storage2, sample_run, later_ops.
    apply path_cons; [vm_compute; discriminate|]. apply path_cons; [exact I|].
    apply path_cons; [exact I|]. apply path_nil.
  - repeat constructor; simpl; try discriminate; congruence.
  - intros b content _ _ Hh. exact Hh.
Defined.

Lemma payload_refs_always_resolve_witness :
  is_ok (ensure_storage_schema storage1) = true.
Proof.
  refine (proj1 (payload_refs_always_resolve plain_hash tagged untag clock_text untag_tagged storage1 _)).
  exists None, [Op_store 1 "bi1" "ri1" (value_text big_value) (sample_options "i1")].
  constructor; [vm_compute; discriminate|]. constructor.
Defined.

(** ** Deviations *)

(** A small value is stored as its own text, also when it looks like an envelope:
    it is read back as the payload of another owner, or not at all. *)
Lemma inline_value_forges_a_reference :
  let forged := j{"__tronPayloadRef" ~> j{"payloadBlobId" ~> "blob_bi1"}} in
  let o := options_new "engine_invocation" "i2" "result" "audit" in
  let '(text, s) := store_json_value plain_hash tagged value_text 2 "b2" "r2" forged o storage1 in
  exists t, text = Ok t /\ sample_read t s = Ok big_value /\
    sample_read t (storage_empty None) = Err "failed to load payload blob blob_bi1".
Proof. eexists. split; [vm_compute; reflexivity|]. split; vm_compute; reflexivity. Qed.

(** The owner of the value of a state entry. *)
(* SRC engine/durability/state.rs:248-257! SqliteEngineStateStore::set *)
Definition state_payload_options (scope_kind scope_value namespace key : string)
  : StorePayloadOptions :=
  options_new "engine_state_entry" (scope_kind +s ":" +s scope_value +s ":" +s namespace) key
    "runtime".

(** Two state entries whose scope and namespace join to the same text share one
    reference: the second takes it over, and after retention the first entry's
    value cannot be read. *)
Lemma joined_owner_loses_a_payload :
  let put ns scope n v s :=
    store_json_value plain_hash tagged value_text n ("b" +s pretty n) ("r" +s pretty n) v
      (small (state_payload_options "workspace" scope ns "draft")) s in
  let '(first, s1) := put "b:c" "a" 1 (j{"text" ~> "first draft"}) (storage_empty None) in
  let '(second, s2) := put "c" "a:b" 2 (j{"text" ~> "second draft"}) s1 in
  let s3 := sample_run (Op_retain 3 0 false 7) s2 in
  exists t, first = Ok t /\ sample_read t s2 = Ok (j{"text" ~> "first draft"}) /\
    is_ok (sample_read t s3) = false.
Proof. eexists. split; [vm_compute; reflexivity|]. split; vm_compute; reflexivity. Qed.
