(* ===== verification/PayloadStore.v ===== *)
(** * The payload store as its clients see it

    The stores that keep JSON columns use [shared/storage] through two calls:
    [store_json_value] under an owner, and [resolve_stored_json_value] of the text
    that the call returned.  The class states what they rely on, and the payload
    tables of [Storage] are an instance of it. *)

From stdpp Require Import base gmap strings list.
From Stdlib Require Import ZArith Ascii String Lia.
From S2P Require Import Prelude Json Storage.

#[local] Open Scope Z_scope.

Definition owner : Type := string * string * string.
Definition options_owner (o : StorePayloadOptions) : owner :=
  (so_owner_kind o, so_owner_id o, so_field_name o).

(** [ps_holds own text v t]: the text was stored for the owner and stands for the
    value.  [ps_env P]: the changes that other users of the tables make, leaving
    the owners of [P] alone.  A value is [ps_plain] when its JSON text
    parses back to it, it is not taken for a reference and its class does not expire,
    and [ps_distinct] from the contents of the tables when none of them has the digest
    of its text but that text. *)
Class PayloadStore (T : Type) := {
  ps_store : instant -> string -> string -> Value -> StorePayloadOptions -> T -> Res string * T;
  ps_read : string -> T -> Res Value;
  ps_inv : T -> Prop;
  ps_fits : Value -> Prop;
  ps_plain : StorePayloadOptions -> Value -> Prop;
  ps_distinct : Value -> T -> Prop;
  ps_holds : owner -> string -> Value -> T -> Prop;
  ps_env : (owner -> Prop) -> T -> T -> Prop;
  ps_store_inv : forall now bu ru v o t, ps_inv t -> ps_fits v ->
    ps_inv (snd (ps_store now bu ru v o t));
  ps_store_holds : forall now bu ru v o t text t',
    ps_inv t -> ps_fits v -> ps_plain o v -> ps_distinct v t ->
    ps_store now bu ru v o t = (Ok text, t') -> ps_holds (options_owner o) text v t';
  ps_store_keeps : forall now bu ru v o t own text w, ps_inv t -> ps_fits v ->
    own <> options_owner o -> ps_holds own text w t ->
    ps_holds own text w (snd (ps_store now bu ru v o t));
  ps_env_ok : forall P t t', ps_inv t -> ps_env P t t' ->
    ps_inv t' /\ forall own text v, P own -> ps_holds own text v t -> ps_holds own text v t';
  ps_read_back : forall own text v t, ps_inv t -> ps_holds own text v t -> ps_read text t = Ok v
}.

(** ** Contents stay as they are

    A blob row after an operation has the content of the row with its id before,
    or its id is new. *)

Definition same_content (b b' : BlobRow) : Prop :=
  bl_id b' = bl_id b /\ bl_content b' = bl_content b /\ bl_compression b' = bl_compression b /\
  bl_uncompressed_size b' = bl_uncompressed_size b.
Definition rows_from (l l' : list BlobRow) : Prop :=
  forall b', b' ∈ l' -> (exists b, b ∈ l /\ same_content b b') \/ bl_id b' ∉ map bl_id l.

Lemma rows_from_refl l : rows_from l l.
Proof. intros b Hb. left. by exists b. Qed.
Lemma rows_from_trans l l1 l2 :
  rows_from l l1 -> map bl_id l ⊆ map bl_id l1 -> rows_from l1 l2 -> rows_from l l2.
Proof.
  intros H1 Hsub H2 b2 Hb2. destruct (H2 b2 Hb2) as [(b1 & Hb1 & E)|Hn]; [|right; set_solver].
  destruct (H1 b1 Hb1) as [(b & Hb & E')|Hn]; [left|right].
  - exists b. split; [done|]. unfold same_content in *. intuition congruence.
  - destruct E as [-> _]. done.
Qed.
Lemma rows_from_filter p l : rows_from l (List.filter p l).
Proof. intros b [Hb _]%elem_of_filter_bool. by apply rows_from_refl. Qed.
Lemma rows_from_append l b : bl_id b ∉ map bl_id l -> rows_from l (l ++ [b]).
Proof.
  intros Hb x [Hx|Hx]%elem_of_app; [by apply rows_from_refl|].
  apply list_elem_of_singleton in Hx as ->. by right.
Qed.
Lemma rows_from_count id f s : rows_from (st_blobs s) (st_blobs (count_blob id f s)).
Proof.
  intros x (b & -> & Hb)%list_elem_of_fmap. left. exists b. split; [done|]. by destruct (_ =s _).
Qed.
Lemma count_ids id f s : map bl_id (st_blobs (count_blob id f s)) = map bl_id (st_blobs s).
Proof. simpl. rewrite map_map. apply map_ext. intros b. by destruct (_ =s _). Qed.

Lemma schema_blobs s s' : ensure_storage_schema s = Ok s' -> st_blobs s' = st_blobs s.
Proof. unfold ensure_storage_schema. intros H. by inv_ok. Qed.

Section instance.
  Variable hex_sha256 : string -> string.
  Variable zstd_compress : string -> option string.
  Variable zstd_decompress : string -> Z -> option string.
  Variable rfc3339 : instant -> string.
  Variable to_json : Value -> string.
  Variable from_json : string -> option Value.

Lemma store_content_rows now uuid content mime s :
  let s' := snd (store_content_blob hex_sha256 zstd_compress now uuid content mime s) in
  rows_from (st_blobs s) (st_blobs s') /\ map bl_id (st_blobs s) ⊆ map bl_id (st_blobs s').
Proof.
  unfold store_content_blob. destruct (blob_by_hash _ s) as [b|].
  - simpl snd. rewrite count_ids. split; [apply rows_from_count|done].
  - destruct (blob_by_id _ s) as [b|] eqn:Hb; simpl; [split; [apply rows_from_refl|done]|].
    split; [|rewrite map_app; set_solver]. apply rows_from_append. simpl.
    intros (b & E & Hin)%list_elem_of_fmap. unfold blob_by_id in Hb.
    apply list_elem_of_In, (List.find_none _ _ Hb), String.eqb_neq in Hin. done.
Qed.

Lemma place_rows now uuid payload o existing s :
  let s' := snd (place_payload hex_sha256 zstd_compress now uuid payload o existing s) in
  rows_from (st_blobs s) (st_blobs s') /\ map bl_id (st_blobs s) ⊆ map bl_id (st_blobs s').
Proof.
  unfold place_payload. pose proof (store_content_rows now uuid payload (so_payload_kind o) s) as Hc.
  destruct (store_content_blob _ _ _ _ _ _ _) as [r s1].
  repeat case_match; simpl; try done; (split; [apply rows_from_refl|done]).
Qed.

Lemma upsert_blobs row s s' : upsert_ref row s = Ok s' -> st_blobs s' = st_blobs s.
Proof. unfold upsert_ref. intros H. by inv_ok. Qed.

Lemma store_owned_rows now bu ru payload o s :
  rows_from (st_blobs s)
    (st_blobs (snd (store_owned_payload_ref hex_sha256 zstd_compress now bu ru payload o s))).
Proof.
  unfold store_owned_payload_ref. destruct (ensure_storage_schema s) as [s1|] eqn:Hs1;
    [|apply rows_from_refl]. apply schema_blobs in Hs1 as <-.
  pose proof (place_rows now bu payload o
    (ref_by_owner (so_owner_kind o) (so_owner_id o) (so_field_name o) s1) s1) as Hp.
  destruct (place_payload _ _ _ _ _ _ _ _) as [[blob|e] s2]; [|apply Hp].
  destruct (upsert_ref _ s2) as [s3|] eqn:Hu; [|apply Hp]. apply upsert_blobs in Hu.
  destruct Hp as [Hp Hids]. eapply rows_from_trans; [exact Hp|exact Hids|]. simpl snd. rewrite <- Hu.
  unfold leave_blob. repeat case_match; try apply rows_from_refl. apply rows_from_count.
Qed.

Lemma register_blobs now u blob kind field class s :
  st_blobs (snd (register_existing_blob_owner now u blob kind field class s)) = st_blobs s.
Proof.
  unfold register_existing_blob_owner. destruct (ensure_storage_schema s) as [s1|] eqn:Hs1; [|done].
  apply schema_blobs in Hs1 as <-. by repeat case_match.
Qed.

(** Every operation on the tables. *)
Lemma storage_run_rows op s :
  rows_from (st_blobs s) (st_blobs (storage_run hex_sha256 zstd_compress rfc3339 op s)).
Proof.
  destruct op; simpl.
  - apply store_owned_rows.
  - rewrite register_blobs. apply rows_from_refl.
  - unfold retention_run. destruct (ensure_storage_schema s) as [s1|] eqn:Hs1; [|apply rows_from_refl].
    apply schema_blobs in Hs1 as <-. destruct dry_run; [apply rows_from_refl|].
    apply rows_from_filter.
  - unfold blob_repo_store.
    pose proof (store_content_rows now blob_uuid content mime_type s) as [Hc _].
    destruct (store_content_blob _ _ _ _ _ _ _) as [[id|e] s1]; [|done]. simpl in Hc.
    pose proof (register_blobs now ref_uuid id "domain_blob" "content" "audit" s1) as Hr.
    destruct (register_existing_blob_owner _ _ _ _ _ _ s1) as [[]]; simpl in *; by rewrite Hr.
  - apply rows_from_count.
  - case_bool_decide; apply rows_from_count.
  - apply rows_from_filter.
Qed.

(** A blob that a store adds decodes to the payload. *)
  Hypothesis zstd_roundtrip : forall c z n,
    zstd_compress c = Some z -> byte_len c <= n -> zstd_decompress z n = Some c.

Definition new_rows_decode (payload : string) (l l' : list BlobRow) : Prop :=
  forall b, b ∈ l' -> bl_id b ∉ map bl_id l -> decode_blob zstd_decompress b = Ok payload.

Lemma new_rows_none payload l l' : map bl_id l' ⊆ map bl_id l -> new_rows_decode payload l l'.
Proof. intros Hsub b Hb Hn. destruct Hn. apply Hsub. by apply (list_elem_of_fmap_2 bl_id). Qed.

Lemma store_content_new now uuid content mime s :
  byte_len content <= i64_max ->
  new_rows_decode content (st_blobs s)
    (st_blobs (snd (store_content_blob hex_sha256 zstd_compress now uuid content mime s))).
Proof.
  intros Hlen. unfold store_content_blob. destruct (blob_by_hash _ s) as [b|].
  - apply new_rows_none. simpl snd. by rewrite count_ids.
  - destruct (is_some _); [by apply new_rows_none|]. intros b [Hb|Hb]%elem_of_app Hn.
    + destruct Hn. by apply (list_elem_of_fmap_2 bl_id).
    + apply list_elem_of_singleton in Hb as ->. by apply encode_decodes.
Qed.

Lemma place_new now uuid payload o existing s :
  byte_len payload <= i64_max ->
  new_rows_decode payload (st_blobs s)
    (st_blobs (snd (place_payload hex_sha256 zstd_compress now uuid payload o existing s))).
Proof.
  intros Hlen. unfold place_payload.
  pose proof (store_content_new now uuid payload (so_payload_kind o) s Hlen) as Hc.
  destruct (store_content_blob _ _ _ _ _ _ _) as [r s1].
  repeat case_match; simpl; try done; by apply new_rows_none.
Qed.

Lemma decode_count payload l id f s :
  new_rows_decode payload l (st_blobs s) ->
  new_rows_decode payload l (st_blobs (count_blob id f s)).
Proof.
  intros Hn x (b & -> & Hb)%list_elem_of_fmap Hx. specialize (Hn b Hb).
  destruct (_ =s _); by apply Hn.
Qed.

Lemma store_owned_new now bu ru payload o s :
  byte_len payload <= i64_max ->
  new_rows_decode payload (st_blobs s)
    (st_blobs (snd (store_owned_payload_ref hex_sha256 zstd_compress now bu ru payload o s))).
Proof.
  intros Hlen. unfold store_owned_payload_ref.
  destruct (ensure_storage_schema s) as [s1|] eqn:Hs1; [|by apply new_rows_none].
  apply schema_blobs in Hs1 as <-.
  pose proof (place_new now bu payload o
    (ref_by_owner (so_owner_kind o) (so_owner_id o) (so_field_name o) s1) s1 Hlen) as Hp.
  destruct (place_payload _ _ _ _ _ _ _ _) as [[blob|e] s2]; [|apply Hp].
  destruct (upsert_ref _ s2) as [s3|] eqn:Hu; [|apply Hp]. apply upsert_blobs in Hu.
  simpl in *. rewrite <- Hu in Hp. unfold leave_blob.
  repeat case_match; try done. by apply decode_count.
Qed.

(** ** The instance *)

  Hypothesis json_roundtrip : forall v, exact_json v = true -> from_json (to_json v) = Some v.

(** The reference of the owner that the text names, and its blob. *)
Definition holds_blob (own : owner) (text : string) (v : Value) (s : StorageTables) : Prop :=
  exists reference r b, text = to_json (envelope reference) /\
    sp_payload_blob_id reference = Some (bl_id b) /\ r ∈ st_refs s /\ ref_owner r = own /\
    pr_payload_blob_id r = Some (bl_id b) /\
    durable_class (pr_retention_class r) (pr_expires_at r) = true /\
    b ∈ st_blobs s /\ decode_blob zstd_decompress b = Ok (to_json v).
Definition storage_holds (own : owner) (text : string) (v : Value) (s : StorageTables) : Prop :=
  from_json (to_json v) = Some v /\ ((text = to_json v /\ envelope_blob_id v = None) \/ holds_blob own text v s).

(** The parser reads the text of the value back (it does for every value without floats that is not nested too deep), the value is
    not inline and shaped like a reference, and it is kept for good. *)
Definition storage_plain (o : StorePayloadOptions) (v : Value) : Prop :=
  from_json (to_json v) = Some v /\
  (so_inline_threshold o < byte_len (to_json v) \/ envelope_blob_id v = None) /\
  durable_class (so_retention_class o) (so_expires_at o) = true.
Definition storage_distinct (v : Value) (s : StorageTables) : Prop :=
  forall b content, b ∈ st_blobs s -> decode_blob zstd_decompress b = Ok content ->
    hex_sha256 content = hex_sha256 (to_json v) -> content = to_json v.
Definition storage_env (P : owner -> Prop) (s s' : StorageTables) : Prop :=
  exists op, op_fits op /\ (forall kind id field, P (kind, id, field) -> op_spares kind id field op) /\
    s' = storage_run hex_sha256 zstd_compress rfc3339 op s.

Notation inv := (storage_inv hex_sha256 zstd_decompress).

(** A reference that an operation keeps, keeps its content. *)
Lemma holds_kept op s own text v :
  inv s -> op_fits op -> op_spares (fst (fst own)) (snd (fst own)) (snd own) op ->
  storage_holds own text v s ->
  storage_holds own text v (storage_run hex_sha256 zstd_compress rfc3339 op s).
Proof.
  intros Hs Hfit Hspare [Hfree [Hin|(reference & r & b & Ht & Hid & Hr & Ho & Hb & Hd & Hbin & Hdec)]];
    (split; [done|]); [by left|right].
  destruct (storage_run_ok hex_sha256 zstd_compress zstd_decompress rfc3339 zstd_roundtrip op s Hs Hfit)
    as [Hs' Hkeep].
  assert (r ∈ st_refs (storage_run hex_sha256 zstd_compress rfc3339 op s)) as Hr'.
  { apply Hkeep; try done. by subst own. }
  destruct (proj1 (Forall_forall _ _) (si_refs _ _ _ Hs') r Hr' _ Hb) as (b' & Hb' & Hi & _).
  exists reference, r, b'. rewrite Hi. split_and!; try done.
  destruct (storage_run_rows op s b' Hb') as [(b0 & Hb0 & Hi0 & Hc & Hk & Hu)|Hn].
  - assert (b0 = b) as ->.
    { pose proof (proj2 (blob_by_id_spec _ _ s (bl_id b) b Hs)) as E.
      pose proof (proj2 (blob_by_id_spec _ _ s (bl_id b) b0 Hs)) as E0.
      rewrite E in E0 by done. symmetry. apply (inj Some), E0. split; [done|congruence]. }
    unfold decode_blob in *. by rewrite Hc, Hk, Hu.
  - destruct Hn. rewrite Hi. by apply (list_elem_of_fmap_2 bl_id).
Qed.

Lemma storage_store_holds now bu ru v o s text s' :
  inv s -> byte_len (to_json v) <= i64_max -> storage_plain o v -> storage_distinct v s ->
  store_json_value hex_sha256 zstd_compress to_json now bu ru v o s = (Ok text, s') ->
  storage_holds (options_owner o) text v s'.
Proof.
  intros Hs Hlen (Hfree & Hform & Hdur) Hdist Hst. split; [done|]. unfold store_json_value, store_json_bytes in Hst.
  pose proof (store_owned_ok hex_sha256 zstd_compress zstd_decompress rfc3339 zstd_roundtrip
    now bu ru (to_json v) o s Hs Hlen) as Ho.
  pose proof (store_owned_rows now bu ru (to_json v) o s) as Hrows.
  pose proof (store_owned_new now bu ru (to_json v) o s Hlen) as Hnew.
  destruct (store_owned_payload_ref _ _ _ _ _ _ _ _) as [[reference|e] s1]; [|done].
  destruct Ho as (Hs1 & _ & Href). simpl in Hrows, Hnew.
  destruct (Href reference eq_refl) as [Hblob (r & Hr & How & Hh & Hb & Hc & He)].
  injection Hst as Htext <-.
  destruct (Z.leb_spec (byte_len (to_json v)) (so_inline_threshold o)) as [Hle|Hgt].
  - left. unfold from_utf8 in Htext. destruct (forallb _ _); [|done]. injection Htext as <-.
    split; [done|]. destruct Hform as [Hgt|Hn]; [lia|done].
  - right. injection Htext as <-. rewrite (proj2 (Z.ltb_lt _ _) Hgt) in Hblob.
    destruct (sp_payload_blob_id reference) as [id|] eqn:Hid; [|done].
    destruct (proj1 (Forall_forall _ _) (si_refs _ _ _ Hs1) r Hr id Hb) as (b & Hbin & <- & Hbh).
    exists reference, r, b. split_and!; try done; [by rewrite Hc, He|].
    destruct (proj1 (Forall_forall _ _) (si_blobs _ _ _ Hs1) b Hbin) as (content & Hdec & Hcontent).
    destruct (Hrows b Hbin) as [(b0 & Hb0 & _ & E1 & E2 & E3)|Hn]; [|by apply Hnew].
    rewrite Hdec. f_equal. apply (Hdist b0); [done| |congruence].
    unfold decode_blob in *. by rewrite <- E1, <- E2, <- E3.
Qed.

Lemma storage_read_back own text v s :
  inv s -> storage_holds own text v s -> resolve_stored_json_value zstd_decompress from_json text s = Ok v.
Proof.
  intros Hs. unfold resolve_stored_json_value, resolve_payload_ref_envelope.
  intros [Hfree [[-> Hn]|(reference & r & b & -> & Hid & _ & _ & _ & _ & Hb & Hd)]].
  - rewrite Hfree. simpl. by rewrite Hn.
  - rewrite json_roundtrip by apply envelope_exact. simpl.
    rewrite (envelope_names _ _ Hid), (proj2 (blob_by_id_spec _ _ s (bl_id b) b Hs)) by done.
    by rewrite Hd, Hfree.
Qed.

#[export] Program Instance storage_payload_store : PayloadStore StorageTables := {|
  ps_store := store_json_value hex_sha256 zstd_compress to_json;
  ps_read := resolve_stored_json_value zstd_decompress from_json;
  ps_inv := inv;
  ps_fits v := byte_len (to_json v) <= i64_max;
  ps_plain := storage_plain;
  ps_distinct := storage_distinct;
  ps_holds := storage_holds;
  ps_env := storage_env
|}.
Next Obligation.
  intros now bu ru v o s Hs Hfit.
  pose proof (store_owned_ok hex_sha256 zstd_compress zstd_decompress rfc3339 zstd_roundtrip
    now bu ru (to_json v) o s Hs Hfit) as Ho.
  unfold store_json_value, store_json_bytes.
  destruct (store_owned_payload_ref _ _ _ _ _ _ _ _) as [res s1]. apply Ho.
Qed.
Next Obligation. exact storage_store_holds. Qed.
Next Obligation.
  intros now bu ru v o s [[kind id] field] text w Hs Hfit Hne Hh.
  pose proof (holds_kept (Op_store now bu ru (to_json v) o) s (kind, id, field) text w Hs Hfit
    (not_eq_sym Hne) Hh) as Hk.
  unfold store_json_value, store_json_bytes. simpl in Hk.
  by destruct (store_owned_payload_ref _ _ _ _ _ _ _ _) as [res s1].
Qed.
Next Obligation.
  intros P s s' Hs (op & Hfit & Hspare & ->). split.
  - by apply (storage_run_ok hex_sha256 zstd_compress zstd_decompress rfc3339 zstd_roundtrip).
  - intros [[kind id] field] text v HP. apply holds_kept; auto.
Qed.
Next Obligation. exact storage_read_back. Qed.
End instance.
