(* ===== verification/Reconstruction.v ===== *)
(** * Conversations from session events

    [domains/session/event_store]: the persisted event types (types/generated.rs,
    types/base.rs, types/state.rs) and the rebuilding of the message list of a
    conversation from the events on the way from the root of a session to one of
    its events ([reconstruction/mod.rs]): deletions, compaction, cleared contexts,
    merging of consecutive messages, capability results and the errors put in the
    place of missing ones.  Counters are [i64] with the wrap-around of release
    builds. *)

From stdpp Require Import base gmap strings list.
From Stdlib Require Import ZArith Ascii String Lia.
From S2P Require Import Prelude Json.
Import JsonNotations.

#[local] Open Scope Z_scope.

(** ** Event types *)

(* SRC domains/session/event_store/types/generated.rs:12-70! EventType *)
Inductive EventType :=
| Event_SessionStart
| Event_SessionEnd
| Event_SessionFork
| Event_MessageUser
| Event_MessageAssistant
| Event_MessageSystem
| Event_ModelProviderRequest
| Event_MessageDeleted
| Event_CapabilityInvocationStarted
| Event_CapabilityInvocationCompleted
| Event_CapabilityInvocationProgress
| Event_StreamTextDelta
| Event_StreamThinkingDelta
| Event_StreamTurnStart
| Event_StreamTurnEnd
| Event_CompactBoundary
| Event_CompactSummaryStaging
| Event_ContextCleared
| Event_MetadataUpdate
| Event_MetadataTag
| Event_ErrorAgent
| Event_ErrorCapability
| Event_ErrorProvider
| Event_TurnFailed.
#[global] Instance EventType_eq_dec : EqDecision EventType.
Proof. solve_decision. Defined.

(* SRC domains/session/event_store/types/macros.rs:54-60! ALL_EVENT_TYPES *)
Definition ALL_EVENT_TYPES : list EventType :=
  [Event_SessionStart; Event_SessionEnd; Event_SessionFork; Event_MessageUser;
   Event_MessageAssistant; Event_MessageSystem; Event_ModelProviderRequest; Event_MessageDeleted;
   Event_CapabilityInvocationStarted; Event_CapabilityInvocationCompleted;
   Event_CapabilityInvocationProgress; Event_StreamTextDelta; Event_StreamThinkingDelta;
   Event_StreamTurnStart; Event_StreamTurnEnd; Event_CompactBoundary;
   Event_CompactSummaryStaging; Event_ContextCleared; Event_MetadataUpdate; Event_MetadataTag;
   Event_ErrorAgent; Event_ErrorCapability; Event_ErrorProvider; Event_TurnFailed].

(* SRC domains/session/event_store/types/macros.rs:64-71! EventType::as_str *)
Definition event_type_as_str (t : EventType) : string :=
  match t with
  | Event_SessionStart => "session.start"
  | Event_SessionEnd => "session.end"
  | Event_SessionFork => "session.fork"
  | Event_MessageUser => "message.user"
  | Event_MessageAssistant => "message.assistant"
  | Event_MessageSystem => "message.system"
  | Event_ModelProviderRequest => "model.provider_request"
  | Event_MessageDeleted => "message.deleted"
  | Event_CapabilityInvocationStarted => "capability.invocation.started"
  | Event_CapabilityInvocationCompleted => "capability.invocation.completed"
  | Event_CapabilityInvocationProgress => "capability.invocation.progress"
  | Event_StreamTextDelta => "stream.text_delta"
  | Event_StreamThinkingDelta => "stream.thinking_delta"
  | Event_StreamTurnStart => "stream.turn_start"
  | Event_StreamTurnEnd => "stream.turn_end"
  | Event_CompactBoundary => "compact.boundary"
  | Event_CompactSummaryStaging => "compact.summary_staging"
  | Event_ContextCleared => "context.cleared"
  | Event_MetadataUpdate => "metadata.update"
  | Event_MetadataTag => "metadata.tag"
  | Event_ErrorAgent => "error.agent"
  | Event_ErrorCapability => "error.capability"
  | Event_ErrorProvider => "error.provider"
  | Event_TurnFailed => "turn.failed"
  end.

(** The arms of the match are the wire strings, in the order of the table. *)
(* SRC domains/session/event_store/types/macros.rs:102-112! EventType::from_str *)
Definition event_type_from_str (s : string) : result string EventType :=
  match List.find (fun t => event_type_as_str t =s s) ALL_EVENT_TYPES with
  | Some t => Ok t
  | None => Err ("unknown event type: " +s s)
  end.

Lemma event_type_round_trip t : event_type_from_str (event_type_as_str t) = Ok t.
Proof. by destruct t. Qed.

(** ** Events and messages *)

(* SRC domains/session/event_store/types/base.rs:16-46 SessionEvent *)
Record SessionEvent := {
  se_id : string;
  se_parent_id : option string;
  se_session_id : string;
  se_workspace_id : string;
  se_timestamp : string;
  se_event_type : EventType;
  se_sequence : Z;
  se_checksum : option string;
  se_payload : Value
}.

(* SRC domains/session/event_store/types/state.rs:10-24 Message *)
Record Message := {
  ms_role : string;
  ms_content : Value;
  ms_invocation_id : option string;
  ms_is_error : option bool
}.

(* SRC domains/session/event_store/types/state.rs:26-34 MessageWithEventId *)
Record MessageWithEventId := {
  mw_message : Message;
  mw_event_ids : list (option string)
}.

(* SRC domains/session/event_store/types/payloads/token_usage.rs:48-63 TokenTotals *)
Record TokenTotals := {
  tt_input_tokens : Z;
  tt_output_tokens : Z;
  tt_cache_read_tokens : Z;
  tt_cache_creation_tokens : Z
}.
Definition no_tokens : TokenTotals :=
  {| tt_input_tokens := 0; tt_output_tokens := 0; tt_cache_read_tokens := 0;
     tt_cache_creation_tokens := 0 |}.

(* SRC domains/session/event_store/reconstruction/mod.rs:33-46 ReconstructionResult *)
Record ReconstructionResult := {
  rr_messages_with_event_ids : list MessageWithEventId;
  rr_token_usage : TokenTotals;
  rr_turn_count : Z;
  rr_reasoning_level : option string;
  rr_system_prompt : option string
}.

(* SRC domains/session/event_store/reconstruction/mod.rs:48-53 PendingCapabilityResult *)
Record PendingCapabilityResult := {
  pc_invocation_id : string;
  pc_content : string;
  pc_is_error : bool
}.

(* SRC domains/session/event_store/reconstruction/mod.rs:27-28! COMPACTION_SUMMARY_PREFIX *)
Definition COMPACTION_SUMMARY_PREFIX : string := "[Context from earlier in this conversation]".
(* SRC domains/session/event_store/reconstruction/mod.rs:29-31! COMPACTION_ACK_TEXT *)
Definition COMPACTION_ACK_TEXT : string :=
  "I understand the previous context. Let me continue helping you.".

(** ** First pass *)

(* SRC domains/session/event_store/reconstruction/mod.rs:71-76 Metadata *)
Record Metadata := {
  md_deleted_event_ids : gset string;
  md_capability_invocation_args_map : gmap string Value;
  md_system_prompt : option string
}.

Definition str_at (v : Value) (key : string) : option string :=
  match vget v key with Some w => as_str w | None => None end.
Definition i64_at (v : Value) (key : string) : option Z :=
  match vget v key with Some w => as_i64 w | None => None end.
Definition bool_at (v : Value) (key : string) : option bool :=
  match vget v key with Some w => as_bool w | None => None end.

(* SRC domains/session/event_store/reconstruction/mod.rs:84-105! collect_metadata *)
Definition collect_event (event : SessionEvent) (m : Metadata) : Metadata :=
  let payload := se_payload event in
  match se_event_type event with
  | Event_MessageDeleted =>
      match str_at payload "targetEventId" with
      | Some target =>
          {| md_deleted_event_ids := {[target]} ∪ md_deleted_event_ids m;
             md_capability_invocation_args_map := md_capability_invocation_args_map m;
             md_system_prompt := md_system_prompt m |}
      | None => m
      end
  | Event_CapabilityInvocationStarted =>
      match str_at payload "invocationId", vget payload "arguments" with
      | Some id, Some a =>
          {| md_deleted_event_ids := md_deleted_event_ids m;
             md_capability_invocation_args_map := <[id := a]> (md_capability_invocation_args_map m);
             md_system_prompt := md_system_prompt m |}
      | _, _ => m
      end
  | Event_SessionStart =>
      match str_at payload "systemPrompt" with
      | Some sp =>
          {| md_deleted_event_ids := md_deleted_event_ids m;
             md_capability_invocation_args_map := md_capability_invocation_args_map m;
             md_system_prompt := Some sp |}
      | None => m
      end
  | _ => m
  end.

(* SRC domains/session/event_store/reconstruction/mod.rs:78-112 collect_metadata *)
Definition collect_metadata (ancestors : list SessionEvent) : Metadata :=
  fold_left (fun m event => collect_event event m) ancestors
    {| md_deleted_event_ids := ∅; md_capability_invocation_args_map := ∅;
       md_system_prompt := None |}.

(** ** Helpers *)

Definition block_is_invocation (block : Value) : bool :=
  match str_at block "type" with Some t => t =s "capability_invocation" | None => false end.

(* SRC domains/session/event_store/reconstruction/mod.rs:378-390 extract_capability_invocation_ids *)
Definition extract_capability_invocation_ids (content : Value) : list string :=
  match content with
  | VArray arr => omap (fun block => str_at block "id") (List.filter block_is_invocation arr)
  | _ => []
  end.

(* SRC domains/session/event_store/reconstruction/mod.rs:445-453 content_has_capability_invocation *)
Definition content_has_capability_invocation (content : Value) : bool :=
  match content with VArray arr => existsb block_is_invocation arr | _ => false end.

Definition result_message (id content : string) (is_error : bool) : MessageWithEventId :=
  {| mw_message := {| ms_role := "capabilityResult"; ms_content := VString content;
                      ms_invocation_id := Some id; ms_is_error := Some is_error |};
     mw_event_ids := [None] |}.

(** The pending results are drained. *)
(* SRC domains/session/event_store/reconstruction/mod.rs:392-408 flush_capability_results *)
Definition flush_capability_results (combined : list MessageWithEventId)
    (pending : list PendingCapabilityResult) : list MessageWithEventId :=
  combined ++ map (fun tr => result_message (pc_invocation_id tr) (pc_content tr) (pc_is_error tr))
                pending.

(* SRC domains/session/event_store/reconstruction/mod.rs:434-443 normalize_user_content *)
Definition normalize_user_content (content : Value) : list Value :=
  match content with
  | VString s => [j{"type" ~> "text"; "text" ~> s}]
  | VArray arr => arr
  | _ => []
  end.

Definition array_or_empty (v : Value) : list Value := match v with VArray a => a | _ => [] end.

(* SRC domains/session/event_store/reconstruction/mod.rs:410-432 merge_message_content *)
Definition merge_message_content (existing incoming : Value) (role : string) : Value :=
  if role =s "user"
  then VArray (normalize_user_content existing ++ normalize_user_content incoming)
  else VArray (array_or_empty existing ++ array_or_empty incoming).

Definition restore_block (args : gmap string Value) (block : Value) : Value :=
  let is_truncated :=
    match vget block "arguments" with
    | Some i => default false (bool_at i "_truncated")
    | None => false
    end in
  if block_is_invocation block && is_truncated
  then match str_at block "id", block with
       | Some id, VObject fields =>
           match args !! id with
           | Some full_args => VObject (obj_insert fields "arguments" full_args)
           | None => block
           end
       | _, _ => block
       end
  else block.

(* SRC domains/session/event_store/reconstruction/mod.rs:455-490 restore_truncated_inputs *)
Definition restore_truncated_inputs (content : Value) (args : gmap string Value) : Value :=
  match content with VArray arr => VArray (map (restore_block args) arr) | other => other end.

(* SRC domains/session/event_store/reconstruction/mod.rs:492-506 accumulate_tokens *)
Definition accumulate_tokens (payload : Value) (tokens : TokenTotals) : TokenTotals :=
  match vget payload "tokenUsage" with
  | Some tu =>
      let add old key := wrapping_add_i64 old (default 0 (i64_at tu key)) in
      {| tt_input_tokens := add (tt_input_tokens tokens) "inputTokens";
         tt_output_tokens := add (tt_output_tokens tokens) "outputTokens";
         tt_cache_read_tokens := add (tt_cache_read_tokens tokens) "cacheReadTokens";
         tt_cache_creation_tokens :=
           add (tt_cache_creation_tokens tokens) "cacheCreationTokens" |}
  | None => tokens
  end.

(** ** Second pass *)

(* SRC domains/session/event_store/reconstruction/mod.rs:114-122 BuildState *)
Record BuildState := {
  bs_combined : list MessageWithEventId;
  bs_tokens : TokenTotals;
  bs_turn_count : Z;
  bs_current_turn : Z;
  bs_pending_capability_results : list PendingCapabilityResult
}.

Definition set_messages (combined : list MessageWithEventId)
    (pending : list PendingCapabilityResult) (st : BuildState) : BuildState :=
  {| bs_combined := combined; bs_tokens := bs_tokens st; bs_turn_count := bs_turn_count st;
     bs_current_turn := bs_current_turn st; bs_pending_capability_results := pending |}.
Definition add_tokens (payload : Value) (st : BuildState) : BuildState :=
  {| bs_combined := bs_combined st; bs_tokens := accumulate_tokens payload (bs_tokens st);
     bs_turn_count := bs_turn_count st; bs_current_turn := bs_current_turn st;
     bs_pending_capability_results := bs_pending_capability_results st |}.

Definition newlines : string := String (ascii_of_N 10) (String (ascii_of_N 10) "").

(* SRC domains/session/event_store/reconstruction/mod.rs:181-203 inject_compaction_summary_pair *)
Definition inject_compaction_summary_pair (summary : string) (st : BuildState) : BuildState :=
  set_messages
    [{| mw_message := {| ms_role := "user";
                         ms_content := VString (COMPACTION_SUMMARY_PREFIX +s newlines +s summary);
                         ms_invocation_id := None; ms_is_error := None |};
        mw_event_ids := [None] |};
     {| mw_message := {| ms_role := "assistant";
                         ms_content := j[j{"type" ~> "text"; "text" ~> COMPACTION_ACK_TEXT}];
                         ms_invocation_id := None; ms_is_error := None |};
        mw_event_ids := [None] |}] [] st.

(* SRC domains/session/event_store/reconstruction/mod.rs:173-179 handle_compact_boundary *)
Definition handle_compact_boundary (event : SessionEvent) (st : BuildState) : BuildState :=
  match str_at (se_payload event) "summary" with
  | Some summary => inject_compaction_summary_pair summary st
  | None => st
  end.

(* SRC domains/session/event_store/reconstruction/mod.rs:205-209 handle_context_cleared *)
Definition handle_context_cleared (st : BuildState) : BuildState := set_messages [] [] st.

(* SRC domains/session/event_store/reconstruction/mod.rs:211-237 handle_capability_result *)
Definition handle_capability_result (event : SessionEvent) (st : BuildState) : BuildState :=
  let payload := se_payload event in
  let content :=
    match (match vget payload "modelContextContent" with
           | Some v => Some v
           | None => vget payload "content"
           end) with
    | Some v => default "" (as_str v)
    | None => ""
    end in
  set_messages (bs_combined st)
    (bs_pending_capability_results st ++
       [{| pc_invocation_id := default "" (str_at payload "invocationId"); pc_content := content;
           pc_is_error := default false (bool_at payload "isError") |}]) st.

(** The last message takes the content if it has the role, and otherwise a new
    message is pushed. *)
(* SRC domains/session/event_store/reconstruction/mod.rs:281-299! handle_message_assistant *)
Definition merge_or_push (role : string) (content : Value) (id : string)
    (combined : list MessageWithEventId) : list MessageWithEventId :=
  let fresh :=
    {| mw_message := {| ms_role := role; ms_content := content; ms_invocation_id := None;
                        ms_is_error := None |};
       mw_event_ids := [Some id] |} in
  match last combined with
  | Some e =>
      if ms_role (mw_message e) =s role
      then removelast combined ++
             [{| mw_message :=
                   {| ms_role := ms_role (mw_message e);
                      ms_content := merge_message_content (ms_content (mw_message e)) content role;
                      ms_invocation_id := ms_invocation_id (mw_message e);
                      ms_is_error := ms_is_error (mw_message e) |};
                 mw_event_ids := mw_event_ids e ++ [Some id] |}]
      else combined ++ [fresh]
  | None => combined ++ [fresh]
  end.

(* SRC domains/session/event_store/reconstruction/mod.rs:239-260 handle_message_user *)
Definition handle_message_user (event : SessionEvent) (st : BuildState) : BuildState :=
  let content := jopt (vget (se_payload event) "content") in
  add_tokens (se_payload event)
    (set_messages (merge_or_push "user" content (se_id event) (bs_combined st)) [] st).

Definition last_has_role (role : string) (combined : list MessageWithEventId) : bool :=
  match last combined with Some e => ms_role (mw_message e) =s role | None => false end.

(* SRC domains/session/event_store/reconstruction/mod.rs:262-314 handle_message_assistant *)
Definition handle_message_assistant (event : SessionEvent) (metadata : Metadata)
    (st : BuildState) : BuildState :=
  let content := jopt (vget (se_payload event) "content") in
  let restored := restore_truncated_inputs content (md_capability_invocation_args_map metadata) in
  let pending := bs_pending_capability_results st in
  let flush_first := last_has_role "assistant" (bs_combined st) && negb (is_nil pending) in
  let combined := if flush_first then flush_capability_results (bs_combined st) pending
                  else bs_combined st in
  let pending := if flush_first then [] else pending in
  let combined := merge_or_push "assistant" restored (se_id event) combined in
  let flush_after := content_has_capability_invocation restored && negb (is_nil pending) in
  let combined := if flush_after then flush_capability_results combined pending else combined in
  let pending := if flush_after then [] else pending in
  let st := add_tokens (se_payload event) (set_messages combined pending st) in
  match i64_at (se_payload event) "turn" with
  | Some turn =>
      if bs_current_turn st <? turn
      then {| bs_combined := bs_combined st; bs_tokens := bs_tokens st; bs_turn_count := turn;
              bs_current_turn := turn;
              bs_pending_capability_results := bs_pending_capability_results st |}
      else st
  | None => st
  end.

(** *** Missing results *)

Definition is_result (m : MessageWithEventId) : bool :=
  ms_role (mw_message m) =s "capabilityResult".

(** The results that follow a message, up to the first other message. *)
(* SRC domains/session/event_store/reconstruction/mod.rs:337-344! inject_missing_capability_results *)
Fixpoint results_run (l : list MessageWithEventId) : list MessageWithEventId :=
  match l with
  | m :: rest => if is_result m then m :: results_run rest else []
  | [] => []
  end.

(** The results to insert after a message that is followed by [rest]. *)
(* SRC domains/session/event_store/reconstruction/mod.rs:332-368! inject_missing_capability_results *)
Definition missing_results (m : MessageWithEventId) (rest : list MessageWithEventId)
  : list MessageWithEventId :=
  if ms_role (mw_message m) =s "assistant"
  then let matched_ids := omap (fun r => ms_invocation_id (mw_message r)) (results_run rest) in
       map (fun id => result_message id "Capability invocation was interrupted." true)
         (List.filter (fun id => negb (existsb (String.eqb id) matched_ids))
            (extract_capability_invocation_ids (ms_content (mw_message m))))
  else [].

(** The scan, from index [i] on. *)
(* SRC domains/session/event_store/reconstruction/mod.rs:328-370! inject_missing_capability_results *)
Fixpoint insertions_from (i : nat) (combined : list MessageWithEventId)
  : list (nat * list MessageWithEventId) :=
  match combined with
  | [] => []
  | m :: rest =>
      let synthetic := missing_results m rest in
      (if is_nil synthetic then [] else [(S i, synthetic)]) ++ insertions_from (S i) rest
  end.

Definition splice (idx : nat) (msgs combined : list MessageWithEventId)
  : list MessageWithEventId := take idx combined ++ msgs ++ drop idx combined.

(* SRC domains/session/event_store/reconstruction/mod.rs:320-376 inject_missing_capability_results *)
Definition inject_missing_capability_results (combined : list MessageWithEventId)
  : list MessageWithEventId :=
  fold_left (fun combined '(idx, msgs) => splice idx msgs combined)
    (rev (insertions_from 0 combined)) combined.

(** *** The pass *)

(* SRC domains/session/event_store/reconstruction/mod.rs:134-146! build_messages *)
Definition build_step (metadata : Metadata) (st : BuildState) (event : SessionEvent)
  : BuildState :=
  if bool_decide (se_id event ∈ md_deleted_event_ids metadata) then st else
  match se_event_type event with
  | Event_CompactBoundary => handle_compact_boundary event st
  | Event_ContextCleared => handle_context_cleared st
  | Event_CapabilityInvocationCompleted => handle_capability_result event st
  | Event_MessageUser => handle_message_user event st
  | Event_MessageAssistant => handle_message_assistant event metadata st
  | _ => st
  end.

Definition initial_build : BuildState :=
  {| bs_combined := []; bs_tokens := no_tokens; bs_turn_count := 0; bs_current_turn := 0;
     bs_pending_capability_results := [] |}.

(** The results that wait at the end are flushed after an assistant message that
    asks for some. *)
(* SRC domains/session/event_store/reconstruction/mod.rs:148-155! build_messages *)
Definition flush_at_end (st : BuildState) : list MessageWithEventId :=
  match last (bs_combined st) with
  | Some m =>
      if negb (is_nil (bs_pending_capability_results st))
         && (ms_role (mw_message m) =s "assistant")
         && content_has_capability_invocation (ms_content (mw_message m))
      then flush_capability_results (bs_combined st) (bs_pending_capability_results st)
      else bs_combined st
  | None => bs_combined st
  end.

(* SRC domains/session/event_store/reconstruction/mod.rs:124-171 build_messages *)
Definition build_messages (ancestors : list SessionEvent) (metadata : Metadata)
  : ReconstructionResult :=
  let st := fold_left (build_step metadata) ancestors initial_build in
  {| rr_messages_with_event_ids := inject_missing_capability_results (flush_at_end st);
     rr_token_usage := bs_tokens st; rr_turn_count := bs_turn_count st;
     rr_reasoning_level := None; rr_system_prompt := md_system_prompt metadata |}.

(* SRC domains/session/event_store/reconstruction/mod.rs:55-69 reconstruct_from_events *)
Definition reconstruct_from_events (ancestors : list SessionEvent) : ReconstructionResult :=
  build_messages ancestors (collect_metadata ancestors).

(** ** Every invocation has a result *)

(** The messages with the missing results in place, by recursion on the list. *)
Fixpoint with_results (l : list MessageWithEventId) : list MessageWithEventId :=
  match l with [] => [] | m :: rest => m :: missing_results m rest ++ with_results rest end.

Lemma insertions_spliced p l :
  fold_left (fun combined '(idx, msgs) => splice idx msgs combined)
    (rev (insertions_from (List.length p) l)) (p ++ l) = p ++ with_results l.
Proof.
  revert p. induction l as [|m rest IH]; intros p; [done|].
  cbn [insertions_from]. rewrite rev_app_distr, fold_left_app.
  replace (p ++ m :: rest) with ((p ++ [m]) ++ rest) by by rewrite <- app_assoc.
  replace (S (List.length p)) with (List.length (p ++ [m])) by (rewrite List.length_app; simpl; lia).
  rewrite IH. cbn [with_results].
  destruct (missing_results m rest) as [|r rs]; [by rewrite <- app_assoc|].
  cbn [is_nil app rev fold_left]. unfold splice.
  rewrite take_app_length, drop_app_length. by rewrite <- !app_assoc.
Qed.

Lemma inject_with_results l : inject_missing_capability_results l = with_results l.
Proof. exact (insertions_spliced [] l). Qed.

Lemma missing_results_are_results m rest : Forall (fun r => is_result r = true) (missing_results m rest).
Proof.
  unfold missing_results. destruct (_ =s _); [|done]. apply Forall_forall.
  intros r (id & -> & _)%list_elem_of_fmap. done.
Qed.
Lemma missing_results_none m rest : is_result m = true -> missing_results m rest = [].
Proof. unfold missing_results, is_result. by intros ->%String.eqb_eq. Qed.

Lemma results_run_app l l' :
  Forall (fun r => is_result r = true) l -> results_run (l ++ l') = l ++ results_run l'.
Proof. induction 1 as [|r l Hr _ IH]; [done|]. simpl. by rewrite Hr, IH. Qed.

Lemma results_run_kept l r : r ∈ results_run l -> r ∈ results_run (with_results l).
Proof.
  induction l as [|m rest IH]; [done|]. simpl. destruct (is_result m) eqn:Hm; [|by intros ?%not_elem_of_nil].
  rewrite missing_results_none by done. simpl. rewrite !elem_of_cons. naive_solver.
Qed.

Definition answered (m : MessageWithEventId) (after : list MessageWithEventId) : Prop :=
  ms_role (mw_message m) = "assistant" -> forall id,
  id ∈ extract_capability_invocation_ids (ms_content (mw_message m)) ->
  exists r, r ∈ results_run after /\ ms_invocation_id (mw_message r) = Some id.

Lemma missing_results_answer m rest : answered m (missing_results m rest ++ with_results rest).
Proof.
  intros Hrole id Hid. rewrite (results_run_app _ _ (missing_results_are_results _ _)).
  destruct (existsb (String.eqb id)
              (omap (fun r => ms_invocation_id (mw_message r)) (results_run rest))) eqn:Hm.
  - apply existsb_exists in Hm as (id' & Hin%list_elem_of_In & <-%String.eqb_eq).
    apply list_elem_of_omap in Hin as (r & Hr & Hi). exists r. split; [|done].
    apply elem_of_app. right. by apply results_run_kept.
  - exists (result_message id "Capability invocation was interrupted." true). split; [|done].
    apply elem_of_app. left. unfold missing_results. rewrite Hrole. simpl.
    apply list_elem_of_fmap. exists id. split; [done|].
    apply list_elem_of_In, filter_In. split; [by apply list_elem_of_In|by rewrite Hm].
Qed.

Lemma with_results_answered l before m after :
  with_results l = before ++ m :: after -> answered m after.
Proof.
  revert before. induction l as [|x rest IH]; intros before E; [by destruct before|].
  simpl in E. destruct before as [|b before].
  - injection E as <- <-. apply missing_results_answer.
  - injection E as _ E. apply app_eq_inv in E as [(k & E1 & E2)|(k & E1 & E2)].
    + destruct k as [|y k]; [by eapply (IH []); symmetry|]. injection E2 as -> _.
      pose proof (missing_results_are_results x rest) as Hall. rewrite E1 in Hall.
      apply Forall_app in Hall as [_ Hy%Forall_inv].
      unfold answered, is_result in *. apply String.eqb_eq in Hy. by rewrite Hy.
    + by apply (IH k).
Qed.

(** C29: In every rebuilt conversation, each capability invocation of an assistant message
    is answered: among the results that directly follow the message one carries its id,
    whatever results were lost, interrupted or deleted (model services refuse a conversation
    with an unanswered call). *)
Theorem every_capability_invocation_is_answered ancestors before m after :
  rr_messages_with_event_ids (reconstruct_from_events ancestors) = before ++ m :: after ->
  ms_role (mw_message m) = "assistant" -> forall id,
  id ∈ extract_capability_invocation_ids (ms_content (mw_message m)) ->
  exists r, r ∈ results_run after /\ ms_invocation_id (mw_message r) = Some id.
Proof. intros E. simpl in E. rewrite inject_with_results in E. exact (with_results_answered _ _ _ _ E). Qed.

(** ** Roles do not repeat *)

Definition msg_role (m : MessageWithEventId) : string := ms_role (mw_message m).

Fixpoint alternating (l : list MessageWithEventId) : Prop :=
  match l with
  | a :: (b :: _) as rest => (msg_role a = msg_role b -> is_result a = true) /\ alternating rest
  | _ => True
  end.

Lemma alternating_snoc l m :
  alternating (l ++ [m]) <->
  alternating l /\ (forall e, last l = Some e -> msg_role e = msg_role m -> is_result e = true).
Proof.
  induction l as [|a l IH]; [naive_solver|]. destruct l as [|b l].
  - simpl. naive_solver.
  - change (alternating ((a :: b :: l) ++ [m])) with
      ((msg_role a = msg_role b -> is_result a = true) /\ alternating ((b :: l) ++ [m])).
    rewrite IH. change (last (a :: b :: l)) with (last (b :: l)).
    change (alternating (a :: b :: l)) with
      ((msg_role a = msg_role b -> is_result a = true) /\ alternating (b :: l)). naive_solver.
Qed.

Lemma alternating_results l l' :
  Forall (fun r => is_result r = true) l -> alternating l' -> alternating (l ++ l').
Proof.
  induction 1 as [|r l Hr _ IH]; [done|]. intros Hl. specialize (IH Hl). simpl.
  by destruct (l ++ l').
Qed.

Lemma alternating_flush l results :
  Forall (fun r => is_result r = true) results -> alternating l -> alternating (l ++ results).
Proof.
  intros Hr. revert l. induction Hr as [|r results Hr _ IH]; intros l Hl; [by rewrite app_nil_r|].
  rewrite cons_middle, app_assoc. apply IH. apply alternating_snoc. split; [done|].
  intros e _ E. unfold is_result, msg_role in *. by rewrite E.
Qed.

Lemma flushed_results pending :
  Forall (fun r => is_result r = true)
    (map (fun tr => result_message (pc_invocation_id tr) (pc_content tr) (pc_is_error tr)) pending).
Proof. induction pending; constructor; done. Qed.

Lemma last_removelast {A} (l : list A) e : last l = Some e -> l = removelast l ++ [e].
Proof.
  destruct l as [|x l] using rev_ind; [done|]. rewrite last_snoc, removelast_last. by intros [= ->].
Qed.

Lemma alternating_merge role content id l : alternating l -> alternating (merge_or_push role content id l).
Proof.
  intros Hl. unfold merge_or_push. destruct (last l) as [e|] eqn:He.
  - destruct (String.eqb_spec (ms_role (mw_message e)) role) as [Hr|Hr].
    + rewrite (last_removelast l e He), alternating_snoc in Hl. apply alternating_snoc. exact Hl.
    + apply alternating_snoc. split; [done|]. intros e'. rewrite He. intros [= <-]. done.
  - apply alternating_snoc. rewrite He. done.
Qed.

Lemma alternating_with_results l : alternating l -> alternating (with_results l).
Proof.
  induction l as [|m rest IH]; [done|]. intros Hl.
  assert (alternating (with_results rest)) as Hrest by (apply IH; by destruct rest; [|apply Hl]).
  assert (Forall (fun r => is_result r = true) (missing_results m rest)) as Hm
    by apply missing_results_are_results.
  cbn [with_results]. destruct (missing_results m rest) as [|r rs] eqn:E.
  - destruct rest as [|b rest]; [done|]. split; [apply Hl|done].
  - split; [|by apply (alternating_results (r :: rs))].
    intros Hr. apply Forall_inv in Hm. unfold is_result, msg_role in *. by rewrite Hr.
Qed.

Lemma alternating_step metadata st event :
  alternating (bs_combined st) -> alternating (bs_combined (build_step metadata st event)).
Proof.
  intros Hst. unfold build_step. destruct (bool_decide _); [done|].
  destruct (se_event_type event); try done; simpl.
  - by apply alternating_merge.
  - unfold handle_message_assistant.
    set (st' := add_tokens _ _). assert (alternating (bs_combined st')) as Hl.
    { subst st'. simpl. repeat case_match; unfold flush_capability_results;
        auto using alternating_flush, alternating_merge, flushed_results. }
    clearbody st'. by repeat case_match.
  - unfold handle_compact_boundary. case_match; [|done]. simpl. done.
Qed.

Lemma alternating_built metadata events st :
  alternating (bs_combined st) -> alternating (bs_combined (fold_left (build_step metadata) events st)).
Proof.
  revert st. induction events as [|e events IH]; intros st Hst; [done|].
  apply IH, alternating_step, Hst.
Qed.

Lemma alternating_reads l before a b after :
  alternating l -> l = before ++ a :: b :: after -> msg_role a = msg_role b -> is_result a = true.
Proof.
  intros Hl ->. induction before as [|x before IH]; [apply Hl|]. apply IH.
  destruct before; apply Hl.
Qed.

(** In every rebuilt conversation two neighbouring messages have different roles,
    unless both are capability results. *)
Theorem roles_never_repeat ancestors before a b after :
  rr_messages_with_event_ids (reconstruct_from_events ancestors) = before ++ a :: b :: after ->
  ms_role (mw_message a) = ms_role (mw_message b) -> ms_role (mw_message a) = "capabilityResult".
Proof.
  intros E Hr. apply String.eqb_eq. eapply (alternating_reads _ before a b after); [|exact E|exact Hr].
  simpl. rewrite inject_with_results. apply alternating_with_results. unfold flush_at_end.
  set (st := fold_left _ _ _). assert (alternating (bs_combined st)) as Hst by by apply alternating_built.
  repeat case_match; try done. apply alternating_flush; [apply flushed_results|done].
Qed.

(** ** The conversation is the live history *)

(** What a conversation says, in order: the content blocks of the user and assistant messages and
    the capability results; and the events that its messages come from. *)
Inductive Utterance : Type :=
| Says (role : string) (block : Value)
| Answers (result : PendingCapabilityResult).
Definition message_blocks (role : string) (content : Value) : list Value :=
  if role =s "user" then normalize_user_content content else array_or_empty content.
Definition utterances (m : MessageWithEventId) : list Utterance :=
  if is_result m
  then [Answers {| pc_invocation_id := default "" (ms_invocation_id (mw_message m));
                   pc_content := default "" (as_str (ms_content (mw_message m)));
                   pc_is_error := default false (ms_is_error (mw_message m)) |}]
  else map (Says (msg_role m)) (message_blocks (msg_role m) (ms_content (mw_message m))).
Definition transcript (l : list MessageWithEventId) : list Utterance := List.concat (map utterances l).
Definition sources (l : list MessageWithEventId) : list (string * string) :=
  List.concat (map (fun m => map (pair (msg_role m)) (omap (fun x => x) (mw_event_ids m))) l).

(** The events that a later event of the history deletes. *)
Definition deletes (id : string) (event : SessionEvent) : bool :=
  match se_event_type event, str_at (se_payload event) "targetEventId" with
  | Event_MessageDeleted, Some target => target =s id
  | _, _ => false
  end.
Definition live_events (ancestors : list SessionEvent) : list SessionEvent :=
  List.filter (fun e => negb (existsb (deletes (se_id e)) ancestors)) ancestors.

(** The arguments recorded for an invocation: the last ones. *)
Definition recorded_arguments (ancestors : list SessionEvent) : gmap string Value :=
  md_capability_invocation_args_map (collect_metadata ancestors).

(** The result that an event reports. *)
Definition event_result (event : SessionEvent) : option PendingCapabilityResult :=
  match se_event_type event with
  | Event_CapabilityInvocationCompleted =>
      let payload := se_payload event in
      Some {| pc_invocation_id := default "" (str_at payload "invocationId");
              pc_content := default "" (match vget payload "modelContextContent" with
                                        | Some v => as_str v
                                        | None => vget payload "content" ≫= as_str
                                        end);
              pc_is_error := default false (bool_at payload "isError") |}
  | _ => None
  end.
Definition summary_utterances (summary : string) : list Utterance :=
  [Says "user" (j{"type" ~> "text"; "text" ~> (COMPACTION_SUMMARY_PREFIX +s newlines +s summary)});
   Says "assistant" (j{"type" ~> "text"; "text" ~> COMPACTION_ACK_TEXT})].

(** Who spoke last, and for the assistant whether that turn invokes a capability. *)
Inductive Floor : Type := Floor_Nobody | Floor_User | Floor_Assistant (asks : bool) | Floor_Results.
Record Telling := {
  tl_sources : list (string * string);
  tl_heard : list Utterance;
  tl_waiting : list PendingCapabilityResult;
  tl_floor : Floor
}.
Definition nothing_told : Telling :=
  {| tl_sources := []; tl_heard := []; tl_waiting := []; tl_floor := Floor_Nobody |}.

(** Results wait until the assistant turn that is open continues, and come before its continuation;
    results that arrive while no assistant turn is open come after the next assistant message that
    invokes a capability. *)
Definition assistant_speaks (id : string) (content : list Value) (t : Telling) : Telling :=
  let asks := existsb block_is_invocation content in
  let said := map (Says "assistant") content in
  let ids := tl_sources t ++ [("assistant", id)] in
  match tl_floor t, tl_waiting t with
  | Floor_Assistant asked, [] =>
      {| tl_sources := ids; tl_heard := tl_heard t ++ said; tl_waiting := [];
         tl_floor := Floor_Assistant (asked || asks) |}
  | Floor_Assistant _, waiting =>
      {| tl_sources := ids; tl_heard := tl_heard t ++ map Answers waiting ++ said; tl_waiting := [];
         tl_floor := Floor_Assistant asks |}
  | _, waiting =>
      if asks && negb (is_nil waiting)
      then {| tl_sources := ids; tl_heard := tl_heard t ++ said ++ map Answers waiting; tl_waiting := [];
              tl_floor := Floor_Results |}
      else {| tl_sources := ids; tl_heard := tl_heard t ++ said; tl_waiting := waiting;
              tl_floor := Floor_Assistant asks |}
  end.

(** One event after another: a compaction starts again from its summary, a cleared context from
    nothing, a user message ends the wait for results. *)
Definition tell (args : gmap string Value) (t : Telling) (event : SessionEvent) : Telling :=
  let content := jopt (vget (se_payload event) "content") in
  match se_event_type event with
  | Event_CompactBoundary =>
      match str_at (se_payload event) "summary" with
      | Some summary => {| tl_sources := []; tl_heard := summary_utterances summary; tl_waiting := [];
                           tl_floor := Floor_Assistant false |}
      | None => t
      end
  | Event_ContextCleared => nothing_told
  | Event_MessageUser =>
      {| tl_sources := tl_sources t ++ [("user", se_id event)];
         tl_heard := tl_heard t ++ map (Says "user") (normalize_user_content content); tl_waiting := [];
         tl_floor := Floor_User |}
  | Event_MessageAssistant =>
      assistant_speaks (se_id event) (array_or_empty (restore_truncated_inputs content args)) t
  | _ =>
      {| tl_sources := tl_sources t; tl_heard := tl_heard t;
         tl_waiting := tl_waiting t ++ option_list (event_result event); tl_floor := tl_floor t |}
  end.
Definition history (ancestors : list SessionEvent) : Telling :=
  fold_left (tell (recorded_arguments ancestors)) (live_events ancestors) nothing_told.
(** At the end the open assistant turn gets its results if it asked for some. *)
Definition told (t : Telling) : list Utterance :=
  tl_heard t ++ match tl_floor t with Floor_Assistant true => map Answers (tl_waiting t) | _ => [] end.

Lemma sources_app a b : sources (a ++ b) = sources a ++ sources b.
Proof. unfold sources. by rewrite map_app, List.concat_app. Qed.
Lemma transcript_app a b : transcript (a ++ b) = transcript a ++ transcript b.
Proof. unfold transcript. by rewrite map_app, List.concat_app. Qed.

(** Results stand for no event. *)
Definition silent (m : MessageWithEventId) : Prop := mw_event_ids m = [None].
Lemma sources_silent l : Forall silent l -> sources l = [].
Proof. unfold sources. induction 1 as [|m l Hi _ IH]; [done|]. simpl. by rewrite IH, Hi. Qed.
Lemma sources_with_results l : sources (with_results l) = sources l.
Proof.
  induction l as [|m rest IH]; [done|].
  assert (Forall silent (missing_results m rest)) as H%sources_silent.
  { unfold missing_results. case_match; [|done]. apply Forall_forall.
    intros r (id & -> & _)%list_elem_of_fmap. done. }
  change (sources ([m] ++ missing_results m rest ++ with_results rest) = sources ([m] ++ rest)).
  by rewrite !sources_app, H, IH.
Qed.
Lemma sources_flush l pending : sources (flush_capability_results l pending) = sources l.
Proof.
  unfold flush_capability_results. rewrite sources_app, (sources_silent (map _ pending)); [apply app_nil_r|].
  induction pending; constructor; done.
Qed.
Lemma transcript_flush l pending :
  transcript (flush_capability_results l pending) = transcript l ++ map Answers pending.
Proof.
  unfold flush_capability_results. rewrite transcript_app. f_equal.
  induction pending as [|[] pending IH]; [done|]. cbn [map]. by rewrite <- IH.
Qed.

Lemma merged_blocks role existing incoming :
  message_blocks role (merge_message_content existing incoming role)
  = message_blocks role existing ++ message_blocks role incoming.
Proof. unfold message_blocks, merge_message_content. by destruct (role =s "user"). Qed.

Lemma merge_told role content id l :
  role =s "capabilityResult" = false ->
  transcript (merge_or_push role content id l)
    = transcript l ++ map (Says role) (message_blocks role content) /\
  sources (merge_or_push role content id l) = sources l ++ [(role, id)].
Proof.
  intros Hrole. unfold merge_or_push. destruct (last l) as [e|] eqn:He.
  - destruct (String.eqb_spec (ms_role (mw_message e)) role) as [Hr|Hr].
    + apply last_removelast in He. rewrite He, removelast_last, !transcript_app, !sources_app.
      unfold transcript at 2 4, sources at 2 4, utterances, is_result, msg_role. simpl.
      rewrite Hr, Hrole, !app_nil_r, omap_app, merged_blocks, !map_app, <- !app_assoc. done.
    + rewrite transcript_app, sources_app. unfold transcript at 2, sources at 2, utterances, is_result. simpl.
      by rewrite Hrole, !app_nil_r.
  - rewrite transcript_app, sources_app. unfold transcript at 2, sources at 2, utterances, is_result. simpl.
    by rewrite Hrole, !app_nil_r.
Qed.

Definition floor_of (l : list MessageWithEventId) : Floor :=
  match last l with
  | None => Floor_Nobody
  | Some m =>
      if msg_role m =s "user" then Floor_User
      else if msg_role m =s "assistant" then Floor_Assistant (content_has_capability_invocation (ms_content (mw_message m)))
      else Floor_Results
  end.
Definition view (st : BuildState) : Telling :=
  {| tl_sources := sources (bs_combined st); tl_heard := transcript (bs_combined st);
     tl_waiting := bs_pending_capability_results st; tl_floor := floor_of (bs_combined st) |}.

Lemma asks_array content : content_has_capability_invocation content = existsb block_is_invocation (array_or_empty content).
Proof. by destruct content. Qed.
Lemma floor_user content id l : floor_of (merge_or_push "user" content id l) = Floor_User.
Proof.
  unfold floor_of, merge_or_push. destruct (last l) as [e|]; [destruct (_ =s _) eqn:E|];
    rewrite last_snoc; unfold msg_role; simpl; by rewrite ?E.
Qed.
Lemma floor_assistant content id l :
  floor_of (merge_or_push "assistant" content id l) =
  Floor_Assistant (match floor_of l with Floor_Assistant asked => asked | _ => false end
                   || content_has_capability_invocation content).
Proof.
  unfold floor_of, merge_or_push. destruct (last l) as [e|]; [|by rewrite last_snoc].
  destruct (ms_role (mw_message e) =s "assistant") eqn:E; rewrite last_snoc; unfold msg_role; simpl; rewrite E.
  - apply String.eqb_eq in E. rewrite E. simpl. f_equal. by rewrite existsb_app, !asks_array.
  - by destruct (_ =s "user").
Qed.
Lemma floor_flush l pending : pending <> [] -> floor_of (flush_capability_results l pending) = Floor_Results.
Proof.
  intros H. unfold floor_of, flush_capability_results.
  destruct pending as [|r pending] using rev_ind; [done|]. clear. rewrite map_app. simpl. rewrite app_assoc. by rewrite last_snoc.
Qed.
Lemma last_floor l : last_has_role "assistant" l = match floor_of l with Floor_Assistant _ => true | _ => false end.
Proof.
  unfold last_has_role, floor_of, msg_role. destruct (last l) as [e|]; [|done].
  destruct (String.eqb_spec (ms_role (mw_message e)) "user") as [->|]; [done|]. by destruct (_ =s _).
Qed.
Lemma collect_deleted id l m :
  id ∈ md_deleted_event_ids (fold_left (fun m event => collect_event event m) l m)
  <-> id ∈ md_deleted_event_ids m \/ existsb (deletes id) l = true.
Proof.
  revert m. induction l as [|e l IH]; intros m; [simpl; intuition congruence|].
  cbn [fold_left existsb]. rewrite IH, orb_true_iff.
  assert (id ∈ md_deleted_event_ids (collect_event e m)
          <-> id ∈ md_deleted_event_ids m \/ deletes id e = true) as ->; [|tauto].
  clear IH. unfold collect_event, deletes.
  destruct (se_event_type e), (str_at (se_payload e) "targetEventId"); repeat case_match;
    simpl; rewrite ?elem_of_union, ?elem_of_singleton, ?String.eqb_eq; intuition congruence.
Qed.

Lemma deleted_iff id ancestors :
  id ∈ md_deleted_event_ids (collect_metadata ancestors) <-> existsb (deletes id) ancestors = true.
Proof. unfold collect_metadata. rewrite collect_deleted. simpl. set_solver. Qed.


Lemma view_assistant event metadata st :
  view (handle_message_assistant event metadata st) =
  assistant_speaks (se_id event)
    (array_or_empty (restore_truncated_inputs (jopt (vget (se_payload event) "content"))
       (md_capability_invocation_args_map metadata))) (view st).
Proof.
  unfold handle_message_assistant. set (restored := restore_truncated_inputs _ _).
  set (st' := add_tokens _ _).
  match goal with |- _ = ?x => assert (view st' = x) as Hst end.
  { subst st'. rewrite last_floor, !asks_array. unfold view, assistant_speaks, add_tokens, set_messages.
    cbn [tl_floor tl_waiting tl_sources tl_heard bs_combined bs_pending_capability_results].
    destruct (merge_told "assistant" restored (se_id event) (bs_combined st) eq_refl) as [H1 H2].
    pose proof (floor_assistant restored (se_id event) (bs_combined st)) as H3. rewrite asks_array in H3.
    destruct (bs_pending_capability_results st) as [|r pending] eqn:Hp.
    - rewrite !andb_false_r. simpl. rewrite H1, H2, H3. by destruct (floor_of (bs_combined st)).
    - set (flushed := flush_capability_results (bs_combined st) (r :: pending)).
      destruct (merge_told "assistant" restored (se_id event) flushed eq_refl) as [F1 F2].
      pose proof (floor_assistant restored (se_id event) flushed) as F3. rewrite asks_array in F3.
      subst flushed. rewrite transcript_flush in F1. rewrite sources_flush in F2. rewrite floor_flush in F3 by done.
      destruct (floor_of (bs_combined st)) as [| |asked|] eqn:Hfloor; cbn [is_nil negb andb];
        rewrite ?andb_true_r, ?andb_false_r.
      3: { rewrite F1, F2, F3. by rewrite <- app_assoc. }
      all: destruct (existsb block_is_invocation (array_or_empty restored)); cbn [andb];
        rewrite ?transcript_flush, ?sources_flush, ?floor_flush, H1, H2 by done; rewrite ?H3;
        by rewrite <- ?app_assoc. }
  clearbody st'. by repeat case_match.
Qed.

Lemma view_step metadata st event :
  view (build_step metadata st event) =
  if bool_decide (se_id event ∈ md_deleted_event_ids metadata) then view st
  else tell (md_capability_invocation_args_map metadata) (view st) event.
Proof.
  unfold build_step. destruct (bool_decide _); [done|]. unfold tell, event_result.
  destruct (se_event_type event); try (unfold view; simpl; by rewrite ?app_nil_r).
  - unfold view, handle_message_user. simpl.
    destruct (merge_told "user" (jopt (vget (se_payload event) "content")) (se_id event) (bs_combined st) eq_refl)
      as [-> ->]. by rewrite floor_user.
  - apply view_assistant.
  - unfold view, handle_capability_result. simpl. do 3 f_equal.
    by destruct (vget (se_payload event) "modelContextContent"), (vget (se_payload event) "content").
  - unfold handle_compact_boundary. by destruct (str_at (se_payload event) "summary").
Qed.

Lemma view_built metadata deleted events st :
  (forall e, e ∈ events -> bool_decide (se_id e ∈ md_deleted_event_ids metadata) = deleted e) ->
  view (fold_left (build_step metadata) events st)
  = fold_left (tell (md_capability_invocation_args_map metadata))
      (List.filter (fun e => negb (deleted e)) events) (view st).
Proof.
  revert st. induction events as [|e events IH]; intros st Hd; [done|]. simpl.
  rewrite IH by (intros; apply Hd; by right). rewrite view_step, (Hd e) by left.
  by destruct (deleted e).
Qed.
Lemma end_told st :
  transcript (flush_at_end st) = told (view st) /\ sources (flush_at_end st) = sources (bs_combined st).
Proof.
  unfold flush_at_end, told, view, floor_of. cbn [tl_heard tl_floor tl_waiting].
  destruct (last (bs_combined st)) as [m|]; [|by rewrite app_nil_r]. unfold msg_role.
  destruct (String.eqb_spec (ms_role (mw_message m)) "user") as [->|].
  { simpl. by rewrite andb_false_r, app_nil_r. }
  destruct (ms_role (mw_message m) =s "assistant"); [|by rewrite andb_false_r, app_nil_r].
  destruct (content_has_capability_invocation _); [|by rewrite andb_false_r, app_nil_r].
  destruct (bs_pending_capability_results st) eqn:Hp; [by rewrite app_nil_r|]. simpl is_nil. cbn [negb andb].
  by rewrite transcript_flush, sources_flush.
Qed.

(** The results of a transcript come from the events, in order. *)
Definition answers (l : list Utterance) : list PendingCapabilityResult :=
  omap (fun u => match u with Answers r => Some r | Says _ _ => None end) l.
Lemma answers_said role l : answers (map (Says role) l) = [].
Proof. by induction l. Qed.
Lemma answers_answers l : answers (map Answers l) = l.
Proof. induction l as [|r l IH]; [done|]. change (r :: answers (map Answers l) = r :: l). by rewrite IH. Qed.
Lemma answers_app l l' : answers (l ++ l') = answers l ++ answers l'.
Proof. apply omap_app. Qed.
Lemma answers_step args t event results :
  answers (tl_heard t) ++ tl_waiting t `sublist_of` results ->
  answers (tl_heard (tell args t event)) ++ tl_waiting (tell args t event)
    `sublist_of` results ++ option_list (event_result event).
Proof.
  intros H. assert (answers (tl_heard t) `sublist_of` results) as H'.
  { etrans; [|exact H]. by apply sublist_inserts_r. }
  unfold tell, event_result.
  destruct (se_event_type event); cbn [tl_heard tl_waiting option_list]; rewrite ?app_nil_r; try done.
  - by rewrite answers_app, answers_said, app_nil_r.
  - unfold assistant_speaks. destruct (tl_floor t), (tl_waiting t); repeat case_match; cbn [tl_heard tl_waiting];
      by rewrite ?answers_app, ?answers_said, ?answers_answers, ?app_nil_r.
  - rewrite app_assoc. by apply sublist_app.
  - case_match; [apply sublist_nil_l|done].
  - apply sublist_nil_l.
Qed.
Lemma answers_fold args events t results :
  answers (tl_heard t) ++ tl_waiting t `sublist_of` results ->
  answers (told (fold_left (tell args) events t)) `sublist_of` results ++ omap event_result events.
Proof.
  revert t results. induction events as [|e events IH]; intros t results H.
  - simpl. rewrite app_nil_r. unfold told. rewrite answers_app.
    assert (answers (tl_heard t) `sublist_of` results) by (etrans; [|exact H]; by apply sublist_inserts_r).
    destruct (tl_floor t) as [| |[]|]; by rewrite ?answers_answers, ?app_nil_r.
  - simpl. apply (answers_step args t e) in H. apply IH in H.
    by destruct (event_result e); rewrite <- app_assoc in H.
Qed.

(** C6: For every sequence of events, the messages rebuilt by reconstruct_from_events are
    those that the events tell one after another: the ids of the contributing events with
    their roles, and the transcript of content blocks and capability results in order, are
    those of the undeleted events since the last clearing of the context or, after the last
    compaction with a summary, that summary and what follows. Truncated capability arguments
    are restored from the recorded calls. Results wait: they stand before the continuation
    of the assistant turn that is open, or after the next assistant message that invokes a
    capability, and at the end they follow the open turn only if it invoked one; a user
    message drops the results that wait. No result is repeated, reordered or changed, and
    beyond this transcript the rebuilt messages have only the results injected for
    unanswered invocations. *)
Theorem conversation_is_the_live_history ancestors :
  let messages := rr_messages_with_event_ids (reconstruct_from_events ancestors) in
  sources messages = tl_sources (history ancestors) /\
  (exists recorded, messages = with_results recorded /\ transcript recorded = told (history ancestors)) /\
  answers (told (history ancestors)) `sublist_of` omap event_result (live_events ancestors).
Proof.
  set (st := fold_left (build_step (collect_metadata ancestors)) ancestors initial_build).
  assert (view st = history ancestors) as Hv.
  { unfold st. rewrite (view_built _ (fun e => existsb (deletes (se_id e)) ancestors)); [done|].
    intros e _. pose proof (deleted_iff (se_id e) ancestors) as Hd.
    destruct (existsb (deletes (se_id e)) ancestors); case_bool_decide; naive_solver. }
  destruct (end_told st) as [Ht Hs]. rewrite <- Hv. split_and!.
  - simpl. rewrite inject_with_results, sources_with_results. exact Hs.
  - exists (flush_at_end st). split; [apply inject_with_results|done].
  - rewrite Hv. by apply (answers_fold _ _ nothing_told []).
Qed.

(** ** Samples *)

Definition sample_event (id : string) (type : EventType) (payload : Value) : SessionEvent :=
  {| se_id := id; se_parent_id := None; se_session_id := "s"; se_workspace_id := "w";
     se_timestamp := "t"; se_event_type := type; se_sequence := 0; se_checksum := None;
     se_payload := payload |}.
Definition user_says (id text : string) : SessionEvent :=
  sample_event id Event_MessageUser (j{"content" ~> text}).
Definition assistant_asks (id call : string) : SessionEvent :=
  sample_event id Event_MessageAssistant
    (j{"content" ~> j[j{"type" ~> "capability_invocation"; "id" ~> call}] }).
(** A call that was interrupted, and a message that was deleted. *)
Definition interrupted_history : list SessionEvent :=
  [user_says "e1" "hello"; user_says "e2" "wrong"; assistant_asks "e3" "c1";
   sample_event "e4" Event_MessageDeleted (j{"targetEventId" ~> "e2"}); user_says "e5" "stop"].
Definition interrupted_messages : list MessageWithEventId :=
  rr_messages_with_event_ids (reconstruct_from_events interrupted_history).

Example interrupted_conversation :
  map (fun m => (msg_role m, mw_event_ids m)) interrupted_messages
  = [("user", [Some "e1"]); ("assistant", [Some "e3"]); ("capabilityResult", [None]);
     ("user", [Some "e5"])].
Proof. vm_compute. reflexivity. Qed.

Lemma every_capability_invocation_is_answered_witness :
  exists r, r ∈ results_run (drop 2 interrupted_messages)
    /\ ms_invocation_id (mw_message r) = Some "c1".
Proof.
  apply (every_capability_invocation_is_answered interrupted_history (take 1 interrupted_messages)
    {| mw_message := {| ms_role := "assistant";
         ms_content := j[j{"type" ~> "capability_invocation"; "id" ~> "c1"}];
         ms_invocation_id := None; ms_is_error := None |}; mw_event_ids := [Some "e3"] |}).
  - vm_compute. reflexivity.
  - reflexivity.
  - left.
Defined.

(** Two results in a row, as the only messages with the same role. *)
Definition two_results_history : list SessionEvent :=
  [user_says "e1" "go";
   sample_event "e2" Event_MessageAssistant
     (j{"content" ~> j[j{"type" ~> "capability_invocation"; "id" ~> "c1"};
                       j{"type" ~> "capability_invocation"; "id" ~> "c2"}] })].
Lemma roles_never_repeat_witness :
  ms_role (mw_message (result_message "c1" "Capability invocation was interrupted." true))
  = "capabilityResult".
Proof.
  apply (roles_never_repeat two_results_history
    (take 2 (rr_messages_with_event_ids (reconstruct_from_events two_results_history)))
    _ (result_message "c2" "Capability invocation was interrupted." true) []).
  - vm_compute. reflexivity.
  - reflexivity.
Defined.
