(* ===== verification/EventStore.v ===== *)
(** * The session event store

    [domains/session/event_store]: sessions, their append-only event log and the
    workspaces they belong to, kept in SQLite (store/event_store/*.rs over
    sqlite/repositories).  An event points to its parent; a session points to its
    head, and a fork starts with an event whose parent lies in another session, so
    the log is a forest and the conversation of a session is the path from a root
    to its head.

    A table is the list of its rows in the order of insertion; a statement fails on
    the constraints of its table (primary keys, [UNIQUE(session_id, sequence)] and
    the foreign keys, which the connection enforces).  An operation that runs in a
    transaction changes nothing when it fails.  Locks, retries on a busy database
    and the connection pool are not modelled.  Payload columns go through a
    [PayloadStore].  An [f64] is its text; its conversion and addition, the
    redaction of secrets and the model registry's provider detection are
    parameters. *)

From stdpp Require Import base gmap strings list.
From Stdlib Require Import ZArith Ascii String Lia.
From S2P Require Import Prelude Sorting Json Storage PayloadStore Reconstruction.
Import JsonNotations.

#[local] Open Scope Z_scope.

(** ** Errors and rows *)

(** A constraint that failed, a column of another type than the field, or a
    statement that does not parse. *)
Inductive SqlFailure := Sql_Constraint | Sql_ColumnType | Sql_Syntax.

(* SRC domains/session/event_store/errors.rs:9-63 EventStoreError *)
Inductive EventStoreError :=
| Es_Sqlite (failure : SqlFailure)
| Es_Busy (operation : string) (attempts : Z)
| Es_Pool (text : string)
| Es_Serde (text : string)
| Es_Migration (message : string)
| Es_SessionNotFound (id : string)
| Es_EventNotFound (id : string)
| Es_WorkspaceNotFound (id : string)
| Es_BlobNotFound (id : string)
| Es_InvalidOperation (text : string)
| Es_Internal (text : string).
Definition ES (A : Type) : Type := result EventStoreError A.

(** An [INTEGER] column: a sum that leaves [i64] turns it into a [REAL], which is
    no longer read as an integer. *)
Inductive SqlInt := Integer (n : Z) | Real.
Definition sql_add (c : SqlInt) (v : Z) : SqlInt :=
  match c with
  | Integer n =>
      if ((- i64_max - 1 <=? n + v) && (n + v <=? i64_max))%Z then Integer (n + v) else Real
  | Real => Real
  end.
Definition is_integer (c : SqlInt) : bool := match c with Integer _ => true | Real => false end.

(* SRC domains/session/event_store/sqlite/row_types.rs:5-52 SessionRow *)
Record SessionRow := {
  sr_id : string;
  sr_workspace_id : string;
  sr_head_event_id : option string;
  sr_root_event_id : option string;
  sr_title : option string;
  sr_latest_model : string;
  sr_working_directory : string;
  sr_parent_session_id : option string;
  sr_fork_from_event_id : option string;
  sr_created_at : string;
  sr_last_activity_at : string;
  sr_ended_at : option string;
  sr_event_count : SqlInt;
  sr_message_count : SqlInt;
  sr_turn_count : SqlInt;
  sr_total_input_tokens : SqlInt;
  sr_total_output_tokens : SqlInt;
  sr_last_turn_input_tokens : SqlInt;
  sr_total_cost : string;
  sr_total_cache_read_tokens : SqlInt;
  sr_total_cache_creation_tokens : SqlInt;
  sr_tags : string
}.

(* SRC domains/session/event_store/sqlite/row_types.rs:54-108 EventRow *)
Record EventRow := {
  er_id : string;
  er_session_id : string;
  er_parent_id : option string;
  er_sequence : Z;
  er_depth : Z;
  er_event_type : string;
  er_timestamp : string;
  er_payload : string;
  er_content_blob_id : option string;
  er_workspace_id : string;
  er_role : option string;
  er_model_primitive_name : option string;
  er_invocation_id : option string;
  er_turn : option Z;
  er_input_tokens : option Z;
  er_output_tokens : option Z;
  er_cache_read_tokens : option Z;
  er_cache_creation_tokens : option Z;
  er_checksum : option string;
  er_model : option string;
  er_latency_ms : option Z;
  er_stop_reason : option string;
  er_has_thinking : option Z;
  er_provider_type : option string;
  er_cost : option string
}.

(* SRC domains/session/event_store/sqlite/row_types.rs:111-140 EventRow::flush_sentinel *)
Definition flush_sentinel : EventRow :=
  {| er_id := ""; er_session_id := ""; er_parent_id := None; er_sequence := 0; er_depth := 0;
     er_event_type := ""; er_timestamp := ""; er_payload := ""; er_content_blob_id := None;
     er_workspace_id := ""; er_role := None; er_model_primitive_name := None;
     er_invocation_id := None; er_turn := None; er_input_tokens := None;
     er_output_tokens := None; er_cache_read_tokens := None; er_cache_creation_tokens := None;
     er_checksum := None; er_model := None; er_latency_ms := None; er_stop_reason := None;
     er_has_thinking := None; er_provider_type := None; er_cost := None |}.

(** A row of [workspaces]. *)
(* SRC domains/session/event_store/sqlite/row_types.rs:143-158 WorkspaceRow *)
Record WorkspaceRow := {
  wr_id : string;
  wr_path : string;
  wr_name : option string;
  wr_created_at : string;
  wr_last_activity_at : string
}.

(* SRC domains/session/event_store/identity.rs:9-16 EventIdentity *)
Record EventIdentity := { ei_id : string; ei_timestamp : string }.
(* SRC domains/session/event_store/identity.rs:38-45 SessionIdentity *)
Record SessionIdentity := { si_id : string; si_created_at : string }.
(* SRC domains/session/event_store/identity.rs:67-74 WorkspaceIdentity *)
Record WorkspaceIdentity := { wi_id : string; wi_created_at : string }.
(* SRC domains/session/event_store/identity.rs:96-105 SessionCreationIdentity *)
Record SessionCreationIdentity := {
  ci_workspace : WorkspaceIdentity;
  ci_session : SessionIdentity;
  ci_root_event : EventIdentity
}.
(* SRC domains/session/event_store/identity.rs:133-140 SessionForkIdentity *)
Record SessionForkIdentity := { fi_session : SessionIdentity; fi_fork_event : EventIdentity }.

(* SRC domains/session/event_store/store/event_store/mod.rs:48-65 AppendOptions *)
Record AppendOptions := {
  ao_session_id : string;
  ao_event_type : EventType;
  ao_payload : Value;
  ao_parent_id : option string;
  ao_sequence : option Z
}.
(* SRC domains/session/event_store/store/event_store/mod.rs:67-74 ForkOptions *)
Record ForkOptions := { fo_model : option string; fo_title : option string }.
(* SRC domains/session/event_store/store/event_store/session_lifecycle.rs:19-25 CreateSessionInTxOptions *)
Record CreateSessionInTxOptions := {
  co_model : string;
  co_workspace_path : string;
  co_title : option string;
  co_provider : option string
}.

(** The clock and the generated ids of the payload store. *)
Record Stamp := { tm_now : instant; tm_text : string; tm_blob : string; tm_ref : string }.

(** ** Columns taken from the payload *)

(* SRC domains/session/event_store/sqlite/repositories/event/extractors.rs:5-13 extract_role *)
Definition extract_role (event : SessionEvent) : option string :=
  match se_event_type event with
  | Event_MessageUser => Some "user"
  | Event_MessageAssistant => Some "assistant"
  | Event_MessageSystem => Some "system"
  | Event_CapabilityInvocationCompleted => Some "capability"
  | _ => None
  end.
(* SRC domains/session/event_store/sqlite/repositories/event/extractors.rs:19-21 extract_str *)
Definition extract_str (v : Value) (key : string) : option string := str_at v key.
(* SRC domains/session/event_store/sqlite/repositories/event/extractors.rs:23-25 extract_i64 *)
Definition extract_i64 (v : Value) (key : string) : option Z := i64_at v key.
(* SRC domains/session/event_store/sqlite/repositories/event/extractors.rs:15-17 extract_model_primitive_name *)
Definition extract_model_primitive_name (event : SessionEvent) : option string :=
  extract_str (se_payload event) "modelPrimitiveName".
(* SRC domains/session/event_store/sqlite/repositories/event/extractors.rs:27-36 extract_bool_as_int *)
Definition extract_bool_as_int (v : Value) (key : string) : option Z :=
  match vget v key with
  | None => None
  | Some w => match as_bool w with Some b => Some (if b then 1 else 0) | None => as_i64 w end
  end.
(* SRC domains/session/event_store/sqlite/repositories/event/extractors.rs:38-57 extract_tokens *)
Definition extract_tokens (payload : Value) : option Z * option Z * option Z * option Z :=
  let read v := (i64_at v "inputTokens", i64_at v "outputTokens", i64_at v "cacheReadTokens",
                 i64_at v "cacheCreationTokens") in
  match vget payload "tokenUsage" with Some tu => read tu | None => read payload end.

(** ** Rows of a session *)

(* SRC domains/session/event_store/sqlite/repositories/session/mod.rs:203-215 SessionRepo::update_head_at *)
Definition set_head (head last_activity : string) (r : SessionRow) : SessionRow :=
  {| sr_id := sr_id r; sr_workspace_id := sr_workspace_id r; sr_head_event_id := Some head;
     sr_root_event_id := sr_root_event_id r; sr_title := sr_title r;
     sr_latest_model := sr_latest_model r; sr_working_directory := sr_working_directory r;
     sr_parent_session_id := sr_parent_session_id r;
     sr_fork_from_event_id := sr_fork_from_event_id r; sr_created_at := sr_created_at r;
     sr_last_activity_at := last_activity; sr_ended_at := sr_ended_at r;
     sr_event_count := sr_event_count r; sr_message_count := sr_message_count r;
     sr_turn_count := sr_turn_count r; sr_total_input_tokens := sr_total_input_tokens r;
     sr_total_output_tokens := sr_total_output_tokens r;
     sr_last_turn_input_tokens := sr_last_turn_input_tokens r;
     sr_total_cost := sr_total_cost r;
     sr_total_cache_read_tokens := sr_total_cache_read_tokens r;
     sr_total_cache_creation_tokens := sr_total_cache_creation_tokens r;
     sr_tags := sr_tags r |}.
(* SRC domains/session/event_store/sqlite/repositories/session/mod.rs:217-224 SessionRepo::update_root *)
Definition set_root (root : string) (r : SessionRow) : SessionRow :=
  {| sr_id := sr_id r; sr_workspace_id := sr_workspace_id r;
     sr_head_event_id := sr_head_event_id r; sr_root_event_id := Some root;
     sr_title := sr_title r; sr_latest_model := sr_latest_model r;
     sr_working_directory := sr_working_directory r;
     sr_parent_session_id := sr_parent_session_id r;
     sr_fork_from_event_id := sr_fork_from_event_id r; sr_created_at := sr_created_at r;
     sr_last_activity_at := sr_last_activity_at r; sr_ended_at := sr_ended_at r;
     sr_event_count := sr_event_count r; sr_message_count := sr_message_count r;
     sr_turn_count := sr_turn_count r; sr_total_input_tokens := sr_total_input_tokens r;
     sr_total_output_tokens := sr_total_output_tokens r;
     sr_last_turn_input_tokens := sr_last_turn_input_tokens r;
     sr_total_cost := sr_total_cost r;
     sr_total_cache_read_tokens := sr_total_cache_read_tokens r;
     sr_total_cache_creation_tokens := sr_total_cache_creation_tokens r;
     sr_tags := sr_tags r |}.
(** [mark_ended] with the clock, [clear_ended] with none. *)
(* SRC domains/session/event_store/sqlite/repositories/session/mod.rs:226-234 SessionRepo::mark_ended *)
Definition set_ended (ended : option string) (now : string) (r : SessionRow) : SessionRow :=
  {| sr_id := sr_id r; sr_workspace_id := sr_workspace_id r;
     sr_head_event_id := sr_head_event_id r; sr_root_event_id := sr_root_event_id r;
     sr_title := sr_title r; sr_latest_model := sr_latest_model r;
     sr_working_directory := sr_working_directory r;
     sr_parent_session_id := sr_parent_session_id r;
     sr_fork_from_event_id := sr_fork_from_event_id r; sr_created_at := sr_created_at r;
     sr_last_activity_at := now; sr_ended_at := ended; sr_event_count := sr_event_count r;
     sr_message_count := sr_message_count r; sr_turn_count := sr_turn_count r;
     sr_total_input_tokens := sr_total_input_tokens r;
     sr_total_output_tokens := sr_total_output_tokens r;
     sr_last_turn_input_tokens := sr_last_turn_input_tokens r;
     sr_total_cost := sr_total_cost r;
     sr_total_cache_read_tokens := sr_total_cache_read_tokens r;
     sr_total_cache_creation_tokens := sr_total_cache_creation_tokens r;
     sr_tags := sr_tags r |}.
(* SRC domains/session/event_store/sqlite/repositories/session/mod.rs:246-254 SessionRepo::update_latest_model *)
Definition set_model (model now : string) (r : SessionRow) : SessionRow :=
  {| sr_id := sr_id r; sr_workspace_id := sr_workspace_id r;
     sr_head_event_id := sr_head_event_id r; sr_root_event_id := sr_root_event_id r;
     sr_title := sr_title r; sr_latest_model := model;
     sr_working_directory := sr_working_directory r;
     sr_parent_session_id := sr_parent_session_id r;
     sr_fork_from_event_id := sr_fork_from_event_id r; sr_created_at := sr_created_at r;
     sr_last_activity_at := now; sr_ended_at := sr_ended_at r;
     sr_event_count := sr_event_count r; sr_message_count := sr_message_count r;
     sr_turn_count := sr_turn_count r; sr_total_input_tokens := sr_total_input_tokens r;
     sr_total_output_tokens := sr_total_output_tokens r;
     sr_last_turn_input_tokens := Integer 0; sr_total_cost := sr_total_cost r;
     sr_total_cache_read_tokens := sr_total_cache_read_tokens r;
     sr_total_cache_creation_tokens := sr_total_cache_creation_tokens r;
     sr_tags := sr_tags r |}.
(* SRC domains/session/event_store/sqlite/repositories/session/mod.rs:256-263 SessionRepo::update_title *)
Definition set_title (title : option string) (r : SessionRow) : SessionRow :=
  {| sr_id := sr_id r; sr_workspace_id := sr_workspace_id r;
     sr_head_event_id := sr_head_event_id r; sr_root_event_id := sr_root_event_id r;
     sr_title := title; sr_latest_model := sr_latest_model r;
     sr_working_directory := sr_working_directory r;
     sr_parent_session_id := sr_parent_session_id r;
     sr_fork_from_event_id := sr_fork_from_event_id r; sr_created_at := sr_created_at r;
     sr_last_activity_at := sr_last_activity_at r; sr_ended_at := sr_ended_at r;
     sr_event_count := sr_event_count r; sr_message_count := sr_message_count r;
     sr_turn_count := sr_turn_count r; sr_total_input_tokens := sr_total_input_tokens r;
     sr_total_output_tokens := sr_total_output_tokens r;
     sr_last_turn_input_tokens := sr_last_turn_input_tokens r;
     sr_total_cost := sr_total_cost r;
     sr_total_cache_read_tokens := sr_total_cache_read_tokens r;
     sr_total_cache_creation_tokens := sr_total_cache_creation_tokens r;
     sr_tags := sr_tags r |}.

(* SRC domains/session/event_store/sqlite/repositories/session/mod.rs:56-77 IncrementCounters *)
Record IncrementCounters := {
  ic_event_count : option Z;
  ic_message_count : option Z;
  ic_turn_count : option Z;
  ic_input_tokens : option Z;
  ic_output_tokens : option Z;
  ic_last_turn_input_tokens : option Z;
  ic_cost : option string;
  ic_cache_read_tokens : option Z;
  ic_cache_creation_tokens : option Z
}.
Definition one_event : IncrementCounters :=
  {| ic_event_count := Some 1; ic_message_count := None; ic_turn_count := None;
     ic_input_tokens := None; ic_output_tokens := None; ic_last_turn_input_tokens := None;
     ic_cost := None; ic_cache_read_tokens := None; ic_cache_creation_tokens := None |}.
Definition add_opt (c : SqlInt) (v : option Z) : SqlInt :=
  match v with Some v => sql_add c v | None => c end.

(* SRC domains/session/event_store/sqlite/repositories/session/mod.rs:88-143 SessionRepo::create_with_identity *)
Definition new_session (identity : SessionIdentity) (workspace_id model working_directory : string)
    (title parent_session_id fork_from_event_id : option string) : SessionRow :=
  {| sr_id := si_id identity; sr_workspace_id := workspace_id; sr_head_event_id := None;
     sr_root_event_id := None; sr_title := title; sr_latest_model := model;
     sr_working_directory := working_directory; sr_parent_session_id := parent_session_id;
     sr_fork_from_event_id := fork_from_event_id; sr_created_at := si_created_at identity;
     sr_last_activity_at := si_created_at identity; sr_ended_at := None;
     sr_event_count := Integer 0; sr_message_count := Integer 0; sr_turn_count := Integer 0;
     sr_total_input_tokens := Integer 0; sr_total_output_tokens := Integer 0;
     sr_last_turn_input_tokens := Integer 0; sr_total_cost := "0.0";
     sr_total_cache_read_tokens := Integer 0; sr_total_cache_creation_tokens := Integer 0;
     sr_tags := "[]" |}.

(** The row is read as a [SessionRow]. *)
(* SRC domains/session/event_store/sqlite/repositories/session/mod.rs:377-402 SessionRepo::map_row *)
Definition session_readable (r : SessionRow) : bool :=
  is_integer (sr_event_count r) && is_integer (sr_message_count r) && is_integer (sr_turn_count r)
  && is_integer (sr_total_input_tokens r) && is_integer (sr_total_output_tokens r)
  && is_integer (sr_last_turn_input_tokens r) && is_integer (sr_total_cache_read_tokens r)
  && is_integer (sr_total_cache_creation_tokens r).

(** The chain of parents from an entry, oldest first, with [fuel] steps up. *)
Section walk.
  Context {A : Type} (key : A -> string) (parent : A -> option string).
Fixpoint walk (fuel : nat) (l : list A) (id : string) : list A :=
  match find_key key l id with
  | None => []
  | Some e =>
      match fuel, parent e with
      | S fuel, Some p => walk fuel l p ++ [e]
      | _, _ => [e]
      end
  end.
End walk.

Section store.
  Context {T : Type} `{PS : PayloadStore T}.
  Variable as_f64 : number -> string.
  Variable add_f64 : string -> string -> string.
  Variable redact_sensitive_content : string -> string.
  Variable detect_provider_from_model : string -> option string.

Record EventTables := {
  et_workspaces : list WorkspaceRow;
  et_sessions : list SessionRow;
  et_events : list EventRow;
  et_storage : T
}.
Definition set_workspaces (w : list WorkspaceRow) (t : EventTables) : EventTables :=
  {| et_workspaces := w; et_sessions := et_sessions t; et_events := et_events t;
     et_storage := et_storage t |}.
Definition set_sessions (s : list SessionRow) (t : EventTables) : EventTables :=
  {| et_workspaces := et_workspaces t; et_sessions := s; et_events := et_events t;
     et_storage := et_storage t |}.
Definition set_events (e : list EventRow) (t : EventTables) : EventTables :=
  {| et_workspaces := et_workspaces t; et_sessions := et_sessions t; et_events := e;
     et_storage := et_storage t |}.
Definition set_storage (s : T) (t : EventTables) : EventTables :=
  {| et_workspaces := et_workspaces t; et_sessions := et_sessions t; et_events := et_events t;
     et_storage := s |}.
Definition update_session (id : string) (f : SessionRow -> SessionRow) (t : EventTables)
  : EventTables :=
  set_sessions (map (fun r => if sr_id r =s id then f r else r) (et_sessions t)) t.

(* SRC domains/session/event_store/sqlite/repositories/session/mod.rs:275-325 SessionRepo::increment_counters_at *)
Definition add_counters (c : IncrementCounters) (now : string) (r : SessionRow) : SessionRow :=
  {| sr_id := sr_id r; sr_workspace_id := sr_workspace_id r;
     sr_head_event_id := sr_head_event_id r; sr_root_event_id := sr_root_event_id r;
     sr_title := sr_title r; sr_latest_model := sr_latest_model r;
     sr_working_directory := sr_working_directory r;
     sr_parent_session_id := sr_parent_session_id r;
     sr_fork_from_event_id := sr_fork_from_event_id r; sr_created_at := sr_created_at r;
     sr_last_activity_at := now; sr_ended_at := sr_ended_at r;
     sr_event_count := add_opt (sr_event_count r) (ic_event_count c);
     sr_message_count := add_opt (sr_message_count r) (ic_message_count c);
     sr_turn_count := add_opt (sr_turn_count r) (ic_turn_count c);
     sr_total_input_tokens := add_opt (sr_total_input_tokens r) (ic_input_tokens c);
     sr_total_output_tokens := add_opt (sr_total_output_tokens r) (ic_output_tokens c);
     sr_last_turn_input_tokens := default (sr_last_turn_input_tokens r) (Integer <$> ic_last_turn_input_tokens c);
     sr_total_cost := match ic_cost c with Some v => add_f64 (sr_total_cost r) v | None => sr_total_cost r end;
     sr_total_cache_read_tokens := add_opt (sr_total_cache_read_tokens r) (ic_cache_read_tokens c);
     sr_total_cache_creation_tokens := add_opt (sr_total_cache_creation_tokens r) (ic_cache_creation_tokens c);
     sr_tags := sr_tags r |}.

(** ** Reading *)

(* SRC domains/session/event_store/sqlite/repositories/event/crud.rs:99-107 EventRepo::get_by_id *)
Definition event_by_id (id : string) (t : EventTables) : option EventRow :=
  find_key er_id (et_events t) id.
(* SRC domains/session/event_store/sqlite/repositories/session/mod.rs:145-155 SessionRepo::get_by_id *)
Definition session_by_id (id : string) (t : EventTables) : ES (option SessionRow) :=
  match find_key sr_id (et_sessions t) id with
  | Some r => if session_readable r then Ok (Some r) else Err (Es_Sqlite Sql_ColumnType)
  | None => Ok None
  end.
Definition require_session (id : string) (t : EventTables) : ES SessionRow :=
  let? r := session_by_id id t in
  match r with Some r => Ok r | None => Err (Es_SessionNotFound id) end.
Definition require_event (id : string) (t : EventTables) : ES EventRow :=
  match event_by_id id t with Some e => Ok e | None => Err (Es_EventNotFound id) end.

(** The recursive query goes up at most this many steps. *)
Definition ANCESTOR_LIMIT : nat := Z.to_nat 10000.
(* SRC domains/session/event_store/sqlite/repositories/event/tree_queries.rs:8-30 EventRepo::get_ancestors *)
Definition get_ancestors (id : string) (t : EventTables) : list EventRow :=
  walk er_id er_parent_id ANCESTOR_LIMIT (et_events t) id.

Definition by_sequence (l : list EventRow) : list EventRow :=
  stable_sort (fun a b => er_sequence a <=? er_sequence b) l.
(* SRC domains/session/event_store/sqlite/repositories/event/tree_queries.rs:32-42 EventRepo::get_children *)
Definition get_children (id : string) (t : EventTables) : list EventRow :=
  by_sequence (List.filter (fun e => bool_decide (er_parent_id e = Some id)) (et_events t)).
Definition session_events (id : string) (t : EventTables) : list EventRow :=
  List.filter (fun e => er_session_id e =s id) (et_events t).

(** [LIMIT n OFFSET k]: a negative limit is none, a negative offset is 0, and
    [OFFSET] without [LIMIT] does not parse. *)
Definition sql_page {A} (limit offset : option Z) (l : list A) : ES (list A) :=
  let skip := drop (Z.to_nat (default 0 offset)) l in
  match limit, offset with
  | None, None => Ok l
  | None, Some _ => Err (Es_Sqlite Sql_Syntax)
  | Some n, _ => Ok (if n <? 0 then skip else take (Z.to_nat n) skip)
  end.
(* SRC domains/session/event_store/sqlite/repositories/event/session_queries.rs:8-31 EventRepo::get_by_session *)
Definition get_by_session (session_id : string) (limit offset : option Z) (t : EventTables)
  : ES (list EventRow) :=
  sql_page limit offset (by_sequence (session_events session_id t)).
(* SRC domains/session/event_store/sqlite/repositories/event/session_queries.rs:33-41 EventRepo::count_by_session *)
Definition count_by_session (session_id : string) (t : EventTables) : Z :=
  Z.of_nat (List.length (session_events session_id t)).
(* SRC domains/session/event_store/sqlite/repositories/event/session_queries.rs:43-57 EventRepo::get_since *)
Definition get_since (session_id : string) (after_sequence : Z) (t : EventTables)
  : list EventRow :=
  by_sequence (List.filter (fun e => after_sequence <? er_sequence e) (session_events session_id t)).
(** The newest [n] of them, oldest first. *)
Definition newest (limit : option Z) (l : list EventRow) : list EventRow :=
  match limit with
  | None => by_sequence l
  | Some n =>
      let descending := stable_sort (fun a b => er_sequence b <=? er_sequence a) l in
      by_sequence (if n <? 0 then descending else take (Z.to_nat n) descending)
  end.
(* SRC domains/session/event_store/sqlite/repositories/event/session_queries.rs:59-85 EventRepo::get_latest_events *)
Definition get_latest_events (session_id : string) (limit : option Z) (t : EventTables)
  : list EventRow := newest limit (session_events session_id t).
(* SRC domains/session/event_store/sqlite/repositories/event/session_queries.rs:87-115 EventRepo::get_events_before *)
Definition get_events_before (session_id : string) (before_sequence : Z) (limit : option Z)
    (t : EventTables) : list EventRow :=
  newest limit (List.filter (fun e => er_sequence e <? before_sequence)
                  (session_events session_id t)).
(* SRC domains/session/event_store/sqlite/repositories/event/session_queries.rs:117-131 EventRepo::has_events_before *)
Definition has_events_before (session_id : string) (before_sequence : Z) (t : EventTables) : bool :=
  existsb (fun e => er_sequence e <? before_sequence) (session_events session_id t).

(** [SELECT MAX(sequence)]: none for no rows. *)
Definition max_sequence_of (l : list EventRow) : option Z :=
  match map er_sequence l with [] => None | n :: rest => Some (fold_left Z.max rest n) end.
(* SRC domains/session/event_store/store/event_store/event_log.rs:286-298 EventStore::get_max_sequence *)
Definition get_max_sequence (session_id : string) (t : EventTables) : Z :=
  default 0 (max_sequence_of (session_events session_id t)).
(* SRC domains/session/event_store/sqlite/repositories/event/type_queries.rs:45-57 EventRepo::get_latest_by_type *)
Definition get_latest_by_type (session_id event_type : string) (t : EventTables)
  : option EventRow :=
  head (stable_sort (fun a b => er_sequence b <=? er_sequence a)
          (List.filter (fun e => er_event_type e =s event_type) (session_events session_id t))).
(* SRC domains/session/event_store/sqlite/repositories/event/type_queries.rs:9-43 EventRepo::get_by_types *)
Definition get_by_types (session_id : string) (types : list string) (limit : option Z)
    (t : EventTables) : ES (list EventRow) :=
  if is_nil types then Ok []
  else sql_page limit None
         (by_sequence (List.filter (fun e => existsb (String.eqb (er_event_type e)) types)
                         (session_events session_id t))).
(* SRC domains/session/event_store/sqlite/repositories/event/type_queries.rs:69-84 EventRepo::count_by_type_after_sequence *)
Definition count_by_type_after_sequence (session_id event_type : string) (after_sequence : Z)
    (t : EventTables) : Z :=
  Z.of_nat (List.length (List.filter
    (fun e => (er_event_type e =s event_type) && (after_sequence <? er_sequence e))
    (session_events session_id t))).
(* SRC domains/session/event_store/store/event_store/event_log.rs:470-485 EventStore::was_session_interrupted *)
Definition was_session_interrupted (session_id : string) (t : EventTables) : bool :=
  match get_latest_by_type session_id "message.assistant" t,
        get_latest_by_type session_id "stream.turn_end" t with
  | None, _ => false
  | Some _, None => true
  | Some assistant, Some turn_end => er_sequence turn_end <? er_sequence assistant
  end.

(** ** Writing *)

(** A transaction that fails is rolled back. *)
Definition transaction {A} (body : EventTables -> ES (A * EventTables)) (t : EventTables)
  : ES A * EventTables :=
  match body t with Ok (a, t') => (Ok a, t') | Err e => (Err e, t) end.

(* SRC domains/session/event_store/sqlite/repositories/event/mod.rs:56-70 EventRepo::compute_depth *)
Definition compute_depth (parent_id : option string) (t : EventTables) : Z :=
  match parent_id with
  | None => 0
  | Some p => wrapping_add_i64 (default 0 (er_depth <$> event_by_id p t)) 1
  end.

Definition event_options (event : SessionEvent) : StorePayloadOptions :=
  options_with_scope None (Some (se_session_id event)) (Some (se_workspace_id event))
    (options_new "session_event" (se_id event) "payload" "audit").

Definition cost_of (payload : Value) : option string :=
  match vget payload "cost" with Some (VNumber n) => Some (as_f64 n) | _ => None end.

(** The row of the [INSERT], with its payload column. *)
Definition event_row (event : SessionEvent) (depth : Z) (payload_str : string) : EventRow :=
  let payload := se_payload event in
  let '(input, output, cache_read, cache_create) := extract_tokens payload in
  {| er_id := se_id event; er_session_id := se_session_id event;
     er_parent_id := se_parent_id event; er_sequence := se_sequence event; er_depth := depth;
     er_event_type := event_type_as_str (se_event_type event);
     er_timestamp := se_timestamp event; er_payload := payload_str; er_content_blob_id := None;
     er_workspace_id := se_workspace_id event; er_role := extract_role event;
     er_model_primitive_name := extract_model_primitive_name event;
     er_invocation_id := extract_str payload "invocationId"; er_turn := extract_i64 payload "turn";
     er_input_tokens := input; er_output_tokens := output; er_cache_read_tokens := cache_read;
     er_cache_creation_tokens := cache_create; er_checksum := se_checksum event;
     er_model := extract_str payload "model"; er_latency_ms := extract_i64 payload "latency";
     er_stop_reason := extract_str payload "stopReason";
     er_has_thinking := extract_bool_as_int payload "hasThinking";
     er_provider_type := extract_str payload "providerType"; er_cost := cost_of payload |}.

(** The constraints of [events]. *)
Definition event_allowed (event : SessionEvent) (t : EventTables) : bool :=
  negb (existsb (fun e => er_id e =s se_id event) (et_events t))
  && negb (existsb (fun e => (er_session_id e =s se_session_id event)
                             && (er_sequence e =? se_sequence event)) (et_events t))
  && existsb (fun r => sr_id r =s se_session_id event) (et_sessions t)
  && match se_parent_id event with
     | Some p => existsb (fun e => er_id e =s p) (et_events t)
     | None => true
     end.

(* SRC domains/session/event_store/sqlite/repositories/event/crud.rs:14-97 EventRepo::insert *)
Definition insert_event (stamp : Stamp) (event : SessionEvent) (t : EventTables)
  : ES EventTables :=
  let depth := compute_depth (se_parent_id event) t in
  match ps_store (tm_now stamp) (tm_blob stamp) (tm_ref stamp) (se_payload event)
          (event_options event) (et_storage t) with
  | (Err error, _) =>
      let message := "failed to store session event payload: " +s error in
      if contains message "database is locked"
         || contains message "Cannot promote read transaction"
      then Err (Es_Busy "session event payload storage" 1)
      else Err (Es_Internal message)
  | (Ok payload_str, storage) =>
      if event_allowed event t
      then Ok (set_storage storage
                 (set_events (et_events t ++ [event_row event depth payload_str]) t))
      else Err (Es_Sqlite Sql_Constraint)
  end.

(** *** Appending *)

(* SRC domains/session/event_store/store/event_store/event_log.rs:142-154 redact_json_strings *)
Fixpoint redact_json_strings (v : Value) : Value :=
  match v with
  | VString s => VString (redact_sensitive_content s)
  | VObject fields => VObject (map (fun '(k, v) => (k, redact_json_strings v)) fields)
  | VArray arr => VArray (map redact_json_strings arr)
  | other => other
  end.

(** The counters of an appended event. *)
(* SRC domains/session/event_store/store/event_store/event_log.rs:101-137! append_event_in_tx_with_identity *)
Definition append_counters (type : EventType) (payload : Value) : IncrementCounters :=
  let is_assistant := bool_decide (type = Event_MessageAssistant) in
  let usage := if bool_decide (type = Event_StreamTurnEnd) then vget payload "tokenUsage" else None in
  let tokens key := match usage with Some tu => i64_at tu key | None => None end in
  {| ic_event_count := Some 1;
     ic_message_count :=
       if bool_decide (type = Event_MessageUser) || is_assistant then Some 1 else None;
     ic_turn_count := if is_assistant then Some 1 else None;
     ic_input_tokens := tokens "inputTokens"; ic_output_tokens := tokens "outputTokens";
     ic_last_turn_input_tokens :=
       if is_assistant
       then match vget payload "tokenRecord" ≫= (fun r => vget r "computed") with
            | Some c => i64_at c "contextWindowTokens"
            | None => None
            end
       else None;
     ic_cost := if bool_decide (type = Event_StreamTurnEnd) then cost_of payload else None;
     ic_cache_read_tokens := tokens "cacheReadTokens";
     ic_cache_creation_tokens := tokens "cacheCreationTokens" |}.

Definition appended_event (session : SessionRow) (opts : AppendOptions) (identity : EventIdentity)
    (t : EventTables) : SessionEvent :=
  {| se_id := ei_id identity;
     se_parent_id :=
       match ao_parent_id opts with Some p => Some p | None => sr_head_event_id session end;
     se_session_id := ao_session_id opts; se_workspace_id := sr_workspace_id session;
     se_timestamp := ei_timestamp identity; se_event_type := ao_event_type opts;
     se_sequence :=
       match ao_sequence opts with
       | Some seq => seq
       | None =>
           wrapping_add_i64 (default 0 (max_sequence_of (session_events (ao_session_id opts) t))) 1
       end;
     se_checksum := None; se_payload := redact_json_strings (ao_payload opts) |}.

(* SRC domains/session/event_store/store/event_store/event_log.rs:31-140 append_event_in_tx_with_identity *)
Definition append_event_in_tx_with_identity (stamp : Stamp) (session : SessionRow)
    (opts : AppendOptions) (identity : EventIdentity) (t : EventTables)
  : ES (SessionEvent * EventTables) :=
  let event := appended_event session opts identity t in
  let? t := insert_event stamp event t in
  let t := update_session (ao_session_id opts) (set_head (se_id event) (tm_text stamp)) t in
  Ok (event, update_session (ao_session_id opts)
               (add_counters (append_counters (ao_event_type opts) (ao_payload opts))
                  (tm_text stamp)) t).

(* SRC domains/session/event_store/store/event_store/event_log.rs:188-204 EventStore::append_inner_with_identity *)
Definition append_inner_with_identity (stamp : Stamp) (opts : AppendOptions)
    (identity : EventIdentity) : EventTables -> ES EventRow * EventTables :=
  transaction (fun t =>
    let? session := require_session (ao_session_id opts) t in
    let? (event, t) := append_event_in_tx_with_identity stamp session opts identity t in
    let? row := require_event (se_id event) t in Ok (row, t)).
(** The lock of the session is held throughout. *)
(* SRC domains/session/event_store/store/event_store/event_log.rs:166-179 EventStore::append_with_identity *)
Definition append_with_identity := append_inner_with_identity.

(* SRC domains/session/event_store/store/event_store/event_log.rs:206-250 EventStore::delete_message *)
Definition delete_message (stamp : Stamp) (identity : EventIdentity) (session_id target_event_id : string)
    (reason : option string) (t : EventTables) : ES EventRow * EventTables :=
  match require_event target_event_id t with
  | Err e => (Err e, t)
  | Ok target =>
      match event_type_from_str (er_event_type target) with
      | Err _ => (Err (Es_InvalidOperation "Unknown event type"), t)
      | Ok (Event_MessageUser | Event_MessageAssistant | Event_CapabilityInvocationCompleted) =>
          append_inner_with_identity stamp
            {| ao_session_id := session_id; ao_event_type := Event_MessageDeleted;
               ao_payload := j{"targetEventId" ~> target_event_id;
                               "targetType" ~> er_event_type target;
                               "reason" ~> default "user_request" reason};
               ao_parent_id := None; ao_sequence := None |} identity t
      | Ok _ =>
          (Err (Es_InvalidOperation
             ("Cannot delete event of type '" +s er_event_type target
                +s "' — only message and capability result events can be deleted")), t)
      end
  end.

(** *** Sessions *)

(* SRC domains/session/event_store/sqlite/repositories/workspace.rs:107-118 WorkspaceRepo::get_or_create_with_identity *)
Definition get_or_create_workspace (path : string) (name : option string)
    (identity : WorkspaceIdentity) (t : EventTables) : ES (WorkspaceRow * EventTables) :=
  match List.find (fun w => wr_path w =s path) (et_workspaces t) with
  | Some ws => Ok (ws, t)
  | None =>
      let ws := {| wr_id := wi_id identity; wr_path := path; wr_name := name;
                   wr_created_at := wi_created_at identity;
                   wr_last_activity_at := wi_created_at identity |} in
      if existsb (fun w => wr_id w =s wi_id identity) (et_workspaces t)
      then Err (Es_Sqlite Sql_Constraint)
      else Ok (ws, set_workspaces (et_workspaces t ++ [ws]) t)
  end.

(** The constraints of [sessions]. *)
Definition session_allowed (r : SessionRow) (t : EventTables) : bool :=
  negb (existsb (fun x => sr_id x =s sr_id r) (et_sessions t))
  && existsb (fun w => wr_id w =s sr_workspace_id r) (et_workspaces t)
  && match sr_parent_session_id r with
     | Some p => existsb (fun x => sr_id x =s p) (et_sessions t)
     | None => true
     end.
Definition insert_session (r : SessionRow) (t : EventTables) : ES EventTables :=
  if session_allowed r t then Ok (set_sessions (et_sessions t ++ [r]) t)
  else Err (Es_Sqlite Sql_Constraint).

(** The root event of a session, and the pointers and counters it sets. *)
Definition insert_root (stamp : Stamp) (event : SessionEvent) (t : EventTables) : ES EventTables :=
  let? t := insert_event stamp event t in
  let t := update_session (se_session_id event) (set_root (se_id event)) t in
  let t := update_session (se_session_id event) (set_head (se_id event) (se_timestamp event)) t in
  Ok (update_session (se_session_id event) (add_counters one_event (se_timestamp event)) t).

(* SRC domains/session/event_store/store/event_store/session_lifecycle.rs:59-77! create_session_in_tx_with_identity *)
Definition provider_of (model : string) : string :=
  match detect_provider_from_model model with
  | Some p => p
  | None =>
      if starts_with model "claude-" then "anthropic"
      else if starts_with model "gpt-" || starts_with model "o1-" || starts_with model "o3-"
      then "openai"
      else if starts_with model "gemini-" then "google"
      else "anthropic"
  end.

Definition start_event (opts : CreateSessionInTxOptions) (identity : SessionCreationIdentity)
    (workspace_id : string) : SessionEvent :=
  {| se_id := ei_id (ci_root_event identity); se_parent_id := None;
     se_session_id := si_id (ci_session identity); se_workspace_id := workspace_id;
     se_timestamp := ei_timestamp (ci_root_event identity); se_event_type := Event_SessionStart;
     se_sequence := 0; se_checksum := None;
     se_payload := j{"workingDirectory" ~> co_workspace_path opts; "model" ~> co_model opts;
                     "provider" ~> default (provider_of (co_model opts)) (co_provider opts)} |}.

(* SRC domains/session/event_store/store/event_store/session_lifecycle.rs:37-124 create_session_in_tx_with_identity *)
Definition create_session_in_tx_with_identity (stamp : Stamp) (opts : CreateSessionInTxOptions)
    (identity : SessionCreationIdentity) (t : EventTables)
  : ES ((SessionRow * EventRow) * EventTables) :=
  let? (ws, t) := get_or_create_workspace (co_workspace_path opts) None (ci_workspace identity) t in
  let? t := insert_session (new_session (ci_session identity) (wr_id ws) (co_model opts)
              (co_workspace_path opts) (co_title opts) None None) t in
  let event := start_event opts identity (wr_id ws) in
  let? t := insert_root stamp event t in
  let? session := require_session (si_id (ci_session identity)) t in
  let? root := require_event (se_id event) t in
  Ok ((session, root), t).
(* SRC domains/session/event_store/store/event_store/session_lifecycle.rs:160-192 EventStore::create_session_with_identity *)
Definition create_session_with_identity (stamp : Stamp) (opts : CreateSessionInTxOptions)
    (identity : SessionCreationIdentity) : EventTables -> ES (SessionRow * EventRow) * EventTables :=
  transaction (create_session_in_tx_with_identity stamp opts identity).

(* SRC domains/session/event_store/store/event_store/session_lifecycle.rs:236-253! EventStore::fork_with_identity *)
Definition fork_start (from_event_id : string) (source : SessionRow) (identity : SessionForkIdentity)
  : SessionEvent :=
  {| se_id := ei_id (fi_fork_event identity); se_parent_id := Some from_event_id;
     se_session_id := si_id (fi_session identity); se_workspace_id := sr_workspace_id source;
     se_timestamp := ei_timestamp (fi_fork_event identity); se_event_type := Event_SessionFork;
     se_sequence := 0; se_checksum := None;
     se_payload := j{"sourceSessionId" ~> sr_id source; "sourceEventId" ~> from_event_id} |}.

(* SRC domains/session/event_store/store/event_store/session_lifecycle.rs:204-291 EventStore::fork_with_identity *)
Definition fork_with_identity (stamp : Stamp) (from_event_id : string) (opts : ForkOptions)
    (identity : SessionForkIdentity) : EventTables -> ES (SessionRow * EventRow) * EventTables :=
  transaction (fun t =>
    let? source_event := require_event from_event_id t in
    let? source := require_session (er_session_id source_event) t in
    let model := default (sr_latest_model source) (fo_model opts) in
    let? t := insert_session (new_session (fi_session identity) (sr_workspace_id source) model
                (sr_working_directory source) (fo_title opts) (Some (sr_id source))
                (Some from_event_id)) t in
    let event := fork_start from_event_id source identity in
    let? t := insert_root stamp event t in
    let? session := require_session (si_id (fi_session identity)) t in
    let? row := require_event (se_id event) t in
    Ok ((session, row), t)).

Definition session_exists (id : string) (t : EventTables) : bool :=
  existsb (fun r => sr_id r =s id) (et_sessions t).
(* SRC domains/session/event_store/store/event_store/session_lifecycle.rs:305-311 EventStore::end_session *)
Definition end_session (now id : string) (t : EventTables) : bool * EventTables :=
  (session_exists id t, update_session id (set_ended (Some now) now) t).
(* SRC domains/session/event_store/store/event_store/session_lifecycle.rs:313-319 EventStore::clear_session_ended *)
Definition clear_session_ended (now id : string) (t : EventTables) : bool * EventTables :=
  (session_exists id t, update_session id (set_ended None now) t).
(* SRC domains/session/event_store/store/event_store/session_lifecycle.rs:321-327 EventStore::update_latest_model *)
Definition update_latest_model (now id model : string) (t : EventTables) : bool * EventTables :=
  (session_exists id t, update_session id (set_model model now) t).
(* SRC domains/session/event_store/store/event_store/session_lifecycle.rs:329-335 EventStore::update_session_title *)
Definition update_session_title (id : string) (title : option string) (t : EventTables)
  : bool * EventTables := (session_exists id t, update_session id (set_title title) t).

(** [DELETE FROM events WHERE session_id = ?1] fails while an event of another
    session has its parent among the rows. *)
(* SRC domains/session/event_store/sqlite/repositories/event/crud.rs:136-143 EventRepo::delete_by_session *)
Definition delete_events_by_session (id : string) (t : EventTables) : ES EventTables :=
  let gone := map er_id (session_events id t) in
  let rest := List.filter (fun e => negb (er_session_id e =s id)) (et_events t) in
  if existsb (fun e => match er_parent_id e with
                       | Some p => existsb (String.eqb p) gone
                       | None => false
                       end) rest
  then Err (Es_Sqlite Sql_Constraint)
  else Ok (set_events rest t).
(** [DELETE FROM sessions WHERE id = ?1] fails while a fork names the session. *)
(* SRC domains/session/event_store/sqlite/repositories/session/mod.rs:337-341 SessionRepo::delete *)
Definition delete_session_row (id : string) (t : EventTables) : ES (bool * EventTables) :=
  let rest := List.filter (fun r => negb (sr_id r =s id)) (et_sessions t) in
  if session_exists id t
     && (existsb (fun r => bool_decide (sr_parent_session_id r = Some id)) rest
         || negb (is_nil (session_events id t)))
  then Err (Es_Sqlite Sql_Constraint)
  else Ok (session_exists id t, set_sessions rest t).
(* SRC domains/session/event_store/store/event_store/session_lifecycle.rs:354-372 EventStore::delete_session *)
Definition delete_session (id : string) : EventTables -> ES bool * EventTables :=
  transaction (fun t =>
    let? t := delete_events_by_session id t in
    delete_session_row id t).

(** ** Conversations *)

(* SRC domains/session/event_store/store/event_store/state.rs:103-153 event_rows_to_session_events_inner *)
Definition event_rows_to_session_events (rows : list EventRow) (t : EventTables)
  : list SessionEvent :=
  omap (fun row =>
    match event_type_from_str (er_event_type row) with
    | Err _ => None
    | Ok event_type =>
        Some {| se_id := er_id row; se_parent_id := er_parent_id row;
                se_session_id := er_session_id row; se_workspace_id := er_workspace_id row;
                se_timestamp := er_timestamp row; se_event_type := event_type;
                se_sequence := er_sequence row; se_checksum := er_checksum row;
                se_payload := match ps_read (er_payload row) (et_storage t) with
                              | Ok v => v
                              | Err _ => Null
                              end |}
    end) rows.
Definition history_at (id : string) (t : EventTables) : list SessionEvent :=
  event_rows_to_session_events (get_ancestors id t) t.

Definition require_head (session : SessionRow) : ES string :=
  match sr_head_event_id session with
  | Some id => Ok id
  | None => Err (Es_InvalidOperation "Session has no head event")
  end.
(* SRC domains/session/event_store/store/event_store/state.rs:17-32 EventStore::get_messages_at_head *)
Definition get_messages_at_head (session_id : string) (t : EventTables) : ES ReconstructionResult :=
  let? session := require_session session_id t in
  let? head_id := require_head session in
  Ok (reconstruct_from_events (history_at head_id t)).
(* SRC domains/session/event_store/store/event_store/state.rs:34-46 EventStore::get_messages_at *)
Definition get_messages_at (event_id : string) (t : EventTables) : ES ReconstructionResult :=
  if is_nil (get_ancestors event_id t) then Err (Es_EventNotFound event_id)
  else Ok (reconstruct_from_events (history_at event_id t)).

End store.

(** ** Chains of parents *)

Section chains.
  Context {A : Type} (key : A -> string) (parent : A -> option string).
  Notation find := (find_key key).
  Notation walk := (walk key parent).

(** The way from a root to an entry. *)
Inductive chain (l : list A) : string -> list A -> Prop :=
| chain_root id e : find l id = Some e -> parent e = None -> chain l id [e]
| chain_step id e p c : find l id = Some e -> parent e = Some p -> chain l p c ->
    chain l id (c ++ [e]).

(** Lists that agree on the keys of [l'], all of whose parents are in it. *)
Definition agree_on (l l' : list A) : Prop :=
  forall id e, find l' id = Some e ->
    find l id = Some e /\ forall p, parent e = Some p -> is_Some (find l' p).

Lemma walk_agree l l' fuel id e :
  agree_on l l' -> find l' id = Some e -> walk fuel l id = walk fuel l' id.
Proof.
  intros Ha. revert id e. induction fuel as [|fuel IH]; intros id e He;
    destruct (Ha id e He) as [He' Hp]; simpl; rewrite He, He'; [done|].
  destruct (parent e) as [p|] eqn:Hpar; [|done]. destruct (Hp p eq_refl) as [e' Hp'].
  by rewrite (IH p e' Hp').
Qed.
Lemma chain_agree l l' id e c :
  agree_on l l' -> find l' id = Some e -> chain l id c -> chain l' id c.
Proof.
  intros Ha He Hc. revert e He. induction Hc as [id e0 He0 Hpar|id e0 p c He0 Hpar Hc IH]; intros e He;
    destruct (Ha id e He) as [He' Hp]; assert (e0 = e) as -> by congruence.
  - by apply chain_root.
  - destruct (Hp p Hpar) as [e' Hp']. eapply chain_step; eauto.
Qed.
Lemma chain_grows l l' id c :
  (forall id e, find l id = Some e -> find l' id = Some e) -> chain l id c -> chain l' id c.
Proof. intros Hg Hc. induction Hc; [eapply chain_root|eapply chain_step]; eauto. Qed.

Definition rooted (l : list A) : Prop := forall id e, find l id = Some e -> exists c, chain l id c.

Lemma rooted_parent l id e p :
  rooted l -> find l id = Some e -> parent e = Some p -> is_Some (find l p).
Proof.
  intros Hr He Hp. destruct (Hr id e He) as [c Hc]. destruct Hc as [? e' He' Hn|? e' p' c He' Hp' Hc];
    simplify_eq. destruct Hc; eauto.
Qed.
Lemma agree_rooted l l' :
  rooted l -> agree_on l l' -> rooted l'.
Proof.
  intros Hr Ha id e He. destruct (Ha id e He) as [He' _]. destruct (Hr id e He') as [c Hc].
  exists c. eapply chain_agree; eauto.
Qed.
Lemma agree_app l x : rooted l -> agree_on (l ++ [x]) l.
Proof.
  intros Hr id e He. split; [by rewrite find_key_app, He|]. intros p. by eapply rooted_parent.
Qed.
Lemma rooted_app l x :
  rooted l -> key x ∉ map key l -> (forall p, parent x = Some p -> is_Some (find l p)) ->
  rooted (l ++ [x]).
Proof.
  intros Hr Hx Hp id e He. pose proof He as He0. rewrite find_key_app in He0.
  assert (forall id e, find l id = Some e -> find (l ++ [x]) id = Some e) as Hg
    by (intros i e' Hi; by rewrite find_key_app, Hi).
  destruct (find l id) as [e'|] eqn:Hl.
  - destruct (Hr id e' Hl) as [c Hc]. exists c. by eapply chain_grows.
  - destruct (key x =s id); [|done]. injection He0 as <-. destruct (parent x) as [p|] eqn:Hpar.
    + destruct (Hp p eq_refl) as [e' He']. destruct (Hr p e' He') as [c Hc]. exists (c ++ [x]).
      eapply chain_step; eauto using chain_grows.
    + exists [x]. by apply chain_root.
Qed.

Lemma walk_new fuel l x :
  rooted l -> key x ∉ map key l -> (forall p, parent x = Some p -> is_Some (find l p)) ->
  walk (S fuel) (l ++ [x]) (key x)
  = match parent x with Some p => walk fuel l p | None => [] end ++ [x].
Proof.
  intros Hr Hx Hp. simpl. rewrite find_key_app, (proj2 (find_key_none key l (key x)) Hx), String.eqb_refl.
  destruct (parent x) as [p|]; [|done]. destruct (Hp p eq_refl) as [e He]. f_equal.
  eapply walk_agree; [by apply agree_app|exact He].
Qed.

(** The walk is the end of the chain. *)
Lemma walk_chain fuel l id c : chain l id c -> walk fuel l id = drop (List.length c - S fuel) c.
Proof.
  intros Hc. revert fuel. induction Hc as [id e He Hp|id e p c He Hp Hc IH]; intros fuel.
  - by destruct fuel; simpl; rewrite He, ?Hp.
  - rewrite List.length_app. simpl List.length. destruct fuel as [|fuel]; simpl; rewrite He.
    + replace (List.length c + 1 - 1)%nat with (List.length c) by lia. by rewrite drop_app_length.
    + rewrite Hp, IH. replace (List.length c + 1 - S (S fuel))%nat with (List.length c - S fuel)%nat by lia.
      rewrite drop_app_le by lia. done.
Qed.
End chains.

(** ** The invariant *)

Section invariant.
  Context {T : Type} `{PS : PayloadStore T}.
  Variable as_f64 : number -> string.
  Variable add_f64 : string -> string -> string.
  Variable redact : string -> string.
  Variable detect : string -> option string.
  Implicit Types t : EventTables (T := T).

Definition event_owner (id : string) : owner := ("session_event", id, "payload").

(** The events: distinct ids and sequences, every chain has a root, and every row
    has a known type and a payload that the payload store holds. *)
Record events_inv (t : EventTables) : Prop := {
  ev_storage : ps_inv (et_storage t);
  ev_ids : NoDup (map er_id (et_events t));
  ev_sequences : NoDup (map (fun e => (er_session_id e, er_sequence e)) (et_events t));
  ev_rooted : rooted er_id er_parent_id (et_events t);
  ev_types : Forall (fun e => exists ty, er_event_type e = event_type_as_str ty) (et_events t);
  ev_payloads : Forall (fun e => exists v,
    ps_holds (event_owner (er_id e)) (er_payload e) v (et_storage t)) (et_events t)
}.

(** A counter that stands for [n]. *)
Definition counted (c : SqlInt) (n : nat) : Prop :=
  c = if (Z.of_nat n <=? i64_max)%Z then Integer (Z.of_nat n) else Real.
Definition is_message_row (e : EventRow) : bool :=
  (er_event_type e =s "message.user") || (er_event_type e =s "message.assistant").
Definition is_turn_row (e : EventRow) : bool := er_event_type e =s "message.assistant".
Definition of_session (id : string) (e : EventRow) : bool := er_session_id e =s id.

Record session_ok (l : list EventRow) (r : SessionRow) : Prop := {
  ss_head : exists e, e ∈ l /\ er_session_id e = sr_id r /\ sr_head_event_id r = Some (er_id e);
  ss_root : exists e, e ∈ l /\ er_session_id e = sr_id r /\ sr_root_event_id r = Some (er_id e);
  ss_events : counted (sr_event_count r) (List.length (List.filter (of_session (sr_id r)) l));
  ss_messages : counted (sr_message_count r)
    (List.length (List.filter is_message_row (List.filter (of_session (sr_id r)) l)));
  ss_turns : counted (sr_turn_count r)
    (List.length (List.filter is_turn_row (List.filter (of_session (sr_id r)) l)))
}.
Record store_inv (t : EventTables) : Prop := {
  iv_events : events_inv t;
  iv_session_ids : NoDup (map sr_id (et_sessions t));
  iv_known : Forall (fun e => er_session_id e ∈ map sr_id (et_sessions t)) (et_events t);
  iv_sessions : Forall (session_ok (et_events t)) (et_sessions t)
}.

(** What the payload store must accept of an event. *)
Definition storable (event : SessionEvent) (t : EventTables) : Prop :=
  ps_fits (se_payload event) /\ ps_plain (event_options event) (se_payload event) /\
  ps_distinct (se_payload event) (et_storage t).

Lemma counted_zero : counted (Integer 0) 0.
Proof. done. Qed.
Lemma counted_add c n : counted c n -> counted (sql_add c 1) (S n).
Proof.
  unfold counted, sql_add, i64_max. intros ->.
  destruct (Z.leb_spec (Z.of_nat n) 9223372036854775807);
    destruct (Z.leb_spec (Z.of_nat (S n)) 9223372036854775807); try lia; simpl.
  - rewrite (proj2 (Z.leb_le _ _)), (proj2 (Z.leb_le _ _)) by lia. simpl. f_equal. lia.
  - rewrite (proj2 (Z.leb_gt (Z.of_nat n + 1) _)) by lia. by rewrite andb_false_r.
  - done.
Qed.

Lemma existsb_key {A} (key : A -> string) l id :
  existsb (fun x => key x =s id) l = true <-> id ∈ map key l.
Proof.
  rewrite existsb_exists, list_elem_of_fmap. setoid_rewrite String.eqb_eq.
  setoid_rewrite list_elem_of_In. naive_solver.
Qed.
Lemma not_existsb_key {A} (key : A -> string) l id :
  existsb (fun x => key x =s id) l = false <-> id ∉ map key l.
Proof. rewrite <- not_true_iff_false, existsb_key. done. Qed.

(** *** Inserting an event *)

Lemma insert_event_inv stamp event t t' :
  events_inv t -> storable event t -> insert_event as_f64 stamp event t = Ok t' ->
  exists row, events_inv t' /\ et_events t' = et_events t ++ [row] /\
    et_sessions t' = et_sessions t /\ et_workspaces t' = et_workspaces t /\
    (exists text, row = event_row as_f64 event (compute_depth (se_parent_id event) t) text) /\
    er_id row ∉ map er_id (et_events t) /\ se_session_id event ∈ map sr_id (et_sessions t) /\
    (forall p, se_parent_id event = Some p -> is_Some (event_by_id p t)) /\
    ps_holds (event_owner (er_id row)) (er_payload row) (se_payload event) (et_storage t') /\
    (forall e v, e ∈ et_events t -> ps_holds (event_owner (er_id e)) (er_payload e) v (et_storage t) ->
       ps_holds (event_owner (er_id e)) (er_payload e) v (et_storage t')).
Proof.
  intros Ht (Hfit & Hplain & Hdist). unfold insert_event.
  destruct (ps_store _ _ _ _ _ _) as [[text|e] storage] eqn:Hst; [|by destruct (_ || _)].
  destruct (event_allowed event t) eqn:Hal; [|done]. intros [= <-].
  unfold event_allowed in Hal. rewrite !andb_true_iff, !negb_true_iff, not_existsb_key, existsb_key in Hal.
  destruct Hal as [[[Hid Hseq] Hses] Hpar].
  set (row := event_row _ _ _ _).
  assert (er_id row = se_id event /\ er_session_id row = se_session_id event /\
          er_sequence row = se_sequence event /\ er_parent_id row = se_parent_id event /\
          er_payload row = text /\ er_event_type row = event_type_as_str (se_event_type event))
    as (Ei & Es & Eq & Ep & Ex & Et).
  { subst row. unfold event_row. by destruct (extract_tokens _) as [[[? ?] ?] ?]. }
  assert (forall p, se_parent_id event = Some p -> is_Some (event_by_id p t)) as Hp.
  { intros p Hp. rewrite Hp, existsb_key in Hpar. destruct (event_by_id p t) eqn:E; [by eexists|].
    by apply find_key_none in E. }
  pose proof (ps_store_inv (tm_now stamp) (tm_blob stamp) (tm_ref stamp) (se_payload event)
    (event_options event) _ (ev_storage _ Ht) Hfit) as Hinv. rewrite Hst in Hinv.
  pose proof (ps_store_holds _ _ _ _ _ _ _ _ (ev_storage _ Ht) Hfit Hplain Hdist Hst) as Hholds.
  assert (forall e v, e ∈ et_events t -> ps_holds (event_owner (er_id e)) (er_payload e) v (et_storage t) ->
            ps_holds (event_owner (er_id e)) (er_payload e) v storage) as Hkeep.
  { intros e v He Hh.
    pose proof (ps_store_keeps (tm_now stamp) (tm_blob stamp) (tm_ref stamp) (se_payload event)
      (event_options event) _ (event_owner (er_id e)) (er_payload e) v (ev_storage _ Ht) Hfit) as Hk.
    rewrite Hst in Hk. apply Hk; [|done]. intros [= E]. destruct Hid. rewrite <- E.
    by apply (list_elem_of_fmap_2 er_id). }
  exists row. destruct Ht as [H1 H2 H3 H4 H5 H6].
  split_and!; simpl; try done; [|by eexists|by rewrite Ei|by rewrite Ei, Ex].
  constructor; simpl; rewrite ?map_app; try done.
  - apply NoDup_app. split_and!; [done| |apply NoDup_singleton].
    intros x Hx Hx'. apply list_elem_of_singleton in Hx' as ->. by rewrite Ei in Hx.
  - apply NoDup_app. split_and!; [done| |apply NoDup_singleton].
    intros x Hx Hx'. apply list_elem_of_singleton in Hx' as ->. rewrite Es, Eq in Hx.
    apply list_elem_of_fmap in Hx as (e & [= E1 E2] & He%list_elem_of_In).
    apply not_true_iff_false in Hseq. apply Hseq. apply existsb_exists. exists e. split; [done|].
    by rewrite E1, E2, String.eqb_refl, Z.eqb_refl.
  - apply rooted_app; [done|by rewrite Ei|]. rewrite Ep. exact Hp.
  - apply Forall_app. split; [done|]. apply Forall_singleton. by exists (se_event_type event).
  - apply Forall_app. split.
    + apply Forall_forall. intros e He. destruct (proj1 (Forall_forall _ _) H6 e He) as [v Hv].
      exists v. auto.
    + apply Forall_singleton. exists (se_payload event). by rewrite Ei, Ex.
Qed.

(** *** Sessions *)

Lemma filter_snoc {A} (p : A -> bool) l x :
  List.filter p (l ++ [x]) = List.filter p l ++ (if p x then [x] else []).
Proof. by rewrite List.filter_app. Qed.

Lemma session_ok_other l row r :
  er_session_id row <> sr_id r -> session_ok l r -> session_ok (l ++ [row]) r.
Proof.
  intros Hne [(h & Hh & ?) (o & Ho & ?) He Hm Hu].
  assert (of_session (sr_id r) row = false) as Hf by by apply String.eqb_neq.
  constructor; rewrite ?filter_snoc, ?Hf, ?app_nil_r; try done.
  - exists h. split; [|done]. apply elem_of_app. by left.
  - exists o. split; [|done]. apply elem_of_app. by left.
Qed.

Lemma session_ok_own l row r f :
  er_session_id row = sr_id r -> sr_id (f r) = sr_id r ->
  sr_head_event_id (f r) = Some (er_id row) -> 
  (exists e, e ∈ l ++ [row] /\ er_session_id e = sr_id r /\ sr_root_event_id (f r) = Some (er_id e)) ->
  sr_event_count (f r) = sql_add (sr_event_count r) 1 ->
  sr_message_count (f r)
    = (if is_message_row row then sql_add (sr_message_count r) 1 else sr_message_count r) ->
  sr_turn_count (f r)
    = (if is_turn_row row then sql_add (sr_turn_count r) 1 else sr_turn_count r) ->
  counted (sr_event_count r) (List.length (List.filter (of_session (sr_id r)) l)) ->
  counted (sr_message_count r)
    (List.length (List.filter is_message_row (List.filter (of_session (sr_id r)) l))) ->
  counted (sr_turn_count r)
    (List.length (List.filter is_turn_row (List.filter (of_session (sr_id r)) l))) ->
  session_ok (l ++ [row]) (f r).
Proof.
  intros Hown Hid Hhead Hroot He Hm Hu Ce Cm Cu.
  assert (of_session (sr_id r) row = true) as Hf by by apply String.eqb_eq.
  constructor; rewrite ?Hid; try done.
  - exists row. split; [|done]. apply elem_of_app. right. by apply list_elem_of_singleton.
  - rewrite filter_snoc, Hf, List.length_app, He, Nat.add_comm. by apply counted_add.
  - rewrite filter_snoc, Hf, filter_snoc, Hm. destruct (is_message_row row).
    + rewrite List.length_app, Nat.add_comm. by apply counted_add.
    + by rewrite app_nil_r.
  - rewrite filter_snoc, Hf, filter_snoc, Hu. destruct (is_turn_row row).
    + rewrite List.length_app, Nat.add_comm. by apply counted_add.
    + by rewrite app_nil_r.
Qed.

Lemma appended_row_kind ty row :
  er_event_type row = event_type_as_str ty ->
  is_message_row row = bool_decide (ty = Event_MessageUser) || bool_decide (ty = Event_MessageAssistant) /\
  is_turn_row row = bool_decide (ty = Event_MessageAssistant).
Proof. unfold is_message_row, is_turn_row. intros ->. by destruct ty. Qed.

Lemma session_ok_appended l row r ty payload now :
  er_session_id row = sr_id r -> er_event_type row = event_type_as_str ty -> session_ok l r ->
  session_ok (l ++ [row])
    (add_counters add_f64 (append_counters as_f64 ty payload) now (set_head (er_id row) now r)).
Proof.
  intros Hown Hty [_ (o & Ho & ? & ?) He Hm Hu]. destruct (appended_row_kind ty row Hty) as [Em Eu].
  apply (session_ok_own l row r (fun r => add_counters add_f64 (append_counters as_f64 ty payload) now
    (set_head (er_id row) now r))); try done; simpl.
  - exists o. split; [|done]. apply elem_of_app. by left.
  - rewrite Em. by destruct ty.
  - rewrite Eu. by destruct ty.
Qed.

(** One session's row changes, and an event of it is added. *)
Lemma sessions_after l row sessions f :
  NoDup (map sr_id sessions) -> Forall (session_ok l) sessions ->
  (forall r, r ∈ sessions -> sr_id r = er_session_id row -> session_ok (l ++ [row]) (f r)) ->
  Forall (session_ok (l ++ [row]))
    (map (fun r => if sr_id r =s er_session_id row then f r else r) sessions).
Proof.
  intros Hnd Hall Hf. apply Forall_forall. intros x (r & -> & Hr)%list_elem_of_fmap.
  destruct (String.eqb_spec (sr_id r) (er_session_id row)) as [E|E]; [auto|].
  apply session_ok_other; [congruence|]. by apply (proj1 (Forall_forall _ _) Hall).
Qed.

Lemma update_twice id (f g : SessionRow -> SessionRow) l :
  (forall r, sr_id (f r) = sr_id r) ->
  map (fun r => if sr_id r =s id then g r else r) (map (fun r => if sr_id r =s id then f r else r) l)
  = map (fun r => if sr_id r =s id then g (f r) else r) l.
Proof.
  intros Hf. rewrite map_map. apply map_ext. intros r. destruct (sr_id r =s id) eqn:E; [|by rewrite E].
  by rewrite Hf, E.
Qed.
Lemma events_inv_sessions s t : events_inv t -> events_inv (set_sessions s t).
Proof. by intros []. Qed.
Lemma events_inv_workspaces w t : events_inv t -> events_inv (set_workspaces w t).
Proof. by intros []. Qed.
Lemma known_app l row (sessions : list SessionRow) :
  Forall (fun e => er_session_id e ∈ map sr_id sessions) l ->
  er_session_id row ∈ map sr_id sessions ->
  Forall (fun e => er_session_id e ∈ map sr_id sessions) (l ++ [row]).
Proof. intros Hl Hr. apply Forall_app. split; [done|]. by apply Forall_singleton. Qed.

Lemma event_row_fields event depth text :
  let row := event_row as_f64 event depth text in
  er_id row = se_id event /\ er_session_id row = se_session_id event /\
  er_parent_id row = se_parent_id event /\ er_sequence row = se_sequence event /\
  er_event_type row = event_type_as_str (se_event_type event).
Proof. unfold event_row. by destruct (extract_tokens _) as [[[? ?] ?] ?]. Qed.

(** An event is added, and its session's row is changed by [f]. *)
Lemma insert_with_session stamp event t t1 f :
  store_inv t -> storable event t -> insert_event as_f64 stamp event t = Ok t1 ->
  (forall r, sr_id (f r) = sr_id r) ->
  (forall row r, er_session_id row = sr_id r -> er_id row = se_id event ->
     er_event_type row = event_type_as_str (se_event_type event) ->
     r ∈ et_sessions t -> sr_id r = se_session_id event ->
     session_ok (et_events t ++ [row]) (f r)) ->
  store_inv (update_session (se_session_id event) f t1).
Proof.
  intros [Hev Hids Hkn Hses] Hst Hin Hf Hok.
  destruct (insert_event_inv _ _ _ _ Hev Hst Hin)
    as (row & Hev' & Ee & Es & _ & (text & Erow) & _ & Hknown & _).
  destruct (event_row_fields event (compute_depth (se_parent_id event) t) text)
    as (E1 & E2 & _ & _ & E5). rewrite <- Erow in *.
  constructor; unfold update_session; simpl; rewrite ?Ee, ?Es, ?(update_keys sr_id) by done; try done.
  - by apply events_inv_sessions.
  - apply known_app; [done|]. by rewrite E2.
  - rewrite <- E2. apply sessions_after; [done|done|]. intros r Hr Hid. apply Hok; congruence.
Qed.

(** *** Every operation keeps the invariant *)

Definition storable_as (id : string) (payload : Value) (t : EventTables) : Prop :=
  forall event, se_id event = id -> se_payload event = payload -> storable event t.

Lemma append_inv stamp opts identity t row t' :
  store_inv t -> storable_as (ei_id identity) (redact_json_strings redact (ao_payload opts)) t ->
  append_inner_with_identity as_f64 add_f64 redact stamp opts identity t = (Ok row, t') ->
  store_inv t'.
Proof.
  intros Ht Hst. unfold append_inner_with_identity, transaction, append_event_in_tx_with_identity.
  destruct (require_session _ t) as [session|]; [|done].
  set (event := appended_event redact session opts identity t).
  destruct (insert_event _ _ _ _) as [t1|] eqn:Hin; [|done].
  destruct (require_event _ _); [|done]. intros [= _ <-].
  set (f := fun r => add_counters add_f64 (append_counters as_f64 (ao_event_type opts) (ao_payload opts))
    (tm_text stamp) (set_head (se_id event) (tm_text stamp) r)).
  assert (store_inv (update_session (se_session_id event) f t1)) as Hi.
  { apply (insert_with_session stamp event t t1 f Ht); [by apply Hst|done|done|].
    intros row' r Hown Hid Hty Hr _. subst f. cbv beta. rewrite <- Hid.
    apply session_ok_appended; try done.
    by apply (proj1 (Forall_forall _ _) (iv_sessions _ Ht)). }
  unfold update_session in *. simpl. by rewrite update_twice.
Qed.

(** A new session with its first event. *)
Lemma new_session_inv r stamp event t t1 t2 :
  store_inv t -> insert_session r t = Ok t1 ->
  sr_event_count r = Integer 0 -> sr_message_count r = Integer 0 -> sr_turn_count r = Integer 0 ->
  storable event t1 -> se_session_id event = sr_id r ->
  se_event_type event = Event_SessionStart \/ se_event_type event = Event_SessionFork ->
  insert_root as_f64 add_f64 stamp event t1 = Ok t2 -> store_inv t2.
Proof.
  intros Ht. unfold insert_session. destruct (session_allowed r t) eqn:Hal; [|done]. intros [= <-].
  intros Ce Cm Cu Hst Hown Hty. unfold insert_root.
  destruct (insert_event _ _ _ _) as [t3|] eqn:Hin; [|done]. intros [= <-].
  unfold session_allowed in Hal. rewrite !andb_true_iff, negb_true_iff, not_existsb_key in Hal.
  destruct Hal as [[Hnew _] _]. destruct Ht as [Hev Hids Hkn Hses].
  destruct (insert_event_inv _ _ _ _ (events_inv_sessions _ _ Hev) Hst Hin)
    as (row & Hev' & Ee & Es & _ & (text & Erow) & _ & Hknown & _).
  destruct (event_row_fields event (compute_depth (se_parent_id event)
    (set_sessions (et_sessions t ++ [r]) t)) text) as (E1 & E2 & _ & _ & E5). rewrite <- Erow in *.
  simpl in Ee, Es. unfold update_session. simpl. rewrite !update_twice by done.
  assert (List.filter (of_session (sr_id r)) (et_events t) = []) as Hnone.
  { apply filter_none. intros e He. apply String.eqb_neq. intros E. destruct Hnew. rewrite <- E.
    exact (proj1 (Forall_forall _ _) Hkn e He). }
  constructor; simpl; rewrite ?Ee, ?Es, ?(update_keys sr_id) by done; rewrite ?map_app.
  - by apply events_inv_sessions, events_inv_sessions, events_inv_sessions.
  - apply NoDup_app. split_and!; [done| |apply NoDup_singleton].
    intros x Hx Hx'. apply list_elem_of_singleton in Hx' as ->. done.
  - apply Forall_app. split.
    + eapply Forall_impl; [exact Hkn|]. intros e He. apply elem_of_app. by left.
    + apply Forall_singleton. rewrite E2, Hown. apply elem_of_app. right. by apply list_elem_of_singleton.
  - apply Forall_app. split.
    + apply Forall_forall. intros x (r0 & -> & Hr0)%list_elem_of_fmap.
      assert (sr_id r0 <> sr_id r) as Hne.
      { intros E. destruct Hnew. rewrite <- E. by apply (list_elem_of_fmap_2 sr_id). }
      rewrite Hown, (proj2 (String.eqb_neq _ _) Hne). apply session_ok_other; [congruence|].
      by apply (proj1 (Forall_forall _ _) Hses).
    + apply Forall_singleton. rewrite Hown, String.eqb_refl.
      destruct (appended_row_kind _ row E5) as [Em Eu].
      apply (session_ok_own (et_events t) row r (fun r => add_counters add_f64 one_event (se_timestamp event)
        (set_head (se_id event) (se_timestamp event) (set_root (se_id event) r)))); simpl; try congruence.
      * exists row. split; [|split; congruence]. apply elem_of_app. right. by apply list_elem_of_singleton.
      * rewrite Em. by destruct Hty as [-> | ->].
      * rewrite Eu. by destruct Hty as [-> | ->].
      * by rewrite Hnone, Ce.
      * by rewrite Hnone, Cm.
      * by rewrite Hnone, Cu.
Qed.

Lemma workspace_storage path name identity t ws t1 :
  get_or_create_workspace path name identity t = Ok (ws, t1) ->
  exists w, t1 = set_workspaces w t.
Proof.
  unfold get_or_create_workspace. destruct (List.find _ _).
  - intros [= _ <-]. exists (et_workspaces t). by destruct t.
  - case_match; [done|]. intros [= _ <-]. by eexists.
Qed.
Lemma inv_workspaces w t : store_inv t -> store_inv (set_workspaces w t).
Proof. intros [? ? ? ?]. constructor; try done. by apply events_inv_workspaces. Qed.

Lemma create_inv stamp opts identity t a t' :
  store_inv t ->
  storable_as (ei_id (ci_root_event identity)) (se_payload (start_event detect opts identity "")) t ->
  create_session_with_identity as_f64 add_f64 detect stamp opts identity t = (Ok a, t') ->
  store_inv t'.
Proof.
  intros Ht Hst. unfold create_session_with_identity, transaction, create_session_in_tx_with_identity.
  destruct (get_or_create_workspace _ _ _ t) as [[ws t1]|] eqn:Hw; [|done].
  apply workspace_storage in Hw as [w ->].
  destruct (insert_session _ _) as [t2|] eqn:Hs; [|done].
  destruct (insert_root _ _ _ _ _) as [t3|] eqn:Hr; [|done].
  destruct (require_session _ _); [|done]. destruct (require_event _ _); [|done]. intros [= _ <-].
  refine (new_session_inv _ _ _ _ _ _ (inv_workspaces w t Ht) Hs eq_refl eq_refl eq_refl _ _ _ Hr);
    [|done|by left].
  unfold insert_session in Hs. destruct (session_allowed _ _); [|done]. injection Hs as <-.
  by apply (Hst (start_event detect opts identity (wr_id ws))).
Qed.

Lemma require_session_found id t r :
  require_session id t = Ok r -> find_key sr_id (et_sessions t) id = Some r.
Proof. unfold require_session, session_by_id. intros H. by inv_ok. Qed.
Lemma require_event_found id t e : require_event id t = Ok e -> event_by_id id t = Some e.
Proof. unfold require_event. intros H. by inv_ok. Qed.

Definition fork_storable (from : string) (identity : SessionForkIdentity) (t : EventTables) : Prop :=
  forall e, event_by_id from t = Some e ->
    storable_as (ei_id (fi_fork_event identity))
      (j{"sourceSessionId" ~> er_session_id e; "sourceEventId" ~> from}) t.
Lemma fork_start_storable from identity t e source :
  fork_storable from identity t -> require_event from t = Ok e ->
  require_session (er_session_id e) t = Ok source -> storable (fork_start from source identity) t.
Proof.
  intros Hst He%require_event_found Hs%require_session_found.
  apply List.find_some in Hs as [_ Es%String.eqb_eq].
  apply (Hst e He); [done|]. simpl. by rewrite Es.
Qed.

Definition fork_session (from : string) (opts : ForkOptions) (identity : SessionForkIdentity)
    (source : SessionRow) : SessionRow :=
  new_session (fi_session identity) (sr_workspace_id source)
    (default (sr_latest_model source) (fo_model opts)) (sr_working_directory source) (fo_title opts)
    (Some (sr_id source)) (Some from).
(** What a committed fork read and wrote. *)
Lemma fork_parts stamp (from : string) opts identity t session row t' :
  fork_storable from identity t ->
  fork_with_identity as_f64 add_f64 stamp from opts identity t = (Ok (session, row), t') ->
  exists e source t1,
    event_by_id from t = Some e /\ sr_id source = er_session_id e /\
    storable (fork_start from source identity) t /\
    insert_session (fork_session from opts identity source) t = Ok t1 /\
    insert_root as_f64 add_f64 stamp (fork_start from source identity) t1 = Ok t' /\
    require_session (si_id (fi_session identity)) t' = Ok session.
Proof.
  intros Hst. unfold fork_with_identity, transaction.
  destruct (require_event _ t) as [e|] eqn:He; [|done].
  destruct (require_session _ t) as [source|] eqn:Hsrc; [|done].
  destruct (insert_session _ _) as [t1|] eqn:Hs; [|done].
  destruct (insert_root _ _ _ _ _) as [t2|] eqn:Hr; [|done].
  destruct (require_session _ t2) eqn:Hses; [|done]. destruct (require_event _ t2); [|done].
  intros [= <- _ <-]. exists e, source, t1. split_and!; try done; [by apply require_event_found| |].
  - by apply require_session_found, List.find_some in Hsrc as [_ Es%String.eqb_eq].
  - exact (fork_start_storable _ _ _ _ _ Hst He Hsrc).
Qed.

Lemma fork_inv stamp (from : string) opts identity t a t' :
  store_inv t -> fork_storable from identity t ->
  fork_with_identity as_f64 add_f64 stamp from opts identity t = (Ok a, t') -> store_inv t'.
Proof.
  destruct a as [session row]. intros Ht Hst Hf.
  destruct (fork_parts _ _ _ _ _ _ _ _ Hst Hf) as (e & source & t1 & _ & _ & Hse & Hs & Hr & _).
  refine (new_session_inv _ _ _ _ _ _ Ht Hs eq_refl eq_refl eq_refl _ _ _ Hr); [|done|by right].
  unfold insert_session in Hs. destruct (session_allowed _ _); [|done]. by injection Hs as <-.
Qed.

Definition deletion_payload (target type : string) (reason : option string) : Value :=
  j{"targetEventId" ~> target; "targetType" ~> type; "reason" ~> default "user_request" reason}.
Definition deletion_storable (identity : EventIdentity) (target : string) (reason : option string)
    (t : EventTables) : Prop :=
  forall e, event_by_id target t = Some e ->
    storable_as (ei_id identity)
      (redact_json_strings redact (deletion_payload target (er_event_type e) reason)) t.
Lemma delete_message_inv stamp identity session_id target reason t row t' :
  store_inv t -> deletion_storable identity target reason t ->
  delete_message as_f64 add_f64 redact stamp identity session_id target reason t = (Ok row, t') ->
  store_inv t'.
Proof.
  intros Ht Hst. unfold delete_message. destruct (require_event target t) as [e|] eqn:He; [|done].
  apply require_event_found in He.
  destruct (event_type_from_str _) as [[]|]; try done; apply append_inv; try done; by apply Hst.
Qed.

(** Changes of a session's row that leave its pointers and counters. *)
Lemma update_inv id f t :
  store_inv t ->
  (forall r, sr_id (f r) = sr_id r /\ sr_head_event_id (f r) = sr_head_event_id r /\
     sr_root_event_id (f r) = sr_root_event_id r /\ sr_event_count (f r) = sr_event_count r /\
     sr_message_count (f r) = sr_message_count r /\ sr_turn_count (f r) = sr_turn_count r) ->
  store_inv (update_session id f t).
Proof.
  intros [Hev Hids Hkn Hses] Hf.
  constructor; unfold update_session; simpl; rewrite ?(update_keys sr_id) by apply Hf; try done.
  - by apply events_inv_sessions.
  - apply Forall_forall. intros x (r & -> & Hr)%list_elem_of_fmap.
    pose proof (proj1 (Forall_forall _ _) Hses r Hr) as Hok. destruct (_ =s _); [|done].
    destruct (Hf r) as (E1 & E2 & E3 & E4 & E5 & E6). destruct Hok.
    constructor; by rewrite ?E1, ?E2, ?E3, ?E4, ?E5, ?E6.
Qed.

(** *** Deleting a session *)

Lemma delete_agrees id t :
  events_inv t ->
  let rest := List.filter (fun e => negb (er_session_id e =s id)) (et_events t) in
  existsb (fun e => match er_parent_id e with
                    | Some p => existsb (String.eqb p) (map er_id (session_events id t))
                    | None => false
                    end) rest = false ->
  agree_on er_id er_parent_id (et_events t) rest.
Proof.
  intros Hev rest Hfk i e He. pose proof (ev_ids _ Hev) as Hnd.
  assert (NoDup (map er_id rest)) as Hnd' by by apply sublist_nodup.
  apply find_key_spec in He as [He <-]; [|done]. pose proof He as [Hin Hs]%elem_of_filter_bool.
  split; [by apply find_key_spec|]. intros p Hp.
  destruct (rooted_parent er_id er_parent_id _ (er_id e) e p (ev_rooted _ Hev)) as [pe Hpe]; [|done|].
  { by apply find_key_spec. }
  exists pe. pose proof Hpe as [Hpin Hpid]%find_key_spec; [|done]. apply find_key_spec; [done|].
  split; [|done]. apply elem_of_filter_bool. split; [done|]. apply negb_true_iff.
  apply not_true_iff_false. intros Hgone. apply not_true_iff_false in Hfk. apply Hfk.
  apply existsb_exists. exists e. split; [by apply list_elem_of_In|]. rewrite Hp.
  apply existsb_exists. exists p. split; [|by apply String.eqb_eq].
  apply list_elem_of_In, list_elem_of_fmap. exists pe. split; [done|]. by apply elem_of_filter_bool.
Qed.

Lemma filter_other_session id r l :
  sr_id r <> id ->
  List.filter (of_session (sr_id r)) (List.filter (fun e => negb (er_session_id e =s id)) l)
  = List.filter (of_session (sr_id r)) l.
Proof.
  intros Hne. rewrite filter_filter. apply filter_ext. intros e. unfold of_session.
  destruct (String.eqb_spec (er_session_id e) (sr_id r)) as [E|]; [|by rewrite ?andb_false_r].
  by rewrite E, (proj2 (String.eqb_neq _ _) Hne).
Qed.

Lemma delete_session_inv id t b t' :
  store_inv t -> delete_session id t = (Ok b, t') ->
  store_inv t' /\ et_storage t' = et_storage t /\
  et_events t' = List.filter (fun e => negb (er_session_id e =s id)) (et_events t) /\
  et_sessions t' = List.filter (fun r => negb (sr_id r =s id)) (et_sessions t) /\
  agree_on er_id er_parent_id (et_events t) (et_events t').
Proof.
  intros [Hev Hids Hkn Hses]. unfold delete_session, transaction, delete_events_by_session.
  destruct (existsb _ (List.filter (fun e => negb (er_session_id e =s id)) _)) eqn:Hfk; [done|].
  unfold delete_session_row. destruct (_ && _); [done|]. intros [= _ <-]. simpl.
  pose proof (delete_agrees id t Hev Hfk) as Ha. split_and!; try done.
  constructor; simpl; [|by apply sublist_nodup|..].
  - destruct Hev as [H1 H2 H3 H4 H5 H6]. constructor; simpl; try done.
    + by apply sublist_nodup.
    + by apply sublist_nodup.
    + by eapply agree_rooted.
    + apply Forall_forall. intros e [He _]%elem_of_filter_bool. by apply (proj1 (Forall_forall _ _) H5).
    + apply Forall_forall. intros e [He _]%elem_of_filter_bool. by apply (proj1 (Forall_forall _ _) H6).
  - apply Forall_forall. intros e [He Hne]%elem_of_filter_bool.
    pose proof (proj1 (Forall_forall _ _) Hkn e He) as (r & E & Hr)%list_elem_of_fmap.
    apply list_elem_of_fmap. exists r. split; [done|]. apply elem_of_filter_bool. split; [done|].
    by rewrite <- E.
  - apply Forall_forall. intros r [Hr Hne]%elem_of_filter_bool.
    apply negb_true_iff, String.eqb_neq in Hne.
    pose proof (proj1 (Forall_forall _ _) Hses r Hr) as [(h & Hh & Eh & ?) (o & Ho & Eo & ?) ? ? ?].
    constructor; rewrite ?filter_other_session by done; try done.
    + exists h. split; [|done]. apply elem_of_filter_bool. split; [done|].
      apply negb_true_iff, String.eqb_neq. congruence.
    + exists o. split; [|done]. apply elem_of_filter_bool. split; [done|].
      apply negb_true_iff, String.eqb_neq. congruence.
Qed.

Definition session_owner (own : owner) : Prop := exists id, own = event_owner id.
Lemma env_inv storage t :
  store_inv t -> ps_env session_owner (et_storage t) storage -> store_inv (set_storage storage t).
Proof.
  intros [[H1 H2 H3 H4 H5 H6] Hids Hkn Hses] Henv. destruct (ps_env_ok _ _ _ H1 Henv) as [Hi Hk].
  constructor; try done. constructor; try done.
  eapply Forall_impl; [exact H6|]. intros e [v Hv]. exists v. apply Hk; [by exists (er_id e)|done].
Qed.

(** ** Reachable stores *)

(** The operations that succeed (one that fails changes nothing), and what other
    users of the payload tables do. *)
Inductive es_step (t : EventTables) : EventTables -> Prop :=
| step_create stamp opts identity a t' :
    storable_as (ei_id (ci_root_event identity)) (se_payload (start_event detect opts identity "")) t ->
    create_session_with_identity as_f64 add_f64 detect stamp opts identity t = (Ok a, t') ->
    es_step t t'
| step_append stamp opts identity row t' :
    storable_as (ei_id identity) (redact_json_strings redact (ao_payload opts)) t ->
    append_with_identity as_f64 add_f64 redact stamp opts identity t = (Ok row, t') -> es_step t t'
| step_delete_message stamp identity session_id target reason row t' :
    deletion_storable identity target reason t ->
    delete_message as_f64 add_f64 redact stamp identity session_id target reason t = (Ok row, t') ->
    es_step t t'
| step_fork stamp (from : string) opts identity a t' :
    fork_storable from identity t ->
    fork_with_identity as_f64 add_f64 stamp from opts identity t = (Ok a, t') -> es_step t t'
| step_end now id : es_step t (snd (end_session now id t))
| step_clear now id : es_step t (snd (clear_session_ended now id t))
| step_model now id model : es_step t (snd (update_latest_model now id model t))
| step_title id title : es_step t (snd (update_session_title id title t))
| step_delete id b t' : delete_session id t = (Ok b, t') -> es_step t t'
| step_env storage : ps_env session_owner (et_storage t) storage -> es_step t (set_storage storage t).

Definition no_events (storage : T) : EventTables :=
  {| et_workspaces := []; et_sessions := []; et_events := []; et_storage := storage |}.
Definition es_reachable (t : EventTables) : Prop :=
  exists storage, ps_inv storage /\ rtc es_step (no_events storage) t.

Lemma no_events_inv storage : ps_inv storage -> store_inv (no_events storage).
Proof. intros Hs. repeat constructor; simpl; done. Qed.

Lemma step_inv t t' : store_inv t -> es_step t t' -> store_inv t'.
Proof.
  intros Ht [stamp opts identity a t1 Hst H|stamp opts identity row t1 Hst H
            |stamp identity sid target reason row t1 Hst H|stamp from opts identity a t1 Hst H
            |now id|now id|now id model|id title|id b t1 H|storage H].
  - by eapply create_inv.
  - by eapply append_inv.
  - by eapply delete_message_inv.
  - by eapply fork_inv.
  - by apply update_inv.
  - by apply update_inv.
  - by apply update_inv.
  - by apply update_inv.
  - by eapply delete_session_inv.
  - by apply env_inv.
Qed.
Lemma reachable_inv t : es_reachable t -> store_inv t.
Proof.
  intros (storage & Hs & Hr). eapply (rtc_ind_r (fun t => store_inv t)); [by apply no_events_inv| |exact Hr].
  intros t1 t2 _ Hst Hi. by eapply step_inv.
Qed.


(** The counters of a session count its events, messages and turns. *)
Theorem session_counters_are_exact t r :
  es_reachable t -> r ∈ et_sessions t ->
  let own := List.filter (fun e => er_session_id e =s sr_id r) (et_events t) in
  counted (sr_event_count r) (List.length own) /\
  counted (sr_message_count r) (List.length (List.filter is_message_row own)) /\
  counted (sr_turn_count r) (List.length (List.filter is_turn_row own)).
Proof.
  intros Ht%reachable_inv Hr. by destruct (proj1 (Forall_forall _ _) (iv_sessions _ Ht) r Hr).
Qed.

(** ** Histories *)

(** The events of one store are, with their chains, among those of the other, and
    the payloads of the events in both are kept. *)
Definition linked (t t' : EventTables) : Prop :=
  (agree_on er_id er_parent_id (et_events t') (et_events t) \/
   agree_on er_id er_parent_id (et_events t) (et_events t')) /\
  forall e v, e ∈ et_events t -> e ∈ et_events t' ->
    ps_holds (event_owner (er_id e)) (er_payload e) v (et_storage t) ->
    ps_holds (event_owner (er_id e)) (er_payload e) v (et_storage t').

Lemma rooted_agree_refl l : rooted er_id er_parent_id l -> agree_on er_id er_parent_id l l.
Proof. intros Hr id e He. split; [done|]. intros p. by eapply rooted_parent. Qed.
Lemma linked_same t t' :
  events_inv t -> et_events t' = et_events t -> et_storage t' = et_storage t -> linked t t'.
Proof.
  intros Ht Ee Es. split; rewrite Ee; [left; apply rooted_agree_refl, Ht|]. by rewrite Es.
Qed.
Lemma linked_insert stamp event t0 t t1 t' :
  events_inv t -> et_events t = et_events t0 -> et_storage t = et_storage t0 ->
  storable event t -> insert_event as_f64 stamp event t = Ok t1 ->
  et_events t' = et_events t1 -> et_storage t' = et_storage t1 -> linked t0 t'.
Proof.
  intros Ht E0 S0 Hst Hin Ee Es.
  destruct (insert_event_inv _ _ _ _ Ht Hst Hin) as (row & _ & Er & _ & _ & _ & _ & _ & _ & _ & Hk).
  split; rewrite Ee, Er, <- E0.
  - left. apply agree_app, Ht.
  - intros e v He _. rewrite Es, <- S0. by apply Hk.
Qed.

Lemma append_linked stamp opts identity t row t' :
  store_inv t -> storable_as (ei_id identity) (redact_json_strings redact (ao_payload opts)) t ->
  append_inner_with_identity as_f64 add_f64 redact stamp opts identity t = (Ok row, t') -> linked t t'.
Proof.
  intros Ht Hst. unfold append_inner_with_identity, transaction, append_event_in_tx_with_identity.
  destruct (require_session _ t) as [session|]; [|done].
  destruct (insert_event _ _ _ _) as [t1|] eqn:Hin; [|done].
  destruct (require_event _ _); [|done]. intros [= _ <-].
  eapply linked_insert; [apply Ht|done|done| |exact Hin|done|done]. by apply Hst.
Qed.
Lemma root_linked stamp event r t0 t t1 t2 :
  events_inv t -> et_events t = et_events t0 -> et_storage t = et_storage t0 ->
  insert_session r t = Ok t1 -> storable event t ->
  insert_root as_f64 add_f64 stamp event t1 = Ok t2 -> linked t0 t2.
Proof.
  intros Ht E0 S0. unfold insert_session. destruct (session_allowed _ _); [|done]. intros [= <-] Hst.
  unfold insert_root. destruct (insert_event _ _ _ _) as [t3|] eqn:Hin; [|done]. intros [= <-].
  eapply linked_insert; [by apply events_inv_sessions|exact E0|exact S0| |exact Hin|done|done]. done.
Qed.

Lemma step_linked t t' : store_inv t -> es_step t t' -> linked t t'.
Proof.
  intros Ht [stamp opts identity a t1 Hst H|stamp opts identity row t1 Hst H
            |stamp identity sid target reason row t1 Hst H|stamp from opts identity a t1 Hst H
            |now id|now id|now id model|id title|id b t1 H|storage H].
  - revert H. unfold create_session_with_identity, transaction, create_session_in_tx_with_identity.
    destruct (get_or_create_workspace _ _ _ t) as [[ws t2]|] eqn:Hw; [|done].
    apply workspace_storage in Hw as [w ->].
    destruct (insert_session _ _) as [t2|] eqn:Hs; [|done].
    destruct (insert_root _ _ _ _ _) as [t3|] eqn:Hr; [|done].
    destruct (require_session _ _); [|done]. destruct (require_event _ _); [|done]. intros [= _ <-].
    eapply root_linked; [by apply events_inv_workspaces, Ht|done|done|exact Hs| |exact Hr].
    by apply (Hst (start_event detect opts identity (wr_id ws))).
  - by eapply append_linked.
  - revert H. unfold delete_message. destruct (require_event target t) as [e|] eqn:He; [|done].
    apply require_event_found in He.
    destruct (event_type_from_str _) as [[]|]; try done; apply append_linked; try done; by apply Hst.
  - destruct a as [session row].
    destruct (fork_parts _ _ _ _ _ _ _ _ Hst H) as (e & source & t2 & _ & _ & Hse & Hs & Hr & _).
    eapply root_linked; [apply Ht|done|done|exact Hs|exact Hse|exact Hr].
  - apply linked_same; [apply Ht|done|done].
  - apply linked_same; [apply Ht|done|done].
  - apply linked_same; [apply Ht|done|done].
  - apply linked_same; [apply Ht|done|done].
  - destruct (delete_session_inv _ _ _ _ Ht H) as (_ & Es & Ee & _ & Ha). split; [by right|].
    intros e v He _. by rewrite Es.
  - split; [left; apply rooted_agree_refl, Ht|]. intros e v _ _ Hv.
    destruct (ps_env_ok _ _ _ (ev_storage _ (iv_events _ Ht)) H) as [_ Hk]. apply Hk; [by exists (er_id e)|done].
Qed.

Lemma walk_elem {A} (key : A -> string) parent fuel l id x :
  x ∈ walk key parent fuel l id -> x ∈ l.
Proof.
  revert id. induction fuel as [|fuel IH]; intros id; simpl;
    (destruct (find_key key l id) as [e|] eqn:He; [|by intros ?%not_elem_of_nil]);
    pose proof (List.find_some _ _ He) as [Hin%list_elem_of_In _].
  - by intros ->%list_elem_of_singleton.
  - destruct (parent e); [|by intros ->%list_elem_of_singleton].
    intros [Hx|Hx]%elem_of_app; [by eapply IH|]. by apply list_elem_of_singleton in Hx as ->.
Qed.

(** The event that a row stands for. *)
Definition row_event (row : EventRow) (ty : EventType) (v : Value) : SessionEvent :=
  {| se_id := er_id row; se_parent_id := er_parent_id row; se_session_id := er_session_id row;
     se_workspace_id := er_workspace_id row; se_timestamp := er_timestamp row; se_event_type := ty;
     se_sequence := er_sequence row; se_checksum := er_checksum row; se_payload := v |}.
Lemma read_row row ty v t :
  ps_inv (et_storage t) -> er_event_type row = event_type_as_str ty ->
  ps_holds (event_owner (er_id row)) (er_payload row) v (et_storage t) ->
  event_rows_to_session_events [row] t = [row_event row ty v].
Proof.
  intros Ht Hty Hv. unfold event_rows_to_session_events. simpl.
  by rewrite Hty, event_type_round_trip, (ps_read_back _ _ _ _ Ht Hv).
Qed.
Lemma read_app rows rows' t :
  event_rows_to_session_events (rows ++ rows') t
  = event_rows_to_session_events rows t ++ event_rows_to_session_events rows' t.
Proof. apply omap_app. Qed.
Lemma read_same rows t t' :
  events_inv t -> ps_inv (et_storage t') -> linked t t' ->
  (forall e, e ∈ rows -> e ∈ et_events t /\ e ∈ et_events t') ->
  event_rows_to_session_events rows t' = event_rows_to_session_events rows t.
Proof.
  intros Ht Ht' Hl. induction rows as [|row rows IH]; intros Hrows; [done|].
  change (row :: rows) with ([row] ++ rows). rewrite !read_app, IH by (intros e He; apply Hrows; by right).
  f_equal. destruct (Hrows row (list_elem_of_here _ _)) as [Hr Hr'].
  destruct (proj1 (Forall_forall _ _) (ev_types _ Ht) row Hr) as [ty Hty].
  destruct (proj1 (Forall_forall _ _) (ev_payloads _ Ht) row Hr) as [v Hv].
  rewrite (read_row row ty v t' Ht' Hty); [|by apply Hl].
  by rewrite (read_row row ty v t (ev_storage _ Ht) Hty).
Qed.

(** C25: In an event store whose events were all appended with storable payloads, whatever
    operation is applied next, and whatever the payload storage does in between for other
    owners (stores, retention, garbage collection), the history that leads to an event that
    is still stored reads the same as before: same events, same order, same payloads. A
    payload is storable when its JSON text parses back to it (assumed of values without
    floats, nested at most 127 levels), it is not a small value with the shape of a payload
    reference, no other stored content has the digest of its text, and the text is at most
    i64::MAX bytes long. *)
Theorem stored_history_never_changes t t' id :
  es_reachable t -> es_step t t' -> is_Some (event_by_id id t) -> is_Some (event_by_id id t') ->
  history_at id t' = history_at id t.
Proof.
  intros Ht%reachable_inv Hstep [e He] [e' He']. pose proof (step_linked _ _ Ht Hstep) as Hl.
  pose proof (step_inv _ _ Ht Hstep) as Ht'.
  assert (get_ancestors id t' = get_ancestors id t) as Hw.
  { unfold get_ancestors. destruct Hl as [[Ha|Ha] _]; [|symmetry]; eapply walk_agree; eauto. }
  unfold history_at. rewrite Hw. apply read_same; [apply Ht|apply Ht'|done|].
  intros x Hx. split; [by eapply walk_elem|]. rewrite <- Hw in Hx. by eapply walk_elem.
Qed.

(** *** What an event adds to a history *)

Lemma limit_succ : ANCESTOR_LIMIT = S (Z.to_nat 9999).
Proof. unfold ANCESTOR_LIMIT. lia. Qed.

(** A chain below the limit is walked to its root with one step less. *)
Lemma walk_short l id c :
  chain er_id er_parent_id l id c -> (List.length (walk er_id er_parent_id ANCESTOR_LIMIT l id) <= ANCESTOR_LIMIT)%nat ->
  walk er_id er_parent_id (Z.to_nat 9999) l id = walk er_id er_parent_id ANCESTOR_LIMIT l id.
Proof.
  intros Hc. rewrite !(walk_chain _ _ _ _ _ _ Hc), limit_succ, length_drop. intros Hlen.
  f_equal. lia.
Qed.

Lemma row_event_back event depth text :
  row_event (event_row as_f64 event depth text) (se_event_type event) (se_payload event) = event.
Proof. unfold row_event, event_row. by destruct (extract_tokens _) as [[[? ?] ?] ?], event. Qed.

Definition below_limit (parent : option string) (t : EventTables (T := T)) : Prop :=
  forall p, parent = Some p -> (List.length (get_ancestors p t) <= ANCESTOR_LIMIT)%nat.

Lemma insert_history stamp event t t1 :
  events_inv t -> storable event t -> insert_event as_f64 stamp event t = Ok t1 ->
  below_limit (se_parent_id event) t ->
  history_at (se_id event) t1
  = match se_parent_id event with Some p => history_at p t | None => [] end ++ [event].
Proof.
  intros Ht Hst Hin Hlim.
  assert (linked t t1) as Hl by (by eapply linked_insert).
  destruct (insert_event_inv _ _ _ _ Ht Hst Hin)
    as (row & Ht1 & Ee & _ & _ & (text & Erow) & Hnew & _ & Hpar & Hh & _).
  destruct (event_row_fields event (compute_depth (se_parent_id event) t) text)
    as (E1 & _ & E3 & _ & E5). rewrite <- Erow in *.
  unfold history_at at 1, get_ancestors. rewrite Ee, <- E1, limit_succ.
  rewrite walk_new; [|apply Ht|done|by rewrite E3]. rewrite E3, read_app. f_equal.
  - destruct (se_parent_id event) as [p|]; [|done]. destruct (Hpar p eq_refl) as [pe Hpe].
    destruct (ev_rooted _ Ht p pe Hpe) as [c Hc]. rewrite (walk_short _ _ _ Hc) by by apply Hlim.
    apply read_same; [done|apply Ht1|done|]. intros e He%walk_elem. split; [done|].
    rewrite Ee. apply elem_of_app. by left.
  - rewrite (read_row row _ _ t1 (ev_storage _ Ht1) E5 Hh). by rewrite Erow, row_event_back.
Qed.

Lemma history_sessions id s t : history_at id (set_sessions s t) = history_at id t.
Proof. done. Qed.

(** An append without an explicit parent moves the head of its session to the new
    event, and the history at the new head is the history at the old head followed by
    exactly the event appended, its payload redacted and read back from storage unchanged.
    *)
Theorem append_extends_the_history stamp opts identity t row t' r h :
  es_reachable t ->
  storable_as (ei_id identity) (redact_json_strings redact (ao_payload opts)) t ->
  ao_parent_id opts = None ->
  append_with_identity as_f64 add_f64 redact stamp opts identity t = (Ok row, t') ->
  find_key sr_id (et_sessions t) (ao_session_id opts) = Some r -> sr_head_event_id r = Some h ->
  (List.length (get_ancestors h t) <= ANCESTOR_LIMIT)%nat ->
  sr_head_event_id <$> find_key sr_id (et_sessions t') (ao_session_id opts) = Some (Some (er_id row)) /\
  history_at (er_id row) t' = history_at h t ++ [appended_event redact r opts identity t].
Proof.
  intros Ht%reachable_inv Hst Hpar Happ Hr Hh Hlim. revert Happ.
  unfold append_with_identity, append_inner_with_identity, transaction, append_event_in_tx_with_identity.
  destruct (require_session _ t) as [session|] eqn:Hs; [|done].
  apply require_session_found in Hs. assert (session = r) as -> by congruence.
  set (event := appended_event redact r opts identity t).
  destruct (insert_event _ _ _ _) as [t1|] eqn:Hin; [|done].
  destruct (require_event _ _) as [row'|] eqn:Hrow; [|done]. intros [= <- <-].
  assert (storable event t) as Hse by by apply Hst.
  destruct (insert_event_inv _ _ _ _ (iv_events _ Ht) Hse Hin) as (rw & _ & Ee & Es & _ & (text & Erow) & _).
  assert (er_id row' = se_id event) as Eid.
  { unfold require_event, event_by_id, find_key in Hrow. destruct (List.find _ _) as [x|] eqn:Hf; [|done].
    injection Hrow as ->. by apply List.find_some in Hf as [_ ?%String.eqb_eq]. }
  assert (se_parent_id event = Some h) as Hp by (simpl; by rewrite Hpar).
  split.
  - unfold update_session. simpl. rewrite update_twice, Es by done.
    rewrite (find_key_updated sr_id _ (fun r => add_counters _ _ _ (set_head _ _ r)) _ r) by done.
    simpl. by rewrite Eid.
  - rewrite Eid. change (history_at (se_id event) t1 = history_at h t ++ [event]).
    rewrite (insert_history _ _ _ _ (iv_events _ Ht) Hse Hin), Hp; [done|].
    intros p. rewrite Hp. by intros [= <-].
Qed.

(** *** Forks *)

Lemma collect_fork l event m :
  se_event_type event = Event_SessionFork ->
  fold_left (fun m e => collect_event e m) (l ++ [event]) m = fold_left (fun m e => collect_event e m) l m.
Proof. intros Hty. rewrite fold_left_app. simpl. unfold collect_event at 1. by rewrite Hty. Qed.
(** A fork event says nothing. *)
Lemma reconstruct_fork l event :
  se_event_type event = Event_SessionFork ->
  reconstruct_from_events (l ++ [event]) = reconstruct_from_events l.
Proof.
  intros Hty. unfold reconstruct_from_events, collect_metadata. rewrite collect_fork by done.
  unfold build_messages. rewrite fold_left_app. cbn [fold_left].
  set (st := fold_left _ l initial_build).
  assert (forall md, build_step md st event = st) as E; [|by rewrite E].
  intros md. unfold build_step. rewrite Hty. by destruct (bool_decide _).
Qed.

Lemma find_key_new (sessions : list SessionRow) r :
  sr_id r ∉ map sr_id sessions -> find_key sr_id (sessions ++ [r]) (sr_id r) = Some r.
Proof. intros Hn. rewrite find_key_app, (proj2 (find_key_none _ _ _) Hn). by rewrite String.eqb_refl. Qed.

Lemma walk_not_nil {A} (key : A -> string) parent fuel l id e :
  find_key key l id = Some e -> walk key parent fuel l id <> [].
Proof.
  destruct fuel; simpl; intros ->; [done|]. destruct (parent e); [|done]. by destruct (walk _ _ _ _ _).
Qed.


(** *** Deletion *)

(** Another session builds on the session: with an event whose parent is one of
    its events, or as a fork of it. *)
Definition built_on (id : string) (t : EventTables (T := T)) : Prop :=
  (exists e p, e ∈ et_events t /\ p ∈ et_events t /\ er_parent_id e = Some (er_id p) /\
     er_session_id p = id /\ er_session_id e <> id) \/
  (id ∈ map sr_id (et_sessions t) /\
   exists r, r ∈ et_sessions t /\ sr_id r <> id /\ sr_parent_session_id r = Some id).

Lemma dangling_children id t :
  existsb (fun e => match er_parent_id e with
                    | Some p => existsb (String.eqb p) (map er_id (session_events id t))
                    | None => false
                    end) (List.filter (fun e => negb (er_session_id e =s id)) (et_events t)) = true
  <-> exists e p, e ∈ et_events t /\ p ∈ et_events t /\ er_parent_id e = Some (er_id p) /\
        er_session_id p = id /\ er_session_id e <> id.
Proof.
  rewrite existsb_exists. split.
  - intros (e & [He Hne]%list_elem_of_In%elem_of_filter_bool & Hp).
    destruct (er_parent_id e) as [q|] eqn:Hpar; [|done].
    apply existsb_exists in Hp as (q' & Hq%list_elem_of_In & <-%String.eqb_eq).
    apply list_elem_of_fmap in Hq as (p & -> & [Hp Hs%String.eqb_eq]%elem_of_filter_bool).
    apply negb_true_iff, String.eqb_neq in Hne. eauto 10.
  - intros (e & p & He & Hp & Hpar & Hs & Hne). exists e. split.
    + apply list_elem_of_In, elem_of_filter_bool. split; [done|]. by apply negb_true_iff, String.eqb_neq.
    + rewrite Hpar. apply existsb_exists. exists (er_id p). split; [|by apply String.eqb_eq].
      apply list_elem_of_In, (list_elem_of_fmap_2 er_id), elem_of_filter_bool. split; [done|].
      by apply String.eqb_eq.
Qed.

(** Deleting a session is refused with a constraint error and changes nothing exactly
    when another session builds on it (an event of another session has its parent in it, or
    another session is a fork of it); otherwise its row and its events are removed, and
    nothing else. *)
Theorem delete_session_spec id t :
  (built_on id t -> delete_session id t = (Err (Es_Sqlite Sql_Constraint), t)) /\
  (~ built_on id t -> delete_session id t
     = (Ok (session_exists id t),
        {| et_workspaces := et_workspaces t;
           et_sessions := List.filter (fun r => negb (sr_id r =s id)) (et_sessions t);
           et_events := List.filter (fun e => negb (er_session_id e =s id)) (et_events t);
           et_storage := et_storage t |})).
Proof.
  unfold delete_session, transaction, delete_events_by_session, delete_session_row, built_on.
  pose proof (dangling_children id t) as Hc.
  destruct (existsb _ (List.filter (fun e => negb (er_session_id e =s id)) (et_events t))).
  { split; [done|]. intros Hn. destruct Hn. left. by apply Hc. }
  set (t1 := set_events _ t). assert (session_events id t1 = []) as Hnone.
  { apply filter_none. intros e [_ He]%elem_of_filter_bool. by apply negb_true_iff. }
  cbv zeta. rewrite Hnone. simpl is_nil. simpl negb. rewrite orb_false_r.
  change (session_exists id t1) with (session_exists id t).
  destruct (session_exists id t) eqn:Hex; simpl andb.
  - apply existsb_key in Hex.
    destruct (existsb (fun r => bool_decide (sr_parent_session_id r = Some id)) _) eqn:Hp.
    + split; [done|]. intros Hn. destruct Hn. right. split; [done|].
      apply existsb_exists in Hp as (r & [Hr Hne]%list_elem_of_In%elem_of_filter_bool & Hpar).
      apply bool_decide_eq_true in Hpar. apply negb_true_iff, String.eqb_neq in Hne. eauto.
    + split; [|done]. intros [Hl|(_ & r & Hr & Hne & Hpar)]; [by apply Hc in Hl|].
      apply not_true_iff_false in Hp. destruct Hp. apply existsb_exists. exists r.
      split; [|by apply bool_decide_eq_true]. apply list_elem_of_In, elem_of_filter_bool.
      split; [done|]. by apply negb_true_iff, String.eqb_neq.
  - apply not_existsb_key in Hex. split; [|done].
    intros [Hl|[Hin _]]; [by apply Hc in Hl|done].
Qed.

(** *** Order *)

Lemma sort_last {A} (leb : A -> A -> bool) l x :
  Forall (fun y => leb y x = true) l -> stable_sort leb (l ++ [x]) = stable_sort leb l ++ [x].
Proof.
  assert (forall y s, leb y x = true ->
            insert_stable leb y (s ++ [x]) = insert_stable leb y s ++ [x]) as Hi.
  { intros y s Hy. induction s as [|z s IH]; simpl; [by rewrite Hy|]. destruct (leb y z); [done|].
    by rewrite IH. }
  induction 1 as [|y l Hy _ IH]; [done|]. simpl. by rewrite IH, Hi.
Qed.

Lemma fold_max_ge (l : list Z) n : n <= fold_left Z.max l n /\ Forall (fun m => m <= fold_left Z.max l n) l.
Proof.
  revert n. induction l as [|m l IH]; intros n; simpl; [split; [lia|constructor]|].
  destruct (IH (Z.max n m)) as [H1 H2]. split; [lia|]. constructor; [lia|done].
Qed.
Lemma max_sequence_ge l e : e ∈ l -> er_sequence e <= default 0 (max_sequence_of l).
Proof.
  unfold max_sequence_of. intros He%(list_elem_of_fmap_2 er_sequence). change (map er_sequence l) with (er_sequence <$> l).
  destruct (er_sequence <$> l) as [|n rest]; [by apply not_elem_of_nil in He|]. simpl.
  destruct (fold_max_ge rest n) as [H1 H2]. apply elem_of_cons in He as [->|He]; [done|].
  by apply (proj1 (Forall_forall _ _) H2).
Qed.

(** An event appended without an explicit sequence number is listed last. *)
Theorem events_are_listed_as_appended stamp opts identity t row t' l :
  es_reachable t ->
  storable_as (ei_id identity) (redact_json_strings redact (ao_payload opts)) t ->
  ao_sequence opts = None -> get_max_sequence (ao_session_id opts) t < i64_max ->
  - i64_max <= get_max_sequence (ao_session_id opts) t ->
  append_with_identity as_f64 add_f64 redact stamp opts identity t = (Ok row, t') ->
  get_by_session (ao_session_id opts) None None t = Ok l ->
  get_by_session (ao_session_id opts) None None t' = Ok (l ++ [row]).
Proof.
  intros Ht%reachable_inv Hst Hseq Hmax Hmin Happ. revert Happ.
  unfold append_with_identity, append_inner_with_identity, transaction, append_event_in_tx_with_identity.
  destruct (require_session _ t) as [session|] eqn:Hs; [|done].
  set (event := appended_event redact session opts identity t).
  destruct (insert_event _ _ _ _) as [t1|] eqn:Hin; [|done].
  destruct (require_event _ _) as [row'|] eqn:Hrow; [|done]. intros [= <- <-].
  assert (storable event t) as Hse by by apply Hst.
  destruct (insert_event_inv _ _ _ _ (iv_events _ Ht) Hse Hin)
    as (rw & Hev & Ee & _ & _ & (text & Erow) & Hnew & _).
  destruct (event_row_fields event (compute_depth (se_parent_id event) t) text)
    as (E1 & E2 & _ & E4 & _). rewrite <- Erow in *.
  assert (row' = rw) as ->.
  { unfold require_event, event_by_id, update_session in Hrow. cbn [et_events set_sessions] in Hrow.
    rewrite Ee, find_key_app in Hrow.
    rewrite (proj2 (find_key_none er_id (et_events t) (se_id event))) in Hrow by by rewrite <- E1.
    rewrite E1, String.eqb_refl in Hrow. by injection Hrow. }
  intros [= <-]. unfold get_by_session, sql_page, session_events. simpl. rewrite Ee, filter_snoc.
  rewrite E2. simpl. rewrite String.eqb_refl. unfold by_sequence. rewrite sort_last; [done|].
  apply Forall_forall. intros e He. apply Z.leb_le. rewrite E4. simpl. rewrite Hseq.
  unfold get_max_sequence in *. rewrite wrapping_add_i64_small by (unfold in_i64; lia).
  apply max_sequence_ge in He. unfold session_events in *. lia.
Qed.
End invariant.

(** ** Samples *)

Definition same_text (s : string) : string := s.
Definition number_key (n : number) : string := number_to_string n.
Definition no_provider (model : string) : option string := None.
#[local] Instance sample_payloads : PayloadStore StorageTables :=
  storage_payload_store plain_hash tagged untag clock_text value_text value_of_text untag_tagged
    (fun v _ => value_of_value_text v).
Definition sample_stamp (n : string) : Stamp :=
  {| tm_now := 1; tm_text := "t" +s n; tm_blob := "b" +s n; tm_ref := "r" +s n |}.
Definition sample_identity : SessionCreationIdentity :=
  {| ci_workspace := {| wi_id := "w1"; wi_created_at := "t0" |};
     ci_session := {| si_id := "s1"; si_created_at := "t0" |};
     ci_root_event := {| ei_id := "e0"; ei_timestamp := "t0" |} |}.
Definition sample_create : CreateSessionInTxOptions :=
  {| co_model := "claude-x"; co_workspace_path := "/p"; co_title := None; co_provider := None |}.
Definition say (text : string) : AppendOptions :=
  {| ao_session_id := "s1"; ao_event_type := Event_MessageUser;
     ao_payload := j{"content" ~> text}; ao_parent_id := None; ao_sequence := None |}.
Definition fork_identity : SessionForkIdentity :=
  {| fi_session := {| si_id := "s2"; si_created_at := "t9" |};
     fi_fork_event := {| ei_id := "f0"; ei_timestamp := "t9" |} |}.
Notation sample_append n text t :=
  (append_with_identity number_key String.append same_text (sample_stamp n) (say text)
    {| ei_id := "e" +s n; ei_timestamp := "t" +s n |} t).

Definition store0 : EventTables (T := StorageTables) := no_events (storage_empty None).
Definition store1 : EventTables (T := StorageTables) :=
  snd (create_session_with_identity number_key String.append no_provider (sample_stamp "0")
         sample_create sample_identity store0).
Definition store2 : EventTables (T := StorageTables) := snd (sample_append "1" "hello" store1).
Definition row2 : EventRow := match fst (sample_append "1" "hello" store1) with Ok r => r | Err _ => flush_sentinel end.
Notation forked := (fork_with_identity number_key String.append (sample_stamp "9") "e1"
  {| fo_model := None; fo_title := None |} fork_identity store2).

Notation sample_reachable :=
  (es_reachable number_key String.append same_text no_provider (T := StorageTables)).
Notation sample_step := (es_step number_key String.append same_text no_provider (T := StorageTables)).

(** With a hash without collisions a value can be stored when its text is short
    enough and it does not pose as a reference. *)
Lemma sample_storable id v (t : EventTables (T := StorageTables)) :
  (byte_len (value_text v) <=? i64_max) = true -> envelope_blob_id v = None -> storable_as id v t.
Proof.
  intros Hlen Henv event _ <-. split_and!.
  - by apply Z.leb_le.
  - split_and!; [apply value_of_value_text|by right|done].
  - intros b content _ _ Hc. exact Hc.
Qed.


Lemma ok_pair {A B} (p : ES A * B) : is_ok (fst p) = true -> exists a, p = (Ok a, snd p).
Proof. destruct p as [[a|e] b]; [by exists a|done]. Qed.

Lemma ok_row {A B} (d : A) (p : ES A * B) :
  is_ok (fst p) = true -> p = (Ok match fst p with Ok r => r | Err _ => d end, snd p).
Proof. by destruct p as [[a|e] b]. Qed.

Lemma sample_create_step : sample_step store0 store1.
Proof.
  destruct (ok_pair (create_session_with_identity number_key String.append no_provider (sample_stamp "0")
    sample_create sample_identity store0)) as [a Ha]; [vm_compute; reflexivity|].
  eapply step_create; [|exact Ha]. apply sample_storable; vm_compute; reflexivity.
Qed.
Lemma sample_append_step : sample_step store1 store2.
Proof.
  destruct (ok_pair (sample_append "1" "hello" store1)) as [a Ha]; [vm_compute; reflexivity|].
  eapply step_append; [|exact Ha]. apply sample_storable; vm_compute; reflexivity.
Qed.
Lemma said1_reachable : sample_reachable store1.
Proof.
  exists (storage_empty None). split; [apply inv_empty|]. apply rtc_once, sample_create_step.
Qed.
Lemma said2_reachable : sample_reachable store2.
Proof.
  exists (storage_empty None). split; [apply inv_empty|].
  eapply rtc_l; [apply sample_create_step|]. apply rtc_once, sample_append_step.
Qed.


Definition session2 : SessionRow := List.hd (new_session (ci_session sample_identity) "" "" "" None None None)
  (et_sessions store2).
Lemma session_counters_are_exact_witness :
  sr_event_count session2 = Integer 2 /\ counted (sr_message_count session2) 1.
Proof.
  assert (session2 ∈ et_sessions store2) as Hin by left.
  destruct (session_counters_are_exact number_key String.append same_text no_provider store2 session2
    said2_reachable Hin) as (He & Hm & _).
  split; [exact He|exact Hm].
Defined.

Lemma stored_history_never_changes_witness :
  history_at "e0" store2 = history_at "e0" store1 /\ history_at "e0" store1 <> [].
Proof.
  split; [|vm_compute; discriminate].
  apply (stored_history_never_changes number_key String.append same_text no_provider store1 store2 "e0"
    said1_reachable sample_append_step); eexists; vm_compute; reflexivity.
Defined.

Lemma append_extends_the_history_witness :
  history_at "e1" store2
  = history_at "e0" store1
    ++ [appended_event same_text (List.hd session2 (et_sessions store1)) (say "hello")
          {| ei_id := "e1"; ei_timestamp := "t1" |} store1].
Proof.
  apply (append_extends_the_history number_key String.append same_text no_provider (sample_stamp "1")
    (say "hello") {| ei_id := "e1"; ei_timestamp := "t1" |} store1 row2 store2
    (List.hd session2 (et_sessions store1)) "e0" said1_reachable).
  - apply sample_storable; vm_compute; reflexivity.
  - reflexivity.
  - vm_compute. reflexivity.
  - vm_compute. reflexivity.
  - vm_compute. reflexivity.
  - replace (List.length (get_ancestors "e0" store1)) with 1%nat by (vm_compute; reflexivity).
    unfold ANCESTOR_LIMIT. lia.
Defined.

Lemma sample_fork_storable : fork_storable "e1" fork_identity store2.
Proof.
  intros e He. assert (er_session_id e = "s1") as ->.
  { vm_compute in He. by injection He as <-. }
  apply sample_storable; vm_compute; reflexivity.
Qed.

Lemma events_are_listed_as_appended_witness :
  exists l, get_by_session "s1" None None store2 = Ok (l ++ [row2]) /\ List.length l = 1%nat.
Proof.
  exists (by_sequence (session_events "s1" store1)). split; [|vm_compute; reflexivity].
  apply (events_are_listed_as_appended number_key String.append same_text no_provider (sample_stamp "1")
    (say "hello") {| ei_id := "e" +s "1"; ei_timestamp := "t" +s "1" |} store1 row2 store2
    (by_sequence (session_events "s1" store1)) said1_reachable).
  - apply sample_storable; vm_compute; reflexivity.
  - reflexivity.
  - vm_compute. reflexivity.
  - vm_compute. discriminate.
  - unfold row2, store2. apply ok_row. vm_compute. reflexivity.
  - reflexivity.
Defined.

(** The limit of the recursive query: of a chain that is longer, the oldest events
    are missing from the history. *)
Lemma long_history_loses_its_root (t : EventTables (T := StorageTables)) id c :
  chain er_id er_parent_id (et_events t) id c -> (S ANCESTOR_LIMIT < List.length c)%nat ->
  get_ancestors id t <> c.
Proof.
  intros Hc Hlen E. unfold get_ancestors in E. rewrite (walk_chain _ _ _ _ _ _ Hc) in E.
  apply (f_equal List.length) in E. rewrite length_drop in E. lia.
Qed.
(** An offset without a limit does not parse. *)
Lemma offset_needs_a_limit (t : EventTables (T := StorageTables)) session_id k :
  get_by_session session_id None (Some k) t = Err (Es_Sqlite Sql_Syntax).
Proof. done. Qed.
