(* ===== verification/Messages.v ===== *)
(** * Messages

    The conversation as a model sees it: content blocks and messages
    ([shared/protocol/content.rs], [messages/mod.rs]), truncation at character
    boundaries ([shared/foundation/text.rs]) and the estimate of their tokens
    ([domains/agent/context/token_estimator.rs]).

    Strings are their UTF-8 bytes, so [len] is the length of the string.  An
    [f64] that is only passed on is kept as its text.  The JSON text of a value,
    whose length is estimated, is a parameter. *)

From stdpp Require Import base strings list pretty.
From Stdlib Require Import ZArith Ascii String Lia.
From S2P Require Import Prelude Json.

#[local] Open Scope Z_scope.

(** ** Content *)

(* SRC shared/protocol/content.rs:53-91 UserContent *)
Inductive UserContent :=
| UserContent_Text (text : string)
| UserContent_Image (data mime_type : string)
| UserContent_Document (data mime_type : string) (file_name extracted_text : option string).
(* SRC shared/protocol/content.rs:93-125 AssistantContent *)
Inductive AssistantContent :=
| AssistantContent_Text (text : string)
| AssistantContent_Thinking (thinking : string) (signature : option string)
| AssistantContent_CapabilityInvocation (id name : string) (arguments : list (string * Value))
    (thought_signature : option string).
(* SRC shared/protocol/content.rs:127-146 CapabilityResultContent *)
Inductive CapabilityResultContent :=
| ResultContent_Text (text : string)
| ResultContent_Image (data mime_type : string).

(* SRC shared/protocol/messages/mod.rs:265-273 UserMessageContent *)
Inductive UserMessageContent :=
| UserMessage_Text (text : string)
| UserMessage_Blocks (blocks : list UserContent).
(* SRC shared/protocol/messages/mod.rs:275-283 CapabilityResultMessageContent *)
Inductive CapabilityResultMessageContent :=
| ResultMessage_Text (text : string)
| ResultMessage_Blocks (blocks : list CapabilityResultContent).

(* SRC shared/protocol/messages/mod.rs:111-138 Provider *)
Inductive Provider :=
| Provider_Anthropic | Provider_OpenAi | Provider_OpenAiCodex | Provider_Google
| Provider_MiniMax | Provider_Kimi | Provider_Ollama | Provider_Unknown.

(* SRC shared/protocol/messages/mod.rs:179-226 TokenUsage *)
Record TokenUsage := {
  tu_input_tokens : Z;
  tu_output_tokens : Z;
  tu_cache_read_tokens : option Z;
  tu_cached_input_tokens : option Z;
  tu_cache_creation_tokens : option Z;
  tu_cache_creation_5m_tokens : option Z;
  tu_cache_creation_1h_tokens : option Z;
  tu_reasoning_output_tokens : option Z;
  tu_thought_tokens : option Z;
  tu_tool_use_prompt_tokens : option Z;
  tu_total_tokens : option Z;
  tu_provider_type : option Provider
}.
(* SRC shared/protocol/messages/mod.rs:228-240 Cost *)
Record Cost := {
  co_input_cost : string;
  co_output_cost : string;
  co_total : string;
  co_currency : string
}.
(* SRC shared/protocol/messages/mod.rs:242-259 StopReason *)
Inductive StopReason :=
| Stop_EndTurn | Stop_CapabilityInvocation | Stop_MaxTokens | Stop_StopSequence | Stop_Refusal
| Stop_ModelContextWindowExceeded.

(* SRC shared/protocol/messages/mod.rs:285-328 Message *)
Inductive Message :=
| Message_User (content : UserMessageContent) (timestamp : option string)
| Message_Assistant (content : list AssistantContent) (usage : option TokenUsage)
    (cost : option Cost) (stop_reason : option StopReason) (thinking : option string)
| Message_CapabilityResult (invocation_id : string) (content : CapabilityResultMessageContent)
    (is_error : option bool).

(* SRC shared/protocol/messages/mod.rs:335-339 Message::is_user *)
Definition is_user (m : Message) : bool := match m with Message_User _ _ => true | _ => false end.
(* SRC shared/protocol/messages/mod.rs:347-351 Message::is_capability_result *)
Definition is_capability_result (m : Message) : bool :=
  match m with Message_CapabilityResult _ _ _ => true | _ => false end.
(* SRC shared/protocol/messages/mod.rs:362-367 Message::is_compaction_summary *)
Definition is_compaction_summary (m : Message) : bool :=
  match m with
  | Message_User (UserMessage_Text t) _ => starts_with t "[Context from earlier in this conversation]"
  | _ => false
  end.
(* SRC shared/protocol/messages/mod.rs:369-373 Message::is_real_user_turn *)
Definition is_real_user_turn (m : Message) : bool := is_user m && negb (is_compaction_summary m).
(* SRC shared/protocol/messages/mod.rs:353-360 Message::user *)
Definition user_message (text : string) : Message := Message_User (UserMessage_Text text) None.
(* SRC shared/protocol/messages/mod.rs:375-385 Message::assistant *)
Definition assistant_message (text : string) : Message :=
  Message_Assistant [AssistantContent_Text text] None None None None.

(** ** Text *)

Definition len (s : string) : Z := Z.of_nat (String.length s).
Definition is_continuation (a : ascii) : bool := (128 <=? code a) && (code a <=? 191).
(** [s.is_char_boundary(n)] *)
Definition is_char_boundary (s : string) (n : nat) : bool :=
  match n with
  | O => true
  | _ => match String.get n s with
         | Some a => negb (is_continuation a)
         | None => Nat.eqb n (String.length s)
         end
  end.
(** The loop of [truncate_str]: down to a character boundary. *)
Fixpoint boundary_below (s : string) (n : nat) : nat :=
  match n with
  | O => O
  | S k => if is_char_boundary s n then n else boundary_below s k
  end.
(* SRC shared/foundation/text.rs:6-33 truncate_str *)
Definition truncate_str (s : string) (max_bytes : nat) : string :=
  if (String.length s <=? max_bytes)%nat then s
  else String.substring 0 (boundary_below s max_bytes) s.
(* SRC shared/foundation/text.rs:35-55 truncate_with_suffix *)
Definition truncate_with_suffix (s : string) (max_bytes : nat) (suffix : string) : string :=
  if (String.length s <=? max_bytes)%nat then s
  else truncate_str s (max_bytes - String.length suffix) +s suffix.

(** ** Estimates *)

(* SRC domains/agent/context/constants.rs:10-10! CHARS_PER_TOKEN *)
Definition CHARS_PER_TOKEN : Z := 4.
(* SRC domains/agent/context/constants.rs:13-13! MIN_IMAGE_TOKENS *)
Definition MIN_IMAGE_TOKENS : Z := 85.
(* SRC domains/agent/context/constants.rs:16-16! DEFAULT_URL_IMAGE_TOKENS *)
Definition DEFAULT_URL_IMAGE_TOKENS : Z := 1500.

Definition div_ceil (a b : Z) : Z := (a + b - 1) / b.
(** [x as u32] of an integer, and the product of two [u32]. *)
Definition as_u32 (z : Z) : Z := z mod 2 ^ 32.
Definition wrapping_mul_u32 (a b : Z) : Z := (a * b) mod 2 ^ 32.

(* SRC domains/agent/context/token_estimator.rs:25-29 chars_to_tokens *)
Definition chars_to_tokens (chars : Z) : Z := as_u32 (div_ceil chars CHARS_PER_TOKEN).

(** [(len * 0.75 * 5.0 / 750.0).ceil() as u32]: the products are exact and so is
    the ceiling of [len / 200] for data below 2^40 bytes; the cast saturates. *)
(* SRC domains/agent/context/token_estimator.rs:59-70 estimate_image_tokens *)
Definition estimate_image_tokens (data : option string) : Z :=
  match data with
  | Some data => Z.max (Z.min (div_ceil (len data) 200) u32_max) MIN_IMAGE_TOKENS
  | None => DEFAULT_URL_IMAGE_TOKENS
  end.
Definition image_chars (data : string) : Z :=
  wrapping_mul_u32 (estimate_image_tokens (Some data)) CHARS_PER_TOKEN.

(* SRC domains/agent/context/token_estimator.rs:156-167 estimate_user_content_chars *)
Definition estimate_user_content_chars (content : UserContent) : Z :=
  match content with
  | UserContent_Text text => len text
  | UserContent_Image data _ => image_chars data
  | UserContent_Document data _ _ _ => len data
  end.
(* SRC domains/agent/context/token_estimator.rs:186-196 estimate_capability_result_content_chars *)
Definition estimate_capability_result_content_chars (content : CapabilityResultContent) : Z :=
  match content with
  | ResultContent_Text text => len text
  | ResultContent_Image data _ => image_chars data
  end.

Definition sum (l : list Z) : Z := foldr Z.add 0 l.

Section estimates.
  Variable json_text : Value -> string.

(* SRC domains/agent/context/token_estimator.rs:169-184 estimate_assistant_content_chars *)
Definition estimate_assistant_content_chars (content : AssistantContent) : Z :=
  match content with
  | AssistantContent_Text text => len text
  | AssistantContent_Thinking thinking _ => len thinking
  | AssistantContent_CapabilityInvocation id name arguments _ =>
      len id + len name + len (json_text (VObject arguments))
  end.

(* SRC domains/agent/context/token_estimator.rs:202-246 estimate_message_tokens *)
Definition estimate_message_tokens (message : Message) : Z :=
  let role_str := match message with
                  | Message_User _ _ => "user"
                  | Message_Assistant _ _ _ _ _ => "assistant"
                  | Message_CapabilityResult _ _ _ => "capabilityResult"
                  end in
  chars_to_tokens
    (len role_str + 10 +
     match message with
     | Message_User (UserMessage_Text text) _ => len text
     | Message_User (UserMessage_Blocks blocks) _ => sum (map estimate_user_content_chars blocks)
     | Message_Assistant content _ _ _ _ => sum (map estimate_assistant_content_chars content)
     | Message_CapabilityResult invocation_id content _ =>
         len invocation_id +
         match content with
         | ResultMessage_Text text => len text
         | ResultMessage_Blocks blocks => sum (map estimate_capability_result_content_chars blocks)
         end
     end).

(* SRC domains/agent/context/token_estimator.rs:259-269 estimate_system_prompt_tokens *)
Definition estimate_system_prompt_tokens (system_prompt : string)
    (capability_clarification : option string) : Z :=
  chars_to_tokens (len system_prompt + match capability_clarification with
                                       | Some c => len c | None => 0 end).

(** A capability definition is its serialized value. *)
(* SRC domains/agent/context/token_estimator.rs:271-279 estimate_capabilities_tokens *)
Definition estimate_capabilities_tokens (capabilities : list Value) : Z :=
  chars_to_tokens (sum (map (fun c => len (json_text c)) capabilities)).
End estimates.

(** ** Lemmas *)

Lemma boundary_below_le s n : (boundary_below s n <= n)%nat.
Proof.
  induction n as [|n IH]; [done|]. cbn [boundary_below]. destruct (is_char_boundary s (S n)); [done|].
  lia.
Qed.
Lemma boundary_below_ok s n : is_char_boundary s (boundary_below s n) = true.
Proof.
  induction n as [|n IH]; [done|]. cbn [boundary_below].
  destruct (is_char_boundary s (S n)) eqn:E; [exact E|exact IH].
Qed.
Lemma substring_length n s : (n <= String.length s)%nat -> String.length (String.substring 0 n s) = n.
Proof.
  revert s. induction n as [|n IH]; intros [|a s] H; simpl in *; try done; [lia|].
  f_equal. apply IH. lia.
Qed.
Lemma substring_prefix n s :
  (n <= String.length s)%nat -> s = String.substring 0 n s +s drop_str n s.
Proof.
  revert s. induction n as [|n IH]; intros [|a s] H; simpl in *; try done; try lia.
  change (String a s = String a (String.substring 0 n s +s drop_str n s)). by rewrite <- IH by lia.
Qed.
Lemma length_str_app a b : String.length (a +s b) = (String.length a + String.length b)%nat.
Proof. induction a as [|x a IH]; [done|]. simpl. by rewrite IH. Qed.

(** A truncated text is a prefix of the text that ends between characters. *)
Lemma truncate_str_spec s n :
  exists k rest, truncate_str s n = String.substring 0 k s /\ s = String.substring 0 k s +s rest /\
    String.length (truncate_str s n) = k /\ (k <= n)%nat /\ (k <= String.length s)%nat /\
    is_char_boundary s k = true.
Proof.
  unfold truncate_str. destruct (Nat.leb_spec (String.length s) n) as [Hle|Hgt].
  - exists (String.length s), "". assert (String.substring 0 (String.length s) s = s) as E.
    { clear. induction s as [|a s IH]; [done|]. simpl. by rewrite IH. }
    rewrite E, append_nil_r. split_and!; try done; try lia.
    unfold is_char_boundary. destruct (String.length s) as [|k] eqn:El; [done|].
    destruct (String.get (S k) s) eqn:Eg; [|by rewrite Nat.eqb_refl].
    exfalso. clear -El Eg. revert s El Eg. generalize (S k) as n. intros n s Hl. revert n Hl.
    induction s as [|x s IH]; intros n Hl Hg; simpl in *; [by subst n|].
    destruct n as [|n]; [done|]. injection Hl as Hl. by apply (IH n).
  - pose proof (boundary_below_le s n) as Hb. exists (boundary_below s n), (drop_str (boundary_below s n) s).
    rewrite substring_length by lia.
    split_and!; try done; try lia; [by apply substring_prefix; lia|apply boundary_below_ok].
Qed.
Lemma boundary_below_longest s n k :
  (k <= n)%nat -> is_char_boundary s k = true -> (k <= boundary_below s n)%nat.
Proof.
  induction n as [|n IH]; [simpl; lia|]. intros Hk Hb. cbn [boundary_below].
  destruct (is_char_boundary s (S n)) eqn:E; [done|].
  destruct (decide (k = S n)) as [->|]; [congruence|]. apply IH; [lia|done].
Qed.
Lemma boundary_in_range s k : is_char_boundary s k = true -> (k <= String.length s)%nat.
Proof.
  unfold is_char_boundary. destruct k as [|k]; [lia|].
  destruct (String.get (S k) s) eqn:E; [|intros ->%Nat.eqb_eq; lia]. intros _. revert s E.
  generalize (S k) as n. induction n as [|n IH]; intros [|x s] E; simpl in *; try done; try lia.
  specialize (IH s E). lia.
Qed.
Lemma truncate_str_longest s n k :
  (k <= n)%nat -> is_char_boundary s k = true -> (k <= String.length (truncate_str s n))%nat.
Proof.
  intros Hk Hb. unfold truncate_str. destruct (Nat.leb_spec (String.length s) n) as [Hle|Hgt].
  - by apply boundary_in_range.
  - rewrite substring_length by (pose proof (boundary_below_le s n); lia).
    by apply boundary_below_longest.
Qed.
Lemma len_nonneg s : 0 <= len s.
Proof. unfold len. lia. Qed.
Lemma sum_app a b : sum (a ++ b) = sum a + sum b.
Proof. induction a as [|x a IH]; simpl; lia. Qed.
