(* ===== verification/AgentContext.v ===== *)
(** * AgentContext

    The context window of the agent loop ([domains/agent/context/]): the message
    store with its cache of token estimates, the keyword summarizer, the
    compaction engine that replaces old turns by a summary, the context manager
    that owns them, the snapshot of its accounting, and the compaction handler of
    the loop ([domains/agent/loop/compaction_handler/mod.rs]).

    An [f64] is a binary64 float of [SpecFloat].  A capability of the model is the
    value it serializes to.  The system prompt is resolved before construction and
    the home directory is a parameter.  Sums of [u64] token counts are taken
    in [Z]; the sum of the [u32] cache wraps. *)

From stdpp Require Import base strings list pretty.
From Stdlib Require Import ZArith Ascii String Lia SpecFloat.
From S2P Require Import Prelude Json Reconstruction Messages.

Import JsonNotations.

#[local] Open Scope Z_scope.

(** ** Floats *)

Definition f64 : Type := spec_float.
Definition f64_of (z : Z) : f64 := binary_normalize 53 1024 z 0 false.
Definition f64_mul : f64 -> f64 -> f64 := SFmul 53 1024.
Definition f64_div : f64 -> f64 -> f64 := SFdiv 53 1024.
Definition f64_ge (a b : f64) : bool := SFleb b a.
Definition f64_lt (a b : f64) : bool := SFltb a b.
(** [x as u64]: towards zero, saturating, NaN to zero. *)
Definition f64_to_u64 (x : f64) : Z :=
  match x with
  | S754_zero _ | S754_nan => 0
  | S754_infinity s => if s then 0 else u64_max
  | S754_finite true _ _ => 0
  | S754_finite false m e => Z.min u64_max (Z.shiftl (Zpos m) e)
  end.
(** A literal with two decimals. *)
Definition hundredths (n : Z) : f64 := f64_div (f64_of n) (f64_of 100).
Definition saturating_sub (a b : Z) : Z := Z.max 0 (a - b).

(** ** Types and constants *)

(* SRC domains/agent/context/constants.rs:23-23! CAPABILITY_RESULT_MIN_TOKENS *)
Definition CAPABILITY_RESULT_MIN_TOKENS : Z := 2500.
(* SRC domains/agent/context/constants.rs:26-26! CAPABILITY_RESULT_MAX_CHARS *)
Definition CAPABILITY_RESULT_MAX_CHARS : Z := 100000.
(* SRC domains/agent/context/constants.rs:48-57! Thresholds *)
Definition WARNING : f64 := hundredths 50.
(* SRC domains/agent/context/constants.rs:51-52! Thresholds::ALERT *)
Definition ALERT : f64 := hundredths 70.
(* SRC domains/agent/context/constants.rs:53-54! Thresholds::CRITICAL *)
Definition CRITICAL : f64 := hundredths 85.
(* SRC domains/agent/context/constants.rs:55-56! Thresholds::EXCEEDED *)
Definition EXCEEDED : f64 := hundredths 95.

(* SRC domains/agent/context/types.rs:14-22 ThresholdLevel *)
Inductive ThresholdLevel := Level_Normal | Level_Warning | Level_Alert | Level_Critical | Level_Exceeded.
(* SRC domains/agent/context/types.rs:25-38 ThresholdLevel::from_ratio *)
Definition from_ratio (ratio : f64) : ThresholdLevel :=
  if f64_ge ratio EXCEEDED then Level_Exceeded
  else if f64_ge ratio CRITICAL then Level_Critical
  else if f64_ge ratio ALERT then Level_Alert
  else if f64_ge ratio WARNING then Level_Warning
  else Level_Normal.

(* SRC domains/agent/context/types.rs:50-55 CompactionConfig *)
Record CompactionConfig := {
  cc_threshold : f64;
  cc_preserve_recent_turns : nat;
  cc_context_limit : Z
}.
(* SRC domains/agent/context/types.rs:58-64 CompactionConfig::default *)
Definition default_compaction : CompactionConfig :=
  {| cc_threshold := hundredths 70; cc_preserve_recent_turns := 5; cc_context_limit := 200000 |}.
(* SRC domains/agent/context/types.rs:41-48 ContextManagerConfig *)
Record ContextManagerConfig := {
  cg_model : string;
  cg_system_prompt : string;
  cg_working_directory : option string;
  cg_capabilities : list Value;
  cg_compaction : CompactionConfig
}.
(* SRC domains/agent/context/types.rs:220-224 KeyDecision *)
Record KeyDecision := { kd_decision : string; kd_reason : string }.
(* SRC domains/agent/context/types.rs:197-218 ExtractedData *)
Record ExtractedData := {
  ed_current_goal : string;
  ed_completed_steps : list string;
  ed_pending_tasks : list string;
  ed_key_decisions : list KeyDecision;
  ed_files_modified : list string;
  ed_topics_discussed : list string;
  ed_user_preferences : list string;
  ed_important_context : list string;
  ed_thinking_insights : list string
}.
Definition no_extracted_data : ExtractedData :=
  {| ed_current_goal := ""; ed_completed_steps := []; ed_pending_tasks := []; ed_key_decisions := [];
     ed_files_modified := []; ed_topics_discussed := []; ed_user_preferences := [];
     ed_important_context := []; ed_thinking_insights := [] |}.
(* SRC domains/agent/context/types.rs:226-231 SummaryResult *)
Record SummaryResult := { sr_extracted_data : ExtractedData; sr_narrative : string }.
(* SRC domains/agent/context/types.rs:151-164 CompactionPreview *)
Record CompactionPreview := {
  cp_tokens_before : Z;
  cp_tokens_after : Z;
  cp_compression_ratio : f64;
  cp_preserved_messages : nat;
  cp_summarized_messages : nat;
  cp_preserved_turns : nat;
  cp_summarized_turns : nat;
  cp_summary : string;
  cp_extracted_data : option ExtractedData
}.
(* SRC domains/agent/context/types.rs:166-179 CompactionResult *)
Record CompactionResult := {
  cr_success : bool;
  cr_tokens_before : Z;
  cr_tokens_after : Z;
  cr_compression_ratio : f64;
  cr_preserved_turns : nat;
  cr_summarized_turns : nat;
  cr_preserved_messages : nat;
  cr_summary : string;
  cr_extracted_data : option ExtractedData
}.
(* SRC domains/agent/context/types.rs:181-187 ProcessedCapabilityResult *)
Record ProcessedCapabilityResult := {
  pc_invocation_id : string;
  pc_content : string;
  pc_truncated : bool;
  pc_original_size : option Z
}.
(* SRC domains/agent/context/types.rs:142-149 PreTurnValidation *)
Record PreTurnValidation := {
  pv_can_proceed : bool;
  pv_needs_compaction : bool;
  pv_current_tokens : Z;
  pv_context_limit : Z
}.
(* SRC domains/agent/context/types.rs:67-75 TokenBreakdown *)
Record TokenBreakdown := {
  tb_system_prompt : Z;
  tb_capabilities : Z;
  tb_environment : Z;
  tb_messages : Z;
  tb_provider_adjustment : Z
}.
(* SRC domains/agent/context/types.rs:78-85 TokenBreakdown::total *)
Definition breakdown_total (b : TokenBreakdown) : Z :=
  tb_system_prompt b + tb_capabilities b + tb_environment b + tb_messages b + tb_provider_adjustment b.
(* SRC domains/agent/context/types.rs:88-96 ContextSnapshot *)
Record ContextSnapshot := {
  cs_current_tokens : Z;
  cs_context_limit : Z;
  cs_usage_percent : f64;
  cs_threshold_level : ThresholdLevel;
  cs_breakdown : TokenBreakdown
}.

Section context.
  Variable json_text : Value -> string.
  Notation message_tokens := (estimate_message_tokens json_text).

(** ** The message store *)

(* SRC domains/agent/context/message_store.rs:29-40 MessageStore *)
Record MessageStore := {
  st_messages : list Message;
  st_token_cache : list Z;
  st_arc_snapshot : option (list Message)
}.
(* SRC domains/agent/context/message_store.rs:43-51 MessageStore::new *)
Definition store_new : MessageStore :=
  {| st_messages := []; st_token_cache := []; st_arc_snapshot := None |}.
(* SRC domains/agent/context/message_store.rs:64-72 MessageStore::add *)
Definition store_add (message : Message) (s : MessageStore) : MessageStore :=
  {| st_messages := st_messages s ++ [message];
     st_token_cache := st_token_cache s ++ [message_tokens message]; st_arc_snapshot := None |}.
(* SRC domains/agent/context/message_store.rs:74-81 MessageStore::set *)
Definition store_set (messages : list Message) (s : MessageStore) : MessageStore :=
  {| st_messages := messages; st_token_cache := map message_tokens messages; st_arc_snapshot := None |}.
(* SRC domains/agent/context/message_store.rs:96-101 MessageStore::clear *)
Definition store_clear (s : MessageStore) : MessageStore :=
  {| st_messages := []; st_token_cache := []; st_arc_snapshot := None |}.
(* SRC domains/agent/context/message_store.rs:103-114 MessageStore::as_arc *)
Definition store_as_arc (s : MessageStore) : list Message * MessageStore :=
  match st_arc_snapshot s with
  | Some arc => (arc, s)
  | None => (st_messages s, {| st_messages := st_messages s; st_token_cache := st_token_cache s;
                               st_arc_snapshot := Some (st_messages s) |})
  end.
(* SRC domains/agent/context/message_store.rs:116-122 MessageStore::get_tokens *)
Definition store_get_tokens (s : MessageStore) : Z := as_u32 (sum (st_token_cache s)).

(** ** The keyword summarizer *)

(** [b.as_text()] of the blocks, joined by newlines. *)
(* SRC domains/agent/context/summarizer.rs:154-164 user_content_text *)
Definition user_content_text (content : UserMessageContent) : string :=
  match content with
  | UserMessage_Text t => t
  | UserMessage_Blocks blocks =>
      join (String (ascii_of_N 10) "")
        (omap (fun b => match b with UserContent_Text t => Some t | _ => None end) blocks)
  end.
(* SRC domains/agent/context/summarizer.rs:145-148 truncate *)
Definition truncate (s : string) (max_len : nat) : string := truncate_with_suffix s max_len "...".
(** [text.split('.').next()], which is always there. *)
Definition first_split (text : string) : string :=
  match split_once text "." with Some (before, _) => before | None => text end.
(** [if !l.contains(&x) { l.push(x) }] *)
Definition push_new (x : string) (l : list string) : list string :=
  if existsb (String.eqb x) l then l else l ++ [x].

Record Keywords := {
  kw_user_messages : list string;
  kw_files_modified : list string;
  kw_topics : list string;
  kw_capability_names : list string
}.
(* SRC domains/agent/context/summarizer.rs:79-104! KeywordSummarizer::summarize *)
Definition keyword_block (k : Keywords) (block : AssistantContent) : Keywords :=
  match block with
  | AssistantContent_CapabilityInvocation _ name arguments _ =>
      let path := match match obj_get arguments "file_path" with
                        | Some v => Some v | None => obj_get arguments "path" end with
                  | Some (VString p) => Some p | _ => None end in
      {| kw_user_messages := kw_user_messages k;
         kw_files_modified := match path with
                              | Some p => push_new p (kw_files_modified k)
                              | None => kw_files_modified k end;
         kw_topics := kw_topics k;
         kw_capability_names := push_new name (kw_capability_names k) |}
  | AssistantContent_Text text =>
      let topic := truncate (trim (first_split text)) 80 in
      {| kw_user_messages := kw_user_messages k; kw_files_modified := kw_files_modified k;
         kw_topics := if topic =s "" then kw_topics k else push_new topic (kw_topics k);
         kw_capability_names := kw_capability_names k |}
  | AssistantContent_Thinking _ _ => k
  end.
(* SRC domains/agent/context/summarizer.rs:68-109! KeywordSummarizer::summarize *)
Definition keyword_message (k : Keywords) (m : Message) : Keywords :=
  match m with
  | Message_User content _ =>
      let text := user_content_text content in
      if text =s "" then k
      else {| kw_user_messages := kw_user_messages k ++ [truncate text 200];
              kw_files_modified := kw_files_modified k; kw_topics := kw_topics k;
              kw_capability_names := kw_capability_names k |}
  | Message_Assistant content _ _ _ _ => fold_left keyword_block content k
  | Message_CapabilityResult _ _ _ => k
  end.
(* SRC domains/agent/context/summarizer.rs:57-142 KeywordSummarizer::summarize *)
Definition keyword_summarize (messages : list Message) : result string SummaryResult :=
  let k := fold_left keyword_message messages
             {| kw_user_messages := []; kw_files_modified := []; kw_topics := [];
                kw_capability_names := [] |} in
  let count l := pretty (Z.of_nat (List.length (l : list string))) in
  let narrative :=
    match kw_user_messages k with
    | [] => "(" +s pretty (Z.of_nat (List.length messages)) +s " messages summarized)"
    | _ =>
        join " "
          (["The user made " +s count (kw_user_messages k) +s " requests.";
            "Key requests: " +s join "; " (kw_user_messages k)]
           ++ match kw_capability_names k with
              | [] => []
              | names => ["Capabilities used: " +s join ", " names]
              end
           ++ match kw_files_modified k with
              | [] => []
              | files => ["Files touched: " +s join ", " files]
              end)
    end in
  Ok {| sr_narrative := narrative;
        sr_extracted_data :=
          {| ed_current_goal := match kw_user_messages k with m :: _ => m | [] => "" end;
             ed_completed_steps := []; ed_pending_tasks := []; ed_key_decisions := [];
             ed_files_modified := kw_files_modified k; ed_topics_discussed := kw_topics k;
             ed_user_preferences := []; ed_important_context := []; ed_thinking_insights := [] |} |}.
(** ** The compaction engine *)

(** [CompactionDeps]: what the engine reads of the manager, with the messages it
    may replace. *)
(* SRC domains/agent/context/context_manager/compaction_deps.rs:7-18 ManagerCompactionDeps *)
Record CompactionDeps := {
  dp_messages : list Message;
  dp_current_tokens : Z;
  dp_context_limit : Z;
  dp_system_prompt_tokens : Z;
  dp_capabilities_tokens : Z
}.
(* SRC domains/agent/context/context_manager/compaction_deps.rs:37-39 ManagerCompactionDeps::set_messages *)
Definition deps_set_messages (messages : list Message) (d : CompactionDeps) : CompactionDeps :=
  {| dp_messages := messages; dp_current_tokens := dp_current_tokens d;
     dp_context_limit := dp_context_limit d; dp_system_prompt_tokens := dp_system_prompt_tokens d;
     dp_capabilities_tokens := dp_capabilities_tokens d |}.

(* SRC domains/agent/context/compaction_engine/mod.rs:63-76 CompactionEngine *)
Record CompactionEngine := {
  en_threshold : f64;
  en_preserve_recent_turns : nat;
  en_deps : CompactionDeps
}.

(* SRC domains/agent/context/compaction_engine/mod.rs:169-172 CompactionEngine::count_real_turns *)
Definition count_real_turns (messages : list Message) : nat :=
  List.length (List.filter is_real_user_turn messages).

(** The variables of the walk of [compute_split_point]. *)
(* SRC domains/agent/context/compaction_engine/mod.rs:110-113! CompactionEngine::compute_split_point *)
Record Walk := {
  wk_turns_seen : nat;
  wk_candidate_split : nat;
  wk_preserved_tokens : Z;
  wk_current_turn_tokens : Z
}.
(** The loop [for i in (0..messages.len()).rev()]: [before] holds the messages
    [0..=i] from the last to the first. *)
(* SRC domains/agent/context/compaction_engine/mod.rs:115-145! CompactionEngine::compute_split_point *)
Fixpoint walk (keep : nat) (token_budget : Z) (before : list Message) (w : Walk) : Walk :=
  match before with
  | [] => w
  | m :: rest =>
      let current := wk_current_turn_tokens w + message_tokens m in
      if is_real_user_turn m then
        if (token_budget <? wk_preserved_tokens w + current) && (0 <? wk_turns_seen w)%nat then w
        else
          let turns := S (wk_turns_seen w) in
          let kept := wk_preserved_tokens w + current in
          if (keep <=? turns)%nat then
            {| wk_turns_seen := turns; wk_candidate_split := List.length rest;
               wk_preserved_tokens := kept; wk_current_turn_tokens := current |}
          else
            walk keep token_budget rest
              {| wk_turns_seen := turns; wk_candidate_split := List.length rest;
                 wk_preserved_tokens := kept; wk_current_turn_tokens := 0 |}
      else
        walk keep token_budget rest
          {| wk_turns_seen := wk_turns_seen w; wk_candidate_split := wk_candidate_split w;
             wk_preserved_tokens := wk_preserved_tokens w; wk_current_turn_tokens := current |}
  end.
(* SRC domains/agent/context/compaction_engine/mod.rs:159-166! CompactionEngine::compute_split_point *)
Fixpoint past_results (messages : list Message) (split : nat) : nat :=
  match split with
  | O => O
  | S k => match messages !! split with
           | Some m => if is_capability_result m then past_results messages k else split
           | None => split
           end
  end.
(* SRC domains/agent/context/compaction_engine/mod.rs:88-167 CompactionEngine::compute_split_point *)
Definition compute_split_point (e : CompactionEngine) (messages : list Message) : nat :=
  let keep := en_preserve_recent_turns e in
  match messages with
  | [] => O
  | _ =>
    if (keep =? 0)%nat then List.length messages
    else
      let token_budget :=
        f64_to_u64 (f64_mul (en_threshold e) (f64_of (dp_context_limit (en_deps e)))) in
      let w := walk keep token_budget (rev messages)
                 {| wk_turns_seen := 0; wk_candidate_split := List.length messages;
                    wk_preserved_tokens := 0; wk_current_turn_tokens := 0 |} in
      let candidate :=
        if (wk_turns_seen w =? 0)%nat then O
        else if (wk_turns_seen w <? keep)%nat
                && (count_real_turns (take (wk_candidate_split w) messages) =? 0)%nat then O
        else wk_candidate_split w in
      if (candidate <? List.length messages)%nat then past_results messages candidate else candidate
  end.

(* SRC domains/agent/context/compaction_engine/mod.rs:174-183 CompactionEngine::has_summarizable_messages *)
Definition has_summarizable_messages (e : CompactionEngine) : bool :=
  (0 <? compute_split_point e (dp_messages (en_deps e)))%nat.
(* SRC domains/agent/context/compaction_engine/mod.rs:381-387 CompactionEngine::message_only_tokens *)
Definition message_only_tokens (e : CompactionEngine) : Z :=
  saturating_sub (dp_current_tokens (en_deps e))
    (dp_system_prompt_tokens (en_deps e) + dp_capabilities_tokens (en_deps e)).
(* SRC domains/agent/context/compaction_engine/mod.rs:389-406 CompactionEngine::estimate_tokens_after_compaction *)
Definition estimate_tokens_after_compaction (summary : string) (preserved : list Message) : Z :=
  div_ceil (len summary) 4 + 50 + 50 + sum (map message_tokens preserved).
Definition ratio_of (after before : Z) : f64 :=
  if 0 <? before then f64_div (f64_of after) (f64_of before) else f64_of 1.

(* SRC domains/agent/context/compaction_engine/mod.rs:185-240 CompactionEngine::preview *)
Definition preview (e : CompactionEngine)
    (summarizer : list Message -> result string SummaryResult) : result string CompactionPreview :=
  let tokens_before := message_only_tokens e in
  let messages := dp_messages (en_deps e) in
  let split := compute_split_point e messages in
  let to_summarize := take split messages in
  let preserved := drop split messages in
  match to_summarize with
  | [] =>
      Ok {| cp_tokens_before := tokens_before; cp_tokens_after := tokens_before;
            cp_compression_ratio := f64_of 1; cp_preserved_messages := List.length preserved;
            cp_summarized_messages := 0; cp_preserved_turns := count_real_turns preserved;
            cp_summarized_turns := 0; cp_summary := ""; cp_extracted_data := None |}
  | _ =>
    let? summary_result := summarizer to_summarize in
    let tokens_after := estimate_tokens_after_compaction (sr_narrative summary_result) preserved in
    Ok {| cp_tokens_before := tokens_before; cp_tokens_after := tokens_after;
          cp_compression_ratio := ratio_of tokens_after tokens_before;
          cp_preserved_messages := List.length preserved;
          cp_summarized_messages := List.length to_summarize;
          cp_preserved_turns := count_real_turns preserved;
          cp_summarized_turns := count_real_turns to_summarize;
          cp_summary := sr_narrative summary_result;
          cp_extracted_data := Some (sr_extracted_data summary_result) |}
  end.

(** The messages that stand for a summary. *)
(* SRC domains/agent/context/compaction_engine/mod.rs:293-304! CompactionEngine::execute *)
Definition summary_pair (summary : string) : list Message :=
  [Message_User (UserMessage_Text (COMPACTION_SUMMARY_PREFIX +s newlines +s summary)) None;
   Message_Assistant [AssistantContent_Text COMPACTION_ACK_TEXT] None None None None].

(* SRC domains/agent/context/compaction_engine/mod.rs:242-377 CompactionEngine::execute *)
Definition execute (e : CompactionEngine)
    (summarizer : list Message -> result string SummaryResult) (edited_summary : option string) :
    result string (CompactionResult * CompactionDeps) :=
  let tokens_before := message_only_tokens e in
  let messages := dp_messages (en_deps e) in
  let split := compute_split_point e messages in
  let to_summarize := take split messages in
  let preserved := drop split messages in
  match to_summarize with
  | [] =>
      Ok ({| cr_success := false; cr_tokens_before := tokens_before; cr_tokens_after := tokens_before;
             cr_compression_ratio := f64_of 1; cr_preserved_turns := count_real_turns preserved;
             cr_summarized_turns := 0; cr_preserved_messages := List.length preserved;
             cr_summary := ""; cr_extracted_data := None |}, en_deps e)
  | _ =>
    let preserved_turns := count_real_turns preserved in
    let summarized_turns := count_real_turns to_summarize in
    let? generated :=
      match edited_summary with
      | Some edited => Ok (edited, None)
      | None => let? r := summarizer to_summarize in
                Ok (sr_narrative r, Some (sr_extracted_data r))
      end in
    let '(summary, extracted_data) := generated in
    let new_messages := summary_pair summary ++ preserved in
    let tokens_after := estimate_tokens_after_compaction summary preserved in
    let compression_ratio := ratio_of tokens_after tokens_before in
    if tokens_before <=? tokens_after then
      Ok ({| cr_success := false; cr_tokens_before := tokens_before; cr_tokens_after := tokens_after;
             cr_compression_ratio := compression_ratio; cr_preserved_turns := preserved_turns;
             cr_summarized_turns := summarized_turns;
             cr_preserved_messages := List.length preserved;
             cr_summary := ""; cr_extracted_data := None |}, en_deps e)
    else
      Ok ({| cr_success := true; cr_tokens_before := tokens_before; cr_tokens_after := tokens_after;
             cr_compression_ratio := compression_ratio; cr_preserved_turns := preserved_turns;
             cr_summarized_turns := summarized_turns;
             cr_preserved_messages := List.length preserved;
             cr_summary := summary; cr_extracted_data := extracted_data |},
          deps_set_messages new_messages (en_deps e))
  end.

(** ** The context manager *)

(* SRC domains/agent/context/context_manager/mod.rs:31-40 ContextManager *)
Record ContextManager := {
  cm_config : ContextManagerConfig;
  cm_messages : MessageStore;
  cm_api_context_tokens : option Z;
  cm_system_prompt : string;
  cm_last_extracted_data : option ExtractedData;
  cm_server_origin : option string;
  cm_turn_generation : Z;
  cm_turn_shape_refreshed_at_generation : option Z
}.
Definition with_store (s : MessageStore) (api : option Z) (cm : ContextManager) : ContextManager :=
  {| cm_config := cm_config cm; cm_messages := s; cm_api_context_tokens := api;
     cm_system_prompt := cm_system_prompt cm; cm_last_extracted_data := cm_last_extracted_data cm;
     cm_server_origin := cm_server_origin cm; cm_turn_generation := cm_turn_generation cm;
     cm_turn_shape_refreshed_at_generation := cm_turn_shape_refreshed_at_generation cm |}.
Definition with_extracted (d : option ExtractedData) (cm : ContextManager) : ContextManager :=
  {| cm_config := cm_config cm; cm_messages := cm_messages cm;
     cm_api_context_tokens := cm_api_context_tokens cm;
     cm_system_prompt := cm_system_prompt cm; cm_last_extracted_data := d;
     cm_server_origin := cm_server_origin cm; cm_turn_generation := cm_turn_generation cm;
     cm_turn_shape_refreshed_at_generation := cm_turn_shape_refreshed_at_generation cm |}.
Definition with_turn (generation : Z) (refreshed : option Z) (cm : ContextManager) : ContextManager :=
  {| cm_config := cm_config cm; cm_messages := cm_messages cm;
     cm_api_context_tokens := cm_api_context_tokens cm;
     cm_system_prompt := cm_system_prompt cm; cm_last_extracted_data := cm_last_extracted_data cm;
     cm_server_origin := cm_server_origin cm; cm_turn_generation := generation;
     cm_turn_shape_refreshed_at_generation := refreshed |}.

(* SRC domains/agent/context/context_manager/mod.rs:43-63 ContextManager::new *)
Definition manager_new (home : string) (config : ContextManagerConfig) : ContextManager :=
  {| cm_config :=
       {| cg_model := cg_model config; cg_system_prompt := cg_system_prompt config;
          cg_working_directory := match cg_working_directory config with
                                  | None => Some (home +s "/Workspace")
                                  | wd => wd end;
          cg_capabilities := cg_capabilities config; cg_compaction := cg_compaction config |};
     cm_messages := store_new; cm_api_context_tokens := None;
     cm_system_prompt := cg_system_prompt config; cm_last_extracted_data := None;
     cm_server_origin := None; cm_turn_generation := 0;
     cm_turn_shape_refreshed_at_generation := None |}.
(* SRC domains/agent/context/context_manager/mod.rs:65-67 ContextManager::begin_turn *)
Definition begin_turn (cm : ContextManager) : ContextManager :=
  with_turn (Z.min u64_max (cm_turn_generation cm + 1))
    (cm_turn_shape_refreshed_at_generation cm) cm.
(* SRC domains/agent/context/context_manager/mod.rs:74-77 ContextManager::volatile_tokens_fresh_for_current_turn *)
Definition volatile_tokens_fresh_for_current_turn (cm : ContextManager) : bool :=
  match cm_turn_shape_refreshed_at_generation cm with
  | Some g => g =? cm_turn_generation cm
  | None => false
  end.
(* SRC domains/agent/context/context_manager/mod.rs:203-205 ContextManager::set_volatile_tokens *)
Definition set_volatile_tokens (cm : ContextManager) : ContextManager :=
  with_turn (cm_turn_generation cm) (Some (cm_turn_generation cm)) cm.
(* SRC domains/agent/context/context_manager/mod.rs:79-81 ContextManager::add_message *)
Definition add_message (message : Message) (cm : ContextManager) : ContextManager :=
  with_store (store_add message (cm_messages cm)) (cm_api_context_tokens cm) cm.
(* SRC domains/agent/context/context_manager/mod.rs:83-86 ContextManager::set_messages *)
Definition manager_set_messages (messages : list Message) (cm : ContextManager) : ContextManager :=
  with_store (store_set messages (cm_messages cm)) None cm.
(* SRC domains/agent/context/context_manager/mod.rs:88-91 ContextManager::get_messages *)
Definition get_messages (cm : ContextManager) : list Message := st_messages (cm_messages cm).
(* SRC domains/agent/context/context_manager/mod.rs:93-95 ContextManager::get_messages_arc *)
Definition get_messages_arc (cm : ContextManager) : list Message * ContextManager :=
  let '(arc, s) := store_as_arc (cm_messages cm) in
  (arc, with_store s (cm_api_context_tokens cm) cm).
(* SRC domains/agent/context/context_manager/mod.rs:102-105 ContextManager::clear_messages *)
Definition clear_messages (cm : ContextManager) : ContextManager :=
  with_store (store_clear (cm_messages cm)) None cm.
(* SRC domains/agent/context/context_manager/mod.rs:128-130 ContextManager::set_api_context_tokens *)
Definition set_api_context_tokens (tokens : Z) (cm : ContextManager) : ContextManager :=
  with_store (cm_messages cm) (Some tokens) cm.
(* SRC domains/agent/context/context_manager/mod.rs:199-201 ContextManager::set_server_origin *)
Definition set_server_origin (origin : option string) (cm : ContextManager) : ContextManager :=
  {| cm_config := cm_config cm; cm_messages := cm_messages cm;
     cm_api_context_tokens := cm_api_context_tokens cm;
     cm_system_prompt := cm_system_prompt cm; cm_last_extracted_data := cm_last_extracted_data cm;
     cm_server_origin := origin; cm_turn_generation := cm_turn_generation cm;
     cm_turn_shape_refreshed_at_generation := cm_turn_shape_refreshed_at_generation cm |}.
(* SRC domains/agent/context/context_manager/mod.rs:382-384 ContextManager::set_extracted_data *)
Definition set_extracted_data (data : ExtractedData) (cm : ContextManager) : ContextManager :=
  with_extracted (Some data) cm.
(* SRC domains/agent/context/context_manager/mod.rs:377-380 ContextManager::get_latest_extracted_data *)
Definition get_latest_extracted_data (cm : ContextManager) : ExtractedData :=
  default no_extracted_data (cm_last_extracted_data cm).
(* SRC domains/agent/context/context_manager/mod.rs:358-362 ContextManager::switch_model *)
Definition switch_model (new_model : string) (context_limit : Z) (cm : ContextManager) :
    ContextManager :=
  let c := cm_config cm in
  {| cm_config :=
       {| cg_model := new_model; cg_system_prompt := cg_system_prompt c;
          cg_working_directory := cg_working_directory c; cg_capabilities := cg_capabilities c;
          cg_compaction :=
            {| cc_threshold := cc_threshold (cg_compaction c);
               cc_preserve_recent_turns := cc_preserve_recent_turns (cg_compaction c);
               cc_context_limit := context_limit |} |};
     cm_messages := cm_messages cm; cm_api_context_tokens := None;
     cm_system_prompt := cm_system_prompt cm; cm_last_extracted_data := cm_last_extracted_data cm;
     cm_server_origin := cm_server_origin cm; cm_turn_generation := cm_turn_generation cm;
     cm_turn_shape_refreshed_at_generation := cm_turn_shape_refreshed_at_generation cm |}.

(* SRC domains/agent/context/context_manager/mod.rs:137-140 ContextManager::get_context_limit *)
Definition get_context_limit (cm : ContextManager) : Z :=
  cc_context_limit (cg_compaction (cm_config cm)).
(* SRC domains/agent/context/context_manager/mod.rs:147-150 ContextManager::get_working_directory *)
Definition get_working_directory (cm : ContextManager) : string :=
  default "/tmp" (cg_working_directory (cm_config cm)).
(* SRC domains/agent/context/context_manager/mod.rs:152-158 ContextManager::estimate_system_prompt_tokens *)
Definition manager_system_prompt_tokens (cm : ContextManager) : Z :=
  estimate_system_prompt_tokens (cm_system_prompt cm) None.
(* SRC domains/agent/context/context_manager/mod.rs:160-165 ContextManager::estimate_capabilities_tokens *)
Definition manager_capabilities_tokens (cm : ContextManager) : Z :=
  estimate_capabilities_tokens json_text (cg_capabilities (cm_config cm)).
(* SRC domains/agent/context/context_manager/mod.rs:186-197 ContextManager::estimate_environment_tokens *)
Definition estimate_environment_tokens (cm : ContextManager) : Z :=
  match cg_working_directory (cm_config cm) with
  | Some wd => (len wd + 30) / CHARS_PER_TOKEN | None => 0 end
  + match cm_server_origin cm with
    | Some origin => (len origin + 10) / CHARS_PER_TOKEN | None => 0 end.
(* SRC domains/agent/context/context_manager/mod.rs:176-179 ContextManager::get_messages_tokens *)
Definition get_messages_tokens (cm : ContextManager) : Z := store_get_tokens (cm_messages cm).
(* SRC domains/agent/context/context_manager/mod.rs:117-126 ContextManager::get_current_tokens *)
Definition get_current_tokens (cm : ContextManager) : Z :=
  match cm_api_context_tokens cm with
  | Some api_tokens => api_tokens
  | None => manager_system_prompt_tokens cm + manager_capabilities_tokens cm
            + estimate_environment_tokens cm + get_messages_tokens cm
  end.
Definition usage (cm : ContextManager) : f64 :=
  f64_div (f64_of (get_current_tokens cm)) (f64_of (get_context_limit cm)).
(* SRC domains/agent/context/context_manager/mod.rs:238-254 ContextManager::can_accept_turn *)
Definition can_accept_turn (cm : ContextManager) : PreTurnValidation :=
  let ratio := if 0 <? get_context_limit cm then usage cm else f64_of 0 in
  {| pv_can_proceed := f64_lt ratio CRITICAL;
     pv_needs_compaction := f64_ge ratio (cc_threshold (cg_compaction (cm_config cm)));
     pv_current_tokens := get_current_tokens cm; pv_context_limit := get_context_limit cm |}.
(* SRC domains/agent/context/context_manager/mod.rs:256-265 ContextManager::should_compact *)
Definition should_compact (cm : ContextManager) : bool :=
  if get_context_limit cm =? 0 then false
  else f64_ge (usage cm) (cc_threshold (cg_compaction (cm_config cm))).

(* SRC domains/agent/context/context_manager/compaction_deps.rs:21-29 ManagerCompactionDeps::from_manager *)
Definition deps_from_manager (cm : ContextManager) : CompactionDeps :=
  {| dp_messages := get_messages cm; dp_current_tokens := get_current_tokens cm;
     dp_context_limit := get_context_limit cm;
     dp_system_prompt_tokens := manager_system_prompt_tokens cm;
     dp_capabilities_tokens := manager_capabilities_tokens cm |}.
Definition engine_of (cm : ContextManager) : CompactionEngine :=
  {| en_threshold := cc_threshold (cg_compaction (cm_config cm));
     en_preserve_recent_turns := cc_preserve_recent_turns (cg_compaction (cm_config cm));
     en_deps := deps_from_manager cm |}.
(* SRC domains/agent/context/context_manager/mod.rs:267-276 ContextManager::has_summarizable_compaction_window *)
Definition has_summarizable_compaction_window (cm : ContextManager) : bool :=
  has_summarizable_messages (engine_of cm).
(* SRC domains/agent/context/context_manager/mod.rs:278-289 ContextManager::preview_compaction *)
Definition preview_compaction (cm : ContextManager)
    (summarizer : list Message -> result string SummaryResult) : result string CompactionPreview :=
  preview (engine_of cm) summarizer.
(* SRC domains/agent/context/context_manager/mod.rs:291-309 ContextManager::execute_compaction *)
Definition execute_compaction (cm : ContextManager)
    (summarizer : list Message -> result string SummaryResult) (edited_summary : option string) :
    result string (CompactionResult * ContextManager) :=
  let? executed := execute (engine_of cm) summarizer edited_summary in
  let '(result, deps) := executed in
  let cm1 := with_store (store_set (dp_messages deps) (cm_messages cm)) (cm_api_context_tokens cm) cm in
  let cm2 := match cr_extracted_data result with
             | Some data => with_extracted (Some data) cm1
             | None => cm1
             end in
  Ok (result, with_store (cm_messages cm2) None cm2).

(* SRC domains/agent/context/context_manager/mod.rs:341-356 ContextManager::get_max_capability_result_size *)
Definition get_max_capability_result_size (cm : ContextManager) : Z :=
  let remaining := saturating_sub (get_context_limit cm) (get_current_tokens cm) in
  let response_reserve := 8000 in
  let margin := remaining / 10 in
  let available_tokens :=
    Z.max (saturating_sub (saturating_sub remaining response_reserve) margin)
      CAPABILITY_RESULT_MIN_TOKENS in
  let budget := (available_tokens * CHARS_PER_TOKEN) mod 2 ^ 64 in
  Z.min budget CAPABILITY_RESULT_MAX_CHARS.
(* SRC domains/agent/context/context_manager/mod.rs:311-339 ContextManager::process_capability_result *)
Definition process_capability_result (cm : ContextManager) (invocation_id content : string) :
    ProcessedCapabilityResult :=
  let max_size := get_max_capability_result_size cm in
  if len content <=? max_size then
    {| pc_invocation_id := invocation_id; pc_content := content; pc_truncated := false;
       pc_original_size := None |}
  else
    let body_budget := saturating_sub max_size 100 in
    let prefix := truncate_str content (Z.to_nat body_budget) in
    {| pc_invocation_id := invocation_id;
       pc_content := prefix +s "..." +s String (ascii_of_N 10) "[Truncated: " +s pretty (len content)
                     +s " chars total, showing first " +s pretty (len prefix) +s "]";
       pc_truncated := true; pc_original_size := Some (len content) |}.

(* SRC domains/agent/context/context_snapshot_builder.rs:35-63 ContextSnapshotBuilder::build *)
Definition get_snapshot (cm : ContextManager) : ContextSnapshot :=
  let current_tokens := get_current_tokens cm in
  let context_limit := get_context_limit cm in
  let usage_percent := if 0 <? context_limit then usage cm else f64_of 0 in
  let component_total := manager_system_prompt_tokens cm + manager_capabilities_tokens cm
                         + estimate_environment_tokens cm + get_messages_tokens cm in
  {| cs_current_tokens := current_tokens; cs_context_limit := context_limit;
     cs_usage_percent := usage_percent; cs_threshold_level := from_ratio usage_percent;
     cs_breakdown :=
       {| tb_system_prompt := manager_system_prompt_tokens cm;
          tb_capabilities := manager_capabilities_tokens cm;
          tb_environment := estimate_environment_tokens cm;
          tb_messages := get_messages_tokens cm;
          tb_provider_adjustment := saturating_sub current_tokens component_total |} |}.
(** ** The compaction handler *)

(* SRC domains/agent/context/compaction_trigger.rs:8-16 CompactionTriggerResult *)
Record CompactionTriggerResult := { ctr_compact : bool; ctr_reason : string }.
(* SRC domains/agent/context/compaction_trigger.rs:36-52 CompactionTrigger::should_compact *)
Definition trigger_should_compact (trigger_token_threshold current_token_ratio : f64) :
    CompactionTriggerResult :=
  if f64_ge current_token_ratio trigger_token_threshold then
    let pct := Z.min u32_max (f64_to_u64 (f64_mul current_token_ratio (f64_of 100))) in
    {| ctr_compact := true; ctr_reason := "token ratio " +s pretty pct +s "% >= threshold" |}
  else {| ctr_compact := false; ctr_reason := "no trigger" |}.

(* SRC domains/agent/loop/compaction_handler/mod.rs:313-317 is_effective_compaction_result *)
Definition is_effective_compaction_result (r : CompactionResult) : bool :=
  cr_success r && (0 <? cr_summarized_turns r)%nat && (cr_tokens_after r <? cr_tokens_before r).

(** What the handler tells the session's subscribers and writes to its history. *)
Inductive CompactionEvent :=
| CompactionStart (reason : string) (tokens_before : Z)
| CompactionComplete (success : bool) (tokens_before tokens_after : Z) (compression_ratio : f64)
    (reason : option string) (summary : option string) (estimated_context_tokens : option Z).
Record CompactBoundary := {
  cb_summary : string;
  cb_original_tokens : Z;
  cb_compacted_tokens : Z;
  cb_compression_ratio : f64;
  cb_reason : string;
  cb_estimated_context_tokens : Z
}.
(* SRC domains/agent/loop/compaction_handler/mod.rs:326-343 emit_start *)
Definition emit_start (reason : string) (tokens_before : Z) : CompactionEvent :=
  CompactionStart reason tokens_before.
(* SRC domains/agent/loop/compaction_handler/mod.rs:345-374 emit_complete *)
Definition emit_complete (success : bool) (tokens_before tokens_after : Z) (compression_ratio : f64)
    (reason summary : option string) : CompactionEvent :=
  CompactionComplete success tokens_before tokens_after compression_ratio reason summary
    (Some tokens_after).

(** [context_control] records the compaction as an action of its own: it says
    whether it succeeded and which boundaries it appended. *)
Definition ContextControl : Type := CompactBoundary -> result string unit * list CompactBoundary.

(* SRC domains/agent/loop/compaction_handler/mod.rs:189-310 CompactionHandler::emit_compaction_events *)
Definition emit_compaction_events (result : result string CompactionResult)
    (tokens_before tokens_after : Z) (reason : string) (context_control : option ContextControl)
    (persister : bool) : bool * list CompactionEvent * list CompactBoundary :=
  match result with
  | Ok r =>
      if negb (is_effective_compaction_result r) then
        (false, [emit_complete false tokens_before tokens_before (f64_of 1) (Some reason)
                   (Some "Compaction skipped: no durable context reduction.")], [])
      else
        let payload := {| cb_summary := cr_summary r; cb_original_tokens := tokens_before;
                          cb_compacted_tokens := tokens_after;
                          cb_compression_ratio := cr_compression_ratio r; cb_reason := reason;
                          cb_estimated_context_tokens := tokens_after |} in
        let '(recorded, own) :=
          match context_control, persister with
          | Some control, true => match control payload with
                                  | (Ok _, own) => (true, own)
                                  | (Err _, own) => (false, own)
                                  end
          | _, _ => (false, [])
          end in
        (true,
         [emit_complete true tokens_before tokens_after (cr_compression_ratio r) (Some reason)
            (Some (cr_summary r))],
         own ++ (if negb recorded && persister then [payload] else []))
  | Err error =>
      (false, [emit_complete false tokens_before tokens_after (f64_of 1) (Some reason)
                 (Some ("Compaction failed: " +s error))], [])
  end.

(** [execute_compaction] of the handler: [is_compacting] is taken by a compare and
    exchange and put back by the guard. *)
(* SRC domains/agent/loop/compaction_handler/mod.rs:130-187 CompactionHandler::execute_compaction *)
Definition handler_execute_compaction (is_compacting : bool) (context_control : option ContextControl)
    (persister : bool) (cm : ContextManager) (reason : string) :
    bool * bool * ContextManager * list CompactionEvent * list CompactBoundary :=
  if is_compacting then (false, is_compacting, cm, [], [])
  else
    let tokens_before := get_current_tokens cm in
    let start := emit_start reason tokens_before in
    let '(result, cm') := match execute_compaction cm keyword_summarize None with
                          | Ok (r, cm') => (Ok r, cm')
                          | Err e => (Err e, cm)
                          end in
    let tokens_after := get_current_tokens cm' in
    let '(done, events, boundaries) :=
      emit_compaction_events result tokens_before tokens_after reason context_control persister in
    (done, false, cm', start :: events, boundaries).

(* SRC domains/agent/loop/compaction_handler/mod.rs:76-128 CompactionHandler::check_and_compact *)
Definition check_and_compact (trigger_token_threshold : f64) (is_compacting : bool)
    (context_control : option ContextControl) (persister : bool) (cm : ContextManager) :
    bool * bool * ContextManager * list CompactionEvent * list CompactBoundary :=
  if get_context_limit cm =? 0 then (false, is_compacting, cm, [], [])
  else if negb (ctr_compact (trigger_should_compact trigger_token_threshold (usage cm)))
  then (false, is_compacting, cm, [], [])
  else if negb (has_summarizable_compaction_window cm) then (false, is_compacting, cm, [], [])
  else handler_execute_compaction is_compacting context_control persister cm "threshold_exceeded".

(** ** Lemmas *)

Lemma count_app a b : count_real_turns (a ++ b) = (count_real_turns a + count_real_turns b)%nat.
Proof. unfold count_real_turns. by rewrite List.filter_app, length_app. Qed.
Lemma count_cons m l :
  count_real_turns (m :: l) = ((if is_real_user_turn m then 1 else 0) + count_real_turns l)%nat.
Proof. unfold count_real_turns. simpl. by destruct (is_real_user_turn m). Qed.

Definition tokens_of (l : list Message) : Z := sum (map message_tokens l).
Lemma tokens_app a b : tokens_of (a ++ b) = tokens_of a + tokens_of b.
Proof. unfold tokens_of. by rewrite List.map_app, sum_app. Qed.
Lemma tokens_cons m l : tokens_of (m :: l) = message_tokens m + tokens_of l.
Proof. done. Qed.

Definition starts_turn (l : list Message) : Prop :=
  match l with m :: _ => is_real_user_turn m = true | [] => False end.

(** What compaction keeps: whole turns, at most [keep] of them and, beyond the
    first, within the budget; a turn more would break one of the two bounds. *)
Definition whole_recent_turns (keep : nat) (budget : Z) (older kept : list Message) : Prop :=
  starts_turn kept /\ (count_real_turns kept <= keep)%nat /\
  (count_real_turns kept = 1%nat \/ tokens_of kept <= budget) /\
  (count_real_turns kept = keep \/
   exists before u between, older = before ++ u :: between /\ is_real_user_turn u = true /\
     count_real_turns between = 0%nat /\ budget < tokens_of (u :: between ++ kept)).

(** The walk after it has seen [current ++ kept]. *)
Definition walked (keep : nat) (budget : Z) (before current kept : list Message) (w : Walk) : Prop :=
  wk_turns_seen w = count_real_turns kept /\ (count_real_turns kept < keep)%nat /\
  count_real_turns current = 0%nat /\
  wk_candidate_split w = (List.length before + List.length current)%nat /\
  wk_preserved_tokens w = tokens_of kept /\ wk_current_turn_tokens w = tokens_of current /\
  (kept = [] \/ starts_turn kept /\ (count_real_turns kept = 1%nat \/ tokens_of kept <= budget)).

(** What the walk ends with: everything kept is whole turns, or there was none. *)
Definition walk_result (keep : nat) (budget : Z) (messages : list Message) (w : Walk) : Prop :=
  exists older kept, messages = older ++ kept /\ wk_candidate_split w = List.length older /\
    wk_turns_seen w = count_real_turns kept /\
    ((kept = [] /\ count_real_turns messages = 0%nat) \/
     (starts_turn kept /\ (count_real_turns kept < keep)%nat /\ count_real_turns older = 0%nat /\
      (count_real_turns kept = 1%nat \/ tokens_of kept <= budget)) \/
     whole_recent_turns keep budget older kept).

Lemma starts_turn_counts l : starts_turn l -> (0 < count_real_turns l)%nat.
Proof. destruct l as [|m l]; simpl; [done|]. rewrite count_cons. intros ->. lia. Qed.

Lemma counted m current kept :
  is_real_user_turn m = true -> count_real_turns current = 0%nat ->
  count_real_turns (m :: current ++ kept) = S (count_real_turns kept).
Proof. intros Hm Hc. by rewrite count_cons, count_app, Hm, Hc. Qed.

Lemma walk_spec keep budget before current kept w :
  walked keep budget before current kept w ->
  walk_result keep budget (rev before ++ current ++ kept) (walk keep budget before w).
Proof.
  revert current kept w. induction before as [|m rest IH]; intros current kept w
    (Ht & Hk & Hc & Hs & Hp & Hcur & Hkept); cbn [walk].
  - exists current, kept. simpl. split_and!; auto.
    destruct Hkept as [->|[? ?]]; [left|right; left; auto].
    split; [done|]. by rewrite app_nil_r.
  - assert (rev (m :: rest) ++ current ++ kept = rev rest ++ (m :: current) ++ kept) as ->
      by (simpl; by rewrite <- app_assoc).
    destruct (is_real_user_turn m) eqn:Em.
    2:{ apply IH. split_and!; simpl; auto; [by rewrite count_cons, Em|simpl in Hs; lia|].
        rewrite tokens_cons. lia. }
    pose proof (counted m current kept Em Hc) as Hcount.
    assert (tokens_of (m :: current ++ kept) =
            wk_preserved_tokens w + (wk_current_turn_tokens w + message_tokens m)) as Htok
      by (rewrite tokens_cons, tokens_app; lia).
    rewrite <- Htok. case_match eqn:Hb.
    + apply andb_prop in Hb as [Hb%Z.ltb_lt Ht0%Nat.ltb_lt].
      exists (rev rest ++ m :: current), kept. simpl in Hs.
      split_and!; auto; [by rewrite <- app_assoc|rewrite length_app, length_rev; simpl; lia|].
      right; right. destruct Hkept as [->|[? ?]]; [unfold count_real_turns in Ht; simpl in Ht; lia|].
      split_and!; auto; [lia|]. right. eauto 8.
    + assert (count_real_turns (m :: current ++ kept) = 1%nat \/
              tokens_of (m :: current ++ kept) <= budget) as Hfit.
      { apply andb_false_iff in Hb as [Hb%Z.ltb_ge|Hb%Nat.ltb_ge]; [by right|left; lia]. }
      case_match eqn:Hkeep.
      * apply Nat.leb_le in Hkeep. exists (rev rest), (m :: current ++ kept). simpl.
        split_and!; auto; [by rewrite length_rev|lia|]. right; right.
        split_and!; auto; [lia|]. left. lia.
      * apply Nat.leb_gt in Hkeep. apply (IH [] (m :: current ++ kept)).
        split_and!; simpl; auto; lia.
Qed.

Definition token_budget (e : CompactionEngine) : Z :=
  f64_to_u64 (f64_mul (en_threshold e) (f64_of (dp_context_limit (en_deps e)))).

Lemma past_results_turn messages split :
  (split = 0%nat \/ exists m, messages !! split = Some m /\ is_capability_result m = false) ->
  past_results messages split = split.
Proof. destruct split as [|k]; [done|]. intros [?|(m & E & Em)]; [done|]. simpl past_results. by rewrite E, Em. Qed.
Lemma turn_not_result m : is_real_user_turn m = true -> is_capability_result m = false.
Proof. by destruct m. Qed.

(** The split is at the start, or before whole recent turns. *)
Lemma split_spec e messages :
  en_preserve_recent_turns e <> 0%nat ->
  exists older kept, messages = older ++ kept /\ compute_split_point e messages = List.length older /\
    ((older = [] /\ (count_real_turns messages <= en_preserve_recent_turns e)%nat) \/
     whole_recent_turns (en_preserve_recent_turns e) (token_budget e) older kept).
Proof.
  intros Hkeep. unfold compute_split_point. fold (token_budget e).
  destruct messages as [|m0 ms]; [exists [], []; split_and!; auto; left; split; [done|unfold count_real_turns; simpl; lia]|].
  set (messages := m0 :: ms). rewrite (proj2 (Nat.eqb_neq _ _) Hkeep).
  set (w := walk _ _ _ _).
  assert (walk_result (en_preserve_recent_turns e) (token_budget e) messages w) as
    (older & kept & Hm & Hcand & Hturns & Hcases).
  { rewrite <- (rev_involutive messages), <- (app_nil_r (rev (rev messages))).
    apply (walk_spec _ _ _ [] []). clearbody messages. split_and!; simpl; auto.
    - unfold count_real_turns. simpl. lia.
    - by rewrite length_rev, Nat.add_0_r. }
  assert (take (wk_candidate_split w) messages = older) as Htake
    by (rewrite Hm, Hcand; apply take_app_length).
  rewrite Htake.
  destruct Hcases as [[-> Hnone]|[(Hstart & Hlt & Hold & Hfit)|Hwhole]].
  - rewrite (proj2 (Nat.eqb_eq (wk_turns_seen w) 0)) by done.
    exists [], messages. split_and!; auto. left. split; [done|lia].
  - pose proof (starts_turn_counts _ Hstart) as Hpos.
    rewrite (proj2 (Nat.eqb_neq (wk_turns_seen w) 0)) by lia.
    rewrite (proj2 (Nat.ltb_lt (wk_turns_seen w) _)) by lia. rewrite Hold. simpl.
    exists [], messages. split_and!; auto. left. split; [done|]. rewrite Hm, count_app. lia.
  - pose proof Hwhole as (Hstart & Hle & Hfit & Hmax).
    pose proof (starts_turn_counts _ Hstart) as Hpos.
    rewrite (proj2 (Nat.eqb_neq (wk_turns_seen w) 0)) by lia.
    exists older, kept. destruct (_ && _) eqn:Hend.
    + exfalso. apply andb_prop in Hend as [H1%Nat.ltb_lt H2%Nat.eqb_eq].
      destruct Hmax as [?|(before & u & between & -> & Hu & _)]; [lia|].
      rewrite count_app, count_cons, Hu in H2. lia.
    + split_and!; auto. rewrite Hcand. destruct kept as [|k kept']; [done|].
      rewrite (proj2 (Nat.ltb_lt _ _)) by (rewrite Hm, length_app; simpl; lia).
      apply past_results_turn. right. exists k. split; [|by apply turn_not_result].
      rewrite Hm. by apply list_lookup_middle.
Qed.

(** What an execution of the engine leaves. *)
Lemma execute_spec e summarizer edited r d :
  execute e summarizer edited = Ok (r, d) ->
  (cr_success r = false /\ d = en_deps e /\ cr_extracted_data r = None) \/
  (cr_success r = true /\
   let split := compute_split_point e (dp_messages (en_deps e)) in
   let older := take split (dp_messages (en_deps e)) in
   let kept := drop split (dp_messages (en_deps e)) in
   older <> [] /\ dp_messages d = summary_pair (cr_summary r) ++ kept /\
   cr_tokens_after r < cr_tokens_before r /\
   cr_tokens_after r = estimate_tokens_after_compaction (cr_summary r) kept /\
   cr_summarized_turns r = count_real_turns older /\ cr_preserved_turns r = count_real_turns kept).
Proof.
  unfold execute. destruct (take _ _) as [|m0 older] eqn:Eo; [intros [= <- <-]; by left|].
  destruct edited as [edited|]; [|destruct (summarizer _) as [sr|]; [|done]]; simpl;
    (case_match eqn:Hle; intros [= <- <-]; [by left|right]; apply Z.leb_gt in Hle;
     split_and!; simpl; auto).
Qed.

(** ** Compaction *)

Lemma execute_compaction_spec cm summarizer edited r cm' :
  execute_compaction cm summarizer edited = Ok (r, cm') ->
  exists d, execute (engine_of cm) summarizer edited = Ok (r, d) /\ get_messages cm' = dp_messages d.
Proof.
  unfold execute_compaction. destruct (execute _ _ _) as [[r' d]|]; [|done]. simpl.
  intros [= <- <-]. exists d. split; [done|]. by destruct (cr_extracted_data r').
Qed.

(** C22: Compaction either reports failure and leaves the conversation as it is, or replaces
    an initial part of it by a summary and an acknowledgement, with fewer estimated tokens:
    what it keeps is whole user turns, at most as many as configured and beyond the first
    within the token budget, and one more turn would break one of these bounds. *)
Theorem compaction_keeps_recent_turns cm summarizer edited r cm' :
  execute_compaction cm summarizer edited = Ok (r, cm') ->
  (cr_success r = false /\ get_messages cm' = get_messages cm) \/
  (cr_success r = true /\
   exists older kept, get_messages cm = older ++ kept /\ older <> [] /\
     get_messages cm' = summary_pair (cr_summary r) ++ kept /\
     div_ceil (len (cr_summary r)) 4 + 100 + tokens_of kept = cr_tokens_after r /\
     cr_tokens_after r < cr_tokens_before r /\
     cr_summarized_turns r = count_real_turns older /\ cr_preserved_turns r = count_real_turns kept /\
     let keep := cc_preserve_recent_turns (cg_compaction (cm_config cm)) in
     (keep = 0%nat /\ kept = [] \/
      whole_recent_turns keep (token_budget (engine_of cm)) older kept)).
Proof.
  intros (d & Hx & ->)%execute_compaction_spec.
  apply execute_spec in Hx as [(? & -> & _)|(Hs & Hne & Hd & Hlt & Ha & Ho & Hk)]; [by left|right].
  split; [done|]. change (dp_messages (en_deps (engine_of cm))) with (get_messages cm) in *.
  set (split := compute_split_point _ _) in *.
  exists (take split (get_messages cm)), (drop split (get_messages cm)).
  rewrite take_drop. split_and!; auto; [rewrite Ha; unfold estimate_tokens_after_compaction, tokens_of; lia|].
  simpl. destruct (decide (cc_preserve_recent_turns (cg_compaction (cm_config cm)) = 0%nat)) as [E|E].
  - left. split; [done|]. subst split. unfold compute_split_point. simpl. rewrite E.
    destruct (get_messages cm); [done|]. apply drop_all.
  - right. destruct (split_spec (engine_of cm) (get_messages cm) E) as (older & kept & Hm & Hsp & Hcases).
    assert (split = List.length older) as -> by done. rewrite Hm, take_app_length, drop_app_length in *.
    destruct Hcases as [[-> _]|Hw]; [done|exact Hw].
Qed.

Definition invokes (id : string) (m : Message) : bool :=
  match m with
  | Message_Assistant content _ _ _ _ =>
      existsb (fun b => match b with
                        | AssistantContent_CapabilityInvocation i _ _ _ => i =s id
                        | _ => false end) content
  | _ => false
  end.
(** Every result follows the assistant message that asks for it, with nothing but
    results between them. *)
Definition paired (l : list Message) : Prop :=
  forall before id content err after,
    l = before ++ Message_CapabilityResult id content err :: after ->
    exists b a results, before = b ++ a :: results /\ invokes id a = true /\
      Forall (fun m => is_capability_result m = true) results.

Lemma paired_suffix older kept : paired (older ++ kept) -> starts_turn kept -> paired kept.
Proof.
  intros Hp Hs before id content err after ->.
  destruct (Hp (older ++ before) id content err after) as (b & a & results & E & Hi & Hr);
    [by rewrite <- app_assoc|].
  apply app_eq_app in E as [k [[-> E]|[-> E]]]; [|by exists k, a, results].
  destruct k as [|a' k]; simpl in E; [by exists [], a, results|].
  injection E as <- ->. apply Forall_app in Hr as [_ Hr].
  destruct before as [|m before]; [done|]. simpl in Hs. apply turn_not_result in Hs.
  apply Forall_cons in Hr as [Hr _]. congruence.
Qed.
Lemma paired_prepend p kept :
  Forall (fun m => is_capability_result m = false) p -> paired kept -> paired (p ++ kept).
Proof.
  intros Hp Hk before id content err after E.
  apply app_eq_app in E as [k [[-> E]|[-> E]]].
  - destruct k as [|m k]; simpl in E.
    + destruct (Hk [] id content err after) as (b & a & results & E' & ?); [by rewrite <- E|].
      by destruct b.
    + injection E as <- _. apply Forall_app in Hp as [_ [Hp _]%Forall_cons]. done.
  - destruct (Hk k id content err after E) as (b & a & results & -> & ?).
    exists (p ++ b), a, results. by rewrite <- app_assoc.
Qed.
Lemma paired_nil : paired [].
Proof. intros [|? ?]; done. Qed.

(** C24: In a conversation in which every capability result follows the assistant message
    that asked for it, with only results between, compaction keeps it so: no result is
    separated from its invocation. *)
Theorem compaction_keeps_results_paired cm summarizer edited r cm' :
  paired (get_messages cm) -> execute_compaction cm summarizer edited = Ok (r, cm') ->
  paired (get_messages cm').
Proof.
  intros Hp (d & Hx & ->)%execute_compaction_spec.
  apply execute_spec in Hx as [(_ & -> & _)|(_ & Hne & -> & _)]; [exact Hp|].
  change (dp_messages (en_deps (engine_of cm))) with (get_messages cm) in *.
  apply paired_prepend; [by repeat constructor|].
  destruct (decide (en_preserve_recent_turns (engine_of cm) = 0%nat)) as [E|E].
  - unfold compute_split_point. rewrite E. destruct (get_messages cm); [apply paired_nil|].
    rewrite Nat.eqb_refl, drop_all. apply paired_nil.
  - destruct (split_spec (engine_of cm) (get_messages cm) E) as (older & kept & Hm & Hsp & Hcases).
    rewrite Hsp in *. rewrite Hm, take_app_length, drop_app_length in *.
    destruct Hcases as [[-> _]|Hw]; [done|]. apply (paired_suffix older); [exact Hp|apply Hw].
Qed.

(** ** Results and accounting *)

Lemma pretty_go_length (n : N) (k : nat) s :
  Z.of_N n < 10 ^ Z.of_nat k -> (String.length (pretty_N_go n s) <= k + String.length s)%nat.
Proof.
  revert n s. induction k as [|k IH]; intros n s Hn.
  - assert (n = 0%N) as -> by lia. by rewrite pretty_N_go_0.
  - destruct (decide (n = 0%N)) as [->|Hpos]; [rewrite pretty_N_go_0; lia|].
    rewrite pretty_N_go_step by lia.
    etransitivity; [apply IH|simpl; lia].
    rewrite N2Z.inj_div. apply Z.div_lt_upper_bound; [lia|].
    rewrite Nat2Z.inj_succ, Z.pow_succ_r in Hn by lia. lia.
Qed.
Lemma pretty_length n k : (0 < k)%nat -> 0 <= n < 10 ^ Z.of_nat k -> (String.length (pretty n) <= k)%nat.
Proof.
  intros Hk [Hn Hlt]. destruct n as [|p|p]; [by destruct k; [lia|simpl; lia]| |lia].
  change (pretty (Z.pos p)) with (pretty (N.pos p)). unfold pretty, pretty_N. rewrite decide_False by done.
  pose proof (pretty_go_length (N.pos p) k "" Hlt). simpl in *. lia.
Qed.

Lemma max_size_bounds cm :
  get_context_limit cm < 2 ^ 62 -> 0 <= get_current_tokens cm ->
  10000 <= get_max_capability_result_size cm <= 100000.
Proof.
  intros Hl Hc. unfold get_max_capability_result_size, saturating_sub, CAPABILITY_RESULT_MIN_TOKENS,
    CAPABILITY_RESULT_MAX_CHARS, CHARS_PER_TOKEN. cbv zeta.
  set (remaining := Z.max 0 (get_context_limit cm - _)).
  assert (0 <= remaining < 2 ^ 62) by (subst remaining; lia).
  assert (0 <= remaining / 10) by (apply Z.div_pos; lia).
  rewrite Z.mod_small; lia.
Qed.

(** With a context limit below 2^62 tokens, a processed capability result is at most as
    long as the limit for results, which lies between 10000 and 100000 bytes; a text that
    fits is unchanged, and a longer one is cut to the longest prefix that ends between
    characters within the limit less 100 bytes, followed by a notice. *)
Theorem capability_result_fits cm id content :
  get_context_limit cm < 2 ^ 62 -> 0 <= get_current_tokens cm -> len content < 2 ^ 63 ->
  let r := process_capability_result cm id content in
  let max_size := get_max_capability_result_size cm in
  10000 <= max_size <= 100000 /\ len (pc_content r) <= max_size /\
  (len content <= max_size -> pc_content r = content /\ pc_truncated r = false) /\
  (max_size < len content ->
   pc_truncated r = true /\ pc_original_size r = Some (len content) /\
   exists prefix rest notice, content = prefix +s rest /\ pc_content r = prefix +s notice /\
     is_char_boundary content (String.length prefix) = true /\
     forall k, (k <= Z.to_nat (max_size - 100))%nat -> is_char_boundary content k = true ->
       (k <= String.length prefix)%nat).
Proof.
  intros Hl Hc Hlen. cbv zeta. pose proof (max_size_bounds cm Hl Hc) as Hb.
  unfold process_capability_result, saturating_sub.
  set (max_size := get_max_capability_result_size cm) in *.
  destruct (Z.leb_spec (len content) max_size) as [Hle|Hgt]; [split_and!; simpl; auto; lia|].
  rewrite Z.max_r by lia.
  destruct (truncate_str_spec content (Z.to_nat (max_size - 100)))
    as (k & rest & Et & Es & Hk & Hkn & Hkl & Hbd).
  pose proof (truncate_str_longest content (Z.to_nat (max_size - 100))) as Hmax.
  set (prefix := truncate_str _ _) in *. split_and!; simpl; auto; try lia.
  - pose proof (len_nonneg content). pose proof (pretty_length (len content) 19) as Hd1.
    pose proof (pretty_length (len prefix) 6) as Hd2. unfold len in *.
    rewrite !length_str_app. cbn [String.length]. lia.
  - intros _. split_and!; auto. exists prefix, rest. eexists. split_and!; [|reflexivity| |]; auto.
    + by rewrite Et.
    + by rewrite Hk.
Qed.

(** The operations on a manager. *)
Inductive ContextOp :=
| Op_Add (message : Message)
| Op_Set (messages : list Message)
| Op_Clear
| Op_Arc
| Op_ApiTokens (tokens : Z)
| Op_Origin (origin : option string)
| Op_Extracted (data : ExtractedData)
| Op_Switch (model : string) (context_limit : Z)
| Op_BeginTurn
| Op_Refresh
| Op_Compact (summarizer : list Message -> result string SummaryResult) (edited : option string).
Definition apply_op (cm : ContextManager) (op : ContextOp) : ContextManager :=
  match op with
  | Op_Add m => add_message m cm
  | Op_Set ms => manager_set_messages ms cm
  | Op_Clear => clear_messages cm
  | Op_Arc => (get_messages_arc cm).2
  | Op_ApiTokens n => set_api_context_tokens n cm
  | Op_Origin o => set_server_origin o cm
  | Op_Extracted d => set_extracted_data d cm
  | Op_Switch m n => switch_model m n cm
  | Op_BeginTurn => begin_turn cm
  | Op_Refresh => set_volatile_tokens cm
  | Op_Compact f e => match execute_compaction cm f e with Ok (_, cm') => cm' | Err _ => cm end
  end.
(** What the operations make of the conversation. *)
Definition conversation_after (cm : ContextManager) (op : ContextOp) (l : list Message) : list Message :=
  match op with
  | Op_Add m => l ++ [m]
  | Op_Set ms => ms
  | Op_Clear => []
  | Op_Compact f e => match execute (engine_of cm) f e with Ok (_, d) => dp_messages d | Err _ => l end
  | _ => l
  end.

Definition store_ok (s : MessageStore) : Prop :=
  st_token_cache s = map message_tokens (st_messages s) /\
  (forall arc, st_arc_snapshot s = Some arc -> arc = st_messages s).
Lemma store_ok_op cm op : store_ok (cm_messages cm) -> store_ok (cm_messages (apply_op cm op)).
Proof.
  intros [Hc Ha]. destruct op; simpl; try done.
  - split; [|done]. simpl. by rewrite Hc, List.map_app.
  - unfold get_messages_arc, store_as_arc. destruct (st_arc_snapshot (cm_messages cm)) eqn:E; simpl.
    + split; [done|]. by rewrite E.
    + split; [done|]. simpl. congruence.
  - unfold execute_compaction. destruct (execute _ _ _) as [[r d]|]; simpl; [|done].
    by destruct (cr_extracted_data r).
Qed.
Lemma conversation_op cm op : get_messages (apply_op cm op) = conversation_after cm op (get_messages cm).
Proof.
  destruct op; try done.
  - simpl. unfold get_messages_arc, store_as_arc. by destruct (st_arc_snapshot _).
  - simpl. unfold execute_compaction. destruct (execute _ _ _) as [[r d]|]; simpl; [|done].
    by destruct (cr_extracted_data r).
Qed.

Fixpoint run_ops (cm : ContextManager) (ops : list ContextOp) (l : list Message) :
    ContextManager * list Message :=
  match ops with
  | [] => (cm, l)
  | op :: rest => run_ops (apply_op cm op) rest (conversation_after cm op l)
  end.
Lemma run_ops_ok ops cm :
  store_ok (cm_messages cm) ->
  let '(cm', l) := run_ops cm ops (get_messages cm) in store_ok (cm_messages cm') /\ get_messages cm' = l.
Proof.
  revert cm. induction ops as [|op ops IH]; intros cm Hok; [done|]. simpl.
  rewrite <- conversation_op. apply IH. by apply store_ok_op.
Qed.

(** Whatever was done to a manager, the snapshot that is shared is the conversation,
    the cached token count is that of its messages, and the parts of a snapshot add
    up to the current tokens unless the provider has reported fewer. *)
Theorem context_accounting_is_exact home config ops :
  let '(cm, conversation) := run_ops (manager_new home config) ops [] in
  get_messages cm = conversation /\ (get_messages_arc cm).1 = conversation /\
  get_messages_tokens cm = as_u32 (tokens_of conversation) /\
  (let b := cs_breakdown (get_snapshot cm) in
   breakdown_total b = Z.max (get_current_tokens cm)
                         (tb_system_prompt b + tb_capabilities b + tb_environment b + tb_messages b)) /\
  (cm_api_context_tokens cm = None -> breakdown_total (cs_breakdown (get_snapshot cm)) = get_current_tokens cm).
Proof.
  pose proof (run_ops_ok ops (manager_new home config)) as H.
  change (get_messages (manager_new home config)) with (@nil Message) in H.
  destruct (run_ops _ _ _) as [cm l]. destruct H as [[Hc Ha] Hl]; [by split|].
  split_and!; [done| | | |].
  - rewrite <- Hl. unfold get_messages_arc, store_as_arc. destruct (st_arc_snapshot _) eqn:E; simpl; auto.
  - unfold get_messages_tokens, store_get_tokens. by rewrite Hc, <- Hl.
  - unfold breakdown_total, get_snapshot, saturating_sub. simpl. lia.
  - intros E. unfold breakdown_total, get_snapshot, saturating_sub, get_current_tokens. simpl. rewrite E. lia.
Qed.
End context.

(** ** Samples *)

Definition no_json : Value -> string := fun _ => "{}".
Fixpoint filler (n : nat) : string :=
  match n with O => "" | S k => "tokens and more tokens, " +s filler k end.
Definition sample_config : ContextManagerConfig :=
  {| cg_model := "m"; cg_system_prompt := "be brief"; cg_working_directory := Some "/w";
     cg_capabilities := [];
     cg_compaction := {| cc_threshold := hundredths 70; cc_preserve_recent_turns := 1;
                         cc_context_limit := 1000 |} |}.
Definition asks (id : string) : Message :=
  Message_Assistant [AssistantContent_CapabilityInvocation id "fs::read" [("path", VString "a.rs")] None]
    None None None None.
Definition answers (id text : string) : Message :=
  Message_CapabilityResult id (ResultMessage_Text text) None.
Definition sample_manager (messages : list Message) : ContextManager :=
  manager_set_messages no_json messages (manager_new "/home" sample_config).
(** Two turns, each with a capability invocation. *)
Definition two_turns : ContextManager :=
  sample_manager [user_message "read it"; asks "c1"; answers "c1" (filler 80);
                  assistant_message "It is a parser."; user_message "test it"; asks "c2";
                  answers "c2" "passed"].
Notation compacted := (execute_compaction no_json two_turns keyword_summarize None).

Example two_turns_summary :
  match compacted with
  | Ok (r, cm) => cr_summary r =s "The user made 1 requests. Key requests: read it Capabilities used: fs::read Files touched: a.rs"
  | Err _ => false
  end = true.
Proof. vm_compute. reflexivity. Qed.

Lemma compaction_keeps_recent_turns_witness :
  exists r cm' older kept, compacted = Ok (r, cm') /\ cr_success r = true /\
    get_messages two_turns = older ++ kept /\ get_messages cm' = summary_pair (cr_summary r) ++ kept /\
    whole_recent_turns no_json 1 (token_budget (engine_of no_json two_turns)) older kept.
Proof.
  assert (match compacted with Ok (r, _) => cr_success r | Err _ => false end = true) as Hs
    by (vm_compute; reflexivity).
  destruct compacted as [[r cm']|] eqn:E; [|done]. exists r, cm'.
  destruct (compaction_keeps_recent_turns no_json two_turns keyword_summarize None r cm' E)
    as [[Hf _]|(_ & older & kept & H1 & _ & H2 & _ & _ & _ & _ & [[Hk _]|Hw])]; [congruence|done|].
  exists older, kept. auto.
Defined.

Lemma two_turns_paired : paired (get_messages two_turns).
Proof.
  intros before id content err after E. unfold two_turns, sample_manager in E.
  match type of E with context [manager_set_messages _ ?l _] =>
    change (l = before ++ Message_CapabilityResult id content err :: after) in E end.
  revert E. generalize (filler 80). intros text E. unfold answers in E.
  destruct before as [|m0 [|m1 [|m2 [|m3 [|m4 [|m5 [|m6 [|? ?]]]]]]]]; simplify_eq/=.
  - exists [user_message "read it"], (asks "c1"), []. split_and!; [reflexivity|reflexivity|constructor].
  - eexists [_; _; _; _; _], (asks "c2"), []. split_and!; [reflexivity|reflexivity|constructor].
Qed.
Lemma compaction_keeps_results_paired_witness :
  exists r cm', compacted = Ok (r, cm') /\ cr_success r = true /\ paired (get_messages cm').
Proof.
  assert (match compacted with Ok (r, _) => cr_success r | Err _ => false end = true) as Hs
    by (vm_compute; reflexivity).
  destruct compacted as [[r cm']|] eqn:E; [|done]. exists r, cm'. split_and!; [done..|].
  exact (compaction_keeps_results_paired no_json two_turns keyword_summarize None r cm' two_turns_paired E).
Defined.

Lemma capability_result_fits_witness :
  let r := process_capability_result no_json two_turns "c3" (filler 500) in
  10000 < len (filler 500) /\ len (pc_content r) <= 10000 /\ pc_truncated r = true /\
  pc_original_size r = Some (len (filler 500)).
Proof.
  assert (get_max_capability_result_size no_json two_turns = 10000) as Hmax by (vm_compute; reflexivity).
  assert (10000 < len (filler 500)) as Hlen by (vm_compute; reflexivity).
  destruct (capability_result_fits no_json two_turns "c3" (filler 500)) as (_ & Hfit & _ & Htr);
    [vm_compute; reflexivity|vm_compute; discriminate|vm_compute; reflexivity|].
  rewrite Hmax in *. destruct (Htr Hlen) as (? & ? & _). auto.
Defined.

(** ** Compaction and the stored history *)

(** A compaction that only shortens an earlier summary changes the conversation but
    is reported as skipped and leaves no boundary in the history. *)
Theorem skipped_compaction_replaces_the_summary :
  let cm := sample_manager (summary_pair (filler 80) ++ [user_message "go on"; assistant_message "ok"]) in
  let '(done, _, cm', events, boundaries) := handler_execute_compaction no_json false None true cm "manual" in
  done = false /\ boundaries = [] /\ List.length events = 2%nat /\
  (exists before after ratio reason summary estimate,
     last events = Some (CompactionComplete false before after ratio reason summary estimate)) /\
  get_messages cm' <> get_messages cm.
Proof.
  cbv zeta. destruct (handler_execute_compaction _ _ _ _ _ _) as [[[[done comp] cm'] events] boundaries] eqn:E.
  vm_compute in E. injection E as <- <- <- <- <-. split_and!; try reflexivity.
  - by repeat eexists.
  - vm_compute. discriminate.
Qed.

(** The boundary follows the turns that compaction keeps: the context keeps them,
    the conversation rebuilt from the history has only the summary. *)
Definition boundary_event (id : string) (b : CompactBoundary) : SessionEvent :=
  sample_event id Event_CompactBoundary
    (j{"summary" ~> cb_summary b; "reason" ~> cb_reason b}).
Definition two_turn_history : list SessionEvent :=
  [user_says "e1" "read it";
   sample_event "e2" Event_MessageAssistant
     (j{"content" ~> j[j{"type" ~> "text"; "text" ~> filler 80}] });
   user_says "e3" "test it";
   sample_event "e4" Event_MessageAssistant
     (j{"content" ~> j[j{"type" ~> "text"; "text" ~> "passed"}] })].
Theorem resumed_session_loses_the_kept_turn :
  let cm := sample_manager [user_message "read it"; assistant_message (filler 80);
                            user_message "test it"; assistant_message "passed"] in
  let '(done, _, cm', _, boundaries) := handler_execute_compaction no_json false None true cm "manual" in
  done = true /\
  exists b, boundaries = [b] /\
    get_messages cm' = summary_pair (cb_summary b) ++ [user_message "test it"; assistant_message "passed"] /\
    List.length (rr_messages_with_event_ids (reconstruct_from_events two_turn_history)) = 4%nat /\
    map (fun m => ms_content (mw_message m))
      (rr_messages_with_event_ids
         (reconstruct_from_events (two_turn_history ++ [boundary_event "e5" b])))
    = [VString (COMPACTION_SUMMARY_PREFIX +s newlines +s cb_summary b);
       j[j{"type" ~> "text"; "text" ~> COMPACTION_ACK_TEXT}] ].
Proof.
  cbv zeta. destruct (handler_execute_compaction _ _ _ _ _ _) as [[[[done comp] cm'] events] boundaries] eqn:E.
  vm_compute in E. injection E as <- <- <- <- <-. split; [reflexivity|]. eexists.
  split_and!; vm_compute; reflexivity.
Qed.
