(* ===== verification/Kernel.v ===== *)
(** * Engine kernel: errors, ids, catalog and function contracts

    The data model of [engine/kernel]: [EngineError], the validated ids, the
    revision counters, and the records the catalog stores for workers,
    functions, trigger types and triggers.  Enum constructors carry the enum's
    name as a prefix; record fields carry a short prefix of the struct. *)

From stdpp Require Import base gmap strings list.
From Stdlib Require Import ZArith Ascii String Lia.
From S2P Require Import Prelude Json.

#[local] Open Scope Z_scope.

(** ** Errors *)

(* SRC engine/kernel/errors.rs:6-172 EngineError *)
Inductive EngineError : Type :=
| InvalidId (kind value : string)
| InvalidFunctionId (value : string)
| NotFound (kind id : string)
| OwnerMismatch (kind id owner attempted_owner : string)
| NamespaceDenied (worker_id function_id : string)
| UnsupportedDeliveryMode (mode : string)
| DeliveryModeNotAllowed (function_id mode : string)
| IdempotencyConflict (function_id key reason : string)
| LedgerFailure (operation message : string)
| StoredInvocationError (kind message : string)
| InvalidSchema (function_id direction message : string)
| SchemaViolation (function_id direction path message : string)
| InvalidVisibilityPromotion (function_id target reason : string)
| PolicyViolation (message : string)
| NotRoutable (function_id reason : string)
| DomainFailure (domain error_code message : string) (details : option Value)
| WorkerTransportFailure (error_code message : string)
| HandlerFailed (message : string).

#[global] Instance EngineError_eq_dec : EqDecision EngineError.
Proof. solve_decision. Defined.

Notation Result A := (result EngineError A).

Definition policy_error {A} (message : string) : Result A := Err (PolicyViolation message).

(** The text of an error; [debug] is the [{:?}] rendering of a string. *)
(* SRC engine/kernel/errors.rs:11-171! EngineError *)
Definition error_to_string (debug : string -> string) (e : EngineError) : string :=
  match e with
  | InvalidId kind value => "invalid " +s kind +s " id: " +s debug value
  | InvalidFunctionId v => "function id must be in namespace::operation form: " +s debug v
  | NotFound kind id => kind +s " not found: " +s id
  | OwnerMismatch kind id owner attempted =>
      kind +s " " +s id +s " is owned by " +s owner +s ", not " +s attempted
  | NamespaceDenied w f =>
      "worker " +s w +s " cannot register function " +s f +s "; namespace is not claimed"
  | UnsupportedDeliveryMode m => "delivery mode " +s m +s " is not executable in phase 1"
  | DeliveryModeNotAllowed f m => "delivery mode " +s m +s " is not allowed for " +s f
  | IdempotencyConflict f key reason =>
      "idempotency conflict for " +s f +s " key " +s debug key +s ": " +s reason
  | LedgerFailure op m => "engine ledger operation " +s op +s " failed: " +s m
  | StoredInvocationError kind m => "stored invocation error " +s kind +s ": " +s m
  | InvalidSchema f d m => "invalid " +s d +s " schema for " +s f +s ": " +s m
  | SchemaViolation f d p m => d +s " schema violation for " +s f +s " at " +s p +s ": " +s m
  | InvalidVisibilityPromotion f t r =>
      "invalid visibility promotion for " +s f +s " to " +s t +s ": " +s r
  | PolicyViolation m => "policy violation: " +s m
  | NotRoutable f r => "function " +s f +s " is not routable: " +s r
  | DomainFailure d c m _ => "domain " +s d +s " failed with " +s c +s ": " +s m
  | WorkerTransportFailure c m => "worker transport failed with " +s c +s ": " +s m
  | HandlerFailed m => "handler failed: " +s m
  end.

(** ** Ids *)

Notation WorkerId := string (only parsing).
Notation TriggerId := string (only parsing).
Notation TriggerTypeId := string (only parsing).
Notation InvocationId := string (only parsing).
Notation ActorId := string (only parsing).
Notation AuthorityGrantId := string (only parsing).
Notation TraceId := string (only parsing).
Notation FunctionId := string (only parsing).

(* SRC engine/kernel/ids.rs:14-22 validate_non_empty *)
Definition validate_non_empty (kind value : string) : Result unit :=
  if is_blank value then Err (InvalidId kind value) else Ok tt.

(** The [new] of every id type of the [engine_id!] macro. *)
(* SRC engine/kernel/ids.rs:24-64 engine_id *)
Definition engine_id_new (kind value : string) : Result string :=
  let? _ := validate_non_empty kind value in Ok value.

(* SRC engine/kernel/ids.rs:80-91 FunctionId::new *)
Definition function_id_new (value : string) : Result FunctionId :=
  let? _ := validate_non_empty "function" value in
  match split_once value "::" with
  | None => Err (InvalidFunctionId value)
  | Some (namespace, operation) =>
      if (namespace =s "") || (operation =s "") || contains operation "::"
      then Err (InvalidFunctionId value) else Ok value
  end.

(* SRC engine/kernel/ids.rs:93-99 FunctionId::namespace *)
Definition function_namespace (id : FunctionId) : string :=
  match split_once id "::" with Some (namespace, _) => namespace | None => "" end.

(** ** Revisions *)

(* SRC engine/kernel/types/catalog.rs:8-30! revision_type *)
Definition revision_next (r : Z) : Z := wrapping_add_u64 r 1.

(** ** Catalog types *)

(* SRC engine/kernel/types/catalog.rs:32-51 VisibilityScope *)
Inductive VisibilityScope : Type :=
| Vis_Internal | Vis_Session | Vis_Workspace | Vis_System
| Vis_Client | Vis_Worker | Vis_Agent | Vis_Admin.
#[global] Instance VisibilityScope_eq_dec : EqDecision VisibilityScope.
Proof. solve_decision. Defined.

(* SRC engine/kernel/types/catalog.rs:54-67 VisibilityScope::as_str *)
Definition visibility_as_str (v : VisibilityScope) : string :=
  match v with
  | Vis_Internal => "internal" | Vis_Session => "session" | Vis_Workspace => "workspace"
  | Vis_System => "system" | Vis_Client => "client" | Vis_Worker => "worker"
  | Vis_Agent => "agent" | Vis_Admin => "admin"
  end.

(* SRC engine/kernel/types/catalog.rs:69-76 VisibilityScope::is_agent_visible *)
Definition is_agent_visible (v : VisibilityScope) : bool :=
  match v with Vis_Session | Vis_Workspace | Vis_System | Vis_Agent => true | _ => false end.

(* SRC engine/kernel/types/catalog.rs:79-90 CatalogSubjectKind *)
Inductive CatalogSubjectKind : Type :=
| Subject_Worker | Subject_Function | Subject_TriggerType | Subject_Trigger.
#[global] Instance CatalogSubjectKind_eq_dec : EqDecision CatalogSubjectKind.
Proof. solve_decision. Defined.

(* SRC engine/kernel/types/catalog.rs:93-102 CatalogSubjectKind::as_str *)
Definition subject_kind_as_str (k : CatalogSubjectKind) : string :=
  match k with
  | Subject_Worker => "worker" | Subject_Function => "function"
  | Subject_TriggerType => "trigger_type" | Subject_Trigger => "trigger"
  end.

(* SRC engine/kernel/types/catalog.rs:105-118 CatalogChangeClass *)
Inductive CatalogChangeClass : Type :=
| Class_Availability | Class_Contract | Class_Trigger | Class_Visibility | Class_Health.

#[global] Instance CatalogChangeClass_eq_dec : EqDecision CatalogChangeClass.
Proof. solve_decision. Defined.
(* SRC engine/kernel/types/catalog.rs:121-131 CatalogChangeClass::as_str *)
Definition change_class_as_str (c : CatalogChangeClass) : string :=
  match c with
  | Class_Availability => "availability" | Class_Contract => "contract"
  | Class_Trigger => "trigger" | Class_Visibility => "visibility" | Class_Health => "health"
  end.

(* SRC engine/kernel/types/catalog.rs:163-194 CatalogChangeKind *)
Inductive CatalogChangeKind : Type :=
| WorkerRegistered | WorkerUpdated | WorkerUnregistered
| FunctionRegistered | FunctionUpdated | FunctionUnregistered
| TriggerTypeRegistered | TriggerTypeUpdated | TriggerTypeUnregistered
| TriggerRegistered | TriggerUpdated | TriggerUnregistered
| VisibilityChanged | HealthChanged.
#[global] Instance CatalogChangeKind_eq_dec : EqDecision CatalogChangeKind.
Proof. solve_decision. Defined.

(* SRC engine/kernel/types/catalog.rs:134-161 CatalogChange *)
Record CatalogChange := {
  chg_id : string;
  chg_before : Z;
  chg_after : Z;
  chg_kind : CatalogChangeKind;
  chg_subject_id : string;
  chg_subject_kind : CatalogSubjectKind;
  chg_class : CatalogChangeClass;
  chg_visibility : VisibilityScope;
  chg_session_id : option string;
  chg_workspace_id : option string;
  chg_owner_worker : option WorkerId;
  chg_timestamp : instant
}.

(* SRC engine/kernel/types/catalog.rs:196-207 FunctionHealth *)
Inductive FunctionHealth : Type :=
| Health_Healthy | Health_Degraded | Health_Unhealthy | Health_Unknown.
#[global] Instance FunctionHealth_eq_dec : EqDecision FunctionHealth.
Proof. solve_decision. Defined.

(* SRC engine/kernel/types/catalog.rs:210-214 FunctionHealth::is_routable *)
Definition is_routable (h : FunctionHealth) : bool :=
  match h with Health_Healthy | Health_Degraded => true | _ => false end.

(** The [{:?}] rendering of a health. *)
(* SRC engine/kernel/types/catalog.rs:196-207 FunctionHealth *)
Definition health_debug (h : FunctionHealth) : string :=
  match h with
  | Health_Healthy => "Healthy" | Health_Degraded => "Degraded"
  | Health_Unhealthy => "Unhealthy" | Health_Unknown => "Unknown"
  end.

(* SRC engine/kernel/types/catalog.rs:217-228 Provenance *)
Record Provenance := {
  prov_created_by : ActorId;
  prov_source : string;
  prov_session_id : option string;
  prov_workspace_id : option string
}.

(* SRC engine/kernel/types/catalog.rs:231-240 Provenance::new *)
Definition provenance_new (created_by source : string) : Provenance :=
  {| prov_created_by := created_by; prov_source := source;
     prov_session_id := None; prov_workspace_id := None |}.
(* SRC engine/kernel/types/catalog.rs:242-249 Provenance::system *)
Definition provenance_system : Provenance := provenance_new "system" "system".

(** ** Function contracts *)

(* SRC engine/kernel/types/function.rs:9-29 EffectClass *)
Inductive EffectClass : Type :=
| Effect_PureRead | Effect_DeterministicCompute | Effect_DelegatedInvocation
| Effect_IdempotentWrite | Effect_AppendOnlyEvent | Effect_ReversibleSideEffect
| Effect_ExternalSideEffect | Effect_IrreversibleSideEffect.
#[global] Instance EffectClass_eq_dec : EqDecision EffectClass.
Proof. solve_decision. Defined.

(* SRC engine/kernel/types/function.rs:32-39 EffectClass::is_mutating *)
Definition is_mutating (e : EffectClass) : bool :=
  match e with
  | Effect_PureRead | Effect_DeterministicCompute | Effect_DelegatedInvocation => false
  | _ => true
  end.

(* SRC engine/kernel/types/function.rs:41-45 EffectClass::requires_idempotency *)
Definition requires_idempotency (e : EffectClass) : bool := is_mutating e.

(* SRC engine/kernel/types/function.rs:54-65 RiskLevel *)
Inductive RiskLevel : Type := Risk_Low | Risk_Medium | Risk_High | Risk_Critical.
#[global] Instance RiskLevel_eq_dec : EqDecision RiskLevel.
Proof. solve_decision. Defined.
(** The derived order of the enum. *)
(* SRC engine/kernel/types/function.rs:54-65 RiskLevel *)
Definition risk_rank (r : RiskLevel) : Z :=
  match r with Risk_Low => 0 | Risk_Medium => 1 | Risk_High => 2 | Risk_Critical => 3 end.
Definition risk_gtb (a b : RiskLevel) : bool := risk_rank b <? risk_rank a.
(* SRC engine/kernel/types/function.rs:54-65 RiskLevel *)
Definition risk_debug (r : RiskLevel) : string :=
  match r with
  | Risk_Low => "Low" | Risk_Medium => "Medium" | Risk_High => "High" | Risk_Critical => "Critical"
  end.

(* SRC engine/kernel/types/function.rs:67-76 DeliveryMode *)
Inductive DeliveryMode : Type := Delivery_Sync | Delivery_Void | Delivery_Enqueue.
#[global] Instance DeliveryMode_eq_dec : EqDecision DeliveryMode.
Proof. solve_decision. Defined.
(* SRC engine/kernel/types/function.rs:79-87 DeliveryMode::as_str *)
Definition delivery_as_str (m : DeliveryMode) : string :=
  match m with
  | Delivery_Sync => "sync" | Delivery_Void => "void" | Delivery_Enqueue => "enqueue"
  end.

(* SRC engine/kernel/types/function.rs:90-101 IdempotencyKeySource *)
Inductive IdempotencyKeySource : Type :=
| Key_Caller | Key_EngineDerived | Key_TriggerDerived | Key_ExternalProvider.

(* SRC engine/kernel/types/function.rs:103-114 ReplayBehavior *)
Inductive ReplayBehavior : Type :=
| Replay_ReturnPrevious | Replay_NoOp | Replay_Reject | Replay_Compensate.

(* SRC engine/kernel/types/function.rs:129-140 LedgerKind *)
Inductive LedgerKind : Type :=
| Ledger_InMemory | Ledger_EngineLedger | Ledger_EventStore | Ledger_External.
(* SRC engine/kernel/types/function.rs:129-140 LedgerKind *)
Definition ledger_kind_debug (k : LedgerKind) : string :=
  match k with
  | Ledger_InMemory => "InMemory" | Ledger_EngineLedger => "EngineLedger"
  | Ledger_EventStore => "EventStore" | Ledger_External => "External"
  end.

(* SRC engine/kernel/types/function.rs:142-153 IdempotencyContract *)
Record IdempotencyContract := {
  ic_key_source : IdempotencyKeySource;
  ic_dedupe_scope : VisibilityScope;
  ic_replay_behavior : ReplayBehavior;
  ic_ledger_kind : LedgerKind
}.

(* SRC engine/kernel/types/function.rs:156-165 IdempotencyContract::caller_session *)
Definition caller_session : IdempotencyContract :=
  {| ic_key_source := Key_Caller; ic_dedupe_scope := Vis_Session;
     ic_replay_behavior := Replay_ReturnPrevious; ic_ledger_kind := Ledger_InMemory |}.
(* SRC engine/kernel/types/function.rs:167-176 IdempotencyContract::caller_session_engine_ledger *)
Definition caller_session_engine_ledger : IdempotencyContract :=
  {| ic_key_source := Key_Caller; ic_dedupe_scope := Vis_Session;
     ic_replay_behavior := Replay_ReturnPrevious; ic_ledger_kind := Ledger_EngineLedger |}.
(* SRC engine/kernel/types/function.rs:178-187 IdempotencyContract::caller_system_engine_ledger *)
Definition caller_system_engine_ledger : IdempotencyContract :=
  {| ic_key_source := Key_Caller; ic_dedupe_scope := Vis_System;
     ic_replay_behavior := Replay_ReturnPrevious; ic_ledger_kind := Ledger_EngineLedger |}.

(* SRC engine/kernel/types/function.rs:190-197 IdempotencyScope *)
Record IdempotencyScope := { scope_kind : string; scope_value : string }.
#[global] Instance IdempotencyScope_eq_dec : EqDecision IdempotencyScope.
Proof. solve_decision. Defined.

(* SRC engine/kernel/types/function.rs:210-216 ResourceLeaseFailureBehavior *)
Inductive ResourceLeaseFailureBehavior : Type := FailClosed.

(* SRC engine/kernel/types/function.rs:218-242 ResourceLeaseRequirement *)
Record ResourceLeaseRequirement := {
  lr_resolver_id : string;
  lr_resource_kind : string;
  lr_resource_id_template : string;
  lr_ttl_ms : Z;
  lr_exclusive : bool;
  lr_stream_topic : string;
  lr_failure_behavior : ResourceLeaseFailureBehavior
}.

(* SRC engine/kernel/types/function.rs:245-261 ResourceLeaseRequirement::exclusive_template *)
Definition exclusive_template (kind template : string) (ttl_ms : Z) : ResourceLeaseRequirement :=
  {| lr_resolver_id := "payload_template"; lr_resource_kind := kind;
     lr_resource_id_template := template; lr_ttl_ms := ttl_ms; lr_exclusive := true;
     lr_stream_topic := "resource.leases"; lr_failure_behavior := FailClosed |}.

(* SRC engine/kernel/types/function.rs:264-278 CompensationKind *)
Inductive CompensationKind : Type :=
| Comp_None | Comp_EventSourced | Comp_InverseCommandAvailable | Comp_ManualOnly
| Comp_ExternalIrreversible.
#[global] Instance CompensationKind_eq_dec : EqDecision CompensationKind.
Proof. solve_decision. Defined.

(* SRC engine/kernel/types/function.rs:280-288 CompensationContract *)
Record CompensationContract := { cc_kind : CompensationKind; cc_notes : string }.
(* SRC engine/kernel/types/function.rs:300-304 CompensationContract::has_notes *)
Definition has_notes (c : CompensationContract) : bool := negb (is_blank (cc_notes c)).

(* SRC engine/kernel/types/function.rs:307-327 DurableOutputContract *)
Inductive DurableOutputContract : Type :=
| Output_None
| Output_ResourceBacked (produced_resource_kinds : list string) (required_resource_refs : bool)
| Output_Conditional (classifier : string) (resource_backed_contract : DurableOutputContract).

(* SRC engine/kernel/types/function.rs:345-362 DurableOutputContract::is_enforceable *)
Definition is_enforceable (c : DurableOutputContract) : bool :=
  match c with
  | Output_None => true
  | Output_ResourceBacked kinds _ => match kinds with [] => false | _ => true end
  | Output_Conditional classifier inner =>
      negb (is_blank classifier)
      && match inner with
         | Output_ResourceBacked (_ :: _) _ => true
         | _ => false
         end
  end.

(* SRC engine/kernel/types/function.rs:371-376 AuthorityRequirement *)
Record AuthorityRequirement := { ar_scopes : list string }.

(* SRC engine/kernel/types/function.rs:394-437 FunctionDefinition *)
Record FunctionDefinition := {
  fn_id : FunctionId;
  fn_revision : Z;
  fn_owner_worker : WorkerId;
  fn_description : string;
  fn_request_schema : option Value;
  fn_response_schema : option Value;
  fn_opaque_response : bool;
  fn_tags : list string;
  fn_visibility : VisibilityScope;
  fn_effect_class : EffectClass;
  fn_risk_level : RiskLevel;
  fn_idempotency : option IdempotencyContract;
  fn_resource_lease : option ResourceLeaseRequirement;
  fn_compensation : option CompensationContract;
  fn_output_contract : DurableOutputContract;
  fn_required_authority : AuthorityRequirement;
  fn_allowed_delivery_modes : list DeliveryMode;
  fn_health : FunctionHealth;
  fn_provenance : Provenance;
  fn_metadata : Value
}.

(* SRC engine/kernel/types/function.rs:440-471 FunctionDefinition::new *)
Definition function_new (id : FunctionId) (owner : WorkerId) (description : string)
    (visibility : VisibilityScope) (effect : EffectClass) : FunctionDefinition :=
  {| fn_id := id; fn_revision := 1; fn_owner_worker := owner; fn_description := description;
     fn_request_schema := None; fn_response_schema := None; fn_opaque_response := false;
     fn_tags := []; fn_visibility := visibility; fn_effect_class := effect;
     fn_risk_level := Risk_Low; fn_idempotency := None; fn_resource_lease := None;
     fn_compensation := None; fn_output_contract := Output_None;
     fn_required_authority := {| ar_scopes := [] |};
     fn_allowed_delivery_modes := [Delivery_Sync]; fn_health := Health_Healthy;
     fn_provenance := provenance_system; fn_metadata := Null |}.

(** *** Builders

    [self.field = x; self] of the builder methods, and assignments to the fields
    the engine sets directly. *)

(* SRC engine/kernel/types/function.rs:473-478 FunctionDefinition::with_idempotency *)
Definition fn_with_idempotency (x : IdempotencyContract) (f : FunctionDefinition) : FunctionDefinition :=
  Build_FunctionDefinition
    (fn_id f) (fn_revision f) (fn_owner_worker f) (fn_description f) (fn_request_schema f)
    (fn_response_schema f) (fn_opaque_response f) (fn_tags f) (fn_visibility f)
    (fn_effect_class f) (fn_risk_level f) (Some x) (fn_resource_lease f) (fn_compensation f)
    (fn_output_contract f) (fn_required_authority f) (fn_allowed_delivery_modes f) (fn_health
    f) (fn_provenance f) (fn_metadata f).
(* SRC engine/kernel/types/function.rs:480-485 FunctionDefinition::with_resource_lease *)
Definition fn_with_resource_lease (x : ResourceLeaseRequirement) (f : FunctionDefinition) : FunctionDefinition :=
  Build_FunctionDefinition
    (fn_id f) (fn_revision f) (fn_owner_worker f) (fn_description f) (fn_request_schema f)
    (fn_response_schema f) (fn_opaque_response f) (fn_tags f) (fn_visibility f)
    (fn_effect_class f) (fn_risk_level f) (fn_idempotency f) (Some x) (fn_compensation f)
    (fn_output_contract f) (fn_required_authority f) (fn_allowed_delivery_modes f) (fn_health
    f) (fn_provenance f) (fn_metadata f).
(* SRC engine/kernel/types/function.rs:487-492 FunctionDefinition::with_compensation *)
Definition fn_with_compensation (x : CompensationContract) (f : FunctionDefinition) : FunctionDefinition :=
  Build_FunctionDefinition
    (fn_id f) (fn_revision f) (fn_owner_worker f) (fn_description f) (fn_request_schema f)
    (fn_response_schema f) (fn_opaque_response f) (fn_tags f) (fn_visibility f)
    (fn_effect_class f) (fn_risk_level f) (fn_idempotency f) (fn_resource_lease f) (Some x)
    (fn_output_contract f) (fn_required_authority f) (fn_allowed_delivery_modes f) (fn_health
    f) (fn_provenance f) (fn_metadata f).
(* SRC engine/kernel/types/function.rs:494-499 FunctionDefinition::with_output_contract *)
Definition fn_with_output_contract (x : DurableOutputContract) (f : FunctionDefinition) : FunctionDefinition :=
  Build_FunctionDefinition
    (fn_id f) (fn_revision f) (fn_owner_worker f) (fn_description f) (fn_request_schema f)
    (fn_response_schema f) (fn_opaque_response f) (fn_tags f) (fn_visibility f)
    (fn_effect_class f) (fn_risk_level f) (fn_idempotency f) (fn_resource_lease f)
    (fn_compensation f) x (fn_required_authority f) (fn_allowed_delivery_modes f) (fn_health
    f) (fn_provenance f) (fn_metadata f).
(* SRC engine/kernel/types/function.rs:501-506 FunctionDefinition::with_required_authority *)
Definition fn_with_required_authority (x : AuthorityRequirement) (f : FunctionDefinition) : FunctionDefinition :=
  Build_FunctionDefinition
    (fn_id f) (fn_revision f) (fn_owner_worker f) (fn_description f) (fn_request_schema f)
    (fn_response_schema f) (fn_opaque_response f) (fn_tags f) (fn_visibility f)
    (fn_effect_class f) (fn_risk_level f) (fn_idempotency f) (fn_resource_lease f)
    (fn_compensation f) (fn_output_contract f) x (fn_allowed_delivery_modes f) (fn_health f)
    (fn_provenance f) (fn_metadata f).
(* SRC engine/kernel/types/function.rs:508-513 FunctionDefinition::with_risk *)
Definition fn_with_risk (x : RiskLevel) (f : FunctionDefinition) : FunctionDefinition :=
  Build_FunctionDefinition
    (fn_id f) (fn_revision f) (fn_owner_worker f) (fn_description f) (fn_request_schema f)
    (fn_response_schema f) (fn_opaque_response f) (fn_tags f) (fn_visibility f)
    (fn_effect_class f) x (fn_idempotency f) (fn_resource_lease f) (fn_compensation f)
    (fn_output_contract f) (fn_required_authority f) (fn_allowed_delivery_modes f) (fn_health
    f) (fn_provenance f) (fn_metadata f).
(* SRC engine/kernel/types/function.rs:515-520 FunctionDefinition::with_health *)
Definition fn_with_health (x : FunctionHealth) (f : FunctionDefinition) : FunctionDefinition :=
  Build_FunctionDefinition
    (fn_id f) (fn_revision f) (fn_owner_worker f) (fn_description f) (fn_request_schema f)
    (fn_response_schema f) (fn_opaque_response f) (fn_tags f) (fn_visibility f)
    (fn_effect_class f) (fn_risk_level f) (fn_idempotency f) (fn_resource_lease f)
    (fn_compensation f) (fn_output_contract f) (fn_required_authority f)
    (fn_allowed_delivery_modes f) x (fn_provenance f) (fn_metadata f).
(* SRC engine/kernel/types/function.rs:522-527 FunctionDefinition::with_allowed_delivery_modes *)
Definition fn_with_allowed_delivery_modes (x : list DeliveryMode) (f : FunctionDefinition) : FunctionDefinition :=
  Build_FunctionDefinition
    (fn_id f) (fn_revision f) (fn_owner_worker f) (fn_description f) (fn_request_schema f)
    (fn_response_schema f) (fn_opaque_response f) (fn_tags f) (fn_visibility f)
    (fn_effect_class f) (fn_risk_level f) (fn_idempotency f) (fn_resource_lease f)
    (fn_compensation f) (fn_output_contract f) (fn_required_authority f) x (fn_health f)
    (fn_provenance f) (fn_metadata f).
(* SRC engine/kernel/types/function.rs:529-534 FunctionDefinition::with_tags *)
Definition fn_with_tags (x : list string) (f : FunctionDefinition) : FunctionDefinition :=
  Build_FunctionDefinition
    (fn_id f) (fn_revision f) (fn_owner_worker f) (fn_description f) (fn_request_schema f)
    (fn_response_schema f) (fn_opaque_response f) x (fn_visibility f) (fn_effect_class f)
    (fn_risk_level f) (fn_idempotency f) (fn_resource_lease f) (fn_compensation f)
    (fn_output_contract f) (fn_required_authority f) (fn_allowed_delivery_modes f) (fn_health
    f) (fn_provenance f) (fn_metadata f).
(* SRC engine/kernel/types/function.rs:536-541 FunctionDefinition::with_request_schema *)
Definition fn_with_request_schema (x : Value) (f : FunctionDefinition) : FunctionDefinition :=
  Build_FunctionDefinition
    (fn_id f) (fn_revision f) (fn_owner_worker f) (fn_description f) (Some x)
    (fn_response_schema f) (fn_opaque_response f) (fn_tags f) (fn_visibility f)
    (fn_effect_class f) (fn_risk_level f) (fn_idempotency f) (fn_resource_lease f)
    (fn_compensation f) (fn_output_contract f) (fn_required_authority f)
    (fn_allowed_delivery_modes f) (fn_health f) (fn_provenance f) (fn_metadata f).
(* SRC engine/kernel/types/function.rs:543-548 FunctionDefinition::with_response_schema *)
Definition fn_with_response_schema (x : Value) (f : FunctionDefinition) : FunctionDefinition :=
  Build_FunctionDefinition
    (fn_id f) (fn_revision f) (fn_owner_worker f) (fn_description f) (fn_request_schema f)
    (Some x) (fn_opaque_response f) (fn_tags f) (fn_visibility f) (fn_effect_class f)
    (fn_risk_level f) (fn_idempotency f) (fn_resource_lease f) (fn_compensation f)
    (fn_output_contract f) (fn_required_authority f) (fn_allowed_delivery_modes f) (fn_health
    f) (fn_provenance f) (fn_metadata f).
(* SRC engine/kernel/types/function.rs:550-555 FunctionDefinition::with_provenance *)
Definition fn_with_provenance (x : Provenance) (f : FunctionDefinition) : FunctionDefinition :=
  Build_FunctionDefinition
    (fn_id f) (fn_revision f) (fn_owner_worker f) (fn_description f) (fn_request_schema f)
    (fn_response_schema f) (fn_opaque_response f) (fn_tags f) (fn_visibility f)
    (fn_effect_class f) (fn_risk_level f) (fn_idempotency f) (fn_resource_lease f)
    (fn_compensation f) (fn_output_contract f) (fn_required_authority f)
    (fn_allowed_delivery_modes f) (fn_health f) x (fn_metadata f).
Definition set_fn_owner_worker (x : WorkerId) (f : FunctionDefinition) : FunctionDefinition :=
  Build_FunctionDefinition
    (fn_id f) (fn_revision f) x (fn_description f) (fn_request_schema f) (fn_response_schema
    f) (fn_opaque_response f) (fn_tags f) (fn_visibility f) (fn_effect_class f) (fn_risk_level
    f) (fn_idempotency f) (fn_resource_lease f) (fn_compensation f) (fn_output_contract f)
    (fn_required_authority f) (fn_allowed_delivery_modes f) (fn_health f) (fn_provenance f)
    (fn_metadata f).
Definition set_fn_opaque_response (x : bool) (f : FunctionDefinition) : FunctionDefinition :=
  Build_FunctionDefinition
    (fn_id f) (fn_revision f) (fn_owner_worker f) (fn_description f) (fn_request_schema f)
    (fn_response_schema f) x (fn_tags f) (fn_visibility f) (fn_effect_class f) (fn_risk_level
    f) (fn_idempotency f) (fn_resource_lease f) (fn_compensation f) (fn_output_contract f)
    (fn_required_authority f) (fn_allowed_delivery_modes f) (fn_health f) (fn_provenance f)
    (fn_metadata f).
Definition set_fn_metadata (x : Value) (f : FunctionDefinition) : FunctionDefinition :=
  Build_FunctionDefinition
    (fn_id f) (fn_revision f) (fn_owner_worker f) (fn_description f) (fn_request_schema f)
    (fn_response_schema f) (fn_opaque_response f) (fn_tags f) (fn_visibility f)
    (fn_effect_class f) (fn_risk_level f) (fn_idempotency f) (fn_resource_lease f)
    (fn_compensation f) (fn_output_contract f) (fn_required_authority f)
    (fn_allowed_delivery_modes f) (fn_health f) (fn_provenance f) x.

(* SRC engine/kernel/types/function.rs:385-391 AuthorityRequirement::scope *)
Definition authority_scope (scope : string) : AuthorityRequirement := {| ar_scopes := [scope] |}.

Definition contains_mode (modes : list DeliveryMode) (m : DeliveryMode) : bool :=
  bool_decide (m ∈ modes).

(** ** Workers and triggers *)

(* SRC engine/kernel/types/worker.rs:8-33 WorkerKind *)
Inductive WorkerKind : Type :=
| Worker_InProcess | Worker_External | Worker_Sandbox | Worker_Agent | Worker_Client
| Worker_System | Worker_Queue | Worker_Stream | Worker_Cron | Worker_State | Worker_Mcp.
#[global] Instance WorkerKind_eq_dec : EqDecision WorkerKind.
Proof. solve_decision. Defined.

(* SRC engine/kernel/types/worker.rs:35-48 WorkerLifecycleState *)
Inductive WorkerLifecycleState : Type :=
| Lifecycle_Starting | Lifecycle_Ready | Lifecycle_Degraded | Lifecycle_Draining
| Lifecycle_Stopped.

(* SRC engine/kernel/types/worker.rs:50-71 WorkerDefinition *)
Record WorkerDefinition := {
  wk_id : WorkerId;
  wk_revision : Z;
  wk_kind : WorkerKind;
  wk_lifecycle : WorkerLifecycleState;
  wk_owner_actor : ActorId;
  wk_authority_grant : AuthorityGrantId;
  wk_namespace_claims : list string;
  wk_visibility : VisibilityScope;
  wk_provenance : Provenance
}.

(* SRC engine/kernel/types/worker.rs:74-94 WorkerDefinition::new *)
Definition worker_new (id : WorkerId) (kind : WorkerKind) (owner_actor : ActorId)
    (grant : AuthorityGrantId) : WorkerDefinition :=
  {| wk_id := id; wk_revision := 1; wk_kind := kind; wk_lifecycle := Lifecycle_Ready;
     wk_owner_actor := owner_actor; wk_authority_grant := grant; wk_namespace_claims := [];
     wk_visibility := Vis_Internal; wk_provenance := provenance_new owner_actor "worker" |}.

(* SRC engine/kernel/types/trigger.rs:11-28 TriggerTypeDefinition *)
Record TriggerTypeDefinition := {
  tt_id : TriggerTypeId;
  tt_owner_worker : WorkerId;
  tt_description : string;
  tt_config_schema : option Value;
  tt_allowed_delivery_modes : list DeliveryMode;
  tt_visibility : VisibilityScope;
  tt_provenance : Provenance
}.

(* SRC engine/kernel/types/trigger.rs:46-73 TriggerDefinition *)
Record TriggerDefinition := {
  tr_id : TriggerId;
  tr_revision : Z;
  tr_owner_worker : WorkerId;
  tr_trigger_type : TriggerTypeId;
  tr_target_function : FunctionId;
  tr_config : Value;
  tr_delivery_mode : DeliveryMode;
  tr_authority_grant : AuthorityGrantId;
  tr_idempotency_key_strategy : option IdempotencyKeySource;
  tr_max_depth : option Z;
  tr_visibility : VisibilityScope;
  tr_provenance : Provenance
}.

(** ** Ids are well formed *)

Lemma function_id_new_ok v id :
  function_id_new v = Ok id ->
  id = v /\ exists ns op, split_once v "::" = Some (ns, op) /\ ns <> "" /\ op <> "" /\
    contains op "::" = false /\ function_namespace id = ns.
Proof.
  unfold function_id_new, validate_non_empty, function_namespace.
  intros H. inv_ok. bool_prop. split; [done|]. eauto 10.
Qed.
