(* ===== verification/Model.v ===== *)
(** * Actors and invocations

    The data of [catalog/discovery.rs] and [invocation/model.rs]: who acts
    ([ActorContext], [ActorKind]), what is asked ([CausalContext],
    [Invocation]) and what is answered and recorded ([InvocationResult],
    [InvocationRecord]). *)

From stdpp Require Import base gmap strings list.
From Stdlib Require Import ZArith Ascii String Lia.
From S2P Require Import Prelude Json Kernel.

#[local] Open Scope Z_scope.

(** ** Actors *)

(* SRC engine/catalog/discovery.rs:71-90 ActorKind *)
Inductive ActorKind : Type :=
| Actor_User | Actor_Agent | Actor_Client | Actor_Worker
| Actor_Cron | Actor_Queue | Actor_System | Actor_Admin.
#[global] Instance ActorKind_eq_dec : EqDecision ActorKind.
Proof. solve_decision. Defined.

(* SRC engine/catalog/discovery.rs:93-97 ActorKind::is_admin_like *)
Definition is_admin_like (k : ActorKind) : bool :=
  match k with Actor_Admin | Actor_System => true | _ => false end.

(* SRC engine/catalog/discovery.rs:8-23 ActorContext *)
Record ActorContext := {
  ac_actor_id : ActorId;
  ac_actor_kind : ActorKind;
  ac_authority_grant_id : AuthorityGrantId;
  ac_authority_scopes : list string;
  ac_session_id : option string;
  ac_workspace_id : option string
}.

(* SRC engine/catalog/discovery.rs:26-41 ActorContext::new *)
Definition actor_context_new (id : ActorId) (kind : ActorKind) (grant : AuthorityGrantId)
  : ActorContext :=
  {| ac_actor_id := id; ac_actor_kind := kind; ac_authority_grant_id := grant;
     ac_authority_scopes := []; ac_session_id := None; ac_workspace_id := None |}.

(** [self.authority_scopes.iter().any(|s| s == scope)] *)
Definition scopes_contain (scopes : list string) (scope : string) : bool :=
  existsb (fun s => s =s scope) scopes.

(* SRC engine/catalog/discovery.rs:64-68 ActorContext::has_scope *)
Definition actor_has_scope (a : ActorContext) (scope : string) : bool :=
  scopes_contain (ac_authority_scopes a) scope.

(* SRC engine/catalog/discovery.rs:100-119 FunctionQuery *)
Record FunctionQuery := {
  fq_actor : option ActorContext;
  fq_visibility : option VisibilityScope;
  fq_namespace_prefix : option string;
  fq_text : option string;
  fq_effect_class : option EffectClass;
  fq_max_risk : option RiskLevel;
  fq_health : option FunctionHealth;
  fq_include_internal : bool
}.

(** ** Invocations *)

Definition RUNTIME_METADATA_WORKING_DIRECTORY : string := "agent.workingDirectory".
Definition RUNTIME_METADATA_TRIGGER_DEPTH : string := "engine.triggerDepth".
Definition RUNTIME_METADATA_TRIGGER_PATH : string := "engine.triggerPath".

(* SRC engine/invocation/model.rs:40-71 CausalContext *)
Record CausalContext := {
  cx_actor_id : ActorId;
  cx_actor_kind : ActorKind;
  cx_authority_grant_id : AuthorityGrantId;
  cx_authority_scopes : list string;
  cx_trace_id : TraceId;
  cx_parent_invocation_id : option InvocationId;
  cx_session_id : option string;
  cx_workspace_id : option string;
  cx_catalog_revision : Z;
  cx_trigger_id : option TriggerId;
  cx_delivery_mode : DeliveryMode;
  cx_idempotency_key : option string;
  cx_runtime_metadata : gmap string string
}.

(* SRC engine/invocation/model.rs:74-97 CausalContext::new *)
Definition causal_context_new (actor_id : ActorId) (kind : ActorKind)
    (grant : AuthorityGrantId) (trace : TraceId) : CausalContext :=
  {| cx_actor_id := actor_id; cx_actor_kind := kind; cx_authority_grant_id := grant;
     cx_authority_scopes := []; cx_trace_id := trace; cx_parent_invocation_id := None;
     cx_session_id := None; cx_workspace_id := None; cx_catalog_revision := 0;
     cx_trigger_id := None; cx_delivery_mode := Delivery_Sync; cx_idempotency_key := None;
     cx_runtime_metadata := ∅ |}.

(* SRC engine/invocation/model.rs:99-104 CausalContext::with_scope *)
Definition with_scope (c : CausalContext) (scope : string) : CausalContext :=
  {| cx_actor_id := cx_actor_id c; cx_actor_kind := cx_actor_kind c;
     cx_authority_grant_id := cx_authority_grant_id c;
     cx_authority_scopes := cx_authority_scopes c ++ [scope]; cx_trace_id := cx_trace_id c;
     cx_parent_invocation_id := cx_parent_invocation_id c; cx_session_id := cx_session_id c;
     cx_workspace_id := cx_workspace_id c; cx_catalog_revision := cx_catalog_revision c;
     cx_trigger_id := cx_trigger_id c; cx_delivery_mode := cx_delivery_mode c;
     cx_idempotency_key := cx_idempotency_key c;
     cx_runtime_metadata := cx_runtime_metadata c |}.

(* SRC engine/invocation/model.rs:106-111 CausalContext::with_session_id *)
Definition with_session_id (c : CausalContext) (session : string) : CausalContext :=
  {| cx_actor_id := cx_actor_id c; cx_actor_kind := cx_actor_kind c;
     cx_authority_grant_id := cx_authority_grant_id c;
     cx_authority_scopes := cx_authority_scopes c; cx_trace_id := cx_trace_id c;
     cx_parent_invocation_id := cx_parent_invocation_id c; cx_session_id := Some session;
     cx_workspace_id := cx_workspace_id c; cx_catalog_revision := cx_catalog_revision c;
     cx_trigger_id := cx_trigger_id c; cx_delivery_mode := cx_delivery_mode c;
     cx_idempotency_key := cx_idempotency_key c;
     cx_runtime_metadata := cx_runtime_metadata c |}.

(* SRC engine/invocation/model.rs:113-118 CausalContext::with_workspace_id *)
Definition with_workspace_id (c : CausalContext) (workspace : string) : CausalContext :=
  {| cx_actor_id := cx_actor_id c; cx_actor_kind := cx_actor_kind c;
     cx_authority_grant_id := cx_authority_grant_id c;
     cx_authority_scopes := cx_authority_scopes c; cx_trace_id := cx_trace_id c;
     cx_parent_invocation_id := cx_parent_invocation_id c; cx_session_id := cx_session_id c;
     cx_workspace_id := Some workspace; cx_catalog_revision := cx_catalog_revision c;
     cx_trigger_id := cx_trigger_id c; cx_delivery_mode := cx_delivery_mode c;
     cx_idempotency_key := cx_idempotency_key c;
     cx_runtime_metadata := cx_runtime_metadata c |}.

(* SRC engine/invocation/model.rs:120-125 CausalContext::with_parent_invocation *)
Definition with_parent_invocation (c : CausalContext) (parent : InvocationId) : CausalContext :=
  {| cx_actor_id := cx_actor_id c; cx_actor_kind := cx_actor_kind c;
     cx_authority_grant_id := cx_authority_grant_id c;
     cx_authority_scopes := cx_authority_scopes c; cx_trace_id := cx_trace_id c;
     cx_parent_invocation_id := Some parent; cx_session_id := cx_session_id c;
     cx_workspace_id := cx_workspace_id c; cx_catalog_revision := cx_catalog_revision c;
     cx_trigger_id := cx_trigger_id c; cx_delivery_mode := cx_delivery_mode c;
     cx_idempotency_key := cx_idempotency_key c;
     cx_runtime_metadata := cx_runtime_metadata c |}.

(* SRC engine/invocation/model.rs:127-132 CausalContext::with_trigger_id *)
Definition with_trigger_id (c : CausalContext) (trigger : TriggerId) : CausalContext :=
  {| cx_actor_id := cx_actor_id c; cx_actor_kind := cx_actor_kind c;
     cx_authority_grant_id := cx_authority_grant_id c;
     cx_authority_scopes := cx_authority_scopes c; cx_trace_id := cx_trace_id c;
     cx_parent_invocation_id := cx_parent_invocation_id c; cx_session_id := cx_session_id c;
     cx_workspace_id := cx_workspace_id c; cx_catalog_revision := cx_catalog_revision c;
     cx_trigger_id := Some trigger; cx_delivery_mode := cx_delivery_mode c;
     cx_idempotency_key := cx_idempotency_key c;
     cx_runtime_metadata := cx_runtime_metadata c |}.

(* SRC engine/invocation/model.rs:134-139 CausalContext::with_idempotency_key *)
Definition with_idempotency_key (c : CausalContext) (key : string) : CausalContext :=
  {| cx_actor_id := cx_actor_id c; cx_actor_kind := cx_actor_kind c;
     cx_authority_grant_id := cx_authority_grant_id c;
     cx_authority_scopes := cx_authority_scopes c; cx_trace_id := cx_trace_id c;
     cx_parent_invocation_id := cx_parent_invocation_id c; cx_session_id := cx_session_id c;
     cx_workspace_id := cx_workspace_id c; cx_catalog_revision := cx_catalog_revision c;
     cx_trigger_id := cx_trigger_id c; cx_delivery_mode := cx_delivery_mode c;
     cx_idempotency_key := Some key; cx_runtime_metadata := cx_runtime_metadata c |}.

(* SRC engine/invocation/model.rs:147-156 CausalContext::with_runtime_metadata *)
Definition with_runtime_metadata (c : CausalContext) (key value : string) : CausalContext :=
  {| cx_actor_id := cx_actor_id c; cx_actor_kind := cx_actor_kind c;
     cx_authority_grant_id := cx_authority_grant_id c;
     cx_authority_scopes := cx_authority_scopes c; cx_trace_id := cx_trace_id c;
     cx_parent_invocation_id := cx_parent_invocation_id c; cx_session_id := cx_session_id c;
     cx_workspace_id := cx_workspace_id c; cx_catalog_revision := cx_catalog_revision c;
     cx_trigger_id := cx_trigger_id c; cx_delivery_mode := cx_delivery_mode c;
     cx_idempotency_key := cx_idempotency_key c;
     cx_runtime_metadata := <[key := value]> (cx_runtime_metadata c) |}.

(** Assignment to the [delivery_mode] and [authority_grant_id] fields. *)
Definition set_cx_delivery_mode (c : CausalContext) (mode : DeliveryMode) : CausalContext :=
  {| cx_actor_id := cx_actor_id c; cx_actor_kind := cx_actor_kind c;
     cx_authority_grant_id := cx_authority_grant_id c;
     cx_authority_scopes := cx_authority_scopes c; cx_trace_id := cx_trace_id c;
     cx_parent_invocation_id := cx_parent_invocation_id c; cx_session_id := cx_session_id c;
     cx_workspace_id := cx_workspace_id c; cx_catalog_revision := cx_catalog_revision c;
     cx_trigger_id := cx_trigger_id c; cx_delivery_mode := mode;
     cx_idempotency_key := cx_idempotency_key c;
     cx_runtime_metadata := cx_runtime_metadata c |}.

(* SRC engine/invocation/model.rs:141-145 CausalContext::has_scope *)
Definition has_scope (c : CausalContext) (scope : string) : bool :=
  scopes_contain (cx_authority_scopes c) scope.

(* SRC engine/invocation/model.rs:158-162 CausalContext::runtime_metadata *)
Definition runtime_metadata (c : CausalContext) (key : string) : option string :=
  cx_runtime_metadata c !! key.

(* SRC engine/invocation/model.rs:165-178 Invocation *)
Record Invocation := {
  inv_id : InvocationId;
  inv_function_id : FunctionId;
  inv_delivery_mode : DeliveryMode;
  inv_payload : Value;
  inv_context : CausalContext
}.

(** [id] is the generated id of the invocation. *)
(* SRC engine/invocation/model.rs:181-195 Invocation::new_sync *)
Definition new_sync (id : InvocationId) (function_id : FunctionId) (payload : Value)
    (ctx : CausalContext) : Invocation :=
  {| inv_id := id; inv_function_id := function_id; inv_delivery_mode := Delivery_Sync;
     inv_payload := payload; inv_context := ctx |}.

(* SRC engine/invocation/model.rs:197-203 Invocation::with_delivery_mode *)
Definition with_delivery_mode (i : Invocation) (mode : DeliveryMode) : Invocation :=
  {| inv_id := inv_id i; inv_function_id := inv_function_id i; inv_delivery_mode := mode;
     inv_payload := inv_payload i; inv_context := set_cx_delivery_mode (inv_context i) mode |}.

(** ** Results and records *)

(* SRC engine/invocation/model.rs:206-227 InvocationResult *)
Record InvocationResult := {
  ir_invocation_id : InvocationId;
  ir_function_id : FunctionId;
  ir_worker_id : WorkerId;
  ir_function_revision : Z;
  ir_catalog_revision : Z;
  ir_trace_id : TraceId;
  ir_value : option Value;
  ir_error : option EngineError;
  ir_replayed_from : option InvocationId
}.

(* SRC engine/invocation/model.rs:230-250 InvocationResult::success *)
Definition result_success (i : Invocation) (w : WorkerId) (frev crev : Z) (v : Value)
  : InvocationResult :=
  {| ir_invocation_id := inv_id i; ir_function_id := inv_function_id i; ir_worker_id := w;
     ir_function_revision := frev; ir_catalog_revision := crev;
     ir_trace_id := cx_trace_id (inv_context i); ir_value := Some v; ir_error := None;
     ir_replayed_from := None |}.

(* SRC engine/invocation/model.rs:252-272 InvocationResult::error *)
Definition result_error (i : Invocation) (w : WorkerId) (frev crev : Z) (e : EngineError)
  : InvocationResult :=
  {| ir_invocation_id := inv_id i; ir_function_id := inv_function_id i; ir_worker_id := w;
     ir_function_revision := frev; ir_catalog_revision := crev;
     ir_trace_id := cx_trace_id (inv_context i); ir_value := None; ir_error := Some e;
     ir_replayed_from := None |}.

(* SRC engine/invocation/model.rs:274-288 InvocationResult::replay_previous *)
Definition replay_previous (i : Invocation) (previous : InvocationResult) : InvocationResult :=
  {| ir_invocation_id := inv_id i; ir_function_id := inv_function_id i;
     ir_worker_id := ir_worker_id previous;
     ir_function_revision := ir_function_revision previous;
     ir_catalog_revision := ir_catalog_revision previous;
     ir_trace_id := cx_trace_id (inv_context i); ir_value := ir_value previous;
     ir_error := ir_error previous; ir_replayed_from := Some (ir_invocation_id previous) |}.

(* SRC engine/invocation/model.rs:290-310 InvocationResult::noop_replay *)
Definition noop_replay (i : Invocation) (w : WorkerId) (frev crev : Z)
    (replayed_from : InvocationId) : InvocationResult :=
  {| ir_invocation_id := inv_id i; ir_function_id := inv_function_id i; ir_worker_id := w;
     ir_function_revision := frev; ir_catalog_revision := crev;
     ir_trace_id := cx_trace_id (inv_context i); ir_value := Some Null; ir_error := None;
     ir_replayed_from := Some replayed_from |}.

(* SRC engine/invocation/model.rs:313-366 InvocationRecord *)
Record InvocationRecord := {
  rec_invocation_id : InvocationId;
  rec_function_id : FunctionId;
  rec_worker_id : WorkerId;
  rec_function_revision : Z;
  rec_catalog_revision : Z;
  rec_actor_id : ActorId;
  rec_actor_kind : ActorKind;
  rec_authority_grant_id : AuthorityGrantId;
  rec_authority_scopes : list string;
  rec_trace_id : TraceId;
  rec_parent_invocation_id : option InvocationId;
  rec_trigger_id : option TriggerId;
  rec_session_id : option string;
  rec_workspace_id : option string;
  rec_delivery_mode : DeliveryMode;
  rec_idempotency_key : option string;
  rec_idempotency_scope : option IdempotencyScope;
  rec_resource_lease_ids : list string;
  rec_compensation_status : option string;
  rec_produced_resource_refs : list Value;
  rec_replayed_from : option InvocationId;
  rec_succeeded : bool;
  rec_result_value : option Value;
  rec_error : option EngineError;
  rec_timestamp : instant
}.

(* SRC engine/invocation/model.rs:429-436 produced_resource_refs_from_result *)
Definition produced_resource_refs_from_result (value : option Value) : list Value :=
  match value with
  | Some v =>
      match vget v "resourceRefs" with
      | Some refs => match as_array refs with Some l => l | None => [] end
      | None => []
      end
  | None => []
  end.

(* SRC engine/invocation/model.rs:379-414 InvocationRecord::from_result_at *)
Definition from_result_at (i : Invocation) (r : InvocationResult)
    (scope : option IdempotencyScope) (timestamp : instant) : InvocationRecord :=
  let c := inv_context i in
  {| rec_invocation_id := inv_id i; rec_function_id := inv_function_id i;
     rec_worker_id := ir_worker_id r; rec_function_revision := ir_function_revision r;
     rec_catalog_revision := ir_catalog_revision r; rec_actor_id := cx_actor_id c;
     rec_actor_kind := cx_actor_kind c; rec_authority_grant_id := cx_authority_grant_id c;
     rec_authority_scopes := cx_authority_scopes c; rec_trace_id := cx_trace_id c;
     rec_parent_invocation_id := cx_parent_invocation_id c; rec_trigger_id := cx_trigger_id c;
     rec_session_id := cx_session_id c; rec_workspace_id := cx_workspace_id c;
     rec_delivery_mode := inv_delivery_mode i; rec_idempotency_key := cx_idempotency_key c;
     rec_idempotency_scope := scope; rec_resource_lease_ids := [];
     rec_compensation_status := None;
     rec_produced_resource_refs := produced_resource_refs_from_result (ir_value r);
     rec_replayed_from := ir_replayed_from r; rec_succeeded := negb (is_some (ir_error r));
     rec_result_value := ir_value r; rec_error := ir_error r; rec_timestamp := timestamp |}.

(* SRC engine/invocation/model.rs:416-426 InvocationRecord::with_contracts *)
Definition with_contracts (r : InvocationRecord) (lease_ids : list string)
    (compensation_status : option string) : InvocationRecord :=
  {| rec_invocation_id := rec_invocation_id r; rec_function_id := rec_function_id r;
     rec_worker_id := rec_worker_id r; rec_function_revision := rec_function_revision r;
     rec_catalog_revision := rec_catalog_revision r; rec_actor_id := rec_actor_id r;
     rec_actor_kind := rec_actor_kind r; rec_authority_grant_id := rec_authority_grant_id r;
     rec_authority_scopes := rec_authority_scopes r; rec_trace_id := rec_trace_id r;
     rec_parent_invocation_id := rec_parent_invocation_id r;
     rec_trigger_id := rec_trigger_id r; rec_session_id := rec_session_id r;
     rec_workspace_id := rec_workspace_id r; rec_delivery_mode := rec_delivery_mode r;
     rec_idempotency_key := rec_idempotency_key r;
     rec_idempotency_scope := rec_idempotency_scope r; rec_resource_lease_ids := lease_ids;
     rec_compensation_status := compensation_status;
     rec_produced_resource_refs := rec_produced_resource_refs r;
     rec_replayed_from := rec_replayed_from r; rec_succeeded := rec_succeeded r;
     rec_result_value := rec_result_value r; rec_error := rec_error r;
     rec_timestamp := rec_timestamp r |}.
