(* ===== verification/Schema.v ===== *)
(** * Payload schemas

    [kernel/schema.rs]: the subset of JSON Schema the engine enforces on request
    and response payloads.  [validate_schema_node] checks a schema,
    [validate_payload_node] checks a payload against a schema that was checked
    before.  The payload walk calls [expect] on parts of the schema; a failing
    [expect] is the fault [Panic].  Both walks recurse on the schema. *)

From stdpp Require Import base strings list pretty.
From Stdlib Require Import ZArith Ascii String Lia.
From S2P Require Import Prelude Json Kernel.

#[local] Open Scope Z_scope.

(** [fields.get(key)], with the two continuations of the lookup. *)
Definition obj_get_with {R} (key : string) (none : R) (some : Value -> R)
  : list (string * Value) -> R :=
  fix go (fields : list (string * Value)) : R :=
    match fields with
    | [] => none
    | (k, v) :: rest => if k =s key then some v else go rest
    end.

Lemma obj_get_with_spec {R} key (none : R) some fields :
  obj_get_with key none some fields
  = match obj_get fields key with Some v => some v | None => none end.
Proof. induction fields as [|[k v] rest IH]; simpl; [done|]. by destruct (k =s key). Qed.

(** A panic, or an engine error. *)
Inductive fault : Type := Panic | Error (e : EngineError).

(** [for (i, x) in xs.iter().enumerate() { f(i, x)?; }] *)
Definition try_each_indexed {E A} (f : Z -> A -> result E unit) : Z -> list A -> result E unit :=
  fix go (i : Z) (xs : list A) : result E unit :=
    match xs with
    | [] => Ok tt
    | x :: xs' => let? _ := f i x in go (i + 1) xs'
    end.

Lemma try_each_indexed_ok {E A} (f : Z -> A -> result E unit) (P : A -> Prop) xs :
  (forall i x, x ∈ xs -> f i x = Ok tt <-> P x) ->
  forall i, try_each_indexed f i xs = Ok tt <-> Forall P xs.
Proof.
  induction xs as [|x xs IH]; intros Hf i; simpl; [by split|].
  rewrite Forall_cons, <- (Hf i x), <- (IH (fun j y Hy => Hf j y (list_elem_of_further _ _ _ Hy)) (i + 1))
    by apply list_elem_of_here.
  destruct (f i x) as [[]|e]; split; intuition congruence.
Qed.

Lemma try_each_indexed_err {E A} (f : Z -> A -> result E unit) xs : forall i e,
  try_each_indexed f i xs = Err e -> exists j x, x ∈ xs /\ f j x = Err e.
Proof.
  induction xs as [|x xs IH]; intros i e; simpl; [done|].
  destruct (f i x) as [[]|e'] eqn:Hf; intros H; simplify_eq.
  - destruct (IH _ _ H) as (j & y & Hy & Hj). exists j, y. split; [by right|done].
  - exists i, x. split; [by left|done].
Qed.

Lemma try_each_err {E A} (f : A -> result E unit) xs e :
  try_each f xs = Err e -> exists x, x ∈ xs /\ f x = Err e.
Proof.
  induction xs as [|x xs IH]; simpl; [done|].
  destruct (f x) as [[]|e'] eqn:Hf; intros H; simplify_eq.
  - destruct (IH H) as (y & Hy & ?). exists y. split; [by right|done].
  - exists x. split; [by left|done].
Qed.

Section schema.
  (** [debug] is the [{:?}] rendering of a string in a message. *)
  Variable debug : string -> string.

(* SRC engine/kernel/schema.rs:8-10 SUPPORTED_TYPES *)
Definition SUPPORTED_TYPES : list string :=
  ["array"; "boolean"; "integer"; "null"; "number"; "object"; "string"].

Definition supported (t : string) : bool := existsb (String.eqb t) SUPPORTED_TYPES.

(* SRC engine/kernel/schema.rs:350-360 invalid_schema *)
Definition invalid_schema (function_id direction message : string) : EngineError :=
  InvalidSchema function_id direction message.

(* SRC engine/kernel/schema.rs:362-374 schema_violation *)
Definition schema_violation (function_id direction path message : string) : EngineError :=
  SchemaViolation function_id direction path message.

(* SRC engine/kernel/schema.rs:135-183 validate_type_keyword *)
Definition validate_type_keyword (f d : string) (schema_type : Value) (path : string)
  : Result unit :=
  let bad m := Err (invalid_schema f d (path +s m)) in
  match as_str schema_type with
  | Some t =>
      if supported t then Ok tt else bad (".type " +s debug t +s " is not supported")
  | None =>
      match as_array schema_type with
      | None => bad ".type must be a string or array"
      | Some [] => bad ".type must not be empty"
      | Some types =>
          try_each (fun item =>
            match as_str item with
            | None => bad ".type entries must be strings"
            | Some t =>
                if supported t then Ok tt
                else bad (".type " +s debug t +s " is not supported")
            end) types
      end
  end.

(* SRC engine/kernel/schema.rs:32-133 validate_schema_node *)
Fixpoint validate_schema_node (f d : string) (schema : Value) (path : string) {struct schema}
  : Result unit :=
  let bad m := Err (invalid_schema f d (path +s m)) in
  match schema with
  | VObject object =>
      let? _ := match obj_get object "type" with
                | Some schema_type => validate_type_keyword f d schema_type path
                | None => Ok tt
                end in
      let? _ := match obj_get object "required" with
                | Some required =>
                    match as_array required with
                    | None => bad ".required must be an array"
                    | Some items =>
                        try_each (fun item =>
                          if negb (is_string item)
                          then bad ".required entries must be strings" else Ok tt) items
                    end
                | None => Ok tt
                end in
      let? _ := match obj_get object "additionalProperties" with
                | Some additional =>
                    if negb (is_boolean additional)
                    then bad ".additionalProperties must be a boolean" else Ok tt
                | None => Ok tt
                end in
      let? _ := obj_get_with "properties" (Ok tt) (fun properties =>
                  match properties with
                  | VObject children =>
                      try_each (fun '(name, child) =>
                        validate_schema_node f d child (path +s "." +s name)) children
                  | _ => bad ".properties must be an object"
                  end) object in
      let? _ := obj_get_with "items" (Ok tt) (fun items =>
                  validate_schema_node f d items (path +s ".items")) object in
      let? _ := match obj_get object "maxItems" with
                | Some max_items =>
                    match as_u64 max_items with
                    | Some _ => Ok tt
                    | None => bad ".maxItems must be a non-negative integer"
                    end
                | None => Ok tt
                end in
      let? _ := match obj_get object "minLength" with
                | Some min_length =>
                    match as_u64 min_length with
                    | Some _ => Ok tt
                    | None => bad ".minLength must be a non-negative integer"
                    end
                | None => Ok tt
                end in
      match obj_get object "enum" with
      | Some enum_values =>
          if negb (is_array enum_values) then bad ".enum must be an array" else Ok tt
      | None => Ok tt
      end
  | _ => bad " must be an object"
  end.

(* SRC engine/kernel/schema.rs:12-19 validate_schema_definition *)
Definition validate_schema_definition (f d : string) (schema : Value) : Result unit :=
  validate_schema_node f d schema "$".

(* SRC engine/kernel/schema.rs:324-335 matches_single_type *)
Definition matches_single_type (schema_type : string) (payload : Value) : bool :=
  if schema_type =s "array" then is_array payload
  else if schema_type =s "boolean" then is_boolean payload
  else if schema_type =s "integer" then is_some (as_i64 payload) || is_some (as_u64 payload)
  else if schema_type =s "null" then is_null payload
  else if schema_type =s "number" then is_number payload
  else if schema_type =s "object" then is_object payload
  else if schema_type =s "string" then is_string payload
  else false.

(** [types.iter().any(|item| matches_single_type(item.as_str().expect(..), payload))] *)
(* SRC engine/kernel/schema.rs:312-321! matches_schema_type *)
Fixpoint any_type (types : list Value) (payload : Value) : result fault bool :=
  match types with
  | [] => Ok false
  | item :: rest =>
      match as_str item with
      | None => Err Panic
      | Some t => if matches_single_type t payload then Ok true else any_type rest payload
      end
  end.

(* SRC engine/kernel/schema.rs:308-322 matches_schema_type *)
Definition matches_schema_type (schema_type payload : Value) : result fault bool :=
  match as_str schema_type with
  | Some t => Ok (matches_single_type t payload)
  | None =>
      match as_array schema_type with
      | Some types => any_type types payload
      | None => Err Panic
      end
  end.

(* SRC engine/kernel/schema.rs:337-348 describe_type *)
Definition describe_type (schema_type : Value) : result fault string :=
  match as_str schema_type with
  | Some t => Ok t
  | None =>
      match as_array schema_type with
      | Some types =>
          match mapM as_str types with
          | Some names => Ok (join "|" names)
          | None => Err Panic
          end
      | None => Err Panic
      end
  end.

(** The scalar checks of a payload node: [type], [enum], [minLength], [required]. *)
(* SRC engine/kernel/schema.rs:192-247! validate_payload_node *)
Definition validate_payload_head (f d : string) (object : list (string * Value))
    (payload : Value) (path : string) : result fault unit :=
  let bad p m := Err (Error (schema_violation f d p m)) in
  let? _ := match obj_get object "type" with
            | Some schema_type =>
                let? ok := matches_schema_type schema_type payload in
                if negb ok then
                  let? described := describe_type schema_type in
                  bad path ("expected type " +s described)
                else Ok tt
            | None => Ok tt
            end in
  let? _ := match obj_get object "enum" ≫= as_array with
            | Some enum_values =>
                if negb (existsb (fun candidate => value_eqb candidate payload) enum_values)
                then bad path "value is not in enum" else Ok tt
            | None => Ok tt
            end in
  let? _ := match obj_get object "minLength" ≫= as_u64, as_str payload with
            | Some min_length, Some text =>
                if chars_count text <? min_length
                then bad path ("string shorter than minLength " +s pretty min_length) else Ok tt
            | _, _ => Ok tt
            end in
  match obj_get object "required" ≫= as_array with
  | Some required =>
      match as_object payload with
      | None => bad path "required fields need an object"
      | Some payload_object =>
          try_each (fun item =>
            match as_str item with
            | None => Err Panic
            | Some field =>
                if negb (obj_contains payload_object field)
                then bad (path +s "." +s field) "required field is missing" else Ok tt
            end) required
      end
  | None => Ok tt
  end.

(** [additionalProperties: false]: every key of the payload is a declared property. *)
(* SRC engine/kernel/schema.rs:253-264! validate_payload_node *)
Definition validate_additional (f d : string) (object properties : list (string * Value))
    (payload_object : list (string * Value)) (path : string) : result fault unit :=
  match obj_get object "additionalProperties" ≫= as_bool with
  | Some false =>
      try_each (fun kv : string * Value =>
        if negb (obj_contains properties (fst kv))
        then Err (Error (schema_violation f d (path +s "." +s fst kv)
                           "additional property is not allowed"))
        else Ok tt) payload_object
  | _ => Ok tt
  end.

(* SRC engine/kernel/schema.rs:278-289! validate_payload_node *)
Definition validate_max_items (f d : string) (object : list (string * Value))
    (payload : Value) (path : string) : result fault unit :=
  match as_array payload, obj_get object "maxItems" ≫= as_u64 with
  | Some items, Some max_items =>
      if max_items <? Z.of_nat (List.length items)
      then Err (Error (schema_violation f d path
                         ("array has more than " +s pretty max_items +s " items")))
      else Ok tt
  | _, _ => Ok tt
  end.

(** An array or object payload under a schema with [properties] that is not an
    object returns before [maxItems] and [items] are looked at. *)
(* SRC engine/kernel/schema.rs:185-306 validate_payload_node *)
Fixpoint validate_payload_node (f d : string) (schema payload : Value) (path : string)
  {struct schema} : result fault unit :=
  match schema with
  | VObject object =>
      let? _ := validate_payload_head f d object payload path in
      let validate_items (_ : unit) : result fault unit :=
        let? _ := validate_max_items f d object payload path in
        obj_get_with "items" (Ok tt) (fun items_schema =>
          match as_array payload with
          | Some items =>
              try_each_indexed (fun index item =>
                validate_payload_node f d items_schema item (path +s "[" +s pretty index +s "]"))
                0 items
          | None => Ok tt
          end) object in
      obj_get_with "properties" (validate_items tt) (fun properties =>
        match properties with
        | VObject children =>
            match as_object payload with
            | None => Ok tt
            | Some payload_object =>
                let? _ := validate_additional f d object children payload_object path in
                let? _ :=
                  try_each (fun '(key, child_schema) =>
                    match obj_get payload_object key with
                    | Some child_payload =>
                        validate_payload_node f d child_schema child_payload
                          (path +s "." +s key)
                    | None => Ok tt
                    end) children in
                validate_items tt
            end
        | _ => validate_items tt
        end) object
  | _ => Err Panic
  end.

(* SRC engine/kernel/schema.rs:21-30 validate_payload *)
Definition validate_payload_faults (f d : string) (schema payload : Value) : result fault unit :=
  match validate_schema_definition f d schema with
  | Ok _ => validate_payload_node f d schema payload "$"
  | Err e => Err (Error e)
  end.

(** The result a caller sees; [payload_never_panics] below shows that the third
    case does not occur. *)
(* SRC engine/kernel/schema.rs:21-30 validate_payload *)
Definition validate_payload (f d : string) (schema payload : Value) : Result unit :=
  match validate_payload_faults f d schema payload with
  | Ok _ => Ok tt
  | Err (Error e) => Err e
  | Err Panic => Err (HandlerFailed "schema definition was validated")
  end.

End schema.

(** ** What a schema and a payload have to satisfy *)

Definition type_ok (t : Value) : Prop :=
  (exists name, t = VString name /\ supported name = true)
  \/ (exists names, t = VArray (map VString names) /\ names <> [] /\
        Forall (fun name => supported name = true) names).

Inductive schema_ok : Value -> Prop :=
| schema_ok_intro object :
    (forall t, obj_get object "type" = Some t -> type_ok t) ->
    (forall r, obj_get object "required" = Some r -> exists names, r = VArray (map VString names)) ->
    (forall a, obj_get object "additionalProperties" = Some a -> exists b, a = VBool b) ->
    (forall p, obj_get object "properties" = Some p ->
       exists children, p = VObject children /\ forall k c, In (k, c) children -> schema_ok c) ->
    (forall i, obj_get object "items" = Some i -> schema_ok i) ->
    (forall m, obj_get object "maxItems" = Some m -> exists n, m = VNumber (PosInt n)) ->
    (forall m, obj_get object "minLength" = Some m -> exists n, m = VNumber (PosInt n)) ->
    (forall e, obj_get object "enum" = Some e -> exists l, e = VArray l) ->
    schema_ok (VObject object).

Definition has_type (t payload : Value) : Prop :=
  exists name, (t = VString name \/ exists l, t = VArray l /\ In (VString name) l) /\
    matches_single_type name payload = true.

(** The keywords that look at one payload only. *)
Definition head_conforms (object : list (string * Value)) (payload : Value) : Prop :=
  (forall t, obj_get object "type" = Some t -> has_type t payload) /\
  (forall l, obj_get object "enum" = Some (VArray l) ->
     exists v, In v l /\ value_eqb v payload = true) /\
  (forall n text, obj_get object "minLength" = Some (VNumber (PosInt n)) ->
     payload = VString text -> n <= chars_count text) /\
  (forall names, obj_get object "required" = Some (VArray (map VString names)) ->
     exists fields, payload = VObject fields /\
       Forall (fun name => is_Some (obj_get fields name)) names).

Inductive conforms : Value -> Value -> Prop :=
| conforms_intro object payload :
    head_conforms object payload ->
    (forall children fields,
       obj_get object "properties" = Some (VObject children) -> payload = VObject fields ->
       obj_get object "additionalProperties" = Some (VBool false) ->
       forall k v, In (k, v) fields -> is_Some (obj_get children k)) ->
    (forall children fields,
       obj_get object "properties" = Some (VObject children) -> payload = VObject fields ->
       forall k c v, In (k, c) children -> obj_get fields k = Some v -> conforms c v) ->
    (forall items,
       obj_get object "properties" = None -> payload = VArray items ->
       forall n, obj_get object "maxItems" = Some (VNumber (PosInt n)) ->
       Z.of_nat (List.length items) <= n) ->
    (forall items,
       obj_get object "properties" = None -> payload = VArray items ->
       forall s, obj_get object "items" = Some s -> forall x, In x items -> conforms s x) ->
    conforms (VObject object) payload.

(** ** The schema walk *)

Section walk.
  Variable debug : string -> string.

Lemma string_items_ok items (P : string -> Prop) :
  Forall (fun item => exists name, item = VString name /\ P name) items <->
  exists names, items = map VString names /\ Forall P names.
Proof.
  split.
  - induction 1 as [|x items (name & -> & HP) _ (names & -> & Hn)]; [by exists []|].
    exists (name :: names). split; [done|]. by constructor.
  - intros (names & -> & HP). apply Forall_fmap. eapply Forall_impl; [exact HP|]. simpl. eauto.
Qed.

Lemma try_each_iff {E A} (f : A -> result E unit) (P : A -> Prop) xs :
  (forall x, In x xs -> f x = Ok tt <-> P x) -> try_each f xs = Ok tt <-> (forall x, In x xs -> P x).
Proof. intros Hf. rewrite try_each_ok, List.Forall_forall. firstorder. Qed.

Lemma validate_type_keyword_ok f d t path :
  validate_type_keyword debug f d t path = Ok tt <-> type_ok t.
Proof.
  unfold validate_type_keyword, type_ok.
  destruct t as [|b|n|name|l|l]; simpl; try (split; [done|intros [(?&?&?)|(?&?&?)]; done]).
  - destruct (supported name) eqn:Hs; split; try done; eauto.
    intros [(?&?&?)|(?&?&?)]; congruence.
  - destruct l as [|x l].
    { split; [done|]. intros [(?&?&?)|([|] & ? & ? & ?)]; done. }
    rewrite try_each_ok.
    transitivity (Forall (fun item => exists name, item = VString name /\ supported name = true) (x :: l)).
    + apply Forall_iff. intros item. destruct item as [|b|n|name|l'|l']; simpl;
        try (split; [done|intros (?&?&?); done]).
      destruct (supported name) eqn:Hs; split; try done; eauto.
      intros (?&?&?); congruence.
    + rewrite string_items_ok. split.
      * intros (names & Heq & HF). right. exists names. rewrite Heq. by destruct names.
      * intros [(?&?&?)|(names & ? & ? & ?)]; [done|]. simplify_eq. eauto.
Qed.

Lemma required_entries_ok {E} items (e : E) :
  try_each (fun item => if negb (is_string item) then Err e else Ok tt) items = Ok tt <->
  exists names, items = map VString names.
Proof.
  rewrite try_each_ok. setoid_rewrite guard_ok.
  transitivity (Forall (fun item => exists name, item = VString name /\ True) items).
  - apply Forall_iff. intros []; simpl; split; try done; eauto; intros (?&?&?); done.
  - rewrite string_items_ok. split; intros (names & H); exists names; [tauto|].
    split; [done|]. by apply Forall_true.
Qed.

Lemma validate_schema_node_ok schema : forall f d path,
  validate_schema_node debug f d schema path = Ok tt <-> schema_ok schema.
Proof.
  induction schema as [schema IH] using Value_deep_ind. intros f d path.
  destruct schema as [|b|n|name|l|object]; try (split; [done|inversion 1]).
  cbn [validate_schema_node]. rewrite !obj_get_with_spec, !seq_ok, !when_some_ok.
  setoid_rewrite validate_type_keyword_ok.
  split.
  - intros (Ht & Hr & Ha & Hp & Hi & Hmax & Hmin & He).
    constructor; auto.
    + intros r Hget. specialize (Hr r Hget). destruct r as [| | | |l|]; try done.
      apply required_entries_ok in Hr as [names ->]. eauto.
    + intros a Hget. specialize (Ha a Hget). destruct a; simplify_eq/=; eauto.
    + intros p Hget. specialize (Hp p Hget). destruct p as [| | | | |children]; try done.
      exists children. split; [done|]. intros k c Hin.
      rewrite try_each_ok, List.Forall_forall in Hp. specialize (Hp _ Hin). simpl in Hp.
      by eapply IH in Hp; [|by eapply grandchild_inside].
    + intros i Hget. eapply IH; [by eapply field_inside|]. by apply Hi.
    + intros m Hget. specialize (Hmax m Hget). destruct m as [| |[]| | |]; simplify_eq/=; eauto.
    + intros m Hget. specialize (Hmin m Hget). destruct m as [| |[]| | |]; simplify_eq/=; eauto.
    + intros e Hget. specialize (He e Hget). destruct e; simplify_eq/=; eauto.
  - inversion 1 as [object' Ht Hr Ha Hp Hi Hmax Hmin He]; subst.
    split_and!; auto.
    + intros r Hget. destruct (Hr r Hget) as [names ->]. simpl. apply required_entries_ok. eauto.
    + intros a Hget. by destruct (Ha a Hget) as [b ->].
    + intros p Hget. destruct (Hp p Hget) as (children & -> & Hc).
      apply try_each_ok, List.Forall_forall. intros [k c] Hin.
      eapply IH; [by eapply grandchild_inside|]. by eapply Hc.
    + intros i Hget. eapply IH; [by eapply field_inside|]. by apply Hi.
    + intros m Hget. by destruct (Hmax m Hget) as [n ->].
    + intros m Hget. by destruct (Hmin m Hget) as [n ->].
    + intros e Hget. by destruct (He e Hget) as [l ->].
Qed.
End walk.

(** ** The payload walk *)

Definition no_panic (r : result fault unit) : Prop := r <> Err Panic.

Lemma seq_no_panic c k : no_panic c -> no_panic k -> no_panic (let? _ := c in k).
Proof. unfold no_panic. by destruct c as [[]|e]. Qed.
Lemma try_each_no_panic {A} (g : A -> result fault unit) xs :
  (forall x, In x xs -> no_panic (g x)) -> no_panic (try_each g xs).
Proof.
  intros Hg H. apply try_each_err in H as (x & Hin & Hx). apply list_elem_of_In in Hin.
  by apply (Hg x).
Qed.
Lemma try_each_indexed_no_panic {A} (g : Z -> A -> result fault unit) xs i :
  (forall j x, In x xs -> no_panic (g j x)) -> no_panic (try_each_indexed g i xs).
Proof.
  intros Hg H. apply try_each_indexed_err in H as (j & x & Hin & Hx).
  apply list_elem_of_In in Hin. by apply (Hg j x).
Qed.
Lemma when_some_no_panic {A} (o : option A) (g : A -> result fault unit) :
  (forall x, o = Some x -> no_panic (g x)) -> no_panic match o with Some x => g x | None => Ok tt end.
Proof. destruct o; intros; [auto|done]. Qed.
#[local] Hint Resolve seq_no_panic try_each_no_panic try_each_indexed_no_panic
  when_some_no_panic : tron.

Lemma any_type_ok names payload :
  exists b, any_type (map VString names) payload = Ok b /\
    (b = true <-> exists name, In name names /\ matches_single_type name payload = true).
Proof.
  induction names as [|name names (b & Hb & IH)]; simpl.
  - exists false. split; [done|]. split; [done|intros (?&[]&_)].
  - destruct (matches_single_type name payload) eqn:Hm.
    + exists true. split; [done|]. split; [eauto|done].
    + exists b. split; [done|]. rewrite IH. split.
      * intros (n & Hin & Hn). eauto.
      * intros (n & [->|Hin] & Hn); [congruence|eauto].
Qed.

Lemma matches_schema_type_ok t payload :
  type_ok t -> exists b, matches_schema_type t payload = Ok b /\ (b = true <-> has_type t payload).
Proof.
  intros [(name & -> & _)|(names & -> & _ & _)]; unfold matches_schema_type, has_type; simpl.
  - eexists. split; [done|]. split; [eauto|].
    intros (n & [?|(?&?&?)] & Hn); simplify_eq; done.
  - destruct (any_type_ok names payload) as (b & Hb & Hiff). exists b. split; [done|].
    rewrite Hiff. split.
    + intros (n & Hin & Hn). exists n. split; [|done]. right. eexists. split; [done|].
      by apply in_map.
    + intros (n & [?|(l&?&Hin)] & Hn); simplify_eq. apply in_map_iff in Hin as (n' & ? & Hin).
      simplify_eq. eauto.
Qed.

Lemma describe_type_total t : type_ok t -> exists text, describe_type t = Ok text.
Proof.
  intros [(name & -> & _)|(names & -> & _ & _)]; unfold describe_type; simpl; [eauto|].
  replace (mapM as_str (map VString names)) with (Some names); [eauto|].
  symmetry. induction names as [|n names IH]; simpl; [done|]. by rewrite IH.
Qed.

Section head.
  Variables (f d path : string) (object : list (string * Value)).
  Hypothesis Htype : forall t, obj_get object "type" = Some t -> type_ok t.
  Hypothesis Hreq :
    forall r, obj_get object "required" = Some r -> exists names, r = VArray (map VString names).

Lemma head_no_panic payload : no_panic (validate_payload_head f d object payload path).
Proof using Htype Hreq.
  unfold validate_payload_head. apply seq_no_panic; [|apply seq_no_panic; [|apply seq_no_panic]].
  - apply when_some_no_panic. intros t Ht%Htype.
    destruct (matches_schema_type_ok t payload Ht) as ([] & -> & _); [done|].
    by destruct (describe_type_total t Ht) as (text & ->).
  - by repeat case_match.
  - by repeat case_match.
  - destruct (obj_get object "required") as [r|] eqn:Hr; simpl; [|done].
    destruct (Hreq r eq_refl) as [names ->]. simpl. destruct (as_object payload); [|done].
    apply try_each_no_panic. intros x (n & <- & _)%in_map_iff. simpl. by case_match.
Qed.

Lemma head_ok payload :
  validate_payload_head f d object payload path = Ok tt <-> head_conforms object payload.
Proof using Htype Hreq.
  unfold validate_payload_head, head_conforms. rewrite !seq_ok, when_some_ok.
  repeat match goal with |- (_ /\ _) <-> (_ /\ _) => apply Morphisms_Prop.and_iff_morphism end.
  - apply Morphisms_Prop.all_iff_morphism. intros t. split; intros H Hget; specialize (H Hget);
      destruct (matches_schema_type_ok t payload (Htype t Hget)) as (b & Hm & Hiff);
      rewrite Hm in *.
    + apply Hiff. destruct b; [done|]. simpl in H. by inv_ok.
    + apply Hiff in H as ->. done.
  - split.
    + intros H l Hget. rewrite Hget in H. simpl in H. apply guard_ok, negb_false_iff in H.
      by apply existsb_exists in H.
    + intros H. destruct (obj_get object "enum") as [[| | | |l|]|]; try done. simpl.
      apply guard_ok, negb_false_iff, existsb_exists. eauto.
  - split.
    + intros H n text Hget ->. rewrite Hget in H. simpl in H. apply guard_ok in H. lia.
    + intros H. destruct (obj_get object "minLength") as [[| |[n| |]| | |]|]; try done. simpl.
      destruct payload as [| | |text| |]; try done. simpl. apply guard_ok.
      specialize (H n text eq_refl eq_refl). lia.
  - split.
    + intros H names Hget. rewrite Hget in H. simpl in H.
      destruct payload as [| | | | |fields]; try done. exists fields. split; [done|].
      simpl in H. rewrite try_each_ok, List.Forall_map in H.
      eapply Forall_impl; [exact H|]. simpl. intros name Hn. apply guard_ok in Hn.
      apply negb_false_iff in Hn. unfold obj_contains in Hn. by destruct (obj_get fields name).
    + intros H. destruct (obj_get object "required") as [r|] eqn:Hr; simpl; [|done].
      destruct (Hreq r eq_refl) as [names ->]. destruct (H names eq_refl) as (fields & -> & HF).
      simpl. apply try_each_ok, List.Forall_map. eapply Forall_impl; [exact HF|].
      intros name [v Hv]. simpl. unfold obj_contains. by rewrite Hv.
Qed.
End head.

Lemma max_items_ok f d object payload path :
  (forall m, obj_get object "maxItems" = Some m -> exists n, m = VNumber (PosInt n)) ->
  validate_max_items f d object payload path = Ok tt <->
  forall items, payload = VArray items ->
  forall n, obj_get object "maxItems" = Some (VNumber (PosInt n)) ->
  Z.of_nat (List.length items) <= n.
Proof.
  intros Hm. unfold validate_max_items.
  destruct payload as [| | | |items|]; simpl; try (split; [by intros|done]).
  destruct (obj_get object "maxItems") as [m|]; simpl; [|by split].
  destruct (Hm m eq_refl) as [n ->]. simpl. rewrite guard_ok, Z.ltb_ge. split.
  - intros H items' ? n' ?. by simplify_eq.
  - eauto.
Qed.

Lemma additional_ok f d object children fields path :
  validate_additional f d object children fields path = Ok tt <->
  (obj_get object "additionalProperties" = Some (VBool false) ->
   forall k v, In (k, v) fields -> is_Some (obj_get children k)).
Proof.
  unfold validate_additional.
  destruct (obj_get object "additionalProperties") as [[|[]| | | |]|]; simpl;
    try (split; [intros _ ?; done|done]).
  rewrite try_each_ok, List.Forall_forall. setoid_rewrite guard_ok. split.
  - intros H _ k v Hin. specialize (H _ Hin). simpl in H. apply negb_false_iff in H.
    unfold obj_contains in H. by destruct (obj_get children k).
  - intros H [k v] Hin. specialize (H eq_refl k v Hin) as [c Hc]. simpl.
    unfold obj_contains. by rewrite Hc.
Qed.

Lemma additional_no_panic f d object children fields path :
  no_panic (validate_additional f d object children fields path).
Proof.
  unfold validate_additional. repeat case_match; try done.
  apply try_each_no_panic. intros x _. by case_match.
Qed.

Lemma payload_node_no_panic schema : forall f d payload path,
  schema_ok schema -> no_panic (validate_payload_node f d schema payload path).
Proof.
  induction schema as [schema IH] using Value_deep_ind. intros f d payload path.
  inversion 1 as [object Ht Hr _ Hp Hi _ _ _]; subst.
  cbn [validate_payload_node]. rewrite !obj_get_with_spec.
  apply seq_no_panic; [by apply head_no_panic|].
  assert (no_panic (let? _ := validate_max_items f d object payload path in
    match obj_get object "items" with
    | Some items_schema =>
        match as_array payload with
        | Some items => try_each_indexed (fun index item =>
            validate_payload_node f d items_schema item (path +s "[" +s pretty index +s "]")) 0 items
        | None => Ok tt end
    | None => Ok tt end)) as Hitems.
  { apply seq_no_panic; [unfold validate_max_items; by repeat case_match|].
    apply when_some_no_panic. intros i Hget. apply when_some_no_panic. intros items _.
    apply try_each_indexed_no_panic. intros j x _.
    apply IH; [by eapply field_inside|by apply Hi]. }
  destruct (obj_get object "properties") as [p|] eqn:Hget; [|done].
  destruct (Hp p eq_refl) as (children & -> & Hc).
  destruct (as_object payload) as [fields|]; [|done].
  apply seq_no_panic; [apply additional_no_panic|]. apply seq_no_panic; [|done].
  apply try_each_no_panic. intros [k c] Hin. apply when_some_no_panic. intros v _.
  apply IH; [by eapply grandchild_inside|by eapply Hc].
Qed.

Lemma items_node_ok object payload path f d :
  (forall s, obj_get object "items" = Some s -> forall x p,
     validate_payload_node f d s x p = Ok tt <-> conforms s x) ->
  match obj_get object "items" with
  | Some items_schema =>
      match as_array payload with
      | Some items => try_each_indexed (fun index item =>
          validate_payload_node f d items_schema item (path +s "[" +s pretty index +s "]")) 0 items
      | None => Ok tt end
  | None => Ok tt end = Ok tt <->
  forall items, payload = VArray items ->
  forall s, obj_get object "items" = Some s -> forall x, In x items -> conforms s x.
Proof.
  intros IH. rewrite when_some_ok. destruct payload as [| | | |items|]; simpl;
    try (split; [by intros|done]).
  split.
  - intros H items' ? s Hs. simplify_eq. specialize (H s Hs).
    apply (try_each_indexed_ok _ (conforms s)) in H; [by apply List.Forall_forall|].
    intros; by apply IH.
  - intros H s Hs. apply (try_each_indexed_ok _ (conforms s)); [intros; by apply IH|].
    apply List.Forall_forall. by apply (H items eq_refl).
Qed.

Lemma payload_node_ok schema : forall f d payload path,
  schema_ok schema -> validate_payload_node f d schema payload path = Ok tt <-> conforms schema payload.
Proof.
  induction schema as [schema IH] using Value_deep_ind. intros f d payload path.
  inversion 1 as [object Ht Hr _ Hp Hi Hmax _ _]; subst.
  assert (forall s, obj_get object "items" = Some s -> forall x p,
     validate_payload_node f d s x p = Ok tt <-> conforms s x) as IHi.
  { intros s Hs x p. apply IH; [by eapply field_inside|auto]. }
  cbn [validate_payload_node]. rewrite !obj_get_with_spec, seq_ok, head_ok by done.
  destruct (obj_get object "properties") as [p|] eqn:Hget.
  - destruct (Hp p eq_refl) as (children & -> & Hc).
    destruct payload as [| | | |items|fields]; cbn [as_object];
      try (split; [intros [Hh _]; constructor; try done; congruence|by inversion 1]).
    rewrite !seq_ok, additional_ok, max_items_ok, items_node_ok by done.
    rewrite try_each_ok, List.Forall_forall. split.
    + intros (Hh & Ha & Hch & _). constructor; try done.
      * intros children' fields' ? ?. by simplify_eq.
      * intros children' fields' ? ? k c v Hin Hv. simplify_eq. specialize (Hch _ Hin).
        simpl in Hch. rewrite Hv in Hch.
        eapply IH; [by eapply grandchild_inside|by eapply Hc|exact Hch].
    + inversion 1 as [? ? Hh Ha Hch _ _]; subst. split_and!; try done; [by eapply Ha|].
      intros [k c] Hin. apply when_some_ok. intros v Hv.
      eapply IH; [by eapply grandchild_inside|by eapply Hc|by eapply Hch].
  - rewrite seq_ok, max_items_ok, items_node_ok by done. split.
    + intros (Hh & Hm & Hit). constructor; try done; intros; congruence || eauto.
    + inversion 1 as [? ? Hh _ _ Hm Hit]; subst. split_and!; eauto.
Qed.

(** ** Properties *)

Section properties.
  Variable debug : string -> string.

(** validate_schema_definition accepts exactly the well-formed schemas of the supported
    subset, at every depth. *)
Theorem schema_definition_sound_complete f d schema :
  validate_schema_definition debug f d schema = Ok tt <-> schema_ok schema.
Proof. apply validate_schema_node_ok. Qed.

(** The payload walk never reaches one of its expect calls on a malformed schema:
    validate_payload checks the schema first, and a schema that passes that check gives
    every expect a value. *)
Theorem payload_never_panics f d schema payload :
  validate_payload_faults debug f d schema payload <> Err Panic.
Proof.
  unfold validate_payload_faults.
  destruct (validate_schema_definition debug f d schema) as [[]|e] eqn:Hs; [|done].
  apply validate_schema_node_ok in Hs. by apply payload_node_no_panic.
Qed.

Lemma validate_payload_ok f d schema payload :
  validate_payload debug f d schema payload = Ok tt <-> schema_ok schema /\ conforms schema payload.
Proof.
  rewrite <- (validate_schema_node_ok debug schema f d "$").
  unfold validate_payload, validate_payload_faults, validate_schema_definition.
  destruct (validate_schema_node debug f d schema "$") as [[]|e] eqn:Hs.
  - pose proof Hs as Hok. apply validate_schema_node_ok in Hok.
    rewrite <- (payload_node_ok schema f d payload "$" Hok).
    destruct (validate_payload_node f d schema payload "$") as [[]|[|e]];
      split; intuition congruence.
  - split; [done|]. intros [? _]. done.
Qed.

(** C8: validate_payload accepts a payload exactly when the schema is well formed and the
    payload conforms to it, where conformance is the declarative reading of type, enum,
    minLength, required, properties, additionalProperties, maxItems and items (array
    keywords apply only to schemas without properties). *)
Theorem payload_accepted_iff_conforms f d schema payload :
  validate_payload debug f d schema payload = Ok tt <-> schema_ok schema /\ conforms schema payload.
Proof. apply validate_payload_ok. Qed.
End properties.
