(* ===== verification/UiSurface.v ===== *)
(** * Runtime UI surfaces

    [durability/resources/ui_surface.rs]: the payload of a [ui_surface] resource is
    a tree of components that a client renders.  It is accepted only within bounds
    (depth, number of components, table rows, text, actions, bytes) and without
    executable content, local files and raw secrets.

    Parameters: the number of bytes of a JSON text, the RFC 3339 parser (the error
    text of a string it refuses), and the rendering of strings in error texts. *)

From stdpp Require Import base gmap strings list pretty.
From Stdlib Require Import ZArith Ascii String Lia Relation_Operators.
From S2P Require Import Prelude Json Kernel Schema.
Import JsonNotations.

#[local] Open Scope Z_scope.

(* SRC engine/durability/resources/ui_surface.rs:11-11 UI_MAX_DEPTH *)
Definition UI_MAX_DEPTH : Z := 8.
(* SRC engine/durability/resources/ui_surface.rs:12-12 UI_MAX_COMPONENTS *)
Definition UI_MAX_COMPONENTS : Z := 200.
(* SRC engine/durability/resources/ui_surface.rs:13-13 UI_MAX_TABLE_ROWS *)
Definition UI_MAX_TABLE_ROWS : Z := 200.
(* SRC engine/durability/resources/ui_surface.rs:14-14 UI_MAX_TEXT_BYTES *)
Definition UI_MAX_TEXT_BYTES : Z := 16 * 1024.
(* SRC engine/durability/resources/ui_surface.rs:15-15 UI_MAX_ACTIONS *)
Definition UI_MAX_ACTIONS : Z := 50.
(* SRC engine/durability/resources/ui_surface.rs:16-16 UI_MAX_PAYLOAD_BYTES *)
Definition UI_MAX_PAYLOAD_BYTES : Z := 64 * 1024.
(* SRC engine/durability/resources/types.rs:14-15 UI_SURFACE_SCHEMA_VERSION *)
Definition UI_SURFACE_SCHEMA_VERSION : Z := 1.

(* SRC engine/durability/resources/ui_surface.rs:18-41 ui_surface_schema *)
Definition ui_surface_schema : Value :=
  j{"type" ~> "object";
    "required" ~> j["surfaceId"; "title"; "purpose"; "schemaVersion"; "layout"; "actions";
                    "expiresAt"];
    "additionalProperties" ~> false;
    "properties" ~>
      j{"surfaceId" ~> j{"type" ~> "string"};
        "title" ~> j{"type" ~> "string"};
        "purpose" ~> j{"type" ~> "string"};
        "schemaVersion" ~> j{"type" ~> "integer"};
        "layout" ~> j{"type" ~> "object"};
        "actions" ~> j{"type" ~> "array"; "items" ~> j{"type" ~> "object"};
                       "maxItems" ~> UI_MAX_ACTIONS};
        "expiresAt" ~> j{"type" ~> "string"} } }.

Definition policy {A} (message : string) : Result A := Err (PolicyViolation message).

(** ** Components *)

(* SRC engine/durability/resources/ui_surface.rs:82-86 UiSurfaceStats *)
Record UiSurfaceStats := { us_components : Z; us_text_bytes : Z }.
Definition stats_default : UiSurfaceStats := {| us_components := 0; us_text_bytes := 0 |}.

(* SRC engine/durability/resources/ui_surface.rs:255-285 ui_component_types *)
Definition ui_component_types : list string :=
  ["Text"; "Heading"; "Monospace"; "Badge"; "Section"; "List"; "Table"; "Tabs"; "Disclosure";
   "ResourceRef"; "InvocationRef"; "GrantRef"; "Metric"; "TextField"; "TextArea"; "Select";
   "Toggle"; "Stepper"; "DateTime"; "Button"; "ButtonGroup"; "Confirmation"; "Progress";
   "Health"; "Warning"; "Error"; "EmptyState"].

Definition str_in (xs : list string) (s : string) : bool := existsb (fun x => x =s s) xs.
#[global] Arguments str_in : simpl never.

(* SRC engine/durability/resources/ui_surface.rs:287-316 allowed_component_props *)
Definition allowed_component_props (t : string) : list string :=
  let props :=
    if str_in ["Text"; "Heading"; "Warning"; "Error"] t then ["text"; "level"; "tone"]
    else if t =s "Monospace" then ["text"; "language"; "truncate"]
    else if t =s "Badge" then ["text"; "tone"]
    else if str_in ["Section"; "Disclosure"] t then ["title"; "subtitle"; "open"]
    else if t =s "List" then ["items"; "style"]
    else if t =s "Table" then ["columns"; "rows"; "caption"]
    else if t =s "Tabs" then ["tabs"; "selected"]
    else if t =s "ResourceRef" then ["resourceId"; "versionId"; "kind"; "label"]
    else if t =s "InvocationRef" then ["invocationId"; "label"]
    else if t =s "GrantRef" then ["grantId"; "label"]
    else if t =s "Metric" then ["label"; "value"; "unit"; "tone"]
    else if str_in ["TextField"; "TextArea"; "DateTime"] t
    then ["name"; "label"; "placeholder"; "value"; "required"]
    else if t =s "Select" then ["name"; "label"; "options"; "value"; "required"]
    else if t =s "Toggle" then ["name"; "label"; "value"]
    else if t =s "Stepper" then ["name"; "label"; "value"; "min"; "max"; "step"]
    else if t =s "Button" then ["actionId"; "label"; "variant"; "disabled"]
    else if t =s "ButtonGroup" then ["actions"; "alignment"]
    else if t =s "Confirmation" then ["title"; "message"; "confirmActionId"; "cancelLabel"]
    else if t =s "Progress" then ["label"; "value"; "total"]
    else if t =s "Health" then ["status"; "label"; "detail"]
    else if t =s "EmptyState" then ["title"; "message"; "actionId"]
    else [] in
  props ++ ["id"; "binding"; "visibleWhen"; "disabledWhen"].

(* SRC engine/durability/resources/ui_surface.rs:404-411 utf8_string_bytes *)
Fixpoint utf8_string_bytes (v : Value) : Z :=
  match v with
  | VString text => Z.of_nat (String.length text)
  | VArray items => foldr (fun item n => utf8_string_bytes item + n) 0 items
  | VObject fields => foldr (fun kv n => utf8_string_bytes (snd kv) + n) 0 fields
  | _ => 0
  end.

(** [for x in xs { f(x, &mut s)?; }] *)
Definition try_fold {S A} (f : A -> S -> Result S) : list A -> S -> Result S :=
  fix go (xs : list A) (s : S) : Result S :=
    match xs with
    | [] => Ok s
    | x :: xs' => let? s' := f x s in go xs' s'
    end.

(* SRC engine/durability/resources/ui_surface.rs:142-173 validate_ui_component_props *)
Definition validate_ui_component_props (t : string) (props : Value) (stats : UiSurfaceStats)
  : Result UiSurfaceStats :=
  match props with
  | Null => Ok stats
  | VObject object =>
      let allowed := allowed_component_props t in
      try_fold (fun '(key, value) stats =>
        if negb (str_in allowed key) then policy (t +s " does not allow prop " +s key)
        else if (key =s "rows") && match as_array value with
                                   | Some rows => UI_MAX_TABLE_ROWS <? Z.of_nat (List.length rows)
                                   | None => false
                                   end
        then policy ("Table rows exceed " +s pretty UI_MAX_TABLE_ROWS)
        else Ok {| us_components := us_components stats;
                   us_text_bytes := saturating_add_u64 (us_text_bytes stats) (utf8_string_bytes value) |})
        object stats
  | _ => policy (t +s " props must be an object")
  end.

(** The type of a component, from the object's fields. *)
(* SRC engine/durability/resources/ui_surface.rs:116-131! validate_ui_component *)
Definition component_type (object : list (string * Value)) : Result string :=
  match obj_get object "type" ≫= as_str with
  | Some t =>
      if is_blank t then policy "ui_surface component requires type"
      else if negb (str_in ui_component_types t) then policy ("unsupported ui component " +s t)
      else Ok t
  | None => policy "ui_surface component requires type"
  end.

(* SRC engine/durability/resources/ui_surface.rs:103-140 validate_ui_component *)
Fixpoint validate_ui_component (component : Value) (depth : Z) (stats : UiSurfaceStats)
  {struct component} : Result UiSurfaceStats :=
  if UI_MAX_DEPTH <? depth
  then policy ("ui_surface component tree exceeds depth " +s pretty UI_MAX_DEPTH)
  else
  match component with
  | VObject object =>
      let? t := component_type object in
      let stats := {| us_components := us_components stats + 1;
                      us_text_bytes := us_text_bytes stats |} in
      let? stats := validate_ui_component_props t (default Null (obj_get object "props")) stats in
      obj_get_with "children" (Ok stats) (fun children =>
        match children with
        | VArray items => try_fold (fun child s => validate_ui_component child (depth + 1) s) items stats
        | _ => policy "ui_surface children must be an array"
        end) object
  | _ => policy "ui_surface component must be an object"
  end.

(** ** Forbidden content *)

(* SRC engine/durability/resources/ui_surface.rs:359-364 secret_like_key *)
Definition secret_like_key (key : string) : bool :=
  let fix strip (s : string) : string :=
    match s with
    | EmptyString => EmptyString
    | String a s' => if (code a =? 45) || (code a =? 95) then strip s' else String a (strip s')
    end in
  let key := strip (str_to_ascii_lowercase key) in
  existsb (contains key) ["secret"; "apikey"; "password"; "credential"; "accesstoken"].

(* SRC engine/durability/resources/ui_surface.rs:366-389 ui_structural_identifier_key *)
Definition ui_structural_identifier_key (key : string) : bool :=
  str_in ["id"; "surfaceId"; "resourceId"; "versionId"; "resourceVersionId"; "packageVersionId";
          "configVersionId"; "activationVersionId"; "expectedCurrentVersionId"; "contentHash";
          "sessionId"; "workspaceId"; "targetResourceId"; "targetVersionId"; "functionId";
          "grantId"; "invocationId"; "createdByInvocationId"; "actionId"; "confirmActionId"] key.

(* SRC engine/durability/resources/ui_surface.rs:391-402 raw_secret_like_value *)
Definition raw_secret_like_value (value : string) : bool :=
  let trimmed := trim value in
  if starts_with trimmed "secret_ref:" || starts_with trimmed "redacted:" then false
  else starts_with trimmed "sk-" || starts_with trimmed "xox"
       || ((32 <=? Z.of_nat (String.length trimmed))
           && all_chars (fun a => is_ascii_alphanumeric a || (code a =? 95) || (code a =? 45)) trimmed).

(* SRC engine/durability/resources/ui_surface.rs:339-342! scan_ui_value_for_forbidden_content *)
Definition executable_text (text : string) : bool :=
  let lower := str_to_ascii_lowercase text in
  contains lower "<script" || contains lower "javascript:" || contains lower "file://".

#[global] Arguments secret_like_key : simpl never.
#[global] Arguments raw_secret_like_value : simpl never.
#[global] Arguments executable_text : simpl never.

(* SRC engine/durability/resources/ui_surface.rs:318-357 scan_ui_value_for_forbidden_content *)
Fixpoint scan_ui_value_for_forbidden_content (v : Value) (path : string) : Result unit :=
  match v with
  | VObject object =>
      try_each (fun '(key, child) =>
        if secret_like_key key && match as_str child with
                                  | Some text => raw_secret_like_value text
                                  | None => false
                                  end
        then policy ("ui_surface stores secret-like value at " +s path +s "." +s key
                     +s "; use secret_ref")
        else if ui_structural_identifier_key key && is_string child then Ok tt
        else scan_ui_value_for_forbidden_content child (path +s "." +s key)) object
  | VArray items =>
      try_each_indexed (fun index child =>
        scan_ui_value_for_forbidden_content child (path +s "[" +s pretty index +s "]")) 0 items
  | VString text =>
      if executable_text text
      then policy ("ui_surface contains executable or local-file content at " +s path)
      else if raw_secret_like_value text
      then policy ("ui_surface contains raw secret-like value at " +s path +s "; use secret_ref")
      else Ok tt
  | _ => Ok tt
  end.

(** ** The payload *)

(* SRC engine/durability/resources/ui_surface.rs:220-230 ensure_non_empty_object_string *)
Definition ensure_non_empty_object_string (object : list (string * Value)) (field : string)
  : Result unit :=
  match obj_get object field ≫= as_str with
  | Some value => if is_blank value then policy ("ui_surface requires " +s field) else Ok tt
  | None => policy ("ui_surface requires " +s field)
  end.

(* SRC engine/durability/resources/ui_surface.rs:213-218 ensure_non_empty_string *)
Definition ensure_non_empty_string (payload : Value) (field : string) : Result unit :=
  match as_object payload with
  | Some object => ensure_non_empty_object_string object field
  | None => policy "ui_surface payload must be an object"
  end.

(* SRC engine/durability/resources/ui_surface.rs:88-101 ensure_schema_version *)
Definition ensure_schema_version (payload : Value) : Result unit :=
  match vget payload "schemaVersion" ≫= as_u64 with
  | None => policy "ui_surface requires schemaVersion"
  | Some version =>
      if version =? UI_SURFACE_SCHEMA_VERSION then Ok tt
      else policy ("ui_surface schemaVersion " +s pretty version +s " is not supported")
  end.

(* SRC engine/durability/resources/ui_surface.rs:413-415 resource_function_id *)
Definition resource_function_id : FunctionId := "resource::payload".

Section payload.
  Variable debug : string -> string.
  Variable json_len : Value -> Z.
  (** The error of [DateTime::parse_from_rfc3339], if it refuses the text. *)
  Variable rfc3339_error : string -> option string.

(* SRC engine/durability/resources/ui_surface.rs:239-253 ensure_datetime_value *)
Definition ensure_datetime_value (value : option Value) (field : string) : Result unit :=
  match value ≫= as_str with
  | Some text =>
      if text =s "" then policy ("ui_surface requires datetime " +s field)
      else match rfc3339_error text with
           | None => Ok tt
           | Some error => policy ("ui_surface invalid datetime " +s field +s ": " +s error)
           end
  | None => policy ("ui_surface requires datetime " +s field)
  end.

(* SRC engine/durability/resources/ui_surface.rs:232-237 ensure_datetime_string *)
Definition ensure_datetime_string (payload : Value) (field : string) : Result unit :=
  match as_object payload with
  | Some object => ensure_datetime_value (obj_get object field) field
  | None => policy "ui_surface payload must be an object"
  end.

(** One action; [ids] are the action ids so far. *)
(* SRC engine/durability/resources/ui_surface.rs:187-209! validate_ui_actions *)
Definition validate_ui_action (action : Value) (ids : list string) : Result (list string) :=
  match as_object action with
  | None => policy "ui_surface action must be an object"
  | Some object =>
      let? _ := try_each (ensure_non_empty_object_string object) ["actionId"; "label"; "expiresAt"] in
      let action_id := default "" (obj_get object "actionId" ≫= as_str) in
      if str_in ids action_id then policy ("duplicate ui action " +s action_id)
      else
      let? _ := ensure_datetime_value (obj_get object "expiresAt") "expiresAt" in
      match obj_get object "inputSchema" with
      | None => policy "ui action requires inputSchema"
      | Some input_schema =>
          let? _ := validate_schema_definition debug resource_function_id "ui_action_input"
                      input_schema in
          Ok (ids ++ [action_id])
      end
  end.

(* SRC engine/durability/resources/ui_surface.rs:175-211 validate_ui_actions *)
Definition validate_ui_actions (value : option Value) : Result unit :=
  match value ≫= as_array with
  | None => policy "ui_surface actions must be an array"
  | Some actions =>
      if UI_MAX_ACTIONS <? Z.of_nat (List.length actions)
      then policy ("ui_surface has more than " +s pretty UI_MAX_ACTIONS +s " actions")
      else let? _ := try_fold validate_ui_action actions [] in Ok tt
  end.

(** [serde_json::to_vec] of a value cannot fail. *)
(* SRC engine/durability/resources/ui_surface.rs:43-80 validate_ui_surface_payload *)
Definition validate_ui_surface_payload (payload : Value) : Result unit :=
  if UI_MAX_PAYLOAD_BYTES <? json_len payload
  then policy ("ui_surface payload exceeds " +s pretty UI_MAX_PAYLOAD_BYTES +s " bytes")
  else
  let? _ := ensure_non_empty_string payload "surfaceId" in
  let? _ := ensure_non_empty_string payload "title" in
  let? _ := ensure_non_empty_string payload "purpose" in
  let? _ := ensure_datetime_string payload "expiresAt" in
  let? _ := ensure_schema_version payload in
  match vget payload "layout" with
  | None => policy "ui_surface requires layout"
  | Some layout =>
      let? stats := validate_ui_component layout 1 stats_default in
      if UI_MAX_COMPONENTS <? us_components stats
      then policy ("ui_surface has more than " +s pretty UI_MAX_COMPONENTS +s " components")
      else if UI_MAX_TEXT_BYTES <? us_text_bytes stats
      then policy ("ui_surface text exceeds " +s pretty UI_MAX_TEXT_BYTES +s " bytes")
      else
      let? _ := validate_ui_actions (vget payload "actions") in
      scan_ui_value_for_forbidden_content payload "$"
  end.
End payload.

(** ** What an accepted surface satisfies *)

(** The components of a layout with their depth, as the renderer walks them. *)
Inductive component_at : Value -> Z -> Z -> Value -> Prop :=
| component_here v d : component_at v d d v
| component_below object items child v d d' :
    obj_get object "children" = Some (VArray items) -> child ∈ items ->
    component_at child (d + 1) d' v -> component_at (VObject object) d d' v.

(** The number of components, and the text of their properties. *)
Definition props_text (object : list (string * Value)) : Z :=
  match obj_get object "props" with
  | Some (VObject props) => foldr (fun kv n => utf8_string_bytes (snd kv) + n) 0 props
  | _ => 0
  end.
Fixpoint component_count (v : Value) : Z :=
  match v with
  | VObject object =>
      1 + obj_get_with "children" 0 (fun children =>
            match children with
            | VArray items => foldr (fun child n => component_count child + n) 0 items
            | _ => 0
            end) object
  | _ => 0
  end.
Fixpoint component_text (v : Value) : Z :=
  match v with
  | VObject object =>
      props_text object + obj_get_with "children" 0 (fun children =>
            match children with
            | VArray items => foldr (fun child n => component_text child + n) 0 items
            | _ => 0
            end) object
  | _ => 0
  end.

(** One component: its type is known, it has only properties of that type, and a
    table has a bounded number of rows. *)
Definition component_ok (v : Value) : Prop :=
  exists object t, v = VObject object /\ obj_get object "type" = Some (VString t) /\
    t ∈ ui_component_types /\
    forall props key value, obj_get object "props" = Some (VObject props) -> (key, value) ∈ props ->
      key ∈ allowed_component_props t /\
      (forall rows, key = "rows" -> value = VArray rows ->
         Z.of_nat (List.length rows) <= UI_MAX_TABLE_ROWS).

Lemma utf8_nonneg v : 0 <= utf8_string_bytes v.
Proof.
  induction v as [|b|n|s|l IH|l IH] using Value_ind'; simpl; try lia.
  - induction IH; simpl; lia.
  - induction IH; simpl; lia.
Qed.
Lemma str_in_iff xs s : str_in xs s = true <-> s ∈ xs.
Proof.
  unfold str_in. rewrite existsb_exists. split.
  - intros (x & Hx & ->%String.eqb_eq). by apply list_elem_of_In.
  - intros Hs. exists s. split; [by apply list_elem_of_In|apply String.eqb_refl].
Qed.

(** What validation adds to the statistics; the text saturates. *)
Definition adds (count text : Z) (s s' : UiSurfaceStats) : Prop :=
  0 <= text /\ us_components s' = us_components s + count /\
  (us_text_bytes s <= u64_max -> us_text_bytes s' = Z.min (us_text_bytes s + text) u64_max).

Lemma adds_trans c t c' t' s1 s2 s3 :
  adds c t s1 s2 -> adds c' t' s2 s3 -> adds (c + c') (t + t') s1 s3.
Proof. unfold adds. lia. Qed.

(** A loop that accepts accepts each element, and accumulates. *)
Lemma try_fold_adds {A} f (P : A -> Prop) (count text : A -> Z) xs :
  (forall x s s', x ∈ xs -> f x s = Ok s' -> P x /\ adds (count x) (text x) s s') ->
  forall s s', try_fold f xs s = Ok s' ->
    Forall P xs /\
    adds (foldr (fun x n => count x + n) 0 xs) (foldr (fun x n => text x + n) 0 xs) s s'.
Proof.
  induction xs as [|x xs IH]; intros Hf s s'; simpl.
  - intros [= <-]. split; [done|]. unfold adds. lia.
  - destruct (f x s) as [s1|e] eqn:E; [|done]. intros Hr.
    destruct (Hf x s s1 ltac:(left) E) as [Hx Hg].
    destruct (IH ltac:(intros; eapply Hf; [by right|done]) s1 s' Hr) as [Hxs Hg'].
    split; [by constructor|]. exact (adds_trans _ _ _ _ _ _ _ Hg Hg').
Qed.

Lemma component_type_ok object t :
  component_type object = Ok t -> obj_get object "type" = Some (VString t) /\ t ∈ ui_component_types.
Proof.
  unfold component_type. destruct (obj_get object "type") as [[]|] eqn:E; simpl; try done.
  destruct (is_blank _); [done|]. destruct (str_in _ _) eqn:Ht; [|done]. simpl. intros [= <-].
  by apply str_in_iff in Ht.
Qed.

Lemma validate_props_ok t object s s' :
  validate_ui_component_props t (default Null (obj_get object "props")) s = Ok s' ->
  adds 0 (props_text object) s s' /\
  forall props key value, obj_get object "props" = Some (VObject props) -> (key, value) ∈ props ->
    key ∈ allowed_component_props t /\
    (forall rows, key = "rows" -> value = VArray rows -> Z.of_nat (List.length rows) <= UI_MAX_TABLE_ROWS).
Proof.
  unfold props_text. destruct (obj_get object "props") as [[| | | | |props]|]; simpl; try done;
    [intros [= <-]; split; [unfold adds; lia|done]| |intros [= <-]; split; [unfold adds; lia|done]].
  intros Hv.
  apply (try_fold_adds _ (fun kv => fst kv ∈ allowed_component_props t /\
    (forall rows, fst kv = "rows" -> snd kv = VArray rows ->
       Z.of_nat (List.length rows) <= UI_MAX_TABLE_ROWS))
    (fun _ => 0) (fun kv => utf8_string_bytes (snd kv)) props) in Hv as [Hall Hadds]; cycle 1.
  { intros [key value] s1 s2 _. destruct (str_in _ key) eqn:Hk; [|done]. simpl.
    destruct (key =s "rows") eqn:Er; simpl.
    - destruct (match as_array value with Some _ => _ | None => _ end) eqn:Hr; [done|].
      intros [= <-]. split; [split; [by apply str_in_iff|]|].
      + intros rows _ ->. simpl in Hr. lia.
      + pose proof (utf8_nonneg value). unfold adds, saturating_add_u64. simpl. lia.
    - intros [= <-]. split; [split; [by apply str_in_iff|]|].
      + intros rows ->. by rewrite String.eqb_refl in Er.
      + pose proof (utf8_nonneg value). unfold adds, saturating_add_u64. simpl. lia. }
  split.
  - replace 0 with (foldr (fun (_ : string * Value) n => 0 + n) 0 props) at 1; [exact Hadds|].
    clear. induction props; simpl; lia.
  - intros props' key value [= <-] Hin. rewrite Forall_forall in Hall. by apply (Hall (key, value)).
Qed.

Lemma validate_component_ok v :
  forall d s s', validate_ui_component v d s = Ok s' ->
    adds (component_count v) (component_text v) s s' /\
    forall d' w, component_at v d d' w -> d' <= UI_MAX_DEPTH /\ component_ok w.
Proof.
  induction v as [v IH] using Value_deep_ind. intros d s s'.
  destruct v as [| | | | |object]; simpl; destruct (UI_MAX_DEPTH <? d) eqn:Hd; try done.
  destruct (component_type object) as [t|e] eqn:Ht; [|done]. apply component_type_ok in Ht as [Ht Hk].
  match goal with |- context [validate_ui_component_props t ?p ?s0] =>
    destruct (validate_ui_component_props t p s0) as [s1|e] eqn:Hp; [|done] end.
  apply validate_props_ok in Hp as [Hadds Hprops].
  assert (component_ok (VObject object)) as Hok by (do 2 eexists; eauto).
  assert (adds 1 (props_text object) s s1) as H1 by (unfold adds in *; simpl in Hadds; lia).
  rewrite !obj_get_with_spec.
  destruct (obj_get object "children") as [[| | | |items|]|] eqn:Hc; try done; intros Hr.
  - apply (try_fold_adds _ (fun child => forall d' w, component_at child (d + 1) d' w ->
      d' <= UI_MAX_DEPTH /\ component_ok w) component_count component_text items) in Hr
      as [Hall Hitems]; cycle 1.
    { intros x s2 s3 Hx Hv. apply IH in Hv as [? ?]; [done|].
      apply (t_trans _ _ _ (VArray items)); apply t_step; [by constructor; apply list_elem_of_In|].
      apply obj_get_In in Hc. by apply (child_field "children"). }
    split; [exact (adds_trans _ _ _ _ _ _ _ H1 Hitems)|].
    intros d' w Hw. inversion Hw as [|? items' child ? ? ? Hc' Hin Hbelow]; subst; [split; [lia|done]|].
    rewrite Hc in Hc'. injection Hc' as <-. rewrite Forall_forall in Hall. eauto.
  - injection Hr as <-. rewrite !Z.add_0_r. split; [done|].
    intros d' w Hw. inversion Hw as [|? items' child ? ? ? Hc' Hin Hbelow]; subst; [split; [lia|done]|].
    congruence.
Qed.

(** The texts a client shows or follows: every string of the payload but the
    values of structural identifiers; and the fields of all objects. *)
Inductive shows : Value -> string -> Prop :=
| shows_text s : shows (VString s) s
| shows_item items v s : v ∈ items -> shows v s -> shows (VArray items) s
| shows_field object key v s :
    (key, v) ∈ object -> ui_structural_identifier_key key && is_string v = false ->
    shows v s -> shows (VObject object) s.
Inductive has_field : Value -> string -> Value -> Prop :=
| has_field_here object key v : (key, v) ∈ object -> has_field (VObject object) key v
| has_field_item items w key v : w ∈ items -> has_field w key v -> has_field (VArray items) key v
| has_field_deep object k w key v : (k, w) ∈ object -> has_field w key v ->
    has_field (VObject object) key v.

Lemma has_field_not_string s key v : ~ has_field (VString s) key v.
Proof. by inversion 1. Qed.

Definition clean (v : Value) : Prop :=
  (forall s, shows v s -> executable_text s = false /\ raw_secret_like_value s = false) /\
  (forall key s, has_field v key (VString s) -> secret_like_key key = true ->
     raw_secret_like_value s = false).

Lemma clean_string s :
  clean (VString s) <-> executable_text s = false /\ raw_secret_like_value s = false.
Proof.
  split; [intros [H _]; apply H; constructor|]. intros H. split.
  - intros s' Hs. by inversion Hs; subst.
  - intros key s' Hf. by apply has_field_not_string in Hf.
Qed.
Lemma clean_array items : clean (VArray items) <-> Forall clean items.
Proof.
  rewrite Forall_forall. split.
  - intros [H1 H2] v Hin. split; [intros s Hs; apply H1; by econstructor|].
    intros key s Hf. apply H2. by econstructor.
  - intros H. split.
    + intros s Hs. inversion Hs as [|? v ? Hin Hv|]; subst. by apply (H v Hin).
    + intros key s Hf. inversion Hf as [|? w ? ? Hin Hw|]; subst. by apply (H w Hin).
Qed.
Lemma clean_object object :
  clean (VObject object) <->
  forall key v, (key, v) ∈ object ->
    (forall s, v = VString s -> secret_like_key key = true -> raw_secret_like_value s = false) /\
    (ui_structural_identifier_key key && is_string v = false -> clean v).
Proof.
  split.
  - intros [H1 H2] key v Hin. split; [intros s ->; apply H2; by constructor|]. intros Hkey.
    split; [intros s Hs; apply H1; by econstructor|].
    intros k s Hf. apply H2. by eapply has_field_deep.
  - intros H. split.
    + intros s Hs. inversion Hs as [| |? key v ? Hin Hkey Hv]; subst.
      by apply (proj1 (proj2 (H key v Hin) Hkey)).
    + intros key s Hf. inversion Hf as [? ? ? Hin| |? k w ? ? Hin Hw]; subst;
        [exact (proj1 (H _ _ Hin) s eq_refl)|].
      destruct (ui_structural_identifier_key k && is_string w) eqn:Hkey.
      * apply andb_true_iff in Hkey as [_ Hs]. destruct w; try done. by apply has_field_not_string in Hw.
      * by apply (proj2 (proj2 (H k w Hin) Hkey)).
Qed.

(** The scan accepts a value exactly when nothing it shows is executable or a raw
    secret and no field with a secret-like name holds a raw secret. *)
Lemma scan_iff v : forall path, scan_ui_value_for_forbidden_content v path = Ok tt <-> clean v.
Proof.
  induction v as [|b|n|s|items IH|object IH] using Value_ind'; intros path; simpl.
  1-3: by split; [intros _; split; [intros ? Hs|intros ? ? Hs]; inversion Hs|].
  - rewrite clean_string. destruct (executable_text s); [by split; [|intros []]|].
    destruct (raw_secret_like_value s); [by split; [|intros []]|]. done.
  - rewrite clean_array. apply try_each_indexed_ok. intros i x Hx.
    rewrite Forall_forall in IH. by apply IH.
  - rewrite try_each_ok, clean_object, Forall_forall. rewrite Forall_forall in IH.
    split; intros H.
    + intros key v Hin. specialize (IH _ Hin). specialize (H _ Hin). simpl in *.
      destruct (secret_like_key key && _) eqn:Hk in H; [done|]. split.
      * intros s -> Hkey. by rewrite Hkey in Hk.
      * intros Hkey. rewrite Hkey in H. by apply IH in H.
    + intros [key v] Hin. specialize (IH _ Hin). destruct (H key v Hin) as [Hs Hc]. simpl in *.
      destruct (secret_like_key key && _) eqn:Hk.
      * apply andb_true_iff in Hk as [Hkey Hv]. destruct v; try done.
        simpl in Hv. by rewrite (Hs _ eq_refl Hkey) in Hv.
      * destruct (ui_structural_identifier_key key && is_string v) eqn:Hi; [done|]. by apply IH, Hc.
Qed.

(** Actions have distinct ids. *)
Definition action_id (action : Value) : option string := vget action "actionId" ≫= as_str.

Section accepted.
  Variable debug : string -> string.
  Variable json_len : Value -> Z.
  Variable rfc3339_error : string -> option string.

Lemma validate_actions_ids actions ids ids' :
  try_fold (validate_ui_action debug rfc3339_error) actions ids = Ok ids' ->
  NoDup ids -> NoDup ids' /\ exists new, ids' = ids ++ new /\ map Some new = map action_id actions.
Proof.
  revert ids. induction actions as [|action actions IH]; intros ids; simpl.
  - intros [= <-] Hnd. split; [done|]. exists []. by rewrite app_nil_r.
  - destruct (validate_ui_action _ _ action ids) as [ids1|e] eqn:Ha; [|done]. intros Hr Hnd.
    unfold validate_ui_action in Ha. destruct action as [| | | | |object]; try done.
    cbn [as_object] in Ha. destruct (try_each _ _) as [[]|e] eqn:He; [|done].
    destruct (str_in ids _) eqn:Hd; [done|]. apply seq_ok in Ha as [_ Ha].
    destruct (obj_get object "inputSchema"); [|done]. apply seq_ok in Ha as [_ [= <-]].
    apply try_each_ok in He. apply Forall_cons in He as [Hid _].
    unfold ensure_non_empty_object_string in Hid.
    destruct (obj_get object "actionId" ≫= as_str) as [id|] eqn:Hobj; [|done]. simpl in *.
    destruct (IH (ids ++ [id]) Hr) as [Hnd' (new & -> & Hnew)].
    { apply NoDup_app. split; [done|]. split; [|apply NoDup_singleton].
      intros x Hx ->%list_elem_of_singleton. apply str_in_iff in Hx. congruence. }
    split; [done|]. exists (id :: new). rewrite <- app_assoc. simpl. split; [done|].
    rewrite Hnew. f_equal. unfold action_id. simpl. done.
Qed.

(** C38: A UI surface that passes validation is within the byte limit; no string in it at
    any depth is executable or local-file text or a raw secret, except that strings directly
    under the structural identifier keys (id, resourceId, versionId, actionId, contentHash
    and the others that the scan skips) are exempt, and no string under a secret-like key is
    a raw secret; its layout has only components of known types with only the props allowed
    for the type and bounded table rows, nested no deeper than UI_MAX_DEPTH, with component
    count, text bytes and actions within their limits and action ids distinct. *)
Theorem accepted_surface_is_bounded_and_clean payload :
  validate_ui_surface_payload debug json_len rfc3339_error payload = Ok tt ->
  json_len payload <= UI_MAX_PAYLOAD_BYTES /\ clean payload /\
  exists layout actions ids,
    vget payload "layout" = Some layout /\ vget payload "actions" = Some (VArray actions) /\
    (forall d w, component_at layout 1 d w -> d <= UI_MAX_DEPTH /\ component_ok w) /\
    component_count layout <= UI_MAX_COMPONENTS /\ component_text layout <= UI_MAX_TEXT_BYTES /\
    Z.of_nat (List.length actions) <= UI_MAX_ACTIONS /\ map action_id actions = map Some ids /\ NoDup ids.
Proof.
  unfold validate_ui_surface_payload. destruct (_ <? json_len payload) eqn:Hlen; [done|].
  intros Hv. repeat (apply seq_ok in Hv as [_ Hv]).
  destruct (vget payload "layout") as [layout|] eqn:Hl; [|done].
  destruct (validate_ui_component layout 1 stats_default) as [stats|e] eqn:Hc; [|done].
  apply validate_component_ok in Hc as [(Ht & Hcount & Htext) Hat].
  destruct (UI_MAX_COMPONENTS <? _) eqn:E1; [done|].
  destruct (UI_MAX_TEXT_BYTES <? _) eqn:E2; [done|].
  apply seq_ok in Hv as [Ha Hs]. apply scan_iff in Hs.
  unfold validate_ui_actions in Ha.
  destruct (vget payload "actions") as [[| | | |actions|]|] eqn:Hact; try done. cbn [as_array mbind option_bind] in Ha.
  destruct (UI_MAX_ACTIONS <? _) eqn:E3; [done|].
  destruct (try_fold _ actions []) as [ids|e] eqn:Hf; [|done].
  destruct (validate_actions_ids _ _ _ Hf ltac:(constructor)) as [Hnd (new & -> & Hnew)].
  split; [lia|]. split; [done|]. exists layout, actions, new.
  simpl in Hcount, Htext. rewrite Htext in E2 by (unfold u64_max; lia).
  split_and!; try done; try lia. unfold u64_max, UI_MAX_TEXT_BYTES in *. lia.
Qed.
End accepted.

(** ** Samples *)

Definition sample_surface : Value :=
  j{"surfaceId" ~> "s1"; "title" ~> "Build"; "purpose" ~> "status"; "schemaVersion" ~> 1;
    "expiresAt" ~> "2026-01-01T00:00:00Z";
    "layout" ~> j{"type" ~> "Section"; "props" ~> j{"title" ~> "Result"};
                  "children" ~> j[j{"type" ~> "Text"; "props" ~> j{"text" ~> "all tests pass"} }] };
    "actions" ~> j[j{"actionId" ~> "rerun"; "label" ~> "Run again";
                     "expiresAt" ~> "2026-01-01T00:00:00Z"; "inputSchema" ~> j{"type" ~> "object"} }] }.

Lemma accepted_surface_is_bounded_and_clean_witness :
  clean sample_surface /\ component_count (default Null (vget sample_surface "layout")) <= UI_MAX_COMPONENTS.
Proof.
  destruct (accepted_surface_is_bounded_and_clean (fun s => s) (fun _ => 500) (fun _ => None)
    sample_surface ltac:(vm_compute; reflexivity)) as (_ & Hc & layout & _ & _ & Hl & _ & _ & Hn & _).
  split; [exact Hc|]. rewrite Hl. exact Hn.
Defined.

(** A script link in a label, and a key in a field named after it, are refused. *)
Example script_refused :
  scan_ui_value_for_forbidden_content (j{"label" ~> "JavaScript:run()"}) "$" =
    Err (PolicyViolation "ui_surface contains executable or local-file content at $.label").
Proof. reflexivity. Qed.
Example secret_refused :
  scan_ui_value_for_forbidden_content (j{"api_key" ~> "sk-live"}) "$" =
    Err (PolicyViolation "ui_surface stores secret-like value at $.api_key; use secret_ref").
Proof. reflexivity. Qed.
