(* ===== verification/Resources.v ===== *)
(** * Resources

    [durability/resources]: typed, versioned objects.  A kind is registered with a
    schema, its lifecycle states and the link relations it allows; a resource of a
    kind has immutable versions, one of which may be current; an update names the
    version it was based on.  Links and events record how resources relate and what
    happened to them.

    The in-memory store ([store/memory.rs]) and the SQLite store ([store/mod.rs])
    are both here.  An operation reads the clock once, and its [uuid] gives the
    UUIDs it generates, in order.  JSON columns hold values; the scope of a resource
    is kept, as in the table, in two text columns.  The queries of the SQLite store
    that leave the order of ties to the database are not modelled. *)

From stdpp Require Import base gmap strings list pretty sorting relations.
From Stdlib Require Import ZArith Ascii String Lia.
From S2P Require Import Prelude Sorting Json Kernel Schema UiSurface.
Import JsonNotations.

#[local] Open Scope Z_scope.

(** ** Data *)

(* SRC engine/durability/resources/types.rs:232-242 EngineResourceScope *)
Inductive EngineResourceScope : Type :=
| ResScope_System | ResScope_Workspace (id : string) | ResScope_Session (id : string).
#[global] Instance EngineResourceScope_eq_dec : EqDecision EngineResourceScope.
Proof. solve_decision. Defined.

(* SRC engine/durability/resources/types.rs:245-253 EngineResourceScope::kind *)
Definition scope_kind (s : EngineResourceScope) : string :=
  match s with
  | ResScope_System => "system" | ResScope_Workspace _ => "workspace" | ResScope_Session _ => "session"
  end.
(* SRC engine/durability/resources/types.rs:255-262 EngineResourceScope::value *)
Definition scope_value (s : EngineResourceScope) : string :=
  match s with ResScope_System => "system" | ResScope_Workspace v | ResScope_Session v => v end.
(* SRC engine/durability/resources/types.rs:264-274 EngineResourceScope::parse *)
Definition scope_parse (kind value : string) : Result EngineResourceScope :=
  if (kind =s "system") && (value =s "system") then Ok ResScope_System
  else if (kind =s "workspace") && negb (is_blank value) then Ok (ResScope_Workspace value)
  else if (kind =s "session") && negb (is_blank value) then Ok (ResScope_Session value)
  else Err (LedgerFailure "resource.scope" ("invalid resource scope " +s kind +s ":" +s value)).

(* SRC engine/durability/resources/types.rs:277-285 EngineResourceVersioningMode *)
Inductive EngineResourceVersioningMode : Type := AppendOnly | CurrentPointer.
#[global] Instance EngineResourceVersioningMode_eq_dec : EqDecision EngineResourceVersioningMode.
Proof. solve_decision. Defined.
(* SRC engine/durability/resources/types.rs:288-293 EngineResourceVersioningMode::as_str *)
Definition versioning_as_str (m : EngineResourceVersioningMode) : string :=
  match m with AppendOnly => "append_only" | CurrentPointer => "current_pointer" end.
(* SRC engine/durability/resources/types.rs:295-304 EngineResourceVersioningMode::parse *)
Definition versioning_parse (s : string) : Result EngineResourceVersioningMode :=
  if s =s "append_only" then Ok AppendOnly
  else if s =s "current_pointer" then Ok CurrentPointer
  else Err (LedgerFailure "resource.versioning_mode" ("unsupported resource versioning mode " +s s)).

(* SRC engine/durability/resources/types.rs:307-320 EngineResourceVersionState *)
Inductive EngineResourceVersionState : Type := Available | Quarantined | Damaged | Discarded.
#[global] Instance EngineResourceVersionState_eq_dec : EqDecision EngineResourceVersionState.
Proof. solve_decision. Defined.
(* SRC engine/durability/resources/types.rs:323-330 EngineResourceVersionState::as_str *)
Definition version_state_as_str (s : EngineResourceVersionState) : string :=
  match s with
  | Available => "available" | Quarantined => "quarantined" | Damaged => "damaged"
  | Discarded => "discarded"
  end.
(* SRC engine/durability/resources/types.rs:332-343 EngineResourceVersionState::parse *)
Definition version_state_parse (s : string) : Result EngineResourceVersionState :=
  if s =s "available" then Ok Available
  else if s =s "quarantined" then Ok Quarantined
  else if s =s "damaged" then Ok Damaged
  else if s =s "discarded" then Ok Discarded
  else Err (LedgerFailure "resource.version_state" ("unsupported resource version state " +s s)).
(* SRC engine/durability/resources/types.rs:345-347 EngineResourceVersionState::may_be_current *)
Definition may_be_current (s : EngineResourceVersionState) : bool :=
  match s with Available => true | _ => false end.

(* SRC engine/durability/resources/types.rs:350-382 EngineResourceTypeDefinition *)
Record EngineResourceTypeDefinition := {
  ty_kind : string;
  ty_schema_id : string;
  ty_schema : Value;
  ty_lifecycle_states : list string;
  ty_versioning_mode : EngineResourceVersioningMode;
  ty_allowed_link_relations : list string;
  ty_default_retention : Value;
  ty_redaction_rules : Value;
  ty_materialization_rules : Value;
  ty_required_capabilities : Value;
  ty_owner_worker_id : WorkerId;
  ty_revision : Z;
  ty_created_at : instant;
  ty_updated_at : instant
}.

(* SRC engine/durability/resources/types.rs:384-414 EngineResource *)
Record EngineResource := {
  res_id : string;
  res_kind : string;
  res_schema_id : string;
  res_scope : EngineResourceScope;
  res_owner_worker_id : WorkerId;
  res_owner_actor_id : ActorId;
  res_lifecycle : string;
  res_policy : Value;
  res_current_version_id : option string;
  res_trace_id : TraceId;
  res_created_by_invocation_id : option InvocationId;
  res_created_at : instant;
  res_updated_at : instant
}.

(* SRC engine/durability/resources/types.rs:442-454 EngineResourceLocation *)
Record EngineResourceLocation := {
  loc_kind : string;
  loc_uri : string;
  loc_mime_type : option string;
  loc_size_bytes : option Z
}.

(* SRC engine/durability/resources/types.rs:416-440 EngineResourceVersion *)
Record EngineResourceVersion := {
  ver_id : string;
  ver_resource_id : string;
  ver_parent_version_id : option string;
  ver_content_hash : string;
  ver_state : EngineResourceVersionState;
  ver_payload : Value;
  ver_locations : list EngineResourceLocation;
  ver_created_by_invocation_id : option InvocationId;
  ver_trace_id : TraceId;
  ver_created_at : instant
}.

(* SRC engine/durability/resources/types.rs:456-476 EngineResourceLink *)
Record EngineResourceLink := {
  lnk_id : string;
  lnk_source_resource_id : string;
  lnk_target_resource_id : string;
  lnk_relation : string;
  lnk_metadata : Value;
  lnk_created_by_invocation_id : option InvocationId;
  lnk_trace_id : TraceId;
  lnk_created_at : instant
}.

(* SRC engine/durability/resources/types.rs:478-496 EngineResourceEvent *)
Record EngineResourceEvent := {
  rev_id : string;
  rev_resource_id : string;
  rev_type : string;
  rev_payload : Value;
  rev_invocation_id : option InvocationId;
  rev_trace_id : TraceId;
  rev_occurred_at : instant
}.

(* SRC engine/durability/resources/types.rs:498-523 RegisterResourceType *)
Record RegisterResourceType := {
  rt_kind : string;
  rt_schema_id : string;
  rt_schema : Value;
  rt_lifecycle_states : list string;
  rt_versioning_mode : EngineResourceVersioningMode;
  rt_allowed_link_relations : list string;
  rt_default_retention : Value;
  rt_redaction_rules : Value;
  rt_materialization_rules : Value;
  rt_required_capabilities : Value;
  rt_owner_worker_id : WorkerId
}.

(* SRC engine/durability/resources/types.rs:525-552 CreateResource *)
Record CreateResource := {
  nr_resource_id : option string;
  nr_kind : string;
  nr_schema_id : option string;
  nr_scope : EngineResourceScope;
  nr_owner_worker_id : WorkerId;
  nr_owner_actor_id : ActorId;
  nr_lifecycle : option string;
  nr_policy : Value;
  nr_initial_payload : option Value;
  nr_locations : list EngineResourceLocation;
  nr_trace_id : TraceId;
  nr_invocation_id : option InvocationId
}.

(* SRC engine/durability/resources/types.rs:554-573 UpdateResource *)
Record UpdateResource := {
  up_resource_id : string;
  up_expected_current_version_id : option string;
  up_lifecycle : option string;
  up_payload : Value;
  up_state : option EngineResourceVersionState;
  up_locations : list EngineResourceLocation;
  up_trace_id : TraceId;
  up_invocation_id : option InvocationId
}.

(* SRC engine/durability/resources/types.rs:575-590 LinkResources *)
Record LinkResources := {
  li_source_resource_id : string;
  li_target_resource_id : string;
  li_relation : string;
  li_metadata : Value;
  li_trace_id : TraceId;
  li_invocation_id : option InvocationId
}.

(* SRC engine/durability/resources/types.rs:592-603 ListResources *)
Record ListResources := {
  lf_kind : option string;
  lf_scope : option EngineResourceScope;
  lf_lifecycle : option string;
  lf_limit : Z
}.

(* SRC engine/durability/resources/types.rs:605-619 EngineResourceInspection *)
Record EngineResourceInspection := {
  ri_resource : EngineResource;
  ri_versions : list EngineResourceVersion;
  ri_outgoing_links : list EngineResourceLink;
  ri_incoming_links : list EngineResourceLink;
  ri_events : list EngineResourceEvent
}.

(* SRC engine/durability/resources/types.rs:10-11 UI_SURFACE_KIND *)
Definition UI_SURFACE_KIND : string := "ui_surface".

(** ** Validation *)

Section resources.
  Variable debug : string -> string.
  Variable json_len : Value -> Z.
  Variable rfc3339_error : string -> option string.
  Variable json_text : Value -> string.
  Variable sha256_hex : string -> string.

(* SRC engine/durability/resources/validation.rs:91-103 validate_token *)
Definition validate_token (label value : string) : Result unit :=
  if is_blank value || (256 <? Z.of_nat (String.length value))
     || negb (all_chars (fun a => is_ascii_alphanumeric a || (code a =? 95) || (code a =? 45)
                                  || (code a =? 58) || (code a =? 46) || (code a =? 47)) value)
  then policy ("invalid " +s label +s " " +s debug value)
  else Ok tt.

(** [if let Some(x) = o { check(x)?; }] *)
Definition when_some {A} (o : option A) (check : A -> Result unit) : Result unit :=
  match o with Some x => check x | None => Ok tt end.

(* SRC engine/durability/resources/validation.rs:14-31 validate_type_request *)
Definition validate_type_request (r : RegisterResourceType) : Result unit :=
  let? _ := validate_token "resource kind" (rt_kind r) in
  let? _ := validate_token "schema id" (rt_schema_id r) in
  match rt_lifecycle_states r with
  | [] => policy ("resource kind " +s rt_kind r +s " must declare lifecycle states")
  | _ =>
      let? _ := try_each (validate_token "lifecycle state") (rt_lifecycle_states r) in
      let? _ := try_each (validate_token "link relation") (rt_allowed_link_relations r) in
      validate_schema_definition debug resource_function_id "resource" (rt_schema r)
  end.

(* SRC engine/durability/resources/validation.rs:79-89 validate_locations *)
Definition validate_locations (locations : list EngineResourceLocation) : Result unit :=
  try_each (fun l =>
    let? _ := validate_token "location kind" (loc_kind l) in
    if is_blank (loc_uri l) then policy "resource location uri must not be empty" else Ok tt)
    locations.

(* SRC engine/durability/resources/validation.rs:33-45 validate_create_request *)
Definition validate_create_request (r : CreateResource) : Result unit :=
  let? _ := validate_token "resource kind" (nr_kind r) in
  let? _ := when_some (nr_resource_id r) (validate_token "resource id") in
  let? _ := when_some (nr_schema_id r) (validate_token "schema id") in
  let? _ := when_some (nr_lifecycle r) (validate_token "lifecycle state") in
  validate_locations (nr_locations r).

(* SRC engine/durability/resources/validation.rs:47-56 validate_update_request *)
Definition validate_update_request (r : UpdateResource) : Result unit :=
  let? _ := validate_token "resource id" (up_resource_id r) in
  let? _ := when_some (up_expected_current_version_id r) (validate_token "version id") in
  let? _ := when_some (up_lifecycle r) (validate_token "lifecycle state") in
  validate_locations (up_locations r).

(* SRC engine/durability/resources/validation.rs:58-62 validate_link_request *)
Definition validate_link_request (r : LinkResources) : Result unit :=
  let? _ := validate_token "source resource id" (li_source_resource_id r) in
  let? _ := validate_token "target resource id" (li_target_resource_id r) in
  validate_token "link relation" (li_relation r).

(* SRC engine/durability/resources/validation.rs:64-77 validate_list_filter *)
Definition validate_list_filter (f : ListResources) : Result unit :=
  if lf_limit f =? 0 then policy "resource list limit must be greater than zero"
  else
  let? _ := when_some (lf_kind f) (validate_token "resource kind") in
  when_some (lf_lifecycle f) (validate_token "lifecycle state").

(* SRC engine/durability/resources/validation.rs:105-121 ensure_lifecycle *)
Definition ensure_lifecycle (d : EngineResourceTypeDefinition) (lifecycle : string) : Result unit :=
  if str_in (ty_lifecycle_states d) lifecycle then Ok tt
  else policy ("resource kind " +s ty_kind d +s " does not allow lifecycle " +s lifecycle).

(* SRC engine/durability/resources/validation.rs:123-139 ensure_relation *)
Definition ensure_relation (d : EngineResourceTypeDefinition) (relation : string) : Result unit :=
  if existsb (fun allowed => (allowed =s "*") || (allowed =s relation)) (ty_allowed_link_relations d)
  then Ok tt
  else policy ("resource kind " +s ty_kind d +s " does not allow relation " +s relation).

(* SRC engine/durability/resources/validation.rs:141-155 validate_resource_payload *)
Definition validate_resource_payload (d : EngineResourceTypeDefinition) (payload : Value)
  : Result unit :=
  let? _ := validate_payload debug resource_function_id "resource_payload" (ty_schema d) payload in
  if ty_kind d =s UI_SURFACE_KIND
  then validate_ui_surface_payload debug json_len rfc3339_error payload else Ok tt.

(** [serde_json::to_vec] of a value cannot fail. *)
(* SRC engine/durability/resources/versions.rs:8-16 payload_hash *)
Definition payload_hash (payload : Value) : string := sha256_hex (json_text payload).

(* SRC engine/durability/resources/store/mod.rs:51-53 generated_id *)
Definition generated_id (prefix uuid : string) : string := prefix +s "_" +s uuid.

(* SRC engine/durability/resources/definitions.rs:700-722 type_definition_from_request *)
Definition type_definition_from_request (r : RegisterResourceType) (revision : Z)
    (created_at updated_at : instant) : EngineResourceTypeDefinition :=
  {| ty_kind := rt_kind r; ty_schema_id := rt_schema_id r; ty_schema := rt_schema r;
     ty_lifecycle_states := rt_lifecycle_states r; ty_versioning_mode := rt_versioning_mode r;
     ty_allowed_link_relations := rt_allowed_link_relations r;
     ty_default_retention := rt_default_retention r; ty_redaction_rules := rt_redaction_rules r;
     ty_materialization_rules := rt_materialization_rules r;
     ty_required_capabilities := rt_required_capabilities r;
     ty_owner_worker_id := rt_owner_worker_id r; ty_revision := revision;
     ty_created_at := created_at; ty_updated_at := updated_at |}.

(* SRC engine/durability/resources/store/mod.rs:33-49 resource_event *)
Definition resource_event (now : instant) (uuid resource_id event_type : string) (payload : Value)
    (invocation_id : option InvocationId) (trace_id : TraceId) : EngineResourceEvent :=
  {| rev_id := generated_id "revt" uuid; rev_resource_id := resource_id; rev_type := event_type;
     rev_payload := payload; rev_invocation_id := invocation_id; rev_trace_id := trace_id;
     rev_occurred_at := now |}.

(** ** Steps both stores take *)

(** The definition a registration writes over [existing]. *)
(* SRC engine/durability/resources/store/memory.rs:43-52! InMemoryEngineResourceStore::register_type *)
Definition next_type_definition (now : instant) (r : RegisterResourceType)
    (existing : option EngineResourceTypeDefinition) : EngineResourceTypeDefinition :=
  let revision := match existing with
                  | Some d => saturating_add_u64 (ty_revision d) 1
                  | None => 1
                  end in
  let created_at := match existing with Some d => ty_created_at d | None => now end in
  type_definition_from_request r revision created_at now.

(** A registered kind has a first lifecycle state. *)
(* SRC engine/durability/resources/store/memory.rs:68-82! InMemoryEngineResourceStore::create *)
Definition creation_defaults (r : CreateResource) (d : EngineResourceTypeDefinition)
  : Result (string * string) :=
  let lifecycle := default (default "" (head (ty_lifecycle_states d))) (nr_lifecycle r) in
  let? _ := ensure_lifecycle d lifecycle in
  let schema_id := default (ty_schema_id d) (nr_schema_id r) in
  if negb (schema_id =s ty_schema_id d)
  then policy ("resource kind " +s nr_kind r +s " requires schema " +s ty_schema_id d)
  else Ok (lifecycle, schema_id).

(* SRC engine/durability/resources/store/memory.rs:96-110! InMemoryEngineResourceStore::create *)
Definition new_resource (now : instant) (r : CreateResource) (resource_id lifecycle schema_id : string)
  : EngineResource :=
  {| res_id := resource_id; res_kind := nr_kind r; res_schema_id := schema_id;
     res_scope := nr_scope r; res_owner_worker_id := nr_owner_worker_id r;
     res_owner_actor_id := nr_owner_actor_id r; res_lifecycle := lifecycle;
     res_policy := nr_policy r; res_current_version_id := None; res_trace_id := nr_trace_id r;
     res_created_by_invocation_id := nr_invocation_id r; res_created_at := now;
     res_updated_at := now |}.

(** Assignments to the fields of a resource. *)
Definition set_pointer (current : option string) (lifecycle : string) (updated : instant)
    (r : EngineResource) : EngineResource :=
  {| res_id := res_id r; res_kind := res_kind r; res_schema_id := res_schema_id r;
     res_scope := res_scope r; res_owner_worker_id := res_owner_worker_id r;
     res_owner_actor_id := res_owner_actor_id r; res_lifecycle := lifecycle;
     res_policy := res_policy r; res_current_version_id := current;
     res_trace_id := res_trace_id r;
     res_created_by_invocation_id := res_created_by_invocation_id r;
     res_created_at := res_created_at r; res_updated_at := updated |}.

(** What [append_version_inner] is given. *)
(* SRC engine/durability/resources/store/memory.rs:328-335! InMemoryEngineResourceStore::append_version_inner *)
Record NewVersion := {
  nv_parent : option string;
  nv_lifecycle : option string;
  nv_payload : Value;
  nv_state : EngineResourceVersionState;
  nv_locations : list EngineResourceLocation;
  nv_trace_id : TraceId;
  nv_invocation_id : option InvocationId
}.

(* SRC engine/durability/resources/store/memory.rs:338-349! InMemoryEngineResourceStore::append_version_inner *)
Definition version_of (now : instant) (uuid resource_id : string) (v : NewVersion)
  : EngineResourceVersion :=
  {| ver_id := generated_id "ver" uuid; ver_resource_id := resource_id;
     ver_parent_version_id := nv_parent v; ver_content_hash := payload_hash (nv_payload v);
     ver_state := nv_state v; ver_payload := nv_payload v; ver_locations := nv_locations v;
     ver_created_by_invocation_id := nv_invocation_id v; ver_trace_id := nv_trace_id v;
     ver_created_at := now |}.

(* SRC engine/durability/resources/store/memory.rs:356-362! InMemoryEngineResourceStore::append_version_inner *)
Definition advance (now : instant) (version : EngineResourceVersion) (lifecycle : option string)
    (r : EngineResource) : EngineResource :=
  set_pointer (if may_be_current (ver_state version) then Some (ver_id version)
               else res_current_version_id r)
    (default (res_lifecycle r) lifecycle) now r.

(* SRC engine/durability/resources/store/memory.rs:364-374! InMemoryEngineResourceStore::append_version_inner *)
Definition version_event (now : instant) (uuid : string) (version : EngineResourceVersion)
  : EngineResourceEvent :=
  resource_event now uuid (ver_resource_id version) "resource.version.created"
    (j{"versionId" ~> ver_id version; "contentHash" ~> ver_content_hash version;
       "state" ~> version_state_as_str (ver_state version)})
    (ver_created_by_invocation_id version) (ver_trace_id version).

(* SRC engine/durability/resources/store/memory.rs:112-118! InMemoryEngineResourceStore::create *)
Definition created_event (now : instant) (uuid : string) (r : EngineResource) : EngineResourceEvent :=
  resource_event now uuid (res_id r) "resource.created"
    (j{"kind" ~> res_kind r; "lifecycle" ~> res_lifecycle r})
    (res_created_by_invocation_id r) (res_trace_id r).

(* SRC engine/durability/resources/store/memory.rs:173-182! InMemoryEngineResourceStore::link *)
Definition link_of (now : instant) (uuid : string) (r : LinkResources) : EngineResourceLink :=
  {| lnk_id := generated_id "link" uuid; lnk_source_resource_id := li_source_resource_id r;
     lnk_target_resource_id := li_target_resource_id r; lnk_relation := li_relation r;
     lnk_metadata := li_metadata r; lnk_created_by_invocation_id := li_invocation_id r;
     lnk_trace_id := li_trace_id r; lnk_created_at := now |}.

(* SRC engine/durability/resources/store/memory.rs:184-193! InMemoryEngineResourceStore::link *)
Definition linked_event (now : instant) (uuid : string) (l : EngineResourceLink)
  : EngineResourceEvent :=
  resource_event now uuid (lnk_source_resource_id l) "resource.linked"
    (j{"targetResourceId" ~> lnk_target_resource_id l; "relation" ~> lnk_relation l})
    (lnk_created_by_invocation_id l) (lnk_trace_id l).

(** [Option<String>] in a debug rendering. *)
Definition debug_option (o : option string) : string :=
  match o with Some s => "Some(" +s debug s +s ")" | None => "None" end.

(** The checks of an update against the resource and its definition. *)
(* SRC engine/durability/resources/store/memory.rs:142-153! InMemoryEngineResourceStore::update *)
Definition check_update (r : UpdateResource) (resource : EngineResource)
    (d : EngineResourceTypeDefinition) : Result unit :=
  let? _ := when_some (up_lifecycle r) (ensure_lifecycle d) in
  if negb (bool_decide (res_current_version_id resource = up_expected_current_version_id r))
  then policy ("resource " +s up_resource_id r +s " version conflict: expected "
         +s debug_option (up_expected_current_version_id r) +s ", actual "
         +s debug_option (res_current_version_id resource))
  else validate_resource_payload d (up_payload r).

(** ** The in-memory store *)

(* SRC engine/durability/resources/store/memory.rs:19-28 InMemoryEngineResourceStore *)
Record ResourceMemory := {
  rm_types : gmap string EngineResourceTypeDefinition;
  rm_resources : gmap string EngineResource;
  rm_versions : gmap string EngineResourceVersion;
  rm_versions_by_resource : gmap string (list string);
  rm_links : gmap string EngineResourceLink;
  rm_events_by_resource : gmap string (list EngineResourceEvent)
}.
(* SRC engine/durability/resources/store/memory.rs:31-35 InMemoryEngineResourceStore::new *)
Definition resource_memory_new : ResourceMemory :=
  {| rm_types := ∅; rm_resources := ∅; rm_versions := ∅; rm_versions_by_resource := ∅;
     rm_links := ∅; rm_events_by_resource := ∅ |}.

(** [map.entry(key).or_default().push(x)] *)
Definition push_entry {A} (key : string) (x : A) (m : gmap string (list A)) : gmap string (list A) :=
  <[key := default [] (m !! key) ++ [x]]> m.

(* SRC engine/durability/resources/store/memory.rs:395-400 InMemoryEngineResourceStore::record_event *)
Definition memory_record_event (e : EngineResourceEvent) (s : ResourceMemory) : ResourceMemory :=
  {| rm_types := rm_types s; rm_resources := rm_resources s; rm_versions := rm_versions s;
     rm_versions_by_resource := rm_versions_by_resource s; rm_links := rm_links s;
     rm_events_by_resource := push_entry (rev_resource_id e) e (rm_events_by_resource s) |}.
Definition memory_put_resource (r : EngineResource) (s : ResourceMemory) : ResourceMemory :=
  {| rm_types := rm_types s; rm_resources := <[res_id r := r]> (rm_resources s);
     rm_versions := rm_versions s; rm_versions_by_resource := rm_versions_by_resource s;
     rm_links := rm_links s; rm_events_by_resource := rm_events_by_resource s |}.
Definition memory_put_version (v : EngineResourceVersion) (s : ResourceMemory) : ResourceMemory :=
  {| rm_types := rm_types s; rm_resources := rm_resources s;
     rm_versions := <[ver_id v := v]> (rm_versions s);
     rm_versions_by_resource :=
       push_entry (ver_resource_id v) (ver_id v) (rm_versions_by_resource s);
     rm_links := rm_links s; rm_events_by_resource := rm_events_by_resource s |}.
Definition memory_put_link (l : EngineResourceLink) (s : ResourceMemory) : ResourceMemory :=
  {| rm_types := rm_types s; rm_resources := rm_resources s; rm_versions := rm_versions s;
     rm_versions_by_resource := rm_versions_by_resource s;
     rm_links := <[lnk_id l := l]> (rm_links s);
     rm_events_by_resource := rm_events_by_resource s |}.
Definition memory_put_type (d : EngineResourceTypeDefinition) (s : ResourceMemory) : ResourceMemory :=
  {| rm_types := <[ty_kind d := d]> (rm_types s); rm_resources := rm_resources s;
     rm_versions := rm_versions s; rm_versions_by_resource := rm_versions_by_resource s;
     rm_links := rm_links s; rm_events_by_resource := rm_events_by_resource s |}.

(* SRC engine/durability/resources/store/memory.rs:37-56 InMemoryEngineResourceStore::register_type *)
Definition memory_register_type (now : instant) (r : RegisterResourceType) (s : ResourceMemory)
  : Result (EngineResourceTypeDefinition * ResourceMemory) :=
  let? _ := validate_type_request r in
  let d := next_type_definition now r (rm_types s !! rt_kind r) in
  Ok (d, memory_put_type d s).

(* SRC engine/durability/resources/store/memory.rs:58-62 InMemoryEngineResourceStore::get_type *)
Definition memory_get_type (kind : string) (s : ResourceMemory)
  : Result (option EngineResourceTypeDefinition) :=
  let? _ := validate_token "resource kind" kind in
  Ok (rm_types s !! kind).

(* SRC engine/durability/resources/store/memory.rs:378-383 InMemoryEngineResourceStore::require_type *)
Definition memory_require_type (kind : string) (s : ResourceMemory)
  : Result EngineResourceTypeDefinition :=
  let? d := memory_get_type kind s in
  match d with Some d => Ok d | None => Err (NotFound "resource_type" kind) end.

(* SRC engine/durability/resources/store/memory.rs:385-393 InMemoryEngineResourceStore::require_resource *)
Definition memory_require_resource (id : string) (s : ResourceMemory) : Result EngineResource :=
  match rm_resources s !! id with Some r => Ok r | None => Err (NotFound "resource" id) end.

(* SRC engine/durability/resources/store/memory.rs:326-376 InMemoryEngineResourceStore::append_version_inner *)
Definition memory_append_version (now : instant) (version_uuid event_uuid resource_id : string)
    (v : NewVersion) (s : ResourceMemory) : Result (EngineResourceVersion * ResourceMemory) :=
  let? resource := memory_require_resource resource_id s in
  let version := version_of now version_uuid resource_id v in
  Ok (version,
      memory_record_event (version_event now event_uuid version)
        (memory_put_resource (advance now version (nv_lifecycle v) resource)
           (memory_put_version version s))).

(** The version a creation starts with. *)
Definition initial_version (r : CreateResource) (payload : Value) : NewVersion :=
  {| nv_parent := None; nv_lifecycle := None; nv_payload := payload; nv_state := Available;
     nv_locations := nr_locations r; nv_trace_id := nr_trace_id r;
     nv_invocation_id := nr_invocation_id r |}.

(* SRC engine/durability/resources/store/memory.rs:64-135 InMemoryEngineResourceStore::create *)
Definition memory_create (now : instant) (uuid : nat -> string) (r : CreateResource)
    (s : ResourceMemory) : Result (EngineResource * ResourceMemory) :=
  let? _ := validate_create_request r in
  let? d := memory_require_type (nr_kind r) s in
  let? defaults := creation_defaults r d in
  let? _ := when_some (nr_initial_payload r) (validate_resource_payload d) in
  let resource_id := default (generated_id "res" (uuid 0%nat)) (nr_resource_id r) in
  if is_some (rm_resources s !! resource_id)
  then policy ("resource " +s resource_id +s " already exists")
  else
  let resource := new_resource now r resource_id (fst defaults) (snd defaults) in
  let s := memory_record_event (created_event now (uuid 1%nat) resource)
             (memory_put_resource resource s) in
  match nr_initial_payload r with
  | None => Ok (resource, s)
  | Some payload =>
      let? appended := memory_append_version now (uuid 2%nat) (uuid 3%nat) resource_id
                         (initial_version r payload) s in
      let '(version, s) := appended in
      let resource := set_pointer (Some (ver_id version)) (res_lifecycle resource) now resource in
      Ok (resource, memory_put_resource resource s)
  end.

(** The version an update appends. *)
Definition updated_version (r : UpdateResource) (current : option string) : NewVersion :=
  {| nv_parent := current; nv_lifecycle := up_lifecycle r; nv_payload := up_payload r;
     nv_state := default Available (up_state r); nv_locations := up_locations r;
     nv_trace_id := up_trace_id r; nv_invocation_id := up_invocation_id r |}.

(* SRC engine/durability/resources/store/memory.rs:137-164 InMemoryEngineResourceStore::update *)
Definition memory_update (now : instant) (uuid : nat -> string) (r : UpdateResource)
    (s : ResourceMemory) : Result (EngineResourceVersion * ResourceMemory) :=
  let? _ := validate_update_request r in
  let? resource := memory_require_resource (up_resource_id r) s in
  let? d := memory_require_type (res_kind resource) s in
  let? _ := check_update r resource d in
  memory_append_version now (uuid 0%nat) (uuid 1%nat) (up_resource_id r)
    (updated_version r (res_current_version_id resource)) s.

(* SRC engine/durability/resources/store/memory.rs:166-195 InMemoryEngineResourceStore::link *)
Definition memory_link (now : instant) (uuid : nat -> string) (r : LinkResources)
    (s : ResourceMemory) : Result (EngineResourceLink * ResourceMemory) :=
  let? _ := validate_link_request r in
  let? source := memory_require_resource (li_source_resource_id r) s in
  let? _ := memory_require_resource (li_target_resource_id r) s in
  let? d := memory_require_type (res_kind source) s in
  let? _ := ensure_relation d (li_relation r) in
  let link := link_of now (uuid 0%nat) r in
  Ok (link, memory_record_event (linked_event now (uuid 1%nat) link) (memory_put_link link s)).

(** *** Queries *)

(** [right.key.cmp(&left.key).then_with(|| right.id.cmp(&left.id))] *)
Definition newest_first {A} (time : A -> instant) (id : A -> string) (left right : A) : bool :=
  if time right =? time left then str_leb (id right) (id left) else time right <? time left.

(* SRC engine/durability/resources/store/memory.rs:197-225 InMemoryEngineResourceStore::list_links_for_source *)
Definition memory_list_links_for_source (source relation : string) (limit : nat)
    (s : ResourceMemory) : Result (list EngineResourceLink) :=
  let? _ := validate_token "source resource id" source in
  let? _ := validate_token "link relation" relation in
  if Nat.eqb limit 0 then policy "resource link list limit must be greater than zero"
  else Ok (top_k (newest_first lnk_created_at lnk_id) limit
             (List.filter (fun l => (lnk_source_resource_id l =s source)
                                    && (lnk_relation l =s relation)) (btree_values (rm_links s)))).

(* SRC engine/durability/resources/store/memory.rs:227-261 InMemoryEngineResourceStore::inspect *)
Definition memory_inspect (id : string) (s : ResourceMemory)
  : Result (option EngineResourceInspection) :=
  let? _ := validate_token "resource id" id in
  match rm_resources s !! id with
  | None => Ok None
  | Some resource =>
      Ok (Some
        {| ri_resource := resource;
           ri_versions := omap (fun v => rm_versions s !! v)
                            (default [] (rm_versions_by_resource s !! id));
           ri_outgoing_links :=
             List.filter (fun l => lnk_source_resource_id l =s id) (btree_values (rm_links s));
           ri_incoming_links :=
             List.filter (fun l => lnk_target_resource_id l =s id) (btree_values (rm_links s));
           ri_events := default [] (rm_events_by_resource s !! id) |})
  end.

(** [filter.field.as_ref().is_none_or(|x| ..)] *)
Definition none_or {A} (o : option A) (f : A -> bool) : bool :=
  match o with Some x => f x | None => true end.

(* SRC engine/durability/resources/store/memory.rs:269-280! InMemoryEngineResourceStore::list *)
Definition matches_filter (f : ListResources) (r : EngineResource) : bool :=
  none_or (lf_kind f) (fun kind => res_kind r =s kind)
  && none_or (lf_scope f) (fun scope => bool_decide (res_scope r = scope))
  && none_or (lf_lifecycle f) (fun lifecycle => res_lifecycle r =s lifecycle).

(* SRC engine/durability/resources/store/memory.rs:263-292 InMemoryEngineResourceStore::list *)
Definition memory_list (f : ListResources) (s : ResourceMemory) : Result (list EngineResource) :=
  let? _ := validate_list_filter f in
  let cap := Z.to_nat (Z.min (lf_limit f) 500) in
  Ok (top_k (newest_first res_updated_at res_id) cap
        (List.filter (matches_filter f) (btree_values (rm_resources s)))).

(* SRC engine/durability/resources/store/memory.rs:294-324 InMemoryEngineResourceStore::list_internal_scan *)
Definition memory_list_internal_scan (f : ListResources) (s : ResourceMemory)
  : Result (list EngineResource) :=
  let? _ := validate_list_filter f in
  Ok (take (Z.to_nat (lf_limit f))
        (rev (stable_sort (fun a b => res_updated_at a <=? res_updated_at b)
                (List.filter (matches_filter f) (btree_values (rm_resources s)))))).
End resources.
