(* ===== verification/ResourceHistory.v ===== *)
(** * The history of resources

    What holds of every resource store that operations can reach, whatever the
    requests: the versions of a resource form one line of descent that ends at the
    current version, versions never change, links and events name resources that
    exist, and no update is ever based on a version that is no longer current. *)

From stdpp Require Import base gmap strings list pretty relations.
From Stdlib Require Import ZArith Ascii String Lia.
From S2P Require Import Prelude Sorting Json Kernel Schema UiSurface Resources.
Import JsonNotations.

#[local] Open Scope Z_scope.

(** The versions of a resource, oldest first. *)
Definition history (s : ResourceMemory) (id : string) : list EngineResourceVersion :=
  omap (fun v => rm_versions s !! v) (default [] (rm_versions_by_resource s !! id)).

(** Reading a history from the start: each version was based on the version that
    was current when it was appended. *)
Fixpoint replay (current : option string) (vs : list EngineResourceVersion)
  : option (option string) :=
  match vs with
  | [] => Some current
  | v :: vs' =>
      if bool_decide (ver_parent_version_id v = current)
      then replay (if may_be_current (ver_state v) then Some (ver_id v) else current) vs'
      else None
  end.

Lemma replay_snoc current vs v c :
  replay current vs = Some c -> ver_parent_version_id v = c ->
  replay current (vs ++ [v]) = Some (if may_be_current (ver_state v) then Some (ver_id v) else c).
Proof.
  revert current. induction vs as [|w vs IH]; intros current; simpl.
  - intros [= ->] ->. by rewrite bool_decide_true.
  - case_bool_decide; [|done]. apply IH.
Qed.

Lemma replay_current current vs c :
  replay current vs = Some (Some c) ->
  current = Some c \/ exists v, v ∈ vs /\ ver_id v = c /\ may_be_current (ver_state v) = true.
Proof.
  revert current. induction vs as [|w vs IH]; intros current; simpl; [intros [= ->]; by left|].
  case_bool_decide; [|done]. intros [Hc|(v & Hin & Hv)]%IH.
  - destruct (may_be_current (ver_state w)) eqn:Hw; [|by left]. injection Hc as <-.
    right. exists w. split; [left|done].
  - right. exists v. split; [by right|done].
Qed.

Section history.
  Variable debug : string -> string.
  Variable json_len : Value -> Z.
  Variable rfc3339_error : string -> option string.
  Variable json_text : Value -> string.
  Variable sha256_hex : string -> string.
  Notation create := (memory_create debug json_len rfc3339_error json_text sha256_hex).
  Notation update := (memory_update debug json_len rfc3339_error json_text sha256_hex).
  Notation hash := (payload_hash json_text sha256_hex).
  Notation version_of := (version_of json_text sha256_hex).
  Implicit Types (s : ResourceMemory) (r : EngineResource) (v : EngineResourceVersion).

(** UUIDs are fresh. *)
Definition fresh_ids (uuid : nat -> string) s : Prop :=
  forall n, rm_versions s !! generated_id "ver" (uuid n) = None /\
            rm_links s !! generated_id "link" (uuid n) = None.

Inductive resource_step : ResourceMemory -> ResourceMemory -> Prop :=
| step_register now t d s s' :
    memory_register_type debug now t s = Ok (d, s') -> resource_step s s'
| step_create now uuid c r s s' :
    fresh_ids uuid s -> create now uuid c s = Ok (r, s') -> resource_step s s'
| step_update now uuid u v s s' :
    fresh_ids uuid s -> update now uuid u s = Ok (v, s') -> resource_step s s'
| step_link now uuid l k s s' :
    fresh_ids uuid s -> memory_link debug now uuid l s = Ok (k, s') -> resource_step s s'.
Definition resource_reachable : ResourceMemory -> Prop := rtc resource_step resource_memory_new.

Record resources_wf s : Prop := {
  wf_type : map_Forall (fun k d => ty_kind d = k /\ ty_lifecycle_states d <> []) (rm_types s);
  wf_resource : map_Forall (fun k r => res_id r = k /\ is_Some (rm_types s !! res_kind r) /\
    replay None (history s k) = Some (res_current_version_id r)) (rm_resources s);
  wf_version : map_Forall (fun k v => ver_id v = k /\ ver_content_hash v = hash (ver_payload v) /\
    k ∈ default [] (rm_versions_by_resource s !! ver_resource_id v)) (rm_versions s);
  wf_listed : map_Forall (fun id ids => is_Some (rm_resources s !! id) /\ NoDup ids /\
    Forall (fun k => exists v, rm_versions s !! k = Some v /\ ver_resource_id v = id) ids)
    (rm_versions_by_resource s);
  wf_link : map_Forall (fun k l => lnk_id l = k /\ is_Some (rm_resources s !! lnk_source_resource_id l) /\
    is_Some (rm_resources s !! lnk_target_resource_id l)) (rm_links s);
  wf_event : map_Forall (fun id es => is_Some (rm_resources s !! id) /\
    Forall (fun e => rev_resource_id e = id) es) (rm_events_by_resource s)
}.

Lemma wf_new : resources_wf resource_memory_new.
Proof. split; apply map_Forall_empty. Qed.

(** *** The steps of operations *)

Lemma push_entry_forall {A} (P : string -> list A -> Prop) key x m :
  map_Forall P m -> P key (default [] (m !! key) ++ [x]) -> map_Forall P (push_entry key x m).
Proof. intros Hm Hk. by apply map_Forall_insert_2. Qed.

Lemma history_frame s s' id :
  rm_versions s' = rm_versions s -> rm_versions_by_resource s' = rm_versions_by_resource s ->
  history s' id = history s id.
Proof. unfold history. by intros -> ->. Qed.

Lemma wf_put_type s d :
  resources_wf s -> ty_lifecycle_states d <> [] -> resources_wf (memory_put_type d s).
Proof.
  intros [Ht Hr Hv Hl Hk He] Hd. split; try done; simpl.
  - by apply map_Forall_insert_2.
  - intros id r Hid. destruct (Hr id r Hid) as (? & [d' Hd'] & ?). split_and!; try done.
    destruct (decide (ty_kind d = res_kind r)) as [->|]; [by rewrite lookup_insert_eq|].
    by rewrite lookup_insert_ne.
Qed.

Lemma wf_record_event s e :
  resources_wf s -> is_Some (rm_resources s !! rev_resource_id e) ->
  resources_wf (memory_record_event e s).
Proof.
  intros [Ht Hr Hv Hl Hk He] Hid. split; try done; simpl.
  apply push_entry_forall; [done|]. split; [done|]. apply Forall_app. split; [|by repeat constructor].
  destruct (rm_events_by_resource s !! rev_resource_id e) eqn:E; [|constructor]. by apply (He _ _ E).
Qed.

Lemma wf_put_link s l :
  resources_wf s -> is_Some (rm_resources s !! lnk_source_resource_id l) ->
  is_Some (rm_resources s !! lnk_target_resource_id l) -> resources_wf (memory_put_link l s).
Proof. intros [Ht Hr Hv Hl Hk He] Hs Htg. split; try done; simpl. by apply map_Forall_insert_2. Qed.

Lemma insert_is_Some {A} (m : gmap string A) k x id : is_Some (m !! id) -> is_Some (<[k := x]> m !! id).
Proof. intros Hid. destruct (decide (k = id)) as [->|]; [by rewrite lookup_insert_eq|by rewrite lookup_insert_ne]. Qed.

(** A new resource without versions. *)
Lemma wf_put_new s r :
  resources_wf s -> rm_resources s !! res_id r = None -> is_Some (rm_types s !! res_kind r) ->
  res_current_version_id r = None -> resources_wf (memory_put_resource r s).
Proof.
  intros [Ht Hr Hv Hl Hk He] Hnew Hkind Hcur. split; try done; simpl.
  - apply map_Forall_insert_2; [|done]. split_and!; [done|done|]. unfold history. simpl.
    destruct (rm_versions_by_resource s !! res_id r) as [ids|] eqn:E; [|by rewrite Hcur].
    destruct (Hl _ _ E) as [[r' Hr'] _]. congruence.
  - intros id ids Hid. destruct (Hl id ids Hid) as (? & ? & ?).
    split_and!; try done. by apply insert_is_Some.
  - intros k l Hlk. destruct (Hk k l Hlk) as (? & ? & ?). split_and!; try done; by apply insert_is_Some.
  - intros id es Hes. destruct (He id es Hes) as [? ?]. split; [by apply insert_is_Some|done].
Qed.

Lemma listed_known s id k :
  resources_wf s -> k ∈ default [] (rm_versions_by_resource s !! id) ->
  exists v, rm_versions s !! k = Some v /\ ver_resource_id v = id.
Proof.
  intros Hwf Hk. destruct (rm_versions_by_resource s !! id) as [ids|] eqn:E; simpl in Hk.
  - destruct (wf_listed s Hwf id ids E) as (_ & _ & Hf). rewrite Forall_forall in Hf. by apply Hf.
  - by apply elem_of_nil in Hk.
Qed.

Lemma history_put_version s v id :
  resources_wf s -> rm_versions s !! ver_id v = None ->
  history (memory_put_version v s) id =
    history s id ++ (if decide (id = ver_resource_id v) then [v] else []).
Proof.
  intros Hwf Hnew.
  assert (omap (fun k => <[ver_id v := v]> (rm_versions s) !! k)
            (default [] (rm_versions_by_resource s !! id)) = history s id) as Hold.
  { apply list_omap_ext, Forall_Forall2_diag, Forall_forall. intros k Hk.
    apply (listed_known s id k Hwf) in Hk as (w & Hw & _). apply lookup_insert_ne. congruence. }
  unfold history at 1. simpl. unfold push_entry.
  destruct (decide (id = ver_resource_id v)) as [->|Hne].
  - rewrite lookup_insert_eq. simpl. rewrite omap_app, Hold. simpl. by rewrite lookup_insert_eq.
  - rewrite lookup_insert_ne by done. by rewrite Hold, app_nil_r.
Qed.

(** The list of versions of a resource that gets another one. *)
Lemma listed_append s v (resources : gmap string EngineResource) :
  resources_wf s -> rm_versions s !! ver_id v = None ->
  (forall id, is_Some (rm_resources s !! id) -> is_Some (resources !! id)) ->
  is_Some (resources !! ver_resource_id v) ->
  map_Forall (fun id ids => is_Some (resources !! id) /\ NoDup ids /\
    Forall (fun k => exists w, <[ver_id v := v]> (rm_versions s) !! k = Some w /\ ver_resource_id w = id) ids)
    (push_entry (ver_resource_id v) (ver_id v) (rm_versions_by_resource s)).
Proof.
  intros Hwf Hnew Hsome Hid. pose proof (wf_listed s Hwf) as Hl.
  assert (forall id, Forall (fun k => exists w, <[ver_id v := v]> (rm_versions s) !! k = Some w /\
    ver_resource_id w = id) (default [] (rm_versions_by_resource s !! id))) as Hf.
  { intros id. apply Forall_forall. intros k Hin.
    apply (listed_known s id k Hwf) in Hin as (w & Hw & Hwid). exists w.
    rewrite lookup_insert_ne by congruence. done. }
  apply push_entry_forall.
  - intros id ids Hids. destruct (Hl id ids Hids) as (? & ? & _). split_and!; [auto|done|].
    specialize (Hf id). by rewrite Hids in Hf.
  - split_and!; [done| |apply Forall_app; split; [done|]].
    + apply NoDup_app. split_and!; [| |apply NoDup_singleton].
      * destruct (rm_versions_by_resource s !! ver_resource_id v) as [ids|] eqn:E;
          [apply (Hl _ _ E)|constructor].
      * intros k Hin ->%list_elem_of_singleton.
        apply (listed_known s _ _ Hwf) in Hin as (w & Hw & _). congruence.
    + repeat constructor. exists v. by rewrite lookup_insert_eq.
Qed.

(** A version appended to the current one. *)
Lemma wf_append s id r v lifecycle now event_uuid :
  resources_wf s -> rm_resources s !! id = Some r -> rm_versions s !! ver_id v = None ->
  ver_resource_id v = id -> ver_parent_version_id v = res_current_version_id r ->
  ver_content_hash v = hash (ver_payload v) ->
  resources_wf (memory_record_event (version_event now event_uuid v)
    (memory_put_resource (advance now v lifecycle r) (memory_put_version v s))).
Proof.
  intros Hwf Hr Hnew Hid Hparent Hhash. pose proof Hwf as [Ht Hres Hv Hl Hk He].
  destruct (Hres id r Hr) as (Hrid & Hkind & Hreplay).
  apply wf_record_event; [|simpl; subst id; rewrite Hrid; by rewrite lookup_insert_eq].
  assert (forall id', history (memory_put_resource (advance now v lifecycle r) (memory_put_version v s)) id'
    = history s id' ++ (if decide (id' = id) then [v] else [])) as Hhist.
  { intros id'. rewrite <- Hid. by apply history_put_version. }
  split; try done.
  - intros id' r' Hr'. rewrite Hhist. simpl in Hr'. rewrite Hrid in Hr'.
    destruct (decide (id' = id)) as [->|Hne].
    + rewrite lookup_insert_eq in Hr'. injection Hr' as <-. split_and!; [done|done|].
      by rewrite (replay_snoc None _ _ _ Hreplay Hparent).
    + rewrite lookup_insert_ne in Hr' by done. rewrite app_nil_r. by apply Hres.
  - simpl. apply map_Forall_insert_2.
    + split_and!; try done. unfold push_entry. rewrite lookup_insert_eq. simpl.
      apply elem_of_app. right. apply list_elem_of_singleton. done.
    + intros k w Hw. destruct (Hv k w Hw) as (? & ? & Hin). split_and!; try done.
      unfold push_entry. destruct (decide (ver_resource_id v = ver_resource_id w)) as [E|].
      * rewrite E, lookup_insert_eq. simpl. apply elem_of_app. by left.
      * by rewrite lookup_insert_ne.
  - apply listed_append; try done; [intros id'; apply insert_is_Some|].
    simpl. rewrite Hid, Hrid. by rewrite lookup_insert_eq.
  - intros k l Hlk. destruct (Hk k l Hlk) as (? & ? & ?). simpl.
    split_and!; try done; by apply insert_is_Some.
  - intros id' es Hes. destruct (He id' es Hes) as [? ?]. simpl. split; [by apply insert_is_Some|done].
Qed.

(** *** Operations *)

Lemma require_type_ok kind s d : memory_require_type debug kind s = Ok d -> rm_types s !! kind = Some d.
Proof.
  unfold memory_require_type, memory_get_type. destruct (validate_token _ _ _) as [[]|]; [|done].
  simpl. destruct (rm_types s !! kind); [|done]. by intros [= ->].
Qed.
Lemma require_resource_ok id s r : memory_require_resource id s = Ok r -> rm_resources s !! id = Some r.
Proof. unfold memory_require_resource. destruct (_ !! _); [|done]. by intros [= ->]. Qed.

Lemma update_ok now uuid u v s s' :
  update now uuid u s = Ok (v, s') ->
  exists r d, rm_resources s !! up_resource_id u = Some r /\ rm_types s !! res_kind r = Some d /\
    up_expected_current_version_id u = res_current_version_id r /\
    validate_resource_payload debug json_len rfc3339_error d (up_payload u) = Ok tt /\
    v = version_of now (uuid 0%nat) (up_resource_id u) (updated_version u (res_current_version_id r)) /\
    s' = memory_record_event (version_event now (uuid 1%nat) v)
           (memory_put_resource (advance now v (up_lifecycle u) r) (memory_put_version v s)).
Proof.
  unfold memory_update. intros H. apply seq_ok in H as [_ H].
  destruct (memory_require_resource _ s) as [r|] eqn:Hr; [|done]. simpl in H.
  destruct (memory_require_type _ _ s) as [d|] eqn:Hd; [|done]. simpl in H.
  apply seq_ok in H as [Hc H]. unfold memory_append_version in H. rewrite Hr in H.
  injection H as <- <-. unfold check_update in Hc. apply seq_ok in Hc as [_ Hc].
  case_bool_decide as He; [|done]. exists r, d.
  split_and!; try done; [by apply require_resource_ok|by apply require_type_ok in Hd].
Qed.

Lemma create_ok now uuid c r s s' :
  create now uuid c s = Ok (r, s') ->
  exists d lifecycle schema,
    let r0 := new_resource now c (res_id r) lifecycle schema in
    let s1 := memory_record_event (created_event now (uuid 1%nat) r0) (memory_put_resource r0 s) in
    rm_types s !! nr_kind c = Some d /\ rm_resources s !! res_id r = None /\
    lifecycle ∈ ty_lifecycle_states d /\
    match nr_initial_payload c with
    | None => r = r0 /\ s' = s1
    | Some payload =>
        let v := version_of now (uuid 2%nat) (res_id r) (initial_version c payload) in
        validate_resource_payload debug json_len rfc3339_error d payload = Ok tt /\
        r = advance now v None r0 /\
        s' = memory_put_resource r (memory_record_event (version_event now (uuid 3%nat) v)
               (memory_put_resource r (memory_put_version v s1)))
    end.
Proof.
  unfold memory_create. intros H. apply seq_ok in H as [_ H].
  destruct (memory_require_type _ _ s) as [d|] eqn:Hd; [|done]. apply require_type_ok in Hd. simpl in H.
  destruct (creation_defaults c d) as [[lifecycle schema]|] eqn:Hdef; [|done]. simpl in H.
  apply seq_ok in H as [Hp H].
  destruct (rm_resources s !! _) eqn:Hnew; [done|]. simpl in H.
  assert (lifecycle ∈ ty_lifecycle_states d) as Hlc.
  { unfold creation_defaults, ensure_lifecycle in Hdef. apply seq_ok in Hdef as [Hl Hdef].
    destruct (negb _); [done|]. injection Hdef as <- _.
    destruct (str_in _ _) eqn:E; [|done]. by apply str_in_iff. }
  exists d, lifecycle, schema. destruct (nr_initial_payload c) as [payload|].
  - unfold memory_append_version, memory_require_resource in H. simpl in H.
    rewrite lookup_insert_eq in H. injection H as <- <-. done.
  - injection H as <- <-. done.
Qed.

Lemma link_ok now uuid l k s s' :
  memory_link debug now uuid l s = Ok (k, s') ->
  is_Some (rm_resources s !! li_source_resource_id l) /\
  is_Some (rm_resources s !! li_target_resource_id l) /\ k = link_of now (uuid 0%nat) l /\
  s' = memory_record_event (linked_event now (uuid 1%nat) k) (memory_put_link k s).
Proof.
  unfold memory_link. intros H. apply seq_ok in H as [_ H].
  destruct (memory_require_resource (li_source_resource_id l) s) as [rs|] eqn:Hs; [|done]. simpl in H.
  destruct (memory_require_resource (li_target_resource_id l) s) as [rt|] eqn:Ht; [|done]. simpl in H.
  destruct (memory_require_type _ _ s) as [d|]; [|done]. simpl in H. apply seq_ok in H as [_ [= <- <-]].
  apply require_resource_ok in Hs, Ht. by rewrite Hs, Ht.
Qed.

Lemma put_again r e s :
  memory_put_resource r (memory_record_event e (memory_put_resource r s)) =
  memory_record_event e (memory_put_resource r s).
Proof. unfold memory_put_resource, memory_record_event. simpl. by rewrite insert_insert_eq. Qed.

Lemma resource_step_wf s s' : resources_wf s -> resource_step s s' -> resources_wf s'.
Proof.
  intros Hwf Hstep. revert Hwf.
  destruct Hstep as [now t d s0 s1 H|now uuid c r s0 s1 Hf H|now uuid u v s0 s1 Hf H
    |now uuid l k s0 s1 Hf H]; intros Hwf.
  - unfold memory_register_type in H. apply seq_ok in H as [Hv [= <- <-]].
    apply wf_put_type; [done|]. unfold validate_type_request in Hv. simpl.
    repeat (apply seq_ok in Hv as [_ Hv]). by destruct (rt_lifecycle_states t).
  - apply create_ok in H as (d & lifecycle & schema & Hd & Hnew & _ & Hs).
    set (r0 := new_resource now c (res_id r) lifecycle schema) in *.
    assert (resources_wf (memory_record_event (created_event now (uuid 1%nat) r0)
      (memory_put_resource r0 s0))) as Hwf1.
    { apply wf_record_event; [|simpl; by rewrite lookup_insert_eq]. apply wf_put_new; try done. }
    destruct (nr_initial_payload c) as [payload|]; [|by destruct Hs as [_ ->]].
    destruct Hs as (_ & Hr & ->).
    rewrite put_again, Hr. apply wf_append with (res_id r); try done; [|by apply Hf].
    simpl. by rewrite lookup_insert_eq.
  - apply update_ok in H as (r & d & Hr & _ & _ & _ & -> & ->). by apply wf_append with (up_resource_id u); try apply Hf.
  - apply link_ok in H as (Hs & Ht & -> & ->).
    apply wf_record_event; [|done]. by apply wf_put_link.
Qed.

Lemma resource_reachable_wf s : resource_reachable s -> resources_wf s.
Proof.
  intros Hr. pose proof wf_new as Hwf. revert Hwf.
  induction Hr as [|x y z Hstep _ IH]; [done|]. intros Hwf. apply IH. by eapply resource_step_wf.
Qed.

(** *** What a step keeps *)

(** Kind, schema, scope, owners and origin of a resource do not change. *)
Definition same_identity r r' : Prop :=
  res_id r' = res_id r /\ res_kind r' = res_kind r /\ res_schema_id r' = res_schema_id r /\
  res_scope r' = res_scope r /\ res_owner_worker_id r' = res_owner_worker_id r /\
  res_owner_actor_id r' = res_owner_actor_id r /\ res_policy r' = res_policy r /\
  res_trace_id r' = res_trace_id r /\
  res_created_by_invocation_id r' = res_created_by_invocation_id r /\
  res_created_at r' = res_created_at r.

Definition extends s s' : Prop :=
  rm_versions s ⊆ rm_versions s' /\ (forall id, history s id `prefix_of` history s' id) /\
  (forall id r, rm_resources s !! id = Some r ->
     exists r', rm_resources s' !! id = Some r' /\ same_identity r r') /\
  (forall kind, is_Some (rm_types s !! kind) -> is_Some (rm_types s' !! kind)).

Lemma extends_refl s : extends s s.
Proof. split_and!; [done|done| |done]. intros id r Hr. exists r. by split. Qed.
Lemma extends_trans s1 s2 s3 : extends s1 s2 -> extends s2 s3 -> extends s1 s3.
Proof.
  intros (Hv & Hh & Hr & Ht) (Hv' & Hh' & Hr' & Ht'). split_and!; [by transitivity (rm_versions s2)| | |auto].
  { intros id. by transitivity (history s2 id). }
  intros id r Hid. destruct (Hr id r Hid) as (r1 & H1 & I1).
  destruct (Hr' id r1 H1) as (r2 & H2 & I2). exists r2. split; [done|].
  unfold same_identity in *. intuition congruence.
Qed.

(** The current version moves only to a version that did not exist before. *)
Definition moves s s' : Prop :=
  forall id r r', rm_resources s !! id = Some r -> rm_resources s' !! id = Some r' ->
    res_current_version_id r' = res_current_version_id r \/
    exists k, res_current_version_id r' = Some k /\ rm_versions s !! k = None.

Definition effect s s' : Prop := extends s s' /\ moves s s'.

Lemma effect_trans s1 s2 s3 : effect s1 s2 -> effect s2 s3 -> effect s1 s3.
Proof.
  intros [He Hm] [He' Hm']. split; [by eapply extends_trans|]. intros id x y Hx Hy.
  destruct He as (Hv & _ & Hres & _). destruct (Hres id x Hx) as (z & Hz & _).
  destruct (Hm' id z y Hz Hy) as [E'|(k & E' & Hk)].
  - destruct (Hm id x z Hx Hz) as [E|(k & E & Hk)]; [left; congruence|right; exists k; by rewrite E'].
  - right. exists k. split; [done|]. by eapply lookup_weaken_None.
Qed.

Lemma effect_frame s s' :
  rm_versions s' = rm_versions s -> rm_versions_by_resource s' = rm_versions_by_resource s ->
  rm_resources s' = rm_resources s ->
  (forall kind, is_Some (rm_types s !! kind) -> is_Some (rm_types s' !! kind)) -> effect s s'.
Proof.
  intros Hv Hl Hr Ht. split.
  - split_and!; [by rewrite Hv|intros id; by rewrite (history_frame s s')| |done].
    intros id r. rewrite Hr. exists r. by split.
  - intros id r r'. rewrite Hr. left. congruence.
Qed.

Lemma put_new_effect s r e :
  rm_resources s !! res_id r = None ->
  let s' := memory_record_event e (memory_put_resource r s) in effect s s'.
Proof.
  intros Hnew. split.
  - split_and!; [done| | |done].
    + intros id. by rewrite (history_frame s (memory_record_event e (memory_put_resource r s))).
    + intros id r0 Hr. exists r0. simpl. rewrite lookup_insert_ne by congruence. by split.
  - intros id r0 r1 H0 H1. simpl in H1. rewrite lookup_insert_ne in H1 by congruence. left. congruence.
Qed.

Lemma append_effect s id r v lifecycle now e :
  resources_wf s -> rm_resources s !! id = Some r -> rm_versions s !! ver_id v = None ->
  ver_resource_id v = id ->
  let s' := memory_record_event e (memory_put_resource (advance now v lifecycle r)
              (memory_put_version v s)) in
  effect s s'.
Proof.
  intros Hwf Hr Hnew Hid s'. destruct (wf_resource s Hwf id r Hr) as (Hrid & _). split.
  - split_and!; [by apply insert_subseteq| | |done].
    + intros id'. rewrite (history_frame (memory_put_version v s) s') by done.
      rewrite history_put_version by done. by eexists.
    + intros id' r0 H0. simpl. rewrite Hrid. destruct (decide (id' = id)) as [->|].
      * rewrite lookup_insert_eq. eexists. split; [done|]. by simplify_eq.
      * rewrite lookup_insert_ne by done. exists r0. by split.
  - intros id' r0 r1 H0 H1. simpl in H1. rewrite Hrid in H1. destruct (decide (id' = id)) as [->|].
    + rewrite lookup_insert_eq in H1. simplify_eq. simpl.
      destruct (may_be_current (ver_state v)); [right; by eexists|by left].
    + rewrite lookup_insert_ne in H1 by done. left. congruence.
Qed.

Lemma step_effect s s' : resources_wf s -> resource_step s s' -> effect s s'.
Proof.
  intros Hwf Hstep. revert Hwf.
  destruct Hstep as [now t d s0 s1 H|now uuid c r s0 s1 Hf H|now uuid u v s0 s1 Hf H
    |now uuid l k s0 s1 Hf H]; intros Hwf.
  - unfold memory_register_type in H. apply seq_ok in H as [Hv [= <- <-]].
    apply effect_frame; try done. intros kind Hk. by apply insert_is_Some.
  - apply create_ok in H as (d & lifecycle & schema & Hd & Hnew & _ & Hs).
    set (r0 := new_resource now c (res_id r) lifecycle schema) in *.
    pose proof (put_new_effect s0 r0 (created_event now (uuid 1%nat) r0) Hnew) as He.
    destruct (nr_initial_payload c) as [payload|]; [|by destruct Hs as [_ ->]].
    destruct Hs as (_ & Hr & ->). rewrite put_again, Hr. apply (effect_trans _ _ _ He).
    apply append_effect with (res_id r); [|simpl; by rewrite lookup_insert_eq|by apply Hf|done].
    apply wf_record_event; [|simpl; by rewrite lookup_insert_eq]. by apply wf_put_new.
  - apply update_ok in H as (r & d & Hr & _ & _ & _ & -> & ->).
    apply append_effect with (up_resource_id u); try done. by apply Hf.
  - apply link_ok in H as (_ & _ & -> & ->). by apply effect_frame.
Qed.

Lemma steps_effect s s' : resources_wf s -> rtc resource_step s s' -> effect s s'.
Proof.
  intros Hwf Hr. revert Hwf. induction Hr as [s|x y z Hstep _ IH]; intros Hwf.
  - split; [apply extends_refl|]. intros id r r' ? ?. left. congruence.
  - apply (effect_trans _ y); [by apply step_effect|]. apply IH. by eapply resource_step_wf.
Qed.

(** ** Theorems *)

Lemma history_ids s id :
  resources_wf s -> map ver_id (history s id) = default [] (rm_versions_by_resource s !! id).
Proof.
  intros Hwf. pose proof (listed_known s id) as Hk. unfold history.
  induction (default [] (rm_versions_by_resource s !! id)) as [|k ids IH]; [done|]. simpl.
  destruct (Hk k Hwf ltac:(left)) as (v & Hv & _). rewrite Hv. simpl.
  destruct (wf_version s Hwf k v Hv) as (-> & _). f_equal. apply IH. intros k' _ Hin.
  apply Hk; [done|by right].
Qed.

(** C7: In every reachable resource store the versions of a resource replay, each on its
    parent, to its current version; each is stored under its own resource with the hash of
    its payload, version ids are distinct, the current version is an available one, outgoing
    links lead to stored resources, and the events listed are the resource's own. *)
Theorem resource_history_is_one_line s id i :
  resource_reachable s -> memory_inspect debug id s = Ok (Some i) ->
  replay None (ri_versions i) = Some (res_current_version_id (ri_resource i)) /\
  Forall (fun v => ver_resource_id v = id /\ ver_content_hash v = hash (ver_payload v)) (ri_versions i) /\
  NoDup (map ver_id (ri_versions i)) /\
  (forall current, res_current_version_id (ri_resource i) = Some current ->
     exists v, v ∈ ri_versions i /\ ver_id v = current /\ ver_state v = Available) /\
  Forall (fun l => lnk_source_resource_id l = id /\ is_Some (rm_resources s !! lnk_target_resource_id l))
    (ri_outgoing_links i) /\
  Forall (fun e => rev_resource_id e = id) (ri_events i).
Proof.
  intros Hwf%resource_reachable_wf. unfold memory_inspect. intros Hi. apply seq_ok in Hi as [_ Hi].
  destruct (rm_resources s !! id) as [r|] eqn:Hr; [|done]. injection Hi as <-. cbn [ri_versions ri_resource ri_outgoing_links ri_events].
  change (omap _ _) with (history s id).
  destruct (wf_resource s Hwf id r Hr) as (_ & _ & Hreplay).
  assert (forall v, v ∈ history s id -> rm_versions s !! ver_id v = Some v /\ ver_resource_id v = id) as Hhist.
  { intros v Hv. apply list_elem_of_omap in Hv as (k & Hk & Hv).
    apply (listed_known s id k Hwf) in Hk as (w & Hw & <-). rewrite Hw in Hv. injection Hv as ->.
    by destruct (wf_version s Hwf k v Hw) as (-> & _). }
  split_and!; [done| | | | |].
  - apply Forall_forall. intros v [Hv Hid]%Hhist. by destruct (wf_version s Hwf _ v Hv) as (_ & ? & _).
  - rewrite history_ids by done.
    destruct (rm_versions_by_resource s !! id) as [ids|] eqn:E; [|constructor].
    by destruct (wf_listed s Hwf id ids E) as (_ & ? & _).
  - intros current Hc. rewrite Hc in Hreplay.
    apply replay_current in Hreplay as [|(v & Hin & Hv & Hs)]; [done|]. exists v.
    by destruct (ver_state v).
  - apply Forall_forall. intros l Hl. apply list_elem_of_In, filter_In in Hl as [Hl Hs].
    apply String.eqb_eq in Hs. apply list_elem_of_In, elem_of_btree_values in Hl as [k Hk].
    by destruct (wf_link s Hwf k l Hk) as (_ & _ & ?).
  - destruct (rm_events_by_resource s !! id) as [es|] eqn:He; [|constructor].
    by destruct (wf_event s Hwf id es He) as [_ ?].
Qed.

(** Whatever happens later, a stored version stays as it is, the history of a resource
    only grows at its end, and a resource keeps its identity (kind, schema, scope, owner,
    creation). *)
Theorem stored_versions_never_change s s' id k v :
  resource_reachable s -> rtc resource_step s s' -> rm_versions s !! k = Some v ->
  rm_versions s' !! k = Some v /\ history s id `prefix_of` history s' id /\
  forall r, rm_resources s !! id = Some r ->
    exists r', rm_resources s' !! id = Some r' /\ same_identity r r'.
Proof.
  intros Hwf%resource_reachable_wf Hsteps Hv.
  destruct (steps_effect s s' Hwf Hsteps) as [(Hsub & Hh & Hr & _) _].
  split_and!; [by eapply lookup_weaken|done|]. by apply Hr.
Qed.

(** The current version of a stored resource is stored. *)
Lemma current_is_stored s id r k :
  resources_wf s -> rm_resources s !! id = Some r -> res_current_version_id r = Some k ->
  is_Some (rm_versions s !! k).
Proof.
  intros Hwf Hr Hk. destruct (wf_resource s Hwf _ r Hr) as (_ & _ & Hreplay). rewrite Hk in Hreplay.
  apply replay_current in Hreplay as [|(w & Hin & <- & _)]; [done|].
  apply list_elem_of_omap in Hin as (k & Hk' & Hw). by destruct (wf_version s Hwf k w Hw) as (-> & _).
Qed.

(** After an update that makes an available version, the resource has for good a current version that did
    not exist before. *)
Lemma update_replaces_current s s1 s2 now uuid u v r2 :
  resources_wf s -> fresh_ids uuid s -> update now uuid u s = Ok (v, s1) ->
  default Available (up_state u) = Available -> rtc resource_step s1 s2 ->
  rm_resources s2 !! up_resource_id u = Some r2 ->
  exists k, res_current_version_id r2 = Some k /\ rm_versions s !! k = None.
Proof.
  intros Hwf Hf Hu Hst Hsteps Hr2.
  assert (resources_wf s1) as Hwf1 by (eapply resource_step_wf; [done|by eapply step_update]).
  apply update_ok in Hu as (r & d & Hr & _ & _ & _ & -> & ->).
  destruct (wf_resource s Hwf _ r Hr) as (Hrid & _).
  set (v := version_of now (uuid 0%nat) (up_resource_id u) (updated_version u (res_current_version_id r))) in *.
  set (r1 := advance now v (up_lifecycle u) r) in *.
  set (s1 := memory_record_event _ _) in *.
  assert (rm_resources s1 !! up_resource_id u = Some r1) as Hr1
    by (simpl; rewrite Hrid; by rewrite lookup_insert_eq).
  assert (res_current_version_id r1 = Some (ver_id v)) as Hcur by (unfold r1, advance; simpl; by rewrite Hst).
  destruct (steps_effect s1 s2 Hwf1 Hsteps) as [_ Hm].
  destruct (Hm _ r1 r2 Hr1 Hr2) as [E|(k & E & Hk)].
  - exists (ver_id v). rewrite E, Hcur. split; [done|]. apply Hf.
  - exists k. split; [done|]. simpl in Hk. by apply lookup_insert_None in Hk as [? _].
Qed.

(** Of two updates against the same current version, only the first that makes an
    available version can succeed: however much happens in between, the second is refused.
    *)
Theorem superseded_version_cannot_be_updated s s1 s2 now uuid u v now' uuid' u' :
  resource_reachable s -> fresh_ids uuid s -> update now uuid u s = Ok (v, s1) ->
  default Available (up_state u) = Available -> rtc resource_step s1 s2 ->
  up_resource_id u' = up_resource_id u ->
  up_expected_current_version_id u' = up_expected_current_version_id u ->
  exists e, update now' uuid' u' s2 = Err e.
Proof.
  intros Hwf%resource_reachable_wf Hf Hu Hst Hsteps Hid Hexp.
  destruct (update now' uuid' u' s2) as [[v' s3]|e] eqn:Hu'; [exfalso|by eexists].
  apply update_ok in Hu' as (r2 & _ & Hr2 & _ & He2 & _). rewrite Hid in Hr2. rewrite Hexp in He2.
  destruct (update_replaces_current _ _ _ _ _ _ _ _ Hwf Hf Hu Hst Hsteps Hr2) as (k & Hk & Hnew).
  apply update_ok in Hu as (r & d & Hr & _ & He & _). rewrite Hk, He in He2.
  destruct (current_is_stored s _ _ k Hwf Hr He2) as [w Hw]. congruence.
Qed.
End history.

(** ** Samples *)

Definition note_type : RegisterResourceType :=
  {| rt_kind := "note"; rt_schema_id := "note.v1";
     rt_schema := j{"type" ~> "object"; "required" ~> j["text"];
                    "properties" ~> j{"text" ~> j{"type" ~> "string"} } };
     rt_lifecycle_states := ["draft"; "final"]; rt_versioning_mode := CurrentPointer;
     rt_allowed_link_relations := ["cites"]; rt_default_retention := Null;
     rt_redaction_rules := Null; rt_materialization_rules := Null;
     rt_required_capabilities := Null; rt_owner_worker_id := "resource" |}.
Definition note_create : CreateResource :=
  {| nr_resource_id := Some "n1"; nr_kind := "note"; nr_schema_id := None;
     nr_scope := ResScope_Session "s1"; nr_owner_worker_id := "resource"; nr_owner_actor_id := "agent";
     nr_lifecycle := None; nr_policy := Null; nr_initial_payload := Some (j{"text" ~> "first"});
     nr_locations := []; nr_trace_id := "t"; nr_invocation_id := None |}.
Definition note_update : UpdateResource :=
  {| up_resource_id := "n1"; up_expected_current_version_id := Some "ver_a2"; up_lifecycle := Some "final";
     up_payload := j{"text" ~> "second"}; up_state := None; up_locations := []; up_trace_id := "t";
     up_invocation_id := None |}.
Definition uuids (p : string) (n : nat) : string :=
  p +s match n with O => "0" | 1%nat => "1" | 2%nat => "2" | _ => "3" end.

Definition plain (s : string) : string := s.
Definition plain_text (v : Value) : string := match vget v "text" with Some (VString s) => s | _ => "" end.
Definition after_op {A} (s : ResourceMemory) (r : Result (A * ResourceMemory)) : ResourceMemory :=
  match r with Ok (_, s') => s' | Err _ => s end.
Notation note_op f := (f plain (fun _ => 10) (fun _ => None) plain_text plain).
Definition notes0 : ResourceMemory :=
  after_op resource_memory_new (memory_register_type plain 1 note_type resource_memory_new).
Definition notes1 : ResourceMemory :=
  after_op notes0 (note_op memory_create 2 (uuids "a") note_create notes0).
Definition notes2 : ResourceMemory :=
  after_op notes1 (note_op memory_update 3 (uuids "b") note_update notes1).

Ltac finite_uuids := intros n; do 3 (destruct n as [|n]; [vm_compute; auto|]); vm_compute; auto.

Lemma notes1_reachable : note_op resource_reachable notes1.
Proof.
  eapply rtc_l; [eapply (step_register _ _ _ _ _ 1 note_type); vm_compute; reflexivity|].
  eapply rtc_l; [|apply rtc_refl].
  eapply (step_create _ _ _ _ _ 2 (uuids "a") note_create); [finite_uuids|vm_compute; reflexivity].
Qed.
Lemma notes2_step : note_op resource_step notes1 notes2.
Proof.
  eapply (step_update _ _ _ _ _ 3 (uuids "b") note_update); [finite_uuids|vm_compute; reflexivity].
Qed.
Lemma notes2_reachable : note_op resource_reachable notes2.
Proof. eapply rtc_r; [exact notes1_reachable|exact notes2_step]. Qed.

Lemma resource_history_is_one_line_witness :
  exists i, memory_inspect plain "n1" notes2 = Ok (Some i) /\
    map ver_id (ri_versions i) = ["ver_a2"; "ver_b0"] /\
    replay None (ri_versions i) = Some (Some "ver_b0").
Proof.
  eexists. split; [vm_compute; reflexivity|]. split; [vm_compute; reflexivity|].
  refine (proj1 (resource_history_is_one_line plain (fun _ => 10) (fun _ => None) plain_text plain
    notes2 "n1" _ notes2_reachable _)). vm_compute. reflexivity.
Defined.

Lemma stored_versions_never_change_witness :
  exists v, rm_versions notes1 !! "ver_a2" = Some v /\ rm_versions notes2 !! "ver_a2" = Some v.
Proof.
  eexists. split; [vm_compute; reflexivity|].
  refine (proj1 (stored_versions_never_change plain (fun _ => 10) (fun _ => None) plain_text plain
    notes1 notes2 "n1" "ver_a2" _ notes1_reachable (rtc_once _ _ notes2_step) _)).
  vm_compute. reflexivity.
Defined.

Lemma superseded_version_cannot_be_updated_witness :
  exists e, note_op memory_update 9 (uuids "c") note_update notes2 = Err e.
Proof.
  eapply (superseded_version_cannot_be_updated plain (fun _ => 10) (fun _ => None) plain_text plain
    notes1 notes2 notes2 3 (uuids "b") note_update _ 9 (uuids "c") note_update notes1_reachable).
  - finite_uuids.
  - vm_compute. reflexivity.
  - reflexivity.
  - apply rtc_refl.
  - reflexivity.
  - reflexivity.
Defined.
