(* ===== verification/ResourceSqlite.v ===== *)
(** * Resource queries and the SQLite resource store

    The listings of the in-memory store select the newest matching resources; the
    maintenance scan, which sorts stably and reverses, agrees with them.  The SQLite
    store ([store/mod.rs], [store/sqlite_codec.rs]) does what the in-memory store does
    as long as every scope can be read back; it writes scopes that cannot.

    A table is a list of rows in insertion order, or a map where the code looks rows
    up by primary key.  Generated ids are new, so no insertion violates a primary key;
    other failures of the database are not modelled.  [conversion_text] is the text of
    a row that cannot be converted. *)

From stdpp Require Import base gmap strings list pretty sorting relations.
From Stdlib Require Import ZArith Ascii String Lia.
From S2P Require Import Prelude Sorting Json Kernel Schema UiSurface Resources ResourceHistory.
Import JsonNotations.

#[local] Open Scope Z_scope.

(** ** Listings of the in-memory store *)

Section newest.
  Context {A : Type} (time : A -> instant) (id : A -> string).
  Notation newest := (newest_first time id).

Lemma newest_total x y : newest x y = true \/ newest y x = true.
Proof.
  unfold newest_first. destruct (Z.eqb_spec (time y) (time x)) as [E|E].
  - rewrite E, Z.eqb_refl. apply str_leb_total.
  - destruct (Z.eqb_spec (time x) (time y)) as [E'|E']; [congruence|]. lia.
Qed.
Lemma newest_trans x y z : newest x y = true -> newest y z = true -> newest x z = true.
Proof.
  unfold newest_first.
  destruct (Z.eqb_spec (time y) (time x)), (Z.eqb_spec (time z) (time y)), (Z.eqb_spec (time z) (time x));
    intros H1 H2; try lia. by eapply str_leb_trans.
Qed.
Lemma newest_antisym x y : newest x y = true -> newest y x = true -> time x = time y /\ id x = id y.
Proof.
  unfold newest_first. destruct (Z.eqb_spec (time y) (time x)) as [E|E].
  - rewrite E, Z.eqb_refl. intros H1 H2. split; [done|]. by apply str_leb_antisym.
  - destruct (Z.eqb_spec (time x) (time y)); lia.
Qed.
End newest.

(** The values of a map, kept under their ids, are determined by their ids. *)
Definition keyed {A} (id : A -> string) (m : gmap string A) : Prop := map_Forall (fun k x => id x = k) m.

Lemma keyed_inj {A} (id : A -> string) m x y :
  keyed id m -> x ∈ btree_values m -> y ∈ btree_values m -> id x = id y -> x = y.
Proof.
  intros Hm [k Hk]%elem_of_btree_values [k' Hk']%elem_of_btree_values E.
  rewrite (Hm _ _ Hk), (Hm _ _ Hk') in E. congruence.
Qed.

(** Ascending by id. *)
Lemma keyed_sorted {A} (id : A -> string) m (f : A -> bool) :
  keyed id m ->
  StronglySorted (fun x y => str_leb (id x) (id y) = true) (List.filter f (btree_values m)).
Proof.
  intros Hm. unfold btree_values. pose proof (btree_entries_sorted m) as Hs.
  assert (Forall (fun kv => id (snd kv) = fst kv) (btree_entries m)) as Hall.
  { apply Forall_forall. intros [k x] Hin. apply elem_of_btree_entries in Hin. by apply Hm. }
  induction Hs as [|[k x] l Hs IH Hx]; simpl; [constructor|].
  apply Forall_cons in Hall as [Hk Hall]. simpl in Hk. specialize (IH Hall).
  destruct (f x); [|done]. constructor; [done|].
  apply Forall_forall. intros y Hy. apply list_elem_of_In, filter_In in Hy as [Hy _].
  apply in_map_iff in Hy as ([k' y'] & <- & Hy). apply list_elem_of_In in Hy.
  rewrite Forall_forall in Hx, Hall. specialize (Hx _ Hy). specialize (Hall _ Hy).
  simpl in *. by rewrite Hk, Hall.
Qed.

Section listings.
  Variable debug : string -> string.
  Implicit Types (s : ResourceMemory) (f : ListResources).
  Notation newest := (newest_first res_updated_at res_id).

Definition matching f s : list EngineResource :=
  List.filter (matches_filter f) (btree_values (rm_resources s)).

Lemma matching_inj f s x y :
  keyed res_id (rm_resources s) -> x ∈ matching f s -> y ∈ matching f s ->
  newest x y = true -> newest y x = true -> x = y.
Proof.
  intros Hk Hx Hy H1 H2. destruct (newest_antisym _ _ _ _ H1 H2) as [_ E].
  apply list_elem_of_In, filter_In in Hx as [Hx%list_elem_of_In _].
  apply list_elem_of_In, filter_In in Hy as [Hy%list_elem_of_In _]. by eapply keyed_inj.
Qed.

Lemma memory_list_sort f s :
  keyed res_id (rm_resources s) ->
  memory_list debug f s =
    (let? _ := validate_list_filter debug f in
     Ok (take (Z.to_nat (Z.min (lf_limit f) 500)) (stable_sort newest (matching f s)))).
Proof.
  intros Hk. unfold memory_list. destruct (validate_list_filter debug f); [|done]. simpl. f_equal.
  apply top_k_sort; [apply newest_total|apply newest_trans|].
  intros x y. by apply matching_inj.
Qed.

(** Sorting stably by time and reversing gives the newest first, ties by
    descending id. *)
Lemma scan_sort f s :
  keyed res_id (rm_resources s) ->
  rev (stable_sort (fun a b => res_updated_at a <=? res_updated_at b) (matching f s)) =
  stable_sort newest (matching f s).
Proof.
  intros Hk. set (older := fun a b => res_updated_at a <=? res_updated_at b).
  assert (rev (stable_sort older (matching f s)) ≡ₚ matching f s) as Hp.
  { rewrite <- Permutation_rev. apply stable_sort_perm. }
  apply (sorted_perm_eq newest).
  - intros x y. rewrite Hp. by apply matching_inj.
  - pose proof (keyed_sorted res_id (rm_resources s) (matches_filter f) Hk) as Hs.
    apply (stable_sort_lex older) in Hs; [|unfold older; lia..].
    apply sorted_rev in Hs. eapply sorted_impl; [|exact Hs].
    intros x y [H1 H2]. unfold le, older, newest_first in *.
    destruct (Z.eqb_spec (res_updated_at y) (res_updated_at x)) as [E|E]; [|lia].
    apply H2. lia.
  - apply stable_sort_sorted; [apply newest_total|apply newest_trans].
  - by rewrite Hp, stable_sort_perm.
Qed.
End listings.

Lemma wf_keyed json_text sha256_hex s : resources_wf json_text sha256_hex s -> keyed res_id (rm_resources s).
Proof. intros Hwf id r Hr. by destruct (wf_resource _ _ s Hwf id r Hr) as (? & _). Qed.

Section listing_theorems.
  Variable debug : string -> string.
  Variable json_len : Value -> Z.
  Variable rfc3339_error : string -> option string.
  Variable json_text : Value -> string.
  Variable sha256_hex : string -> string.
  Notation reachable := (resource_reachable debug json_len rfc3339_error json_text sha256_hex).
  Notation newest := (newest_first res_updated_at res_id).

(** Listing a reachable resource store returns matching resources only, newest first,
    as many as there are up to the limit and 500, and every match left out is no newer than
    every one returned. *)
Theorem list_returns_the_newest_matches s f l :
  reachable s -> memory_list debug f s = Ok l ->
  StronglySorted (fun a b => newest a b = true) l /\
  Forall (fun r => matches_filter f r = true /\ rm_resources s !! res_id r = Some r) l /\
  List.length l = Nat.min (Z.to_nat (Z.min (lf_limit f) 500)) (List.length (matching f s)) /\
  (forall r r', r ∈ l -> r' ∈ matching f s -> r' ∉ l -> newest r r' = true).
Proof.
  intros Hwf%resource_reachable_wf. pose proof (wf_keyed _ _ _ Hwf) as Hk.
  rewrite memory_list_sort by done. intros Hl. apply seq_ok in Hl as [_ [= <-]].
  set (k := Z.to_nat _). set (sorted := stable_sort newest (matching f s)).
  assert (StronglySorted (le newest) sorted) as Hs
    by (apply stable_sort_sorted; [apply newest_total|apply newest_trans]).
  assert (sorted ≡ₚ matching f s) as Hp by apply stable_sort_perm. split_and!.
  - by apply take_sorted.
  - apply Forall_forall. intros r Hr. apply elem_of_take in Hr as (i & Hr & _).
    apply list_elem_of_lookup_2 in Hr. rewrite Hp in Hr.
    apply list_elem_of_In, filter_In in Hr as [Hr Hm]. split; [done|].
    apply list_elem_of_In, elem_of_btree_values in Hr as [id Hid]. by rewrite (Hk _ _ Hid).
  - by rewrite length_take, Hp.
  - intros r r' Hr Hin Hout. rewrite <- Hp, <- (take_drop k sorted) in Hin.
    apply elem_of_app in Hin as [|Hin]; [done|]. rewrite <- (take_drop k sorted) in Hs.
    exact (StronglySorted_app_1_elem_of _ _ _ _ _ Hs Hr Hin).
Qed.

(** Below the listing cap of 500 the bounded scan used inside the engine, which keeps only
    the best [limit] candidates, returns what the listing that sorts all matches returns. *)
Theorem internal_scan_agrees_with_list s f :
  reachable s -> lf_limit f <= 500 -> memory_list_internal_scan debug f s = memory_list debug f s.
Proof.
  intros Hwf%resource_reachable_wf Hlim. pose proof (wf_keyed _ _ _ Hwf) as Hk.
  rewrite memory_list_sort by done. unfold memory_list_internal_scan.
  change (List.filter _ _) with (matching f s). rewrite scan_sort by done.
  by rewrite Z.min_l by lia.
Qed.
End listing_theorems.

(** ** The SQLite store *)

(** A row of [engine_resources]. *)
(* SRC engine/durability/resources/store/sqlite_codec.rs:28-44! RESOURCE_SQLITE_SCHEMA *)
Record ResourceRow := {
  rr_resource_id : string;
  rr_kind : string;
  rr_schema_id : string;
  rr_scope_kind : string;
  rr_scope_value : string;
  rr_owner_worker_id : WorkerId;
  rr_owner_actor_id : ActorId;
  rr_lifecycle : string;
  rr_policy : Value;
  rr_current_version_id : option string;
  rr_trace_id : TraceId;
  rr_created_by_invocation_id : option InvocationId;
  rr_created_at : instant;
  rr_updated_at : instant
}.

(* SRC engine/durability/resources/store/mod.rs:546-576 SqliteEngineResourceStore::insert_resource *)
Definition resource_row (r : EngineResource) : ResourceRow :=
  {| rr_resource_id := res_id r; rr_kind := res_kind r; rr_schema_id := res_schema_id r;
     rr_scope_kind := scope_kind (res_scope r); rr_scope_value := scope_value (res_scope r);
     rr_owner_worker_id := res_owner_worker_id r; rr_owner_actor_id := res_owner_actor_id r;
     rr_lifecycle := res_lifecycle r; rr_policy := res_policy r;
     rr_current_version_id := res_current_version_id r; rr_trace_id := res_trace_id r;
     rr_created_by_invocation_id := res_created_by_invocation_id r;
     rr_created_at := res_created_at r; rr_updated_at := res_updated_at r |}.

(** Ids that are not empty are read back as they are. *)
(* SRC engine/durability/resources/store/sqlite_codec.rs:146-167 row_to_resource *)
Definition row_to_resource (row : ResourceRow) : Result EngineResource :=
  let? scope := scope_parse (rr_scope_kind row) (rr_scope_value row) in
  Ok {| res_id := rr_resource_id row; res_kind := rr_kind row; res_schema_id := rr_schema_id row;
        res_scope := scope; res_owner_worker_id := rr_owner_worker_id row;
        res_owner_actor_id := rr_owner_actor_id row; res_lifecycle := rr_lifecycle row;
        res_policy := rr_policy row; res_current_version_id := rr_current_version_id row;
        res_trace_id := rr_trace_id row;
        res_created_by_invocation_id := rr_created_by_invocation_id row;
        res_created_at := rr_created_at row; res_updated_at := rr_updated_at row |}.

(* SRC engine/durability/resources/store/mod.rs:55-58 SqliteEngineResourceStore *)
Record ResourceTables := {
  rq_types : gmap string EngineResourceTypeDefinition;
  rq_resources : gmap string ResourceRow;
  rq_versions : list EngineResourceVersion;
  rq_links : list EngineResourceLink;
  rq_events : list EngineResourceEvent
}.
(* SRC engine/durability/resources/store/mod.rs:61-68 SqliteEngineResourceStore::open *)
Definition resource_tables_new : ResourceTables :=
  {| rq_types := ∅; rq_resources := ∅; rq_versions := []; rq_links := []; rq_events := [] |}.

Section sqlite.
  Variable debug : string -> string.
  Variable json_len : Value -> Z.
  Variable rfc3339_error : string -> option string.
  Variable json_text : Value -> string.
  Variable sha256_hex : string -> string.
  Variable conversion_text : EngineError -> string.

(* SRC engine/durability/resources/store/sqlite_codec.rs:97-102 sqlite_err *)
Definition sqlite_err {A} (operation : string) (r : Result A) : Result A :=
  match r with Ok a => Ok a | Err e => Err (LedgerFailure operation (conversion_text e)) end.

Definition put_row (row : ResourceRow) (s : ResourceTables) : ResourceTables :=
  {| rq_types := rq_types s; rq_resources := <[rr_resource_id row := row]> (rq_resources s);
     rq_versions := rq_versions s; rq_links := rq_links s; rq_events := rq_events s |}.
(* SRC engine/durability/resources/store/mod.rs:693-712 SqliteEngineResourceStore::record_event *)
Definition sqlite_record_event (e : EngineResourceEvent) (s : ResourceTables) : ResourceTables :=
  {| rq_types := rq_types s; rq_resources := rq_resources s; rq_versions := rq_versions s;
     rq_links := rq_links s; rq_events := rq_events s ++ [e] |}.
Definition put_version_row (v : EngineResourceVersion) (s : ResourceTables) : ResourceTables :=
  {| rq_types := rq_types s; rq_resources := rq_resources s; rq_versions := rq_versions s ++ [v];
     rq_links := rq_links s; rq_events := rq_events s |}.

(** [UPDATE .. SET lifecycle, policy_json, current_version_id, updated_at WHERE resource_id] *)
(* SRC engine/durability/resources/store/mod.rs:578-594 SqliteEngineResourceStore::update_resource_pointer *)
Definition update_resource_pointer (r : EngineResource) (s : ResourceTables) : ResourceTables :=
  match rq_resources s !! res_id r with
  | None => s
  | Some row =>
      put_row {| rr_resource_id := rr_resource_id row; rr_kind := rr_kind row;
                 rr_schema_id := rr_schema_id row; rr_scope_kind := rr_scope_kind row;
                 rr_scope_value := rr_scope_value row; rr_owner_worker_id := rr_owner_worker_id row;
                 rr_owner_actor_id := rr_owner_actor_id row; rr_lifecycle := res_lifecycle r;
                 rr_policy := res_policy r; rr_current_version_id := res_current_version_id r;
                 rr_trace_id := rr_trace_id row;
                 rr_created_by_invocation_id := rr_created_by_invocation_id row;
                 rr_created_at := rr_created_at row; rr_updated_at := res_updated_at r |} s
  end.

(* SRC engine/durability/resources/store/mod.rs:146-161 SqliteEngineResourceStore::get_type *)
Definition sqlite_get_type (kind : string) (s : ResourceTables)
  : Result (option EngineResourceTypeDefinition) :=
  let? _ := validate_token debug "resource kind" kind in
  Ok (rq_types s !! kind).
(* SRC engine/durability/resources/store/mod.rs:610-615 SqliteEngineResourceStore::require_type *)
Definition sqlite_require_type (kind : string) (s : ResourceTables)
  : Result EngineResourceTypeDefinition :=
  let? d := sqlite_get_type kind s in
  match d with Some d => Ok d | None => Err (NotFound "resource_type" kind) end.

(* SRC engine/durability/resources/store/mod.rs:596-608 SqliteEngineResourceStore::get_resource *)
Definition sqlite_get_resource (id : string) (s : ResourceTables) : Result (option EngineResource) :=
  match rq_resources s !! id with
  | None => Ok None
  | Some row => sqlite_err "resource.get" (let? r := row_to_resource row in Ok (Some r))
  end.
(* SRC engine/durability/resources/store/mod.rs:617-623 SqliteEngineResourceStore::require_resource *)
Definition sqlite_require_resource (id : string) (s : ResourceTables) : Result EngineResource :=
  let? r := sqlite_get_resource id s in
  match r with Some r => Ok r | None => Err (NotFound "resource" id) end.

(* SRC engine/durability/resources/store/mod.rs:80-144 SqliteEngineResourceStore::register_type *)
Definition sqlite_register_type (now : instant) (r : RegisterResourceType) (s : ResourceTables)
  : Result EngineResourceTypeDefinition * ResourceTables :=
  match (let? _ := validate_type_request debug r in sqlite_get_type (rt_kind r) s) with
  | Err e => (Err e, s)
  | Ok existing =>
      let d := next_type_definition now r existing in
      (Ok d, {| rq_types := <[ty_kind d := d]> (rq_types s); rq_resources := rq_resources s;
                rq_versions := rq_versions s; rq_links := rq_links s; rq_events := rq_events s |})
  end.

(** Each statement is committed on its own. *)
(* SRC engine/durability/resources/store/mod.rs:460-544 SqliteEngineResourceStore::append_version_inner *)
Definition sqlite_append_version (now : instant) (version_uuid event_uuid resource_id : string)
    (v : NewVersion) (s : ResourceTables) : Result EngineResourceVersion * ResourceTables :=
  match sqlite_require_resource resource_id s with
  | Err e => (Err e, s)
  | Ok resource =>
      let version := version_of json_text sha256_hex now version_uuid resource_id v in
      (Ok version,
       sqlite_record_event (version_event now event_uuid version)
         (update_resource_pointer (advance now version (nv_lifecycle v) resource)
            (put_version_row version s)))
  end.

(* SRC engine/durability/resources/store/mod.rs:163-244 SqliteEngineResourceStore::create *)
Definition sqlite_create (now : instant) (uuid : nat -> string) (r : CreateResource)
    (s : ResourceTables) : Result EngineResource * ResourceTables :=
  let resource_id := default (generated_id "res" (uuid 0%nat)) (nr_resource_id r) in
  match (let? _ := validate_create_request debug r in
         let? d := sqlite_require_type (nr_kind r) s in
         let? defaults := creation_defaults r d in
         if is_some (rq_resources s !! resource_id)
         then policy ("resource " +s resource_id +s " already exists")
         else
         let? _ := when_some (nr_initial_payload r)
                     (validate_resource_payload debug json_len rfc3339_error d) in
         Ok defaults) with
  | Err e => (Err e, s)
  | Ok (lifecycle, schema_id) =>
      let resource := new_resource now r resource_id lifecycle schema_id in
      let s := sqlite_record_event (created_event now (uuid 1%nat) resource)
                 (put_row (resource_row resource) s) in
      match nr_initial_payload r with
      | None => (Ok resource, s)
      | Some payload =>
          match sqlite_append_version now (uuid 2%nat) (uuid 3%nat) resource_id
                  (initial_version r payload) s with
          | (Err e, s) => (Err e, s)
          | (Ok version, s) =>
              let resource := set_pointer (Some (ver_id version)) (res_lifecycle resource) now resource in
              (Ok resource, update_resource_pointer resource s)
          end
      end
  end.

(* SRC engine/durability/resources/store/mod.rs:246-273 SqliteEngineResourceStore::update *)
Definition sqlite_update (now : instant) (uuid : nat -> string) (r : UpdateResource)
    (s : ResourceTables) : Result EngineResourceVersion * ResourceTables :=
  match (let? _ := validate_update_request debug r in
         let? resource := sqlite_require_resource (up_resource_id r) s in
         let? d := sqlite_require_type (res_kind resource) s in
         let? _ := check_update debug json_len rfc3339_error r resource d in
         Ok resource) with
  | Err e => (Err e, s)
  | Ok resource =>
      sqlite_append_version now (uuid 0%nat) (uuid 1%nat) (up_resource_id r)
        (updated_version r (res_current_version_id resource)) s
  end.

(* SRC engine/durability/resources/store/mod.rs:275-323 SqliteEngineResourceStore::link *)
Definition sqlite_link (now : instant) (uuid : nat -> string) (r : LinkResources)
    (s : ResourceTables) : Result EngineResourceLink * ResourceTables :=
  match (let? _ := validate_link_request debug r in
         let? source := sqlite_require_resource (li_source_resource_id r) s in
         let? _ := sqlite_require_resource (li_target_resource_id r) s in
         let? d := sqlite_require_type (res_kind source) s in
         ensure_relation d (li_relation r)) with
  | Err e => (Err e, s)
  | Ok _ =>
      let link := link_of now (uuid 0%nat) r in
      (Ok link,
       sqlite_record_event (linked_event now (uuid 1%nat) link)
         {| rq_types := rq_types s; rq_resources := rq_resources s; rq_versions := rq_versions s;
            rq_links := rq_links s ++ [link]; rq_events := rq_events s |})
  end.

(** [(?1 IS NULL OR kind = ?1) AND ..] *)
(* SRC engine/durability/resources/store/mod.rs:387-390! SqliteEngineResourceStore::list *)
Definition row_matches (f : ListResources) (row : ResourceRow) : bool :=
  none_or (lf_kind f) (fun kind => rr_kind row =s kind)
  && none_or (scope_kind <$> lf_scope f) (fun kind => rr_scope_kind row =s kind)
  && none_or (scope_value <$> lf_scope f) (fun value => rr_scope_value row =s value)
  && none_or (lf_lifecycle f) (fun lifecycle => rr_lifecycle row =s lifecycle).

(** [ORDER BY updated_at DESC, resource_id DESC LIMIT ?5] *)
(* SRC engine/durability/resources/store/mod.rs:374-412 SqliteEngineResourceStore::list *)
Definition sqlite_list (f : ListResources) (s : ResourceTables) : Result (list EngineResource) :=
  let? _ := validate_list_filter debug f in
  try_map (fun row => sqlite_err "resource.list.row" (row_to_resource row))
    (take (Z.to_nat (Z.min (lf_limit f) 500))
       (stable_sort (newest_first rr_updated_at rr_resource_id)
          (List.filter (row_matches f) (btree_values (rq_resources s))))).

(* SRC engine/durability/resources/store/mod.rs:325-357 SqliteEngineResourceStore::list_links_for_source *)
Definition sqlite_list_links_for_source (source relation : string) (limit : nat)
    (s : ResourceTables) : Result (list EngineResourceLink) :=
  let? _ := validate_token debug "source resource id" source in
  let? _ := validate_token debug "link relation" relation in
  if Nat.eqb limit 0 then policy "resource link list limit must be greater than zero"
  else Ok (take limit (stable_sort (newest_first lnk_created_at lnk_id)
             (List.filter (fun l => (lnk_source_resource_id l =s source)
                                    && (lnk_relation l =s relation)) (rq_links s)))).
End sqlite.

(** ** The SQLite store does what the in-memory store does *)

(** The scopes that are read back. *)
Definition scope_readable (s : EngineResourceScope) : bool :=
  match s with ResScope_System => true | ResScope_Workspace v | ResScope_Session v => negb (is_blank v) end.

Lemma scope_roundtrip s :
  scope_parse (scope_kind s) (scope_value s) = Ok s <-> scope_readable s = true.
Proof.
  destruct s as [|v|v]; cbn -[is_blank]; [done| |]; destruct (is_blank v); done.
Qed.

Lemma row_roundtrip r : scope_readable (res_scope r) = true -> row_to_resource (resource_row r) = Ok r.
Proof. intros Hs%scope_roundtrip. unfold row_to_resource. simpl. rewrite Hs. by destruct r. Qed.

Record tables_agree (t : ResourceTables) (m : ResourceMemory) : Prop := {
  ta_types : rq_types t = rm_types m;
  ta_resources : rq_resources t = resource_row <$> rm_resources m;
  ta_readable : map_Forall (fun _ r => scope_readable (res_scope r) = true) (rm_resources m);
  ta_versions : forall id,
    List.filter (fun v => ver_resource_id v =s id) (rq_versions t) = history m id;
  ta_links : rq_links t ≡ₚ btree_values (rm_links m);
  ta_events : forall id, List.filter (fun e => rev_resource_id e =s id) (rq_events t) =
    default [] (rm_events_by_resource m !! id)
}.

(** The outcome of an operation on the tables, against the one on the maps: the
    same answer and states that agree, or an error on both sides. *)
Definition same_outcome {A} (r : Result A * ResourceTables) (r' : Result (A * ResourceMemory))
    (m : ResourceMemory) : Prop :=
  match r' with
  | Ok (a, m') => fst r = Ok a /\ tables_agree (snd r) m'
  | Err _ => (exists e, fst r = Err e) /\ tables_agree (snd r) m
  end.

Lemma agree_new : tables_agree resource_tables_new resource_memory_new.
Proof. by split. Qed.

Lemma agree_put_row t m r :
  tables_agree t m -> scope_readable (res_scope r) = true ->
  tables_agree (put_row (resource_row r) t) (memory_put_resource r m).
Proof.
  intros [Ht Hr Hread Hv Hl He] Hs. split; try done; simpl.
  - by rewrite fmap_insert, Hr.
  - by apply map_Forall_insert_2.
Qed.

Lemma agree_event t m e :
  tables_agree t m -> tables_agree (sqlite_record_event e t) (memory_record_event e m).
Proof.
  intros [Ht Hr Hread Hv Hl He]. split; try done; simpl. intros id. unfold push_entry.
  rewrite List.filter_app. simpl. rewrite He. destruct (String.eqb_spec (rev_resource_id e) id) as [->|Hne].
  - by rewrite lookup_insert_eq.
  - by rewrite lookup_insert_ne, app_nil_r by done.
Qed.

Section refinement.
  Variable debug : string -> string.
  Variable json_len : Value -> Z.
  Variable rfc3339_error : string -> option string.
  Variable json_text : Value -> string.
  Variable sha256_hex : string -> string.
  Variable conversion_text : EngineError -> string.
  Notation wf := (resources_wf json_text sha256_hex).
  Implicit Types (t : ResourceTables) (m : ResourceMemory).

Lemma agree_version t m v :
  wf m -> tables_agree t m -> rm_versions m !! ver_id v = None ->
  tables_agree (put_version_row v t) (memory_put_version v m).
Proof.
  intros Hwf [Ht Hr Hread Hv Hl He] Hnew. split; try done; simpl. intros id.
  rewrite List.filter_app, Hv, (history_put_version json_text sha256_hex) by done. simpl. f_equal.
  destruct (String.eqb_spec (ver_resource_id v) id) as [->|Hne]; [by rewrite decide_True|].
  by rewrite decide_False.
Qed.

Lemma agree_pointer t m r r' :
  tables_agree t m -> rm_resources m !! res_id r = Some r -> same_identity r r' ->
  tables_agree (update_resource_pointer r' t) (memory_put_resource r' m).
Proof.
  intros Ha Hr Hs. pose proof (ta_readable t m Ha _ r Hr) as Hread. simpl in Hread.
  unfold update_resource_pointer. rewrite (ta_resources t m Ha), lookup_fmap.
  destruct Hs as (Hid & Hk & Hsch & Hsc & Ho & Hoa & _ & Htr & Hinv & Hcr).
  rewrite Hid, Hr. simpl.
  rewrite <- Hid, <- Hk, <- Hsch, <- Hsc, <- Ho, <- Hoa, <- Htr, <- Hinv, <- Hcr.
  apply (agree_put_row t m r' Ha). by rewrite Hsc.
Qed.

Lemma require_resource_agree t m id :
  tables_agree t m ->
  sqlite_require_resource conversion_text id t = memory_require_resource id m.
Proof.
  intros Ha. unfold sqlite_require_resource, sqlite_get_resource, memory_require_resource.
  rewrite (ta_resources t m Ha), lookup_fmap. destruct (rm_resources m !! id) as [r|] eqn:Hr; [|done].
  simpl. by rewrite row_roundtrip by (apply (ta_readable t m Ha _ _ Hr)).
Qed.

Lemma require_type_agree t m kind :
  tables_agree t m -> sqlite_require_type debug kind t = memory_require_type debug kind m.
Proof. intros Ha. unfold sqlite_require_type, sqlite_get_type, memory_require_type, memory_get_type. by rewrite (ta_types t m Ha). Qed.

Lemma append_agree now vu eu id (v : NewVersion) t m r :
  wf m -> tables_agree t m -> rm_resources m !! id = Some r ->
  rm_versions m !! generated_id "ver" vu = None ->
  same_outcome (sqlite_append_version json_text sha256_hex conversion_text now vu eu id v t)
    (memory_append_version json_text sha256_hex now vu eu id v m) m.
Proof.
  intros Hwf Ha Hr Hnew. destruct (wf_resource _ _ m Hwf id r Hr) as (Hid & _).
  unfold sqlite_append_version, memory_append_version. rewrite (require_resource_agree t m id Ha).
  unfold memory_require_resource. rewrite Hr. simpl. split; [done|].
  apply agree_event, (agree_pointer _ _ r); [by apply agree_version|simpl; by rewrite Hid|done].
Qed.

Lemma update_agree now uuid u t m :
  wf m -> tables_agree t m -> fresh_ids uuid m ->
  same_outcome (sqlite_update debug json_len rfc3339_error json_text sha256_hex conversion_text now uuid u t)
    (memory_update debug json_len rfc3339_error json_text sha256_hex now uuid u m) m.
Proof.
  intros Hwf Ha Hf. unfold sqlite_update, memory_update.
  destruct (validate_update_request debug u); [|by split; [eexists|]]. simpl.
  rewrite (require_resource_agree t m _ Ha).
  destruct (memory_require_resource _ m) as [r|e] eqn:Hr; [|by split; [eexists|]]. simpl.
  rewrite (require_type_agree t m _ Ha).
  destruct (memory_require_type debug _ m) as [d|e]; [|by split; [eexists|]]. simpl.
  destruct (check_update _ _ _ _ _ _) as [[]|e]; [|by split; [eexists|]]. simpl.
  apply require_resource_ok in Hr. eapply append_agree; try done. apply Hf.
Qed.

Lemma link_agree now uuid l t m :
  wf m -> tables_agree t m -> fresh_ids uuid m ->
  same_outcome (sqlite_link debug conversion_text now uuid l t) (memory_link debug now uuid l m) m.
Proof.
  intros Hwf Ha Hf. unfold sqlite_link, memory_link.
  destruct (validate_link_request debug l); [|by split; [eexists|]]. simpl.
  rewrite !(require_resource_agree t m _ Ha).
  destruct (memory_require_resource (li_source_resource_id l) m) as [r|e]; [|by split; [eexists|]]. simpl.
  destruct (memory_require_resource (li_target_resource_id l) m) as [r'|e]; [|by split; [eexists|]]. simpl.
  rewrite (require_type_agree t m _ Ha).
  destruct (memory_require_type debug _ m) as [d|e]; [|by split; [eexists|]]. simpl.
  destruct (ensure_relation _ _) as [[]|e]; [|by split; [eexists|]]. simpl. split; [done|].
  apply agree_event. destruct Ha as [Ht Hr Hread Hv Hl He]. split; try done. simpl.
  rewrite btree_values_insert by apply Hf. by rewrite Hl, Permutation_app_comm.
Qed.

Lemma register_agree now r t m :
  tables_agree t m ->
  same_outcome (sqlite_register_type debug now r t) (memory_register_type debug now r m) m.
Proof.
  intros Ha. unfold sqlite_register_type, memory_register_type, sqlite_get_type.
  destruct (validate_type_request debug r) as [[]|e] eqn:Hv; [|by split; [eexists|]]. simpl.
  unfold validate_type_request in Hv. apply seq_ok in Hv as [-> _]. simpl.
  rewrite (ta_types t m Ha). split; [done|]. destruct Ha as [Ht Hr Hread Hvs Hl He]. split; try done.
Qed.

Lemma create_agree now uuid c t m :
  wf m -> tables_agree t m -> fresh_ids uuid m -> scope_readable (nr_scope c) = true ->
  same_outcome (sqlite_create debug json_len rfc3339_error json_text sha256_hex conversion_text now uuid c t)
    (memory_create debug json_len rfc3339_error json_text sha256_hex now uuid c m) m.
Proof.
  intros Hwf Ha Hf Hs. unfold sqlite_create, memory_create.
  destruct (validate_create_request debug c); [|by split; [eexists|]]. simpl.
  rewrite (require_type_agree t m _ Ha).
  destruct (memory_require_type debug _ m) as [d|e] eqn:Hd; [|by split; [eexists|]]. simpl.
  destruct (creation_defaults c d) as [[lifecycle schema]|e]; [|by split; [eexists|]]. simpl.
  rewrite (ta_resources t m Ha), lookup_fmap.
  set (id := default _ _). destruct (rm_resources m !! id) as [r|] eqn:Hnew; simpl.
  { destruct (when_some _ _); by split; [eexists|]. }
  destruct (when_some _ _) as [[]|e]; [|by split; [eexists|]]. simpl.
  set (r0 := new_resource now c id lifecycle schema).
  assert (tables_agree (sqlite_record_event (created_event now (uuid 1%nat) r0) (put_row (resource_row r0) t))
    (memory_record_event (created_event now (uuid 1%nat) r0) (memory_put_resource r0 m))) as Ha1
    by (by apply agree_event, agree_put_row).
  destruct (nr_initial_payload c) as [payload|]; [|done].
  assert (wf (memory_record_event (created_event now (uuid 1%nat) r0) (memory_put_resource r0 m))) as Hwf1.
  { apply wf_record_event; [|simpl; by rewrite lookup_insert_eq].
    apply require_type_ok in Hd. apply wf_put_new; try done. }
  pose proof (append_agree now (uuid 2%nat) (uuid 3%nat) id (initial_version c payload) _ _ r0 Hwf1 Ha1
    ltac:(simpl; by rewrite lookup_insert_eq) ltac:(apply Hf)) as Happ.
  unfold memory_append_version, memory_require_resource in Happ |- *. simpl in Happ |- *.
  rewrite lookup_insert_eq in Happ |- *.
  destruct (sqlite_append_version _ _ _ _ _ _ _ _ _) as [[v'|e] t']; destruct Happ as [[= ->] Ha'].
  split; [done|]. simpl.
  eapply agree_pointer; [exact Ha'| |]; [|by instantiate (1 := advance now (version_of json_text
    sha256_hex now (uuid 2%nat) id (initial_version c payload)) None r0)].
  simpl. by rewrite lookup_insert_eq.
Qed.

(** *** Queries *)

Lemma row_matches_resource f r : row_matches f (resource_row r) = matches_filter f r.
Proof.
  unfold row_matches, matches_filter. simpl. rewrite <- andb_assoc.
  assert (none_or (scope_kind <$> lf_scope f) (fun kind => scope_kind (res_scope r) =s kind)
    && none_or (scope_value <$> lf_scope f) (fun value => scope_value (res_scope r) =s value)
    = none_or (lf_scope f) (fun scope => bool_decide (res_scope r = scope))) as <-.
  { destruct (lf_scope f) as [sc|]; simpl; [|done].
    apply eq_true_iff_eq. rewrite andb_true_iff, !String.eqb_eq, bool_decide_eq_true.
    destruct (res_scope r), sc; simpl; naive_solver. }
  by rewrite !andb_assoc.
Qed.

Lemma rows_of_values f (m : gmap string EngineResource) :
  List.filter (row_matches f) (btree_values (resource_row <$> m)) =
  map resource_row (List.filter (matches_filter f) (btree_values m)).
Proof.
  unfold btree_values. rewrite btree_entries_fmap.
  induction (btree_entries m) as [|[k r] l IH]; simpl; [done|].
  rewrite row_matches_resource. destruct (matches_filter f r); simpl; by rewrite IH.
Qed.

Lemma insert_stable_map x l :
  insert_stable (newest_first rr_updated_at rr_resource_id) (resource_row x) (map resource_row l) =
  map resource_row (insert_stable (newest_first res_updated_at res_id) x l).
Proof.
  induction l as [|y l IH]; simpl; [done|].
  change (newest_first rr_updated_at rr_resource_id (resource_row x) (resource_row y))
    with (newest_first res_updated_at res_id x y).
  destruct (newest_first _ _ x y); simpl; [done|]. by rewrite IH.
Qed.
Lemma stable_sort_map l :
  stable_sort (newest_first rr_updated_at rr_resource_id) (map resource_row l) =
  map resource_row (stable_sort (newest_first res_updated_at res_id) l).
Proof. induction l as [|x l IH]; simpl; [done|]. by rewrite IH, insert_stable_map. Qed.

Lemma list_agree t m f :
  wf m -> tables_agree t m -> sqlite_list debug conversion_text f t = memory_list debug f m.
Proof.
  intros Hwf Ha. rewrite memory_list_sort by (by eapply wf_keyed). unfold sqlite_list.
  destruct (validate_list_filter debug f); [|done]. simpl.
  rewrite (ta_resources t m Ha), rows_of_values, stable_sort_map.
  change (List.filter _ _) with (matching f m).
  set (k := Z.to_nat _). rewrite firstn_map.
  assert (Forall (fun r => scope_readable (res_scope r) = true)
    (take k (stable_sort (newest_first res_updated_at res_id) (matching f m)))) as Hread.
  { apply Forall_take. rewrite stable_sort_perm. apply Forall_forall. intros r Hr.
    apply list_elem_of_In, filter_In in Hr as [Hr _].
    apply list_elem_of_In, elem_of_btree_values in Hr as [id Hid]. exact (ta_readable t m Ha _ _ Hid). }
  induction Hread as [|r l Hr _ IH]; simpl; [done|]. rewrite row_roundtrip by done. simpl. by rewrite IH.
Qed.

Lemma links_agree t m source relation limit :
  wf m -> tables_agree t m ->
  sqlite_list_links_for_source debug source relation limit t =
  memory_list_links_for_source debug source relation limit m.
Proof.
  intros Hwf Ha. unfold sqlite_list_links_for_source, memory_list_links_for_source.
  destruct (validate_token debug _ source); [|done]. simpl.
  destruct (validate_token debug _ relation); [|done]. simpl. destruct (Nat.eqb limit 0); [done|].
  f_equal. set (p := fun l => _).
  assert (keyed lnk_id (rm_links m)) as Hk.
  { intros k l Hl. by destruct (wf_link _ _ m Hwf k l Hl) as (? & _). }
  assert (forall x y, x ∈ List.filter p (btree_values (rm_links m)) ->
    y ∈ List.filter p (btree_values (rm_links m)) -> newest_first lnk_created_at lnk_id x y = true ->
    newest_first lnk_created_at lnk_id y x = true -> x = y) as Hanti.
  { intros x y Hx Hy H1 H2. destruct (newest_antisym _ _ _ _ H1 H2) as [_ E].
    apply list_elem_of_In, filter_In in Hx as [Hx%list_elem_of_In _].
    apply list_elem_of_In, filter_In in Hy as [Hy%list_elem_of_In _]. by eapply keyed_inj. }
  rewrite top_k_sort; [|apply newest_total|apply newest_trans|done]. f_equal.
  assert (List.filter p (rq_links t) ≡ₚ List.filter p (btree_values (rm_links m))) as Hp
    by (by rewrite (ta_links t m Ha)).
  apply (sorted_perm_eq (newest_first lnk_created_at lnk_id)).
  - intros x y. rewrite stable_sort_perm, Hp. apply Hanti.
  - apply stable_sort_sorted; [apply newest_total|apply newest_trans].
  - apply stable_sort_sorted; [apply newest_total|apply newest_trans].
  - by rewrite !stable_sort_perm, Hp.
Qed.

End refinement.

(** ** Samples *)

Notation sql_op f := (f plain (fun _ => 10) (fun _ => None) plain_text plain (fun _ => "")).
Definition note_tables0 : ResourceTables := snd (sqlite_register_type plain 1 note_type resource_tables_new).
Definition note_tables1 : ResourceTables :=
  snd (sql_op sqlite_create 2 (uuids "a") note_create note_tables0).

Lemma notes0_reachable : note_op resource_reachable notes0.
Proof.
  eapply rtc_l; [eapply (step_register _ _ _ _ _ 1 note_type); vm_compute; reflexivity|apply rtc_refl].
Qed.
Lemma note_tables0_agree : tables_agree note_tables0 notes0.
Proof.
  pose proof (register_agree plain 1 note_type _ _ agree_new) as H.
  destruct (memory_register_type plain 1 note_type resource_memory_new) as [[d m]|e] eqn:E;
    [|vm_compute in E; discriminate].
  replace notes0 with m by (unfold notes0; by rewrite E). exact (proj2 H).
Qed.

(** All notes, newest first. *)
Definition all_notes : ListResources :=
  {| lf_kind := Some "note"; lf_scope := None; lf_lifecycle := None; lf_limit := 10 |}.

Lemma list_returns_the_newest_matches_witness :
  exists r, memory_list plain all_notes notes2 = Ok [r] /\ matches_filter all_notes r = true.
Proof.
  eexists. split; [vm_compute; reflexivity|].
  destruct (list_returns_the_newest_matches plain (fun _ => 10) (fun _ => None) plain_text plain notes2
    all_notes _ notes2_reachable ltac:(vm_compute; reflexivity)) as (_ & Hall & _).
  apply Forall_cons in Hall as [[Hm _] _]. exact Hm.
Defined.

Lemma internal_scan_agrees_with_list_witness :
  memory_list_internal_scan plain all_notes notes2 = memory_list plain all_notes notes2.
Proof.
  exact (internal_scan_agrees_with_list plain (fun _ => 10) (fun _ => None) plain_text plain notes2
    all_notes notes2_reachable ltac:(done)).
Defined.


(** The store writes a scope it cannot read: the creation fails half way, and
    from then on every listing that meets the row fails. *)
Definition blank_scope : CreateResource :=
  {| nr_resource_id := Some "n2"; nr_kind := "note"; nr_schema_id := None;
     nr_scope := ResScope_Workspace " "; nr_owner_worker_id := "resource"; nr_owner_actor_id := "agent";
     nr_lifecycle := None; nr_policy := Null; nr_initial_payload := Some (j{"text" ~> "lost"});
     nr_locations := []; nr_trace_id := "t"; nr_invocation_id := None |}.
Lemma unreadable_scope_breaks_listing :
  let t := snd (sql_op sqlite_create 4 (uuids "d") blank_scope note_tables1) in
  fst (sql_op sqlite_create 4 (uuids "d") blank_scope note_tables1) =
    Err (LedgerFailure "resource.get" "") /\
  (exists r, sqlite_list plain (fun _ => "") all_notes note_tables1 = Ok [r]) /\
  sqlite_list plain (fun _ => "") all_notes t = Err (LedgerFailure "resource.list.row" "") /\
  is_ok (note_op memory_create 4 (uuids "d") blank_scope notes1) = true.
Proof. vm_compute. split_and!; try reflexivity. eexists. reflexivity. Qed.
