(* ===== verification/BuiltinKinds.v ===== *)
(** * Built-in resource kinds

    The resource kinds every engine has ([durability/resources/types.rs],
    [definitions.rs]): names, schemas, lifecycle states, link relations and the
    capabilities each operation asks for. *)

From stdpp Require Import base strings list.
From Stdlib Require Import ZArith String.
From S2P Require Import Prelude Json Kernel Schema UiSurface Resources.
Import JsonNotations.

#[local] Open Scope Z_scope.

(** ** Names *)

(* SRC engine/durability/resources/types.rs:13-13! UI_SURFACE_SCHEMA_ID *)
Definition UI_SURFACE_SCHEMA_ID : string := "tron.resource.ui_surface.v1".
(* SRC engine/durability/resources/types.rs:17-17! CATALOG_DISCOVERY_REPORT_KIND *)
Definition CATALOG_DISCOVERY_REPORT_KIND : string := "catalog_discovery_report".
(* SRC engine/durability/resources/types.rs:19-19! CATALOG_DISCOVERY_REPORT_SCHEMA_ID *)
Definition CATALOG_DISCOVERY_REPORT_SCHEMA_ID : string :=
  "tron.resource.catalog_discovery_report.v1".
(* SRC engine/durability/resources/types.rs:21-21! APPROVAL_REQUEST_KIND *)
Definition APPROVAL_REQUEST_KIND : string := "approval_request".
(* SRC engine/durability/resources/types.rs:23-23! APPROVAL_REQUEST_SCHEMA_ID *)
Definition APPROVAL_REQUEST_SCHEMA_ID : string := "tron.resource.approval_request.v1".
(* SRC engine/durability/resources/types.rs:25-25! APPROVAL_DECISION_KIND *)
Definition APPROVAL_DECISION_KIND : string := "approval_decision".
(* SRC engine/durability/resources/types.rs:27-27! APPROVAL_DECISION_SCHEMA_ID *)
Definition APPROVAL_DECISION_SCHEMA_ID : string := "tron.resource.approval_decision.v1".
(* SRC engine/durability/resources/types.rs:29-29! MEMORY_ENGINE_KIND *)
Definition MEMORY_ENGINE_KIND : string := "memory_engine".
(* SRC engine/durability/resources/types.rs:31-31! MEMORY_ENGINE_SCHEMA_ID *)
Definition MEMORY_ENGINE_SCHEMA_ID : string := "tron.resource.memory_engine.v1".
(* SRC engine/durability/resources/types.rs:33-33! MEMORY_POLICY_KIND *)
Definition MEMORY_POLICY_KIND : string := "memory_policy".
(* SRC engine/durability/resources/types.rs:35-35! MEMORY_POLICY_SCHEMA_ID *)
Definition MEMORY_POLICY_SCHEMA_ID : string := "tron.resource.memory_policy.v1".
(* SRC engine/durability/resources/types.rs:37-37! MEMORY_RECORD_KIND *)
Definition MEMORY_RECORD_KIND : string := "memory_record".
(* SRC engine/durability/resources/types.rs:39-39! MEMORY_RECORD_SCHEMA_ID *)
Definition MEMORY_RECORD_SCHEMA_ID : string := "tron.resource.memory_record.v1".
(* SRC engine/durability/resources/types.rs:41-41! MEMORY_PROMPT_TRACE_KIND *)
Definition MEMORY_PROMPT_TRACE_KIND : string := "memory_prompt_trace".
(* SRC engine/durability/resources/types.rs:43-43! MEMORY_PROMPT_TRACE_SCHEMA_ID *)
Definition MEMORY_PROMPT_TRACE_SCHEMA_ID : string := "tron.resource.memory_prompt_trace.v1".
(* SRC engine/durability/resources/types.rs:45-45! MEMORY_QUERY_KIND *)
Definition MEMORY_QUERY_KIND : string := "memory_query".
(* SRC engine/durability/resources/types.rs:47-47! MEMORY_QUERY_SCHEMA_ID *)
Definition MEMORY_QUERY_SCHEMA_ID : string := "tron.resource.memory_query.v1".
(* SRC engine/durability/resources/types.rs:49-49! MEMORY_DECISION_KIND *)
Definition MEMORY_DECISION_KIND : string := "memory_decision".
(* SRC engine/durability/resources/types.rs:51-51! MEMORY_DECISION_SCHEMA_ID *)
Definition MEMORY_DECISION_SCHEMA_ID : string := "tron.resource.memory_decision.v1".
(* SRC engine/durability/resources/types.rs:53-53! MEMORY_EVAL_RUN_KIND *)
Definition MEMORY_EVAL_RUN_KIND : string := "memory_eval_run".
(* SRC engine/durability/resources/types.rs:55-55! MEMORY_EVAL_RUN_SCHEMA_ID *)
Definition MEMORY_EVAL_RUN_SCHEMA_ID : string := "tron.resource.memory_eval_run.v1".
(* SRC engine/durability/resources/types.rs:57-57! MEMORY_MIGRATION_ENVELOPE_KIND *)
Definition MEMORY_MIGRATION_ENVELOPE_KIND : string := "memory_migration_envelope".
(* SRC engine/durability/resources/types.rs:59-59! MEMORY_MIGRATION_ENVELOPE_SCHEMA_ID *)
Definition MEMORY_MIGRATION_ENVELOPE_SCHEMA_ID : string :=
  "tron.resource.memory_migration_envelope.v1".
(* SRC engine/durability/resources/types.rs:61-61! JOB_PROCESS_KIND *)
Definition JOB_PROCESS_KIND : string := "job_process".
(* SRC engine/durability/resources/types.rs:63-63! JOB_PROCESS_SCHEMA_ID *)
Definition JOB_PROCESS_SCHEMA_ID : string := "tron.resource.job_process.v1".
(* SRC engine/durability/resources/types.rs:65-65! USER_QUESTION_KIND *)
Definition USER_QUESTION_KIND : string := "user_question".
(* SRC engine/durability/resources/types.rs:67-67! USER_QUESTION_SCHEMA_ID *)
Definition USER_QUESTION_SCHEMA_ID : string := "tron.resource.user_question.v1".
(* SRC engine/durability/resources/types.rs:69-69! GOAL_ANSWER_KIND *)
Definition GOAL_ANSWER_KIND : string := "goal_answer".
(* SRC engine/durability/resources/types.rs:71-71! GOAL_ANSWER_SCHEMA_ID *)
Definition GOAL_ANSWER_SCHEMA_ID : string := "tron.resource.goal_answer.v1".
(* SRC engine/durability/resources/types.rs:73-73! GIT_INDEX_CHANGE_KIND *)
Definition GIT_INDEX_CHANGE_KIND : string := "git_index_change".
(* SRC engine/durability/resources/types.rs:75-75! GIT_INDEX_CHANGE_SCHEMA_ID *)
Definition GIT_INDEX_CHANGE_SCHEMA_ID : string := "tron.resource.git_index_change.v1".
(* SRC engine/durability/resources/types.rs:77-77! GIT_COMMIT_KIND *)
Definition GIT_COMMIT_KIND : string := "git_commit".
(* SRC engine/durability/resources/types.rs:79-79! GIT_COMMIT_SCHEMA_ID *)
Definition GIT_COMMIT_SCHEMA_ID : string := "tron.resource.git_commit.v1".
(* SRC engine/durability/resources/types.rs:81-81! GIT_BRANCH_START_KIND *)
Definition GIT_BRANCH_START_KIND : string := "git_branch_start".
(* SRC engine/durability/resources/types.rs:83-83! GIT_BRANCH_START_SCHEMA_ID *)
Definition GIT_BRANCH_START_SCHEMA_ID : string := "tron.resource.git_branch_start.v1".
(* SRC engine/durability/resources/types.rs:85-85! WEB_SOURCE_KIND *)
Definition WEB_SOURCE_KIND : string := "web_source".
(* SRC engine/durability/resources/types.rs:87-87! WEB_SOURCE_SCHEMA_ID *)
Definition WEB_SOURCE_SCHEMA_ID : string := "tron.resource.web_source.v1".
(* SRC engine/durability/resources/types.rs:89-89! WEB_ROBOTS_POLICY_KIND *)
Definition WEB_ROBOTS_POLICY_KIND : string := "web_robots_policy".
(* SRC engine/durability/resources/types.rs:91-91! WEB_ROBOTS_POLICY_SCHEMA_ID *)
Definition WEB_ROBOTS_POLICY_SCHEMA_ID : string := "tron.resource.web_robots_policy.v1".
(* SRC engine/durability/resources/types.rs:93-93! TOOL_SOURCE_PROPOSAL_KIND *)
Definition TOOL_SOURCE_PROPOSAL_KIND : string := "tool_source_proposal".
(* SRC engine/durability/resources/types.rs:95-95! TOOL_SOURCE_PROPOSAL_SCHEMA_ID *)
Definition TOOL_SOURCE_PROPOSAL_SCHEMA_ID : string := "tron.resource.tool_source_proposal.v1".
(* SRC engine/durability/resources/types.rs:97-97! TOOL_SOURCE_CONFORMANCE_REPORT_KIND *)
Definition TOOL_SOURCE_CONFORMANCE_REPORT_KIND : string := "tool_source_conformance_report".
(* SRC engine/durability/resources/types.rs:99-100! TOOL_SOURCE_CONFORMANCE_REPORT_SCHEMA_ID *)
Definition TOOL_SOURCE_CONFORMANCE_REPORT_SCHEMA_ID : string :=
  "tron.resource.tool_source_conformance_report.v1".
(* SRC engine/durability/resources/types.rs:102-102! SUBAGENT_TASK_KIND *)
Definition SUBAGENT_TASK_KIND : string := "subagent_task".
(* SRC engine/durability/resources/types.rs:104-104! SUBAGENT_TASK_SCHEMA_ID *)
Definition SUBAGENT_TASK_SCHEMA_ID : string := "tron.resource.subagent_task.v1".
(* SRC engine/durability/resources/types.rs:106-106! PROCEDURAL_RECORD_KIND *)
Definition PROCEDURAL_RECORD_KIND : string := "procedural_record".
(* SRC engine/durability/resources/types.rs:108-108! PROCEDURAL_RECORD_SCHEMA_ID *)
Definition PROCEDURAL_RECORD_SCHEMA_ID : string := "tron.resource.procedural_record.v1".
(* SRC engine/durability/resources/types.rs:110-110! PROCEDURAL_ACTIVATION_REQUEST_KIND *)
Definition PROCEDURAL_ACTIVATION_REQUEST_KIND : string := "procedural_activation_request".
(* SRC engine/durability/resources/types.rs:112-113! PROCEDURAL_ACTIVATION_REQUEST_SCHEMA_ID *)
Definition PROCEDURAL_ACTIVATION_REQUEST_SCHEMA_ID : string :=
  "tron.resource.procedural_activation_request.v1".
(* SRC engine/durability/resources/types.rs:115-115! PROCEDURAL_ACTIVATION_DECISION_KIND *)
Definition PROCEDURAL_ACTIVATION_DECISION_KIND : string := "procedural_activation_decision".
(* SRC engine/durability/resources/types.rs:117-118! PROCEDURAL_ACTIVATION_DECISION_SCHEMA_ID *)
Definition PROCEDURAL_ACTIVATION_DECISION_SCHEMA_ID : string :=
  "tron.resource.procedural_activation_decision.v1".
(* SRC engine/durability/resources/types.rs:120-120! SCHEDULE_KIND *)
Definition SCHEDULE_KIND : string := "schedule".
(* SRC engine/durability/resources/types.rs:122-122! SCHEDULE_SCHEMA_ID *)
Definition SCHEDULE_SCHEMA_ID : string := "tron.resource.schedule.v1".
(* SRC engine/durability/resources/types.rs:124-124! SCHEDULE_RUN_KIND *)
Definition SCHEDULE_RUN_KIND : string := "schedule_run".
(* SRC engine/durability/resources/types.rs:126-126! SCHEDULE_RUN_SCHEMA_ID *)
Definition SCHEDULE_RUN_SCHEMA_ID : string := "tron.resource.schedule_run.v1".
(* SRC engine/durability/resources/types.rs:128-128! DEVICE_REGISTRATION_KIND *)
Definition DEVICE_REGISTRATION_KIND : string := "device_registration".
(* SRC engine/durability/resources/types.rs:130-130! DEVICE_REGISTRATION_SCHEMA_ID *)
Definition DEVICE_REGISTRATION_SCHEMA_ID : string := "tron.resource.device_registration.v1".
(* SRC engine/durability/resources/types.rs:132-132! NOTIFICATION_KIND *)
Definition NOTIFICATION_KIND : string := "notification".
(* SRC engine/durability/resources/types.rs:134-134! NOTIFICATION_SCHEMA_ID *)
Definition NOTIFICATION_SCHEMA_ID : string := "tron.resource.notification.v1".
(* SRC engine/durability/resources/types.rs:136-136! NOTIFICATION_DELIVERY_KIND *)
Definition NOTIFICATION_DELIVERY_KIND : string := "notification_delivery".
(* SRC engine/durability/resources/types.rs:138-138! NOTIFICATION_DELIVERY_SCHEMA_ID *)
Definition NOTIFICATION_DELIVERY_SCHEMA_ID : string := "tron.resource.notification_delivery.v1".
(* SRC engine/durability/resources/types.rs:140-140! MEDIA_ARTIFACT_KIND *)
Definition MEDIA_ARTIFACT_KIND : string := "media_artifact".
(* SRC engine/durability/resources/types.rs:142-142! MEDIA_ARTIFACT_SCHEMA_ID *)
Definition MEDIA_ARTIFACT_SCHEMA_ID : string := "tron.resource.media_artifact.v1".
(* SRC engine/durability/resources/types.rs:144-144! IMPORT_HISTORY_RECORD_KIND *)
Definition IMPORT_HISTORY_RECORD_KIND : string := "import_history_record".
(* SRC engine/durability/resources/types.rs:146-146! IMPORT_HISTORY_RECORD_SCHEMA_ID *)
Definition IMPORT_HISTORY_RECORD_SCHEMA_ID : string := "tron.resource.import_history_record.v1".
(* SRC engine/durability/resources/types.rs:148-148! IMPORT_PREVIEW_KIND *)
Definition IMPORT_PREVIEW_KIND : string := "import_preview".
(* SRC engine/durability/resources/types.rs:150-150! IMPORT_PREVIEW_SCHEMA_ID *)
Definition IMPORT_PREVIEW_SCHEMA_ID : string := "tron.resource.import_preview.v1".
(* SRC engine/durability/resources/types.rs:152-152! PROGRAM_EXECUTION_KIND *)
Definition PROGRAM_EXECUTION_KIND : string := "program_execution_record".
(* SRC engine/durability/resources/types.rs:154-154! PROGRAM_EXECUTION_SCHEMA_ID *)
Definition PROGRAM_EXECUTION_SCHEMA_ID : string := "tron.resource.program_execution_record.v1".
(* SRC engine/durability/resources/types.rs:156-156! PROMPT_ARTIFACT_KIND *)
Definition PROMPT_ARTIFACT_KIND : string := "prompt_artifact".
(* SRC engine/durability/resources/types.rs:158-158! PROMPT_ARTIFACT_SCHEMA_ID *)
Definition PROMPT_ARTIFACT_SCHEMA_ID : string := "tron.resource.prompt_artifact.v1".
(* SRC engine/durability/resources/types.rs:160-160! REPOSITORY_TREE_SNAPSHOT_KIND *)
Definition REPOSITORY_TREE_SNAPSHOT_KIND : string := "repository_tree_snapshot".
(* SRC engine/durability/resources/types.rs:162-162! REPOSITORY_TREE_SNAPSHOT_SCHEMA_ID *)
Definition REPOSITORY_TREE_SNAPSHOT_SCHEMA_ID : string :=
  "tron.resource.repository_tree_snapshot.v1".
(* SRC engine/durability/resources/types.rs:164-164! UPDATE_DIAGNOSTIC_RECORD_KIND *)
Definition UPDATE_DIAGNOSTIC_RECORD_KIND : string := "update_diagnostic_record".
(* SRC engine/durability/resources/types.rs:166-166! UPDATE_DIAGNOSTIC_RECORD_SCHEMA_ID *)
Definition UPDATE_DIAGNOSTIC_RECORD_SCHEMA_ID : string :=
  "tron.resource.update_diagnostic_record.v1".
(* SRC engine/durability/resources/types.rs:168-168! MODULE_MANIFEST_KIND *)
Definition MODULE_MANIFEST_KIND : string := "module_manifest".
(* SRC engine/durability/resources/types.rs:170-170! MODULE_MANIFEST_SCHEMA_ID *)
Definition MODULE_MANIFEST_SCHEMA_ID : string := "tron.resource.module_manifest.v1".
(* SRC engine/durability/resources/types.rs:172-172! MODULE_PROPOSAL_KIND *)
Definition MODULE_PROPOSAL_KIND : string := "module_proposal".
(* SRC engine/durability/resources/types.rs:174-174! MODULE_PROPOSAL_SCHEMA_ID *)
Definition MODULE_PROPOSAL_SCHEMA_ID : string := "tron.resource.module_proposal.v1".
(* SRC engine/durability/resources/types.rs:176-176! MODULE_VALIDATION_REPORT_KIND *)
Definition MODULE_VALIDATION_REPORT_KIND : string := "module_validation_report".
(* SRC engine/durability/resources/types.rs:178-178! MODULE_VALIDATION_REPORT_SCHEMA_ID *)
Definition MODULE_VALIDATION_REPORT_SCHEMA_ID : string :=
  "tron.resource.module_validation_report.v1".
(* SRC engine/durability/resources/types.rs:180-180! MODULE_INSTALL_REQUEST_KIND *)
Definition MODULE_INSTALL_REQUEST_KIND : string := "module_install_request".
(* SRC engine/durability/resources/types.rs:182-182! MODULE_INSTALL_REQUEST_SCHEMA_ID *)
Definition MODULE_INSTALL_REQUEST_SCHEMA_ID : string :=
  "tron.resource.module_install_request.v1".
(* SRC engine/durability/resources/types.rs:184-184! MODULE_INSTALL_DECISION_KIND *)
Definition MODULE_INSTALL_DECISION_KIND : string := "module_install_decision".
(* SRC engine/durability/resources/types.rs:186-186! MODULE_INSTALL_DECISION_SCHEMA_ID *)
Definition MODULE_INSTALL_DECISION_SCHEMA_ID : string :=
  "tron.resource.module_install_decision.v1".
(* SRC engine/durability/resources/types.rs:188-188! MODULE_DEPENDENCY_REQUEST_KIND *)
Definition MODULE_DEPENDENCY_REQUEST_KIND : string := "module_dependency_request".
(* SRC engine/durability/resources/types.rs:190-190! MODULE_DEPENDENCY_REQUEST_SCHEMA_ID *)
Definition MODULE_DEPENDENCY_REQUEST_SCHEMA_ID : string :=
  "tron.resource.module_dependency_request.v1".
(* SRC engine/durability/resources/types.rs:192-192! MODULE_DEPENDENCY_DECISION_KIND *)
Definition MODULE_DEPENDENCY_DECISION_KIND : string := "module_dependency_decision".
(* SRC engine/durability/resources/types.rs:194-195! MODULE_DEPENDENCY_DECISION_SCHEMA_ID *)
Definition MODULE_DEPENDENCY_DECISION_SCHEMA_ID : string :=
  "tron.resource.module_dependency_decision.v1".
(* SRC engine/durability/resources/types.rs:197-197! MODULE_DEPENDENCY_POLICY_KIND *)
Definition MODULE_DEPENDENCY_POLICY_KIND : string := "module_dependency_policy".
(* SRC engine/durability/resources/types.rs:199-199! MODULE_DEPENDENCY_POLICY_SCHEMA_ID *)
Definition MODULE_DEPENDENCY_POLICY_SCHEMA_ID : string :=
  "tron.resource.module_dependency_policy.v1".
(* SRC engine/durability/resources/types.rs:201-201! MODULE_LIFECYCLE_STATE_KIND *)
Definition MODULE_LIFECYCLE_STATE_KIND : string := "module_lifecycle_state".
(* SRC engine/durability/resources/types.rs:203-203! MODULE_LIFECYCLE_STATE_SCHEMA_ID *)
Definition MODULE_LIFECYCLE_STATE_SCHEMA_ID : string :=
  "tron.resource.module_lifecycle_state.v1".
(* SRC engine/durability/resources/types.rs:205-205! MODULE_RUNTIME_STATE_KIND *)
Definition MODULE_RUNTIME_STATE_KIND : string := "module_runtime_state".
(* SRC engine/durability/resources/types.rs:207-207! MODULE_RUNTIME_STATE_SCHEMA_ID *)
Definition MODULE_RUNTIME_STATE_SCHEMA_ID : string := "tron.resource.module_runtime_state.v1".
(* SRC engine/durability/resources/types.rs:209-209! CONTEXT_CONTROL_SNAPSHOT_KIND *)
Definition CONTEXT_CONTROL_SNAPSHOT_KIND : string := "context_control_snapshot".
(* SRC engine/durability/resources/types.rs:211-211! CONTEXT_CONTROL_SNAPSHOT_SCHEMA_ID *)
Definition CONTEXT_CONTROL_SNAPSHOT_SCHEMA_ID : string :=
  "tron.resource.context_control_snapshot.v1".
(* SRC engine/durability/resources/types.rs:213-213! CONTEXT_CONTROL_ACTION_KIND *)
Definition CONTEXT_CONTROL_ACTION_KIND : string := "context_control_action".
(* SRC engine/durability/resources/types.rs:215-215! CONTEXT_CONTROL_ACTION_SCHEMA_ID *)
Definition CONTEXT_CONTROL_ACTION_SCHEMA_ID : string :=
  "tron.resource.context_control_action.v1".
(* SRC engine/durability/resources/types.rs:217-217! CONTEXT_CONTROL_EPOCH_KIND *)
Definition CONTEXT_CONTROL_EPOCH_KIND : string := "context_control_epoch".
(* SRC engine/durability/resources/types.rs:219-219! CONTEXT_CONTROL_EPOCH_SCHEMA_ID *)
Definition CONTEXT_CONTROL_EPOCH_SCHEMA_ID : string := "tron.resource.context_control_epoch.v1".
(* SRC engine/durability/resources/types.rs:221-221! WEB_RESEARCH_REQUEST_KIND *)
Definition WEB_RESEARCH_REQUEST_KIND : string := "web_research_request".
(* SRC engine/durability/resources/types.rs:223-223! WEB_RESEARCH_REQUEST_SCHEMA_ID *)
Definition WEB_RESEARCH_REQUEST_SCHEMA_ID : string := "tron.resource.web_research_request.v1".
(* SRC engine/durability/resources/types.rs:225-225! WEB_RESEARCH_REVIEW_KIND *)
Definition WEB_RESEARCH_REVIEW_KIND : string := "web_research_review".
(* SRC engine/durability/resources/types.rs:227-227! WEB_RESEARCH_REVIEW_SCHEMA_ID *)
Definition WEB_RESEARCH_REVIEW_SCHEMA_ID : string := "tron.resource.web_research_review.v1".
(* SRC engine/durability/resources/types.rs:229-229! WEB_RESEARCH_SOURCE_KIND *)
Definition WEB_RESEARCH_SOURCE_KIND : string := "web_research_source".
(* SRC engine/durability/resources/types.rs:231-231! WEB_RESEARCH_SOURCE_SCHEMA_ID *)
Definition WEB_RESEARCH_SOURCE_SCHEMA_ID : string := "tron.resource.web_research_source.v1".

(** ** Kinds of the collapsed substrate *)

(* SRC engine/durability/resources/definitions.rs:724-748! builtin_type *)
Definition builtin_type (kind : string) (schema_id : string) (schema : Value)
    (lifecycle_states : list string) (allowed_link_relations : list string)
    (required_capabilities : Value) : RegisterResourceType :=
  {| rt_kind := kind;
     rt_schema_id := schema_id;
     rt_schema := schema;
     rt_lifecycle_states := lifecycle_states;
     rt_versioning_mode := AppendOnly;
     rt_allowed_link_relations := allowed_link_relations;
     rt_default_retention := j{"class" ~> "project"};
     rt_redaction_rules := j{"preview" ~> "metadata_only"};
     rt_materialization_rules := j{"durableOutputsRequireResourceVersion" ~> true};
     rt_required_capabilities := required_capabilities;
     rt_owner_worker_id := "resource" |}.

(* SRC engine/durability/resources/definitions.rs:45-75! builtin_resource_type_definitions *)
Definition artifact_type : RegisterResourceType :=
  builtin_type "artifact" "tron.resource.artifact.v1"
    (j{"type" ~> "object"; "required" ~> j["title"; "body"]; "additionalProperties" ~> true;
       "properties" ~>
         j{"title" ~> j{"type" ~> "string"}; "body" ~> (VObject []);
           "format" ~> j{"type" ~> "string"}; "summary" ~> j{"type" ~> "string"};
           "metadata" ~> j{"type" ~> "object"} } })
    ["draft"; "promoted"; "discarded"; "archived"]
    ["input"; "produced"; "candidate_output"; "promoted_output"; "supported_by";
     "contradicted_by"; "supports"; "supersedes"; "evidence_for"; "derived_from"; "part_of"]
    (j{"read" ~> j["resource.read"]; "write" ~> j["resource.write"];
       "promote" ~> j["resource.write"]; "delete" ~> j["resource.write"] }).

(* SRC engine/durability/resources/definitions.rs:76-109! builtin_resource_type_definitions *)
Definition decision_type : RegisterResourceType :=
  builtin_type "decision" "tron.resource.decision.v1"
    (j{"type" ~> "object"; "required" ~> j["status"; "summary"];
       "additionalProperties" ~> true;
       "properties" ~>
         j{"status" ~> j{"type" ~> "string"}; "summary" ~> j{"type" ~> "string"};
           "promotedResources" ~> j{"type" ~> "array"; "items" ~> j{"type" ~> "string"} };
           "discardedResources" ~> j{"type" ~> "array"; "items" ~> j{"type" ~> "string"} };
           "metadata" ~> j{"type" ~> "object"} } }) ["draft"; "final"; "archived"]
    ["decides"; "promotes"; "discards"; "supports"; "supported_by"; "contradicted_by";
     "derived_from"; "revokes"; "supersedes"; "renewed_by"; "rotates_from"; "rotates_to";
     "enforces_revocation"; "evidence_for"]
    (j{"read" ~> j["resource.read"]; "write" ~> j["resource.write"] }).

(* SRC engine/durability/resources/definitions.rs:110-132! builtin_resource_type_definitions *)
Definition claim_type : RegisterResourceType :=
  builtin_type "claim" "tron.resource.claim.v1"
    (j{"type" ~> "object"; "required" ~> j["statement"]; "additionalProperties" ~> true;
       "properties" ~>
         j{"statement" ~> j{"type" ~> "string"}; "confidence" ~> j{"type" ~> "number"};
           "metadata" ~> j{"type" ~> "object"} } })
    ["draft"; "accepted"; "rejected"; "archived"]
    ["claims_about"; "supported_by"; "contradicted_by"; "contradicts"; "derived_from"]
    (j{"read" ~> j["resource.read"]; "write" ~> j["resource.write"] }).

(* SRC engine/durability/resources/definitions.rs:133-162! builtin_resource_type_definitions *)
Definition evidence_type : RegisterResourceType :=
  builtin_type "evidence" "tron.resource.evidence.v1"
    (j{"type" ~> "object"; "required" ~> j["summary"]; "additionalProperties" ~> true;
       "properties" ~>
         j{"summary" ~> j{"type" ~> "string"}; "source" ~> j{"type" ~> "string"};
           "resourceRef" ~> j{"type" ~> "string"}; "metadata" ~> j{"type" ~> "object"} } })
    ["draft"; "accepted"; "rejected"; "archived"]
    ["evidence_for"; "supported_by"; "contradicted_by"; "derived_from"; "supports";
     "revokes"; "supersedes"; "renewed_by"; "rotates_from"; "rotates_to";
     "enforces_revocation"]
    (j{"read" ~> j["resource.read"]; "write" ~> j["resource.write"] }).

(* SRC engine/durability/resources/definitions.rs:163-220! builtin_resource_type_definitions *)
Definition approval_request_type : RegisterResourceType :=
  builtin_type APPROVAL_REQUEST_KIND APPROVAL_REQUEST_SCHEMA_ID
    (j{"type" ~> "object";
       "required" ~>
         j["schemaVersion"; "state"; "requester"; "action"; "scope"; "riskClass"; "createdAt";
           "expiresAt"; "freshness"; "evidenceRefs"; "resourceSelectors"; "traceRefs";
           "replayRefs"; "denialBehavior"; "idempotency"; "revision"];
       "additionalProperties" ~> true;
       "properties" ~>
         j{"schemaVersion" ~> j{"type" ~> "string"};
           "state" ~>
             j{"type" ~> "string"; "enum" ~> j["pending"; "decided"; "expired"; "revoked"] };
           "requester" ~> j{"type" ~> "object"}; "action" ~> j{"type" ~> "object"};
           "scope" ~> j{"type" ~> "object"}; "riskClass" ~> j{"type" ~> "string"};
           "createdAt" ~> j{"type" ~> "string"}; "expiresAt" ~> j{"type" ~> "string"};
           "freshness" ~> j{"type" ~> "object"}; "evidenceRefs" ~> j{"type" ~> "array"};
           "resourceSelectors" ~> j{"type" ~> "array"}; "traceRefs" ~> j{"type" ~> "array"};
           "replayRefs" ~> j{"type" ~> "array"}; "denialBehavior" ~> j{"type" ~> "object"};
           "idempotency" ~> j{"type" ~> "object"}; "revision" ~> j{"type" ~> "object"} } })
    ["pending"; "decided"; "expired"; "revoked"; "archived"]
    ["requested_by"; "evidence_for"; "supported_by"; "derived_from"; "decided_by";
     "supersedes"; "revoked_by"]
    (j{"read" ~> j["approval.read"; "resource.read"];
       "write" ~> j["approval.write"; "resource.write"] }).

(* SRC engine/durability/resources/definitions.rs:221-281! builtin_resource_type_definitions *)
Definition approval_decision_type : RegisterResourceType :=
  builtin_type APPROVAL_DECISION_KIND APPROVAL_DECISION_SCHEMA_ID
    (j{"type" ~> "object";
       "required" ~>
         j["schemaVersion"; "requestResourceId"; "requestVersionId"; "state"; "decisionActor";
           "decidedAt"; "expiresAt"; "action"; "scope"; "riskClass"; "evidenceRefs";
           "resourceSelectors"; "traceRefs"; "replayRefs"; "denialBehavior"; "idempotency";
           "revision"];
       "additionalProperties" ~> true;
       "properties" ~>
         j{"schemaVersion" ~> j{"type" ~> "string"};
           "requestResourceId" ~> j{"type" ~> "string"};
           "requestVersionId" ~> j{"type" ~> "string"};
           "state" ~> j{"type" ~> "string"; "enum" ~> j["approved"; "denied"; "revoked"] };
           "decisionActor" ~> j{"type" ~> "object"}; "decidedAt" ~> j{"type" ~> "string"};
           "expiresAt" ~> j{"type" ~> "string"}; "freshnessUntil" ~> j{"type" ~> "string"};
           "action" ~> j{"type" ~> "object"}; "scope" ~> j{"type" ~> "object"};
           "riskClass" ~> j{"type" ~> "string"}; "evidenceRefs" ~> j{"type" ~> "array"};
           "resourceSelectors" ~> j{"type" ~> "array"}; "traceRefs" ~> j{"type" ~> "array"};
           "replayRefs" ~> j{"type" ~> "array"}; "denialBehavior" ~> j{"type" ~> "object"};
           "idempotency" ~> j{"type" ~> "object"}; "revision" ~> j{"type" ~> "object"} } })
    ["approved"; "denied"; "revoked"; "expired"; "archived"]
    ["decision_for"; "requested_by"; "evidence_for"; "supported_by"; "derived_from";
     "supersedes"; "revokes"]
    (j{"read" ~> j["approval.read"; "resource.read"];
       "write" ~> j["approval.write"; "resource.write"] }).

(* SRC engine/durability/resources/definitions.rs:282-322! builtin_resource_type_definitions *)
Definition catalog_discovery_report_type : RegisterResourceType :=
  builtin_type CATALOG_DISCOVERY_REPORT_KIND CATALOG_DISCOVERY_REPORT_SCHEMA_ID
    (j{"type" ~> "object";
       "required" ~>
         j["schemaVersion"; "status"; "catalogRevision"; "summary"; "checks"; "protected"];
       "additionalProperties" ~> true;
       "properties" ~>
         j{"schemaVersion" ~> j{"type" ~> "string"}; "status" ~> j{"type" ~> "string"};
           "catalogRevision" ~> j{"type" ~> "integer"}; "reason" ~> j{"type" ~> "string"};
           "actor" ~> j{"type" ~> "object"}; "summary" ~> j{"type" ~> "object"};
           "checks" ~> j{"type" ~> "array"}; "visible" ~> j{"type" ~> "object"};
           "protected" ~> j{"type" ~> "object"}; "resourceEvidence" ~> j{"type" ~> "object"} } })
    ["passed"; "failed"; "quarantined"; "archived"]
    ["evidence_for"; "derived_from"; "supersedes"; "supports"; "supported_by"; "renders"]
    (j{"read" ~> j["catalog_discovery.read"; "resource.read"];
       "write" ~> j["catalog_discovery.write"; "resource.write"] }).

(* SRC engine/durability/resources/definitions.rs:323-353! builtin_resource_type_definitions *)
Definition ui_surface_type : RegisterResourceType :=
  builtin_type UI_SURFACE_KIND UI_SURFACE_SCHEMA_ID (ui_surface_schema)
    ["draft"; "active"; "superseded"; "expired"; "discarded"; "damaged"]
    ["input"; "produced"; "candidate_output"; "promoted_output"; "decided_by";
     "supported_by"; "contradicted_by"; "supersedes"; "derived_from"; "renders"; "acts_on"]
    (j{"read" ~> j["ui.read"; "resource.read"]; "write" ~> j["ui.write"; "resource.write"];
       "delete" ~> j["ui.write"; "resource.write"] }).

(* SRC engine/durability/resources/definitions.rs:354-389! builtin_resource_type_definitions *)
Definition materialized_file_type : RegisterResourceType :=
  builtin_type "materialized_file" "tron.resource.materialized_file.v1"
    (j{"type" ~> "object";
       "required" ~>
         j["canonicalPath"; "relativePath"; "entryType"; "contentHash"; "sizeBytes"];
       "additionalProperties" ~> true;
       "properties" ~>
         j{"canonicalPath" ~> j{"type" ~> "string"}; "relativePath" ~> j{"type" ~> "string"};
           "entryType" ~> j{"type" ~> "string"; "enum" ~> j["file"; "directory"] };
           "content" ~> j{"type" ~> "string"}; "contentHash" ~> j{"type" ~> "string"};
           "sizeBytes" ~> j{"type" ~> "integer"}; "mimeType" ~> j{"type" ~> "string"};
           "metadata" ~> j{"type" ~> "object"} } })
    ["draft"; "materialized"; "promoted"; "discarded"; "damaged"; "quarantined"; "archived"]
    ["applies_patch"; "derived_from"; "materializes"; "produced"; "promoted_output"]
    (j{"read" ~> j["resource.read"]; "write" ~> j["resource.write"];
       "promote" ~> j["resource.write"]; "delete" ~> j["resource.write"] }).

(* SRC engine/durability/resources/definitions.rs:390-423! builtin_resource_type_definitions *)
Definition patch_proposal_type : RegisterResourceType :=
  builtin_type "patch_proposal" "tron.resource.patch_proposal.v1"
    (j{"type" ~> "object"; "required" ~> j["targetPath"; "diff"; "status"];
       "additionalProperties" ~> true;
       "properties" ~>
         j{"targetPath" ~> j{"type" ~> "string"}; "targetResourceId" ~> j{"type" ~> "string"};
           "baseVersionId" ~> j{"type" ~> "string"};
           "baseContentHash" ~> j{"type" ~> "string"}; "diff" ~> j{"type" ~> "string"};
           "status" ~> j{"type" ~> "string"}; "result" ~> j{"type" ~> "object"} } })
    ["proposed"; "applied"; "merged"; "rejected"; "discarded"; "archived"]
    ["applies_to"; "produces"; "produced"; "derived_from"; "promoted_output"]
    (j{"read" ~> j["resource.read"]; "write" ~> j["resource.write"];
       "apply" ~> j["resource.write"] }).

(* SRC engine/durability/resources/definitions.rs:424-446! builtin_resource_type_definitions *)
Definition execution_output_type : RegisterResourceType :=
  builtin_type "execution_output" "tron.resource.execution_output.v1"
    (j{"type" ~> "object";
       "required" ~> j["exitCode"; "durationMs"; "timedOut"; "outputTruncated"];
       "additionalProperties" ~> true;
       "properties" ~>
         j{"stdoutPreview" ~> j{"type" ~> "string"}; "stderrPreview" ~> j{"type" ~> "string"};
           "logPreview" ~> j{"type" ~> "string"}; "exitCode" ~> j{"type" ~> "integer"};
           "durationMs" ~> j{"type" ~> "integer"}; "timedOut" ~> j{"type" ~> "boolean"};
           "outputTruncated" ~> j{"type" ~> "boolean"};
           "redactionPolicy" ~> j{"type" ~> "object"}; "metadata" ~> j{"type" ~> "object"} } })
    ["retained"; "discarded"; "archived"] ["produced_by"; "produced"; "derived_from"]
    (j{"read" ~> j["resource.read"]; "write" ~> j["resource.write"] }).

(* SRC engine/durability/resources/definitions.rs:447-474! builtin_resource_type_definitions *)
Definition agent_result_type : RegisterResourceType :=
  builtin_type "agent_result" "tron.resource.agent_result.v1"
    (j{"type" ~> "object"; "required" ~> j["message"; "stopReason"];
       "additionalProperties" ~> true;
       "properties" ~>
         j{"message" ~> j{"type" ~> "string"}; "promotedRefs" ~> j{"type" ~> "array"};
           "decisionRefs" ~> j{"type" ~> "array"}; "subgoalRefs" ~> j{"type" ~> "array"};
           "stopReason" ~> j{"type" ~> "string"}; "tokenUsage" ~> j{"type" ~> "object"};
           "metadata" ~> j{"type" ~> "object"} } })
    ["final"; "interrupted"; "discarded"; "archived"]
    ["answers"; "decides"; "promotes"; "supports"; "produced"; "derived_from"]
    (j{"read" ~> j["resource.read"]; "write" ~> j["resource.write"] }).

(* SRC engine/durability/resources/definitions.rs:475-543! builtin_resource_type_definitions *)
Definition worker_package_type : RegisterResourceType :=
  builtin_type "worker_package" "tron.resource.worker_package.v1"
    (j{"type" ~> "object";
       "required" ~>
         j["schemaVersion"; "packageId"; "packageVersion"; "packageDigest"; "provenance";
           "source"; "workerId"; "namespaceClaims"; "launchCommand"; "workingDirectory";
           "envAllowlist"; "expectedFunctions"; "expectedTriggers"; "requestedGrants";
           "conformancePolicy"; "rollbackPolicy"; "status"];
       "additionalProperties" ~> true;
       "properties" ~>
         j{"schemaVersion" ~> j{"type" ~> "string"}; "packageId" ~> j{"type" ~> "string"};
           "packageVersion" ~> j{"type" ~> "string"};
           "packageDigest" ~> j{"type" ~> "string"}; "provenance" ~> j{"type" ~> "object"};
           "source" ~> j{"type" ~> "object"}; "workerId" ~> j{"type" ~> "string"};
           "namespaceClaims" ~> j{"type" ~> "array"; "items" ~> j{"type" ~> "string"} };
           "launchCommand" ~> j{"type" ~> "array"; "items" ~> j{"type" ~> "string"} };
           "workingDirectory" ~> j{"type" ~> "string"};
           "envAllowlist" ~> j{"type" ~> "array"; "items" ~> j{"type" ~> "string"} };
           "expectedFunctions" ~> j{"type" ~> "array"; "items" ~> j{"type" ~> "string"} };
           "expectedTriggers" ~> j{"type" ~> "array"; "items" ~> j{"type" ~> "string"} };
           "requestedGrants" ~> j{"type" ~> "object"};
           "conformancePolicy" ~> j{"type" ~> "object"};
           "rollbackPolicy" ~> j{"type" ~> "object"}; "status" ~> j{"type" ~> "string"} } })
    ["proposed"; "installed"; "enabled"; "disabled"; "launching"; "running"; "unhealthy";
     "failed"; "retired"]
    ["installation"; "proposal"; "launch_attempt"; "conformance_report"; "supersedes";
     "rollback_of"; "retired_by"; "derived_from"; "evidence_for"]
    (j{"read" ~> j["worker.lifecycle.read"; "resource.read"];
       "write" ~> j["worker.lifecycle.write"; "resource.write"] }).

(* SRC engine/durability/resources/definitions.rs:544-586! builtin_resource_type_definitions *)
Definition worker_package_installation_type : RegisterResourceType :=
  builtin_type "worker_package_installation" "tron.resource.worker_package_installation.v1"
    (j{"type" ~> "object";
       "required" ~> j["packageId"; "packageVersion"; "packageDigest"; "workerId"; "status"];
       "additionalProperties" ~> true;
       "properties" ~>
         j{"packageId" ~> j{"type" ~> "string"}; "packageVersion" ~> j{"type" ~> "string"};
           "packageDigest" ~> j{"type" ~> "string"}; "workerId" ~> j{"type" ~> "string"};
           "packageResourceId" ~> j{"type" ~> "string"}; "status" ~> j{"type" ~> "string"};
           "installedAt" ~> j{"type" ~> "string"}; "enabledAt" ~> j{"type" ~> "string"};
           "disabledAt" ~> j{"type" ~> "string"}; "retiredAt" ~> j{"type" ~> "string"};
           "reason" ~> j{"type" ~> "string"}; "authorityGrantId" ~> j{"type" ~> "string"};
           "rollbackRef" ~> j{"type" ~> "object"} } })
    ["installed"; "enabled"; "disabled"; "launching"; "running"; "unhealthy"; "failed";
     "retired"]
    ["package"; "launch_attempt"; "conformance_report"; "supersedes"; "rollback_of";
     "evidence_for"]
    (j{"read" ~> j["worker.lifecycle.read"; "resource.read"];
       "write" ~> j["worker.lifecycle.write"; "resource.write"] }).

(* SRC engine/durability/resources/definitions.rs:587-608! builtin_resource_type_definitions *)
Definition worker_package_proposal_type : RegisterResourceType :=
  builtin_type "worker_package_proposal" "tron.resource.worker_package_proposal.v1"
    (j{"type" ~> "object";
       "required" ~> j["packageId"; "packageVersion"; "summary"; "status"];
       "additionalProperties" ~> true;
       "properties" ~>
         j{"packageId" ~> j{"type" ~> "string"}; "packageVersion" ~> j{"type" ~> "string"};
           "summary" ~> j{"type" ~> "string"}; "status" ~> j{"type" ~> "string"};
           "manifest" ~> j{"type" ~> "object"}; "proposedBy" ~> j{"type" ~> "string"};
           "createdAt" ~> j{"type" ~> "string"}; "authorityGrantId" ~> j{"type" ~> "string"} } })
    ["proposed"; "accepted"; "rejected"; "discarded"; "archived"]
    ["package"; "derived_from"; "evidence_for"]
    (j{"read" ~> j["worker.lifecycle.read"; "resource.read"];
       "write" ~> j["worker.lifecycle.propose"; "resource.write"] }).

(* SRC engine/durability/resources/definitions.rs:609-630! builtin_resource_type_definitions *)
Definition worker_package_conformance_report_type : RegisterResourceType :=
  builtin_type "worker_package_conformance_report"
    "tron.resource.worker_package_conformance_report.v1"
    (j{"type" ~> "object";
       "required" ~> j["packageId"; "packageVersion"; "workerId"; "status"; "checks"];
       "additionalProperties" ~> true;
       "properties" ~>
         j{"packageId" ~> j{"type" ~> "string"}; "packageVersion" ~> j{"type" ~> "string"};
           "workerId" ~> j{"type" ~> "string"}; "status" ~> j{"type" ~> "string"};
           "checks" ~> j{"type" ~> "array"};
           "launchAttemptResourceId" ~> j{"type" ~> "string"};
           "catalogRevision" ~> j{"type" ~> "integer"}; "createdAt" ~> j{"type" ~> "string"} } })
    ["passed"; "failed"; "quarantined"; "archived"]
    ["package"; "installation"; "launch_attempt"; "evidence_for"]
    (j{"read" ~> j["worker.lifecycle.read"; "resource.read"];
       "write" ~> j["worker.lifecycle.write"; "resource.write"] }).

(* SRC engine/durability/resources/definitions.rs:631-669! builtin_resource_type_definitions *)
Definition worker_launch_attempt_type : RegisterResourceType :=
  builtin_type "worker_launch_attempt" "tron.resource.worker_launch_attempt.v1"
    (j{"type" ~> "object";
       "required" ~>
         j["packageId"; "packageVersion"; "workerId"; "status"; "argv"; "endpoint"];
       "additionalProperties" ~> true;
       "properties" ~>
         j{"packageId" ~> j{"type" ~> "string"}; "packageVersion" ~> j{"type" ~> "string"};
           "workerId" ~> j{"type" ~> "string"}; "status" ~> j{"type" ~> "string"};
           "argv" ~> j{"type" ~> "array"; "items" ~> j{"type" ~> "string"} };
           "workingDirectory" ~> j{"type" ~> "string"};
           "envKeys" ~> j{"type" ~> "array"; "items" ~> j{"type" ~> "string"} };
           "endpoint" ~> j{"type" ~> "string"}; "tokenGrantId" ~> j{"type" ~> "string"};
           "processId" ~> j{"type" ~> "integer"}; "launchedAt" ~> j{"type" ~> "string"};
           "stoppedAt" ~> j{"type" ~> "string"}; "failure" ~> j{"type" ~> "object"} } })
    ["launching"; "running"; "stopped"; "failed"; "unhealthy"; "retired"]
    ["package"; "installation"; "conformance_report"; "evidence_for"]
    (j{"read" ~> j["worker.lifecycle.read"; "resource.read"];
       "write" ~> j["worker.lifecycle.write"; "resource.write"] }).

(* SRC engine/durability/resources/definitions.rs:43-44! builtin_resource_type_definitions *)
Definition substrate_resource_type_definitions : list RegisterResourceType :=
  [artifact_type; decision_type; claim_type; evidence_type; approval_request_type;
   approval_decision_type; catalog_discovery_report_type; ui_surface_type;
   materialized_file_type; patch_proposal_type; execution_output_type; agent_result_type;
   worker_package_type; worker_package_installation_type; worker_package_proposal_type;
   worker_package_conformance_report_type; worker_launch_attempt_type].
