(* ===== verification/DomainKinds.v ===== *)
(** * Resource kinds of the domains

    The kinds that domains own, one section per definition file of
    [durability/resources]. *)

From stdpp Require Import base strings list.
From Stdlib Require Import ZArith String.
From S2P Require Import Prelude Json Kernel Schema UiSurface Resources BuiltinKinds.
Import JsonNotations.

#[local] Open Scope Z_scope.


(** ** Git *)

(* SRC engine/durability/resources/git_definitions.rs:20-84! git_index_change_definition *)
Definition git_index_change_definition : RegisterResourceType :=
  {| rt_kind := GIT_INDEX_CHANGE_KIND;
     rt_schema_id := GIT_INDEX_CHANGE_SCHEMA_ID;
     rt_schema :=
        j{"type" ~> "object";
          "required" ~>
            j["schemaVersion"; "operation"; "state"; "repository"; "path"; "expectedHead";
              "headOid"; "reason"; "authority"; "before"; "after"; "evidence"; "traceRefs";
              "replayRefs"; "idempotency"; "revision"; "createdAt"];
          "additionalProperties" ~> true;
          "properties" ~>
            j{"schemaVersion" ~> j{"type" ~> "string"};
              "operation" ~> j{"type" ~> "string"; "enum" ~> j["stage"; "unstage"] };
              "state" ~> j{"type" ~> "string"; "enum" ~> j["committed"; "archived"] };
              "repository" ~> j{"type" ~> "object"}; "path" ~> j{"type" ~> "object"};
              "expectedHead" ~> j{"type" ~> "string"}; "headOid" ~> j{"type" ~> "string"};
              "reason" ~> j{"type" ~> "string"}; "authority" ~> j{"type" ~> "object"};
              "before" ~> j{"type" ~> "object"}; "after" ~> j{"type" ~> "object"};
              "evidence" ~> j{"type" ~> "object"}; "traceRefs" ~> j{"type" ~> "array"};
              "replayRefs" ~> j{"type" ~> "array"}; "idempotency" ~> j{"type" ~> "object"};
              "revision" ~> j{"type" ~> "integer"}; "createdAt" ~> j{"type" ~> "string"} } };
     rt_lifecycle_states := ["committed"; "archived"];
     rt_versioning_mode := AppendOnly;
     rt_allowed_link_relations := ["evidence_for"; "derived_from"; "supersedes"];
     rt_default_retention := j{"class" ~> "project"};
     rt_redaction_rules := j{"preview" ~> "metadata_only"};
     rt_materialization_rules := j{"durableOutputsRequireResourceVersion" ~> true};
     rt_required_capabilities :=
        j{"read" ~> j["git.read"; "resource.read"];
          "write" ~> j["git.write"; "resource.write"] };
     rt_owner_worker_id := "resource" |}.

(* SRC engine/durability/resources/git_definitions.rs:86-158! git_commit_definition *)
Definition git_commit_definition : RegisterResourceType :=
  {| rt_kind := GIT_COMMIT_KIND;
     rt_schema_id := GIT_COMMIT_SCHEMA_ID;
     rt_schema :=
        j{"type" ~> "object";
          "required" ~>
            j["schemaVersion"; "operation"; "state"; "repository"; "branch"; "parentOid";
              "expectedHead"; "expectedIndexTree"; "actualTree"; "commitOid"; "message";
              "reason"; "authority"; "before"; "after"; "evidence"; "traceRefs"; "replayRefs";
              "idempotency"; "revision"; "createdAt"];
          "additionalProperties" ~> true;
          "properties" ~>
            j{"schemaVersion" ~> j{"type" ~> "string"};
              "operation" ~> j{"type" ~> "string"; "enum" ~> j["commit"] };
              "state" ~> j{"type" ~> "string"; "enum" ~> j["committed"; "archived"] };
              "repository" ~> j{"type" ~> "object"}; "branch" ~> j{"type" ~> "string"};
              "parentOid" ~> j{"type" ~> "string"}; "expectedHead" ~> j{"type" ~> "string"};
              "expectedIndexTree" ~> j{"type" ~> "string"};
              "actualTree" ~> j{"type" ~> "string"}; "commitOid" ~> j{"type" ~> "string"};
              "message" ~> j{"type" ~> "object"}; "reason" ~> j{"type" ~> "string"};
              "authority" ~> j{"type" ~> "object"}; "before" ~> j{"type" ~> "object"};
              "after" ~> j{"type" ~> "object"}; "evidence" ~> j{"type" ~> "object"};
              "traceRefs" ~> j{"type" ~> "array"}; "replayRefs" ~> j{"type" ~> "array"};
              "idempotency" ~> j{"type" ~> "object"}; "revision" ~> j{"type" ~> "integer"};
              "createdAt" ~> j{"type" ~> "string"} } };
     rt_lifecycle_states := ["committed"; "archived"];
     rt_versioning_mode := AppendOnly;
     rt_allowed_link_relations := ["evidence_for"; "derived_from"; "supersedes"];
     rt_default_retention := j{"class" ~> "project"};
     rt_redaction_rules := j{"preview" ~> "metadata_only"};
     rt_materialization_rules := j{"durableOutputsRequireResourceVersion" ~> true};
     rt_required_capabilities :=
        j{"read" ~> j["git.read"; "resource.read"];
          "write" ~> j["git.write"; "resource.write"] };
     rt_owner_worker_id := "resource" |}.

(* SRC engine/durability/resources/git_definitions.rs:160-226! git_branch_start_definition *)
Definition git_branch_start_definition : RegisterResourceType :=
  {| rt_kind := GIT_BRANCH_START_KIND;
     rt_schema_id := GIT_BRANCH_START_SCHEMA_ID;
     rt_schema :=
        j{"type" ~> "object";
          "required" ~>
            j["schemaVersion"; "operation"; "state"; "repository"; "branchName";
              "previousBranch"; "expectedHead"; "headOid"; "reason"; "authority"; "before";
              "after"; "evidence"; "traceRefs"; "replayRefs"; "idempotency"; "revision";
              "createdAt"];
          "additionalProperties" ~> true;
          "properties" ~>
            j{"schemaVersion" ~> j{"type" ~> "string"};
              "operation" ~> j{"type" ~> "string"; "enum" ~> j["branch_start"] };
              "state" ~> j{"type" ~> "string"; "enum" ~> j["started"; "archived"] };
              "repository" ~> j{"type" ~> "object"}; "branchName" ~> j{"type" ~> "string"};
              "previousBranch" ~> j{"type" ~> "string"};
              "expectedHead" ~> j{"type" ~> "string"}; "headOid" ~> j{"type" ~> "string"};
              "reason" ~> j{"type" ~> "string"}; "authority" ~> j{"type" ~> "object"};
              "before" ~> j{"type" ~> "object"}; "after" ~> j{"type" ~> "object"};
              "evidence" ~> j{"type" ~> "object"}; "traceRefs" ~> j{"type" ~> "array"};
              "replayRefs" ~> j{"type" ~> "array"}; "idempotency" ~> j{"type" ~> "object"};
              "revision" ~> j{"type" ~> "integer"}; "createdAt" ~> j{"type" ~> "string"} } };
     rt_lifecycle_states := ["started"; "archived"];
     rt_versioning_mode := AppendOnly;
     rt_allowed_link_relations := ["evidence_for"; "derived_from"; "supersedes"];
     rt_default_retention := j{"class" ~> "project"};
     rt_redaction_rules := j{"preview" ~> "metadata_only"};
     rt_materialization_rules := j{"durableOutputsRequireResourceVersion" ~> true};
     rt_required_capabilities :=
        j{"read" ~> j["git.read"; "resource.read"];
          "write" ~> j["git.write"; "resource.write"] };
     rt_owner_worker_id := "resource" |}.

(* SRC engine/durability/resources/git_definitions.rs:12-18! git_resource_type_definitions *)
Definition git_resource_type_definitions : list RegisterResourceType :=
  [git_index_change_definition; git_commit_definition; git_branch_start_definition].

(** ** Goal *)

(* SRC engine/durability/resources/goal_definitions.rs:13-83! goal_question_resource_type_definitions *)
Definition goal_type : RegisterResourceType :=
  {| rt_kind := "goal";
     rt_schema_id := "tron.resource.goal.v1";
     rt_schema :=
        j{"type" ~> "object"; "required" ~> j["intent"]; "additionalProperties" ~> true;
          "properties" ~>
            j{"intent" ~> j{"type" ~> "string"};
              "successCriteria" ~> j{"type" ~> "array"; "items" ~> j{"type" ~> "string"} };
              "inputResources" ~> j{"type" ~> "array"; "items" ~> j{"type" ~> "string"} };
              "expectedOutputKinds" ~> j{"type" ~> "array"; "items" ~> j{"type" ~> "string"} };
              "objective" ~> j{"type" ~> "string"}; "owner" ~> j{"type" ~> "object"};
              "scope" ~> j{"type" ~> "object"}; "constraints" ~> j{"type" ~> "object"};
              "queueRefs" ~> j{"type" ~> "array"}; "planRefs" ~> j{"type" ~> "array"};
              "evidenceRefs" ~> j{"type" ~> "array"}; "traceRefs" ~> j{"type" ~> "array"};
              "replayRefs" ~> j{"type" ~> "array"}; "createdAt" ~> j{"type" ~> "string"};
              "updatedAt" ~> j{"type" ~> "string"};
              "cancellation" ~> j{"type" ~> j["object"; "null"] };
              "revision" ~> j{"type" ~> "integer"}; "riskBudget" ~> j{"type" ~> "object"};
              "authorityPolicy" ~> j{"type" ~> "object"};
              "retentionPolicy" ~> j{"type" ~> "object"};
              "completionCondition" ~> j{"type" ~> "string"} } };
     rt_lifecycle_states := ["open"; "in_progress"; "completed"; "failed"; "cancelled"; "archived"];
     rt_versioning_mode := AppendOnly;
     rt_allowed_link_relations :=
        ["input"; "subgoal"; "produced"; "produces"; "candidate_output"; "promoted_output";
     "decided_by"; "supported_by"; "contradicted_by"; "supersedes"; "derived_from"; "blocks";
     "answered_by"];
     rt_default_retention := j{"class" ~> "project"};
     rt_redaction_rules := j{"summary" ~> true};
     rt_materialization_rules := (VObject []);
     rt_required_capabilities :=
        j{"read" ~> j["resource.read"]; "write" ~> j["resource.write"];
          "complete" ~> j["resource.write"] };
     rt_owner_worker_id := "resource" |}.

(* SRC engine/durability/resources/goal_definitions.rs:84-142! goal_question_resource_type_definitions *)
Definition user_question_type : RegisterResourceType :=
  {| rt_kind := USER_QUESTION_KIND;
     rt_schema_id := USER_QUESTION_SCHEMA_ID;
     rt_schema :=
        j{"type" ~> "object";
          "required" ~>
            j["schemaVersion"; "state"; "prompt"; "requester"; "scope"; "createdAt";
              "queueRefs"; "evidenceRefs"; "traceRefs"; "replayRefs"; "revision"];
          "additionalProperties" ~> true;
          "properties" ~>
            j{"schemaVersion" ~> j{"type" ~> "string"};
              "state" ~>
                j{"type" ~> "string";
                  "enum" ~> j["pending"; "answered"; "expired"; "cancelled"] };
              "prompt" ~> j{"type" ~> "string"}; "requester" ~> j{"type" ~> "object"};
              "scope" ~> j{"type" ~> "object"};
              "goalRef" ~> j{"type" ~> j["object"; "null"] };
              "options" ~> j{"type" ~> "array"}; "allowFreeForm" ~> j{"type" ~> "boolean"};
              "expiresAt" ~> j{"type" ~> j["string"; "null"] };
              "createdAt" ~> j{"type" ~> "string"};
              "answeredAt" ~> j{"type" ~> j["string"; "null"] };
              "cancelledAt" ~> j{"type" ~> j["string"; "null"] };
              "answer" ~> j{"type" ~> j["object"; "null"] };
              "queueRefs" ~> j{"type" ~> "array"}; "evidenceRefs" ~> j{"type" ~> "array"};
              "traceRefs" ~> j{"type" ~> "array"}; "replayRefs" ~> j{"type" ~> "array"};
              "revision" ~> j{"type" ~> "integer"} } };
     rt_lifecycle_states := ["pending"; "answered"; "expired"; "cancelled"; "archived"];
     rt_versioning_mode := AppendOnly;
     rt_allowed_link_relations := ["blocks"; "answered_by"; "evidence_for"; "derived_from"];
     rt_default_retention := j{"class" ~> "project"};
     rt_redaction_rules := j{"preview" ~> "bounded_prompt_and_answer_refs"};
     rt_materialization_rules := j{"durableOutputsRequireResourceVersion" ~> true};
     rt_required_capabilities :=
        j{"read" ~> j["goals.read"; "resource.read"];
          "write" ~> j["goals.write"; "resource.write"];
          "answer" ~> j["goals.write"; "resource.write"] };
     rt_owner_worker_id := "resource" |}.

(* SRC engine/durability/resources/goal_definitions.rs:143-203! goal_question_resource_type_definitions *)
Definition goal_answer_type : RegisterResourceType :=
  {| rt_kind := GOAL_ANSWER_KIND;
     rt_schema_id := GOAL_ANSWER_SCHEMA_ID;
     rt_schema :=
        j{"type" ~> "object";
          "required" ~>
            j["schemaVersion"; "questionResourceId"; "questionVersionId"; "answerText";
              "actor"; "reason"; "authority"; "freshness"; "unblocksGoal"; "evidenceRefs";
              "traceRefs"; "replayRefs"; "idempotency"; "answeredAt"; "revision"];
          "additionalProperties" ~> true;
          "properties" ~>
            j{"schemaVersion" ~> j{"type" ~> "string"};
              "questionResourceId" ~> j{"type" ~> "string"};
              "questionVersionId" ~> j{"type" ~> "string"};
              "goalRef" ~> j{"type" ~> j["object"; "null"] };
              "answerText" ~> j{"type" ~> "string"};
              "answerTextTruncated" ~> j{"type" ~> "boolean"};
              "actor" ~> j{"type" ~> "object"}; "reason" ~> j{"type" ~> "string"};
              "authority" ~> j{"type" ~> "object"}; "freshness" ~> j{"type" ~> "object"};
              "unblocksGoal" ~> j{"type" ~> "boolean"};
              "evidenceRefs" ~> j{"type" ~> "array"}; "traceRefs" ~> j{"type" ~> "array"};
              "replayRefs" ~> j{"type" ~> "array"}; "idempotency" ~> j{"type" ~> "object"};
              "answeredAt" ~> j{"type" ~> "string"}; "revision" ~> j{"type" ~> "integer"} } };
     rt_lifecycle_states := ["recorded"; "archived"];
     rt_versioning_mode := AppendOnly;
     rt_allowed_link_relations := ["answer_for"; "unblocks"; "evidence_for"; "derived_from"];
     rt_default_retention := j{"class" ~> "project"};
     rt_redaction_rules := j{"preview" ~> "bounded_answer_text"};
     rt_materialization_rules := j{"durableOutputsRequireResourceVersion" ~> true};
     rt_required_capabilities :=
        j{"read" ~> j["goals.read"; "resource.read"];
          "write" ~> j["goals.write"; "resource.write"] };
     rt_owner_worker_id := "resource" |}.

(* SRC engine/durability/resources/goal_definitions.rs:11-12! goal_question_resource_type_definitions *)
Definition goal_question_resource_type_definitions : list RegisterResourceType :=
  [goal_type; user_question_type; goal_answer_type].

(** ** Job *)

(* SRC engine/durability/resources/job_definitions.rs:11-80! job_resource_type_definitions *)
Definition job_process_type : RegisterResourceType :=
  {| rt_kind := JOB_PROCESS_KIND;
     rt_schema_id := JOB_PROCESS_SCHEMA_ID;
     rt_schema :=
        j{"type" ~> "object";
          "required" ~>
            j["schemaVersion"; "state"; "command"; "authority"; "limits"; "retention";
              "createdAt"; "startedAt"; "traceRefs"; "replayRefs"; "revision"];
          "additionalProperties" ~> true;
          "properties" ~>
            j{"schemaVersion" ~> j{"type" ~> "string"};
              "state" ~>
                j{"type" ~> "string";
                  "enum" ~>
                    j["running"; "completed"; "failed"; "timed_out"; "cancelled"; "archived"] };
              "command" ~> j{"type" ~> "object"}; "authority" ~> j{"type" ~> "object"};
              "limits" ~> j{"type" ~> "object"}; "retention" ~> j{"type" ~> "object"};
              "createdAt" ~> j{"type" ~> "string"}; "startedAt" ~> j{"type" ~> "string"};
              "completedAt" ~> j{"type" ~> j["string"; "null"] };
              "cancellation" ~> j{"type" ~> "object"};
              "terminal" ~> j{"type" ~> j["object"; "null"] };
              "output" ~> j{"type" ~> j["object"; "null"] };
              "traceRefs" ~> j{"type" ~> "array"}; "replayRefs" ~> j{"type" ~> "array"};
              "revision" ~> j{"type" ~> "integer"} } };
     rt_lifecycle_states := ["running"; "completed"; "failed"; "timed_out"; "cancelled"; "archived"];
     rt_versioning_mode := AppendOnly;
     rt_allowed_link_relations := ["produced"; "produced_output"; "derived_from"; "evidence_for"; "supersedes"];
     rt_default_retention := j{"class" ~> "project"};
     rt_redaction_rules := j{"preview" ~> "metadata_only"};
     rt_materialization_rules := j{"durableOutputsRequireResourceVersion" ~> true};
     rt_required_capabilities :=
        j{"read" ~> j["jobs.read"; "resource.read"];
          "write" ~> j["jobs.write"; "resource.write"];
          "cancel" ~> j["jobs.write"; "resource.write"];
          "cleanup" ~> j["jobs.write"; "resource.write"] };
     rt_owner_worker_id := "resource" |}.

(* SRC engine/durability/resources/job_definitions.rs:10-11! job_resource_type_definitions *)
Definition job_resource_type_definitions : list RegisterResourceType :=
  [job_process_type].

(** ** Import history *)

(* SRC engine/durability/resources/import_history_definitions.rs:14-100! import_history_resource_type_definitions *)
Definition import_history_record_type : RegisterResourceType :=
  {| rt_kind := IMPORT_HISTORY_RECORD_KIND;
     rt_schema_id := IMPORT_HISTORY_RECORD_SCHEMA_ID;
     rt_schema :=
        j{"type" ~> "object";
          "required" ~>
            j["schemaVersion"; "state"; "recordId"; "graphKind"; "scope"; "subjectRef";
              "parentRefs"; "childRefs"; "createdAt"; "updatedAt"; "retention"; "metadata";
              "refs"; "traceRefs"; "replayRefs"; "authority"; "idempotency"; "revision"];
          "additionalProperties" ~> true;
          "properties" ~>
            j{"schemaVersion" ~> j{"type" ~> "string"};
              "state" ~> j{"type" ~> "string"; "enum" ~> j["active"; "archived"] };
              "recordId" ~> j{"type" ~> "string"};
              "graphKind" ~> j{"type" ~> "string"; "enum" ~> j["session_resource"] };
              "scope" ~> j{"type" ~> "object"}; "subjectRef" ~> j{"type" ~> "object"};
              "parentRefs" ~> j{"type" ~> "array"}; "childRefs" ~> j{"type" ~> "array"};
              "createdAt" ~> j{"type" ~> "string"}; "updatedAt" ~> j{"type" ~> "string"};
              "retention" ~> j{"type" ~> "object"}; "metadata" ~> j{"type" ~> "object"};
              "refs" ~> j{"type" ~> "object"}; "traceRefs" ~> j{"type" ~> "array"};
              "replayRefs" ~> j{"type" ~> "array"}; "authority" ~> j{"type" ~> "object"};
              "idempotency" ~> j{"type" ~> "object"}; "revision" ~> j{"type" ~> "integer"} } };
     rt_lifecycle_states := ["active"; "archived"];
     rt_versioning_mode := AppendOnly;
     rt_allowed_link_relations :=
        ["source"; "evidence_for"; "derived_from"; "parent_of"; "child_of"; "session_subject";
     "resource_subject"];
     rt_default_retention :=
        j{"class" ~> "import_lineage_metadata"; "maxAgeDays" ~> 90;
          "archiveKeepsEvidence" ~> true};
     rt_redaction_rules :=
        j{"preview" ~> "metadata_only";
          "neverReturn" ~>
            j["rawImportPayload"; "repositoryTree"; "repositoryContents"; "paths"; "diffText"];
          "lineage" ~> "bounded_refs_only"};
     rt_materialization_rules :=
        j{"durableOutputsRequireResourceVersion" ~> true;
          "payloadStoresGraphRefsOnly" ~> true; "rawImportPayloadStored" ~> false;
          "genericGraphOnly" ~> true};
     rt_required_capabilities :=
        j{"read" ~> j["import_history.read"; "resource.read"];
          "write" ~> j["import_history.write"; "resource.write"];
          "delete" ~> j["import_history.write"; "resource.write"] };
     rt_owner_worker_id := "import_history" |}.

(* SRC engine/durability/resources/import_history_definitions.rs:13-14! import_history_resource_type_definitions *)
Definition import_history_resource_type_definitions : list RegisterResourceType :=
  [import_history_record_type].

(** ** Import preview *)

(* SRC engine/durability/resources/import_preview_definitions.rs:14-112! import_preview_resource_type_definitions *)
Definition import_preview_type : RegisterResourceType :=
  {| rt_kind := IMPORT_PREVIEW_KIND;
     rt_schema_id := IMPORT_PREVIEW_SCHEMA_ID;
     rt_schema :=
        j{"type" ~> "object";
          "required" ~>
            j["schemaVersion"; "state"; "previewId"; "scope"; "importHistoryRef";
              "repositoryTreeRef"; "previewFingerprint"; "counts"; "pathEntries"; "createdAt";
              "updatedAt"; "retention"; "metadata"; "refs"; "traceRefs"; "replayRefs";
              "authority"; "idempotency"; "revision"];
          "additionalProperties" ~> true;
          "properties" ~>
            j{"schemaVersion" ~> j{"type" ~> "string"};
              "state" ~> j{"type" ~> "string"; "enum" ~> j["active"; "archived"] };
              "previewId" ~> j{"type" ~> "string"}; "scope" ~> j{"type" ~> "object"};
              "importHistoryRef" ~> j{"type" ~> "object"};
              "repositoryTreeRef" ~> j{"type" ~> "object"};
              "repositoryRef" ~> j{"type" ~> "object"}; "rootRef" ~> j{"type" ~> "object"};
              "headRef" ~> j{"type" ~> "object"};
              "previewFingerprint" ~> j{"type" ~> "string"};
              "counts" ~> j{"type" ~> "object"}; "pathEntries" ~> j{"type" ~> "array"};
              "createdAt" ~> j{"type" ~> "string"}; "updatedAt" ~> j{"type" ~> "string"};
              "retention" ~> j{"type" ~> "object"}; "metadata" ~> j{"type" ~> "object"};
              "refs" ~> j{"type" ~> "object"}; "traceRefs" ~> j{"type" ~> "array"};
              "replayRefs" ~> j{"type" ~> "array"}; "authority" ~> j{"type" ~> "object"};
              "idempotency" ~> j{"type" ~> "object"}; "revision" ~> j{"type" ~> "integer"} } };
     rt_lifecycle_states := ["active"; "archived"];
     rt_versioning_mode := AppendOnly;
     rt_allowed_link_relations :=
        ["source"; "evidence_for"; "derived_from"; "import_history_subject";
     "repository_tree_subject"; "repository_subject"; "root_subject"; "head_subject";
     "preview_fingerprint"];
     rt_default_retention :=
        j{"class" ~> "import_preview_metadata"; "maxAgeDays" ~> 90;
          "archiveKeepsEvidence" ~> true};
     rt_redaction_rules :=
        j{"preview" ~> "metadata_only";
          "neverReturn" ~>
            j["rawImportPayload"; "rawPreviewPayload"; "previewPayload"; "importPreview";
              "repositoryContents"; "rawRepositoryContents"; "absolutePath"; "rootPath";
              "blobBytes"; "fileContents"; "diffText"; "gitCommand"; "commitMessage"];
          "paths" ~> "bounded_normalized_relative_metadata_only"};
     rt_materialization_rules :=
        j{"durableOutputsRequireResourceVersion" ~> true;
          "payloadStoresImportPreviewMetadataOnly" ~> true; "rawImportPayloadStored" ~> false;
          "rawPreviewPayloadStored" ~> false; "rawRepositoryContentsStored" ~> false;
          "absolutePathsStored" ~> false; "contentFreePreview" ~> true;
          "importExecutionPerformed" ~> false; "gitMutationPerformed" ~> false};
     rt_required_capabilities :=
        j{"read" ~> j["import_preview.read"; "resource.read"];
          "write" ~> j["import_preview.write"; "resource.write"];
          "delete" ~> j["import_preview.write"; "resource.write"] };
     rt_owner_worker_id := "import_preview" |}.

(* SRC engine/durability/resources/import_preview_definitions.rs:13-14! import_preview_resource_type_definitions *)
Definition import_preview_resource_type_definitions : list RegisterResourceType :=
  [import_preview_type].

(** ** Program execution *)

(* SRC engine/durability/resources/program_execution_definitions.rs:14-112! program_execution_resource_type_definitions *)
Definition program_execution_type : RegisterResourceType :=
  {| rt_kind := PROGRAM_EXECUTION_KIND;
     rt_schema_id := PROGRAM_EXECUTION_SCHEMA_ID;
     rt_schema :=
        j{"type" ~> "object";
          "required" ~>
            j["schemaVersion"; "state"; "programId"; "scope"; "runtimeId"; "languageId";
              "programFingerprint"; "resourceLimits"; "ioEnvelope"; "createdAt"; "updatedAt";
              "retention"; "metadata"; "refs"; "traceRefs"; "replayRefs"; "authority";
              "idempotency"; "revision"];
          "additionalProperties" ~> true;
          "properties" ~>
            j{"schemaVersion" ~> j{"type" ~> "string"};
              "state" ~> j{"type" ~> "string"; "enum" ~> j["active"; "archived"] };
              "programId" ~> j{"type" ~> "string"}; "scope" ~> j{"type" ~> "object"};
              "runtimeId" ~> j{"type" ~> "string"}; "languageId" ~> j{"type" ~> "string"};
              "programFingerprint" ~> j{"type" ~> "string"};
              "sourceRef" ~> j{"type" ~> "object"}; "inputRef" ~> j{"type" ~> "object"};
              "outputRef" ~> j{"type" ~> "object"}; "resourceLimits" ~> j{"type" ~> "object"};
              "ioEnvelope" ~> j{"type" ~> "object"}; "createdAt" ~> j{"type" ~> "string"};
              "updatedAt" ~> j{"type" ~> "string"}; "retention" ~> j{"type" ~> "object"};
              "metadata" ~> j{"type" ~> "object"}; "refs" ~> j{"type" ~> "object"};
              "traceRefs" ~> j{"type" ~> "array"}; "replayRefs" ~> j{"type" ~> "array"};
              "authority" ~> j{"type" ~> "object"}; "idempotency" ~> j{"type" ~> "object"};
              "revision" ~> j{"type" ~> "integer"} } };
     rt_lifecycle_states := ["active"; "archived"];
     rt_versioning_mode := AppendOnly;
     rt_allowed_link_relations :=
        ["source"; "input"; "output"; "evidence_for"; "derived_from"; "program_fingerprint";
     "runtime_metadata"];
     rt_default_retention :=
        j{"class" ~> "program_execution_metadata"; "maxAgeDays" ~> 90;
          "archiveKeepsEvidence" ~> true};
     rt_redaction_rules :=
        j{"preview" ~> "metadata_only";
          "neverReturn" ~>
            j["code"; "sourceCode"; "rawCode"; "script"; "command"; "shellCommand"; "stdin";
              "stdout"; "stderr"; "rawStdin"; "rawStdout"; "rawStderr"; "absolutePath";
              "workingDirectory"; "blobBytes"; "fileContents"];
          "io" ~> "refs_and_fingerprints_only"};
     rt_materialization_rules :=
        j{"durableOutputsRequireResourceVersion" ~> true;
          "payloadStoresProgramExecutionMetadataOnly" ~> true;
          "contentFreeProgramExecution" ~> true; "runtimeExecutionPerformed" ~> false;
          "processLaunched" ~> false; "subprocessLaunched" ~> false; "rawCodeStored" ~> false;
          "rawIoStored" ~> false; "fileWritesPerformed" ~> false;
          "networkAccessPerformed" ~> false; "packageInstallPerformed" ~> false};
     rt_required_capabilities :=
        j{"read" ~> j["program_execution.read"; "resource.read"];
          "write" ~> j["program_execution.write"; "resource.write"];
          "delete" ~> j["program_execution.write"; "resource.write"] };
     rt_owner_worker_id := "program_execution" |}.

(* SRC engine/durability/resources/program_execution_definitions.rs:13-14! program_execution_resource_type_definitions *)
Definition program_execution_resource_type_definitions : list RegisterResourceType :=
  [program_execution_type].

(** ** Prompt artifact *)

(* SRC engine/durability/resources/prompt_artifact_definitions.rs:14-106! prompt_artifact_resource_type_definitions *)
Definition prompt_artifact_type : RegisterResourceType :=
  {| rt_kind := PROMPT_ARTIFACT_KIND;
     rt_schema_id := PROMPT_ARTIFACT_SCHEMA_ID;
     rt_schema :=
        j{"type" ~> "object";
          "required" ~>
            j["schemaVersion"; "state"; "artifactId"; "artifactKind"; "scope"; "title";
              "content"; "createdAt"; "updatedAt"; "retention"; "metadata"; "refs";
              "traceRefs"; "replayRefs"; "authority"; "idempotency"; "revision"];
          "additionalProperties" ~> true;
          "properties" ~>
            j{"schemaVersion" ~> j{"type" ~> "string"};
              "state" ~> j{"type" ~> "string"; "enum" ~> j["active"; "archived"] };
              "artifactId" ~> j{"type" ~> "string"};
              "artifactKind" ~>
                j{"type" ~> "string";
                  "enum" ~> j["history_entry"; "snippet"; "template"; "prompt_reference"] };
              "scope" ~> j{"type" ~> "object"}; "title" ~> j{"type" ~> "string"};
              "summary" ~> j{"type" ~> "string"}; "preview" ~> j{"type" ~> "string"};
              "content" ~> j{"type" ~> "object"}; "createdAt" ~> j{"type" ~> "string"};
              "updatedAt" ~> j{"type" ~> "string"}; "retention" ~> j{"type" ~> "object"};
              "metadata" ~> j{"type" ~> "object"}; "refs" ~> j{"type" ~> "object"};
              "traceRefs" ~> j{"type" ~> "array"}; "replayRefs" ~> j{"type" ~> "array"};
              "authority" ~> j{"type" ~> "object"}; "idempotency" ~> j{"type" ~> "object"};
              "revision" ~> j{"type" ~> "integer"} } };
     rt_lifecycle_states := ["active"; "archived"];
     rt_versioning_mode := AppendOnly;
     rt_allowed_link_relations :=
        ["source"; "content_ref"; "evidence_for"; "derived_from"; "prompt_artifact_fingerprint";
     "retention_evidence"];
     rt_default_retention :=
        j{"class" ~> "prompt_artifact_metadata"; "maxAgeDays" ~> 90;
          "archiveKeepsEvidence" ~> true};
     rt_redaction_rules :=
        j{"preview" ~> "bounded_redacted_metadata_only";
          "neverReturn" ~>
            j["prompt"; "promptText"; "promptBody"; "rawPrompt"; "rawPromptBody"; "body";
              "content"; "messages"; "providerPayload"; "rawPayload"; "snippetBody";
              "templateBody"; "absolutePath"; "workingDirectory"; "blobBytes"; "fileContents";
              "idempotencyKey"];
          "content" ~> "refs_and_fingerprints_only"};
     rt_materialization_rules :=
        j{"durableOutputsRequireResourceVersion" ~> true;
          "payloadStoresPromptArtifactMetadataOnly" ~> true; "explicitOptIn" ~> true;
          "automaticCapturePerformed" ~> false; "rawPromptStored" ~> false;
          "providerVisibleRawPayloadStored" ~> false; "promptInjectionPerformed" ~> false;
          "promptContextIncluded" ~> false; "learnedBehaviorUpdated" ~> false;
          "fileWritesPerformed" ~> false; "networkAccessPerformed" ~> false};
     rt_required_capabilities :=
        j{"read" ~> j["prompt_artifacts.read"; "resource.read"];
          "write" ~> j["prompt_artifacts.write"; "resource.write"];
          "delete" ~> j["prompt_artifacts.write"; "resource.write"] };
     rt_owner_worker_id := "prompt_artifacts" |}.

(* SRC engine/durability/resources/prompt_artifact_definitions.rs:13-14! prompt_artifact_resource_type_definitions *)
Definition prompt_artifact_resource_type_definitions : list RegisterResourceType :=
  [prompt_artifact_type].

(** ** Repository tree *)

(* SRC engine/durability/resources/repository_tree_definitions.rs:14-105! repository_tree_resource_type_definitions *)
Definition repository_tree_snapshot_type : RegisterResourceType :=
  {| rt_kind := REPOSITORY_TREE_SNAPSHOT_KIND;
     rt_schema_id := REPOSITORY_TREE_SNAPSHOT_SCHEMA_ID;
     rt_schema :=
        j{"type" ~> "object";
          "required" ~>
            j["schemaVersion"; "state"; "snapshotId"; "scope"; "repositoryRef"; "rootRef";
              "treeObjectRef"; "counts"; "pathEntries"; "createdAt"; "updatedAt"; "retention";
              "metadata"; "refs"; "traceRefs"; "replayRefs"; "authority"; "idempotency";
              "revision"];
          "additionalProperties" ~> true;
          "properties" ~>
            j{"schemaVersion" ~> j{"type" ~> "string"};
              "state" ~> j{"type" ~> "string"; "enum" ~> j["active"; "archived"] };
              "snapshotId" ~> j{"type" ~> "string"}; "scope" ~> j{"type" ~> "object"};
              "repositoryRef" ~> j{"type" ~> "object"}; "rootRef" ~> j{"type" ~> "object"};
              "headRef" ~> j{"type" ~> "object"}; "treeObjectRef" ~> j{"type" ~> "string"};
              "counts" ~> j{"type" ~> "object"}; "pathEntries" ~> j{"type" ~> "array"};
              "createdAt" ~> j{"type" ~> "string"}; "updatedAt" ~> j{"type" ~> "string"};
              "retention" ~> j{"type" ~> "object"}; "metadata" ~> j{"type" ~> "object"};
              "refs" ~> j{"type" ~> "object"}; "traceRefs" ~> j{"type" ~> "array"};
              "replayRefs" ~> j{"type" ~> "array"}; "authority" ~> j{"type" ~> "object"};
              "idempotency" ~> j{"type" ~> "object"}; "revision" ~> j{"type" ~> "integer"} } };
     rt_lifecycle_states := ["active"; "archived"];
     rt_versioning_mode := AppendOnly;
     rt_allowed_link_relations :=
        ["source"; "evidence_for"; "derived_from"; "repository_subject"; "root_subject";
     "head_subject"; "tree_object"];
     rt_default_retention :=
        j{"class" ~> "repository_tree_metadata"; "maxAgeDays" ~> 90;
          "archiveKeepsEvidence" ~> true};
     rt_redaction_rules :=
        j{"preview" ~> "metadata_only";
          "neverReturn" ~>
            j["rawImportPayload"; "repositoryTree"; "repositoryContents";
              "rawRepositoryContents"; "absolutePath"; "rootPath"; "blobBytes";
              "fileContents"; "diffText"];
          "paths" ~> "bounded_normalized_relative_metadata_only"};
     rt_materialization_rules :=
        j{"durableOutputsRequireResourceVersion" ~> true;
          "payloadStoresRepositoryTreeMetadataOnly" ~> true;
          "rawImportPayloadStored" ~> false; "rawRepositoryContentsStored" ~> false;
          "absolutePathsStored" ~> false; "contentFreeSnapshot" ~> true};
     rt_required_capabilities :=
        j{"read" ~> j["repository_tree.read"; "resource.read"];
          "write" ~> j["repository_tree.write"; "resource.write"];
          "delete" ~> j["repository_tree.write"; "resource.write"] };
     rt_owner_worker_id := "repository_tree" |}.

(* SRC engine/durability/resources/repository_tree_definitions.rs:13-14! repository_tree_resource_type_definitions *)
Definition repository_tree_resource_type_definitions : list RegisterResourceType :=
  [repository_tree_snapshot_type].

(** ** Update diagnostics *)

(* SRC engine/durability/resources/update_diagnostics_definitions.rs:14-106! update_diagnostics_resource_type_definitions *)
Definition update_diagnostic_record_type : RegisterResourceType :=
  {| rt_kind := UPDATE_DIAGNOSTIC_RECORD_KIND;
     rt_schema_id := UPDATE_DIAGNOSTIC_RECORD_SCHEMA_ID;
     rt_schema :=
        j{"type" ~> "object";
          "required" ~>
            j["schemaVersion"; "state"; "diagnosticId"; "checkKind"; "scope"; "release";
              "createdAt"; "updatedAt"; "retention"; "metadata"; "refs"; "traceRefs";
              "replayRefs"; "authority"; "idempotency"; "revision"];
          "additionalProperties" ~> true;
          "properties" ~>
            j{"schemaVersion" ~> j{"type" ~> "string"};
              "state" ~> j{"type" ~> "string"; "enum" ~> j["active"; "archived"] };
              "diagnosticId" ~> j{"type" ~> "string"};
              "checkKind" ~> j{"type" ~> "string"; "enum" ~> j["metadata_snapshot"] };
              "scope" ~> j{"type" ~> "object"}; "release" ~> j{"type" ~> "object"};
              "createdAt" ~> j{"type" ~> "string"}; "updatedAt" ~> j{"type" ~> "string"};
              "retention" ~> j{"type" ~> "object"}; "metadata" ~> j{"type" ~> "object"};
              "refs" ~> j{"type" ~> "object"}; "traceRefs" ~> j{"type" ~> "array"};
              "replayRefs" ~> j{"type" ~> "array"}; "authority" ~> j{"type" ~> "object"};
              "idempotency" ~> j{"type" ~> "object"}; "revision" ~> j{"type" ~> "integer"} } };
     rt_lifecycle_states := ["active"; "archived"];
     rt_versioning_mode := AppendOnly;
     rt_allowed_link_relations :=
        ["source"; "evidence_for"; "provenance"; "signature"; "derived_from"; "diagnostic_for"];
     rt_default_retention :=
        j{"class" ~> "update_diagnostic_metadata"; "maxAgeDays" ~> 90;
          "archiveKeepsEvidence" ~> true};
     rt_redaction_rules :=
        j{"preview" ~> "signed_release_metadata_only";
          "neverReturn" ~>
            j["rawUpdatePayload"; "packageBytes"; "installerBytes"; "productionEndpoint";
              "downloadUrl"; "installCommand"; "restartCommand"; "deployCommand"];
          "provenance" ~> "bounded_refs_only"};
     rt_materialization_rules :=
        j{"durableOutputsRequireResourceVersion" ~> true;
          "payloadStoresSignedReleaseMetadataOnly" ~> true;
          "liveNetworkCheckPerformed" ~> false; "installOrRestartExecuted" ~> false;
          "deployAutomationStored" ~> false; "packageBytesStored" ~> false};
     rt_required_capabilities :=
        j{"read" ~> j["update_diagnostics.read"; "resource.read"];
          "write" ~> j["update_diagnostics.write"; "resource.write"];
          "delete" ~> j["update_diagnostics.write"; "resource.write"] };
     rt_owner_worker_id := "update_diagnostics" |}.

(* SRC engine/durability/resources/update_diagnostics_definitions.rs:13-14! update_diagnostics_resource_type_definitions *)
Definition update_diagnostics_resource_type_definitions : list RegisterResourceType :=
  [update_diagnostic_record_type].

(** ** Context control *)

(* SRC engine/durability/resources/context_control_definitions.rs:17-18! CONTEXT_CONTROL_SNAPSHOT_PAYLOAD_SCHEMA_VERSION *)
Definition CONTEXT_CONTROL_SNAPSHOT_PAYLOAD_SCHEMA_VERSION : string :=
  "tron.context_control_snapshot.v1".

(* SRC engine/durability/resources/context_control_definitions.rs:19-20! CONTEXT_CONTROL_ACTION_PAYLOAD_SCHEMA_VERSION *)
Definition CONTEXT_CONTROL_ACTION_PAYLOAD_SCHEMA_VERSION : string :=
  "tron.context_control_action.v1".

(* SRC engine/durability/resources/context_control_definitions.rs:21-22! CONTEXT_CONTROL_EPOCH_PAYLOAD_SCHEMA_VERSION *)
Definition CONTEXT_CONTROL_EPOCH_PAYLOAD_SCHEMA_VERSION : string :=
  "tron.context_control_epoch.v1".

(* SRC engine/durability/resources/context_control_definitions.rs:218-251! proof_schema *)
Definition context_control_proof_schema : Value :=
  j{"type" ~> "object";
    "required" ~>
      j["providerSafe"; "redactionApplied"; "truncationApplied"; "hiddenPromptBodiesExcluded";
        "rawSecretsExcluded"; "rawLogsExcluded"; "rawCommandsExcluded"; "rawPathsExcluded";
        "rawGrantIdsExcluded"; "rawAuthorityIdsExcluded"; "chainOfThoughtExcluded";
        "networkPolicy"];
    "additionalProperties" ~> false;
    "properties" ~>
      j{"providerSafe" ~> j{"type" ~> "boolean"; "const" ~> true};
        "redactionApplied" ~> j{"type" ~> "boolean"; "const" ~> true};
        "truncationApplied" ~> j{"type" ~> "boolean"};
        "hiddenPromptBodiesExcluded" ~> j{"type" ~> "boolean"; "const" ~> true};
        "rawSecretsExcluded" ~> j{"type" ~> "boolean"; "const" ~> true};
        "rawLogsExcluded" ~> j{"type" ~> "boolean"; "const" ~> true};
        "rawCommandsExcluded" ~> j{"type" ~> "boolean"; "const" ~> true};
        "rawPathsExcluded" ~> j{"type" ~> "boolean"; "const" ~> true};
        "rawGrantIdsExcluded" ~> j{"type" ~> "boolean"; "const" ~> true};
        "rawAuthorityIdsExcluded" ~> j{"type" ~> "boolean"; "const" ~> true};
        "chainOfThoughtExcluded" ~> j{"type" ~> "boolean"; "const" ~> true};
        "networkPolicy" ~> j{"type" ~> "string"; "const" ~> "none"} } }.

(* SRC engine/durability/resources/context_control_definitions.rs:253-278! redaction_rules *)
Definition context_control_redaction_rules (projection : string) : Value :=
  j{"projection" ~> projection;
    "neverReturn" ~>
      j["systemPrompt"; "soulPrompt"; "hiddenPrompt"; "chainOfThought"; "thinking"; "secret";
        "env"; "absolutePath"; "rawPath"; "command"; "rawCommand"; "stdout"; "stderr";
        "rawLog"; "fileContents"; "grantId"; "authorityId"; "debugPayload"];
    "providerOutput" ~> "bounded_refs_and_labels_only"}.

(* SRC engine/durability/resources/context_control_definitions.rs:280-295! materialization_rules *)
Definition context_control_materialization_rules (classification : string) : Value :=
  j{"classification" ~> classification; "metadataOnly" ~> true;
    "providerSafeProjectionRequired" ~> true; "stateInheritance" ~> "forbidden";
    "agentState" ~> "forbidden"; "networkPolicy" ~> "none"; "packageManager" ~> "forbidden";
    "runtimeExecution" ~> "forbidden"; "rawLogs" ~> "forbidden"; "rawCommands" ~> "forbidden";
    "secrets" ~> "forbidden"; "localPaths" ~> "forbidden"}.

(* SRC engine/durability/resources/context_control_definitions.rs:26-84! context_control_resource_type_definitions *)
Definition context_control_snapshot_type : RegisterResourceType :=
  {| rt_kind := CONTEXT_CONTROL_SNAPSHOT_KIND;
     rt_schema_id := CONTEXT_CONTROL_SNAPSHOT_SCHEMA_ID;
     rt_schema :=
        j{"type" ~> "object";
          "required" ~>
            j["schemaVersion"; "state"; "snapshotId"; "scope"; "session"; "composition";
              "memory"; "proof"; "createdAt"; "revision"];
          "additionalProperties" ~> false;
          "properties" ~>
            j{"schemaVersion" ~>
                j{"type" ~> "string";
                  "const" ~> CONTEXT_CONTROL_SNAPSHOT_PAYLOAD_SCHEMA_VERSION};
              "state" ~> j{"type" ~> "string"; "enum" ~> j["available"; "stale"; "archived"] };
              "snapshotId" ~> j{"type" ~> "string"}; "scope" ~> j{"type" ~> "object"};
              "session" ~> j{"type" ~> "object"}; "composition" ~> j{"type" ~> "object"};
              "memory" ~> j{"type" ~> "object"}; "proof" ~> context_control_proof_schema;
              "createdAt" ~> j{"type" ~> "string"}; "revision" ~> j{"type" ~> "integer"} } };
     rt_lifecycle_states := ["available"; "stale"; "archived"];
     rt_versioning_mode := AppendOnly;
     rt_allowed_link_relations := ["snapshots"; "supports"; "derived_from"; "evidence_for"; "supersedes"];
     rt_default_retention :=
        j{"class" ~> "context_control_snapshot"; "scope" ~> "session";
          "archiveKeepsAuditEvidence" ~> true};
     rt_redaction_rules := (context_control_redaction_rules "snapshot_provider_safe");
     rt_materialization_rules := (context_control_materialization_rules "snapshot_only");
     rt_required_capabilities :=
        j{"read" ~> j["context_control.read"; "resource.read"];
          "write" ~> j["context_control.write"; "resource.write"] };
     rt_owner_worker_id := "context_control" |}.

(* SRC engine/durability/resources/context_control_definitions.rs:85-155! context_control_resource_type_definitions *)
Definition context_control_action_type : RegisterResourceType :=
  {| rt_kind := CONTEXT_CONTROL_ACTION_KIND;
     rt_schema_id := CONTEXT_CONTROL_ACTION_SCHEMA_ID;
     rt_schema :=
        j{"type" ~> "object";
          "required" ~>
            j["schemaVersion"; "state"; "actionId"; "scope"; "action"; "preflight"; "result";
              "auditRefs"; "proof"; "idempotency"; "traceRefs"; "replayRefs"; "createdAt";
              "updatedAt"; "revision"];
          "additionalProperties" ~> false;
          "properties" ~>
            j{"schemaVersion" ~>
                j{"type" ~> "string"; "const" ~> CONTEXT_CONTROL_ACTION_PAYLOAD_SCHEMA_VERSION};
              "state" ~>
                j{"type" ~> "string";
                  "enum" ~> j["requested"; "succeeded"; "skipped"; "failed"; "archived"] };
              "actionId" ~> j{"type" ~> "string"}; "scope" ~> j{"type" ~> "object"};
              "action" ~> j{"type" ~> "object"}; "preflight" ~> j{"type" ~> "object"};
              "result" ~> j{"type" ~> "object"};
              "auditRefs" ~>
                j{"type" ~> "array"; "maxItems" ~> 25; "items" ~> j{"type" ~> "object"} };
              "proof" ~> context_control_proof_schema; "idempotency" ~> j{"type" ~> "object"};
              "traceRefs" ~>
                j{"type" ~> "array"; "maxItems" ~> 25; "items" ~> j{"type" ~> "object"} };
              "replayRefs" ~>
                j{"type" ~> "array"; "maxItems" ~> 25; "items" ~> j{"type" ~> "object"} };
              "createdAt" ~> j{"type" ~> "string"}; "updatedAt" ~> j{"type" ~> "string"};
              "revision" ~> j{"type" ~> "integer"} } };
     rt_lifecycle_states := ["requested"; "succeeded"; "skipped"; "failed"; "archived"];
     rt_versioning_mode := AppendOnly;
     rt_allowed_link_relations :=
        ["uses_snapshot"; "creates_epoch"; "writes_timeline_event"; "supports"; "derived_from";
     "evidence_for"; "supersedes"];
     rt_default_retention :=
        j{"class" ~> "context_control_action"; "scope" ~> "session";
          "archiveKeepsAuditEvidence" ~> true};
     rt_redaction_rules := (context_control_redaction_rules "action_audit_provider_safe");
     rt_materialization_rules := (context_control_materialization_rules "action_audit_only");
     rt_required_capabilities :=
        j{"read" ~> j["context_control.read"; "resource.read"];
          "write" ~> j["context_control.write"; "resource.write"] };
     rt_owner_worker_id := "context_control" |}.

(* SRC engine/durability/resources/context_control_definitions.rs:156-214! context_control_resource_type_definitions *)
Definition context_control_epoch_type : RegisterResourceType :=
  {| rt_kind := CONTEXT_CONTROL_EPOCH_KIND;
     rt_schema_id := CONTEXT_CONTROL_EPOCH_SCHEMA_ID;
     rt_schema :=
        j{"type" ~> "object";
          "required" ~>
            j["schemaVersion"; "state"; "epochId"; "scope"; "session"; "boundary";
              "survivorRefs"; "proof"; "createdAt"; "revision"];
          "additionalProperties" ~> false;
          "properties" ~>
            j{"schemaVersion" ~>
                j{"type" ~> "string"; "const" ~> CONTEXT_CONTROL_EPOCH_PAYLOAD_SCHEMA_VERSION};
              "state" ~>
                j{"type" ~> "string"; "enum" ~> j["active"; "superseded"; "archived"] };
              "epochId" ~> j{"type" ~> "string"}; "scope" ~> j{"type" ~> "object"};
              "session" ~> j{"type" ~> "object"}; "boundary" ~> j{"type" ~> "object"};
              "survivorRefs" ~>
                j{"type" ~> "array"; "maxItems" ~> 25; "items" ~> j{"type" ~> "object"} };
              "proof" ~> context_control_proof_schema; "createdAt" ~> j{"type" ~> "string"};
              "revision" ~> j{"type" ~> "integer"} } };
     rt_lifecycle_states := ["active"; "superseded"; "archived"];
     rt_versioning_mode := AppendOnly;
     rt_allowed_link_relations := ["created_by"; "supersedes_epoch"; "keeps_ref"; "supports"; "derived_from"];
     rt_default_retention :=
        j{"class" ~> "context_control_epoch"; "scope" ~> "session";
          "archiveKeepsAuditEvidence" ~> true};
     rt_redaction_rules := (context_control_redaction_rules "epoch_boundary_provider_safe");
     rt_materialization_rules := (context_control_materialization_rules "epoch_boundary_only");
     rt_required_capabilities :=
        j{"read" ~> j["context_control.read"; "resource.read"];
          "write" ~> j["context_control.write"; "resource.write"] };
     rt_owner_worker_id := "context_control" |}.

(* SRC engine/durability/resources/context_control_definitions.rs:24-25! context_control_resource_type_definitions *)
Definition context_control_resource_type_definitions : list RegisterResourceType :=
  [context_control_snapshot_type; context_control_action_type; context_control_epoch_type].

(** ** Web research *)

(* SRC engine/durability/resources/web_research_definitions.rs:16-16! WEB_RESEARCH_REQUEST_PAYLOAD_SCHEMA_VERSION *)
Definition WEB_RESEARCH_REQUEST_PAYLOAD_SCHEMA_VERSION : string :=
  "tron.web_research_request.v1".

(* SRC engine/durability/resources/web_research_definitions.rs:17-17! WEB_RESEARCH_REVIEW_PAYLOAD_SCHEMA_VERSION *)
Definition WEB_RESEARCH_REVIEW_PAYLOAD_SCHEMA_VERSION : string := "tron.web_research_review.v1".

(* SRC engine/durability/resources/web_research_definitions.rs:18-18! WEB_RESEARCH_SOURCE_PAYLOAD_SCHEMA_VERSION *)
Definition WEB_RESEARCH_SOURCE_PAYLOAD_SCHEMA_VERSION : string := "tron.web_research_source.v1".

(* SRC engine/durability/resources/web_research_definitions.rs:135-246! definition *)
Definition web_research_definition (kind : string) (schema_id : string)
    (payload_schema_version : string) (lifecycle_states : list string)
    (link_relations : list string) (payload_contract : Value) : RegisterResourceType :=
  {| rt_kind := kind;
     rt_schema_id := schema_id;
     rt_schema :=
        j{"type" ~> "object";
          "required" ~>
            j["schemaVersion"; "state"; "scope"; "traceRefs"; "replayRefs"; "authority";
              "idempotency"; "sideEffectProof"; "createdAt"; "updatedAt"; "revision"];
          "additionalProperties" ~> true;
          "properties" ~>
            j{"schemaVersion" ~> j{"type" ~> "string"; "const" ~> payload_schema_version};
              "state" ~> j{"type" ~> "string"; "enum" ~> (jstrs lifecycle_states)};
              "scope" ~> j{"type" ~> "object"};
              "traceRefs" ~>
                j{"type" ~> "array"; "maxItems" ~> 25; "items" ~> j{"type" ~> "object"} };
              "replayRefs" ~>
                j{"type" ~> "array"; "maxItems" ~> 25; "items" ~> j{"type" ~> "object"} };
              "authority" ~> j{"type" ~> "object"}; "idempotency" ~> j{"type" ~> "object"};
              "sideEffectProof" ~>
                j{"type" ~> "object";
                  "required" ~>
                    j["metadataOnly"; "networkPolicy"; "networkAccessPerformed";
                      "browserAutomationPerformed"; "searchPerformed"; "crawlPerformed";
                      "loginOrCookieReusePerformed"; "rawHtmlStored"; "pageDumpStored";
                      "browserLogsStored"; "cookiesStored"; "credentialsStored"];
                  "properties" ~>
                    j{"metadataOnly" ~> j{"type" ~> "boolean"; "const" ~> true};
                      "networkPolicy" ~> j{"type" ~> "string"; "const" ~> "none"};
                      "networkAccessPerformed" ~> j{"type" ~> "boolean"; "const" ~> false};
                      "browserAutomationPerformed" ~> j{"type" ~> "boolean"; "const" ~> false};
                      "searchPerformed" ~> j{"type" ~> "boolean"; "const" ~> false};
                      "crawlPerformed" ~> j{"type" ~> "boolean"; "const" ~> false};
                      "loginOrCookieReusePerformed" ~>
                        j{"type" ~> "boolean"; "const" ~> false};
                      "rawHtmlStored" ~> j{"type" ~> "boolean"; "const" ~> false};
                      "pageDumpStored" ~> j{"type" ~> "boolean"; "const" ~> false};
                      "browserLogsStored" ~> j{"type" ~> "boolean"; "const" ~> false};
                      "cookiesStored" ~> j{"type" ~> "boolean"; "const" ~> false};
                      "credentialsStored" ~> j{"type" ~> "boolean"; "const" ~> false} } };
              "createdAt" ~> j{"type" ~> "string"}; "updatedAt" ~> j{"type" ~> "string"};
              "revision" ~> j{"type" ~> "integer"} };
          "payloadContract" ~> payload_contract};
     rt_lifecycle_states := lifecycle_states;
     rt_versioning_mode := AppendOnly;
     rt_allowed_link_relations := link_relations;
     rt_default_retention := j{"class" ~> "web_research_metadata"; "metadataOnly" ~> true};
     rt_redaction_rules :=
        j{"projection" ~> "provider_safe"; "rawHtml" ~> "forbidden";
          "pageDumps" ~> "forbidden"; "browserLogs" ~> "forbidden"; "cookies" ~> "forbidden";
          "credentials" ~> "forbidden"; "localPaths" ~> "forbidden";
          "commands" ~> "forbidden"; "codeOrFileContents" ~> "forbidden";
          "grantIds" ~> "forbidden"; "authorityIds" ~> "forbidden";
          "tokenLikeMaterial" ~> "forbidden"; "personalInfoLiterals" ~> "forbidden"};
     rt_materialization_rules :=
        j{"durableOutputsRequireResourceVersion" ~> true; "browserAutomation" ~> "forbidden";
          "search" ~> "forbidden"; "crawl" ~> "forbidden";
          "loginOrCookieReuse" ~> "forbidden"; "networkPolicy" ~> "none"};
     rt_required_capabilities :=
        j{"read" ~> j["web_research.read"; "resource.read"];
          "write" ~> j["web_research.write"; "resource.write"] };
     rt_owner_worker_id := "web_research" |}.

(* SRC engine/durability/resources/web_research_definitions.rs:28-61! web_research_request_definition *)
Definition web_research_request_definition : RegisterResourceType :=
  web_research_definition WEB_RESEARCH_REQUEST_KIND WEB_RESEARCH_REQUEST_SCHEMA_ID
    WEB_RESEARCH_REQUEST_PAYLOAD_SCHEMA_VERSION ["pending_review"; "superseded"; "archived"]
    ["web_research_request"; "source_ref"; "citation_ref"; "robots_evidence";
     "dependency_request"; "current_scope"; "evidence_for"; "derived_from"; "supersedes"]
    (j{"required" ~>
         j["schemaVersion"; "state"; "requestId"; "scope"; "title"; "research"; "refs";
           "traceRefs"; "replayRefs"; "authority"; "idempotency"; "sideEffectProof";
           "createdAt"; "updatedAt"; "revision"];
       "properties" ~>
         j{"requestId" ~> j{"type" ~> "string"}; "title" ~> j{"type" ~> "string"};
           "research" ~> j{"type" ~> "object"}; "refs" ~> j{"type" ~> "object"} } }).

(* SRC engine/durability/resources/web_research_definitions.rs:63-96! web_research_review_definition *)
Definition web_research_review_definition : RegisterResourceType :=
  web_research_definition WEB_RESEARCH_REVIEW_KIND WEB_RESEARCH_REVIEW_SCHEMA_ID
    WEB_RESEARCH_REVIEW_PAYLOAD_SCHEMA_VERSION
    ["pending_review"; "accepted"; "rejected"; "archived"]
    ["review_for"; "web_research_request"; "source_ref"; "citation_ref"; "robots_evidence";
     "dependency_request"; "evidence_for"; "derived_from"; "supersedes"]
    (j{"required" ~>
         j["schemaVersion"; "state"; "reviewId"; "scope"; "request"; "review"; "refs";
           "traceRefs"; "replayRefs"; "authority"; "idempotency"; "sideEffectProof";
           "createdAt"; "updatedAt"; "revision"];
       "properties" ~>
         j{"reviewId" ~> j{"type" ~> "string"}; "request" ~> j{"type" ~> "object"};
           "review" ~> j{"type" ~> "object"}; "refs" ~> j{"type" ~> "object"} } }).

(* SRC engine/durability/resources/web_research_definitions.rs:98-133! web_research_source_definition *)
Definition web_research_source_definition : RegisterResourceType :=
  web_research_definition WEB_RESEARCH_SOURCE_KIND WEB_RESEARCH_SOURCE_SCHEMA_ID
    WEB_RESEARCH_SOURCE_PAYLOAD_SCHEMA_VERSION ["available"; "superseded"; "archived"]
    ["artifact_for"; "web_research_request"; "web_research_review"; "source_ref";
     "citation_ref"; "robots_evidence"; "dependency_request"; "evidence_for"; "derived_from";
     "supersedes"]
    (j{"required" ~>
         j["schemaVersion"; "state"; "sourceArtifactId"; "scope"; "artifact"; "refs";
           "traceRefs"; "replayRefs"; "authority"; "idempotency"; "sideEffectProof";
           "createdAt"; "updatedAt"; "revision"];
       "properties" ~>
         j{"sourceArtifactId" ~> j{"type" ~> "string"};
           "request" ~> j{"type" ~> j["object"; "null"] };
           "review" ~> j{"type" ~> j["object"; "null"] }; "artifact" ~> j{"type" ~> "object"};
           "refs" ~> j{"type" ~> "object"} } }).

(* SRC engine/durability/resources/web_research_definitions.rs:20-26! web_research_resource_type_definitions *)
Definition web_research_resource_type_definitions : list RegisterResourceType :=
  [web_research_request_definition; web_research_review_definition;
   web_research_source_definition].

(** ** Memory *)

(* SRC engine/durability/resources/memory_definitions.rs:410-436! memory_builtin_type *)
Definition memory_builtin_type (kind : string) (schema_id : string) (schema : Value)
    (lifecycle_states : list string) (allowed_link_relations : list string) : RegisterResourceType :=
  {| rt_kind := kind;
     rt_schema_id := schema_id;
     rt_schema := schema;
     rt_lifecycle_states := lifecycle_states;
     rt_versioning_mode := AppendOnly;
     rt_allowed_link_relations := allowed_link_relations;
     rt_default_retention := j{"class" ~> "project"};
     rt_redaction_rules := j{"preview" ~> "metadata_only"};
     rt_materialization_rules := j{"durableOutputsRequireResourceVersion" ~> true};
     rt_required_capabilities :=
        j{"read" ~> j["memory.read"; "resource.read"];
          "write" ~> j["memory.write"; "resource.write"] };
     rt_owner_worker_id := "resource" |}.

(* SRC engine/durability/resources/memory_definitions.rs:22-73! memory_resource_type_definitions *)
Definition memory_engine_type : RegisterResourceType :=
  memory_builtin_type MEMORY_ENGINE_KIND MEMORY_ENGINE_SCHEMA_ID
    (j{"type" ~> "object";
       "required" ~>
         j["schemaVersion"; "engineId"; "label"; "version"; "packageProvenance";
           "supportedModes"; "supportedStores"; "privacyFeatures"; "migrationSupport";
           "evalProfile"; "status"];
       "additionalProperties" ~> true;
       "properties" ~>
         j{"schemaVersion" ~> j{"type" ~> "string"}; "engineId" ~> j{"type" ~> "string"};
           "label" ~> j{"type" ~> "string"}; "version" ~> j{"type" ~> "string"};
           "packageProvenance" ~> j{"type" ~> "object"};
           "supportedModes" ~> j{"type" ~> "array"};
           "supportedStores" ~> j{"type" ~> "array"};
           "privacyFeatures" ~> j{"type" ~> "object"};
           "migrationSupport" ~> j{"type" ~> "object"};
           "evalProfile" ~> j{"type" ~> "object"}; "status" ~> j{"type" ~> "string"} } })
    ["available"; "active"; "shadow"; "disabled"; "retired"; "archived"]
    ["selected_by"; "compares_with"; "exported_by"; "imported_by"; "evaluated_by";
     "supersedes"; "derived_from"; "evidence_for"].

(* SRC engine/durability/resources/memory_definitions.rs:74-113! memory_resource_type_definitions *)
Definition memory_policy_type : RegisterResourceType :=
  memory_builtin_type MEMORY_POLICY_KIND MEMORY_POLICY_SCHEMA_ID
    (j{"type" ~> "object";
       "required" ~>
         j["schemaVersion"; "mode"; "inclusion"; "retention"; "privacy"; "migration";
           "provenance"; "revision"];
       "additionalProperties" ~> true;
       "properties" ~>
         j{"schemaVersion" ~> j{"type" ~> "string"};
           "mode" ~>
             j{"type" ~> "string"; "enum" ~> j["disabled"; "active"; "shadow"; "compare"] };
           "activeEngineId" ~> j{"type" ~> "string"};
           "compareEngineIds" ~> j{"type" ~> "array"}; "inclusion" ~> j{"type" ~> "object"};
           "retention" ~> j{"type" ~> "object"}; "privacy" ~> j{"type" ~> "object"};
           "migration" ~> j{"type" ~> "object"}; "provenance" ~> j{"type" ~> "object"};
           "revision" ~> j{"type" ~> "integer"} } })
    ["disabled"; "active"; "shadow"; "compare"; "archived"]
    ["selects_engine"; "compares_engine"; "governs_record"; "governs_prompt_trace";
     "supersedes"; "derived_from"; "evidence_for"].

(* SRC engine/durability/resources/memory_definitions.rs:114-178! memory_resource_type_definitions *)
Definition memory_record_type : RegisterResourceType :=
  memory_builtin_type MEMORY_RECORD_KIND MEMORY_RECORD_SCHEMA_ID
    (j{"type" ~> "object";
       "required" ~>
         j["schemaVersion"; "subject"; "scope"; "preview"; "bodyRef"; "provenance";
           "confidence"; "sensitivity"; "retention"; "sourceRefs"; "traceRefs"; "replayRefs";
           "lifecycle"; "migration"; "revision"];
       "additionalProperties" ~> true;
       "properties" ~>
         j{"schemaVersion" ~> j{"type" ~> "string"}; "subject" ~> j{"type" ~> "string"};
           "scope" ~> j{"type" ~> "object"}; "preview" ~> j{"type" ~> "string"};
           "bodyRef" ~> j{"type" ~> "object"}; "provenance" ~> j{"type" ~> "object"};
           "confidence" ~> j{"type" ~> "object"}; "sensitivity" ~> j{"type" ~> "string"};
           "retention" ~> j{"type" ~> "object"}; "expiresAt" ~> j{"type" ~> "string"};
           "sourceRefs" ~> j{"type" ~> "array"}; "traceRefs" ~> j{"type" ~> "array"};
           "replayRefs" ~> j{"type" ~> "array"}; "lifecycle" ~> j{"type" ~> "object"};
           "migration" ~> j{"type" ~> "object"}; "revision" ~> j{"type" ~> "integer"} } })
    ["retained"; "edited"; "tombstoned"; "expired"; "exported"; "archived"]
    ["governed_by"; "source_event"; "source_resource"; "source_trace"; "source_replay";
     "included_by"; "excluded_by"; "exported_by"; "imported_by"; "supersedes";
     "derived_from"; "evidence_for"].

(* SRC engine/durability/resources/memory_definitions.rs:179-220! memory_resource_type_definitions *)
Definition memory_prompt_trace_type : RegisterResourceType :=
  memory_builtin_type MEMORY_PROMPT_TRACE_KIND MEMORY_PROMPT_TRACE_SCHEMA_ID
    (j{"type" ~> "object";
       "required" ~>
         j["schemaVersion"; "mode"; "considered"; "included"; "excluded"; "promptBudget";
           "redaction"; "traceRefs"; "replayRefs"; "createdAt"];
       "additionalProperties" ~> true;
       "properties" ~>
         j{"schemaVersion" ~> j{"type" ~> "string"};
           "mode" ~>
             j{"type" ~> "string"; "enum" ~> j["disabled"; "active"; "shadow"; "compare"] };
           "engineId" ~> j{"type" ~> "string"}; "considered" ~> j{"type" ~> "array"};
           "included" ~> j{"type" ~> "array"}; "excluded" ~> j{"type" ~> "array"};
           "promptBudget" ~> j{"type" ~> "object"}; "redaction" ~> j{"type" ~> "object"};
           "traceRefs" ~> j{"type" ~> "array"}; "replayRefs" ~> j{"type" ~> "array"};
           "createdAt" ~> j{"type" ~> "string"} } }) ["recorded"; "discarded"; "archived"]
    ["governed_by"; "considered_record"; "included_record"; "excluded_record";
     "derived_from"; "evidence_for"].

(* SRC engine/durability/resources/memory_definitions.rs:221-279! memory_resource_type_definitions *)
Definition memory_query_type : RegisterResourceType :=
  memory_builtin_type MEMORY_QUERY_KIND MEMORY_QUERY_SCHEMA_ID
    (j{"type" ~> "object";
       "required" ~>
         j["schemaVersion"; "queryKind"; "intent"; "filters"; "engineId"; "mode";
           "selectedRefs"; "excludedRefs"; "retrieval"; "results"; "decisionRefs"; "policy";
           "module"; "redaction"; "traceRefs"; "replayRefs"; "lifecycle"; "idempotency";
           "occurredAt"];
       "additionalProperties" ~> true;
       "properties" ~>
         j{"schemaVersion" ~> j{"type" ~> "string"}; "queryKind" ~> j{"type" ~> "string"};
           "intent" ~> j{"type" ~> "object"}; "filters" ~> j{"type" ~> "object"};
           "engineId" ~> j{"type" ~> "string"};
           "mode" ~>
             j{"type" ~> "string"; "enum" ~> j["disabled"; "active"; "shadow"; "compare"] };
           "selectedRefs" ~> j{"type" ~> "array"}; "excludedRefs" ~> j{"type" ~> "array"};
           "retrieval" ~> j{"type" ~> "object"}; "results" ~> j{"type" ~> "array"};
           "decisionRefs" ~> j{"type" ~> "array"}; "policy" ~> j{"type" ~> "object"};
           "module" ~> j{"type" ~> "object"}; "redaction" ~> j{"type" ~> "object"};
           "traceRefs" ~> j{"type" ~> "array"}; "replayRefs" ~> j{"type" ~> "array"};
           "lifecycle" ~> j{"type" ~> "object"}; "idempotency" ~> j{"type" ~> "object"};
           "occurredAt" ~> j{"type" ~> "string"} } }) ["recorded"; "archived"]
    ["governed_by"; "selected_record"; "excluded_record"; "supported_by_decision";
     "derived_from"; "evidence_for"].

(* SRC engine/durability/resources/memory_definitions.rs:280-330! memory_resource_type_definitions *)
Definition memory_decision_type : RegisterResourceType :=
  memory_builtin_type MEMORY_DECISION_KIND MEMORY_DECISION_SCHEMA_ID
    (j{"type" ~> "object";
       "required" ~>
         j["schemaVersion"; "decisionKind"; "reasonCodes"; "sourceRefs"; "promptInclusion";
           "retentionEvidence"; "policyEvidence"; "redaction"; "traceRefs"; "replayRefs";
           "lifecycle"; "idempotency"; "occurredAt"];
       "additionalProperties" ~> true;
       "properties" ~>
         j{"schemaVersion" ~> j{"type" ~> "string"}; "decisionKind" ~> j{"type" ~> "string"};
           "reasonCodes" ~> j{"type" ~> "array"}; "subjectRef" ~> j{"type" ~> "object"};
           "queryRef" ~> j{"type" ~> "object"}; "sourceRefs" ~> j{"type" ~> "array"};
           "promptInclusion" ~> j{"type" ~> "object"};
           "retentionEvidence" ~> j{"type" ~> "object"};
           "policyEvidence" ~> j{"type" ~> "object"}; "redaction" ~> j{"type" ~> "object"};
           "traceRefs" ~> j{"type" ~> "array"}; "replayRefs" ~> j{"type" ~> "array"};
           "lifecycle" ~> j{"type" ~> "object"}; "idempotency" ~> j{"type" ~> "object"};
           "occurredAt" ~> j{"type" ~> "string"} } })
    ["recorded"; "rejected"; "applied"; "archived"]
    ["governed_by"; "decides_record"; "decides_query"; "source_event"; "source_resource";
     "source_trace"; "derived_from"; "evidence_for"].

(* SRC engine/durability/resources/memory_definitions.rs:331-365! memory_resource_type_definitions *)
Definition memory_eval_run_type : RegisterResourceType :=
  memory_builtin_type MEMORY_EVAL_RUN_KIND MEMORY_EVAL_RUN_SCHEMA_ID
    (j{"type" ~> "object";
       "required" ~>
         j["schemaVersion"; "engineId"; "datasetProvenance"; "scores"; "outcome"; "findings";
           "createdAt"];
       "additionalProperties" ~> true;
       "properties" ~>
         j{"schemaVersion" ~> j{"type" ~> "string"}; "engineId" ~> j{"type" ~> "string"};
           "datasetProvenance" ~> j{"type" ~> "object"}; "scores" ~> j{"type" ~> "object"};
           "outcome" ~> j{"type" ~> "string"}; "findings" ~> j{"type" ~> "array"};
           "createdAt" ~> j{"type" ~> "string"} } })
    ["passed"; "failed"; "inconclusive"; "archived"]
    ["evaluates_engine"; "evaluates_record"; "uses_dataset"; "supersedes"; "derived_from";
     "evidence_for"].

(* SRC engine/durability/resources/memory_definitions.rs:366-406! memory_resource_type_definitions *)
Definition memory_migration_envelope_type : RegisterResourceType :=
  memory_builtin_type MEMORY_MIGRATION_ENVELOPE_KIND MEMORY_MIGRATION_ENVELOPE_SCHEMA_ID
    (j{"type" ~> "object";
       "required" ~>
         j["schemaVersion"; "operation"; "sourceEngineId"; "records"; "indexMetadata";
           "lineage"; "validation"; "createdAt"];
       "additionalProperties" ~> true;
       "properties" ~>
         j{"schemaVersion" ~> j{"type" ~> "string"};
           "operation" ~> j{"type" ~> "string"; "enum" ~> j["export"; "import"] };
           "sourceEngineId" ~> j{"type" ~> "string"};
           "targetEngineId" ~> j{"type" ~> "string"}; "records" ~> j{"type" ~> "array"};
           "indexMetadata" ~> j{"type" ~> "object"}; "lineage" ~> j{"type" ~> "object"};
           "validation" ~> j{"type" ~> "object"}; "createdAt" ~> j{"type" ~> "string"} } })
    ["exported"; "imported"; "invalid"; "archived"]
    ["exports_record"; "imports_record"; "exports_index"; "imports_index"; "source_engine";
     "target_engine"; "supersedes"; "derived_from"; "evidence_for"].

(* SRC engine/durability/resources/memory_definitions.rs:20-21! memory_resource_type_definitions *)
Definition memory_resource_type_definitions : list RegisterResourceType :=
  [memory_engine_type; memory_policy_type; memory_record_type; memory_prompt_trace_type;
   memory_query_type; memory_decision_type; memory_eval_run_type;
   memory_migration_envelope_type].

(** ** Media *)

(* SRC engine/durability/resources/media_definitions.rs:14-116! media_resource_type_definitions *)
Definition media_artifact_type : RegisterResourceType :=
  {| rt_kind := MEDIA_ARTIFACT_KIND;
     rt_schema_id := MEDIA_ARTIFACT_SCHEMA_ID;
     rt_schema :=
        j{"type" ~> "object";
          "required" ~>
            j["schemaVersion"; "state"; "mediaId"; "mediaKind"; "mimeType"; "sizeBytes";
              "storage"; "scope"; "createdAt"; "updatedAt"; "retention"; "transcription";
              "refs"; "traceRefs"; "replayRefs"; "authority"; "idempotency"; "revision"];
          "additionalProperties" ~> true;
          "properties" ~>
            j{"schemaVersion" ~> j{"type" ~> "string"};
              "state" ~> j{"type" ~> "string"; "enum" ~> j["active"; "archived"] };
              "mediaId" ~> j{"type" ~> "string"};
              "mediaKind" ~>
                j{"type" ~> "string"; "enum" ~> j["voice_note"; "audio"; "image"; "document"] };
              "mimeType" ~> j{"type" ~> "string"};
              "sizeBytes" ~> j{"type" ~> "integer"; "minimum" ~> 1};
              "title" ~> j{"type" ~> "string"}; "summary" ~> j{"type" ~> "string"};
              "durationMs" ~> j{"type" ~> "integer"; "minimum" ~> 0};
              "storage" ~>
                j{"type" ~> "object";
                  "required" ~>
                    j["blobRef"; "storageClass"; "rawBytesStoredInResource";
                      "providerVisibleRawAudio"];
                  "properties" ~>
                    j{"blobRef" ~> j{"type" ~> "string"};
                      "contentHash" ~> j{"type" ~> "string"};
                      "storageClass" ~> j{"type" ~> "string"};
                      "rawBytesStoredInResource" ~> j{"type" ~> "boolean"};
                      "providerVisibleRawAudio" ~> j{"type" ~> "boolean"} } };
              "scope" ~> j{"type" ~> "object"}; "createdAt" ~> j{"type" ~> "string"};
              "updatedAt" ~> j{"type" ~> "string"};
              "archivedAt" ~> j{"type" ~> j["string"; "null"] };
              "retention" ~> j{"type" ~> "object"}; "transcription" ~> j{"type" ~> "object"};
              "refs" ~> j{"type" ~> "object"}; "traceRefs" ~> j{"type" ~> "array"};
              "replayRefs" ~> j{"type" ~> "array"}; "authority" ~> j{"type" ~> "object"};
              "idempotency" ~> j{"type" ~> "object"}; "revision" ~> j{"type" ~> "integer"} } };
     rt_lifecycle_states := ["active"; "archived"];
     rt_versioning_mode := AppendOnly;
     rt_allowed_link_relations := ["source"; "evidence_for"; "derived_from"; "transcription_of"; "attached_to"];
     rt_default_retention :=
        j{"class" ~> "user_media"; "maxAgeDays" ~> 90; "archiveKeepsEvidence" ~> true};
     rt_redaction_rules :=
        j{"preview" ~> "metadata_only";
          "neverReturn" ~> j["rawAudio"; "audioBase64"; "data"; "bytes"];
          "transcription" ~> "bounded_preview"};
     rt_materialization_rules :=
        j{"durableOutputsRequireResourceVersion" ~> true; "payloadStoresBlobRefsOnly" ~> true;
          "rawAudioProviderProjection" ~> "forbidden_without_explicit_resource_authorization"};
     rt_required_capabilities :=
        j{"read" ~> j["media.read"; "resource.read"];
          "write" ~> j["media.write"; "resource.write"];
          "delete" ~> j["media.write"; "resource.write"] };
     rt_owner_worker_id := "media" |}.

(* SRC engine/durability/resources/media_definitions.rs:13-14! media_resource_type_definitions *)
Definition media_resource_type_definitions : list RegisterResourceType :=
  [media_artifact_type].

(** ** Notification *)

(* SRC engine/durability/resources/notification_definitions.rs:14-82! notification_resource_type_definitions *)
Definition device_registration_type : RegisterResourceType :=
  {| rt_kind := DEVICE_REGISTRATION_KIND;
     rt_schema_id := DEVICE_REGISTRATION_SCHEMA_ID;
     rt_schema :=
        j{"type" ~> "object";
          "required" ~>
            j["schemaVersion"; "state"; "deviceId"; "platform"; "scope"; "apns";
              "notificationPolicy"; "retention"; "createdAt"; "updatedAt"; "traceRefs";
              "replayRefs"; "authority"; "idempotency"; "revision"];
          "additionalProperties" ~> true;
          "properties" ~>
            j{"schemaVersion" ~> j{"type" ~> "string"};
              "state" ~>
                j{"type" ~> "string"; "enum" ~> j["active"; "unregistered"; "archived"] };
              "deviceId" ~> j{"type" ~> "string"}; "platform" ~> j{"type" ~> "string"};
              "label" ~> j{"type" ~> j["string"; "null"] }; "scope" ~> j{"type" ~> "object"};
              "apns" ~> j{"type" ~> "object"}; "notificationPolicy" ~> j{"type" ~> "object"};
              "retention" ~> j{"type" ~> "object"}; "createdAt" ~> j{"type" ~> "string"};
              "updatedAt" ~> j{"type" ~> "string"};
              "unregistered" ~> j{"type" ~> j["object"; "null"] };
              "traceRefs" ~> j{"type" ~> "array"}; "replayRefs" ~> j{"type" ~> "array"};
              "authority" ~> j{"type" ~> "object"}; "idempotency" ~> j{"type" ~> "object"};
              "revision" ~> j{"type" ~> "integer"} } };
     rt_lifecycle_states := ["active"; "unregistered"; "archived"];
     rt_versioning_mode := AppendOnly;
     rt_allowed_link_relations :=
        ["receives_notification"; "delivery_evidence"; "rotates_from"; "rotates_to";
     "supersedes"; "derived_from"; "evidence_for"];
     rt_default_retention :=
        j{"class" ~> "private_device"; "maxAgeDays" ~> 90; "tokenCustody" ~> "hash_only"};
     rt_redaction_rules :=
        j{"preview" ~> "device_registration_redacted"; "rawApnsToken" ~> "never_return";
          "tokenHash" ~> "prefix_only"};
     rt_materialization_rules :=
        j{"rawApnsToken" ~> "not_materialized_in_resource_payload";
          "liveApnsTransport" ~> "disabled"};
     rt_required_capabilities :=
        j{"read" ~> j["device.read"; "resource.read"];
          "write" ~> j["device.write"; "resource.write"] };
     rt_owner_worker_id := "resource" |}.

(* SRC engine/durability/resources/notification_definitions.rs:83-152! notification_resource_type_definitions *)
Definition notification_type : RegisterResourceType :=
  {| rt_kind := NOTIFICATION_KIND;
     rt_schema_id := NOTIFICATION_SCHEMA_ID;
     rt_schema :=
        j{"type" ~> "object";
          "required" ~>
            j["schemaVersion"; "state"; "notificationId"; "family"; "severity"; "title";
              "body"; "scope"; "createdAt"; "updatedAt"; "readState"; "badge";
              "deliveryPolicy"; "retention"; "refs"; "traceRefs"; "replayRefs"; "authority";
              "idempotency"; "revision"];
          "additionalProperties" ~> true;
          "properties" ~>
            j{"schemaVersion" ~> j{"type" ~> "string"};
              "state" ~> j{"type" ~> "string"; "enum" ~> j["unread"; "read"; "archived"] };
              "notificationId" ~> j{"type" ~> "string"}; "family" ~> j{"type" ~> "string"};
              "severity" ~> j{"type" ~> "string"}; "title" ~> j{"type" ~> "string"};
              "body" ~> j{"type" ~> "string"}; "scope" ~> j{"type" ~> "object"};
              "createdAt" ~> j{"type" ~> "string"}; "updatedAt" ~> j{"type" ~> "string"};
              "readState" ~> j{"type" ~> "object"}; "badge" ~> j{"type" ~> "object"};
              "deliveryPolicy" ~> j{"type" ~> "object"}; "retention" ~> j{"type" ~> "object"};
              "refs" ~> j{"type" ~> "object"}; "traceRefs" ~> j{"type" ~> "array"};
              "replayRefs" ~> j{"type" ~> "array"}; "authority" ~> j{"type" ~> "object"};
              "idempotency" ~> j{"type" ~> "object"}; "revision" ~> j{"type" ~> "integer"} } };
     rt_lifecycle_states := ["unread"; "read"; "archived"];
     rt_versioning_mode := AppendOnly;
     rt_allowed_link_relations :=
        ["delivery_evidence"; "source_event"; "evidence_for"; "derived_from"; "supersedes"];
     rt_default_retention :=
        j{"class" ~> "user_visible_notification"; "maxAgeDays" ~> 90; "maxInboxRecords" ~> 500};
     rt_redaction_rules :=
        j{"preview" ~> "bounded_notification_summary"; "deliveryTokenFields" ~> "redacted"};
     rt_materialization_rules :=
        j{"body" ~> "bounded_inline"; "liveApnsTransport" ~> "disabled"};
     rt_required_capabilities :=
        j{"read" ~> j["notifications.read"; "resource.read"];
          "write" ~> j["notifications.write"; "resource.write"] };
     rt_owner_worker_id := "resource" |}.

(* SRC engine/durability/resources/notification_definitions.rs:153-220! notification_resource_type_definitions *)
Definition notification_delivery_type : RegisterResourceType :=
  {| rt_kind := NOTIFICATION_DELIVERY_KIND;
     rt_schema_id := NOTIFICATION_DELIVERY_SCHEMA_ID;
     rt_schema :=
        j{"type" ~> "object";
          "required" ~>
            j["schemaVersion"; "state"; "notificationResourceId"; "notificationVersionId";
              "family"; "outcome"; "push"; "badge"; "createdAt"; "traceRefs"; "replayRefs";
              "authority"; "idempotency"; "revision"];
          "additionalProperties" ~> true;
          "properties" ~>
            j{"schemaVersion" ~> j{"type" ~> "string"};
              "state" ~>
                j{"type" ~> "string";
                  "enum" ~>
                    j["inbox_only"; "skipped_no_device"; "skipped_policy_disabled";
                      "skipped_family_opt_out"; "skipped_transport_disabled"; "failed";
                      "archived"] };
              "notificationResourceId" ~> j{"type" ~> "string"};
              "notificationVersionId" ~> j{"type" ~> "string"};
              "deviceRegistrationResourceId" ~> j{"type" ~> j["string"; "null"] };
              "family" ~> j{"type" ~> "string"};
              "apnsEnvironment" ~> j{"type" ~> j["string"; "null"] };
              "outcome" ~> j{"type" ~> "object"}; "push" ~> j{"type" ~> "object"};
              "badge" ~> j{"type" ~> "object"}; "createdAt" ~> j{"type" ~> "string"};
              "traceRefs" ~> j{"type" ~> "array"}; "replayRefs" ~> j{"type" ~> "array"};
              "authority" ~> j{"type" ~> "object"}; "idempotency" ~> j{"type" ~> "object"};
              "revision" ~> j{"type" ~> "integer"} } };
     rt_lifecycle_states :=
        ["inbox_only"; "skipped_no_device"; "skipped_policy_disabled"; "skipped_family_opt_out";
     "skipped_transport_disabled"; "failed"; "archived"];
     rt_versioning_mode := AppendOnly;
     rt_allowed_link_relations := ["delivery_for"; "device"; "evidence_for"; "derived_from"];
     rt_default_retention := j{"class" ~> "delivery_evidence"; "maxAgeDays" ~> 90};
     rt_redaction_rules :=
        j{"preview" ~> "delivery_summary"; "rawApnsToken" ~> "never_return";
          "tokenHash" ~> "prefix_only"};
     rt_materialization_rules :=
        j{"liveApnsAttempt" ~> "disabled"; "externalNetwork" ~> "none"};
     rt_required_capabilities :=
        j{"read" ~> j["notifications.read"; "resource.read"];
          "write" ~> j["notifications.write"; "resource.write"] };
     rt_owner_worker_id := "resource" |}.

(* SRC engine/durability/resources/notification_definitions.rs:12-13! notification_resource_type_definitions *)
Definition notification_resource_type_definitions : list RegisterResourceType :=
  [device_registration_type; notification_type; notification_delivery_type].

(** ** Procedural *)

(* SRC engine/durability/resources/procedural_definitions.rs:18-19! PROCEDURAL_ACTIVATION_REQUEST_PAYLOAD_SCHEMA_VERSION *)
Definition PROCEDURAL_ACTIVATION_REQUEST_PAYLOAD_SCHEMA_VERSION : string :=
  "tron.procedural_activation_request.v1".

(* SRC engine/durability/resources/procedural_definitions.rs:20-21! PROCEDURAL_ACTIVATION_DECISION_PAYLOAD_SCHEMA_VERSION *)
Definition PROCEDURAL_ACTIVATION_DECISION_PAYLOAD_SCHEMA_VERSION : string :=
  "tron.procedural_activation_decision.v1".

(* SRC engine/durability/resources/procedural_definitions.rs:31-114! procedural_record_definition *)
Definition procedural_record_definition : RegisterResourceType :=
  {| rt_kind := PROCEDURAL_RECORD_KIND;
     rt_schema_id := PROCEDURAL_RECORD_SCHEMA_ID;
     rt_schema :=
        j{"type" ~> "object";
          "required" ~>
            j["schemaVersion"; "proceduralKind"; "identity"; "summary"; "status";
              "provenance"; "eval"; "activation"; "sourceRefs"; "traceRefs"; "replayRefs";
              "validationEvidence"; "review"; "triggerDeclarations"; "conflictMetadata";
              "orderingMetadata"; "scopedAuthorityProof"; "boundedRefs"; "idempotency";
              "providerProjection"; "revision"];
          "additionalProperties" ~> true;
          "properties" ~>
            j{"schemaVersion" ~> j{"type" ~> "string"};
              "proceduralKind" ~>
                j{"type" ~> "string"; "enum" ~> j["skill"; "rule"; "hook"; "procedure"] };
              "identity" ~> j{"type" ~> "object"}; "summary" ~> j{"type" ~> "string"};
              "status" ~>
                j{"type" ~> "string";
                  "enum" ~>
                    j["draft"; "candidate"; "validated"; "disabled"; "stale"; "archived"] };
              "provenance" ~> j{"type" ~> "object"}; "eval" ~> j{"type" ~> "object"};
              "activation" ~> j{"type" ~> "object"}; "sourceRefs" ~> j{"type" ~> "array"};
              "traceRefs" ~> j{"type" ~> "array"}; "replayRefs" ~> j{"type" ~> "array"};
              "validationEvidence" ~> j{"type" ~> "object"};
              "review" ~> j{"type" ~> "object"};
              "triggerDeclarations" ~> j{"type" ~> "array"};
              "conflictMetadata" ~> j{"type" ~> "object"};
              "orderingMetadata" ~> j{"type" ~> "object"};
              "scopedAuthorityProof" ~> j{"type" ~> "object"};
              "boundedRefs" ~> j{"type" ~> "array"}; "idempotency" ~> j{"type" ~> "object"};
              "providerProjection" ~> j{"type" ~> "object"};
              "revision" ~> j{"type" ~> "integer"} } };
     rt_lifecycle_states := ["draft"; "candidate"; "validated"; "disabled"; "stale"; "archived"];
     rt_versioning_mode := AppendOnly;
     rt_allowed_link_relations :=
        ["source_resource"; "evaluated_by"; "supersedes"; "derived_from"; "evidence_for"];
     rt_default_retention := j{"class" ~> "project"};
     rt_redaction_rules :=
        j{"projection" ~> "metadata_only"; "body" ~> "not_provider_visible";
          "activation" ~> "proof_only"};
     rt_materialization_rules := j{"durableOutputsRequireResourceVersion" ~> true};
     rt_required_capabilities :=
        j{"read" ~> j["procedural.read"; "resource.read"];
          "write" ~> j["procedural.write"; "resource.write"] };
     rt_owner_worker_id := "procedural" |}.

(* SRC engine/durability/resources/procedural_definitions.rs:116-209! activation_request_definition *)
Definition activation_request_definition : RegisterResourceType :=
  {| rt_kind := PROCEDURAL_ACTIVATION_REQUEST_KIND;
     rt_schema_id := PROCEDURAL_ACTIVATION_REQUEST_SCHEMA_ID;
     rt_schema :=
        j{"type" ~> "object";
          "required" ~>
            j["schemaVersion"; "state"; "requestId"; "scope"; "proceduralRecord";
              "requestedAction"; "review"; "validationEvidenceRefs"; "triggerDeclarations";
              "conflictMetadata"; "orderingMetadata"; "scopedAuthorityProof";
              "rollbackProofRefs"; "traceRefs"; "replayRefs"; "boundedRefs"; "idempotency";
              "safetyProof"; "createdAt"; "updatedAt"; "revision"];
          "additionalProperties" ~> false;
          "properties" ~>
            j{"schemaVersion" ~>
                j{"type" ~> "string";
                  "const" ~> PROCEDURAL_ACTIVATION_REQUEST_PAYLOAD_SCHEMA_VERSION};
              "state" ~>
                j{"type" ~> "string";
                  "enum" ~> j["pending_review"; "withdrawn"; "superseded"; "archived"] };
              "requestId" ~> j{"type" ~> "string"}; "scope" ~> j{"type" ~> "object"};
              "proceduralRecord" ~> j{"type" ~> "object"};
              "requestedAction" ~>
                j{"type" ~> "string"; "enum" ~> j["activate"; "deactivate"; "rollback"] };
              "review" ~> j{"type" ~> "object"};
              "validationEvidenceRefs" ~>
                j{"type" ~> "array"; "maxItems" ~> 25; "items" ~> j{"type" ~> "object"} };
              "triggerDeclarations" ~>
                j{"type" ~> "array"; "maxItems" ~> 25; "items" ~> j{"type" ~> "object"} };
              "conflictMetadata" ~> j{"type" ~> "object"};
              "orderingMetadata" ~> j{"type" ~> "object"};
              "scopedAuthorityProof" ~> j{"type" ~> "object"};
              "rollbackProofRefs" ~>
                j{"type" ~> "array"; "maxItems" ~> 25; "items" ~> j{"type" ~> "object"} };
              "traceRefs" ~>
                j{"type" ~> "array"; "maxItems" ~> 25; "items" ~> j{"type" ~> "object"} };
              "replayRefs" ~>
                j{"type" ~> "array"; "maxItems" ~> 25; "items" ~> j{"type" ~> "object"} };
              "boundedRefs" ~>
                j{"type" ~> "array"; "maxItems" ~> 25; "items" ~> j{"type" ~> "object"} };
              "idempotency" ~> j{"type" ~> "object"}; "safetyProof" ~> j{"type" ~> "object"};
              "createdAt" ~> j{"type" ~> "string"}; "updatedAt" ~> j{"type" ~> "string"};
              "revision" ~> j{"type" ~> "integer"} } };
     rt_lifecycle_states := ["pending_review"; "withdrawn"; "superseded"; "archived"];
     rt_versioning_mode := AppendOnly;
     rt_allowed_link_relations :=
        ["requests_activation_for"; "requests_deactivation_for"; "requests_rollback_for";
     "evidence_for"; "trace"; "replay"; "derived_from"; "supersedes"];
     rt_default_retention := j{"class" ~> "procedural_activation_request"};
     rt_redaction_rules :=
        j{"projection" ~> "metadata_only_provider_safe"; "rawProceduralBody" ~> "forbidden";
          "commands" ~> "forbidden"; "paths" ~> "forbidden"; "grantIds" ~> "forbidden"};
     rt_materialization_rules :=
        j{"durableOutputsRequireResourceVersion" ~> true; "activation" ~> "review_only";
          "execution" ~> "forbidden"; "networkPolicy" ~> "none";
          "repoManagedSkills" ~> "forbidden"};
     rt_required_capabilities :=
        j{"read" ~> j["procedural.read"; "resource.read"];
          "write" ~> j["procedural.write"; "resource.write"] };
     rt_owner_worker_id := "procedural" |}.

(* SRC engine/durability/resources/procedural_definitions.rs:211-308! activation_decision_definition *)
Definition activation_decision_definition : RegisterResourceType :=
  {| rt_kind := PROCEDURAL_ACTIVATION_DECISION_KIND;
     rt_schema_id := PROCEDURAL_ACTIVATION_DECISION_SCHEMA_ID;
     rt_schema :=
        j{"type" ~> "object";
          "required" ~>
            j["schemaVersion"; "state"; "decisionId"; "scope"; "activationRequest";
              "proceduralRecord"; "decision"; "decisionReason"; "activationResult";
              "rollbackProofRefs"; "deactivationProofRefs"; "traceRefs"; "replayRefs";
              "boundedRefs"; "idempotency"; "safetyProof"; "createdAt"; "updatedAt";
              "revision"];
          "additionalProperties" ~> false;
          "properties" ~>
            j{"schemaVersion" ~>
                j{"type" ~> "string";
                  "const" ~> PROCEDURAL_ACTIVATION_DECISION_PAYLOAD_SCHEMA_VERSION};
              "state" ~>
                j{"type" ~> "string";
                  "enum" ~>
                    j["approved"; "denied"; "deactivated"; "rollback_required"; "archived"] };
              "decisionId" ~> j{"type" ~> "string"}; "scope" ~> j{"type" ~> "object"};
              "activationRequest" ~> j{"type" ~> "object"};
              "proceduralRecord" ~> j{"type" ~> "object"};
              "decision" ~>
                j{"type" ~> "string";
                  "enum" ~>
                    j["approve_activation"; "deny_activation"; "approve_deactivation";
                      "approve_rollback"] };
              "decisionReason" ~> j{"type" ~> "string"};
              "activationResult" ~> j{"type" ~> "object"};
              "rollbackProofRefs" ~>
                j{"type" ~> "array"; "maxItems" ~> 25; "items" ~> j{"type" ~> "object"} };
              "deactivationProofRefs" ~>
                j{"type" ~> "array"; "maxItems" ~> 25; "items" ~> j{"type" ~> "object"} };
              "traceRefs" ~>
                j{"type" ~> "array"; "maxItems" ~> 25; "items" ~> j{"type" ~> "object"} };
              "replayRefs" ~>
                j{"type" ~> "array"; "maxItems" ~> 25; "items" ~> j{"type" ~> "object"} };
              "boundedRefs" ~>
                j{"type" ~> "array"; "maxItems" ~> 25; "items" ~> j{"type" ~> "object"} };
              "idempotency" ~> j{"type" ~> "object"}; "safetyProof" ~> j{"type" ~> "object"};
              "createdAt" ~> j{"type" ~> "string"}; "updatedAt" ~> j{"type" ~> "string"};
              "revision" ~> j{"type" ~> "integer"} } };
     rt_lifecycle_states := ["approved"; "denied"; "deactivated"; "rollback_required"; "archived"];
     rt_versioning_mode := AppendOnly;
     rt_allowed_link_relations :=
        ["decides"; "activation_for"; "deactivation_for"; "rollback_for"; "evidence_for";
     "trace"; "replay"; "derived_from"; "supersedes"];
     rt_default_retention := j{"class" ~> "procedural_activation_decision"};
     rt_redaction_rules :=
        j{"projection" ~> "metadata_only_provider_safe"; "activationProof" ~> "decision_only";
          "rawProceduralBody" ~> "forbidden"; "commands" ~> "forbidden";
          "paths" ~> "forbidden"; "grantIds" ~> "forbidden"};
     rt_materialization_rules :=
        j{"durableOutputsRequireResourceVersion" ~> true;
          "activation" ~> "decision_record_only"; "execution" ~> "forbidden";
          "networkPolicy" ~> "none"; "repoManagedSkills" ~> "forbidden"};
     rt_required_capabilities :=
        j{"read" ~> j["procedural.read"; "resource.read"];
          "write" ~> j["procedural.write"; "resource.write"] };
     rt_owner_worker_id := "procedural" |}.

(* SRC engine/durability/resources/procedural_definitions.rs:23-29! procedural_resource_type_definitions *)
Definition procedural_resource_type_definitions : list RegisterResourceType :=
  [procedural_record_definition; activation_request_definition; activation_decision_definition].

(** ** Scheduler *)

(* SRC engine/durability/resources/scheduler_definitions.rs:13-84! scheduler_resource_type_definitions *)
Definition schedule_type : RegisterResourceType :=
  {| rt_kind := SCHEDULE_KIND;
     rt_schema_id := SCHEDULE_SCHEMA_ID;
     rt_schema :=
        j{"type" ~> "object";
          "required" ~>
            j["schemaVersion"; "state"; "title"; "scheduleKind"; "trigger"; "timezonePolicy";
              "missedRunPolicy"; "target"; "authority"; "retention"; "createdAt"; "updatedAt";
              "nextFireAt"; "traceRefs"; "replayRefs"; "revision"];
          "additionalProperties" ~> true;
          "properties" ~>
            j{"schemaVersion" ~> j{"type" ~> "string"};
              "state" ~>
                j{"type" ~> "string";
                  "enum" ~> j["active"; "paused"; "completed"; "cancelled"; "archived"] };
              "title" ~> j{"type" ~> "string"};
              "scheduleKind" ~>
                j{"type" ~> "string"; "enum" ~> j["reminder"; "monitor"; "automation"] };
              "trigger" ~> j{"type" ~> "object"}; "timezonePolicy" ~> j{"type" ~> "object"};
              "missedRunPolicy" ~> j{"type" ~> "object"}; "target" ~> j{"type" ~> "object"};
              "authority" ~> j{"type" ~> "object"}; "retention" ~> j{"type" ~> "object"};
              "createdAt" ~> j{"type" ~> "string"}; "updatedAt" ~> j{"type" ~> "string"};
              "nextFireAt" ~> j{"type" ~> j["string"; "null"] };
              "lastEvaluatedAt" ~> j{"type" ~> j["string"; "null"] };
              "lastRunAt" ~> j{"type" ~> j["string"; "null"] };
              "cancellation" ~> j{"type" ~> j["object"; "null"] };
              "traceRefs" ~> j{"type" ~> "array"}; "replayRefs" ~> j{"type" ~> "array"};
              "revision" ~> j{"type" ~> "integer"} } };
     rt_lifecycle_states := ["active"; "paused"; "completed"; "cancelled"; "archived"];
     rt_versioning_mode := AppendOnly;
     rt_allowed_link_relations := ["produced_run"; "derived_from"; "evidence_for"; "supersedes"; "cancelled_by"];
     rt_default_retention := j{"class" ~> "project"; "maxRunRecordsPerSchedule" ~> 1000};
     rt_redaction_rules := j{"preview" ~> "bounded_schedule_summary"};
     rt_materialization_rules := j{"durableRunsRequireResourceVersion" ~> true};
     rt_required_capabilities :=
        j{"read" ~> j["scheduler.read"; "resource.read"];
          "write" ~> j["scheduler.write"; "resource.write"];
          "cancel" ~> j["scheduler.write"; "resource.write"];
          "fire" ~> j["scheduler.fire"; "scheduler.write"; "resource.write"] };
     rt_owner_worker_id := "resource" |}.

(* SRC engine/durability/resources/scheduler_definitions.rs:85-151! scheduler_resource_type_definitions *)
Definition schedule_run_type : RegisterResourceType :=
  {| rt_kind := SCHEDULE_RUN_KIND;
     rt_schema_id := SCHEDULE_RUN_SCHEMA_ID;
     rt_schema :=
        j{"type" ~> "object";
          "required" ~>
            j["schemaVersion"; "state"; "scheduleResourceId"; "scheduleVersionId";
              "scheduleKind"; "scheduledFor"; "evaluatedAt"; "trigger"; "target"; "authority";
              "idempotency"; "retention"; "traceRefs"; "replayRefs"; "revision"];
          "additionalProperties" ~> true;
          "properties" ~>
            j{"schemaVersion" ~> j{"type" ~> "string"};
              "state" ~>
                j{"type" ~> "string";
                  "enum" ~> j["recorded"; "skipped_missed"; "cancelled"; "stale"; "archived"] };
              "scheduleResourceId" ~> j{"type" ~> "string"};
              "scheduleVersionId" ~> j{"type" ~> "string"};
              "scheduleKind" ~> j{"type" ~> "string"};
              "scheduledFor" ~> j{"type" ~> "string"}; "evaluatedAt" ~> j{"type" ~> "string"};
              "trigger" ~> j{"type" ~> "object"}; "target" ~> j{"type" ~> "object"};
              "authority" ~> j{"type" ~> "object"}; "missed" ~> j{"type" ~> "object"};
              "backgroundResult" ~> j{"type" ~> "object"};
              "idempotency" ~> j{"type" ~> "object"}; "retention" ~> j{"type" ~> "object"};
              "traceRefs" ~> j{"type" ~> "array"}; "replayRefs" ~> j{"type" ~> "array"};
              "revision" ~> j{"type" ~> "integer"} } };
     rt_lifecycle_states := ["recorded"; "skipped_missed"; "cancelled"; "stale"; "archived"];
     rt_versioning_mode := AppendOnly;
     rt_allowed_link_relations := ["run_of"; "derived_from"; "evidence_for"; "supersedes"];
     rt_default_retention := j{"class" ~> "project"; "maxAgeDays" ~> 90};
     rt_redaction_rules := j{"preview" ~> "bounded_run_summary"};
     rt_materialization_rules := j{"resultPayload" ~> "bounded_inline_only"};
     rt_required_capabilities :=
        j{"read" ~> j["scheduler.read"; "resource.read"];
          "write" ~> j["scheduler.write"; "resource.write"] };
     rt_owner_worker_id := "resource" |}.

(* SRC engine/durability/resources/scheduler_definitions.rs:11-12! scheduler_resource_type_definitions *)
Definition scheduler_resource_type_definitions : list RegisterResourceType :=
  [schedule_type; schedule_run_type].

(** ** Web *)

(* SRC engine/durability/resources/web_definitions.rs:15-97! web_source_definition *)
Definition web_source_definition : RegisterResourceType :=
  {| rt_kind := WEB_SOURCE_KIND;
     rt_schema_id := WEB_SOURCE_SCHEMA_ID;
     rt_schema :=
        j{"type" ~> "object";
          "required" ~>
            j["schemaVersion"; "operation"; "state"; "requestedUrl"; "finalUrl"; "fetchedAt";
              "status"; "contentType"; "byteEvidence"; "textEvidence"; "redaction";
              "authority"; "traceRefs"; "replayRefs"; "cache"; "idempotency"; "revision"];
          "additionalProperties" ~> true;
          "properties" ~>
            j{"schemaVersion" ~> j{"type" ~> "string"};
              "operation" ~> j{"type" ~> "string"; "enum" ~> j["web_fetch"] };
              "state" ~> j{"type" ~> "string"; "enum" ~> j["fetched"; "archived"] };
              "requestedUrl" ~> j{"type" ~> "string"}; "finalUrl" ~> j{"type" ~> "string"};
              "fetchedAt" ~> j{"type" ~> "string"}; "status" ~> j{"type" ~> "integer"};
              "contentType" ~> j{"type" ~> j["string"; "null"] };
              "byteEvidence" ~> j{"type" ~> "object"};
              "textEvidence" ~>
                j{"type" ~> "object"; "additionalProperties" ~> true;
                  "properties" ~>
                    j{"preview" ~> j{"type" ~> "string"};
                      "textBytes" ~> j{"type" ~> "integer"};
                      "maxOutputBytes" ~> j{"type" ~> "integer"};
                      "outputTextTruncated" ~> j{"type" ~> "boolean"};
                      "binaryBodyOmitted" ~> j{"type" ~> "boolean"};
                      "extractionMode" ~> j{"type" ~> "string"};
                      "extractorId" ~> j{"type" ~> "string"};
                      "extractorVersion" ~> j{"type" ~> "string"};
                      "title" ~> j{"type" ~> j["string"; "null"] };
                      "extractedTextBytes" ~> j{"type" ~> "integer"};
                      "extractedTextTruncated" ~> j{"type" ~> "boolean"} } };
              "redaction" ~> j{"type" ~> "object"}; "redirects" ~> j{"type" ~> "object"};
              "robotsPolicyRefs" ~> j{"type" ~> "array"};
              "authority" ~> j{"type" ~> "object"}; "traceRefs" ~> j{"type" ~> "array"};
              "replayRefs" ~> j{"type" ~> "array"}; "cache" ~> j{"type" ~> "object"};
              "idempotency" ~> j{"type" ~> "object"}; "revision" ~> j{"type" ~> "integer"} } };
     rt_lifecycle_states := ["fetched"; "archived"];
     rt_versioning_mode := AppendOnly;
     rt_allowed_link_relations := ["evidence_for"; "derived_from"; "supersedes"];
     rt_default_retention := j{"class" ~> "source_provenance"};
     rt_redaction_rules := j{"preview" ~> "bounded_redacted_text_only"};
     rt_materialization_rules := j{"durableOutputsRequireResourceVersion" ~> true};
     rt_required_capabilities :=
        j{"read" ~> j["web.read"; "resource.read"];
          "write" ~> j["web.write"; "resource.write"] };
     rt_owner_worker_id := "resource" |}.

(* SRC engine/durability/resources/web_definitions.rs:99-167! web_robots_policy_definition *)
Definition web_robots_policy_definition : RegisterResourceType :=
  {| rt_kind := WEB_ROBOTS_POLICY_KIND;
     rt_schema_id := WEB_ROBOTS_POLICY_SCHEMA_ID;
     rt_schema :=
        j{"type" ~> "object";
          "required" ~>
            j["schemaVersion"; "operation"; "state"; "origin"; "targetUrl"; "robotsUrl";
              "fetchedAt"; "status"; "bodyEvidence"; "parser"; "policy"; "sitemaps";
              "authority"; "traceRefs"; "replayRefs"; "cache"; "idempotency"; "revision"];
          "additionalProperties" ~> true;
          "properties" ~>
            j{"schemaVersion" ~> j{"type" ~> "string"};
              "operation" ~> j{"type" ~> "string"; "enum" ~> j["web_robots_check"] };
              "state" ~> j{"type" ~> "string"; "enum" ~> j["checked"] };
              "origin" ~> j{"type" ~> "string"}; "targetUrl" ~> j{"type" ~> "string"};
              "targetUrlFingerprint" ~> j{"type" ~> "object"};
              "robotsUrl" ~> j{"type" ~> "string"}; "finalRobotsUrl" ~> j{"type" ~> "string"};
              "fetchedAt" ~> j{"type" ~> "string"}; "status" ~> j{"type" ~> "integer"};
              "missing" ~> j{"type" ~> "boolean"}; "bodyEvidence" ~> j{"type" ~> "object"};
              "parser" ~> j{"type" ~> "object"}; "policy" ~> j{"type" ~> "object"};
              "sitemaps" ~> j{"type" ~> "object"}; "boundedBody" ~> j{"type" ~> "object"};
              "redirects" ~> j{"type" ~> "object"}; "authority" ~> j{"type" ~> "object"};
              "traceRefs" ~> j{"type" ~> "array"}; "replayRefs" ~> j{"type" ~> "array"};
              "cache" ~> j{"type" ~> "object"}; "idempotency" ~> j{"type" ~> "object"};
              "revision" ~> j{"type" ~> "integer"} } };
     rt_lifecycle_states := ["checked"];
     rt_versioning_mode := AppendOnly;
     rt_allowed_link_relations := ["evidence_for"; "derived_from"; "supersedes"];
     rt_default_retention := j{"class" ~> "robots_policy_evidence"};
     rt_redaction_rules := j{"preview" ~> "bounded_redacted_text_only"};
     rt_materialization_rules := j{"durableOutputsRequireResourceVersion" ~> true};
     rt_required_capabilities :=
        j{"read" ~> j["web.read"; "resource.read"];
          "write" ~> j["web.write"; "resource.write"] };
     rt_owner_worker_id := "resource" |}.

(* SRC engine/durability/resources/web_definitions.rs:11-13! web_resource_type_definitions *)
Definition web_resource_type_definitions : list RegisterResourceType :=
  [web_source_definition; web_robots_policy_definition].

(** ** Tool source *)

(* SRC engine/durability/resources/tool_source_definitions.rs:19-87! tool_source_proposal_definition *)
Definition tool_source_proposal_definition : RegisterResourceType :=
  {| rt_kind := TOOL_SOURCE_PROPOSAL_KIND;
     rt_schema_id := TOOL_SOURCE_PROPOSAL_SCHEMA_ID;
     rt_schema :=
        j{"type" ~> "object";
          "required" ~>
            j["schemaVersion"; "state"; "sourceKind"; "sourceIdentity"; "provenance";
              "sandboxPolicy"; "declaredTools"; "declaredSchemas"; "expectedLinkage";
              "authority"; "traceRefs"; "replayRefs"; "evidenceRefs"; "idempotency";
              "revision"];
          "additionalProperties" ~> true;
          "properties" ~>
            j{"schemaVersion" ~> j{"type" ~> "string"};
              "state" ~>
                j{"type" ~> "string"; "enum" ~> j["proposed"; "rejected"; "archived"] };
              "sourceKind" ~> j{"type" ~> "string"};
              "sourceIdentity" ~> j{"type" ~> "object"};
              "provenance" ~> j{"type" ~> "object"}; "sandboxPolicy" ~> j{"type" ~> "object"};
              "declaredTools" ~> j{"type" ~> "array"};
              "declaredSchemas" ~> j{"type" ~> "array"};
              "expectedLinkage" ~> j{"type" ~> "object"};
              "authority" ~> j{"type" ~> "object"}; "traceRefs" ~> j{"type" ~> "array"};
              "replayRefs" ~> j{"type" ~> "array"}; "evidenceRefs" ~> j{"type" ~> "array"};
              "redaction" ~> j{"type" ~> "object"}; "limits" ~> j{"type" ~> "object"};
              "idempotency" ~> j{"type" ~> "object"}; "revision" ~> j{"type" ~> "integer"} } };
     rt_lifecycle_states := ["proposed"; "rejected"; "archived"];
     rt_versioning_mode := AppendOnly;
     rt_allowed_link_relations :=
        ["conformance_report"; "evidence_for"; "derived_from"; "expected_worker_package";
     "supersedes"];
     rt_default_retention := j{"class" ~> "tool_source_provenance"};
     rt_redaction_rules := j{"preview" ~> "metadata_only"; "secrets" ~> "reject_inline"};
     rt_materialization_rules := j{"durableOutputsRequireResourceVersion" ~> true};
     rt_required_capabilities :=
        j{"read" ~> j["tool_sources.read"; "resource.read"];
          "write" ~> j["tool_sources.propose"; "resource.write"] };
     rt_owner_worker_id := "resource" |}.

(* SRC engine/durability/resources/tool_source_definitions.rs:89-145! tool_source_conformance_report_definition *)
Definition tool_source_conformance_report_definition : RegisterResourceType :=
  {| rt_kind := TOOL_SOURCE_CONFORMANCE_REPORT_KIND;
     rt_schema_id := TOOL_SOURCE_CONFORMANCE_REPORT_SCHEMA_ID;
     rt_schema :=
        j{"type" ~> "object";
          "required" ~>
            j["schemaVersion"; "state"; "toolSourceProposalResourceId"; "proposalVersionId";
              "status"; "checks"; "summary"; "authority"; "traceRefs"; "replayRefs";
              "evidenceRefs"; "idempotency"; "revision"];
          "additionalProperties" ~> true;
          "properties" ~>
            j{"schemaVersion" ~> j{"type" ~> "string"};
              "state" ~>
                j{"type" ~> "string"; "enum" ~> j["passed"; "failed"; "quarantined"] };
              "toolSourceProposalResourceId" ~> j{"type" ~> "string"};
              "proposalVersionId" ~> j{"type" ~> "string"}; "status" ~> j{"type" ~> "string"};
              "checks" ~> j{"type" ~> "array"}; "summary" ~> j{"type" ~> "object"};
              "authority" ~> j{"type" ~> "object"}; "traceRefs" ~> j{"type" ~> "array"};
              "replayRefs" ~> j{"type" ~> "array"}; "evidenceRefs" ~> j{"type" ~> "array"};
              "idempotency" ~> j{"type" ~> "object"}; "revision" ~> j{"type" ~> "integer"} } };
     rt_lifecycle_states := ["passed"; "failed"; "quarantined"; "archived"];
     rt_versioning_mode := AppendOnly;
     rt_allowed_link_relations := ["proposal"; "evidence_for"; "derived_from"; "supersedes"];
     rt_default_retention := j{"class" ~> "tool_source_conformance"};
     rt_redaction_rules := j{"preview" ~> "metadata_only"; "secrets" ~> "reject_inline"};
     rt_materialization_rules := j{"durableOutputsRequireResourceVersion" ~> true};
     rt_required_capabilities :=
        j{"read" ~> j["tool_sources.read"; "resource.read"];
          "write" ~> j["tool_sources.propose"; "resource.write"] };
     rt_owner_worker_id := "resource" |}.

(* SRC engine/durability/resources/tool_source_definitions.rs:12-17! tool_source_resource_type_definitions *)
Definition tool_source_resource_type_definitions : list RegisterResourceType :=
  [tool_source_proposal_definition; tool_source_conformance_report_definition].

(** ** Subagent *)

(* SRC engine/durability/resources/subagent_definitions.rs:11-85! subagent_resource_type_definitions *)
Definition subagent_task_type : RegisterResourceType :=
  {| rt_kind := SUBAGENT_TASK_KIND;
     rt_schema_id := SUBAGENT_TASK_SCHEMA_ID;
     rt_schema :=
        j{"type" ~> "object";
          "required" ~>
            j["schemaVersion"; "state"; "taskId"; "parent"; "scope"; "objectiveSummary";
              "promptSummary"; "createdAt"; "updatedAt"; "refs"; "activation"; "network";
              "revision"];
          "additionalProperties" ~> true;
          "properties" ~>
            j{"schemaVersion" ~> j{"type" ~> "string"};
              "state" ~>
                j{"type" ~> "string";
                  "enum" ~>
                    j["requested"; "queued"; "running"; "succeeded"; "failed"; "cancelled";
                      "archived"] };
              "taskId" ~> j{"type" ~> "string"}; "parent" ~> j{"type" ~> "object"};
              "scope" ~> j{"type" ~> "object"}; "objectiveSummary" ~> j{"type" ~> "string"};
              "promptSummary" ~> j{"type" ~> "string"}; "createdAt" ~> j{"type" ~> "string"};
              "updatedAt" ~> j{"type" ~> "string"}; "refs" ~> j{"type" ~> "object"};
              "result" ~> j{"type" ~> j["object"; "null"] };
              "error" ~> j{"type" ~> j["object"; "null"] };
              "authority" ~> j{"type" ~> "object"}; "execution" ~> j{"type" ~> "object"};
              "activation" ~> j{"type" ~> "object"}; "network" ~> j{"type" ~> "object"};
              "redaction" ~> j{"type" ~> "object"}; "limits" ~> j{"type" ~> "object"};
              "idempotency" ~> j{"type" ~> "object"}; "revision" ~> j{"type" ~> "integer"} } };
     rt_lifecycle_states :=
        ["requested"; "queued"; "running"; "succeeded"; "failed"; "cancelled"; "archived"];
     rt_versioning_mode := AppendOnly;
     rt_allowed_link_relations := ["parent_session"; "parent_trace"; "evidence_for"; "derived_from"];
     rt_default_retention := j{"class" ~> "subagent_task_lifecycle"};
     rt_redaction_rules := j{"preview" ~> "summary_only"; "rawPrompt" ~> "not_persisted"};
     rt_materialization_rules := j{"durableOutputsRequireResourceVersion" ~> true};
     rt_required_capabilities :=
        j{"read" ~> j["subagents.read"; "resource.read"];
          "write" ~> j["subagents.write"; "resource.write"] };
     rt_owner_worker_id := "subagents" |}.

(* SRC engine/durability/resources/subagent_definitions.rs:10-11! subagent_resource_type_definitions *)
Definition subagent_resource_type_definitions : list RegisterResourceType :=
  [subagent_task_type].
