(* ===== verification/ModuleKinds.v ===== *)
(** * Resource kinds of modules

    Manifests, proposals, validation reports, install and dependency reviews,
    lifecycle and runtime states of modules ([durability/resources/module_*]). *)

From stdpp Require Import base strings list.
From Stdlib Require Import ZArith String.
From S2P Require Import Prelude Json Kernel Schema UiSurface Resources BuiltinKinds.
Import JsonNotations.

#[local] Open Scope Z_scope.


(** ** Module registry *)

(* SRC engine/durability/resources/module_registry_definitions.rs:22-22! MODULE_MANIFEST_PAYLOAD_SCHEMA_VERSION *)
Definition MODULE_MANIFEST_PAYLOAD_SCHEMA_VERSION : string := "tron.module_manifest.v1".

(* SRC engine/durability/resources/module_registry_definitions.rs:75-195! module_manifest_schema *)
Definition module_manifest_schema : Value :=
  j{"type" ~> "object";
    "required" ~>
      j["schemaVersion"; "identity"; "capabilityDeclarations"; "resourceDeclarations";
        "authorityNeeds"; "settingsDeclarations"; "dependencyIntents"; "validation";
        "provenance"; "lifecycle"; "redactionProof"];
    "additionalProperties" ~> false;
    "properties" ~>
      j{"schemaVersion" ~>
          j{"type" ~> "string"; "const" ~> MODULE_MANIFEST_PAYLOAD_SCHEMA_VERSION};
        "identity" ~>
          j{"type" ~> "object";
            "required" ~> j["moduleId"; "name"; "kind"; "owner"; "summary"; "version"];
            "additionalProperties" ~> false;
            "properties" ~>
              j{"moduleId" ~> j{"type" ~> "string"}; "name" ~> j{"type" ~> "string"};
                "kind" ~> j{"type" ~> "string"}; "owner" ~> j{"type" ~> "string"};
                "summary" ~> j{"type" ~> "string"}; "version" ~> j{"type" ~> "string"} } };
        "capabilityDeclarations" ~>
          j{"type" ~> "array"; "maxItems" ~> 16; "items" ~> j{"type" ~> "object"} };
        "resourceDeclarations" ~>
          j{"type" ~> "array"; "maxItems" ~> 16; "items" ~> j{"type" ~> "object"} };
        "authorityNeeds" ~>
          j{"type" ~> "array"; "maxItems" ~> 16; "items" ~> j{"type" ~> "object"} };
        "settingsDeclarations" ~>
          j{"type" ~> "array"; "maxItems" ~> 16; "items" ~> j{"type" ~> "object"} };
        "dependencyIntents" ~>
          j{"type" ~> "array"; "maxItems" ~> 16; "items" ~> j{"type" ~> "object"} };
        "validation" ~>
          j{"type" ~> "object"; "required" ~> j["status"; "checks"; "evidenceRefs"];
            "additionalProperties" ~> false;
            "properties" ~>
              j{"status" ~> j{"type" ~> "string"};
                "checks" ~> j{"type" ~> "array"; "maxItems" ~> 16};
                "evidenceRefs" ~> j{"type" ~> "array"; "maxItems" ~> 16} } };
        "provenance" ~>
          j{"type" ~> "object"; "required" ~> j["source"; "sourceRefs"];
            "additionalProperties" ~> false;
            "properties" ~>
              j{"source" ~> j{"type" ~> "string"};
                "sourceRefs" ~> j{"type" ~> "array"; "maxItems" ~> 16} } };
        "lifecycle" ~>
          j{"type" ~> "object";
            "required" ~>
              j["state"; "activation"; "installable"; "executable"; "networkPolicy"];
            "additionalProperties" ~> false;
            "properties" ~>
              j{"state" ~> j{"type" ~> "string"}; "activation" ~> j{"type" ~> "string"};
                "installable" ~> j{"type" ~> "boolean"};
                "executable" ~> j{"type" ~> "boolean"};
                "networkPolicy" ~> j{"type" ~> "string"} } };
        "redactionProof" ~>
          j{"type" ~> "object";
            "required" ~>
              j["localPaths"; "environmentValues"; "commands"; "sensitiveValues";
                "grantIdentifiers"; "authorityIdentifiers"; "tokenLikeMaterial";
                "personalInfoLiterals"];
            "additionalProperties" ~> false;
            "properties" ~>
              j{"localPaths" ~> j{"type" ~> "string"};
                "environmentValues" ~> j{"type" ~> "string"};
                "commands" ~> j{"type" ~> "string"};
                "sensitiveValues" ~> j{"type" ~> "string"};
                "grantIdentifiers" ~> j{"type" ~> "string"};
                "authorityIdentifiers" ~> j{"type" ~> "string"};
                "tokenLikeMaterial" ~> j{"type" ~> "string"};
                "personalInfoLiterals" ~> j{"type" ~> "string"} } } } }.

(* SRC engine/durability/resources/module_registry_definitions.rs:25-55! module_registry_resource_type_definitions *)
Definition module_manifest_type : RegisterResourceType :=
  {| rt_kind := MODULE_MANIFEST_KIND;
     rt_schema_id := MODULE_MANIFEST_SCHEMA_ID;
     rt_schema := module_manifest_schema;
     rt_lifecycle_states := ["candidate"; "validated"; "stale"; "archived"];
     rt_versioning_mode := AppendOnly;
     rt_allowed_link_relations := ["derived_from"; "evidence_for"; "supersedes"];
     rt_default_retention := j{"class" ~> "module_registry_manifest"};
     rt_redaction_rules :=
        j{"projection" ~> "provider_safe"; "rawManifest" ~> "not_provider_visible";
          "localPaths" ~> "forbidden"; "secrets" ~> "forbidden"; "commands" ~> "forbidden";
          "grantIds" ~> "forbidden"};
     rt_materialization_rules :=
        j{"durableOutputsRequireResourceVersion" ~> true; "activation" ~> "forbidden"};
     rt_required_capabilities := j{"read" ~> j["module_registry.read"; "resource.read"] };
     rt_owner_worker_id := "module_registry" |}.

(* SRC engine/durability/resources/module_registry_definitions.rs:24-25! module_registry_resource_type_definitions *)
Definition module_registry_resource_type_definitions : list RegisterResourceType :=
  [module_manifest_type].

(** ** Module authoring *)

(* SRC engine/durability/resources/module_authoring_definitions.rs:15-15! MODULE_PROPOSAL_PAYLOAD_SCHEMA_VERSION *)
Definition MODULE_PROPOSAL_PAYLOAD_SCHEMA_VERSION : string := "tron.module_proposal.v1".

(* SRC engine/durability/resources/module_authoring_definitions.rs:18-179! module_authoring_resource_type_definitions *)
Definition module_proposal_type : RegisterResourceType :=
  {| rt_kind := MODULE_PROPOSAL_KIND;
     rt_schema_id := MODULE_PROPOSAL_SCHEMA_ID;
     rt_schema :=
        j{"type" ~> "object";
          "required" ~>
            j["schemaVersion"; "state"; "proposalId"; "scope"; "identity";
              "intendedModuleRefs"; "refs"; "validation"; "lifecycle"; "traceRefs";
              "replayRefs"; "authority"; "idempotency"; "safetyProof"; "createdAt";
              "updatedAt"; "revision"];
          "additionalProperties" ~> false;
          "properties" ~>
            j{"schemaVersion" ~>
                j{"type" ~> "string"; "const" ~> MODULE_PROPOSAL_PAYLOAD_SCHEMA_VERSION};
              "state" ~>
                j{"type" ~> "string";
                  "enum" ~> j["draft"; "submitted"; "superseded"; "archived"] };
              "proposalId" ~> j{"type" ~> "string"}; "scope" ~> j{"type" ~> "object"};
              "identity" ~>
                j{"type" ~> "object"; "required" ~> j["title"; "summary"];
                  "additionalProperties" ~> false;
                  "properties" ~>
                    j{"title" ~> j{"type" ~> "string"}; "summary" ~> j{"type" ~> "string"} } };
              "intendedModuleRefs" ~>
                j{"type" ~> "array"; "maxItems" ~> 25; "items" ~> j{"type" ~> "object"} };
              "refs" ~>
                j{"type" ~> "object";
                  "required" ~> j["source"; "docs"; "tests"; "trace"; "replay"];
                  "additionalProperties" ~> false;
                  "properties" ~>
                    j{"source" ~>
                        j{"type" ~> "array"; "maxItems" ~> 25;
                          "items" ~> j{"type" ~> "object"} };
                      "docs" ~>
                        j{"type" ~> "array"; "maxItems" ~> 25;
                          "items" ~> j{"type" ~> "object"} };
                      "tests" ~>
                        j{"type" ~> "array"; "maxItems" ~> 25;
                          "items" ~> j{"type" ~> "object"} };
                      "trace" ~>
                        j{"type" ~> "array"; "maxItems" ~> 25;
                          "items" ~> j{"type" ~> "object"} };
                      "replay" ~>
                        j{"type" ~> "array"; "maxItems" ~> 25;
                          "items" ~> j{"type" ~> "object"} } } };
              "validation" ~>
                j{"type" ~> "object"; "required" ~> j["status"; "placeholder"; "checks"];
                  "additionalProperties" ~> false;
                  "properties" ~>
                    j{"status" ~> j{"type" ~> "string"};
                      "placeholder" ~> j{"type" ~> "boolean"};
                      "checks" ~>
                        j{"type" ~> "array"; "maxItems" ~> 25;
                          "items" ~> j{"type" ~> "object"} } } };
              "lifecycle" ~> j{"type" ~> "object"};
              "traceRefs" ~>
                j{"type" ~> "array"; "maxItems" ~> 25; "items" ~> j{"type" ~> "object"} };
              "replayRefs" ~>
                j{"type" ~> "array"; "maxItems" ~> 25; "items" ~> j{"type" ~> "object"} };
              "authority" ~> j{"type" ~> "object"}; "idempotency" ~> j{"type" ~> "object"};
              "safetyProof" ~>
                j{"type" ~> "object";
                  "required" ~>
                    j["noInstall"; "noExecution"; "dependencyRestorePerformed";
                      "packageManagerUsed"; "networkPolicy"; "networkAccessPerformed";
                      "repoManagedSkillsTouched"; "rawProposalBodyStored"; "rawPromptStored";
                      "commandsStored"; "fileContentsStored"; "absolutePathsStored"];
                  "additionalProperties" ~> false;
                  "properties" ~>
                    j{"noInstall" ~> j{"type" ~> "boolean"; "const" ~> true};
                      "noExecution" ~> j{"type" ~> "boolean"; "const" ~> true};
                      "dependencyRestorePerformed" ~> j{"type" ~> "boolean"; "const" ~> false};
                      "packageManagerUsed" ~> j{"type" ~> "boolean"; "const" ~> false};
                      "networkPolicy" ~> j{"type" ~> "string"; "const" ~> "none"};
                      "networkAccessPerformed" ~> j{"type" ~> "boolean"; "const" ~> false};
                      "repoManagedSkillsTouched" ~> j{"type" ~> "boolean"; "const" ~> false};
                      "rawProposalBodyStored" ~> j{"type" ~> "boolean"; "const" ~> false};
                      "rawPromptStored" ~> j{"type" ~> "boolean"; "const" ~> false};
                      "commandsStored" ~> j{"type" ~> "boolean"; "const" ~> false};
                      "fileContentsStored" ~> j{"type" ~> "boolean"; "const" ~> false};
                      "absolutePathsStored" ~> j{"type" ~> "boolean"; "const" ~> false} } };
              "createdAt" ~> j{"type" ~> "string"}; "updatedAt" ~> j{"type" ~> "string"};
              "revision" ~> j{"type" ~> "integer"} } };
     rt_lifecycle_states := ["draft"; "submitted"; "superseded"; "archived"];
     rt_versioning_mode := AppendOnly;
     rt_allowed_link_relations :=
        ["source"; "doc"; "test"; "intended_module"; "trace"; "replay"; "evidence_for";
     "derived_from"; "supersedes"];
     rt_default_retention :=
        j{"class" ~> "module_authoring_proposal"; "scope" ~> "session_or_workspace";
          "archiveKeepsLifecycleEvidence" ~> true};
     rt_redaction_rules :=
        j{"projection" ~> "metadata_only_provider_safe";
          "neverReturn" ~>
            j["code"; "sourceCode"; "prompt"; "messages"; "command"; "env";
              "dependencyInstall"; "packageManager"; "fileContents"; "absolutePath";
              "grantId"; "authorityId"; "rawProposalBody"];
          "refs" ~> "resource_backed_bounded_metadata_only"};
     rt_materialization_rules :=
        j{"durableOutputsRequireResourceVersion" ~> true; "install" ~> "forbidden";
          "activation" ~> "forbidden"; "execution" ~> "forbidden";
          "dependencyRestore" ~> "forbidden"; "networkPolicy" ~> "none";
          "physicalWorkspaceDirectory" ~> "forbidden"};
     rt_required_capabilities :=
        j{"read" ~> j["module_authoring.read"; "resource.read"];
          "write" ~> j["module_authoring.write"; "resource.write"] };
     rt_owner_worker_id := "module_authoring" |}.

(* SRC engine/durability/resources/module_authoring_definitions.rs:17-18! module_authoring_resource_type_definitions *)
Definition module_authoring_resource_type_definitions : list RegisterResourceType :=
  [module_proposal_type].

(** ** Module validation *)

(* SRC engine/durability/resources/module_validation_definitions.rs:17-18! MODULE_VALIDATION_REPORT_PAYLOAD_SCHEMA_VERSION *)
Definition MODULE_VALIDATION_REPORT_PAYLOAD_SCHEMA_VERSION : string :=
  "tron.module_validation_report.v1".

(* SRC engine/durability/resources/module_validation_definitions.rs:21-215! module_validation_resource_type_definitions *)
Definition module_validation_report_type : RegisterResourceType :=
  {| rt_kind := MODULE_VALIDATION_REPORT_KIND;
     rt_schema_id := MODULE_VALIDATION_REPORT_SCHEMA_ID;
     rt_schema :=
        j{"type" ~> "object";
          "required" ~>
            j["schemaVersion"; "state"; "reportId"; "scope"; "identity"; "subjectRefs";
              "projectionParity"; "evidence"; "validation"; "lifecycle"; "traceRefs";
              "replayRefs"; "authority"; "idempotency"; "noInstallNoExecutionProof";
              "createdAt"; "updatedAt"; "revision"];
          "additionalProperties" ~> false;
          "properties" ~>
            j{"schemaVersion" ~>
                j{"type" ~> "string";
                  "const" ~> MODULE_VALIDATION_REPORT_PAYLOAD_SCHEMA_VERSION};
              "state" ~>
                j{"type" ~> "string";
                  "enum" ~> j["pending"; "passed"; "failed"; "superseded"; "archived"] };
              "reportId" ~> j{"type" ~> "string"}; "scope" ~> j{"type" ~> "object"};
              "identity" ~>
                j{"type" ~> "object"; "required" ~> j["title"; "summary"];
                  "additionalProperties" ~> false;
                  "properties" ~>
                    j{"title" ~> j{"type" ~> "string"}; "summary" ~> j{"type" ~> "string"} } };
              "subjectRefs" ~>
                j{"type" ~> "object"; "required" ~> j["modules"; "proposals"];
                  "additionalProperties" ~> false;
                  "properties" ~>
                    j{"modules" ~>
                        j{"type" ~> "array"; "minItems" ~> 1; "maxItems" ~> 25;
                          "items" ~> j{"type" ~> "object"} };
                      "proposals" ~>
                        j{"type" ~> "array"; "maxItems" ~> 25;
                          "items" ~> j{"type" ~> "object"} } } };
              "projectionParity" ~>
                j{"type" ~> "object"; "required" ~> j["manifest"; "resource"; "provider"];
                  "additionalProperties" ~> false;
                  "properties" ~>
                    j{"manifest" ~>
                        j{"type" ~> "array"; "maxItems" ~> 25;
                          "items" ~> j{"type" ~> "object"} };
                      "resource" ~>
                        j{"type" ~> "array"; "maxItems" ~> 25;
                          "items" ~> j{"type" ~> "object"} };
                      "provider" ~>
                        j{"type" ~> "array"; "maxItems" ~> 25;
                          "items" ~> j{"type" ~> "object"} } } };
              "evidence" ~>
                j{"type" ~> "object";
                  "required" ~>
                    j["docs"; "tests"; "commands"; "results"; "failures"; "trace"; "replay"];
                  "additionalProperties" ~> false;
                  "properties" ~>
                    j{"docs" ~>
                        j{"type" ~> "array"; "minItems" ~> 1; "maxItems" ~> 25;
                          "items" ~> j{"type" ~> "object"} };
                      "tests" ~>
                        j{"type" ~> "array"; "minItems" ~> 1; "maxItems" ~> 25;
                          "items" ~> j{"type" ~> "object"} };
                      "commands" ~>
                        j{"type" ~> "array"; "maxItems" ~> 25;
                          "items" ~> j{"type" ~> "object"} };
                      "results" ~>
                        j{"type" ~> "array"; "maxItems" ~> 25;
                          "items" ~> j{"type" ~> "object"} };
                      "failures" ~>
                        j{"type" ~> "array"; "maxItems" ~> 25;
                          "items" ~> j{"type" ~> "object"} };
                      "trace" ~>
                        j{"type" ~> "array"; "maxItems" ~> 25;
                          "items" ~> j{"type" ~> "object"} };
                      "replay" ~>
                        j{"type" ~> "array"; "maxItems" ~> 25;
                          "items" ~> j{"type" ~> "object"} } } };
              "validation" ~>
                j{"type" ~> "object"; "required" ~> j["status"; "checks"];
                  "additionalProperties" ~> false;
                  "properties" ~>
                    j{"status" ~> j{"type" ~> "string"};
                      "checks" ~>
                        j{"type" ~> "array"; "maxItems" ~> 25;
                          "items" ~> j{"type" ~> "object"} } } };
              "lifecycle" ~> j{"type" ~> "object"};
              "traceRefs" ~>
                j{"type" ~> "array"; "maxItems" ~> 25; "items" ~> j{"type" ~> "object"} };
              "replayRefs" ~>
                j{"type" ~> "array"; "maxItems" ~> 25; "items" ~> j{"type" ~> "object"} };
              "authority" ~> j{"type" ~> "object"}; "idempotency" ~> j{"type" ~> "object"};
              "noInstallNoExecutionProof" ~>
                j{"type" ~> "object";
                  "required" ~>
                    j["noInstall"; "noExecution"; "dependencyRestorePerformed";
                      "packageManagerUsed"; "networkPolicy"; "networkAccessPerformed";
                      "repoManagedSkillsTouched"; "rawValidationReportBodyStored";
                      "rawPromptStored"; "rawCommandsStored"; "rawLogsStored";
                      "fileContentsStored"; "absolutePathsStored"];
                  "additionalProperties" ~> false;
                  "properties" ~>
                    j{"noInstall" ~> j{"type" ~> "boolean"; "const" ~> true};
                      "noExecution" ~> j{"type" ~> "boolean"; "const" ~> true};
                      "dependencyRestorePerformed" ~> j{"type" ~> "boolean"; "const" ~> false};
                      "packageManagerUsed" ~> j{"type" ~> "boolean"; "const" ~> false};
                      "networkPolicy" ~> j{"type" ~> "string"; "const" ~> "none"};
                      "networkAccessPerformed" ~> j{"type" ~> "boolean"; "const" ~> false};
                      "repoManagedSkillsTouched" ~> j{"type" ~> "boolean"; "const" ~> false};
                      "rawValidationReportBodyStored" ~>
                        j{"type" ~> "boolean"; "const" ~> false};
                      "rawPromptStored" ~> j{"type" ~> "boolean"; "const" ~> false};
                      "rawCommandsStored" ~> j{"type" ~> "boolean"; "const" ~> false};
                      "rawLogsStored" ~> j{"type" ~> "boolean"; "const" ~> false};
                      "fileContentsStored" ~> j{"type" ~> "boolean"; "const" ~> false};
                      "absolutePathsStored" ~> j{"type" ~> "boolean"; "const" ~> false} } };
              "createdAt" ~> j{"type" ~> "string"}; "updatedAt" ~> j{"type" ~> "string"};
              "revision" ~> j{"type" ~> "integer"} } };
     rt_lifecycle_states := ["pending"; "passed"; "failed"; "superseded"; "archived"];
     rt_versioning_mode := AppendOnly;
     rt_allowed_link_relations :=
        ["module"; "proposal"; "doc"; "test"; "command"; "result"; "failure"; "trace"; "replay";
     "evidence_for"; "derived_from"; "supersedes"];
     rt_default_retention :=
        j{"class" ~> "module_validation_report"; "scope" ~> "session_or_workspace";
          "archiveKeepsLifecycleEvidence" ~> true};
     rt_redaction_rules :=
        j{"projection" ~> "metadata_only_provider_safe";
          "neverReturn" ~>
            j["code"; "sourceCode"; "prompt"; "messages"; "command"; "rawCommand"; "env";
              "environmentValues"; "rawLogs"; "stdout"; "stderr"; "fileContents";
              "absolutePath"; "unsafePath"; "grantId"; "authorityId";
              "rawValidationReportBody"; "debugPayload"; "chainOfThought"];
          "commands" ~> "identity_and_result_refs_only";
          "refs" ~> "resource_backed_bounded_metadata_only"};
     rt_materialization_rules :=
        j{"durableOutputsRequireResourceVersion" ~> true; "install" ~> "forbidden";
          "activation" ~> "forbidden"; "execution" ~> "forbidden";
          "commandExecution" ~> "forbidden"; "dependencyRestore" ~> "forbidden";
          "networkPolicy" ~> "none"; "physicalWorkspaceDirectory" ~> "forbidden"};
     rt_required_capabilities :=
        j{"read" ~> j["module_validation.read"; "resource.read"];
          "write" ~> j["module_validation.write"; "resource.write"] };
     rt_owner_worker_id := "module_validation" |}.

(* SRC engine/durability/resources/module_validation_definitions.rs:20-21! module_validation_resource_type_definitions *)
Definition module_validation_resource_type_definitions : list RegisterResourceType :=
  [module_validation_report_type].

(** ** Module install *)

(* SRC engine/durability/resources/module_install_definitions.rs:17-18! MODULE_INSTALL_REQUEST_PAYLOAD_SCHEMA_VERSION *)
Definition MODULE_INSTALL_REQUEST_PAYLOAD_SCHEMA_VERSION : string :=
  "tron.module_install_request.v1".

(* SRC engine/durability/resources/module_install_definitions.rs:19-20! MODULE_INSTALL_DECISION_PAYLOAD_SCHEMA_VERSION *)
Definition MODULE_INSTALL_DECISION_PAYLOAD_SCHEMA_VERSION : string :=
  "tron.module_install_decision.v1".

(* SRC engine/durability/resources/module_install_definitions.rs:208-245! side_effect_schema *)
Definition module_install_side_effect_schema : Value :=
  j{"type" ~> "object";
    "required" ~>
      j["metadataOnly"; "installPerformed"; "activationPerformed"; "executionPerformed";
        "dependencyRestorePerformed"; "packageManagerUsed"; "networkPolicy";
        "networkAccessPerformed"; "repoManagedSkillsTouched";
        "physicalWorkspaceDirectoryCreated"; "rawCommandsStored"; "rawLogsStored";
        "fileContentsStored"; "absolutePathsStored"];
    "additionalProperties" ~> false;
    "properties" ~>
      j{"metadataOnly" ~> j{"type" ~> "boolean"; "const" ~> true};
        "installPerformed" ~> j{"type" ~> "boolean"; "const" ~> false};
        "activationPerformed" ~> j{"type" ~> "boolean"; "const" ~> false};
        "executionPerformed" ~> j{"type" ~> "boolean"; "const" ~> false};
        "dependencyRestorePerformed" ~> j{"type" ~> "boolean"; "const" ~> false};
        "packageManagerUsed" ~> j{"type" ~> "boolean"; "const" ~> false};
        "networkPolicy" ~> j{"type" ~> "string"; "const" ~> "none"};
        "networkAccessPerformed" ~> j{"type" ~> "boolean"; "const" ~> false};
        "repoManagedSkillsTouched" ~> j{"type" ~> "boolean"; "const" ~> false};
        "physicalWorkspaceDirectoryCreated" ~> j{"type" ~> "boolean"; "const" ~> false};
        "rawCommandsStored" ~> j{"type" ~> "boolean"; "const" ~> false};
        "rawLogsStored" ~> j{"type" ~> "boolean"; "const" ~> false};
        "fileContentsStored" ~> j{"type" ~> "boolean"; "const" ~> false};
        "absolutePathsStored" ~> j{"type" ~> "boolean"; "const" ~> false} } }.

(* SRC engine/durability/resources/module_install_definitions.rs:247-275! redaction_rules *)
Definition module_install_redaction_rules : Value :=
  j{"projection" ~> "metadata_only_provider_safe";
    "neverReturn" ~>
      j["code"; "sourceCode"; "prompt"; "messages"; "command"; "rawCommand"; "env";
        "environmentValues"; "rawLogs"; "stdout"; "stderr"; "fileContents"; "absolutePath";
        "unsafePath"; "grantId"; "authorityId"; "rawGrantId"; "rawAuthorityId";
        "debugPayload"; "chainOfThought"];
    "approval" ~> "evidence_only_not_authority";
    "refs" ~> "resource_backed_bounded_metadata_only"}.

(* SRC engine/durability/resources/module_install_definitions.rs:277-294! materialization_rules *)
Definition module_install_materialization_rules : Value :=
  j{"durableOutputsRequireResourceVersion" ~> true; "metadataOnly" ~> true;
    "install" ~> "forbidden"; "installCandidate" ~> "metadata_gate_state_only";
    "activation" ~> "forbidden"; "execution" ~> "forbidden";
    "commandExecution" ~> "forbidden"; "dependencyRestore" ~> "forbidden";
    "packageManager" ~> "forbidden"; "networkPolicy" ~> "none";
    "physicalWorkspaceDirectory" ~> "forbidden"; "repoManagedSkills" ~> "forbidden";
    "approvalIsAuthority" ~> false; "derivedAuthorityRequired" ~> true}.

(* SRC engine/durability/resources/module_install_definitions.rs:26-118! install_request_definition *)
Definition install_request_definition : RegisterResourceType :=
  {| rt_kind := MODULE_INSTALL_REQUEST_KIND;
     rt_schema_id := MODULE_INSTALL_REQUEST_SCHEMA_ID;
     rt_schema :=
        j{"type" ~> "object";
          "required" ~>
            j["schemaVersion"; "state"; "requestId"; "scope"; "identity"; "validationReport";
              "dependencyPolicy"; "rollback"; "evidenceRefs"; "installGate"; "traceRefs";
              "replayRefs"; "authority"; "idempotency"; "sideEffectProof"; "createdAt";
              "updatedAt"; "revision"];
          "additionalProperties" ~> false;
          "properties" ~>
            j{"schemaVersion" ~>
                j{"type" ~> "string"; "const" ~> MODULE_INSTALL_REQUEST_PAYLOAD_SCHEMA_VERSION};
              "state" ~>
                j{"type" ~> "string"; "enum" ~> j["pending_review"; "superseded"; "archived"] };
              "requestId" ~> j{"type" ~> "string"}; "scope" ~> j{"type" ~> "object"};
              "identity" ~>
                j{"type" ~> "object"; "required" ~> j["title"; "summary"];
                  "additionalProperties" ~> false;
                  "properties" ~>
                    j{"title" ~> j{"type" ~> "string"}; "summary" ~> j{"type" ~> "string"} } };
              "validationReport" ~> j{"type" ~> "object"};
              "dependencyPolicy" ~> j{"type" ~> "object"};
              "rollback" ~> j{"type" ~> "object"};
              "evidenceRefs" ~>
                j{"type" ~> "array"; "maxItems" ~> 25; "items" ~> j{"type" ~> "object"} };
              "installGate" ~> j{"type" ~> "object"};
              "traceRefs" ~>
                j{"type" ~> "array"; "maxItems" ~> 25; "items" ~> j{"type" ~> "object"} };
              "replayRefs" ~>
                j{"type" ~> "array"; "maxItems" ~> 25; "items" ~> j{"type" ~> "object"} };
              "authority" ~> j{"type" ~> "object"}; "idempotency" ~> j{"type" ~> "object"};
              "sideEffectProof" ~> module_install_side_effect_schema;
              "createdAt" ~> j{"type" ~> "string"}; "updatedAt" ~> j{"type" ~> "string"};
              "revision" ~> j{"type" ~> "integer"} } };
     rt_lifecycle_states := ["pending_review"; "install_candidate"; "rejected"; "superseded"; "archived"];
     rt_versioning_mode := AppendOnly;
     rt_allowed_link_relations :=
        ["validation_report"; "dependency_policy"; "rollback_proof"; "evidence_for";
     "derived_from"; "supersedes"; "decided_by"];
     rt_default_retention :=
        j{"class" ~> "module_install_request"; "scope" ~> "session_or_workspace";
          "archiveKeepsReviewEvidence" ~> true};
     rt_redaction_rules := module_install_redaction_rules;
     rt_materialization_rules := module_install_materialization_rules;
     rt_required_capabilities :=
        j{"read" ~> j["module_install.read"; "resource.read"];
          "write" ~> j["module_install.write"; "resource.write"] };
     rt_owner_worker_id := "module_install" |}.

(* SRC engine/durability/resources/module_install_definitions.rs:120-206! install_decision_definition *)
Definition install_decision_definition : RegisterResourceType :=
  {| rt_kind := MODULE_INSTALL_DECISION_KIND;
     rt_schema_id := MODULE_INSTALL_DECISION_SCHEMA_ID;
     rt_schema :=
        j{"type" ~> "object";
          "required" ~>
            j["schemaVersion"; "state"; "decisionId"; "scope"; "request"; "validationReport";
              "approval"; "decision"; "dependencyPolicy"; "rollback"; "traceRefs";
              "replayRefs"; "authority"; "idempotency"; "sideEffectProof"; "createdAt";
              "updatedAt"; "revision"];
          "additionalProperties" ~> false;
          "properties" ~>
            j{"schemaVersion" ~>
                j{"type" ~> "string";
                  "const" ~> MODULE_INSTALL_DECISION_PAYLOAD_SCHEMA_VERSION};
              "state" ~>
                j{"type" ~> "string";
                  "enum" ~> j["install_candidate"; "rejected"; "superseded"; "archived"] };
              "decisionId" ~> j{"type" ~> "string"}; "scope" ~> j{"type" ~> "object"};
              "request" ~> j{"type" ~> "object"}; "validationReport" ~> j{"type" ~> "object"};
              "approval" ~> j{"type" ~> "object"}; "decision" ~> j{"type" ~> "object"};
              "dependencyPolicy" ~> j{"type" ~> "object"};
              "rollback" ~> j{"type" ~> "object"};
              "traceRefs" ~>
                j{"type" ~> "array"; "maxItems" ~> 25; "items" ~> j{"type" ~> "object"} };
              "replayRefs" ~>
                j{"type" ~> "array"; "maxItems" ~> 25; "items" ~> j{"type" ~> "object"} };
              "authority" ~> j{"type" ~> "object"}; "idempotency" ~> j{"type" ~> "object"};
              "sideEffectProof" ~> module_install_side_effect_schema;
              "createdAt" ~> j{"type" ~> "string"}; "updatedAt" ~> j{"type" ~> "string"};
              "revision" ~> j{"type" ~> "integer"} } };
     rt_lifecycle_states := ["pending_review"; "install_candidate"; "rejected"; "superseded"; "archived"];
     rt_versioning_mode := AppendOnly;
     rt_allowed_link_relations :=
        ["decision_for"; "validation_report"; "approval_request"; "approval_decision";
     "dependency_policy"; "rollback_proof"; "evidence_for"; "derived_from"; "supersedes"];
     rt_default_retention :=
        j{"class" ~> "module_install_decision"; "scope" ~> "session_or_workspace";
          "archiveKeepsApprovalEvidence" ~> true};
     rt_redaction_rules := module_install_redaction_rules;
     rt_materialization_rules := module_install_materialization_rules;
     rt_required_capabilities :=
        j{"read" ~> j["module_install.read"; "resource.read"];
          "write" ~> j["module_install.write"; "resource.write"] };
     rt_owner_worker_id := "module_install" |}.

(* SRC engine/durability/resources/module_install_definitions.rs:22-24! module_install_resource_type_definitions *)
Definition module_install_resource_type_definitions : list RegisterResourceType :=
  [install_request_definition; install_decision_definition].

(** ** Module dependencies *)

(* SRC engine/durability/resources/module_dependencies_definitions.rs:17-18! MODULE_DEPENDENCY_REQUEST_PAYLOAD_SCHEMA_VERSION *)
Definition MODULE_DEPENDENCY_REQUEST_PAYLOAD_SCHEMA_VERSION : string :=
  "tron.module_dependency_request.v1".

(* SRC engine/durability/resources/module_dependencies_definitions.rs:19-20! MODULE_DEPENDENCY_DECISION_PAYLOAD_SCHEMA_VERSION *)
Definition MODULE_DEPENDENCY_DECISION_PAYLOAD_SCHEMA_VERSION : string :=
  "tron.module_dependency_decision.v1".

(* SRC engine/durability/resources/module_dependencies_definitions.rs:21-22! MODULE_DEPENDENCY_POLICY_PAYLOAD_SCHEMA_VERSION *)
Definition MODULE_DEPENDENCY_POLICY_PAYLOAD_SCHEMA_VERSION : string :=
  "tron.module_dependency_policy.v1".

(* SRC engine/durability/resources/module_dependencies_definitions.rs:264-307! side_effect_schema *)
Definition module_dependencies_side_effect_schema : Value :=
  j{"type" ~> "object";
    "required" ~>
      j["metadataOnly"; "dependencyRestorePerformed"; "packageManagerUsed"; "manifestMutated";
        "lockfileMutated"; "activationPerformed"; "executionPerformed"; "networkPolicy";
        "networkAccessPerformed"; "repoManagedSkillsTouched";
        "physicalWorkspaceDirectoryCreated"; "rawCommandsStored"; "rawLogsStored";
        "fileContentsStored"; "absolutePathsStored"; "rawDependencyArtifactsStored";
        "packageManagerOutputStored"];
    "additionalProperties" ~> false;
    "properties" ~>
      j{"metadataOnly" ~> j{"type" ~> "boolean"; "const" ~> true};
        "dependencyRestorePerformed" ~> j{"type" ~> "boolean"; "const" ~> false};
        "packageManagerUsed" ~> j{"type" ~> "boolean"; "const" ~> false};
        "manifestMutated" ~> j{"type" ~> "boolean"; "const" ~> false};
        "lockfileMutated" ~> j{"type" ~> "boolean"; "const" ~> false};
        "activationPerformed" ~> j{"type" ~> "boolean"; "const" ~> false};
        "executionPerformed" ~> j{"type" ~> "boolean"; "const" ~> false};
        "networkPolicy" ~> j{"type" ~> "string"; "const" ~> "none"};
        "networkAccessPerformed" ~> j{"type" ~> "boolean"; "const" ~> false};
        "repoManagedSkillsTouched" ~> j{"type" ~> "boolean"; "const" ~> false};
        "physicalWorkspaceDirectoryCreated" ~> j{"type" ~> "boolean"; "const" ~> false};
        "rawCommandsStored" ~> j{"type" ~> "boolean"; "const" ~> false};
        "rawLogsStored" ~> j{"type" ~> "boolean"; "const" ~> false};
        "fileContentsStored" ~> j{"type" ~> "boolean"; "const" ~> false};
        "absolutePathsStored" ~> j{"type" ~> "boolean"; "const" ~> false};
        "rawDependencyArtifactsStored" ~> j{"type" ~> "boolean"; "const" ~> false};
        "packageManagerOutputStored" ~> j{"type" ~> "boolean"; "const" ~> false} } }.

(* SRC engine/durability/resources/module_dependencies_definitions.rs:309-338! redaction_rules *)
Definition module_dependencies_redaction_rules : Value :=
  j{"projection" ~> "metadata_only_provider_safe";
    "neverReturn" ~>
      j["code"; "sourceCode"; "prompt"; "messages"; "command"; "rawCommand"; "env";
        "environmentValues"; "rawLogs"; "stdout"; "stderr"; "fileContents"; "absolutePath";
        "unsafePath"; "grantId"; "authorityId"; "rawGrantId"; "rawAuthorityId";
        "debugPayload"; "chainOfThought"; "packageManagerOutput"; "rawDependencyArtifacts"];
    "refs" ~> "resource_backed_bounded_metadata_only"}.

(* SRC engine/durability/resources/module_dependencies_definitions.rs:340-354! materialization_rules *)
Definition module_dependencies_materialization_rules : Value :=
  j{"durableOutputsRequireResourceVersion" ~> true; "metadataOnly" ~> true;
    "dependencyRestore" ~> "forbidden"; "packageManager" ~> "forbidden";
    "manifestMutation" ~> "forbidden"; "lockfileMutation" ~> "forbidden";
    "policyActivation" ~> "metadata_only"; "execution" ~> "forbidden";
    "networkPolicy" ~> "none"; "physicalWorkspaceDirectory" ~> "forbidden";
    "repoManagedSkills" ~> "forbidden"}.

(* SRC engine/durability/resources/module_dependencies_definitions.rs:189-262! definition *)
Definition module_dependencies_definition (kind schema_id schema_version retention_class : string)
    (lifecycle_states link_relations : list string) (extra_schema : Value)
  : RegisterResourceType :=
  let required :=
    match vget extra_schema "required" ≫= as_array with
    | Some values => omap as_str values
    | None => ["schemaVersion"; "state"]
    end in
  let properties :=
    [("schemaVersion", j{"type" ~> "string"; "const" ~> schema_version});
     ("state", j{"type" ~> "string"; "enum" ~> jstrs lifecycle_states});
     ("scope", j{"type" ~> "object"});
     ("traceRefs", j{"type" ~> "array"; "maxItems" ~> 25; "items" ~> j{"type" ~> "object"} });
     ("replayRefs", j{"type" ~> "array"; "maxItems" ~> 25; "items" ~> j{"type" ~> "object"} });
     ("authority", j{"type" ~> "object"});
     ("idempotency", j{"type" ~> "object"});
     ("sideEffectProof", module_dependencies_side_effect_schema);
     ("createdAt", j{"type" ~> "string"});
     ("updatedAt", j{"type" ~> "string"});
     ("revision", j{"type" ~> "integer"})] in
  let base := fold_left (fun o '(k, v) => obj_insert o k v) properties [] in
  let merged :=
    match vget extra_schema "properties" ≫= as_object with
    | Some extra => fold_left (fun o '(k, v) => obj_insert o k v) extra base
    | None => base
    end in
  {| rt_kind := kind;
     rt_schema_id := schema_id;
     rt_schema :=
       j{"type" ~> "object"; "required" ~> jstrs required; "additionalProperties" ~> false;
         "properties" ~> VObject merged};
     rt_lifecycle_states := lifecycle_states;
     rt_versioning_mode := AppendOnly;
     rt_allowed_link_relations := link_relations;
     rt_default_retention :=
       j{"class" ~> retention_class; "scope" ~> "session_or_workspace";
         "archiveKeepsReviewEvidence" ~> true};
     rt_redaction_rules := module_dependencies_redaction_rules;
     rt_materialization_rules := module_dependencies_materialization_rules;
     rt_required_capabilities :=
       j{"read" ~> j["module_dependencies.read"; "resource.read"];
         "write" ~> j["module_dependencies.write"; "resource.write"] };
     rt_owner_worker_id := "module_dependencies" |}.

(* SRC engine/durability/resources/module_dependencies_definitions.rs:32-83! dependency_request_definition *)
Definition dependency_request_definition : RegisterResourceType :=
  module_dependencies_definition MODULE_DEPENDENCY_REQUEST_KIND
    MODULE_DEPENDENCY_REQUEST_SCHEMA_ID MODULE_DEPENDENCY_REQUEST_PAYLOAD_SCHEMA_VERSION
    "module_dependency_request" ["pending_review"; "superseded"; "archived"]
    ["module_owner"; "proposal_ref"; "validation_ref"; "install_ref"; "runtime_ref";
     "dependency_request"; "evidence_for"; "derived_from"; "supersedes"]
    (j{"required" ~>
         j["schemaVersion"; "state"; "requestId"; "scope"; "title"; "owner"; "dependency";
           "needs"; "parityEvidence"; "evidenceRefs"; "traceRefs"; "replayRefs"; "authority";
           "idempotency"; "sideEffectProof"; "createdAt"; "updatedAt"; "revision"];
       "properties" ~>
         j{"requestId" ~> j{"type" ~> "string"}; "title" ~> j{"type" ~> "string"};
           "owner" ~> j{"type" ~> "object"}; "dependency" ~> j{"type" ~> "object"};
           "needs" ~> j{"type" ~> "object"}; "parityEvidence" ~> j{"type" ~> "object"};
           "evidenceRefs" ~>
             j{"type" ~> "array"; "maxItems" ~> 25; "items" ~> j{"type" ~> "object"} } } }).

(* SRC engine/durability/resources/module_dependencies_definitions.rs:85-135! dependency_decision_definition *)
Definition dependency_decision_definition : RegisterResourceType :=
  module_dependencies_definition MODULE_DEPENDENCY_DECISION_KIND
    MODULE_DEPENDENCY_DECISION_SCHEMA_ID MODULE_DEPENDENCY_DECISION_PAYLOAD_SCHEMA_VERSION
    "module_dependency_decision" ["approved_policy"; "rejected"; "superseded"; "archived"]
    ["decision_for"; "dependency_request"; "dependency_policy_candidate"; "evidence_for";
     "derived_from"; "supersedes"]
    (j{"required" ~>
         j["schemaVersion"; "state"; "decisionId"; "scope"; "request"; "owner"; "dependency";
           "needs"; "parityEvidence"; "decision"; "policyCandidate"; "traceRefs";
           "replayRefs"; "authority"; "idempotency"; "sideEffectProof"; "createdAt";
           "updatedAt"; "revision"];
       "properties" ~>
         j{"decisionId" ~> j{"type" ~> "string"}; "request" ~> j{"type" ~> "object"};
           "owner" ~> j{"type" ~> "object"}; "dependency" ~> j{"type" ~> "object"};
           "needs" ~> j{"type" ~> "object"}; "parityEvidence" ~> j{"type" ~> "object"};
           "decision" ~> j{"type" ~> "object"}; "policyCandidate" ~> j{"type" ~> "object"} } }).

(* SRC engine/durability/resources/module_dependencies_definitions.rs:137-187! dependency_policy_definition *)
Definition dependency_policy_definition : RegisterResourceType :=
  module_dependencies_definition MODULE_DEPENDENCY_POLICY_KIND
    MODULE_DEPENDENCY_POLICY_SCHEMA_ID MODULE_DEPENDENCY_POLICY_PAYLOAD_SCHEMA_VERSION
    "module_dependency_policy" ["active"; "superseded"; "archived"]
    ["policy_for"; "dependency_decision"; "dependency_request"; "evidence_for";
     "derived_from"; "supersedes"]
    (j{"required" ~>
         j["schemaVersion"; "state"; "policyId"; "scope"; "decision"; "request"; "owner";
           "dependency"; "needs"; "parityEvidence"; "activation"; "traceRefs"; "replayRefs";
           "authority"; "idempotency"; "sideEffectProof"; "createdAt"; "updatedAt"; "revision"];
       "properties" ~>
         j{"policyId" ~> j{"type" ~> "string"}; "decision" ~> j{"type" ~> "object"};
           "request" ~> j{"type" ~> "object"}; "owner" ~> j{"type" ~> "object"};
           "dependency" ~> j{"type" ~> "object"}; "needs" ~> j{"type" ~> "object"};
           "parityEvidence" ~> j{"type" ~> "object"}; "activation" ~> j{"type" ~> "object"} } }).

(* SRC engine/durability/resources/module_dependencies_definitions.rs:24-30! module_dependencies_resource_type_definitions *)
Definition module_dependencies_resource_type_definitions : list RegisterResourceType :=
  [dependency_request_definition; dependency_decision_definition; dependency_policy_definition].

(** ** Module lifecycle *)

(* SRC engine/durability/resources/module_lifecycle_definitions.rs:16-17! MODULE_LIFECYCLE_STATE_PAYLOAD_SCHEMA_VERSION *)
Definition MODULE_LIFECYCLE_STATE_PAYLOAD_SCHEMA_VERSION : string :=
  "tron.module_lifecycle_state.v1".

(* SRC engine/durability/resources/module_lifecycle_definitions.rs:149-188! side_effect_schema *)
Definition module_lifecycle_side_effect_schema : Value :=
  j{"type" ~> "object";
    "required" ~>
      j["metadataOnly"; "installPerformed"; "activationPerformed"; "executionPerformed";
        "rollbackExecuted"; "dependencyRestorePerformed"; "packageManagerUsed";
        "networkPolicy"; "networkAccessPerformed"; "repoManagedSkillsTouched";
        "physicalWorkspaceDirectoryCreated"; "rawCommandsStored"; "rawLogsStored";
        "fileContentsStored"; "absolutePathsStored"];
    "additionalProperties" ~> false;
    "properties" ~>
      j{"metadataOnly" ~> j{"type" ~> "boolean"; "const" ~> true};
        "installPerformed" ~> j{"type" ~> "boolean"; "const" ~> false};
        "activationPerformed" ~> j{"type" ~> "boolean"; "const" ~> false};
        "executionPerformed" ~> j{"type" ~> "boolean"; "const" ~> false};
        "rollbackExecuted" ~> j{"type" ~> "boolean"; "const" ~> false};
        "dependencyRestorePerformed" ~> j{"type" ~> "boolean"; "const" ~> false};
        "packageManagerUsed" ~> j{"type" ~> "boolean"; "const" ~> false};
        "networkPolicy" ~> j{"type" ~> "string"; "const" ~> "none"};
        "networkAccessPerformed" ~> j{"type" ~> "boolean"; "const" ~> false};
        "repoManagedSkillsTouched" ~> j{"type" ~> "boolean"; "const" ~> false};
        "physicalWorkspaceDirectoryCreated" ~> j{"type" ~> "boolean"; "const" ~> false};
        "rawCommandsStored" ~> j{"type" ~> "boolean"; "const" ~> false};
        "rawLogsStored" ~> j{"type" ~> "boolean"; "const" ~> false};
        "fileContentsStored" ~> j{"type" ~> "boolean"; "const" ~> false};
        "absolutePathsStored" ~> j{"type" ~> "boolean"; "const" ~> false} } }.

(* SRC engine/durability/resources/module_lifecycle_definitions.rs:20-146! module_lifecycle_resource_type_definitions *)
Definition module_lifecycle_state_type : RegisterResourceType :=
  {| rt_kind := MODULE_LIFECYCLE_STATE_KIND;
     rt_schema_id := MODULE_LIFECYCLE_STATE_SCHEMA_ID;
     rt_schema :=
        j{"type" ~> "object";
          "required" ~>
            j["schemaVersion"; "state"; "transitionId"; "scope"; "installDecision";
              "transition"; "previous"; "approval"; "rollback"; "runtimeAuthorization";
              "evidenceRefs"; "traceRefs"; "replayRefs"; "authority"; "idempotency";
              "sideEffectProof"; "createdAt"; "updatedAt"; "revision"];
          "additionalProperties" ~> false;
          "properties" ~>
            j{"schemaVersion" ~>
                j{"type" ~> "string"; "const" ~> MODULE_LIFECYCLE_STATE_PAYLOAD_SCHEMA_VERSION};
              "state" ~>
                j{"type" ~> "string";
                  "enum" ~>
                    j["pending"; "enabled"; "disabled"; "quarantined"; "rolled_back";
                      "archived"] };
              "transitionId" ~> j{"type" ~> "string"}; "scope" ~> j{"type" ~> "object"};
              "installDecision" ~> j{"type" ~> "object"};
              "transition" ~> j{"type" ~> "object"}; "previous" ~> j{"type" ~> "object"};
              "approval" ~> j{"type" ~> "object"}; "rollback" ~> j{"type" ~> "object"};
              "runtimeAuthorization" ~> j{"type" ~> "object"};
              "evidenceRefs" ~>
                j{"type" ~> "array"; "maxItems" ~> 25; "items" ~> j{"type" ~> "object"} };
              "traceRefs" ~>
                j{"type" ~> "array"; "maxItems" ~> 25; "items" ~> j{"type" ~> "object"} };
              "replayRefs" ~>
                j{"type" ~> "array"; "maxItems" ~> 25; "items" ~> j{"type" ~> "object"} };
              "authority" ~> j{"type" ~> "object"}; "idempotency" ~> j{"type" ~> "object"};
              "sideEffectProof" ~> module_lifecycle_side_effect_schema;
              "createdAt" ~> j{"type" ~> "string"}; "updatedAt" ~> j{"type" ~> "string"};
              "revision" ~> j{"type" ~> "integer"} } };
     rt_lifecycle_states := ["pending"; "enabled"; "disabled"; "quarantined"; "rolled_back"; "archived"];
     rt_versioning_mode := AppendOnly;
     rt_allowed_link_relations :=
        ["install_decision"; "approval_request"; "approval_decision"; "rollback_proof";
     "evidence_for"; "derived_from"; "supersedes"];
     rt_default_retention :=
        j{"class" ~> "module_lifecycle_state"; "scope" ~> "session_or_workspace";
          "archiveKeepsLifecycleEvidence" ~> true};
     rt_redaction_rules :=
        j{"projection" ~> "metadata_only_provider_safe";
          "neverReturn" ~>
            j["code"; "sourceCode"; "prompt"; "messages"; "command"; "rawCommand"; "env";
              "environmentValues"; "rawLogs"; "stdout"; "stderr"; "fileContents";
              "absolutePath"; "unsafePath"; "grantId"; "authorityId"; "rawGrantId";
              "rawAuthorityId"; "debugPayload"; "chainOfThought"];
          "approval" ~> "evidence_only_not_authority";
          "refs" ~> "resource_backed_bounded_metadata_only"};
     rt_materialization_rules :=
        j{"durableOutputsRequireResourceVersion" ~> true; "metadataOnly" ~> true;
          "install" ~> "forbidden"; "activation" ~> "forbidden"; "execution" ~> "forbidden";
          "commandExecution" ~> "forbidden"; "dependencyRestore" ~> "forbidden";
          "packageManager" ~> "forbidden"; "networkPolicy" ~> "none";
          "physicalWorkspaceDirectory" ~> "forbidden"; "repoManagedSkills" ~> "forbidden";
          "approvalIsAuthority" ~> false; "derivedAuthorityRequired" ~> true;
          "runtimeGuard" ~> "fail_closed_disabled_quarantined"};
     rt_required_capabilities :=
        j{"read" ~> j["module_lifecycle.read"; "resource.read"];
          "write" ~> j["module_lifecycle.write"; "resource.write"] };
     rt_owner_worker_id := "module_lifecycle" |}.

(* SRC engine/durability/resources/module_lifecycle_definitions.rs:19-20! module_lifecycle_resource_type_definitions *)
Definition module_lifecycle_resource_type_definitions : list RegisterResourceType :=
  [module_lifecycle_state_type].

(** ** Module runtime *)

(* SRC engine/durability/resources/module_runtime_definitions.rs:16-16! MODULE_RUNTIME_STATE_PAYLOAD_SCHEMA_VERSION *)
Definition MODULE_RUNTIME_STATE_PAYLOAD_SCHEMA_VERSION : string :=
  "tron.module_runtime_state.v1".

(* SRC engine/durability/resources/module_runtime_definitions.rs:151-194! side_effect_schema *)
Definition module_runtime_side_effect_schema : Value :=
  j{"type" ~> "object";
    "required" ~>
      j["supervisorEnvelopeOnly"; "installPerformed"; "activationPerformed";
        "dependencyRestorePerformed"; "packageManagerUsed"; "networkPolicy";
        "networkAccessPerformed"; "repoManagedSkillsTouched";
        "physicalWorkspaceDirectoryCreated"; "ptyAllocated"; "browserAutomationPerformed";
        "rawCommandsStored"; "rawLogsStored"; "rawOutputStored"; "secretsExposed";
        "fileContentsStored"; "absolutePathsStored"];
    "additionalProperties" ~> false;
    "properties" ~>
      j{"supervisorEnvelopeOnly" ~> j{"type" ~> "boolean"; "const" ~> true};
        "installPerformed" ~> j{"type" ~> "boolean"; "const" ~> false};
        "activationPerformed" ~> j{"type" ~> "boolean"; "const" ~> false};
        "dependencyRestorePerformed" ~> j{"type" ~> "boolean"; "const" ~> false};
        "packageManagerUsed" ~> j{"type" ~> "boolean"; "const" ~> false};
        "networkPolicy" ~> j{"type" ~> "string"; "const" ~> "none"};
        "networkAccessPerformed" ~> j{"type" ~> "boolean"; "const" ~> false};
        "repoManagedSkillsTouched" ~> j{"type" ~> "boolean"; "const" ~> false};
        "physicalWorkspaceDirectoryCreated" ~> j{"type" ~> "boolean"; "const" ~> false};
        "ptyAllocated" ~> j{"type" ~> "boolean"; "const" ~> false};
        "browserAutomationPerformed" ~> j{"type" ~> "boolean"; "const" ~> false};
        "rawCommandsStored" ~> j{"type" ~> "boolean"; "const" ~> false};
        "rawLogsStored" ~> j{"type" ~> "boolean"; "const" ~> false};
        "rawOutputStored" ~> j{"type" ~> "boolean"; "const" ~> false};
        "secretsExposed" ~> j{"type" ~> "boolean"; "const" ~> false};
        "fileContentsStored" ~> j{"type" ~> "boolean"; "const" ~> false};
        "absolutePathsStored" ~> j{"type" ~> "boolean"; "const" ~> false} } }.

(* SRC engine/durability/resources/module_runtime_definitions.rs:19-148! module_runtime_resource_type_definitions *)
Definition module_runtime_state_type : RegisterResourceType :=
  {| rt_kind := MODULE_RUNTIME_STATE_KIND;
     rt_schema_id := MODULE_RUNTIME_STATE_SCHEMA_ID;
     rt_schema :=
        j{"type" ~> "object";
          "required" ~>
            j["schemaVersion"; "state"; "runtimeRequestId"; "scope"; "moduleLifecycle";
              "runtime"; "supervision"; "inputRefs"; "outputArtifactRefs"; "evidenceRefs";
              "traceRefs"; "replayRefs"; "authority"; "idempotency"; "sideEffectProof";
              "reason"; "createdAt"; "updatedAt"; "revision"];
          "additionalProperties" ~> false;
          "properties" ~>
            j{"schemaVersion" ~>
                j{"type" ~> "string"; "const" ~> MODULE_RUNTIME_STATE_PAYLOAD_SCHEMA_VERSION};
              "state" ~>
                j{"type" ~> "string";
                  "enum" ~>
                    j["requested"; "running"; "cancelled"; "timed_out"; "completed"; "failed";
                      "archived"] };
              "runtimeRequestId" ~> j{"type" ~> "string"}; "scope" ~> j{"type" ~> "object"};
              "moduleLifecycle" ~> j{"type" ~> "object"}; "runtime" ~> j{"type" ~> "object"};
              "supervision" ~> j{"type" ~> "object"};
              "inputRefs" ~>
                j{"type" ~> "array"; "maxItems" ~> 25; "items" ~> j{"type" ~> "object"} };
              "outputArtifactRefs" ~>
                j{"type" ~> "array"; "maxItems" ~> 25; "items" ~> j{"type" ~> "object"} };
              "evidenceRefs" ~>
                j{"type" ~> "array"; "maxItems" ~> 25; "items" ~> j{"type" ~> "object"} };
              "traceRefs" ~>
                j{"type" ~> "array"; "maxItems" ~> 25; "items" ~> j{"type" ~> "object"} };
              "replayRefs" ~>
                j{"type" ~> "array"; "maxItems" ~> 25; "items" ~> j{"type" ~> "object"} };
              "authority" ~> j{"type" ~> "object"}; "idempotency" ~> j{"type" ~> "object"};
              "sideEffectProof" ~> module_runtime_side_effect_schema;
              "reason" ~> j{"type" ~> "string"}; "createdAt" ~> j{"type" ~> "string"};
              "updatedAt" ~> j{"type" ~> "string"}; "revision" ~> j{"type" ~> "integer"} } };
     rt_lifecycle_states :=
        ["requested"; "running"; "cancelled"; "timed_out"; "completed"; "failed"; "archived"];
     rt_versioning_mode := AppendOnly;
     rt_allowed_link_relations :=
        ["module_lifecycle_state"; "runtime_input"; "runtime_output"; "execution_artifact";
     "evidence_for"; "derived_from"; "supersedes"];
     rt_default_retention :=
        j{"class" ~> "module_runtime_state"; "scope" ~> "session_or_workspace";
          "archiveKeepsRuntimeEvidence" ~> true};
     rt_redaction_rules :=
        j{"projection" ~> "supervisor_envelope_provider_safe";
          "neverReturn" ~>
            j["code"; "sourceCode"; "prompt"; "messages"; "command"; "rawCommand"; "env";
              "environmentValues"; "rawLogs"; "stdout"; "stderr"; "stdin"; "fileContents";
              "absolutePath"; "unsafePath"; "grantId"; "authorityId"; "rawGrantId";
              "rawAuthorityId"; "debugPayload"; "chainOfThought"];
          "providerOutput" ~> "resource_refs_only";
          "refs" ~> "resource_backed_bounded_metadata_only"};
     rt_materialization_rules :=
        j{"durableOutputsRequireResourceVersion" ~> true; "supervisorEnvelopeOnly" ~> true;
          "lifecycleAuthorization" ~> "enabled_required"; "install" ~> "forbidden";
          "activation" ~> "forbidden"; "dependencyRestore" ~> "forbidden";
          "packageManager" ~> "forbidden"; "networkPolicy" ~> "none";
          "pty" ~> "forbidden_by_default"; "browserAutomation" ~> "forbidden_by_default";
          "rawCommands" ~> "forbidden"; "rawLogs" ~> "forbidden"; "rawOutput" ~> "forbidden";
          "secrets" ~> "forbidden"; "providerOutput" ~> "refs_only"};
     rt_required_capabilities :=
        j{"read" ~> j["module_runtime.read"; "resource.read"];
          "write" ~> j["module_runtime.write"; "resource.write"] };
     rt_owner_worker_id := "module_runtime" |}.

(* SRC engine/durability/resources/module_runtime_definitions.rs:18-19! module_runtime_resource_type_definitions *)
Definition module_runtime_resource_type_definitions : list RegisterResourceType :=
  [module_runtime_state_type].
