(* ===== verification/ModuleManifests.v ===== *)
(** * Module manifests and the installation of built-in resources

    The manifests a fresh store is seeded with
    ([durability/resources/module_registry_definitions.rs] and the split manifest
    files), the list of all built-in kinds ([definitions.rs]), and the start-up step
    that registers the kinds and creates the manifests ([primitives/stores.rs]).
    Start-up cannot fail on a reachable store: every kind passes the checks of
    [register_type], and every manifest those of [create]. *)

From stdpp Require Import base gmap strings list relations.
From Stdlib Require Import ZArith Ascii String Lia.
From S2P Require Import Prelude Json Kernel Schema UiSurface Resources ResourceHistory.
From S2P Require Import BuiltinKinds DomainKinds ModuleKinds.
Import JsonNotations.

#[local] Open Scope Z_scope.

(** ** Scopes and versions of the domains *)

(* SRC domains/device/contract.rs:9-9! SCHEMA_VERSION *)
Definition device_SCHEMA_VERSION : string := "tron.device.registration.v1".
(* SRC domains/device/contract.rs:6-6! WRITE_SCOPE *)
Definition device_WRITE_SCOPE : string := "device.write".
(* SRC domains/import_history/contract.rs:9-9! IMPORT_HISTORY_SCHEMA_VERSION *)
Definition IMPORT_HISTORY_SCHEMA_VERSION : string := "tron.import_history.record.v1".
(* SRC domains/import_history/contract.rs:5-5! READ_SCOPE *)
Definition import_history_READ_SCOPE : string := "import_history.read".
(* SRC domains/import_history/contract.rs:6-6! WRITE_SCOPE *)
Definition import_history_WRITE_SCOPE : string := "import_history.write".
(* SRC domains/import_preview/contract.rs:9-9! IMPORT_PREVIEW_SCHEMA_VERSION *)
Definition IMPORT_PREVIEW_SCHEMA_VERSION : string := "tron.import_preview.preview.v1".
(* SRC domains/import_preview/contract.rs:5-5! READ_SCOPE *)
Definition import_preview_READ_SCOPE : string := "import_preview.read".
(* SRC domains/import_preview/contract.rs:6-6! WRITE_SCOPE *)
Definition import_preview_WRITE_SCOPE : string := "import_preview.write".
(* SRC domains/notifications/contract.rs:11-11! DELIVERY_SCHEMA_VERSION *)
Definition notifications_DELIVERY_SCHEMA_VERSION : string := "tron.notifications.delivery.v1".
(* SRC domains/notifications/contract.rs:7-7! DEVICE_READ_SCOPE *)
Definition notifications_DEVICE_READ_SCOPE : string := "device.read".
(* SRC domains/notifications/contract.rs:10-10! NOTIFICATION_SCHEMA_VERSION *)
Definition notifications_NOTIFICATION_SCHEMA_VERSION : string := "tron.notifications.notification.v1".
(* SRC domains/notifications/contract.rs:5-5! READ_SCOPE *)
Definition notifications_READ_SCOPE : string := "notifications.read".
(* SRC domains/notifications/contract.rs:8-8! RESOURCE_READ_SCOPE *)
Definition notifications_RESOURCE_READ_SCOPE : string := "resource.read".
(* SRC domains/notifications/contract.rs:9-9! RESOURCE_WRITE_SCOPE *)
Definition notifications_RESOURCE_WRITE_SCOPE : string := "resource.write".
(* SRC domains/notifications/contract.rs:6-6! WRITE_SCOPE *)
Definition notifications_WRITE_SCOPE : string := "notifications.write".
(* SRC domains/repository_tree/contract.rs:5-5! READ_SCOPE *)
Definition repository_tree_READ_SCOPE : string := "repository_tree.read".
(* SRC domains/repository_tree/contract.rs:9-9! REPOSITORY_TREE_SCHEMA_VERSION *)
Definition REPOSITORY_TREE_SCHEMA_VERSION : string := "tron.repository_tree.snapshot.v1".
(* SRC domains/repository_tree/contract.rs:6-6! WRITE_SCOPE *)
Definition repository_tree_WRITE_SCOPE : string := "repository_tree.write".
(* SRC domains/update_diagnostics/contract.rs:5-5! READ_SCOPE *)
Definition update_diagnostics_READ_SCOPE : string := "update_diagnostics.read".
(* SRC domains/update_diagnostics/contract.rs:9-9! UPDATE_DIAGNOSTICS_SCHEMA_VERSION *)
Definition UPDATE_DIAGNOSTICS_SCHEMA_VERSION : string := "tron.update_diagnostics.record.v1".
(* SRC domains/update_diagnostics/contract.rs:6-6! WRITE_SCOPE *)
Definition update_diagnostics_WRITE_SCOPE : string := "update_diagnostics.write".

(** ** Manifests *)

(* SRC engine/durability/resources/module_registry_definitions.rs:660-671! redaction_proof *)
Definition redaction_proof : Value :=
  j{"localPaths" ~> "absent"; "environmentValues" ~> "absent"; "commands" ~> "absent";
    "sensitiveValues" ~> "absent"; "grantIdentifiers" ~> "absent";
    "authorityIdentifiers" ~> "absent"; "tokenLikeMaterial" ~> "absent";
    "personalInfoLiterals" ~> "absent"}.

(* SRC engine/durability/resources/module_registry_definitions.rs:197-281! module_registry_manifest *)
Definition module_registry_manifest : Value :=
  j{"schemaVersion" ~> MODULE_MANIFEST_PAYLOAD_SCHEMA_VERSION;
    "identity" ~>
      j{"moduleId" ~> "module_registry"; "name" ~> "Module Registry";
        "kind" ~> "first_party_domain"; "owner" ~> "domains::module_registry";
        "summary" ~> "Inspect-only module identity and declaration registry";
        "version" ~> "phase3-slice23a"};
    "capabilityDeclarations" ~>
      j[j{"operation" ~> "module_list"; "effect" ~> "read"; "providerVisible" ~> true;
          "description" ~> "List bounded provider-safe module manifest summaries"};
        j{"operation" ~> "module_inspect"; "effect" ~> "read"; "providerVisible" ~> true;
          "description" ~> "Inspect one provider-safe module manifest projection"}];
    "resourceDeclarations" ~>
      j[j{"kind" ~> MODULE_MANIFEST_KIND; "schemaId" ~> MODULE_MANIFEST_SCHEMA_ID;
          "payloadSchemaVersion" ~> MODULE_MANIFEST_PAYLOAD_SCHEMA_VERSION;
          "scope" ~> "system"}];
    "authorityNeeds" ~>
      j[j{"scope" ~> "module_registry.read"; "purpose" ~> "read module manifest projections"};
        j{"scope" ~> "resource.read"; "purpose" ~> "inspect system module_manifest resources"}];
    "settingsDeclarations" ~> (VArray []); "dependencyIntents" ~> (VArray []);
    "validation" ~>
      j{"status" ~> "validated";
        "checks" ~>
          j[j{"id" ~> "manifest_schema"; "status" ~> "passed";
              "summary" ~> "Schema-bound inspect-only manifest payload"};
            j{"id" ~> "no_side_effects"; "status" ~> "passed";
              "summary" ~>
                "List and inspect do not install, activate, execute, or access networks"}];
        "evidenceRefs" ~> j[j{"kind" ~> "phase3_inventory"; "ref" ~> "P3MSA-INV-001"}] };
    "provenance" ~>
      j{"source" ~> "source_backed_first_party";
        "sourceRefs" ~> j[j{"kind" ~> "crate_module"; "ref" ~> "domains::module_registry"}] };
    "lifecycle" ~>
      j{"state" ~> "validated"; "activation" ~> "inspect_only"; "installable" ~> false;
        "executable" ~> false; "networkPolicy" ~> "none"};
    "redactionProof" ~> redaction_proof}.

(* SRC engine/durability/resources/module_registry_definitions.rs:283-352! capability_manifest *)
Definition capability_manifest : Value :=
  j{"schemaVersion" ~> MODULE_MANIFEST_PAYLOAD_SCHEMA_VERSION;
    "identity" ~>
      j{"moduleId" ~> "capability"; "name" ~> "Capability Execute Primitive";
        "kind" ~> "first_party_domain"; "owner" ~> "domains::capability";
        "summary" ~> "Single model-facing primitive execute surface";
        "version" ~> "phase3-slice23a"};
    "capabilityDeclarations" ~>
      j[j{"operation" ~> "execute"; "effect" ~> "delegated_invocation";
          "providerVisible" ~> true;
          "description" ~>
            "Runs one authorized primitive operation through capability::execute"}];
    "resourceDeclarations" ~>
      j[j{"kind" ~> "trace_record"; "schemaId" ~> "session_event_store";
          "payloadSchemaVersion" ~> "session.trace"; "scope" ~> "session"}];
    "authorityNeeds" ~>
      j[j{"scope" ~> "capability.execute";
          "purpose" ~> "execute one delegated primitive operation"}];
    "settingsDeclarations" ~> (VArray []); "dependencyIntents" ~> (VArray []);
    "validation" ~>
      j{"status" ~> "validated";
        "checks" ~>
          j[j{"id" ~> "single_model_surface"; "status" ~> "passed";
              "summary" ~> "Providers see only the execute primitive"}];
        "evidenceRefs" ~> j[j{"kind" ~> "phase3_inventory"; "ref" ~> "P3MSA-INV-001"}] };
    "provenance" ~>
      j{"source" ~> "source_backed_first_party";
        "sourceRefs" ~> j[j{"kind" ~> "crate_module"; "ref" ~> "domains::capability"}] };
    "lifecycle" ~>
      j{"state" ~> "validated"; "activation" ~> "core_primitive"; "installable" ~> false;
        "executable" ~> true; "networkPolicy" ~> "none"};
    "redactionProof" ~> redaction_proof}.

(* SRC engine/durability/resources/module_registry_definitions.rs:354-495! file_git_module_manifest *)
Definition file_git_module_manifest : Value :=
  j{"schemaVersion" ~> MODULE_MANIFEST_PAYLOAD_SCHEMA_VERSION;
    "identity" ~>
      j{"moduleId" ~> "file_git_module"; "name" ~> "File And Source-Control Module Pack";
        "kind" ~> "module_pack"; "owner" ~> "domains::filesystem+domains::git";
        "summary" ~>
          "Governed file and source-control workflow pack through capability::execute";
        "version" ~> "phase3-slice24a"};
    "capabilityDeclarations" ~>
      j[j{"operation" ~> "filesystem_read"; "effect" ~> "read"; "providerVisible" ~> true;
          "description" ~>
            "Read bounded UTF-8 file content under the trusted working-directory root"};
        j{"operation" ~> "filesystem_list"; "effect" ~> "read"; "providerVisible" ~> true;
          "description" ~>
            "List bounded directory entries under the trusted working-directory root"};
        j{"operation" ~> "filesystem_find"; "effect" ~> "read"; "providerVisible" ~> true;
          "description" ~>
            "Find bounded filesystem entries under the trusted working-directory root"};
        j{"operation" ~> "filesystem_glob"; "effect" ~> "read"; "providerVisible" ~> true;
          "description" ~>
            "Glob bounded filesystem entries under the trusted working-directory root"};
        j{"operation" ~> "filesystem_search_text"; "effect" ~> "read";
          "providerVisible" ~> true;
          "description" ~>
            "Search bounded text matches under the trusted working-directory root"};
        j{"operation" ~> "filesystem_diff"; "effect" ~> "read"; "providerVisible" ~> true;
          "description" ~>
            "Preview bounded file diffs under the trusted working-directory root"};
        j{"operation" ~> "filesystem_write"; "effect" ~> "write"; "providerVisible" ~> true;
          "description" ~>
            "Create patch proposal evidence and optionally materialize one file with idempotency"};
        j{"operation" ~> "filesystem_edit"; "effect" ~> "write"; "providerVisible" ~> true;
          "description" ~>
            "Create exact-text patch proposal evidence and optionally materialize one file with idempotency"};
        j{"operation" ~> "filesystem_apply_patch"; "effect" ~> "write";
          "providerVisible" ~> true;
          "description" ~>
            "Create patch proposal evidence and optionally materialize one file with idempotency"};
        j{"operation" ~> "git_status"; "effect" ~> "read"; "providerVisible" ~> true;
          "description" ~>
            "Read bounded repository status for the trusted working-directory repository"};
        j{"operation" ~> "git_diff"; "effect" ~> "read"; "providerVisible" ~> true;
          "description" ~> "Read bounded staged and unstaged diff evidence"};
        j{"operation" ~> "git_branch_inventory"; "effect" ~> "read";
          "providerVisible" ~> true;
          "description" ~> "Read bounded local branch inventory evidence"};
        j{"operation" ~> "git_stage"; "effect" ~> "write"; "providerVisible" ~> true;
          "description" ~>
            "Stage one explicit relative path into the Git index with resource evidence"};
        j{"operation" ~> "git_unstage"; "effect" ~> "write"; "providerVisible" ~> true;
          "description" ~>
            "Unstage one explicit relative path from the Git index with resource evidence"};
        j{"operation" ~> "git_commit"; "effect" ~> "write"; "providerVisible" ~> true;
          "description" ~>
            "Create one guarded commit from the already-staged index with resource evidence"};
        j{"operation" ~> "git_branch_start"; "effect" ~> "write"; "providerVisible" ~> true;
          "description" ~>
            "Create and enter one local branch at expected HEAD with resource evidence"}];
    "resourceDeclarations" ~>
      j[j{"kind" ~> "patch_proposal"; "schemaId" ~> "tron.resource.patch_proposal.v1";
          "payloadSchemaVersion" ~> "tron.filesystem.patch_proposal.v1"; "scope" ~> "session"};
        j{"kind" ~> "materialized_file"; "schemaId" ~> "tron.resource.materialized_file.v1";
          "payloadSchemaVersion" ~> "tron.filesystem.materialized_file.v1";
          "scope" ~> "session"};
        j{"kind" ~> "git_index_change"; "schemaId" ~> "tron.resource.git_index_change.v1";
          "payloadSchemaVersion" ~> "tron.git_index_change.v1"; "scope" ~> "session"};
        j{"kind" ~> "git_commit"; "schemaId" ~> "tron.resource.git_commit.v1";
          "payloadSchemaVersion" ~> "tron.git_commit.v1"; "scope" ~> "session"};
        j{"kind" ~> "git_branch_start"; "schemaId" ~> "tron.resource.git_branch_start.v1";
          "payloadSchemaVersion" ~> "tron.git_branch_start.v1"; "scope" ~> "session"}];
    "authorityNeeds" ~>
      j[j{"scope" ~> "filesystem.read";
          "purpose" ~>
            "read bounded file and directory evidence under trusted working-directory file roots"};
        j{"scope" ~> "filesystem.write";
          "purpose" ~>
            "write reviewed patch/materialized-file resource evidence under trusted working-directory file roots"};
        j{"scope" ~> "git.read";
          "purpose" ~>
            "read bounded status, diff, and branch inventory evidence for the trusted working-directory repository"};
        j{"scope" ~> "git.write";
          "purpose" ~> "mutate only selected Git index, commit, and branch-start boundaries"};
        j{"scope" ~> "resource.read";
          "purpose" ~>
            "inspect existing evidence resources when operations link to prior resource state"};
        j{"scope" ~> "resource.write";
          "purpose" ~>
            "record patch, materialized-file, index-change, commit, and branch-start evidence"}];
    "settingsDeclarations" ~> (VArray []); "dependencyIntents" ~> (VArray []);
    "validation" ~>
      j{"status" ~> "pending_review";
        "checks" ~>
          j[j{"id" ~> "single_model_surface"; "status" ~> "passed";
              "summary" ~> "The pack declares existing capability::execute operations only"};
            j{"id" ~> "no_broad_git_expansion"; "status" ~> "passed";
              "summary" ~>
                "Checkout, merge, rebase, reset, stash, fetch, pull, push, PR, and conflict workflows remain absent"};
            j{"id" ~> "bounded_redacted_evidence"; "status" ~> "implementation-candidate";
              "summary" ~>
                "Provider projections expose bounded manifest metadata and resource refs without raw paths, commands, logs, code, secrets, grants, or authority IDs"}];
        "evidenceRefs" ~> j[j{"kind" ~> "phase3_inventory"; "ref" ~> "P3MSA-INV-009"}] };
    "provenance" ~>
      j{"source" ~> "source_backed_first_party";
        "sourceRefs" ~>
          j[j{"kind" ~> "crate_module"; "ref" ~> "domains::filesystem"};
            j{"kind" ~> "crate_module"; "ref" ~> "domains::git"};
            j{"kind" ~> "crate_module"; "ref" ~> "domains::capability"}] };
    "lifecycle" ~>
      j{"state" ~> "pending_review"; "activation" ~> "authority_mapped_module_pack";
        "installable" ~> false; "executable" ~> false; "networkPolicy" ~> "none"};
    "redactionProof" ~> redaction_proof}.

(* SRC engine/durability/resources/module_registry_definitions.rs:497-658! jobs_program_execution_module_manifest *)
Definition jobs_program_execution_module_manifest : Value :=
  j{"schemaVersion" ~> MODULE_MANIFEST_PAYLOAD_SCHEMA_VERSION;
    "identity" ~>
      j{"moduleId" ~> "jobs_program_execution_module";
        "name" ~> "Jobs And Program Execution Module Pack"; "kind" ~> "module_pack";
        "owner" ~> "domains::jobs+domains::program_execution+domains::module_runtime";
        "summary" ~>
          "Supervised non-interactive program execution through capability::execute with redacted job and output refs";
        "version" ~> "phase3-slice24b"};
    "capabilityDeclarations" ~>
      j[j{"operation" ~> "module_program_execution_start"; "effect" ~> "write";
          "providerVisible" ~> true;
          "description" ~>
            "Start one enabled-lifecycle supervised job and record content-free program execution metadata"};
        j{"operation" ~> "module_program_execution_status"; "effect" ~> "read";
          "providerVisible" ~> true;
          "description" ~>
            "Inspect redacted runtime, job, and output custody refs for one delegated module job"};
        j{"operation" ~> "module_program_execution_cancel"; "effect" ~> "write";
          "providerVisible" ~> true;
          "description" ~>
            "Request cancellation through the jobs domain and update the module runtime envelope"};
        j{"operation" ~> "module_program_execution_cleanup"; "effect" ~> "write";
          "providerVisible" ~> true;
          "description" ~>
            "Archive a terminal delegated job with exact version freshness and record cleanup metadata"}];
    "resourceDeclarations" ~>
      j[j{"kind" ~> "module_runtime_state";
          "schemaId" ~> "tron.resource.module_runtime_state.v1";
          "payloadSchemaVersion" ~> "tron.module_runtime_state.v1"; "scope" ~> "session"};
        j{"kind" ~> "module_lifecycle_state";
          "schemaId" ~> "tron.resource.module_lifecycle_state.v1";
          "payloadSchemaVersion" ~> "tron.module_lifecycle_state.v1"; "scope" ~> "session"};
        j{"kind" ~> "program_execution_record";
          "schemaId" ~> "tron.resource.program_execution_record.v1";
          "payloadSchemaVersion" ~> "tron.program_execution_record.v1"; "scope" ~> "session"};
        j{"kind" ~> "job_process"; "schemaId" ~> "tron.resource.job_process.v1";
          "payloadSchemaVersion" ~> "tron.job_process.v1"; "scope" ~> "session"};
        j{"kind" ~> "execution_output"; "schemaId" ~> "tron.resource.execution_output.v1";
          "payloadSchemaVersion" ~> "tron.execution_output.v1"; "scope" ~> "session"}];
    "authorityNeeds" ~>
      j[j{"scope" ~> "module_runtime.read";
          "purpose" ~> "inspect runtime envelope refs and freshness"};
        j{"scope" ~> "module_runtime.write";
          "purpose" ~>
            "record delegated job supervision state and cancellation or cleanup metadata"};
        j{"scope" ~> "program_execution.read";
          "purpose" ~> "link metadata-only program execution evidence"};
        j{"scope" ~> "program_execution.write";
          "purpose" ~> "record content-free runtime/language/fingerprint evidence"};
        j{"scope" ~> "jobs.read"; "purpose" ~> "inspect redacted delegated job state"};
        j{"scope" ~> "jobs.write";
          "purpose" ~> "start, cancel, and archive the delegated non-interactive job"};
        j{"scope" ~> "resource.read";
          "purpose" ~> "inspect exact lifecycle, runtime, job, and output resource refs"};
        j{"scope" ~> "resource.write";
          "purpose" ~> "record runtime, program, job, and output resource updates"}];
    "settingsDeclarations" ~> (VArray []); "dependencyIntents" ~> (VArray []);
    "validation" ~>
      j{"status" ~> "pending_review";
        "checks" ~>
          j[j{"id" ~> "single_model_surface"; "status" ~> "passed";
              "summary" ~>
                "The pack is available only through capability::execute module_program_execution operations"};
            j{"id" ~> "bounded_output_custody"; "status" ~> "implementation-candidate";
              "summary" ~>
                "Provider-visible results expose refs, fingerprints, truncation, duration, exit, timeout, cancellation, and cleanup metadata only"};
            j{"id" ~> "no_raw_process_material"; "status" ~> "passed";
              "summary" ~>
                "Manifest and projections do not expose process_run, raw job payloads, commands, code, stdin, stdout, stderr, logs, paths, env, pids, grant ids, PTYs, package installs, or network execution"}];
        "evidenceRefs" ~> j[j{"kind" ~> "phase3_inventory"; "ref" ~> "P3MSA-INV-010"}] };
    "provenance" ~>
      j{"source" ~> "source_backed_first_party";
        "sourceRefs" ~>
          j[j{"kind" ~> "crate_module"; "ref" ~> "domains::jobs"};
            j{"kind" ~> "crate_module"; "ref" ~> "domains::program_execution"};
            j{"kind" ~> "crate_module"; "ref" ~> "domains::module_runtime"};
            j{"kind" ~> "crate_module"; "ref" ~> "domains::capability"}] };
    "lifecycle" ~>
      j{"state" ~> "pending_review"; "activation" ~> "authority_mapped_module_pack";
        "installable" ~> false; "executable" ~> false; "networkPolicy" ~> "none"};
    "redactionProof" ~> redaction_proof}.

(* SRC engine/durability/resources/module_registry_import_update_manifest.rs:25-140! import_update_module_manifest *)
Definition import_update_module_manifest : Value :=
  j{"schemaVersion" ~> MODULE_MANIFEST_PAYLOAD_SCHEMA_VERSION;
    "identity" ~>
      j{"moduleId" ~> "import_update_module";
        "name" ~> "Import Repository And Update Module Pack"; "kind" ~> "module_pack";
        "owner" ~>
          "domains::import_history+domains::repository_tree+domains::import_preview+domains::update_diagnostics";
        "summary" ~>
          "Metadata-only manifest for existing import lineage, repository tree, import preview, and update diagnostic resources";
        "version" ~> "phase3-slice24h"};
    "capabilityDeclarations" ~>
      j[j{"operation" ~> "import_history_record"; "effect" ~> "write";
          "providerVisible" ~> true;
          "description" ~>
            "Record bounded import/session-resource lineage metadata without raw import payloads"};
        j{"operation" ~> "import_history_list"; "effect" ~> "read"; "providerVisible" ~> true;
          "description" ~>
            "List bounded provider-safe import/session-resource lineage summaries"};
        j{"operation" ~> "import_history_inspect"; "effect" ~> "read";
          "providerVisible" ~> true;
          "description" ~> "Inspect one redacted import/session-resource lineage record"};
        j{"operation" ~> "repository_tree_snapshot"; "effect" ~> "write";
          "providerVisible" ~> true;
          "description" ~>
            "Record content-free repository tree snapshot metadata without file contents or git mutation"};
        j{"operation" ~> "repository_tree_list"; "effect" ~> "read";
          "providerVisible" ~> true;
          "description" ~> "List bounded repository tree snapshot metadata projections"};
        j{"operation" ~> "repository_tree_inspect"; "effect" ~> "read";
          "providerVisible" ~> true;
          "description" ~> "Inspect one content-free repository tree snapshot projection"};
        j{"operation" ~> "import_preview_record"; "effect" ~> "write";
          "providerVisible" ~> true;
          "description" ~>
            "Record content-free import preview metadata linked to import-history and repository-tree refs"};
        j{"operation" ~> "import_preview_list"; "effect" ~> "read"; "providerVisible" ~> true;
          "description" ~> "List bounded provider-safe import preview metadata projections"};
        j{"operation" ~> "import_preview_inspect"; "effect" ~> "read";
          "providerVisible" ~> true;
          "description" ~> "Inspect one content-free import preview projection"};
        j{"operation" ~> "update_diagnostic_record"; "effect" ~> "write";
          "providerVisible" ~> true;
          "description" ~>
            "Record signed-release/update-check diagnostic metadata without updater material"};
        j{"operation" ~> "update_diagnostic_list"; "effect" ~> "read";
          "providerVisible" ~> true;
          "description" ~> "List bounded provider-safe update diagnostic metadata projections"};
        j{"operation" ~> "update_diagnostic_inspect"; "effect" ~> "read";
          "providerVisible" ~> true;
          "description" ~> "Inspect one redacted update diagnostic metadata record"}];
    "resourceDeclarations" ~>
      j[j{"kind" ~> IMPORT_HISTORY_RECORD_KIND; "schemaId" ~> IMPORT_HISTORY_RECORD_SCHEMA_ID;
          "payloadSchemaVersion" ~> IMPORT_HISTORY_SCHEMA_VERSION;
          "scope" ~> "session_or_workspace"};
        j{"kind" ~> REPOSITORY_TREE_SNAPSHOT_KIND;
          "schemaId" ~> REPOSITORY_TREE_SNAPSHOT_SCHEMA_ID;
          "payloadSchemaVersion" ~> REPOSITORY_TREE_SCHEMA_VERSION;
          "scope" ~> "session_or_workspace"};
        j{"kind" ~> IMPORT_PREVIEW_KIND; "schemaId" ~> IMPORT_PREVIEW_SCHEMA_ID;
          "payloadSchemaVersion" ~> IMPORT_PREVIEW_SCHEMA_VERSION;
          "scope" ~> "session_or_workspace"};
        j{"kind" ~> UPDATE_DIAGNOSTIC_RECORD_KIND;
          "schemaId" ~> UPDATE_DIAGNOSTIC_RECORD_SCHEMA_ID;
          "payloadSchemaVersion" ~> UPDATE_DIAGNOSTICS_SCHEMA_VERSION;
          "scope" ~> "session_or_workspace"}];
    "authorityNeeds" ~>
      j[j{"scope" ~> import_history_READ_SCOPE;
          "purpose" ~> "inspect bounded import-history lineage metadata";
          "resourceKinds" ~> j[IMPORT_HISTORY_RECORD_KIND];
          "selectors" ~> j[("kind:" +s IMPORT_HISTORY_RECORD_KIND)] };
        j{"scope" ~> import_history_WRITE_SCOPE;
          "purpose" ~> "record bounded import-history lineage metadata";
          "resourceKinds" ~> j[IMPORT_HISTORY_RECORD_KIND];
          "selectors" ~> j[("kind:" +s IMPORT_HISTORY_RECORD_KIND)] };
        j{"scope" ~> repository_tree_READ_SCOPE;
          "purpose" ~> "inspect content-free repository tree snapshot metadata";
          "resourceKinds" ~> j[REPOSITORY_TREE_SNAPSHOT_KIND];
          "selectors" ~> j[("kind:" +s REPOSITORY_TREE_SNAPSHOT_KIND)] };
        j{"scope" ~> repository_tree_WRITE_SCOPE;
          "purpose" ~> "record content-free repository tree snapshot metadata";
          "resourceKinds" ~> j[REPOSITORY_TREE_SNAPSHOT_KIND];
          "selectors" ~> j[("kind:" +s REPOSITORY_TREE_SNAPSHOT_KIND)] };
        j{"scope" ~> import_preview_READ_SCOPE;
          "purpose" ~> "inspect content-free import preview metadata";
          "resourceKinds" ~> j[IMPORT_PREVIEW_KIND];
          "selectors" ~> j[("kind:" +s IMPORT_PREVIEW_KIND)] };
        j{"scope" ~> import_preview_WRITE_SCOPE;
          "purpose" ~> "record content-free import preview metadata";
          "resourceKinds" ~> j[IMPORT_PREVIEW_KIND];
          "selectors" ~> j[("kind:" +s IMPORT_PREVIEW_KIND)] };
        j{"scope" ~> update_diagnostics_READ_SCOPE;
          "purpose" ~> "inspect signed-release/update-check diagnostic metadata";
          "resourceKinds" ~> j[UPDATE_DIAGNOSTIC_RECORD_KIND];
          "selectors" ~> j[("kind:" +s UPDATE_DIAGNOSTIC_RECORD_KIND)] };
        j{"scope" ~> update_diagnostics_WRITE_SCOPE;
          "purpose" ~> "record signed-release/update-check diagnostic metadata";
          "resourceKinds" ~> j[UPDATE_DIAGNOSTIC_RECORD_KIND];
          "selectors" ~> j[("kind:" +s UPDATE_DIAGNOSTIC_RECORD_KIND)] };
        j{"scope" ~> "resource.read";
          "purpose" ~>
            "inspect exact import, repository tree, preview, and update diagnostic resource refs under kind selectors";
          "resourceKinds" ~>
            j[IMPORT_HISTORY_RECORD_KIND; REPOSITORY_TREE_SNAPSHOT_KIND; IMPORT_PREVIEW_KIND;
              UPDATE_DIAGNOSTIC_RECORD_KIND];
          "selectors" ~>
            j[("kind:" +s IMPORT_HISTORY_RECORD_KIND);
              ("kind:" +s REPOSITORY_TREE_SNAPSHOT_KIND); ("kind:" +s IMPORT_PREVIEW_KIND);
              ("kind:" +s UPDATE_DIAGNOSTIC_RECORD_KIND)] };
        j{"scope" ~> "resource.write";
          "purpose" ~>
            "append import, repository tree, preview, and update diagnostic metadata under kind selectors";
          "resourceKinds" ~>
            j[IMPORT_HISTORY_RECORD_KIND; REPOSITORY_TREE_SNAPSHOT_KIND; IMPORT_PREVIEW_KIND;
              UPDATE_DIAGNOSTIC_RECORD_KIND];
          "selectors" ~>
            j[("kind:" +s IMPORT_HISTORY_RECORD_KIND);
              ("kind:" +s REPOSITORY_TREE_SNAPSHOT_KIND); ("kind:" +s IMPORT_PREVIEW_KIND);
              ("kind:" +s UPDATE_DIAGNOSTIC_RECORD_KIND)] }];
    "settingsDeclarations" ~> (VArray []); "dependencyIntents" ~> (VArray []);
    "validation" ~>
      j{"status" ~> "pending_review";
        "checks" ~>
          j[j{"id" ~> "approval_gate"; "status" ~> "implementation-candidate";
              "summary" ~>
                "Import execution, repository mutation, update actions, and native UI require later approval-backed contracts before activation"};
            j{"id" ~> "rollback_gate"; "status" ~> "implementation-candidate";
              "summary" ~>
                "Rollback policy remains metadata-only here; no repository, installer, restart, update, or deployment rollback action is performed"};
            j{"id" ~> "action_contract_gate"; "status" ~> "implementation-candidate";
              "summary" ~>
                "Future import execution proposals, repository tree actions, and update diagnostic actions must add separate action contracts before behavior changes"};
            j{"id" ~> "bounded_payload_custody"; "status" ~> "passed";
              "summary" ~>
                "Declared resources store bounded refs, counts, lifecycle, trace/replay, idempotency, and diagnostic metadata only"};
            j{"id" ~> "provider_redaction"; "status" ~> "implementation-candidate";
              "summary" ~>
                "Provider projections omit raw import payloads, raw repository trees, raw file contents, unsafe paths, raw diagnostics payloads, endpoints, commands, packages, grants, authority ids, and token-like material"}];
        "evidenceRefs" ~> j[j{"kind" ~> "phase3_inventory"; "ref" ~> "P3MSA-INV-016"}] };
    "provenance" ~>
      j{"source" ~> "source_backed_first_party";
        "sourceRefs" ~>
          j[j{"kind" ~> "crate_module"; "ref" ~> "domains::import_history"};
            j{"kind" ~> "crate_module"; "ref" ~> "domains::repository_tree"};
            j{"kind" ~> "crate_module"; "ref" ~> "domains::import_preview"};
            j{"kind" ~> "crate_module"; "ref" ~> "domains::update_diagnostics"};
            j{"kind" ~> "crate_module"; "ref" ~> "domains::capability"}] };
    "lifecycle" ~>
      j{"state" ~> "pending_review"; "activation" ~> "authority_mapped_module_pack";
        "installable" ~> false; "executable" ~> false; "networkPolicy" ~> "none"};
    "redactionProof" ~> redaction_proof}.

(* SRC engine/durability/resources/module_registry_memory_manifest.rs:10-99! memory_engine_module_manifest *)
Definition memory_engine_module_manifest : Value :=
  j{"schemaVersion" ~> MODULE_MANIFEST_PAYLOAD_SCHEMA_VERSION;
    "identity" ~>
      j{"moduleId" ~> "memory_engine_module";
        "name" ~> "Memory Retrieval And Retention Module Pack"; "kind" ~> "module_pack";
        "owner" ~> "domains::memory";
        "summary" ~>
          "Deterministic resource-backed memory retrieval, retention evidence, and prompt inclusion proof";
        "version" ~> "phase3-slice24d"};
    "capabilityDeclarations" ~>
      j[j{"operation" ~> "memory_status"; "effect" ~> "read"; "providerVisible" ~> true;
          "description" ~>
            "Inspect memory mode, engine identity, prompt policy, and retrieval contract"};
        j{"operation" ~> "memory_list"; "effect" ~> "read"; "providerVisible" ~> true;
          "description" ~> "List redacted current-session memory records with previews only"};
        j{"operation" ~> "memory_inspect"; "effect" ~> "read"; "providerVisible" ~> true;
          "description" ~> "Inspect one redacted memory record and version history"};
        j{"operation" ~> "memory_query_list"; "effect" ~> "read"; "providerVisible" ~> true;
          "description" ~> "List deterministic memory query and retrieval result evidence"};
        j{"operation" ~> "memory_query_inspect"; "effect" ~> "read";
          "providerVisible" ~> true;
          "description" ~> "Inspect one memory query/result evidence resource"};
        j{"operation" ~> "memory_decision_list"; "effect" ~> "read";
          "providerVisible" ~> true;
          "description" ~> "List memory prompt-inclusion and retention decision evidence"};
        j{"operation" ~> "memory_decision_inspect"; "effect" ~> "read";
          "providerVisible" ~> true;
          "description" ~> "Inspect one memory decision evidence resource"}];
    "resourceDeclarations" ~>
      j[j{"kind" ~> "memory_engine"; "schemaId" ~> "tron.resource.memory_engine.v1";
          "payloadSchemaVersion" ~> "tron.memory.v1"; "scope" ~> "system"};
        j{"kind" ~> "memory_policy"; "schemaId" ~> "tron.resource.memory_policy.v1";
          "payloadSchemaVersion" ~> "tron.memory.v1";
          "scope" ~> "session_or_workspace_or_system"};
        j{"kind" ~> "memory_record"; "schemaId" ~> "tron.resource.memory_record.v1";
          "payloadSchemaVersion" ~> "tron.memory.v1"; "scope" ~> "session_or_workspace"};
        j{"kind" ~> "memory_query"; "schemaId" ~> "tron.resource.memory_query.v1";
          "payloadSchemaVersion" ~> "tron.memory.v1"; "scope" ~> "session_or_workspace"};
        j{"kind" ~> "memory_decision"; "schemaId" ~> "tron.resource.memory_decision.v1";
          "payloadSchemaVersion" ~> "tron.memory.v1"; "scope" ~> "session_or_workspace"};
        j{"kind" ~> "memory_prompt_trace";
          "schemaId" ~> "tron.resource.memory_prompt_trace.v1";
          "payloadSchemaVersion" ~> "tron.memory.v1"; "scope" ~> "session_or_workspace"}];
    "authorityNeeds" ~>
      j[j{"scope" ~> "memory.read";
          "purpose" ~>
            "inspect redacted memory policy, record, query, and decision projections"};
        j{"scope" ~> "memory.write";
          "purpose" ~>
            "record retention, retrieval, prompt trace, and decision evidence through memory-owned functions"};
        j{"scope" ~> "resource.read";
          "purpose" ~> "inspect exact memory resources and versions"};
        j{"scope" ~> "resource.write";
          "purpose" ~>
            "record memory query, decision, prompt trace, and record lifecycle evidence"}];
    "settingsDeclarations" ~> (VArray []); "dependencyIntents" ~> (VArray []);
    "validation" ~>
      j{"status" ~> "pending_review";
        "checks" ~>
          j[j{"id" ~> "deterministic_retrieval"; "status" ~> "implementation-candidate";
              "summary" ~>
                "Retrieval uses existing memory_record refs and previews only, with deterministic ranking and no embeddings"};
            j{"id" ~> "prompt_inclusion_proof"; "status" ~> "implementation-candidate";
              "summary" ~>
                "Prompt inclusion requires explicit bounded_snippets policy and records query, decision, and prompt trace evidence"};
            j{"id" ~> "retention_audit"; "status" ~> "implementation-candidate";
              "summary" ~>
                "Retain, edit, import, and tombstone record policy evidence while hard delete and automatic retention fail closed"};
            j{"id" ~> "provider_redaction"; "status" ~> "passed";
              "summary" ~>
                "Provider projections expose bounded refs and previews without raw bodies, generated summaries, paths, secrets, grants, or authority ids"}];
        "evidenceRefs" ~> j[j{"kind" ~> "phase3_inventory"; "ref" ~> "P3MSA-INV-012"}] };
    "provenance" ~>
      j{"source" ~> "source_backed_first_party";
        "sourceRefs" ~>
          j[j{"kind" ~> "crate_module"; "ref" ~> "domains::memory"};
            j{"kind" ~> "crate_module"; "ref" ~> "domains::capability"}] };
    "lifecycle" ~>
      j{"state" ~> "pending_review"; "activation" ~> "authority_mapped_module_pack";
        "installable" ~> false; "executable" ~> false; "networkPolicy" ~> "none"};
    "redactionProof" ~> redaction_proof}.

(* SRC engine/durability/resources/module_registry_notification_delivery_manifest.rs:17-116! notification_delivery_module_manifest *)
Definition notification_delivery_module_manifest : Value :=
  j{"schemaVersion" ~> MODULE_MANIFEST_PAYLOAD_SCHEMA_VERSION;
    "identity" ~>
      j{"moduleId" ~> "notification_delivery_module";
        "name" ~> "Notifications And Device Delivery Module Pack"; "kind" ~> "module_pack";
        "owner" ~> "domains::device+domains::notifications";
        "summary" ~>
          "Metadata-only notification inbox, device registration, and delivery-evidence manifest for existing server-owned resources";
        "version" ~> "phase3-slice24g"};
    "capabilityDeclarations" ~>
      j[j{"operation" ~> "device_list"; "effect" ~> "read"; "providerVisible" ~> true;
          "description" ~> "List redacted server-owned device registration projections"};
        j{"operation" ~> "device_inspect"; "effect" ~> "read"; "providerVisible" ~> true;
          "description" ~> "Inspect one redacted device registration projection"};
        j{"operation" ~> "device_register"; "effect" ~> "write"; "providerVisible" ~> false;
          "description" ~>
            "Trusted system/admin registration with explicit APNs environment label and hash-only token custody"};
        j{"operation" ~> "device_unregister"; "effect" ~> "write"; "providerVisible" ~> false;
          "description" ~>
            "Trusted system/admin unregister workflow with exact device registration selector"};
        j{"operation" ~> "notification_send"; "effect" ~> "write"; "providerVisible" ~> true;
          "description" ~>
            "Record durable notification inbox and delivery evidence while live APNs transport remains disabled"};
        j{"operation" ~> "notification_list"; "effect" ~> "read"; "providerVisible" ~> true;
          "description" ~> "List bounded notification inbox projections"};
        j{"operation" ~> "notification_inspect"; "effect" ~> "read";
          "providerVisible" ~> true;
          "description" ~> "Inspect one notification with redacted delivery summaries"};
        j{"operation" ~> "notification_mark_read"; "effect" ~> "write";
          "providerVisible" ~> true;
          "description" ~>
            "Mark one notification read with badge evidence and exact notification selector"};
        j{"operation" ~> "notification_mark_all_read"; "effect" ~> "write";
          "providerVisible" ~> true;
          "description" ~> "Mark current-scope notifications read with badge evidence"}];
    "resourceDeclarations" ~>
      j[j{"kind" ~> DEVICE_REGISTRATION_KIND; "schemaId" ~> DEVICE_REGISTRATION_SCHEMA_ID;
          "payloadSchemaVersion" ~> device_SCHEMA_VERSION; "scope" ~> "session_or_workspace"};
        j{"kind" ~> NOTIFICATION_KIND; "schemaId" ~> NOTIFICATION_SCHEMA_ID;
          "payloadSchemaVersion" ~> notifications_NOTIFICATION_SCHEMA_VERSION;
          "scope" ~> "session_or_workspace"};
        j{"kind" ~> NOTIFICATION_DELIVERY_KIND; "schemaId" ~> NOTIFICATION_DELIVERY_SCHEMA_ID;
          "payloadSchemaVersion" ~> notifications_DELIVERY_SCHEMA_VERSION;
          "scope" ~> "session_or_workspace"}];
    "authorityNeeds" ~>
      j[j{"scope" ~> notifications_DEVICE_READ_SCOPE;
          "purpose" ~> "inspect redacted device registration projections";
          "resourceKinds" ~> j[DEVICE_REGISTRATION_KIND];
          "selectors" ~> j[("kind:" +s DEVICE_REGISTRATION_KIND)] };
        j{"scope" ~> device_WRITE_SCOPE;
          "purpose" ~> "trusted system/admin device register and unregister authority";
          "resourceKinds" ~> j[DEVICE_REGISTRATION_KIND];
          "selectors" ~>
            j[("kind:" +s DEVICE_REGISTRATION_KIND); "resource:<device_registration_id>"] };
        j{"scope" ~> notifications_READ_SCOPE;
          "purpose" ~> "inspect notification inbox and delivery evidence projections";
          "resourceKinds" ~> j[NOTIFICATION_KIND; NOTIFICATION_DELIVERY_KIND];
          "selectors" ~>
            j[("kind:" +s NOTIFICATION_KIND); ("kind:" +s NOTIFICATION_DELIVERY_KIND)] };
        j{"scope" ~> notifications_WRITE_SCOPE;
          "purpose" ~> "record notification read state, badge, inbox, and delivery evidence";
          "resourceKinds" ~> j[NOTIFICATION_KIND; NOTIFICATION_DELIVERY_KIND];
          "selectors" ~>
            j[("kind:" +s NOTIFICATION_KIND); ("kind:" +s NOTIFICATION_DELIVERY_KIND);
              "resource:<notification_id>"] };
        j{"scope" ~> notifications_RESOURCE_READ_SCOPE;
          "purpose" ~>
            "inspect device registration, notification, and notification delivery resource versions under kind selectors";
          "resourceKinds" ~>
            j[DEVICE_REGISTRATION_KIND; NOTIFICATION_KIND; NOTIFICATION_DELIVERY_KIND];
          "selectors" ~>
            j[("kind:" +s DEVICE_REGISTRATION_KIND); ("kind:" +s NOTIFICATION_KIND);
              ("kind:" +s NOTIFICATION_DELIVERY_KIND)] };
        j{"scope" ~> notifications_RESOURCE_WRITE_SCOPE;
          "purpose" ~>
            "append server-owned device, notification, and delivery evidence under kind selectors";
          "resourceKinds" ~>
            j[DEVICE_REGISTRATION_KIND; NOTIFICATION_KIND; NOTIFICATION_DELIVERY_KIND];
          "selectors" ~>
            j[("kind:" +s DEVICE_REGISTRATION_KIND); ("kind:" +s NOTIFICATION_KIND);
              ("kind:" +s NOTIFICATION_DELIVERY_KIND)] }];
    "settingsDeclarations" ~> (VArray []); "dependencyIntents" ~> (VArray []);
    "validation" ~>
      j{"status" ~> "pending_review";
        "checks" ~>
          j[j{"id" ~> "apns_custody_gate"; "status" ~> "implementation-candidate";
              "summary" ~>
                "APNs credential custody and raw device-token handling remain pending gates; stored registration resources keep hash-only token custody"};
            j{"id" ~> "environment_entitlement_device_gate";
              "status" ~> "implementation-candidate";
              "summary" ~>
                "APNs environment labels, entitlement proof, and physical-device validation evidence are required before live delivery acceptance"};
            j{"id" ~> "delivery_failure_evidence"; "status" ~> "implementation-candidate";
              "summary" ~>
                "Delivery records keep inbox-only, skipped, disabled, and failure evidence while live APNs transport remains deferred"};
            j{"id" ~> "native_inbox_decision"; "status" ~> "implementation-candidate";
              "summary" ~>
                "Native inbox and deep-link behavior remain pending product decisions backed by server notification resources"};
            j{"id" ~> "provider_redaction"; "status" ~> "implementation-candidate";
              "summary" ~>
                "Provider projections omit raw APNs tokens, raw device tokens, credentials, device secrets, raw provider payloads, full token hashes, grant ids, authority ids, and local material"}];
        "evidenceRefs" ~> j[j{"kind" ~> "phase3_inventory"; "ref" ~> "P3MSA-INV-015"}] };
    "provenance" ~>
      j{"source" ~> "source_backed_first_party";
        "sourceRefs" ~>
          j[j{"kind" ~> "crate_module"; "ref" ~> "domains::device"};
            j{"kind" ~> "crate_module"; "ref" ~> "domains::notifications"};
            j{"kind" ~> "crate_module"; "ref" ~> "domains::capability"}] };
    "lifecycle" ~>
      j{"state" ~> "pending_review"; "activation" ~> "authority_mapped_module_pack";
        "installable" ~> false; "executable" ~> false; "networkPolicy" ~> "none"};
    "redactionProof" ~> redaction_proof}.

(* SRC engine/durability/resources/module_registry_procedural_manifest.rs:11-99! procedural_module_manifest *)
Definition procedural_module_manifest : Value :=
  j{"schemaVersion" ~> MODULE_MANIFEST_PAYLOAD_SCHEMA_VERSION;
    "identity" ~>
      j{"moduleId" ~> "procedural_module";
        "name" ~> "Procedural Skills Rules And Hooks Module Pack"; "kind" ~> "module_pack";
        "owner" ~> "domains::procedural";
        "summary" ~>
          "Metadata-only procedural skill, rule, hook, and procedure authoring, review, activation decision, and rollback evidence";
        "version" ~> "phase3-slice24e"};
    "capabilityDeclarations" ~>
      j[j{"operation" ~> "procedural_definition_record"; "effect" ~> "write";
          "providerVisible" ~> true;
          "description" ~>
            "Record metadata-only procedural definitions with validation, trigger, conflict, ordering, authority, replay, and idempotency evidence"};
        j{"operation" ~> "procedural_state_list"; "effect" ~> "read";
          "providerVisible" ~> true;
          "description" ~> "List bounded redacted procedural definition records"};
        j{"operation" ~> "procedural_state_inspect"; "effect" ~> "read";
          "providerVisible" ~> true;
          "description" ~> "Inspect one bounded redacted procedural definition record"};
        j{"operation" ~> "procedural_activation_request_record"; "effect" ~> "write";
          "providerVisible" ~> true;
          "description" ~>
            "Record pending-review activation, deactivation, or rollback requests without firing triggers or executing code"};
        j{"operation" ~> "procedural_activation_request_list"; "effect" ~> "read";
          "providerVisible" ~> true;
          "description" ~> "List pending-review procedural activation request evidence"};
        j{"operation" ~> "procedural_activation_request_inspect"; "effect" ~> "read";
          "providerVisible" ~> true;
          "description" ~> "Inspect one redacted procedural activation request"};
        j{"operation" ~> "procedural_activation_decision_record"; "effect" ~> "write";
          "providerVisible" ~> true;
          "description" ~>
            "Record approval, denial, deactivation, or rollback decisions and proof refs without performing activation"};
        j{"operation" ~> "procedural_activation_decision_list"; "effect" ~> "read";
          "providerVisible" ~> true;
          "description" ~> "List procedural activation decision evidence"};
        j{"operation" ~> "procedural_activation_decision_inspect"; "effect" ~> "read";
          "providerVisible" ~> true;
          "description" ~> "Inspect one redacted procedural activation decision"}];
    "resourceDeclarations" ~>
      j[j{"kind" ~> "procedural_record"; "schemaId" ~> "tron.resource.procedural_record.v1";
          "payloadSchemaVersion" ~> "tron.procedural_record.v1";
          "scope" ~> "session_or_workspace"};
        j{"kind" ~> "procedural_activation_request";
          "schemaId" ~> "tron.resource.procedural_activation_request.v1";
          "payloadSchemaVersion" ~> "tron.procedural_activation_request.v1";
          "scope" ~> "session_or_workspace"};
        j{"kind" ~> "procedural_activation_decision";
          "schemaId" ~> "tron.resource.procedural_activation_decision.v1";
          "payloadSchemaVersion" ~> "tron.procedural_activation_decision.v1";
          "scope" ~> "session_or_workspace"}];
    "authorityNeeds" ~>
      j[j{"scope" ~> "procedural.read";
          "purpose" ~> "inspect provider-safe procedural metadata and activation evidence"};
        j{"scope" ~> "procedural.write";
          "purpose" ~>
            "record metadata-only procedural definitions, review requests, and decisions"};
        j{"scope" ~> "resource.read";
          "purpose" ~> "inspect exact procedural resource versions"};
        j{"scope" ~> "resource.write";
          "purpose" ~> "append procedural metadata resources under exact selectors"}];
    "settingsDeclarations" ~> (VArray []); "dependencyIntents" ~> (VArray []);
    "validation" ~>
      j{"status" ~> "pending_review";
        "checks" ~>
          j[j{"id" ~> "metadata_only_definitions"; "status" ~> "implementation-candidate";
              "summary" ~>
                "Definitions store bounded metadata, refs, hashes, trigger declarations, conflict ordering, and provider-safe projections only"};
            j{"id" ~> "review_before_activation"; "status" ~> "implementation-candidate";
              "summary" ~>
                "Activation, deactivation, and rollback are represented as request and decision records without automatic behavior changes"};
            j{"id" ~> "authority_and_network_bounds"; "status" ~> "implementation-candidate";
              "summary" ~>
                "Operations require exact procedural/resource scopes, exact selectors, networkPolicy none, and no wildcard grants"};
            j{"id" ~> "provider_redaction"; "status" ~> "passed";
              "summary" ~>
                "Provider projections omit raw procedure bodies, commands, file contents, paths, secrets, grants, authority ids, and debug payloads"}];
        "evidenceRefs" ~> j[j{"kind" ~> "phase3_inventory"; "ref" ~> "P3MSA-INV-013"}] };
    "provenance" ~>
      j{"source" ~> "source_backed_first_party";
        "sourceRefs" ~>
          j[j{"kind" ~> "crate_module"; "ref" ~> "domains::procedural"};
            j{"kind" ~> "crate_module"; "ref" ~> "domains::capability"}] };
    "lifecycle" ~>
      j{"state" ~> "pending_review"; "activation" ~> "review_decision_metadata_only";
        "installable" ~> false; "executable" ~> false; "networkPolicy" ~> "none"};
    "redactionProof" ~> redaction_proof}.

(* SRC engine/durability/resources/module_registry_web_research_manifest.rs:12-100! web_research_module_manifest *)
Definition web_research_module_manifest : Value :=
  j{"schemaVersion" ~> MODULE_MANIFEST_PAYLOAD_SCHEMA_VERSION;
    "identity" ~>
      j{"moduleId" ~> "web_research_module"; "name" ~> "Web Browser And Research Module Pack";
        "kind" ~> "module_pack"; "owner" ~> "domains::web_research";
        "summary" ~>
          "Metadata-only web research request, review, citation, source, robots-evidence, and dependency-request custody";
        "version" ~> "phase3-slice24f"};
    "capabilityDeclarations" ~>
      j[j{"operation" ~> "web_research_request_record"; "effect" ~> "write";
          "providerVisible" ~> true;
          "description" ~>
            "Record a metadata-only web research request with bounded summaries, refs, policy labels, side-effect proof, and idempotency evidence"};
        j{"operation" ~> "web_research_request_list"; "effect" ~> "read";
          "providerVisible" ~> true;
          "description" ~> "List bounded provider-safe web research requests"};
        j{"operation" ~> "web_research_request_inspect"; "effect" ~> "read";
          "providerVisible" ~> true;
          "description" ~> "Inspect one bounded redacted web research request"};
        j{"operation" ~> "web_research_review_record"; "effect" ~> "write";
          "providerVisible" ~> true;
          "description" ~>
            "Record a metadata-only review linked by exact web_research_request selector"};
        j{"operation" ~> "web_research_review_list"; "effect" ~> "read";
          "providerVisible" ~> true;
          "description" ~> "List bounded provider-safe web research reviews"};
        j{"operation" ~> "web_research_review_inspect"; "effect" ~> "read";
          "providerVisible" ~> true;
          "description" ~> "Inspect one bounded redacted web research review"};
        j{"operation" ~> "web_research_source_record"; "effect" ~> "write";
          "providerVisible" ~> true;
          "description" ~>
            "Record a bounded source or citation artifact linked by exact request or review selectors"};
        j{"operation" ~> "web_research_source_list"; "effect" ~> "read";
          "providerVisible" ~> true;
          "description" ~> "List bounded provider-safe source and citation artifacts"};
        j{"operation" ~> "web_research_source_inspect"; "effect" ~> "read";
          "providerVisible" ~> true;
          "description" ~> "Inspect one bounded redacted source or citation artifact"}];
    "resourceDeclarations" ~>
      j[j{"kind" ~> "web_research_request";
          "schemaId" ~> "tron.resource.web_research_request.v1";
          "payloadSchemaVersion" ~> "tron.web_research_request.v1";
          "scope" ~> "session_or_workspace"};
        j{"kind" ~> "web_research_review";
          "schemaId" ~> "tron.resource.web_research_review.v1";
          "payloadSchemaVersion" ~> "tron.web_research_review.v1";
          "scope" ~> "session_or_workspace"};
        j{"kind" ~> "web_research_source";
          "schemaId" ~> "tron.resource.web_research_source.v1";
          "payloadSchemaVersion" ~> "tron.web_research_source.v1";
          "scope" ~> "session_or_workspace"}];
    "authorityNeeds" ~>
      j[j{"scope" ~> "web_research.read";
          "purpose" ~> "inspect provider-safe web research metadata"};
        j{"scope" ~> "web_research.write";
          "purpose" ~>
            "record metadata-only web research requests, reviews, and source artifacts"};
        j{"scope" ~> "resource.read";
          "purpose" ~>
            "inspect exact linked request, review, source, web_source, web_robots_policy, dependency, trace, and replay refs"};
        j{"scope" ~> "resource.write";
          "purpose" ~> "append web research metadata resources under exact selectors"}];
    "settingsDeclarations" ~> (VArray []); "dependencyIntents" ~> (VArray []);
    "validation" ~>
      j{"status" ~> "pending_review";
        "checks" ~>
          j[j{"id" ~> "metadata_only_custody"; "status" ~> "implementation-candidate";
              "summary" ~>
                "Records store bounded summaries, labels, refs, side-effect proof, and idempotency fingerprints only"};
            j{"id" ~> "network_and_browser_deferred"; "status" ~> "implementation-candidate";
              "summary" ~>
                "Operations require networkPolicy none and do not perform search, crawling, browser automation, login, cookie reuse, or raw page capture"};
            j{"id" ~> "exact_selector_authority"; "status" ~> "implementation-candidate";
              "summary" ~>
                "Inspect and linked review/source writes require explicit kind:web_research_* and resource:<id> selectors without wildcard grants"};
            j{"id" ~> "provider_redaction"; "status" ~> "implementation-candidate";
              "summary" ~>
                "Provider projections omit raw HTML, page dumps, browser logs, cookies, credentials, local paths, commands, raw code/file contents, grant ids, authority ids, and token-like material"}];
        "evidenceRefs" ~> j[j{"kind" ~> "phase3_inventory"; "ref" ~> "P3MSA-INV-014"}] };
    "provenance" ~>
      j{"source" ~> "source_backed_first_party";
        "sourceRefs" ~>
          j[j{"kind" ~> "crate_module"; "ref" ~> "domains::web_research"};
            j{"kind" ~> "crate_module"; "ref" ~> "domains::capability"}] };
    "lifecycle" ~>
      j{"state" ~> "pending_review"; "activation" ~> "review_decision_metadata_only";
        "installable" ~> false; "executable" ~> false; "networkPolicy" ~> "none"};
    "redactionProof" ~> redaction_proof}.

(** ** Seeds *)

(** Every manifest has a module id. *)
(* SRC engine/durability/resources/module_registry_definitions.rs:673-696! seed_resource *)
Definition seed_resource (payload : Value) : CreateResource :=
  let module_id :=
    default "" (vget payload "identity" ≫= fun identity => vget identity "moduleId" ≫= as_str) in
  {| nr_resource_id := Some (MODULE_MANIFEST_KIND +s ":" +s module_id);
     nr_kind := MODULE_MANIFEST_KIND;
     nr_schema_id := Some MODULE_MANIFEST_SCHEMA_ID;
     nr_scope := ResScope_System;
     nr_owner_worker_id := "module_registry";
     nr_owner_actor_id := "system:module_registry";
     nr_lifecycle := Some "validated";
     nr_policy :=
       j{"owner" ~> "module_registry"; "authority" ~> "module_registry.read";
         "activation" ~> "forbidden"; "networkPolicy" ~> "none"};
     nr_initial_payload := Some payload;
     nr_locations := [];
     nr_trace_id := "bootstrap";
     nr_invocation_id := None |}.

(* SRC engine/durability/resources/module_registry_definitions.rs:58-73! builtin_module_manifest_resources *)
Definition builtin_module_manifest_resources : list CreateResource :=
  map seed_resource
    [module_registry_manifest; capability_manifest; file_git_module_manifest;
     jobs_program_execution_module_manifest; memory_engine_module_manifest;
     procedural_module_manifest; web_research_module_manifest;
     notification_delivery_module_manifest; import_update_module_manifest].

(* SRC engine/durability/resources/definitions.rs:671-698! builtin_resource_type_definitions *)
Definition builtin_resource_type_definitions : list RegisterResourceType :=
  substrate_resource_type_definitions
  ++ git_resource_type_definitions
  ++ goal_question_resource_type_definitions
  ++ job_resource_type_definitions
  ++ import_history_resource_type_definitions
  ++ import_preview_resource_type_definitions
  ++ program_execution_resource_type_definitions
  ++ prompt_artifact_resource_type_definitions
  ++ repository_tree_resource_type_definitions
  ++ update_diagnostics_resource_type_definitions
  ++ module_registry_resource_type_definitions
  ++ module_authoring_resource_type_definitions
  ++ module_validation_resource_type_definitions
  ++ module_install_resource_type_definitions
  ++ module_dependencies_resource_type_definitions
  ++ module_lifecycle_resource_type_definitions
  ++ module_runtime_resource_type_definitions
  ++ context_control_resource_type_definitions
  ++ web_research_resource_type_definitions
  ++ memory_resource_type_definitions
  ++ media_resource_type_definitions
  ++ notification_resource_type_definitions
  ++ procedural_resource_type_definitions
  ++ scheduler_resource_type_definitions
  ++ web_resource_type_definitions
  ++ tool_source_resource_type_definitions
  ++ subagent_resource_type_definitions.

(** ** Start-up *)

Section install.
  Variable debug : string -> string.
  Variable json_len : Value -> Z.
  Variable rfc3339_error : string -> option string.
  Variable json_text : Value -> string.
  Variable sha256_hex : string -> string.
  (** The clock and the UUIDs of the [k]-th operation. *)
  Variable clock : nat -> instant.
  Variable uuid : nat -> nat -> string.
  Notation create := (memory_create debug json_len rfc3339_error json_text sha256_hex).

(* SRC engine/primitives/stores.rs:584-586! PrimitiveStores::install_builtin_resource_types *)
Fixpoint register_all (k : nat) (ts : list RegisterResourceType) (s : ResourceMemory)
  : Result ResourceMemory :=
  match ts with
  | [] => Ok s
  | t :: ts' =>
      let? registered := memory_register_type debug (clock k) t s in
      register_all (S k) ts' (snd registered)
  end.

(* SRC engine/primitives/stores.rs:587-594! PrimitiveStores::install_builtin_resource_types *)
Fixpoint seed_all (k : nat) (rs : list CreateResource) (s : ResourceMemory)
  : Result ResourceMemory :=
  match rs with
  | [] => Ok s
  | r :: rs' =>
      match nr_resource_id r with
      | None => seed_all (S k) rs' s
      | Some resource_id =>
          let? existing := memory_inspect debug resource_id s in
          match existing with
          | Some _ => seed_all (S k) rs' s
          | None =>
              let? created := create (clock k) (uuid k) r s in
              seed_all (S k) rs' (snd created)
          end
      end
  end.

(* SRC engine/primitives/stores.rs:579-596 PrimitiveStores::install_builtin_resource_types *)
Definition install_builtin_resource_types (s : ResourceMemory) : Result ResourceMemory :=
  let? s := register_all 0 builtin_resource_type_definitions s in
  seed_all (List.length builtin_resource_type_definitions) builtin_module_manifest_resources s.

(** *** The tables pass the checks *)

Lemma builtin_types_valid :
  Forall (fun t => validate_type_request debug t = Ok tt) builtin_resource_type_definitions.
Proof. repeat (apply Forall_cons; split; [vm_compute; reflexivity|]). constructor. Qed.

Lemma builtin_kinds_distinct : NoDup (map rt_kind builtin_resource_type_definitions).
Proof. apply (bool_decide_unpack (NoDup _)). vm_compute. constructor. Qed.

(** A seed that [create] accepts under a definition of the manifest kind. *)
Definition seed_ok (r : CreateResource) : Prop :=
  validate_create_request debug r = Ok tt /\ nr_kind r = MODULE_MANIFEST_KIND /\
  nr_lifecycle r = Some "validated" /\ nr_schema_id r = Some MODULE_MANIFEST_SCHEMA_ID /\
  (exists id, nr_resource_id r = Some id /\ validate_token debug "resource id" id = Ok tt) /\
  exists payload, nr_initial_payload r = Some payload /\
    validate_payload debug resource_function_id "resource_payload" module_manifest_schema payload = Ok tt.

Lemma seeds_ok : Forall seed_ok builtin_module_manifest_resources.
Proof.
  repeat (apply Forall_cons; split;
    [split; [vm_compute; reflexivity|]; do 3 (split; [reflexivity|]);
     split; eexists; (split; [reflexivity|vm_compute; reflexivity])|]).
  constructor.
Qed.

(** *** Start-up succeeds *)

Definition declares (t : RegisterResourceType) (d : EngineResourceTypeDefinition) : Prop :=
  ty_kind d = rt_kind t /\ ty_schema_id d = rt_schema_id t /\ ty_schema d = rt_schema t /\
  ty_lifecycle_states d = rt_lifecycle_states t /\
  ty_allowed_link_relations d = rt_allowed_link_relations t.

Lemma register_all_ok ts : forall k s,
  Forall (fun t => validate_type_request debug t = Ok tt) ts -> NoDup (map rt_kind ts) ->
  exists s', register_all k ts s = Ok s' /\ rm_resources s' = rm_resources s /\
    (forall t, t ∈ ts -> exists d, rm_types s' !! rt_kind t = Some d /\ declares t d) /\
    (forall kind, kind ∉ map rt_kind ts -> rm_types s' !! kind = rm_types s !! kind).
Proof.
  induction ts as [|t ts IH]; intros k s Hv Hnd; simpl.
  { exists s. split_and!; try done. by intros t Ht%elem_of_nil. }
  apply Forall_cons in Hv as [Ht Hv]. apply NoDup_cons in Hnd as [Hnot Hnd].
  unfold memory_register_type. rewrite Ht. simpl.
  set (d := next_type_definition (clock k) t (rm_types s !! rt_kind t)).
  destruct (IH (S k) (memory_put_type d s) Hv Hnd) as (s' & -> & Hres & Hin & Hout).
  exists s'. split_and!; [done|done| |].
  - intros t' [->|Ht']%elem_of_cons; [|by apply Hin]. exists d. split; [|done].
    rewrite Hout by done. simpl. by rewrite lookup_insert_eq.
  - intros kind Hkind. simpl in Hkind. apply not_elem_of_cons in Hkind as [Hne Hkind].
    rewrite Hout by done. simpl. by rewrite lookup_insert_ne.
Qed.

Lemma create_seed now ids r s d id :
  seed_ok r -> nr_resource_id r = Some id -> rm_types s !! MODULE_MANIFEST_KIND = Some d ->
  declares module_manifest_type d -> rm_resources s !! id = None ->
  exists x s', create now ids r s = Ok (x, s') /\ rm_types s' = rm_types s /\
    is_Some (rm_resources s' !! id) /\
    (forall id' y, rm_resources s !! id' = Some y -> rm_resources s' !! id' = Some y).
Proof.
  intros (Hv & Hkind & Hlc & Hsid & _ & payload & Hp & Hpay) Hid Hd (Hdk & Hds & Hdsch & Hdl & _) Hnew.
  unfold memory_create, memory_require_type, memory_get_type. rewrite Hv. simpl.
  unfold validate_create_request in Hv. apply seq_ok in Hv as [Hk _]. rewrite Hk. simpl.
  rewrite Hkind, Hd. simpl. unfold creation_defaults, ensure_lifecycle, validate_resource_payload.
  rewrite Hlc, Hsid, Hdl, Hds, Hdk, Hp, Hid. simpl.
  rewrite Hdsch. change (rt_schema module_manifest_type) with module_manifest_schema. rewrite Hpay. simpl.
  rewrite Hnew. simpl. unfold memory_append_version, memory_require_resource. simpl.
  rewrite lookup_insert_eq. simpl. eexists _, _. split; [reflexivity|]. split; [done|]. simpl.
  rewrite lookup_insert_eq. split; [done|]. intros id' y Hy.
  by rewrite !lookup_insert_ne by congruence.
Qed.

Lemma seed_all_ok d rs : forall k s,
  Forall seed_ok rs -> rm_types s !! MODULE_MANIFEST_KIND = Some d ->
  declares module_manifest_type d ->
  exists s', seed_all k rs s = Ok s' /\ rm_types s' = rm_types s /\
    (forall r, r ∈ rs -> exists id, nr_resource_id r = Some id /\ is_Some (rm_resources s' !! id)) /\
    (forall id y, rm_resources s !! id = Some y -> rm_resources s' !! id = Some y).
Proof.
  induction rs as [|r rs IH]; intros k s Hrs Hd Hdec.
  { exists s. split_and!; try done. by intros r Hr%elem_of_nil. }
  apply Forall_cons in Hrs as [Hr Hrs]. pose proof Hr as (_ & _ & _ & _ & (id & Hid & Htok) & _).
  simpl. rewrite Hid. unfold memory_inspect. rewrite Htok. simpl.
  destruct (rm_resources s !! id) as [y|] eqn:Hy; simpl.
  - destruct (IH (S k) s Hrs Hd Hdec) as (s' & -> & Ht & Hin & Hkeep). exists s'.
    split_and!; try done. intros r' [->|Hr']%elem_of_cons; [|by apply Hin]. exists id. split; [done|].
    exists y. by apply Hkeep.
  - destruct (create_seed (clock k) (uuid k) r s d id Hr Hid Hd Hdec Hy) as (x & s1 & -> & Ht1 & Hs1 & Hk1).
    simpl. destruct (IH (S k) s1 Hrs ltac:(by rewrite Ht1) Hdec) as (s' & -> & Ht & Hin & Hkeep). exists s'.
    split_and!; [done|by rewrite Ht| |by intros; apply Hkeep, Hk1].
    intros r' [->|Hr']%elem_of_cons; [|by apply Hin]. exists id. split; [done|].
    destruct Hs1 as [y1 Hy1]. exists y1. by apply Hkeep.
Qed.

(** On every store, installing the built-in resource types at start-up succeeds: every
    built-in kind is registered as declared (its id, schemas, lifecycles and relations pass
    the registration checks), every built-in module manifest is valid for its kind and is
    stored, and resources that were there before stay as they were. *)
Theorem startup_installs_builtin_resources s :
  exists s', install_builtin_resource_types s = Ok s' /\
    (forall t, t ∈ builtin_resource_type_definitions ->
       exists d, rm_types s' !! rt_kind t = Some d /\ declares t d) /\
    (forall r, r ∈ builtin_module_manifest_resources ->
       exists id, nr_resource_id r = Some id /\ is_Some (rm_resources s' !! id)) /\
    (forall id y, rm_resources s !! id = Some y -> rm_resources s' !! id = Some y).
Proof.
  unfold install_builtin_resource_types.
  destruct (register_all_ok builtin_resource_type_definitions 0 s builtin_types_valid
    builtin_kinds_distinct) as (s1 & -> & Hres & Hin & _). cbv beta iota.
  destruct (Hin module_manifest_type) as (d & Hd & Hdec).
  { unfold builtin_resource_type_definitions. rewrite !elem_of_app. do 10 right. do 2 left. }
  destruct (seed_all_ok d builtin_module_manifest_resources
    (List.length builtin_resource_type_definitions) s1 seeds_ok Hd Hdec) as (s' & -> & Ht & Hseed & Hkeep).
  exists s'. split_and!; [done| |done|].
  - intros t Hmem. rewrite Ht. by apply Hin.
  - intros id y Hy. apply Hkeep. by rewrite Hres.
Qed.
End install.
