(* ===== verification/Policy.v ===== *)
(** * Registration and invocation policy

    [kernel/policy.rs]: the checks the catalog runs when a function or a trigger
    is registered, the checks the host runs before a handler is called, and the
    visibility relation between functions and actors. *)

From stdpp Require Import base gmap strings list.
From Stdlib Require Import ZArith Ascii String Lia.
From S2P Require Import Prelude Json Kernel Model Schema.

#[local] Open Scope Z_scope.

(* SRC engine/kernel/policy.rs:24-26 ENGINE_INTERNAL_INVOKE_SCOPE *)
Definition ENGINE_INTERNAL_INVOKE_SCOPE : string := "engine.internal.invoke".

(** ** Visibility *)

(* SRC engine/kernel/policy.rs:293-299 has_trusted_internal_invoke_scope *)
Definition has_trusted_internal_invoke_scope (ctx : ActorContext) : bool :=
  actor_has_scope ctx ENGINE_INTERNAL_INVOKE_SCOPE
  && match ac_actor_kind ctx with
     | Actor_System | Actor_Worker | Actor_Queue | Actor_Cron => true
     | _ => false
     end.

(** [matches!((a, b), (Some(x), Some(y)) if x == y)] *)
Definition same_id (a b : option string) : bool :=
  match a, b with Some x, Some y => x =s y | _, _ => false end.

(* SRC engine/kernel/policy.rs:240-291 is_visible_to_actor *)
Definition is_visible_to_actor (function : FunctionDefinition) (actor : option ActorContext)
  : bool :=
  match actor with
  | None => false
  | Some ctx =>
      let admin := is_admin_like (ac_actor_kind ctx) in
      match fn_visibility function with
      | Vis_Internal => admin || has_trusted_internal_invoke_scope ctx
      | Vis_Session =>
          admin || same_id (ac_session_id ctx) (prov_session_id (fn_provenance function))
      | Vis_Workspace =>
          admin || same_id (ac_workspace_id ctx) (prov_workspace_id (fn_provenance function))
      | Vis_System => true
      | Vis_Client => bool_decide (ac_actor_kind ctx = Actor_Client) || admin
      | Vis_Worker => bool_decide (ac_actor_kind ctx = Actor_Worker) || admin
      | Vis_Admin => admin
      | Vis_Agent => bool_decide (ac_actor_kind ctx = Actor_Agent) || admin
      end
  end.

(* SRC engine/kernel/policy.rs:301-310 actor_from_causal_context *)
Definition actor_from_causal_context (c : CausalContext) : ActorContext :=
  {| ac_actor_id := cx_actor_id c; ac_actor_kind := cx_actor_kind c;
     ac_authority_grant_id := cx_authority_grant_id c;
     ac_authority_scopes := cx_authority_scopes c; ac_session_id := cx_session_id c;
     ac_workspace_id := cx_workspace_id c |}.

(** ** Registration *)

Section registration.
  Variable debug : string -> string.

(** The checks on a declared resource lease. *)
(* SRC engine/kernel/policy.rs:61-86! validate_function_registration *)
Definition validate_resource_lease (function : FunctionDefinition)
    (lease : ResourceLeaseRequirement) : Result unit :=
  let id := fn_id function in
  if negb (is_mutating (fn_effect_class function))
  then policy_error ("read function " +s id +s " cannot require a resource lease")
  else if negb (lr_exclusive lease)
  then policy_error ("function " +s id
         +s " requested a non-exclusive resource lease; shared leases are deferred")
  else if lr_ttl_ms lease <=? 0
  then policy_error ("function " +s id +s " resource lease ttl must be positive")
  else if is_blank (lr_resource_kind lease) || is_blank (lr_resource_id_template lease)
  then policy_error ("function " +s id +s " resource lease kind/template must not be empty")
  else Ok tt.

(** Functions that need a compensation contract. *)
(* SRC engine/kernel/policy.rs:43-45! validate_function_registration *)
Definition needs_compensation (function : FunctionDefinition) : bool :=
  bool_decide (fn_effect_class function = Effect_IrreversibleSideEffect)
  || (is_mutating (fn_effect_class function)
      && (risk_rank Risk_High <=? risk_rank (fn_risk_level function))).

(* SRC engine/kernel/policy.rs:28-102 validate_function_registration *)
Definition validate_function_registration (function : FunctionDefinition) : Result unit :=
  let id := fn_id function in
  if requires_idempotency (fn_effect_class function) && negb (is_some (fn_idempotency function))
  then policy_error ("mutating function " +s id +s " requires idempotency")
  else if negb (is_enforceable (fn_output_contract function))
  then policy_error ("function " +s id +s " declares an invalid durable output contract")
  else
  let? _ :=
    if needs_compensation function then
      match fn_compensation function with
      | None =>
          policy_error ("high-risk function " +s id +s " requires a compensation contract")
      | Some compensation =>
          if bool_decide (cc_kind compensation <> Comp_None) && negb (has_notes compensation)
          then policy_error ("high-risk function " +s id +s " requires compensation notes")
          else Ok tt
      end
    else Ok tt in
  let? _ := match fn_resource_lease function with
            | Some lease => validate_resource_lease function lease
            | None => Ok tt
            end in
  if match fn_allowed_delivery_modes function with [] => true | _ => false end
  then policy_error ("function " +s id +s " must allow at least one delivery mode")
  else
  let? _ := match fn_request_schema function with
            | Some schema => validate_schema_definition debug id "request" schema
            | None => Ok tt
            end in
  match fn_response_schema function with
  | Some schema => validate_schema_definition debug id "response" schema
  | None => Ok tt
  end.

(* SRC engine/kernel/policy.rs:137-151 is_void_loss_tolerant_target *)
Definition is_void_loss_tolerant_target (function : FunctionDefinition) : bool :=
  let explicitly_loss_tolerant :=
    match pointer (fn_metadata function) "/delivery/voidLossTolerant" ≫= as_bool with
    | Some b => b
    | None => false
    end in
  explicitly_loss_tolerant
  && match fn_effect_class function with
     | Effect_PureRead | Effect_DeterministicCompute | Effect_AppendOnlyEvent => true
     | _ => false
     end
  && (risk_rank (fn_risk_level function) <=? risk_rank Risk_Low).

Definition void_target_message (id : string) : string :=
  "Void trigger delivery for " +s id +s " requires explicit loss-tolerant target metadata".

(* SRC engine/kernel/policy.rs:104-135 validate_trigger_registration *)
Definition validate_trigger_registration (trigger : TriggerDefinition)
    (trigger_type : TriggerTypeDefinition) (function : FunctionDefinition) : Result unit :=
  let not_allowed :=
    Err (DeliveryModeNotAllowed (fn_id function) (delivery_as_str (tr_delivery_mode trigger))) in
  if negb (contains_mode (tt_allowed_delivery_modes trigger_type) (tr_delivery_mode trigger))
  then not_allowed
  else if negb (contains_mode (fn_allowed_delivery_modes function) (tr_delivery_mode trigger))
  then not_allowed
  else if bool_decide (tr_delivery_mode trigger = Delivery_Void)
          && negb (is_void_loss_tolerant_target function)
  then policy_error (void_target_message (fn_id function))
  else Ok tt.

(** ** Invocation *)

(* SRC engine/kernel/policy.rs:188-225 validate_invocation_contract *)
Definition validate_invocation_contract (function : FunctionDefinition) (invocation : Invocation)
  : Result unit :=
  let id := fn_id function in
  let ctx := inv_context invocation in
  if negb (is_visible_to_actor function (Some (actor_from_causal_context ctx)))
  then policy_error ("function " +s id +s " is not visible to actor " +s cx_actor_id ctx)
  else if negb (contains_mode (fn_allowed_delivery_modes function) (inv_delivery_mode invocation))
  then Err (DeliveryModeNotAllowed id (delivery_as_str (inv_delivery_mode invocation)))
  else if negb (is_routable (fn_health function))
  then Err (NotRoutable id ("health is " +s health_debug (fn_health function)))
  else if is_mutating (fn_effect_class function) && negb (is_some (cx_idempotency_key ctx))
  then policy_error ("mutating invocation of " +s id +s " requires an idempotency key")
  else Ok tt.

(* SRC engine/kernel/policy.rs:153-161 validate_invocation *)
Definition validate_invocation (function : FunctionDefinition) (invocation : Invocation)
  : Result unit :=
  if bool_decide (inv_delivery_mode invocation <> Delivery_Sync)
  then Err (UnsupportedDeliveryMode (delivery_as_str (inv_delivery_mode invocation)))
  else validate_invocation_contract function invocation.

(* SRC engine/kernel/policy.rs:227-238 is_trigger_void_invocation *)
Definition is_trigger_void_invocation (invocation : Invocation) : bool :=
  let ctx := inv_context invocation in
  bool_decide (inv_delivery_mode invocation = Delivery_Void)
  && is_some (cx_trigger_id ctx)
  && is_some (runtime_metadata ctx RUNTIME_METADATA_TRIGGER_DEPTH)
  && is_some (runtime_metadata ctx RUNTIME_METADATA_TRIGGER_PATH).

(* SRC engine/kernel/policy.rs:163-186 validate_trigger_target_invocation *)
Definition validate_trigger_target_invocation (function : FunctionDefinition)
    (invocation : Invocation) : Result unit :=
  let unsupported :=
    Err (UnsupportedDeliveryMode (delivery_as_str (inv_delivery_mode invocation))) in
  if bool_decide (inv_delivery_mode invocation = Delivery_Void) then
    if negb (is_trigger_void_invocation invocation) then unsupported
    else if negb (is_void_loss_tolerant_target function)
    then policy_error (void_target_message (fn_id function))
    else validate_invocation_contract function invocation
  else if bool_decide (inv_delivery_mode invocation <> Delivery_Sync) then unsupported
  else validate_invocation_contract function invocation.

End registration.

(** ** Declarative forms of the checks *)

(** What a registered function satisfies. *)
Record registrable (f : FunctionDefinition) : Prop := {
  reg_idempotent : is_mutating (fn_effect_class f) = true -> is_Some (fn_idempotency f);
  reg_output : is_enforceable (fn_output_contract f) = true;
  reg_compensation :
    fn_effect_class f = Effect_IrreversibleSideEffect
    \/ (is_mutating (fn_effect_class f) = true /\ risk_rank Risk_High <= risk_rank (fn_risk_level f)) ->
    exists c, fn_compensation f = Some c /\ (cc_kind c = Comp_None \/ has_notes c = true);
  reg_lease : forall l, fn_resource_lease f = Some l ->
    is_mutating (fn_effect_class f) = true /\ lr_exclusive l = true /\ 0 < lr_ttl_ms l /\
    is_blank (lr_resource_kind l) = false /\ is_blank (lr_resource_id_template l) = false;
  reg_modes : fn_allowed_delivery_modes f <> [];
  reg_request : forall s, fn_request_schema f = Some s -> schema_ok s;
  reg_response : forall s, fn_response_schema f = Some s -> schema_ok s
}.

(** What an admitted invocation satisfies, apart from its delivery mode. *)
Record admissible (f : FunctionDefinition) (i : Invocation) : Prop := {
  adm_visible :
    is_visible_to_actor f (Some (actor_from_causal_context (inv_context i))) = true;
  adm_mode : inv_delivery_mode i ∈ fn_allowed_delivery_modes f;
  adm_routable : is_routable (fn_health f) = true;
  adm_keyed : is_mutating (fn_effect_class f) = true ->
    is_Some (cx_idempotency_key (inv_context i))
}.

Lemma guard_policy_ok (b : bool) (m : string) (k : Result unit) :
  (if b then policy_error m else k) = Ok tt <-> b = false /\ k = Ok tt.
Proof. destruct b; unfold policy_error; split; intuition congruence. Qed.

Lemma needs_compensation_true f :
  needs_compensation f = true <->
  fn_effect_class f = Effect_IrreversibleSideEffect
  \/ (is_mutating (fn_effect_class f) = true /\ risk_rank Risk_High <= risk_rank (fn_risk_level f)).
Proof.
  unfold needs_compensation. rewrite orb_true_iff, andb_true_iff, bool_decide_eq_true, Z.leb_le.
  done.
Qed.

Lemma resource_lease_ok f l :
  validate_resource_lease f l = Ok tt <->
  is_mutating (fn_effect_class f) = true /\ lr_exclusive l = true /\ 0 < lr_ttl_ms l /\
  is_blank (lr_resource_kind l) = false /\ is_blank (lr_resource_id_template l) = false.
Proof.
  unfold validate_resource_lease. rewrite !guard_policy_ok, !negb_false_iff, Z.leb_gt, orb_false_iff.
  intuition.
Qed.

Lemma contract_ok f i : validate_invocation_contract f i = Ok tt <-> admissible f i.
Proof.
  unfold validate_invocation_contract, contains_mode.
  rewrite guard_policy_ok, guard_err_ok, guard_err_ok, guard_policy_ok.
  rewrite !negb_false_iff, andb_false_iff, negb_false_iff, is_some_iff, bool_decide_eq_true. split.
  - intros (Hv & Hm & Hr & Hk & _). constructor; try done. intros Hmut. destruct Hk; congruence.
  - intros [Hv Hm Hr Hk]. split_and!; try done.
    destruct (is_mutating (fn_effect_class f)); [right; auto|by left].
Qed.

Section properties.
  Variable debug : string -> string.

(** validate_function_registration accepts a function exactly when it is registrable:
    mutating functions declare idempotency, high-risk mutating and irreversible functions
    declare compensation (with notes unless the kind is none), a lease is exclusive,
    positive and only on mutating functions, some delivery mode is allowed, the output
    contract is enforceable and both schemas are well formed. *)
Theorem registration_accepts_iff f :
  validate_function_registration debug f = Ok tt <-> registrable f.
Proof.
  unfold validate_function_registration.
  rewrite !guard_policy_ok, !seq_ok, !when_some_ok.
  rewrite guard_policy_ok, seq_ok, !when_some_ok.
  setoid_rewrite resource_lease_ok.
  unfold validate_schema_definition. setoid_rewrite validate_schema_node_ok.
  unfold requires_idempotency. rewrite andb_false_iff, !negb_false_iff, is_some_iff.
  split.
  - intros (Hi & Ho & Hc & Hl & Hm & Hrq & Hrs). constructor; auto.
    + intros Hmut. destruct Hi; congruence.
    + intros Hn. apply needs_compensation_true in Hn. rewrite Hn in Hc.
      destruct (fn_compensation f) as [c|]; [|done]. exists c. split; [done|].
      apply guard_policy_ok in Hc as [Hc _]. apply andb_false_iff in Hc as [Hc|Hc]; bool_prop; [|auto].
      left. by apply dec_stable.
    + by destruct (fn_allowed_delivery_modes f).
  - intros [Hi Ho Hc Hl Hm Hrq Hrs]. split_and!; auto.
    + destruct (is_mutating (fn_effect_class f)); auto.
    + destruct (needs_compensation f) eqn:Hn; [|done]. apply needs_compensation_true in Hn.
      destruct (Hc Hn) as (c & -> & Hk). destruct Hk as [->| ->]; [done|]. by rewrite andb_false_r.
    + by destruct (fn_allowed_delivery_modes f).
Qed.

End properties.

(** validate_invocation admits an invocation exactly when it is synchronous, the
    function is visible to the actor of its causal context, the function allows the delivery
    mode and is routable, and a mutating function is called with an idempotency key. *)
Theorem invocation_admitted_iff f i :
  validate_invocation f i = Ok tt <-> inv_delivery_mode i = Delivery_Sync /\ admissible f i.
Proof.
  unfold validate_invocation. rewrite guard_err_ok, contract_ok, bool_decide_eq_false.
  split; intros [Hm Ha]; split; auto. by apply dec_stable.
Qed.

(** A function that is visible to an actor who is not admin-like is visible for one of
    the documented reasons only: an internal function needs the engine.internal.invoke scope
    and a worker, queue or cron actor (never a user, client or agent), a session or
    workspace function needs the same session or workspace, and an admin function is never
    visible. *)
Theorem visibility_isolation f ctx :
  is_visible_to_actor f (Some ctx) = true ->
  is_admin_like (ac_actor_kind ctx) = false ->
  match fn_visibility f with
  | Vis_Internal => In ENGINE_INTERNAL_INVOKE_SCOPE (ac_authority_scopes ctx) /\
      (ac_actor_kind ctx = Actor_Worker \/ ac_actor_kind ctx = Actor_Queue
       \/ ac_actor_kind ctx = Actor_Cron)
  | Vis_Session => exists s, ac_session_id ctx = Some s /\ prov_session_id (fn_provenance f) = Some s
  | Vis_Workspace =>
      exists w, ac_workspace_id ctx = Some w /\ prov_workspace_id (fn_provenance f) = Some w
  | Vis_System => True
  | Vis_Client => ac_actor_kind ctx = Actor_Client
  | Vis_Worker => ac_actor_kind ctx = Actor_Worker
  | Vis_Agent => ac_actor_kind ctx = Actor_Agent
  | Vis_Admin => False
  end.
Proof.
  unfold is_visible_to_actor, same_id, has_trusted_internal_invoke_scope, actor_has_scope,
    scopes_contain.
  intros Hv Ha. rewrite Ha in Hv. rewrite ?orb_false_r in Hv. simpl in Hv.
  destruct (fn_visibility f); try done; try by bool_prop.
  - apply andb_true_iff in Hv as [Hs Hk]. split.
    + apply existsb_exists in Hs as (s & Hin & ->%String.eqb_eq). done.
    + destruct (ac_actor_kind ctx); auto; done.
  - inv_ok. bool_prop. subst. eauto.
  - inv_ok. bool_prop. subst. eauto.
Qed.

(** A fire-and-forget invocation that passes validate_trigger_target_invocation comes
    from a trigger, and its target is explicitly marked loss tolerant, has low risk, and
    only reads, computes or appends an event. *)
Theorem void_delivery_is_loss_tolerant f i :
  validate_trigger_target_invocation f i = Ok tt -> inv_delivery_mode i = Delivery_Void ->
  is_Some (cx_trigger_id (inv_context i)) /\
  pointer (fn_metadata f) "/delivery/voidLossTolerant" = Some (VBool true) /\
  fn_risk_level f = Risk_Low /\
  (fn_effect_class f = Effect_PureRead \/ fn_effect_class f = Effect_DeterministicCompute
   \/ fn_effect_class f = Effect_AppendOnlyEvent) /\
  admissible f i.
Proof.
  unfold validate_trigger_target_invocation. intros H Hm.
  rewrite Hm in H. simpl in H. apply guard_err_ok in H as [Ht H].
  apply guard_policy_ok in H as [Hl H]. apply contract_ok in H.
  apply negb_false_iff in Ht. apply negb_false_iff in Hl.
  unfold is_trigger_void_invocation in Ht. unfold is_void_loss_tolerant_target in Hl. bool_prop.
  split_and!; try done.
  - by apply is_some_iff.
  - destruct (pointer _ _) as [[|[]| | | |]|]; done.
  - by destruct (fn_risk_level f).
  - destruct (fn_effect_class f); auto; done.
Qed.

(** ** The properties at concrete inputs *)

Definition set_fn_metadata (f : FunctionDefinition) (modes : list DeliveryMode) (m : Value)
  : FunctionDefinition :=
  {| fn_id := fn_id f; fn_revision := fn_revision f; fn_owner_worker := fn_owner_worker f;
     fn_description := fn_description f; fn_request_schema := fn_request_schema f;
     fn_response_schema := fn_response_schema f; fn_opaque_response := fn_opaque_response f;
     fn_tags := fn_tags f; fn_visibility := fn_visibility f;
     fn_effect_class := fn_effect_class f; fn_risk_level := fn_risk_level f;
     fn_idempotency := fn_idempotency f; fn_resource_lease := fn_resource_lease f;
     fn_compensation := fn_compensation f; fn_output_contract := fn_output_contract f;
     fn_required_authority := fn_required_authority f; fn_allowed_delivery_modes := modes;
     fn_health := fn_health f; fn_provenance := fn_provenance f; fn_metadata := m |}.

Definition sample_internal : FunctionDefinition :=
  function_new "queue::drain" "queue" "drain a queue" Vis_Internal Effect_PureRead.
Definition sample_worker_ctx : ActorContext :=
  actor_from_causal_context
    (with_scope (causal_context_new "w" Actor_Worker "g" "t") ENGINE_INTERNAL_INVOKE_SCOPE).

Lemma visibility_isolation_witness :
  In ENGINE_INTERNAL_INVOKE_SCOPE (ac_authority_scopes sample_worker_ctx) /\
  (ac_actor_kind sample_worker_ctx = Actor_Worker \/ ac_actor_kind sample_worker_ctx = Actor_Queue
   \/ ac_actor_kind sample_worker_ctx = Actor_Cron).
Proof. exact (visibility_isolation sample_internal sample_worker_ctx eq_refl eq_refl). Defined.

Definition sample_tolerant : FunctionDefinition :=
  set_fn_metadata (function_new "metrics::note" "metrics" "note" Vis_System Effect_PureRead)
    [Delivery_Void] (VObject [("delivery", VObject [("voidLossTolerant", VBool true)])]).
Definition sample_void : Invocation :=
  with_delivery_mode
    (new_sync "i1" "metrics::note" Null
       (with_runtime_metadata (with_runtime_metadata
          (with_trigger_id (causal_context_new "u" Actor_User "g" "t") "tr")
          RUNTIME_METADATA_TRIGGER_DEPTH "1") RUNTIME_METADATA_TRIGGER_PATH "[]"))
    Delivery_Void.

Lemma void_delivery_is_loss_tolerant_witness :
  is_Some (cx_trigger_id (inv_context sample_void)) /\ admissible sample_tolerant sample_void.
Proof.
  destruct (void_delivery_is_loss_tolerant sample_tolerant sample_void) as (Ht & _ & _ & _ & Ha);
    [vm_compute; reflexivity|reflexivity|].
  exact (conj Ht Ha).
Defined.
