(* ===== verification/Leases.v ===== *)
(** * Resource leases

    [authority/leases.rs]: exclusive, expiring ownership of a domain resource for
    one invocation.  The component has two implementations, an in-memory store
    with an index by resource and a SQLite table.  [LeaseStore] is the contract
    both promise to the host: its operations refine one abstract step on the map
    of leases by id.  Exclusivity is proved once, against the contract.

    The table is the list of its rows in insertion order.  Text encodings of a
    row (RFC 3339 times, ids) are not modelled; the constraint error of a
    duplicate primary key is, with its message as a parameter. *)

From stdpp Require Import base gmap strings list.
From Stdlib Require Import ZArith Ascii String Lia.
From S2P Require Import Prelude Json Kernel.

#[local] Open Scope Z_scope.

(** ** Data *)

(* SRC engine/authority/leases.rs:19-29 EngineResourceLeaseStatus *)
Inductive EngineResourceLeaseStatus : Type := Lease_Active | Lease_Released | Lease_Expired.
#[global] Instance EngineResourceLeaseStatus_eq_dec : EqDecision EngineResourceLeaseStatus.
Proof. solve_decision. Defined.

(* SRC engine/authority/leases.rs:32-38 EngineResourceLeaseStatus::as_str *)
Definition lease_status_as_str (s : EngineResourceLeaseStatus) : string :=
  match s with
  | Lease_Active => "active" | Lease_Released => "released" | Lease_Expired => "expired"
  end.

(* SRC engine/authority/leases.rs:40-50 EngineResourceLeaseStatus::parse *)
Definition lease_status_parse (value : string) : Result EngineResourceLeaseStatus :=
  if value =s "active" then Ok Lease_Active
  else if value =s "released" then Ok Lease_Released
  else if value =s "expired" then Ok Lease_Expired
  else Err (LedgerFailure "resource_lease.status" ("unknown resource lease status " +s value)).

(* SRC engine/authority/leases.rs:53-85 EngineResourceLease *)
Record EngineResourceLease := {
  rl_lease_id : string;
  rl_resource_kind : string;
  rl_resource_id : string;
  rl_holder_invocation_id : InvocationId;
  rl_function_id : FunctionId;
  rl_actor_id : ActorId;
  rl_authority_grant_id : AuthorityGrantId;
  rl_trace_id : TraceId;
  rl_parent_invocation_id : option InvocationId;
  rl_idempotency_key : option string;
  rl_status : EngineResourceLeaseStatus;
  rl_acquired_at : instant;
  rl_expires_at : instant;
  rl_released_at : option instant
}.

(* SRC engine/authority/leases.rs:88-92 EngineResourceLease::active_at *)
Definition active_at (l : EngineResourceLease) (now : instant) : bool :=
  bool_decide (rl_status l = Lease_Active) && (now <? rl_expires_at l).

(* SRC engine/authority/leases.rs:95-118 AcquireResourceLease *)
Record AcquireResourceLease := {
  al_resource_kind : string;
  al_resource_id : string;
  al_holder_invocation_id : InvocationId;
  al_function_id : FunctionId;
  al_actor_id : ActorId;
  al_authority_grant_id : AuthorityGrantId;
  al_trace_id : TraceId;
  al_parent_invocation_id : option InvocationId;
  al_idempotency_key : option string;
  al_ttl_ms : Z
}.

Definition lease_key (l : EngineResourceLease) : string * string :=
  (rl_resource_kind l, rl_resource_id l).
Definition request_key (r : AcquireResourceLease) : string * string :=
  (al_resource_kind r, al_resource_id r).

(** Assignment to the [status] and [released_at] fields. *)
Definition set_lease_status (l : EngineResourceLease) (s : EngineResourceLeaseStatus)
    (released_at : option instant) : EngineResourceLease :=
  {| rl_lease_id := rl_lease_id l; rl_resource_kind := rl_resource_kind l;
     rl_resource_id := rl_resource_id l; rl_holder_invocation_id := rl_holder_invocation_id l;
     rl_function_id := rl_function_id l; rl_actor_id := rl_actor_id l;
     rl_authority_grant_id := rl_authority_grant_id l; rl_trace_id := rl_trace_id l;
     rl_parent_invocation_id := rl_parent_invocation_id l;
     rl_idempotency_key := rl_idempotency_key l; rl_status := s;
     rl_acquired_at := rl_acquired_at l; rl_expires_at := rl_expires_at l;
     rl_released_at := released_at |}.

Definition expire_lease (l : EngineResourceLease) : EngineResourceLease :=
  set_lease_status l Lease_Expired (rl_released_at l).
Definition release_lease (l : EngineResourceLease) (now : instant) : EngineResourceLease :=
  set_lease_status l Lease_Released (Some now).

(* SRC engine/authority/leases.rs:333-350 validate_request *)
Definition validate_request (r : AcquireResourceLease) : Result unit :=
  if is_blank (al_resource_kind r) then policy_error "resource lease kind must not be empty"
  else if is_blank (al_resource_id r) then policy_error "resource lease id must not be empty"
  else if al_ttl_ms r <=? 0 then policy_error "resource lease ttl must be greater than zero"
  else Ok tt.

(** [id] is the generated lease id. *)
(* SRC engine/authority/leases.rs:352-369 lease_from_request *)
Definition lease_from_request (r : AcquireResourceLease) (now : instant) (id : string)
  : EngineResourceLease :=
  {| rl_lease_id := id; rl_resource_kind := al_resource_kind r;
     rl_resource_id := al_resource_id r; rl_holder_invocation_id := al_holder_invocation_id r;
     rl_function_id := al_function_id r; rl_actor_id := al_actor_id r;
     rl_authority_grant_id := al_authority_grant_id r; rl_trace_id := al_trace_id r;
     rl_parent_invocation_id := al_parent_invocation_id r;
     rl_idempotency_key := al_idempotency_key r; rl_status := Lease_Active;
     rl_acquired_at := now; rl_expires_at := add_ms now (al_ttl_ms r);
     rl_released_at := None |}.

(* SRC engine/authority/leases.rs:371-376 resource_conflict *)
Definition resource_conflict (existing : EngineResourceLease) : EngineError :=
  PolicyViolation ("resource lease conflict for " +s rl_resource_kind existing +s ":"
    +s rl_resource_id existing +s " held by invocation " +s rl_holder_invocation_id existing).

(** ** The in-memory store *)

(* SRC engine/authority/leases.rs:120-125 InMemoryEngineResourceLeaseStore *)
Record LeaseMemory := {
  lm_by_resource : gmap (string * string) string;
  lm_leases : gmap string EngineResourceLease
}.

(* SRC engine/authority/leases.rs:128-132 InMemoryEngineResourceLeaseStore::new *)
Definition lease_memory_new : LeaseMemory := {| lm_by_resource := ∅; lm_leases := ∅ |}.

(* SRC engine/authority/leases.rs:134-155 InMemoryEngineResourceLeaseStore::acquire *)
Definition lease_memory_acquire (now : instant) (id : string) (r : AcquireResourceLease)
    (s : LeaseMemory) : Result EngineResourceLease * LeaseMemory :=
  match validate_request r with
  | Err e => (Err e, s)
  | Ok _ =>
      let insert leases :=
        let lease := lease_from_request r now id in
        (Ok lease, {| lm_by_resource := <[request_key r := rl_lease_id lease]> (lm_by_resource s);
                      lm_leases := <[rl_lease_id lease := lease]> leases |}) in
      match lm_by_resource s !! request_key r with
      | Some existing_id =>
          match lm_leases s !! existing_id with
          | Some existing =>
              if active_at existing now then (Err (resource_conflict existing), s)
              else if bool_decide (rl_status existing = Lease_Active)
              then insert (<[existing_id := expire_lease existing]> (lm_leases s))
              else insert (lm_leases s)
          | None => insert (lm_leases s)
          end
      | None => insert (lm_leases s)
      end
  end.

(* SRC engine/authority/leases.rs:157-168 InMemoryEngineResourceLeaseStore::release *)
Definition lease_memory_release (now : instant) (id : string) (s : LeaseMemory)
  : Result (option EngineResourceLease) * LeaseMemory :=
  match lm_leases s !! id with
  | None => (Ok None, s)
  | Some lease =>
      if bool_decide (rl_status lease = Lease_Active) then
        let released := release_lease lease now in
        (Ok (Some released),
         {| lm_by_resource := lm_by_resource s; lm_leases := <[id := released]> (lm_leases s) |})
      else (Ok (Some lease), s)
  end.

(* SRC engine/authority/leases.rs:170-173 InMemoryEngineResourceLeaseStore::get *)
Definition lease_memory_get (id : string) (s : LeaseMemory) : Result (option EngineResourceLease) :=
  Ok (lm_leases s !! id).

(** ** The SQLite store *)

Definition LeaseTable : Type := list EngineResourceLease.

Section sqlite.
  (** [err.to_string()] of the constraint violation on [lease_id]. *)
  Variable duplicate_key_message : string.

(* SRC engine/authority/leases.rs:256-266 SqliteEngineResourceLeaseStore::get *)
Definition lease_table_get (id : string) (t : LeaseTable) : Result (option EngineResourceLease) :=
  Ok (List.find (fun l => rl_lease_id l =s id) t).

(** [ORDER BY acquired_at DESC LIMIT 1] *)
Fixpoint latest (rows : list EngineResourceLease) : option EngineResourceLease :=
  match rows with
  | [] => None
  | l :: rest =>
      match latest rest with
      | Some l' => if rl_acquired_at l <=? rl_acquired_at l' then Some l' else Some l
      | None => Some l
      end
  end.

(* SRC engine/authority/leases.rs:268-283 SqliteEngineResourceLeaseStore::active_for_resource *)
Definition active_for_resource (kind id : string) (t : LeaseTable)
  : Result (option EngineResourceLease) :=
  Ok (latest (List.filter (fun l =>
        (rl_resource_kind l =s kind) && (rl_resource_id l =s id)
        && (lease_status_as_str (rl_status l) =s "active")) t)).

(* SRC engine/authority/leases.rs:285-313 SqliteEngineResourceLeaseStore::insert *)
Definition lease_table_insert (lease : EngineResourceLease) (t : LeaseTable)
  : Result unit * LeaseTable :=
  if existsb (fun l => rl_lease_id l =s rl_lease_id lease) t
  then (Err (LedgerFailure "lease.insert" duplicate_key_message), t)
  else (Ok tt, t ++ [lease]).

(** [UPDATE .. SET status, expires_at, released_at WHERE lease_id = ..] *)
(* SRC engine/authority/leases.rs:315-330 SqliteEngineResourceLeaseStore::update *)
Definition lease_table_update (lease : EngineResourceLease) (t : LeaseTable) : LeaseTable :=
  map (fun l =>
    if rl_lease_id l =s rl_lease_id lease then
      {| rl_lease_id := rl_lease_id l; rl_resource_kind := rl_resource_kind l;
         rl_resource_id := rl_resource_id l; rl_holder_invocation_id := rl_holder_invocation_id l;
         rl_function_id := rl_function_id l; rl_actor_id := rl_actor_id l;
         rl_authority_grant_id := rl_authority_grant_id l; rl_trace_id := rl_trace_id l;
         rl_parent_invocation_id := rl_parent_invocation_id l;
         rl_idempotency_key := rl_idempotency_key l; rl_status := rl_status lease;
         rl_acquired_at := rl_acquired_at l; rl_expires_at := rl_expires_at lease;
         rl_released_at := rl_released_at lease |}
    else l) t.

(* SRC engine/authority/leases.rs:223-240 SqliteEngineResourceLeaseStore::acquire *)
Definition lease_table_acquire (now : instant) (id : string) (r : AcquireResourceLease)
    (t : LeaseTable) : Result EngineResourceLease * LeaseTable :=
  match validate_request r with
  | Err e => (Err e, t)
  | Ok _ =>
      let insert t' :=
        let lease := lease_from_request r now id in
        match lease_table_insert lease t' with
        | (Ok _, t'') => (Ok lease, t'')
        | (Err e, t'') => (Err e, t'')
        end in
      match active_for_resource (al_resource_kind r) (al_resource_id r) t with
      | Err e => (Err e, t)
      | Ok (Some existing) =>
          if active_at existing now then (Err (resource_conflict existing), t)
          else insert (lease_table_update (expire_lease existing) t)
      | Ok None => insert t
      end
  end.

(* SRC engine/authority/leases.rs:242-254 SqliteEngineResourceLeaseStore::release *)
Definition lease_table_release (now : instant) (id : string) (t : LeaseTable)
  : Result (option EngineResourceLease) * LeaseTable :=
  match lease_table_get id t with
  | Err e => (Err e, t)
  | Ok None => (Ok None, t)
  | Ok (Some lease) =>
      if bool_decide (rl_status lease = Lease_Active) then
        let released := release_lease lease now in
        (Ok (Some released), lease_table_update released t)
      else (Ok (Some lease), t)
  end.

End sqlite.

(** ** The contract *)

Notation lease_view := (gmap string EngineResourceLease).

(** Lapsed leases of a resource are marked when the resource is acquired again. *)
Definition expire_key (key : string * string) (l : EngineResourceLease) : EngineResourceLease :=
  if bool_decide (lease_key l = key /\ rl_status l = Lease_Active) then expire_lease l else l.

Inductive acquire_spec (now : instant) (id : string) (r : AcquireResourceLease) (v : lease_view)
  : Result EngineResourceLease -> lease_view -> Prop :=
| acquire_invalid e : validate_request r = Err e -> acquire_spec now id r v (Err e) v
| acquire_conflict i l :
    validate_request r = Ok tt -> v !! i = Some l -> lease_key l = request_key r ->
    active_at l now = true -> acquire_spec now id r v (Err (resource_conflict l)) v
| acquire_granted :
    validate_request r = Ok tt ->
    (forall i l, v !! i = Some l -> lease_key l = request_key r -> active_at l now = false) ->
    acquire_spec now id r v (Ok (lease_from_request r now id))
      (<[id := lease_from_request r now id]> (expire_key (request_key r) <$> v)).

Definition release_spec (now : instant) (id : string) (v : lease_view)
  : Result (option EngineResourceLease) * lease_view :=
  match v !! id with
  | None => (Ok None, v)
  | Some l =>
      if bool_decide (rl_status l = Lease_Active)
      then (Ok (Some (release_lease l now)), <[id := release_lease l now]> v)
      else (Ok (Some l), v)
  end.

(** What clients rely on of a lease store.  Storage itself does not fail: a release always
    answers, and an acquisition is refused only for its request or a conflict. *)
Class LeaseStore (S : Type) := {
  ls_new : S;
  ls_acquire : instant -> string -> AcquireResourceLease -> S -> Result EngineResourceLease * S;
  ls_release : instant -> string -> S -> Result (option EngineResourceLease) * S;
  ls_get : string -> S -> Result (option EngineResourceLease);
  ls_view : S -> lease_view;
  ls_inv : S -> Prop;
  ls_new_ok : ls_inv ls_new /\ ls_view ls_new = ∅;
  ls_acquire_ok : forall now id r s res s',
    ls_inv s -> ls_view s !! id = None -> ls_acquire now id r s = (res, s') ->
    ls_inv s' /\ acquire_spec now id r (ls_view s) res (ls_view s');
  ls_release_ok : forall now id s res s',
    ls_inv s -> ls_release now id s = (res, s') ->
    ls_inv s' /\ release_spec now id (ls_view s) = (res, ls_view s');
  ls_get_ok : forall id s, ls_inv s -> ls_get id s = Ok (ls_view s !! id)
}.

(** ** Exclusivity, from the contract alone *)

Definition held (l : EngineResourceLease) : Prop := rl_status l = Lease_Active.

(** A resource has at most one lease with status [Active]. *)
Definition view_exclusive (v : lease_view) : Prop :=
  forall i j a b, v !! i = Some a -> v !! j = Some b -> held a -> held b ->
  lease_key a = lease_key b -> i = j.

Lemma lease_key_from_request r now id : lease_key (lease_from_request r now id) = request_key r.
Proof. done. Qed.
Lemma lease_key_set l s t : lease_key (set_lease_status l s t) = lease_key l.
Proof. done. Qed.
Lemma active_at_held l now : active_at l now = true <-> held l /\ now < rl_expires_at l.
Proof. unfold active_at, held. rewrite andb_true_iff, bool_decide_eq_true, Z.ltb_lt. done. Qed.

Lemma expire_key_held key l : held (expire_key key l) -> held l /\ lease_key l <> key /\ expire_key key l = l.
Proof.
  unfold expire_key. case_bool_decide as Hd; [done|]. intros Hh. split_and!; [done| |done].
  intros ?. by apply Hd.
Qed.

Lemma acquire_spec_exclusive now id r v res v' :
  v !! id = None -> view_exclusive v -> acquire_spec now id r v res v' -> view_exclusive v'.
Proof.
  intros Hfresh Hex Hs. destruct Hs as [| |Hval Hnone]; [done|done|].
  intros i j a b Hi Hj Ha Hb Hkey. rewrite lookup_insert_Some in Hi, Hj.
  rewrite !lookup_fmap_Some in Hi, Hj.
  destruct Hi as [[<- <-]|[Hne (a0 & <- & Ha0)]], Hj as [[<- <-]|[Hne' (b0 & <- & Hb0)]]; [done| | |].
  - apply expire_key_held in Hb as (_ & Hk & Heq). rewrite Heq in Hkey. by destruct Hk.
  - apply expire_key_held in Ha as (_ & Hk & Heq). rewrite Heq in Hkey. by destruct Hk.
  - apply expire_key_held in Ha as (Ha & _ & HeqA), Hb as (Hb & _ & HeqB).
    rewrite HeqA, HeqB in Hkey. by apply (Hex i j a0 b0).
Qed.

Lemma release_spec_exclusive now id v res v' :
  view_exclusive v -> release_spec now id v = (res, v') -> view_exclusive v'.
Proof.
  unfold release_spec. intros Hex H. destruct (v !! id) as [l|] eqn:Hl; [|by simplify_eq].
  case_bool_decide; simplify_eq; [|done].
  intros i j a b. rewrite !lookup_insert_Some.
  intros [[<- <-]|[_ Hi]] [[<- <-]|[_ Hj]] Ha Hb Hk; try done. by apply (Hex i j a b).
Qed.

Section client.
  Context {S : Type} `{LeaseStore S}.

  (** One operation of a client; the generated lease id is new to the store. *)
Inductive lease_step : S -> S -> Prop :=
| step_acquire now id r s res s' :
    ls_view s !! id = None -> ls_acquire now id r s = (res, s') -> lease_step s s'
| step_release now id s res s' : ls_release now id s = (res, s') -> lease_step s s'.

Definition lease_reachable : S -> Prop := rtc lease_step ls_new.

Lemma lease_reachable_inv s : lease_reachable s -> ls_inv s /\ view_exclusive (ls_view s).
Proof.
  unfold lease_reachable. revert s. apply rtc_ind_r.
  - destruct ls_new_ok as [Hinv ->]. split; [done|]. by intros i j a b Hi.
  - intros s s' _ Hstep [Hinv Hex].
    destruct Hstep as [now id r s res s' Hfresh Ha|now id s res s' Hr].
    + destruct (ls_acquire_ok _ _ _ _ _ _ Hinv Hfresh Ha) as [? Hs]. split; [done|].
      by eapply acquire_spec_exclusive.
    + destruct (ls_release_ok _ _ _ _ _ Hinv Hr) as [? Hs]. split; [done|].
      by eapply release_spec_exclusive.
Qed.
End client.

(** ** Marking lapsed leases touches at most one record *)

Lemma expire_key_none key (v : lease_view) :
  (forall i l, v !! i = Some l -> lease_key l = key -> ~ held l) -> expire_key key <$> v = v.
Proof.
  intros Hn. apply map_eq. intros i. rewrite lookup_fmap.
  destruct (v !! i) as [l|] eqn:Hi; [|done]. simpl. f_equal. unfold expire_key.
  case_bool_decide as Hd; [|done]. destruct Hd. by destruct (Hn i l).
Qed.

Lemma expire_key_one key (v : lease_view) e_id e :
  v !! e_id = Some e -> lease_key e = key -> held e ->
  (forall i l, v !! i = Some l -> lease_key l = key -> held l -> i = e_id) ->
  expire_key key <$> v = <[e_id := expire_lease e]> v.
Proof.
  intros He Hk Hh Hone. apply map_eq. intros i. rewrite lookup_fmap, lookup_insert.
  case_decide as Hd.
  - subst. rewrite He. simpl. f_equal. unfold expire_key. by rewrite bool_decide_true.
  - destruct (v !! i) as [l|] eqn:Hi; [|done]. simpl. f_equal. unfold expire_key.
    case_bool_decide as Hd'; [|done]. destruct Hd' as [Hkl Hl]. by destruct Hd; rewrite (Hone i l).
Qed.

(** ** The in-memory store keeps the contract *)

Record memory_inv (s : LeaseMemory) : Prop := {
  mi_indexed : forall id l, lm_leases s !! id = Some l -> held l ->
    lm_by_resource s !! lease_key l = Some id;
  mi_points : forall k id, lm_by_resource s !! k = Some id ->
    exists l, lm_leases s !! id = Some l /\ lease_key l = k
}.

Lemma memory_insert_inv s leases id r now :
  memory_inv s -> lm_leases s !! id = None ->
  leases = expire_key (request_key r) <$> lm_leases s ->
  memory_inv {| lm_by_resource := <[request_key r := id]> (lm_by_resource s);
                lm_leases := <[id := lease_from_request r now id]> leases |}.
Proof.
  intros [Hidx Hpts] Hfresh ->. split; simpl.
  - intros i l. rewrite !lookup_insert_Some, lookup_fmap_Some.
    intros [[<- <-]|[Hne (l0 & <- & Hl0)]] Hh; [by left|right].
    apply expire_key_held in Hh as (Hh & Hk & ->). split; [congruence|eauto].
  - intros k i. rewrite lookup_insert_Some. intros [[<- <-]|[Hne Hk]].
    + rewrite lookup_insert_eq. eauto.
    + destruct (Hpts k i Hk) as (l & Hl & <-). rewrite lookup_insert_ne by congruence.
      rewrite lookup_fmap, Hl. simpl. eexists. split; [done|].
      unfold expire_key. by case_bool_decide.
Qed.

Lemma memory_acquire_ok now id r s res s' :
  memory_inv s -> lm_leases s !! id = None -> lease_memory_acquire now id r s = (res, s') ->
  memory_inv s' /\ acquire_spec now id r (lm_leases s) res (lm_leases s').
Proof.
  intros Hinv Hfresh. unfold lease_memory_acquire.
  destruct (validate_request r) as [[]|e] eqn:Hv; [|intros; simplify_eq; split; [done|by constructor]].
  assert (forall leases,
    leases = expire_key (request_key r) <$> lm_leases s ->
    (forall i l, lm_leases s !! i = Some l -> lease_key l = request_key r -> active_at l now = false) ->
    memory_inv {| lm_by_resource := <[request_key r := id]> (lm_by_resource s);
                  lm_leases := <[id := lease_from_request r now id]> leases |} /\
    acquire_spec now id r (lm_leases s) (Ok (lease_from_request r now id))
      (<[id := lease_from_request r now id]> leases)) as Hgrant.
  { intros leases Heq Hnone. split; [by apply memory_insert_inv|]. subst. by constructor. }
  assert (forall i l, lm_leases s !! i = Some l -> lease_key l = request_key r -> held l ->
    lm_by_resource s !! request_key r = Some i) as Hidx.
  { intros i l Hl <- Hh. by apply (mi_indexed s Hinv). }
  destruct (lm_by_resource s !! request_key r) as [e_id|] eqn:Hby.
  - destruct (mi_points s Hinv _ _ Hby) as (e & He & Hk). rewrite He.
    destruct (active_at e now) eqn:Hact.
    { intros; simplify_eq. split; [done|]. by apply acquire_conflict with e_id. }
    assert (forall i l, lm_leases s !! i = Some l -> lease_key l = request_key r ->
      active_at l now = false) as Hnone.
    { intros i l Hl Hkl. destruct (active_at l now) eqn:Hal; [|done].
      pose proof (proj1 (active_at_held _ _) Hal) as [Hh _]. specialize (Hidx i l Hl Hkl Hh).
      congruence. }
    case_bool_decide as Hst; intros; simplify_eq; apply Hgrant; try done.
    + symmetry. apply expire_key_one; try done. intros i l Hl Hkl Hh.
      specialize (Hidx i l Hl Hkl Hh). congruence.
    + symmetry. apply expire_key_none. intros i l Hl Hkl Hh. specialize (Hidx i l Hl Hkl Hh).
      congruence.
  - intros; simplify_eq. apply Hgrant.
    + symmetry. apply expire_key_none. intros i l Hl Hkl Hh. by specialize (Hidx i l Hl Hkl Hh).
    + intros i l Hl Hkl. destruct (active_at l now) eqn:Hal; [|done].
      apply active_at_held in Hal as [Hh _]. by specialize (Hidx i l Hl Hkl Hh).
Qed.

Lemma memory_release_ok now id s res s' :
  memory_inv s -> lease_memory_release now id s = (res, s') ->
  memory_inv s' /\ release_spec now id (lm_leases s) = (res, lm_leases s').
Proof.
  intros [Hidx Hpts]. unfold lease_memory_release, release_spec.
  destruct (lm_leases s !! id) as [l|] eqn:Hl; [|intros; by simplify_eq].
  case_bool_decide as Hst; intros; simplify_eq; [|done]. split; [|done]. split; simpl.
  - intros i l'. rewrite lookup_insert_Some. intros [[<- <-]|[_ Hl']] Hh; [done|auto].
  - intros k i Hk. destruct (Hpts k i Hk) as (l' & Hl' & <-).
    destruct (decide (i = id)) as [->|Hne]; [|rewrite lookup_insert_ne by done; eauto].
    rewrite lookup_insert_eq. simplify_eq. eauto.
Qed.

#[global] Instance memory_lease_store : LeaseStore LeaseMemory.
Proof.
  refine {| ls_new := lease_memory_new; ls_acquire := lease_memory_acquire;
            ls_release := lease_memory_release; ls_get := lease_memory_get;
            ls_view := lm_leases; ls_inv := memory_inv |}.
  - split; [|done]. by split; simpl.
  - apply memory_acquire_ok.
  - apply memory_release_ok.
  - done.
Defined.

(** ** The SQLite table keeps the contract *)

Definition table_view (t : LeaseTable) : lease_view :=
  list_to_map (map (fun l => (rl_lease_id l, l)) t).

Record table_inv (t : LeaseTable) : Prop := {
  ti_keys : NoDup (map rl_lease_id t);
  ti_exclusive : view_exclusive (table_view t)
}.

Section table.
  Variable t : LeaseTable.
  Hypothesis Hnd : NoDup (map rl_lease_id t).

Lemma table_view_lookup id l : table_view t !! id = Some l <-> In l t /\ rl_lease_id l = id.
Proof using Hnd.
  unfold table_view. rewrite <- elem_of_list_to_map.
  - rewrite list_elem_of_In, in_map_iff. split.
    + intros (x & ? & Hin). by simplify_eq.
    + intros [Hin <-]. eauto.
  - by rewrite <- list_fmap_compose.
Qed.

Lemma table_view_find id : List.find (fun l => rl_lease_id l =s id) t = table_view t !! id.
Proof using Hnd.
  destruct (List.find _ t) as [l|] eqn:Hf.
  - apply find_some in Hf as [Hin Hid]. bool_prop. symmetry. by apply table_view_lookup.
  - symmetry. apply eq_None_not_Some. intros [l Hl]. apply table_view_lookup in Hl as [Hin <-].
    eapply find_none in Hf; [|exact Hin]. by rewrite String.eqb_refl in Hf.
Qed.

End table.

Lemma table_update_keys l t : map rl_lease_id (lease_table_update l t) = map rl_lease_id t.
Proof.
  unfold lease_table_update. rewrite List.map_map. apply List.map_ext. intros x. by case_match.
Qed.

Lemma table_update_view t l st rel :
  NoDup (map rl_lease_id t) -> In l t ->
  table_view (lease_table_update (set_lease_status l st rel) t)
  = <[rl_lease_id l := set_lease_status l st rel]> (table_view t).
Proof.
  intros Hnd Hin. apply map_eq. intros i. apply option_eq. intros x.
  assert (forall y, In y t -> rl_lease_id y = rl_lease_id l -> y = l) as Huniq.
  { intros y Hy Hid. assert (table_view t !! rl_lease_id l = Some y) as H1 by (by apply table_view_lookup).
    assert (table_view t !! rl_lease_id l = Some l) as H2 by (by apply table_view_lookup). congruence. }
  rewrite lookup_insert_Some, !table_view_lookup by (by rewrite ?table_update_keys).
  unfold lease_table_update. rewrite in_map_iff. split.
  - intros [(y & Hx & Hy) <-]. destruct (String.eqb_spec (rl_lease_id y) (rl_lease_id l)) as [Hid|Hid].
    + rewrite (Huniq y Hy Hid) in Hx. simpl in Hx. rewrite String.eqb_refl in Hx. subst x.
      by left.
    + simpl in Hx. apply String.eqb_neq in Hid as Hb. rewrite Hb in Hx. subst. right. auto.
  - intros [[<- <-]|(Hne & Hx & <-)].
    + split; [|done]. exists l. split; [|done]. simpl. by rewrite String.eqb_refl.
    + split; [|done]. exists x. split; [|done]. simpl.
      by rewrite (proj2 (String.eqb_neq _ _) (not_eq_sym Hne)).
Qed.

Lemma latest_none rows : latest rows = None -> rows = [].
Proof. destruct rows as [|l rows]; [done|]. simpl. destruct (latest rows); [by case_match|done]. Qed.
Lemma latest_in rows l : latest rows = Some l -> In l rows.
Proof.
  revert l. induction rows as [|x rows IH]; intros l; simpl; [done|].
  destruct (latest rows) as [l'|]; intros; [|simplify_eq; by left].
  case_match; simplify_eq; [right; by apply IH|by left].
Qed.

(** The query for the active row of a resource finds the one held lease, if any. *)
Lemma active_for_resource_spec kind id t o :
  table_inv t -> active_for_resource kind id t = Ok o ->
  match o with
  | Some l => In l t /\ lease_key l = (kind, id) /\ held l
  | None => forall l, In l t -> lease_key l = (kind, id) -> ~ held l
  end.
Proof.
  intros _ H. unfold active_for_resource in H. simplify_eq. destruct (latest _) as [l|] eqn:Hl.
  - apply latest_in in Hl. apply filter_In in Hl as [Hin Hc]. bool_prop.
    unfold lease_key, held. split_and!; [done|congruence|]. by destruct (rl_status l).
  - apply latest_none in Hl. intros l Hin Hk Hh. unfold lease_key in Hk. simplify_eq.
    assert (In l []) as []. rewrite <- Hl. apply filter_In. split; [done|].
    by rewrite !String.eqb_refl, Hh.
Qed.

Lemma table_append_view t l :
  ~ In (rl_lease_id l) (map rl_lease_id t) ->
  table_view (t ++ [l]) = <[rl_lease_id l := l]> (table_view t).
Proof.
  intros Hni. unfold table_view. rewrite List.map_app, list_to_map_app. simpl.
  rewrite insert_empty. rewrite insert_union_singleton_l. apply map_union_comm.
  apply map_disjoint_singleton_r_2. apply not_elem_of_list_to_map_1.
  rewrite <- list_fmap_compose, list_elem_of_In. exact Hni.
Qed.

Section table_store.
  Variable duplicate_key_message : string.

Lemma table_grant_ok now id r t t1 res t' :
  table_inv t -> table_view t !! id = None -> validate_request r = Ok tt ->
  (forall i l, table_view t !! i = Some l -> lease_key l = request_key r -> active_at l now = false) ->
  map rl_lease_id t1 = map rl_lease_id t ->
  table_view t1 = expire_key (request_key r) <$> table_view t ->
  match lease_table_insert duplicate_key_message (lease_from_request r now id) t1 with
  | (Ok _, t'') => (Ok (lease_from_request r now id), t'')
  | (Err e, t'') => (Err e, t'')
  end = (res, t') ->
  table_inv t' /\ acquire_spec now id r (table_view t) res (table_view t').
Proof.
  intros [Hnd Hex] Hfresh Hv Hnone Hk1 Hv1.
  assert (~ In id (map rl_lease_id t)) as Hni.
  { intros (l & Hid & Hin)%in_map_iff.
    assert (table_view t !! id = Some l) by (by apply table_view_lookup). congruence. }
  unfold lease_table_insert. destruct (existsb _ t1) eqn:He.
  { apply existsb_exists in He as (l & Hin & Hid). bool_prop. simpl in Hid.
    destruct Hni. rewrite <- Hk1, <- Hid. by apply in_map. }
  intros; simplify_eq.
  assert (table_view (t1 ++ [lease_from_request r now id])
    = <[id := lease_from_request r now id]> (expire_key (request_key r) <$> table_view t)) as Hview.
  { rewrite table_append_view; [by rewrite Hv1|]. simpl. by rewrite Hk1. }
  assert (acquire_spec now id r (table_view t) (Ok (lease_from_request r now id))
            (table_view (t1 ++ [lease_from_request r now id]))) as Hspec.
  { rewrite Hview. by constructor. }
  split; [|done]. split; [|by eapply acquire_spec_exclusive].
  rewrite List.map_app. simpl. rewrite Hk1. apply NoDup_app. split_and!; [done| |].
  - intros x Hx ->%list_elem_of_singleton. by apply list_elem_of_In in Hx.
  - apply NoDup_singleton.
Qed.

Lemma table_acquire_ok now id r t res t' :
  table_inv t -> table_view t !! id = None ->
  lease_table_acquire duplicate_key_message now id r t = (res, t') ->
  table_inv t' /\ acquire_spec now id r (table_view t) res (table_view t').
Proof.
  intros Hinv Hfresh. unfold lease_table_acquire.
  destruct (validate_request r) as [[]|e] eqn:Hv; [|intros; simplify_eq; split; [done|by constructor]].
  destruct (active_for_resource _ _ t) as [o|] eqn:Ho; [|done].
  apply active_for_resource_spec in Ho; [|done]. pose proof (ti_keys t Hinv) as Hnd.
  destruct o as [l|].
  - destruct Ho as (Hin & Hk & Hh). change (lease_key l = request_key r) in Hk.
    assert (table_view t !! rl_lease_id l = Some l) as Hl by (by apply table_view_lookup).
    assert (forall i x, table_view t !! i = Some x -> lease_key x = request_key r -> held x ->
      i = rl_lease_id l) as Hone.
    { intros i x Hx Hkx Hhx. apply (ti_exclusive t Hinv i (rl_lease_id l) x l); try done. congruence. }
    destruct (active_at l now) eqn:Hact.
    { intros; simplify_eq. split; [done|]. by apply acquire_conflict with (rl_lease_id l). }
    eapply table_grant_ok; try done.
    + intros i x Hx Hkx. destruct (active_at x now) eqn:Hax; [|done].
      pose proof (proj1 (active_at_held _ _) Hax) as [Hhx _].
      rewrite (Hone i x Hx Hkx Hhx) in Hx. congruence.
    + apply table_update_keys.
    + unfold expire_lease. rewrite table_update_view by done.
      symmetry. by apply expire_key_one.
  - assert (forall i l, table_view t !! i = Some l -> lease_key l = request_key r -> ~ held l) as Hn.
    { intros i l Hl Hk. apply table_view_lookup in Hl as [Hin _]; [|done]. by apply Ho. }
    eapply table_grant_ok; try done.
    + intros i l Hl Hk. destruct (active_at l now) eqn:Hal; [|done].
      apply active_at_held in Hal as [Hh _]. by destruct (Hn i l).
    + symmetry. by apply expire_key_none.
Qed.

Lemma table_release_ok now id t res t' :
  table_inv t -> lease_table_release now id t = (res, t') ->
  table_inv t' /\ release_spec now id (table_view t) = (res, table_view t').
Proof.
  intros Hinv. pose proof (ti_keys t Hinv) as Hnd.
  unfold lease_table_release, lease_table_get.
  rewrite table_view_find by done. intros H.
  assert (release_spec now id (table_view t) = (res, table_view t')) as Hspec.
  { unfold release_spec. destruct (table_view t !! id) as [l|] eqn:Hl; [|by simplify_eq].
    apply table_view_lookup in Hl as [Hin <-]; [|done].
    case_bool_decide; simplify_eq; [|done]. f_equal. unfold release_lease.
    by rewrite table_update_view. }
  split; [|done]. split; [|eapply release_spec_exclusive; [apply Hinv|exact Hspec]].
  destruct (table_view t !! id); [|by simplify_eq].
  case_bool_decide; simplify_eq; [|done]. by rewrite table_update_keys.
Qed.

#[global] Instance table_lease_store : LeaseStore LeaseTable.
Proof.
  refine {| ls_new := [] : LeaseTable; ls_acquire := lease_table_acquire duplicate_key_message;
            ls_release := lease_table_release; ls_get := lease_table_get;
            ls_view := table_view; ls_inv := table_inv |}.
  - split; [|done]. split; [constructor|]. by intros i j a b Hi.
  - apply table_acquire_ok.
  - apply table_release_ok.
  - intros id t [Hnd _]. unfold lease_table_get. by rewrite table_view_find.
Defined.
End table_store.

(** ** Scripts of operations *)

Inductive lease_op : Type :=
| Op_Acquire (now : instant) (id : string) (r : AcquireResourceLease)
| Op_Release (now : instant) (id : string)
| Op_Get (id : string).

Inductive lease_response : Type :=
| Resp_Lease (r : Result EngineResourceLease)
| Resp_Option (r : Result (option EngineResourceLease)).

Definition run_op {S} `{LeaseStore S} (op : lease_op) (s : S) : lease_response * S :=
  match op with
  | Op_Acquire now id r => let '(res, s') := ls_acquire now id r s in (Resp_Lease res, s')
  | Op_Release now id => let '(res, s') := ls_release now id s in (Resp_Option res, s')
  | Op_Get id => (Resp_Option (ls_get id s), s)
  end.

Fixpoint run_ops {S} `{LeaseStore S} (ops : list lease_op) (s : S) : list lease_response * S :=
  match ops with
  | [] => ([], s)
  | op :: rest =>
      let '(r, s') := run_op op s in
      let '(rs, s'') := run_ops rest s' in (r :: rs, s'')
  end.

Definition acquired_ids (ops : list lease_op) : list string :=
  omap (fun op => match op with Op_Acquire _ id _ => Some id | _ => None end) ops.

Lemma acquire_spec_det now id r v res1 v1 res2 v2 :
  view_exclusive v -> acquire_spec now id r v res1 v1 -> acquire_spec now id r v res2 v2 ->
  res1 = res2 /\ v1 = v2.
Proof.
  intros Hex H1 H2.
  destruct H1 as [e1 He1|i1 l1 Hv1 Hl1 Hk1 Ha1|Hv1 Hn1],
    H2 as [e2 He2|i2 l2 Hv2 Hl2 Hk2 Ha2|Hv2 Hn2]; try congruence.
  - split; congruence.
  - apply active_at_held in Ha1 as [Hh1 _], Ha2 as [Hh2 _].
    assert (i1 = i2) as -> by (apply (Hex i1 i2 l1 l2); congruence). split; congruence.
  - by rewrite (Hn2 i1 l1) in Ha1.
  - by rewrite (Hn1 i2 l2) in Ha2.
  - done.
Qed.

Lemma acquire_spec_dom now id r v res v' i :
  acquire_spec now id r v res v' -> is_Some (v' !! i) -> i = id \/ is_Some (v !! i).
Proof.
  destruct 1; [by right|by right|]. rewrite lookup_insert_is_Some, lookup_fmap.
  intros [?|[_ [y Hy]]]; [by left|right]. destruct (v !! i); [eauto|done].
Qed.

Lemma release_spec_dom now id v res v' i :
  release_spec now id v = (res, v') -> is_Some (v' !! i) -> is_Some (v !! i).
Proof.
  unfold release_spec. destruct (v !! id) as [l|] eqn:Hl; [|intros; by simplify_eq].
  case_bool_decide; intros; simplify_eq; [|done].
  destruct (decide (i = id)) as [->|]; [eauto|by rewrite lookup_insert_ne in *].
Qed.

Section simulation.
  Context {S1 S2 : Type} `{LeaseStore S1, LeaseStore S2}.

Lemma run_ops_agree ops : forall (s1 : S1) (s2 : S2),
  ls_inv s1 -> ls_inv s2 -> ls_view s1 = ls_view s2 -> view_exclusive (ls_view s1) ->
  NoDup (acquired_ids ops) ->
  (forall id, In id (acquired_ids ops) -> ls_view s1 !! id = None) ->
  fst (run_ops ops s1) = fst (run_ops ops s2) /\
  ls_view (snd (run_ops ops s1)) = ls_view (snd (run_ops ops s2)).
Proof.
  induction ops as [|op ops IH]; intros s1 s2 Hi1 Hi2 Hv Hex Hnd Hfresh; [done|].
  destruct op as [now id r|now id|id]; simpl in *.
  - destruct (ls_acquire now id r s1) as [r1 s1'] eqn:H1, (ls_acquire now id r s2) as [r2 s2'] eqn:H2.
    assert (ls_view s1 !! id = None) as Hf by (apply Hfresh; by left).
    apply NoDup_cons in Hnd as [Hni Hnd].
    destruct (ls_acquire_ok _ _ _ _ _ _ Hi1 Hf H1) as [Hi1' Hs1].
    rewrite Hv in Hf. destruct (ls_acquire_ok _ _ _ _ _ _ Hi2 Hf H2) as [Hi2' Hs2].
    rewrite <- Hv in Hs2, Hf. destruct (acquire_spec_det _ _ _ _ _ _ _ _ Hex Hs1 Hs2) as [-> Hv'].
    destruct (IH s1' s2') as [Hr Hvw]; try done.
    + by eapply acquire_spec_exclusive.
    + intros i Hin. apply eq_None_not_Some. intros Hsome.
      apply (acquire_spec_dom _ _ _ _ _ _ i Hs1) in Hsome as [->|Hsome].
      * destruct Hni. by apply list_elem_of_In.
      * rewrite (Hfresh i (or_intror Hin)) in Hsome. by destruct Hsome.
    + destruct (run_ops ops s1'), (run_ops ops s2'). simpl in *. by rewrite Hr.
  - destruct (ls_release now id s1) as [r1 s1'] eqn:H1, (ls_release now id s2) as [r2 s2'] eqn:H2.
    destruct (ls_release_ok _ _ _ _ _ Hi1 H1) as [Hi1' Hs1], (ls_release_ok _ _ _ _ _ Hi2 H2) as [Hi2' Hs2].
    rewrite <- Hv, Hs1 in Hs2. simplify_eq.
    destruct (IH s1' s2') as [Hr Hvw]; try done.
    + by eapply release_spec_exclusive.
    + intros i Hin. apply eq_None_not_Some. intros Hsome.
      apply (release_spec_dom _ _ _ _ _ i Hs1) in Hsome. rewrite (Hfresh i Hin) in Hsome.
      by destruct Hsome.
    + destruct (run_ops ops s1'), (run_ops ops s2'). simpl in *. by rewrite Hr.
  - rewrite !ls_get_ok by done. rewrite Hv. destruct (IH s1 s2) as [Hr Hvw]; try done.
    destruct (run_ops ops s1), (run_ops ops s2). simpl in *. by rewrite Hr.
Qed.
End simulation.

(** ** Properties *)

(** C13: In every state that the in-memory store or the SQLite table can reach by acquiring
    (with new lease ids) and releasing, a resource has at most one lease with status Active;
    no assumption is made on the clock. *)
Theorem lease_at_most_one_holder dup :
  (forall s : LeaseMemory, lease_reachable s -> view_exclusive (lm_leases s)) /\
  (forall t : LeaseTable, lease_reachable (H := table_lease_store dup) t -> view_exclusive (table_view t)).
Proof.
  split; intros s Hs.
  - by apply (lease_reachable_inv (H := memory_lease_store)).
  - by apply (lease_reachable_inv (H := table_lease_store dup)).
Qed.

(** While a lease is active and has not expired, every valid acquire of the same
    resource is refused with the conflict error that names the holder, and the stored leases
    do not change; for every store that keeps the lease contract. *)
Theorem held_lease_blocks_acquire {S} `{LeaseStore S} (s : S) i l now id r :
  lease_reachable s -> ls_view s !! i = Some l -> held l -> now < rl_expires_at l ->
  ls_view s !! id = None -> request_key r = lease_key l -> validate_request r = Ok tt ->
  fst (ls_acquire now id r s) = Err (resource_conflict l) /\
  ls_view (snd (ls_acquire now id r s)) = ls_view s.
Proof.
  intros Hr Hl Hh Hexp Hfresh Hk Hv. apply lease_reachable_inv in Hr as [Hinv Hex].
  destruct (ls_acquire now id r s) as [res s'] eqn:Ha.
  destruct (ls_acquire_ok _ _ _ _ _ _ Hinv Hfresh Ha) as [_ Hs]. simpl.
  assert (active_at l now = true) as Hact by (by apply active_at_held).
  by destruct (acquire_spec_det _ _ _ _ _ _ _ _ Hex Hs
    (acquire_conflict now id r _ i l Hv Hl (eq_sym Hk) Hact)) as [-> ->].
Qed.

(** After a held lease is released, the next valid acquire of the resource is granted,
    whatever the clock says; for every store that keeps the lease contract. *)
Theorem released_resource_is_free {S} `{LeaseStore S} (s : S) i l now now' id r :
  lease_reachable s -> ls_view s !! i = Some l -> held l ->
  ls_view s !! id = None -> request_key r = lease_key l -> validate_request r = Ok tt ->
  let s1 := snd (ls_release now i s) in
  fst (ls_acquire now' id r s1) = Ok (lease_from_request r now' id).
Proof.
  intros Hr Hl Hh Hfresh Hk Hv s1. apply lease_reachable_inv in Hr as [Hinv Hex].
  unfold s1. destruct (ls_release now i s) as [res s'] eqn:Hrel.
  destruct (ls_release_ok _ _ _ _ _ Hinv Hrel) as [Hinv' Hs]. simpl.
  destruct (ls_acquire now' id r s') as [res' s''] eqn:Ha. simpl.
  unfold release_spec in Hs. rewrite Hl, bool_decide_true in Hs by done.
  apply pair_equal_spec in Hs as [_ Hview]. assert (id <> i) by congruence.
  assert (ls_view s' !! id = None) as Hf by (by rewrite <- Hview, lookup_insert_ne).
  destruct (ls_acquire_ok _ _ _ _ _ _ Hinv' Hf Ha) as [_ Hspec].
  destruct Hspec as [|j l' _ Hl' Hk' Ha'|]; [congruence| |done].
  rewrite <- Hview, lookup_insert_Some in Hl'. apply active_at_held in Ha' as [Hh' _].
  destruct Hl' as [[<- <-]|[Hne Hl']]; [done|].
  by destruct Hne; apply (Hex i j l l'); congruence.
Qed.

(** The in-memory store and the SQLite table answer every script of acquires, releases
    and gets identically, as long as the generated lease ids are distinct. *)
Theorem lease_stores_agree dup ops :
  NoDup (acquired_ids ops) ->
  fst (run_ops ops lease_memory_new) = fst (run_ops (H := table_lease_store dup) ops []).
Proof.
  intros Hnd. apply (run_ops_agree (S1 := LeaseMemory) (S2 := LeaseTable)
    (H0 := table_lease_store dup) ops lease_memory_new []); try done.
  exact (proj1 (ls_new_ok (LeaseStore := table_lease_store dup))).
Qed.

(** ** The properties at concrete inputs *)

Definition sample_request (holder : string) : AcquireResourceLease :=
  {| al_resource_kind := "session"; al_resource_id := "s1"; al_holder_invocation_id := holder;
     al_function_id := "session::set_model"; al_actor_id := "a"; al_authority_grant_id := "g";
     al_trace_id := "t"; al_parent_invocation_id := None; al_idempotency_key := None;
     al_ttl_ms := 1000 |}.
Definition sample_store : LeaseMemory :=
  snd (lease_memory_acquire 0 "l1" (sample_request "i1") lease_memory_new).
Definition sample_lease : EngineResourceLease := lease_from_request (sample_request "i1") 0 "l1".

Lemma sample_reachable : lease_reachable sample_store.
Proof.
  apply rtc_once. apply (step_acquire 0 "l1" (sample_request "i1") lease_memory_new
    (Ok sample_lease) sample_store); reflexivity.
Defined.

Lemma lease_at_most_one_holder_witness :
  lm_leases sample_store !! "l1" = Some sample_lease /\ view_exclusive (lm_leases sample_store).
Proof.
  exact (conj eq_refl (proj1 (lease_at_most_one_holder "dup") sample_store sample_reachable)).
Defined.

Lemma held_lease_blocks_acquire_witness :
  fst (lease_memory_acquire 999999999 "l2" (sample_request "i2") sample_store)
  = Err (PolicyViolation "resource lease conflict for session:s1 held by invocation i1").
Proof.
  exact (proj1 (held_lease_blocks_acquire sample_store "l1" sample_lease 999999999 "l2"
    (sample_request "i2") sample_reachable eq_refl eq_refl eq_refl eq_refl eq_refl eq_refl)).
Defined.

Lemma released_resource_is_free_witness :
  fst (lease_memory_acquire 6 "l2" (sample_request "i2")
         (snd (lease_memory_release 5 "l1" sample_store)))
  = Ok (lease_from_request (sample_request "i2") 6 "l2").
Proof.
  exact (released_resource_is_free sample_store "l1" sample_lease 5 6 "l2" (sample_request "i2")
    sample_reachable eq_refl eq_refl eq_refl eq_refl eq_refl).
Defined.

Definition sample_ops : list lease_op :=
  [Op_Acquire 0 "l1" (sample_request "i1"); Op_Acquire 1 "l2" (sample_request "i2");
   Op_Release 2 "l1"; Op_Acquire 3 "l3" (sample_request "i3"); Op_Get "l1"].

Lemma lease_stores_agree_witness :
  NoDup (acquired_ids sample_ops) /\
  fst (run_ops sample_ops lease_memory_new) = fst (run_ops (H := table_lease_store "dup") sample_ops []).
Proof.
  assert (NoDup (acquired_ids sample_ops)) as Hnd.
  { apply (bool_decide_unpack _). vm_compute. exact I. }
  exact (conj Hnd (lease_stores_agree "dup" sample_ops Hnd)).
Defined.

Example lease_status_round_trip s : lease_status_parse (lease_status_as_str s) = Ok s.
Proof. by destruct s. Qed.
