(* ===== verification/Paths.v ===== *)
(** * Canonical paths of grant file roots

    [authority/grants/paths.rs].  A path is a root flag and its components, as
    [std::path::Path::components] yields them.  The file system (which paths
    exist, what they canonicalize to, which are directories, the current and the
    home directory) is the record [FileSystem]; lookups in it take parsed paths.
    Also the working-directory normalization of [shared/foundation/paths]. *)

From stdpp Require Import base strings list.
From Stdlib Require Import ZArith Ascii String Lia.
From S2P Require Import Prelude Json Kernel.

#[local] Open Scope Z_scope.

Inductive component : Type := CurDir | ParentDir | Normal (name : string).
#[global] Instance component_eq_dec : EqDecision component.
Proof. solve_decision. Defined.

Record path := { p_absolute : bool; p_components : list component }.
#[global] Instance path_eq_dec : EqDecision path.
Proof. solve_decision. Defined.

Definition component_of (s : string) : option component :=
  if (s =s "") || (s =s ".") then None
  else if s =s ".." then Some ParentDir else Some (Normal s).

(** [Path::new(s)]: empty and [.] components are dropped, except a leading [.]. *)
Definition parse_path (s : string) : path :=
  let parts := split_char "/" s in
  let absolute := starts_with s "/" in
  {| p_absolute := absolute;
     p_components :=
       match parts with
       | first :: rest =>
           (if negb absolute && (first =s ".") then [CurDir] else [])
           ++ omap component_of (first :: rest)
       | [] => []
       end |}.

(** [base.join(p)] *)
Definition path_join (base p : path) : path :=
  if p_absolute p then p
  else {| p_absolute := p_absolute base;
          p_components := p_components base ++
            (if match p_components base with [] => p_absolute base | _ => true end
             then List.filter (fun c => bool_decide (c <> CurDir)) (p_components p)
             else p_components p) |}.

(** [p.starts_with(prefix)], on whole components. *)
Fixpoint components_prefix (prefix comps : list component) : bool :=
  match prefix, comps with
  | [], _ => true
  | c :: prefix', d :: comps' => bool_decide (c = d) && components_prefix prefix' comps'
  | _ :: _, [] => false
  end.
Definition path_starts_with (p prefix : path) : bool :=
  bool_decide (p_absolute p = p_absolute prefix)
  && components_prefix (p_components prefix) (p_components p).

Record FileSystem := {
  fs_exists : path -> bool;
  fs_canonicalize : path -> result string path;
  fs_current_dir : result string path;
  fs_is_dir : path -> bool;
  fs_home_dir : string
}.

(** [normalized.pop()], then [push] for each component of the suffix. *)
(* SRC engine/authority/grants/paths.rs:42-55 normalize_suffix *)
Definition normalize_suffix (canonical_ancestor : path) (suffix : list component) : path :=
  {| p_absolute := p_absolute canonical_ancestor;
     p_components :=
       fold_left (fun acc c =>
         match c with
         | CurDir => acc
         | Normal part => acc ++ [Normal part]
         | ParentDir => removelast acc
         end) suffix (p_components canonical_ancestor) |}.

(** The loop that climbs to the nearest existing ancestor; it returns that
    ancestor and the components below it. *)
(* SRC engine/authority/grants/paths.rs:29-34! canonical_payload_path *)
Fixpoint existing_ancestor (fs : FileSystem) (absolute : bool) (rev_components suffix : list component)
  : option (path * list component) :=
  let ancestor := {| p_absolute := absolute; p_components := rev rev_components |} in
  if fs_exists fs ancestor then Some (ancestor, suffix)
  else match rev_components with
       | [] => None
       | c :: rest => existing_ancestor fs absolute rest (c :: suffix)
       end.

(* SRC engine/authority/grants/paths.rs:12-40 canonical_payload_path *)
Definition canonical_payload_path (fs : FileSystem) (display : string) (candidate : path)
  : Result path :=
  if fs_exists fs candidate then
    match fs_canonicalize fs candidate with
    | Ok p => Ok p
    | Err error =>
        policy_error ("canonicalize file path " +s display +s ": " +s error)
    end
  else
  let? absolute :=
    if p_absolute candidate then Ok candidate
    else match fs_current_dir fs with
         | Ok cwd => Ok (path_join cwd candidate)
         | Err error => Err (HandlerFailed ("read current dir: " +s error))
         end in
  match existing_ancestor fs (p_absolute absolute) (rev (p_components absolute)) [] with
  | None => policy_error ("file path " +s display +s " has no existing ancestor")
  | Some (ancestor, suffix) =>
      match fs_canonicalize fs ancestor with
      | Ok canonical_ancestor => Ok (normalize_suffix canonical_ancestor suffix)
      | Err error => policy_error ("canonicalize file path ancestor: " +s error)
      end
  end.

Definition canonical_string (fs : FileSystem) (s : string) : Result path :=
  canonical_payload_path fs s (parse_path s).

(* SRC engine/authority/grants/paths.rs:7-10 root_allows_path *)
Definition root_allows_path (fs : FileSystem) (root : string) (p : path) : Result bool :=
  let? canonical_root := canonical_string fs root in
  Ok (path_starts_with p canonical_root).

(** ** Path texts

    A [PathBuf] that has not been canonicalized is its text. *)

Definition component_text (c : component) : string :=
  match c with CurDir => "." | ParentDir => ".." | Normal name => name end.
(** [p.display()] of a canonical path. *)
Definition path_display (p : path) : string :=
  (if p_absolute p then "/" else "") +s join "/" (map component_text (p_components p)).

Definition ends_with_slash (s : string) : bool := starts_with (str_rev s) "/".
(** [base.join(raw)] on texts. *)
Definition path_text_join (base raw : string) : string :=
  if starts_with raw "/" then raw
  else if (base =s "") || ends_with_slash base then base +s raw
  else base +s "/" +s raw.

(* SRC shared/foundation/paths/mod.rs:149-157 expand_home_path *)
Definition expand_home_path (fs : FileSystem) (raw : string) : string :=
  if raw =s "~" then fs_home_dir fs
  else if starts_with raw "~/" then path_text_join (fs_home_dir fs) (drop_str 2 raw)
  else raw.

(** [debug] is the [{:?}] rendering of a string. *)
(* SRC shared/foundation/paths/mod.rs:126-147 normalize_working_directory *)
Definition normalize_working_directory (debug : string -> string) (fs : FileSystem) (raw : string)
  : result string path :=
  let raw := trim raw in
  if raw =s "" then Err "working directory must not be empty"
  else
  match fs_canonicalize fs (parse_path (expand_home_path fs raw)) with
  | Err error => Err ("resolve working directory " +s debug raw +s ": " +s error)
  | Ok canonical =>
      if negb (fs_is_dir fs canonical)
      then Err ("working directory is not a directory: " +s path_display canonical)
      else Ok canonical
  end.

(** ** Containment of paths *)

Lemma components_prefix_app prefix comps :
  components_prefix prefix comps = true <-> exists rest, comps = prefix ++ rest.
Proof.
  revert comps. induction prefix as [|c prefix IH]; intros comps; simpl.
  - split; eauto.
  - destruct comps as [|d comps].
    + split; [done|]. by intros [rest ?].
    + rewrite andb_true_iff, bool_decide_eq_true, IH. split.
      * intros [-> [rest ->]]. eauto.
      * intros [rest ?]. simplify_eq. eauto.
Qed.

Lemma path_starts_with_trans p q r :
  path_starts_with p q = true -> path_starts_with q r = true -> path_starts_with p r = true.
Proof.
  unfold path_starts_with. rewrite !andb_true_iff, !bool_decide_eq_true, !components_prefix_app.
  intros [-> [r1 ->]] [-> [r2 ->]]. split; [done|]. rewrite <- app_assoc. eauto.
Qed.

Example parse_dots : parse_path "/a/./b//../c"
  = {| p_absolute := true; p_components := [Normal "a"; Normal "b"; ParentDir; Normal "c"] |}.
Proof. reflexivity. Qed.
