(* ===== verification/Grants.v ===== *)
(** * Authority grants

    [authority/grants/{model,derivation,mod}.rs]: the grant records, the checks
    that a derived grant narrows its parent, and the in-memory grant store with
    its operations derive, inspect, list, revoke and consume.  An operation takes
    the instant [now] it runs at and the ids it generates as arguments; it
    returns the new store only when it succeeds, since every error is returned
    before the first write. *)

From stdpp Require Import base gmap strings list pretty.
From Stdlib Require Import ZArith Ascii String Lia.
From S2P Require Import Prelude Json Kernel Paths.

#[local] Open Scope Z_scope.

(** ** Data *)

(* SRC engine/authority/grants/model.rs:14-22 EngineGrantLifecycle *)
Inductive EngineGrantLifecycle : Type := Grant_Active | Grant_Revoked.
#[global] Instance EngineGrantLifecycle_eq_dec : EqDecision EngineGrantLifecycle.
Proof. solve_decision. Defined.

(* SRC engine/authority/grants/model.rs:25-30 EngineGrantLifecycle::as_str *)
Definition grant_lifecycle_as_str (l : EngineGrantLifecycle) : string :=
  match l with Grant_Active => "active" | Grant_Revoked => "revoked" end.

(* SRC engine/authority/grants/model.rs:32-41 EngineGrantLifecycle::parse *)
Definition grant_lifecycle_parse (value : string) : Result EngineGrantLifecycle :=
  if value =s "active" then Ok Grant_Active
  else if value =s "revoked" then Ok Grant_Revoked
  else Err (LedgerFailure "grant.lifecycle" ("invalid grant lifecycle " +s value)).

(* SRC engine/authority/grants/model.rs:44-92 EngineGrant *)
Record EngineGrant := {
  gr_grant_id : AuthorityGrantId;
  gr_parent_grant_id : option AuthorityGrantId;
  gr_subject_actor_id : option ActorId;
  gr_subject_worker_id : option WorkerId;
  gr_subject_invocation_id : option InvocationId;
  gr_lifecycle : EngineGrantLifecycle;
  gr_allowed_capabilities : list string;
  gr_allowed_namespaces : list string;
  gr_allowed_authority_scopes : list string;
  gr_allowed_resource_kinds : list string;
  gr_resource_selectors : list string;
  gr_file_roots : list string;
  gr_network_policy : string;
  gr_max_risk : RiskLevel;
  gr_budget : Value;
  gr_expires_at : option instant;
  gr_can_delegate : bool;
  gr_provenance : Value;
  gr_trace_id : TraceId;
  gr_revision : Z;
  gr_created_at : instant;
  gr_updated_at : instant
}.

(* SRC engine/authority/grants/model.rs:94-133 DeriveGrant *)
Record DeriveGrant := {
  dg_grant_id : option AuthorityGrantId;
  dg_parent_grant_id : AuthorityGrantId;
  dg_subject_actor_id : option ActorId;
  dg_subject_worker_id : option WorkerId;
  dg_subject_invocation_id : option InvocationId;
  dg_allowed_capabilities : list string;
  dg_allowed_namespaces : list string;
  dg_allowed_authority_scopes : list string;
  dg_allowed_resource_kinds : list string;
  dg_resource_selectors : list string;
  dg_file_roots : list string;
  dg_network_policy : string;
  dg_max_risk : RiskLevel;
  dg_budget : Value;
  dg_expires_at : option instant;
  dg_can_delegate : bool;
  dg_provenance : Value;
  dg_trace_id : TraceId
}.

(* SRC engine/authority/grants/model.rs:135-144 ListGrants *)
Record ListGrants := {
  lg_parent_grant_id : option AuthorityGrantId;
  lg_lifecycle : option EngineGrantLifecycle;
  lg_limit : Z
}.

(* SRC engine/authority/grants/model.rs:146-157 ConsumeGrantInvocationBudget *)
Record ConsumeGrantInvocationBudget := {
  cb_grant_id : AuthorityGrantId;
  cb_invocation_id : InvocationId;
  cb_function_id : FunctionId;
  cb_trace_id : TraceId
}.

(* SRC engine/authority/grants/model.rs:159-175 EngineGrantEvent *)
Record EngineGrantEvent := {
  ge_event_id : string;
  ge_grant_id : AuthorityGrantId;
  ge_event_type : string;
  ge_payload : Value;
  ge_trace_id : TraceId;
  ge_occurred_at : instant
}.

(* SRC engine/authority/grants/model.rs:177-192 BOOTSTRAP_GRANT_IDS *)
Definition BOOTSTRAP_GRANT_IDS : list string :=
  ["grant"; "engine-system"; "engine-transport"; "worker-runtime"; "sandbox-lifecycle";
   "sandbox-spawn-worker"; "agent-runtime"; "agent-capability-runtime"; "capability-grant";
   "prompt-runtime"; "test-grant"; "grant:test"].

(* SRC engine/authority/grants/model.rs:203-229 bootstrap_grant *)
Definition bootstrap_grant (grant_id : string) (now : instant) : EngineGrant :=
  {| gr_grant_id := grant_id; gr_parent_grant_id := None; gr_subject_actor_id := None;
     gr_subject_worker_id := None; gr_subject_invocation_id := None;
     gr_lifecycle := Grant_Active; gr_allowed_capabilities := ["*"];
     gr_allowed_namespaces := ["*"]; gr_allowed_authority_scopes := ["*"];
     gr_allowed_resource_kinds := ["*"]; gr_resource_selectors := ["*"];
     gr_file_roots := ["*"]; gr_network_policy := "unrestricted";
     gr_max_risk := Risk_Critical; gr_budget := VObject [("class", VString "bootstrap")];
     gr_expires_at := None; gr_can_delegate := true;
     gr_provenance := VObject [("source", VString "engine.bootstrap")];
     gr_trace_id := "bootstrap"; gr_revision := 1; gr_created_at := now; gr_updated_at := now |}.

(* SRC engine/authority/grants/model.rs:231-261 grant_from_request *)
Definition grant_from_request (r : DeriveGrant) (grant_id : AuthorityGrantId) (now : instant)
    (revision : Z) : EngineGrant :=
  {| gr_grant_id := grant_id; gr_parent_grant_id := Some (dg_parent_grant_id r);
     gr_subject_actor_id := dg_subject_actor_id r;
     gr_subject_worker_id := dg_subject_worker_id r;
     gr_subject_invocation_id := dg_subject_invocation_id r; gr_lifecycle := Grant_Active;
     gr_allowed_capabilities := dg_allowed_capabilities r;
     gr_allowed_namespaces := dg_allowed_namespaces r;
     gr_allowed_authority_scopes := dg_allowed_authority_scopes r;
     gr_allowed_resource_kinds := dg_allowed_resource_kinds r;
     gr_resource_selectors := dg_resource_selectors r; gr_file_roots := dg_file_roots r;
     gr_network_policy := dg_network_policy r; gr_max_risk := dg_max_risk r;
     gr_budget := dg_budget r; gr_expires_at := dg_expires_at r;
     gr_can_delegate := dg_can_delegate r; gr_provenance := dg_provenance r;
     gr_trace_id := dg_trace_id r; gr_revision := revision; gr_created_at := now;
     gr_updated_at := now |}.

(** [uuid] is the text of the generated UUID. *)
(* SRC engine/authority/grants/model.rs:263-277 grant_event *)
Definition grant_event (grant_id : AuthorityGrantId) (event_type : string) (payload : Value)
    (trace_id : TraceId) (uuid : string) (now : instant) : EngineGrantEvent :=
  {| ge_event_id := "grant_event_" +s uuid; ge_grant_id := grant_id;
     ge_event_type := event_type; ge_payload := payload; ge_trace_id := trace_id;
     ge_occurred_at := now |}.

(** ** Derivation *)

(** [list.iter().any(|item| item == x)] *)
Definition list_has (l : list string) (x : string) : bool := existsb (fun item => item =s x) l.

(* SRC engine/authority/grants/derivation.rs:198-205 validate_non_empty_list *)
Definition validate_non_empty_list (field : string) (values : list string) : Result unit :=
  if match values with [] => true | _ => false end || existsb is_blank values
  then policy_error (field +s " must contain non-empty values") else Ok tt.

(* SRC engine/authority/grants/derivation.rs:168-178 network_rank *)
Definition network_rank (value : string) : Result Z :=
  if value =s "none" then Ok 0
  else if value =s "loopback" then Ok 1
  else if value =s "declared" then Ok 2
  else if value =s "unrestricted" then Ok 3
  else policy_error ("unsupported network policy " +s value).

(* SRC engine/authority/grants/derivation.rs:180-196 validate_derive_request *)
Definition validate_derive_request (now : instant) (r : DeriveGrant) : Result unit :=
  let? _ := validate_non_empty_list "allowedCapabilities" (dg_allowed_capabilities r) in
  let? _ := validate_non_empty_list "allowedNamespaces" (dg_allowed_namespaces r) in
  let? _ := validate_non_empty_list "allowedAuthorityScopes" (dg_allowed_authority_scopes r) in
  let? _ := validate_non_empty_list "allowedResourceKinds" (dg_allowed_resource_kinds r) in
  let? _ := validate_non_empty_list "resourceSelectors" (dg_resource_selectors r) in
  let? _ := validate_non_empty_list "fileRoots" (dg_file_roots r) in
  let? _ := network_rank (dg_network_policy r) in
  match dg_expires_at r with
  | Some expires_at =>
      if expires_at <=? now then policy_error "child grant expiry must be in the future" else Ok tt
  | None => Ok tt
  end.

(* SRC engine/authority/grants/derivation.rs:103-119 authorize_active *)
Definition authorize_active (now : instant) (grant : EngineGrant) : Result unit :=
  if bool_decide (gr_lifecycle grant <> Grant_Active)
  then policy_error ("authority grant " +s gr_grant_id grant +s " is not active")
  else match gr_expires_at grant with
       | Some expires_at =>
           if expires_at <=? now
           then policy_error ("authority grant " +s gr_grant_id grant +s " is expired") else Ok tt
       | None => Ok tt
       end.

(* SRC engine/authority/grants/derivation.rs:9-18 ensure_parent_can_derive *)
Definition ensure_parent_can_derive (now : instant) (parent : EngineGrant) : Result unit :=
  let? _ := authorize_active now parent in
  if negb (gr_can_delegate parent)
  then policy_error ("authority grant " +s gr_grant_id parent +s " cannot delegate") else Ok tt.

(* SRC engine/authority/grants/derivation.rs:121-138 ensure_list_narrows *)
Definition ensure_list_narrows (label : string) (parent child : list string) : Result unit :=
  if match child with [] => true | _ => false end
  then policy_error ("child grant " +s label +s " must not be empty")
  else if list_has parent "*" then Ok tt
  else try_each (fun item =>
         if (item =s "*") || negb (list_has parent item)
         then policy_error ("child grant " +s label +s " exceeds parent") else Ok tt) child.

(* SRC engine/authority/grants/derivation.rs:140-166 ensure_file_roots_narrow *)
Definition ensure_file_roots_narrow (fs : FileSystem) (parent child : list string)
  : Result unit :=
  if match child with [] => true | _ => false end
  then policy_error "child grant file roots must not be empty"
  else if list_has parent "*" then Ok tt
  else try_each (fun root =>
         if root =s "*" then policy_error "child grant file roots exceed parent"
         else
         let? canonical_root := canonical_string fs root in
         if negb (existsb (fun p => match root_allows_path fs p canonical_root with
                                    | Ok b => b | Err _ => false end) parent)
         then policy_error "child grant file roots exceed parent" else Ok tt) child.

(* SRC engine/authority/grants/derivation.rs:79-86! ensure_budget_narrows *)
Definition BUDGET_FIELDS : list string :=
  ["remainingInvocations"; "remainingTokens"; "remainingProcessMs";
   "maxInvocations"; "maxTokens"; "maxProcessMs"].

(* SRC engine/authority/grants/derivation.rs:78-101 ensure_budget_narrows *)
Definition ensure_budget_narrows (parent child : Value) : Result unit :=
  try_each (fun field =>
    match vget parent field ≫= as_u64 with
    | None => Ok tt
    | Some parent_value =>
        match vget child field ≫= as_u64 with
        | Some child_value =>
            if parent_value <? child_value
            then policy_error ("child grant budget " +s field +s " exceeds parent") else Ok tt
        | None => Ok tt
        end
    end) BUDGET_FIELDS.

(* SRC engine/authority/grants/derivation.rs:20-76 ensure_child_narrows_parent *)
Definition ensure_child_narrows_parent (fs : FileSystem) (parent : EngineGrant)
    (child : DeriveGrant) : Result unit :=
  let? _ := ensure_list_narrows "capabilities"
              (gr_allowed_capabilities parent) (dg_allowed_capabilities child) in
  let? _ := ensure_list_narrows "namespaces"
              (gr_allowed_namespaces parent) (dg_allowed_namespaces child) in
  let? _ := ensure_list_narrows "authority scopes"
              (gr_allowed_authority_scopes parent) (dg_allowed_authority_scopes child) in
  let? _ := ensure_list_narrows "resource kinds"
              (gr_allowed_resource_kinds parent) (dg_allowed_resource_kinds child) in
  let? _ := ensure_list_narrows "resource selectors"
              (gr_resource_selectors parent) (dg_resource_selectors child) in
  let? _ := ensure_file_roots_narrow fs (gr_file_roots parent) (dg_file_roots child) in
  let? child_rank := network_rank (dg_network_policy child) in
  let? parent_rank := network_rank (gr_network_policy parent) in
  if parent_rank <? child_rank
  then policy_error "child grant network policy exceeds parent"
  else if risk_gtb (dg_max_risk child) (gr_max_risk parent)
  then policy_error "child grant risk exceeds parent"
  else
  let? _ := ensure_budget_narrows (gr_budget parent) (dg_budget child) in
  if match gr_expires_at parent, dg_expires_at child with
     | Some parent_expiry, Some child_expiry => parent_expiry <? child_expiry
     | _, _ => false
     end
  then policy_error "child grant expiry exceeds parent"
  else if is_some (gr_expires_at parent) && negb (is_some (dg_expires_at child))
  then policy_error "child grant cannot remove parent expiry"
  else if dg_can_delegate child && negb (gr_can_delegate parent)
  then policy_error "child grant delegation exceeds parent"
  else Ok tt.

(** ** The store *)

(* SRC engine/authority/grants/mod.rs:63-68 InMemoryEngineGrantStore *)
Record GrantStore := {
  gs_grants : gmap AuthorityGrantId EngineGrant;
  gs_events : gmap AuthorityGrantId (list EngineGrantEvent)
}.

(* SRC engine/authority/grants/mod.rs:212-222 InMemoryEngineGrantStore::seed_bootstrap_grants *)
Definition seed_bootstrap_grants (now : instant) (s : GrantStore) : GrantStore :=
  {| gs_grants := fold_left (fun m id => <[id := bootstrap_grant id now]> m)
                    BOOTSTRAP_GRANT_IDS (gs_grants s);
     gs_events := gs_events s |}.

(* SRC engine/authority/grants/mod.rs:71-80 InMemoryEngineGrantStore::new *)
Definition grant_store_new (now : instant) : GrantStore :=
  seed_bootstrap_grants now {| gs_grants := ∅; gs_events := ∅ |}.

(* SRC engine/authority/grants/mod.rs:205-210 InMemoryEngineGrantStore::record_event *)
Definition record_grant_event (e : EngineGrantEvent) (s : GrantStore) : GrantStore :=
  {| gs_grants := gs_grants s;
     gs_events := <[ge_grant_id e := default [] (gs_events s !! ge_grant_id e) ++ [e]]> (gs_events s) |}.

(* SRC engine/authority/grants/mod.rs:199-203 InMemoryEngineGrantStore::require_grant *)
Definition require_grant (id : AuthorityGrantId) (s : GrantStore) : Result EngineGrant :=
  ok_or (gs_grants s !! id) (PolicyViolation ("authority grant " +s id +s " not found")).

Definition put_grant (g : EngineGrant) (s : GrantStore) : GrantStore :=
  {| gs_grants := <[gr_grant_id g := g]> (gs_grants s); gs_events := gs_events s |}.

(** [generated] is the id drawn when the request names none. *)
(* SRC engine/authority/grants/mod.rs:82-107 InMemoryEngineGrantStore::derive *)
Definition grant_derive (fs : FileSystem) (now : instant) (generated uuid : string)
    (r : DeriveGrant) (s : GrantStore) : Result (EngineGrant * GrantStore) :=
  let? _ := validate_derive_request now r in
  let? parent := require_grant (dg_parent_grant_id r) s in
  let? _ := ensure_parent_can_derive now parent in
  let? _ := ensure_child_narrows_parent fs parent r in
  let grant_id := default generated (dg_grant_id r) in
  if is_some (gs_grants s !! grant_id)
  then policy_error ("grant " +s grant_id +s " already exists")
  else
  let grant := grant_from_request r grant_id now 1 in
  let payload := VObject [("parentGrantId",
                   match gr_parent_grant_id grant with Some p => VString p | None => Null end)] in
  Ok (grant, record_grant_event
               (grant_event grant_id "grant.derived" payload (gr_trace_id grant) uuid now)
               (put_grant grant s)).

(* SRC engine/authority/grants/mod.rs:109-112 InMemoryEngineGrantStore::inspect *)
Definition grant_inspect (id : AuthorityGrantId) (s : GrantStore) : Result (option EngineGrant) :=
  Ok (gs_grants s !! id).

(* SRC engine/authority/grants/mod.rs:666-673 validate_list_limit *)
Definition validate_list_limit (limit : Z) : Result unit :=
  if limit =? 0 then policy_error "grant list limit must be greater than zero" else Ok tt.

(* SRC engine/authority/grants/mod.rs:114-133 InMemoryEngineGrantStore::list *)
Definition grant_list (f : ListGrants) (s : GrantStore) : Result (list EngineGrant) :=
  let? _ := validate_list_limit (lg_limit f) in
  Ok (take (Z.to_nat (lg_limit f))
        (List.filter (fun g =>
           match lg_parent_grant_id f with
           | Some p => bool_decide (gr_parent_grant_id g = Some p)
           | None => true
           end
           && match lg_lifecycle f with
              | Some l => bool_decide (gr_lifecycle g = l)
              | None => true
              end) (btree_values (gs_grants s)))).

Definition set_gr_state (g : EngineGrant) (l : EngineGrantLifecycle) (budget : Value)
    (revision : Z) (updated : instant) : EngineGrant :=
  {| gr_grant_id := gr_grant_id g; gr_parent_grant_id := gr_parent_grant_id g;
     gr_subject_actor_id := gr_subject_actor_id g;
     gr_subject_worker_id := gr_subject_worker_id g;
     gr_subject_invocation_id := gr_subject_invocation_id g; gr_lifecycle := l;
     gr_allowed_capabilities := gr_allowed_capabilities g;
     gr_allowed_namespaces := gr_allowed_namespaces g;
     gr_allowed_authority_scopes := gr_allowed_authority_scopes g;
     gr_allowed_resource_kinds := gr_allowed_resource_kinds g;
     gr_resource_selectors := gr_resource_selectors g; gr_file_roots := gr_file_roots g;
     gr_network_policy := gr_network_policy g; gr_max_risk := gr_max_risk g;
     gr_budget := budget; gr_expires_at := gr_expires_at g;
     gr_can_delegate := gr_can_delegate g; gr_provenance := gr_provenance g;
     gr_trace_id := gr_trace_id g; gr_revision := revision;
     gr_created_at := gr_created_at g; gr_updated_at := updated |}.

(** The store keys a grant by the id asked for, which is the grant's own id. *)
(* SRC engine/authority/grants/mod.rs:135-150 InMemoryEngineGrantStore::revoke *)
Definition grant_revoke (now : instant) (uuid : string) (id : AuthorityGrantId)
    (trace : TraceId) (s : GrantStore) : Result (EngineGrant * GrantStore) :=
  let? grant := require_grant id s in
  if bool_decide (gr_lifecycle grant <> Grant_Revoked) then
    let revoked := set_gr_state grant Grant_Revoked (gr_budget grant)
                     (wrapping_add_u64 (gr_revision grant) 1) now in
    Ok (revoked,
        record_grant_event (grant_event id "grant.revoked" (VObject []) trace uuid now)
          {| gs_grants := <[id := revoked]> (gs_grants s); gs_events := gs_events s |})
  else Ok (grant, s).

(* SRC engine/authority/grants/mod.rs:675-691 ensure_grant_can_consume *)
Definition ensure_grant_can_consume (now : instant) (grant : EngineGrant) : Result unit :=
  if bool_decide (gr_lifecycle grant <> Grant_Active)
  then policy_error ("authority grant " +s gr_grant_id grant +s " is not active")
  else match gr_expires_at grant with
       | Some expires_at =>
           if expires_at <=? now
           then policy_error ("authority grant " +s gr_grant_id grant +s " is expired") else Ok tt
       | None => Ok tt
       end.

(* SRC engine/authority/grants/mod.rs:693-695 remaining_invocations *)
Definition remaining_invocations (budget : Value) : option Z :=
  vget budget "remainingInvocations" ≫= as_u64.

(* SRC engine/authority/grants/mod.rs:697-705 set_remaining_invocations *)
Definition set_remaining_invocations (budget : Value) (remaining : Z) : Result Value :=
  match budget with
  | VObject fields =>
      Ok (VObject (obj_insert fields "remainingInvocations" (VNumber (PosInt remaining))))
  | _ => policy_error "grant budget must be an object"
  end.

(* SRC engine/authority/grants/mod.rs:707-712 exhausted_invocation_budget *)
Definition exhausted_invocation_budget (grant : EngineGrant) : EngineError :=
  PolicyViolation ("authority grant " +s gr_grant_id grant
    +s " budget remainingInvocations is exhausted").

(* SRC engine/authority/grants/mod.rs:163-197 InMemoryEngineGrantStore::consume_invocation_budget *)
Definition consume_invocation_budget (now : instant) (uuid : string)
    (r : ConsumeGrantInvocationBudget) (s : GrantStore) : Result (EngineGrant * GrantStore) :=
  let? grant := require_grant (cb_grant_id r) s in
  let? _ := ensure_grant_can_consume now grant in
  match remaining_invocations (gr_budget grant) with
  | None => Ok (grant, s)
  | Some remaining =>
      if remaining =? 0 then Err (exhausted_invocation_budget grant)
      else
      let? budget := set_remaining_invocations (gr_budget grant) (remaining - 1) in
      let previous_revision := gr_revision grant in
      let revision := wrapping_add_u64 previous_revision 1 in
      let grant' := set_gr_state grant (gr_lifecycle grant) budget revision now in
      let payload := VObject
        [("budgetField", VString "remainingInvocations");
         ("consumed", VNumber (PosInt 1));
         ("functionId", VString (cb_function_id r));
         ("invocationId", VString (cb_invocation_id r));
         ("previousRevision", VNumber (PosInt previous_revision));
         ("remainingInvocations", VNumber (PosInt (remaining - 1)));
         ("revision", VNumber (PosInt revision))] in
      Ok (grant',
          record_grant_event
            (grant_event (cb_grant_id r) "grant.budget_consumed" payload (cb_trace_id r) uuid now)
            {| gs_grants := <[cb_grant_id r := grant']> (gs_grants s); gs_events := gs_events s |})
  end.

(** ** The authority order *)

(** What a list of allowed names permits. *)
Definition allows (l : list string) (x : string) : Prop := In "*" l \/ In x l.

(** The canonical paths under a list of file roots. *)
Definition roots_allow (fs : FileSystem) (roots : list string) (p : path) : Prop :=
  In "*" roots \/
  exists root r, In root roots /\ canonical_string fs root = Ok r /\ path_starts_with p r = true.

(** [policy_le fs a b]: grant [a] permits nothing that [b] does not. *)
Record policy_le (fs : FileSystem) (a b : EngineGrant) : Prop := {
  pl_capabilities :
    forall x, allows (gr_allowed_capabilities a) x -> allows (gr_allowed_capabilities b) x;
  pl_namespaces :
    forall x, allows (gr_allowed_namespaces a) x -> allows (gr_allowed_namespaces b) x;
  pl_scopes :
    forall x, allows (gr_allowed_authority_scopes a) x -> allows (gr_allowed_authority_scopes b) x;
  pl_kinds :
    forall x, allows (gr_allowed_resource_kinds a) x -> allows (gr_allowed_resource_kinds b) x;
  pl_selectors :
    forall x, allows (gr_resource_selectors a) x -> allows (gr_resource_selectors b) x;
  pl_roots : forall p, roots_allow fs (gr_file_roots a) p -> roots_allow fs (gr_file_roots b) p;
  pl_any_root : In "*" (gr_file_roots a) -> In "*" (gr_file_roots b);
  pl_network : exists ra rb, network_rank (gr_network_policy a) = Ok ra /\
    network_rank (gr_network_policy b) = Ok rb /\ ra <= rb;
  pl_risk : risk_rank (gr_max_risk a) <= risk_rank (gr_max_risk b);
  pl_expiry : forall t, gr_expires_at b = Some t ->
    exists t', gr_expires_at a = Some t' /\ t' <= t;
  pl_delegation : gr_can_delegate a = true -> gr_can_delegate b = true
}.

Lemma policy_le_trans fs a b c : policy_le fs a b -> policy_le fs b c -> policy_le fs a c.
Proof.
  intros [] []. constructor; eauto.
  - destruct pl_network0 as (ra & rb & Ha & Hb & Hle), pl_network1 as (rb' & rc & Hb' & Hc & Hle').
    exists ra, rc. split_and!; [done|done|]. rewrite Hb in Hb'. simplify_eq. lia.
  - lia.
  - intros t Ht. destruct (pl_expiry1 t Ht) as (t1 & Ht1 & Hle1).
    destruct (pl_expiry0 t1 Ht1) as (t2 & Ht2 & Hle2). exists t2. split; [done|lia].
Qed.

(** Only the lifecycle, the budget, the revision and the update time change. *)
Definition same_policy (a b : EngineGrant) : Prop :=
  exists l bud rev upd, a = set_gr_state b l bud rev upd.

Lemma policy_le_same fs a a' b b' :
  same_policy a' a -> same_policy b' b -> policy_le fs a b -> policy_le fs a' b'.
Proof.
  intros (l & bud & rev & upd & ->) (l' & bud' & rev' & upd' & ->) []. by constructor.
Qed.

Lemma same_policy_refl g : same_policy g g.
Proof. exists (gr_lifecycle g), (gr_budget g), (gr_revision g), (gr_updated_at g). by destruct g. Qed.
#[local] Hint Resolve same_policy_refl : tron.

Lemma list_has_In l x : list_has l x = true <-> In x l.
Proof.
  unfold list_has. rewrite existsb_exists. split.
  - intros (y & Hy & ->%String.eqb_eq). done.
  - intros H. exists x. by rewrite String.eqb_refl.
Qed.

Lemma list_narrows label parent child :
  ensure_list_narrows label parent child = Ok tt ->
  forall x, allows child x -> allows parent x.
Proof.
  unfold ensure_list_narrows. intros H x Hx. destruct child as [|c child]; [done|].
  destruct (list_has parent "*") eqn:Hs; [left; by apply list_has_In|].
  rewrite try_each_ok, List.Forall_forall in H.
  assert (forall y, In y (c :: child) -> y <> "*" /\ In y parent) as Hall.
  { intros y Hy. specialize (H y Hy). apply guard_err_ok in H as [Hg _]. bool_prop.
    split; [done|]. by apply list_has_In. }
  destruct Hx as [Hx|Hx]; [by destruct (Hall _ Hx)|right]. by apply Hall.
Qed.

Lemma roots_narrow fs parent child :
  ensure_file_roots_narrow fs parent child = Ok tt ->
  forall p, roots_allow fs child p -> roots_allow fs parent p.
Proof.
  unfold ensure_file_roots_narrow. intros H p Hp. destruct child as [|c child]; [done|].
  destruct (list_has parent "*") eqn:Hs; [left; by apply list_has_In|].
  rewrite try_each_ok, List.Forall_forall in H.
  destruct Hp as [Hp|(root & r & Hin & Hr & Hpre)]; [by specialize (H _ Hp)|].
  specialize (H _ Hin). case_match; [done|]. rewrite Hr in H.
  apply guard_err_ok in H as [Hg _]. apply negb_false_iff, existsb_exists in Hg as (q & Hq & Hb).
  unfold root_allows_path in Hb. destruct (canonical_string fs q) as [rq|] eqn:Hrq; [|done].
  right. exists q, rq. split_and!; [done|done|]. by eapply path_starts_with_trans.
Qed.

Lemma any_root_narrow fs parent child :
  ensure_file_roots_narrow fs parent child = Ok tt -> In "*" child -> In "*" parent.
Proof.
  unfold ensure_file_roots_narrow. intros H Hin. destruct child as [|c child]; [done|].
  destruct (list_has parent "*") eqn:Hs; [by apply list_has_In|].
  rewrite try_each_ok, List.Forall_forall in H. by specialize (H _ Hin).
Qed.

Lemma derive_narrows fs parent r id now rev :
  ensure_child_narrows_parent fs parent r = Ok tt ->
  policy_le fs (grant_from_request r id now rev) parent.
Proof.
  unfold ensure_child_narrows_parent. rewrite !seq_ok.
  intros (H1 & H2 & H3 & H4 & H5 & H6 & H7).
  destruct (network_rank (dg_network_policy r)) as [rc|] eqn:Hrc; [|done].
  destruct (network_rank (gr_network_policy parent)) as [rp|] eqn:Hrp; [|done].
  apply guard_err_ok in H7 as [Hn H7]. apply guard_err_ok in H7 as [Hr H7].
  apply seq_ok in H7 as [_ H7]. apply guard_err_ok in H7 as [He H7].
  apply guard_err_ok in H7 as [He' H7]. apply guard_err_ok in H7 as [Hd _].
  unfold risk_gtb in Hr. bool_prop.
  constructor; simpl; eauto using list_narrows, roots_narrow, any_root_narrow.
  - intros t Ht. rewrite Ht in He, He'. destruct (dg_expires_at r) as [t'|]; [|done].
    exists t'. split; [done|]. bool_prop. lia.
  - intros Hc. rewrite Hc in Hd. simpl in Hd. by apply negb_false_iff.
Qed.

(** ** Reachable stores *)

Section run.
  Variable fs : FileSystem.

Inductive grant_step : GrantStore -> GrantStore -> Prop :=
| step_derive now gen uuid r s g s' :
    grant_derive fs now gen uuid r s = Ok (g, s') -> grant_step s s'
| step_revoke now uuid id trace s g s' :
    grant_revoke now uuid id trace s = Ok (g, s') -> grant_step s s'
| step_consume now uuid r s g s' :
    consume_invocation_budget now uuid r s = Ok (g, s') -> grant_step s s'.

Definition grant_reachable (s : GrantStore) : Prop :=
  exists now, rtc grant_step (grant_store_new now) s.

(** [parent_id s i j]: the grant stored at [i] was derived from [j]. *)
Definition parent_id (s : GrantStore) (i j : AuthorityGrantId) : Prop :=
  exists g, gs_grants s !! i = Some g /\ gr_parent_grant_id g = Some j.

Record grants_inv (s : GrantStore) : Prop := {
  gi_key : forall id g, gs_grants s !! id = Some g -> gr_grant_id g = id;
  gi_parent : forall id g p, gs_grants s !! id = Some g -> gr_parent_grant_id g = Some p ->
    exists pg, gs_grants s !! p = Some pg /\ policy_le fs g pg;
  gi_rooted : forall id, is_Some (gs_grants s !! id) ->
    exists b, In b BOOTSTRAP_GRANT_IDS /\ rtc (parent_id s) id b
}.

(** The three ways the map of grants changes. *)
Lemma grant_step_shape s s' :
  grants_inv s -> grant_step s s' ->
  gs_grants s' = gs_grants s
  \/ (exists id g g', gs_grants s !! id = Some g /\ same_policy g' g /\
        gs_grants s' = <[id := g']> (gs_grants s))
  \/ (exists id g p pg, gs_grants s !! id = None /\ gs_grants s !! p = Some pg /\
        gr_grant_id g = id /\ gr_parent_grant_id g = Some p /\ policy_le fs g pg /\
        gs_grants s' = <[id := g]> (gs_grants s)).
Proof.
  intros Hinv [now gen uuid r s0 g s1 H|now uuid id trace s0 g s1 H|now uuid r s0 g s1 H].
  - right. right. unfold grant_derive in H.
    destruct (validate_derive_request now r) as [[]|]; [|done].
    destruct (require_grant _ s0) as [parent|] eqn:Hp; [|done].
    destruct (ensure_parent_can_derive now parent) as [[]|]; [|done].
    destruct (ensure_child_narrows_parent fs parent r) as [[]|] eqn:Hn; [|done].
    apply guard_err_ok in H as [Hf H]. simplify_eq.
    destruct (gs_grants s0 !! default gen (dg_grant_id r)) eqn:Hl; [done|].
    unfold require_grant, ok_or in Hp. case_match; simplify_eq.
    exists (default gen (dg_grant_id r)), (grant_from_request r (default gen (dg_grant_id r)) now 1),
      (dg_parent_grant_id r), parent.
    split_and!; try done. by apply derive_narrows.
  - unfold grant_revoke, require_grant, ok_or in H.
    destruct (gs_grants s0 !! id) as [g0|] eqn:Hg; [|done].
    case_bool_decide; simplify_eq; [|by left]. right. left. exists id, g0.
    eexists. split_and!; [done| |done]. by repeat eexists.
  - unfold consume_invocation_budget, require_grant, ok_or in H.
    destruct (gs_grants s0 !! cb_grant_id r) as [g0|] eqn:Hg; [|done].
    destruct (ensure_grant_can_consume now g0) as [[]|]; [|done].
    destruct (remaining_invocations (gr_budget g0)) as [n|]; [|simplify_eq; by left].
    case_match; [done|]. destruct (set_remaining_invocations _ _) as [b|]; [|done]. simplify_eq.
    right. left. exists (cb_grant_id r), g0. eexists. split_and!; [done| |done].
    by repeat eexists.
Qed.

Lemma grants_inv_update s s' id g g' :
  grants_inv s -> gs_grants s !! id = Some g -> same_policy g' g ->
  gs_grants s' = <[id := g']> (gs_grants s) -> grants_inv s'.
Proof.
  intros [Hk Hp Hr] Hg Hs Heq.
  assert (forall i x, gs_grants s' !! i = Some x ->
    exists y, gs_grants s !! i = Some y /\ same_policy x y) as Hback.
  { intros i x. rewrite Heq, lookup_insert_Some. intros [[<- <-]|[_ Hx]]; [eauto|].
    exists x. auto with tron. }
  assert (forall i y, gs_grants s !! i = Some y ->
    exists x, gs_grants s' !! i = Some x /\ same_policy x y) as Hforw.
  { intros i y Hy. rewrite Heq. destruct (decide (i = id)) as [->|Hne].
    - rewrite lookup_insert_eq. simplify_eq. eauto.
    - rewrite lookup_insert_ne by done. eauto with tron. }
  split.
  - intros i x Hx. destruct (Hback i x Hx) as (y & Hy & (? & ? & ? & ? & ->)). by apply Hk in Hy.
  - intros i x p Hx Hpx. destruct (Hback i x Hx) as (y & Hy & Hsy).
    pose proof Hsy as (l & bud & rev & upd & ->). simpl in Hpx.
    destruct (Hp i y p Hy Hpx) as (pg & Hpg & Hle). destruct (Hforw p pg Hpg) as (pg' & Hpg' & Hsp).
    exists pg'. split; [done|]. by eapply policy_le_same.
  - intros i [x Hx]. destruct (Hback i x Hx) as (y & Hy & _).
    destruct (Hr i) as (b & Hb & Hch); [eauto|]. exists b. split; [done|].
    clear -Hch Hforw. induction Hch as [|i j k (y & Hy & Hj) _ IH]; [done|].
    destruct (Hforw i y Hy) as (x & Hx & (? & ? & ? & ? & ->)).
    eapply rtc_l; [|exact IH]. eexists. split; [done|]. done.
Qed.

Lemma grants_inv_derive s s' id g p pg :
  grants_inv s -> gs_grants s !! id = None -> gs_grants s !! p = Some pg ->
  gr_grant_id g = id -> gr_parent_grant_id g = Some p -> policy_le fs g pg ->
  gs_grants s' = <[id := g]> (gs_grants s) -> grants_inv s'.
Proof.
  intros [Hk Hp Hr] Hid Hpg Hgid Hgp Hle Heq.
  assert (forall i j, rtc (parent_id s) i j -> rtc (parent_id s') i j) as Hmono.
  { intros i j. induction 1 as [|i j k (y & Hy & Hj) _ IH]; [done|].
    eapply rtc_l; [|exact IH]. exists y. split; [|done]. rewrite Heq, lookup_insert_ne; congruence. }
  split.
  - intros i x. rewrite Heq, lookup_insert_Some. intros [[<- <-]|[_ Hx]]; [done|auto].
  - intros i x q. rewrite !Heq, lookup_insert_Some. intros [[<- <-]|[_ Hx]] Hq.
    + simplify_eq. exists pg. split; [|done]. rewrite lookup_insert_ne; congruence.
    + destruct (Hp i x q Hx Hq) as (qg & Hqg & ?). exists qg. split; [|done].
      rewrite lookup_insert_ne; congruence.
  - intros i. rewrite Heq, lookup_insert_is_Some. intros [<-|[_ Hx]].
    + destruct (Hr p) as (b & Hb & Hch); [eauto|]. exists b. split; [done|].
      eapply rtc_l; [|by apply Hmono]. exists g. split; [|done]. by rewrite Heq, lookup_insert_eq.
    + destruct (Hr i Hx) as (b & Hb & Hch). eauto.
Qed.

Lemma bootstrap_lookup now id g :
  gs_grants (grant_store_new now) !! id = Some g ->
  In id BOOTSTRAP_GRANT_IDS /\ g = bootstrap_grant id now.
Proof.
  unfold grant_store_new, seed_bootstrap_grants. cbn [gs_grants].
  assert (forall ids (m : gmap string EngineGrant),
    fold_left (fun m id => <[id := bootstrap_grant id now]> m) ids m !! id = Some g ->
    m !! id = Some g \/ (In id ids /\ g = bootstrap_grant id now)) as Hgen.
  { induction ids as [|i ids IH]; intros m; simpl; [auto|].
    intros [Hm|[? ->]]%IH; [|auto]. apply lookup_insert_Some in Hm as [[<- <-]|[_ Hm]]; auto. }
  intros [?|?]%Hgen; done.
Qed.

Lemma grants_inv_new now : grants_inv (grant_store_new now).
Proof.
  split.
  - by intros id g [_ ->]%bootstrap_lookup.
  - by intros id g p [_ ->]%bootstrap_lookup.
  - intros id [g [Hin _]%bootstrap_lookup]. exists id. split; [done|constructor].
Qed.

Lemma grants_inv_step s s' : grants_inv s -> grant_step s s' -> grants_inv s'.
Proof.
  intros Hinv Hstep. destruct (grant_step_shape s s' Hinv Hstep) as
    [Heq|[(id & g & g' & Hg & Hs & Heq)|(id & g & p & pg & H1 & H2 & H3 & H4 & H5 & Heq)]].
  - destruct Hinv as [Hk Hp Hr]. split; rewrite ?Heq; try done.
    intros i Hi. destruct (Hr i Hi) as (b & Hb & Hch). exists b. split; [done|].
    clear -Hch Heq. induction Hch as [|i j k (y & Hy & Hj) _ IH]; [done|].
    eapply rtc_l; [|exact IH]. exists y. by rewrite Heq.
  - by eapply grants_inv_update.
  - by eapply grants_inv_derive.
Qed.

Lemma grants_inv_reachable s : grant_reachable s -> grants_inv s.
Proof.
  intros [now Hr]. revert Hr. revert s. apply rtc_ind_r; [apply grants_inv_new|].
  intros s s' _ Hstep Hinv. by eapply grants_inv_step.
Qed.

Lemma ancestors_bound s : grants_inv s -> forall i j, tc (parent_id s) i j ->
  forall a b, gs_grants s !! i = Some a -> gs_grants s !! j = Some b -> policy_le fs a b.
Proof.
  intros Hinv i j Ht. induction Ht as [i j (y & Hy & Hj)|i j k (y & Hy & Hj) _ IH]; intros a b Ha Hb.
  - assert (y = a) as -> by congruence.
    destruct (gi_parent s Hinv i a j Ha Hj) as (pg & Hpg & Hle). by simplify_eq.
  - assert (y = a) as -> by congruence. destruct (gi_parent s Hinv i a j Ha Hj) as (pg & Hpg & Hle).
    eapply policy_le_trans; [exact Hle|]. by apply IH.
Qed.

(** C3: In every grant store reachable by deriving, revoking and spending, each grant
    descends from a bootstrap grant, and permits nothing that any of its ancestors does not:
    capabilities, namespaces, scopes, kinds, selectors, file roots, network policy, risk,
    expiry and delegation. *)
Theorem derived_authority_never_amplifies s i a :
  grant_reachable s -> gs_grants s !! i = Some a ->
  (exists root, In root BOOTSTRAP_GRANT_IDS /\ rtc (parent_id s) i root) /\
  (forall j b, tc (parent_id s) i j -> gs_grants s !! j = Some b -> policy_le fs a b).
Proof.
  intros Hinv%grants_inv_reachable Ha. split.
  - apply (gi_rooted s Hinv). eauto.
  - intros j b Ht Hb. by eapply ancestors_bound.
Qed.

Lemma revoked_step s s' id g :
  grants_inv s -> grant_step s s' -> gs_grants s !! id = Some g -> gr_lifecycle g = Grant_Revoked ->
  exists g', gs_grants s' !! id = Some g' /\ gr_lifecycle g' = Grant_Revoked.
Proof.
  intros _ [now gen uuid r s0 x s1 H|now uuid i trace s0 x s1 H|now uuid r s0 x s1 H] Hg Hrev.
  - unfold grant_derive in H. destruct (validate_derive_request now r) as [[]|]; [|done].
    destruct (require_grant _ s0) as [parent|]; [|done].
    destruct (ensure_parent_can_derive now parent) as [[]|]; [|done].
    destruct (ensure_child_narrows_parent fs parent r) as [[]|]; [|done].
    apply guard_err_ok in H as [Hf H]. simplify_eq. simpl.
    destruct (decide (default gen (dg_grant_id r) = id)) as [Heq|Hne].
    + rewrite Heq, Hg in Hf. done.
    + rewrite lookup_insert_ne by done. eauto.
  - unfold grant_revoke, require_grant, ok_or in H.
    destruct (gs_grants s0 !! i) as [g0|] eqn:Hi; [|done].
    case_bool_decide; simplify_eq; [|eauto]. simpl. destruct (decide (i = id)) as [->|].
    + rewrite lookup_insert_eq. eauto.
    + rewrite lookup_insert_ne by done. eauto.
  - unfold consume_invocation_budget, require_grant, ok_or in H.
    destruct (gs_grants s0 !! cb_grant_id r) as [g0|] eqn:Hi; [|done].
    destruct (ensure_grant_can_consume now g0) as [[]|] eqn:Hact; [|done].
    destruct (remaining_invocations (gr_budget g0)) as [n|]; [|simplify_eq; eauto].
    case_match; [done|]. destruct (set_remaining_invocations _ _) as [b|]; [|done]. simplify_eq.
    simpl. destruct (decide (cb_grant_id r = id)) as [<-|].
    + simplify_eq. unfold ensure_grant_can_consume in Hact. by rewrite Hrev in Hact.
    + rewrite lookup_insert_ne by done. eauto.
Qed.

(** Once a grant is revoked, whatever happens later no invocation can spend from it (it
    is refused as not active) and no grant can be derived from it. *)
Theorem revocation_is_permanent s s' id g :
  grant_reachable s -> gs_grants s !! id = Some g -> gr_lifecycle g = Grant_Revoked ->
  rtc grant_step s s' ->
  (forall now uuid r, cb_grant_id r = id ->
     consume_invocation_budget now uuid r s'
     = Err (PolicyViolation ("authority grant " +s id +s " is not active"))) /\
  (forall now gen uuid r, dg_parent_grant_id r = id ->
     is_ok (grant_derive fs now gen uuid r s') = false).
Proof.
  intros Hinv%grants_inv_reachable Hg Hrev Hsteps.
  assert (grants_inv s' /\ exists g', gs_grants s' !! id = Some g' /\ gr_lifecycle g' = Grant_Revoked)
    as (Hinv' & g' & Hg' & Hrev').
  { revert s' Hsteps. apply rtc_ind_r; [eauto|]. intros s1 s2 _ Hstep (Hi & x & Hx & Hl).
    split; [by eapply grants_inv_step|]. by eapply revoked_step. }
  split.
  - intros now uuid r Hid. unfold consume_invocation_budget, require_grant, ensure_grant_can_consume.
    rewrite Hid, Hg'. simpl. rewrite bool_decide_true by (rewrite Hrev'; done).
    by rewrite (gi_key s' Hinv' id g' Hg').
  - intros now gen uuid r Hid. unfold grant_derive, require_grant, ensure_parent_can_derive,
      authorize_active.
    destruct (validate_derive_request now r) as [[]|]; [|done].
    rewrite Hid, Hg'. simpl. by rewrite bool_decide_true by (rewrite Hrev'; done).
Qed.

End run.

(** ** Invocation budgets *)

(** Run a list of consume requests; count the ones that succeed. *)
Fixpoint consume_all (calls : list (instant * string * ConsumeGrantInvocationBudget))
    (s : GrantStore) : nat * GrantStore :=
  match calls with
  | [] => (O, s)
  | (now, uuid, r) :: rest =>
      match consume_invocation_budget now uuid r s with
      | Ok (_, s') => let '(n, s'') := consume_all rest s' in (S n, s'')
      | Err _ => consume_all rest s
      end
  end.

Definition not_expired (g : EngineGrant) (now : instant) : Prop :=
  forall t, gr_expires_at g = Some t -> now < t.

Lemma can_consume_ok now g :
  gr_lifecycle g = Grant_Active -> not_expired g now -> ensure_grant_can_consume now g = Ok tt.
Proof.
  unfold ensure_grant_can_consume, not_expired. intros -> Hexp. simpl.
  destruct (gr_expires_at g) as [t|]; [|done]. specialize (Hexp t eq_refl).
  by rewrite (proj2 (Z.leb_gt _ _) Hexp).
Qed.

(** One successful consumption takes one unit and keeps everything else. *)
Lemma consume_one now uuid r s g n :
  gs_grants s !! cb_grant_id r = Some g -> gr_lifecycle g = Grant_Active -> not_expired g now ->
  remaining_invocations (gr_budget g) = Some n -> 0 < n ->
  exists g' s', consume_invocation_budget now uuid r s = Ok (g', s') /\
    gs_grants s' !! cb_grant_id r = Some g' /\ gr_lifecycle g' = Grant_Active /\
    gr_expires_at g' = gr_expires_at g /\ remaining_invocations (gr_budget g') = Some (n - 1).
Proof.
  intros Hg Hact Hexp Hrem Hn. unfold consume_invocation_budget, require_grant. rewrite Hg. simpl.
  rewrite can_consume_ok, Hrem by done. rewrite (proj2 (Z.eqb_neq _ _)) by lia.
  destruct (gr_budget g) as [| | | | |fields] eqn:Hb; try done. simpl.
  eexists _, _. split_and!; [done| | | |]; simpl.
  - by rewrite lookup_insert_eq.
  - done.
  - done.
  - unfold remaining_invocations. simpl. by rewrite obj_get_insert_eq.
Qed.

(** Of any number of attempts to spend from an active grant with n remaining
    invocations exactly min(attempts, n) succeed, and the remaining budget is n less that
    number. *)
Theorem budget_spent_exactly calls : forall s id g n,
  gs_grants s !! id = Some g -> gr_lifecycle g = Grant_Active ->
  remaining_invocations (gr_budget g) = Some n -> 0 <= n ->
  Forall (fun c => cb_grant_id (snd c) = id /\ not_expired g (fst (fst c))) calls ->
  fst (consume_all calls s) = Nat.min (List.length calls) (Z.to_nat n) /\
  exists g', gs_grants (snd (consume_all calls s)) !! id = Some g' /\
    remaining_invocations (gr_budget g')
    = Some (n - Z.of_nat (Nat.min (List.length calls) (Z.to_nat n))).
Proof.
  induction calls as [|[[now uuid] r] calls IH]; intros s id g n Hg Hact Hrem Hn Hc; simpl.
  { split; [done|]. exists g. split; [done|]. by rewrite Z.sub_0_r. }
  apply Forall_cons in Hc as [[Hid Hexp] Hc]. simpl in Hid, Hexp. subst id.
  destruct (decide (n = 0)) as [->|Hne].
  - assert (consume_invocation_budget now uuid r s = Err (exhausted_invocation_budget g)) as ->.
    { unfold consume_invocation_budget, require_grant. rewrite Hg. simpl.
      by rewrite can_consume_ok, Hrem. }
    destruct (IH s (cb_grant_id r) g 0) as [Hf Hs]; try done. by rewrite Nat.min_0_r in *.
  - destruct (consume_one now uuid r s g n) as (g' & s' & -> & Hg' & Hact' & Hexp' & Hrem'); try done;
      [lia|].
    destruct (IH s' (cb_grant_id r) g' (n - 1)) as [Hf (g'' & Hg'' & Hr'')]; try done; [lia| |].
    { eapply Forall_impl; [exact Hc|]. unfold not_expired. intros c [Hc1 Hc2]. by rewrite Hexp'. }
    destruct (consume_all calls s') as [k s''] eqn:Hk. simpl in *. split.
    + rewrite Hf. replace (Z.to_nat n) with (S (Z.to_nat (n - 1))) by lia. done.
    + exists g''. split; [done|]. rewrite Hr''. f_equal.
      replace (Z.to_nat n) with (S (Z.to_nat (n - 1))) by lia. simpl. lia.
Qed.

(** A derived grant that omits the invocation budget spends without limit, whatever its
    parent may spend. *)
Theorem omitted_budget_is_unlimited fs now gen uuid r s g s' calls :
  grant_derive fs now gen uuid r s = Ok (g, s') ->
  remaining_invocations (dg_budget r) = None ->
  Forall (fun c => cb_grant_id (snd c) = gr_grant_id g /\ not_expired g (fst (fst c))) calls ->
  consume_all calls s' = (List.length calls, s').
Proof.
  intros H Hnone Hc. unfold grant_derive in H.
  destruct (validate_derive_request now r) as [[]|]; [|done].
  destruct (require_grant _ s) as [parent|]; [|done].
  destruct (ensure_parent_can_derive now parent) as [[]|]; [|done].
  destruct (ensure_child_narrows_parent fs parent r) as [[]|]; [|done].
  apply guard_err_ok in H as [_ H]. apply (inj Ok), pair_equal_spec in H as [Hg Hs].
  assert (gs_grants s' !! gr_grant_id g = Some g) as Hl by (subst; apply lookup_insert_eq).
  assert (gr_lifecycle g = Grant_Active) as Hact by (by subst).
  assert (remaining_invocations (gr_budget g) = None) as Hrem by (by subst).
  clear Hg Hs Hnone. induction calls as [|[[t u] c] calls IH]; [done|].
  apply Forall_cons in Hc as [[Hid Hexp] Hc]. simpl in Hid, Hexp |- *.
  unfold consume_invocation_budget, require_grant at 1. rewrite Hid, Hl. simpl.
  rewrite can_consume_ok, Hrem by done. by rewrite IH.
Qed.

(** ** The properties at concrete inputs *)

Definition sample_fs : FileSystem :=
  {| fs_exists := fun p => match p_components p with [] => p_absolute p | _ => false end;
     fs_canonicalize := fun p => Ok p;
     fs_current_dir := Ok {| p_absolute := true; p_components := [] |};
     fs_is_dir := fun _ => true; fs_home_dir := "/" |}.
Definition sample_derive (id parent : string) (budget : Value) : DeriveGrant :=
  {| dg_grant_id := Some id; dg_parent_grant_id := parent; dg_subject_actor_id := None;
     dg_subject_worker_id := None; dg_subject_invocation_id := None;
     dg_allowed_capabilities := ["state::get"]; dg_allowed_namespaces := ["state"];
     dg_allowed_authority_scopes := ["state.read"]; dg_allowed_resource_kinds := ["artifact"];
     dg_resource_selectors := ["kind:artifact"]; dg_file_roots := ["/work"];
     dg_network_policy := "none"; dg_max_risk := Risk_Low; dg_budget := budget;
     dg_expires_at := None; dg_can_delegate := true; dg_provenance := Null; dg_trace_id := "t" |}.
Definition after {A} (s : GrantStore) (r : Result (A * GrantStore)) : GrantStore :=
  match r with Ok (_, s') => s' | Err _ => s end.
Definition one_call : Value := VObject [("remainingInvocations", VNumber (PosInt 1))].
Definition store0 : GrantStore := grant_store_new 0.
Definition store1 : GrantStore :=
  after store0 (grant_derive sample_fs 1 "x" "u1" (sample_derive "child" "grant" one_call) store0).
Definition store2 : GrantStore :=
  after store1 (grant_derive sample_fs 2 "x" "u2" (sample_derive "leaf" "child" Null) store1).

Lemma derive_step_ok fs now gen uuid r s :
  is_ok (grant_derive fs now gen uuid r s) = true ->
  grant_step fs s (after s (grant_derive fs now gen uuid r s)).
Proof.
  destruct (grant_derive fs now gen uuid r s) as [[g s']|] eqn:H; [|done].
  intros _. by eapply step_derive.
Defined.

Lemma store2_reachable : grant_reachable sample_fs store2.
Proof.
  exists 0. apply rtc_l with store1; [apply derive_step_ok; vm_compute; reflexivity|].
  apply rtc_once. apply derive_step_ok. vm_compute. reflexivity.
Defined.

Definition leaf_grant : EngineGrant :=
  grant_from_request (sample_derive "leaf" "child" Null) "leaf" 2 1.
Definition child_grant : EngineGrant :=
  grant_from_request (sample_derive "child" "grant" one_call) "child" 1 1.

Lemma derived_authority_never_amplifies_witness : policy_le sample_fs leaf_grant child_grant.
Proof.
  refine (proj2 (derived_authority_never_amplifies sample_fs store2 "leaf" leaf_grant
    store2_reachable _) "child" child_grant _ _).
  - vm_compute. reflexivity.
  - apply tc_once. exists leaf_grant. split; vm_compute; reflexivity.
  - vm_compute. reflexivity.
Defined.

Definition store_revoked : GrantStore := after store2 (grant_revoke 3 "u3" "child" "t" store2).

Lemma revocation_is_permanent_witness :
  consume_invocation_budget 4 "u4"
    {| cb_grant_id := "child"; cb_invocation_id := "i"; cb_function_id := "state::get"; cb_trace_id := "t" |}
    store_revoked
  = Err (PolicyViolation "authority grant child is not active").
Proof.
  assert (grant_reachable sample_fs store_revoked) as Hr.
  { destruct store2_reachable as [now Hr]. exists now. eapply rtc_r; [exact Hr|].
    apply (step_revoke _ 3 "u3" "child" "t" store2
      (set_gr_state child_grant Grant_Revoked one_call 2 3)). vm_compute. reflexivity. }
  refine (proj1 (revocation_is_permanent sample_fs store_revoked store_revoked "child"
    (set_gr_state child_grant Grant_Revoked one_call 2 3) Hr _ _ (rtc_refl _ _)) 4 "u4" _ _);
    vm_compute; reflexivity.
Defined.

Definition sample_call (id : string) : instant * string * ConsumeGrantInvocationBudget :=
  (5, "u", {| cb_grant_id := id; cb_invocation_id := "i"; cb_function_id := "state::get";
              cb_trace_id := "t" |}).

Lemma budget_spent_exactly_witness :
  fst (consume_all [sample_call "child"; sample_call "child"] store1) = 1%nat.
Proof.
  refine (proj1 (budget_spent_exactly [sample_call "child"; sample_call "child"] store1 "child"
    child_grant 1 _ _ _ _ _)); try (vm_compute; reflexivity).
  - lia.
  - repeat constructor; by intros t Ht.
Defined.

(** The parent allows one invocation, the child that omits the field any number. *)
Lemma omitted_budget_is_unlimited_witness :
  fst (consume_all [sample_call "leaf"; sample_call "leaf"; sample_call "leaf"] store2) = 3%nat.
Proof.
  assert (consume_all [sample_call "leaf"; sample_call "leaf"; sample_call "leaf"] store2
          = (3%nat, store2)) as ->; [|reflexivity].
  refine (omitted_budget_is_unlimited sample_fs 2 "x" "u2" (sample_derive "leaf" "child" Null)
    store1 leaf_grant store2 _ _ _ _).
  - unfold store2. vm_compute. reflexivity.
  - reflexivity.
  - repeat constructor; by intros t Ht.
Defined.
