(* ===== verification/PolicyHash.v ===== *)
(** * Policy hashes of grants

    [authority/grants/policy_hash.rs]: the hash of the authority of a grant that a
    worker token carries, so that a token stops working when the grant behind it
    changes.  The hash is computed over the canonical JSON of the grant's policy
    with its lists sorted.  SHA-256, string literals and RFC 3339 texts are
    parameters. *)

From stdpp Require Import base gmap strings list sorting pretty.
From Stdlib Require Import ZArith Ascii String Lia.
From S2P Require Import Prelude Json CanonicalJson Kernel Model Paths Grants.
Import JsonNotations.

#[local] Open Scope Z_scope.

Definition text_le (a b : string) : Prop := str_leb a b = true.
#[global] Instance text_le_dec : RelDecision text_le.
Proof. intros a b. unfold text_le. apply _. Defined.
#[global] Instance text_le_antisymm : AntiSymm (=) text_le.
Proof. intros a b. apply str_leb_antisym. Qed.
#[global] Instance text_le_trans : Transitive text_le.
Proof. intros a b c. apply str_leb_trans. Qed.
#[global] Instance text_le_total : Total text_le.
Proof. intros a b. apply str_leb_total. Qed.

(* SRC engine/authority/grants/policy_hash.rs:73-77 sorted_strings *)
Definition sorted_strings (values : list string) : list string := merge_sort text_le values.
(* SRC engine/authority/grants/policy_hash.rs:79-84 lifecycle_as_str *)
Definition lifecycle_as_str (l : EngineGrantLifecycle) : string :=
  match l with Grant_Active => "active" | Grant_Revoked => "revoked" end.
(* SRC engine/authority/grants/policy_hash.rs:86-93 risk_as_str *)
Definition risk_as_str (r : RiskLevel) : string :=
  match r with
  | Risk_Low => "low" | Risk_Medium => "medium" | Risk_High => "high" | Risk_Critical => "critical"
  end.

Section hash.
  Variable sha256_hex : string -> string.
  Variable encode : string -> string.
  Variable rfc3339 : instant -> string.

(* SRC engine/authority/grants/policy_hash.rs:19-38! grant_policy_hash *)
Definition policy_value (g : EngineGrant) : Value :=
  j{"version" ~> jnum 1;
    "grantId" ~> gr_grant_id g;
    "parentGrantId" ~> jstr (gr_parent_grant_id g);
    "subjectActorId" ~> jstr (gr_subject_actor_id g);
    "subjectWorkerId" ~> jstr (gr_subject_worker_id g);
    "subjectInvocationId" ~> jstr (gr_subject_invocation_id g);
    "lifecycle" ~> lifecycle_as_str (gr_lifecycle g);
    "allowedCapabilities" ~> jstrs (sorted_strings (gr_allowed_capabilities g));
    "allowedNamespaces" ~> jstrs (sorted_strings (gr_allowed_namespaces g));
    "allowedAuthorityScopes" ~> jstrs (sorted_strings (gr_allowed_authority_scopes g));
    "allowedResourceKinds" ~> jstrs (sorted_strings (gr_allowed_resource_kinds g));
    "resourceSelectors" ~> jstrs (sorted_strings (gr_resource_selectors g));
    "fileRoots" ~> jstrs (sorted_strings (gr_file_roots g));
    "networkPolicy" ~> gr_network_policy g;
    "maxRisk" ~> risk_as_str (gr_max_risk g);
    "budget" ~> gr_budget g;
    "expiresAt" ~> jstr (rfc3339 <$> gr_expires_at g);
    "canDelegate" ~> VBool (gr_can_delegate g);
    "revision" ~> jnum (gr_revision g)}.

(** The file's own copy of [write_canonical_json] is the one of [CanonicalJson]. *)
(* SRC engine/authority/grants/policy_hash.rs:95-133 write_canonical_json *)
Definition policy_canonical_json : Value -> string := write_canonical_json encode.
(* SRC engine/authority/grants/policy_hash.rs:13-43 grant_policy_hash *)
Definition grant_policy_hash (g : EngineGrant) : string :=
  sha256_hex (policy_canonical_json (policy_value g)).

(** The build under consideration has no test grants. *)
(* SRC engine/authority/grants/policy_hash.rs:45-60 bootstrap_grant_policy_hash *)
Definition bootstrap_grant_policy_hash (now : instant) (grant_id : AuthorityGrantId)
  : Result string :=
  if negb (existsb (fun candidate => candidate =s grant_id) BOOTSTRAP_GRANT_IDS)
  then Err (PolicyViolation ("authority grant " +s grant_id +s " is not a bootstrap grant"))
  else Ok (grant_policy_hash (bootstrap_grant grant_id now)).
End hash.

(** ** What the hash binds *)

(** The grants give the same authority; the order of a list does not matter. *)
Record same_authority (a b : EngineGrant) : Prop := {
  sa_id : gr_grant_id a = gr_grant_id b;
  sa_parent : gr_parent_grant_id a = gr_parent_grant_id b;
  sa_actor : gr_subject_actor_id a = gr_subject_actor_id b;
  sa_worker : gr_subject_worker_id a = gr_subject_worker_id b;
  sa_invocation : gr_subject_invocation_id a = gr_subject_invocation_id b;
  sa_lifecycle : gr_lifecycle a = gr_lifecycle b;
  sa_capabilities : gr_allowed_capabilities a ≡ₚ gr_allowed_capabilities b;
  sa_namespaces : gr_allowed_namespaces a ≡ₚ gr_allowed_namespaces b;
  sa_scopes : gr_allowed_authority_scopes a ≡ₚ gr_allowed_authority_scopes b;
  sa_kinds : gr_allowed_resource_kinds a ≡ₚ gr_allowed_resource_kinds b;
  sa_selectors : gr_resource_selectors a ≡ₚ gr_resource_selectors b;
  sa_roots : gr_file_roots a ≡ₚ gr_file_roots b;
  sa_network : gr_network_policy a = gr_network_policy b;
  sa_risk : gr_max_risk a = gr_max_risk b;
  sa_budget : gr_budget a = gr_budget b;
  sa_expiry : gr_expires_at a = gr_expires_at b;
  sa_delegate : gr_can_delegate a = gr_can_delegate b;
  sa_revision : gr_revision a = gr_revision b
}.

Lemma sorted_strings_iff a b : sorted_strings a = sorted_strings b <-> a ≡ₚ b.
Proof.
  unfold sorted_strings. split.
  - intros E. by rewrite <- (merge_sort_Permutation text_le a), E, merge_sort_Permutation.
  - intros Hp. apply (StronglySorted_unique text_le); try apply (StronglySorted_merge_sort text_le).
    by rewrite !merge_sort_Permutation.
Qed.

Lemma jstrs_inj a b : jstrs a = jstrs b -> a = b.
Proof.
  unfold jstrs. intros [= E]. revert b E. induction a as [|x a IH]; intros [|y b]; try done.
  intros [= -> E]. f_equal. auto.
Qed.
Lemma jstr_inj a b : jstr a = jstr b -> a = b.
Proof. destruct a, b; try done. by intros [= ->]. Qed.
Lemma serde_jstrs l : serde_value (jstrs l) = true.
Proof. induction l as [|x l IH]; [done|]. exact IH. Qed.
Lemma serde_jstr o : serde_value (jstr o) = true.
Proof. by destruct o. Qed.

(** The policy as an object with its keys in order. *)
Definition policy_entries (rfc3339 : instant -> string) (g : EngineGrant) : list (string * Value) :=
  [("allowedAuthorityScopes", jstrs (sorted_strings (gr_allowed_authority_scopes g)));
   ("allowedCapabilities", jstrs (sorted_strings (gr_allowed_capabilities g)));
   ("allowedNamespaces", jstrs (sorted_strings (gr_allowed_namespaces g)));
   ("allowedResourceKinds", jstrs (sorted_strings (gr_allowed_resource_kinds g)));
   ("budget", gr_budget g); ("canDelegate", VBool (gr_can_delegate g));
   ("expiresAt", jstr (rfc3339 <$> gr_expires_at g));
   ("fileRoots", jstrs (sorted_strings (gr_file_roots g)));
   ("grantId", VString (gr_grant_id g)); ("lifecycle", VString (lifecycle_as_str (gr_lifecycle g)));
   ("maxRisk", VString (risk_as_str (gr_max_risk g)));
   ("networkPolicy", VString (gr_network_policy g));
   ("parentGrantId", jstr (gr_parent_grant_id g));
   ("resourceSelectors", jstrs (sorted_strings (gr_resource_selectors g)));
   ("revision", jnum (gr_revision g)); ("subjectActorId", jstr (gr_subject_actor_id g));
   ("subjectInvocationId", jstr (gr_subject_invocation_id g));
   ("subjectWorkerId", jstr (gr_subject_worker_id g)); ("version", jnum 1)].
Lemma policy_value_entries rfc3339 g : policy_value rfc3339 g = VObject (policy_entries rfc3339 g).
Proof. reflexivity. Qed.

Lemma serde_jnum z : serde_value (jnum z) = true.
Proof. unfold jnum. destruct (Z.ltb_spec z 0); simpl; lia. Qed.
Lemma jnum_inj a b : jnum a = jnum b -> a = b.
Proof. unfold jnum. destruct (_ <? 0), (_ <? 0); congruence. Qed.
Lemma lifecycle_text_inj a b :
  VString (lifecycle_as_str a) = VString (lifecycle_as_str b) -> a = b.
Proof. by destruct a, b. Qed.
Lemma risk_text_inj a b : VString (risk_as_str a) = VString (risk_as_str b) -> a = b.
Proof. by destruct a, b. Qed.
Lemma sorted_list_inj a b : jstrs (sorted_strings a) = jstrs (sorted_strings b) -> a ≡ₚ b.
Proof. intros E. by apply sorted_strings_iff, jstrs_inj. Qed.

Lemma policy_serde rfc3339 g :
  serde_value (gr_budget g) = true -> serde_value (policy_value rfc3339 g) = true.
Proof.
  intros Hb. rewrite policy_value_entries. cbn [serde_value]. apply andb_true_iff. split; [reflexivity|].
  unfold policy_entries. cbn [forallb snd].
  by rewrite !serde_jstrs, !serde_jstr, !serde_jnum, Hb.
Qed.

Section binding.
  Variable sha256_hex : string -> string.
  Variable encode : string -> string.
  Variable rfc3339 : instant -> string.
  Hypothesis literal_quote : forall s, exists t, encode s = String quote t.
  Hypothesis literal_ends : forall a b x y, encode a +s x = encode b +s y -> a = b /\ x = y.
  Hypothesis rfc3339_inj : forall a b, rfc3339 a = rfc3339 b -> a = b.

Lemma policy_value_iff a b :
  policy_value rfc3339 a = policy_value rfc3339 b <-> same_authority a b.
Proof.
  rewrite !policy_value_entries. split.
  - unfold policy_entries. intros E.
    assert (forall n, snd <$> policy_entries rfc3339 a !! n = snd <$> policy_entries rfc3339 b !! n)
      as Hn by (intros n; unfold policy_entries; congruence).
    constructor;
      [ pose proof (Hn 8%nat) as K | pose proof (Hn 12%nat) as K | pose proof (Hn 15%nat) as K
      | pose proof (Hn 17%nat) as K | pose proof (Hn 16%nat) as K | pose proof (Hn 9%nat) as K
      | pose proof (Hn 1%nat) as K | pose proof (Hn 2%nat) as K | pose proof (Hn 0%nat) as K
      | pose proof (Hn 3%nat) as K | pose proof (Hn 13%nat) as K | pose proof (Hn 7%nat) as K
      | pose proof (Hn 11%nat) as K | pose proof (Hn 10%nat) as K | pose proof (Hn 4%nat) as K
      | pose proof (Hn 6%nat) as K | pose proof (Hn 5%nat) as K | pose proof (Hn 14%nat) as K ];
      apply (inj Some) in K;
      auto using jstr_inj, jnum_inj, sorted_list_inj, lifecycle_text_inj, risk_text_inj;
      try congruence.
    apply jstr_inj in K. destruct (gr_expires_at a), (gr_expires_at b); try done.
    f_equal. apply rfc3339_inj. by injection K.
  - intros [H1 H2 H3 H4 H5 H6 H7 H8 H9 H10 H11 H12 H13 H14 H15 H16 H17 H18].
    apply sorted_strings_iff in H7, H8, H9, H10, H11, H12. unfold policy_entries.
    by rewrite H1, H2, H3, H4, H5, H6, H7, H8, H9, H10, H11, H12, H13, H14, H15, H16, H17, H18.
Qed.

(** Two grants have the same policy hash exactly when they give the same authority:
    same identity, lineage, subjects, lifecycle, revision, limits and flags, and the same
    lists up to order (given that their canonical texts do not collide under SHA-256, that
    string literals are self-delimiting and RFC 3339 texts determine the instant). *)
Theorem policy_hash_binds_authority a b :
  serde_value (gr_budget a) = true -> serde_value (gr_budget b) = true ->
  let text g := policy_canonical_json encode (policy_value rfc3339 g) in
  (sha256_hex (text a) = sha256_hex (text b) -> text a = text b) ->
  grant_policy_hash sha256_hex encode rfc3339 a = grant_policy_hash sha256_hex encode rfc3339 b
  <-> same_authority a b.
Proof.
  intros Ha Hb text Hsha. rewrite <- policy_value_iff. unfold grant_policy_hash. split.
  - intros E%Hsha. by apply (canonical_json_injective encode literal_quote literal_ends) in E;
      [|apply policy_serde..].
  - by intros ->.
Qed.
End binding.

(** A bootstrap grant with these capabilities. *)
Definition sample_policy_grant (capabilities : list string) : EngineGrant :=
  let g := bootstrap_grant "engine-system" 0 in
  {| gr_grant_id := gr_grant_id g; gr_parent_grant_id := None; gr_subject_actor_id := None;
     gr_subject_worker_id := None; gr_subject_invocation_id := None; gr_lifecycle := Grant_Active;
     gr_allowed_capabilities := capabilities; gr_allowed_namespaces := ["engine"];
     gr_allowed_authority_scopes := []; gr_allowed_resource_kinds := [];
     gr_resource_selectors := []; gr_file_roots := []; gr_network_policy := "none";
     gr_max_risk := Risk_Low; gr_budget := Null; gr_expires_at := Some 7; gr_can_delegate := false;
     gr_provenance := Null; gr_trace_id := "t"; gr_revision := 1; gr_created_at := 0;
     gr_updated_at := 0 |}.
Definition sample_hash : EngineGrant -> string :=
  grant_policy_hash (fun s => s) marked_literal pretty.

(** Reordering the capabilities keeps the hash; revoking the grant changes it. *)
Lemma policy_hash_binds_authority_witness :
  let g := sample_policy_grant ["b::write"; "a::read"] in
  sample_hash g = sample_hash (sample_policy_grant ["a::read"; "b::write"]) /\
  sample_hash g <> sample_hash (set_gr_state g Grant_Revoked Null 2 1).
Proof.
  intros g. split.
  - apply (policy_hash_binds_authority (fun s => s) marked_literal pretty marked_literal_quote
      marked_literal_ends (fun a b E => inj pretty a b E)); try done.
    constructor; try done. apply Permutation_swap.
  - intros E. apply (policy_hash_binds_authority (fun s => s) marked_literal pretty
      marked_literal_quote marked_literal_ends (fun a b E => inj pretty a b E)) in E; try done.
    by destruct E.
Defined.
