(* ===== verification/Authorization.v ===== *)
(** * Authorization of an invocation by its grant

    [authority/grants/authorization.rs]: what an invocation asks for (authority
    scopes, resource kinds and ids, file paths, all read from its function and
    payload) and the checks [authorize_with_grant] makes of it against a grant.
    A [match] on the operation name of [capability::execute] is a table of
    operation names and results, read in order by [first_arm].  SHA-256 (as hex)
    and the [{:?}] rendering of strings are parameters. *)

From stdpp Require Import base gmap strings list.
From Stdlib Require Import ZArith Ascii String Lia.
From S2P Require Import Prelude Json Kernel Model Policy Paths Grants.

#[local] Open Scope Z_scope.

(** ** What an invocation asks for *)

(** [invocation.payload.get(field).and_then(Value::as_str)] *)
Definition payload_str (invocation : Invocation) (field : string) : option string :=
  vget (inv_payload invocation) field ≫= as_str.
Definition operation (invocation : Invocation) : option string := payload_str invocation "operation".
Definition is_capability_execute (invocation : Invocation) : bool :=
  inv_function_id invocation =s "capability::execute".
(** [matches!(operation, Some("a" | "b" | ...))] *)
Definition operation_is (invocation : Invocation) (names : list string) : bool :=
  match operation invocation with Some op => list_has names op | None => false end.

(** The first arm of a [match] on the operation whose pattern has it. *)
Fixpoint first_arm (op : option string) (arms : list (list string * list string)) : list string :=
  match op, arms with
  | Some name, (names, result) :: rest =>
      if list_has names name then result else first_arm op rest
  | _, _ => []
  end.

(* SRC engine/authority/grants/authorization.rs:1690-1694 push_unique *)
Definition push_unique (kinds : list string) (kind : string) : list string :=
  if list_has kinds kind then kinds else kinds ++ [kind].
(** A sequence of [push_unique] on a new vector. *)
Definition push_all (kinds : list string) : list string := fold_left push_unique kinds [].

(* SRC engine/authority/grants/authorization.rs:1246-1252 is_module_registry_invocation *)
Definition is_module_registry_invocation (invocation : Invocation) : bool :=
  is_capability_execute invocation
  && operation_is invocation ["module_list"; "module_inspect"].

(* SRC engine/authority/grants/authorization.rs:1254-1260 is_module_authoring_invocation *)
Definition is_module_authoring_invocation (invocation : Invocation) : bool :=
  is_capability_execute invocation
  && operation_is invocation ["module_proposal_record"; "module_proposal_list";
        "module_proposal_inspect"].

(* SRC engine/authority/grants/authorization.rs:1262-1270 is_module_validation_invocation *)
Definition is_module_validation_invocation (invocation : Invocation) : bool :=
  is_capability_execute invocation
  && operation_is invocation ["module_validation_record"; "module_validation_list";
        "module_validation_inspect"].

(* SRC engine/authority/grants/authorization.rs:1272-1285 is_module_install_invocation *)
Definition is_module_install_invocation (invocation : Invocation) : bool :=
  is_capability_execute invocation
  && operation_is invocation ["module_install_request_record"; "module_install_request_list";
        "module_install_request_inspect"; "module_install_decision_record";
        "module_install_decision_list"; "module_install_decision_inspect"].

(* SRC engine/authority/grants/authorization.rs:1287-1303 is_module_dependencies_invocation *)
Definition is_module_dependencies_invocation (invocation : Invocation) : bool :=
  is_capability_execute invocation
  && operation_is invocation ["module_dependency_request_record";
        "module_dependency_request_list"; "module_dependency_request_inspect";
        "module_dependency_decision_record"; "module_dependency_decision_list";
        "module_dependency_decision_inspect"; "module_dependency_policy_activate";
        "module_dependency_policy_list"; "module_dependency_policy_inspect"].

(* SRC engine/authority/grants/authorization.rs:1305-1321 is_web_research_invocation *)
Definition is_web_research_invocation (invocation : Invocation) : bool :=
  is_capability_execute invocation
  && operation_is invocation ["web_research_request_record"; "web_research_request_list";
        "web_research_request_inspect"; "web_research_review_record"; "web_research_review_list";
        "web_research_review_inspect"; "web_research_source_record"; "web_research_source_list";
        "web_research_source_inspect"].

(* SRC engine/authority/grants/authorization.rs:1323-1334 is_module_lifecycle_invocation *)
Definition is_module_lifecycle_invocation (invocation : Invocation) : bool :=
  is_capability_execute invocation
  && operation_is invocation ["module_lifecycle_request"; "module_lifecycle_decision";
        "module_lifecycle_list"; "module_lifecycle_inspect"].

(* SRC engine/authority/grants/authorization.rs:1336-1347 is_module_runtime_invocation *)
Definition is_module_runtime_invocation (invocation : Invocation) : bool :=
  is_capability_execute invocation
  && operation_is invocation ["module_runtime_request"; "module_runtime_list";
        "module_runtime_inspect"; "module_runtime_cancel"].

(* SRC engine/authority/grants/authorization.rs:1349-1361 is_context_control_invocation *)
Definition is_context_control_invocation (invocation : Invocation) : bool :=
  is_capability_execute invocation
  && operation_is invocation ["context_control_snapshot"; "context_control_compact";
        "context_control_clear"; "context_control_action_list"; "context_control_action_inspect"].

(* SRC engine/authority/grants/authorization.rs:1363-1374 is_module_program_execution_invocation *)
Definition is_module_program_execution_invocation (invocation : Invocation) : bool :=
  is_capability_execute invocation
  && operation_is invocation ["module_program_execution_start";
        "module_program_execution_status"; "module_program_execution_cancel";
        "module_program_execution_cleanup"].

(* SRC engine/authority/grants/authorization.rs:1376-1392 is_procedural_module_invocation *)
Definition is_procedural_module_invocation (invocation : Invocation) : bool :=
  is_capability_execute invocation
  && operation_is invocation ["procedural_definition_record"; "procedural_state_list";
        "procedural_state_inspect"; "procedural_activation_request_record";
        "procedural_activation_request_list"; "procedural_activation_request_inspect";
        "procedural_activation_decision_record"; "procedural_activation_decision_list";
        "procedural_activation_decision_inspect"].

(* SRC engine/authority/grants/authorization.rs:1394-1400 is_delegated_subagent_invocation *)
Definition is_delegated_subagent_invocation (invocation : Invocation) : bool :=
  is_capability_execute invocation
  && operation_is invocation ["subagent_launch"; "subagent_status"; "subagent_result";
        "subagent_cancel"].

(* SRC engine/authority/grants/authorization.rs:1402-1408 is_jobs_invocation *)
Definition is_jobs_invocation (invocation : Invocation) : bool :=
  is_capability_execute invocation
  && operation_is invocation ["job_start"; "job_status"; "job_list"; "job_log"; "job_cancel"].

(* SRC engine/authority/grants/authorization.rs:1419-1433 is_memory_module_invocation *)
Definition is_memory_module_invocation (invocation : Invocation) : bool :=
  is_capability_execute invocation
  && operation_is invocation ["memory_status"; "memory_list"; "memory_inspect";
        "memory_query_list"; "memory_query_inspect"; "memory_decision_list";
        "memory_decision_inspect"].

(* SRC engine/authority/grants/authorization.rs:1435-1455 is_file_git_module_operation *)
Definition is_file_git_module_operation (op : string) : bool :=
  list_has
  ["filesystem_read"; "filesystem_list"; "filesystem_find"; "filesystem_glob";
      "filesystem_search_text"; "filesystem_diff"; "filesystem_write"; "filesystem_edit";
      "filesystem_apply_patch"; "git_status"; "git_diff"; "git_branch_inventory"; "git_stage";
      "git_unstage"; "git_commit"; "git_branch_start"] op.

(* SRC engine/authority/grants/authorization.rs:1410-1417 is_file_git_module_invocation *)
Definition is_file_git_module_invocation (invocation : Invocation) : bool :=
  is_capability_execute invocation
  && match operation invocation with
     | Some op => is_file_git_module_operation op | None => false end.

(* SRC engine/authority/grants/authorization.rs:1457-1471 worker_package_list_kind *)
Definition worker_package_list_kind (invocation : Invocation) : option string :=
  let kind := default "worker_package" (payload_str invocation "workerPackageKind") in
  if kind =s "worker_package" then Some "worker_package"
  else if kind =s "worker_package_installation" then Some "worker_package_installation"
  else if kind =s "worker_package_proposal" then Some "worker_package_proposal"
  else if kind =s "worker_package_conformance_report"
  then Some "worker_package_conformance_report"
  else if kind =s "worker_launch_attempt" then Some "worker_launch_attempt"
  else None.

(* SRC engine/authority/grants/authorization.rs:1473-1491 worker_package_inspect_kind *)
Definition worker_package_inspect_kind (invocation : Invocation) : option string :=
  match payload_str invocation "workerPackageResourceId" with
  | None => None
  | Some resource_id =>
      if starts_with resource_id "worker_package_installation:"
      then Some "worker_package_installation"
      else if starts_with resource_id "worker_package_proposal:"
      then Some "worker_package_proposal"
      else if starts_with resource_id "worker_package_conformance_report:"
      then Some "worker_package_conformance_report"
      else if starts_with resource_id "worker_launch_attempt:"
      then Some "worker_launch_attempt"
      else if starts_with resource_id "worker_package:" then Some "worker_package"
      else None
  end.

(* SRC engine/authority/grants/authorization.rs:1493-1504 web_fetch_uses_robots_policy *)
Definition web_fetch_uses_robots_policy (invocation : Invocation) : bool :=
  let present field :=
    match payload_str invocation field with Some v => negb (is_blank v) | None => false end in
  present "webRobotsPolicyResourceId" && present "expectedWebRobotsPolicyVersionId".

(* SRC engine/authority/grants/authorization.rs:1675-1688 wrapper_resource_kind *)
Definition wrapper_resource_kind (function_id : string) : option string :=
  if starts_with function_id "artifact::" then Some "artifact"
  else if starts_with function_id "goal::" then Some "goal"
  else if starts_with function_id "claim::" then Some "claim"
  else if starts_with function_id "evidence::" then Some "evidence"
  else if starts_with function_id "decision::" then Some "decision"
  else if starts_with function_id "materialized_file::" then Some "materialized_file"
  else if starts_with function_id "patch::" then Some "patch_proposal"
  else if starts_with function_id "ui::" then Some "ui_surface"
  else if starts_with function_id "jobs::" then Some "job_process"
  else None.

(* SRC engine/authority/grants/authorization.rs:690-1024 authority_scopes_from_invocation *)
Definition authority_scopes_from_invocation (invocation : Invocation) : list string :=
  if negb (is_capability_execute invocation) then [] else
  push_all (first_arm (operation invocation)
    [(["job_start"], ["jobs.write"; "resource.write"]);
     (["job_status"; "job_list"; "job_log"], ["jobs.read"; "resource.read"]);
     (["job_cancel"], ["jobs.read"; "jobs.write"; "resource.read"; "resource.write"]);
     (["goal_create"; "goal_cancel"; "question_create"; "question_answer"], ["goals.write"]);
     (["goal_list"; "goal_inspect"; "question_list"; "question_inspect"], ["goals.read"]);
     (["web_fetch"], ["resource.write"; "web.write"]
        ++ if web_fetch_uses_robots_policy invocation then ["resource.read"; "web.read"] else []);
     (["web_robots_check"], ["resource.read"; "resource.write"; "web.write"]);
     (["web_source_list"; "web_source_inspect"], ["resource.read"; "web.read"]);
     (["web_source_archive"], ["resource.read"; "resource.write"; "web.read"; "web.write"]);
     (["media_list"; "media_inspect"], ["media.read"; "resource.read"]);
     (["media_create"; "media_archive"], ["media.read"; "media.write"; "resource.read";
        "resource.write"]);
     (["import_history_list"; "import_history_inspect"], ["import_history.read";
        "resource.read"]);
     (["import_history_record"], ["import_history.read"; "import_history.write"; "resource.read";
        "resource.write"]);
     (["repository_tree_list"; "repository_tree_inspect"], ["repository_tree.read";
        "resource.read"]);
     (["repository_tree_snapshot"], ["repository_tree.read"; "repository_tree.write";
        "resource.read"; "resource.write"]);
     (["import_preview_list"; "import_preview_inspect"], ["import_preview.read";
        "resource.read"]);
     (["import_preview_record"], ["import_preview.read"; "import_preview.write"; "resource.read";
        "resource.write"]);
     (["program_execution_list"; "program_execution_inspect"], ["program_execution.read";
        "resource.read"]);
     (["program_execution_record"], ["program_execution.read"; "program_execution.write";
        "resource.read"; "resource.write"]);
     (["prompt_artifact_list"; "prompt_artifact_inspect"], ["prompt_artifacts.read";
        "resource.read"]);
     (["prompt_artifact_record"], ["prompt_artifacts.read"; "prompt_artifacts.write";
        "resource.read"; "resource.write"]);
     (["update_diagnostic_list"; "update_diagnostic_inspect"], ["update_diagnostics.read";
        "resource.read"]);
     (["update_diagnostic_record"], ["update_diagnostics.read"; "update_diagnostics.write";
        "resource.read"; "resource.write"]);
     (["memory_status"; "memory_list"; "memory_inspect"], ["memory.read"; "resource.read"]);
     (["memory_query_list"; "memory_query_inspect"; "memory_decision_list";
        "memory_decision_inspect"], ["memory.read"; "resource.read"]);
     (["worker_package_list"; "worker_package_inspect"], ["worker.lifecycle.read";
        "resource.read"]);
     (["module_list"; "module_inspect"], ["module_registry.read"; "resource.read"]);
     (["module_proposal_list"; "module_proposal_inspect"], ["module_authoring.read";
        "resource.read"]);
     (["module_proposal_record"], ["module_authoring.read"; "module_authoring.write";
        "resource.read"; "resource.write"]);
     (["module_validation_list"; "module_validation_inspect"], ["module_validation.read";
        "resource.read"]);
     (["module_validation_record"], ["module_validation.read"; "module_validation.write";
        "resource.read"; "resource.write"]);
     (["module_install_request_list"; "module_install_request_inspect";
        "module_install_decision_list"; "module_install_decision_inspect"],
        ["module_install.read"; "resource.read"]);
     (["module_install_request_record"; "module_install_decision_record"],
        ["module_install.read"; "module_install.write"; "resource.read"; "resource.write"]);
     (["module_dependency_request_list"; "module_dependency_request_inspect";
        "module_dependency_decision_list"; "module_dependency_decision_inspect";
        "module_dependency_policy_list"; "module_dependency_policy_inspect"],
        ["module_dependencies.read"; "resource.read"]);
     (["module_dependency_request_record"; "module_dependency_decision_record";
        "module_dependency_policy_activate"], ["module_dependencies.read";
        "module_dependencies.write"; "resource.read"; "resource.write"]);
     (["web_research_request_list"; "web_research_request_inspect"; "web_research_review_list";
        "web_research_review_inspect"; "web_research_source_list";
        "web_research_source_inspect"], ["web_research.read"; "resource.read"]);
     (["web_research_request_record"; "web_research_review_record";
        "web_research_source_record"], ["web_research.read"; "web_research.write";
        "resource.read"; "resource.write"]);
     (["module_lifecycle_list"; "module_lifecycle_inspect"], ["module_lifecycle.read";
        "resource.read"]);
     (["module_lifecycle_request"; "module_lifecycle_decision"], ["module_lifecycle.read";
        "module_lifecycle.write"; "resource.read"; "resource.write"]);
     (["module_runtime_list"; "module_runtime_inspect"], ["module_runtime.read";
        "resource.read"]);
     (["module_runtime_request"; "module_runtime_cancel"], ["module_runtime.read";
        "module_runtime.write"; "resource.read"; "resource.write"]);
     (["context_control_action_list"; "context_control_action_inspect"], ["context_control.read";
        "resource.read"]);
     (["context_control_snapshot"; "context_control_compact"; "context_control_clear"],
        ["context_control.read"; "context_control.write"; "resource.read"; "resource.write"]);
     (["module_program_execution_start"], ["module_runtime.read"; "module_runtime.write";
        "program_execution.read"; "program_execution.write"; "jobs.read"; "jobs.write";
        "resource.read"; "resource.write"]);
     (["module_program_execution_status"], ["module_runtime.read"; "program_execution.read";
        "jobs.read"; "resource.read"]);
     (["module_program_execution_cancel"; "module_program_execution_cleanup"],
        ["module_runtime.read"; "module_runtime.write"; "program_execution.read"; "jobs.read";
        "jobs.write"; "resource.read"; "resource.write"]);
     (["filesystem_read"; "filesystem_list"; "filesystem_find"; "filesystem_glob";
        "filesystem_search_text"; "filesystem_diff"], ["filesystem.read"; "resource.read"]);
     (["filesystem_write"; "filesystem_edit"; "filesystem_apply_patch"], ["filesystem.read";
        "filesystem.write"; "resource.read"; "resource.write"]);
     (["git_status"; "git_diff"; "git_branch_inventory"], ["git.read"; "resource.read"]);
     (["git_stage"; "git_unstage"; "git_commit"; "git_branch_start"], ["git.read"; "git.write";
        "resource.write"]);
     (["procedural_state_list"; "procedural_state_inspect"; "procedural_activation_request_list";
        "procedural_activation_request_inspect"; "procedural_activation_decision_list";
        "procedural_activation_decision_inspect"], ["procedural.read"; "resource.read"]);
     (["procedural_definition_record"; "procedural_activation_request_record";
        "procedural_activation_decision_record"], ["procedural.read"; "procedural.write";
        "resource.read"; "resource.write"]);
     (["subagent_status"; "subagent_result"; "subagent_task_list"; "subagent_task_inspect"],
        ["subagents.read"; "resource.read"]);
     (["subagent_launch"; "subagent_cancel"], ["subagents.read"; "subagents.write";
        "resource.read"; "resource.write"])]).

(* SRC engine/authority/grants/authorization.rs:1054-1244 capability_execute_resource_kinds *)
Definition capability_execute_resource_kinds (invocation : Invocation) : list string :=
  first_arm (operation invocation)
    [(["job_start"; "job_status"; "job_list"; "job_log"; "job_cancel"], ["job_process";
        "execution_output"]);
     (["goal_create"; "goal_list"; "goal_inspect"; "goal_cancel"], ["goal"]);
     (["question_create"],
        if is_some (vget (inv_payload invocation) "goalResourceId")
        then ["goal"; "user_question"] else ["user_question"]);
     (["question_list"; "question_inspect"], ["user_question"]);
     (["question_answer"], ["user_question"; "goal_answer"]);
     (["web_fetch"],
        if web_fetch_uses_robots_policy invocation
        then ["web_source"; "web_robots_policy"] else ["web_source"]);
     (["web_source_list"; "web_source_inspect"; "web_source_archive"], ["web_source"]);
     (["media_create"; "media_list"; "media_inspect"; "media_archive"], ["media_artifact"]);
     (["import_history_record"; "import_history_list"; "import_history_inspect"],
        ["import_history_record"]);
     (["repository_tree_snapshot"; "repository_tree_list"; "repository_tree_inspect"],
        ["repository_tree_snapshot"]);
     (["import_preview_record"; "import_preview_list"; "import_preview_inspect"],
        ["import_preview"]);
     (["program_execution_record"; "program_execution_list"; "program_execution_inspect"],
        ["program_execution_record"]);
     (["prompt_artifact_record"; "prompt_artifact_list"; "prompt_artifact_inspect"],
        ["prompt_artifact"]);
     (["update_diagnostic_record"; "update_diagnostic_list"; "update_diagnostic_inspect"],
        ["update_diagnostic_record"]);
     (["memory_status"], ["memory_policy"; "memory_engine"]);
     (["memory_list"; "memory_inspect"], ["memory_record"]);
     (["memory_query_list"; "memory_query_inspect"], ["memory_query"]);
     (["memory_decision_list"; "memory_decision_inspect"], ["memory_decision"]);
     (["web_robots_check"], ["web_robots_policy"]);
     (["worker_package_list"],
        [default "worker_package" (worker_package_list_kind invocation)]);
     (["worker_package_inspect"],
        match worker_package_inspect_kind invocation with Some kind => [kind] | None => [] end);
     (["module_list"; "module_inspect"], ["module_manifest"]);
     (["module_proposal_record"; "module_proposal_list"; "module_proposal_inspect"],
        ["module_proposal"]);
     (["module_validation_record"; "module_validation_list"; "module_validation_inspect"],
        ["module_validation_report"]);
     (["module_install_request_record"; "module_install_request_list";
        "module_install_request_inspect"; "module_install_decision_record";
        "module_install_decision_list"; "module_install_decision_inspect"],
        ["module_install_request"; "module_install_decision"]);
     (["module_dependency_request_record"; "module_dependency_request_list";
        "module_dependency_request_inspect"; "module_dependency_decision_record";
        "module_dependency_decision_list"; "module_dependency_decision_inspect";
        "module_dependency_policy_activate"; "module_dependency_policy_list";
        "module_dependency_policy_inspect"], ["module_dependency_request";
        "module_dependency_decision"; "module_dependency_policy"]);
     (["web_research_request_record"; "web_research_request_list";
        "web_research_request_inspect"; "web_research_review_record"; "web_research_review_list";
        "web_research_review_inspect"; "web_research_source_record"; "web_research_source_list";
        "web_research_source_inspect"], ["web_research_request"; "web_research_review";
        "web_research_source"]);
     (["module_lifecycle_request"; "module_lifecycle_decision"; "module_lifecycle_list";
        "module_lifecycle_inspect"], ["module_lifecycle_state"]);
     (["module_runtime_request"], ["module_runtime_state"; "module_lifecycle_state"]);
     (["module_runtime_list"; "module_runtime_inspect"; "module_runtime_cancel"],
        ["module_runtime_state"]);
     (["context_control_snapshot"; "context_control_compact"; "context_control_clear";
        "context_control_action_list"; "context_control_action_inspect"],
        ["context_control_snapshot"; "context_control_action"; "context_control_epoch"]);
     (["module_program_execution_start"], ["module_runtime_state"; "module_lifecycle_state";
        "program_execution_record"; "job_process"; "execution_output"]);
     (["module_program_execution_status"; "module_program_execution_cancel";
        "module_program_execution_cleanup"], ["module_runtime_state"; "program_execution_record";
        "job_process"; "execution_output"]);
     (["filesystem_read"; "filesystem_list"; "filesystem_find"; "filesystem_glob";
        "filesystem_search_text"; "filesystem_diff"], ["materialized_file"]);
     (["filesystem_write"; "filesystem_edit"; "filesystem_apply_patch"], ["patch_proposal";
        "materialized_file"]);
     (["git_status"; "git_diff"; "git_branch_inventory"], ["git_index_change"; "git_commit";
        "git_branch_start"]);
     (["git_stage"; "git_unstage"], ["git_index_change"]);
     (["git_commit"], ["git_commit"]);
     (["git_branch_start"], ["git_branch_start"]);
     (["subagent_launch"; "subagent_status"; "subagent_result"; "subagent_cancel";
        "subagent_task_list"; "subagent_task_inspect"], ["subagent_task"]);
     (["procedural_definition_record"; "procedural_state_list"; "procedural_state_inspect"],
        ["procedural_record"]);
     (["procedural_activation_request_record"; "procedural_activation_request_list";
        "procedural_activation_request_inspect"], ["procedural_record";
        "procedural_activation_request"]);
     (["procedural_activation_decision_record"; "procedural_activation_decision_list";
        "procedural_activation_decision_inspect"], ["procedural_record";
        "procedural_activation_request"; "procedural_activation_decision"])].

(* SRC engine/authority/grants/authorization.rs:1026-1052 resource_kinds_from_invocation *)
Definition resource_kinds_from_invocation (invocation : Invocation) : list string :=
  let id := inv_function_id invocation in
  if is_capability_execute invocation
  then push_all (capability_execute_resource_kinds invocation)
  else if list_has ["resource::create"; "artifact::create"; "goal::create"; "claim::attach";
                    "evidence::attach"; "decision::create"] id
  then match payload_str invocation "kind" with
       | Some kind => push_all [kind]
       | None => match wrapper_resource_kind id with Some kind => push_all [kind] | None => [] end
       end
  else match wrapper_resource_kind id with Some kind => push_all [kind] | None => [] end.

(* SRC engine/authority/grants/authorization.rs:1506-1578 created_resource_kinds_from_invocation *)
Definition created_resource_kinds_from_invocation (invocation : Invocation) : list string :=
  if negb (is_capability_execute invocation) then [] else
  push_all (first_arm (operation invocation)
    [(["job_start"], ["job_process"; "execution_output"]);
     (["goal_create"], ["goal"]);
     (["question_create"], ["user_question"]);
     (["question_answer"], ["goal_answer"]);
     (["web_fetch"], ["web_source"]);
     (["web_robots_check"], ["web_robots_policy"]);
     (["media_create"], ["media_artifact"]);
     (["import_history_record"], ["import_history_record"]);
     (["repository_tree_snapshot"], ["repository_tree_snapshot"]);
     (["import_preview_record"], ["import_preview"]);
     (["program_execution_record"], ["program_execution_record"]);
     (["prompt_artifact_record"], ["prompt_artifact"]);
     (["update_diagnostic_record"], ["update_diagnostic_record"]);
     (["module_validation_record"], ["module_validation_report"]);
     (["module_install_request_record"], ["module_install_request"]);
     (["module_install_decision_record"], ["module_install_decision"]);
     (["module_dependency_request_record"], ["module_dependency_request"]);
     (["module_dependency_decision_record"], ["module_dependency_decision"]);
     (["module_dependency_policy_activate"], ["module_dependency_policy"]);
     (["module_lifecycle_request"], ["module_lifecycle_state"]);
     (["module_runtime_request"], ["module_runtime_state"]);
     (["context_control_snapshot"], ["context_control_snapshot"]);
     (["context_control_compact"], ["context_control_snapshot"; "context_control_action"]);
     (["context_control_clear"], ["context_control_snapshot"; "context_control_action";
        "context_control_epoch"]);
     (["module_program_execution_start"], ["module_runtime_state"; "program_execution_record";
        "job_process"; "execution_output"]);
     (["procedural_definition_record"], ["procedural_record"]);
     (["procedural_activation_request_record"], ["procedural_activation_request"]);
     (["procedural_activation_decision_record"], ["procedural_activation_decision"]);
     (["filesystem_write"; "filesystem_edit"; "filesystem_apply_patch"], ["patch_proposal";
        "materialized_file"]);
     (["git_stage"; "git_unstage"], ["git_index_change"]);
     (["git_commit"], ["git_commit"]);
     (["git_branch_start"], ["git_branch_start"]);
     (["subagent_launch"], ["subagent_task"])]).

(* SRC engine/authority/grants/authorization.rs:638-673! resource_ids_from_invocation *)
Definition RESOURCE_ID_FIELDS : list string :=
  ["resourceId"; "sourceResourceId"; "targetResourceId"; "goalResourceId"; "questionResourceId";
      "answerResourceId"; "mediaResourceId"; "importHistoryResourceId";
      "repositoryTreeResourceId"; "importPreviewResourceId"; "programExecutionResourceId";
      "promptArtifactResourceId"; "updateDiagnosticResourceId"; "recordResourceId";
      "queryResourceId"; "decisionResourceId"; "contextControlActionResourceId";
      "moduleManifestResourceId"; "moduleProposalResourceId"; "moduleValidationReportResourceId";
      "moduleInstallRequestResourceId"; "moduleInstallDecisionResourceId";
      "moduleDependencyRequestResourceId"; "moduleDependencyDecisionResourceId";
      "moduleDependencyPolicyResourceId"; "webResearchRequestResourceId";
      "webResearchReviewResourceId"; "webResearchSourceResourceId"; "moduleLifecycleResourceId";
      "moduleRuntimeResourceId"; "proceduralRecordResourceId";
      "proceduralActivationRequestResourceId"; "proceduralActivationDecisionResourceId"].

(* SRC engine/authority/grants/authorization.rs:637-688 resource_ids_from_invocation *)
Definition resource_ids_from_invocation (invocation : Invocation) : list string :=
  omap (payload_str invocation) RESOURCE_ID_FIELDS
  ++ (if is_delegated_subagent_invocation invocation
      then match payload_str invocation "subagentTaskResourceId" with
           | Some id => [id] | None => [] end
      else []).

(* SRC engine/authority/grants/authorization.rs:1630-1660 capability_execute_requires_working_directory *)
Definition capability_execute_requires_working_directory (invocation : Invocation) : bool :=
  is_capability_execute invocation
  && operation_is invocation
  ["filesystem_read"; "filesystem_list"; "filesystem_find"; "filesystem_glob";
      "filesystem_search_text"; "filesystem_diff"; "filesystem_write"; "filesystem_edit";
      "filesystem_apply_patch"; "git_status"; "git_diff"; "git_branch_inventory"; "git_stage";
      "git_unstage"; "git_commit"; "git_branch_start"; "process_run"; "job_start";
      "module_program_execution_start"].

(** ** Checks of a grant *)

(* SRC engine/authority/grants/authorization.rs:3434-3436 allows_item *)
Definition allows_item (allowed : list string) (value : string) : bool :=
  existsb (fun item => (item =s "*") || (item =s value)) allowed.

(* SRC engine/authority/grants/authorization.rs:3429-3432 allows_function *)
Definition allows_function (grant : EngineGrant) (function_id : FunctionId) : bool :=
  allows_item (gr_allowed_capabilities grant) function_id
  || allows_item (gr_allowed_namespaces grant) (function_namespace function_id).

(* SRC engine/authority/grants/authorization.rs:629-635 allows_resource_id *)
Definition allows_resource_id (grant : EngineGrant) (resource_id : string) : bool :=
  allows_item (gr_resource_selectors grant) resource_id
  || allows_item (gr_resource_selectors grant) ("resource:" +s resource_id).

(* SRC engine/authority/grants/authorization.rs:149-164 ensure_budget_available *)
Definition ensure_budget_available (grant : EngineGrant) : Result unit :=
  try_each (fun field =>
    match vget (gr_budget grant) field ≫= as_u64 with
    | Some remaining =>
        if remaining =? 0
        then policy_error ("authority grant " +s gr_grant_id grant +s " budget " +s field
                           +s " is exhausted")
        else Ok tt
    | None => Ok tt
    end) ["remainingTokens"; "remainingProcessMs"].

(** The labelled lists a privileged operation must find free of wildcards. *)
Definition grant_item_lists (grant : EngineGrant) : list (string * list string) :=
  [("authority scopes", gr_allowed_authority_scopes grant);
   ("resource kinds", gr_allowed_resource_kinds grant);
   ("resource selectors", gr_resource_selectors grant)].
Definition ensure_no_wildcards (grant : EngineGrant) (lists : list (string * list string))
    (label : string) : Result unit :=
  try_each (fun '(item_label, items) =>
    if list_has items "*"
    then policy_error ("authority grant " +s gr_grant_id grant +s " cannot use wildcard "
                       +s item_label +s " for " +s label)
    else Ok tt) lists.

(* SRC engine/authority/grants/authorization.rs:531-548 ensure_no_wildcard_grant_items *)
Definition ensure_no_wildcard_grant_items (grant : EngineGrant) (label : string) : Result unit :=
  ensure_no_wildcards grant (grant_item_lists grant) label.

(* SRC engine/authority/grants/authorization.rs:166-183 ensure_module_registry_grant_is_explicit *)
Definition ensure_module_registry_grant_is_explicit (grant : EngineGrant) : Result unit :=
  ensure_no_wildcards grant (grant_item_lists grant) "module registry reads".

(* SRC engine/authority/grants/authorization.rs:185-202 ensure_module_authoring_grant_is_explicit *)
Definition ensure_module_authoring_grant_is_explicit (grant : EngineGrant) : Result unit :=
  ensure_no_wildcards grant (grant_item_lists grant) "module proposal operations".

(* SRC engine/authority/grants/authorization.rs:204-221 ensure_module_validation_grant_is_explicit *)
Definition ensure_module_validation_grant_is_explicit (grant : EngineGrant) : Result unit :=
  ensure_no_wildcards grant (grant_item_lists grant) "module validation operations".

(* SRC engine/authority/grants/authorization.rs:223-240 ensure_module_install_grant_is_explicit *)
Definition ensure_module_install_grant_is_explicit (grant : EngineGrant) : Result unit :=
  ensure_no_wildcards grant (grant_item_lists grant) "module install operations".

(* SRC engine/authority/grants/authorization.rs:242-259 ensure_module_dependencies_grant_is_explicit *)
Definition ensure_module_dependencies_grant_is_explicit (grant : EngineGrant) : Result unit :=
  ensure_no_wildcards grant (grant_item_lists grant) "module dependency operations".

(* SRC engine/authority/grants/authorization.rs:261-278 ensure_web_research_grant_is_explicit *)
Definition ensure_web_research_grant_is_explicit (grant : EngineGrant) : Result unit :=
  ensure_no_wildcards grant (grant_item_lists grant) "web research operations".

(* SRC engine/authority/grants/authorization.rs:280-297 ensure_module_lifecycle_grant_is_explicit *)
Definition ensure_module_lifecycle_grant_is_explicit (grant : EngineGrant) : Result unit :=
  ensure_no_wildcards grant (grant_item_lists grant) "module lifecycle operations".

(* SRC engine/authority/grants/authorization.rs:299-316 ensure_module_runtime_grant_is_explicit *)
Definition ensure_module_runtime_grant_is_explicit (grant : EngineGrant) : Result unit :=
  ensure_no_wildcards grant (grant_item_lists grant) "module runtime operations".

(* SRC engine/authority/grants/authorization.rs:318-336 ensure_file_git_module_grant_is_explicit *)
Definition ensure_file_git_module_grant_is_explicit (grant : EngineGrant) : Result unit :=
  ensure_no_wildcards grant (grant_item_lists grant ++ [("file roots", gr_file_roots grant)]) "file/git module-pack operations".

(* SRC engine/authority/grants/authorization.rs:550-565 ensure_kind_selectors *)
Definition ensure_kind_selectors (grant : EngineGrant) (kinds : list string) (label : string)
  : Result unit :=
  try_each (fun kind =>
    let selector := "kind:" +s kind in
    if negb (list_has (gr_resource_selectors grant) selector)
    then policy_error ("authority grant " +s gr_grant_id grant +s " requires explicit "
                       +s selector +s " selector for " +s label)
    else Ok tt) kinds.

(* SRC engine/authority/grants/authorization.rs:581-594 ensure_exact_resource_selector *)
Definition ensure_exact_resource_selector (grant : EngineGrant) (resource_id field label : string)
  : Result unit :=
  if allows_resource_id grant resource_id then Ok tt
  else policy_error ("authority grant " +s gr_grant_id grant +s " requires exact selector for "
                     +s field +s " resource " +s resource_id +s " on " +s label).

(* SRC engine/authority/grants/authorization.rs:567-579 ensure_exact_payload_resource_selectors *)
Definition ensure_exact_payload_resource_selectors (grant : EngineGrant) (invocation : Invocation)
    (fields : list string) (label : string) : Result unit :=
  try_each (fun field =>
    match payload_str invocation field with
    | Some resource_id => ensure_exact_resource_selector grant resource_id field label
    | None => Ok tt
    end) fields.

(* SRC engine/authority/grants/authorization.rs:338-395 ensure_procedural_module_grant_is_explicit *)
Definition ensure_procedural_module_grant_is_explicit (grant : EngineGrant)
    (invocation : Invocation) : Result unit :=
  let label := "procedural module-pack operations" in
  let? _ := ensure_no_wildcard_grant_items grant label in
  let? _ := ensure_kind_selectors grant (capability_execute_resource_kinds invocation) label in
  let? _ :=
    match payload_str invocation "proceduralKind" with
    | Some kind =>
        let selector := "proceduralKind:" +s kind in
        if negb (list_has (gr_resource_selectors grant) selector)
        then policy_error ("authority grant " +s gr_grant_id grant +s " requires explicit "
                           +s selector +s " selector for procedural module-pack operations")
        else Ok tt
    | None => Ok tt
    end in
  let exact field := ensure_exact_payload_resource_selectors grant invocation [field] label in
  if operation_is invocation ["procedural_state_inspect"]
  then exact "proceduralRecordResourceId"
  else if operation_is invocation ["procedural_activation_request_record"]
  then exact "proceduralRecordResourceId"
  else if operation_is invocation ["procedural_activation_request_inspect"]
  then exact "proceduralActivationRequestResourceId"
  else if operation_is invocation ["procedural_activation_decision_record"]
  then exact "proceduralActivationRequestResourceId"
  else if operation_is invocation ["procedural_activation_decision_inspect"]
  then exact "proceduralActivationDecisionResourceId"
  else Ok tt.

(* SRC engine/authority/grants/authorization.rs:397-427 ensure_module_program_execution_grant_is_explicit *)
Definition ensure_module_program_execution_grant_is_explicit (grant : EngineGrant)
    (invocation : Invocation) : Result unit :=
  let label := "jobs/program-execution module-pack operations" in
  let? _ := ensure_no_wildcard_grant_items grant label in
  let? _ := ensure_kind_selectors grant (capability_execute_resource_kinds invocation) label in
  if operation_is invocation ["module_program_execution_start"]
  then ensure_exact_payload_resource_selectors grant invocation ["moduleLifecycleResourceId"]
         "jobs/program-execution module-pack start"
  else if operation_is invocation
            ["module_program_execution_status"; "module_program_execution_cancel";
             "module_program_execution_cleanup"]
  then ensure_exact_payload_resource_selectors grant invocation
         ["moduleRuntimeResourceId"; "jobResourceId"]
         "jobs/program-execution module-pack job operation"
  else Ok tt.

(* SRC engine/authority/grants/authorization.rs:458-462 ensure_jobs_grant_is_explicit *)
Definition ensure_jobs_grant_is_explicit (grant : EngineGrant) (invocation : Invocation)
  : Result unit :=
  let? _ := ensure_no_wildcard_grant_items grant "jobs operations" in
  ensure_kind_selectors grant (capability_execute_resource_kinds invocation) "jobs operations".

(* SRC engine/authority/grants/authorization.rs:464-492 ensure_memory_module_grant_is_explicit *)
Definition ensure_memory_module_grant_is_explicit (grant : EngineGrant) (invocation : Invocation)
  : Result unit :=
  let label := "memory module-pack operations" in
  let? _ := ensure_no_wildcard_grant_items grant label in
  let? _ := ensure_kind_selectors grant (capability_execute_resource_kinds invocation) label in
  if operation_is invocation ["memory_inspect"]
  then ensure_exact_payload_resource_selectors grant invocation ["recordResourceId"]
         "memory module-pack record inspect"
  else if operation_is invocation ["memory_query_inspect"]
  then ensure_exact_payload_resource_selectors grant invocation ["queryResourceId"]
         "memory module-pack query inspect"
  else if operation_is invocation ["memory_decision_inspect"]
  then ensure_exact_payload_resource_selectors grant invocation ["decisionResourceId"]
         "memory module-pack decision inspect"
  else Ok tt.

(* SRC engine/authority/grants/authorization.rs:494-529 ensure_context_control_grant_is_explicit *)
Definition ensure_context_control_grant_is_explicit (grant : EngineGrant)
    (invocation : Invocation) : Result unit :=
  let label := "context-control operations" in
  let? _ := ensure_no_wildcard_grant_items grant label in
  let? _ := ensure_kind_selectors grant (capability_execute_resource_kinds invocation) label in
  match cx_session_id (inv_context invocation) with
  | None => policy_error "context-control operations require session context"
  | Some session_id =>
      let session_selector := "session:" +s session_id in
      if negb (list_has (gr_resource_selectors grant) session_selector)
      then policy_error ("context-control operations require exact " +s session_selector
                         +s " selector")
      else if operation_is invocation ["context_control_action_inspect"]
      then ensure_exact_payload_resource_selectors grant invocation
             ["contextControlActionResourceId"] "context-control action inspect"
      else Ok tt
  end.

(* SRC engine/authority/grants/authorization.rs:596-627 ensure_resource_selectors *)
Definition ensure_resource_selectors (grant : EngineGrant) (invocation : Invocation)
    (resource_kinds : list string) : Result unit :=
  if allows_item (gr_resource_selectors grant) "*" then Ok tt else
  let resource_ids := resource_ids_from_invocation invocation in
  let? _ :=
    try_each (fun resource_id =>
      if negb (allows_resource_id grant resource_id)
      then policy_error ("authority grant " +s gr_grant_id grant +s " does not allow resource "
                         +s resource_id)
      else Ok tt) resource_ids in
  let selector_kinds := match resource_ids with
                        | [] => resource_kinds
                        | _ => created_resource_kinds_from_invocation invocation
                        end in
  try_each (fun kind =>
    if negb (allows_item (gr_resource_selectors grant) ("kind:" +s kind))
    then policy_error ("authority grant " +s gr_grant_id grant
                       +s " does not allow new resource kind " +s kind)
    else Ok tt) selector_kinds.

Section authorization.
  Variable debug : string -> string.
  Variable sha256_hex : string -> string.
  Variable fs : FileSystem.

(* SRC engine/authority/grants/authorization.rs:1739-1754 subagent_task_resource_id *)
Definition subagent_task_resource_id (scope_kind scope_value task_id idempotency_key : string)
  : string :=
  "subagent_task:" +s
    sha256_hex (scope_kind +s ":" +s scope_value +s ":" +s task_id +s ":" +s idempotency_key).

(* SRC engine/authority/grants/authorization.rs:1696-1737 subagent_launch_resource_id *)
Definition subagent_launch_resource_id (invocation : Invocation) : Result string :=
  let c := inv_context invocation in
  let? scope_kind :=
    if is_some (cx_session_id c) then Ok "session"
    else if is_some (cx_workspace_id c) then Ok "workspace"
    else policy_error "subagent_launch requires trusted session or workspace scope" in
  let? scope_value :=
    match cx_session_id c, cx_workspace_id c with
    | Some v, _ | None, Some v => Ok v
    | None, None => policy_error "subagent_launch requires trusted session or workspace scope"
    end in
  let task_id := match payload_str invocation "taskId" with
                 | Some v => if is_blank v then inv_id invocation else v
                 | None => inv_id invocation
                 end in
  match cx_idempotency_key c with
  | None => policy_error "subagent_launch requires trusted idempotency key"
  | Some idempotency_key =>
      Ok (subagent_task_resource_id scope_kind scope_value task_id idempotency_key)
  end.

(* SRC engine/authority/grants/authorization.rs:429-456 ensure_delegated_subagent_grant_is_explicit *)
Definition ensure_delegated_subagent_grant_is_explicit (grant : EngineGrant)
    (invocation : Invocation) : Result unit :=
  let label := "delegated subagent operations" in
  let? _ := ensure_no_wildcard_grant_items grant label in
  let? _ := ensure_kind_selectors grant (capability_execute_resource_kinds invocation) label in
  if operation_is invocation ["subagent_launch"]
  then let? resource_id := subagent_launch_resource_id invocation in
       ensure_exact_resource_selector grant resource_id "subagentTaskResourceId"
         "delegated subagent launch"
  else if operation_is invocation ["subagent_status"; "subagent_result"; "subagent_cancel"]
  then ensure_exact_payload_resource_selectors grant invocation ["subagentTaskResourceId"]
         "delegated subagent task operation"
  else Ok tt.

(* SRC engine/authority/grants/authorization.rs:1662-1673 capability_working_directory *)
Definition capability_working_directory (invocation : Invocation) : Result path :=
  match runtime_metadata (inv_context invocation) RUNTIME_METADATA_WORKING_DIRECTORY with
  | None => policy_error "capability::execute requires trusted working directory metadata"
  | Some raw =>
      match normalize_working_directory debug fs raw with
      | Ok p => Ok p
      | Err message => policy_error message
      end
  end.

(** The result is the text of the path. *)
(* SRC engine/authority/grants/authorization.rs:1622-1628 resolve_invocation_path *)
Definition resolve_invocation_path (invocation : Invocation) (raw : string) : Result string :=
  if starts_with raw "/" || negb (is_capability_execute invocation) then Ok raw
  else let? working_directory := capability_working_directory invocation in
       Ok (path_text_join (path_display working_directory) raw).

(* SRC engine/authority/grants/authorization.rs:1602-1620 paths_from_invocation *)
Definition paths_from_invocation (invocation : Invocation) : Result (list string) :=
  let? paths := try_map (resolve_invocation_path invocation)
    (omap (payload_str invocation)
       ["path"; "filePath"; "targetPath"; "directory"; "cwd"; "workingDirectory"]) in
  if capability_execute_requires_working_directory invocation
  then let? working_directory := capability_working_directory invocation in
       Ok (paths ++ [path_display working_directory])
  else Ok paths.

(* SRC engine/authority/grants/authorization.rs:1580-1600 ensure_file_roots *)
Definition ensure_file_roots (grant : EngineGrant) (invocation : Invocation) : Result unit :=
  if allows_item (gr_file_roots grant) "*" then Ok tt else
  let? paths := paths_from_invocation invocation in
  try_each (fun p =>
    let? canonical := canonical_string fs p in
    if negb (existsb (fun root => match root_allows_path fs root canonical with
                                  | Ok b => b | Err _ => false end)
               (List.filter (fun root => negb (root =s "*")) (gr_file_roots grant)))
    then policy_error ("authority grant " +s gr_grant_id grant +s " does not allow file path "
                       +s path_display canonical)
    else Ok tt) paths.

(** [if is_x(invocation) { ensure_x(...)?; }] *)
Definition when (b : bool) (check : Result unit) : Result unit := if b then check else Ok tt.

(* SRC engine/authority/grants/authorization.rs:74-118! authorize_with_grant *)
Definition ensure_privileged_operations (grant : EngineGrant) (invocation : Invocation)
  : Result unit :=
  let? _ := when (is_module_registry_invocation invocation)
              (ensure_module_registry_grant_is_explicit grant) in
  let? _ := when (is_module_authoring_invocation invocation)
              (ensure_module_authoring_grant_is_explicit grant) in
  let? _ := when (is_module_validation_invocation invocation)
              (ensure_module_validation_grant_is_explicit grant) in
  let? _ := when (is_module_install_invocation invocation)
              (ensure_module_install_grant_is_explicit grant) in
  let? _ := when (is_module_dependencies_invocation invocation)
              (ensure_module_dependencies_grant_is_explicit grant) in
  let? _ := when (is_web_research_invocation invocation)
              (ensure_web_research_grant_is_explicit grant) in
  let? _ := when (is_module_lifecycle_invocation invocation)
              (ensure_module_lifecycle_grant_is_explicit grant) in
  let? _ := when (is_module_runtime_invocation invocation)
              (ensure_module_runtime_grant_is_explicit grant) in
  let? _ := when (is_context_control_invocation invocation)
              (ensure_context_control_grant_is_explicit grant invocation) in
  let? _ := when (is_module_program_execution_invocation invocation)
              (ensure_module_program_execution_grant_is_explicit grant invocation) in
  let? _ := when (is_procedural_module_invocation invocation)
              (ensure_procedural_module_grant_is_explicit grant invocation) in
  let? _ := when (is_delegated_subagent_invocation invocation)
              (ensure_delegated_subagent_grant_is_explicit grant invocation) in
  let? _ := when (is_jobs_invocation invocation)
              (ensure_jobs_grant_is_explicit grant invocation) in
  let? _ := when (is_file_git_module_invocation invocation)
              (ensure_file_git_module_grant_is_explicit grant) in
  when (is_memory_module_invocation invocation)
    (ensure_memory_module_grant_is_explicit grant invocation).

(* SRC engine/authority/grants/authorization.rs:119-134! authorize_with_grant *)
Definition ensure_scopes (grant : EngineGrant) (scopes : list string) : Result unit :=
  try_each (fun scope =>
    if negb (allows_item (gr_allowed_authority_scopes grant) scope)
    then policy_error ("authority grant " +s gr_grant_id grant
                       +s " does not allow required authority " +s scope)
    else Ok tt) scopes.

(* SRC engine/authority/grants/authorization.rs:14-147 authorize_with_grant *)
Definition authorize_with_grant (now : instant) (grant : EngineGrant)
    (function : FunctionDefinition) (invocation : Invocation) : Result unit :=
  let id := gr_grant_id grant in
  let c := inv_context invocation in
  if bool_decide (gr_lifecycle grant <> Grant_Active)
  then policy_error ("authority grant " +s id +s " is not active") else
  if match gr_expires_at grant with Some expires_at => expires_at <=? now | None => false end
  then policy_error ("authority grant " +s id +s " is expired") else
  let? _ := ensure_budget_available grant in
  if match gr_subject_actor_id grant with
     | Some actor => negb (actor =s cx_actor_id c) | None => false end
  then policy_error ("authority grant " +s id +s " subject actor mismatch") else
  if match gr_subject_invocation_id grant with
     | Some parent => bool_decide (cx_parent_invocation_id c <> Some parent) | None => false end
  then policy_error ("authority grant " +s id +s " subject invocation mismatch") else
  if match gr_subject_worker_id grant with
     | Some worker => negb (worker =s fn_owner_worker function) | None => false end
  then policy_error ("authority grant " +s id +s " subject worker mismatch") else
  if risk_gtb (fn_risk_level function) (gr_max_risk grant)
  then policy_error ("function " +s fn_id function +s " risk "
                     +s risk_debug (fn_risk_level function) +s " exceeds grant " +s id
                     +s " max risk " +s risk_debug (gr_max_risk grant)) else
  if negb (allows_function grant (fn_id function))
  then policy_error ("authority grant " +s id +s " does not allow function "
                     +s fn_id function) else
  let? _ := ensure_privileged_operations grant invocation in
  let? _ := ensure_scopes grant (ar_scopes (fn_required_authority function)) in
  let? _ := ensure_scopes grant (authority_scopes_from_invocation invocation) in
  let resource_kinds := resource_kinds_from_invocation invocation in
  let? _ :=
    try_each (fun kind =>
      if negb (allows_item (gr_allowed_resource_kinds grant) kind)
      then policy_error ("authority grant " +s id +s " does not allow resource kind " +s kind)
      else Ok tt) resource_kinds in
  let? _ := ensure_resource_selectors grant invocation resource_kinds in
  ensure_file_roots grant invocation.

(* SRC engine/authority/grants/mod.rs:153-161! InMemoryEngineGrantStore::authorize_invocation *)
Definition authorize_invocation (now : instant) (function : FunctionDefinition)
    (invocation : Invocation) (s : GrantStore) : Result EngineGrant :=
  let? grant := require_grant (cx_authority_grant_id (inv_context invocation)) s in
  let? _ := authorize_with_grant now grant function invocation in
  Ok grant.
End authorization.

(** ** What authorization guarantees *)

Lemma allows_item_iff l x : allows_item l x = true <-> allows l x.
Proof.
  unfold allows_item, allows. rewrite existsb_exists. split.
  - intros (y & Hin & [->%String.eqb_eq| ->%String.eqb_eq]%orb_true_iff); auto.
  - intros [Hin|Hin]; [exists "*"|exists x]; by rewrite ?String.eqb_refl, ?orb_true_r.
Qed.

Lemma allows_item_any l : allows_item l "*" = true <-> In "*" l.
Proof. rewrite allows_item_iff. unfold allows. tauto. Qed.

Lemma each_allowed {A} (test : A -> bool) (e : A -> EngineError) xs :
  try_each (fun x => if negb (test x) then Err (e x) else Ok tt) xs = Ok tt
  <-> forall x, In x xs -> test x = true.
Proof.
  rewrite try_each_ok, List.Forall_forall. split; intros H x Hin; specialize (H x Hin).
  - by apply guard_ok, negb_false_iff in H.
  - by rewrite H.
Qed.

Lemma option_guard {A} (o : option A) (test : A -> bool) :
  match o with Some a => test a | None => false end = false <->
  forall a, o = Some a -> test a = false.
Proof. destruct o as [a|]; split; intros H; try done; [by intros ? [= <-]|auto]. Qed.

Definition is_privileged (invocation : Invocation) : bool :=
  existsb (fun test => test invocation)
    [is_module_registry_invocation; is_module_authoring_invocation;
     is_module_validation_invocation; is_module_install_invocation;
     is_module_dependencies_invocation; is_web_research_invocation;
     is_module_lifecycle_invocation; is_module_runtime_invocation;
     is_context_control_invocation; is_module_program_execution_invocation;
     is_procedural_module_invocation; is_delegated_subagent_invocation;
     is_jobs_invocation; is_file_git_module_invocation; is_memory_module_invocation].

(** The scopes an invocation of a function needs. *)
Definition needed_scopes (f : FunctionDefinition) (i : Invocation) : list string :=
  ar_scopes (fn_required_authority f) ++ authority_scopes_from_invocation i.

(** The kinds that must be selected: those created, when resources are named. *)
Definition selected_kinds (i : Invocation) : list string :=
  match resource_ids_from_invocation i with
  | [] => resource_kinds_from_invocation i
  | _ => created_resource_kinds_from_invocation i
  end.

Section guarantees.
  Variable debug : string -> string.
  Variable sha256_hex : string -> string.
  Variable fs : FileSystem.
  Notation authorize := (authorize_with_grant debug sha256_hex fs).

(** Every path of the invocation resolves, and lies under a root. *)
Definition paths_covered (g : EngineGrant) (i : Invocation) : Prop :=
  exists paths, paths_from_invocation debug fs i = Ok paths /\
    forall p, In p paths -> exists canonical,
      canonical_string fs p = Ok canonical /\ roots_allow fs (gr_file_roots g) canonical.

Record covered (now : instant) (g : EngineGrant) (f : FunctionDefinition) (i : Invocation)
  : Prop := {
  cov_active : gr_lifecycle g = Grant_Active;
  cov_unexpired : not_expired g now;
  cov_budget : forall field, In field ["remainingTokens"; "remainingProcessMs"] ->
    vget (gr_budget g) field ≫= as_u64 <> Some 0;
  cov_actor : forall a, gr_subject_actor_id g = Some a -> cx_actor_id (inv_context i) = a;
  cov_parent : forall p, gr_subject_invocation_id g = Some p ->
    cx_parent_invocation_id (inv_context i) = Some p;
  cov_worker : forall w, gr_subject_worker_id g = Some w -> fn_owner_worker f = w;
  cov_risk : risk_rank (fn_risk_level f) <= risk_rank (gr_max_risk g);
  cov_function : allows (gr_allowed_capabilities g) (fn_id f)
    \/ allows (gr_allowed_namespaces g) (function_namespace (fn_id f));
  cov_scopes : forall s, In s (needed_scopes f i) -> allows (gr_allowed_authority_scopes g) s;
  cov_kinds : forall k, In k (resource_kinds_from_invocation i) ->
    allows (gr_allowed_resource_kinds g) k;
  cov_resources : forall r, In r (resource_ids_from_invocation i) ->
    allows (gr_resource_selectors g) r \/ allows (gr_resource_selectors g) ("resource:" +s r);
  cov_selected : forall k, In k (selected_kinds i) ->
    allows (gr_resource_selectors g) ("kind:" +s k);
  cov_paths : In "*" (gr_file_roots g) \/ paths_covered g i
}.

Lemma budget_available_ok g :
  ensure_budget_available g = Ok tt <->
  forall field, In field ["remainingTokens"; "remainingProcessMs"] ->
    vget (gr_budget g) field ≫= as_u64 <> Some 0.
Proof.
  unfold ensure_budget_available. rewrite try_each_ok, List.Forall_forall.
  split; intros H field Hin; specialize (H field Hin).
  - intros Hz. by rewrite Hz in H.
  - destruct (vget _ _ ≫= as_u64) as [n|]; [|done]. destruct (Z.eqb_spec n 0); [congruence|done].
Qed.

Lemma root_covers root canonical :
  match root_allows_path fs root canonical with Ok b => b | Err _ => false end = true <->
  exists r, canonical_string fs root = Ok r /\ path_starts_with canonical r = true.
Proof.
  unfold root_allows_path. destruct (canonical_string fs root) as [r|]; split; try done; eauto.
  - intros (? & [= ->] & ?). done.
  - by intros (? & ? & _).
Qed.

Lemma file_roots_ok g i :
  ensure_file_roots debug fs g i = Ok tt <-> In "*" (gr_file_roots g) \/ paths_covered g i.
Proof.
  unfold ensure_file_roots. destruct (allows_item (gr_file_roots g) "*") eqn:Hany.
  { apply allows_item_any in Hany. tauto. }
  assert (~ In "*" (gr_file_roots g)) as Hno by (rewrite <- allows_item_any; congruence).
  unfold paths_covered. destruct (paths_from_invocation debug fs i) as [paths|e].
  2: { split; [done|]. intros [?|(? & ? & _)]; done. }
  rewrite try_each_ok, List.Forall_forall. split.
  - intros H. right. exists paths. split; [done|]. intros p Hin. specialize (H p Hin).
    destruct (canonical_string fs p) as [c|] eqn:Hc; [|done]. exists c. split; [done|].
    apply guard_ok, negb_false_iff, existsb_exists in H as (root & [Hr _]%filter_In & Hcov).
    apply root_covers in Hcov as (r & ? & ?). right. by exists root, r.
  - intros [?|(? & [= <-] & Hp)] p Hin; [done|]. destruct (Hp p Hin) as (c & -> & [?|Hc]); [done|].
    destruct Hc as (root & r & Hroot & Hr & Hs).
    apply guard_ok, negb_false_iff, existsb_exists. exists root. split.
    + apply filter_In. split; [done|]. apply negb_true_iff, String.eqb_neq. congruence.
    + apply root_covers. eauto.
Qed.

Lemma resource_selectors_ok g i :
  ensure_resource_selectors g i (resource_kinds_from_invocation i) = Ok tt <->
  (forall r, In r (resource_ids_from_invocation i) ->
    allows (gr_resource_selectors g) r \/ allows (gr_resource_selectors g) ("resource:" +s r)) /\
  (forall k, In k (selected_kinds i) -> allows (gr_resource_selectors g) ("kind:" +s k)).
Proof.
  unfold ensure_resource_selectors.
  destruct (allows_item (gr_resource_selectors g) "*") eqn:Hany.
  { apply allows_item_any in Hany. unfold allows. split; [|done]. split; auto. }
  rewrite seq_ok. unfold policy_error. rewrite !each_allowed.
  unfold allows_resource_id, selected_kinds.
  setoid_rewrite orb_true_iff. setoid_rewrite allows_item_iff. done.
Qed.

Lemma unprivileged_ok g i :
  is_privileged i = false -> ensure_privileged_operations sha256_hex g i = Ok tt.
Proof.
  unfold is_privileged. cbn [existsb]. rewrite !orb_false_iff.
  intros H. unfold ensure_privileged_operations, when.
  repeat match type of H with _ /\ _ => let H' := fresh in destruct H as [H' H]; rewrite H' end.
  done.
Qed.

Lemma authorize_ok now g f i :
  authorize now g f i = Ok tt <->
  covered now g f i /\ ensure_privileged_operations sha256_hex g i = Ok tt.
Proof.
  unfold authorize_with_grant, ensure_scopes, policy_error. cbv zeta.
  repeat first [rewrite guard_err_ok | rewrite seq_ok]. rewrite !each_allowed.
  rewrite budget_available_ok, resource_selectors_ok, file_roots_ok.
  setoid_rewrite allows_item_iff.
  assert (bool_decide (gr_lifecycle g <> Grant_Active) = false <-> gr_lifecycle g = Grant_Active)
    as -> by (rewrite bool_decide_eq_false; destruct (gr_lifecycle g); intuition congruence).
  assert (match gr_expires_at g with Some t => t <=? now | None => false end = false
          <-> not_expired g now) as ->.
  { unfold not_expired. destruct (gr_expires_at g) as [t|]; [rewrite Z.leb_gt|]; split; try done.
    - intros ? ? [= <-]. lia.
    - intros H. specialize (H t eq_refl). lia. }
  assert (risk_gtb (fn_risk_level f) (gr_max_risk g) = false <->
    risk_rank (fn_risk_level f) <= risk_rank (gr_max_risk g)) as ->
    by (unfold risk_gtb; rewrite Z.ltb_ge; done).
  assert (negb (allows_function g (fn_id f)) = false <->
    allows (gr_allowed_capabilities g) (fn_id f)
    \/ allows (gr_allowed_namespaces g) (function_namespace (fn_id f))) as ->
    by (unfold allows_function; rewrite negb_false_iff, orb_true_iff, !allows_item_iff; done).
  rewrite !option_guard. setoid_rewrite negb_false_iff. setoid_rewrite String.eqb_eq.
  setoid_rewrite bool_decide_eq_false. split.
  - intros (?&?&?&Ha&Hp&Hw&?&?&?&Hs&Hs'&?&[? ?]&?). split; [|done]. constructor; try done.
    + intros a Ea. symmetry. by apply Ha.
    + intros p Ep. specialize (Hp p Ep). by apply dec_stable.
    + intros w Ew. symmetry. by apply Hw.
    + intros s [?|?]%in_app_or; auto.
  - intros [[? ? ? Ha Hp Hw ? ? Hs ? ? ? ?] ?]. split_and!; try done.
    + intros a Ea. symmetry. by apply Ha.
    + intros p Ep Hne. by apply Hne, Hp.
    + intros w Ew. symmetry. by apply Hw.
    + intros s Hin. apply Hs, in_or_app. by left.
    + intros s Hin. apply Hs, in_or_app. by right.
Qed.

(** C2: For an operation that is not privileged, authorize_with_grant accepts an invocation
    exactly when the grant covers it: active, not expired, budgets not exhausted, bound
    subjects matched, risk within the maximum, function, authority scopes, resource kinds,
    named resources and selected kinds allowed, and every path of the payload (and the
    working directory where one is needed) canonicalized below a file root. *)
Theorem authorized_iff_covered now g f i :
  is_privileged i = false -> authorize now g f i = Ok tt <-> covered now g f i.
Proof.
  intros Hp. rewrite authorize_ok. pose proof (unprivileged_ok g i Hp). tauto.
Qed.

Definition explicit_grant (g : EngineGrant) : Prop :=
  ~ In "*" (gr_allowed_authority_scopes g) /\ ~ In "*" (gr_allowed_resource_kinds g) /\
  ~ In "*" (gr_resource_selectors g).

Lemma no_wildcards_ok g label more :
  ensure_no_wildcards g (grant_item_lists g ++ more) label = Ok tt -> explicit_grant g.
Proof.
  unfold ensure_no_wildcards, explicit_grant. rewrite try_each_ok, List.Forall_forall. intros H.
  assert (forall l items, In (l, items) (grant_item_lists g) -> ~ In "*" items) as Hno.
  { intros l items Hin. specialize (H (l, items) (in_or_app _ _ _ (or_introl Hin))). simpl in H.
    unfold policy_error in H. apply guard_ok in H. rewrite <- list_has_In. congruence. }
  split_and!; (eapply Hno; simpl; eauto).
Qed.
Lemma no_wildcard_items_ok g label : ensure_no_wildcard_grant_items g label = Ok tt -> explicit_grant g.
Proof. intros H. by apply (no_wildcards_ok g label []). Qed.

Lemma then_explicit g label (k : Result unit) :
  (let? _ := ensure_no_wildcard_grant_items g label in k) = Ok tt -> explicit_grant g.
Proof. intros [H _]%seq_ok. by apply no_wildcard_items_ok in H. Qed.

Lemma when_explicit g b c rest :
  when b c = Ok tt -> (c = Ok tt -> explicit_grant g) ->
  (existsb id rest = true -> explicit_grant g) ->
  existsb id (b :: rest) = true -> explicit_grant g.
Proof. destruct b; simpl; auto. Qed.

Ltac plain H := apply (when_explicit _ _ _ _ H (no_wildcards_ok _ _ _)).
Ltac chained H := apply (when_explicit _ _ _ _ H (then_explicit _ _ _)).

Lemma privileged_explicit g i :
  is_privileged i = true -> ensure_privileged_operations sha256_hex g i = Ok tt -> explicit_grant g.
Proof.
  unfold ensure_privileged_operations. rewrite !seq_ok. intros Hp H.
  destruct H as (H1&H2&H3&H4&H5&H6&H7&H8&H9&H10&H11&H12&H13&H14&H15).
  change (is_privileged i) with (existsb id
    [is_module_registry_invocation i; is_module_authoring_invocation i;
     is_module_validation_invocation i; is_module_install_invocation i;
     is_module_dependencies_invocation i; is_web_research_invocation i;
     is_module_lifecycle_invocation i; is_module_runtime_invocation i;
     is_context_control_invocation i; is_module_program_execution_invocation i;
     is_procedural_module_invocation i; is_delegated_subagent_invocation i;
     is_jobs_invocation i; is_file_git_module_invocation i; is_memory_module_invocation i]) in Hp.
  revert Hp.
  plain H1; plain H2; plain H3; plain H4; plain H5; plain H6; plain H7; plain H8;
    chained H9; chained H10; chained H11; chained H12; chained H13; plain H14; chained H15.
  done.
Qed.

(** C27: A privileged operation (modules, jobs, programs, subagents, memory, context
    control, procedural state, files and git, web research) is authorized only by a grant
    without wildcards in its authority scopes, resource kinds and resource selectors, so
    each scope and kind it needs is listed in the grant by name. *)
Theorem privileged_operations_are_explicit now g f i :
  is_privileged i = true -> authorize now g f i = Ok tt ->
  explicit_grant g /\
  (forall s, In s (needed_scopes f i) -> In s (gr_allowed_authority_scopes g)) /\
  (forall k, In k (resource_kinds_from_invocation i) -> In k (gr_allowed_resource_kinds g)).
Proof.
  intros Hp [Hc He]%authorize_ok. pose proof (privileged_explicit g i Hp He) as Hx.
  split; [done|]. destruct Hx as (Hs & Hk & _). split; intros x Hin.
  - by destruct (cov_scopes _ _ _ _ Hc x Hin).
  - by destruct (cov_kinds _ _ _ _ Hc x Hin).
Qed.

Lemma covered_le now a b f i :
  policy_le fs a b -> gr_lifecycle b = Grant_Active -> ensure_budget_available b = Ok tt ->
  gr_subject_actor_id b = None -> gr_subject_invocation_id b = None ->
  gr_subject_worker_id b = None -> covered now a f i -> covered now b f i.
Proof.
  intros Hle Hl Hb Hsa Hsi Hsw [? Hexp ? ? ? ? Hrisk Hf Hs Hk Hr Hsel Hp]. destruct Hle.
  constructor; try done; try congruence; eauto.
  - intros t Ht. destruct (pl_expiry t Ht) as (t' & Ht' & ?). specialize (Hexp t' Ht'). lia.
  - by apply budget_available_ok.
  - lia.
  - intuition.
  - intros r Hin. destruct (Hr r Hin); auto.
  - destruct Hp as [Hp|(paths & Hpaths & Hall)]; [auto|]. right. exists paths. split; [done|].
    intros p Hin. destruct (Hall p Hin) as (c & ? & ?). eauto.
Qed.

(** In every reachable grant store, an operation that is not privileged and that a
    grant authorizes is also authorized by each of its ancestors that is active, has budget
    and is not bound to a subject: deriving a grant never opens a door the ancestor keeps
    shut. *)
Theorem derived_grant_authorizes_no_more s i a j b now f inv :
  grant_reachable fs s -> gs_grants s !! i = Some a -> gs_grants s !! j = Some b ->
  tc (parent_id s) i j ->
  is_privileged inv = false -> gr_lifecycle b = Grant_Active ->
  ensure_budget_available b = Ok tt -> gr_subject_actor_id b = None ->
  gr_subject_invocation_id b = None -> gr_subject_worker_id b = None ->
  authorize now a f inv = Ok tt -> authorize now b f inv = Ok tt.
Proof.
  intros Hr Ha Hb Ht Hp Hl Hbud H1 H2 H3 [Hc _]%authorize_ok. apply authorize_ok.
  split; [|by apply unprivileged_ok].
  eapply covered_le; eauto using ancestors_bound, grants_inv_reachable.
Qed.
End guarantees.

(** ** Concrete runs *)

Definition sample_get : FunctionDefinition :=
  function_new "state::get" "state" "Read a value" Vis_System Effect_PureRead.
Definition sample_get_call : Invocation :=
  new_sync "i1" "state::get" (VObject [("path", VString "/work/notes/../a.txt")])
    (causal_context_new "agent" Actor_Agent "leaf" "t").
Definition no_debug (s : string) : string := s.

Lemma authorized_iff_covered_witness :
  covered no_debug sample_fs 10 leaf_grant sample_get sample_get_call.
Proof.
  apply (authorized_iff_covered no_debug no_debug sample_fs 10 leaf_grant sample_get sample_get_call);
    vm_compute; reflexivity.
Defined.

(** The same read outside the root is refused. *)
Example path_outside_roots :
  authorize_with_grant no_debug no_debug sample_fs 10 leaf_grant sample_get
    (new_sync "i1" "state::get" (VObject [("path", VString "/work/../etc/passwd")])
      (causal_context_new "agent" Actor_Agent "leaf" "t"))
  = Err (PolicyViolation "authority grant leaf does not allow file path /etc/passwd").
Proof. vm_compute. reflexivity. Qed.

Lemma derived_grant_authorizes_no_more_witness :
  authorize_with_grant no_debug no_debug sample_fs 10 child_grant sample_get sample_get_call = Ok tt.
Proof.
  apply (derived_grant_authorizes_no_more no_debug no_debug sample_fs store2 "leaf" leaf_grant
    "child" child_grant 10 sample_get sample_get_call store2_reachable);
    try (vm_compute; reflexivity).
  apply tc_once. exists leaf_grant. split; vm_compute; reflexivity.
Defined.

Definition job_grant : EngineGrant :=
  grant_from_request
    {| dg_grant_id := Some "jobs"; dg_parent_grant_id := "grant"; dg_subject_actor_id := None;
       dg_subject_worker_id := None; dg_subject_invocation_id := None;
       dg_allowed_capabilities := ["capability::execute"]; dg_allowed_namespaces := ["capability"];
       dg_allowed_authority_scopes := ["jobs.read"; "resource.read"];
       dg_allowed_resource_kinds := ["job_process"; "execution_output"];
       dg_resource_selectors := ["kind:job_process"; "kind:execution_output"];
       dg_file_roots := ["/work"]; dg_network_policy := "none"; dg_max_risk := Risk_Low;
       dg_budget := Null; dg_expires_at := None; dg_can_delegate := false; dg_provenance := Null;
       dg_trace_id := "t" |} "jobs" 0 1.
Definition sample_execute : FunctionDefinition :=
  function_new "capability::execute" "capability" "Execute" Vis_System Effect_DelegatedInvocation.
Definition job_status_call : Invocation :=
  new_sync "i2" "capability::execute" (VObject [("operation", VString "job_status")])
    (causal_context_new "agent" Actor_Agent "jobs" "t").

Lemma privileged_operations_are_explicit_witness :
  explicit_grant job_grant /\ In "jobs.read" (gr_allowed_authority_scopes job_grant).
Proof.
  destruct (privileged_operations_are_explicit no_debug no_debug sample_fs 10 job_grant
    sample_execute job_status_call) as (Hx & Hs & _); [vm_compute; reflexivity ..|].
  split; [exact Hx|]. apply Hs. vm_compute. auto.
Defined.

(** The bootstrap grant, all wildcards, is refused the same call. *)
Example wildcard_grant_refused :
  authorize_with_grant no_debug no_debug sample_fs 10 (bootstrap_grant "grant" 0)
    sample_execute job_status_call
  = Err (PolicyViolation
      "authority grant grant cannot use wildcard authority scopes for jobs operations").
Proof. vm_compute. reflexivity. Qed.
