(* ===== verification/GrantSqlite.v ===== *)
(** * The SQLite grant store

    The durable store of [authority/grants/mod.rs] and its codec
    [sqlite_codec.rs]: tables of grants and grant events, and every operation with
    its statements in order, so that what a failing statement leaves behind is
    visible.  Two theorems: the store answers every sequence of calls as the
    in-memory store does, and connections that spend from one grant at the same
    time never spend more than its budget.

    A column that holds JSON or the RFC 3339 text of an instant has its value as
    type; the columns whose codec can fail or change the value (lifecycle, risk,
    flag, revision) are modelled as stored.  An id is valid when it is stored, so
    the checks on reading it back pass and are left out.  The texts of SQLite's
    errors are parameters. *)

From stdpp Require Import base gmap strings list sorting.
From Stdlib Require Import ZArith Ascii String Lia.
From S2P Require Import Prelude Json Kernel Model Paths Grants Authorization.

#[local] Open Scope Z_scope.

(** ** Rows *)

(* SRC engine/authority/grants/mod.rs:247-271! SqliteEngineGrantStore::open *)
Record GrantRow := {
  gw_grant_id : AuthorityGrantId;
  gw_parent_grant_id : option AuthorityGrantId;
  gw_subject_actor_id : option ActorId;
  gw_subject_worker_id : option WorkerId;
  gw_subject_invocation_id : option InvocationId;
  gw_lifecycle : string;
  gw_allowed_capabilities : list string;
  gw_allowed_namespaces : list string;
  gw_allowed_authority_scopes : list string;
  gw_allowed_resource_kinds : list string;
  gw_resource_selectors : list string;
  gw_file_roots : list string;
  gw_network_policy : string;
  gw_max_risk : string;
  gw_budget : Value;
  gw_expires_at : option instant;
  gw_can_delegate : Z;
  gw_provenance : Value;
  gw_trace_id : TraceId;
  gw_revision : Z;
  gw_created_at : instant;
  gw_updated_at : instant
}.

(** The tables, rows in the order in which they were inserted. *)
(* SRC engine/authority/grants/mod.rs:246-287! SqliteEngineGrantStore::open *)
Record GrantTables := {
  gt_rows : list GrantRow;
  gt_events : list EngineGrantEvent
}.

(** [x as u64]. *)
Definition i64_as_u64 (z : Z) : Z := z mod 2 ^ 64.

(* SRC engine/authority/grants/sqlite_codec.rs:13-20 risk_as_str *)
Definition grant_risk_as_str (r : RiskLevel) : string :=
  match r with
  | Risk_Low => "low" | Risk_Medium => "medium" | Risk_High => "high" | Risk_Critical => "critical"
  end.
(* SRC engine/authority/grants/sqlite_codec.rs:22-33 parse_risk *)
Definition grant_parse_risk (value : string) : Result RiskLevel :=
  if value =s "low" then Ok Risk_Low
  else if value =s "medium" then Ok Risk_Medium
  else if value =s "high" then Ok Risk_High
  else if value =s "critical" then Ok Risk_Critical
  else Err (LedgerFailure "grant.risk" ("invalid grant risk " +s value)).

(** The bound values of the insertion. *)
(* SRC engine/authority/grants/mod.rs:497-554! SqliteEngineGrantStore::insert_grant *)
Definition grant_row (g : EngineGrant) : GrantRow :=
  {| gw_grant_id := gr_grant_id g; gw_parent_grant_id := gr_parent_grant_id g;
     gw_subject_actor_id := gr_subject_actor_id g; gw_subject_worker_id := gr_subject_worker_id g;
     gw_subject_invocation_id := gr_subject_invocation_id g;
     gw_lifecycle := grant_lifecycle_as_str (gr_lifecycle g);
     gw_allowed_capabilities := gr_allowed_capabilities g;
     gw_allowed_namespaces := gr_allowed_namespaces g;
     gw_allowed_authority_scopes := gr_allowed_authority_scopes g;
     gw_allowed_resource_kinds := gr_allowed_resource_kinds g;
     gw_resource_selectors := gr_resource_selectors g; gw_file_roots := gr_file_roots g;
     gw_network_policy := gr_network_policy g; gw_max_risk := grant_risk_as_str (gr_max_risk g);
     gw_budget := gr_budget g; gw_expires_at := gr_expires_at g;
     gw_can_delegate := if gr_can_delegate g then 1 else 0; gw_provenance := gr_provenance g;
     gw_trace_id := gr_trace_id g; gw_revision := u64_as_i64 (gr_revision g);
     gw_created_at := gr_created_at g; gw_updated_at := gr_updated_at g |}.

(* SRC engine/authority/grants/sqlite_codec.rs:35-84 row_to_grant *)
Definition row_to_grant (w : GrantRow) : Result EngineGrant :=
  let? lifecycle := grant_lifecycle_parse (gw_lifecycle w) in
  let? max_risk := grant_parse_risk (gw_max_risk w) in
  Ok {| gr_grant_id := gw_grant_id w; gr_parent_grant_id := gw_parent_grant_id w;
        gr_subject_actor_id := gw_subject_actor_id w; gr_subject_worker_id := gw_subject_worker_id w;
        gr_subject_invocation_id := gw_subject_invocation_id w; gr_lifecycle := lifecycle;
        gr_allowed_capabilities := gw_allowed_capabilities w;
        gr_allowed_namespaces := gw_allowed_namespaces w;
        gr_allowed_authority_scopes := gw_allowed_authority_scopes w;
        gr_allowed_resource_kinds := gw_allowed_resource_kinds w;
        gr_resource_selectors := gw_resource_selectors w; gr_file_roots := gw_file_roots w;
        gr_network_policy := gw_network_policy w; gr_max_risk := max_risk;
        gr_budget := gw_budget w; gr_expires_at := gw_expires_at w;
        gr_can_delegate := negb (gw_can_delegate w =? 0); gr_provenance := gw_provenance w;
        gr_trace_id := gw_trace_id w; gr_revision := i64_as_u64 (gw_revision w);
        gr_created_at := gw_created_at w; gr_updated_at := gw_updated_at w |}.

Definition set_gw_state (w : GrantRow) (lifecycle : string) (budget : Value) (revision : Z)
    (updated : instant) : GrantRow :=
  {| gw_grant_id := gw_grant_id w; gw_parent_grant_id := gw_parent_grant_id w;
     gw_subject_actor_id := gw_subject_actor_id w; gw_subject_worker_id := gw_subject_worker_id w;
     gw_subject_invocation_id := gw_subject_invocation_id w; gw_lifecycle := lifecycle;
     gw_allowed_capabilities := gw_allowed_capabilities w;
     gw_allowed_namespaces := gw_allowed_namespaces w;
     gw_allowed_authority_scopes := gw_allowed_authority_scopes w;
     gw_allowed_resource_kinds := gw_allowed_resource_kinds w;
     gw_resource_selectors := gw_resource_selectors w; gw_file_roots := gw_file_roots w;
     gw_network_policy := gw_network_policy w; gw_max_risk := gw_max_risk w;
     gw_budget := budget; gw_expires_at := gw_expires_at w;
     gw_can_delegate := gw_can_delegate w; gw_provenance := gw_provenance w;
     gw_trace_id := gw_trace_id w; gw_revision := revision;
     gw_created_at := gw_created_at w; gw_updated_at := updated |}.

Definition find_row (id : AuthorityGrantId) (t : GrantTables) : option GrantRow :=
  find_key gw_grant_id (gt_rows t) id.
Definition set_rows (rows : list GrantRow) (t : GrantTables) : GrantTables :=
  {| gt_rows := rows; gt_events := gt_events t |}.

(** ** Operations *)

Section store.
  Variable debug : string -> string.
  Variable sha256_hex : string -> string.
  Variable fs : FileSystem.
  (** The texts of a row that cannot be read, of a value out of range, of a
      violated key, and of a missing parent row. *)
  Variable conversion_text : EngineError -> string.
  Variable range_text : Z -> string.
  Variable unique_text : string -> string.
  Variable foreign_text : string.

(* SRC engine/authority/grants/mod.rs:318-328 SqliteEngineGrantStore::inspect *)
Definition sqlite_inspect (id : AuthorityGrantId) (t : GrantTables) : Result (option EngineGrant) :=
  match find_row id t with
  | None => Ok None
  | Some w =>
      match row_to_grant w with
      | Ok g => Ok (Some g)
      | Err e => Err (LedgerFailure "grant.inspect" (conversion_text e))
      end
  end.

(* SRC engine/authority/grants/mod.rs:478-482 SqliteEngineGrantStore::require_grant *)
Definition sqlite_require_grant (id : AuthorityGrantId) (t : GrantTables) : Result EngineGrant :=
  let? found := sqlite_inspect id t in
  ok_or found (PolicyViolation ("authority grant " +s id +s " not found")).

(* SRC engine/authority/grants/mod.rs:501-558 SqliteEngineGrantStore::insert_grant *)
Definition insert_grant (g : EngineGrant) (t : GrantTables) : Result unit * GrantTables :=
  if is_some (find_row (gr_grant_id g) t)
  then (Err (LedgerFailure "grant.insert" (unique_text "engine_grants.grant_id")), t)
  else (Ok tt, set_rows (gt_rows t ++ [grant_row g]) t).

(** The revision is bound as a [u64], which fails above [i64::MAX]. *)
(* SRC engine/authority/grants/mod.rs:560-575 SqliteEngineGrantStore::update_grant *)
Definition update_grant (g : EngineGrant) (t : GrantTables) : Result unit * GrantTables :=
  if i64_max <? gr_revision g
  then (Err (LedgerFailure "grant.update" (range_text (gr_revision g))), t)
  else (Ok tt, set_rows (map (fun w =>
          if gw_grant_id w =s gr_grant_id g
          then set_gw_state w (grant_lifecycle_as_str (gr_lifecycle g)) (gw_budget w)
                 (gr_revision g) (gr_updated_at g)
          else w) (gt_rows t)) t).

(** [operation] names the caller's error. *)
(* SRC engine/authority/grants/mod.rs:577-594 SqliteEngineGrantStore::record_event *)
Definition sqlite_record_event (operation : string) (e : EngineGrantEvent) (t : GrantTables)
  : Result unit * GrantTables :=
  if existsb (fun x => ge_event_id x =s ge_event_id e) (gt_events t)
  then (Err (LedgerFailure operation (unique_text "engine_grant_events.event_id")), t)
  else if negb (is_some (find_row (ge_grant_id e) t))
  then (Err (LedgerFailure operation foreign_text), t)
  else (Ok tt, {| gt_rows := gt_rows t; gt_events := gt_events t ++ [e] |}).

(** A statement and the event that goes with it, without a transaction around
    them. *)
Definition then_event (g : EngineGrant) (e : EngineGrantEvent) (p : Result unit * GrantTables)
  : Result EngineGrant * GrantTables :=
  match p with
  | (Err err, t) => (Err err, t)
  | (Ok _, t) =>
      match sqlite_record_event "grant.event" e t with
      | (Err err, t) => (Err err, t)
      | (Ok _, t) => (Ok g, t)
      end
  end.

Definition derived_event (g : EngineGrant) (uuid : string) (now : instant) : EngineGrantEvent :=
  grant_event (gr_grant_id g) "grant.derived"
    (VObject [("parentGrantId",
               match gr_parent_grant_id g with Some p => VString p | None => Null end)])
    (gr_trace_id g) uuid now.

(* SRC engine/authority/grants/mod.rs:291-316 SqliteEngineGrantStore::derive *)
Definition sqlite_derive (now : instant) (generated uuid : string) (r : DeriveGrant)
    (t : GrantTables) : Result EngineGrant * GrantTables :=
  match (let? _ := validate_derive_request now r in
         let? parent := sqlite_require_grant (dg_parent_grant_id r) t in
         let? _ := ensure_parent_can_derive now parent in
         let? _ := ensure_child_narrows_parent fs parent r in
         let grant_id := default generated (dg_grant_id r) in
         let? existing := sqlite_inspect grant_id t in
         if is_some existing then policy_error ("grant " +s grant_id +s " already exists")
         else Ok (grant_from_request r grant_id now 1)) with
  | Err e => (Err e, t)
  | Ok grant => then_event grant (derived_event grant uuid now) (insert_grant grant t)
  end.

Definition revoked (now : instant) (g : EngineGrant) : EngineGrant :=
  set_gr_state g Grant_Revoked (gr_budget g) (wrapping_add_u64 (gr_revision g) 1) now.
Definition write_revoked (now : instant) (uuid : string) (id : AuthorityGrantId) (trace : TraceId)
    (g : EngineGrant) (t : GrantTables) : Result EngineGrant * GrantTables :=
  then_event (revoked now g) (grant_event id "grant.revoked" (VObject []) trace uuid now)
    (update_grant (revoked now g) t).

(* SRC engine/authority/grants/mod.rs:365-380 SqliteEngineGrantStore::revoke *)
Definition sqlite_revoke (now : instant) (uuid : string) (id : AuthorityGrantId) (trace : TraceId)
    (t : GrantTables) : Result EngineGrant * GrantTables :=
  match sqlite_require_grant id t with
  | Err e => (Err e, t)
  | Ok grant =>
      if bool_decide (gr_lifecycle grant <> Grant_Revoked)
      then write_revoked now uuid id trace grant t
      else (Ok grant, t)
  end.

(* SRC engine/authority/grants/mod.rs:382-391 SqliteEngineGrantStore::authorize_invocation *)
Definition sqlite_authorize_invocation (now : instant) (function : FunctionDefinition)
    (invocation : Invocation) (t : GrantTables) : Result EngineGrant :=
  let? grant := sqlite_require_grant (cx_authority_grant_id (inv_context invocation)) t in
  let? _ := authorize_with_grant debug sha256_hex fs now grant function invocation in
  Ok grant.

(** What a spending call decides from the row it reads: the grant, and the
    remaining budget when there is one to spend from. *)
(* SRC engine/authority/grants/mod.rs:398-407! SqliteEngineGrantStore::consume_invocation_budget *)
Definition consume_read (now : instant) (r : ConsumeGrantInvocationBudget) (t : GrantTables)
  : Result (EngineGrant * option Z) :=
  let? grant := sqlite_require_grant (cb_grant_id r) t in
  let? _ := ensure_grant_can_consume now grant in
  match remaining_invocations (gr_budget grant) with
  | None => Ok (grant, None)
  | Some remaining =>
      if remaining =? 0 then Err (exhausted_invocation_budget grant)
      else Ok (grant, Some remaining)
  end.

Definition consumed_event (r : ConsumeGrantInvocationBudget) (remaining previous revision : Z)
    (uuid : string) (now : instant) : EngineGrantEvent :=
  grant_event (cb_grant_id r) "grant.budget_consumed"
    (VObject
       [("budgetField", VString "remainingInvocations");
        ("consumed", VNumber (PosInt 1));
        ("functionId", VString (cb_function_id r));
        ("invocationId", VString (cb_invocation_id r));
        ("previousRevision", VNumber (PosInt previous));
        ("remainingInvocations", VNumber (PosInt (remaining - 1)));
        ("revision", VNumber (PosInt revision))])
    (cb_trace_id r) uuid now.

(** [WHERE grant_id = ?1 AND lifecycle = 'active' AND revision = ?5] *)
(* SRC engine/authority/grants/mod.rs:437-439! SqliteEngineGrantStore::consume_invocation_budget *)
Definition still_current (id : AuthorityGrantId) (revision : Z) (w : GrantRow) : bool :=
  (gw_grant_id w =s id) && (gw_lifecycle w =s "active") && (gw_revision w =? u64_as_i64 revision).

(** The transaction of a spending call, from the grant it has read. *)
(* SRC engine/authority/grants/mod.rs:409-472! SqliteEngineGrantStore::consume_invocation_budget *)
Definition consume_commit (now : instant) (uuid : string) (r : ConsumeGrantInvocationBudget)
    (grant : EngineGrant) (remaining : Z) (t : GrantTables) : Result EngineGrant * GrantTables :=
  match set_remaining_invocations (gr_budget grant) (remaining - 1) with
  | Err e => (Err e, t)
  | Ok budget =>
      let previous := gr_revision grant in
      let next := wrapping_add_u64 previous 1 in
      let current := still_current (cb_grant_id r) previous in
      if negb (Nat.eqb (List.length (List.filter current (gt_rows t))) 1)
      then (policy_error ("authority grant " +s cb_grant_id r +s " budget could not be consumed"), t)
      else
      let updated := map (fun w => if current w then set_gw_state w (gw_lifecycle w) budget
                                                        (u64_as_i64 next) now else w) (gt_rows t) in
      match sqlite_record_event "grant.consume.event"
              (consumed_event r remaining previous next uuid now) (set_rows updated t) with
      | (Err e, _) => (Err e, t)
      | (Ok _, t') => (Ok (set_gr_state grant (gr_lifecycle grant) budget next now), t')
      end
  end.

(* SRC engine/authority/grants/mod.rs:393-476 SqliteEngineGrantStore::consume_invocation_budget *)
Definition sqlite_consume (now : instant) (uuid : string) (r : ConsumeGrantInvocationBudget)
    (t : GrantTables) : Result EngineGrant * GrantTables :=
  match consume_read now r t with
  | Err e => (Err e, t)
  | Ok (grant, None) => (Ok grant, t)
  | Ok (grant, Some remaining) => consume_commit now uuid r grant remaining t
  end.

(** [rows] are the rows in the order of their creation, as the query yields them;
    [room] is what is left of the limit. *)
(* SRC engine/authority/grants/mod.rs:339-362! SqliteEngineGrantStore::list *)
Fixpoint list_rows (f : ListGrants) (room : nat) (rows : list GrantRow) : Result (list EngineGrant) :=
  match rows with
  | [] => Ok []
  | w :: rows =>
      match row_to_grant w with
      | Err e => Err (LedgerFailure "grant.list.row" (conversion_text e))
      | Ok grant =>
          if match lg_parent_grant_id f with
             | Some parent => bool_decide (gr_parent_grant_id grant <> Some parent)
             | None => false end
          then list_rows f room rows
          else if match lg_lifecycle f with
                  | Some lifecycle => bool_decide (gr_lifecycle grant <> lifecycle)
                  | None => false end
          then list_rows f room rows
          else if (room <=? 1)%nat then Ok [grant]
          else let? rest := list_rows f (room - 1) rows in Ok (grant :: rest)
      end
  end.
(* SRC engine/authority/grants/mod.rs:330-363 SqliteEngineGrantStore::list *)
Definition sqlite_list (rows : list GrantRow) (f : ListGrants) : Result (list EngineGrant) :=
  let? _ := validate_list_limit (lg_limit f) in
  list_rows f (Z.to_nat (lg_limit f)) rows.

Definition seed_grant (now : instant) (p : Result unit * GrantTables) (id : string)
  : Result unit * GrantTables :=
  match p with
  | (Err e, t) => (Err e, t)
  | (Ok _, t) =>
      match sqlite_inspect id t with
      | Err e => (Err e, t)
      | Ok (Some _) => (Ok tt, t)
      | Ok None => insert_grant (bootstrap_grant id now) t
      end
  end.
(* SRC engine/authority/grants/mod.rs:479-495! SqliteEngineGrantStore::seed_bootstrap_grants *)
Definition sqlite_seed_bootstrap_grants (now : instant) (t : GrantTables)
  : Result unit * GrantTables := fold_left (seed_grant now) BOOTSTRAP_GRANT_IDS (Ok tt, t).

Definition no_grants : GrantTables := {| gt_rows := []; gt_events := [] |}.
(** Opening creates the tables when they are missing, which is the case of
    [no_grants], and seeds. *)
(* SRC engine/authority/grants/mod.rs:237-289 SqliteEngineGrantStore::open *)
Definition sqlite_open (now : instant) (t : GrantTables) : Result GrantTables :=
  match sqlite_seed_bootstrap_grants now t with (Ok _, t) => Ok t | (Err e, _) => Err e end.
End store.

(** ** The in-memory store as its specification *)

Definition in_range (g : EngineGrant) (n : Z) : Prop := 0 <= gr_revision g <= n.

Lemma grant_row_roundtrip g : in_range g i64_max -> row_to_grant (grant_row g) = Ok g.
Proof.
  intros [H0 Hn]. unfold row_to_grant, grant_row. simpl.
  assert (i64_as_u64 (u64_as_i64 (gr_revision g)) = gr_revision g) as ->.
  { unfold i64_as_u64, u64_as_i64. rewrite (proj2 (Z.leb_le _ _) Hn).
    apply Z.mod_small. unfold i64_max in Hn. lia. }
  destruct g as [id p sa sw si l c ns sc k sel fr np risk b ex del pv tr rev cr up]. simpl.
  by destruct l, risk, del.
Qed.

(** The tables hold the grants and the events of the in-memory store, whose
    revisions are at most [n]. *)
Record grants_agree (n : Z) (t : GrantTables) (m : GrantStore) : Prop := {
  ga_nodup : NoDup (map gw_grant_id (gt_rows t));
  ga_rows : forall id, find_row id t = grant_row <$> gs_grants m !! id;
  ga_keys : forall id g, gs_grants m !! id = Some g -> gr_grant_id g = id /\ in_range g n;
  ga_events : forall id,
    List.filter (fun e => ge_grant_id e =s id) (gt_events t) = default [] (gs_events m !! id)
}.

Lemma agree_mono n n' t m : n <= n' -> grants_agree n t m -> grants_agree n' t m.
Proof.
  intros Hn [H1 H2 H3 H4]. constructor; try done. intros id g [E [? ?]]%H3. split; [done|]. split; lia.
Qed.

(** A new event of a grant that is stored. *)
Definition unused (uuid : string) (t : GrantTables) : Prop :=
  "grant_event_" +s uuid ∉ map ge_event_id (gt_events t).

Section refinement.
  Variable debug : string -> string.
  Variable sha256_hex : string -> string.
  Variable fs : FileSystem.
  Variable conversion_text : EngineError -> string.
  Variable range_text : Z -> string.
  Variable unique_text : string -> string.
  Variable foreign_text : string.
  Notation inspect := (sqlite_inspect conversion_text).
  Notation require := (sqlite_require_grant conversion_text).
  Notation record := (sqlite_record_event unique_text foreign_text).

Lemma inspect_agrees n t m id :
  grants_agree n t m -> n <= i64_max -> inspect id t = Ok (gs_grants m !! id).
Proof.
  intros H Hn. unfold sqlite_inspect. rewrite (ga_rows _ _ _ H).
  destruct (gs_grants m !! id) as [g|] eqn:Hg; [|done]. simpl.
  destruct (ga_keys _ _ _ H id g Hg) as [_ [? ?]]. rewrite grant_row_roundtrip; [done|]. split; lia.
Qed.
Lemma require_agrees n t m id :
  grants_agree n t m -> n <= i64_max -> require id t = require_grant id m.
Proof. intros H Hn. unfold sqlite_require_grant. by rewrite (inspect_agrees _ _ _ _ H Hn). Qed.

(** Recording the event after a write that has set one grant. *)
Lemma record_agrees n op t t' m id g e :
  grants_agree n t m -> in_range g n -> gr_grant_id g = id -> ge_grant_id e = id ->
  NoDup (map gw_grant_id (gt_rows t')) -> gt_events t' = gt_events t ->
  (forall i, find_row i t' = if i =s id then Some (grant_row g) else find_row i t) ->
  ge_event_id e ∉ map ge_event_id (gt_events t) ->
  exists t'', record op e t' = (Ok tt, t'') /\
    gt_events t'' = gt_events t ++ [e] /\
    grants_agree n t'' (record_grant_event e
      {| gs_grants := <[id := g]> (gs_grants m); gs_events := gs_events m |}).
Proof.
  intros H Hr Hid He Hnd Hev Hrows Hnew. unfold sqlite_record_event. rewrite Hev.
  assert (existsb (fun x => ge_event_id x =s ge_event_id e) (gt_events t) = false) as ->.
  { apply not_true_iff_false. intros (x & Hx & E%String.eqb_eq)%existsb_exists.
    apply Hnew. rewrite <- E. by apply list_elem_of_fmap_2, list_elem_of_In. }
  rewrite Hrows, He, String.eqb_refl. simpl. eexists. split_and!; [done|done|].
  constructor; simpl; [done| | |].
  - intros i. unfold find_row in *. simpl. rewrite Hrows.
    destruct (String.eqb_spec i id) as [->|Hne]; [by rewrite lookup_insert_eq|].
    rewrite lookup_insert_ne by done. apply H.
  - intros i g' Hg'. destruct (decide (i = id)) as [->|Hne].
    + rewrite lookup_insert_eq in Hg'. simplify_eq. done.
    + rewrite lookup_insert_ne in Hg' by done. by apply H.
  - intros i. rewrite List.filter_app, (ga_events _ _ _ H). simpl. rewrite He.
    destruct (String.eqb_spec id i) as [->|Hne]; [by rewrite lookup_insert_eq|].
    by rewrite lookup_insert_ne, app_nil_r by done.
Qed.

(** ** One call after another *)

Definition call_answer (p : Result EngineGrant * GrantTables) : Result (option EngineGrant) * GrantTables :=
  (let? g := fst p in Ok (Some g), snd p).
Definition memory_answer (m : GrantStore) (r : Result (EngineGrant * GrantStore))
  : Result (option EngineGrant) * GrantStore :=
  match r with Ok (g, m') => (Ok (Some g), m') | Err e => (Err e, m) end.

(** The calls of the store, with the instants and generated ids they use. *)
Inductive grant_call :=
| Call_Derive (now : instant) (generated uuid : string) (r : DeriveGrant)
| Call_Inspect (id : AuthorityGrantId)
| Call_Revoke (now : instant) (uuid : string) (id : AuthorityGrantId) (trace : TraceId)
| Call_Authorize (now : instant) (f : FunctionDefinition) (i : Invocation)
| Call_Consume (now : instant) (uuid : string) (r : ConsumeGrantInvocationBudget).
Definition call_uuids (c : grant_call) : list string :=
  match c with
  | Call_Derive _ _ uuid _ | Call_Revoke _ uuid _ _ | Call_Consume _ uuid _ => [uuid]
  | _ => []
  end.

Definition memory_call (c : grant_call) (m : GrantStore)
  : Result (option EngineGrant) * GrantStore :=
  match c with
  | Call_Derive now generated uuid r => memory_answer m (grant_derive fs now generated uuid r m)
  | Call_Inspect id => (grant_inspect id m, m)
  | Call_Revoke now uuid id trace => memory_answer m (grant_revoke now uuid id trace m)
  | Call_Authorize now f i =>
      memory_answer m (let? g := authorize_invocation debug sha256_hex fs now f i m in Ok (g, m))
  | Call_Consume now uuid r => memory_answer m (consume_invocation_budget now uuid r m)
  end.
Definition sqlite_call (c : grant_call) (t : GrantTables)
  : Result (option EngineGrant) * GrantTables :=
  match c with
  | Call_Derive now generated uuid r =>
      call_answer (sqlite_derive fs conversion_text unique_text foreign_text now generated uuid r t)
  | Call_Inspect id => (inspect id t, t)
  | Call_Revoke now uuid id trace =>
      call_answer (sqlite_revoke conversion_text range_text unique_text foreign_text now uuid id trace t)
  | Call_Authorize now f i =>
      call_answer (sqlite_authorize_invocation debug sha256_hex fs conversion_text now f i t, t)
  | Call_Consume now uuid r =>
      call_answer (sqlite_consume conversion_text unique_text foreign_text now uuid r t)
  end.
Fixpoint run_calls {S} (step : grant_call -> S -> Result (option EngineGrant) * S)
    (calls : list grant_call) (s : S) : list (Result (option EngineGrant)) * S :=
  match calls with
  | [] => ([], s)
  | c :: calls =>
      let '(a, s) := step c s in
      let '(l, s) := run_calls step calls s in (a :: l, s)
  end.

(** What one call does to both stores. *)
Definition call_agrees (n : Z) (c : grant_call) (t : GrantTables) (m : GrantStore) : Prop :=
  fst (sqlite_call c t) = fst (memory_call c m) /\
  grants_agree (n + 1) (snd (sqlite_call c t)) (snd (memory_call c m)) /\
  forall e, e ∈ gt_events (snd (sqlite_call c t)) ->
    e ∈ gt_events t \/ exists u, u ∈ call_uuids c /\ ge_event_id e = "grant_event_" +s u.

Lemma no_new_events n c t m :
  grants_agree n t m -> fst (sqlite_call c t) = fst (memory_call c m) ->
  snd (sqlite_call c t) = t -> snd (memory_call c m) = m -> call_agrees n c t m.
Proof.
  intros H Hf Ht Hm. unfold call_agrees. rewrite Ht, Hm. split_and!; [done| |by left].
  eapply agree_mono; [|done]. lia.
Qed.

Lemma derive_agrees n now generated uuid r t m :
  grants_agree n t m -> 1 <= n < i64_max -> unused uuid t ->
  call_agrees n (Call_Derive now generated uuid r) t m.
Proof.
  intros H Hn Hu. assert (n <= i64_max) as Hle by lia.
  assert (forall x, fst (sqlite_call (Call_Derive now generated uuid r) t) = Err x ->
    fst (memory_call (Call_Derive now generated uuid r) m) = Err x ->
    snd (sqlite_call (Call_Derive now generated uuid r) t) = t ->
    snd (memory_call (Call_Derive now generated uuid r) m) = m ->
    call_agrees n (Call_Derive now generated uuid r) t m) as Hfail
    by (intros; apply no_new_events; congruence).
  unfold call_agrees in *. simpl in *. unfold sqlite_derive, grant_derive in *.
  rewrite (require_agrees _ _ _ _ H Hle) in *.
  destruct (validate_derive_request now r) as [[]|]; [|by eapply Hfail].
  destruct (require_grant _ m) as [parent|]; [|by eapply Hfail].
  destruct (ensure_parent_can_derive now parent) as [[]|]; [|by eapply Hfail].
  destruct (ensure_child_narrows_parent fs parent r) as [[]|]; [|by eapply Hfail].
  set (id := default generated (dg_grant_id r)) in *. rewrite (inspect_agrees _ _ _ _ H Hle) in *.
  destruct (gs_grants m !! id) as [g|] eqn:Hg; [by eapply Hfail|]. clear Hfail. simpl.
  assert (find_row id t = None) as Hnone by by rewrite (ga_rows _ _ _ H), Hg.
  set (g := grant_from_request r id now 1). unfold insert_grant. simpl. rewrite Hnone. simpl.
  destruct (record_agrees n "grant.event" t (set_rows (gt_rows t ++ [grant_row g]) t) m id g
    (derived_event g uuid now) H) as (t'' & -> & He & Ha); try done.
  - unfold in_range. simpl. lia.
  - simpl. rewrite map_app. simpl. apply NoDup_app. split_and!; [apply H| |apply NoDup_singleton].
    intros i Hi ->%list_elem_of_singleton. by apply find_key_none in Hnone.
  - intros i. unfold find_row. simpl. rewrite find_key_app. simpl.
    destruct (String.eqb_spec i id) as [->|Hne].
    + unfold find_row in Hnone. by rewrite Hnone, String.eqb_refl.
    + destruct (find_key _ _ i) eqn:E; [done|]. by rewrite (proj2 (String.eqb_neq _ _) (not_eq_sym Hne)).
  - simpl. split_and!; [done|eapply agree_mono; [|exact Ha]; lia|].
    rewrite He. intros e [?| ->%list_elem_of_singleton]%elem_of_app; [by left|right].
    exists uuid. split; [by left|done].
Qed.

Lemma updated_row id f t g :
  (forall w, gw_grant_id (f w) = gw_grant_id w) -> find_row id t = Some (grant_row g) ->
  let t' := set_rows (map (fun w => if gw_grant_id w =s id then f w else w) (gt_rows t)) t in
  (NoDup (map gw_grant_id (gt_rows t)) -> NoDup (map gw_grant_id (gt_rows t'))) /\
  forall i, find_row i t' = if i =s id then Some (f (grant_row g)) else find_row i t.
Proof.
  intros Hf Hg. split; [simpl; by rewrite update_keys|]. intros i. unfold find_row. simpl.
  destruct (String.eqb_spec i id) as [->|Hne]; [by apply find_key_updated|].
  by apply find_key_other.
Qed.

Lemma revoke_agrees n now uuid id trace t m :
  grants_agree n t m -> 1 <= n < i64_max -> unused uuid t ->
  call_agrees n (Call_Revoke now uuid id trace) t m.
Proof.
  intros H Hn Hu. assert (n <= i64_max) as Hle by lia.
  pose proof (require_agrees _ _ _ id H Hle) as Hreq. pose proof (ga_rows _ _ _ H id) as Hrow.
  pose proof (ga_keys _ _ _ H id) as Hkey. unfold require_grant in Hreq.
  destruct (gs_grants m !! id) as [g|] eqn:Hg; simpl in Hreq.
  2: { apply no_new_events; [done|..]; simpl; unfold sqlite_revoke, grant_revoke, require_grant;
       by rewrite ?Hreq, ?Hg. }
  destruct (Hkey g eq_refl) as [Hid [Hlo Hhi]].
  destruct (decide (gr_lifecycle g <> Grant_Revoked)) as [Hl|Hl].
  2: { apply no_new_events; [done|..]; simpl; unfold sqlite_revoke, grant_revoke, require_grant;
       rewrite ?Hreq, ?Hg; simpl; by rewrite bool_decide_eq_false_2. }
  unfold call_agrees. simpl. unfold sqlite_revoke, grant_revoke, require_grant. rewrite Hreq, Hg. simpl.
  rewrite bool_decide_eq_true_2 by done. unfold write_revoked, update_grant. fold (revoked now g). simpl.
  rewrite wrapping_add_u64_small by (unfold u64_max, i64_max in *; lia).
  rewrite (proj2 (Z.ltb_ge _ _)) by lia. simpl. rewrite Hid.
  destruct (updated_row id (fun w => set_gw_state w "revoked" (gw_budget w) (gr_revision g + 1) now) t g)
    as [Hnd Hrows]; [done|done|].
  set (t' := set_rows (map _ (gt_rows t)) t) in Hnd, Hrows |- *.
  assert (grant_row (revoked now g)
    = set_gw_state (grant_row g) "revoked" (gw_budget (grant_row g)) (gr_revision g + 1) now) as Er.
  { unfold grant_row, revoked. simpl. unfold set_gw_state. simpl.
    rewrite wrapping_add_u64_small by (unfold u64_max, i64_max in *; lia).
    unfold u64_as_i64. by rewrite (proj2 (Z.leb_le _ _)) by lia. }
  rewrite <- Er in Hrows.
  destruct (record_agrees (n + 1) "grant.event" t t' m id (revoked now g)
    (grant_event id "grant.revoked" (VObject []) trace uuid now)
    (agree_mono n (n + 1) _ _ ltac:(lia) H)) as (t'' & -> & He & Ha); try done.
  - unfold in_range, revoked. simpl. rewrite wrapping_add_u64_small by (unfold u64_max, i64_max in *; lia). lia.
  - apply Hnd, H.
  - simpl. split_and!; [done|exact Ha|]. rewrite He.
    intros e [?| ->%list_elem_of_singleton]%elem_of_app; [by left|right]. exists uuid. split; [by left|done].
Qed.

(** A conditional update of one grant meets its row or none. *)
Lemma current_id id rev w : still_current id rev w = true -> gw_grant_id w = id.
Proof. unfold still_current. rewrite !andb_true_iff. by intros [[?%String.eqb_eq _] _]. Qed.
Lemma current_filter id rev rows w :
  NoDup (map gw_grant_id rows) -> find_key gw_grant_id rows id = Some w ->
  List.length (List.filter (still_current id rev) rows) = if still_current id rev w then 1%nat else 0%nat.
Proof.
  intros Hnd Hw. apply find_key_spec in Hw as [Hin Hid]; [|done].
  apply list_elem_of_split in Hin as (a & b & ->).
  rewrite map_app in Hnd. simpl in Hnd. apply NoDup_app in Hnd as (_ & Ha & [Hb _]%NoDup_cons).
  assert (forall l, gw_grant_id w ∉ map gw_grant_id l -> List.filter (still_current id rev) l = []) as Hno.
  { intros l Hl. apply filter_none. intros x Hx. apply not_true_iff_false. intros Hc%current_id.
    apply Hl. rewrite Hid, <- Hc. by apply list_elem_of_fmap_2. }
  rewrite List.filter_app, Hno by (intros Hx; apply (Ha _ Hx); left). simpl.
  rewrite (Hno b Hb). by destruct (still_current id rev w).
Qed.
Lemma current_update id rev f rows w :
  NoDup (map gw_grant_id rows) -> find_key gw_grant_id rows id = Some w -> still_current id rev w = true ->
  map (fun x => if still_current id rev x then f x else x) rows
  = map (fun x => if gw_grant_id x =s id then f x else x) rows.
Proof.
  intros Hnd [Hin Hid]%find_key_spec Hc; [|done]. apply map_ext_in. intros x Hx%list_elem_of_In.
  destruct (String.eqb_spec (gw_grant_id x) id) as [E|Hne].
  - assert (x = w) as ->; [|by rewrite Hc].
    assert (find_key gw_grant_id rows id = Some x) as E1 by by apply find_key_spec.
    assert (find_key gw_grant_id rows id = Some w) as E2 by by apply find_key_spec. congruence.
  - destruct (still_current id rev x) eqn:Hcx; [|done]. by apply current_id in Hcx.
Qed.

Lemma consume_agrees n now uuid r t m :
  grants_agree n t m -> 1 <= n < i64_max -> unused uuid t ->
  call_agrees n (Call_Consume now uuid r) t m.
Proof.
  intros H Hn Hu. assert (n <= i64_max) as Hle by lia. set (id := cb_grant_id r).
  pose proof (require_agrees _ _ _ id H Hle) as Hreq. pose proof (ga_rows _ _ _ H id) as Hrow.
  pose proof (ga_keys _ _ _ H id) as Hkey. unfold require_grant in Hreq.
  assert (forall o, consume_read conversion_text now r t = o ->
    match o with Ok (_, Some _) => False | _ => True end ->
    memory_answer m (consume_invocation_budget now uuid r m)
      = (let? p := o in Ok (Some (fst p)), m) ->
    call_agrees n (Call_Consume now uuid r) t m) as Hkeep.
  { intros o Ho Hnone E. apply no_new_events; [done|..]; simpl; rewrite ?E; unfold sqlite_consume;
      rewrite ?Ho; by destruct o as [[? [?|]]|]. }
  unfold consume_read, consume_invocation_budget, require_grant in Hkeep. fold id in Hkeep.
  rewrite Hreq in Hkeep. destruct (gs_grants m !! id) as [g|] eqn:Hg; simpl in Hkeep; [|by eapply Hkeep].
  destruct (ensure_grant_can_consume now g) as [[]|] eqn:Hc; [|by eapply Hkeep].
  destruct (remaining_invocations (gr_budget g)) as [remaining|] eqn:Hrem; [|by eapply Hkeep].
  destruct (remaining =? 0) eqn:Hz; [by eapply Hkeep|]. clear Hkeep.
  destruct (Hkey g eq_refl) as [Hid [Hlo Hhi]]. simpl in Hrow, Hreq.
  assert (exists budget, set_remaining_invocations (gr_budget g) (remaining - 1) = Ok budget) as [budget Hb].
  { unfold remaining_invocations in Hrem. destruct (gr_budget g); try done. by eexists. }
  assert (gr_lifecycle g = Grant_Active) as Hl.
  { unfold ensure_grant_can_consume in Hc. case_bool_decide; [done|]. by destruct (gr_lifecycle g). }
  assert (still_current id (gr_revision g) (grant_row g) = true) as Hcur.
  { unfold still_current. simpl. by rewrite Hid, Hl, String.eqb_refl, Z.eqb_refl. }
  unfold call_agrees. simpl. unfold sqlite_consume, consume_read, consume_invocation_budget, require_grant.
  fold id. rewrite Hreq, Hg. simpl. rewrite Hc, Hrem, Hz. unfold consume_commit. rewrite Hb. fold id.
  rewrite (current_filter id _ _ (grant_row g)), Hcur by (apply H || done). simpl.
  rewrite (current_update id _ _ _ (grant_row g)) by (apply H || done).
  rewrite wrapping_add_u64_small by (unfold u64_max, i64_max in *; lia).
  set (g' := set_gr_state g _ _ _ _).
  set (f := fun w => set_gw_state w (gw_lifecycle w) budget (u64_as_i64 (gr_revision g + 1)) now).
  destruct (updated_row id f t g) as [Hnd Hrows]; [done|done|]. change (f (grant_row g)) with (grant_row g') in Hrows.
  set (t' := set_rows (map _ (gt_rows t)) t) in Hnd, Hrows |- *.
  set (e := consumed_event r remaining (gr_revision g) (gr_revision g + 1) uuid now).
  destruct (record_agrees (n + 1) "grant.consume.event" t t' m id g' e
    (agree_mono n (n + 1) _ _ ltac:(lia) H)) as (t'' & -> & He & Ha); try done.
  - unfold in_range. simpl. lia.
  - apply Hnd, H.
  - simpl. split_and!; [done|exact Ha|]. rewrite He.
    intros x [?| ->%list_elem_of_singleton]%elem_of_app; [by left|right]. exists uuid. split; [by left|done].
Qed.

Lemma call_ok n c t m :
  grants_agree n t m -> 1 <= n < i64_max -> (forall u, u ∈ call_uuids c -> unused u t) ->
  call_agrees n c t m.
Proof.
  intros H Hn Hu. destruct c as [now gen uuid r|id|now uuid id trace|now f i|now uuid r]; simpl in Hu.
  - apply derive_agrees; [done|done|]. apply Hu. by left.
  - apply no_new_events; [done| |done|done]. simpl. apply (inspect_agrees n); [done|lia].
  - apply revoke_agrees; [done|done|]. apply Hu. by left.
  - apply no_new_events; [done|..]; simpl; unfold sqlite_authorize_invocation, authorize_invocation;
      rewrite ?(require_agrees n t m) by (done || lia); by repeat case_match; simplify_eq/=.
  - apply consume_agrees; [done|done|]. apply Hu. by left.
Qed.

Notation run_sqlite := (run_calls sqlite_call).
Notation run_memory := (run_calls memory_call).

Lemma run_agrees calls : forall n t m,
  grants_agree n t m -> 1 <= n -> n + Z.of_nat (List.length calls) <= i64_max ->
  NoDup (List.concat (map call_uuids calls)) ->
  (forall u, u ∈ List.concat (map call_uuids calls) -> unused u t) ->
  fst (run_sqlite calls t) = fst (run_memory calls m) /\
  grants_agree i64_max (snd (run_sqlite calls t)) (snd (run_memory calls m)).
Proof.
  induction calls as [|c calls IH]; intros n t m H Hn Hlen Hnd Hu; cbn [run_calls].
  - split; [done|]. eapply agree_mono; [|exact H]. simpl in Hlen. lia.
  - cbn [map List.concat List.length] in *. apply NoDup_app in Hnd as (_ & Hdis & Hnd).
    destruct (call_ok n c t m H) as (Ha & Hag & Hev); [lia|intros u ?; apply Hu, elem_of_app; by left|].
    destruct (sqlite_call c t) as [a t'], (memory_call c m) as [a' m']. simpl in Ha, Hag, Hev. subst a'.
    destruct (IH (n + 1) t' m' Hag) as [E Hf]; [lia|lia|done| |].
    + intros u Hin (e & Ee & He)%list_elem_of_fmap. destruct (Hev e He) as [Hold|(v & Hv & E)].
      * apply (Hu u); [apply elem_of_app; by right|]. rewrite Ee. by apply list_elem_of_fmap_2.
      * rewrite E in Ee. apply str_app_inj_l in Ee. subst v. by apply (Hdis u).
    + destruct (run_sqlite calls t') as [l t''], (run_memory calls m') as [l' m'']. simpl in *. by subst.
Qed.

(** *** Opening an empty database *)

Lemma seed_agrees now ids : forall t m,
  grants_agree 1 t m -> NoDup ids -> (forall i, i ∈ ids -> gs_grants m !! i = None) ->
  exists t', fold_left (seed_grant conversion_text unique_text now) ids (Ok tt, t) = (Ok tt, t') /\
    gt_events t' = gt_events t /\
    grants_agree 1 t' {| gs_grants := fold_left (fun m id => <[id := bootstrap_grant id now]> m)
                                        ids (gs_grants m); gs_events := gs_events m |}.
Proof.
  induction ids as [|i ids IH]; intros t m H Hnd Hnew; [by exists t; destruct m|].
  apply NoDup_cons in Hnd as [Hi Hnd]. simpl. rewrite (inspect_agrees 1 t m) by (done || (unfold i64_max; lia)).
  assert (gs_grants m !! i = None) as Hnone by (apply Hnew; by left). rewrite Hnone. unfold insert_grant. simpl.
  assert (find_row i t = None) as Hr by by rewrite (ga_rows _ _ _ H), Hnone. rewrite Hr. simpl.
  set (m' := {| gs_grants := <[i := bootstrap_grant i now]> (gs_grants m); gs_events := gs_events m |}).
  apply (IH (set_rows (gt_rows t ++ [grant_row (bootstrap_grant i now)]) t) m'); [|done|].
  - constructor; simpl.
    + rewrite map_app. simpl. apply NoDup_app. split_and!; [apply H| |apply NoDup_singleton].
      intros j Hj ->%list_elem_of_singleton. by apply find_key_none in Hr.
    + intros j. unfold find_row in *. simpl. rewrite find_key_app. simpl.
      destruct (String.eqb_spec i j) as [->|Hne]; [by rewrite Hr, lookup_insert_eq|].
      rewrite lookup_insert_ne by done. rewrite <- (ga_rows _ _ _ H j). unfold find_row.
      by destruct (find_key _ _ j).
    + intros j g Hj. destruct (decide (i = j)) as [->|Hne].
      * rewrite lookup_insert_eq in Hj. simplify_eq. split; [done|]. by unfold in_range.
      * rewrite lookup_insert_ne in Hj by done. by apply H.
    + apply H.
  - intros j Hj. simpl. rewrite lookup_insert_ne by (intros ->; done). apply Hnew. by right.
Qed.

Lemma open_agrees now :
  exists t, sqlite_open conversion_text unique_text now no_grants = Ok t /\ gt_events t = [] /\
    grants_agree 1 t (grant_store_new now).
Proof.
  destruct (seed_agrees now BOOTSTRAP_GRANT_IDS no_grants {| gs_grants := ∅; gs_events := ∅ |})
    as (t & Ht & He & Ha).
  - constructor; simpl; [apply NoDup_nil_2| |by intros ? ? ?%lookup_empty_Some|]; intros id; by rewrite lookup_empty.
  - apply (bool_decide_unpack _). vm_compute. done.
  - intros. apply lookup_empty.
  - exists t. unfold sqlite_open, sqlite_seed_bootstrap_grants. rewrite Ht. split_and!; [done|exact He|exact Ha].
Qed.

(** *** Listing *)

Definition listed (f : ListGrants) (g : EngineGrant) : bool :=
  match lg_parent_grant_id f with
  | Some p => bool_decide (gr_parent_grant_id g = Some p)
  | None => true
  end
  && match lg_lifecycle f with
     | Some l => bool_decide (gr_lifecycle g = l)
     | None => true
     end.

Lemma list_rows_spec f gs : forall room,
  (0 < room)%nat -> Forall (fun g => in_range g i64_max) gs ->
  list_rows conversion_text f room (map grant_row gs) = Ok (take room (List.filter (listed f) gs)).
Proof.
  induction gs as [|g gs IH]; intros room Hroom Hall; [by destruct room|].
  apply Forall_cons in Hall as [Hg Hall]. cbn [map list_rows List.filter]. rewrite grant_row_roundtrip by done.
  assert (forall X Y : Result (list EngineGrant),
    (if match lg_parent_grant_id f with
        | Some parent => bool_decide (gr_parent_grant_id g <> Some parent) | None => false end then X
     else if match lg_lifecycle f with
             | Some lifecycle => bool_decide (gr_lifecycle g <> lifecycle) | None => false end then X
     else Y) = if listed f g then Y else X) as ->.
  { intros X Y. unfold listed. destruct (lg_parent_grant_id f), (lg_lifecycle f);
      repeat case_bool_decide; simpl; congruence || done. }
  rewrite (IH room) by done. destruct (listed f g); [|done].
  destruct room as [|[|room]]; [lia|done|]. cbn [Nat.leb].
  rewrite IH by (done || lia). by rewrite Nat.sub_succ, Nat.sub_0_r.
Qed.

Lemma values_ids t m :
  grants_agree i64_max t m -> map gr_grant_id (btree_values (gs_grants m)) = btree_keys (gs_grants m).
Proof.
  intros H. unfold btree_values, btree_keys. rewrite map_map. apply map_ext_in.
  intros [k g] Hk%list_elem_of_In%elem_of_btree_entries. by apply (ga_keys _ _ _ H).
Qed.
Lemma rows_values t m :
  grants_agree i64_max t m -> map grant_row (btree_values (gs_grants m)) ≡ₚ gt_rows t.
Proof.
  intros H. apply NoDup_Permutation.
  - apply (NoDup_fmap_1 gw_grant_id). change (_ <$> ?l) with (map gw_grant_id l). rewrite map_map.
    change (map _ _) with (map gr_grant_id (btree_values (gs_grants m))).
    rewrite (values_ids t) by done. apply btree_keys_nodup.
  - apply (NoDup_fmap_1 gw_grant_id), H.
  - intros w. rewrite list_elem_of_fmap. split.
    + intros (g & -> & [k Hk]%elem_of_btree_values).
      apply (find_key_spec gw_grant_id _ k); [apply H|]. fold (find_row k t).
      by rewrite (ga_rows _ _ _ H), Hk.
    + intros Hw. assert (find_row (gw_grant_id w) t = Some w) as E.
      { apply find_key_spec; [apply H|done]. }
      rewrite (ga_rows _ _ _ H) in E. destruct (gs_grants m !! _) as [g|] eqn:Hg; [|done].
      exists g. split; [by injection E|]. apply elem_of_btree_values. by eexists.
Qed.

(** With room for all of them, both stores list the same grants. *)
Lemma list_agrees t m rows f :
  grants_agree i64_max t m -> rows ≡ₚ gt_rows t -> Z.of_nat (size (gs_grants m)) <= lg_limit f ->
  0 < lg_limit f ->
  exists l l', sqlite_list conversion_text rows f = Ok l /\ grant_list f m = Ok l' /\ l ≡ₚ l'.
Proof.
  intros H Hp Hsize Hpos. set (gs := btree_values (gs_grants m)).
  assert (map grant_row gs ≡ₚ rows) as Hrows.
  { rewrite Hp. by apply rows_values. }
  assert (Forall (fun g => in_range g i64_max) gs) as Hall.
  { apply Forall_forall. intros g [k Hk]%elem_of_btree_values. by apply (ga_keys _ _ _ H k). }
  symmetry in Hrows. apply Permutation_map_inv in Hrows as (gs' & -> & Hgs). unfold sqlite_list, grant_list.
  assert (forall A (l : list A), (List.length l <= List.length gs)%nat -> take (Z.to_nat (lg_limit f)) l = l) as Htake.
  { intros A l Hl. apply take_ge. assert (List.length gs = size (gs_grants m)) as E; [|lia].
    unfold gs, btree_values. rewrite length_map, btree_entries_perm. apply length_map_to_list. }
  unfold validate_list_limit. rewrite (proj2 (Z.eqb_neq _ _)) by lia.
  rewrite list_rows_spec; [|lia|by rewrite <- Hgs].
  eexists _, _. split_and!; [done|done|]. fold gs. change (fun g => _) with (listed f).
  rewrite !Htake; [by rewrite Hgs|apply List.filter_length_le|rewrite Hgs; apply List.filter_length_le].
Qed.

(** C21: After opening an empty database, every sequence of deriving, inspecting, revoking,
    authorizing and spending with fresh event ids gets from the SQLite grant store the
    answers of the in-memory store, and listings that have room for every grant hold the
    same grants in both. *)
Theorem sqlite_grants_answer_as_memory now calls t :
  sqlite_open conversion_text unique_text now no_grants = Ok t ->
  NoDup (List.concat (map call_uuids calls)) -> Z.of_nat (List.length calls) < i64_max ->
  let t' := snd (run_sqlite calls t) in
  let m' := snd (run_memory calls (grant_store_new now)) in
  fst (run_sqlite calls t) = fst (run_memory calls (grant_store_new now)) /\
  forall rows f, rows ≡ₚ gt_rows t' -> 0 < lg_limit f -> Z.of_nat (size (gs_grants m')) <= lg_limit f ->
    exists l l', sqlite_list conversion_text rows f = Ok l /\ grant_list f m' = Ok l' /\ l ≡ₚ l'.
Proof.
  intros Ho Hnd Hlen t' m'. destruct (open_agrees now) as (t0 & E & He & Ha).
  rewrite Ho in E. injection E as <-.
  destruct (run_agrees calls 1 t (grant_store_new now) Ha) as [Hr Hag]; [lia|lia|done| |].
  - intros u _. unfold unused. rewrite He. apply not_elem_of_nil.
  - split; [exact Hr|]. intros rows f Hp Hpos Hsize. by eapply list_agrees.
Qed.
End refinement.

(** ** Connections that spend at the same time

    A spending call reads the grant and then commits its transaction; a
    revocation reads the grant and then writes it; a derivation inserts a new row.
    Between the two, statements of other connections may run. *)

Record Pending := {
  pe_request : ConsumeGrantInvocationBudget;
  pe_grant : EngineGrant;
  pe_remaining : Z
}.
Record Shared := {
  sh_tables : GrantTables;
  sh_spending : list Pending;
  sh_revoking : list EngineGrant;
  (** the grants from which a call has spent, one entry for each *)
  sh_spent : list AuthorityGrantId
}.

Section connections.
  Variable conversion_text : EngineError -> string.
  Variable range_text : Z -> string.
  Variable unique_text : string -> string.
  Variable foreign_text : string.

Inductive shared_step : Shared -> Shared -> Prop :=
| shared_spend_read now r t g remaining pending revoking spent :
    consume_read conversion_text now r t = Ok (g, Some remaining) ->
    shared_step
      {| sh_tables := t; sh_spending := pending; sh_revoking := revoking; sh_spent := spent |}
      {| sh_tables := t; sh_revoking := revoking; sh_spent := spent;
         sh_spending := {| pe_request := r; pe_grant := g; pe_remaining := remaining |} :: pending |}
| shared_spend_commit now uuid p t answer t' pending pending' revoking spent :
    pending ≡ₚ p :: pending' ->
    consume_commit unique_text foreign_text now uuid (pe_request p) (pe_grant p) (pe_remaining p) t
      = (answer, t') ->
    shared_step
      {| sh_tables := t; sh_spending := pending; sh_revoking := revoking; sh_spent := spent |}
      {| sh_tables := t'; sh_spending := pending'; sh_revoking := revoking;
         sh_spent := match answer with
                     | Ok _ => cb_grant_id (pe_request p) :: spent
                     | Err _ => spent end |}
| shared_revoke_read id t g pending revoking spent :
    sqlite_require_grant conversion_text id t = Ok g ->
    shared_step
      {| sh_tables := t; sh_spending := pending; sh_revoking := revoking; sh_spent := spent |}
      {| sh_tables := t; sh_spending := pending; sh_revoking := g :: revoking; sh_spent := spent |}
| shared_revoke_write now uuid g trace t answer t' pending revoking spent :
    g ∈ revoking ->
    write_revoked range_text unique_text foreign_text now uuid (gr_grant_id g) trace g t = (answer, t') ->
    shared_step
      {| sh_tables := t; sh_spending := pending; sh_revoking := revoking; sh_spent := spent |}
      {| sh_tables := t'; sh_spending := pending; sh_revoking := revoking; sh_spent := spent |}
| shared_derive_write uuid now g t answer t' pending revoking spent :
    then_event unique_text foreign_text g (derived_event g uuid now) (insert_grant unique_text g t)
      = (answer, t') ->
    shared_step
      {| sh_tables := t; sh_spending := pending; sh_revoking := revoking; sh_spent := spent |}
      {| sh_tables := t'; sh_spending := pending; sh_revoking := revoking; sh_spent := spent |}.

Definition spent_from (id : AuthorityGrantId) (st : Shared) : Z :=
  Z.of_nat (count_occ string_dec (sh_spent st) id).

(** [n] calls may be spent from revision [rev0] on. *)
Record budget_inv (id : AuthorityGrantId) (n rev0 : Z) (st : Shared) : Prop := {
  bi_nodup : NoDup (map gw_grant_id (gt_rows (sh_tables st)));
  bi_row : exists w, find_row id (sh_tables st) = Some w /\
    remaining_invocations (gw_budget w) = Some (n - spent_from id st) /\
    spent_from id st <= n /\
    (gw_lifecycle w = "active" ->
       gw_revision w = rev0 + spent_from id st /\
       forall p, p ∈ sh_spending st -> cb_grant_id (pe_request p) = id ->
         rev0 <= gr_revision (pe_grant p) <= rev0 + spent_from id st /\
         (gr_revision (pe_grant p) = rev0 + spent_from id st ->
          gr_budget (pe_grant p) = gw_budget w /\ pe_remaining p = n - spent_from id st /\
          0 < pe_remaining p))
}.

Lemma record_rows op e t r t' :
  sqlite_record_event unique_text foreign_text op e t = (r, t') -> gt_rows t' = gt_rows t.
Proof. unfold sqlite_record_event. intros H. repeat case_match; by simplify_eq. Qed.
Lemma then_event_rows g e p r t' :
  then_event unique_text foreign_text g e p = (r, t') -> gt_rows t' = gt_rows (snd p).
Proof.
  unfold then_event. intros H. destruct p as [[[]|] t]; simplify_eq; [|done].
  destruct (sqlite_record_event _ _ _ _ _) as [[[]|] t''] eqn:E; simplify_eq; exact (record_rows _ _ _ _ _ E).
Qed.

(** A committed spending call has met the row it had read. *)
Lemma commit_ok now uuid r g remaining t answer t' :
  consume_commit unique_text foreign_text now uuid r g remaining t = (answer, t') ->
  match answer with
  | Err _ => t' = t
  | Ok _ => exists budget,
      set_remaining_invocations (gr_budget g) (remaining - 1) = Ok budget /\
      List.length (List.filter (still_current (cb_grant_id r) (gr_revision g)) (gt_rows t)) = 1%nat /\
      gt_rows t' = map (fun w => if still_current (cb_grant_id r) (gr_revision g) w
                                 then set_gw_state w (gw_lifecycle w) budget
                                        (u64_as_i64 (wrapping_add_u64 (gr_revision g) 1)) now
                                 else w) (gt_rows t)
  end.
Proof.
  unfold consume_commit. destruct (set_remaining_invocations _ _) as [budget|]; [|intros; by simplify_eq].
  destruct (Nat.eqb _ 1) eqn:Hlen; simpl; [|intros; by simplify_eq].
  apply Nat.eqb_eq in Hlen. destruct (sqlite_record_event _ _ _ _ _) as [[[]|] t''] eqn:E; intros; simplify_eq; [|done].
  exists budget. split_and!; [done|done|]. exact (record_rows _ _ _ _ _ E).
Qed.

Lemma spent_budget b remaining b' :
  set_remaining_invocations b remaining = Ok b' -> remaining_invocations b' = Some remaining.
Proof.
  unfold set_remaining_invocations, remaining_invocations. destruct b; try done. intros [= <-]. simpl.
  by rewrite obj_get_insert_eq.
Qed.

Section budget.
  Variable id : AuthorityGrantId.
  Variables n rev0 : Z.
  Hypothesis Hrev : 0 <= rev0.
  Hypothesis Hmax : rev0 + n <= i64_max.

(** Rows of other grants may change, and the row of the grant may be revoked. *)
Lemma budget_rows st t' :
  budget_inv id n rev0 st -> NoDup (map gw_grant_id (gt_rows t')) ->
  (forall w, find_row id (sh_tables st) = Some w ->
     find_row id t' = Some w \/
     exists rev now, find_row id t' = Some (set_gw_state w "revoked" (gw_budget w) rev now)) ->
  budget_inv id n rev0 {| sh_tables := t'; sh_spending := sh_spending st;
                          sh_revoking := sh_revoking st; sh_spent := sh_spent st |}.
Proof.
  intros [Hnd (w & Hw & Hrem & Hle & Hact)] Hnd' Hrow. constructor; [done|]. simpl.
  destruct (Hrow w Hw) as [E|(rev & now & E)]; [by exists w|].
  eexists. split_and!; [exact E|done|done|]. by intros.
Qed.

(** Pending calls may give up. *)
Lemma budget_fewer st pending :
  budget_inv id n rev0 st -> (forall p, p ∈ pending -> p ∈ sh_spending st) ->
  budget_inv id n rev0 {| sh_tables := sh_tables st; sh_spending := pending;
                          sh_revoking := sh_revoking st; sh_spent := sh_spent st |}.
Proof.
  intros [Hnd (w & Hw & Hrem & Hle & Hact)] Hp. constructor; [done|]. exists w. split_and!; try done.
  intros Ha. destruct (Hact Ha) as [Hr Hall]. split; [done|]. simpl. eauto.
Qed.

Lemma budget_read now r g remaining st :
  budget_inv id n rev0 st -> consume_read conversion_text now r (sh_tables st) = Ok (g, Some remaining) ->
  budget_inv id n rev0
    {| sh_tables := sh_tables st; sh_revoking := sh_revoking st; sh_spent := sh_spent st;
       sh_spending := {| pe_request := r; pe_grant := g; pe_remaining := remaining |} :: sh_spending st |}.
Proof.
  intros [Hnd (w & Hw & Hrem & Hle & Hact)] Hread. constructor; [done|]. exists w. split_and!; try done.
  intros Ha. destruct (Hact Ha) as [Hr Hall]. split; [done|]. simpl.
  intros p [->|Hp]%elem_of_cons Hid; [|by apply Hall]. simpl in Hid |- *. subst id.
  unfold consume_read, sqlite_require_grant, sqlite_inspect in Hread. rewrite Hw in Hread.
  destruct (row_to_grant w) as [g0|] eqn:Hg; [|done]. simpl in Hread.
  destruct (ensure_grant_can_consume now g0) as [[]|]; [|done].
  destruct (remaining_invocations (gr_budget g0)) as [k|] eqn:Hk; [|done].
  destruct (Z.eqb_spec k 0) as [|Hz]; [done|]. simplify_eq.
  unfold row_to_grant in Hg. destruct (grant_lifecycle_parse _); [|done].
  destruct (grant_parse_risk _); [|done]. injection Hg as <-. simpl in Hk |- *.
  assert (i64_as_u64 (gw_revision w) = gw_revision w) as ->.
  { unfold i64_as_u64, spent_from, i64_max in *. apply Z.mod_small. lia. }
  rewrite Hk in Hrem. injection Hrem as Hrem. unfold spent_from in *. simpl. split_and!; [lia|lia|].
  intros _. split_and!; [done|lia|lia].
Qed.

Lemma budget_commit now uuid p st answer t' pending :
  budget_inv id n rev0 st -> sh_spending st ≡ₚ p :: pending ->
  consume_commit unique_text foreign_text now uuid (pe_request p) (pe_grant p) (pe_remaining p)
    (sh_tables st) = (Ok answer, t') ->
  budget_inv id n rev0
    {| sh_tables := t'; sh_spending := pending; sh_revoking := sh_revoking st;
       sh_spent := cb_grant_id (pe_request p) :: sh_spent st |}.
Proof.
  intros Hinv Hp Hc. pose proof Hinv as [Hnd (w & Hw & Hrem & Hle & Hact)].
  apply commit_ok in Hc as (budget & Hb & Hlen & Hrows).
  set (rid := cb_grant_id (pe_request p)) in *. set (g := pe_grant p) in *.
  assert (NoDup (map gw_grant_id (gt_rows t'))) as Hnd'.
  { rewrite Hrows, map_map. erewrite map_ext; [exact Hnd|]. intros x. by destruct (still_current _ _ x). }
  constructor; [done|]. simpl. destruct (decide (rid = id)) as [E|Hne].
  - rewrite E in *.
    rewrite (current_filter id _ _ w Hnd Hw) in Hlen. destruct (still_current id _ w) eqn:Hcur; [|done].
    rewrite (current_update id _ _ _ w Hnd Hw Hcur) in Hrows.
    assert (find_row id t' = Some (set_gw_state w (gw_lifecycle w) budget
      (u64_as_i64 (wrapping_add_u64 (gr_revision g) 1)) now)) as Hw'.
    { unfold find_row. rewrite Hrows. apply (find_key_updated gw_grant_id id
        (fun x => set_gw_state x (gw_lifecycle x) budget _ now)); done. }
    unfold still_current in Hcur. rewrite !andb_true_iff in Hcur.
    destruct Hcur as [[_ Ha%String.eqb_eq] Er%Z.eqb_eq]. destruct (Hact Ha) as [Hr Hall].
    destruct (Hall p) as [Hgr Heq]; [rewrite Hp; by left|done|]. fold g in Hgr, Heq.
    assert (u64_as_i64 (gr_revision g) = gr_revision g) as E1.
    { unfold u64_as_i64. by rewrite (proj2 (Z.leb_le _ _)) by lia. }
    destruct Heq as (Eb & Erem & Hpos); [lia|].
    assert (spent_from id {| sh_tables := t'; sh_spending := pending; sh_revoking := sh_revoking st;
       sh_spent := id :: sh_spent st |} = spent_from id st + 1) as ->.
    { unfold spent_from. simpl. destruct (string_dec id id); [lia|done]. }
    eexists. split_and!; [exact Hw'| |lia|].
    + simpl. rewrite (spent_budget _ _ _ Hb). f_equal. lia.
    + simpl. intros _. rewrite wrapping_add_u64_small by (unfold u64_max, i64_max in *; lia).
      unfold u64_as_i64. rewrite (proj2 (Z.leb_le _ _)) by lia. split; [lia|].
      intros q Hq Hqid. destruct (Hall q) as [Hq1 _]; [rewrite Hp; by right|done|]. split; [lia|]. lia.
  - assert (spent_from id {| sh_tables := t'; sh_spending := pending; sh_revoking := sh_revoking st;
       sh_spent := rid :: sh_spent st |} = spent_from id st) as ->.
    { unfold spent_from. simpl. by destruct (string_dec rid id). }
    exists w. split_and!; try done.
    + unfold find_row in *. rewrite Hrows. apply find_key_spec; [by rewrite Hrows in Hnd'|].
      apply find_key_spec in Hw as [Hin Hid]; [|done]. split; [|done].
      apply list_elem_of_fmap. exists w. split; [|done].
      destruct (still_current rid _ w) eqn:Hcur; [|done]. apply current_id in Hcur. congruence.
    + intros Ha. destruct (Hact Ha) as [Hr Hall]. split; [done|]. intros q Hq Hqid.
      apply Hall; [rewrite Hp; by right|done].
Qed.

Lemma budget_step st st' : budget_inv id n rev0 st -> shared_step st st' -> budget_inv id n rev0 st'.
Proof.
  intros Hinv Hs. pose proof Hinv as [Hnd _].
  destruct Hs as [now r t g k pending revoking spent Hr|now uuid p t answer t' pending pending' revoking spent Hp Hc
                 |i t g pending revoking spent Hr|now uuid g trace t answer t' pending revoking spent Hg Hw
                 |uuid now g t answer t' pending revoking spent Hi]; simpl in Hnd.
  - exact (budget_read _ _ _ _ _ Hinv Hr).
  - destruct answer as [a|e]; [exact (budget_commit _ _ _ _ _ _ _ Hinv Hp Hc)|].
    apply commit_ok in Hc as ->. apply (budget_fewer _ pending' Hinv). intros q Hq. simpl. rewrite Hp. by right.
  - destruct Hinv as [Hn Hw]. by constructor.
  - apply then_event_rows in Hw. unfold update_grant in Hw. destruct (i64_max <? _) in Hw; simpl in Hw.
    + apply (budget_rows _ t' Hinv); [by rewrite Hw|]. left. unfold find_row in *. by rewrite Hw.
    + apply (budget_rows _ t' Hinv); [rewrite Hw; by rewrite update_keys|].
      intros w Hwr. unfold find_row in *. simpl in Hwr. rewrite Hw.
      destruct (decide (gr_grant_id g = id)) as [->|Hne].
      * right. eexists _, _. by apply (find_key_updated gw_grant_id id (fun x => set_gw_state x _ _ _ _)).
      * left. by rewrite find_key_other.
  - apply then_event_rows in Hi. unfold insert_grant in Hi.
    destruct (find_row (gr_grant_id g) t) eqn:E; simpl in Hi;
      (apply (budget_rows _ t' Hinv); [rewrite Hi|unfold find_row in *; rewrite Hi]); simpl; [done|by left| |].
    + rewrite map_app. simpl. apply NoDup_app. split_and!; [done| |apply NoDup_singleton].
      intros i Hin ->%list_elem_of_singleton. by apply find_key_none in E.
    + intros w Hw. left. by rewrite find_key_app, Hw.
Qed.
End budget.

(** C20: Spending from a stored grant is a read and a later commit, which any number of
    callers interleave with revocations and derivations: at every moment the remaining
    budget is the initial one less the spends that succeeded, so a limited budget is never
    overspent however stale the reads are, and once the grant is no longer active nothing
    more is spent from it. *)
Theorem concurrent_spending_is_exact id n g t st :
  NoDup (map gw_grant_id (gt_rows t)) -> find_row id t = Some (grant_row g) ->
  remaining_invocations (gr_budget g) = Some n -> 0 <= n ->
  0 <= gr_revision g -> gr_revision g + n <= i64_max ->
  rtc shared_step {| sh_tables := t; sh_spending := []; sh_revoking := []; sh_spent := [] |} st ->
  exists w, find_row id (sh_tables st) = Some w /\
    remaining_invocations (gw_budget w) = Some (n - spent_from id st) /\ spent_from id st <= n /\
    forall st', shared_step st st' -> gw_lifecycle w <> "active" -> spent_from id st' = spent_from id st.
Proof.
  intros Hnd Hrow Hrem Hn Hrev Hmax Hst.
  assert (budget_inv id n (gr_revision g) st) as [Hnd' (w & Hw & Hr & Hle & _)].
  { revert Hst. apply (rtc_ind_r (budget_inv id n (gr_revision g))).
    - constructor; [done|]. exists (grant_row g). split_and!; [done|simpl; rewrite Hrem; f_equal; unfold spent_from; simpl; lia|done|].
      intros _. split; [|by intros ? ?%not_elem_of_nil]. simpl. unfold u64_as_i64.
      rewrite (proj2 (Z.leb_le _ _)) by lia. unfold spent_from. simpl. lia.
    - intros y z _ Hs Hy. by eapply budget_step. }
  exists w. split_and!; [done|done|done|]. intros st' Hs Hl. destruct Hs; try done.
  unfold spent_from. simpl. destruct answer as [a|]; [|done]. simpl.
  destruct (string_dec _ id) as [E|]; [|done].
  match goal with H : consume_commit _ _ _ _ _ _ _ _ = _ |- _ =>
    apply commit_ok in H as (b & _ & Hlen & _) end.
  simpl in Hnd', Hw. rewrite E, (current_filter id _ _ w Hnd' Hw) in Hlen.
  destruct (still_current id _ w) eqn:Hc; [|done]. unfold still_current in Hc.
  rewrite !andb_true_iff in Hc. by destruct Hc as [[_ ?%String.eqb_eq] _].
Qed.
End connections.

(** ** Samples *)

Definition show_error (e : EngineError) : string := "error".
Definition show_range (z : Z) : string := "out of range".
Definition quote_name (s : string) : string := s.
Definition opened : GrantTables :=
  match sqlite_open show_error quote_name 0 no_grants with Ok t => t | Err _ => no_grants end.
Definition spend_once : ConsumeGrantInvocationBudget :=
  {| cb_grant_id := "child"; cb_invocation_id := "i"; cb_function_id := "f::g"; cb_trace_id := "t" |}.
Definition sample_calls : list grant_call :=
  [Call_Derive 1 "gen" "u1" (sample_derive "child" "grant" one_call);
   Call_Consume 2 "u2" spend_once; Call_Consume 3 "u3" spend_once; Call_Revoke 4 "u4" "child" "t";
   Call_Inspect "child"].
Notation sample_run := (run_calls (sqlite_call quote_name quote_name sample_fs show_error show_range
  quote_name "foreign key")).

Lemma sqlite_grants_answer_as_memory_witness :
  fst (sample_run sample_calls opened)
  = fst (run_calls (memory_call quote_name quote_name sample_fs) sample_calls (grant_store_new 0)) /\
  map is_ok (fst (sample_run sample_calls opened)) = [true; true; false; true; true].
Proof.
  split; [|vm_compute; reflexivity].
  apply (sqlite_grants_answer_as_memory quote_name quote_name sample_fs show_error show_range quote_name
    "foreign key" 0 sample_calls opened); [vm_compute; reflexivity| |vm_compute; reflexivity].
  apply (bool_decide_unpack _). vm_compute. exact I.
Defined.

(** Two connections have read a grant with one call left; the first to commit
    spends it, the second is refused. *)
Definition one_left : GrantTables := snd (sample_run (take 1 sample_calls) opened).
Definition left_grant : EngineGrant := grant_from_request (sample_derive "child" "grant" one_call) "child" 1 1.
Definition waiting : Pending := {| pe_request := spend_once; pe_grant := left_grant; pe_remaining := 1 |}.
Notation commit u t := (consume_commit quote_name "foreign key" 2 u spend_once left_grant 1 t).
Definition none_left : GrantTables := snd (commit "u2" one_left).
Definition shared t pending spent : Shared :=
  {| sh_tables := t; sh_spending := pending; sh_revoking := []; sh_spent := spent |}.

Lemma concurrent_spending_is_exact_witness :
  spent_from "child" (shared none_left [] ["child"]) = 1 /\
  is_ok (fst (commit "u3" none_left)) = false /\
  exists w, find_row "child" none_left = Some w /\ remaining_invocations (gw_budget w) = Some 0.
Proof.
  split; [reflexivity|]. split; [vm_compute; reflexivity|].
  destruct (concurrent_spending_is_exact show_error show_range quote_name "foreign key" "child" 1 left_grant
    one_left (shared none_left [] ["child"])) as (w & Hw & Hr & _).
  - apply (bool_decide_unpack _). vm_compute. exact I.
  - vm_compute. reflexivity.
  - reflexivity.
  - lia.
  - simpl. lia.
  - unfold i64_max. simpl. lia.
  - assert (consume_read show_error 2 spend_once one_left = Ok (left_grant, Some 1)) as Hr
      by (vm_compute; reflexivity).
    eapply rtc_l; [exact (shared_spend_read _ _ _ _ 2 spend_once one_left left_grant 1 [] [] [] Hr)|].
    eapply rtc_l; [exact (shared_spend_read _ _ _ _ 2 spend_once one_left left_grant 1 [waiting] [] [] Hr)|].
    eapply rtc_l; [apply (shared_spend_commit _ _ _ _ 2 "u2" waiting one_left (fst (commit "u2" one_left))
      none_left _ [waiting]); [reflexivity|vm_compute; reflexivity]|].
    eapply rtc_l; [apply (shared_spend_commit _ _ _ _ 2 "u3" waiting none_left (fst (commit "u3" none_left))
      none_left _ []); [reflexivity|vm_compute; reflexivity]|].
    apply rtc_refl.
  - exists w. split; [exact Hw|exact Hr].
Defined.

(** Opening a database again seeds nothing that is there: a revoked grant, a
    bootstrap grant too, stays revoked. *)
Lemma reopening_changes_nothing conversion_text unique_text now t :
  (forall id, id ∈ BOOTSTRAP_GRANT_IDS ->
     exists g, sqlite_inspect conversion_text id t = Ok (Some g)) ->
  sqlite_open conversion_text unique_text now t = Ok t.
Proof.
  intros H. unfold sqlite_open, sqlite_seed_bootstrap_grants.
  assert (fold_left (seed_grant conversion_text unique_text now) BOOTSTRAP_GRANT_IDS (Ok tt, t)
    = (Ok tt, t)) as ->; [|done].
  induction BOOTSTRAP_GRANT_IDS as [|id ids IH]; [done|]. simpl.
  destruct (H id) as [g ->]; [by left|]. apply IH. intros i Hi. apply H. by right.
Qed.
