(* ===== verification/Queue.v ===== *)
(** * Invocation queues

    [durability/queue]: durable at-least-once handoff of invocations.  The item
    state machine is shared by the in-memory store (a map by receipt id) and the
    SQLite store (rows in insertion order).  Reading a SQLite row passes through
    [sqlite_codec.rs], which decodes the actor kind and the status from text;
    [reload] is that round trip.  [json_len] is the length of the serialized
    payload, computed by [serde_json]. *)

From stdpp Require Import base gmap strings list pretty sorting.
From Stdlib Require Import ZArith Ascii String Lia.
From S2P Require Import Prelude Json Kernel Model.

#[local] Open Scope Z_scope.

(* SRC engine/durability/queue/mod.rs:46-47 MAX_ACTIVE_QUEUE_ITEMS_PER_QUEUE *)
Definition MAX_ACTIVE_QUEUE_ITEMS_PER_QUEUE : Z := 10000.
(* SRC engine/durability/queue/mod.rs:48-49 MAX_QUEUE_LIST_PAGE_SIZE *)
Definition MAX_QUEUE_LIST_PAGE_SIZE : Z := 500.
(* SRC engine/durability/queue/mod.rs:50-51 MAX_QUEUE_PAYLOAD_BYTES *)
Definition MAX_QUEUE_PAYLOAD_BYTES : Z := 2 * 1024 * 1024.

(** ** Data *)

(* SRC engine/durability/queue/mod.rs:53-67 QueueItemStatus *)
Inductive QueueItemStatus : Type :=
| Q_Ready | Q_Leased | Q_Completed | Q_Cancelled | Q_DeadLettered.
#[global] Instance QueueItemStatus_eq_dec : EqDecision QueueItemStatus.
Proof. solve_decision. Defined.

(* SRC engine/durability/queue/mod.rs:70-78 QueueItemStatus::as_str *)
Definition queue_status_as_str (s : QueueItemStatus) : string :=
  match s with
  | Q_Ready => "ready" | Q_Leased => "leased" | Q_Completed => "completed"
  | Q_Cancelled => "cancelled" | Q_DeadLettered => "dead_lettered"
  end.

(* SRC engine/durability/queue/mod.rs:81-91 QueueAttemptOutcome *)
Inductive QueueAttemptOutcome : Type :=
| Attempt_Completed | Attempt_Failed | Attempt_DeadLettered.

(* SRC engine/durability/queue/mod.rs:93-119 EngineQueueAttemptRecord *)
Record EngineQueueAttemptRecord := {
  qa_attempt : Z;
  qa_outcome : QueueAttemptOutcome;
  qa_lease_owner : option string;
  qa_delivery_invocation_id : option InvocationId;
  qa_result_invocation_id : option InvocationId;
  qa_replayed_from_invocation_id : option InvocationId;
  qa_error : option string;
  qa_recorded_invocation : bool;
  qa_resource_lease_ids : list string;
  qa_compensation_status : option string;
  qa_compensation_id : option string
}.

(* SRC engine/durability/queue/mod.rs:173-204 EnqueueInvocation *)
Record EnqueueInvocation := {
  eq_queue : string;
  eq_function_id : FunctionId;
  eq_payload : Value;
  eq_actor_id : ActorId;
  eq_actor_kind : ActorKind;
  eq_authority_grant_id : AuthorityGrantId;
  eq_authority_scopes : list string;
  eq_runtime_metadata : gmap string string;
  eq_trace_id : TraceId;
  eq_parent_invocation_id : option InvocationId;
  eq_trigger_id : option TriggerId;
  eq_session_id : option string;
  eq_workspace_id : option string;
  eq_idempotency_key : option string
}.

(** The request and the delivery state; [q_request] holds the fields an item
    copies from the request. *)
(* SRC engine/durability/queue/mod.rs:121-171 EngineQueueItem *)
Record EngineQueueItem := {
  q_receipt_id : string;
  q_request : EnqueueInvocation;
  q_status : QueueItemStatus;
  q_attempts : Z;
  q_attempt_records : list EngineQueueAttemptRecord;
  q_lease_owner : option string;
  q_lease_expires_at : option instant;
  q_not_before : instant;
  q_created_at : instant;
  q_updated_at : instant
}.
Definition q_queue (i : EngineQueueItem) : string := eq_queue (q_request i).
Definition q_session_id (i : EngineQueueItem) : option string := eq_session_id (q_request i).

Definition set_q_state (i : EngineQueueItem) (status : QueueItemStatus) (attempts : Z)
    (records : list EngineQueueAttemptRecord) (owner : option string)
    (expires : option instant) (not_before updated : instant) : EngineQueueItem :=
  {| q_receipt_id := q_receipt_id i; q_request := q_request i; q_status := status;
     q_attempts := attempts; q_attempt_records := records; q_lease_owner := owner;
     q_lease_expires_at := expires; q_not_before := not_before;
     q_created_at := q_created_at i; q_updated_at := updated |}.

(* SRC engine/durability/queue/mod.rs:206-208 queue_item_is_active *)
Definition queue_item_is_active (s : QueueItemStatus) : bool :=
  match s with Q_Ready | Q_Leased => true | _ => false end.

(* SRC engine/durability/queue/sqlite_codec.rs:133-140 validate_queue *)
Definition validate_queue (queue : string) : Result unit :=
  if is_blank queue then policy_error "queue name must not be empty" else Ok tt.

(** ** One item *)

(* SRC engine/durability/queue/memory.rs:44-69! InMemoryEngineQueueStore::enqueue *)
Definition queue_item_new (now : instant) (receipt : string) (r : EnqueueInvocation)
  : EngineQueueItem :=
  {| q_receipt_id := receipt; q_request := r; q_status := Q_Ready; q_attempts := 0;
     q_attempt_records := []; q_lease_owner := None; q_lease_expires_at := None;
     q_not_before := now; q_created_at := now; q_updated_at := now |}.

(** Ready, or leased with a lease that has run out. *)
(* SRC engine/durability/queue/memory.rs:88-99! InMemoryEngineQueueStore::claim *)
Definition claimable (now : instant) (i : EngineQueueItem) : bool :=
  queue_item_is_active (q_status i)
  && (q_not_before i <=? now)
  && (bool_decide (q_status i = Q_Ready)
      || match q_lease_expires_at i with Some expiry => expiry <=? now | None => true end).

(* SRC engine/durability/queue/memory.rs:103-106! InMemoryEngineQueueStore::claim *)
Definition lease_item (now : instant) (owner : string) (lease_ms : Z) (i : EngineQueueItem)
  : EngineQueueItem :=
  set_q_state i Q_Leased (q_attempts i) (q_attempt_records i) (Some owner)
    (Some (add_ms now (Z.max lease_ms 1))) (q_not_before i) now.

(* SRC engine/durability/queue/memory.rs:159-172! InMemoryEngineQueueStore::complete_with_attempt *)
Definition complete_item (now : instant) (attempt : option EngineQueueAttemptRecord)
    (i : EngineQueueItem) : option EngineQueueItem :=
  match q_status i with
  | Q_Cancelled | Q_DeadLettered => None
  | _ =>
      Some (set_q_state i Q_Completed (q_attempts i)
              (q_attempt_records i ++ match attempt with Some a => [a] | None => [] end)
              None None (q_not_before i) now)
  end.

Definition set_qa (a : EngineQueueAttemptRecord) (attempt : Z) (outcome : QueueAttemptOutcome)
  : EngineQueueAttemptRecord :=
  {| qa_attempt := attempt; qa_outcome := outcome; qa_lease_owner := qa_lease_owner a;
     qa_delivery_invocation_id := qa_delivery_invocation_id a;
     qa_result_invocation_id := qa_result_invocation_id a;
     qa_replayed_from_invocation_id := qa_replayed_from_invocation_id a;
     qa_error := qa_error a; qa_recorded_invocation := qa_recorded_invocation a;
     qa_resource_lease_ids := qa_resource_lease_ids a;
     qa_compensation_status := qa_compensation_status a;
     qa_compensation_id := qa_compensation_id a |}.

(* SRC engine/durability/queue/memory.rs:191-214! InMemoryEngineQueueStore::fail_with_attempt *)
Definition fail_item (now : instant) (max_attempts backoff_ms : Z)
    (attempt : option EngineQueueAttemptRecord) (i : EngineQueueItem) : option EngineQueueItem :=
  match q_status i with
  | Q_Completed | Q_Cancelled | Q_DeadLettered => None
  | _ =>
      let attempts := saturating_add_u32 (q_attempts i) 1 in
      let status := if max_attempts <=? attempts then Q_DeadLettered else Q_Ready in
      let records :=
        match attempt with
        | Some a =>
            q_attempt_records i ++
            [set_qa a attempts
               (if bool_decide (status = Q_DeadLettered) then Attempt_DeadLettered
                else qa_outcome a)]
        | None => q_attempt_records i
        end in
      Some (set_q_state i status attempts records None None
              (add_ms now (Z.max backoff_ms 0)) now)
  end.

(* SRC engine/durability/queue/memory.rs:222-232! InMemoryEngineQueueStore::cancel *)
Definition cancel_item (now : instant) (i : EngineQueueItem) : option EngineQueueItem :=
  match q_status i with
  | Q_Completed | Q_DeadLettered => None
  | _ =>
      Some (set_q_state i Q_Cancelled (q_attempts i) (q_attempt_records i) None None
              (q_not_before i) now)
  end.

(* SRC engine/durability/queue/memory.rs:265-270! InMemoryEngineQueueStore::list_by_session *)
Definition session_le (a b : EngineQueueItem) : Prop :=
  (if q_queue a =s q_queue b then
     if q_created_at a =? q_created_at b then str_leb (q_receipt_id a) (q_receipt_id b)
     else q_created_at a <? q_created_at b
   else str_leb (q_queue a) (q_queue b)) = true.
#[global] Instance session_le_dec : RelDecision session_le.
Proof. intros a b. unfold session_le. apply _. Defined.

(* SRC engine/durability/queue/memory.rs:16-20 InMemoryEngineQueueStore *)
Definition queue_memory_new : gmap string EngineQueueItem := ∅.

Notation QueueMemory := (gmap string EngineQueueItem).
Notation QueueTable := (list EngineQueueItem).

Section stores.
  Variable json_len : Value -> Z.

(* SRC engine/durability/queue/mod.rs:210-223 validate_queue_payload *)
Definition validate_queue_payload (payload : Value) : Result unit :=
  if MAX_QUEUE_PAYLOAD_BYTES <? json_len payload
  then policy_error ("queue payload exceeds maximum size (" +s pretty (json_len payload)
         +s " > " +s pretty MAX_QUEUE_PAYLOAD_BYTES +s " bytes)")
  else Ok tt.

Definition depth_error (queue : string) : EngineError :=
  PolicyViolation ("queue " +s queue +s " active depth limit exceeded ("
    +s pretty MAX_ACTIVE_QUEUE_ITEMS_PER_QUEUE +s ")").

(** ** The in-memory store *)

(** The active items of one queue. *)
Definition active_in (queue : string) (i : EngineQueueItem) : bool :=
  (q_queue i =s queue) && queue_item_is_active (q_status i).
(* SRC engine/durability/queue/memory.rs:33-37! InMemoryEngineQueueStore::enqueue *)
Definition active_depth (queue : string) (s : QueueMemory) : Z :=
  Z.of_nat (List.length (List.filter (active_in queue) (btree_values s))).

(* SRC engine/durability/queue/memory.rs:29-72 InMemoryEngineQueueStore::enqueue *)
Definition queue_enqueue (now : instant) (receipt : string) (r : EnqueueInvocation)
    (s : QueueMemory) : Result (EngineQueueItem * QueueMemory) :=
  let? _ := validate_queue (eq_queue r) in
  let? _ := validate_queue_payload (eq_payload r) in
  if MAX_ACTIVE_QUEUE_ITEMS_PER_QUEUE <=? active_depth (eq_queue r) s
  then Err (depth_error (eq_queue r))
  else let item := queue_item_new now receipt r in
       Ok (item, <[receipt := item]> s).

(* SRC engine/durability/queue/memory.rs:74-108 InMemoryEngineQueueStore::claim *)
Definition queue_claim (now : instant) (queue owner : string) (lease_ms : Z)
    (s : QueueMemory)
  : Result (option EngineQueueItem * QueueMemory) :=
  let? _ := validate_queue queue in
  if is_blank owner then policy_error "queue lease owner must not be empty"
  else match List.find (fun kv : string * EngineQueueItem =>
               (q_queue (snd kv) =s queue) && claimable now (snd kv)) (btree_entries s) with
       | None => Ok (None, s)
       | Some (id, item) =>
           let item' := lease_item now owner lease_ms item in
           Ok (Some item', <[id := item']> s)
       end.

(* SRC engine/durability/queue/memory.rs:110-143 InMemoryEngineQueueStore::claim_by_receipt *)
Definition queue_claim_by_receipt (now : instant) (receipt owner : string) (lease_ms : Z)
    (s : QueueMemory)
  : Result (option EngineQueueItem * QueueMemory) :=
  if is_blank owner then policy_error "queue lease owner must not be empty"
  else match s !! receipt with
       | None => Ok (None, s)
       | Some item =>
           if negb (queue_item_is_active (q_status item)) || (now <? q_not_before item)
              || (bool_decide (q_status item = Q_Leased)
                  && match q_lease_expires_at item with
                     | Some expiry => now <? expiry | None => false end)
           then Ok (None, s)
           else let item' := lease_item now owner lease_ms item in
                Ok (Some item', <[receipt := item']> s)
       end.

(** Apply an item transition; [false] when the item is missing or refuses it. *)
Definition queue_modify (receipt : string) (f : EngineQueueItem -> option EngineQueueItem)
    (s : QueueMemory) : Result (bool * QueueMemory) :=
  match s !! receipt with
  | None => Ok (false, s)
  | Some item =>
      match f item with
      | None => Ok (false, s)
      | Some item' => Ok (true, <[receipt := item']> s)
      end
  end.

(* SRC engine/durability/queue/memory.rs:150-173 InMemoryEngineQueueStore::complete_with_attempt *)
Definition queue_complete_with_attempt (now : instant) (receipt : string)
    (attempt : option EngineQueueAttemptRecord) (s : QueueMemory)
  : Result (bool * QueueMemory) :=
  queue_modify receipt (complete_item now attempt) s.

(* SRC engine/durability/queue/memory.rs:145-148 InMemoryEngineQueueStore::complete *)
Definition queue_complete (now : instant) (receipt : string) (s : QueueMemory)
  : Result (bool * QueueMemory) := queue_complete_with_attempt now receipt None s.

(* SRC engine/durability/queue/memory.rs:180-215 InMemoryEngineQueueStore::fail_with_attempt *)
Definition queue_fail_with_attempt (now : instant) (receipt : string)
    (max_attempts backoff_ms : Z) (attempt : option EngineQueueAttemptRecord)
    (s : QueueMemory) : Result (bool * QueueMemory) :=
  queue_modify receipt (fail_item now max_attempts backoff_ms attempt) s.

(* SRC engine/durability/queue/memory.rs:175-178 InMemoryEngineQueueStore::fail *)
Definition queue_fail (now : instant) (receipt : string) (max_attempts backoff_ms : Z)
    (s : QueueMemory) : Result (bool * QueueMemory) :=
  queue_fail_with_attempt now receipt max_attempts backoff_ms None s.

(* SRC engine/durability/queue/memory.rs:217-233 InMemoryEngineQueueStore::cancel *)
Definition queue_cancel (now : instant) (receipt : string) (s : QueueMemory)
  : Result (bool * QueueMemory) := queue_modify receipt (cancel_item now) s.

(* SRC engine/durability/queue/memory.rs:235-238 InMemoryEngineQueueStore::get *)
Definition queue_get (receipt : string) (s : QueueMemory)
  : Result (option EngineQueueItem) := Ok (s !! receipt).

(* SRC engine/durability/queue/memory.rs:240-255 InMemoryEngineQueueStore::list *)
Definition queue_list (queue : string) (limit : Z) (s : QueueMemory)
  : Result (list EngineQueueItem) :=
  let? _ := validate_queue queue in
  if limit =? 0 then policy_error "queue list limit must be greater than zero"
  else Ok (take (Z.to_nat (Z.min limit MAX_QUEUE_LIST_PAGE_SIZE))
             (List.filter (fun i => q_queue i =s queue) (btree_values s))).

(* SRC engine/durability/queue/memory.rs:257-272 InMemoryEngineQueueStore::list_by_session *)
Definition queue_list_by_session (session : string) (s : QueueMemory)
  : Result (list EngineQueueItem) :=
  Ok (merge_sort session_le
        (List.filter (fun i => bool_decide (q_session_id i = Some session)) (btree_values s))).

(** ** The SQLite store *)

(** [format!("{:?}", actor_kind)] *)
(* SRC engine/durability/queue/sqlite_codec.rs:41-41! item_params *)
Definition actor_kind_debug (k : ActorKind) : string :=
  match k with
  | Actor_User => "User" | Actor_Agent => "Agent" | Actor_Client => "Client"
  | Actor_Worker => "Worker" | Actor_Cron => "Cron" | Actor_Queue => "Queue"
  | Actor_System => "System" | Actor_Admin => "Admin"
  end.

(* SRC engine/durability/queue/sqlite_codec.rs:152-161 actor_kind_from_str *)
Definition actor_kind_from_str (value : string) : ActorKind :=
  if value =s "Agent" then Actor_Agent
  else if value =s "Client" then Actor_Client
  else if value =s "Worker" then Actor_Worker
  else if value =s "System" then Actor_System
  else if value =s "Admin" then Actor_Admin
  else Actor_System.

(* SRC engine/durability/queue/sqlite_codec.rs:142-150 status_from_str *)
Definition status_from_str (value : string) : QueueItemStatus :=
  if value =s "leased" then Q_Leased
  else if value =s "completed" then Q_Completed
  else if value =s "cancelled" then Q_Cancelled
  else if value =s "dead_lettered" then Q_DeadLettered
  else Q_Ready.

Definition set_eq_actor_kind (r : EnqueueInvocation) (k : ActorKind) : EnqueueInvocation :=
  {| eq_queue := eq_queue r; eq_function_id := eq_function_id r; eq_payload := eq_payload r;
     eq_actor_id := eq_actor_id r; eq_actor_kind := k;
     eq_authority_grant_id := eq_authority_grant_id r;
     eq_authority_scopes := eq_authority_scopes r;
     eq_runtime_metadata := eq_runtime_metadata r; eq_trace_id := eq_trace_id r;
     eq_parent_invocation_id := eq_parent_invocation_id r; eq_trigger_id := eq_trigger_id r;
     eq_session_id := eq_session_id r; eq_workspace_id := eq_workspace_id r;
     eq_idempotency_key := eq_idempotency_key r |}.

(** An item written by [item_params] and read back by [row_to_queue_item]. *)
(* SRC engine/durability/queue/sqlite_codec.rs:88-131 row_to_queue_item *)
Definition reload (i : EngineQueueItem) : EngineQueueItem :=
  {| q_receipt_id := q_receipt_id i;
     q_request := set_eq_actor_kind (q_request i)
       (actor_kind_from_str (actor_kind_debug (eq_actor_kind (q_request i))));
     q_status := status_from_str (queue_status_as_str (q_status i));
     q_attempts := q_attempts i; q_attempt_records := q_attempt_records i;
     q_lease_owner := q_lease_owner i; q_lease_expires_at := q_lease_expires_at i;
     q_not_before := q_not_before i; q_created_at := q_created_at i;
     q_updated_at := q_updated_at i |}.

(* SRC engine/durability/queue/sqlite_store.rs:346-356 SqliteEngineQueueStore::get *)
Definition table_get (receipt : string) (t : QueueTable) : Result (option EngineQueueItem) :=
  Ok (reload <$> List.find (fun i => q_receipt_id i =s receipt) t).

(* SRC engine/durability/queue/sqlite_store.rs:399-415 SqliteEngineQueueStore::insert_item *)
Definition table_insert_item (duplicate : string) (i : EngineQueueItem) (t : QueueTable)
  : Result QueueTable :=
  if existsb (fun j => q_receipt_id j =s q_receipt_id i) t
  then Err (LedgerFailure "queue.insert" duplicate) else Ok (t ++ [i]).

(* SRC engine/durability/queue/sqlite_store.rs:417-448 SqliteEngineQueueStore::update_item *)
Definition table_update_item (i : EngineQueueItem) (t : QueueTable) : QueueTable :=
  map (fun j => if q_receipt_id j =s q_receipt_id i then i else j) t.

(* SRC engine/durability/queue/sqlite_store.rs:128-175 SqliteEngineQueueStore::enqueue *)
Definition table_enqueue (duplicate : string) (now : instant) (receipt : string)
    (r : EnqueueInvocation) (t : QueueTable) : Result (EngineQueueItem * QueueTable) :=
  let? _ := validate_queue (eq_queue r) in
  let? _ := validate_queue_payload (eq_payload r) in
  if MAX_ACTIVE_QUEUE_ITEMS_PER_QUEUE <=? Z.of_nat (List.length (List.filter (active_in (eq_queue r)) t))
  then Err (depth_error (eq_queue r))
  else let item := queue_item_new now receipt r in
       let? t' := table_insert_item duplicate item t in Ok (item, t').

(** [ORDER BY created_at ASC LIMIT 1], the first row among equals. *)
Fixpoint oldest (rows : QueueTable) : option EngineQueueItem :=
  match rows with
  | [] => None
  | i :: rest =>
      match oldest rest with
      | Some j => if q_created_at i <=? q_created_at j then Some i else Some j
      | None => Some i
      end
  end.

(* SRC engine/durability/queue/sqlite_store.rs:177-215 SqliteEngineQueueStore::claim *)
Definition table_claim (now : instant) (queue owner : string) (lease_ms : Z) (t : QueueTable)
  : Result (option EngineQueueItem * QueueTable) :=
  let? _ := validate_queue queue in
  if is_blank owner then policy_error "queue lease owner must not be empty"
  else match reload <$> oldest (List.filter (fun i => (q_queue i =s queue) && claimable now i) t) with
       | None => Ok (None, t)
       | Some item =>
           let item' := lease_item now owner lease_ms item in
           Ok (Some item', table_update_item item' t)
       end.

(* SRC engine/durability/queue/sqlite_store.rs:217-251 SqliteEngineQueueStore::claim_by_receipt *)
Definition table_claim_by_receipt (now : instant) (receipt owner : string) (lease_ms : Z)
    (t : QueueTable) : Result (option EngineQueueItem * QueueTable) :=
  if is_blank owner then policy_error "queue lease owner must not be empty"
  else
  let? found := table_get receipt t in
  match found with
  | None => Ok (None, t)
  | Some item =>
      if negb (queue_item_is_active (q_status item)) || (now <? q_not_before item)
         || (bool_decide (q_status item = Q_Leased)
             && match q_lease_expires_at item with
                | Some expiry => now <? expiry | None => false end)
      then Ok (None, t)
      else let item' := lease_item now owner lease_ms item in
           Ok (Some item', table_update_item item' t)
  end.

Definition table_modify (receipt : string) (f : EngineQueueItem -> option EngineQueueItem)
    (t : QueueTable) : Result (bool * QueueTable) :=
  let? found := table_get receipt t in
  match found with
  | None => Ok (false, t)
  | Some item =>
      match f item with
      | None => Ok (false, t)
      | Some item' => Ok (true, table_update_item item' t)
      end
  end.

(* SRC engine/durability/queue/sqlite_store.rs:258-282 SqliteEngineQueueStore::complete_with_attempt *)
Definition table_complete_with_attempt (now : instant) (receipt : string)
    (attempt : option EngineQueueAttemptRecord) (t : QueueTable) : Result (bool * QueueTable) :=
  table_modify receipt (complete_item now attempt) t.

(* SRC engine/durability/queue/sqlite_store.rs:289-325 SqliteEngineQueueStore::fail_with_attempt *)
Definition table_fail_with_attempt (now : instant) (receipt : string)
    (max_attempts backoff_ms : Z) (attempt : option EngineQueueAttemptRecord) (t : QueueTable)
  : Result (bool * QueueTable) :=
  table_modify receipt (fail_item now max_attempts backoff_ms attempt) t.

(* SRC engine/durability/queue/sqlite_store.rs:327-344 SqliteEngineQueueStore::cancel *)
Definition table_cancel (now : instant) (receipt : string) (t : QueueTable)
  : Result (bool * QueueTable) := table_modify receipt (cancel_item now) t.

End stores.

(** ** Delivery of a claimed item *)

(* SRC engine/invocation/host/mod.rs:100-106 QueueTargetInvocation *)
Record QueueTargetInvocation := {
  qt_result : InvocationResult;
  qt_recorded_invocation : bool;
  qt_resource_lease_ids : list string;
  qt_compensation_status : option string;
  qt_compensation_id : option string
}.

(** The key of a delivery attempt: retries get a key of their own. *)
(* SRC engine/durability/queue/runtime.rs:76-83! EngineQueueRuntime::execute_claimed_item *)
Definition attempt_key (key : string) (attempts : Z) : string :=
  if attempts =? 0 then key else key +s ":queue-retry:" +s pretty attempts.

Definition opt_with {A} (f : CausalContext -> A -> CausalContext) (o : option A)
    (c : CausalContext) : CausalContext :=
  match o with Some a => f c a | None => c end.

(* SRC engine/durability/queue/runtime.rs:52-84! EngineQueueRuntime::execute_claimed_item *)
Definition claimed_context (i : EngineQueueItem) : CausalContext :=
  let r := q_request i in
  let c := causal_context_new (eq_actor_id r) (eq_actor_kind r) (eq_authority_grant_id r)
             (eq_trace_id r) in
  let c := fold_left with_scope (eq_authority_scopes r) c in
  let c := fold_left (fun c kv => with_runtime_metadata c (fst kv) (snd kv))
             (btree_entries (eq_runtime_metadata r)) c in
  let c := opt_with with_parent_invocation (eq_parent_invocation_id r) c in
  let c := opt_with with_trigger_id (eq_trigger_id r) c in
  let c := opt_with with_session_id (eq_session_id r) c in
  let c := opt_with with_workspace_id (eq_workspace_id r) c in
  let c := opt_with (fun c key => with_idempotency_key c (attempt_key key (q_attempts i)))
             (eq_idempotency_key r) c in
  set_cx_delivery_mode c Delivery_Sync.

(* SRC engine/durability/queue/runtime.rs:85-86! EngineQueueRuntime::execute_claimed_item *)
Definition claimed_invocation (id : InvocationId) (i : EngineQueueItem) : Invocation :=
  new_sync id (eq_function_id (q_request i)) (eq_payload (q_request i)) (claimed_context i).

(** [debug] renders a string in an error text. *)
(* SRC engine/durability/queue/runtime.rs:128-152 queue_attempt_record *)
Definition queue_attempt_record (debug : string -> string) (i : EngineQueueItem)
    (t : QueueTargetInvocation) : EngineQueueAttemptRecord :=
  let r := qt_result t in
  {| qa_attempt := saturating_add_u32 (q_attempts i) 1;
     qa_outcome := if is_some (ir_error r) then Attempt_Failed else Attempt_Completed;
     qa_lease_owner := q_lease_owner i;
     qa_delivery_invocation_id := Some (ir_invocation_id r);
     qa_result_invocation_id :=
       if qt_recorded_invocation t then Some (ir_invocation_id r) else None;
     qa_replayed_from_invocation_id := ir_replayed_from r;
     qa_error := error_to_string debug <$> ir_error r;
     qa_recorded_invocation := qt_recorded_invocation t;
     qa_resource_lease_ids := qt_resource_lease_ids t;
     qa_compensation_status := qt_compensation_status t;
     qa_compensation_id := qt_compensation_id t |}.

(* SRC engine/durability/queue/runtime.rs:190-196 queue_failure_event_type *)
Definition queue_failure_event_type (i : EngineQueueItem) : string :=
  if bool_decide (q_status i = Q_DeadLettered) then "dead_letter" else "fail".

(** What happens to the store once the target has returned: the item claimed
    earlier is failed or completed in the store as it is by then.  The second
    component is the lifecycle event to publish, if any. *)
(* SRC engine/durability/queue/runtime.rs:88-124! EngineQueueRuntime::execute_claimed_item *)
Definition settle_claimed_item (debug : string -> string) (now : instant) (i : EngineQueueItem)
    (t : QueueTargetInvocation) (s : QueueMemory)
  : Result (option (string * EngineQueueItem) * QueueMemory) :=
  let attempt := queue_attempt_record debug i t in
  if is_some (ir_error (qt_result t)) then
    let? (done, s') := queue_fail_with_attempt now (q_receipt_id i) 3 1000 (Some attempt) s in
    if done : bool then
      let updated := default i (s' !! q_receipt_id i) in
      Ok (Some (queue_failure_event_type updated, updated), s')
    else Ok (None, s')
  else
    let? (done, s') := queue_complete_with_attempt now (q_receipt_id i) (Some attempt) s in
    if done : bool then Ok (Some ("complete", default i (s' !! q_receipt_id i)), s')
    else Ok (None, s').

(** ** The item state machine *)

Definition terminal (s : QueueItemStatus) : bool :=
  match s with Q_Completed | Q_Cancelled | Q_DeadLettered => true | _ => false end.

(** A live lease: the item is leased and the lease has not run out. *)
Definition live_lease (now : instant) (i : EngineQueueItem) : Prop :=
  q_status i = Q_Leased /\ exists e, q_lease_expires_at i = Some e /\ now < e.

Lemma claimable_spec now i :
  claimable now i = true <->
  q_not_before i <= now /\
  (q_status i = Q_Ready \/
   (q_status i = Q_Leased /\ forall e, q_lease_expires_at i = Some e -> e <= now)).
Proof.
  unfold claimable. rewrite !andb_true_iff, orb_true_iff, Z.leb_le, bool_decide_eq_true.
  destruct (q_status i); simpl; split; try (intros; destruct_and?; done).
  - intros ((? & ?) & _). auto.
  - intros (? & _). auto.
  - intros ((? & Hn) & [?|He]); [done|]. split; [done|right]. split; [done|].
    intros e Hexp. rewrite Hexp in He. lia.
  - intros (? & [?|[_ He]]); [done|]. split; [done|right].
    destruct (q_lease_expires_at i) as [e|]; [|done]. specialize (He e eq_refl). lia.
  - by intros (_ & [?|[? _]]).
  - by intros (_ & [?|[? _]]).
  - by intros (_ & [?|[? _]]).
Qed.

(** The guard of [claim_by_receipt] is the condition of [claim]. *)
Lemma claim_guard_claimable now i :
  negb (negb (queue_item_is_active (q_status i)) || (now <? q_not_before i)
    || (bool_decide (q_status i = Q_Leased)
        && match q_lease_expires_at i with Some e => now <? e | None => false end))
  = claimable now i.
Proof.
  unfold claimable. rewrite !negb_orb, negb_involutive, <- Z.leb_antisym, negb_andb.
  destruct (q_status i); simpl; try done. f_equal.
  destruct (q_lease_expires_at i) as [e|]; [by rewrite Z.leb_antisym|done].
Qed.

Lemma live_lease_not_claimable now i : live_lease now i -> claimable now i = false.
Proof.
  intros (Hs & e & He & Hlt). apply not_true_iff_false. intros [_ [?|[_ Hc]]]%claimable_spec;
    [congruence|]. specialize (Hc e He). lia.
Qed.

(** ** Steps of the in-memory store *)

Section steps.
  Variable json_len : Value -> Z.

Inductive queue_step : QueueMemory -> QueueMemory -> Prop :=
| qs_enqueue now receipt r s i s' :
    s !! receipt = None -> queue_enqueue json_len now receipt r s = Ok (i, s') -> queue_step s s'
| qs_claim now queue owner ms s o s' :
    queue_claim now queue owner ms s = Ok (o, s') -> queue_step s s'
| qs_claim_by_receipt now receipt owner ms s o s' :
    queue_claim_by_receipt now receipt owner ms s = Ok (o, s') -> queue_step s s'
| qs_complete now receipt a s b s' :
    queue_complete_with_attempt now receipt a s = Ok (b, s') -> queue_step s s'
| qs_fail now receipt m k a s b s' :
    queue_fail_with_attempt now receipt m k a s = Ok (b, s') -> queue_step s s'
| qs_cancel now receipt s b s' :
    queue_cancel now receipt s = Ok (b, s') -> queue_step s s'.

Definition queue_reachable : QueueMemory -> Prop := rtc queue_step queue_memory_new.

(** How one stored item may change. *)
Inductive item_step : EngineQueueItem -> EngineQueueItem -> Prop :=
| is_lease now owner ms i : claimable now i = true -> item_step i (lease_item now owner ms i)
| is_complete now a i i' : complete_item now a i = Some i' -> item_step i i'
| is_fail now m k a i i' : fail_item now m k a i = Some i' -> item_step i i'
| is_cancel now i i' : cancel_item now i = Some i' -> item_step i i'.

Lemma find_entry_lookup (s : QueueMemory) f id i :
  List.find f (btree_entries s) = Some (id, i) -> s !! id = Some i /\ f (id, i) = true.
Proof.
  intros [Hin Hf]%find_some. split; [|done]. by apply elem_of_btree_entries, list_elem_of_In.
Qed.

Lemma queue_modify_shape receipt f s b s' :
  queue_modify receipt f s = Ok (b, s') ->
  s' = s \/ exists i i', s !! receipt = Some i /\ f i = Some i' /\ s' = <[receipt := i']> s.
Proof.
  unfold queue_modify. destruct (s !! receipt) as [i|]; [|intros; simplify_eq; auto].
  destruct (f i) as [i'|] eqn:Hf; intros; simplify_eq; [|auto]. right. eauto.
Qed.

(** A step adds one item, changes one item, or changes nothing. *)
Lemma queue_step_shape s s' :
  queue_step s s' ->
  s' = s
  \/ (exists now receipt r, s !! receipt = None /\ active_depth (eq_queue r) s < MAX_ACTIVE_QUEUE_ITEMS_PER_QUEUE
        /\ s' = <[receipt := queue_item_new now receipt r]> s)
  \/ (exists id i i', s !! id = Some i /\ item_step i i' /\ s' = <[id := i']> s).
Proof.
  destruct 1 as [now receipt r s i s' Hf H|now queue owner ms s o s' H|now receipt owner ms s o s' H
    |now receipt a s b s' H|now receipt m k a s b s' H|now receipt s b s' H].
  - unfold queue_enqueue in H. destruct (validate_queue _) as [[]|]; [|done].
    destruct (validate_queue_payload _ _) as [[]|]; [|done].
    apply guard_err_ok in H as [Hd H]. simplify_eq. bool_prop. right. left.
    by exists now, receipt, r.
  - unfold queue_claim in H. destruct (validate_queue _) as [[]|]; [|done].
    apply guard_err_ok in H as [_ H].
    destruct (List.find _ _) as [[id i]|] eqn:Hfind; simplify_eq; [|by left].
    apply find_entry_lookup in Hfind as [Hl Hc]. bool_prop. right. right. exists id, i.
    eexists. split_and!; [done| |done]. by constructor.
  - unfold queue_claim_by_receipt in H. apply guard_err_ok in H as [_ H].
    destruct (s !! receipt) as [i|] eqn:Hl; [|simplify_eq; by left].
    case_match eqn:Hg; simplify_eq; [by left|]. right. right. exists receipt, i.
    eexists. split_and!; [done| |done]. constructor. rewrite <- claim_guard_claimable. by rewrite Hg.
  - apply queue_modify_shape in H as [->|(i & i' & ? & ? & ->)]; [by left|right; right].
    exists receipt, i, i'. split_and!; [done| |done]. by eapply is_complete.
  - apply queue_modify_shape in H as [->|(i & i' & ? & ? & ->)]; [by left|right; right].
    exists receipt, i, i'. split_and!; [done| |done]. by eapply is_fail.
  - apply queue_modify_shape in H as [->|(i & i' & ? & ? & ->)]; [by left|right; right].
    exists receipt, i, i'. split_and!; [done| |done]. by eapply is_cancel.
Qed.

Lemma item_step_keeps i i' :
  item_step i i' -> q_receipt_id i' = q_receipt_id i /\ q_request i' = q_request i /\
    (queue_item_is_active (q_status i') = true -> queue_item_is_active (q_status i) = true) /\
    (terminal (q_status i) = true -> q_status i' = q_status i).
Proof.
  destruct 1 as [now owner ms i Hc|now a i i' H|now m k a i i' H|now i i' H].
  - split_and!; try done; simpl; intros; unfold claimable in Hc; bool_prop; by destruct (q_status i).
  - unfold complete_item in H. destruct (q_status i) eqn:Hs; simplify_eq; split_and!; try done; simpl; by rewrite Hs.
  - unfold fail_item in H. destruct (q_status i) eqn:Hs; simplify_eq; split_and!; try done; simpl; by rewrite Hs.
  - unfold cancel_item in H. destruct (q_status i) eqn:Hs; simplify_eq; split_and!; try done; simpl; by rewrite Hs.
Qed.

(** ** Invariants of reachable stores *)

Record queue_inv (s : QueueMemory) : Prop := {
  qi_key : forall id i, s !! id = Some i -> q_receipt_id i = id;
  qi_depth : forall queue, active_depth queue s <= MAX_ACTIVE_QUEUE_ITEMS_PER_QUEUE
}.

Lemma active_depth_insert queue (s : QueueMemory) id i :
  s !! id = None ->
  active_depth queue (<[id := i]> s) = (if active_in queue i then 1 else 0) + active_depth queue s.
Proof.
  intros Hid. unfold active_depth.
  rewrite (filter_length_perm _ _ _ (btree_values_insert s id i Hid)). simpl.
  destruct (active_in queue i); simpl; lia.
Qed.

Lemma active_depth_update queue (s : QueueMemory) id i i' :
  s !! id = Some i -> (active_in queue i' = true -> active_in queue i = true) ->
  active_depth queue (<[id := i']> s) <= active_depth queue s.
Proof.
  intros Hid Himp. unfold active_depth.
  rewrite (filter_length_perm _ _ _ (btree_values_update s id i i' Hid)).
  rewrite (filter_length_perm _ _ _ (btree_values_delete s id i Hid)). simpl.
  destruct (active_in queue i'), (active_in queue i); simpl; try lia; by specialize (Himp eq_refl).
Qed.

Lemma queue_inv_step s s' : queue_inv s -> queue_step s s' -> queue_inv s'.
Proof.
  intros [Hk Hd] [->|[(now & receipt & r & Hf & Hlt & ->)|(id & i & i' & Hi & Hs & ->)]]%queue_step_shape.
  - done.
  - split.
    + intros id i. rewrite lookup_insert_Some. intros [[<- <-]|[_ ?]]; [done|auto].
    + intros queue. rewrite active_depth_insert by done. unfold active_in, q_queue. simpl.
      specialize (Hd queue). destruct (String.eqb_spec (eq_queue r) queue) as [<-|]; simpl; lia.
  - destruct (item_step_keeps i i' Hs) as (Hr & Hq & Ha & _). split.
    + intros j x. rewrite lookup_insert_Some. intros [[<- <-]|[_ ?]]; [|auto].
      rewrite Hr. auto.
    + intros queue. specialize (Hd queue).
      pose proof (active_depth_update queue s id i i' Hi) as Hu.
      assert (active_in queue i' = true -> active_in queue i = true) as Himp.
      { unfold active_in, q_queue. rewrite Hq, !andb_true_iff. intuition. }
      specialize (Hu Himp). lia.
Qed.

Lemma queue_inv_reachable s : queue_reachable s -> queue_inv s.
Proof.
  unfold queue_reachable. revert s. apply rtc_ind_r.
  - split; [by intros ? ? ?|]. intros queue. vm_compute. done.
  - intros s s' _ Hs Hinv. by eapply queue_inv_step.
Qed.

(** In every reachable state of the in-memory queue store each queue has at most
    MAX_ACTIVE_QUEUE_ITEMS_PER_QUEUE active items. *)
Theorem queue_depth_bounded s queue :
  queue_reachable s -> active_depth queue s <= MAX_ACTIVE_QUEUE_ITEMS_PER_QUEUE.
Proof. intros Hr. by apply queue_inv_reachable. Qed.

(** An item that is completed, failed for good, dead-lettered or cancelled keeps its
    status through every sequence of queue operations. *)
Theorem terminal_status_is_final s s' id i :
  rtc queue_step s s' -> s !! id = Some i -> terminal (q_status i) = true ->
  exists i', s' !! id = Some i' /\ q_status i' = q_status i.
Proof.
  intros Hr Hi Ht. revert s' Hr. apply rtc_ind_r; [eauto|].
  intros s1 s2 _ [->|[(now & receipt & r & Hf & _ & ->)|(j & x & x' & Hx & Hstep & ->)]]%queue_step_shape
    (i1 & Hi1 & Hs1); [eauto| |].
  - exists i1. split; [|done]. rewrite lookup_insert_ne; [done|congruence].
  - destruct (decide (j = id)) as [->|Hne]; [|rewrite lookup_insert_ne by done; eauto].
    rewrite lookup_insert_eq. simplify_eq. eexists. split; [done|].
    destruct (item_step_keeps _ _ Hstep) as (_ & _ & _ & Hterm). rewrite Hterm; congruence.
Qed.

(** While the lease of a claimed item runs, no other claim (by queue or by receipt)
    gets the item. *)
Theorem live_lease_is_exclusive s now queue owner ms i s1 now' queue' owner' ms' j s2 :
  queue_reachable s ->
  queue_claim now queue owner ms s = Ok (Some i, s1) ->
  now <= now' < add_ms now (Z.max ms 1) ->
  queue_claim now' queue' owner' ms' s1 = Ok (Some j, s2) ->
  q_receipt_id j <> q_receipt_id i /\
  queue_claim_by_receipt now' (q_receipt_id i) owner' ms' s1 = Ok (None, s1).
Proof.
  intros Hr H1 Hnow H2. pose proof (queue_inv_reachable s Hr) as [Hk _].
  unfold queue_claim in H1, H2.
  destruct (validate_queue queue) as [[]|]; [|done]. apply guard_err_ok in H1 as [_ H1].
  destruct (List.find _ (btree_entries s)) as [[id i0]|] eqn:Hf; [|done].
  apply find_entry_lookup in Hf as [Hi0 _]. simplify_eq. simpl.
  rewrite (Hk id i0 Hi0).
  assert (live_lease now' (lease_item now owner ms i0)) as Hlive by (split; [done|]; eexists; split; [done|lia]).
  pose proof (live_lease_not_claimable _ _ Hlive) as Hnc.
  destruct (validate_queue queue') as [[]|]; [|done]. apply guard_err_ok in H2 as [Hown H2].
  destruct (List.find _ (btree_entries (<[id := _]> s))) as [[jd j0]|] eqn:Hf; [|done].
  apply find_entry_lookup in Hf as [Hj0 Hc]. simplify_eq. simpl in Hc. bool_prop. simpl. split.
  - rewrite lookup_insert_Some in Hj0. destruct Hj0 as [[<- <-]|[Hne Hj0]]; [congruence|].
    rewrite (Hk jd j0 Hj0). done.
  - unfold queue_claim_by_receipt. rewrite Hown, lookup_insert_eq.
    by rewrite <- (negb_involutive (_ || _)), claim_guard_claimable, Hnc.
Qed.
End steps.

(** ** Retries *)

Fixpoint fail_times (m k : Z) (calls : list (instant * option EngineQueueAttemptRecord))
    (i : EngineQueueItem) : option EngineQueueItem :=
  match calls with
  | [] => Some i
  | (now, a) :: rest =>
      match fail_item now m k a i with
      | Some i' => fail_times m k rest i'
      | None => None
      end
  end.

Lemma fail_item_active now m k a i :
  queue_item_is_active (q_status i) = true -> 0 <= q_attempts i < u32_max ->
  exists i', fail_item now m k a i = Some i' /\ q_attempts i' = q_attempts i + 1 /\
    q_status i' = (if m <=? q_attempts i + 1 then Q_DeadLettered else Q_Ready).
Proof.
  intros Ha Hr. unfold fail_item.
  assert (saturating_add_u32 (q_attempts i) 1 = q_attempts i + 1) as Hsat
    by (unfold saturating_add_u32; lia).
  rewrite Hsat. destruct (q_status i); try done; eexists; by split_and!.
Qed.

Lemma fail_times_count m k calls : forall i,
  queue_item_is_active (q_status i) = true -> 0 <= q_attempts i < m -> m <= u32_max ->
  let n := q_attempts i + Z.of_nat (List.length calls) in
  (n < m -> exists i', fail_times m k calls i = Some i' /\
     queue_item_is_active (q_status i') = true /\ q_attempts i' = n) /\
  (n = m -> exists i', fail_times m k calls i = Some i' /\ q_status i' = Q_DeadLettered) /\
  (m < n -> fail_times m k calls i = None).
Proof.
  induction calls as [|[now a] calls IH]; intros i Ha Hr Hm n; subst n.
  - change (List.length []) with 0%nat. split_and!; intros; [|lia|lia].
    exists i. split_and!; [done|done|lia].
  - cbn [fail_times]. change (List.length ((now, a) :: calls)) with (S (List.length calls)).
    destruct (fail_item_active now m k a i Ha) as (i' & -> & Hatt & Hst); [lia|].
    destruct (Z.leb_spec m (q_attempts i + 1)) as [Hle|Hlt].
    + destruct calls as [|[now' a'] calls].
      * split_and!; intros; [simpl in *; lia| |simpl in *; lia]. simpl. eauto.
      * split_and!; intros; [simpl in *; lia|simpl in *; lia|]. cbn [fail_times].
        unfold fail_item. by rewrite Hst.
    + destruct (IH i') as (H1 & H2 & H3); [by rewrite Hst|lia|done|].
      rewrite Hatt in H1, H2, H3. split_and!; intros.
      * destruct H1 as (x & ? & ? & ?); [lia|]. exists x. split_and!; [done|done|lia].
      * apply H2. lia.
      * apply H3. lia.
Qed.

(** An item that keeps failing is retried below the maximum number of attempts, is
    dead-lettered by the attempt that reaches it, and cannot be failed again. *)
Theorem dead_lettered_after_max_attempts m k calls i :
  queue_item_is_active (q_status i) = true -> q_attempts i = 0 -> 0 < m <= u32_max ->
  (Z.of_nat (List.length calls) < m -> exists i', fail_times m k calls i = Some i' /\
     queue_item_is_active (q_status i') = true /\ q_attempts i' = Z.of_nat (List.length calls)) /\
  (Z.of_nat (List.length calls) = m -> exists i', fail_times m k calls i = Some i' /\
     q_status i' = Q_DeadLettered) /\
  (m < Z.of_nat (List.length calls) -> fail_times m k calls i = None).
Proof.
  intros Ha H0 Hm. pose proof (fail_times_count m k calls i Ha) as H.
  rewrite H0 in H. apply H; lia.
Qed.

(** The result of a worker that comes back after its item was cancelled or dead-
    lettered is dropped: the item and the store stay as they are. *)
Theorem late_result_cannot_revive debug now i t s x :
  s !! q_receipt_id i = Some x -> q_status x = Q_Cancelled \/ q_status x = Q_DeadLettered ->
  settle_claimed_item debug now i t s = Ok (None, s).
Proof.
  intros Hx Hs. unfold settle_claimed_item, queue_fail_with_attempt, queue_complete_with_attempt,
    queue_modify. rewrite Hx. unfold fail_item, complete_item.
  destruct Hs as [-> | ->]; by destruct (is_some _).
Qed.

Lemma str_app_nil_neq (a b : string) : b <> "" -> a +s b <> a.
Proof.
  intros Hb. induction a as [|x a IH]; simpl; [done|]. intros [=]. auto.
Qed.

(** Retries of one item use distinct idempotency keys. *)
Theorem retry_keys_are_distinct key a b : attempt_key key a = attempt_key key b -> a = b.
Proof.
  unfold attempt_key. destruct (Z.eqb_spec a 0) as [->|Ha], (Z.eqb_spec b 0) as [->|Hb]; [done| | |].
  - intros H. symmetry in H. by apply str_app_nil_neq in H.
  - intros H. by apply str_app_nil_neq in H.
  - intros H. apply str_app_inj_l, str_app_inj_l in H. by apply (inj pretty) in H.
Qed.

(** An item enqueued in SQLite by a user, cron or queue actor is claimed as a System
    actor's. *)
Theorem sqlite_queue_promotes_actors json_len dup now receipt r t i t' :
  table_enqueue json_len dup now receipt r t = Ok (i, t') ->
  eq_actor_kind (q_request i) = eq_actor_kind r /\
  (forall owner ms o t'', table_claim_by_receipt now receipt owner ms t' = Ok (o, t'') ->
     exists j, o = Some j /\
       eq_actor_kind (q_request j) =
         match eq_actor_kind r with
         | Actor_User | Actor_Cron | Actor_Queue => Actor_System
         | k => k
         end).
Proof.
  intros H. unfold table_enqueue in H. destruct (validate_queue _) as [[]|]; [|done].
  destruct (validate_queue_payload _ _) as [[]|]; [|done]. apply guard_err_ok in H as [_ H].
  unfold table_insert_item in H. destruct (existsb _ t) eqn:Hex; [done|]. simplify_eq.
  split; [done|]. intros owner ms o t'' Hc. unfold table_claim_by_receipt in Hc.
  apply guard_err_ok in Hc as [_ Hc]. unfold table_get in Hc.
  assert (List.find (fun i => q_receipt_id i =s receipt) (t ++ [queue_item_new now receipt r])
          = Some (queue_item_new now receipt r)) as Hfind.
  { clear -Hex. induction t as [|x t IH]; simpl in *; [by rewrite String.eqb_refl|].
    apply orb_false_iff in Hex as [-> Hex]. auto. }
  rewrite Hfind in Hc. cbn [fmap option_fmap option_map] in Hc.
  rewrite <- (negb_involutive (_ || _)), claim_guard_claimable in Hc.
  assert (claimable now (reload (queue_item_new now receipt r)) = true) as Hcl.
  { apply claimable_spec. simpl. split; [lia|by left]. }
  rewrite Hcl in Hc. simpl in Hc. apply (inj Ok), pair_equal_spec in Hc as [<- _].
  eexists. split; [done|]. simpl. by destruct (eq_actor_kind r).
Qed.

(** ** The two stores agree *)

(** Kinds that survive the round trip through a row. *)
Definition storable (r : EnqueueInvocation) : Prop :=
  actor_kind_from_str (actor_kind_debug (eq_actor_kind r)) = eq_actor_kind r.

(** Receipts grow and creation times do not go back, as the rows are inserted. *)
Definition row_lt (a b : EngineQueueItem) : Prop :=
  str_leb (q_receipt_id a) (q_receipt_id b) = true /\ q_receipt_id a <> q_receipt_id b /\
  q_created_at a <= q_created_at b.

Record table_ok (t : QueueTable) : Prop := {
  to_sorted : StronglySorted row_lt t;
  to_storable : Forall (fun i => storable (q_request i)) t
}.

Definition table_map (t : QueueTable) : QueueMemory :=
  list_to_map (map (fun i => (q_receipt_id i, i)) t).

Lemma status_round_trip s : status_from_str (queue_status_as_str s) = s.
Proof. by destruct s. Qed.

Lemma reload_id i : storable (q_request i) -> reload i = i.
Proof.
  unfold storable, reload. intros H. rewrite H, status_round_trip.
  by destruct i as [? [] ? ? ? ? ? ? ? ?].
Qed.

Lemma table_ok_cons i t : table_ok (i :: t) <->
  Forall (row_lt i) t /\ storable (q_request i) /\ table_ok t.
Proof.
  split.
  - intros [Hs Hf]. apply StronglySorted_inv in Hs as [Hs Hl]. apply Forall_cons in Hf as [Hi Hf].
    split_and!; [done|done|]. by split.
  - intros (Hl & Hi & [Hs Hf]). split; [by constructor|by constructor].
Qed.

Lemma table_keys_nodup t : table_ok t -> NoDup (map q_receipt_id t).
Proof.
  induction t as [|i t IH]; simpl; [constructor|].
  intros (Hl & _ & Hok)%table_ok_cons. constructor; [|by apply IH].
  rewrite list_elem_of_In, in_map_iff. intros (j & Hj & Hin).
  rewrite List.Forall_forall in Hl. by destruct (Hl j Hin) as (_ & ? & _).
Qed.

Lemma table_map_lookup t id i :
  table_ok t -> table_map t !! id = Some i <-> In i t /\ q_receipt_id i = id.
Proof.
  intros Hok. unfold table_map. rewrite <- elem_of_list_to_map.
  - rewrite list_elem_of_In, in_map_iff. split.
    + intros (x & ? & Hin). by simplify_eq.
    + intros [Hin <-]. eauto.
  - rewrite <- list_fmap_compose. by apply table_keys_nodup.
Qed.

Lemma table_map_entries t :
  table_ok t -> btree_entries (table_map t) = map (fun i => (q_receipt_id i, i)) t.
Proof.
  intros Hok. apply (StronglySorted_unique_strong entry_le).
  - intros [k x] [k' y] Hx Hy H1 H2. unfold entry_le in H1, H2. simpl in H1, H2.
    assert (k = k') as <- by (by apply key_leb_antisym).
    apply elem_of_btree_entries in Hx. apply table_map_lookup in Hx as [Hx <-]; [|done].
    apply list_elem_of_In, in_map_iff in Hy as (z & Hz & Hin). simplify_eq.
    assert (table_map t !! q_receipt_id x = Some x) as Hlx by (by apply table_map_lookup).
    assert (table_map t !! q_receipt_id x = Some y) as Hly by (by apply table_map_lookup).
    congruence.
  - apply btree_entries_sorted.
  - destruct Hok as [Hs _]. induction Hs as [|i t' Hs IH Hf]; simpl; [constructor|].
    constructor; [done|]. apply Forall_fmap. eapply Forall_impl; [exact Hf|].
    intros j (Hle & _ & _). done.
  - rewrite btree_entries_perm. unfold table_map. apply map_to_list_to_map.
    rewrite <- list_fmap_compose. by apply table_keys_nodup.
Qed.

Lemma find_map {A B} (g : A -> B) (f : B -> bool) l :
  List.find f (map g l) = g <$> List.find (fun x => f (g x)) l.
Proof. induction l as [|x l IH]; simpl; [done|]. by destruct (f (g x)). Qed.

Lemma oldest_head f t : table_ok t -> oldest (List.filter f t) = List.find f t.
Proof.
  induction t as [|i t IH]; simpl; [done|]. intros (Hl & _ & Hok)%table_ok_cons.
  destruct (f i); [|auto]. simpl. rewrite (IH Hok). destruct (List.find f t) as [j|] eqn:Hj; [|done].
  apply find_some in Hj as [Hin _]. rewrite List.Forall_forall in Hl.
  destruct (Hl j Hin) as (_ & _ & Hle). by rewrite (proj2 (Z.leb_le _ _) Hle).
Qed.

Lemma find_receipt t receipt :
  table_ok t -> List.find (fun i => q_receipt_id i =s receipt) t = table_map t !! receipt.
Proof.
  intros Hok. destruct (List.find _ t) as [i|] eqn:Hf.
  - apply find_some in Hf as [Hin Hid]. bool_prop. symmetry. by apply table_map_lookup.
  - symmetry. apply eq_None_not_Some. intros [i Hi]. apply table_map_lookup in Hi as [Hin <-]; [|done].
    eapply find_none in Hf; [|exact Hin]. by rewrite String.eqb_refl in Hf.
Qed.

Lemma table_get_map t receipt : table_ok t -> table_get receipt t = Ok (table_map t !! receipt).
Proof.
  intros Hok. unfold table_get. rewrite find_receipt by done.
  destruct (table_map t !! receipt) as [i|] eqn:Hi; [|done]. simpl.
  apply table_map_lookup in Hi as [Hin _]; [|done]. destruct Hok as [_ Hf].
  rewrite List.Forall_forall in Hf. by rewrite reload_id by auto.
Qed.

(** Changing the delivery state of one row changes one entry of the map. *)
Lemma table_update_map t i i' :
  table_ok t -> In i t -> q_receipt_id i' = q_receipt_id i -> q_request i' = q_request i ->
  q_created_at i' = q_created_at i ->
  table_ok (table_update_item i' t) /\
  table_map (table_update_item i' t) = <[q_receipt_id i := i']> (table_map t).
Proof.
  intros Hok Hin Hr Hq Hc.
  assert (forall j, In j t -> q_receipt_id j = q_receipt_id i -> j = i) as Huniq.
  { intros j Hj Hid. assert (table_map t !! q_receipt_id i = Some j) by (by apply table_map_lookup).
    assert (table_map t !! q_receipt_id i = Some i) by (by apply table_map_lookup). congruence. }
  set (f j := if q_receipt_id j =s q_receipt_id i' then i' else j).
  assert (forall j, In j t -> q_receipt_id (f j) = q_receipt_id j /\ q_request (f j) = q_request j /\
    q_created_at (f j) = q_created_at j) as Hf.
  { intros j Hj. unfold f. destruct (String.eqb_spec (q_receipt_id j) (q_receipt_id i')) as [He|]; [|done].
    rewrite Hr in He. by rewrite (Huniq j Hj He). }
  assert (table_ok (table_update_item i' t)) as Hok'.
  { change (table_update_item i' t) with (map f t). clear Huniq Hin.
    induction t as [|j t IH]; [done|]. apply table_ok_cons in Hok as (Hl & Hst & Hok). simpl.
    destruct (Hf j (or_introl eq_refl)) as (H1 & H2 & H3). apply table_ok_cons. split_and!.
    - apply List.Forall_forall. intros x (y & <- & Hy)%in_map_iff.
      destruct (Hf y (or_intror Hy)) as (G1 & G2 & G3). rewrite List.Forall_forall in Hl.
      unfold row_lt. rewrite H1, H3, G1, G3. by apply Hl.
    - unfold storable. by rewrite H2.
    - apply IH; [done|]. intros y Hy. apply Hf. by right. }
  split; [done|]. apply map_eq. intros k. apply option_eq. intros x.
  rewrite lookup_insert_Some, !table_map_lookup by done.
  change (table_update_item i' t) with (map f t). rewrite in_map_iff. split.
  - intros [(y & <- & Hy) <-]. destruct (decide (q_receipt_id y = q_receipt_id i)) as [He|Hne].
    + rewrite (Huniq y Hy He). left. unfold f. rewrite Hr, String.eqb_refl. done.
    + right. unfold f. rewrite Hr. apply String.eqb_neq in Hne as Hb. rewrite Hb. auto.
  - intros [[<- <-]|(Hne & Hx & <-)].
    + split; [|done]. exists i. split; [|done]. unfold f. by rewrite Hr, String.eqb_refl.
    + split; [|done]. exists x. split; [|done]. unfold f. rewrite Hr.
      by rewrite (proj2 (String.eqb_neq _ _) (not_eq_sym Hne)).
Qed.

Lemma table_append_ok t i :
  table_ok t -> Forall (fun j => row_lt j i) t -> storable (q_request i) ->
  table_ok (t ++ [i]) /\ table_map (t ++ [i]) = <[q_receipt_id i := i]> (table_map t).
Proof.
  intros Hok Hl Hst.
  assert (table_ok (t ++ [i])) as Hok'.
  { induction t as [|j t IH]; simpl.
    - apply table_ok_cons. split_and!; [constructor|done|split; constructor].
    - apply table_ok_cons in Hok as (Hj & Hsj & Hok). apply Forall_cons in Hl as [Hji Hl].
      apply table_ok_cons. split_and!; [|done|by apply IH].
      apply Forall_app. split; [done|]. by constructor. }
  split; [done|]. apply map_eq. intros k. apply option_eq. intros x.
  rewrite lookup_insert_Some, !table_map_lookup by done. rewrite in_app_iff. simpl. split.
  - intros [[Hx|[<-|[]]] <-]; [|by left]. right. split_and!; try done.
    rewrite List.Forall_forall in Hl. intros Heq. by destruct (Hl x Hx) as (_ & [] & _).
  - intros [[<- <-]|(Hne & Hx & <-)]; auto.
Qed.

(** Scripts of queue operations, and the answers of the two stores. *)
Inductive queue_op : Type :=
| Op_Enqueue (now : instant) (receipt : string) (r : EnqueueInvocation)
| Op_Claim (now : instant) (queue owner : string) (lease_ms : Z)
| Op_ClaimReceipt (now : instant) (receipt owner : string) (lease_ms : Z)
| Op_Complete (now : instant) (receipt : string) (attempt : option EngineQueueAttemptRecord)
| Op_Fail (now : instant) (receipt : string) (m k : Z) (attempt : option EngineQueueAttemptRecord)
| Op_Cancel (now : instant) (receipt : string)
| Op_QueueGet (receipt : string).

Inductive queue_response : Type :=
| Resp_Item (r : Result EngineQueueItem)
| Resp_Found (r : Result (option EngineQueueItem))
| Resp_Done (r : Result bool).

(** The answer and the next state; a failed operation leaves the state alone. *)
Definition answer {A S} (f : Result A -> queue_response) (s : S) (r : Result (A * S))
  : queue_response * S :=
  match r with Ok (a, s') => (f (Ok a), s') | Err e => (f (Err e), s) end.

Section agree.
  Variable json_len : Value -> Z.
  Variable dup : string.

Definition memory_run (op : queue_op) (s : QueueMemory) : queue_response * QueueMemory :=
  match op with
  | Op_Enqueue now id r => answer Resp_Item s (queue_enqueue json_len now id r s)
  | Op_Claim now q o ms => answer Resp_Found s (queue_claim now q o ms s)
  | Op_ClaimReceipt now id o ms => answer Resp_Found s (queue_claim_by_receipt now id o ms s)
  | Op_Complete now id a => answer Resp_Done s (queue_complete_with_attempt now id a s)
  | Op_Fail now id m k a => answer Resp_Done s (queue_fail_with_attempt now id m k a s)
  | Op_Cancel now id => answer Resp_Done s (queue_cancel now id s)
  | Op_QueueGet id => (Resp_Found (queue_get id s), s)
  end.

Definition table_run (op : queue_op) (t : QueueTable) : queue_response * QueueTable :=
  match op with
  | Op_Enqueue now id r => answer Resp_Item t (table_enqueue json_len dup now id r t)
  | Op_Claim now q o ms => answer Resp_Found t (table_claim now q o ms t)
  | Op_ClaimReceipt now id o ms => answer Resp_Found t (table_claim_by_receipt now id o ms t)
  | Op_Complete now id a => answer Resp_Done t (table_complete_with_attempt now id a t)
  | Op_Fail now id m k a => answer Resp_Done t (table_fail_with_attempt now id m k a t)
  | Op_Cancel now id => answer Resp_Done t (table_cancel now id t)
  | Op_QueueGet id => (Resp_Found (table_get id t), t)
  end.

(** The new item comes after every row: receipts and times grow. *)
Definition in_order (t : QueueTable) (op : queue_op) : Prop :=
  match op with
  | Op_Enqueue now id r =>
      Forall (fun j => row_lt j (queue_item_new now id r)) t /\ storable r
  | _ => True
  end.

Lemma table_active_depth t queue :
  table_ok t ->
  active_depth queue (table_map t) = Z.of_nat (List.length (List.filter (active_in queue) t)).
Proof.
  intros Hok. unfold active_depth, btree_values. rewrite table_map_entries by done.
  by rewrite List.map_map, List.map_id.
Qed.

Lemma modify_agree t id f :
  table_ok t ->
  (forall i i', f i = Some i' -> q_receipt_id i' = q_receipt_id i /\ q_request i' = q_request i /\
     q_created_at i' = q_created_at i) ->
  let m := answer Resp_Done (table_map t) (queue_modify id f (table_map t)) in
  let q := answer Resp_Done t (table_modify id f t) in
  fst m = fst q /\ table_ok (snd q) /\ snd m = table_map (snd q).
Proof.
  intros Hok Hf. unfold queue_modify, table_modify. rewrite table_get_map by done.
  destruct (table_map t !! id) as [i|] eqn:Hi; [|done].
  destruct (f i) as [i'|] eqn:Hfi; [|done]. simpl.
  apply table_map_lookup in Hi as [Hin <-]; [|done]. destruct (Hf i i' Hfi) as (H1 & H2 & H3).
  by destruct (table_update_map t i i' Hok Hin H1 H2 H3) as [? ->].
Qed.

Lemma lease_update_agree t now owner ms i :
  table_ok t -> In i t ->
  table_ok (table_update_item (lease_item now owner ms i) t) /\
  table_map (table_update_item (lease_item now owner ms i) t)
  = <[q_receipt_id i := lease_item now owner ms i]> (table_map t).
Proof. intros Hok Hin. by apply table_update_map. Qed.

Lemma claim_agree t now queue owner ms :
  table_ok t ->
  let m := answer Resp_Found (table_map t) (queue_claim now queue owner ms (table_map t)) in
  let q := answer Resp_Found t (table_claim now queue owner ms t) in
  fst m = fst q /\ table_ok (snd q) /\ snd m = table_map (snd q).
Proof.
  intros Hok. unfold queue_claim, table_claim.
  destruct (validate_queue queue) as [[]|]; [|done]. destruct (is_blank owner); [done|].
  rewrite table_map_entries, find_map, oldest_head by done. simpl.
  destruct (List.find _ t) as [i|] eqn:Hf; [|done]. apply find_some in Hf as [Hin _]. simpl.
  rewrite reload_id by (destruct Hok as [_ Hst]; rewrite List.Forall_forall in Hst; auto).
  by destruct (lease_update_agree t now owner ms i Hok Hin) as [? ->].
Qed.

Lemma enqueue_agree t now id r :
  table_ok t -> in_order t (Op_Enqueue now id r) ->
  let m := answer Resp_Item (table_map t) (queue_enqueue json_len now id r (table_map t)) in
  let q := answer Resp_Item t (table_enqueue json_len dup now id r t) in
  fst m = fst q /\ table_ok (snd q) /\ snd m = table_map (snd q).
Proof.
  intros Hok [Hl Hst]. unfold queue_enqueue, table_enqueue.
  destruct (validate_queue _) as [[]|]; [|done].
  destruct (validate_queue_payload _ _) as [[]|]; [|done].
  rewrite table_active_depth by done. case_match; [done|].
  unfold table_insert_item. destruct (existsb _ t) eqn:Hex.
  - apply existsb_exists in Hex as (j & Hj & Hid). bool_prop. rewrite List.Forall_forall in Hl.
    by destruct (Hl j Hj) as (_ & [] & _).
  - destruct (table_append_ok t (queue_item_new now id r) Hok Hl Hst) as [? Heq]. simpl in *.
    by rewrite Heq.
Qed.

Lemma claim_receipt_agree t now id owner ms :
  table_ok t ->
  let m := answer Resp_Found (table_map t) (queue_claim_by_receipt now id owner ms (table_map t)) in
  let q := answer Resp_Found t (table_claim_by_receipt now id owner ms t) in
  fst m = fst q /\ table_ok (snd q) /\ snd m = table_map (snd q).
Proof.
  intros Hok. unfold queue_claim_by_receipt, table_claim_by_receipt.
  destruct (is_blank owner); [done|]. rewrite table_get_map by done.
  destruct (table_map t !! id) as [i|] eqn:Hi; [|done]. case_match; [done|].
  apply table_map_lookup in Hi as [Hin <-]; [|done]. simpl.
  by destruct (lease_update_agree t now owner ms i Hok Hin) as [? ->].
Qed.

(** One operation: same answer, and the map of the table follows the memory. *)
Lemma run_agree t op :
  table_ok t -> in_order t op ->
  fst (memory_run op (table_map t)) = fst (table_run op t) /\
  table_ok (snd (table_run op t)) /\
  snd (memory_run op (table_map t)) = table_map (snd (table_run op t)).
Proof.
  intros Hok Hop. destruct op as [now id r|now q o ms|now id o ms|now id a|now id m k a|now id|id].
  - by apply enqueue_agree.
  - by apply claim_agree.
  - by apply claim_receipt_agree.
  - apply modify_agree; [done|]. intros i i' H. unfold complete_item in H.
    destruct (q_status i); by simplify_eq.
  - apply modify_agree; [done|]. intros i i' H. unfold fail_item in H.
    destruct (q_status i); by simplify_eq.
  - apply modify_agree; [done|]. intros i i' H. unfold cancel_item in H.
    destruct (q_status i); by simplify_eq.
  - simpl. by rewrite table_get_map.
Qed.

Fixpoint memory_script (ops : list queue_op) (s : QueueMemory) : list queue_response :=
  match ops with
  | [] => []
  | op :: rest => let '(r, s') := memory_run op s in r :: memory_script rest s'
  end.
Fixpoint table_script (ops : list queue_op) (t : QueueTable) : list queue_response :=
  match ops with
  | [] => []
  | op :: rest => let '(r, t') := table_run op t in r :: table_script rest t'
  end.
(** Every enqueue of the script is in order where it happens. *)
Fixpoint script_in_order (ops : list queue_op) (t : QueueTable) : Prop :=
  match ops with
  | [] => True
  | op :: rest => in_order t op /\ script_in_order rest (snd (table_run op t))
  end.

(** The in-memory queue and the SQLite table answer every script of enqueues, claims,
    completions, failures and cancellations identically, for actors that survive the SQLite
    actor codec and receipts generated in increasing order. *)
Theorem queue_stores_agree ops :
  script_in_order ops [] -> memory_script ops queue_memory_new = table_script ops [].
Proof.
  assert (table_ok []) as Hok by (split; constructor).
  change queue_memory_new with (table_map []).
  revert Hok. generalize (@nil EngineQueueItem) as t.
  induction ops as [|op ops IH]; intros t Hok Hord; [done|]. simpl in *.
  destruct Hord as [Hop Hord]. destruct (run_agree t op Hok Hop) as (H1 & H2 & H3).
  destruct (memory_run op (table_map t)) as [r s'], (table_run op t) as [r' t']. simpl in *.
  subst. f_equal. by apply IH.
Qed.
End agree.

(** ** The properties at concrete inputs *)

Definition sample_enqueue (k : ActorKind) : EnqueueInvocation :=
  {| eq_queue := "main"; eq_function_id := "jobs::run"; eq_payload := Null; eq_actor_id := "u";
     eq_actor_kind := k; eq_authority_grant_id := "g"; eq_authority_scopes := [];
     eq_runtime_metadata := ∅; eq_trace_id := "t"; eq_parent_invocation_id := None;
     eq_trigger_id := None; eq_session_id := None; eq_workspace_id := None;
     eq_idempotency_key := Some "k" |}.
Definition sample_len (v : Value) : Z := 4.
Definition queue1 : QueueMemory :=
  {["r1" := queue_item_new 0 "r1" (sample_enqueue Actor_Agent)]}.
Definition queue2 : QueueMemory := <["r2" := queue_item_new 1 "r2" (sample_enqueue Actor_Agent)]> queue1.

Lemma queue2_reachable : queue_reachable sample_len queue2.
Proof.
  apply rtc_l with queue1.
  - refine (qs_enqueue sample_len 0 "r1" (sample_enqueue Actor_Agent) _ _ _ _ _); vm_compute; reflexivity.
  - apply rtc_once.
    refine (qs_enqueue sample_len 1 "r2" (sample_enqueue Actor_Agent) _ _ _ _ _); vm_compute; reflexivity.
Defined.

Lemma queue_depth_bounded_witness : active_depth "main" queue2 <= MAX_ACTIVE_QUEUE_ITEMS_PER_QUEUE.
Proof. exact (queue_depth_bounded sample_len queue2 "main" queue2_reachable). Defined.

Definition cancelled1 : QueueMemory :=
  <["r1" := set_q_state (queue_item_new 0 "r1" (sample_enqueue Actor_Agent)) Q_Cancelled 0 [] None None 0 5]> queue2.

Lemma terminal_status_is_final_witness :
  exists i', cancelled1 !! "r1" = Some i' /\ q_status i' = Q_Cancelled.
Proof.
  refine (terminal_status_is_final sample_len cancelled1 cancelled1 "r1"
    (set_q_state (queue_item_new 0 "r1" (sample_enqueue Actor_Agent)) Q_Cancelled 0 [] None None 0 5)
    _ _ _).
  - apply rtc_once. refine (qs_fail sample_len 6 "r1" 3 1000 None _ false _ _). vm_compute. reflexivity.
  - vm_compute. reflexivity.
  - reflexivity.
Defined.

Definition leased1 : EngineQueueItem :=
  lease_item 10 "w" 30000 (queue_item_new 0 "r1" (sample_enqueue Actor_Agent)).
Definition leased2 : EngineQueueItem :=
  lease_item 11 "v" 30000 (queue_item_new 1 "r2" (sample_enqueue Actor_Agent)).

Lemma live_lease_is_exclusive_witness :
  q_receipt_id leased2 <> q_receipt_id leased1 /\
  queue_claim_by_receipt 11 "r1" "v" 30000 (<["r1" := leased1]> queue2)
  = Ok (None, <["r1" := leased1]> queue2).
Proof.
  refine (live_lease_is_exclusive sample_len queue2 10 "main" "w" 30000 leased1
    (<["r1" := leased1]> queue2) 11 "main" "v" 30000 leased2
    (<["r2" := leased2]> (<["r1" := leased1]> queue2)) queue2_reachable _ _ _).
  - vm_compute. reflexivity.
  - vm_compute. split; [discriminate|reflexivity].
  - vm_compute. reflexivity.
Defined.

Lemma dead_lettered_after_max_attempts_witness :
  exists i', fail_times 3 1000 [(1, None); (2, None); (3, None)]
               (queue_item_new 0 "r1" (sample_enqueue Actor_Agent)) = Some i' /\
    q_status i' = Q_DeadLettered.
Proof.
  refine (proj1 (proj2 (dead_lettered_after_max_attempts 3 1000 [(1, None); (2, None); (3, None)]
    (queue_item_new 0 "r1" (sample_enqueue Actor_Agent)) _ _ _)) _); try reflexivity.
  vm_compute. split; [reflexivity|discriminate].
Defined.

Definition sample_target : QueueTargetInvocation :=
  {| qt_result := result_success (new_sync "i1" "jobs::run" Null
       (causal_context_new "u" Actor_Agent "g" "t")) "jobs" 1 1 Null;
     qt_recorded_invocation := true; qt_resource_lease_ids := [];
     qt_compensation_status := None; qt_compensation_id := None |}.

Lemma late_result_cannot_revive_witness :
  settle_claimed_item (fun s => s) 9 (queue_item_new 0 "r1" (sample_enqueue Actor_Agent)) sample_target
    cancelled1 = Ok (None, cancelled1).
Proof.
  refine (late_result_cannot_revive (fun s => s) 9 (queue_item_new 0 "r1" (sample_enqueue Actor_Agent))
    sample_target cancelled1
    (set_q_state (queue_item_new 0 "r1" (sample_enqueue Actor_Agent)) Q_Cancelled 0 [] None None 0 5) _ _).
  - vm_compute. reflexivity.
  - left. reflexivity.
Defined.

Lemma retry_keys_are_distinct_witness : attempt_key "k" 2 = "k:queue-retry:2" /\ 2 = 2.
Proof. split; [vm_compute; reflexivity|]. exact (retry_keys_are_distinct "k" 2 2 eq_refl). Defined.

Lemma sqlite_queue_promotes_actors_witness :
  is_admin_like Actor_User = false /\ is_admin_like Actor_System = true /\
  eq_actor_kind (q_request (queue_item_new 0 "r1" (sample_enqueue Actor_User))) = Actor_User.
Proof.
  split; [reflexivity|]. split; [reflexivity|].
  refine (proj1 (sqlite_queue_promotes_actors sample_len "dup" 0 "r1" (sample_enqueue Actor_User) []
    (queue_item_new 0 "r1" (sample_enqueue Actor_User))
    [queue_item_new 0 "r1" (sample_enqueue Actor_User)] _)). vm_compute. reflexivity.
Defined.

Definition sample_script : list queue_op :=
  [Op_Enqueue 0 "r1" (sample_enqueue Actor_Agent); Op_Enqueue 0 "r2" (sample_enqueue Actor_Worker);
   Op_Claim 1 "main" "w" 100; Op_Claim 2 "main" "v" 100; Op_Fail 3 "r1" 3 10 None;
   Op_Complete 4 "r2" None; Op_ClaimReceipt 20000000 "r1" "w" 100; Op_Cancel 20000001 "r1"; Op_QueueGet "r1"].

Lemma queue_stores_agree_witness :
  memory_script sample_len sample_script queue_memory_new = table_script sample_len "dup" sample_script [].
Proof.
  apply (queue_stores_agree sample_len "dup" sample_script). vm_compute.
  repeat first [split | constructor | discriminate].
Defined.
