(* ===== verification/Streams.v ===== *)
(** * Event streams

    [durability/streams]: an append-only log of events with cursors, and
    subscriptions that poll it, in the in-memory store; the SQLite store is in
    StreamSqlite. *)

From stdpp Require Import base gmap strings list pretty sorting.
From Stdlib Require Import ZArith Ascii String Lia.
From S2P Require Import Prelude Json Kernel Policy.

#[local] Open Scope Z_scope.

(** ** Data *)

(* SRC engine/durability/streams/mod.rs:44-68 EngineStreamEvent *)
Record EngineStreamEvent := {
  se_cursor : Z;
  se_topic : string;
  se_payload : Value;
  se_visibility : VisibilityScope;
  se_session_id : option string;
  se_workspace_id : option string;
  se_producer : string;
  se_trace_id : option TraceId;
  se_parent_invocation_id : option InvocationId;
  se_created_at : instant
}.

(* SRC engine/durability/streams/mod.rs:70-90 EngineStreamSubscription *)
Record EngineStreamSubscription := {
  sub_id : string;
  sub_topic : string;
  sub_cursor : Z;
  sub_visibility : VisibilityScope;
  sub_session_id : option string;
  sub_workspace_id : option string;
  sub_active : bool;
  sub_created_at : instant
}.

(* SRC engine/durability/streams/mod.rs:92-101 StreamActorScope *)
Record StreamActorScope := {
  sa_session_id : option string;
  sa_workspace_id : option string;
  sa_admin : bool
}.

(* SRC engine/durability/streams/mod.rs:125-135 EngineStreamPage *)
Record EngineStreamPage := {
  pg_events : list EngineStreamEvent;
  pg_next_cursor : Z;
  pg_has_more : bool
}.

(* SRC engine/durability/streams/mod.rs:137-156 PublishStreamEvent *)
Record PublishStreamEvent := {
  pe_topic : string;
  pe_payload : Value;
  pe_visibility : VisibilityScope;
  pe_session_id : option string;
  pe_workspace_id : option string;
  pe_producer : string;
  pe_trace_id : option TraceId;
  pe_parent_invocation_id : option InvocationId
}.

(* SRC engine/durability/streams/mod.rs:181-200 stream_scope_visible *)
Definition stream_scope_visible (visibility : VisibilityScope) (session workspace : option string)
    (actor : StreamActorScope) : bool :=
  if sa_admin actor then true
  else match visibility with
       | Vis_System | Vis_Agent | Vis_Client => true
       | Vis_Session => same_id (sa_session_id actor) session
       | Vis_Workspace => same_id (sa_workspace_id actor) workspace
       | Vis_Internal | Vis_Worker | Vis_Admin => false
       end.

Definition event_visible (actor : StreamActorScope) (e : EngineStreamEvent) : bool :=
  stream_scope_visible (se_visibility e) (se_session_id e) (se_workspace_id e) actor.

(* SRC engine/durability/streams/mod.rs:202-213 visibility_from_str *)
Definition visibility_from_str (value : string) : VisibilityScope :=
  if value =s "session" then Vis_Session
  else if value =s "workspace" then Vis_Workspace
  else if value =s "system" then Vis_System
  else if value =s "client" then Vis_Client
  else if value =s "worker" then Vis_Worker
  else if value =s "agent" then Vis_Agent
  else if value =s "admin" then Vis_Admin
  else Vis_Internal.

(** ** The in-memory store *)

(* SRC engine/durability/streams/memory.rs:14-20 InMemoryEngineStreamStore *)
Record StreamStore := {
  ss_next_cursor : Z;
  ss_events : list EngineStreamEvent;
  ss_subscriptions : gmap string EngineStreamSubscription
}.

(* SRC engine/durability/streams/memory.rs:23-27 InMemoryEngineStreamStore::new *)
Definition stream_store_new : StreamStore :=
  {| ss_next_cursor := 0; ss_events := []; ss_subscriptions := ∅ |}.

(* SRC engine/durability/streams/memory.rs:29-51 InMemoryEngineStreamStore::publish *)
Definition stream_publish (now : instant) (e : PublishStreamEvent) (s : StreamStore)
  : Result (Z * StreamStore) :=
  if is_blank (pe_topic e) then policy_error "stream topic must not be empty"
  else
  let cursor := wrapping_add_u64 (ss_next_cursor s) 1 in
  Ok (cursor,
      {| ss_next_cursor := cursor;
         ss_events := ss_events s ++
           [{| se_cursor := cursor; se_topic := pe_topic e; se_payload := pe_payload e;
               se_visibility := pe_visibility e; se_session_id := pe_session_id e;
               se_workspace_id := pe_workspace_id e; se_producer := pe_producer e;
               se_trace_id := pe_trace_id e;
               se_parent_invocation_id := pe_parent_invocation_id e;
               se_created_at := now |}];
         ss_subscriptions := ss_subscriptions s |}).

Definition set_subscription (id : string) (sub : EngineStreamSubscription) (s : StreamStore)
  : StreamStore :=
  {| ss_next_cursor := ss_next_cursor s; ss_events := ss_events s;
     ss_subscriptions := <[id := sub]> (ss_subscriptions s) |}.

(* SRC engine/durability/streams/memory.rs:53-86 InMemoryEngineStreamStore::subscribe *)
Definition stream_subscribe (now : instant) (id topic : string) (cursor : Z)
    (visibility : VisibilityScope) (session workspace : option string) (s : StreamStore)
  : Result (EngineStreamSubscription * StreamStore) :=
  if is_blank id then policy_error "stream subscription id must not be empty"
  else if is_blank topic then policy_error "stream topic must not be empty"
  else
  let sub := {| sub_id := id; sub_topic := topic; sub_cursor := cursor;
                sub_visibility := visibility; sub_session_id := session;
                sub_workspace_id := workspace; sub_active := true; sub_created_at := now |} in
  Ok (sub, set_subscription id sub s).

(* SRC engine/durability/streams/memory.rs:88-97 InMemoryEngineStreamStore::latest_cursor *)
Definition latest_cursor (topic : string) (s : StreamStore) : Z :=
  match List.find (fun e => se_topic e =s topic) (rev (ss_events s)) with
  | Some e => se_cursor e
  | None => 0
  end.

Definition set_sub (sub : EngineStreamSubscription) (cursor : Z) (active : bool)
  : EngineStreamSubscription :=
  {| sub_id := sub_id sub; sub_topic := sub_topic sub; sub_cursor := cursor;
     sub_visibility := sub_visibility sub; sub_session_id := sub_session_id sub;
     sub_workspace_id := sub_workspace_id sub; sub_active := active;
     sub_created_at := sub_created_at sub |}.

(* SRC engine/durability/streams/memory.rs:99-107 InMemoryEngineStreamStore::unsubscribe *)
Definition stream_unsubscribe (id : string) (s : StreamStore) : Result (bool * StreamStore) :=
  match ss_subscriptions s !! id with
  | None => Ok (false, s)
  | Some sub => Ok (sub_active sub, set_subscription id (set_sub sub (sub_cursor sub) false) s)
  end.

Definition subscription_not_found (id : string) : EngineError := NotFound "stream_subscription" id.
Definition inactive_error (id : string) : EngineError :=
  PolicyViolation ("stream subscription " +s id +s " is inactive").

(* SRC engine/durability/streams/memory.rs:109-130 InMemoryEngineStreamStore::acknowledge *)
Definition stream_acknowledge (id : string) (cursor : Z) (s : StreamStore)
  : Result (EngineStreamSubscription * StreamStore) :=
  match ss_subscriptions s !! id with
  | None => Err (subscription_not_found id)
  | Some sub =>
      if negb (sub_active sub) then Err (inactive_error id)
      else
      let sub' := if sub_cursor sub <? cursor then set_sub sub cursor (sub_active sub) else sub in
      Ok (sub', set_subscription id sub' s)
  end.

(** [sort_by_key(|event| event.cursor)] *)
Definition cursor_le (a b : EngineStreamEvent) : Prop := se_cursor a <= se_cursor b.
#[global] Instance cursor_le_dec : RelDecision cursor_le.
Proof. intros a b. unfold cursor_le. apply _. Defined.

(** The checks at the start of a poll; they return the subscription. *)
(* SRC engine/durability/streams/memory.rs:140-166! InMemoryEngineStreamStore::poll *)
Definition poll_subscription (id : string) (limit : Z) (actor : StreamActorScope) (s : StreamStore)
  : Result EngineStreamSubscription :=
  if limit =? 0 then policy_error "stream poll limit must be greater than zero"
  else
  let? sub := ok_or (ss_subscriptions s !! id) (subscription_not_found id) in
  if negb (sub_active sub) then Err (inactive_error id)
  else if negb (stream_scope_visible (sub_visibility sub) (sub_session_id sub)
                  (sub_workspace_id sub) actor)
  then policy_error ("stream subscription " +s id +s " is not visible")
  else Ok sub.

(** The cursor of the last event of a page, or [after] for an empty page. *)
Definition last_cursor (after : Z) (events : list EngineStreamEvent) : Z :=
  fold_left (fun _ e => se_cursor e) events after.

(* SRC engine/durability/streams/memory.rs:132-200 InMemoryEngineStreamStore::poll *)
Definition stream_poll (id : string) (after : option Z) (limit : Z) (actor : StreamActorScope)
    (s : StreamStore) : Result EngineStreamPage :=
  let? sub := poll_subscription id limit actor s in
  let after := default (sub_cursor sub) after in
  let limit := Z.min limit 500 in
  let visible :=
    merge_sort cursor_le
      (List.filter (event_visible actor)
        (List.filter (fun e => after <? se_cursor e)
          (List.filter (fun e => se_topic e =s sub_topic sub) (ss_events s)))) in
  let events := take (Z.to_nat limit) visible in
  Ok {| pg_events := events; pg_next_cursor := last_cursor after events;
        pg_has_more := limit <? Z.of_nat (List.length visible) |}.

(* SRC engine/durability/streams/memory.rs:202-212 InMemoryEngineStreamStore::list_by_session *)
Definition stream_list_by_session (session : string) (s : StreamStore)
  : Result (list EngineStreamEvent) :=
  Ok (merge_sort cursor_le
        (List.filter (fun e => bool_decide (se_session_id e = Some session)) (ss_events s))).

(** ** Reachable stores *)

Inductive stream_step : StreamStore -> StreamStore -> Prop :=
| st_publish now e s c s' :
    ss_next_cursor s < u64_max -> stream_publish now e s = Ok (c, s') -> stream_step s s'
| st_subscribe now id topic c v se w s sub s' :
    stream_subscribe now id topic c v se w s = Ok (sub, s') -> stream_step s s'
| st_unsubscribe id s b s' : stream_unsubscribe id s = Ok (b, s') -> stream_step s s'
| st_acknowledge id c s sub s' : stream_acknowledge id c s = Ok (sub, s') -> stream_step s s'.

Definition stream_reachable : StreamStore -> Prop := rtc stream_step stream_store_new.

Definition cursor_lt (a b : EngineStreamEvent) : Prop := se_cursor a < se_cursor b.

(** Cursors are positive, strictly increasing and bounded by the counter. *)
Record stream_inv (s : StreamStore) : Prop := {
  si_next : 0 <= ss_next_cursor s <= u64_max;
  si_bound : Forall (fun e => 0 < se_cursor e <= ss_next_cursor s) (ss_events s);
  si_sorted : StronglySorted cursor_lt (ss_events s)
}.

Lemma StronglySorted_snoc {A} (R : A -> A -> Prop) l x :
  StronglySorted R l -> Forall (fun y => R y x) l -> StronglySorted R (l ++ [x]).
Proof.
  induction 1 as [|y l Hl IH Hy]; simpl; [by repeat constructor|].
  intros [Hyx Hf]%Forall_cons. constructor; [auto|]. apply Forall_app. split; [done|by constructor].
Qed.

Lemma stream_inv_step s s' : stream_inv s -> stream_step s s' -> stream_inv s'.
Proof.
  intros Hinv Hstep. revert Hinv.
  destruct Hstep as [now e s0 c s1 Hlt H|now id topic c v se w s0 sub s1 H|id s0 b s1 H|id c s0 sub s1 H];
    intros [Hn Hb Hs].
  - unfold stream_publish in H. apply guard_err_ok in H as [_ H].
    rewrite wrapping_add_u64_small in H by lia. simplify_eq. split; simpl.
    + lia.
    + apply Forall_app. split; [|constructor; [simpl; lia|constructor]].
      eapply Forall_impl; [exact Hb|]. intros x. simpl. lia.
    + apply StronglySorted_snoc; [done|]. eapply Forall_impl; [exact Hb|]. intros x Hx.
      unfold cursor_lt. simpl in *. lia.
  - unfold stream_subscribe in H. apply guard_err_ok in H as [_ H].
    apply guard_err_ok in H as [_ H]. by simplify_eq.
  - unfold stream_unsubscribe in H. case_match; by simplify_eq.
  - unfold stream_acknowledge in H. case_match; [|done]. apply guard_err_ok in H as [_ H].
    by simplify_eq.
Qed.

Lemma stream_inv_reachable s : stream_reachable s -> stream_inv s.
Proof.
  unfold stream_reachable. revert s. apply rtc_ind_r.
  - split; simpl; [unfold u64_max; lia|constructor|constructor].
  - intros s s' _ Hstep Hinv. by eapply stream_inv_step.
Qed.

(** ** Pages *)

(** The events a subscription may deliver after a cursor. *)
Definition deliverable (topic : string) (after : Z) (actor : StreamActorScope)
    (events : list EngineStreamEvent) : list EngineStreamEvent :=
  List.filter (fun e => (se_topic e =s topic) && (after <? se_cursor e) && event_visible actor e) events.

Lemma deliverable_filters topic after actor l :
  List.filter (event_visible actor)
    (List.filter (fun e => after <? se_cursor e) (List.filter (fun e => se_topic e =s topic) l))
  = deliverable topic after actor l.
Proof.
  unfold deliverable. rewrite !filter_filter. apply List.filter_ext. intros e.
  by destruct (se_topic e =s topic), (after <? se_cursor e), (event_visible actor e).
Qed.

Lemma merge_sort_sorted l : StronglySorted cursor_lt l -> merge_sort cursor_le l = l.
Proof.
  intros Hs. apply (StronglySorted_unique_strong cursor_le).
  - intros x y Hx Hy H1 H2. unfold cursor_le in *.
    rewrite merge_sort_Permutation in Hx. clear -Hs Hx Hy H1 H2.
    induction Hs as [|z l Hl IH Hz]; [by apply not_elem_of_nil in Hx|].
    rewrite Forall_forall in Hz. unfold cursor_lt in Hz.
    apply elem_of_cons in Hx as [->|Hx], Hy as [->|Hy]; [done| | |by apply IH].
    + specialize (Hz y Hy). lia.
    + specialize (Hz x Hx). lia.
  - apply StronglySorted_merge_sort; [intros a b c; unfold cursor_le; lia|].
    intros a b. unfold cursor_le. lia.
  - clear -Hs. induction Hs as [|z l Hl IH Hz]; constructor; [done|].
    eapply Forall_impl; [exact Hz|]. unfold cursor_lt, cursor_le. intros; lia.
  - apply merge_sort_Permutation.
Qed.

Lemma stream_poll_eq id after limit actor s :
  stream_inv s ->
  stream_poll id after limit actor s =
  let? sub := poll_subscription id limit actor s in
  let after := default (sub_cursor sub) after in
  let all := deliverable (sub_topic sub) after actor (ss_events s) in
  let events := take (Z.to_nat (Z.min limit 500)) all in
  Ok {| pg_events := events; pg_next_cursor := last_cursor after events;
        pg_has_more := Z.min limit 500 <? Z.of_nat (List.length all) |}.
Proof.
  intros [_ _ Hs]. unfold stream_poll. destruct (poll_subscription id limit actor s) as [sub|]; [|done].
  rewrite deliverable_filters, merge_sort_sorted by (by apply filter_sorted). done.
Qed.

(** An event in a polled page is a stored event of the subscription's topic after the
    cursor, the subscription is active, and an actor who is not an admin sees it only if it
    is public or belongs to the actor's own session or workspace. *)
Theorem poll_respects_visibility id after limit actor s page e :
  stream_poll id after limit actor s = Ok page -> In e (pg_events page) ->
  exists sub, ss_subscriptions s !! id = Some sub /\ sub_active sub = true /\
    se_topic e = sub_topic sub /\ default (sub_cursor sub) after < se_cursor e /\
    In e (ss_events s) /\
    (sa_admin actor = false ->
     match se_visibility e with
     | Vis_System | Vis_Agent | Vis_Client => True
     | Vis_Session => is_Some (sa_session_id actor) /\ sa_session_id actor = se_session_id e
     | Vis_Workspace => is_Some (sa_workspace_id actor) /\ sa_workspace_id actor = se_workspace_id e
     | _ => False
     end).
Proof.
  unfold stream_poll. destruct (poll_subscription id limit actor s) as [sub|] eqn:Hp; [|done].
  intros H Hin. simplify_eq. simpl in Hin.
  unfold poll_subscription in Hp. apply guard_err_ok in Hp as [_ Hp].
  destruct (ss_subscriptions s !! id) as [sub'|]; [|done]. simpl in Hp.
  apply guard_err_ok in Hp as [Ha Hp]. apply guard_err_ok in Hp as [_ Hp]. simplify_eq.
  apply list_elem_of_In, elem_of_take in Hin as (n & Hn & _).
  apply list_elem_of_lookup_2 in Hn. rewrite merge_sort_Permutation, list_elem_of_In in Hn.
  rewrite !filter_In in Hn. destruct Hn as [[[Hin Ht] Hc] Hv]. bool_prop.
  exists sub. split_and!; try done.
  intros Hadm. unfold event_visible, stream_scope_visible in Hv. rewrite Hadm in Hv.
  destruct (se_visibility e); try done; unfold same_id in Hv; inv_ok; bool_prop; subst; eauto.
Qed.

Lemma last_cursor_app after l e : last_cursor after (l ++ [e]) = se_cursor e.
Proof. unfold last_cursor. by rewrite fold_left_app. Qed.

(** Dropping a page of deliverable events is polling after its last cursor. *)
Lemma deliverable_drop topic after actor l n :
  StronglySorted cursor_lt l -> (n <= List.length (deliverable topic after actor l))%nat ->
  drop n (deliverable topic after actor l)
  = deliverable topic (last_cursor after (take n (deliverable topic after actor l))) actor l.
Proof.
  intros Hs Hn. destruct n as [|n]; [done|].
  set (d := deliverable topic after actor l) in *.
  destruct (lookup_lt_is_Some_2 d n) as [e He]; [lia|].
  rewrite (take_S_r d n e He), last_cursor_app.
  assert (StronglySorted cursor_lt d) as Hd by (by apply filter_sorted).
  assert (after < se_cursor e) as Hae.
  { apply list_elem_of_lookup_2, list_elem_of_In in He. subst d. unfold deliverable in He.
    apply filter_In in He as [_ He]. bool_prop. done. }
  assert (deliverable topic (se_cursor e) actor l = List.filter (fun x => se_cursor e <? se_cursor x) d) as ->.
  { subst d. unfold deliverable. rewrite filter_filter. apply List.filter_ext_in. intros x Hx.
    destruct (se_topic x =s topic), (event_visible actor x); simpl; rewrite ?andb_false_r, ?andb_true_r; try done.
    destruct (Z.ltb_spec (se_cursor e) (se_cursor x)), (Z.ltb_spec after (se_cursor x)); simpl; try done; lia. }
  clear -Hd He. revert n He. induction Hd as [|x d Hd IH Hx]; intros n He; [done|].
  destruct n as [|n]; simpl in *.
  - simplify_eq. rewrite Z.ltb_irrefl, drop_0. clear -Hx.
    induction Hx as [|y d Hy _ IH]; simpl; [done|]. unfold cursor_lt in Hy.
    rewrite (proj2 (Z.ltb_lt _ _) Hy). by f_equal.
  - rewrite <- (IH n He). assert (se_cursor x < se_cursor e) as Hlt.
    { apply list_elem_of_lookup_2 in He. rewrite Forall_forall in Hx. by apply Hx. }
    rewrite (proj2 (Z.ltb_ge _ _)) by lia. done.
Qed.

(** Follow [next_cursor] from page to page until [has_more] is false. *)
Fixpoint poll_pages (fuel : nat) (id : string) (after : Z) (limit : Z)
    (actor : StreamActorScope) (s : StreamStore) : list EngineStreamEvent :=
  match fuel with
  | O => []
  | S fuel' =>
      match stream_poll id (Some after) limit actor s with
      | Ok page =>
          pg_events page ++
          (if pg_has_more page then poll_pages fuel' id (pg_next_cursor page) limit actor s else [])
      | Err _ => []
      end
  end.

(** Polling page after page from any cursor, with any positive page size, ends and
    delivers exactly the events the actor may see after that cursor, each once and in order.
    *)
Theorem paging_delivers_every_event_once id limit actor s sub :
  stream_reachable s -> 0 < limit -> poll_subscription id limit actor s = Ok sub ->
  forall fuel after, (List.length (ss_events s) < fuel)%nat ->
  poll_pages fuel id after limit actor s = deliverable (sub_topic sub) after actor (ss_events s).
Proof.
  intros Hinv%stream_inv_reachable Hlim Hsub fuel after Hfuel.
  assert (List.length (deliverable (sub_topic sub) after actor (ss_events s)) < fuel)%nat as Hf.
  { eapply Nat.le_lt_trans; [|exact Hfuel]. apply List.filter_length_le. }
  clear Hfuel. revert after Hf. induction fuel as [|fuel IH]; intros after Hf; [lia|].
  cbn [poll_pages]. rewrite stream_poll_eq, Hsub by done. cbn.
  set (d := deliverable (sub_topic sub) after actor (ss_events s)) in *.
  set (n := Z.to_nat (Z.min limit 500)).
  destruct (Z.ltb_spec (Z.min limit 500) (Z.of_nat (List.length d))) as [Hlt|Hge].
  - assert (1 <= n <= List.length d)%nat as Hn by (unfold n; lia).
    assert (drop n d = deliverable (sub_topic sub) (last_cursor after (take n d)) actor (ss_events s)) as Hdrop.
    { apply deliverable_drop; [apply Hinv|exact (proj2 Hn)]. }
    rewrite IH; [rewrite <- Hdrop; apply take_drop|]. rewrite <- Hdrop, length_drop. lia.
  - rewrite app_nil_r. apply take_ge. unfold n. lia.
Qed.

(** Acknowledging sets a subscription's cursor to the maximum of the old and the given
    one, and touches no other subscription and no event. *)
Theorem acknowledge_never_rewinds id c s sub s' :
  stream_acknowledge id c s = Ok (sub, s') ->
  exists old, ss_subscriptions s !! id = Some old /\ sub_cursor sub = Z.max (sub_cursor old) c /\
    ss_subscriptions s' !! id = Some sub /\ ss_events s' = ss_events s /\
    forall j, j <> id -> ss_subscriptions s' !! j = ss_subscriptions s !! j.
Proof.
  unfold stream_acknowledge. destruct (ss_subscriptions s !! id) as [old|] eqn:Ho; [|done].
  intros [_ H]%guard_err_ok. apply (inj Ok), pair_equal_spec in H as [<- <-].
  exists old. split_and!; try done.
  - destruct (Z.ltb_spec (sub_cursor old) c); simpl; lia.
  - apply lookup_insert_eq.
  - intros j Hj. by apply lookup_insert_ne.
Qed.

Lemma latest_cursor_bound topic s e :
  stream_inv s -> In e (ss_events s) -> se_topic e = topic -> se_cursor e <= latest_cursor topic s.
Proof.
  intros [_ _ Hs] Hin Ht. unfold latest_cursor.
  destruct (List.find _ (rev (ss_events s))) as [f|] eqn:Hf.
  - revert Hf. induction Hs as [|x l Hl IH Hx] using StronglySorted_ind; [done|]. simpl.
    intros Hf. assert (List.find (fun e => se_topic e =s topic) (rev l ++ [x]) =
      match List.find (fun e => se_topic e =s topic) (rev l) with
      | Some y => Some y | None => List.find (fun e => se_topic e =s topic) [x] end) as Happ.
    { clear. induction (rev l) as [|y r IHr]; simpl; [done|]. by destruct (se_topic y =s topic). }
    rewrite Happ in Hf. clear Happ. rewrite Forall_forall in Hx. unfold cursor_lt in Hx.
    destruct (List.find _ (rev l)) as [y|] eqn:Hy.
    + simplify_eq. destruct Hin as [<-|Hin]; [|auto].
      apply find_some in Hy as [Hy _]. apply in_rev in Hy.
      specialize (Hx f (proj2 (list_elem_of_In _ _) Hy)). lia.
    + destruct Hin as [<-|Hin].
      * simpl in Hf. case_match; [|done]. simplify_eq. lia.
      * apply in_rev in Hin. eapply find_none in Hy; [|exact Hin]. simpl in Hy.
        by rewrite Ht, String.eqb_refl in Hy.
  - apply in_rev in Hin. eapply find_none in Hf; [|exact Hin]. simpl in Hf.
    by rewrite Ht, String.eqb_refl in Hf.
Qed.

(** A subscription opened at the latest cursor of a topic gets, after one more event is
    published, exactly that event. *)
Theorem tail_subscription_sees_only_new_events s s' now id topic v se w sub s1 actor limit ev c :
  stream_reachable s -> 0 < limit ->
  stream_subscribe now id topic (latest_cursor topic s) v se w s = Ok (sub, s1) ->
  stream_publish now ev s1 = Ok (c, s') -> ss_next_cursor s < u64_max ->
  pe_topic ev = topic -> stream_scope_visible v se w actor = true ->
  stream_scope_visible (pe_visibility ev) (pe_session_id ev) (pe_workspace_id ev) actor = true ->
  exists e, stream_poll id None limit actor s' =
    Ok {| pg_events := [e]; pg_next_cursor := c; pg_has_more := false |} /\
    se_cursor e = c /\ se_payload e = pe_payload ev.
Proof.
  intros Hinv%stream_inv_reachable Hlim Hsub Hpub Hmax Ht Hv Hve.
  assert (stream_inv s') as Hinv'.
  { eapply stream_inv_step; [eapply stream_inv_step; [exact Hinv|by eapply st_subscribe]|].
    eapply st_publish; [|exact Hpub]. unfold stream_subscribe in Hsub.
    apply guard_err_ok in Hsub as [_ Hsub]. apply guard_err_ok in Hsub as [_ Hsub]. by simplify_eq. }
  unfold stream_subscribe in Hsub. apply guard_err_ok in Hsub as [_ Hsub].
  apply guard_err_ok in Hsub as [_ Hsub]. simplify_eq. unfold stream_publish in Hpub.
  apply guard_err_ok in Hpub as [_ Hpub]. simpl in Hpub.
  pose proof (si_next s Hinv) as Hn. rewrite wrapping_add_u64_small in Hpub by lia.
  apply (inj Ok), pair_equal_spec in Hpub as [<- <-].
  rewrite stream_poll_eq by done. unfold poll_subscription.
  rewrite (proj2 (Z.eqb_neq limit 0)) by lia. simpl. rewrite lookup_insert_eq. simpl. rewrite Hv. simpl.
  assert (forall l, (forall e, In e l -> In e (ss_events s)) ->
    deliverable (pe_topic ev) (latest_cursor (pe_topic ev) s) actor l = []) as Hnone.
  { induction l as [|e l IH]; intros Hl; [done|]. unfold deliverable. cbn [List.filter].
    destruct (String.eqb_spec (se_topic e) (pe_topic ev)) as [He|]; simpl.
    - pose proof (latest_cursor_bound (pe_topic ev) s e Hinv (Hl e (or_introl eq_refl)) He).
      rewrite (proj2 (Z.ltb_ge _ _)) by done. simpl. apply IH. intros x Hx. apply Hl. by right.
    - apply IH. intros x Hx. apply Hl. by right. }
  unfold deliverable in *. rewrite List.filter_app, Hnone by done. simpl.
  rewrite String.eqb_refl. unfold event_visible. simpl. rewrite Hve.
  assert (latest_cursor (pe_topic ev) s < ss_next_cursor s + 1) as Hlt.
  { unfold latest_cursor. destruct (List.find _ _) as [e|] eqn:Hf; [|lia].
    apply find_some in Hf as [Hin%in_rev _]. pose proof (si_bound s Hinv) as Hb.
    rewrite List.Forall_forall in Hb. specialize (Hb e Hin). lia. }
  rewrite (proj2 (Z.ltb_lt _ _) Hlt). simpl.
  match goal with |- context [take _ [?x]] => exists x end. split; [|split; reflexivity].
  replace (Z.to_nat (Z.min limit 500)) with (S (Z.to_nat (Z.min limit 500 - 1))) by lia.
  simpl. rewrite take_nil. simpl. do 2 f_equal. apply Z.ltb_ge. lia.
Qed.

(** ** The properties at concrete inputs *)

Definition sample_event (topic session : string) : PublishStreamEvent :=
  {| pe_topic := topic; pe_payload := VString session; pe_visibility := Vis_Session;
     pe_session_id := Some session; pe_workspace_id := None; pe_producer := "p";
     pe_trace_id := None; pe_parent_invocation_id := None |}.
Definition next_store {A} (s : StreamStore) (r : Result (A * StreamStore)) : StreamStore :=
  match r with Ok (_, s') => s' | Err _ => s end.
Definition stream1 : StreamStore :=
  next_store stream_store_new (stream_publish 1 (sample_event "a" "s1") stream_store_new).
Definition stream2 : StreamStore :=
  next_store stream1 (stream_publish 2 (sample_event "a" "s2") stream1).
Definition stream3 : StreamStore :=
  next_store stream2 (stream_subscribe 3 "sub" "a" 0 Vis_System None None stream2).
Definition s1_actor : StreamActorScope :=
  {| sa_session_id := Some "s1"; sa_workspace_id := None; sa_admin := false |}.
Definition sample_sub : EngineStreamSubscription :=
  {| sub_id := "sub"; sub_topic := "a"; sub_cursor := 0; sub_visibility := Vis_System;
     sub_session_id := None; sub_workspace_id := None; sub_active := true; sub_created_at := 3 |}.

Lemma stream2_reachable : stream_reachable stream2.
Proof.
  apply rtc_l with stream1; [|apply rtc_once].
  - refine (st_publish 1 (sample_event "a" "s1") _ 1 _ _ _); vm_compute; reflexivity.
  - refine (st_publish 2 (sample_event "a" "s2") _ 2 _ _ _); vm_compute; reflexivity.
Defined.
Lemma stream3_reachable : stream_reachable stream3.
Proof.
  eapply rtc_r; [exact stream2_reachable|].
  refine (st_subscribe 3 "sub" "a" 0 Vis_System None None _ sample_sub _ _). vm_compute. reflexivity.
Defined.

Definition event1 : EngineStreamEvent :=
  {| se_cursor := 1; se_topic := "a"; se_payload := VString "s1"; se_visibility := Vis_Session;
     se_session_id := Some "s1"; se_workspace_id := None; se_producer := "p";
     se_trace_id := None; se_parent_invocation_id := None; se_created_at := 1 |}.

Lemma poll_respects_visibility_witness :
  stream_poll "sub" None 10 s1_actor stream3
  = Ok {| pg_events := [event1]; pg_next_cursor := 1; pg_has_more := false |} /\
  exists sub, ss_subscriptions stream3 !! "sub" = Some sub /\ se_topic event1 = sub_topic sub.
Proof.
  assert (stream_poll "sub" None 10 s1_actor stream3
    = Ok {| pg_events := [event1]; pg_next_cursor := 1; pg_has_more := false |}) as Hp
    by (vm_compute; reflexivity).
  split; [exact Hp|].
  destruct (poll_respects_visibility "sub" None 10 s1_actor stream3 _ event1 Hp (or_introl eq_refl))
    as (sub & Hs & _ & Ht & _).
  exists sub. split; [exact Hs|exact Ht].
Defined.

Lemma paging_delivers_every_event_once_witness :
  poll_pages 3 "sub" 0 1 {| sa_session_id := None; sa_workspace_id := None; sa_admin := true |} stream3
  = deliverable "a" 0 {| sa_session_id := None; sa_workspace_id := None; sa_admin := true |}
      (ss_events stream3).
Proof.
  refine (paging_delivers_every_event_once "sub" 1
    {| sa_session_id := None; sa_workspace_id := None; sa_admin := true |} stream3 sample_sub
    stream3_reachable _ _ 3 0 _).
  - lia.
  - vm_compute. reflexivity.
  - vm_compute. lia.
Defined.

Lemma acknowledge_never_rewinds_witness :
  exists old, ss_subscriptions stream3 !! "sub" = Some old /\ 1 = Z.max (sub_cursor old) 1.
Proof.
  destruct (acknowledge_never_rewinds "sub" 1 stream3 (set_sub sample_sub 1 true)
    (set_subscription "sub" (set_sub sample_sub 1 true) stream3)) as (old & H1 & H2 & _).
  - vm_compute. reflexivity.
  - exists old. split; [exact H1|exact H2].
Defined.

Lemma tail_subscription_sees_only_new_events_witness :
  let s1 := next_store stream2 (stream_subscribe 3 "sub" "a" (latest_cursor "a" stream2) Vis_System None None stream2) in
  let s' := next_store s1 (stream_publish 3 (sample_event "a" "s1") s1) in
  exists e, stream_poll "sub" None 7 s1_actor s'
    = Ok {| pg_events := [e]; pg_next_cursor := 3; pg_has_more := false |} /\
    se_cursor e = 3 /\ se_payload e = VString "s1".
Proof.
  intros s1 s'.
  refine (tail_subscription_sees_only_new_events stream2 s' 3 "sub" "a" Vis_System None None
    (set_sub sample_sub 2 true) s1 s1_actor 7 (sample_event "a" "s1") 3 stream2_reachable _ _ _ _ _ _ _);
    try (vm_compute; reflexivity).
Defined.
