(* ===== verification/StreamSqlite.v ===== *)
(** * The SQLite stream store

    [durability/streams/sqlite_store.rs] and the codec of [mod.rs], over the
    payload storage that keeps the payload of an event (the class
    [PayloadStore]): tables of events and subscriptions, and every operation.  The
    theorem is a refinement: whatever calls were made, and whatever the payload
    storage does for other owners in between, the store answers as the in-memory
    store of Streams does.

    A column that holds the RFC 3339 text of an instant has the instant as type.
    Cursors are stored as [i64]; visibilities as their names.  The texts of
    SQLite's errors are parameters. *)

From stdpp Require Import base gmap strings list sorting.
From Stdlib Require Import ZArith Ascii String Lia.
From S2P Require Import Prelude Json Storage PayloadStore Kernel Policy Streams.

#[local] Open Scope Z_scope.

(** ** Tables *)

(* SRC engine/durability/streams/sqlite_store.rs:39-50! SqliteEngineStreamStore::init *)
Record StreamEventRow := {
  sw_cursor : Z;
  sw_topic : string;
  sw_payload_json : string;
  sw_visibility : string;
  sw_session_id : option string;
  sw_workspace_id : option string;
  sw_producer : string;
  sw_trace_id : option string;
  sw_parent_invocation_id : option string;
  sw_created_at : instant
}.

(* SRC engine/durability/streams/sqlite_store.rs:52-61! SqliteEngineStreamStore::init *)
Record SubscriptionRow := {
  uw_subscription_id : string;
  uw_topic : string;
  uw_cursor : Z;
  uw_visibility : string;
  uw_session_id : option string;
  uw_workspace_id : option string;
  uw_active : Z;
  uw_created_at : instant
}.

(** Rows in the order of their cursors; [rt_sequence] is the largest cursor that
    [AUTOINCREMENT] has given out. *)
Record StreamTables {T : Type} := {
  rt_sequence : Z;
  rt_events : list StreamEventRow;
  rt_subscriptions : list SubscriptionRow;
  rt_storage : T
}.
Arguments StreamTables : clear implicits.

(** [x as i64] and [x as u64]. *)
Definition cursor_as_i64 (z : Z) : Z := if z <=? i64_max then z else z - 2 ^ 64.
Definition cursor_as_u64 (z : Z) : Z := z mod 2 ^ 64.

(** [id.and_then(|id| TraceId::new(id).ok())] *)
Definition id_or_none (kind : string) (id : option string) : option string :=
  match id with
  | Some id => match engine_id_new kind id with Ok id => Some id | Err _ => None end
  | None => None
  end.

(** The ids and the clock of a publication: its instant, the ids that the payload
    storage draws, and the UUID of the payload's owner. *)
Record PublishStamp := {
  pk_now : instant; pk_blob : string; pk_ref : string; pk_owner : string }.

Section store.
  Context {T : Type} `{PS : PayloadStore T}.
  Variable sql_text : string -> string.
  Variable full_text : string.

(* SRC engine/durability/streams/mod.rs:158-179! row_to_stream_event *)
Definition row_to_stream_event (t : T) (w : StreamEventRow) : Res EngineStreamEvent :=
  let? payload := ps_read (sw_payload_json w) t in
  Ok {| se_cursor := cursor_as_u64 (sw_cursor w); se_topic := sw_topic w; se_payload := payload;
        se_visibility := visibility_from_str (sw_visibility w); se_session_id := sw_session_id w;
        se_workspace_id := sw_workspace_id w; se_producer := sw_producer w;
        se_trace_id := id_or_none "trace" (sw_trace_id w);
        se_parent_invocation_id := id_or_none "invocation" (sw_parent_invocation_id w);
        se_created_at := sw_created_at w |}.

Definition publish_options (owner : string) (e : PublishStreamEvent) : StorePayloadOptions :=
  options_with_scope (pe_trace_id e) (pe_session_id e) (pe_workspace_id e)
    (options_new "engine_stream_event" ("stream_event_" +s owner) "payload" "runtime").

(** The payload is stored and the row inserted by statements of their own. *)
(* SRC engine/durability/streams/sqlite_store.rs:77-120 SqliteEngineStreamStore::publish *)
Definition sqlite_publish (stamp : PublishStamp) (e : PublishStreamEvent) (t : StreamTables T)
  : Result Z * StreamTables T :=
  if is_blank (pe_topic e) then (policy_error "stream topic must not be empty", t)
  else
  match ps_store (pk_now stamp) (pk_blob stamp) (pk_ref stamp) (pe_payload e)
          (publish_options (pk_owner stamp) e) (rt_storage t) with
  | (Err err, storage) =>
      (Err (LedgerFailure "stream.event.payload" err),
       {| rt_sequence := rt_sequence t; rt_events := rt_events t;
          rt_subscriptions := rt_subscriptions t; rt_storage := storage |})
  | (Ok payload, storage) =>
      if i64_max <=? rt_sequence t
      then (Err (LedgerFailure "stream.publish" full_text),
            {| rt_sequence := rt_sequence t; rt_events := rt_events t;
               rt_subscriptions := rt_subscriptions t; rt_storage := storage |})
      else
      let cursor := rt_sequence t + 1 in
      (Ok (cursor_as_u64 cursor),
       {| rt_sequence := cursor;
          rt_events := rt_events t ++
            [{| sw_cursor := cursor; sw_topic := pe_topic e; sw_payload_json := payload;
                sw_visibility := visibility_as_str (pe_visibility e);
                sw_session_id := pe_session_id e; sw_workspace_id := pe_workspace_id e;
                sw_producer := pe_producer e; sw_trace_id := pe_trace_id e;
                sw_parent_invocation_id := pe_parent_invocation_id e;
                sw_created_at := pk_now stamp |}];
          rt_subscriptions := rt_subscriptions t; rt_storage := storage |})
  end.

Definition set_subscriptions (rows : list SubscriptionRow) (t : StreamTables T) : StreamTables T :=
  {| rt_sequence := rt_sequence t; rt_events := rt_events t; rt_subscriptions := rows;
     rt_storage := rt_storage t |}.

(** [ON CONFLICT(subscription_id) DO UPDATE] keeps the id and the creation time. *)
Definition upsert_subscription (row : SubscriptionRow) (t : StreamTables T) : StreamTables T :=
  set_subscriptions
    (if is_some (find_key uw_subscription_id (rt_subscriptions t) (uw_subscription_id row))
     then map (fun w =>
            if uw_subscription_id w =s uw_subscription_id row
            then {| uw_subscription_id := uw_subscription_id w; uw_topic := uw_topic row;
                    uw_cursor := uw_cursor row; uw_visibility := uw_visibility row;
                    uw_session_id := uw_session_id row; uw_workspace_id := uw_workspace_id row;
                    uw_active := 1; uw_created_at := uw_created_at w |}
            else w) (rt_subscriptions t)
     else rt_subscriptions t ++ [row]) t.

(* SRC engine/durability/streams/sqlite_store.rs:122-176 SqliteEngineStreamStore::subscribe *)
Definition sqlite_subscribe (now : instant) (id topic : string) (cursor : Z)
    (visibility : VisibilityScope) (session workspace : option string) (t : StreamTables T)
  : Result EngineStreamSubscription * StreamTables T :=
  if is_blank id then (policy_error "stream subscription id must not be empty", t)
  else if is_blank topic then (policy_error "stream topic must not be empty", t)
  else
  (Ok {| sub_id := id; sub_topic := topic; sub_cursor := cursor; sub_visibility := visibility;
         sub_session_id := session; sub_workspace_id := workspace; sub_active := true;
         sub_created_at := now |},
   upsert_subscription
     {| uw_subscription_id := id; uw_topic := topic; uw_cursor := cursor_as_i64 cursor;
        uw_visibility := visibility_as_str visibility; uw_session_id := session;
        uw_workspace_id := workspace; uw_active := 1; uw_created_at := now |} t).

(** [SELECT COALESCE(MAX(cursor), 0)] *)
(* SRC engine/durability/streams/sqlite_store.rs:178-191 SqliteEngineStreamStore::latest_cursor *)
Definition sqlite_latest_cursor (topic : string) (t : StreamTables T) : Z :=
  cursor_as_u64
    match map sw_cursor (List.filter (fun w => sw_topic w =s topic) (rt_events t)) with
    | [] => 0
    | c :: cs => fold_left Z.max cs c
    end.

Definition set_uw (w : SubscriptionRow) (cursor active : Z) : SubscriptionRow :=
  {| uw_subscription_id := uw_subscription_id w; uw_topic := uw_topic w; uw_cursor := cursor;
     uw_visibility := uw_visibility w; uw_session_id := uw_session_id w;
     uw_workspace_id := uw_workspace_id w; uw_active := active; uw_created_at := uw_created_at w |}.

(* SRC engine/durability/streams/sqlite_store.rs:193-204 SqliteEngineStreamStore::unsubscribe *)
Definition sqlite_unsubscribe (id : string) (t : StreamTables T) : bool * StreamTables T :=
  let hit w := (uw_subscription_id w =s id) && (uw_active w =? 1) in
  (existsb hit (rt_subscriptions t),
   set_subscriptions (map (fun w => if hit w then set_uw w (uw_cursor w) 0 else w)
                        (rt_subscriptions t)) t).

(* SRC engine/durability/streams/sqlite_store.rs:343-368 SqliteEngineStreamStore::subscription *)
Definition subscription (id : string) (t : StreamTables T) : Result EngineStreamSubscription :=
  match find_key uw_subscription_id (rt_subscriptions t) id with
  | None => Err (subscription_not_found id)
  | Some w =>
      Ok {| sub_id := uw_subscription_id w; sub_topic := uw_topic w;
            sub_cursor := cursor_as_u64 (uw_cursor w);
            sub_visibility := visibility_from_str (uw_visibility w);
            sub_session_id := uw_session_id w; sub_workspace_id := uw_workspace_id w;
            sub_active := negb (uw_active w =? 0); sub_created_at := uw_created_at w |}
  end.

(* SRC engine/durability/streams/sqlite_store.rs:206-227 SqliteEngineStreamStore::acknowledge *)
Definition sqlite_acknowledge (id : string) (cursor : Z) (t : StreamTables T)
  : Result EngineStreamSubscription * StreamTables T :=
  match subscription id t with
  | Err e => (Err e, t)
  | Ok sub =>
      if negb (sub_active sub) then (Err (inactive_error id), t)
      else
      let c := cursor_as_i64 cursor in
      let t := set_subscriptions (map (fun w =>
                 if (uw_subscription_id w =s id) && (uw_active w =? 1)
                 then set_uw w (if uw_cursor w <? c then c else uw_cursor w) (uw_active w)
                 else w) (rt_subscriptions t)) t in
      (subscription id t, t)
  end.

(** The condition of the query; [NULL = ?] is not true. *)
(* SRC engine/durability/streams/sqlite_store.rs:263-272! SqliteEngineStreamStore::poll *)
Definition row_selected (topic : string) (after : Z) (actor : StreamActorScope)
    (w : StreamEventRow) : bool :=
  (sw_topic w =s topic) && (after <? sw_cursor w)
  && (sa_admin actor
      || existsb (String.eqb (sw_visibility w)) ["system"; "agent"; "client"]
      || ((sw_visibility w =s "session") && same_id (sw_session_id w) (sa_session_id actor))
      || ((sw_visibility w =s "workspace") && same_id (sw_workspace_id w) (sa_workspace_id actor))).

(** The loop over the selected rows: [index] counts rows, [events] those that
    pass the second visibility check. *)
(* SRC engine/durability/streams/sqlite_store.rs:290-314! SqliteEngineStreamStore::poll *)
Fixpoint page_loop (actor : StreamActorScope) (limit index : Z) (rows : list (Res EngineStreamEvent))
    (events : list EngineStreamEvent) (next : Z) : Result EngineStreamPage :=
  match rows with
  | [] => Ok {| pg_events := events; pg_next_cursor := next; pg_has_more := false |}
  | Err err :: _ => Err (LedgerFailure "stream.poll.row" (sql_text err))
  | Ok e :: rest =>
      if limit <=? index
      then Ok {| pg_events := events; pg_next_cursor := next; pg_has_more := true |}
      else page_loop actor limit (index + 1) rest
             (if event_visible actor e then events ++ [e] else events) (se_cursor e)
  end.

(* SRC engine/durability/streams/sqlite_store.rs:229-315 SqliteEngineStreamStore::poll *)
Definition sqlite_poll (id : string) (after : option Z) (limit : Z) (actor : StreamActorScope)
    (t : StreamTables T) : Result EngineStreamPage :=
  if limit =? 0 then policy_error "stream poll limit must be greater than zero"
  else
  let? sub := subscription id t in
  if negb (sub_active sub) then Err (inactive_error id)
  else if negb (stream_scope_visible (sub_visibility sub) (sub_session_id sub)
                  (sub_workspace_id sub) actor)
  then policy_error ("stream subscription " +s id +s " is not visible")
  else
  let after := default (sub_cursor sub) after in
  let rows := take (Z.to_nat (Z.min limit 500 + 1))
    (List.filter (row_selected (sub_topic sub) (cursor_as_i64 after) actor) (rt_events t)) in
  page_loop actor (Z.min limit 500) 0 (map (row_to_stream_event (rt_storage t)) rows) [] after.

Definition row_error {A} (operation : string) (r : Res A) : Result A :=
  match r with Ok a => Ok a | Err err => Err (LedgerFailure operation (sql_text err)) end.
(* SRC engine/durability/streams/sqlite_store.rs:317-341 SqliteEngineStreamStore::list_by_session *)
Definition sqlite_list_by_session (session : string) (t : StreamTables T)
  : Result (list EngineStreamEvent) :=
  try_map (fun w => row_error "stream.list_by_session.row" (row_to_stream_event (rt_storage t) w))
    (List.filter (fun w => bool_decide (sw_session_id w = Some session)) (rt_events t)).

Definition no_streams (storage : T) : StreamTables T :=
  {| rt_sequence := 0; rt_events := []; rt_subscriptions := []; rt_storage := storage |}.
End store.

(** ** The in-memory store as its specification *)

Lemma cursor_small z : 0 <= z <= i64_max -> cursor_as_i64 z = z /\ cursor_as_u64 z = z.
Proof.
  intros [H0 H1]. unfold cursor_as_i64, cursor_as_u64. rewrite (proj2 (Z.leb_le _ _) H1).
  split; [done|]. apply Z.mod_small. unfold i64_max in H1. lia.
Qed.
Lemma visibility_roundtrip v : visibility_from_str (visibility_as_str v) = v.
Proof. by destruct v. Qed.
Lemma same_id_sym a b : same_id a b = same_id b a.
Proof. destruct a, b; simpl; try done. apply String.eqb_sym. Qed.
Lemma take_take_le {A} n m (l : list A) : (n <= m)%nat -> take n (take m l) = take n l.
Proof. intros. rewrite take_take. f_equal. lia. Qed.

Definition stream_owner (u : string) : owner := ("engine_stream_event", "stream_event_" +s u, "payload").
Definition valid_id (kind : string) (id : option string) : Prop := id_or_none kind id = id.

(** A subscription row; only its creation time may differ. *)
Definition sub_agrees (w : SubscriptionRow) (s : EngineStreamSubscription) : Prop :=
  uw_topic w = sub_topic s /\ uw_cursor w = sub_cursor s /\
  0 <= sub_cursor s <= i64_max /\ uw_visibility w = visibility_as_str (sub_visibility s) /\
  uw_session_id w = sub_session_id s /\ uw_workspace_id w = sub_workspace_id s /\
  uw_active w = (if sub_active s then 1 else 0) /\ uw_subscription_id w = sub_id s.
Definition created_at (c : instant) (s : EngineStreamSubscription) : EngineStreamSubscription :=
  {| sub_id := sub_id s; sub_topic := sub_topic s; sub_cursor := sub_cursor s;
     sub_visibility := sub_visibility s; sub_session_id := sub_session_id s;
     sub_workspace_id := sub_workspace_id s; sub_active := sub_active s; sub_created_at := c |}.

Section refinement.
  Context {T : Type} `{PS : PayloadStore T}.
  Variable sql_text : string -> string.
  Variable full_text : string.
  Notation tables := (StreamTables T).

(** A row of an event whose payload is stored under an owner of [used]. *)
Record event_agrees (used : list string) (t : T) (w : StreamEventRow) (e : EngineStreamEvent) : Prop := {
  ea_cursor : sw_cursor w = se_cursor e;
  ea_topic : sw_topic w = se_topic e;
  ea_visibility : sw_visibility w = visibility_as_str (se_visibility e);
  ea_session : sw_session_id w = se_session_id e;
  ea_workspace : sw_workspace_id w = se_workspace_id e;
  ea_producer : sw_producer w = se_producer e;
  ea_trace : sw_trace_id w = se_trace_id e /\ valid_id "trace" (se_trace_id e);
  ea_parent : sw_parent_invocation_id w = se_parent_invocation_id e /\
              valid_id "invocation" (se_parent_invocation_id e);
  ea_created : sw_created_at w = se_created_at e;
  ea_payload : exists u, u ∈ used /\
    ps_holds (stream_owner u) (sw_payload_json w) (se_payload e) t
}.

Record streams_agree (used : list string) (t : tables) (m : StreamStore) : Prop := {
  sg_inv : ps_inv (rt_storage t);
  sg_memory : stream_reachable m;
  sg_sequence : rt_sequence t = ss_next_cursor m /\ rt_sequence t <= i64_max;
  sg_events : Forall2 (event_agrees used (rt_storage t)) (rt_events t) (ss_events m);
  sg_ids : NoDup (map uw_subscription_id (rt_subscriptions t));
  sg_subs : forall id,
    match find_key uw_subscription_id (rt_subscriptions t) id, ss_subscriptions m !! id with
    | None, None => True
    | Some w, Some s => sub_agrees w s
    | _, _ => False
    end
}.

Lemma event_mono used used' t t' w e :
  event_agrees used t w e -> (forall u, u ∈ used -> u ∈ used') ->
  (forall u text v, u ∈ used -> ps_holds (stream_owner u) text v t ->
     ps_holds (stream_owner u) text v t') ->
  event_agrees used' t' w e.
Proof.
  intros [] Hu Hk. constructor; try done. destruct ea_payload0 as (u & Hin & Hh). exists u. eauto.
Qed.

Lemma decode_agrees used t w e :
  ps_inv t -> event_agrees used t w e -> 0 <= se_cursor e <= i64_max -> row_to_stream_event t w = Ok e.
Proof.
  intros Ht [] Hc. destruct ea_payload0 as (u & _ & Hh). unfold row_to_stream_event.
  rewrite (ps_read_back _ _ _ _ Ht Hh). destruct ea_trace0 as [-> Htr], ea_parent0 as [-> Hpa].
  rewrite ea_cursor0, ea_visibility0, ea_topic0, ea_session0, ea_workspace0, ea_producer0, ea_created0.
  rewrite (proj2 (cursor_small _ Hc)), visibility_roundtrip. unfold valid_id in *. rewrite Htr, Hpa.
  by destruct e.
Qed.

Lemma subscription_agrees used t m id :
  streams_agree used t m ->
  match subscription id t, ss_subscriptions m !! id with
  | Ok s, Some s' => s = created_at (sub_created_at s) s' /\ sub_cursor s' <= i64_max
  | Err e, None => e = subscription_not_found id
  | _, _ => False
  end.
Proof.
  intros H. pose proof (sg_subs _ _ _ H id) as Hs. unfold subscription.
  destruct (find_key _ _ id) as [w|], (ss_subscriptions m !! id) as [s|]; try done.
  destruct Hs as (Et & Ec & Hc & Ev & Es & Ew & Ea & Ei). split; [|lia]. unfold created_at. simpl.
  rewrite Et, Ec, Ev, Es, Ew, Ea, Ei, visibility_roundtrip, (proj2 (cursor_small _ Hc)).
  by destruct (sub_active s).
Qed.

(** *** Reading *)

Lemma row_selected_visible used t topic after actor w e :
  event_agrees used t w e ->
  row_selected topic after actor w
  = (se_topic e =s topic) && (after <? se_cursor e) && event_visible actor e.
Proof.
  intros []. unfold row_selected, event_visible, stream_scope_visible.
  rewrite ea_topic0, ea_cursor0, ea_visibility0, ea_session0, ea_workspace0. f_equal.
  destruct (sa_admin actor); [done|].
  destruct (se_visibility e); simpl; rewrite ?orb_false_r; try done; apply same_id_sym.
Qed.

Lemma page_loop_eq actor limit : forall rows index events next,
  0 <= index <= limit -> Forall (fun e => event_visible actor e = true) rows ->
  page_loop sql_text actor limit index (map Ok rows) events next =
  Ok {| pg_events := events ++ take (Z.to_nat (limit - index)) rows;
        pg_next_cursor := last_cursor next (take (Z.to_nat (limit - index)) rows);
        pg_has_more := limit - index <? Z.of_nat (List.length rows) |}.
Proof.
  induction rows as [|e rows IH]; intros index events next Hi Hv.
  - simpl. rewrite take_nil, app_nil_r. do 2 f_equal. symmetry. apply Z.ltb_ge. lia.
  - apply Forall_cons in Hv as [He Hv]. cbn [page_loop map].
    destruct (Z.leb_spec limit index) as [Hle|Hlt].
    + replace (limit - index) with 0 by lia. simpl. by rewrite app_nil_r.
    + rewrite IH by (lia || done). rewrite He.
      replace (Z.to_nat (limit - index)) with (S (Z.to_nat (limit - (index + 1)))) by lia.
      rewrite firstn_cons, <- app_assoc. do 2 f_equal.
      change (List.length (e :: rows)) with (S (List.length rows)).
      destruct (Z.ltb_spec (limit - (index + 1)) (Z.of_nat (List.length rows))),
        (Z.ltb_spec (limit - index) (Z.of_nat (S (List.length rows)))); lia || done.
Qed.

(** Rows filtered by a condition that the events satisfy too, decoded. *)
Lemma decode_filtered used t rows events (p : StreamEventRow -> bool) q :
  ps_inv t -> Forall2 (event_agrees used t) rows events ->
  Forall (fun e => 0 < se_cursor e <= i64_max) events ->
  (forall w e, event_agrees used t w e -> p w = q e) ->
  map (row_to_stream_event t) (List.filter p rows) = map Ok (List.filter q events).
Proof.
  intros Ht Hall. induction Hall as [|w e rows events He Hall IH]; [done|]. intros [Hc Hcs]%Forall_cons Hpq.
  simpl. rewrite (Hpq w e He). destruct (q e); simpl; [|by apply IH].
  rewrite (decode_agrees used t w e) by (done || lia). f_equal. by apply IH.
Qed.

Lemma cursors_bound used t m :
  streams_agree used t m -> Forall (fun e => 0 < se_cursor e <= i64_max) (ss_events m).
Proof.
  intros H. destruct (sg_sequence _ _ _ H) as [E Hle].
  eapply Forall_impl; [exact (si_bound _ (stream_inv_reachable _ (sg_memory _ _ _ H)))|].
  intros e ?. simpl in *. lia.
Qed.

Lemma poll_agrees used t m id after limit actor :
  streams_agree used t m -> 0 <= limit -> (forall c, after = Some c -> 0 <= c <= i64_max) ->
  sqlite_poll sql_text id after limit actor t = stream_poll id after limit actor m.
Proof.
  intros H Hlim Hafter. rewrite stream_poll_eq by apply stream_inv_reachable, H.
  unfold sqlite_poll, poll_subscription.
  destruct (limit =? 0); [done|]. pose proof (subscription_agrees _ _ _ id H) as Hsub.
  pose proof (sg_subs _ _ _ H id) as Hrow.
  destruct (subscription id t) as [s|e]; destruct (ss_subscriptions m !! id) as [s'|]; try done; simpl;
    [|by rewrite Hsub].
  destruct Hsub as [E Hcur]. rewrite E. simpl. destruct (sub_active s'); [|done]. simpl.
  destruct (stream_scope_visible _ _ _ actor); [|done]. simpl.
  destruct (find_key _ _ id) as [w|]; [|done]. destruct Hrow as (_ & _ & Hc & _).
  assert (0 <= default (sub_cursor s') after <= i64_max) as Ha
    by (destruct after as [c|]; simpl; [by apply Hafter|done]).
  rewrite (proj1 (cursor_small _ Ha)). set (c := default _ after) in *.
  rewrite <- firstn_map, (decode_filtered used (rt_storage t) _ (ss_events m) _
    (fun e => (se_topic e =s sub_topic s') && (c <? se_cursor e) && event_visible actor e));
    [|apply H|apply H|by eapply cursors_bound|intros ? ? Hev; by eapply row_selected_visible].
  fold (deliverable (sub_topic s') c actor (ss_events m)). set (d := deliverable _ _ _ _).
  rewrite firstn_map, page_loop_eq; [|lia|].
  - rewrite Z.sub_0_r, take_take_le, length_take by lia. do 2 f_equal. simpl.
    destruct (Z.ltb_spec (Z.min limit 500) (Z.of_nat (List.length d))),
      (Z.ltb_spec (Z.min limit 500)
         (Z.of_nat (Z.to_nat (Z.min limit 500 + 1) `min` List.length d))); lia || done.
  - apply Forall_take, List.Forall_forall. intros e [_ He]%filter_In. by bool_prop.
Qed.

Lemma try_map_ok {A B} (f : A -> Res B) (op : string) l l' :
  map f l = map Ok l' -> try_map (fun w => row_error sql_text op (f w)) l = Ok l'.
Proof.
  revert l'. induction l as [|x l IH]; intros [|y l']; try done. simpl. intros [= E1 E2].
  rewrite E1. simpl. by rewrite (IH l' E2).
Qed.

Lemma list_by_session_agrees used t m session :
  streams_agree used t m -> sqlite_list_by_session sql_text session t = stream_list_by_session session m.
Proof.
  intros H. unfold sqlite_list_by_session, stream_list_by_session.
  rewrite merge_sort_sorted by (apply filter_sorted, stream_inv_reachable, H).
  apply try_map_ok, (decode_filtered used); [apply H|apply H|by eapply cursors_bound|].
  intros w e []. by rewrite ea_session0.
Qed.

Lemma max_sorted l : forall c,
  StronglySorted Z.lt (c :: l) -> fold_left Z.max l c = List.last (c :: l) 0.
Proof.
  induction l as [|x l IH]; intros c Hs; [done|]. cbn [fold_left].
  apply StronglySorted_inv in Hs as [Hs Hc]. apply Forall_cons in Hc as [Hc _].
  rewrite Z.max_r by lia. rewrite IH by done. done.
Qed.

Lemma rev_case {A} (l : list A) : l = [] \/ exists l' x, l = l' ++ [x].
Proof. induction l as [|x l _] using rev_ind; [by left|right; eauto]. Qed.
Lemma latest_agrees used t m topic :
  streams_agree used t m -> sqlite_latest_cursor topic t = latest_cursor topic m.
Proof.
  intros H. unfold sqlite_latest_cursor, latest_cursor.
  set (sel := List.filter (fun e => se_topic e =s topic) (ss_events m)).
  assert (map sw_cursor (List.filter (fun w => sw_topic w =s topic) (rt_events t)) = map se_cursor sel) as ->.
  { unfold sel. induction (sg_events _ _ _ H) as [|w e rows events [] _ IH]; [done|]. simpl.
    rewrite ea_topic0. destruct (se_topic e =s topic); simpl; congruence. }
  assert (List.find (fun e => se_topic e =s topic) (rev (ss_events m)) = last sel) as ->.
  { unfold sel. induction (ss_events m) as [|e l IH] using rev_ind; [done|].
    rewrite rev_app_distr, List.filter_app. simpl. destruct (se_topic e =s topic).
    - by rewrite last_snoc.
    - rewrite app_nil_r. apply IH. }
  assert (StronglySorted Z.lt (map se_cursor sel)) as Hs.
  { assert (StronglySorted cursor_lt sel) as Hsel by apply filter_sorted, stream_inv_reachable, H.
    clear -Hsel. induction Hsel as [|e l _ IH Hf]; simpl; constructor; [done|].
    apply Forall_map. eapply Forall_impl; [exact Hf|]. done. }
  destruct (rev_case sel) as [->|(l & e & E)]; [done|].
  rewrite E, last_snoc, map_app in *. simpl in *.
  assert (0 <= se_cursor e <= i64_max) as He.
  { assert (e ∈ ss_events m) as Hin.
    { apply (elem_of_filter_bool (fun e => se_topic e =s topic)). fold sel. rewrite E. set_solver. }
    pose proof (proj1 (Forall_forall _ _) (cursors_bound _ _ _ H) e Hin). simpl in *. lia. }
  transitivity (cursor_as_u64 (se_cursor e)); [f_equal|by apply cursor_small].
  destruct (map se_cursor l) as [|c cs] eqn:El; simpl in *; [done|]. rewrite max_sorted by done.
  by rewrite app_comm_cons, List.last_last.
Qed.

(** *** Writing *)

(** The payload of an event can be kept: its JSON text parses back to it, it is not taken for a
    reference, and no other content has the digest of its text; the ids are valid. *)
Definition publishable (stamp : PublishStamp) (e : PublishStreamEvent) (t : tables) : Prop :=
  ps_fits (pe_payload e) /\ ps_plain (publish_options (pk_owner stamp) e) (pe_payload e) /\
  ps_distinct (pe_payload e) (rt_storage t) /\ valid_id "trace" (pe_trace_id e) /\
  valid_id "invocation" (pe_parent_invocation_id e).

Lemma storage_changed used used' t m storage :
  streams_agree used t m -> ps_inv storage -> (forall u, u ∈ used -> u ∈ used') ->
  (forall u text v, u ∈ used -> ps_holds (stream_owner u) text v (rt_storage t) ->
     ps_holds (stream_owner u) text v storage) ->
  streams_agree used'
    {| rt_sequence := rt_sequence t; rt_events := rt_events t;
       rt_subscriptions := rt_subscriptions t; rt_storage := storage |} m.
Proof.
  intros [H1 H2 H3 H4 H5 H6] Hi Hu Hk. constructor; try done. simpl.
  eapply Forall2_impl; [exact H4|]. intros w e He. by eapply event_mono.
Qed.

Lemma owner_inj u v : stream_owner u = stream_owner v -> u = v.
Proof. unfold stream_owner. intros E. injection E as E. done. Qed.

Lemma publish_agrees used stamp e t m :
  streams_agree used t m -> pk_owner stamp ∉ used -> publishable stamp e t ->
  let p := sqlite_publish full_text stamp e t in
  (is_ok (fst p) = false /\ streams_agree (pk_owner stamp :: used) (snd p) m) \/
  exists c m', fst p = Ok c /\ stream_publish (pk_now stamp) e m = Ok (c, m') /\
    streams_agree (pk_owner stamp :: used) (snd p) m'.
Proof.
  intros H Hnew (Hfit & Hplain & Hdist & Htr & Hpa) p. subst p. unfold sqlite_publish, stream_publish.
  destruct (is_blank (pe_topic e)) eqn:Hb.
  { left. split; [done|]. destruct t. apply (storage_changed used _ _ _ _ H); [apply H|set_solver|done]. }
  pose proof (ps_store_inv (pk_now stamp) (pk_blob stamp) (pk_ref stamp) (pe_payload e)
    (publish_options (pk_owner stamp) e) (rt_storage t) (sg_inv _ _ _ H) Hfit) as Hi.
  assert (forall u text v, u ∈ used -> ps_holds (stream_owner u) text v (rt_storage t) ->
    ps_holds (stream_owner u) text v (snd (ps_store (pk_now stamp) (pk_blob stamp) (pk_ref stamp)
      (pe_payload e) (publish_options (pk_owner stamp) e) (rt_storage t)))) as Hk.
  { intros u text v Hu Hh. apply ps_store_keeps; [apply H|done| |done].
    intros E. apply (owner_inj u (pk_owner stamp)) in E. congruence. }
  destruct (ps_store _ _ _ _ _ _) as [[payload|err] storage] eqn:Est; simpl in Hi, Hk.
  2: { left. split; [done|]. apply (storage_changed used _ _ _ _ H); [done|set_solver|done]. }
  destruct (Z.leb_spec i64_max (rt_sequence t)) as [Hfull|Hroom].
  { left. split; [done|]. apply (storage_changed used _ _ _ _ H); [done|set_solver|done]. }
  right. destruct (sg_sequence _ _ _ H) as [Eseq _].
  pose proof (si_next _ (stream_inv_reachable _ (sg_memory _ _ _ H))) as Hpos.
  assert (wrapping_add_u64 (ss_next_cursor m) 1 = rt_sequence t + 1) as Ec.
  { rewrite wrapping_add_u64_small by (unfold u64_max, i64_max in *; lia). lia. }
  assert (cursor_as_u64 (rt_sequence t + 1) = rt_sequence t + 1) as Eu by (apply cursor_small; lia).
  rewrite Ec, Eu. eexists _, _. split_and!; [done|done|]. simpl. constructor; simpl.
  - done.
  - eapply rtc_r; [apply H|]. eapply (st_publish (pk_now stamp) e).
    + unfold u64_max, i64_max in *. lia.
    + unfold stream_publish. by rewrite Hb, Ec.
  - split; lia.
  - apply Forall2_app.
    + eapply Forall2_impl; [apply H|]. intros w x Hx. eapply event_mono; [exact Hx|set_solver|exact Hk].
    + constructor; [|constructor]. constructor; simpl; try done. exists (pk_owner stamp). split; [by left|].
      change (stream_owner (pk_owner stamp)) with (options_owner (publish_options (pk_owner stamp) e)).
      eapply ps_store_holds; [apply H|done|exact Hplain|done|exact Est].
  - apply H.
  - apply H.
Qed.

(** The subscription of [id] is set, in the table and in the map. *)
Lemma subscription_set used t m id rows s :
  streams_agree used t m -> NoDup (map uw_subscription_id rows) ->
  (forall i, i <> id -> find_key uw_subscription_id rows i
     = find_key uw_subscription_id (rt_subscriptions t) i) ->
  (exists w, find_key uw_subscription_id rows id = Some w /\ sub_agrees w s) ->
  stream_reachable (set_subscription id s m) ->
  streams_agree used (set_subscriptions rows t) (set_subscription id s m).
Proof.
  intros [H1 H2 H3 H4 H5 H6] Hnd Hother (w & Hw & Hs) Hr. constructor; try done. simpl. intros i.
  destruct (decide (i = id)) as [->|Hne]; [by rewrite Hw, lookup_insert_eq|].
  rewrite Hother, lookup_insert_ne by done. apply H6.
Qed.

Lemma subscribe_agrees used now id topic c v se w t m :
  streams_agree used t m -> 0 <= c <= i64_max ->
  let p := sqlite_subscribe now id topic c v se w t in
  match stream_subscribe now id topic c v se w m with
  | Ok (s, m') => fst p = Ok s /\ streams_agree used (snd p) m'
  | Err e => fst p = Err e /\ snd p = t
  end.
Proof.
  intros H Hc p. subst p. unfold sqlite_subscribe.
  destruct (is_blank id) eqn:Hid; [unfold stream_subscribe; by rewrite Hid|].
  destruct (is_blank topic) eqn:Ht; [unfold stream_subscribe; by rewrite Hid, Ht|].
  set (s := {| sub_id := id; sub_topic := topic; sub_cursor := c; sub_visibility := v; sub_session_id := se;
               sub_workspace_id := w; sub_active := true; sub_created_at := now |}).
  assert (stream_subscribe now id topic c v se w m = Ok (s, set_subscription id s m)) as E
    by (unfold stream_subscribe; by rewrite Hid, Ht). rewrite E.
  split; [done|]. simpl. unfold upsert_subscription. rewrite (proj1 (cursor_small _ Hc)). simpl.
  apply subscription_set; [done|..].
  - destruct (find_key _ (rt_subscriptions t) id) eqn:Ef; simpl.
    + rewrite update_keys by done. apply H.
    + rewrite map_app. simpl. apply NoDup_app. split_and!; [apply H| |apply NoDup_singleton].
      intros i Hi ->%list_elem_of_singleton. by apply find_key_none in Ef.
  - intros i Hne. destruct (find_key _ (rt_subscriptions t) id) eqn:Ef; simpl; [by apply find_key_other|].
    rewrite find_key_app. simpl. rewrite (proj2 (String.eqb_neq _ _) (not_eq_sym Hne)).
    by destruct (find_key _ _ i).
  - destruct (find_key _ (rt_subscriptions t) id) as [w0|] eqn:Ef; simpl.
    + eexists. split; [apply (find_key_updated uw_subscription_id id (fun w => {|
        uw_subscription_id := uw_subscription_id w; uw_topic := _; uw_cursor := _; uw_visibility := _;
        uw_session_id := _; uw_workspace_id := _; uw_active := _; uw_created_at := uw_created_at w |})
        _ w0); done|].
      apply List.find_some in Ef as [_ Ei%String.eqb_eq]. unfold sub_agrees. simpl. split_and!; try done; lia.
    + eexists. split; [rewrite find_key_app, Ef; simpl; by rewrite String.eqb_refl|].
      unfold sub_agrees. simpl. split_and!; try done; lia.
  - eapply rtc_r; [apply H|]. by eapply st_subscribe.
Qed.

Lemma conditional_update id (c : SubscriptionRow -> bool) f rows :
  map (fun w => if (uw_subscription_id w =s id) && c w then f w else w) rows
  = map (fun w => if uw_subscription_id w =s id then (if c w then f w else w) else w) rows.
Proof. apply map_ext. intros w. by destruct (uw_subscription_id w =s id). Qed.

(** An update of the row of a subscription that both stores have. *)
Lemma subscription_updated used t m id f w s' :
  streams_agree used t m -> (forall w, uw_subscription_id (f w) = uw_subscription_id w) ->
  find_key uw_subscription_id (rt_subscriptions t) id = Some w ->
  sub_agrees (f w) s' -> stream_reachable (set_subscription id s' m) ->
  streams_agree used
    (set_subscriptions (map (fun w => if uw_subscription_id w =s id then f w else w) (rt_subscriptions t)) t)
    (set_subscription id s' m).
Proof.
  intros H Hf Hw Hs' Hr. apply subscription_set; [done|rewrite update_keys by done; apply H| | |done].
  - intros i Hne. by apply find_key_other.
  - exists (f w). split; [by apply find_key_updated|done].
Qed.

Lemma unsubscribe_agrees used id t m :
  streams_agree used t m ->
  exists m', stream_unsubscribe id m = Ok (fst (sqlite_unsubscribe id t), m') /\
    streams_agree used (snd (sqlite_unsubscribe id t)) m'.
Proof.
  intros H. pose proof (sg_subs _ _ _ H id) as Hs. unfold sqlite_unsubscribe, stream_unsubscribe. simpl.
  rewrite conditional_update.
  destruct (find_key _ _ id) as [w|] eqn:Hw, (ss_subscriptions m !! id) as [s|] eqn:Hm; try done.
  - assert (existsb (fun w => (uw_subscription_id w =s id) && (uw_active w =? 1)) (rt_subscriptions t)
      = sub_active s) as ->.
    { apply eq_true_iff_eq. rewrite existsb_exists. destruct Hs as (_ & _ & _ & _ & _ & _ & Ea & _). split.
      - intros (x & Hx & [Ex%String.eqb_eq Hax%Z.eqb_eq]%andb_true_iff).
        assert (find_key uw_subscription_id (rt_subscriptions t) id = Some x) as E.
        { apply find_key_spec; [apply H|]. split; [by apply list_elem_of_In|done]. }
        rewrite Hw in E. injection E as <-. destruct (sub_active s); [done|lia].
      - intros Ha. rewrite Ha in Ea. apply find_key_spec in Hw as [Hin Hid]; [|apply H]. exists w.
        split; [by apply list_elem_of_In|]. by rewrite Ea, Hid, String.eqb_refl. }
    eexists. split; [done|].
    apply (subscription_updated used t m id (fun w => if uw_active w =? 1 then set_uw w (uw_cursor w) 0 else w) w);
      [done|by intros x; destruct (uw_active x =? 1)|exact Hw| |].
    + destruct Hs as (Et & Ec & Hc & Ev & Es & Ew & Ea & Ei). unfold sub_agrees. rewrite Ea.
      destruct (sub_active s) eqn:Ha; simpl; split_and!; done || lia || by rewrite Ea.
    + eapply rtc_r; [apply H|]. apply (st_unsubscribe id _ (sub_active s)). unfold stream_unsubscribe.
      by rewrite Hm.
  - assert (map (fun w => if uw_subscription_id w =s id then
        (if uw_active w =? 1 then set_uw w (uw_cursor w) 0 else w) else w) (rt_subscriptions t)
      = rt_subscriptions t) as ->.
    { rewrite <- (map_id (rt_subscriptions t)) at 2. apply map_ext_in. intros x Hx%list_elem_of_In.
      destruct (String.eqb_spec (uw_subscription_id x) id) as [E|]; [|done].
      apply find_key_none in Hw. destruct Hw. rewrite <- E. by apply list_elem_of_fmap_2. }
    assert (existsb (fun w => (uw_subscription_id w =s id) && (uw_active w =? 1)) (rt_subscriptions t)
      = false) as ->.
    { apply not_true_iff_false. intros (x & Hx & [E%String.eqb_eq _]%andb_true_iff)%existsb_exists.
      apply find_key_none in Hw. destruct Hw. rewrite <- E. by apply list_elem_of_fmap_2, list_elem_of_In. }
    exists m. split; [done|]. by destruct t.
Qed.

Lemma acknowledge_agrees used id c t m :
  streams_agree used t m -> 0 <= c <= i64_max ->
  let p := sqlite_acknowledge id c t in
  match stream_acknowledge id c m with
  | Ok (s, m') => (exists c0, fst p = Ok (created_at c0 s)) /\ streams_agree used (snd p) m'
  | Err e => fst p = Err e /\ snd p = t
  end.
Proof.
  intros H Hcr p. subst p. unfold sqlite_acknowledge, stream_acknowledge.
  pose proof (subscription_agrees _ _ _ id H) as Hsub. pose proof (sg_subs _ _ _ H id) as Hs.
  destruct (subscription id t) as [s|e]; destruct (ss_subscriptions m !! id) as [s'|] eqn:Hm; try done;
    [|by rewrite Hsub].
  destruct Hsub as [E _]. rewrite E. simpl. destruct (sub_active s') eqn:Hact; [|done]. simpl.
  destruct (find_key _ _ id) as [w|] eqn:Hw; [|done].
  set (s2 := if sub_cursor s' <? c then _ else s').
  rewrite conditional_update, (proj1 (cursor_small _ Hcr)).
  match goal with |- context [set_subscriptions ?rows t] => set (t' := set_subscriptions rows t) end.
  assert (streams_agree used t' (set_subscription id s2 m)) as Ht'.
  { apply (subscription_updated used t m id (fun w => if uw_active w =? 1 then set_uw w
      (if uw_cursor w <? c then c else uw_cursor w) (uw_active w) else w) w);
      [done|by intros x; destruct (uw_active x =? 1)|exact Hw| |].
    - destruct Hs as (Et & Ec & Hc & Ev & Es & Ew & Ea & Ei). unfold sub_agrees, s2.
      rewrite Hact in Ea. rewrite Ea, Ec. simpl.
      destruct (sub_cursor s' <? c); simpl; rewrite ?Hact; split_and!; done || lia.
    - eapply rtc_r; [apply H|]. apply (st_acknowledge id c _ s2). unfold stream_acknowledge.
      by rewrite Hm, Hact. }
  split; [|exact Ht']. simpl. pose proof (subscription_agrees _ _ _ id Ht') as Hsub2. simpl in Hsub2.
  rewrite lookup_insert_eq in Hsub2. destruct (subscription id t') as [s0|]; [|done].
  destruct Hsub2 as [-> _]. by exists (sub_created_at s0).
Qed.

(** ** Every sequence of operations

    A state is the tables with the owners used so far; between the operations
    other users of the payload storage store, expire and collect payloads of
    their own. *)

Inductive sq_step : list string * tables -> list string * tables -> Prop :=
| sq_publish stamp e used t :
    pk_owner stamp ∉ used -> publishable stamp e t ->
    sq_step (used, t) (pk_owner stamp :: used, snd (sqlite_publish full_text stamp e t))
| sq_subscribe now id topic c v se w used t :
    0 <= c <= i64_max -> sq_step (used, t) (used, snd (sqlite_subscribe now id topic c v se w t))
| sq_unsubscribe id used t : sq_step (used, t) (used, snd (sqlite_unsubscribe id t))
| sq_acknowledge id c used t :
    0 <= c <= i64_max -> sq_step (used, t) (used, snd (sqlite_acknowledge id c t))
| sq_storage storage used t :
    ps_env (fun own => exists u, own = stream_owner u) (rt_storage t) storage ->
    sq_step (used, t) (used, {| rt_sequence := rt_sequence t; rt_events := rt_events t;
                                rt_subscriptions := rt_subscriptions t; rt_storage := storage |}).
Definition sq_reachable (st : list string * tables) : Prop :=
  exists storage, ps_inv storage /\ rtc sq_step ([], no_streams storage) st.

Lemma sq_step_agrees st st' m :
  streams_agree (fst st) (snd st) m -> sq_step st st' ->
  exists m', streams_agree (fst st') (snd st') m'.
Proof.
  intros H Hs. destruct Hs as [stamp e used t Hn Hp|now id topic c v se w used t Hc|id used t|id c used t Hc
                              |storage used t Henv]; simpl in *.
  - destruct (publish_agrees _ _ _ _ _ H Hn Hp) as [[_ ?]|(c & m' & _ & _ & ?)]; eauto.
  - pose proof (subscribe_agrees _ now id topic c v se w _ _ H Hc) as Hs. simpl in Hs.
    destruct (stream_subscribe _ _ _ _ _ _ _ _) as [[s m']|e]; destruct Hs as [_ Hs]; [eauto|].
    rewrite Hs. eauto.
  - destruct (unsubscribe_agrees _ id _ _ H) as (m' & _ & ?). eauto.
  - pose proof (acknowledge_agrees _ id c _ _ H Hc) as Hs. simpl in Hs.
    destruct (stream_acknowledge _ _ _) as [[s m']|e]; destruct Hs as [_ Hs]; [eauto|]. rewrite Hs. eauto.
  - destruct (ps_env_ok _ _ _ (sg_inv _ _ _ H) Henv) as [Hi Hk]. exists m.
    apply (storage_changed used _ _ _ _ H); [done|done|]. intros u text v _. apply Hk. by exists u.
Qed.

Lemma sq_reachable_agrees st : sq_reachable st -> exists m, streams_agree (fst st) (snd st) m.
Proof.
  intros (storage & Hi & Hr).
  assert (exists m, streams_agree (fst ([] : list string, no_streams storage))
    (snd ([] : list string, no_streams storage)) m) as Hm.
  { exists stream_store_new. simpl. constructor; simpl;
      [done|apply rtc_refl|split; [done|by unfold i64_max]|constructor|apply NoDup_nil_2|].
    intros id. by rewrite lookup_empty. }
  revert Hm. induction Hr as [st|st st1 st2 Hs _ IH]; [done|]. intros [m Hm]. apply IH.
  by eapply sq_step_agrees.
Qed.

(** C23: After any publications of storable payloads, subscriptions, unsubscriptions,
    acknowledgements and changes that others make to the payload storage, some reachable
    state of the in-memory stream store gives the same pages, session listings, latest
    cursors, unsubscribe answers and acknowledgements (but for the creation time of a
    subscription) as the SQLite store, and assigns a storable publication the same cursor. A
    payload is storable when its JSON text parses back to it (assumed of values without
    floats, nested at most 127 levels), it is not a small value with the shape of a payload
    reference, no other stored content has the digest of its text, and the text is at most
    i64::MAX bytes long; the trace and parent ids of a publication are valid, the payload
    owner ids are distinct, and cursors and limits are nonnegative and at most i64::MAX. *)
Theorem sqlite_streams_refine_memory used t :
  sq_reachable (used, t) ->
  exists m, stream_reachable m /\
    (forall id after limit actor, 0 <= limit -> (forall c, after = Some c -> 0 <= c <= i64_max) ->
       sqlite_poll sql_text id after limit actor t = stream_poll id after limit actor m) /\
    (forall session, sqlite_list_by_session sql_text session t = stream_list_by_session session m) /\
    (forall topic, sqlite_latest_cursor topic t = latest_cursor topic m) /\
    (forall stamp e c, pk_owner stamp ∉ used -> publishable stamp e t ->
       fst (sqlite_publish full_text stamp e t) = Ok c ->
       exists m', stream_publish (pk_now stamp) e m = Ok (c, m')) /\
    (forall id, exists m', stream_unsubscribe id m = Ok (fst (sqlite_unsubscribe id t), m')) /\
    (forall id c, 0 <= c <= i64_max ->
       match stream_acknowledge id c m with
       | Ok (s, _) => exists created, fst (sqlite_acknowledge id c t) = Ok (created_at created s)
       | Err e => fst (sqlite_acknowledge id c t) = Err e
       end).
Proof.
  intros [m H]%sq_reachable_agrees. simpl in H. exists m. split_and!.
  - apply H.
  - intros. by eapply poll_agrees.
  - intros. by eapply list_by_session_agrees.
  - intros. by eapply latest_agrees.
  - intros stamp e c Hn Hp Hc. destruct (publish_agrees _ _ _ _ _ H Hn Hp) as [[Hf _]|(c' & m' & E & Hm & _)].
    + by rewrite Hc in Hf.
    + exists m'. rewrite Hc in E. by injection E as <-.
  - intros id. destruct (unsubscribe_agrees _ id _ _ H) as (m' & Hm & _). by exists m'.
  - intros id c Hc. pose proof (acknowledge_agrees _ id c _ _ H Hc) as Ha. simpl in Ha.
    destruct (stream_acknowledge id c m) as [[s m']|e]; by destruct Ha.
Qed.
End refinement.

(** ** Samples *)

#[local] Instance stream_payloads : PayloadStore StorageTables :=
  storage_payload_store plain_hash tagged untag clock_text value_text value_of_text untag_tagged
    (fun v _ => value_of_value_text v).
Definition first_stamp : PublishStamp :=
  {| pk_now := 1; pk_blob := "b1"; pk_ref := "r1"; pk_owner := "o1" |}.
Definition stream_tables1 : StreamTables StorageTables :=
  snd (sqlite_publish "full" first_stamp (sample_event "a" "s1") (no_streams (storage_empty None))).
Definition stream_tables2 : StreamTables StorageTables :=
  snd (sqlite_subscribe 2 "sub" "a" 0 Vis_System None None stream_tables1).

Lemma stream_tables2_reachable : sq_reachable "full" (["o1"], stream_tables2).
Proof.
  exists (storage_empty None). split; [apply inv_empty|].
  eapply rtc_l; [apply (sq_publish "full" first_stamp (sample_event "a" "s1")); [set_solver|]|].
  - split_and!; [|split; [apply value_of_value_text|split; [by right|done]]| |done|done]; simpl.
    + apply Z.leb_le. vm_compute. reflexivity.
    + intros b content _ _ Hc. exact Hc.
  - apply rtc_once, (sq_subscribe "full" 2 "sub" "a" 0 Vis_System None None). split; [lia|done].
Qed.
Lemma sqlite_streams_refine_memory_witness :
  exists m page, stream_reachable m /\ stream_poll "sub" None 5 s1_actor m = Ok page /\
    map se_payload (pg_events page) = [VString "s1"].
Proof.
  destruct (sqlite_streams_refine_memory (fun s => s) "full" ["o1"] stream_tables2 stream_tables2_reachable)
    as (m & Hm & Hpoll & _).
  exists m. eexists. split; [exact Hm|]. rewrite <- Hpoll; [|lia|done]. split; vm_compute; reflexivity.
Defined.

(** Subscribing again answers with a new creation time but keeps the old one in
    the table. *)
Lemma resubscription_keeps_creation_time :
  let p := sqlite_subscribe 9 "sub" "b" 0 Vis_System None None stream_tables2 in
  match fst p, subscription "sub" (snd p) with
  | Ok answered, Ok stored => sub_created_at answered = 9 /\ sub_created_at stored = 2
  | _, _ => False
  end.
Proof. vm_compute. done. Qed.
