(* ===== verification/State.v ===== *)
(** * Scoped state entries

    [durability/state.rs]: a revisioned key-value store by scope, namespace and
    key, in memory and in a SQLite table.  The table is the map from its primary
    key to the other columns.  [LIKE] is SQLite's operator (case-insensitive on
    ASCII letters, [%] and [_] as wildcards). *)

From stdpp Require Import base gmap strings list pretty.
From Stdlib Require Import ZArith Ascii String Lia.
From S2P Require Import Prelude Json Kernel.

#[local] Open Scope Z_scope.

(* SRC engine/durability/state.rs:17-27 EngineStateScope *)
Inductive EngineStateScope : Type :=
| Scope_System
| Scope_Workspace (value : string)
| Scope_Session (value : string).
#[global] Instance EngineStateScope_eq_dec : EqDecision EngineStateScope.
Proof. solve_decision. Defined.

(** The position of a scope in the derived order. *)
Definition scope_rank (s : EngineStateScope) : Z * string :=
  match s with
  | Scope_System => (0, "") | Scope_Workspace v => (1, v) | Scope_Session v => (2, v)
  end.
#[global] Instance scope_rank_inj : Inj (=) (=) scope_rank.
Proof. intros [] [] H; by simplify_eq/=. Qed.
#[global] Instance EngineStateScope_countable : Countable EngineStateScope.
Proof.
  refine (inj_countable scope_rank (fun p : Z * string =>
    if decide (fst p = 0) then Some Scope_System
    else if decide (fst p = 1) then Some (Scope_Workspace (snd p))
    else Some (Scope_Session (snd p))) _).
  by intros [].
Defined.
#[global] Instance EngineStateScope_ord : OrdKey EngineStateScope := inj_ord scope_rank.

(* SRC engine/durability/state.rs:30-36 EngineStateScope::kind *)
Definition scope_kind_str (s : EngineStateScope) : string :=
  match s with
  | Scope_System => "system" | Scope_Workspace _ => "workspace" | Scope_Session _ => "session"
  end.
(* SRC engine/durability/state.rs:38-43 EngineStateScope::value *)
Definition scope_value_str (s : EngineStateScope) : string :=
  match s with Scope_System => "system" | Scope_Workspace v | Scope_Session v => v end.

(* SRC engine/durability/state.rs:46-62 EngineStateEntry *)
Record EngineStateEntry := {
  en_scope : EngineStateScope;
  en_namespace : string;
  en_key : string;
  en_value : Value;
  en_revision : Z;
  en_updated_at : instant
}.

(* SRC engine/durability/state.rs:64-70! StateKey *)
Notation StateKey := (EngineStateScope * (string * string))%type.

(* SRC engine/durability/state.rs:379-391 validate_namespace_key *)
Definition validate_namespace_key (namespace key : string) : Result unit :=
  if is_blank namespace then policy_error "state namespace must not be empty"
  else if is_blank key then policy_error "state key must not be empty"
  else Ok tt.

(* SRC engine/durability/state.rs:370-377 state_key *)
Definition state_key (scope : EngineStateScope) (namespace key : string) : Result StateKey :=
  let? _ := validate_namespace_key namespace key in Ok (scope, (namespace, key)).

(** [{:?}] of an [Option<u64>]. *)
Definition option_debug (o : option Z) : string :=
  match o with Some n => "Some(" +s pretty n +s ")" | None => "None" end.

(** ** In memory *)

Notation StateMemory := (gmap StateKey EngineStateEntry).

(* SRC engine/durability/state.rs:84-95 InMemoryEngineStateStore::get *)
Definition state_get (scope : EngineStateScope) (namespace key : string) (s : StateMemory)
  : Result (option EngineStateEntry) :=
  let? id := state_key scope namespace key in Ok (s !! id).

(* SRC engine/durability/state.rs:97-120 InMemoryEngineStateStore::set *)
Definition state_set (now : instant) (scope : EngineStateScope) (namespace key : string)
    (value : Value) (s : StateMemory) : Result (EngineStateEntry * StateMemory) :=
  let? id := state_key scope namespace key in
  let revision := match s !! id with
                  | Some entry => saturating_add_u64 (en_revision entry) 1
                  | None => 1
                  end in
  let entry := {| en_scope := scope; en_namespace := namespace; en_key := key;
                  en_value := value; en_revision := revision; en_updated_at := now |} in
  Ok (entry, <[id := entry]> s).

Definition conflict_message (namespace key : string) (expected actual : option Z) : string :=
  "state revision conflict for " +s namespace +s "/" +s key +s ": expected "
  +s option_debug expected +s ", actual " +s option_debug actual.

(* SRC engine/durability/state.rs:122-140 InMemoryEngineStateStore::compare_and_set *)
Definition state_compare_and_set (now : instant) (scope : EngineStateScope)
    (namespace key : string) (expected : option Z) (value : Value) (s : StateMemory)
  : Result (EngineStateEntry * StateMemory) :=
  let? existing := state_get scope namespace key s in
  let actual := en_revision <$> existing in
  if bool_decide (actual <> expected)
  then policy_error (conflict_message namespace key expected actual)
  else state_set now scope namespace key value s.

(* SRC engine/durability/state.rs:142-148 InMemoryEngineStateStore::delete *)
Definition state_delete (scope : EngineStateScope) (namespace key : string) (s : StateMemory)
  : Result (bool * StateMemory) :=
  let? id := state_key scope namespace key in Ok (is_some (s !! id), delete id s).

(* SRC engine/durability/state.rs:150-175 InMemoryEngineStateStore::list *)
Definition state_list (scope : EngineStateScope) (namespace : string)
    (key_prefix : option string) (limit : Z) (s : StateMemory) : Result (list EngineStateEntry) :=
  if limit =? 0 then policy_error "state list limit must be greater than zero"
  else
  let prefix := default "" key_prefix in
  Ok (take (Z.to_nat (Z.min limit 500))
        (List.filter (fun e =>
           bool_decide (en_scope e = scope) && (en_namespace e =s namespace)
           && starts_with (en_key e) prefix) (btree_values s))).

(** ** In SQLite *)

(** The primary key: scope kind, scope value, namespace and key. *)
Notation RowKey := (string * (string * (string * string)))%type.
(** The columns [value_json], [revision] and [updated_at]. *)
Notation RowData := (Value * Z * instant)%type.
Notation StateTable := (gmap RowKey RowData).

Definition row_key (scope : EngineStateScope) (namespace key : string) : RowKey :=
  (scope_kind_str scope, (scope_value_str scope, (namespace, key))).

(* SRC engine/durability/state.rs:393-415 row_to_state_entry *)
Definition row_to_state_entry (k : RowKey) (d : RowData) : EngineStateEntry :=
  let '(kind, (value, (namespace, key))) := k in
  let '(v, revision, updated_at) := d in
  {| en_scope := if kind =s "workspace" then Scope_Workspace value
                 else if kind =s "session" then Scope_Session value else Scope_System;
     en_namespace := namespace; en_key := key; en_value := v; en_revision := revision;
     en_updated_at := updated_at |}.

(* SRC engine/durability/state.rs:216-234 SqliteEngineStateStore::get *)
Definition sqlite_state_get (scope : EngineStateScope) (namespace key : string) (t : StateTable)
  : Result (option EngineStateEntry) :=
  let? _ := validate_namespace_key namespace key in
  let k := row_key scope namespace key in
  Ok (row_to_state_entry k <$> t !! k).

(* SRC engine/durability/state.rs:236-288 SqliteEngineStateStore::set *)
Definition sqlite_state_set (now : instant) (scope : EngineStateScope) (namespace key : string)
    (value : Value) (t : StateTable) : Result (EngineStateEntry * StateTable) :=
  let? _ := validate_namespace_key namespace key in
  let? existing := sqlite_state_get scope namespace key t in
  let revision := match existing with
                  | Some entry => saturating_add_u64 (en_revision entry) 1
                  | None => 1
                  end in
  Ok ({| en_scope := scope; en_namespace := namespace; en_key := key; en_value := value;
         en_revision := revision; en_updated_at := now |},
      <[row_key scope namespace key := (value, revision, now)]> t).

(* SRC engine/durability/state.rs:290-308 SqliteEngineStateStore::compare_and_set *)
Definition sqlite_state_compare_and_set (now : instant) (scope : EngineStateScope)
    (namespace key : string) (expected : option Z) (value : Value) (t : StateTable)
  : Result (EngineStateEntry * StateTable) :=
  let? existing := sqlite_state_get scope namespace key t in
  let actual := en_revision <$> existing in
  if bool_decide (actual <> expected)
  then policy_error (conflict_message namespace key expected actual)
  else sqlite_state_set now scope namespace key value t.

(* SRC engine/durability/state.rs:310-322 SqliteEngineStateStore::delete *)
Definition sqlite_state_delete (scope : EngineStateScope) (namespace key : string)
    (t : StateTable) : Result (bool * StateTable) :=
  let? _ := validate_namespace_key namespace key in
  let k := row_key scope namespace key in
  Ok (is_some (t !! k), delete k t).

(** SQLite's [text LIKE pattern]. *)
Definition fold_case (a : ascii) : Z :=
  if (65 <=? code a) && (code a <=? 90) then code a + 32 else code a.
Fixpoint skip_continuation (s : string) : string :=
  match s with
  | String a s' => if (128 <=? code a) && (code a <=? 191) then skip_continuation s' else s
  | EmptyString => s
  end.
Fixpoint like (pattern text : string) {struct pattern} : bool :=
  match pattern with
  | EmptyString => text =s ""
  | String c rest =>
      if Ascii.eqb c "%" then
        (fix any (t : string) : bool :=
           like rest t || match t with EmptyString => false | String _ t' => any t' end) text
      else if Ascii.eqb c "_" then
        match text with
        | EmptyString => false
        | String _ t => like rest (skip_continuation t)
        end
      else match text with
           | EmptyString => false
           | String d t => (fold_case c =? fold_case d) && like rest t
           end
  end.

(* SRC engine/durability/state.rs:324-367 SqliteEngineStateStore::list *)
Definition sqlite_state_list (scope : EngineStateScope) (namespace : string)
    (key_prefix : option string) (limit : Z) (t : StateTable) : Result (list EngineStateEntry) :=
  if limit =? 0 then policy_error "state list limit must be greater than zero"
  else if is_blank namespace then policy_error "state namespace must not be empty"
  else
  let pattern := default "" key_prefix +s "%" in
  Ok (take (Z.to_nat (Z.min limit 500))
        (map (fun kd : RowKey * RowData => row_to_state_entry (fst kd) (snd kd))
           (List.filter (fun kd : RowKey * RowData =>
              let '(kind, (value, (ns, key))) := fst kd in
              (kind =s scope_kind_str scope) && (value =s scope_value_str scope)
              && (ns =s namespace) && like pattern key) (btree_entries t)))).

(** ** Compare-and-set *)

Lemma state_key_ok scope ns key id :
  state_key scope ns key = Ok id -> id = (scope, (ns, key)).
Proof. unfold state_key. destruct (validate_namespace_key ns key); by intros; simplify_eq. Qed.

(** compare_and_set writes exactly when the stored revision is the expected one (absent
    for none), then stores the value under the next revision, and otherwise changes nothing
    and reports both revisions. *)
Theorem compare_and_set_iff now scope ns key expected value s :
  validate_namespace_key ns key = Ok tt ->
  match state_compare_and_set now scope ns key expected value s with
  | Ok (e, s') =>
      en_revision <$> s !! (scope, (ns, key)) = expected /\
      s' = <[(scope, (ns, key)) := e]> s /\ en_value e = value /\
      en_revision e = match expected with Some r => saturating_add_u64 r 1 | None => 1 end
  | Err err =>
      en_revision <$> s !! (scope, (ns, key)) <> expected /\
      err = PolicyViolation (conflict_message ns key expected (en_revision <$> s !! (scope, (ns, key))))
  end.
Proof.
  intros Hv. unfold state_compare_and_set, state_get, state_set, state_key. rewrite Hv.
  case_bool_decide as Hd; [done|]. subst expected.
  destruct (s !! (scope, (ns, key))) as [old|]; by split_and!.
Qed.

(** Of two writers that compare and set against the same revision, the second is
    refused. *)
Theorem no_lost_update now now' scope ns key expected v v' s e s' :
  state_compare_and_set now scope ns key expected v s = Ok (e, s') ->
  (forall r, expected = Some r -> r < u64_max) ->
  is_ok (state_compare_and_set now' scope ns key expected v' s') = false.
Proof.
  unfold state_compare_and_set, state_get, state_set. intros H Hr.
  destruct (state_key scope ns key) as [id|] eqn:Hk; [|done].
  case_bool_decide as Hd; [done|]. simplify_eq.
  rewrite lookup_insert_eq. simpl. rewrite bool_decide_true; [done|].
  destruct (s !! id) as [old|]; simpl in *; [|done].
  specialize (Hr _ eq_refl). intros [=]. unfold saturating_add_u64 in *. lia.
Qed.

(** A get after a set returns the entry that was set for that scope, namespace and key,
    and every other key is as before. *)
Theorem state_get_after_set now scope ns key value s e s' scope' ns' key' :
  state_set now scope ns key value s = Ok (e, s') ->
  state_get scope' ns' key' s' =
    (if decide (scope' = scope /\ ns' = ns /\ key' = key) then Ok (Some e)
     else state_get scope' ns' key' s).
Proof.
  unfold state_set, state_get. intros H.
  destruct (state_key scope ns key) as [id|] eqn:Hk; [|done]. simplify_eq.
  apply state_key_ok in Hk as Hid. subst id. case_decide as Hd.
  - destruct Hd as (-> & -> & ->). rewrite Hk. by rewrite lookup_insert_eq.
  - destruct (state_key scope' ns' key') as [id'|] eqn:Hk'; [|done].
    apply state_key_ok in Hk'. subst id'. rewrite lookup_insert_ne; [done|]. naive_solver.
Qed.

(** ** The table follows the memory *)

(** Entries carry the key they are stored under. *)
Definition entries_keyed (s : StateMemory) : Prop :=
  forall k e, s !! k = Some e -> k = (en_scope e, (en_namespace e, en_key e)).

Definition table_follows (s : StateMemory) (t : StateTable) : Prop :=
  entries_keyed s /\
  forall scope ns key,
    t !! row_key scope ns key =
    (fun e => (en_value e, en_revision e, en_updated_at e)) <$> s !! (scope, (ns, key)).

(** The primary key determines scope, namespace and key. *)
Lemma row_key_eq sc ns key sc' ns' key' :
  row_key sc ns key = row_key sc' ns' key' -> (sc, (ns, key)) = (sc', (ns', key')).
Proof. unfold row_key. destruct sc, sc'; simpl; intros; by simplify_eq. Qed.

Lemma row_entry s t scope ns key :
  table_follows s t ->
  row_to_state_entry (row_key scope ns key) <$> t !! row_key scope ns key = s !! (scope, (ns, key)).
Proof.
  intros [Hk Hf]. rewrite Hf. destruct (s !! (scope, (ns, key))) as [e|] eqn:He; [|done]. simpl.
  specialize (Hk _ _ He). simplify_eq. f_equal.
  destruct e as [sc ? ? ? ? ?]; simpl. by destruct sc.
Qed.

Lemma follows_insert s t scope ns key v r now :
  table_follows s t ->
  table_follows
    (<[(scope, (ns, key)) := {| en_scope := scope; en_namespace := ns; en_key := key; en_value := v;
                                en_revision := r; en_updated_at := now |}]> s)
    (<[row_key scope ns key := (v, r, now)]> t).
Proof.
  intros [Hk Hf]. split.
  - intros k e. rewrite lookup_insert_Some. intros [[<- <-]|[_ ?]]; [done|auto].
  - intros sc n k. destruct (decide ((scope, (ns, key)) = (sc, (n, k)))) as [Heq|Hne].
    + simplify_eq. by rewrite !lookup_insert_eq.
    + rewrite !lookup_insert_ne; [done|done|]. intros H. by apply Hne, row_key_eq.
Qed.

Inductive state_op : Type :=
| Op_Set (now : instant) (scope : EngineStateScope) (ns key : string) (v : Value)
| Op_Cas (now : instant) (scope : EngineStateScope) (ns key : string) (expected : option Z) (v : Value)
| Op_Delete (scope : EngineStateScope) (ns key : string)
| Op_Get (scope : EngineStateScope) (ns key : string).
Inductive state_response : Type :=
| Resp_Entry (r : Result EngineStateEntry)
| Resp_Lookup (r : Result (option EngineStateEntry))
| Resp_Deleted (r : Result bool).
Definition respond {A S} (f : Result A -> state_response) (s : S) (r : Result (A * S))
  : state_response * S :=
  match r with Ok (a, s') => (f (Ok a), s') | Err e => (f (Err e), s) end.

Definition memory_op (op : state_op) (s : StateMemory) : state_response * StateMemory :=
  match op with
  | Op_Set now sc ns k v => respond Resp_Entry s (state_set now sc ns k v s)
  | Op_Cas now sc ns k x v => respond Resp_Entry s (state_compare_and_set now sc ns k x v s)
  | Op_Delete sc ns k => respond Resp_Deleted s (state_delete sc ns k s)
  | Op_Get sc ns k => (Resp_Lookup (state_get sc ns k s), s)
  end.
Definition table_op (op : state_op) (t : StateTable) : state_response * StateTable :=
  match op with
  | Op_Set now sc ns k v => respond Resp_Entry t (sqlite_state_set now sc ns k v t)
  | Op_Cas now sc ns k x v => respond Resp_Entry t (sqlite_state_compare_and_set now sc ns k x v t)
  | Op_Delete sc ns k => respond Resp_Deleted t (sqlite_state_delete sc ns k t)
  | Op_Get sc ns k => (Resp_Lookup (sqlite_state_get sc ns k t), t)
  end.

Lemma get_follows s t sc ns k :
  table_follows s t -> sqlite_state_get sc ns k t = state_get sc ns k s.
Proof.
  intros Hf. unfold sqlite_state_get, state_get, state_key.
  destruct (validate_namespace_key ns k); [|done]. by rewrite (row_entry s).
Qed.

Lemma set_follows s t now sc ns k v :
  table_follows s t ->
  fst (memory_op (Op_Set now sc ns k v) s) = fst (table_op (Op_Set now sc ns k v) t) /\
  table_follows (snd (memory_op (Op_Set now sc ns k v) s)) (snd (table_op (Op_Set now sc ns k v) t)).
Proof.
  intros Hf. simpl. unfold sqlite_state_set, state_set. rewrite (get_follows s) by done.
  unfold state_get, state_key. destruct (validate_namespace_key ns k); [|done].
  simpl. split; [done|]. by apply follows_insert.
Qed.

Lemma op_follows s t op :
  table_follows s t ->
  fst (memory_op op s) = fst (table_op op t) /\
  table_follows (snd (memory_op op s)) (snd (table_op op t)).
Proof.
  intros Hf. destruct op as [now sc ns k v|now sc ns k x v|sc ns k|sc ns k].
  - by apply set_follows.
  - pose proof (set_follows s t now sc ns k v Hf) as Hset. simpl in *.
    unfold sqlite_state_compare_and_set, state_compare_and_set. rewrite (get_follows s) by done.
    destruct (state_get sc ns k s) as [o|]; [|done]. by case_bool_decide.
  - simpl. unfold sqlite_state_delete, state_delete, state_key.
    destruct (validate_namespace_key ns k); [|done]. simpl. destruct Hf as [Hk Hf]. split.
    + rewrite Hf. by destruct (s !! _).
    + split.
      * intros k' e. rewrite lookup_delete_Some. intros [_ ?]. auto.
      * intros sc' n' k'. destruct (decide ((sc, (ns, k)) = (sc', (n', k')))) as [Heq|Hne].
        -- simplify_eq. by rewrite !lookup_delete_eq.
        -- rewrite !lookup_delete_ne; [done|done|]. intros H. by apply Hne, row_key_eq.
  - simpl. by rewrite (get_follows s).
Qed.

Fixpoint memory_ops (ops : list state_op) (s : StateMemory) : list state_response :=
  match ops with
  | [] => []
  | op :: rest => let '(r, s') := memory_op op s in r :: memory_ops rest s'
  end.
Fixpoint table_ops (ops : list state_op) (t : StateTable) : list state_response :=
  match ops with
  | [] => []
  | op :: rest => let '(r, t') := table_op op t in r :: table_ops rest t'
  end.

(** The in-memory state store and the SQLite table answer every script of gets, sets,
    compare-and-sets and deletes identically. *)
Theorem state_stores_agree ops : memory_ops ops ∅ = table_ops ops ∅.
Proof.
  assert (table_follows ∅ ∅) as Hf.
  { split; [by intros ? ? ?|]. intros. by rewrite !lookup_empty. }
  revert Hf. generalize (∅ : StateMemory) as s. generalize (∅ : StateTable) as t.
  induction ops as [|op ops IH]; intros t s Hf; [done|]. simpl.
  destruct (op_follows s t op Hf) as [H1 H2].
  destruct (memory_op op s) as [r s'], (table_op op t) as [r' t']. simpl in *. subst.
  f_equal. by apply IH.
Qed.

(** ** The properties at concrete inputs *)

Definition state0 : StateMemory :=
  {[(Scope_System, ("n", "k")) := {| en_scope := Scope_System; en_namespace := "n"; en_key := "k";
     en_value := Null; en_revision := 2; en_updated_at := 1 |}]}.

Lemma compare_and_set_iff_witness :
  is_ok (state_compare_and_set 5 Scope_System "n" "k" (Some 1) (VBool true) state0) = false /\
  en_revision <$> state0 !! (Scope_System, ("n", "k")) <> Some 1.
Proof.
  split; [vm_compute; reflexivity|].
  pose proof (compare_and_set_iff 5 Scope_System "n" "k" (Some 1) (VBool true) state0 eq_refl) as H.
  destruct (state_compare_and_set 5 Scope_System "n" "k" (Some 1) (VBool true) state0) as [[e s']|err] eqn:Hc.
  - vm_compute in Hc. discriminate Hc.
  - exact (proj1 H).
Defined.

Definition state1 : StateMemory :=
  {[(Scope_Session "s", ("n", "k")) := {| en_scope := Scope_Session "s"; en_namespace := "n";
     en_key := "k"; en_value := VBool true; en_revision := 1; en_updated_at := 5 |}]}.
Definition entry1 : EngineStateEntry :=
  {| en_scope := Scope_Session "s"; en_namespace := "n"; en_key := "k"; en_value := VBool true;
     en_revision := 1; en_updated_at := 5 |}.

Lemma no_lost_update_witness :
  is_ok (state_compare_and_set 6 (Scope_Session "s") "n" "k" None (VBool false) state1) = false.
Proof.
  refine (no_lost_update 5 6 (Scope_Session "s") "n" "k" None (VBool true) (VBool false) ∅ entry1 state1 _ _).
  - vm_compute. reflexivity.
  - intros r Hr. discriminate Hr.
Defined.

Lemma state_get_after_set_witness :
  state_get (Scope_Session "s") "n" "k" state1 = Ok (Some entry1).
Proof.
  rewrite (state_get_after_set 5 (Scope_Session "s") "n" "k" (VBool true) ∅ entry1 state1
    (Scope_Session "s") "n" "k"); vm_compute; reflexivity.
Defined.

(** A prefix that contains a wildcard selects more rows than it names. *)
Example like_wildcard_prefix :
  like ("job_" +s "%") "jobs/1" = true /\ starts_with "jobs/1" "job_" = false.
Proof. by vm_compute. Qed.
Example like_ignores_case : like ("Job" +s "%") "jobs" = true /\ starts_with "jobs" "Job" = false.
Proof. by vm_compute. Qed.
