(* ===== verification/Ledger.v ===== *)
(** * The engine ledger

    [durability/ledger]: idempotency reservations and their outcomes, the stored
    projection of errors and results, the audit log of invocations and catalog
    changes, and the durable definitions of external workers.  [LedgerStore] is
    what the catalog relies on of the [EngineLedgerStore] trait; the in-memory
    store implements it.  The [{:?}] rendering of a string is a parameter. *)

From stdpp Require Import base gmap strings list sorting.
From Stdlib Require Import ZArith Ascii String Lia.
From S2P Require Import Prelude Json Kernel Model.

#[local] Open Scope Z_scope.

(** ** Stored outcomes *)

(* SRC engine/durability/ledger/outcome.rs:11-20 StoredEngineError *)
Record StoredEngineError := { se_kind : string; se_message : string; se_details : Value }.

(** The [json!] object of string fields; the keys are given in order. *)
Definition json_strings (fields : list (string * string)) : Value :=
  VObject (map (fun '(k, v) => (k, VString v)) fields).

(* SRC engine/durability/ledger/outcome.rs:23-184 StoredEngineError::from_engine_error *)
Definition from_engine_error (debug : string -> string) (error : EngineError)
  : StoredEngineError :=
  let stored kind details :=
    {| se_kind := kind; se_message := error_to_string debug error; se_details := details |} in
  match error with
  | InvalidId kind value => stored "invalid_id" (json_strings [("kind", kind); ("value", value)])
  | InvalidFunctionId value => stored "invalid_function_id" (json_strings [("value", value)])
  | NotFound kind id => stored "not_found" (json_strings [("id", id); ("kind", kind)])
  | OwnerMismatch kind id owner attempted_owner =>
      stored "owner_mismatch"
        (json_strings [("attemptedOwner", attempted_owner); ("id", id); ("kind", kind);
                       ("owner", owner)])
  | NamespaceDenied worker_id function_id =>
      stored "namespace_denied"
        (json_strings [("functionId", function_id); ("workerId", worker_id)])
  | UnsupportedDeliveryMode mode =>
      stored "unsupported_delivery_mode" (json_strings [("mode", mode)])
  | DeliveryModeNotAllowed function_id mode =>
      stored "delivery_mode_not_allowed" (json_strings [("functionId", function_id); ("mode", mode)])
  | IdempotencyConflict function_id key reason =>
      stored "idempotency_conflict"
        (json_strings [("functionId", function_id); ("key", key); ("reason", reason)])
  | LedgerFailure operation message =>
      stored "ledger_failure" (json_strings [("message", message); ("operation", operation)])
  | StoredInvocationError kind message =>
      stored "stored_invocation_error" (json_strings [("kind", kind); ("message", message)])
  | InvalidSchema function_id direction message =>
      stored "invalid_schema"
        (json_strings [("direction", direction); ("functionId", function_id);
                       ("message", message)])
  | SchemaViolation function_id direction path message =>
      stored "schema_violation"
        (json_strings [("direction", direction); ("functionId", function_id);
                       ("message", message); ("path", path)])
  | InvalidVisibilityPromotion function_id target reason =>
      stored "invalid_visibility_promotion"
        (json_strings [("functionId", function_id); ("reason", reason); ("target", target)])
  | PolicyViolation message => stored "policy_violation" (json_strings [("message", message)])
  | NotRoutable function_id reason =>
      stored "not_routable" (json_strings [("functionId", function_id); ("reason", reason)])
  | DomainFailure domain error_code message details =>
      stored "domain_failure"
        (VObject [("code", VString error_code); ("details", default Null details);
                  ("domain", VString domain); ("message", VString message)])
  | WorkerTransportFailure error_code message =>
      stored "worker_transport_failure" (json_strings [("code", error_code); ("message", message)])
  | HandlerFailed message => stored "handler_failed" (json_strings [("message", message)])
  end.

(* SRC engine/durability/ledger/outcome.rs:186-275 StoredEngineError::to_replay_error *)
Definition to_replay_error (e : StoredEngineError) : EngineError :=
  let field key fallback := default fallback (vget (se_details e) key ≫= as_str) in
  if se_kind e =s "schema_violation" then
    SchemaViolation (field "functionId" "stored")
      (match vget (se_details e) "direction" ≫= as_str with
       | Some d => if d =s "response" then "response" else "request"
       | None => "request"
       end)
      (field "path" "$") (field "message" (se_message e))
  else if se_kind e =s "policy_violation" then PolicyViolation (field "message" (se_message e))
  else if se_kind e =s "domain_failure" then
    DomainFailure (field "domain" "stored") (field "code" "STORED_INVOCATION_ERROR")
      (field "message" (se_message e))
      (match vget (se_details e) "details" with
       | Some v => if is_null v then None else Some v
       | None => None
       end)
  else if se_kind e =s "worker_transport_failure" then
    WorkerTransportFailure (field "code" "WORKER_TRANSPORT_FAILURE")
      (field "message" (se_message e))
  else StoredInvocationError (se_kind e) (se_message e).

(* SRC engine/durability/ledger/outcome.rs:278-285 StoredInvocationOutcome *)
Record StoredInvocationOutcome := {
  so_value : option Value;
  so_error : option StoredEngineError
}.

(* SRC engine/durability/ledger/outcome.rs:288-298 StoredInvocationOutcome::from_result *)
Definition outcome_from_result (debug : string -> string) (r : InvocationResult)
  : StoredInvocationOutcome :=
  {| so_value := ir_value r; so_error := from_engine_error debug <$> ir_error r |}.

(* SRC engine/durability/ledger/outcome.rs:300-325 StoredInvocationOutcome::to_replay_result *)
Definition to_replay_result (o : StoredInvocationOutcome) (i : Invocation) (worker_id : WorkerId)
    (function_revision catalog_revision : Z) (replayed_from : InvocationId) : InvocationResult :=
  {| ir_invocation_id := inv_id i; ir_function_id := inv_function_id i; ir_worker_id := worker_id;
     ir_function_revision := function_revision; ir_catalog_revision := catalog_revision;
     ir_trace_id := cx_trace_id (inv_context i);
     ir_value := if is_some (so_error o) then None
                 else Some (default Null (so_value o));
     ir_error := to_replay_error <$> so_error o; ir_replayed_from := Some replayed_from |}.

(** ** Idempotency entries *)

(* SRC engine/durability/ledger/mod.rs:37-46 IdempotencyKey *)
Record IdempotencyKey := {
  ik_function_id : FunctionId;
  ik_scope : IdempotencyScope;
  ik_key : string
}.

Definition key_tuple (k : IdempotencyKey) : string * (string * string) * string :=
  (ik_function_id k, (scope_kind (ik_scope k), scope_value (ik_scope k)), ik_key k).
#[global] Instance key_tuple_inj : Inj (=) (=) key_tuple.
Proof. intros [f [sk sv] k] [f' [sk' sv'] k']. unfold key_tuple. simpl. congruence. Qed.
#[global] Instance IdempotencyKey_eq_dec : EqDecision IdempotencyKey.
Proof. solve_decision. Defined.
#[global] Program Instance IdempotencyKey_countable : Countable IdempotencyKey :=
  inj_countable' key_tuple
    (fun '(f, (sk, sv), k) =>
       {| ik_function_id := f; ik_scope := {| scope_kind := sk; scope_value := sv |}; ik_key := k |})
    _.
Next Obligation. by intros [f [sk sv] k]. Qed.
(** The derived [Ord]: field by field. *)
#[global] Instance IdempotencyKey_ord : OrdKey IdempotencyKey := inj_ord key_tuple.

(* SRC engine/durability/ledger/mod.rs:48-57 IdempotencyStatus *)
Inductive IdempotencyStatus : Type := Status_InProgress | Status_Completed | Status_Unknown.

(* SRC engine/durability/ledger/mod.rs:59-82 IdempotencyEntry *)
Record IdempotencyEntry := {
  ie_key : IdempotencyKey;
  ie_payload_fingerprint : string;
  ie_function_revision : Z;
  ie_replay_behavior : ReplayBehavior;
  ie_status : IdempotencyStatus;
  ie_first_invocation_id : InvocationId;
  ie_latest_invocation_id : InvocationId;
  ie_outcome : option StoredInvocationOutcome;
  ie_created_at : instant;
  ie_updated_at : instant
}.

(* SRC engine/durability/ledger/mod.rs:84-97 IdempotencyReservation *)
Record IdempotencyReservation := {
  rv_key : IdempotencyKey;
  rv_payload_fingerprint : string;
  rv_function_revision : Z;
  rv_replay_behavior : ReplayBehavior;
  rv_invocation_id : InvocationId
}.

(* SRC engine/durability/ledger/mod.rs:99-106 IdempotencyReservationOutcome *)
Inductive IdempotencyReservationOutcome : Type :=
| Reserved (entry : IdempotencyEntry)
| Existing (entry : IdempotencyEntry).

(** The entry a fresh reservation stores. *)
(* SRC engine/durability/ledger/memory.rs:137-149! InMemoryEngineLedgerStore::reserve_idempotency *)
Definition fresh_entry (now : instant) (r : IdempotencyReservation) : IdempotencyEntry :=
  {| ie_key := rv_key r; ie_payload_fingerprint := rv_payload_fingerprint r;
     ie_function_revision := rv_function_revision r; ie_replay_behavior := rv_replay_behavior r;
     ie_status := Status_InProgress; ie_first_invocation_id := rv_invocation_id r;
     ie_latest_invocation_id := rv_invocation_id r; ie_outcome := None;
     ie_created_at := now; ie_updated_at := now |}.

(** A duplicate changes the latest invocation and the update time only. *)
(* SRC engine/durability/ledger/memory.rs:131-135! InMemoryEngineLedgerStore::reserve_idempotency *)
Definition touch_entry (now : instant) (id : InvocationId) (e : IdempotencyEntry)
  : IdempotencyEntry :=
  {| ie_key := ie_key e; ie_payload_fingerprint := ie_payload_fingerprint e;
     ie_function_revision := ie_function_revision e; ie_replay_behavior := ie_replay_behavior e;
     ie_status := ie_status e; ie_first_invocation_id := ie_first_invocation_id e;
     ie_latest_invocation_id := id; ie_outcome := ie_outcome e;
     ie_created_at := ie_created_at e; ie_updated_at := now |}.

(** A completed entry, with what the store has of the outcome. *)
Definition settled_entry (now : instant) (id : InvocationId) (o : option StoredInvocationOutcome)
    (e : IdempotencyEntry) : IdempotencyEntry :=
  {| ie_key := ie_key e; ie_payload_fingerprint := ie_payload_fingerprint e;
     ie_function_revision := ie_function_revision e; ie_replay_behavior := ie_replay_behavior e;
     ie_status := Status_Completed; ie_first_invocation_id := ie_first_invocation_id e;
     ie_latest_invocation_id := id; ie_outcome := o;
     ie_created_at := ie_created_at e; ie_updated_at := now |}.
(* SRC engine/durability/ledger/memory.rs:164-171! InMemoryEngineLedgerStore::complete_idempotency *)
Definition completed_entry (now : instant) (id : InvocationId) (o : StoredInvocationOutcome)
    (e : IdempotencyEntry) : IdempotencyEntry := settled_entry now id (Some o) e.

(** ** The in-memory store *)

(* SRC engine/durability/ledger/memory.rs:16-24 InMemoryEngineLedgerStore *)
Record LedgerMemory := {
  ml_catalog_changes : list CatalogChange;
  ml_invocations : list InvocationRecord;
  ml_idempotency : gmap IdempotencyKey IdempotencyEntry;
  ml_durable_workers : gmap string WorkerDefinition;
  ml_durable_functions : gmap string FunctionDefinition
}.

(* SRC engine/durability/ledger/memory.rs:27-31 InMemoryEngineLedgerStore::new *)
Definition ledger_memory_new : LedgerMemory :=
  {| ml_catalog_changes := []; ml_invocations := []; ml_idempotency := ∅;
     ml_durable_workers := ∅; ml_durable_functions := ∅ |}.

Definition set_ml_idempotency (m : gmap IdempotencyKey IdempotencyEntry) (s : LedgerMemory)
  : LedgerMemory :=
  {| ml_catalog_changes := ml_catalog_changes s; ml_invocations := ml_invocations s;
     ml_idempotency := m; ml_durable_workers := ml_durable_workers s;
     ml_durable_functions := ml_durable_functions s |}.
Definition set_ml_durable (w : gmap string WorkerDefinition) (f : gmap string FunctionDefinition)
    (s : LedgerMemory) : LedgerMemory :=
  {| ml_catalog_changes := ml_catalog_changes s; ml_invocations := ml_invocations s;
     ml_idempotency := ml_idempotency s; ml_durable_workers := w; ml_durable_functions := f |}.

(* SRC engine/durability/ledger/memory.rs:35-38 InMemoryEngineLedgerStore::append_catalog_change *)
Definition memory_append_catalog_change (change : CatalogChange) (s : LedgerMemory)
  : Result unit * LedgerMemory :=
  (Ok tt,
   {| ml_catalog_changes := ml_catalog_changes s ++ [change]; ml_invocations := ml_invocations s;
      ml_idempotency := ml_idempotency s; ml_durable_workers := ml_durable_workers s;
      ml_durable_functions := ml_durable_functions s |}).

(* SRC engine/durability/ledger/memory.rs:40-42 InMemoryEngineLedgerStore::list_catalog_changes *)
Definition memory_list_catalog_changes (s : LedgerMemory) : Result (list CatalogChange) :=
  Ok (ml_catalog_changes s).

(* SRC engine/durability/ledger/memory.rs:44-56 InMemoryEngineLedgerStore::catalog_changes_after *)
Definition memory_catalog_changes_after (revision : Z) (limit : nat) (s : LedgerMemory)
  : Result (list CatalogChange) :=
  Ok (take limit (List.filter (fun c => revision <? chg_after c) (ml_catalog_changes s))).

(* SRC engine/durability/ledger/memory.rs:58-62 InMemoryEngineLedgerStore::upsert_durable_worker_definition *)
Definition memory_upsert_durable_worker (d : WorkerDefinition) (s : LedgerMemory)
  : Result unit * LedgerMemory :=
  (Ok tt, set_ml_durable (<[wk_id d := d]> (ml_durable_workers s)) (ml_durable_functions s) s).

(* SRC engine/durability/ledger/memory.rs:64-69 InMemoryEngineLedgerStore::remove_durable_worker_definition *)
Definition memory_remove_durable_worker (worker_id : WorkerId) (s : LedgerMemory)
  : Result unit * LedgerMemory :=
  (Ok tt,
   set_ml_durable (delete worker_id (ml_durable_workers s))
     (filter (fun '(_, f) => fn_owner_worker f <> worker_id) (ml_durable_functions s)) s).

(* SRC engine/durability/ledger/memory.rs:71-73 InMemoryEngineLedgerStore::list_durable_worker_definitions *)
Definition memory_list_durable_workers (s : LedgerMemory) : Result (list WorkerDefinition) :=
  Ok (btree_values (ml_durable_workers s)).

(* SRC engine/durability/ledger/memory.rs:75-82 InMemoryEngineLedgerStore::upsert_durable_function_definition *)
Definition memory_upsert_durable_function (d : FunctionDefinition) (s : LedgerMemory)
  : Result unit * LedgerMemory :=
  (Ok tt, set_ml_durable (ml_durable_workers s) (<[fn_id d := d]> (ml_durable_functions s)) s).

(* SRC engine/durability/ledger/memory.rs:84-87 InMemoryEngineLedgerStore::remove_durable_function_definition *)
Definition memory_remove_durable_function (function_id : FunctionId) (s : LedgerMemory)
  : Result unit * LedgerMemory :=
  (Ok tt, set_ml_durable (ml_durable_workers s) (delete function_id (ml_durable_functions s)) s).

(* SRC engine/durability/ledger/memory.rs:89-91 InMemoryEngineLedgerStore::list_durable_function_definitions *)
Definition memory_list_durable_functions (s : LedgerMemory) : Result (list FunctionDefinition) :=
  Ok (btree_values (ml_durable_functions s)).

(* SRC engine/durability/ledger/memory.rs:93-96 InMemoryEngineLedgerStore::append_invocation *)
Definition memory_append_invocation (record : InvocationRecord) (s : LedgerMemory)
  : Result unit * LedgerMemory :=
  (Ok tt,
   {| ml_catalog_changes := ml_catalog_changes s; ml_invocations := ml_invocations s ++ [record];
      ml_idempotency := ml_idempotency s; ml_durable_workers := ml_durable_workers s;
      ml_durable_functions := ml_durable_functions s |}).

(** [record.session_id.as_deref() == Some(session_id)] *)
Definition in_session (session_id : string) (r : InvocationRecord) : bool :=
  match rec_session_id r with Some s => s =s session_id | None => false end.

(* SRC engine/durability/ledger/memory.rs:102-109 InMemoryEngineLedgerStore::list_invocations_by_session *)
Definition memory_list_invocations_by_session (session_id : string) (s : LedgerMemory)
  : Result (list InvocationRecord) :=
  Ok (List.filter (in_session session_id) (ml_invocations s)).

(* SRC engine/durability/ledger/memory.rs:111-128 InMemoryEngineLedgerStore::list_idempotency_by_session *)
Definition memory_list_idempotency_by_session (session_id : string) (s : LedgerMemory)
  : Result (list IdempotencyEntry) :=
  let session_invocations :=
    map rec_invocation_id (List.filter (in_session session_id) (ml_invocations s)) in
  let seen id := existsb (fun x => x =s id) session_invocations in
  Ok (List.filter (fun e =>
        ((scope_kind (ik_scope (ie_key e)) =s "session")
         && (scope_value (ik_scope (ie_key e)) =s session_id))
        || seen (ie_first_invocation_id e) || seen (ie_latest_invocation_id e))
      (btree_values (ml_idempotency s))).

(* SRC engine/durability/ledger/memory.rs:130-155 InMemoryEngineLedgerStore::reserve_idempotency *)
Definition memory_reserve_idempotency (now : instant) (r : IdempotencyReservation)
    (s : LedgerMemory) : Result IdempotencyReservationOutcome * LedgerMemory :=
  match ml_idempotency s !! rv_key r with
  | Some existing =>
      let existing := touch_entry now (rv_invocation_id r) existing in
      (Ok (Existing existing), set_ml_idempotency (<[rv_key r := existing]> (ml_idempotency s)) s)
  | None =>
      let entry := fresh_entry now r in
      (Ok (Reserved entry), set_ml_idempotency (<[ie_key entry := entry]> (ml_idempotency s)) s)
  end.

(* SRC engine/durability/ledger/memory.rs:157-172 InMemoryEngineLedgerStore::complete_idempotency *)
Definition memory_complete_idempotency (now : instant) (key : IdempotencyKey)
    (invocation_id : InvocationId) (outcome : StoredInvocationOutcome) (s : LedgerMemory)
  : Result unit * LedgerMemory :=
  match ml_idempotency s !! key with
  | None => (Err (LedgerFailure "complete_idempotency" "reservation not found"), s)
  | Some entry =>
      (Ok tt, set_ml_idempotency
                (<[key := completed_entry now invocation_id outcome entry]> (ml_idempotency s)) s)
  end.

(** ** What the catalog relies on

    The [EngineLedgerStore] trait.  An operation of a store fails and leaves its
    contents as they were, or does what the in-memory store does, with what the
    store keeps of a record ([lg_stored]: all of it but the error, of which a
    projection may be kept) and of an outcome ([lg_kept]: a value or an error is
    kept).  Changes are listed as they were appended when that was in the order of
    their revisions. *)

Definition set_rec_error (e : option EngineError) (r : InvocationRecord) : InvocationRecord :=
  {| rec_invocation_id := rec_invocation_id r; rec_function_id := rec_function_id r;
     rec_worker_id := rec_worker_id r; rec_function_revision := rec_function_revision r;
     rec_catalog_revision := rec_catalog_revision r; rec_actor_id := rec_actor_id r;
     rec_actor_kind := rec_actor_kind r; rec_authority_grant_id := rec_authority_grant_id r;
     rec_authority_scopes := rec_authority_scopes r; rec_trace_id := rec_trace_id r;
     rec_parent_invocation_id := rec_parent_invocation_id r; rec_trigger_id := rec_trigger_id r;
     rec_session_id := rec_session_id r; rec_workspace_id := rec_workspace_id r;
     rec_delivery_mode := rec_delivery_mode r; rec_idempotency_key := rec_idempotency_key r;
     rec_idempotency_scope := rec_idempotency_scope r;
     rec_resource_lease_ids := rec_resource_lease_ids r;
     rec_compensation_status := rec_compensation_status r;
     rec_produced_resource_refs := rec_produced_resource_refs r;
     rec_replayed_from := rec_replayed_from r; rec_succeeded := rec_succeeded r;
     rec_result_value := rec_result_value r; rec_error := e; rec_timestamp := rec_timestamp r |}.
Definition outcome_present (o : StoredInvocationOutcome) : bool :=
  is_some (so_value o) || is_some (so_error o).
Definition in_revision_order (changes : list CatalogChange) : Prop :=
  StronglySorted (fun a b => chg_after a <= chg_after b) changes.

(** Completion with what is kept of the outcome. *)
Definition ledger_settle (now : instant) (key : IdempotencyKey) (invocation_id : InvocationId)
    (outcome : option StoredInvocationOutcome) (s : LedgerMemory) : Result unit * LedgerMemory :=
  match ml_idempotency s !! key with
  | None => (Err (LedgerFailure "complete_idempotency" "reservation not found"), s)
  | Some entry =>
      (Ok tt, set_ml_idempotency
                (<[key := settled_entry now invocation_id outcome entry]> (ml_idempotency s)) s)
  end.

Definition refines {S A} (view : S -> LedgerMemory) (r : Result A * S) (before : LedgerMemory)
    (reference : LedgerMemory -> Result A * LedgerMemory) : Prop :=
  match r with
  | (Ok a, s') => reference before = (Ok a, view s')
  | (Err _, s') => view s' = before
  end.
Definition read_refines {A} (r reference : Result A) : Prop :=
  match r with Ok a => reference = Ok a | Err _ => True end.

(* SRC engine/durability/ledger/mod.rs:108-167 EngineLedgerStore *)
Class LedgerStore (S : Type) := {
  lg_append_catalog_change : CatalogChange -> S -> Result unit * S;
  lg_list_catalog_changes : S -> Result (list CatalogChange);
  lg_upsert_durable_worker : WorkerDefinition -> S -> Result unit * S;
  lg_remove_durable_worker : WorkerId -> S -> Result unit * S;
  lg_list_durable_workers : S -> Result (list WorkerDefinition);
  lg_upsert_durable_function : FunctionDefinition -> S -> Result unit * S;
  lg_remove_durable_function : FunctionId -> S -> Result unit * S;
  lg_list_durable_functions : S -> Result (list FunctionDefinition);
  lg_append_invocation : InvocationRecord -> S -> Result unit * S;
  lg_reserve : instant -> IdempotencyReservation -> S -> Result IdempotencyReservationOutcome * S;
  lg_complete : instant -> IdempotencyKey -> InvocationId -> StoredInvocationOutcome -> S ->
    Result unit * S;
  lg_view : S -> LedgerMemory;
  lg_stored : InvocationRecord -> InvocationRecord;
  lg_kept : StoredInvocationOutcome -> option StoredInvocationOutcome;
  lg_stored_ok : forall r, set_rec_error None (lg_stored r) = set_rec_error None r /\
    is_some (rec_error (lg_stored r)) = is_some (rec_error r);
  lg_kept_ok : forall o, outcome_present o = true -> lg_kept o = Some o;
  lg_append_catalog_change_ok : forall x s,
    refines lg_view (lg_append_catalog_change x s) (lg_view s) (memory_append_catalog_change x);
  lg_list_catalog_changes_ok : forall s,
    in_revision_order (ml_catalog_changes (lg_view s)) ->
    read_refines (lg_list_catalog_changes s) (memory_list_catalog_changes (lg_view s));
  lg_upsert_durable_worker_ok : forall x s,
    refines lg_view (lg_upsert_durable_worker x s) (lg_view s) (memory_upsert_durable_worker x);
  lg_remove_durable_worker_ok : forall x s,
    refines lg_view (lg_remove_durable_worker x s) (lg_view s) (memory_remove_durable_worker x);
  lg_list_durable_workers_ok : forall s,
    read_refines (lg_list_durable_workers s) (memory_list_durable_workers (lg_view s));
  lg_upsert_durable_function_ok : forall x s,
    refines lg_view (lg_upsert_durable_function x s) (lg_view s) (memory_upsert_durable_function x);
  lg_remove_durable_function_ok : forall x s,
    refines lg_view (lg_remove_durable_function x s) (lg_view s) (memory_remove_durable_function x);
  lg_list_durable_functions_ok : forall s,
    read_refines (lg_list_durable_functions s) (memory_list_durable_functions (lg_view s));
  lg_append_invocation_ok : forall x s,
    refines lg_view (lg_append_invocation x s) (lg_view s)
      (memory_append_invocation (lg_stored x));
  lg_reserve_ok : forall now r s,
    refines lg_view (lg_reserve now r s) (lg_view s) (memory_reserve_idempotency now r);
  lg_complete_ok : forall now k id o s,
    refines lg_view (lg_complete now k id o s) (lg_view s) (ledger_settle now k id (lg_kept o))
}.

#[global] Instance memory_ledger_store : LedgerStore LedgerMemory.
Proof.
  refine {| lg_append_catalog_change := memory_append_catalog_change;
            lg_list_catalog_changes := memory_list_catalog_changes;
            lg_upsert_durable_worker := memory_upsert_durable_worker;
            lg_remove_durable_worker := memory_remove_durable_worker;
            lg_list_durable_workers := memory_list_durable_workers;
            lg_upsert_durable_function := memory_upsert_durable_function;
            lg_remove_durable_function := memory_remove_durable_function;
            lg_list_durable_functions := memory_list_durable_functions;
            lg_append_invocation := memory_append_invocation;
            lg_reserve := memory_reserve_idempotency; lg_complete := memory_complete_idempotency;
            lg_view := fun s => s; lg_stored := fun r => r; lg_kept := Some |}; try done.
  - intros now r s. unfold refines, memory_reserve_idempotency. by destruct (_ !! _).
  - intros now k id o s. unfold refines, memory_complete_idempotency, ledger_settle. by destruct (_ !! _).
Defined.

(** ** Replay of stored errors *)

(** The errors whose stored projection is rebuilt without loss. *)
Definition replays_exactly (e : EngineError) : bool :=
  match e with
  | SchemaViolation _ direction _ _ => (direction =s "request") || (direction =s "response")
  | PolicyViolation _ | WorkerTransportFailure _ _ => true
  | DomainFailure _ _ _ details => bool_decide (details <> Some Null)
  | _ => false
  end.

(** What the others come back as. *)
Definition degraded_replay (debug : string -> string) (e : EngineError) : EngineError :=
  match e with
  | SchemaViolation f _ p m => SchemaViolation f "request" p m
  | DomainFailure d c m _ => DomainFailure d c m None
  | _ => StoredInvocationError (se_kind (from_engine_error debug e)) (error_to_string debug e)
  end.

Lemma length_append a b : String.length (a +s b) = (String.length a + String.length b)%nat.
Proof. induction a as [|c a IH]; simpl; [done|]. by rewrite IH. Qed.

(** An error stored in the ledger and rebuilt for a replay is the original exactly for
    policy violations, transport failures, schema violations of a request or response, and
    domain failures whose details are not JSON null; a domain failure with null details
    loses them, and every other error comes back as a stored invocation error that carries
    its kind and text. *)
Theorem stored_error_replay debug e :
  to_replay_error (from_engine_error debug e)
    = (if replays_exactly e then e else degraded_replay debug e)
  /\ (to_replay_error (from_engine_error debug e) = e <-> replays_exactly e = true).
Proof.
  assert (to_replay_error (from_engine_error debug e)
    = if replays_exactly e then e else degraded_replay debug e) as Heq.
  { destruct e as [| | | | | | | | | | |f d p m| | | |dom c m det| |]; try reflexivity.
    - unfold to_replay_error. cbn. destruct (String.eqb_spec d "response") as [->|].
      + by rewrite orb_true_r.
      + destruct (String.eqb_spec d "request") as [->|]; done.
    - unfold to_replay_error. cbn. case_bool_decide as Hd; destruct det as [v|]; try done.
      + by destruct v.
      + by injection Hd as ->. }
  split; [done|]. rewrite Heq. destruct (replays_exactly e) eqn:Hr; [done|].
  split; [|done]. intros Hd. exfalso. destruct e; try discriminate; simpl in Hd, Hr.
  - injection Hd as _ Hm. apply (f_equal String.length) in Hm.
    rewrite !length_append in Hm. simpl in Hm. lia.
  - injection Hd as Hm. subst. done.
  - injection Hd as Hm. subst. bool_prop. naive_solver.
Qed.
