(* ===== verification/LedgerSqlite.v ===== *)
(** * The SQLite ledger

    [durability/ledger/sqlite_store] and [sqlite_codec]: the tables of the durable
    ledger, its row codecs, and the proof that it keeps the contract [LedgerStore]
    on which the catalog and the invocation path rely.

    A column that holds the JSON of an enumeration, a list or a definition has its
    value as type: its text is written and read by derived code (and long texts go
    through [Storage]).  What the codecs lose is kept: an error is stored as its
    projection, an outcome as two nullable columns, a scope as two.  An id is valid
    when it is stored, so the checks on reading it back pass and are left out.  An
    integer above [i64::MAX] cannot be bound, and a primary key is unique; the texts
    of both failures are parameters. *)

From stdpp Require Import base gmap strings list sorting.
From Stdlib Require Import ZArith Ascii String Lia.
From S2P Require Import Prelude Sorting Json Kernel Model Ledger.

#[local] Open Scope Z_scope.


(** ** Rows *)

(* SRC engine/durability/ledger/sqlite_codec.rs:122-149 RawInvocationRow *)
Record RawInvocationRow := {
  iw_invocation_id : InvocationId;
  iw_function_id : FunctionId;
  iw_worker_id : WorkerId;
  iw_function_revision : Z;
  iw_catalog_revision : Z;
  iw_actor_id : ActorId;
  iw_actor_kind : ActorKind;
  iw_authority_grant_id : AuthorityGrantId;
  iw_authority_scopes : list string;
  iw_trace_id : TraceId;
  iw_parent_invocation_id : option InvocationId;
  iw_trigger_id : option TriggerId;
  iw_session_id : option string;
  iw_workspace_id : option string;
  iw_delivery_mode : DeliveryMode;
  iw_idempotency_scope_kind : option string;
  iw_idempotency_scope_value : option string;
  iw_resource_lease_ids : list string;
  iw_compensation_status : option string;
  iw_produced_resource_refs : list Value;
  iw_idempotency_key : option string;
  iw_replayed_from : option InvocationId;
  iw_succeeded : Z;
  iw_result : option Value;
  iw_error : option StoredEngineError;
  iw_timestamp : instant
}.

(* SRC engine/durability/ledger/sqlite_codec.rs:151-166 RawIdempotencyRow *)
Record RawIdempotencyRow := {
  dw_function_id : FunctionId;
  dw_scope_kind : string;
  dw_scope_value : string;
  dw_idempotency_key : string;
  dw_payload_fingerprint : string;
  dw_function_revision : Z;
  dw_replay_behavior : ReplayBehavior;
  dw_status : IdempotencyStatus;
  dw_first_invocation_id : InvocationId;
  dw_latest_invocation_id : InvocationId;
  dw_outcome_value : option Value;
  dw_outcome_error : option StoredEngineError;
  dw_created_at : instant;
  dw_updated_at : instant
}.

(** The tables, by primary key where rows are read in its order, and in the order
    of their row ids otherwise.  The owner column of a function repeats the owner
    of its definition, from which every statement sets it. *)
(* SRC engine/durability/ledger/sqlite_codec.rs:19-103! SQLITE_SCHEMA *)
Record LedgerTables := {
  lt_catalog_changes : list CatalogChange;
  lt_workers : gmap string WorkerDefinition;
  lt_functions : gmap string FunctionDefinition;
  lt_invocations : list RawInvocationRow;
  lt_idempotency : gmap IdempotencyKey RawIdempotencyRow
}.
Definition ledger_tables_new : LedgerTables :=
  {| lt_catalog_changes := []; lt_workers := ∅; lt_functions := ∅; lt_invocations := [];
     lt_idempotency := ∅ |}.

(* SRC engine/durability/ledger/sqlite_codec.rs:191-239 raw_invocation_record *)
Definition raw_invocation_record (row : RawInvocationRow) : InvocationRecord :=
  {| rec_invocation_id := iw_invocation_id row; rec_function_id := iw_function_id row;
     rec_worker_id := iw_worker_id row; rec_function_revision := iw_function_revision row;
     rec_catalog_revision := iw_catalog_revision row; rec_actor_id := iw_actor_id row;
     rec_actor_kind := iw_actor_kind row; rec_authority_grant_id := iw_authority_grant_id row;
     rec_authority_scopes := iw_authority_scopes row; rec_trace_id := iw_trace_id row;
     rec_parent_invocation_id := iw_parent_invocation_id row; rec_trigger_id := iw_trigger_id row;
     rec_session_id := iw_session_id row; rec_workspace_id := iw_workspace_id row;
     rec_delivery_mode := iw_delivery_mode row; rec_idempotency_key := iw_idempotency_key row;
     rec_idempotency_scope :=
       match iw_idempotency_scope_kind row, iw_idempotency_scope_value row with
       | Some kind, Some value => Some {| scope_kind := kind; scope_value := value |}
       | _, _ => None
       end;
     rec_resource_lease_ids := iw_resource_lease_ids row;
     rec_compensation_status := iw_compensation_status row;
     rec_produced_resource_refs := iw_produced_resource_refs row;
     rec_replayed_from := iw_replayed_from row; rec_succeeded := iw_succeeded row =? 1;
     rec_result_value := iw_result row; rec_error := to_replay_error <$> iw_error row;
     rec_timestamp := iw_timestamp row |}.

(* SRC engine/durability/ledger/sqlite_codec.rs:241-267 raw_idempotency_entry *)
Definition raw_idempotency_entry (row : RawIdempotencyRow) : IdempotencyEntry :=
  {| ie_key := {| ik_function_id := dw_function_id row;
                  ik_scope := {| scope_kind := dw_scope_kind row;
                                 scope_value := dw_scope_value row |};
                  ik_key := dw_idempotency_key row |};
     ie_payload_fingerprint := dw_payload_fingerprint row;
     ie_function_revision := dw_function_revision row;
     ie_replay_behavior := dw_replay_behavior row; ie_status := dw_status row;
     ie_first_invocation_id := dw_first_invocation_id row;
     ie_latest_invocation_id := dw_latest_invocation_id row;
     ie_outcome :=
       if is_some (dw_outcome_value row) || is_some (dw_outcome_error row)
       then Some {| so_value := dw_outcome_value row; so_error := dw_outcome_error row |}
       else None;
     ie_created_at := dw_created_at row; ie_updated_at := dw_updated_at row |}.

Section store.
  Variable debug : string -> string.
  (** The texts of a failed binding and of a violated primary key. *)
  Variable range_text : Z -> string.
  Variable unique_text : string -> string.

(** The bound row of a record. *)
(* SRC engine/durability/ledger/sqlite_store/mod.rs:428-499! SqliteEngineLedgerStore::append_invocation *)
Definition invocation_row (r : InvocationRecord) : RawInvocationRow :=
  {| iw_invocation_id := rec_invocation_id r; iw_function_id := rec_function_id r;
     iw_worker_id := rec_worker_id r; iw_function_revision := rec_function_revision r;
     iw_catalog_revision := rec_catalog_revision r; iw_actor_id := rec_actor_id r;
     iw_actor_kind := rec_actor_kind r; iw_authority_grant_id := rec_authority_grant_id r;
     iw_authority_scopes := rec_authority_scopes r; iw_trace_id := rec_trace_id r;
     iw_parent_invocation_id := rec_parent_invocation_id r; iw_trigger_id := rec_trigger_id r;
     iw_session_id := rec_session_id r; iw_workspace_id := rec_workspace_id r;
     iw_delivery_mode := rec_delivery_mode r;
     iw_idempotency_scope_kind := scope_kind <$> rec_idempotency_scope r;
     iw_idempotency_scope_value := scope_value <$> rec_idempotency_scope r;
     iw_resource_lease_ids := rec_resource_lease_ids r;
     iw_compensation_status := rec_compensation_status r;
     iw_produced_resource_refs := rec_produced_resource_refs r;
     iw_idempotency_key := rec_idempotency_key r; iw_replayed_from := rec_replayed_from r;
     iw_succeeded := if rec_succeeded r then 1 else 0; iw_result := rec_result_value r;
     iw_error := from_engine_error debug <$> rec_error r; iw_timestamp := rec_timestamp r |}.

(* SRC engine/durability/ledger/sqlite_store/mod.rs:609-634! SqliteEngineLedgerStore::reserve_idempotency *)
Definition idempotency_row (now : instant) (r : IdempotencyReservation) : RawIdempotencyRow :=
  {| dw_function_id := ik_function_id (rv_key r); dw_scope_kind := scope_kind (ik_scope (rv_key r));
     dw_scope_value := scope_value (ik_scope (rv_key r)); dw_idempotency_key := ik_key (rv_key r);
     dw_payload_fingerprint := rv_payload_fingerprint r;
     dw_function_revision := rv_function_revision r; dw_replay_behavior := rv_replay_behavior r;
     dw_status := Status_InProgress; dw_first_invocation_id := rv_invocation_id r;
     dw_latest_invocation_id := rv_invocation_id r; dw_outcome_value := None;
     dw_outcome_error := None; dw_created_at := now; dw_updated_at := now |}.

(** [UPDATE .. SET latest_invocation_id = ?5, updated_at = ?6] *)
(* SRC engine/durability/ledger/sqlite_store/mod.rs:579-602! SqliteEngineLedgerStore::reserve_idempotency *)
Definition touch_row (now : instant) (id : InvocationId) (row : RawIdempotencyRow)
  : RawIdempotencyRow :=
  {| dw_function_id := dw_function_id row; dw_scope_kind := dw_scope_kind row;
     dw_scope_value := dw_scope_value row; dw_idempotency_key := dw_idempotency_key row;
     dw_payload_fingerprint := dw_payload_fingerprint row;
     dw_function_revision := dw_function_revision row;
     dw_replay_behavior := dw_replay_behavior row; dw_status := dw_status row;
     dw_first_invocation_id := dw_first_invocation_id row; dw_latest_invocation_id := id;
     dw_outcome_value := dw_outcome_value row; dw_outcome_error := dw_outcome_error row;
     dw_created_at := dw_created_at row; dw_updated_at := now |}.

(** [UPDATE .. SET status_json = ?5, .., outcome_value_json = ?7, ..] *)
(* SRC engine/durability/ledger/sqlite_store/mod.rs:650-705! SqliteEngineLedgerStore::complete_idempotency *)
Definition complete_row (now : instant) (id : InvocationId) (o : StoredInvocationOutcome)
    (row : RawIdempotencyRow) : RawIdempotencyRow :=
  {| dw_function_id := dw_function_id row; dw_scope_kind := dw_scope_kind row;
     dw_scope_value := dw_scope_value row; dw_idempotency_key := dw_idempotency_key row;
     dw_payload_fingerprint := dw_payload_fingerprint row;
     dw_function_revision := dw_function_revision row;
     dw_replay_behavior := dw_replay_behavior row; dw_status := Status_Completed;
     dw_first_invocation_id := dw_first_invocation_id row; dw_latest_invocation_id := id;
     dw_outcome_value := so_value o; dw_outcome_error := so_error o;
     dw_created_at := dw_created_at row; dw_updated_at := now |}.

(** ** Operations *)

(** Binding the integers of a statement. *)
Definition bind_integers (operation : string) (values : list Z) : Result unit :=
  match List.find (fun n => i64_max <? n) values with
  | Some n => Err (LedgerFailure operation (range_text n))
  | None => Ok tt
  end.

Definition set_lt_idempotency (m : gmap IdempotencyKey RawIdempotencyRow) (s : LedgerTables)
  : LedgerTables :=
  {| lt_catalog_changes := lt_catalog_changes s; lt_workers := lt_workers s;
     lt_functions := lt_functions s; lt_invocations := lt_invocations s; lt_idempotency := m |}.
Definition set_lt_durable (w : gmap string WorkerDefinition) (f : gmap string FunctionDefinition)
    (s : LedgerTables) : LedgerTables :=
  {| lt_catalog_changes := lt_catalog_changes s; lt_workers := w; lt_functions := f;
     lt_invocations := lt_invocations s; lt_idempotency := lt_idempotency s |}.

(* SRC engine/durability/ledger/sqlite_store/mod.rs:148-173 SqliteEngineLedgerStore::append_catalog_change *)
Definition sqlite_append_catalog_change (change : CatalogChange) (s : LedgerTables)
  : Result unit * LedgerTables :=
  match bind_integers "append_catalog_change" [chg_before change; chg_after change] with
  | Err e => (Err e, s)
  | Ok _ =>
      if existsb (fun c => chg_id c =s chg_id change) (lt_catalog_changes s)
      then (Err (LedgerFailure "append_catalog_change" (unique_text "engine_catalog_changes.id")), s)
      else (Ok tt,
            {| lt_catalog_changes := lt_catalog_changes s ++ [change]; lt_workers := lt_workers s;
               lt_functions := lt_functions s; lt_invocations := lt_invocations s;
               lt_idempotency := lt_idempotency s |})
  end.

(** [ORDER BY after_revision ASC], rows of one revision by their row ids. *)
Definition by_revision : list CatalogChange -> list CatalogChange :=
  stable_sort (fun a b => chg_after a <=? chg_after b).
(* SRC engine/durability/ledger/sqlite_store/mod.rs:175-226 SqliteEngineLedgerStore::list_catalog_changes *)
Definition sqlite_list_catalog_changes (s : LedgerTables) : Result (list CatalogChange) :=
  Ok (by_revision (lt_catalog_changes s)).
(** The limit is bound as [limit as i64]; SQLite takes a negative one for none. *)
(* SRC engine/durability/ledger/sqlite_store/mod.rs:228-285 SqliteEngineLedgerStore::catalog_changes_after *)
Definition sqlite_catalog_changes_after (revision : Z) (limit : nat) (s : LedgerTables)
  : Result (list CatalogChange) :=
  let? _ := bind_integers "catalog_changes_after.query" [revision] in
  let rows := by_revision (List.filter (fun c => revision <? chg_after c) (lt_catalog_changes s)) in
  Ok (if i64_max <? Z.of_nat limit then rows else take limit rows).

(* SRC engine/durability/ledger/sqlite_store/mod.rs:287-305 SqliteEngineLedgerStore::upsert_durable_worker_definition *)
Definition sqlite_upsert_durable_worker (d : WorkerDefinition) (s : LedgerTables)
  : Result unit * LedgerTables :=
  (Ok tt, set_lt_durable (<[wk_id d := d]> (lt_workers s)) (lt_functions s) s).
(* SRC engine/durability/ledger/sqlite_store/mod.rs:307-321 SqliteEngineLedgerStore::remove_durable_worker_definition *)
Definition sqlite_remove_durable_worker (worker_id : WorkerId) (s : LedgerTables)
  : Result unit * LedgerTables :=
  (Ok tt,
   set_lt_durable (delete worker_id (lt_workers s))
     (filter (fun '(_, f) => fn_owner_worker f <> worker_id) (lt_functions s)) s).
(* SRC engine/durability/ledger/sqlite_store/mod.rs:323-349 SqliteEngineLedgerStore::list_durable_worker_definitions *)
Definition sqlite_list_durable_workers (s : LedgerTables) : Result (list WorkerDefinition) :=
  Ok (btree_values (lt_workers s)).
(* SRC engine/durability/ledger/sqlite_store/mod.rs:351-374 SqliteEngineLedgerStore::upsert_durable_function_definition *)
Definition sqlite_upsert_durable_function (d : FunctionDefinition) (s : LedgerTables)
  : Result unit * LedgerTables :=
  (Ok tt,
   set_lt_durable (lt_workers s)
     (<[fn_id d := d]> (lt_functions s)) s).
(* SRC engine/durability/ledger/sqlite_store/mod.rs:376-384 SqliteEngineLedgerStore::remove_durable_function_definition *)
Definition sqlite_remove_durable_function (function_id : FunctionId) (s : LedgerTables)
  : Result unit * LedgerTables :=
  (Ok tt, set_lt_durable (lt_workers s) (delete function_id (lt_functions s)) s).
(* SRC engine/durability/ledger/sqlite_store/mod.rs:386-412 SqliteEngineLedgerStore::list_durable_function_definitions *)
Definition sqlite_list_durable_functions (s : LedgerTables) : Result (list FunctionDefinition) :=
  Ok (btree_values (lt_functions s)).

(* SRC engine/durability/ledger/sqlite_store/mod.rs:414-494 SqliteEngineLedgerStore::append_invocation *)
Definition sqlite_append_invocation (record : InvocationRecord) (s : LedgerTables)
  : Result unit * LedgerTables :=
  match bind_integers "append_invocation"
          [rec_function_revision record; rec_catalog_revision record] with
  | Err e => (Err e, s)
  | Ok _ =>
      if existsb (fun r => iw_invocation_id r =s rec_invocation_id record) (lt_invocations s)
      then (Err (LedgerFailure "append_invocation"
                   (unique_text "engine_invocations.invocation_id")), s)
      else (Ok tt,
            {| lt_catalog_changes := lt_catalog_changes s; lt_workers := lt_workers s;
               lt_functions := lt_functions s;
               lt_invocations := lt_invocations s ++ [invocation_row record];
               lt_idempotency := lt_idempotency s |})
  end.
(* SRC engine/durability/ledger/sqlite_store/mod.rs:496-522 SqliteEngineLedgerStore::list_invocations *)
Definition sqlite_list_invocations (s : LedgerTables) : Result (list InvocationRecord) :=
  Ok (map raw_invocation_record (lt_invocations s)).
(** [WHERE session_id = ?1 ORDER BY rowid ASC] *)
(* SRC engine/durability/ledger/sqlite_store/mod.rs:524-551 SqliteEngineLedgerStore::list_invocations_by_session *)
Definition sqlite_list_invocations_by_session (session_id : string) (s : LedgerTables)
  : Result (list InvocationRecord) :=
  Ok (map raw_invocation_record
        (List.filter (fun r => bool_decide (iw_session_id r = Some session_id)) (lt_invocations s))).
(** The [WHERE] with its [EXISTS]. *)
(* SRC engine/durability/ledger/sqlite_store/mod.rs:553-586 SqliteEngineLedgerStore::list_idempotency_by_session *)
Definition sqlite_list_idempotency_by_session (session_id : string) (s : LedgerTables)
  : Result (list IdempotencyEntry) :=
  Ok (map raw_idempotency_entry
        (List.filter (fun e =>
           ((dw_scope_kind e =s "session") && (dw_scope_value e =s session_id))
           || existsb (fun r =>
                bool_decide (iw_session_id r = Some session_id)
                && ((iw_invocation_id r =s dw_first_invocation_id e)
                    || (iw_invocation_id r =s dw_latest_invocation_id e))) (lt_invocations s))
         (btree_values (lt_idempotency s)))).

(* SRC engine/durability/ledger/sqlite_store/mod.rs:90-144 SqliteEngineLedgerStore::get_idempotency_entry *)
Definition get_idempotency_entry (key : IdempotencyKey) (s : LedgerTables)
  : option IdempotencyEntry :=
  raw_idempotency_entry <$> (lt_idempotency s !! key).
(** The clock is read once; the row of an insertion is read back. *)
(* SRC engine/durability/ledger/sqlite_store/mod.rs:588-650 SqliteEngineLedgerStore::reserve_idempotency *)
Definition sqlite_reserve_idempotency (now : instant) (r : IdempotencyReservation)
    (s : LedgerTables) : Result IdempotencyReservationOutcome * LedgerTables :=
  match get_idempotency_entry (rv_key r) s with
  | Some existing =>
      (Ok (Existing (touch_entry now (rv_invocation_id r) existing)),
       set_lt_idempotency
         (alter (touch_row now (rv_invocation_id r)) (rv_key r) (lt_idempotency s)) s)
  | None =>
      match bind_integers "reserve_idempotency.insert" [rv_function_revision r] with
      | Err e => (Err e, s)
      | Ok _ =>
          let s := set_lt_idempotency (<[rv_key r := idempotency_row now r]> (lt_idempotency s)) s in
          match get_idempotency_entry (rv_key r) s with
          | Some entry => (Ok (Reserved entry), s)
          | None => (Err (LedgerFailure "reserve_idempotency" "reservation insert vanished"), s)
          end
      end
  end.
(* SRC engine/durability/ledger/sqlite_store/mod.rs:652-721 SqliteEngineLedgerStore::complete_idempotency *)
Definition sqlite_complete_idempotency (now : instant) (key : IdempotencyKey)
    (invocation_id : InvocationId) (outcome : StoredInvocationOutcome) (s : LedgerTables)
  : Result unit * LedgerTables :=
  match lt_idempotency s !! key with
  | None => (Err (LedgerFailure "complete_idempotency" "reservation not found"), s)
  | Some _ =>
      (Ok tt, set_lt_idempotency
                (alter (complete_row now invocation_id outcome) key (lt_idempotency s)) s)
  end.

(** ** The contract *)

Definition ledger_tables_view (s : LedgerTables) : LedgerMemory :=
  {| ml_catalog_changes := lt_catalog_changes s;
     ml_invocations := map raw_invocation_record (lt_invocations s);
     ml_idempotency := raw_idempotency_entry <$> lt_idempotency s;
     ml_durable_workers := lt_workers s; ml_durable_functions := lt_functions s |}.

(** What the tables keep of an outcome. *)
Definition kept_outcome (o : StoredInvocationOutcome) : option StoredInvocationOutcome :=
  if outcome_present o then Some o else None.

Lemma row_record r :
  raw_invocation_record (invocation_row r)
  = set_rec_error (to_replay_error <$> (from_engine_error debug <$> rec_error r)) r.
Proof.
  destruct r. unfold raw_invocation_record, invocation_row, set_rec_error. simpl. f_equal.
  - by destruct rec_idempotency_scope as [[]|].
  - by destruct rec_succeeded.
Qed.

Lemma reserved_entry now r : raw_idempotency_entry (idempotency_row now r) = fresh_entry now r.
Proof. by destruct r as [[f [k v] key] ? ? ? ?]. Qed.
Lemma touched_entry now id row :
  raw_idempotency_entry (touch_row now id row) = touch_entry now id (raw_idempotency_entry row).
Proof. done. Qed.
Lemma completed_entry_row now id o row :
  raw_idempotency_entry (complete_row now id o row)
  = settled_entry now id (kept_outcome o) (raw_idempotency_entry row).
Proof.
  unfold raw_idempotency_entry, complete_row, settled_entry, kept_outcome, outcome_present. simpl.
  destruct o as [v e]. by destruct (_ || _).
Qed.

Lemma view_idempotency s k :
  ml_idempotency (ledger_tables_view s) !! k = raw_idempotency_entry <$> (lt_idempotency s !! k).
Proof. apply lookup_fmap. Qed.

Lemma fmap_alter_row (f : RawIdempotencyRow -> RawIdempotencyRow)
    (m : gmap IdempotencyKey RawIdempotencyRow) k row :
  m !! k = Some row ->
  raw_idempotency_entry <$> alter f k m
  = <[k := raw_idempotency_entry (f row)]> (raw_idempotency_entry <$> m).
Proof.
  intros Hk. rewrite <- fmap_insert. f_equal. apply map_eq. intros j.
  destruct (decide (j = k)) as [->|Hj].
  - by rewrite lookup_alter_eq, lookup_insert_eq, Hk.
  - by rewrite lookup_alter_ne, lookup_insert_ne by done.
Qed.

Lemma in_order_sorted l : in_revision_order l -> by_revision l = l.
Proof.
  intros Hl. unfold by_revision. induction Hl as [|x l Hl IH Hx]; [done|].
  cbn [stable_sort foldr]. change (foldr _ [] l) with (by_revision l). unfold by_revision. rewrite IH.
  destruct Hx as [|y l Hxy]; [done|]. simpl. by rewrite (proj2 (Z.leb_le _ _)).
Qed.

Lemma append_catalog_change_refines x s :
  refines ledger_tables_view (sqlite_append_catalog_change x s) (ledger_tables_view s)
    (memory_append_catalog_change x).
Proof.
  unfold sqlite_append_catalog_change. destruct (bind_integers _ _); [|done]. by destruct (existsb _ _).
Qed.
Lemma append_invocation_refines r s :
  refines ledger_tables_view (sqlite_append_invocation r s) (ledger_tables_view s)
    (memory_append_invocation (raw_invocation_record (invocation_row r))).
Proof.
  unfold sqlite_append_invocation. destruct (bind_integers _ _); [|done].
  destruct (existsb _ _); [done|]. unfold refines, memory_append_invocation, ledger_tables_view.
  cbn. by rewrite map_app.
Qed.
Lemma reserve_refines now r s :
  refines ledger_tables_view (sqlite_reserve_idempotency now r s) (ledger_tables_view s)
    (memory_reserve_idempotency now r).
Proof.
  unfold sqlite_reserve_idempotency, get_idempotency_entry.
  destruct (lt_idempotency s !! rv_key r) as [row|] eqn:Hrow; cbn [fmap option_fmap option_map].
  - unfold refines, memory_reserve_idempotency. rewrite view_idempotency, Hrow. cbn.
    do 2 f_equal. unfold ledger_tables_view, set_ml_idempotency. cbn. f_equal.
    by rewrite (fmap_alter_row _ _ _ _ Hrow).
  - destruct (bind_integers _ _); [|done]. cbn. rewrite lookup_insert_eq. cbn.
    unfold refines, memory_reserve_idempotency. rewrite view_idempotency, Hrow, reserved_entry. cbn.
    do 2 f_equal. unfold ledger_tables_view, set_ml_idempotency. cbn. f_equal.
    by rewrite fmap_insert, reserved_entry.
Qed.
Lemma complete_refines now k id o s :
  refines ledger_tables_view (sqlite_complete_idempotency now k id o s) (ledger_tables_view s)
    (ledger_settle now k id (kept_outcome o)).
Proof.
  unfold sqlite_complete_idempotency.
  destruct (lt_idempotency s !! k) as [row|] eqn:Hrow; [|done].
  unfold refines, ledger_settle. rewrite view_idempotency, Hrow. cbn. f_equal.
  unfold ledger_tables_view, set_ml_idempotency. cbn. f_equal.
  by rewrite (fmap_alter_row _ _ _ _ Hrow), completed_entry_row.
Qed.

#[global] Instance sqlite_ledger_store : LedgerStore LedgerTables.
Proof using debug range_text unique_text.
  refine {| lg_append_catalog_change := sqlite_append_catalog_change;
            lg_list_catalog_changes := sqlite_list_catalog_changes;
            lg_upsert_durable_worker := sqlite_upsert_durable_worker;
            lg_remove_durable_worker := sqlite_remove_durable_worker;
            lg_list_durable_workers := sqlite_list_durable_workers;
            lg_upsert_durable_function := sqlite_upsert_durable_function;
            lg_remove_durable_function := sqlite_remove_durable_function;
            lg_list_durable_functions := sqlite_list_durable_functions;
            lg_append_invocation := sqlite_append_invocation;
            lg_reserve := sqlite_reserve_idempotency; lg_complete := sqlite_complete_idempotency;
            lg_view := ledger_tables_view;
            lg_stored := fun r => raw_invocation_record (invocation_row r);
            lg_kept := kept_outcome |}; try done.
  - intros r. rewrite row_record. by destruct (rec_error r).
  - intros o Ho. unfold kept_outcome. by rewrite Ho.
  - apply append_catalog_change_refines.
  - intros s Hs. cbn. by rewrite in_order_sorted.
  - apply append_invocation_refines.
  - apply reserve_refines.
  - apply complete_refines.
Defined.

(** ** Reads *)

Lemma filter_of_map {A B} (f : A -> B) (p : B -> bool) l :
  List.filter p (map f l) = map f (List.filter (fun x => p (f x)) l).
Proof. induction l as [|x l IH]; simpl; [done|]. destruct (p (f x)); simpl; by rewrite IH. Qed.

Lemma in_session_row session row :
  in_session session (raw_invocation_record row) = bool_decide (iw_session_id row = Some session).
Proof.
  unfold in_session. simpl. destruct (iw_session_id row) as [x|]; [|done].
  destruct (String.eqb_spec x session); case_bool_decide; congruence.
Qed.

Lemma invocations_by_session_agree session s :
  sqlite_list_invocations_by_session session s
  = memory_list_invocations_by_session session (ledger_tables_view s).
Proof.
  unfold sqlite_list_invocations_by_session, memory_list_invocations_by_session. cbn.
  rewrite filter_of_map. do 2 f_equal. apply List.filter_ext. intros row. by rewrite in_session_row.
Qed.

(** One [EXISTS] over both ids is a search for each of them. *)
Lemma seen_either {A} (p : A -> bool) (id : A -> string) l a b :
  existsb (fun r => p r && ((id r =s a) || (id r =s b))) l
  = existsb (fun x => x =s a) (map id (List.filter p l))
    || existsb (fun x => x =s b) (map id (List.filter p l)).
Proof.
  induction l as [|r l IH]; simpl; [done|]. rewrite IH. destruct (p r); simpl; [|done].
  destruct (id r =s a), (id r =s b), (existsb _ _); simpl; try done; by rewrite ?orb_true_r.
Qed.

Lemma idempotency_by_session_agree session s :
  sqlite_list_idempotency_by_session session s
  = memory_list_idempotency_by_session session (ledger_tables_view s).
Proof.
  unfold sqlite_list_idempotency_by_session, memory_list_idempotency_by_session. cbv zeta.
  unfold btree_values. cbn [ml_idempotency ledger_tables_view ml_invocations].
  rewrite btree_entries_fmap, map_map.
  erewrite (map_ext (fun x => snd _) (fun kv => raw_idempotency_entry (snd kv)))
    by (intros [k v]; reflexivity).
  rewrite <- (map_map snd raw_idempotency_entry), !filter_of_map. do 3 f_equal.
  apply List.filter_ext. intros [k e]. cbn. rewrite seen_either, map_map.
  erewrite (List.filter_ext (fun x => in_session session (raw_invocation_record x)))
    by (intros row; apply in_session_row).
  by rewrite orb_assoc.
Qed.

Lemma changes_after_agree revision limit s :
  in_revision_order (lt_catalog_changes s) -> revision <= i64_max -> Z.of_nat limit <= i64_max ->
  sqlite_catalog_changes_after revision limit s
  = memory_catalog_changes_after revision limit (ledger_tables_view s).
Proof.
  intros Ho Hr Hl. unfold sqlite_catalog_changes_after, memory_catalog_changes_after, bind_integers.
  cbn [List.find]. rewrite !(proj2 (Z.ltb_ge _ _)) by done.
  by rewrite in_order_sorted by (by apply filter_sorted).
Qed.

(** On every state of the tables, each write of the SQLite ledger either fails and
    changes nothing or gives the answer and the state of the in-memory ledger (errors as
    they are rebuilt from storage, outcomes that have a value or an error); the listings by
    session are those of the in-memory ledger, and so are the catalog changes after a
    revision when the rows are in revision order. *)
Theorem sqlite_ledger_refines_memory s :
  (forall change, refines ledger_tables_view (sqlite_append_catalog_change change s)
     (ledger_tables_view s) (memory_append_catalog_change change)) /\
  (forall record, refines ledger_tables_view (sqlite_append_invocation record s)
     (ledger_tables_view s)
     (memory_append_invocation
        (set_rec_error (to_replay_error <$> (from_engine_error debug <$> rec_error record)) record))) /\
  (forall now r, refines ledger_tables_view (sqlite_reserve_idempotency now r s)
     (ledger_tables_view s) (memory_reserve_idempotency now r)) /\
  (forall now k id o, outcome_present o = true ->
     refines ledger_tables_view (sqlite_complete_idempotency now k id o s)
       (ledger_tables_view s) (memory_complete_idempotency now k id o)) /\
  (forall session, sqlite_list_invocations_by_session session s
     = memory_list_invocations_by_session session (ledger_tables_view s)) /\
  (forall session, sqlite_list_idempotency_by_session session s
     = memory_list_idempotency_by_session session (ledger_tables_view s)) /\
  (forall revision limit, in_revision_order (lt_catalog_changes s) -> revision <= i64_max ->
     Z.of_nat limit <= i64_max ->
     sqlite_catalog_changes_after revision limit s
     = memory_catalog_changes_after revision limit (ledger_tables_view s)).
Proof.
  split_and!; [..|intros now k id o Ho| | |]; intros.
  - apply append_catalog_change_refines.
  - rewrite <- row_record. apply append_invocation_refines.
  - apply reserve_refines.
  - pose proof (complete_refines now k id o s) as Hc. unfold kept_outcome in Hc.
    by rewrite Ho in Hc.
  - apply invocations_by_session_agree.
  - apply idempotency_by_session_agree.
  - by apply changes_after_agree.
Qed.
End store.

(** An outcome with neither a value nor an error is read back as no outcome. *)
Example empty_outcome_is_lost :
  kept_outcome {| so_value := None; so_error := None |} = None.
Proof. reflexivity. Qed.
