(* ===== verification/Catalog.v ===== *)
(** * The live catalog

    [catalog/registry]: the workers, functions, trigger types and triggers the
    engine knows, the revision counter and change log of the catalog, the
    ownership and grant checks of registration, cleanup, discovery, and the
    restart from the ledger.  The catalog is polymorphic in the handlers [H] and
    in the ledger store [S]; an operation is a state transformer that may fail
    half way, as the code's early returns do.  [uuid rev] is the UUID generated
    for the change that produced revision [rev]; the rendering of JSON metadata
    as text is a parameter of the search. *)

From stdpp Require Import base gmap strings list pretty sorting.
From Stdlib Require Import ZArith Ascii String Lia.
From S2P Require Import Prelude Sorting Json Kernel Model Schema Policy Paths Grants Authorization Ledger.

#[local] Open Scope Z_scope.

(** ** State *)

(* SRC engine/catalog/registry/mod.rs:30-31! RESERVED_ENGINE_NAMESPACE *)
Definition RESERVED_ENGINE_NAMESPACE : string := "engine".
Definition RESERVED_ENGINE_WORKER_ID : string := "engine".

(* SRC engine/catalog/registry/mod.rs:33-36 WorkerEntry *)
Record WorkerEntry := { we_definition : WorkerDefinition; we_volatile : bool }.
(* SRC engine/catalog/registry/mod.rs:38-42 FunctionEntry *)
Record FunctionEntry (H : Type) := {
  fe_definition : FunctionDefinition;
  fe_handler : option H;
  fe_volatile : bool
}.
Arguments fe_definition {H} _.
Arguments fe_handler {H} _.
Arguments fe_volatile {H} _.
(* SRC engine/catalog/registry/mod.rs:44-47 TriggerTypeEntry *)
Record TriggerTypeEntry := { tte_definition : TriggerTypeDefinition; tte_volatile : bool }.
(* SRC engine/catalog/registry/mod.rs:49-52 TriggerEntry *)
Record TriggerEntry := { te_definition : TriggerDefinition; te_volatile : bool }.

(* SRC engine/catalog/registry/mod.rs:54-65 LiveCatalog *)
Record LiveCatalog (H S : Type) := {
  lc_revision : Z;
  lc_workers : gmap string WorkerEntry;
  lc_functions : gmap string (FunctionEntry H);
  lc_trigger_types : gmap string TriggerTypeEntry;
  lc_triggers : gmap string TriggerEntry;
  lc_changes : list CatalogChange;
  lc_invocations : list InvocationRecord;
  lc_ledger : S;
  lc_grants : GrantStore
}.
Arguments lc_revision {H S} _.
Arguments lc_workers {H S} _.
Arguments lc_functions {H S} _.
Arguments lc_trigger_types {H S} _.
Arguments lc_triggers {H S} _.
Arguments lc_changes {H S} _.
Arguments lc_invocations {H S} _.
Arguments lc_ledger {H S} _.
Arguments lc_grants {H S} _.

(** Assignments to fields of the definitions. *)
Definition set_wk_revision (x : Z) (d : WorkerDefinition) : WorkerDefinition :=
  {| wk_id := wk_id d; wk_revision := x; wk_kind := wk_kind d; wk_lifecycle := wk_lifecycle d;
     wk_owner_actor := wk_owner_actor d; wk_authority_grant := wk_authority_grant d;
     wk_namespace_claims := wk_namespace_claims d; wk_visibility := wk_visibility d;
     wk_provenance := wk_provenance d |}.
Definition set_wk_lifecycle (x : WorkerLifecycleState) (d : WorkerDefinition) : WorkerDefinition :=
  {| wk_id := wk_id d; wk_revision := wk_revision d; wk_kind := wk_kind d; wk_lifecycle := x;
     wk_owner_actor := wk_owner_actor d; wk_authority_grant := wk_authority_grant d;
     wk_namespace_claims := wk_namespace_claims d; wk_visibility := wk_visibility d;
     wk_provenance := wk_provenance d |}.
Definition set_fn_revision (x : Z) (d : FunctionDefinition) : FunctionDefinition :=
  {| fn_id := fn_id d; fn_revision := x; fn_owner_worker := fn_owner_worker d;
     fn_description := fn_description d; fn_request_schema := fn_request_schema d;
     fn_response_schema := fn_response_schema d; fn_opaque_response := fn_opaque_response d;
     fn_tags := fn_tags d; fn_visibility := fn_visibility d;
     fn_effect_class := fn_effect_class d; fn_risk_level := fn_risk_level d;
     fn_idempotency := fn_idempotency d; fn_resource_lease := fn_resource_lease d;
     fn_compensation := fn_compensation d; fn_output_contract := fn_output_contract d;
     fn_required_authority := fn_required_authority d;
     fn_allowed_delivery_modes := fn_allowed_delivery_modes d; fn_health := fn_health d;
     fn_provenance := fn_provenance d; fn_metadata := fn_metadata d |}.
Definition set_fn_health (x : FunctionHealth) (d : FunctionDefinition) : FunctionDefinition :=
  {| fn_id := fn_id d; fn_revision := fn_revision d; fn_owner_worker := fn_owner_worker d;
     fn_description := fn_description d; fn_request_schema := fn_request_schema d;
     fn_response_schema := fn_response_schema d; fn_opaque_response := fn_opaque_response d;
     fn_tags := fn_tags d; fn_visibility := fn_visibility d;
     fn_effect_class := fn_effect_class d; fn_risk_level := fn_risk_level d;
     fn_idempotency := fn_idempotency d; fn_resource_lease := fn_resource_lease d;
     fn_compensation := fn_compensation d; fn_output_contract := fn_output_contract d;
     fn_required_authority := fn_required_authority d;
     fn_allowed_delivery_modes := fn_allowed_delivery_modes d; fn_health := x;
     fn_provenance := fn_provenance d; fn_metadata := fn_metadata d |}.
Definition set_fn_scope (v : VisibilityScope) (p : Provenance) (d : FunctionDefinition) : FunctionDefinition :=
  {| fn_id := fn_id d; fn_revision := fn_revision d; fn_owner_worker := fn_owner_worker d;
     fn_description := fn_description d; fn_request_schema := fn_request_schema d;
     fn_response_schema := fn_response_schema d; fn_opaque_response := fn_opaque_response d;
     fn_tags := fn_tags d; fn_visibility := v; fn_effect_class := fn_effect_class d;
     fn_risk_level := fn_risk_level d; fn_idempotency := fn_idempotency d;
     fn_resource_lease := fn_resource_lease d; fn_compensation := fn_compensation d;
     fn_output_contract := fn_output_contract d;
     fn_required_authority := fn_required_authority d;
     fn_allowed_delivery_modes := fn_allowed_delivery_modes d; fn_health := fn_health d;
     fn_provenance := p; fn_metadata := fn_metadata d |}.
Definition set_tr_revision (x : Z) (d : TriggerDefinition) : TriggerDefinition :=
  {| tr_id := tr_id d; tr_revision := x; tr_owner_worker := tr_owner_worker d;
     tr_trigger_type := tr_trigger_type d; tr_target_function := tr_target_function d;
     tr_config := tr_config d; tr_delivery_mode := tr_delivery_mode d;
     tr_authority_grant := tr_authority_grant d;
     tr_idempotency_key_strategy := tr_idempotency_key_strategy d;
     tr_max_depth := tr_max_depth d; tr_visibility := tr_visibility d;
     tr_provenance := tr_provenance d |}.
Definition set_prov_scope (session workspace : option string) (p : Provenance) : Provenance :=
  {| prov_created_by := prov_created_by p; prov_source := prov_source p;
     prov_session_id := session; prov_workspace_id := workspace |}.

Section catalog.
  Context {H S : Type} `{!LedgerStore S}.
  Notation catalog := (LiveCatalog H S).

(* SRC engine/catalog/registry/mod.rs:74-90 LiveCatalog::with_ledger_store *)
Definition with_ledger_store (ledger : S) (grants : GrantStore) : catalog :=
  {| lc_revision := 0; lc_workers := ∅; lc_functions := ∅; lc_trigger_types := ∅;
     lc_triggers := ∅; lc_changes := []; lc_invocations := []; lc_ledger := ledger;
     lc_grants := grants |}.

(** Assignments to the fields of the catalog. *)
Definition set_lc_revision (x : Z) (c : catalog) : catalog :=
  {| lc_revision := x; lc_workers := lc_workers c; lc_functions := lc_functions c;
     lc_trigger_types := lc_trigger_types c; lc_triggers := lc_triggers c;
     lc_changes := lc_changes c; lc_invocations := lc_invocations c; lc_ledger := lc_ledger c;
     lc_grants := lc_grants c |}.
Definition set_lc_workers (x : gmap string WorkerEntry) (c : catalog) : catalog :=
  {| lc_revision := lc_revision c; lc_workers := x; lc_functions := lc_functions c;
     lc_trigger_types := lc_trigger_types c; lc_triggers := lc_triggers c;
     lc_changes := lc_changes c; lc_invocations := lc_invocations c; lc_ledger := lc_ledger c;
     lc_grants := lc_grants c |}.
Definition set_lc_functions (x : gmap string (FunctionEntry H)) (c : catalog) : catalog :=
  {| lc_revision := lc_revision c; lc_workers := lc_workers c; lc_functions := x;
     lc_trigger_types := lc_trigger_types c; lc_triggers := lc_triggers c;
     lc_changes := lc_changes c; lc_invocations := lc_invocations c; lc_ledger := lc_ledger c;
     lc_grants := lc_grants c |}.
Definition set_lc_trigger_types (x : gmap string TriggerTypeEntry) (c : catalog) : catalog :=
  {| lc_revision := lc_revision c; lc_workers := lc_workers c; lc_functions := lc_functions c;
     lc_trigger_types := x; lc_triggers := lc_triggers c; lc_changes := lc_changes c;
     lc_invocations := lc_invocations c; lc_ledger := lc_ledger c; lc_grants := lc_grants c |}.
Definition set_lc_triggers (x : gmap string TriggerEntry) (c : catalog) : catalog :=
  {| lc_revision := lc_revision c; lc_workers := lc_workers c; lc_functions := lc_functions c;
     lc_trigger_types := lc_trigger_types c; lc_triggers := x; lc_changes := lc_changes c;
     lc_invocations := lc_invocations c; lc_ledger := lc_ledger c; lc_grants := lc_grants c |}.
Definition set_lc_changes (x : list CatalogChange) (c : catalog) : catalog :=
  {| lc_revision := lc_revision c; lc_workers := lc_workers c; lc_functions := lc_functions c;
     lc_trigger_types := lc_trigger_types c; lc_triggers := lc_triggers c; lc_changes := x;
     lc_invocations := lc_invocations c; lc_ledger := lc_ledger c; lc_grants := lc_grants c |}.
Definition set_lc_invocations (x : list InvocationRecord) (c : catalog) : catalog :=
  {| lc_revision := lc_revision c; lc_workers := lc_workers c; lc_functions := lc_functions c;
     lc_trigger_types := lc_trigger_types c; lc_triggers := lc_triggers c;
     lc_changes := lc_changes c; lc_invocations := x; lc_ledger := lc_ledger c;
     lc_grants := lc_grants c |}.
Definition set_lc_ledger (x : S) (c : catalog) : catalog :=
  {| lc_revision := lc_revision c; lc_workers := lc_workers c; lc_functions := lc_functions c;
     lc_trigger_types := lc_trigger_types c; lc_triggers := lc_triggers c;
     lc_changes := lc_changes c; lc_invocations := lc_invocations c; lc_ledger := x;
     lc_grants := lc_grants c |}.
Definition set_lc_grants (x : GrantStore) (c : catalog) : catalog :=
  {| lc_revision := lc_revision c; lc_workers := lc_workers c; lc_functions := lc_functions c;
     lc_trigger_types := lc_trigger_types c; lc_triggers := lc_triggers c;
     lc_changes := lc_changes c; lc_invocations := lc_invocations c; lc_ledger := lc_ledger c;
     lc_grants := x |}.

(** ** Operations that may fail half way *)

Definition M (A : Type) : Type := catalog -> Result A * catalog.
Definition ret {A} (a : A) : M A := fun c => (Ok a, c).
Definition bind {A B} (m : M A) (k : A -> M B) : M B :=
  fun c => match m c with (Ok a, c') => k a c' | (Err e, c') => (Err e, c') end.
(** A check that reads the catalog. *)
Definition reads {A} (f : catalog -> Result A) : M A := fun c => (f c, c).
Definition modify (f : catalog -> catalog) : M unit := fun c => (Ok tt, f c).
Definition on_ledger {A} (f : S -> Result A * S) : M A :=
  fun c => let '(r, l) := f (lc_ledger c) in (r, set_lc_ledger l c).

#[local] Notation "'let!' x ':=' m 'in' k" := (bind m (fun x => k))
  (at level 200, x pattern, m at level 200, k at level 200, right associativity).
#[local] Notation "m ;; k" := (bind m (fun _ => k)) (at level 100, k at level 200, right associativity).

Fixpoint for_each {A} (f : A -> M unit) (xs : list A) : M unit :=
  match xs with [] => ret tt | x :: xs' => f x ;; for_each f xs' end.

(** ** Change log *)

(* SRC engine/catalog/registry/catalog_changes.rs:13-21 CatalogChangeSubject *)
Record CatalogChangeSubject := {
  cs_id : string;
  cs_kind : CatalogSubjectKind;
  cs_visibility : VisibilityScope;
  cs_session_id : option string;
  cs_workspace_id : option string;
  cs_owner_worker : option WorkerId
}.

(* SRC engine/catalog/registry/catalog_changes.rs:94-109 provenance_subject *)
Definition provenance_subject (id : string) (kind : CatalogSubjectKind)
    (visibility : VisibilityScope) (p : Provenance) (owner : option WorkerId)
  : CatalogChangeSubject :=
  {| cs_id := id; cs_kind := kind; cs_visibility := visibility;
     cs_session_id := prov_session_id p; cs_workspace_id := prov_workspace_id p;
     cs_owner_worker := owner |}.

(* SRC engine/catalog/registry/catalog_changes.rs:52-60 worker_change_subject *)
Definition worker_change_subject (d : WorkerDefinition) : CatalogChangeSubject :=
  provenance_subject (wk_id d) Subject_Worker (wk_visibility d) (wk_provenance d) None.
(* SRC engine/catalog/registry/catalog_changes.rs:62-70 function_change_subject *)
Definition function_change_subject (d : FunctionDefinition) : CatalogChangeSubject :=
  provenance_subject (fn_id d) Subject_Function (fn_visibility d) (fn_provenance d)
    (Some (fn_owner_worker d)).
(* SRC engine/catalog/registry/catalog_changes.rs:72-82 trigger_type_change_subject *)
Definition trigger_type_change_subject (d : TriggerTypeDefinition) : CatalogChangeSubject :=
  provenance_subject (tt_id d) Subject_TriggerType (tt_visibility d) (tt_provenance d)
    (Some (tt_owner_worker d)).
(* SRC engine/catalog/registry/catalog_changes.rs:84-92 trigger_change_subject *)
Definition trigger_change_subject (d : TriggerDefinition) : CatalogChangeSubject :=
  provenance_subject (tr_id d) Subject_Trigger (tr_visibility d) (tr_provenance d)
    (Some (tr_owner_worker d)).

(* SRC engine/catalog/registry/catalog_changes.rs:111-128 catalog_change_class *)
Definition catalog_change_class (kind : CatalogChangeKind) : CatalogChangeClass :=
  match kind with
  | WorkerRegistered | WorkerUpdated | WorkerUnregistered
  | FunctionRegistered | FunctionUnregistered => Class_Availability
  | FunctionUpdated => Class_Contract
  | TriggerTypeRegistered | TriggerTypeUpdated | TriggerTypeUnregistered
  | TriggerRegistered | TriggerUpdated | TriggerUnregistered => Class_Trigger
  | VisibilityChanged => Class_Visibility
  | HealthChanged => Class_Health
  end.

  Variable uuid : Z -> string.

(* SRC engine/catalog/registry/catalog_changes.rs:29-44! LiveCatalog::record_change *)
Definition catalog_change (now : instant) (kind : CatalogChangeKind)
    (subject : CatalogChangeSubject) (before : Z) : CatalogChange :=
  let after := revision_next before in
  {| chg_id := "catalog_change_" +s pretty after +s "_" +s uuid after; chg_before := before;
     chg_after := after; chg_kind := kind; chg_subject_id := cs_id subject;
     chg_subject_kind := cs_kind subject; chg_class := catalog_change_class kind;
     chg_visibility := cs_visibility subject; chg_session_id := cs_session_id subject;
     chg_workspace_id := cs_workspace_id subject; chg_owner_worker := cs_owner_worker subject;
     chg_timestamp := now |}.

(* SRC engine/catalog/registry/catalog_changes.rs:24-49 LiveCatalog::record_change *)
Definition record_change (now : instant) (kind : CatalogChangeKind)
    (subject : CatalogChangeSubject) : M unit := fun c =>
  let change := catalog_change now kind subject (lc_revision c) in
  (on_ledger (lg_append_catalog_change change) ;;
   modify (fun c =>
     set_lc_changes (lc_changes c ++ [change]) (set_lc_revision (chg_after change) c))) c.

(** ** Grant checks of registration *)

(* SRC engine/catalog/registry/output_contract.rs:52-64 output_contract_resource_kinds *)
Fixpoint output_contract_resource_kinds (c : DurableOutputContract) : list string :=
  match c with
  | Output_None => []
  | Output_ResourceBacked kinds _ => kinds
  | Output_Conditional _ inner => output_contract_resource_kinds inner
  end.

(* SRC engine/catalog/registry/authorization.rs:13-49 LiveCatalog::validate_worker_grant *)
Definition validate_worker_grant (now : instant) (d : WorkerDefinition) (c : catalog)
  : Result unit :=
  let prefix := "worker " +s wk_id d +s " authority grant " +s wk_authority_grant d in
  let? found := grant_inspect (wk_authority_grant d) (lc_grants c) in
  match found with
  | None => policy_error (prefix +s " not found")
  | Some grant =>
      if bool_decide (gr_lifecycle grant <> Grant_Active)
      then policy_error (prefix +s " is not active")
      else if match gr_expires_at grant with Some t => t <=? now | None => false end
      then policy_error (prefix +s " is expired")
      else try_each (fun namespace =>
             if negb (allows_item (gr_allowed_namespaces grant) namespace)
             then policy_error ("worker " +s wk_id d +s " namespace " +s namespace
                                +s " exceeds authority grant " +s wk_authority_grant d)
             else Ok tt) (wk_namespace_claims d)
  end.

(* SRC engine/catalog/registry/authorization.rs:51-103 LiveCatalog::validate_function_worker_grant *)
Definition validate_function_worker_grant (d : FunctionDefinition) (owner : WorkerDefinition)
    (c : catalog) : Result unit :=
  let g := wk_authority_grant owner in
  let? found := grant_inspect g (lc_grants c) in
  match found with
  | None => policy_error ("function " +s fn_id d +s " worker grant " +s g +s " not found")
  | Some grant =>
      if bool_decide (gr_lifecycle grant <> Grant_Active)
      then policy_error ("function " +s fn_id d +s " worker grant " +s g +s " is not active")
      else if risk_gtb (fn_risk_level d) (gr_max_risk grant)
      then policy_error ("function " +s fn_id d +s " risk " +s risk_debug (fn_risk_level d)
                         +s " exceeds worker grant " +s g +s " max risk "
                         +s risk_debug (gr_max_risk grant))
      else if negb (allows_item (gr_allowed_capabilities grant) (fn_id d))
              && negb (allows_item (gr_allowed_namespaces grant) (function_namespace (fn_id d)))
      then policy_error ("function " +s fn_id d +s " exceeds worker grant " +s g +s " capabilities")
      else
      let? _ :=
        try_each (fun scope =>
          if negb (allows_item (gr_allowed_authority_scopes grant) scope)
          then policy_error ("function " +s fn_id d +s " required authority " +s scope
                             +s " exceeds worker grant " +s g)
          else Ok tt) (ar_scopes (fn_required_authority d)) in
      try_each (fun kind =>
        if negb (kind =s "*") && negb (allows_item (gr_allowed_resource_kinds grant) kind)
        then policy_error ("function " +s fn_id d +s " output resource kind " +s kind
                           +s " exceeds worker grant " +s g)
        else Ok tt) (output_contract_resource_kinds (fn_output_contract d))
  end.

(* SRC engine/catalog/registry/registration.rs:501-517 validate_worker_namespace_claims *)
Definition validate_worker_namespace_claims (d : WorkerDefinition) : Result unit :=
  if negb (list_has (wk_namespace_claims d) RESERVED_ENGINE_NAMESPACE) then Ok tt
  else if (wk_id d =s RESERVED_ENGINE_WORKER_ID) && bool_decide (wk_kind d = Worker_System)
  then Ok tt
  else policy_error "reserved engine namespace can only be claimed by the system engine worker".

(* SRC engine/catalog/registry/registration.rs:519-529 validate_reserved_function_namespace *)
Definition validate_reserved_function_namespace (d : FunctionDefinition) : Result unit :=
  if negb (function_namespace (fn_id d) =s RESERVED_ENGINE_NAMESPACE) then Ok tt
  else if fn_owner_worker d =s RESERVED_ENGINE_WORKER_ID then Ok tt
  else policy_error "reserved engine namespace can only be registered by the system engine worker".


(** ** Cleanup *)

(** The ids of a map's entries that pass a test, in key order. *)
Definition ids_where {A} (test : A -> bool) (m : gmap string A) : list string :=
  map fst (List.filter (fun '(_, e) => test e) (btree_entries m)).

(* SRC engine/catalog/registry/cleanup.rs:19-25! LiveCatalog::cleanup_owned_volatile *)
Definition remove_function_entry (now : instant) (id : FunctionId) : M unit := fun c =>
  match lc_functions c !! id with
  | Some entry =>
      (record_change now FunctionUnregistered (function_change_subject (fe_definition entry)) ;;
       modify (fun c => set_lc_functions (delete id (lc_functions c)) c)) c
  | None => (Ok tt, c)
  end.
(* SRC engine/catalog/registry/cleanup.rs:33-39! LiveCatalog::cleanup_owned_volatile *)
Definition remove_trigger_entry (now : instant) (id : TriggerId) : M unit := fun c =>
  match lc_triggers c !! id with
  | Some entry =>
      (record_change now TriggerUnregistered (trigger_change_subject (te_definition entry)) ;;
       modify (fun c => set_lc_triggers (delete id (lc_triggers c)) c)) c
  | None => (Ok tt, c)
  end.
(* SRC engine/catalog/registry/cleanup.rs:47-53! LiveCatalog::cleanup_owned_volatile *)
Definition remove_trigger_type_entry (now : instant) (id : TriggerTypeId) : M unit := fun c =>
  match lc_trigger_types c !! id with
  | Some entry =>
      (record_change now TriggerTypeUnregistered
             (trigger_type_change_subject (tte_definition entry)) ;;
       modify (fun c => set_lc_trigger_types (delete id (lc_trigger_types c)) c)) c
  | None => (Ok tt, c)
  end.

(* SRC engine/catalog/registry/cleanup.rs:13-56 LiveCatalog::cleanup_owned_volatile *)
Definition cleanup_owned_volatile (now : instant) (worker_id : WorkerId) : M unit :=
  let! function_ids := reads (fun c => Ok (ids_where (fun e : FunctionEntry H =>
      fe_volatile e && (fn_owner_worker (fe_definition e) =s worker_id)) (lc_functions c))) in
  for_each (remove_function_entry now) function_ids ;;
  let! trigger_ids := reads (fun c => Ok (ids_where (fun e =>
      te_volatile e && (tr_owner_worker (te_definition e) =s worker_id)) (lc_triggers c))) in
  for_each (remove_trigger_entry now) trigger_ids ;;
  let! trigger_type_ids := reads (fun c => Ok (ids_where (fun e =>
      tte_volatile e && (tt_owner_worker (tte_definition e) =s worker_id)) (lc_trigger_types c))) in
  for_each (remove_trigger_type_entry now) trigger_type_ids.

(* SRC engine/catalog/registry/cleanup.rs:58-73 LiveCatalog::cleanup_triggers_targeting *)
Definition cleanup_triggers_targeting (now : instant) (function_id : FunctionId) : M unit :=
  let! trigger_ids := reads (fun c => Ok (ids_where (fun e =>
      tr_target_function (te_definition e) =s function_id) (lc_triggers c))) in
  for_each (remove_trigger_entry now) trigger_ids.

(** ** Workers *)

(* SRC engine/catalog/registry/registration.rs:70-111 LiveCatalog::register_worker *)
Definition register_worker (now : instant) (definition : WorkerDefinition) (volatile : bool)
  : M Z :=
  reads (fun _ => validate_worker_namespace_claims definition) ;;
  reads (validate_worker_grant now definition) ;;
  let! (kind, revision) := reads (fun c =>
    match lc_workers c !! wk_id definition with
    | Some existing =>
        if negb (wk_owner_actor (we_definition existing) =s wk_owner_actor definition)
        then Err (OwnerMismatch "worker" (wk_id definition)
                    (wk_owner_actor (we_definition existing)) (wk_owner_actor definition))
        else Ok (WorkerUpdated, revision_next (wk_revision (we_definition existing)))
    | None => Ok (WorkerRegistered, 1)
    end) in
  let definition := set_wk_revision revision definition in
  record_change now kind (worker_change_subject definition) ;;
  (if negb volatile && bool_decide (wk_kind definition = Worker_External)
       then on_ledger (lg_upsert_durable_worker definition)
       else on_ledger (lg_remove_durable_worker (wk_id definition))) ;;
  modify (fun c =>
    set_lc_workers (<[wk_id definition := {| we_definition := definition; we_volatile := volatile |}]>
                      (lc_workers c)) c) ;;
  ret revision.

(* SRC engine/catalog/registry/registration.rs:113-117 LiveCatalog::worker *)
Definition worker (id : WorkerId) (c : catalog) : option WorkerDefinition :=
  we_definition <$> lc_workers c !! id.
(* SRC engine/catalog/registry/registration.rs:119-127 LiveCatalog::inspect_worker *)
Definition inspect_worker (id : WorkerId) (c : catalog) : Result WorkerDefinition :=
  ok_or (worker id c) (NotFound "worker" id).
(* SRC engine/catalog/registry/registration.rs:129-133 LiveCatalog::worker_is_volatile *)
Definition worker_is_volatile (id : WorkerId) (c : catalog) : option bool :=
  we_volatile <$> lc_workers c !! id.
(* SRC engine/catalog/registry/registration.rs:135-142 LiveCatalog::workers *)
Definition workers (c : catalog) : list WorkerDefinition :=
  map we_definition (btree_values (lc_workers c)).

(* SRC engine/catalog/registry/registration.rs:144-166 LiveCatalog::unregister_worker *)
Definition unregister_worker (now : instant) (id : WorkerId) (owner_actor : string) : M unit :=
  let! definition := reads (fun c =>
    match lc_workers c !! id with
    | None => Err (NotFound "worker" id)
    | Some entry =>
        if negb (wk_owner_actor (we_definition entry) =s owner_actor)
        then Err (OwnerMismatch "worker" id (wk_owner_actor (we_definition entry)) owner_actor)
        else Ok (we_definition entry)
    end) in
  cleanup_owned_volatile now id ;;
  record_change now WorkerUnregistered (worker_change_subject definition) ;;
  on_ledger (lg_remove_durable_worker id) ;;
  modify (fun c => set_lc_workers (delete id (lc_workers c)) c).

(** ** Functions *)

  Variable debug : string -> string.

(* SRC engine/catalog/registry/registration.rs:168-231 LiveCatalog::register_function *)
Definition register_function (now : instant) (definition : FunctionDefinition)
    (handler : option H) (volatile : bool) : M Z :=
  reads (fun _ => validate_reserved_function_namespace definition) ;;
  let! owner := reads (fun c =>
    ok_or (worker (fn_owner_worker definition) c) (NotFound "worker" (fn_owner_worker definition))) in
  let persist_durable_external := negb volatile && bool_decide (wk_kind owner = Worker_External) in
  reads (fun _ =>
    if negb (list_has (wk_namespace_claims owner) (function_namespace (fn_id definition)))
    then Err (NamespaceDenied (fn_owner_worker definition) (fn_id definition)) else Ok tt) ;;
  reads (validate_function_worker_grant definition owner) ;;
  reads (fun _ => validate_function_registration debug definition) ;;
  let! (kind, revision) := reads (fun c =>
    match lc_functions c !! fn_id definition with
    | Some existing =>
        if negb (fn_owner_worker (fe_definition existing) =s fn_owner_worker definition)
        then Err (OwnerMismatch "function" (fn_id definition)
                    (fn_owner_worker (fe_definition existing)) (fn_owner_worker definition))
        else Ok (FunctionUpdated, revision_next (fn_revision (fe_definition existing)))
    | None => Ok (FunctionRegistered, 1)
    end) in
  let definition := set_fn_revision revision definition in
  record_change now kind (function_change_subject definition) ;;
  (if persist_durable_external
       then on_ledger (lg_upsert_durable_function definition)
       else on_ledger (lg_remove_durable_function (fn_id definition))) ;;
  modify (fun c =>
    set_lc_functions
      (<[fn_id definition := {| fe_definition := definition; fe_handler := handler;
                                fe_volatile := volatile |}]> (lc_functions c)) c) ;;
  ret revision.

(* SRC engine/catalog/registry/registration.rs:233-237 LiveCatalog::function *)
Definition function (id : FunctionId) (c : catalog) : option FunctionDefinition :=
  fe_definition <$> lc_functions c !! id.

(* SRC engine/catalog/registry/registration.rs:239-255 LiveCatalog::inspect_function *)
Definition inspect_function (id : FunctionId) (actor : option ActorContext) (c : catalog)
  : Result FunctionDefinition :=
  let? f := ok_or (function id c) (NotFound "function" id) in
  if negb (is_visible_to_actor f actor)
  then policy_error ("function " +s id +s " is not visible") else Ok f.

Definition owned_function (id : FunctionId) (owner : WorkerId) (c : catalog)
  : Result (FunctionEntry H) :=
  match lc_functions c !! id with
  | None => Err (NotFound "function" id)
  | Some entry =>
      if negb (fn_owner_worker (fe_definition entry) =s owner)
      then Err (OwnerMismatch "function" id (fn_owner_worker (fe_definition entry)) owner)
      else Ok entry
  end.

(* SRC engine/catalog/registry/registration.rs:257-279 LiveCatalog::unregister_function *)
Definition unregister_function (now : instant) (id : FunctionId) (owner : WorkerId) : M unit :=
  let! entry := reads (owned_function id owner) in
  cleanup_triggers_targeting now id ;;
  record_change now FunctionUnregistered (function_change_subject (fe_definition entry)) ;;
  on_ledger (lg_remove_durable_function id) ;;
  modify (fun c => set_lc_functions (delete id (lc_functions c)) c).

(* SRC engine/catalog/registry/registration.rs:304-331! LiveCatalog::promote_function_visibility *)
Definition promoted_definition (id : FunctionId) (target : VisibilityScope)
    (workspace_id : option string) (d : FunctionDefinition) : Result FunctionDefinition :=
  match target, workspace_id with
  | Vis_Workspace, Some w =>
      Ok (set_fn_scope Vis_Workspace (set_prov_scope None (Some w) (fn_provenance d)) d)
  | Vis_System, _ => Ok (set_fn_scope Vis_System (set_prov_scope None None (fn_provenance d)) d)
  | Vis_Workspace, None =>
      Err (InvalidVisibilityPromotion id (visibility_as_str target)
             "workspace promotion requires a workspace id")
  | _, _ =>
      Err (InvalidVisibilityPromotion id (visibility_as_str target)
             "only workspace and system promotion are supported")
  end.

(* SRC engine/catalog/registry/registration.rs:281-341 LiveCatalog::promote_function_visibility *)
Definition promote_function_visibility (now : instant) (id : FunctionId) (owner : WorkerId)
    (target : VisibilityScope) (workspace_id : option string) : M Z :=
  let! entry := reads (owned_function id owner) in
  let! updated := reads (fun _ => promoted_definition id target workspace_id (fe_definition entry)) in
  let updated := set_fn_revision (revision_next (fn_revision updated)) updated in
  record_change now VisibilityChanged (function_change_subject updated) ;;
  modify (fun c =>
    set_lc_functions
      (alter (fun e => {| fe_definition := updated; fe_handler := fe_handler e;
                          fe_volatile := fe_volatile e |}) id (lc_functions c)) c) ;;
  ret (fn_revision updated).

(** ** Trigger types and triggers *)

(* SRC engine/catalog/registry/registration.rs:343-379 LiveCatalog::register_trigger_type *)
Definition register_trigger_type (now : instant) (definition : TriggerTypeDefinition)
    (volatile : bool) : M unit :=
  let! kind := reads (fun c =>
    if negb (is_some (worker (tt_owner_worker definition) c))
    then Err (NotFound "worker" (tt_owner_worker definition))
    else match lc_trigger_types c !! tt_id definition with
         | Some existing =>
             if negb (tt_owner_worker (tte_definition existing) =s tt_owner_worker definition)
             then Err (OwnerMismatch "trigger_type" (tt_id definition)
                         (tt_owner_worker (tte_definition existing)) (tt_owner_worker definition))
             else Ok TriggerTypeUpdated
         | None => Ok TriggerTypeRegistered
         end) in
  record_change now kind (trigger_type_change_subject definition) ;;
  modify (fun c =>
    set_lc_trigger_types
      (<[tt_id definition := {| tte_definition := definition; tte_volatile := volatile |}]>
         (lc_trigger_types c)) c).

(* SRC engine/catalog/registry/registration.rs:381-390 LiveCatalog::inspect_trigger_type *)
Definition inspect_trigger_type (id : TriggerTypeId) (c : catalog) : Result TriggerTypeDefinition :=
  ok_or (tte_definition <$> lc_trigger_types c !! id) (NotFound "trigger_type" id).
(* SRC engine/catalog/registry/registration.rs:392-399 LiveCatalog::trigger_types *)
Definition trigger_types (c : catalog) : list TriggerTypeDefinition :=
  map tte_definition (btree_values (lc_trigger_types c)).

(* SRC engine/catalog/registry/registration.rs:401-459 LiveCatalog::register_trigger *)
Definition register_trigger (now : instant) (definition : TriggerDefinition) (volatile : bool)
  : M Z :=
  let! (kind, revision) := reads (fun c =>
    if negb (is_some (worker (tr_owner_worker definition) c))
    then Err (NotFound "worker" (tr_owner_worker definition))
    else
    let? trigger_type := ok_or (lc_trigger_types c !! tr_trigger_type definition)
                           (NotFound "trigger_type" (tr_trigger_type definition)) in
    let? f := ok_or (lc_functions c !! tr_target_function definition)
                (NotFound "function" (tr_target_function definition)) in
    let? _ := validate_trigger_registration definition (tte_definition trigger_type)
                (fe_definition f) in
    match lc_triggers c !! tr_id definition with
    | Some existing =>
        if negb (tr_owner_worker (te_definition existing) =s tr_owner_worker definition)
        then Err (OwnerMismatch "trigger" (tr_id definition)
                    (tr_owner_worker (te_definition existing)) (tr_owner_worker definition))
        else Ok (TriggerUpdated, revision_next (tr_revision (te_definition existing)))
    | None => Ok (TriggerRegistered, 1)
    end) in
  let definition := set_tr_revision revision definition in
  record_change now kind (trigger_change_subject definition) ;;
  modify (fun c =>
    set_lc_triggers
      (<[tr_id definition := {| te_definition := definition; te_volatile := volatile |}]>
         (lc_triggers c)) c) ;;
  ret revision.

(* SRC engine/catalog/registry/registration.rs:461-470 LiveCatalog::inspect_trigger *)
Definition inspect_trigger (id : TriggerId) (c : catalog) : Result TriggerDefinition :=
  ok_or (te_definition <$> lc_triggers c !! id) (NotFound "trigger" id).
(* SRC engine/catalog/registry/registration.rs:491-498 LiveCatalog::triggers *)
Definition triggers (c : catalog) : list TriggerDefinition :=
  map te_definition (btree_values (lc_triggers c)).

(* SRC engine/catalog/registry/registration.rs:472-489 LiveCatalog::unregister_trigger *)
Definition unregister_trigger (now : instant) (id : TriggerId) (owner_worker : WorkerId)
  : M bool := fun c =>
  match lc_triggers c !! id with
  | None => (Ok false, c)
  | Some entry =>
      if negb (tr_owner_worker (te_definition entry) =s owner_worker)
      then (Err (OwnerMismatch "trigger" id (tr_owner_worker (te_definition entry)) owner_worker), c)
      else
      (record_change now TriggerUnregistered (trigger_change_subject (te_definition entry)) ;;
       modify (fun c => set_lc_triggers (delete id (lc_triggers c)) c) ;;
       ret true) c
  end.

(** ** Restart *)

(* SRC engine/catalog/registry/registration.rs:26-69! LiveCatalog::hydrate_durable_catalog_from_ledger *)
Definition hydrate_durable_catalog_from_ledger : M unit :=
  let! changes := reads (fun c => lg_list_catalog_changes (lc_ledger c)) in
  modify (fun c =>
    set_lc_changes changes
      (set_lc_revision (fold_left (fun m x => Z.max m (chg_after x)) changes 0) c)) ;;
  let! durable_workers := reads (fun c => lg_list_durable_workers (lc_ledger c)) in
  modify (fun c =>
    set_lc_workers
      (fold_left (fun m w =>
         let w := if bool_decide (wk_kind w = Worker_External)
                  then set_wk_lifecycle Lifecycle_Stopped w else w in
         <[wk_id w := {| we_definition := w; we_volatile := false |}]> m)
         durable_workers (lc_workers c)) c) ;;
  let! durable_functions := reads (fun c => lg_list_durable_functions (lc_ledger c)) in
  modify (fun c =>
    set_lc_functions
      (fold_left (fun m f =>
         if is_some (lc_workers c !! fn_owner_worker f)
         then <[fn_id f := {| fe_definition := set_fn_health Health_Unhealthy f;
                              fe_handler := None; fe_volatile := false |}]> m
         else m) durable_functions (lc_functions c)) c).

(** ** Discovery *)

  Variable json_text : Value -> string.

(** One space per character that is not alphanumeric: UTF-8 continuation bytes
    belong to the character before them. *)
(* SRC engine/catalog/registry/search.rs:90-100 normalize_search_text *)
Fixpoint normalize_search_text (s : string) : string :=
  match s with
  | EmptyString => EmptyString
  | String a s' =>
      if is_ascii_alphanumeric a then String (to_ascii_lowercase a) (normalize_search_text s')
      else if (128 <=? code a) && (code a <=? 191) then normalize_search_text s'
      else String " " (normalize_search_text s')
  end.

(** [split_whitespace] of a text whose only white space is the space. *)
(* SRC engine/catalog/registry/search.rs:68-73 search_tokens *)
Definition search_tokens (text : string) : list string :=
  List.filter (fun t => negb (t =s "")) (split_char " " (normalize_search_text text)).

(* SRC engine/catalog/registry/search.rs:75-88 function_search_haystack *)
Definition function_search_haystack (f : FunctionDefinition) : string :=
  let parts := [fn_id f; normalize_search_text (fn_id f); fn_description f] ++ fn_tags f
    ++ (if is_null (fn_metadata f) then [] else [json_text (fn_metadata f)]) in
  normalize_search_text (join " " parts).

(* SRC engine/catalog/registry/search.rs:15-59! LiveCatalog::discover_functions *)
Definition discoverable (query : FunctionQuery) (f : FunctionDefinition) : bool :=
  let can_include_internal :=
    match fq_actor query with Some actor => is_admin_like (ac_actor_kind actor) | None => false end in
  let is_field {A} (o : option A) (test : A -> bool) :=
    match o with Some x => test x | None => true end in
  ((fq_include_internal query && can_include_internal) || is_visible_to_actor f (fq_actor query))
  && is_field (fq_visibility query) (fun v => bool_decide (fn_visibility f = v))
  && is_field (fq_namespace_prefix query) (fun p => starts_with (fn_id f) p)
  && is_field (fq_effect_class query) (fun e => bool_decide (fn_effect_class f = e))
  && is_field (fq_max_risk query) (fun r => negb (risk_gtb (fn_risk_level f) r))
  && is_field (fq_health query) (fun h => bool_decide (fn_health f = h))
  && is_field (fq_text query) (fun text =>
       forallb (fun token => contains (function_search_haystack f) token) (search_tokens text)).

(* SRC engine/catalog/registry/search.rs:10-65 LiveCatalog::discover_functions *)
Definition discover_functions (query : FunctionQuery) (c : catalog) : list FunctionDefinition :=
  map fe_definition (List.filter (fun e => discoverable query (fe_definition e))
                       (btree_values (lc_functions c))).
End catalog.

(** ** Reasoning about operations

    [wp m Q c]: running [m] on [c], failing or not, ends in a result and a
    catalog that satisfy [Q]. *)

Section wp.
  Context {H S : Type} `{!LedgerStore S}.
  Notation catalog := (LiveCatalog H S).

Definition wp {A} (m : M A) (Q : Result A -> catalog -> Prop) (c : catalog) : Prop :=
  Q (fst (m c)) (snd (m c)).

Lemma wp_bind {A B} (m : M A) (k : A -> M B) Q c :
  wp m (fun r c' => match r with Ok a => wp (k a) Q c' | Err e => Q (Err e) c' end) c ->
  wp (bind m k) Q c.
Proof. unfold wp, bind. by destruct (m c) as [[a|e] c']. Qed.
Lemma wp_ret {A} (a : A) (Q : Result A -> catalog -> Prop) c : Q (Ok a) c -> wp (ret a) Q c.
Proof. done. Qed.
Lemma wp_reads {A} (f : catalog -> Result A) (Q : Result A -> catalog -> Prop) c :
  (forall e, f c = Err e -> Q (Err e) c) -> (forall a, f c = Ok a -> Q (Ok a) c) ->
  wp (reads f) Q c.
Proof. unfold wp, reads. simpl. destruct (f c); auto. Qed.
Lemma wp_modify (f : catalog -> catalog) (Q : Result unit -> catalog -> Prop) c :
  Q (Ok tt) (f c) -> wp (modify f) Q c.
Proof. done. Qed.
Lemma wp_ledger {A} (f : S -> Result A * S) (Q : Result A -> catalog -> Prop) c :
  (forall r l, f (lc_ledger c) = (r, l) -> Q r (set_lc_ledger l c)) -> wp (on_ledger f) Q c.
Proof. unfold wp, on_ledger. destruct (f (lc_ledger c)) as [r l]; simpl; auto. Qed.
Lemma wp_for_each {A} (f : A -> M unit) xs (I : catalog -> Prop) Q c :
  (forall x c, I c -> wp (f x) (fun _ => I) c) -> I c -> (forall r c', I c' -> Q r c') ->
  wp (for_each f xs) Q c.
Proof.
  intros Hf Hc HQ. revert c Hc. induction xs as [|x xs IH]; intros c Hc; simpl.
  - apply wp_ret. auto.
  - apply wp_bind. pose proof (Hf x c Hc) as Hx. unfold wp in *.
    destruct (f x c) as [[a|e] c']; simpl in *; auto.
Qed.

(** A change that is appended to the ledger's log and to the catalog's. *)
Definition with_change (change : CatalogChange) (l : S) (c : catalog) : catalog :=
  set_lc_changes (lc_changes c ++ [change])
    (set_lc_revision (revision_next (lc_revision c)) (set_lc_ledger l c)).

Lemma wp_record uuid now kind subject (Q : Result unit -> catalog -> Prop) c :
  (forall e l, lg_view l = lg_view (lc_ledger c) -> Q (Err e) (set_lc_ledger l c)) ->
  (forall change l, chg_before change = lc_revision c ->
    chg_after change = revision_next (lc_revision c) ->
    memory_append_catalog_change change (lg_view (lc_ledger c)) = (Ok tt, lg_view l) ->
    Q (Ok tt) (with_change change l c)) ->
  wp (record_change uuid now kind subject) Q c.
Proof.
  intros He Ho. unfold record_change. apply wp_bind, wp_ledger. intros r l Hl.
  pose proof (lg_append_catalog_change_ok (catalog_change uuid now kind subject (lc_revision c))
    (lc_ledger c)) as Hok.
  rewrite Hl in Hok. destruct r as [[]|e]; simpl in Hok; [|auto].
  apply wp_modify. exact (Ho (catalog_change uuid now kind subject (lc_revision c)) l
    eq_refl eq_refl Hok).
Qed.
End wp.

(** ** Reachable catalogs *)

Section reachable.
  Context {H S : Type} `{!LedgerStore S}.
  Notation catalog := (LiveCatalog H S).

(** One operation of the registry, whether it succeeds or not.  The grant store
    is shared, so other code may change it between operations. *)
Inductive registry_step : catalog -> catalog -> Prop :=
| step_register_worker uuid now d v c :
    registry_step c (snd (register_worker uuid now d v c))
| step_unregister_worker uuid now id owner c :
    registry_step c (snd (unregister_worker uuid now id owner c))
| step_register_function uuid debug now d h v c :
    registry_step c (snd (register_function uuid debug now d h v c))
| step_unregister_function uuid now id owner c :
    registry_step c (snd (unregister_function uuid now id owner c))
| step_promote uuid now id owner target w c :
    registry_step c (snd (promote_function_visibility uuid now id owner target w c))
| step_register_trigger_type uuid now d v c :
    registry_step c (snd (register_trigger_type uuid now d v c))
| step_register_trigger uuid now d v c :
    registry_step c (snd (register_trigger uuid now d v c))
| step_unregister_trigger uuid now id owner c :
    registry_step c (snd (unregister_trigger uuid now id owner c))
| step_grants g c : registry_step c (set_lc_grants g c).

(** Invocations change the invocation log and the ledger's reservations only. *)
Inductive catalog_step : catalog -> catalog -> Prop :=
| step_registry c c' : registry_step c c' -> catalog_step c c'
| step_invocation l records c :
    ml_catalog_changes (lg_view l) = ml_catalog_changes (lg_view (lc_ledger c)) ->
    ml_durable_workers (lg_view l) = ml_durable_workers (lg_view (lc_ledger c)) ->
    ml_durable_functions (lg_view l) = ml_durable_functions (lg_view (lc_ledger c)) ->
    catalog_step c (set_lc_invocations records (set_lc_ledger l c)).

Definition catalog_reachable (c : catalog) : Prop :=
  exists ledger grants, ml_catalog_changes (lg_view ledger) = [] /\
    rtc catalog_step (with_ledger_store ledger grants) c.

(** *** The change log *)

Fixpoint contiguous (start : Z) (changes : list CatalogChange) : Prop :=
  match changes with
  | [] => True
  | x :: rest => chg_before x = start /\ chg_after x = revision_next start /\
                 contiguous (revision_next start) rest
  end.
Fixpoint advance (start : Z) (n : nat) : Z :=
  match n with O => start | Datatypes.S n' => advance (revision_next start) n' end.

Lemma contiguous_snoc start changes x :
  contiguous start (changes ++ [x]) <->
  contiguous start changes /\ chg_before x = advance start (List.length changes) /\
  chg_after x = revision_next (advance start (List.length changes)).
Proof.
  revert start. induction changes as [|y changes IH]; intros start; simpl; [tauto|].
  rewrite IH. tauto.
Qed.
Lemma advance_snoc start n : advance start (Datatypes.S n) = revision_next (advance start n).
Proof. revert start. induction n as [|n IH]; intros start; [done|]. simpl in *. apply IH. Qed.

Record log_inv (c : catalog) : Prop := {
  li_ledger : ml_catalog_changes (lg_view (lc_ledger c)) = lc_changes c;
  li_contiguous : contiguous 0 (lc_changes c);
  li_revision : lc_revision c = advance 0 (List.length (lc_changes c))
}.

Lemma log_inv_ledger c l :
  ml_catalog_changes (lg_view l) = ml_catalog_changes (lg_view (lc_ledger c)) ->
  log_inv c -> log_inv (set_lc_ledger l c).
Proof. intros Hl [H1 H2 H3]. constructor; simpl; congruence. Qed.

Lemma log_inv_change c change l :
  chg_before change = lc_revision c -> chg_after change = revision_next (lc_revision c) ->
  memory_append_catalog_change change (lg_view (lc_ledger c)) = (Ok tt, lg_view l) ->
  log_inv c -> log_inv (with_change change l c).
Proof.
  intros Hb Ha Hl [H1 H2 H3]. unfold memory_append_catalog_change in Hl. injection Hl as Hl.
  constructor; simpl.
  - rewrite <- Hl. simpl. by rewrite H1.
  - apply contiguous_snoc. rewrite <- H3. done.
  - rewrite length_app, Nat.add_1_r, advance_snoc. by rewrite H3.
Qed.

(** *** Invariants, operation by operation

    The updates the operations are made of, with what the operation has checked
    before it makes them.  A property closed under them is an invariant. *)

Record catalog_invariant (I : catalog -> Prop) : Prop := {
  ci_ledger : forall c l ws fs, I c ->
    lg_view l = set_ml_durable ws fs (lg_view (lc_ledger c)) -> I (set_lc_ledger l c);
  ci_change : forall c change l, I c -> chg_before change = lc_revision c ->
    chg_after change = revision_next (lc_revision c) ->
    memory_append_catalog_change change (lg_view (lc_ledger c)) = (Ok tt, lg_view l) ->
    I (with_change change l c);
  ci_insert_worker : forall c d v, I c -> validate_worker_namespace_claims d = Ok tt ->
    I (set_lc_workers (<[wk_id d := {| we_definition := d; we_volatile := v |}]> (lc_workers c)) c);
  ci_delete_worker : forall c id, I c -> I (set_lc_workers (delete id (lc_workers c)) c);
  ci_insert_function : forall c d h v, I c -> validate_reserved_function_namespace d = Ok tt ->
    I (set_lc_functions (<[fn_id d := {| fe_definition := d; fe_handler := h; fe_volatile := v |}]>
                           (lc_functions c)) c);
  ci_promote : forall c id e d h v, I c -> lc_functions c !! id = Some e ->
    fn_id d = fn_id (fe_definition e) -> fn_owner_worker d = fn_owner_worker (fe_definition e) ->
    I (set_lc_functions (<[id := {| fe_definition := d; fe_handler := h; fe_volatile := v |}]>
                           (lc_functions c)) c);
  ci_delete_function : forall c id, I c -> I (set_lc_functions (delete id (lc_functions c)) c);
  ci_trigger_types : forall c m, I c -> I (set_lc_trigger_types m c);
  ci_triggers : forall c m, I c -> I (set_lc_triggers m c);
  ci_grants : forall c g, I c -> I (set_lc_grants g c)
}.

Section preserved.
  Variable I : catalog -> Prop.
  Hypothesis HI : catalog_invariant I.

Lemma keeps_view c l : I c -> lg_view l = lg_view (lc_ledger c) -> I (set_lc_ledger l c).
Proof.
  intros Hc Hl. apply (ci_ledger _ HI c l (ml_durable_workers (lg_view (lc_ledger c)))
    (ml_durable_functions (lg_view (lc_ledger c)))); [done|].
  rewrite Hl. by destruct (lg_view (lc_ledger c)).
Qed.

Lemma keeps_ledger (f : S -> Result unit * S) g c :
  refines lg_view (f (lc_ledger c)) (lg_view (lc_ledger c)) g ->
  (forall m, exists ws fs, g m = (Ok tt, set_ml_durable ws fs m)) ->
  I c -> wp (on_ledger f) (fun _ => I) c.
Proof.
  intros Hr Hg Hc. apply wp_ledger. intros r l Hf. rewrite Hf in Hr.
  destruct r as [a|e]; simpl in Hr; [|by apply keeps_view].
  destruct (Hg (lg_view (lc_ledger c))) as (ws & fs & Hm). rewrite Hm in Hr. simplify_eq.
  by apply (ci_ledger _ HI c l ws fs).
Qed.

Lemma keeps_upsert_worker x c : I c -> wp (on_ledger (lg_upsert_durable_worker x)) (fun _ => I) c.
Proof. eapply keeps_ledger; [apply lg_upsert_durable_worker_ok|intros m; by repeat eexists]. Qed.
Lemma keeps_remove_worker x c : I c -> wp (on_ledger (lg_remove_durable_worker x)) (fun _ => I) c.
Proof. eapply keeps_ledger; [apply lg_remove_durable_worker_ok|intros m; by repeat eexists]. Qed.
Lemma keeps_upsert_function x c : I c -> wp (on_ledger (lg_upsert_durable_function x)) (fun _ => I) c.
Proof. eapply keeps_ledger; [apply lg_upsert_durable_function_ok|intros m; by repeat eexists]. Qed.
Lemma keeps_remove_function x c : I c -> wp (on_ledger (lg_remove_durable_function x)) (fun _ => I) c.
Proof. eapply keeps_ledger; [apply lg_remove_durable_function_ok|intros m; by repeat eexists]. Qed.

Lemma keeps_record uuid now kind subject c :
  I c -> wp (record_change uuid now kind subject) (fun _ => I) c.
Proof.
  intros Hc. apply wp_record.
  - intros e l Hl. by apply keeps_view.
  - intros change l Hb Ha Hl. by apply (ci_change _ HI).
Qed.

(** Sequencing: the first part keeps [I], the second starts from [I]. *)
Lemma keeps_bind {A B} (m : M A) (k : A -> M B) c :
  wp m (fun _ => I) c -> (forall a c', I c' -> wp (k a) (fun _ => I) c') ->
  wp (bind m k) (fun _ => I) c.
Proof. intros Hm Hk. apply wp_bind. unfold wp in *. destruct (m c) as [[a|e] c']; simpl in *; auto. Qed.

Lemma keeps_remove_trigger uuid now id c : I c -> wp (remove_trigger_entry uuid now id) (fun _ => I) c.
Proof.
  intros Hc. unfold remove_trigger_entry, wp. destruct (lc_triggers c !! id) as [e|]; [|done].
  apply keeps_bind; [by apply keeps_record|]. intros a c' Hc'. apply wp_modify. by apply (ci_triggers _ HI).
Qed.
Lemma keeps_remove_trigger_type uuid now id c :
  I c -> wp (remove_trigger_type_entry uuid now id) (fun _ => I) c.
Proof.
  intros Hc. unfold remove_trigger_type_entry, wp.
  destruct (lc_trigger_types c !! id) as [e|]; [|done].
  apply keeps_bind; [by apply keeps_record|]. intros a c' Hc'. apply wp_modify.
  by apply (ci_trigger_types _ HI).
Qed.
Lemma keeps_remove_function_entry uuid now id c :
  I c -> wp (remove_function_entry uuid now id) (fun _ => I) c.
Proof.
  intros Hc. unfold remove_function_entry, wp. destruct (lc_functions c !! id) as [e|]; [|done].
  apply keeps_bind; [by apply keeps_record|]. intros a c' Hc'. apply wp_modify.
  by apply (ci_delete_function _ HI).
Qed.

Lemma keeps_reads {A} (f : catalog -> Result A) c : I c -> wp (reads f) (fun _ => I) c.
Proof. done. Qed.

Lemma keeps_cleanup_volatile uuid now w c : I c -> wp (cleanup_owned_volatile uuid now w) (fun _ => I) c.
Proof.
  intros Hc. unfold cleanup_owned_volatile.
  apply keeps_bind; [done|]. intros ids c1 H1. apply keeps_bind.
  { eapply wp_for_each; [|exact H1|done]. intros. by apply keeps_remove_function_entry. }
  intros _ c2 H2. apply keeps_bind; [done|]. intros ids' c3 H3. apply keeps_bind.
  { eapply wp_for_each; [|exact H3|done]. intros. by apply keeps_remove_trigger. }
  intros _ c4 H4. apply keeps_bind; [done|]. intros ids'' c5 H5.
  eapply wp_for_each; [|exact H5|done]. intros. by apply keeps_remove_trigger_type.
Qed.
Lemma keeps_cleanup_triggers uuid now f c :
  I c -> wp (cleanup_triggers_targeting uuid now f) (fun _ => I) c.
Proof.
  intros Hc. unfold cleanup_triggers_targeting. apply keeps_bind; [done|]. intros ids c1 H1.
  eapply wp_for_each; [|exact H1|done]. intros. by apply keeps_remove_trigger.
Qed.

Lemma keeps_register_worker uuid now d v c : I c -> wp (register_worker uuid now d v) (fun _ => I) c.
Proof.
  intros Hc. unfold register_worker. apply wp_bind, wp_reads; [done|]. intros [] Hns.
  apply keeps_bind; [done|]. intros _ c1 H1. apply keeps_bind; [done|]. intros [kind rev] c2 H2.
  apply keeps_bind; [by apply keeps_record|]. intros _ c3 H3. apply keeps_bind.
  { case_match; [by apply keeps_upsert_worker|by apply keeps_remove_worker]. }
  intros _ c4 H4. apply keeps_bind; [|done]. apply wp_modify. by apply (ci_insert_worker _ HI).
Qed.

Lemma keeps_unregister_worker uuid now id o c :
  I c -> wp (unregister_worker uuid now id o) (fun _ => I) c.
Proof.
  intros Hc. unfold unregister_worker. apply keeps_bind; [done|]. intros d c1 H1.
  apply keeps_bind; [by apply keeps_cleanup_volatile|]. intros _ c2 H2.
  apply keeps_bind; [by apply keeps_record|]. intros _ c3 H3.
  apply keeps_bind; [by apply keeps_remove_worker|]. intros _ c4 H4.
  apply wp_modify. by apply (ci_delete_worker _ HI).
Qed.

Lemma keeps_register_function uuid debug now d h v c :
  I c -> wp (register_function uuid debug now d h v) (fun _ => I) c.
Proof.
  intros Hc. unfold register_function. apply wp_bind, wp_reads; [done|]. intros [] Hns.
  apply keeps_bind; [done|]. intros owner c1 H1. cbv zeta.
  apply keeps_bind; [done|]. intros _ c2 H2. apply keeps_bind; [done|]. intros _ c3 H3.
  apply keeps_bind; [done|]. intros _ c4 H4. apply keeps_bind; [done|]. intros [kind rev] c5 H5.
  apply keeps_bind; [by apply keeps_record|]. intros _ c6 H6. apply keeps_bind.
  { case_match; [by apply keeps_upsert_function|by apply keeps_remove_function]. }
  intros _ c7 H7. apply keeps_bind; [|done]. apply wp_modify. by apply (ci_insert_function _ HI).
Qed.

Lemma keeps_unregister_function uuid now id o c :
  I c -> wp (unregister_function uuid now id o) (fun _ => I) c.
Proof.
  intros Hc. unfold unregister_function. apply keeps_bind; [done|]. intros d c1 H1.
  apply keeps_bind; [by apply keeps_cleanup_triggers|]. intros _ c2 H2.
  apply keeps_bind; [by apply keeps_record|]. intros _ c3 H3.
  apply keeps_bind; [by apply keeps_remove_function|]. intros _ c4 H4.
  apply wp_modify. by apply (ci_delete_function _ HI).
Qed.

Lemma owned_function_ok id owner (c : catalog) e :
  owned_function id owner c = Ok e ->
  lc_functions c !! id = Some e /\ fn_owner_worker (fe_definition e) = owner.
Proof. unfold owned_function. intros Hc. inv_ok. by bool_prop. Qed.

Lemma promoted_definition_ok id target w d d' :
  promoted_definition id target w d = Ok d' ->
  fn_id d' = fn_id d /\ fn_owner_worker d' = fn_owner_worker d /\ fn_revision d' = fn_revision d.
Proof. unfold promoted_definition. intros Hd. inv_ok; done. Qed.

Lemma alter_as_insert {A} (f : A -> A) (m : gmap string A) i x :
  m !! i = Some x -> alter f i m = <[i := f x]> m.
Proof.
  intros Hx. apply map_eq. intros j. destruct (decide (i = j)) as [<-|Hne].
  - by rewrite lookup_alter_eq, lookup_insert_eq, Hx.
  - by rewrite lookup_alter_ne, lookup_insert_ne.
Qed.

Lemma keeps_promote uuid now id o target w c :
  I c -> wp (promote_function_visibility uuid now id o target w) (fun _ => I) c.
Proof.
  intros Hc. unfold promote_function_visibility. apply wp_bind, wp_reads; [done|].
  intros e [He _]%owned_function_ok. apply wp_bind, wp_reads; [done|].
  intros d (Hid & Hown & _)%promoted_definition_ok. cbv zeta. apply wp_bind, wp_record.
  - intros e' l Hl. by apply keeps_view.
  - intros change l Hb Ha Hl. apply keeps_bind; [|done]. apply wp_modify. simpl.
    erewrite alter_as_insert by exact He.
    apply (ci_promote _ HI (with_change change l c) id e); try done.
    by apply (ci_change _ HI).
Qed.

Lemma keeps_register_trigger_type uuid now d v c :
  I c -> wp (register_trigger_type uuid now d v) (fun _ => I) c.
Proof.
  intros Hc. unfold register_trigger_type. apply keeps_bind; [done|]. intros kind c1 H1.
  apply keeps_bind; [by apply keeps_record|]. intros _ c2 H2. apply wp_modify.
  by apply (ci_trigger_types _ HI).
Qed.
Lemma keeps_register_trigger uuid now d v c :
  I c -> wp (register_trigger uuid now d v) (fun _ => I) c.
Proof.
  intros Hc. unfold register_trigger. apply keeps_bind; [done|]. intros [kind rev] c1 H1.
  apply keeps_bind; [by apply keeps_record|]. intros _ c2 H2. apply keeps_bind; [|done].
  apply wp_modify. by apply (ci_triggers _ HI).
Qed.
Lemma keeps_unregister_trigger uuid now id o c :
  I c -> wp (unregister_trigger uuid now id o) (fun _ => I) c.
Proof.
  intros Hc. unfold unregister_trigger, wp. destruct (lc_triggers c !! id) as [e|]; [|done].
  destruct (negb _); [done|]. apply keeps_bind; [by apply keeps_record|]. intros _ c1 H1.
  apply keeps_bind; [|done]. apply wp_modify. by apply (ci_triggers _ HI).
Qed.

Lemma registry_keeps c c' : registry_step c c' -> I c -> I c'.
Proof.
  intros Hs Hc. destruct Hs.
  - by apply keeps_register_worker.
  - by apply keeps_unregister_worker.
  - by apply keeps_register_function.
  - by apply keeps_unregister_function.
  - by apply keeps_promote.
  - by apply keeps_register_trigger_type.
  - by apply keeps_register_trigger.
  - by apply keeps_unregister_trigger.
  - by apply (ci_grants _ HI).
Qed.

Lemma reachable_keeps c :
  (forall l g, ml_catalog_changes (lg_view l) = [] -> I (with_ledger_store l g)) ->
  (forall c l r, I c ->
    ml_catalog_changes (lg_view l) = ml_catalog_changes (lg_view (lc_ledger c)) ->
    I (set_lc_invocations r (set_lc_ledger l c))) ->
  catalog_reachable c -> I c.
Proof.
  intros H0 Hinv (l & g & Hl & Hr). specialize (H0 l g Hl). clear Hl.
  induction Hr as [|c1 c2 c3 Hs _ IH]; [done|]. apply IH. destruct Hs; eauto using registry_keeps.
Qed.
End preserved.

Lemma log_invariant : catalog_invariant log_inv.
Proof.
  constructor; intros;
    first [ by eapply log_inv_ledger; [match goal with K : lg_view _ = _ |- _ => rewrite K end|]
          | by apply log_inv_change
          | match goal with K : log_inv _ |- _ => destruct K; by constructor end ].
Qed.

Lemma log_inv_reachable c : catalog_reachable c -> log_inv c.
Proof.
  apply (reachable_keeps log_inv log_invariant); [by constructor|].
  intros c' l r Hc Hl. destruct (log_inv_ledger c' l Hl Hc). by constructor.
Qed.

Lemma advance_mod start n : advance start n mod 2 ^ 64 = (start + Z.of_nat n) mod 2 ^ 64.
Proof.
  revert start. induction n as [|n IH]; intros start; cbn [advance].
  - by rewrite Z.add_0_r.
  - rewrite IH. unfold revision_next, wrapping_add_u64. rewrite Zplus_mod_idemp_l. f_equal. lia.
Qed.
Lemma advance_zero n : advance 0 n = Z.of_nat n mod 2 ^ 64.
Proof.
  rewrite <- (Z.add_0_l (Z.of_nat n)), <- advance_mod. symmetry. destruct n as [|n]; [done|].
  rewrite advance_snoc. unfold revision_next, wrapping_add_u64. apply Z.mod_mod. lia.
Qed.

Lemma contiguous_lookup start changes k x :
  contiguous start changes -> changes !! k = Some x ->
  chg_before x = advance start k /\ chg_after x = advance start (Datatypes.S k).
Proof.
  revert start k. induction changes as [|y changes IH]; intros start k; [done|].
  simpl. intros (Hb & Ha & Hc). destruct k as [|k]; simpl; [|by apply IH].
  intros [= ->]. done.
Qed.

(** In every reachable catalog the durable change log of the ledger equals the live
    one, the k-th change goes from revision k to k+1 (modulo 2^64), and the catalog's
    revision is the number of changes: no change is lost, repeated or reordered, whatever
    operations failed in between. *)
Theorem catalog_log_is_complete c :
  catalog_reachable c ->
  ml_catalog_changes (lg_view (lc_ledger c)) = lc_changes c /\
  lc_revision c = Z.of_nat (List.length (lc_changes c)) mod 2 ^ 64 /\
  forall k x, lc_changes c !! k = Some x ->
    chg_before x = Z.of_nat k mod 2 ^ 64 /\ chg_after x = (Z.of_nat k + 1) mod 2 ^ 64.
Proof.
  intros [H1 H2 H3]%log_inv_reachable.
  split; [done|]. rewrite H3, advance_zero. split; [done|]. intros k x Hk.
  destruct (contiguous_lookup _ _ _ _ H2 Hk) as [-> ->]. rewrite !advance_zero.
  split; [done|]. f_equal. lia.
Qed.

(** *** The reserved namespace *)

Record names_inv (c : catalog) : Prop := {
  ni_workers : forall id e, lc_workers c !! id = Some e ->
    wk_id (we_definition e) = id /\ validate_worker_namespace_claims (we_definition e) = Ok tt;
  ni_functions : forall id e, lc_functions c !! id = Some e ->
    fn_id (fe_definition e) = id /\
    validate_reserved_function_namespace (fe_definition e) = Ok tt
}.

Lemma names_invariant : catalog_invariant names_inv.
Proof.
  constructor; intros;
    match goal with K : names_inv _ |- _ => destruct K as [Hw Hf] end;
    constructor; simpl; auto; intros i x;
    rewrite ?lookup_insert_Some, ?lookup_delete_Some; intros Hx; destruct_and?; auto.
  - destruct Hx as [[<- <-]|[_ Hx]]; auto.
  - destruct Hx as [[<- <-]|[_ Hx]]; auto.
  - destruct Hx as [[<- <-]|[_ Hx]]; [|auto]. simpl.
    destruct (Hf id e) as [He Hr]; [done|].
    unfold validate_reserved_function_namespace in *.
    repeat match goal with K : _ d = _ |- _ => rewrite K end. done.
Qed.

Lemma names_inv_reachable c : catalog_reachable c -> names_inv c.
Proof.
  apply (reachable_keeps names_inv names_invariant); [by constructor|].
  intros c' l r [] _. by constructor.
Qed.

(** In every reachable catalog only the system worker engine claims the reserved
    namespace, and every function in it is owned by that worker. *)
Theorem reserved_namespace_is_engine_only c :
  catalog_reachable c ->
  (forall id w, worker id c = Some w -> In "engine" (wk_namespace_claims w) ->
    id = "engine" /\ wk_kind w = Worker_System) /\
  (forall id f, function id c = Some f -> function_namespace id = "engine" ->
    fn_owner_worker f = "engine").
Proof.
  intros [Hw Hf]%names_inv_reachable.
  unfold worker, function. split; intros id x Hx Hin;
    apply fmap_Some in Hx as (e & He & ->).
  - destruct (Hw id e He) as [<- Hv]. unfold validate_worker_namespace_claims in Hv.
    apply list_has_In in Hin. unfold RESERVED_ENGINE_NAMESPACE in Hv. rewrite Hin in Hv. simpl in Hv.
    case_match; [|done]. by bool_prop.
  - destruct (Hf id e He) as [<- Hv]. unfold validate_reserved_function_namespace in Hv.
    rewrite Hin in Hv. simpl in Hv. case_match; [|done]. by bool_prop.
Qed.

(** *** Restart *)

Lemma max_after start changes m :
  contiguous start changes -> 0 <= start -> start + Z.of_nat (List.length changes) <= u64_max ->
  m = start ->
  fold_left (fun m x => Z.max m (chg_after x)) changes m = start + Z.of_nat (List.length changes).
Proof.
  revert start m. induction changes as [|y changes IH]; intros start m; cbn [contiguous fold_left].
  - intros _ _ _ ->. simpl. lia.
  - intros (_ & Ha & Hc) H0 Hb ->. cbn [List.length] in *. rewrite Ha.
    assert (revision_next start = start + 1) as Hn
      by (apply wrapping_add_u64_small; unfold u64_max in *; lia).
    rewrite Hn in *. rewrite (IH (start + 1)); try lia. done.
Qed.

(** The functions a restart brings back. *)
Definition dormant (workers : gmap string WorkerEntry) (e : FunctionEntry H) : Prop :=
  fe_handler e = None /\ fe_volatile e = false /\
  fn_health (fe_definition e) = Health_Unhealthy /\
  is_Some (workers !! fn_owner_worker (fe_definition e)).

Lemma hydrated_functions (workers : gmap string WorkerEntry) fs
    (m : gmap string (FunctionEntry H)) :
  map_Forall (fun _ => dormant workers) m ->
  map_Forall (fun _ => dormant workers)
    (fold_left (fun m f =>
       if is_some (workers !! fn_owner_worker f)
       then <[fn_id f := {| fe_definition := set_fn_health Health_Unhealthy f;
                            fe_handler := None; fe_volatile := false |}]> m
       else m) fs m).
Proof.
  revert m. induction fs as [|f fs IH]; intros m Hm; cbn [fold_left]; [done|].
  apply IH. destruct (is_some _) eqn:Hs; [|done]. apply map_Forall_insert_2; [|done].
  unfold dormant. simpl. split_and!; try done. by apply is_some_iff.
Qed.

Definition after_lt (a b : CatalogChange) : Prop := chg_after a < chg_after b.
Lemma contiguous_after start changes :
  contiguous start changes -> 0 <= start -> start + Z.of_nat (List.length changes) <= u64_max ->
  StronglySorted after_lt changes /\
  Forall (fun x => start < chg_after x <= start + Z.of_nat (List.length changes)) changes.
Proof.
  revert start. induction changes as [|x changes IH]; intros start;
    [intros; split; constructor|].
  intros (_ & Ha & Hc) H0 Hlen. cbn [List.length] in Hlen. rewrite Nat2Z.inj_succ in Hlen.
  assert (revision_next start = start + 1) as Hn.
  { unfold revision_next. apply wrapping_add_u64_small; lia. }
  rewrite Hn in *. destruct (IH (start + 1) Hc) as [Hs Hf]; [lia|lia|].
  cbn [List.length]. rewrite Nat2Z.inj_succ. split.
  - constructor; [done|]. eapply Forall_impl; [exact Hf|]. unfold after_lt. simpl. lia.
  - constructor; [lia|]. eapply Forall_impl; [exact Hf|]. simpl. lia.
Qed.

(** C30: A catalog rebuilt from the ledger of a reachable one has its change log and
    revision, and every function it brings back has no handler, has a known owner, and is
    refused by both invocation policies until it is registered again. *)
Theorem restart_fails_closed (c : catalog) g (c' : catalog) :
  catalog_reachable c -> Z.of_nat (List.length (lc_changes c)) <= u64_max ->
  hydrate_durable_catalog_from_ledger (with_ledger_store (lc_ledger c) g) = (Ok tt, c') ->
  lc_changes c' = lc_changes c /\ lc_revision c' = lc_revision c /\
  forall id e, lc_functions c' !! id = Some e ->
    fe_handler e = None /\ is_Some (lc_workers c' !! fn_owner_worker (fe_definition e)) /\
    forall i, validate_invocation (fe_definition e) i <> Ok tt /\
              validate_trigger_target_invocation (fe_definition e) i <> Ok tt.
Proof.
  intros [H1 H2 H3]%log_inv_reachable Hlen Hh.
  unfold hydrate_durable_catalog_from_ledger, bind, reads, modify in Hh. simpl in Hh.
  pose proof (lg_list_catalog_changes_ok (lc_ledger c)) as Hc.
  destruct (contiguous_after 0 _ H2 ltac:(lia) Hlen) as [Hord _].
  specialize (Hc ltac:(rewrite H1; by eapply sorted_impl; [|exact Hord]; unfold after_lt; lia)).
  destruct (lg_list_catalog_changes (lc_ledger c)) as [changes|]; [|done].
  injection Hc as Hc. rewrite H1 in Hc. subst changes.
  destruct (lg_list_durable_workers (lc_ledger c)) as [ws|]; [|done]. simpl in Hh.
  destruct (lg_list_durable_functions (lc_ledger c)) as [fs|]; [|done]. simpl in Hh.
  injection Hh as <-. simpl. split; [done|]. split.
  { rewrite (max_after 0) by (done || lia). rewrite H3, advance_zero, Z.add_0_l.
    symmetry. apply Z.mod_small. unfold u64_max in Hlen. lia. }
  intros id e He.
  match type of He with fold_left (fun m f => if is_some (?w !! _) then _ else _) _ _ !! _ = _ =>
    pose proof (hydrated_functions w fs ∅ (map_Forall_empty _)) as Hd end.
  destruct (Hd id e He) as (Hhandler & _ & Hhealth & Howner). split_and!; [done|done|].
  assert (forall i, ~ admissible (fe_definition e) i) as Hadm.
  { intros i [_ _ Hr _]. by rewrite Hhealth in Hr. }
  intros i. split; intros Hv.
  - unfold validate_invocation in Hv. case_match; [done|]. by apply contract_ok, Hadm in Hv.
  - unfold validate_trigger_target_invocation in Hv.
    repeat (case_match; try discriminate Hv); by apply contract_ok, Hadm in Hv.
Qed.
End reachable.

(** ** Concrete runs *)

Notation sample_catalog := (LiveCatalog unit LedgerMemory).
Definition no_text (z : Z) : string := "".
Definition sample_worker (id : string) : WorkerDefinition :=
  {| wk_id := id; wk_revision := 1; wk_kind := Worker_External; wk_lifecycle := Lifecycle_Ready;
     wk_owner_actor := "owner"; wk_authority_grant := "grant"; wk_namespace_claims := [id];
     wk_visibility := Vis_System; wk_provenance := provenance_system |}.
Definition sample_fn (id owner : string) : FunctionDefinition :=
  function_new id owner "Greets" Vis_Session Effect_PureRead.
Definition catalog0 : sample_catalog := with_ledger_store ledger_memory_new (grant_store_new 0).
Definition catalog1 : sample_catalog :=
  snd (register_worker no_text 1 (sample_worker "demo") false catalog0).
Definition catalog2 : sample_catalog :=
  snd (register_function no_text no_debug 2 (sample_fn "demo::hello" "demo") (Some tt) false catalog1).

Lemma catalog2_reachable : catalog_reachable catalog2.
Proof.
  exists ledger_memory_new, (grant_store_new 0). split; [reflexivity|].
  apply rtc_l with catalog1; [apply step_registry, step_register_worker|].
  apply rtc_once. apply step_registry, step_register_function.
Defined.

Lemma catalog_log_is_complete_witness :
  lc_revision catalog2 = 2 /\ map chg_after (lc_changes catalog2) = [1; 2].
Proof.
  pose proof (catalog_log_is_complete catalog2 catalog2_reachable) as (_ & Hr & _).
  split; [rewrite Hr|]; vm_compute; reflexivity.
Defined.

Definition engine_worker : WorkerDefinition :=
  {| wk_id := "engine"; wk_revision := 1; wk_kind := Worker_System;
     wk_lifecycle := Lifecycle_Ready; wk_owner_actor := "owner"; wk_authority_grant := "grant";
     wk_namespace_claims := ["engine"]; wk_visibility := Vis_System;
     wk_provenance := provenance_system |}.
Definition engine_catalog : sample_catalog :=
  snd (register_function no_text no_debug 2 (sample_fn "engine::ping" "engine") None false
    (snd (register_worker no_text 1 engine_worker false catalog0))).

Lemma reserved_namespace_is_engine_only_witness :
  exists f, function "engine::ping" engine_catalog = Some f /\ fn_owner_worker f = "engine".
Proof.
  assert (catalog_reachable engine_catalog) as Hr.
  { exists ledger_memory_new, (grant_store_new 0). split; [reflexivity|].
    eapply rtc_l; [apply step_registry, step_register_worker|].
    apply rtc_once. apply step_registry, step_register_function. }
  destruct (function "engine::ping" engine_catalog) as [f|] eqn:Hf; [|vm_compute in Hf; discriminate].
  exists f. split; [reflexivity|].
  apply (proj2 (reserved_namespace_is_engine_only engine_catalog Hr) "engine::ping" f Hf).
  vm_compute. reflexivity.
Defined.

Definition restarted (c : sample_catalog) : sample_catalog :=
  snd (hydrate_durable_catalog_from_ledger (with_ledger_store (lc_ledger c) (lc_grants c))).

Lemma restart_fails_closed_witness :
  exists e, lc_functions (restarted catalog2) !! "demo::hello" = Some e /\ fe_handler e = None.
Proof.
  destruct (restart_fails_closed catalog2 (lc_grants catalog2) (restarted catalog2))
    as (_ & _ & Hf).
  - exact catalog2_reachable.
  - vm_compute. discriminate.
  - vm_compute. reflexivity.
  - destruct (lc_functions (restarted catalog2) !! "demo::hello") as [e|] eqn:He.
    + exists e. split; [reflexivity|]. by apply (Hf "demo::hello" e).
    + vm_compute in He. discriminate.
Defined.

(** A worker whose volatile function is the target of another worker's trigger
    is unregistered: the trigger stays, and its target is gone. *)
Definition sample_trigger_type : TriggerTypeDefinition :=
  {| tt_id := "tick"; tt_owner_worker := "cron"; tt_description := ""; tt_config_schema := None;
     tt_allowed_delivery_modes := [Delivery_Sync]; tt_visibility := Vis_System;
     tt_provenance := provenance_system |}.
Definition sample_trigger : TriggerDefinition :=
  {| tr_id := "t1"; tr_revision := 1; tr_owner_worker := "cron"; tr_trigger_type := "tick";
     tr_target_function := "demo::hello"; tr_config := Null; tr_delivery_mode := Delivery_Sync;
     tr_authority_grant := "grant"; tr_idempotency_key_strategy := None; tr_max_depth := None;
     tr_visibility := Vis_System; tr_provenance := provenance_system |}.
Definition triggered_catalog : sample_catalog :=
  let c := snd (register_function no_text no_debug 2 (sample_fn "demo::hello" "demo") (Some tt) true
                  catalog1) in
  let c := snd (register_worker no_text 3 (sample_worker "cron") false c) in
  let c := snd (register_trigger_type no_text 4 sample_trigger_type false c) in
  snd (register_trigger no_text 5 sample_trigger false c).

Lemma unregister_worker_leaves_dangling_trigger :
  let c := snd (unregister_worker no_text 6 "demo" "owner" triggered_catalog) in
  is_Some (lc_functions triggered_catalog !! "demo::hello") /\
  lc_workers c !! "demo" = None /\ lc_functions c !! "demo::hello" = None /\
  exists t, inspect_trigger "t1" c = Ok t /\ tr_target_function t = "demo::hello".
Proof. vm_compute. split_and!; eauto. Qed.

(** A promotion is not written to the durable definition: after a restart the
    function has its old visibility and its old revision again. *)
Lemma promotion_is_lost_by_restart :
  let c := snd (promote_function_visibility no_text 3 "demo::hello" "demo" Vis_System None catalog2) in
  (fun f => (fn_visibility f, fn_revision f)) <$> function "demo::hello" c = Some (Vis_System, 2) /\
  (fun f => (fn_visibility f, fn_revision f)) <$> function "demo::hello" (restarted c)
    = Some (Vis_Session, 1).
Proof. vm_compute. split; reflexivity. Qed.
