(* ===== verification/Invocation.v ===== *)
(** * Invocations: preparation, idempotency, completion

    [catalog/registry/invocation.rs], [idempotency.rs] and [output_contract.rs].
    An invocation is prepared under the catalog lock (routing, policy, grant,
    idempotency reservation, request schema, budget), its handler runs outside
    the lock, and it is finished under the lock (output contract, response
    schema, reservation outcome, record).  [now] is the instant of the step;
    SHA-256, the JSON encoding of string literals, the [{:?}] rendering of
    strings and the file system are parameters. *)

From stdpp Require Import base gmap strings list pretty sorting.
From Stdlib Require Import ZArith Ascii String Lia.
From S2P Require Import Prelude Json CanonicalJson Kernel Model Schema Policy Paths Grants Authorization Ledger.
From S2P Require Import Catalog.

#[local] Open Scope Z_scope.

(** ** Output contracts *)

(** [str::to_lowercase], for a search of ASCII text in the result: the ASCII
    letters, and the two other characters (the Kelvin sign and the dotted capital
    I) whose lower case has ASCII letters. *)
Fixpoint to_lowercase (s : string) : string :=
  match s with
  | EmptyString => EmptyString
  | String a s1 =>
      if (65 <=? code a) && (code a <=? 90)
      then String (ascii_of_N (N_of_ascii a + 32)) (to_lowercase s1)
      else match s1 with
           | String b s2 =>
               if (code a =? 196) && (code b =? 176)
               then String "i" (String "204" (String "135" (to_lowercase s2)))
               else match s2 with
                    | String d s3 =>
                        if (code a =? 226) && (code b =? 132) && (code d =? 170)
                        then String "k" (to_lowercase s3)
                        else String a (to_lowercase s1)
                    | EmptyString => String a (to_lowercase s1)
                    end
           | EmptyString => String a EmptyString
           end
  end.

(* SRC engine/catalog/registry/output_contract.rs:172-208 process_payload_is_write_like *)
Definition process_payload_is_write_like (payload : Value) : bool :=
  let text field := vget payload field ≫= as_str in
  let command := match text "command" with
                 | Some c => c
                 | None => default "" (text "program")
                 end in
  let args := match vget payload "args" ≫= as_array with
              | Some items => join " " (omap as_str items)
              | None => ""
              end in
  let command_line := to_lowercase (command +s " " +s args) in
  existsb (fun needle => contains command_line needle)
    [">"; ">>"; "tee "; "sed -i"; "perl -i"; "mv "; "cp "; "rm "; "touch "; "mkdir "; "install ";
     "apply_patch"; "git checkout"; "git reset"].

(* SRC engine/catalog/registry/output_contract.rs:151-170 output_classifier_matches *)
Definition output_classifier_matches (classifier : string) (invocation : Invocation) : bool :=
  let payload := inv_payload invocation in
  if classifier =s "always" then true
  else if classifier =s "process_write_like" then process_payload_is_write_like payload
  else if classifier =s "process_resource_output_required" then
    process_payload_is_write_like payload
    || match vget payload "executionMode" ≫= as_str with
       | Some mode => mode =s "sandbox_materialized" | None => false end
    || default false (vget payload "retainOutput" ≫= as_bool)
  else false.

(* SRC engine/catalog/registry/output_contract.rs:134-149 required_non_empty_ref_field *)
Definition required_non_empty_ref_field (f : FunctionDefinition) (object : list (string * Value))
    (field : string) : Result string :=
  match obj_get object field ≫= as_str with
  | Some value =>
      if is_blank value
      then policy_error ("function " +s fn_id f +s " returned resourceRef without " +s field)
      else Ok value
  | None => policy_error ("function " +s fn_id f +s " returned resourceRef without " +s field)
  end.

(* SRC engine/catalog/registry/output_contract.rs:95-132 validate_resource_ref *)
Definition validate_resource_ref (f : FunctionDefinition) (resource_ref : Value)
    (kinds : list string) : Result unit :=
  let? object := ok_or (as_object resource_ref)
    (PolicyViolation ("function " +s fn_id f +s " returned a non-object resourceRef")) in
  let? resource_id := required_non_empty_ref_field f object "resourceId" in
  let? kind := required_non_empty_ref_field f object "kind" in
  let? _ := required_non_empty_ref_field f object "role" in
  let? _ :=
    try_each (fun optional =>
      match obj_get object optional with
      | Some value =>
          if negb (match as_str value with Some text => negb (is_blank text) | None => false end)
             && negb (is_null value)
          then policy_error ("function " +s fn_id f +s " returned invalid resourceRef "
                             +s optional +s " for " +s resource_id)
          else Ok tt
      | None => Ok tt
      end) ["versionId"; "contentHash"; "relation"] in
  if negb (list_has kinds "*") && negb (list_has kinds kind)
  then policy_error ("function " +s fn_id f +s " returned resourceRef kind " +s kind
                     +s ", allowed kinds: " +s join ", " kinds)
  else Ok tt.

(* SRC engine/catalog/registry/output_contract.rs:66-93 validate_resource_backed_output *)
Definition validate_resource_backed_output (f : FunctionDefinition) (value : Value)
    (kinds : list string) (required : bool) : Result unit :=
  match vget value "resourceRefs" ≫= as_array with
  | None =>
      if required
      then policy_error ("function " +s fn_id f +s
             " declared resource-backed output but result omitted top-level resourceRefs")
      else Ok tt
  | Some refs =>
      if required && match refs with [] => true | _ => false end
      then policy_error ("function " +s fn_id f +s
             " declared resource-backed output but result returned no resourceRefs")
      else try_each (fun r => validate_resource_ref f r kinds) refs
  end.

(* SRC engine/catalog/registry/output_contract.rs:9-50 validate_output_contract *)
Definition validate_output_contract (f : FunctionDefinition) (invocation : Invocation)
    (value : Value) : Result unit :=
  match fn_output_contract f with
  | Output_None => Ok tt
  | Output_ResourceBacked kinds required => validate_resource_backed_output f value kinds required
  | Output_Conditional classifier inner =>
      if output_classifier_matches classifier invocation then
        match inner with
        | Output_ResourceBacked kinds required =>
            validate_resource_backed_output f value kinds required
        | _ => policy_error ("function " +s fn_id f
                 +s " has non-resource-backed conditional output contract")
        end
      else Ok tt
  end.

(** ** Idempotency keys and fingerprints *)

(* SRC engine/catalog/registry/idempotency.rs:261-308 idempotency_scope_value *)
Definition idempotency_scope_value (scope : VisibilityScope) (invocation : Invocation)
  : Result IdempotencyScope :=
  let c := inv_context invocation in
  let new kind value := {| scope_kind := kind; scope_value := value |} in
  match scope with
  | Vis_Session =>
      match cx_session_id c with
      | Some session => Ok (new "session" session)
      | None => policy_error "session-scoped idempotency requires a session id"
      end
  | Vis_Workspace =>
      match cx_workspace_id c with
      | Some workspace => Ok (new "workspace" workspace)
      | None => policy_error "workspace-scoped idempotency requires a workspace id"
      end
  | Vis_System => Ok (new "system" "system")
  | Vis_Agent => Ok (new "agent" (cx_actor_id c))
  | Vis_Client => Ok (new "client" (cx_actor_id c))
  | Vis_Worker => Ok (new "worker" (cx_actor_id c))
  | Vis_Admin => Ok (new "admin" (cx_actor_id c))
  | Vis_Internal => Ok (new "internal" (cx_authority_grant_id c))
  end.

Section invocation.
  Context {H S : Type} `{!LedgerStore S}.
  Notation catalog := (LiveCatalog H S).
  Variable debug : string -> string.
  Variable sha256_hex : string -> string.
  Variable encode : string -> string.
  Variable fs : FileSystem.

(* SRC engine/catalog/registry/idempotency.rs:310-315 payload_fingerprint *)
Definition payload_fingerprint (payload : Value) : string :=
  sha256_hex (write_canonical_json encode payload).

(* SRC engine/catalog/registry/idempotency.rs:225-258 LiveCatalog::idempotency_lookup *)
Definition idempotency_lookup (f : FunctionDefinition) (invocation : Invocation)
  : Result (option IdempotencyReservation) :=
  match fn_idempotency f, cx_idempotency_key (inv_context invocation) with
  | None, _ | _, None => Ok None
  | Some contract, Some key =>
      if match ic_ledger_kind contract with
         | Ledger_InMemory | Ledger_EngineLedger => false | _ => true end
      then policy_error ("idempotency ledger " +s ledger_kind_debug (ic_ledger_kind contract)
                         +s " is not executable in phase 1")
      else
      let? scope := idempotency_scope_value (ic_dedupe_scope contract) invocation in
      Ok (Some {| rv_key := {| ik_function_id := fn_id f; ik_scope := scope; ik_key := key |};
                  rv_payload_fingerprint := payload_fingerprint (inv_payload invocation);
                  rv_function_revision := fn_revision f;
                  rv_replay_behavior := ic_replay_behavior contract;
                  rv_invocation_id := inv_id invocation |})
  end.

(** [InvocationResult::error] for the function's worker and revision. *)
Definition error_result (f : FunctionDefinition) (invocation : Invocation) (revision : Z)
    (e : EngineError) : InvocationResult :=
  result_error invocation (fn_owner_worker f) (fn_revision f) revision e.

(* SRC engine/catalog/registry/idempotency.rs:33-146 LiveCatalog::result_for_existing_idempotency *)
Definition result_for_existing_idempotency (revision : Z) (f : FunctionDefinition)
    (invocation : Invocation) (existing : IdempotencyEntry) (fingerprint : string)
  : InvocationResult :=
  let conflict reason :=
    error_result f invocation revision
      (IdempotencyConflict (fn_id f) (ik_key (ie_key existing)) reason) in
  if negb (ie_payload_fingerprint existing =s fingerprint)
  then conflict "same key was used with a different payload"
  else if negb (ie_function_revision existing =? fn_revision f)
  then conflict "same key was used across function revisions"
  else match ie_status existing with
       | Status_InProgress => conflict "previous attempt is still in progress"
       | Status_Unknown => conflict "previous attempt has unknown outcome"
       | Status_Completed =>
           match ie_replay_behavior existing with
           | Replay_ReturnPrevious =>
               match ie_outcome existing with
               | None => conflict "completed reservation is missing outcome"
               | Some outcome =>
                   to_replay_result outcome invocation (fn_owner_worker f) (fn_revision f) revision
                     (ie_first_invocation_id existing)
               end
           | Replay_NoOp =>
               noop_replay invocation (fn_owner_worker f) (fn_revision f) revision
                 (ie_first_invocation_id existing)
           | Replay_Reject => conflict "duplicate key is configured to reject"
           | Replay_Compensate => conflict "compensation replay is not executable in phase 1"
           end
       end.

(** ** Recording *)

(* SRC engine/catalog/registry/invocation.rs:446-468 LiveCatalog::record_invocation_result_with_contracts *)
Definition record_invocation_result_with_contracts (now : instant) (invocation : Invocation)
    (result : InvocationResult) (scope : option IdempotencyScope) (lease_ids : list string)
    (compensation_status : option string) (c : catalog) : InvocationResult * catalog :=
  let record := with_contracts (from_result_at invocation result scope now) lease_ids
                  compensation_status in
  match lg_append_invocation record (lc_ledger c) with
  | (Err err, l) =>
      (result_error invocation (ir_worker_id result) (ir_function_revision result)
         (lc_revision c) err, set_lc_ledger l c)
  | (Ok _, l) => (result, set_lc_invocations (lc_invocations c ++ [record]) (set_lc_ledger l c))
  end.

(* SRC engine/catalog/registry/invocation.rs:430-444 LiveCatalog::record_invocation_result *)
Definition record_invocation_result (now : instant) (invocation : Invocation)
    (result : InvocationResult) (scope : option IdempotencyScope) (c : catalog)
  : InvocationResult * catalog :=
  record_invocation_result_with_contracts now invocation result scope [] None c.

(* SRC engine/catalog/registry/idempotency.rs:199-223 LiveCatalog::complete_invocation_idempotency *)
Definition complete_invocation_idempotency (now : instant) (r : IdempotencyReservation)
    (invocation : Invocation) (f : FunctionDefinition) (result : InvocationResult) (c : catalog)
  : option InvocationResult * catalog :=
  match lg_complete now (rv_key r) (inv_id invocation) (outcome_from_result debug result)
          (lc_ledger c) with
  | (Ok _, l) => (None, set_lc_ledger l c)
  | (Err err, l) => (Some (error_result f invocation (lc_revision c) err), set_lc_ledger l c)
  end.

(** ** Idempotency decisions of host paths *)

(* SRC engine/catalog/registry/idempotency.rs:17-30 InvocationIdempotencyDecision *)
Inductive InvocationIdempotencyDecision : Type :=
| Idem_None
| Idem_Reserved (reservation : IdempotencyReservation)
| Idem_Finished (result : InvocationResult) (scope : option IdempotencyScope).

(* SRC engine/catalog/registry/idempotency.rs:148-197 LiveCatalog::begin_invocation_idempotency *)
Definition begin_invocation_idempotency (now : instant) (f : FunctionDefinition)
    (invocation : Invocation) (c : catalog) : InvocationIdempotencyDecision * catalog :=
  match idempotency_lookup f invocation with
  | Ok None => (Idem_None, c)
  | Err err => (Idem_Finished (error_result f invocation (lc_revision c) err) None, c)
  | Ok (Some reservation) =>
      match lg_reserve now reservation (lc_ledger c) with
      | (Ok (Reserved _), l) => (Idem_Reserved reservation, set_lc_ledger l c)
      | (Ok (Existing existing), l) =>
          (Idem_Finished
             (result_for_existing_idempotency (lc_revision c) f invocation existing
                (rv_payload_fingerprint reservation)) (Some (ik_scope (ie_key existing))),
           set_lc_ledger l c)
      | (Err err, l) =>
          (Idem_Finished (error_result f invocation (lc_revision c) err)
             (Some (ik_scope (rv_key reservation))), set_lc_ledger l c)
      end
  end.

(** ** Preparation *)

(* SRC engine/catalog/registry/invocation.rs:21-32 PreparedSyncInvocation *)
Record PreparedSyncInvocation := {
  pi_invocation : Invocation;
  pi_function : FunctionDefinition;
  pi_handler : H;
  pi_idempotency : option IdempotencyReservation
}.

(* SRC engine/catalog/registry/invocation.rs:34-41 PreparedSyncInvocationDecision *)
Inductive PreparedSyncInvocationDecision : Type :=
| Execute (prepared : PreparedSyncInvocation)
| Finished (result : InvocationResult).

(* SRC engine/catalog/registry/invocation.rs:263-273 LiveCatalog::validate_invocation_grant *)
Definition validate_invocation_grant (now : instant) (f : FunctionDefinition)
    (invocation : Invocation) (c : catalog) : Result unit :=
  let? _ := authorize_invocation debug sha256_hex fs now f invocation (lc_grants c) in Ok tt.

(** [event] is the id of the grant event. *)
(* SRC engine/catalog/registry/invocation.rs:275-290 LiveCatalog::consume_invocation_budget *)
Definition consume_budget (now : instant) (event : string) (f : FunctionDefinition)
    (invocation : Invocation) (c : catalog) : Result catalog :=
  let ctx := inv_context invocation in
  let? (_, grants) := consume_invocation_budget now event
    {| cb_grant_id := cx_authority_grant_id ctx; cb_invocation_id := inv_id invocation;
       cb_function_id := fn_id f; cb_trace_id := cx_trace_id ctx |} (lc_grants c) in
  Ok (set_lc_grants grants c).

Definition finished (p : InvocationResult * catalog) : PreparedSyncInvocationDecision * catalog :=
  (Finished (fst p), snd p).

(** [if let Some(schema) = schema { schema::validate_payload(..)?; }] *)
Definition check_schema (f : FunctionDefinition) (direction : string) (schema : option Value)
    (value : Value) : Result unit :=
  match schema with
  | Some schema => validate_payload debug (fn_id f) direction schema value
  | None => Ok tt
  end.

(** The result of a reservation that is completed at once, or of its failure. *)
(* SRC engine/catalog/registry/invocation.rs:181-190! LiveCatalog::prepare_invocation *)
Definition settle_reservation (now : instant) (invocation : Invocation) (f : FunctionDefinition)
    (idempotency : option IdempotencyReservation) (result : InvocationResult) (c : catalog)
  : InvocationResult * catalog :=
  match idempotency with
  | Some reservation =>
      match complete_invocation_idempotency now reservation invocation f result c with
      | (Some completion_error, c) => (completion_error, c)
      | (None, c) => (result, c)
      end
  | None => (result, c)
  end.

(** A refusal after the reservation: its outcome is completed with the error. *)
(* SRC engine/catalog/registry/invocation.rs:174-196! LiveCatalog::prepare_invocation *)
Definition refuse_reserved (now : instant) (invocation : Invocation) (f : FunctionDefinition)
    (idempotency : option IdempotencyReservation) (err : EngineError) (c : catalog)
  : PreparedSyncInvocationDecision * catalog :=
  let result := error_result f invocation (lc_revision c) err in
  let '(result, c) := settle_reservation now invocation f idempotency result c in
  finished (record_invocation_result now invocation result
              ((fun r => ik_scope (rv_key r)) <$> idempotency) c).

(** [invocation.causal_context.catalog_revision = revision] *)
Definition set_catalog_revision (revision : Z) (i : Invocation) : Invocation :=
  let c := inv_context i in
  {| inv_id := inv_id i; inv_function_id := inv_function_id i;
     inv_delivery_mode := inv_delivery_mode i; inv_payload := inv_payload i;
     inv_context :=
       {| cx_actor_id := cx_actor_id c; cx_actor_kind := cx_actor_kind c;
          cx_authority_grant_id := cx_authority_grant_id c;
          cx_authority_scopes := cx_authority_scopes c; cx_trace_id := cx_trace_id c;
          cx_parent_invocation_id := cx_parent_invocation_id c; cx_session_id := cx_session_id c;
          cx_workspace_id := cx_workspace_id c; cx_catalog_revision := revision;
          cx_trigger_id := cx_trigger_id c; cx_delivery_mode := cx_delivery_mode c;
          cx_idempotency_key := cx_idempotency_key c;
          cx_runtime_metadata := cx_runtime_metadata c |} |}.

(** The part after the reservation: schema, handler, budget. *)
(* SRC engine/catalog/registry/invocation.rs:170-261! LiveCatalog::prepare_invocation *)
Definition prepare_reserved (now : instant) (event : string) (invocation : Invocation)
    (f : FunctionDefinition) (handler : option H) (idempotency : option IdempotencyReservation)
    (c : catalog) : PreparedSyncInvocationDecision * catalog :=
  match check_schema f "request" (fn_request_schema f) (inv_payload invocation) with
  | Err err => refuse_reserved now invocation f idempotency err c
  | Ok _ =>
      match handler with
      | None =>
          refuse_reserved now invocation f idempotency
            (NotRoutable (inv_function_id invocation) "no in-process handler") c
      | Some handler =>
          match consume_budget now event f invocation c with
          | Err err => refuse_reserved now invocation f idempotency err c
          | Ok c =>
              (Execute {| pi_invocation := invocation; pi_function := f; pi_handler := handler;
                          pi_idempotency := idempotency |}, c)
          end
      end
  end.

(** [validate_policy(..).and_then(|_| self.validate_invocation_grant(..))] *)
(* SRC engine/catalog/registry/invocation.rs:99-100! LiveCatalog::prepare_invocation *)
Definition check_invocation (validate_policy : FunctionDefinition -> Invocation -> Result unit)
    (now : instant) (f : FunctionDefinition) (invocation : Invocation) (c : catalog)
  : Result unit :=
  let? _ := validate_policy f invocation in validate_invocation_grant now f invocation c.

(* SRC engine/catalog/registry/invocation.rs:71-261 LiveCatalog::prepare_invocation *)
Definition prepare_invocation (validate_policy : FunctionDefinition -> Invocation -> Result unit)
    (now : instant) (event : string) (invocation : Invocation) (c : catalog)
  : PreparedSyncInvocationDecision * catalog :=
  match lc_functions c !! inv_function_id invocation with
  | None =>
      finished (record_invocation_result now invocation
        (result_error invocation "missing" 0 (lc_revision c)
           (NotFound "function" (inv_function_id invocation))) None c)
  | Some entry =>
      let f := fe_definition entry in
      let invocation := set_catalog_revision (lc_revision c) invocation in
      match check_invocation validate_policy now f invocation c with
      | Err err =>
          finished (record_invocation_result now invocation
            (error_result f invocation (lc_revision c) err) None c)
      | Ok _ =>
          match idempotency_lookup f invocation with
          | Err err =>
              finished (record_invocation_result now invocation
                (error_result f invocation (lc_revision c) err) None c)
          | Ok None => prepare_reserved now event invocation f (fe_handler entry) None c
          | Ok (Some reservation) =>
              match lg_reserve now reservation (lc_ledger c) with
              | (Ok (Reserved _), l) =>
                  prepare_reserved now event invocation f (fe_handler entry) (Some reservation)
                    (set_lc_ledger l c)
              | (Ok (Existing existing), l) =>
                  finished (record_invocation_result now invocation
                    (result_for_existing_idempotency (lc_revision c) f invocation existing
                       (rv_payload_fingerprint reservation))
                    (Some (ik_scope (ie_key existing))) (set_lc_ledger l c))
              | (Err err, l) =>
                  finished (record_invocation_result now invocation
                    (error_result f invocation (lc_revision c) err)
                    (Some (ik_scope (rv_key reservation))) (set_lc_ledger l c))
              end
          end
      end
  end.

(* SRC engine/catalog/registry/invocation.rs:55-61 LiveCatalog::prepare_sync_invocation *)
Definition prepare_sync_invocation := prepare_invocation validate_invocation.
(* SRC engine/catalog/registry/invocation.rs:63-69 LiveCatalog::prepare_trigger_target_invocation *)
Definition prepare_trigger_target_invocation := prepare_invocation validate_trigger_target_invocation.

(** ** Completion *)

(** The result a handler's answer stands for. *)
(* SRC engine/catalog/registry/invocation.rs:323-370! LiveCatalog::finish_prepared_sync_invocation_with_contracts *)
Definition checked_result (p : PreparedSyncInvocation) (answer : Result Value)
  : InvocationResult :=
  let invocation := pi_invocation p in
  let f := pi_function p in
  let revision := cx_catalog_revision (inv_context invocation) in
  match answer with
  | Err err => error_result f invocation revision err
  | Ok value =>
      match validate_output_contract f invocation value with
      | Err err => error_result f invocation revision err
      | Ok _ =>
          match check_schema f "response" (fn_response_schema f) value with
          | Err err => error_result f invocation revision err
          | Ok _ => result_success invocation (fn_owner_worker f) (fn_revision f) revision value
          end
      end
  end.

(* SRC engine/catalog/registry/invocation.rs:307-402 LiveCatalog::finish_prepared_sync_invocation_with_contracts *)
Definition finish_prepared_sync_invocation_with_contracts (now : instant)
    (p : PreparedSyncInvocation) (answer : Result Value) (lease_ids : list string)
    (compensation_status : option string) (c : catalog) : InvocationResult * catalog :=
  let invocation := pi_invocation p in
  let f := pi_function p in
  let result := checked_result p answer in
  match pi_idempotency p with
  | Some reservation =>
      match lg_complete now (rv_key reservation) (inv_id invocation)
              (outcome_from_result debug result) (lc_ledger c) with
      | (Err err, l) =>
          record_invocation_result_with_contracts now invocation
            (error_result f invocation (cx_catalog_revision (inv_context invocation)) err)
            (Some (ik_scope (rv_key reservation))) lease_ids compensation_status (set_lc_ledger l c)
      | (Ok _, l) =>
          record_invocation_result_with_contracts now invocation result
            (Some (ik_scope (rv_key reservation))) lease_ids compensation_status (set_lc_ledger l c)
      end
  | None =>
      record_invocation_result_with_contracts now invocation result None lease_ids
        compensation_status c
  end.

(* SRC engine/catalog/registry/invocation.rs:292-305 LiveCatalog::finish_prepared_sync_invocation *)
Definition finish_prepared_sync_invocation (now : instant) (p : PreparedSyncInvocation)
    (answer : Result Value) (c : catalog) : InvocationResult * catalog :=
  finish_prepared_sync_invocation_with_contracts now p answer [] None c.

(** [invoke] runs a handler; the two instants are those of the two steps. *)
(* SRC engine/catalog/registry/invocation.rs:44-53 LiveCatalog::invoke_sync *)
Definition invoke_sync (invoke : H -> Invocation -> Result Value) (now now' : instant)
    (event : string) (invocation : Invocation) (c : catalog) : InvocationResult * catalog :=
  match prepare_sync_invocation now event invocation c with
  | (Finished result, c) => (result, c)
  | (Execute prepared, c) =>
      finish_prepared_sync_invocation now' prepared
        (invoke (pi_handler prepared) (pi_invocation prepared)) c
  end.
End invocation.
Arguments PreparedSyncInvocation : clear implicits.
Arguments PreparedSyncInvocationDecision : clear implicits.

(** ** At most one execution per key *)

Section guarantees.
  Context {H S : Type} `{!LedgerStore S}.
  Notation catalog := (LiveCatalog H S).
  Implicit Types (c : LiveCatalog H S) (p : PreparedSyncInvocation H) (h : option H).
  Variable debug : string -> string.
  Variable sha256_hex : string -> string.
  Variable encode : string -> string.
  Variable fs : FileSystem.
  Notation prepare := (prepare_invocation debug sha256_hex encode fs).
  Notation lookup_key := (idempotency_lookup sha256_hex encode).

Definition reservations (c : catalog) : gmap IdempotencyKey IdempotencyEntry :=
  ml_idempotency (lg_view (lc_ledger c)).

(** The key is reserved for payloads with the fingerprint. *)
Definition reserved_as (k : IdempotencyKey) (fingerprint : string) (c : catalog) : Prop :=
  exists e, reservations c !! k = Some e /\ ie_payload_fingerprint e = fingerprint.

(** Reservations are never dropped, nor bound to another payload. *)
Definition keeps_keys c c' : Prop :=
  forall k fingerprint, reserved_as k fingerprint c -> reserved_as k fingerprint c'.

Lemma keeps_is_Some c c' k :
  keeps_keys c c' -> is_Some (reservations c !! k) -> is_Some (reservations c' !! k).
Proof. intros Hk [e He]. destruct (Hk k _ (ex_intro _ e (conj He eq_refl))) as (e' & -> & _). eauto. Qed.
Lemma keeps_keys_refl c : keeps_keys c c.
Proof. by intros k. Qed.
Lemma keeps_keys_trans c1 c2 c3 : keeps_keys c1 c2 -> keeps_keys c2 c3 -> keeps_keys c1 c3.
Proof. unfold keeps_keys. auto. Qed.

Lemma reserve_view now r c res l :
  lg_reserve now r (lc_ledger c) = (res, l) ->
  match res with
  | Ok (Reserved e) => reservations c !! rv_key r = None /\ e = fresh_entry now r /\
      reservations (set_lc_ledger l c) = <[rv_key r := e]> (reservations c)
  | Ok (Existing e) => exists e0, reservations c !! rv_key r = Some e0 /\
      e = touch_entry now (rv_invocation_id r) e0 /\
      reservations (set_lc_ledger l c) = <[rv_key r := e]> (reservations c)
  | Err _ => reservations (set_lc_ledger l c) = reservations c
  end.
Proof.
  intros Hr. pose proof (lg_reserve_ok now r (lc_ledger c)) as Hok. rewrite Hr in Hok.
  unfold reservations. simpl. destruct res as [[e|e]|e]; simpl in Hok.
  - unfold memory_reserve_idempotency in Hok. destruct (_ !! _) eqn:He; [done|].
    injection Hok as <- <-. done.
  - unfold memory_reserve_idempotency in Hok. destruct (_ !! _) as [e0|] eqn:He; [|done].
    injection Hok as <- <-. eauto.
  - by rewrite Hok.
Qed.

Lemma complete_view now k id o c res l :
  lg_complete now k id o (lc_ledger c) = (res, l) ->
  match res with
  | Ok _ => exists e0, reservations c !! k = Some e0 /\
      reservations (set_lc_ledger l c) = <[k := settled_entry now id (lg_kept o) e0]> (reservations c)
  | Err _ => reservations (set_lc_ledger l c) = reservations c
  end.
Proof.
  intros Hr. pose proof (lg_complete_ok now k id o (lc_ledger c)) as Hok. rewrite Hr in Hok.
  unfold reservations. simpl. destruct res as [[]|e]; simpl in Hok; [|by rewrite Hok].
  unfold ledger_settle in Hok. destruct (_ !! _) as [e0|] eqn:He; [|done].
  injection Hok as <-. eauto.
Qed.

Lemma append_view r c res l :
  lg_append_invocation r (lc_ledger c) = (res, l) -> reservations (set_lc_ledger l c) = reservations c.
Proof.
  intros Hr. pose proof (lg_append_invocation_ok r (lc_ledger c)) as Hok. rewrite Hr in Hok.
  unfold reservations. simpl. destruct res as [[]|e]; simpl in Hok; [|by rewrite Hok].
  injection Hok as <-. done.
Qed.

Lemma keeps_keys_insert c c' k e :
  reservations c' = <[k := e]> (reservations c) ->
  (forall e0, reservations c !! k = Some e0 -> ie_payload_fingerprint e = ie_payload_fingerprint e0) ->
  keeps_keys c c'.
Proof.
  intros Hv He k' fp (e' & Hk' & <-). unfold reserved_as. rewrite Hv.
  destruct (decide (k' = k)) as [->|Hne].
  - exists e. rewrite lookup_insert_eq. auto.
  - exists e'. by rewrite lookup_insert_ne.
Qed.
Lemma keeps_keys_eq c c' : reservations c' = reservations c -> keeps_keys c c'.
Proof. intros Hv k fp. unfold reserved_as. by rewrite Hv. Qed.

Lemma reserve_keeps now r c res l :
  lg_reserve now r (lc_ledger c) = (res, l) -> keeps_keys c (set_lc_ledger l c).
Proof.
  intros Hr%reserve_view. destruct res as [[e|e]|e].
  - destruct Hr as (Hn & _ & Hv). eapply keeps_keys_insert; [done|]. congruence.
  - destruct Hr as (e0 & He0 & -> & Hv). eapply keeps_keys_insert; [done|].
    intros e. rewrite He0. by intros [= ->].
  - by apply keeps_keys_eq.
Qed.
Lemma complete_keeps now k id o c res l :
  lg_complete now k id o (lc_ledger c) = (res, l) -> keeps_keys c (set_lc_ledger l c).
Proof.
  intros Hr%complete_view. destruct res as [[]|e]; [|by apply keeps_keys_eq].
  destruct Hr as (e0 & He0 & Hv). eapply keeps_keys_insert; [done|].
  intros e. rewrite He0. by intros [= ->].
Qed.

Lemma record_reservations now i r scope leases comp c :
  reservations (snd (record_invocation_result_with_contracts now i r scope leases comp c))
  = reservations c.
Proof.
  unfold record_invocation_result_with_contracts.
  destruct (lg_append_invocation _ _) as [[[]|e] l] eqn:Ha; simpl; exact (append_view _ _ _ _ Ha).
Qed.

Lemma settle_keeps now i f idem r c :
  keeps_keys c (snd (settle_reservation debug now i f idem r c)) /\
  lc_grants (snd (settle_reservation debug now i f idem r c)) = lc_grants c.
Proof.
  unfold settle_reservation, complete_invocation_idempotency.
  destruct idem as [rv|]; [|split; [apply keeps_keys_refl|done]].
  destruct (lg_complete _ _ _ _ _) as [[[]|e] l] eqn:Hc; simpl;
    (split; [exact (complete_keeps _ _ _ _ _ _ _ Hc)|done]).
Qed.

Lemma record_grants now i r scope leases comp c :
  lc_grants (snd (record_invocation_result_with_contracts now i r scope leases comp c)) = lc_grants c.
Proof.
  unfold record_invocation_result_with_contracts.
  by destruct (lg_append_invocation _ _) as [[[]|e] l].
Qed.

Lemma refuse_spec now i f idem err c :
  exists r c', refuse_reserved debug now i f idem err c = (Finished r, c') /\
    keeps_keys c c' /\ lc_grants c' = lc_grants c.
Proof.
  unfold refuse_reserved, finished, record_invocation_result.
  destruct (settle_keeps now i f idem (error_result f i (lc_revision c) err) c) as [Hk Hg].
  destruct (settle_reservation _ _ _ _ _ _ _) as [r c1]. simpl in *.
  do 2 eexists. split; [reflexivity|]. split.
  - eapply keeps_keys_trans; [exact Hk|]. apply keeps_keys_eq, record_reservations.
  - by rewrite record_grants.
Qed.

Lemma refuse_keeps now i f idem err c :
  keeps_keys c (snd (refuse_reserved debug now i f idem err c)).
Proof. by destruct (refuse_spec now i f idem err c) as (r & c' & -> & ? & _). Qed.

Lemma consume_budget_frame now ev f i c c' :
  consume_budget now ev f i c = Ok c' -> exists g, c' = set_lc_grants g c.
Proof.
  unfold consume_budget. destruct (consume_invocation_budget _ _ _ _) as [[g gs]|]; [|done].
  intros [= <-]. eauto.
Qed.

Lemma prepare_reserved_keeps now ev i f h idem c :
  keeps_keys c (snd (prepare_reserved debug now ev i f h idem c)).
Proof.
  unfold prepare_reserved. destruct (check_schema debug f _ _ _); [|apply refuse_keeps].
  destruct h as [h|]; [|apply refuse_keeps].
  destruct (consume_budget now ev f i c) as [c'|] eqn:Hb; [|apply refuse_keeps].
  apply consume_budget_frame in Hb as [g ->]. by intros k.
Qed.

Lemma prepare_reserved_execute now ev i f h idem c p c' :
  prepare_reserved debug now ev i f h idem c = (Execute p, c') -> pi_idempotency p = idem.
Proof.
  assert (forall err, refuse_reserved debug now i f idem err c <> (Execute p, c')) as Hno.
  { intros err. by destruct (refuse_spec now i f idem err c) as (? & ? & -> & _). }
  unfold prepare_reserved. destruct (check_schema debug f _ _ _); [|by intros ?%Hno].
  destruct h as [h|]; [|by intros ?%Hno].
  destruct (consume_budget now ev f i c) as [c1|]; [|by intros ?%Hno]. by intros [= <- _].
Qed.

Lemma prepare_keeps vp now ev i c : keeps_keys c (snd (prepare vp now ev i c)).
Proof.
  unfold prepare_invocation, finished, record_invocation_result.
  destruct (lc_functions c !! inv_function_id i) as [entry|]; simpl;
    [|apply keeps_keys_eq, record_reservations].
  destruct (check_invocation _ _ _ _ _ _ _ _); simpl; [|apply keeps_keys_eq, record_reservations].
  destruct (idempotency_lookup _ _ _ _) as [[r|]|]; simpl;
    [|apply prepare_reserved_keeps|apply keeps_keys_eq, record_reservations].
  destruct (lg_reserve now r (lc_ledger c)) as [[[e|e]|e] l] eqn:Hr;
    (eapply keeps_keys_trans; [exact (reserve_keeps _ _ _ _ _ Hr)|]);
    [apply prepare_reserved_keeps|apply keeps_keys_eq, record_reservations ..].
Qed.

Lemma lookup_fingerprint f i r :
  lookup_key f i = Ok (Some r) ->
  rv_payload_fingerprint r = payload_fingerprint sha256_hex encode (inv_payload i).
Proof. unfold idempotency_lookup. intros Hl. inv_ok; done. Qed.

(** An execution with a reservation starts from a free key and leaves it taken. *)
Lemma prepare_execute_fresh vp now ev i c p c' r :
  prepare vp now ev i c = (Execute p, c') -> pi_idempotency p = Some r ->
  reservations c !! rv_key r = None /\ reserved_as (rv_key r) (rv_payload_fingerprint r) c' /\
  rv_payload_fingerprint r = payload_fingerprint sha256_hex encode (inv_payload i).
Proof.
  unfold prepare_invocation, finished. intros Hp Hr.
  destruct (lc_functions c !! inv_function_id i) as [entry|]; [|done]. cbv zeta in Hp.
  destruct (check_invocation _ _ _ _ _ _ _ _); [|done].
  destruct (idempotency_lookup _ _ _ _) as [[r'|]|] eqn:Hlook; [| |done].
  2: { apply prepare_reserved_execute in Hp. congruence. }
  destruct (lg_reserve now r' (lc_ledger c)) as [[[e|e]|e] l] eqn:Hres; [|done|done].
  pose proof (prepare_reserved_execute _ _ _ _ _ _ _ _ _ Hp) as Hidem.
  assert (r' = r) as -> by congruence.
  pose proof (prepare_reserved_keeps now ev (set_catalog_revision (lc_revision c) i)
    (fe_definition entry) (fe_handler entry) (Some r) (set_lc_ledger l c)) as Hk.
  rewrite Hp in Hk. apply reserve_view in Hres as (Hnone & -> & Hv). split; [done|].
  split; [|exact (lookup_fingerprint _ _ _ Hlook)].
  apply Hk. eexists. by rewrite Hv, lookup_insert_eq.
Qed.

Lemma finish_keeps now p answer leases comp c :
  keeps_keys c (snd (finish_prepared_sync_invocation_with_contracts debug now p answer leases comp c)).
Proof.
  unfold finish_prepared_sync_invocation_with_contracts. destruct (pi_idempotency p) as [r|].
  - destruct (lg_complete _ _ _ _ _) as [[[]|e] l] eqn:Hc;
      (eapply keeps_keys_trans; [exact (complete_keeps _ _ _ _ _ _ _ Hc)|]);
      apply keeps_keys_eq, record_reservations.
  - apply keeps_keys_eq, record_reservations.
Qed.

Lemma begin_keeps now f i c :
  keeps_keys c (snd (begin_invocation_idempotency sha256_hex encode now f i c)).
Proof.
  unfold begin_invocation_idempotency.
  destruct (idempotency_lookup _ _ _ _) as [[r|]|]; try apply keeps_keys_refl.
  destruct (lg_reserve now r (lc_ledger c)) as [[[e|e]|e] l] eqn:Hr;
    exact (reserve_keeps _ _ _ _ _ Hr).
Qed.

Lemma begin_reserved_fresh now f i c r c' :
  begin_invocation_idempotency sha256_hex encode now f i c = (Idem_Reserved r, c') ->
  reservations c !! rv_key r = None /\ is_Some (reservations c' !! rv_key r).
Proof.
  unfold begin_invocation_idempotency.
  destruct (idempotency_lookup _ _ _ _) as [[r'|]|]; try done.
  destruct (lg_reserve now r' (lc_ledger c)) as [[[e|e]|e] l] eqn:Hr; try done.
  intros [= -> <-]. apply reserve_view in Hr as (Hn & _ & Hv). split; [done|].
  rewrite Hv, lookup_insert_eq. eauto.
Qed.

Lemma registry_keeps_keys c c' : registry_step c c' -> reservations c' = reservations c.
Proof.
  intros Hs. apply (registry_keeps (fun x => reservations x = reservations c)) with (c := c);
    [|done|done].
  unfold reservations. constructor; simpl; try done.
  - intros c1 l ws fs' H1 Hl. by rewrite Hl.
  - intros c1 change l H1 _ _ Hl. injection Hl as Hl. by rewrite <- Hl.
Qed.

(** A run of the engine: invocations prepared and finished in any interleaving
    (a handler runs between the two), host paths that reserve a key for
    themselves, and registry operations.  The trace lists the keys under which
    work was started. *)
Inductive run : catalog -> list IdempotencyKey -> catalog -> Prop :=
| run_done c : run c [] c
| run_execute vp now ev i c p c' keys c'' :
    prepare vp now ev i c = (Execute p, c') -> run c' keys c'' ->
    run c (match pi_idempotency p with Some r => rv_key r :: keys | None => keys end) c''
| run_answered vp now ev i c r c' keys c'' :
    prepare vp now ev i c = (Finished r, c') -> run c' keys c'' -> run c keys c''
| run_finish now p answer leases comp c keys c'' :
    run (snd (finish_prepared_sync_invocation_with_contracts debug now p answer leases comp c))
      keys c'' ->
    run c keys c''
| run_begin now f i c r c' keys c'' :
    begin_invocation_idempotency sha256_hex encode now f i c = (Idem_Reserved r, c') ->
    run c' keys c'' -> run c (rv_key r :: keys) c''
| run_begin_other now f i c keys c'' :
    (forall r, fst (begin_invocation_idempotency sha256_hex encode now f i c) <> Idem_Reserved r) ->
    run (snd (begin_invocation_idempotency sha256_hex encode now f i c)) keys c'' ->
    run c keys c''
| run_registry c c' keys c'' : registry_step c c' -> run c' keys c'' -> run c keys c''.

Lemma fresh_keys_step c c' keys k :
  keeps_keys c c' -> reservations c !! k = None -> is_Some (reservations c' !! k) ->
  NoDup keys /\ (forall k, k ∈ keys -> reservations c' !! k = None) ->
  NoDup (k :: keys) /\ (forall k', k' ∈ k :: keys -> reservations c !! k' = None).
Proof.
  intros Hk Hnone Hsome [Hnd Hfresh]. split.
  - constructor; [|done]. intros Hin. rewrite (Hfresh k Hin) in Hsome. by destruct Hsome.
  - intros k' [->|Hin]%elem_of_cons; [done|].
    apply eq_None_not_Some. intros Hs%(keeps_is_Some _ _ _ Hk). rewrite (Hfresh k' Hin) in Hs. by destruct Hs.
Qed.
Lemma fresh_keys_skip c c' keys :
  keeps_keys c c' ->
  NoDup keys /\ (forall k, k ∈ keys -> reservations c' !! k = None) ->
  NoDup keys /\ (forall k, k ∈ keys -> reservations c !! k = None).
Proof.
  intros Hk [Hnd Hfresh]. split; [done|]. intros k Hin.
  apply eq_None_not_Some. intros Hs%(keeps_is_Some _ _ _ Hk). rewrite (Hfresh k Hin) in Hs. by destruct Hs.
Qed.

(** C1: In every interleaving of preparing and finishing invocations, host paths that
    reserve a key for themselves, and registry operations, over any ledger store that keeps
    the ledger contract, work is started at most once under each idempotency key, and only
    under a key that had no reservation at the start. *)
Theorem each_key_executes_at_most_once c keys c' :
  run c keys c' ->
  NoDup keys /\ (forall k, k ∈ keys -> reservations c !! k = None).
Proof.
  induction 1 as [c|vp now ev i c p c' keys c'' Hp _ IH|vp now ev i c r c' keys c'' Hp _ IH
    |now p answer leases comp c keys c'' _ IH|now f i c r c' keys c'' Hb _ IH
    |now f i c keys c'' _ _ IH|c c' keys c'' Hs _ IH].
  - split; [constructor|]. by intros k ?%elem_of_nil.
  - pose proof (prepare_keeps vp now ev i c) as Hk. rewrite Hp in Hk. simpl in Hk.
    destruct (pi_idempotency p) as [r|] eqn:Hr; [|by eapply fresh_keys_skip].
    destruct (prepare_execute_fresh _ _ _ _ _ _ _ _ Hp Hr) as (Hn & (e & He & _) & _).
    by eapply fresh_keys_step.
  - pose proof (prepare_keeps vp now ev i c) as Hk. rewrite Hp in Hk. by eapply fresh_keys_skip.
  - eapply fresh_keys_skip; [apply finish_keeps|exact IH].
  - pose proof (begin_keeps now f i c) as Hk. rewrite Hb in Hk.
    destruct (begin_reserved_fresh _ _ _ _ _ _ Hb). by eapply fresh_keys_step.
  - eapply fresh_keys_skip; [apply begin_keeps|exact IH].
  - eapply fresh_keys_skip; [apply keeps_keys_eq, registry_keeps_keys; exact Hs|exact IH].
Qed.

Lemma run_keeps c keys c' : run c keys c' -> keeps_keys c c'.
Proof.
  induction 1 as [c|vp now ev i c p c' keys c'' Hp _ IH|vp now ev i c r c' keys c'' Hp _ IH
    |now p answer leases comp c keys c'' _ IH|now f i c r c' keys c'' Hb _ IH
    |now f i c keys c'' _ _ IH|c c' keys c'' Hs _ IH]; [apply keeps_keys_refl|..];
    (eapply keeps_keys_trans; [|exact IH]).
  - pose proof (prepare_keeps vp now ev i c) as Hk. by rewrite Hp in Hk.
  - pose proof (prepare_keeps vp now ev i c) as Hk. by rewrite Hp in Hk.
  - apply finish_keeps.
  - pose proof (begin_keeps now f i c) as Hk. by rewrite Hb in Hk.
  - apply begin_keeps.
  - apply keeps_keys_eq, registry_keeps_keys, Hs.
Qed.

(** *** Answers stay *)

(** Two entries that are replayed in the same way. *)
Definition same_answer (e e' : IdempotencyEntry) : Prop :=
  ie_key e' = ie_key e /\ ie_payload_fingerprint e' = ie_payload_fingerprint e /\
  ie_function_revision e' = ie_function_revision e /\ ie_replay_behavior e' = ie_replay_behavior e /\
  ie_status e' = ie_status e /\ ie_first_invocation_id e' = ie_first_invocation_id e /\
  ie_outcome e' = ie_outcome e.
Definition answered_as (k : IdempotencyKey) (e : IdempotencyEntry) (c : catalog) : Prop :=
  exists e', reservations c !! k = Some e' /\ same_answer e e'.

(** What other invocations, host paths and registry operations do: anything but finishing an execution
    under the key. *)
Inductive elsewhere (k : IdempotencyKey) (c : catalog) : catalog -> Prop :=
| elsewhere_prepare vp now ev i : elsewhere k c (snd (prepare vp now ev i c))
| elsewhere_finish now p answer leases comp :
    (forall r, pi_idempotency p = Some r -> rv_key r <> k) ->
    elsewhere k c (snd (finish_prepared_sync_invocation_with_contracts debug now p answer leases comp c))
| elsewhere_begin now f i : elsewhere k c (snd (begin_invocation_idempotency sha256_hex encode now f i c))
| elsewhere_registry c' : registry_step c c' -> elsewhere k c c'.

Lemma answered_eq k e c c' : reservations c' = reservations c -> answered_as k e c -> answered_as k e c'.
Proof. intros Hv. unfold answered_as. by rewrite Hv. Qed.
Lemma answered_complete now k' id o c res l k e :
  lg_complete now k' id o (lc_ledger c) = (res, l) -> k' <> k -> answered_as k e c ->
  answered_as k e (set_lc_ledger l c).
Proof.
  intros Hr%complete_view Hne He. destruct res as [[]|]; [|by eapply answered_eq].
  destruct Hr as (e0 & _ & Hv). unfold answered_as. rewrite Hv, lookup_insert_ne by done. done.
Qed.
Lemma answered_reserve now r c res l k e :
  lg_reserve now r (lc_ledger c) = (res, l) -> answered_as k e c ->
  answered_as k e (set_lc_ledger l c) /\ (forall x, res = Ok (Reserved x) -> rv_key r <> k).
Proof.
  intros Hr%reserve_view (e' & He & Hs). destruct res as [[x|x]|x].
  - destruct Hr as (Hn & _ & Hv). assert (rv_key r <> k) as Hne by (intros <-; congruence).
    split; [|done]. exists e'. by rewrite Hv, lookup_insert_ne.
  - split; [|done]. destruct Hr as (e0 & He0 & -> & Hv). unfold answered_as. rewrite Hv.
    destruct (decide (rv_key r = k)) as [<-|Hne]; [|exists e'; by rewrite lookup_insert_ne].
    rewrite He in He0. injection He0 as <-. eexists. rewrite lookup_insert_eq. split; [done|].
    unfold same_answer in *. simpl. intuition.
  - split; [|done]. eapply answered_eq; [done|by exists e'].
Qed.
Lemma answered_refuse now i f idem err c k e :
  (forall r, idem = Some r -> rv_key r <> k) -> answered_as k e c ->
  answered_as k e (snd (refuse_reserved debug now i f idem err c)).
Proof.
  intros Hne He. unfold refuse_reserved, finished, record_invocation_result, settle_reservation,
    complete_invocation_idempotency.
  destruct idem as [r|]; simpl.
  - destruct (lg_complete _ _ _ _ _) as [[[]|x] l] eqn:Hc; simpl;
      (eapply answered_eq; [apply record_reservations|]); by eapply answered_complete; eauto.
  - by eapply answered_eq; [apply record_reservations|].
Qed.
Lemma answered_prepare_reserved now ev i f h idem c k e :
  (forall r, idem = Some r -> rv_key r <> k) -> answered_as k e c ->
  answered_as k e (snd (prepare_reserved debug now ev i f h idem c)).
Proof.
  intros Hne He. unfold prepare_reserved. destruct (check_schema debug f _ _ _); [|by apply answered_refuse].
  destruct h as [h|]; [|by apply answered_refuse].
  destruct (consume_budget now ev f i c) as [c'|] eqn:Hb; [|by apply answered_refuse].
  by apply consume_budget_frame in Hb as [g ->].
Qed.
Lemma answered_elsewhere k e c c' : elsewhere k c c' -> answered_as k e c -> answered_as k e c'.
Proof.
  intros [vp now ev i|now p answer leases comp Hne|now f i|c1 Hs] He.
  - unfold prepare_invocation, finished, record_invocation_result.
    destruct (lc_functions c !! inv_function_id i) as [entry|]; simpl;
      [|by eapply answered_eq; [apply record_reservations|]].
    destruct (check_invocation _ _ _ _ _ _ _ _); simpl; [|by eapply answered_eq; [apply record_reservations|]].
    destruct (idempotency_lookup _ _ _ _) as [[r|]|]; simpl;
      [|by apply answered_prepare_reserved|by eapply answered_eq; [apply record_reservations|]].
    destruct (lg_reserve now r (lc_ledger c)) as [[[x|x]|x] l] eqn:Hr;
      destruct (answered_reserve _ _ _ _ _ _ _ Hr He) as [Hl Hne].
    + apply answered_prepare_reserved; [|done]. intros r' [= <-]. by eapply Hne.
    + by eapply answered_eq; [apply record_reservations|].
    + by eapply answered_eq; [apply record_reservations|].
  - unfold finish_prepared_sync_invocation_with_contracts. destruct (pi_idempotency p) as [r|].
    + destruct (lg_complete _ _ _ _ _) as [[[]|x] l] eqn:Hc;
        (eapply answered_eq; [apply record_reservations|]); by eapply answered_complete; eauto.
    + by eapply answered_eq; [apply record_reservations|].
  - unfold begin_invocation_idempotency. destruct (idempotency_lookup _ _ _ _) as [[r|]|]; [|done|done].
    destruct (lg_reserve now r (lc_ledger c)) as [[[x|x]|x] l] eqn:Hr;
      by destruct (answered_reserve _ _ _ _ _ _ _ Hr He) as [Hl _].
  - eapply answered_eq; [by apply registry_keeps_keys|done].
Qed.
Lemma answered_later k e c c' : rtc (elsewhere k) c c' -> answered_as k e c -> answered_as k e c'.
Proof. induction 1; eauto using answered_elsewhere. Qed.

(** A result recorded for an error is an error. *)
Lemma record_error now i r scope c :
  ir_value r = None -> is_Some (ir_error r) ->
  exists r' c', finished (record_invocation_result now i r scope c) = (Finished r' : PreparedSyncInvocationDecision H, c') /\
    ir_value r' = None /\ is_Some (ir_error r') /\ lc_grants c' = lc_grants c.
Proof.
  intros Hv He. pose proof (record_grants now i r scope [] None c) as Hg.
  unfold finished, record_invocation_result, record_invocation_result_with_contracts in *.
  destruct (lg_append_invocation _ _) as [[[]|e] l]; do 2 eexists; split; simpl; eauto.
Qed.

Lemma other_payload_conflicts revision f i existing fingerprint :
  ie_payload_fingerprint existing <> fingerprint ->
  result_for_existing_idempotency revision f i existing fingerprint
  = error_result f i revision (IdempotencyConflict (fn_id f) (ik_key (ie_key existing))
      "same key was used with a different payload").
Proof.
  intros Hne. unfold result_for_existing_idempotency.
  by rewrite (proj2 (String.eqb_neq _ _) Hne).
Qed.

(** A key under which work was started belongs to that payload: whatever happens in
    between, a later call that maps to the same key with a different payload is answered
    with an error, without a value, without running the handler and without spending budget
    (given that the two canonical payload texts do not collide under SHA-256 and that string
    literals are self-delimiting). *)
Theorem reused_key_needs_the_same_payload vp now ev i c p c1 rv keys c2 vp' now' ev' i' entry rv' :
  let text i := write_canonical_json encode (inv_payload i) in
  (sha256_hex (text i') = sha256_hex (text i) -> text i' = text i) ->
  (forall s, exists t, encode s = String quote t) ->
  (forall a b x y, encode a +s x = encode b +s y -> a = b /\ x = y) ->
  prepare vp now ev i c = (Execute p, c1) -> pi_idempotency p = Some rv ->
  run c1 keys c2 ->
  lc_functions c2 !! inv_function_id i' = Some entry ->
  lookup_key (fe_definition entry) (set_catalog_revision (lc_revision c2) i') = Ok (Some rv') ->
  rv_key rv' = rv_key rv ->
  serde_value (inv_payload i) = true -> serde_value (inv_payload i') = true ->
  inv_payload i' <> inv_payload i ->
  exists r c3, prepare vp' now' ev' i' c2 = (Finished r, c3) /\
    ir_value r = None /\ is_Some (ir_error r) /\ lc_grants c3 = lc_grants c2.
Proof.
  intros text Hsha Hq He Hp Hidem Hrun Hentry Hlook Hkey Hs1 Hs2 Hne.
  destruct (prepare_execute_fresh _ _ _ _ _ _ _ _ Hp Hidem) as (_ & Hres & Hfp).
  apply (run_keeps _ _ _ Hrun) in Hres as (e0 & He0 & Hfp0).
  unfold prepare_invocation. rewrite Hentry. cbv zeta.
  destruct (check_invocation _ _ _ _ _ _ _ _) as [[]|err]; [|by apply record_error].
  rewrite Hlook.
  destruct (lg_reserve now' rv' (lc_ledger c2)) as [[[e|e]|err] l] eqn:Hr; apply reserve_view in Hr.
  - destruct Hr as [Hn _]. congruence.
  - destruct Hr as (e1 & He1 & -> & _). assert (e1 = e0) as -> by congruence.
    rewrite other_payload_conflicts.
    { by apply (record_error now' _ _ _ (set_lc_ledger l c2)). }
    simpl. rewrite Hfp0, Hfp, (lookup_fingerprint _ _ _ Hlook).
    by intros E%eq_sym%Hsha%(canonical_json_injective encode Hq He).
  - by apply (record_error now' _ _ _ (set_lc_ledger l c2)).
Qed.

(** ** Budgets *)

(** The budget request of an invocation. *)
Definition budget_request (f : FunctionDefinition) (i : Invocation) : ConsumeGrantInvocationBudget :=
  {| cb_grant_id := cx_authority_grant_id (inv_context i); cb_invocation_id := inv_id i;
     cb_function_id := fn_id f; cb_trace_id := cx_trace_id (inv_context i) |}.

Definition spent_for (now : instant) (ev : string) (c : catalog)
    (d : PreparedSyncInvocationDecision H) (c' : catalog) : Prop :=
  match d with
  | Finished _ => lc_grants c' = lc_grants c
  | Execute p => exists g,
      consume_invocation_budget now ev (budget_request (pi_function p) (pi_invocation p)) (lc_grants c)
      = Ok (g, lc_grants c')
  end.

Lemma prepare_reserved_spends now ev i f h idem c :
  let '(d, c') := prepare_reserved debug now ev i f h idem c in spent_for now ev c d c'.
Proof.
  assert (forall err, let '(d, c') := refuse_reserved debug now i f idem err c in
    spent_for now ev c d c') as Hrefuse.
  { intros err. by destruct (refuse_spec now i f idem err c) as (? & ? & -> & _ & ?). }
  unfold prepare_reserved. destruct (check_schema debug f _ _ _); [|apply Hrefuse].
  destruct h as [h|]; [|apply Hrefuse].
  destruct (consume_budget now ev f i c) as [c'|] eqn:Hb; [|apply Hrefuse].
  unfold consume_budget in Hb.
  destruct (consume_invocation_budget _ _ _ _) as [[g gs]|] eqn:Hc; [|done].
  injection Hb as <-. exists g. exact Hc.
Qed.

(** Preparing an invocation changes the grant store only when the handler is going to
    run, and then by exactly the consumption of one unit for that invocation, grant and
    function; an answer given during preparation (refusal, replay, conflict) leaves the
    grants as they were. *)
Theorem only_executions_spend_budget vp now ev i c d c' :
  prepare vp now ev i c = (d, c') -> spent_for now ev c d c'.
Proof.
  unfold prepare_invocation, finished, record_invocation_result. intros Hp.
  destruct (lc_functions c !! inv_function_id i) as [entry|];
    [|simplify_eq; simpl; by rewrite record_grants].
  cbv zeta in Hp. destruct (check_invocation _ _ _ _ _ _ _ _); [|simplify_eq; simpl; by rewrite record_grants].
  destruct (idempotency_lookup _ _ _ _) as [[r|]|]; [| |simplify_eq; simpl; by rewrite record_grants].
  - destruct (lg_reserve now r (lc_ledger c)) as [[[e|e]|e] l] eqn:Hr;
      [|simplify_eq; simpl; by rewrite record_grants ..].
    pose proof (prepare_reserved_spends now ev (set_catalog_revision (lc_revision c) i)
      (fe_definition entry) (fe_handler entry) (Some r) (set_lc_ledger l c)) as Hs.
    by rewrite Hp in Hs.
  - pose proof (prepare_reserved_spends now ev (set_catalog_revision (lc_revision c) i)
      (fe_definition entry) (fe_handler entry) None c) as Hs.
    by rewrite Hp in Hs.
Qed.

(** ** Records *)

(** The answer [r] to [i] is the last record of the catalog and, as the ledger
    stores it, of the ledger, unless the ledger failed to append it and [r] is that failure. *)
Definition recorded (i : Invocation) (r : InvocationResult) c c' : Prop :=
  (exists record,
    lc_invocations c' = lc_invocations c ++ [record] /\
    ml_invocations (lg_view (lc_ledger c'))
      = ml_invocations (lg_view (lc_ledger c)) ++ [lg_stored record] /\
    rec_invocation_id record = inv_id i /\ rec_function_id record = inv_function_id i /\
    rec_result_value record = ir_value r /\ rec_error record = ir_error r /\
    rec_replayed_from record = ir_replayed_from r)
  \/ (exists record l e l', lg_append_invocation record l = (Err e, l') /\ ir_error r = Some e /\
      lc_invocations c' = lc_invocations c).

(** The logs of two catalogs agree. *)
Definition same_log c c' : Prop :=
  lc_invocations c' = lc_invocations c /\
  ml_invocations (lg_view (lc_ledger c')) = ml_invocations (lg_view (lc_ledger c)).

Lemma record_recorded now i i' r scope leases comp c c1 :
  inv_id i' = inv_id i -> inv_function_id i' = inv_function_id i -> same_log c c1 ->
  let '(r', c') := record_invocation_result_with_contracts now i' r scope leases comp c1 in
  recorded i r' c c'.
Proof.
  intros Hid Hfn [Hl Hv]. unfold record_invocation_result_with_contracts.
  pose proof (lg_append_invocation_ok (with_contracts (from_result_at i' r scope now) leases comp)
    (lc_ledger c1)) as Hok.
  destruct (lg_append_invocation _ _) as [[[]|e] l] eqn:Ha; simpl in Hok.
  - left. injection Hok as Hok. eexists. simpl. rewrite <- Hok, Hl. simpl. rewrite Hv.
    split_and!; try done; simpl; congruence.
  - right. do 4 eexists. split; [exact Ha|]. done.
Qed.

Lemma same_log_ledger c l :
  ml_invocations (lg_view l) = ml_invocations (lg_view (lc_ledger c)) -> same_log c (set_lc_ledger l c).
Proof. done. Qed.

Lemma reserve_log now r c res l :
  lg_reserve now r (lc_ledger c) = (res, l) -> same_log c (set_lc_ledger l c).
Proof.
  intros Hr. apply same_log_ledger. pose proof (lg_reserve_ok now r (lc_ledger c)) as Hok.
  rewrite Hr in Hok. destruct res as [o|e]; simpl in Hok; [|by rewrite Hok].
  unfold memory_reserve_idempotency in Hok. destruct (_ !! _); by injection Hok as _ <-.
Qed.
Lemma complete_log now k id o c res l :
  lg_complete now k id o (lc_ledger c) = (res, l) -> same_log c (set_lc_ledger l c).
Proof.
  intros Hr. apply same_log_ledger. pose proof (lg_complete_ok now k id o (lc_ledger c)) as Hok.
  rewrite Hr in Hok. destruct res as [[]|e]; simpl in Hok; [|by rewrite Hok].
  unfold ledger_settle in Hok. destruct (_ !! _); [by injection Hok as <-|done].
Qed.

Lemma settle_log now i f idem r c : same_log c (snd (settle_reservation debug now i f idem r c)).
Proof.
  unfold settle_reservation, complete_invocation_idempotency. destruct idem as [rv|]; [|done].
  destruct (lg_complete _ _ _ _ _) as [[[]|e] l] eqn:Hc; exact (complete_log _ _ _ _ _ _ _ Hc).
Qed.

Lemma refuse_recorded now i i' f idem err c c1 r c' :
  inv_id i' = inv_id i -> inv_function_id i' = inv_function_id i -> same_log c c1 ->
  refuse_reserved debug now i' f idem err c1 = (Finished r, c') -> recorded i r c c'.
Proof.
  intros Hid Hfn [Hl Hv]. unfold refuse_reserved, record_invocation_result, finished.
  pose proof (settle_log now i' f idem (error_result f i' (lc_revision c1) err) c1) as [Hl2 Hv2].
  destruct (settle_reservation _ _ _ _ _ _ _) as [r2 c2]. simpl in Hl2, Hv2.
  intros [= <- <-].
  pose proof (record_recorded now i i' r2 ((fun r => ik_scope (rv_key r)) <$> idem) [] None c c2
    Hid Hfn) as Hrec.
  destruct (record_invocation_result_with_contracts _ _ _ _ _ _ _) as [r3 c3]. apply Hrec.
  split; congruence.
Qed.

Lemma prepare_reserved_recorded now ev i i' f h idem c c1 r c' :
  inv_id i' = inv_id i -> inv_function_id i' = inv_function_id i -> same_log c c1 ->
  prepare_reserved debug now ev i' f h idem c1 = (Finished r, c') -> recorded i r c c'.
Proof.
  intros Hid Hfn Hlog. unfold prepare_reserved.
  destruct (check_schema debug f _ _ _); [|by apply refuse_recorded].
  destruct h as [h|]; [|by apply refuse_recorded].
  by destruct (consume_budget now ev f i' c1); [|apply refuse_recorded].
Qed.

Lemma finished_recorded now i i' r0 scope c c1 r c' :
  inv_id i' = inv_id i -> inv_function_id i' = inv_function_id i -> same_log c c1 ->
  finished (record_invocation_result now i' r0 scope c1) = (Finished r, c') -> recorded i r c c'.
Proof.
  intros Hid Hfn Hlog [= <- <-]. unfold record_invocation_result.
  pose proof (record_recorded now i i' r0 scope [] None c c1 Hid Hfn Hlog) as Hrec.
  by destruct (record_invocation_result_with_contracts _ _ _ _ _ _ _).
Qed.

Lemma finish_recorded now p answer leases comp c r c' :
  finish_prepared_sync_invocation_with_contracts debug now p answer leases comp c = (r, c') ->
  recorded (pi_invocation p) r c c'.
Proof.
  unfold finish_prepared_sync_invocation_with_contracts. intros Hf.
  destruct (pi_idempotency p) as [rv|].
  - destruct (lg_complete _ _ _ _ _) as [[[]|e] l] eqn:Hc; apply complete_log in Hc;
      match type of Hf with record_invocation_result_with_contracts _ _ ?r0 ?s _ _ ?c1 = _ =>
        pose proof (record_recorded now (pi_invocation p) (pi_invocation p) r0 s leases comp c c1
          eq_refl eq_refl Hc) as Hrec end;
      by rewrite Hf in Hrec.
  - pose proof (record_recorded now (pi_invocation p) (pi_invocation p)
      (checked_result debug p answer) None leases comp c c eq_refl eq_refl (conj eq_refl eq_refl))
      as Hrec. by rewrite Hf in Hrec.
Qed.

(** Every answer, given during preparation or after a handler, is appended as one
    record with the invocation's id, value, error and replay origin to the catalog's log
    and, as the ledger stores it, to the ledger's log; the only exception is a ledger that
    fails to append, and then the answer is that failure. *)
Theorem every_answer_is_recorded :
  (forall vp now ev i c r c', prepare vp now ev i c = (Finished r, c') -> recorded i r c c') /\
  (forall now p answer leases comp c r c',
    finish_prepared_sync_invocation_with_contracts debug now p answer leases comp c = (r, c') ->
    recorded (pi_invocation p) r c c').
Proof.
  split.
  - intros vp now ev i c r c'. unfold prepare_invocation.
    destruct (lc_functions c !! inv_function_id i) as [entry|]; [|by apply finished_recorded].
    cbv zeta. destruct (check_invocation _ _ _ _ _ _ _ _); [|by apply finished_recorded].
    destruct (idempotency_lookup _ _ _ _) as [[rv|]|];
      [|by apply prepare_reserved_recorded|by apply finished_recorded].
    destruct (lg_reserve now rv (lc_ledger c)) as [[[e|e]|e] l] eqn:Hr; apply reserve_log in Hr;
      [by apply prepare_reserved_recorded|by apply finished_recorded ..].
  - intros now p answer leases comp c r c'. apply finish_recorded.
Qed.
End guarantees.

(** ** Retries *)

Section retries.
  Context {H : Type}.
  Notation catalog := (LiveCatalog H LedgerMemory).
  Implicit Types (c : LiveCatalog H LedgerMemory) (p : PreparedSyncInvocation H).
  Variable debug : string -> string.
  Variable sha256_hex : string -> string.
  Variable encode : string -> string.
  Variable fs : FileSystem.
  Notation prepare := (prepare_invocation debug sha256_hex encode fs).
  Notation lookup_key := (idempotency_lookup sha256_hex encode).

(** The same request under a new id. *)
Definition retry_of (i i' : Invocation) : Prop :=
  inv_function_id i' = inv_function_id i /\ inv_payload i' = inv_payload i /\
  inv_context i' = inv_context i.

Lemma prepare_reserved_frame now ev i f h idem c p c' :
  prepare_reserved debug now ev i f h idem c = (Execute p, c') ->
  pi_function p = f /\ pi_invocation p = i /\ pi_idempotency p = idem /\
  exists g, c' = set_lc_grants g c.
Proof.
  assert (forall err, refuse_reserved debug now i f idem err c <> (Execute p, c')) as Hno.
  { intros err. by destruct (refuse_spec debug now i f idem err c) as (? & ? & -> & _). }
  unfold prepare_reserved. destruct (check_schema debug f _ _ _); [|by intros ?%Hno].
  destruct h as [h|]; [|by intros ?%Hno].
  destruct (consume_budget now ev f i c) as [c1|] eqn:Hb; [|by intros ?%Hno].
  intros [= <- <-]. split_and!; try done. by eapply consume_budget_frame.
Qed.

Lemma prepare_execute_spec vp now ev i c p c' rv :
  prepare vp now ev i c = (Execute p, c') -> pi_idempotency p = Some rv ->
  exists entry g, lc_functions c !! inv_function_id i = Some entry /\
    pi_function p = fe_definition entry /\
    pi_invocation p = set_catalog_revision (lc_revision c) i /\
    lookup_key (pi_function p) (pi_invocation p) = Ok (Some rv) /\
    c' = set_lc_grants g (set_lc_ledger
           (set_ml_idempotency (<[rv_key rv := fresh_entry now rv]> (ml_idempotency (lc_ledger c)))
              (lc_ledger c)) c).
Proof.
  unfold prepare_invocation, finished. intros Hp Hr.
  destruct (lc_functions c !! inv_function_id i) as [entry|]; [|done]. cbv zeta in Hp.
  destruct (check_invocation _ _ _ _ _ _ _ _); [|done].
  destruct (idempotency_lookup _ _ _ _) as [[r'|]|] eqn:Hlook; [| |done].
  2: { apply prepare_reserved_frame in Hp as (_ & _ & Hi & _). congruence. }
  change (lg_reserve now r' (lc_ledger c)) with (memory_reserve_idempotency now r' (lc_ledger c)) in Hp.
  unfold memory_reserve_idempotency in Hp. destruct (ml_idempotency _ !! _); [done|].
  apply prepare_reserved_frame in Hp as (Hf & Hi & Hidem & g & ->).
  assert (r' = rv) as -> by congruence. exists entry, g. rewrite Hf, Hi. done.
Qed.

Lemma lookup_key_retry f i i' :
  retry_of i i' ->
  lookup_key f i' =
    match lookup_key f i with
    | Ok (Some rv) =>
        Ok (Some {| rv_key := rv_key rv; rv_payload_fingerprint := rv_payload_fingerprint rv;
                    rv_function_revision := rv_function_revision rv;
                    rv_replay_behavior := rv_replay_behavior rv; rv_invocation_id := inv_id i' |})
    | other => other
    end.
Proof.
  intros (Hf & Hp & Hc). unfold idempotency_lookup, idempotency_scope_value. rewrite Hp, Hc.
  destruct (fn_idempotency f) as [contract|]; [|done].
  destruct (cx_idempotency_key (inv_context i)) as [key|]; [|done].
  destruct (ic_ledger_kind contract); try done;
    destruct (ic_dedupe_scope contract); try done;
    try (destruct (cx_session_id (inv_context i)); done);
    destruct (cx_workspace_id (inv_context i)); done.
Qed.

Lemma lookup_key_fields f i rv :
  lookup_key f i = Ok (Some rv) -> rv_invocation_id rv = inv_id i /\ rv_function_revision rv = fn_revision f.
Proof. unfold idempotency_lookup. intros Hl. inv_ok; done. Qed.

(** The first answer's fields that a replay reproduces. *)
Definition replayed (debug : string -> string) (first again : InvocationResult) : Prop :=
  ir_value again = ir_value first /\
  ir_error again = (fun e => to_replay_error (from_engine_error debug e)) <$> ir_error first.

Lemma replay_checked_result p answer i w frev crev first_id :
  replayed debug (checked_result debug p answer)
    (to_replay_result (outcome_from_result debug (checked_result debug p answer)) i w frev crev
       first_id).
Proof.
  unfold checked_result. destruct answer as [v|e]; [|done].
  destruct (validate_output_contract _ _ _); [|done].
  by destruct (check_schema debug _ _ _ _).
Qed.

End retries.

(** ** Concrete runs *)

Definition sample_save : FunctionDefinition :=
  {| fn_id := "demo::save"; fn_revision := 1; fn_owner_worker := "demo"; fn_description := "Saves";
     fn_request_schema := None; fn_response_schema := None; fn_opaque_response := false;
     fn_tags := []; fn_visibility := Vis_System; fn_effect_class := Effect_IdempotentWrite;
     fn_risk_level := Risk_Low; fn_idempotency := Some caller_session; fn_resource_lease := None;
     fn_compensation := None; fn_output_contract := Output_None;
     fn_required_authority := {| ar_scopes := [] |};
     fn_allowed_delivery_modes := [Delivery_Sync]; fn_health := Health_Healthy;
     fn_provenance := provenance_system; fn_metadata := Null |}.
Definition save_catalog : sample_catalog :=
  snd (register_function no_text no_debug 2 sample_save (Some tt) false catalog1).
Definition save_call (id : string) : Invocation :=
  new_sync id "demo::save" (VObject [("n", VNumber (PosInt 1))])
    (with_idempotency_key (with_session_id (causal_context_new "agent" Actor_Agent "grant" "t") "s1")
       "k1").
Definition sample_prepare (i : Invocation) (c : sample_catalog)
  : PreparedSyncInvocationDecision unit * sample_catalog :=
  prepare_sync_invocation no_debug no_debug no_debug sample_fs 3 "ev" i c.
Definition prepared_save : PreparedSyncInvocation unit :=
  {| pi_invocation := set_catalog_revision 2 (save_call "i1"); pi_function := sample_save;
     pi_handler := tt;
     pi_idempotency := Some
       {| rv_key := {| ik_function_id := "demo::save";
                       ik_scope := {| scope_kind := "session"; scope_value := "s1" |};
                       ik_key := "k1" |};
          rv_payload_fingerprint := "{n:1}"; rv_function_revision := 1;
          rv_replay_behavior := Replay_ReturnPrevious; rv_invocation_id := "i1" |} |}.
Definition saved : InvocationResult * sample_catalog :=
  finish_prepared_sync_invocation_with_contracts no_debug 4 prepared_save (Ok (VString "saved")) [] None
    (snd (sample_prepare (save_call "i1") save_catalog)).

Example save_executes :
  sample_prepare (save_call "i1") save_catalog
  = (Execute prepared_save, snd (sample_prepare (save_call "i1") save_catalog)).
Proof. vm_compute. reflexivity. Qed.

Lemma each_key_executes_at_most_once_witness :
  reservations save_catalog !!
    {| ik_function_id := "demo::save"; ik_scope := {| scope_kind := "session"; scope_value := "s1" |};
       ik_key := "k1" |} = None.
Proof.
  refine (proj2 (each_key_executes_at_most_once no_debug no_debug no_debug sample_fs save_catalog
    _ _ _) _ (list_elem_of_here _ [])).
  exact (run_execute no_debug no_debug no_debug sample_fs validate_invocation 3 "ev" (save_call "i1")
    save_catalog prepared_save _ [] _ save_executes (run_done _ _ _ _ _)).
Defined.

Lemma only_executions_spend_budget_witness :
  spent_for 3 "ev" save_catalog (Execute prepared_save)
    (snd (sample_prepare (save_call "i1") save_catalog)).
Proof.
  exact (only_executions_spend_budget no_debug no_debug no_debug sample_fs validate_invocation
    3 "ev" (save_call "i1") save_catalog _ _ save_executes).
Defined.

Lemma every_answer_is_recorded_witness :
  recorded (pi_invocation prepared_save) (fst saved)
    (snd (sample_prepare (save_call "i1") save_catalog)) (snd saved).
Proof.
  apply (proj2 (every_answer_is_recorded no_debug no_debug no_debug sample_fs)
    4 prepared_save (Ok (VString "saved")) [] None). apply surjective_pairing.
Defined.

(** Another retry in between. *)
Definition saved_later : PreparedSyncInvocationDecision unit * sample_catalog :=
  sample_prepare (save_call "i3") (snd saved).

(** The same key with another payload. *)
Definition literal_prepare (i : Invocation) (c : sample_catalog)
  : PreparedSyncInvocationDecision unit * sample_catalog :=
  prepare_sync_invocation no_debug no_debug marked_literal sample_fs 3 "ev" i c.
Definition literal_saved : PreparedSyncInvocation unit :=
  match fst (literal_prepare (save_call "i1") save_catalog) with
  | Execute p => p
  | Finished _ => prepared_save
  end.
Definition save_reservation (id payload : string) : IdempotencyReservation :=
  {| rv_key := {| ik_function_id := "demo::save";
                  ik_scope := {| scope_kind := "session"; scope_value := "s1" |};
                  ik_key := "k1" |};
     rv_payload_fingerprint := payload; rv_function_revision := 1;
     rv_replay_behavior := Replay_ReturnPrevious; rv_invocation_id := id |}.
Definition other_call : Invocation :=
  new_sync "i2" "demo::save" (VObject [("n", VNumber (PosInt 2))])
    (with_idempotency_key (with_session_id (causal_context_new "agent" Actor_Agent "grant" "t") "s1")
       "k1").

Lemma reused_key_needs_the_same_payload_witness :
  exists r c, literal_prepare other_call (snd (literal_prepare (save_call "i1") save_catalog))
              = (Finished r, c) /\ ir_value r = None.
Proof.
  destruct (reused_key_needs_the_same_payload no_debug no_debug marked_literal sample_fs
    validate_invocation 3 "ev" (save_call "i1") save_catalog literal_saved
    (snd (literal_prepare (save_call "i1") save_catalog))
    (save_reservation "i1" (payload_fingerprint no_debug marked_literal (inv_payload (save_call "i1")))) []
    (snd (literal_prepare (save_call "i1") save_catalog)) validate_invocation 3 "ev" other_call
    {| fe_definition := sample_save; fe_handler := Some tt; fe_volatile := false |}
    (save_reservation "i2" (payload_fingerprint no_debug marked_literal (inv_payload other_call))))
    as (r & c & Hp & Hv & _);
    [intros E; exact E|exact marked_literal_quote|exact marked_literal_ends
    |vm_compute; reflexivity|vm_compute; reflexivity|apply run_done|vm_compute; reflexivity
    |vm_compute; reflexivity|vm_compute; reflexivity|reflexivity|reflexivity|discriminate|].
  exists r, c. split; [exact Hp|exact Hv].
Defined.
