(* ===== verification/Compensation.v ===== *)
(** * Compensation records

    [authority/compensation.rs]: the host writes one durable record for each
    executed invocation of a function with a compensation contract, so that an
    operator can see the leases and the outcome.  There are two stores, in memory
    (records by id with an index by invocation) and in SQLite (a table with a
    unique invocation column).  [CompensationStore] is what the host relies on;
    both stores are instances.

    The table is the list of its rows in insertion order.  The JSON and RFC 3339
    texts of a row are taken as exact; the status codec is modelled, and so is the
    constraint error of a duplicate primary key, with its text as a parameter. *)

From stdpp Require Import base gmap strings list sorting relations.
From Stdlib Require Import ZArith Ascii String Lia.
From S2P Require Import Prelude Json Kernel Model Ledger.

#[local] Open Scope Z_scope.

(** ** Data *)

(* SRC engine/authority/compensation.rs:23-29 EngineCompensationStatus *)
Inductive EngineCompensationStatus : Type := Comp_Recorded.
#[global] Instance EngineCompensationStatus_eq_dec : EqDecision EngineCompensationStatus.
Proof. solve_decision. Defined.

(* SRC engine/authority/compensation.rs:32-38 EngineCompensationStatus::as_str *)
Definition compensation_status_as_str (s : EngineCompensationStatus) : string :=
  match s with Comp_Recorded => "recorded" end.

(* SRC engine/authority/compensation.rs:40-48 EngineCompensationStatus::parse *)
Definition compensation_status_parse (value : string) : Result EngineCompensationStatus :=
  if value =s "recorded" then Ok Comp_Recorded
  else Err (LedgerFailure "compensation.status" ("unknown compensation status " +s value)).

(* SRC engine/authority/compensation.rs:51-85 EngineCompensationRecord *)
Record EngineCompensationRecord := {
  cr_compensation_id : string;
  cr_invocation_id : InvocationId;
  cr_function_id : FunctionId;
  cr_function_revision : Z;
  cr_actor_id : ActorId;
  cr_authority_grant_id : AuthorityGrantId;
  cr_trace_id : TraceId;
  cr_parent_invocation_id : option InvocationId;
  cr_resource_lease_ids : list string;
  cr_contract : CompensationContract;
  cr_status : EngineCompensationStatus;
  cr_succeeded : bool;
  cr_result : option Value;
  cr_error : option StoredEngineError;
  cr_created_at : instant
}.

(** [record.compensation_id = id] *)
Definition set_compensation_id (id : string) (r : EngineCompensationRecord)
  : EngineCompensationRecord :=
  {| cr_compensation_id := id; cr_invocation_id := cr_invocation_id r;
     cr_function_id := cr_function_id r; cr_function_revision := cr_function_revision r;
     cr_actor_id := cr_actor_id r; cr_authority_grant_id := cr_authority_grant_id r;
     cr_trace_id := cr_trace_id r; cr_parent_invocation_id := cr_parent_invocation_id r;
     cr_resource_lease_ids := cr_resource_lease_ids r; cr_contract := cr_contract r;
     cr_status := cr_status r; cr_succeeded := cr_succeeded r; cr_result := cr_result r;
     cr_error := cr_error r; cr_created_at := cr_created_at r |}.

(* SRC engine/authority/compensation.rs:273-301 compensation_record *)
Definition compensation_record (debug : string -> string) (now : instant)
    (invocation : Invocation) (result : InvocationResult) (contract : CompensationContract)
    (resource_lease_ids : list string) : EngineCompensationRecord :=
  let ctx := inv_context invocation in
  {| cr_compensation_id := ""; cr_invocation_id := inv_id invocation;
     cr_function_id := inv_function_id invocation;
     cr_function_revision := ir_function_revision result; cr_actor_id := cx_actor_id ctx;
     cr_authority_grant_id := cx_authority_grant_id ctx; cr_trace_id := cx_trace_id ctx;
     cr_parent_invocation_id := cx_parent_invocation_id ctx;
     cr_resource_lease_ids := resource_lease_ids; cr_contract := contract;
     cr_status := Comp_Recorded; cr_succeeded := negb (is_some (ir_error result));
     cr_result := ir_value result; cr_error := from_engine_error debug <$> ir_error result;
     cr_created_at := now |}.

(** ** The in-memory store *)

(* SRC engine/authority/compensation.rs:87-92 InMemoryEngineCompensationStore *)
Record CompensationMemory := {
  cm_records : gmap string EngineCompensationRecord;
  cm_by_invocation : gmap InvocationId string
}.

(* SRC engine/authority/compensation.rs:95-99 InMemoryEngineCompensationStore::new *)
Definition compensation_memory_new : CompensationMemory :=
  {| cm_records := ∅; cm_by_invocation := ∅ |}.

(** The record the index points at. *)
Definition memory_by_invocation (invocation : InvocationId) (s : CompensationMemory)
  : option EngineCompensationRecord :=
  cm_by_invocation s !! invocation ≫= fun id => cm_records s !! id.

(** [id] is the generated id. *)
(* SRC engine/authority/compensation.rs:101-117 InMemoryEngineCompensationStore::record *)
Definition compensation_memory_record (id : string) (r : EngineCompensationRecord)
    (s : CompensationMemory) : Result EngineCompensationRecord * CompensationMemory :=
  match memory_by_invocation (cr_invocation_id r) s with
  | Some existing => (Ok existing, s)
  | None =>
      let r := set_compensation_id id r in
      (Ok r, {| cm_records := <[id := r]> (cm_records s);
                cm_by_invocation := <[cr_invocation_id r := id]> (cm_by_invocation s) |})
  end.

(* SRC engine/authority/compensation.rs:119-122 InMemoryEngineCompensationStore::get *)
Definition compensation_memory_get (id : string) (s : CompensationMemory)
  : Result (option EngineCompensationRecord) := Ok (cm_records s !! id).

Definition created_le (a b : EngineCompensationRecord) : Prop :=
  cr_created_at a <= cr_created_at b.
#[global] Instance created_le_dec : RelDecision created_le.
Proof. intros a b. unfold created_le. apply _. Defined.
#[global] Instance created_le_trans : Transitive created_le.
Proof. intros a b c. unfold created_le. lia. Qed.
#[global] Instance created_le_total : Total created_le.
Proof. intros a b. unfold created_le. lia. Qed.

(* SRC engine/authority/compensation.rs:124-129 InMemoryEngineCompensationStore::list *)
Definition compensation_memory_list (s : CompensationMemory)
  : Result (list EngineCompensationRecord) :=
  Ok (merge_sort created_le (btree_values (cm_records s))).

(** ** The SQLite store *)

Definition CompensationTable : Type := list EngineCompensationRecord.

(* SRC engine/authority/compensation.rs:258-270 SqliteEngineCompensationStore::by_invocation *)
Definition table_by_invocation (invocation : InvocationId) (t : CompensationTable)
  : option EngineCompensationRecord :=
  List.find (fun r => cr_invocation_id r =s invocation) t.

(* SRC engine/authority/compensation.rs:232-242 SqliteEngineCompensationStore::get *)
Definition compensation_table_get (id : string) (t : CompensationTable)
  : Result (option EngineCompensationRecord) :=
  Ok (List.find (fun r => cr_compensation_id r =s id) t).

(* SRC engine/authority/compensation.rs:244-256 SqliteEngineCompensationStore::list *)
Definition compensation_table_list (t : CompensationTable)
  : Result (list EngineCompensationRecord) := Ok t.

Section sqlite.
  (** [err.to_string()] of a violated constraint. *)
  Variable duplicate_key_message : string.

(* SRC engine/authority/compensation.rs:178-230 SqliteEngineCompensationStore::record *)
Definition compensation_table_record (id : string) (r : EngineCompensationRecord)
    (t : CompensationTable) : Result EngineCompensationRecord * CompensationTable :=
  match table_by_invocation (cr_invocation_id r) t with
  | Some existing => (Ok existing, t)
  | None =>
      let r := set_compensation_id id r in
      if existsb (fun row => cr_compensation_id row =s id) t
      then (Err (LedgerFailure "compensation.insert" duplicate_key_message), t)
      else (Ok r, t ++ [r])
  end.
End sqlite.

(** ** What the host relies on

    A store as a map from invocations to their records.  Recording a new
    invocation under an unused id adds its record; recording a known one returns
    the record that is there and changes nothing. *)

Notation compensation_view := (gmap InvocationId EngineCompensationRecord) (only parsing).

Definition record_spec (id : string) (r : EngineCompensationRecord) (v : compensation_view)
  : Result EngineCompensationRecord * compensation_view :=
  match v !! cr_invocation_id r with
  | Some existing => (Ok existing, v)
  | None =>
      (Ok (set_compensation_id id r),
       <[cr_invocation_id r := set_compensation_id id r]> v)
  end.

(** [id] is not the id of a stored record. *)
Definition unused_id (id : string) (v : compensation_view) : Prop :=
  forall i r, v !! i = Some r -> cr_compensation_id r <> id.

Class CompensationStore (S : Type) := {
  cs_new : S;
  cs_record : string -> EngineCompensationRecord -> S -> Result EngineCompensationRecord * S;
  cs_get : string -> S -> Result (option EngineCompensationRecord);
  cs_list : S -> Result (list EngineCompensationRecord);
  cs_inv : S -> Prop;
  cs_view : S -> compensation_view;
  cs_new_inv : cs_inv cs_new;
  cs_new_view : cs_view cs_new = ∅;
  cs_view_key : forall s i r, cs_inv s -> cs_view s !! i = Some r -> cr_invocation_id r = i;
  cs_record_inv : forall id r s, cs_inv s -> unused_id id (cs_view s) ->
    cs_inv (snd (cs_record id r s));
  cs_record_ok : forall id r s, cs_inv s -> unused_id id (cs_view s) ->
    (fst (cs_record id r s), cs_view (snd (cs_record id r s))) = record_spec id r (cs_view s);
  cs_get_ok : forall id s, cs_inv s ->
    exists o, cs_get id s = Ok o /\
      forall r, o = Some r <-> cs_view s !! cr_invocation_id r = Some r /\ cr_compensation_id r = id;
  cs_list_ok : forall s, cs_inv s ->
    exists rs, cs_list s = Ok rs /\ rs ≡ₚ (map_to_list (cs_view s)).*2
}.

(** *** The in-memory store *)

Record compensation_memory_inv (s : CompensationMemory) : Prop := {
  cmi_index : forall i id, cm_by_invocation s !! i = Some id ->
    exists r, cm_records s !! id = Some r /\ cr_invocation_id r = i;
  cmi_records : forall id r, cm_records s !! id = Some r ->
    cr_compensation_id r = id /\ cm_by_invocation s !! cr_invocation_id r = Some id
}.

Definition compensation_memory_view (s : CompensationMemory) : compensation_view :=
  list_to_map (map (fun r => (cr_invocation_id r, r)) (btree_values (cm_records s))).

Lemma list_to_map_by_key {A} (key : A -> string) (rows : list A) i a :
  NoDup (map key rows) ->
  ((list_to_map (map (fun r => (key r, r)) rows) : gmap string A) !! i = Some a
   <-> a ∈ rows /\ key a = i).
Proof.
  intros Hnd. rewrite <- elem_of_list_to_map.
  - rewrite list_elem_of_fmap. split; [intros (r & [= -> ->] & Hr)|intros [Hr <-]]; eauto.
  - rewrite <- list_fmap_compose. exact Hnd.
Qed.

Lemma memory_values_nodup s :
  compensation_memory_inv s -> NoDup (map cr_invocation_id (btree_values (cm_records s))).
Proof.
  intros Hinv. unfold btree_values. rewrite map_map.
  change (map ?f ?l) with (f <$> l). rewrite btree_entries_perm.
  apply NoDup_fmap_2_strong; [|apply NoDup_map_to_list].
  intros [k1 r1] [k2 r2] H1%elem_of_map_to_list H2%elem_of_map_to_list Heq. simpl in Heq.
  destruct (cmi_records s Hinv _ _ H1) as [_ Hi1], (cmi_records s Hinv _ _ H2) as [_ Hi2].
  rewrite Heq in Hi1. assert (k1 = k2) as -> by congruence. congruence.
Qed.

Lemma memory_view_lookup s i r :
  compensation_memory_inv s ->
  (compensation_memory_view s !! i = Some r <-> memory_by_invocation i s = Some r).
Proof.
  intros Hinv. unfold compensation_memory_view.
  rewrite list_to_map_by_key by (by apply memory_values_nodup).
  rewrite elem_of_btree_values. unfold memory_by_invocation. split.
  - intros [[id Hid] <-]. destruct (cmi_records s Hinv _ _ Hid) as [_ ->]. done.
  - intros H. apply bind_Some in H as (id & Hi & Hr).
    destruct (cmi_index s Hinv _ _ Hi) as (r' & Hr' & Hri). simplify_eq. eauto.
Qed.

Lemma memory_view_None s i :
  compensation_memory_inv s ->
  memory_by_invocation i s = None -> compensation_memory_view s !! i = None.
Proof.
  intros Hinv Hn. apply eq_None_not_Some. intros [r Hr%memory_view_lookup]; [congruence|done].
Qed.

Lemma memory_unused_id s id :
  compensation_memory_inv s -> unused_id id (compensation_memory_view s) ->
  cm_records s !! id = None.
Proof.
  intros Hinv Hu. destruct (cm_records s !! id) as [r|] eqn:Hr; [|done]. exfalso.
  destruct (cmi_records s Hinv _ _ Hr) as [Hid Hix].
  eapply Hu; [|exact Hid]. apply memory_view_lookup; [done|].
  unfold memory_by_invocation. by rewrite Hix.
Qed.

Lemma memory_by_invocation_None s i :
  compensation_memory_inv s -> memory_by_invocation i s = None -> cm_by_invocation s !! i = None.
Proof.
  intros Hinv Hn. destruct (_ !! i) as [id|] eqn:Hi; [|done].
  destruct (cmi_index s Hinv _ _ Hi) as (r & Hr & _). unfold memory_by_invocation in Hn.
  rewrite Hi in Hn. simpl in Hn. congruence.
Qed.

Lemma compensation_memory_record_inv id r s :
  compensation_memory_inv s -> unused_id id (compensation_memory_view s) ->
  compensation_memory_inv (snd (compensation_memory_record id r s)).
Proof.
  intros Hinv Hu. pose proof (memory_unused_id s id Hinv Hu) as Hfresh.
  unfold compensation_memory_record.
  destruct (memory_by_invocation _ s) as [e|] eqn:He; [done|].
  pose proof (memory_by_invocation_None _ _ Hinv He) as Hix.
  split; simpl.
  - intros i id'. rewrite lookup_insert_Some. intros [[<- <-]|[Hne Hi]].
    + rewrite lookup_insert_eq. eauto.
    + destruct (cmi_index s Hinv _ _ Hi) as (r' & Hr' & <-). exists r'.
      rewrite lookup_insert_ne by congruence. done.
  - intros id' r'. rewrite lookup_insert_Some. intros [[<- <-]|[Hne Hr']]; simpl.
    + by rewrite lookup_insert_eq.
    + destruct (cmi_records s Hinv _ _ Hr') as [Hid Hi]. split; [done|].
      rewrite lookup_insert_ne by congruence. done.
Qed.

Lemma compensation_memory_record_ok id r s :
  compensation_memory_inv s -> unused_id id (compensation_memory_view s) ->
  (fst (compensation_memory_record id r s),
   compensation_memory_view (snd (compensation_memory_record id r s)))
  = record_spec id r (compensation_memory_view s).
Proof.
  intros Hinv Hu. pose proof (compensation_memory_record_inv id r s Hinv Hu) as Hinv'.
  pose proof (memory_unused_id s id Hinv Hu) as Hfresh.
  unfold compensation_memory_record, record_spec in *.
  destruct (memory_by_invocation _ s) as [e|] eqn:He; simpl in *.
  - rewrite <- memory_view_lookup in He by done. by rewrite He.
  - rewrite memory_view_None by done. f_equal. apply map_eq. intros i.
    apply option_eq. intros r'. rewrite memory_view_lookup by done.
    unfold memory_by_invocation. simpl. rewrite lookup_insert_Some.
    destruct (decide (cr_invocation_id r = i)) as [<-|Hne].
    + rewrite lookup_insert_eq. simpl. rewrite lookup_insert_eq. naive_solver.
    + rewrite lookup_insert_ne by done. rewrite memory_view_lookup by done.
      unfold memory_by_invocation. destruct (cm_by_invocation s !! i) as [id'|] eqn:Hi; simpl;
        [|naive_solver].
      destruct (cmi_index s Hinv _ _ Hi) as (r'' & Hr'' & _).
      rewrite lookup_insert_ne by congruence. naive_solver.
Qed.

Lemma memory_view_key s i r :
  compensation_memory_inv s -> compensation_memory_view s !! i = Some r -> cr_invocation_id r = i.
Proof.
  intros Hinv Hr%list_to_map_by_key; [by destruct Hr|by apply memory_values_nodup].
Qed.

Lemma compensation_memory_get_ok id s :
  compensation_memory_inv s ->
  exists o, compensation_memory_get id s = Ok o /\
    forall r, o = Some r <->
      compensation_memory_view s !! cr_invocation_id r = Some r /\ cr_compensation_id r = id.
Proof.
  intros Hinv. eexists. split; [done|]. intros r. rewrite memory_view_lookup by done.
  unfold memory_by_invocation. split.
  - intros Hr. destruct (cmi_records s Hinv _ _ Hr) as [Hid ->]. done.
  - intros [Hr <-]. apply bind_Some in Hr as (id' & Hi & Hr).
    by destruct (cmi_records s Hinv _ _ Hr) as [<- _].
Qed.

Lemma list_to_map_values {A} (key : A -> string) (rows : list A) :
  NoDup (map key rows) ->
  rows ≡ₚ (map_to_list (list_to_map (map (fun r => (key r, r)) rows) : gmap string A)).*2.
Proof.
  intros Hnd. rewrite map_to_list_to_map.
  - rewrite <- list_fmap_compose. by rewrite list_fmap_id.
  - rewrite <- list_fmap_compose. exact Hnd.
Qed.

Lemma compensation_memory_list_ok s :
  compensation_memory_inv s ->
  exists rs, compensation_memory_list s = Ok rs /\
    rs ≡ₚ (map_to_list (compensation_memory_view s)).*2.
Proof.
  intros Hinv. eexists. split; [done|]. rewrite merge_sort_Permutation.
  apply list_to_map_values. by apply memory_values_nodup.
Qed.

#[global] Program Instance compensation_memory_store : CompensationStore CompensationMemory := {|
  cs_new := compensation_memory_new;
  cs_record := compensation_memory_record;
  cs_get := compensation_memory_get;
  cs_list := compensation_memory_list;
  cs_inv := compensation_memory_inv;
  cs_view := compensation_memory_view;
  cs_view_key := memory_view_key;
  cs_record_inv := compensation_memory_record_inv;
  cs_record_ok := compensation_memory_record_ok;
  cs_get_ok := compensation_memory_get_ok;
  cs_list_ok := compensation_memory_list_ok
|}.
Next Obligation. by split. Qed.
Next Obligation. done. Qed.

(** *** The table *)

Record compensation_table_inv (t : CompensationTable) : Prop := {
  cti_invocations : NoDup (map cr_invocation_id t);
  cti_ids : NoDup (map cr_compensation_id t)
}.

Definition compensation_table_view (t : CompensationTable) : compensation_view :=
  list_to_map (map (fun r => (cr_invocation_id r, r)) t).

Lemma comp_table_view_lookup t i r :
  compensation_table_inv t ->
  (compensation_table_view t !! i = Some r <-> table_by_invocation i t = Some r).
Proof.
  intros [Hi _]. unfold compensation_table_view, table_by_invocation.
  by rewrite list_to_map_by_key, find_by_key.
Qed.

Lemma table_view_key t i r :
  compensation_table_inv t -> compensation_table_view t !! i = Some r -> cr_invocation_id r = i.
Proof. intros [Hi _] Hr%list_to_map_by_key; [by destruct Hr|done]. Qed.

Lemma table_unused_id t id :
  compensation_table_inv t -> unused_id id (compensation_table_view t) ->
  existsb (fun row => cr_compensation_id row =s id) t = false.
Proof.
  intros Hinv Hu. apply not_true_is_false. rewrite existsb_exists.
  intros (r & Hr & Heq%String.eqb_eq). eapply (Hu (cr_invocation_id r)); [|exact Heq].
  apply comp_table_view_lookup; [done|]. apply find_by_key; [apply Hinv|].
  by rewrite <- list_elem_of_In in Hr.
Qed.

Lemma table_by_invocation_None t i :
  table_by_invocation i t = None -> i ∉ map cr_invocation_id t.
Proof.
  unfold table_by_invocation. intros Hn Hin. apply list_elem_of_fmap in Hin as (r & -> & Hr).
  rewrite list_elem_of_In in Hr. apply (List.find_none _ _ Hn) in Hr.
  by rewrite String.eqb_refl in Hr.
Qed.

Section table.
  Variable message : string.

Lemma compensation_table_record_inv id r t :
  compensation_table_inv t -> unused_id id (compensation_table_view t) ->
  compensation_table_inv (snd (compensation_table_record message id r t)).
Proof.
  intros Hinv Hu. pose proof (table_unused_id t id Hinv Hu) as Hfresh.
  unfold compensation_table_record. destruct (table_by_invocation _ t) eqn:He; [done|].
  rewrite Hfresh. destruct Hinv as [Hi Hids].
  split; simpl; rewrite map_app; simpl; apply NoDup_app; split_and!; auto;
    try apply NoDup_singleton; intros x Hx ->%list_elem_of_singleton.
  - by eapply table_by_invocation_None.
  - apply list_elem_of_fmap in Hx as (r' & Hid & Hr').
    rewrite list_elem_of_In in Hr'. apply not_true_iff_false in Hfresh. apply Hfresh.
    apply existsb_exists. exists r'. split; [done|]. by apply String.eqb_eq.
Qed.

Lemma compensation_table_record_ok id r t :
  compensation_table_inv t -> unused_id id (compensation_table_view t) ->
  (fst (compensation_table_record message id r t),
   compensation_table_view (snd (compensation_table_record message id r t)))
  = record_spec id r (compensation_table_view t).
Proof.
  intros Hinv Hu. unfold compensation_table_record, record_spec.
  destruct (table_by_invocation _ t) as [e|] eqn:He.
  - apply comp_table_view_lookup in He as ->; done.
  - rewrite (table_unused_id t id Hinv Hu). simpl.
    destruct (compensation_table_view t !! cr_invocation_id r) as [e|] eqn:Hv;
      [apply comp_table_view_lookup in Hv; [congruence|done]|].
    f_equal. unfold compensation_table_view in *. rewrite map_app, list_to_map_app. simpl.
    rewrite <- insert_union_r by done. by rewrite map_union_empty.
Qed.

Lemma compensation_table_get_ok id t :
  compensation_table_inv t ->
  exists o, compensation_table_get id t = Ok o /\
    forall r, o = Some r <->
      compensation_table_view t !! cr_invocation_id r = Some r /\ cr_compensation_id r = id.
Proof.
  intros Hinv. eexists. split; [done|]. intros r. rewrite comp_table_view_lookup by done.
  unfold table_by_invocation. rewrite !find_by_key by apply Hinv. naive_solver.
Qed.

Lemma compensation_table_list_ok t :
  compensation_table_inv t ->
  exists rs, compensation_table_list t = Ok rs /\
    rs ≡ₚ (map_to_list (compensation_table_view t)).*2.
Proof. intros Hinv. eexists. split; [done|]. apply list_to_map_values, Hinv. Qed.

#[global] Program Instance compensation_table_store : CompensationStore CompensationTable := {|
  cs_new := [];
  cs_record := compensation_table_record message;
  cs_get := compensation_table_get;
  cs_list := compensation_table_list;
  cs_inv := compensation_table_inv;
  cs_view := compensation_table_view;
  cs_view_key := table_view_key;
  cs_record_inv := compensation_table_record_inv;
  cs_record_ok := compensation_table_record_ok;
  cs_get_ok := compensation_table_get_ok;
  cs_list_ok := compensation_table_list_ok
|}.
Next Obligation. by split; apply NoDup_nil_2. Qed.
Next Obligation. done. Qed.
End table.

(** ** The audit trail is append-only

    Over any store that keeps the contract. *)

Section audit.
  Context {S : Type} `{!CompensationStore S}.
  Implicit Types s : S.

Lemma record_view id r s :
  cs_inv s -> unused_id id (cs_view s) ->
  cs_view (snd (cs_record id r s)) = snd (record_spec id r (cs_view s)).
Proof. intros Hinv Hu. by rewrite <- (cs_record_ok id r s Hinv Hu). Qed.
Lemma record_answer id r s :
  cs_inv s -> unused_id id (cs_view s) ->
  fst (cs_record id r s) = fst (record_spec id r (cs_view s)).
Proof. intros Hinv Hu. by rewrite <- (cs_record_ok id r s Hinv Hu). Qed.

(** After a record call the invocation has the record that was returned. *)
Lemma recorded_view id r s stored :
  cs_inv s -> unused_id id (cs_view s) -> fst (cs_record id r s) = Ok stored ->
  cs_view (snd (cs_record id r s)) !! cr_invocation_id r = Some stored.
Proof.
  intros Hinv Hu. rewrite record_answer, record_view by done. unfold record_spec.
  destruct (_ !! _) eqn:He; simpl; intros [= <-]; [done|]. by rewrite lookup_insert_eq.
Qed.

(** The list has one row for an invocation that is in the view. *)
Lemma list_filter_by_invocation s i r :
  cs_inv s -> cs_view s !! i = Some r ->
  exists rs, cs_list s = Ok rs /\ List.filter (fun x => cr_invocation_id x =s i) rs = [r].
Proof.
  intros Hinv Hr. destruct (cs_list_ok s Hinv) as (rs & Hl & Hp). exists rs. split; [done|].
  apply Permutation_singleton_r. rewrite (filter_perm _ _ _ Hp).
  rewrite <- (insert_delete_id _ _ _ Hr), map_to_list_insert by apply lookup_delete_eq. simpl.
  rewrite (cs_view_key s i r Hinv Hr), String.eqb_refl.
  rewrite filter_none; [done|]. intros x Hx. apply list_elem_of_fmap in Hx as ([j y] & -> & Hy).
  apply elem_of_map_to_list, lookup_delete_Some in Hy as [Hne Hy]. simpl.
  rewrite (cs_view_key s j y Hinv Hy). apply String.eqb_neq. congruence.
Qed.

Inductive compensation_step : S -> S -> Prop :=
| step_record id r s :
    unused_id id (cs_view s) -> compensation_step s (snd (cs_record id r s)).

Lemma compensation_step_inv s s' : compensation_step s s' -> cs_inv s -> cs_inv s'.
Proof. destruct 1. intros. by apply cs_record_inv. Qed.
Lemma compensation_steps_inv s s' : rtc compensation_step s s' -> cs_inv s -> cs_inv s'.
Proof. induction 1; eauto using compensation_step_inv. Qed.

Lemma compensation_step_keeps s s' i r :
  compensation_step s s' -> cs_inv s -> cs_view s !! i = Some r -> cs_view s' !! i = Some r.
Proof.
  intros Hstep Hinv Hr. destruct Hstep as [id r' s Hu].
  rewrite (record_view id r' s Hinv Hu).
  unfold record_spec. destruct (cs_view s !! cr_invocation_id r') eqn:He; simpl; [done|].
  rewrite lookup_insert_ne by congruence. done.
Qed.

Lemma compensation_steps_keep s s' i r :
  rtc compensation_step s s' -> cs_inv s -> cs_view s !! i = Some r -> cs_view s' !! i = Some r.
Proof. induction 1; eauto using compensation_step_keeps, compensation_step_inv. Qed.

(** Whatever compensation store is used and whatever is recorded later, a second record for
    the same invocation gets the first one back and changes nothing, and a listing shows
    exactly one record of that invocation. *)
Theorem compensation_recorded_once (s s' : S) id r stored id' r' :
  cs_inv s -> unused_id id (cs_view s) ->
  fst (cs_record id r s) = Ok stored ->
  rtc compensation_step (snd (cs_record id r s)) s' ->
  unused_id id' (cs_view s') -> cr_invocation_id r' = cr_invocation_id r ->
  fst (cs_record id' r' s') = Ok stored /\
  cs_view (snd (cs_record id' r' s')) = cs_view s' /\
  (exists rs, cs_list s' = Ok rs /\
     List.filter (fun x => cr_invocation_id x =s cr_invocation_id r) rs = [stored]).
Proof.
  intros Hinv Hu Hok Hsteps Hu' Heq. pose proof (recorded_view _ _ _ _ Hinv Hu Hok) as Hv.
  pose proof (cs_record_inv id r s Hinv Hu) as Hinv1.
  pose proof (compensation_steps_keep _ _ _ _ Hsteps Hinv1 Hv) as Hv'.
  pose proof (compensation_steps_inv _ _ Hsteps Hinv1) as Hinv'.
  rewrite record_answer, record_view by done. unfold record_spec. rewrite Heq, Hv'.
  split; [done|]. split; [done|]. by apply list_filter_by_invocation.
Qed.
End audit.

(** ** The stores agree *)

Inductive compensation_op : Type :=
| Op_record (id : string) (r : EngineCompensationRecord)
| Op_get (id : string)
| Op_list.
Inductive compensation_response : Type :=
| Res_record (r : Result EngineCompensationRecord)
| Res_get (r : Result (option EngineCompensationRecord))
| Res_list (r : Result (list EngineCompensationRecord)).

Definition compensation_run {S} `{CompensationStore S} (op : compensation_op) (s : S)
  : compensation_response * S :=
  match op with
  | Op_record id r => let '(res, s) := cs_record id r s in (Res_record res, s)
  | Op_get id => (Res_get (cs_get id s), s)
  | Op_list => (Res_list (cs_list s), s)
  end.
Fixpoint compensation_script {S} `{CompensationStore S} (ops : list compensation_op) (s : S)
  : list compensation_response :=
  match ops with
  | [] => []
  | op :: ops => let '(res, s) := compensation_run op s in res :: compensation_script ops s
  end.

(** Generated ids are new, and each record is created later than the one before. *)
Fixpoint recorded_in_order (after : instant) (used : list string) (ops : list compensation_op)
  : Prop :=
  match ops with
  | [] => True
  | Op_record id r :: ops =>
      id ∉ used /\ after < cr_created_at r /\ recorded_in_order (cr_created_at r) (id :: used) ops
  | _ :: ops => recorded_in_order after used ops
  end.

Definition created_lt (a b : EngineCompensationRecord) : Prop :=
  cr_created_at a < cr_created_at b.

Record stores_match (after : instant) (used : list string) (m : CompensationMemory)
    (t : CompensationTable) : Prop := {
  sm_memory : compensation_memory_inv m;
  sm_table : compensation_table_inv t;
  sm_view : compensation_memory_view m = compensation_table_view t;
  sm_sorted : StronglySorted created_lt t;
  sm_after : Forall (fun r => cr_created_at r <= after) t;
  sm_used : Forall (fun r => cr_compensation_id r ∈ used) t
}.

Lemma sorted_lt_le t : StronglySorted created_lt t -> StronglySorted created_le t.
Proof.
  induction 1 as [|x l Hs IH Hf]; constructor; [done|].
  eapply Forall_impl; [exact Hf|]. unfold created_lt, created_le. lia.
Qed.

Lemma sorted_lt_inj t a b :
  StronglySorted created_lt t -> a ∈ t -> b ∈ t -> cr_created_at a = cr_created_at b -> a = b.
Proof.
  induction 1 as [|x l Hs IH Hf]; [set_solver|]. rewrite !elem_of_cons.
  rewrite Forall_forall in Hf. unfold created_lt in Hf.
  intros [->|Ha] [->|Hb] Heq; auto; [specialize (Hf _ Hb)|specialize (Hf _ Ha)]; lia.
Qed.

Lemma sorted_permutation_unique rs t :
  StronglySorted created_le rs -> StronglySorted created_lt t -> rs ≡ₚ t -> rs = t.
Proof.
  intros Hrs Ht Hp. eapply (StronglySorted_unique_strong created_le);
    eauto using sorted_lt_le.
  intros x y Hx Hy H1 H2. unfold created_le in *.
  eapply sorted_lt_inj; eauto; [by rewrite <- Hp|lia].
Qed.

Lemma lists_match after used m t :
  stores_match after used m t -> compensation_memory_list m = compensation_table_list t.
Proof.
  intros Hm. unfold compensation_table_list, compensation_memory_list. f_equal.
  apply sorted_permutation_unique; [apply StronglySorted_merge_sort; apply _|apply Hm|].
  rewrite merge_sort_Permutation, (list_to_map_values cr_invocation_id t) by apply Hm.
  change (list_to_map (map _ t)) with (compensation_table_view t).
  rewrite <- (sm_view _ _ _ _ Hm). apply list_to_map_values, memory_values_nodup, Hm.
Qed.

Lemma gets_match after used m t id :
  stores_match after used m t -> compensation_memory_get id m = compensation_table_get id t.
Proof.
  intros Hm. destruct (compensation_memory_get_ok id m (sm_memory _ _ _ _ Hm)) as (o & -> & Ho).
  destruct (compensation_table_get_ok id t (sm_table _ _ _ _ Hm)) as (o' & -> & Ho').
  f_equal. apply option_eq. intros r. by rewrite Ho, Ho', (sm_view _ _ _ _ Hm).
Qed.

Lemma records_match message after used m t id r :
  stores_match after used m t -> id ∉ used -> after < cr_created_at r ->
  fst (compensation_memory_record id r m) = fst (compensation_table_record message id r t) /\
  stores_match (cr_created_at r) (id :: used)
    (snd (compensation_memory_record id r m)) (snd (compensation_table_record message id r t)).
Proof.
  intros [Hm Ht Hv Hs Ha Hu] Hid Hlt.
  assert (unused_id id (compensation_table_view t)) as Hfresh.
  { intros i x Hx Heq. apply comp_table_view_lookup in Hx; [|done].
    apply find_by_key in Hx as [Hx _]; [|apply Ht]. rewrite Forall_forall in Hu.
    apply Hid. rewrite <- Heq. by apply Hu. }
  pose proof (compensation_memory_record_ok id r m Hm) as Hmr. rewrite Hv in Hmr.
  specialize (Hmr Hfresh). rewrite <- (compensation_table_record_ok message id r t Ht Hfresh) in Hmr.
  split; [by apply (f_equal fst) in Hmr|]. split.
  - apply compensation_memory_record_inv; [done|]. by rewrite Hv.
  - by apply compensation_table_record_inv.
  - by apply (f_equal snd) in Hmr.
  - unfold compensation_table_record. destruct (table_by_invocation _ t); [done|].
    destruct (existsb _ t); [done|]. simpl. apply StronglySorted_app. split_and!; [|done|].
    + intros x y Hx ->%list_elem_of_singleton. rewrite Forall_forall in Ha.
      specialize (Ha x Hx). unfold created_lt. simpl. lia.
    + repeat constructor.
  - unfold compensation_table_record. eapply Forall_impl; [|intros x Hx; exact Hx].
    assert (Forall (fun x => cr_created_at x <= cr_created_at r) t).
    { eapply Forall_impl; [exact Ha|]. simpl. lia. }
    destruct (table_by_invocation _ t); [done|]. destruct (existsb _ t); [done|].
    simpl. apply Forall_app. split; [done|]. constructor; [simpl; lia|done].
  - assert (Forall (fun x => cr_compensation_id x ∈ id :: used) t).
    { eapply Forall_impl; [exact Hu|]. set_solver. }
    unfold compensation_table_record. destruct (table_by_invocation _ t); [done|].
    destruct (existsb _ t); [done|]. simpl. apply Forall_app. split; [done|].
    constructor; [set_solver|done].
Qed.

(** Both stores answer every script of records, gets and lists alike. *)
Theorem compensation_stores_agree message after ops :
  recorded_in_order after [] ops ->
  compensation_script ops compensation_memory_new
  = compensation_script (H := compensation_table_store message) ops [].
Proof.
  intros Hops. assert (stores_match after [] compensation_memory_new []) as Hm.
  { split; try done; [split; apply NoDup_nil_2|constructor]. }
  revert Hops Hm. generalize compensation_memory_new, ([] : CompensationTable), ([] : list string).
  revert after. induction ops as [|[id r|id|] ops IH]; intros after m t used Hops Hm; simpl in *;
    [done| | |].
  - destruct Hops as (Hid & Hlt & Hops).
    destruct (records_match message _ _ _ _ _ _ Hm Hid Hlt) as [Hres Hm'].
    destruct (compensation_memory_record id r m), (compensation_table_record message id r t).
    simpl in *. f_equal; [congruence|eauto].
  - erewrite gets_match by done. f_equal. eauto.
  - erewrite lists_match by done. f_equal. eauto.
Qed.

(** ** Samples *)

Definition sample_compensation (invocation : string) (created : instant)
  : EngineCompensationRecord :=
  {| cr_compensation_id := ""; cr_invocation_id := invocation; cr_function_id := "files::delete";
     cr_function_revision := 1; cr_actor_id := "agent"; cr_authority_grant_id := "grant";
     cr_trace_id := "trace"; cr_parent_invocation_id := None; cr_resource_lease_ids := ["l1"];
     cr_contract := {| cc_kind := Comp_ManualOnly; cc_notes := "restore from backup" |};
     cr_status := Comp_Recorded; cr_succeeded := true; cr_result := None; cr_error := None;
     cr_created_at := created |}.

Lemma unused_in_table id t :
  Forall (fun r => cr_compensation_id r <> id) t -> unused_id id (compensation_table_view t).
Proof.
  rewrite Forall_forall. intros Hf i r Hr. apply Hf.
  apply elem_of_list_to_map_2, list_elem_of_fmap in Hr as (r' & [= -> ->] & Hr). done.
Qed.

Lemma compensation_recorded_once_witness :
  let store := compensation_table_store "UNIQUE constraint failed" in
  let t := snd (cs_record "c2" (sample_compensation "i2" 2)
                  (snd (cs_record "c1" (sample_compensation "i1" 1) []))) in
  fst (cs_record "c3" (sample_compensation "i1" 3) t)
  = Ok (set_compensation_id "c1" (sample_compensation "i1" 1)).
Proof.
  intros store t.
  apply (compensation_recorded_once (CompensationStore0 := store) [] t "c1"
           (sample_compensation "i1" 1) _ "c3" (sample_compensation "i1" 3)).
  - split; apply NoDup_nil_2.
  - apply unused_in_table. by constructor.
  - reflexivity.
  - apply rtc_once. apply (step_record (CompensationStore0 := store)). apply unused_in_table.
    repeat constructor; discriminate.
  - apply unused_in_table. repeat constructor; discriminate.
  - reflexivity.
Defined.

Lemma compensation_stores_agree_witness :
  compensation_script
    [Op_record "c1" (sample_compensation "i1" 1); Op_record "c2" (sample_compensation "i1" 2);
     Op_record "c0" (sample_compensation "i2" 3); Op_get "c2"; Op_list] compensation_memory_new
  = [Res_record (Ok (set_compensation_id "c1" (sample_compensation "i1" 1)));
     Res_record (Ok (set_compensation_id "c1" (sample_compensation "i1" 1)));
     Res_record (Ok (set_compensation_id "c0" (sample_compensation "i2" 3)));
     Res_get (Ok None);
     Res_list (Ok [set_compensation_id "c1" (sample_compensation "i1" 1);
                   set_compensation_id "c0" (sample_compensation "i2" 3)])].
Proof.
  rewrite (compensation_stores_agree "UNIQUE constraint failed" 0); [reflexivity|].
  simpl. split_and!; set_solver || lia.
Defined.
