(* ===== verification/LeaseTemplates.v ===== *)
(** * Lease requests of an invocation

    The resource a function locks is named by a template of its contract:
    [render_resource_template] of [invocation/host/invocation_support.rs] fills in
    fields of the payload and of the invocation's context, and
    [lease_request_from_requirement] makes the lease request the host acquires
    before the handler runs.  The loop over the template is a recursion on fuel;
    the length of the template is enough ([render_loop_enough]). *)

From stdpp Require Import base gmap strings list pretty.
From Stdlib Require Import ZArith Ascii String Lia.
From S2P Require Import Prelude Json Kernel Model Leases.

#[local] Open Scope Z_scope.

(** ** Values of template fields *)

(* SRC engine/invocation/host/invocation_support.rs:186-190 ValueRef *)
Inductive ValueRef : Type :=
| Ref_Json (v : Value)
| Ref_BorrowedStr (s : string)
| Ref_OwnedString (s : string).

(* SRC engine/invocation/host/invocation_support.rs:197-213 ValueRef::scalar_string *)
Definition scalar_string (r : ValueRef) (field : string) : Result string :=
  let text s :=
    if is_blank s then policy_error ("resource lease field " +s field +s " must not be empty")
    else Ok s in
  match r with
  | Ref_Json (VString s) => text s
  | Ref_Json (VNumber n) => Ok (number_to_string n)
  | Ref_Json (VBool b) => Ok (bool_to_string b)
  | Ref_BorrowedStr s => text s
  | Ref_OwnedString s => text s
  | Ref_Json _ => policy_error ("resource lease field " +s field +s " must be a scalar")
  end.

(* SRC engine/invocation/host/invocation_support.rs:147-184 resource_template_context_value *)
Definition resource_template_context_value (i : Invocation) (field : string) : option ValueRef :=
  let c := inv_context i in
  let named a b := (field =s a) || (field =s b) in
  if named "sessionId" "session_id" then Ref_BorrowedStr <$> cx_session_id c
  else if named "workspaceId" "workspace_id" then Ref_BorrowedStr <$> cx_workspace_id c
  else if named "actorId" "actor_id" then Some (Ref_OwnedString (cx_actor_id c))
  else if named "authorityGrantId" "authority_grant_id"
  then Some (Ref_OwnedString (cx_authority_grant_id c))
  else if named "traceId" "trace_id" then Some (Ref_OwnedString (cx_trace_id c))
  else if named "invocationId" "invocation_id" then Some (Ref_OwnedString (inv_id i))
  else if named "parentInvocationId" "parent_invocation_id"
  then Ref_OwnedString <$> cx_parent_invocation_id c
  else if named "idempotencyKey" "idempotency_key" then Ref_BorrowedStr <$> cx_idempotency_key c
  else None.

(* SRC engine/invocation/host/invocation_support.rs:123-145 select_resource_template_value *)
Definition select_resource_template_value (field : string) (payload_value : option ValueRef)
    (context_value : option ValueRef) : Result ValueRef :=
  match payload_value, context_value with
  | Some payload, Some context =>
      let? payload_scalar := scalar_string payload field in
      let? context_scalar := scalar_string context field in
      if negb (payload_scalar =s context_scalar)
      then policy_error ("resource lease payload field " +s field
                         +s " does not match invocation context")
      else Ok context
  | Some payload, None => Ok payload
  | None, Some context => Ok context
  | None, None =>
      policy_error ("resource lease resolver could not find payload or invocation context field "
                    +s field)
  end.

(** [segments.try_fold(payload, |value, segment| value.get(segment))] *)
Fixpoint get_path (v : Value) (segments : list string) : option Value :=
  match segments with
  | [] => Some v
  | s :: rest => match vget v s with Some w => get_path w rest | None => None end
  end.

(* SRC engine/invocation/host/invocation_support.rs:95-121 resource_template_value *)
Definition resource_template_value (i : Invocation) (field : string) : Result string :=
  let field := trim field in
  if field =s "" then policy_error "resource lease template field must not be empty" else
  let? value :=
    if starts_with field "/" then
      match pointer (inv_payload i) field with
      | Some v => Ok (Ref_Json v)
      | None => policy_error ("resource lease resolver could not find payload field " +s field)
      end
    else
      select_resource_template_value field
        (Ref_Json <$> get_path (inv_payload i) (split_char "." field))
        (resource_template_context_value i field) in
  scalar_string value field.

(** ** Templates *)

(** [while let Some(start) = rest.find('{')], with [rendered] the text so far. *)
(* SRC engine/invocation/host/invocation_support.rs:72-86! render_resource_template *)
Fixpoint render_loop (fuel : nat) (template : string) (i : Invocation) (rendered rest : string)
  : Result string :=
  match fuel with
  | O => Ok (rendered +s rest)
  | S fuel =>
      match split_once rest "{" with
      | None => Ok (rendered +s rest)
      | Some (prefix, after_start) =>
          match split_once after_start "}" with
          | None =>
              policy_error ("resource lease template " +s template +s " has an unclosed field")
          | Some (field, after_field) =>
              let? value := resource_template_value i field in
              render_loop fuel template i (rendered +s prefix +s value) after_field
          end
      end
  end.

(* SRC engine/invocation/host/invocation_support.rs:70-93 render_resource_template *)
Definition render_resource_template (template : string) (i : Invocation) : Result string :=
  let? rendered := render_loop (String.length template) template i "" template in
  if is_blank rendered then policy_error "resource lease resolved an empty resource id"
  else Ok rendered.

(* SRC engine/invocation/host/invocation_support.rs:37-68 lease_request_from_requirement *)
Definition lease_request_from_requirement (requirement : ResourceLeaseRequirement)
    (i : Invocation) : Result AcquireResourceLease :=
  if negb (lr_resolver_id requirement =s "payload_template")
  then match lr_failure_behavior requirement with
       | FailClosed =>
           policy_error ("unsupported resource lease resolver " +s lr_resolver_id requirement
                         +s " for " +s inv_function_id i)
       end
  else if negb (lr_exclusive requirement)
  then policy_error ("resource lease for " +s inv_function_id i
                     +s " must be exclusive in this engine version")
  else
  let? resource_id := render_resource_template (lr_resource_id_template requirement) i in
  let c := inv_context i in
  Ok {| al_resource_kind := lr_resource_kind requirement; al_resource_id := resource_id;
        al_holder_invocation_id := inv_id i; al_function_id := inv_function_id i;
        al_actor_id := cx_actor_id c; al_authority_grant_id := cx_authority_grant_id c;
        al_trace_id := cx_trace_id c; al_parent_invocation_id := cx_parent_invocation_id c;
        al_idempotency_key := cx_idempotency_key c; al_ttl_ms := lr_ttl_ms requirement |}.

(** ** The loop ends *)

Lemma drop_str_length n s : (String.length (drop_str n s) <= String.length s)%nat.
Proof.
  revert s. induction n as [|n IH]; intros [|a s]; simpl; try lia. specialize (IH s). lia.
Qed.

Lemma split_once_length s sep l r :
  sep <> "" -> split_once s sep = Some (l, r) -> (String.length r < String.length s)%nat.
Proof.
  intros Hsep. destruct sep as [|b sep]; [done|]. revert l r.
  induction s as [|a s IH]; intros l r; [done|].
  change (split_once (String a s) (String b sep)) with
    (if String.prefix (String b sep) (String a s)
     then Some (EmptyString, drop_str (String.length sep) s)
     else match split_once s (String b sep) with
          | Some (l, r) => Some (String a l, r)
          | None => None
          end).
  destruct (String.prefix _ _).
  - intros [= <- <-]. pose proof (drop_str_length (String.length sep) s). simpl. lia.
  - destruct (split_once s _) as [[l' r']|]; [|done]. intros [= <- <-].
    specialize (IH _ _ eq_refl). simpl. lia.
Qed.

(** Any fuel that is at least the length of the rest gives the same result: the
    loop has always ended before the fuel is used up. *)
Lemma render_loop_enough fuel fuel' template i rendered rest :
  (String.length rest <= fuel)%nat -> (String.length rest <= fuel')%nat ->
  render_loop fuel template i rendered rest = render_loop fuel' template i rendered rest.
Proof.
  revert fuel' rendered rest. induction fuel as [|fuel IH]; intros fuel' rendered rest Hf Hf'.
  - destruct rest; [|simpl in Hf; lia]. by destruct fuel'.
  - destruct fuel' as [|fuel']; [destruct rest; [done|simpl in Hf'; lia]|]. simpl.
    destruct (split_once rest "{") as [[prefix after]|] eqn:Hs; [|done].
    destruct (split_once after "}") as [[field rest']|] eqn:Hs'; [|done].
    destruct (resource_template_value i field); [|done].
    apply split_once_length in Hs, Hs'; try done. apply IH; lia.
Qed.

(** ** What a template names *)

(** The text of a template with each [{field}] replaced by the field's value. *)
Inductive renders (i : Invocation) : string -> string -> Prop :=
| renders_text rest : split_once rest "{" = None -> renders i rest rest
| renders_field rest prefix after field rest' value r :
    split_once rest "{" = Some (prefix, after) ->
    split_once after "}" = Some (field, rest') ->
    resource_template_value i field = Ok value ->
    renders i rest' r ->
    renders i rest (prefix +s value +s r).

Lemma render_loop_iff fuel template i rendered rest out :
  (String.length rest <= fuel)%nat ->
  render_loop fuel template i rendered rest = Ok out <->
  exists r, renders i rest r /\ out = rendered +s r.
Proof.
  revert rendered rest. induction fuel as [|fuel IH]; intros rendered rest Hf.
  - destruct rest; [|simpl in Hf; lia]. simpl. split.
    + intros [= <-]. exists "". split; [by apply renders_text|done].
    + intros (r & Hr & ->). by inversion Hr.
  - simpl. destruct (split_once rest "{") as [[prefix after]|] eqn:Hs.
    + destruct (split_once after "}") as [[field rest']|] eqn:Hs'.
      * destruct (resource_template_value i field) as [value|e] eqn:Hv.
        -- rewrite IH by (apply split_once_length in Hs, Hs'; try done; lia). split.
           ++ intros (r & Hr & ->). exists (prefix +s value +s r).
              split; [eapply renders_field; eassumption|]. by rewrite !append_assoc.
           ++ intros (r & Hr & ->). inversion Hr; simplify_eq/=. eexists. split; [eassumption|].
              assert (value0 = value) as -> by congruence. by rewrite !append_assoc.
        -- split; [done|]. intros (r & Hr & _). inversion Hr; simplify_eq/=; congruence.
      * split; [done|]. intros (r & Hr & _). inversion Hr; simplify_eq/=; congruence.
    + split; [intros [= <-]; exists rest; split; [by apply renders_text|done]|].
      intros (r & Hr & ->). by inversion Hr; simplify_eq/=.
Qed.

(** [render_resource_template] succeeds exactly on the templates whose fields all
    have a value and whose text is not blank. *)
Theorem render_iff template i out :
  render_resource_template template i = Ok out <->
  renders i template out /\ is_blank out = false.
Proof.
  unfold render_resource_template. split.
  - intros H. destruct (render_loop _ _ _ _ _) as [r|] eqn:Hr; [|done].
    apply render_loop_iff in Hr as (r' & Hr' & ->); [|lia].
    change ("" +s r') with r' in H.
    destruct (is_blank r') eqn:Hb; [done|]. by injection H as <-.
  - intros [Hr Hb].
    assert (render_loop (String.length template) template i "" template = Ok out) as ->.
    { apply render_loop_iff; [lia|]. by exists out. }
    by rewrite Hb.
Qed.

(** A template whose fields are all fields of the invocation's context. *)
Inductive context_template (i : Invocation) : string -> Prop :=
| context_text rest : split_once rest "{" = None -> context_template i rest
| context_field rest prefix after field rest' :
    split_once rest "{" = Some (prefix, after) ->
    split_once after "}" = Some (field, rest') ->
    starts_with (trim field) "/" = false ->
    is_Some (resource_template_context_value i (trim field)) ->
    context_template i rest' ->
    context_template i rest.

Definition same_identity (i j : Invocation) : Prop :=
  inv_id i = inv_id j /\ inv_context i = inv_context j.

Lemma context_value_identity i j field :
  same_identity i j ->
  resource_template_context_value i field = resource_template_context_value j field.
Proof. intros [Hid Hc]. unfold resource_template_context_value. by rewrite Hid, Hc. Qed.

(** A context field has the context's value, or the template is refused. *)
Lemma template_value_is_context i field ref value :
  starts_with (trim field) "/" = false ->
  resource_template_context_value i (trim field) = Some ref ->
  resource_template_value i field = Ok value ->
  scalar_string ref (trim field) = Ok value.
Proof.
  unfold resource_template_value. intros -> ->. destruct (trim field =s ""); [done|].
  unfold select_resource_template_value.
  destruct (Ref_Json <$> _) as [payload|]; simpl; [|done].
  destruct (scalar_string payload _); [|done].
  destruct (scalar_string ref _) eqn:Hs; [|done].
  destruct (negb _); [done|]. by rewrite Hs.
Qed.

Lemma renders_context i j template a b :
  same_identity i j -> context_template i template ->
  renders i template a -> renders j template b -> a = b.
Proof.
  intros Hid Ht. revert a b.
  induction Ht as [rest Hs|rest prefix after field rest' Hs Hs' Hsl [ref Href] _ IH];
    intros a b Ha Hb; inversion Ha; inversion Hb; simplify_eq/=; [done|].
  pose proof (template_value_is_context i _ _ _ Hsl Href ltac:(eassumption)) as Hi.
  rewrite (context_value_identity i j) in Href by done.
  pose proof (template_value_is_context j _ _ _ Hsl Href ltac:(eassumption)) as Hj.
  f_equal. f_equal; [congruence|eauto].
Qed.

(** A lease template made of context placeholders renders to the same resource for two
    invocations with the same caller identity whatever their payloads are, and never to a
    blank id: a payload that names another session is refused instead of obeyed. *)
Theorem payload_cannot_redirect_lease requirement i j a b :
  same_identity i j -> inv_function_id i = inv_function_id j ->
  context_template i (lr_resource_id_template requirement) ->
  lease_request_from_requirement requirement i = Ok a ->
  lease_request_from_requirement requirement j = Ok b ->
  a = b /\ is_blank (al_resource_id a) = false.
Proof.
  intros Hid Hf Ht. unfold lease_request_from_requirement.
  destruct (negb (lr_resolver_id _ =s _)); [by destruct (lr_failure_behavior _)|]. destruct (negb (lr_exclusive _)); [done|].
  destruct (render_resource_template _ i) as [ra|] eqn:Ha; [|done].
  destruct (render_resource_template _ j) as [rb|] eqn:Hb; [|done].
  apply render_iff in Ha as [Ha Hba], Hb as [Hb _].
  rewrite (renders_context _ _ _ _ _ Hid Ht Ha Hb) in *.
  destruct Hid as [-> ->]. rewrite Hf. intros [= <-] [= <-]. done.
Qed.

(** ** Samples *)

Definition template_context : CausalContext :=
  with_session_id (causal_context_new "agent" Actor_Agent "grant" "trace") "s1".
Definition template_invocation (payload : Value) : Invocation :=
  {| inv_id := "i1"; inv_function_id := "files::write"; inv_delivery_mode := Delivery_Sync;
     inv_payload := payload; inv_context := template_context |}.

Example render_payload_field :
  render_resource_template "file:{ /path }:{sessionId}"
    (template_invocation (VObject [("path", VString "a.txt")])) = Ok "file:a.txt:s1".
Proof. reflexivity. Qed.
Example render_spoofed_session :
  render_resource_template "session:{sessionId}"
    (template_invocation (VObject [("sessionId", VString "s2")]))
  = policy_error "resource lease payload field sessionId does not match invocation context".
Proof. reflexivity. Qed.
Example render_unclosed :
  render_resource_template "a{b" (template_invocation Null)
  = policy_error "resource lease template a{b has an unclosed field".
Proof. reflexivity. Qed.

Lemma payload_cannot_redirect_lease_witness :
  exists a,
    lease_request_from_requirement (exclusive_template "session" "session:{sessionId}" 1000)
      (template_invocation (VObject [("sessionId", VString "s1")])) = Ok a /\
    lease_request_from_requirement (exclusive_template "session" "session:{sessionId}" 1000)
      (template_invocation Null) = Ok a /\
    is_blank (al_resource_id a) = false.
Proof.
  eexists. split; [reflexivity|].
  destruct (payload_cannot_redirect_lease
    (exclusive_template "session" "session:{sessionId}" 1000)
    (template_invocation (VObject [("sessionId", VString "s1")])) (template_invocation Null)
    _ _ ltac:(split; reflexivity) eq_refl
    ltac:(eapply context_field; [reflexivity|reflexivity|reflexivity|
            eexists; reflexivity|apply context_text; reflexivity]) eq_refl eq_refl) as [-> Hb].
  split; [reflexivity|exact Hb].
Defined.
