(* ===== verification/Meta.v ===== *)
(** * Meta functions of the engine

    [invocation/host/meta.rs]: the [engine::*] worker and functions, the schemas
    and parsers of their requests, the JSON they answer with, the child of a
    delegated invocation, and the visibility of catalog items; and
    [EngineHost::watch_catalog] of [invocation/host/mod.rs], the cursor-pull over
    the catalog's change log.  The RFC 3339 text of an instant and the [{:?}]
    rendering of strings are parameters. *)

From stdpp Require Import base gmap strings list pretty sorting.
From Stdlib Require Import ZArith Ascii String Lia.
From S2P Require Import Prelude Json Kernel Model Schema Policy Ledger Catalog.
Import JsonNotations.

#[local] Open Scope Z_scope.

(** ** Vocabulary *)

Definition ENGINE_WORKER_ID : string := "engine".
Definition ENGINE_OWNER_ACTOR : string := "system".
Definition ENGINE_AUTHORITY_GRANT : string := "engine-system".
Definition DISCOVER_FUNCTION : string := "engine::discover".
Definition INSPECT_FUNCTION : string := "engine::inspect".
Definition WATCH_FUNCTION : string := "engine::watch".
Definition INVOKE_FUNCTION : string := "engine::invoke".
Definition PROMOTE_FUNCTION : string := "engine::promote".
Definition WATCH_DEFAULT_LIMIT : Z := 100.
Definition WATCH_MAX_LIMIT : Z := 500.

(** ** Definitions of the meta functions *)

(** [WorkerDefinition::with_namespace_claim] *)
(* SRC engine/kernel/types/worker.rs:96-101 WorkerDefinition::with_namespace_claim *)
Definition with_namespace_claim (claim : string) (w : WorkerDefinition) : WorkerDefinition :=
  {| wk_id := wk_id w; wk_revision := wk_revision w; wk_kind := wk_kind w;
     wk_lifecycle := wk_lifecycle w; wk_owner_actor := wk_owner_actor w;
     wk_authority_grant := wk_authority_grant w;
     wk_namespace_claims := wk_namespace_claims w ++ [claim]; wk_visibility := wk_visibility w;
     wk_provenance := wk_provenance w |}.

(* SRC engine/invocation/host/meta.rs:66-74 engine_worker *)
Definition meta_engine_worker : WorkerDefinition :=
  with_namespace_claim ENGINE_WORKER_ID
    (worker_new ENGINE_WORKER_ID Worker_System ENGINE_OWNER_ACTOR ENGINE_AUTHORITY_GRANT).

(* SRC engine/invocation/host/meta.rs:143-151 meta_function *)
Definition meta_function (id description : string) (effect : EffectClass) : FunctionDefinition :=
  function_new id ENGINE_WORKER_ID description Vis_System effect.

(* SRC engine/invocation/host/meta.rs:153-167 discover_schema *)
Definition discover_schema : Value :=
  j{"type" ~> "object"; "additionalProperties" ~> false;
    "properties" ~> j{
      "visibility" ~> j{"type" ~> "string"};
      "namespacePrefix" ~> j{"type" ~> "string"};
      "text" ~> j{"type" ~> "string"};
      "effectClass" ~> j{"type" ~> "string"};
      "maxRisk" ~> j{"type" ~> "string"};
      "health" ~> j{"type" ~> "string"};
      "includeInternal" ~> j{"type" ~> "boolean"}}}.

(* SRC engine/invocation/host/meta.rs:169-179 inspect_schema *)
Definition inspect_schema : Value :=
  j{"type" ~> "object"; "required" ~> j["kind"; "id"]; "additionalProperties" ~> false;
    "properties" ~> j{
      "kind" ~> j{"type" ~> "string"; "enum" ~> j["function"; "worker"; "trigger_type"; "trigger"] };
      "id" ~> j{"type" ~> "string"}}}.

(* SRC engine/invocation/host/meta.rs:181-194 watch_schema *)
Definition watch_schema : Value :=
  j{"type" ~> "object"; "additionalProperties" ~> false;
    "properties" ~> j{
      "afterRevision" ~> j{"type" ~> "integer"};
      "limit" ~> j{"type" ~> "integer"};
      "classes" ~> j{"type" ~> "array"; "items" ~> j{"type" ~> "string"}};
      "kinds" ~> j{"type" ~> "array"; "items" ~> j{"type" ~> "string"}};
      "subjectPrefix" ~> j{"type" ~> "string"};
      "ownerWorker" ~> j{"type" ~> "string"}}}.

(* SRC engine/invocation/host/meta.rs:196-208 invoke_schema *)
Definition invoke_schema : Value :=
  j{"type" ~> "object"; "required" ~> j["functionId"]; "additionalProperties" ~> false;
    "properties" ~> j{
      "functionId" ~> j{"type" ~> "string"};
      "payload" ~> j{};
      "deliveryMode" ~> j{"type" ~> "string"; "enum" ~> j["sync"] };
      "idempotencyKey" ~> j{"type" ~> "string"}}}.

(* SRC engine/invocation/host/meta.rs:210-222 promote_schema *)
Definition promote_schema : Value :=
  j{"type" ~> "object"; "required" ~> j["functionId"; "targetVisibility"];
    "additionalProperties" ~> false;
    "properties" ~> j{
      "functionId" ~> j{"type" ~> "string"};
      "ownerWorker" ~> j{"type" ~> "string"};
      "targetVisibility" ~> j{"type" ~> "string"; "enum" ~> j["workspace"; "system"] };
      "workspaceId" ~> j{"type" ~> "string"}}}.

(* SRC engine/invocation/host/meta.rs:76-119 meta_function_definitions *)
Definition meta_function_definitions : list FunctionDefinition :=
  map (fun d => fn_with_provenance provenance_system
                  (set_fn_opaque_response true (set_fn_owner_worker ENGINE_WORKER_ID d)))
    [ fn_with_request_schema discover_schema
        (meta_function DISCOVER_FUNCTION "discover live engine capabilities" Effect_PureRead);
      fn_with_request_schema inspect_schema
        (meta_function INSPECT_FUNCTION "inspect a live engine catalog item" Effect_PureRead);
      fn_with_request_schema watch_schema
        (meta_function WATCH_FUNCTION "watch catalog changes by cursor" Effect_PureRead);
      fn_with_request_schema invoke_schema
        (meta_function INVOKE_FUNCTION "invoke another engine capability"
           Effect_DelegatedInvocation);
      fn_with_request_schema promote_schema
        (fn_with_risk Risk_Medium
           (fn_with_required_authority (authority_scope "engine.promote")
              (fn_with_idempotency caller_session_engine_ledger
                 (meta_function PROMOTE_FUNCTION
                    "promote a session capability to a wider scope" Effect_IdempotentWrite)))) ].

(** ** Request fields *)

(* SRC engine/invocation/host/meta.rs:335-339 required_str *)
Definition required_str (payload : Value) (field : string) : Result string :=
  match vget payload field ≫= as_str with
  | Some s => Ok s
  | None => policy_error ("required field " +s field +s " must be a string")
  end.

(** A string in a field. *)
Definition names (v : Value) (field : string) (text : string) : Prop := vget v field = Some (VString text).
Lemma required_iff v field s : required_str v field = Ok s <-> names v field s.
Proof.
  unfold required_str, names, policy_error.
  destruct (vget v field) as [x|]; [destruct x; simpl|simpl]; split; congruence.
Qed.

(** [value.map(f).transpose()] *)
Definition transpose {A} (value : option Value) (f : Value -> Result A) : Result (option A) :=
  match value with Some v => let? a := f v in Ok (Some a) | None => Ok None end.

(** [value.as_str().ok_or_else(..)] *)
Definition str_or (message : string) (v : Value) : Result string :=
  match as_str v with Some s => Ok s | None => policy_error message end.

(* SRC engine/invocation/host/meta.rs:341-349 optional_string *)
Definition optional_string (value : option Value) : Result (option string) :=
  transpose value (str_or "optional field must be a string").

(* SRC engine/invocation/host/meta.rs:351-359 optional_u64 *)
Definition optional_u64 (value : option Value) : Result (option Z) :=
  transpose value (fun v =>
    match as_u64 v with Some n => Ok n | None => policy_error "optional field must be an integer" end).

(** [match value { "a" => Ok(A), .., _ => Err(unsupported) }] *)
Definition parse_table {A} (what : string) (table : list (string * A)) (value : string)
  : Result A :=
  match obj_get table value with
  | Some a => Ok a
  | None => policy_error ("unsupported " +s what +s " " +s value)
  end.

(* SRC engine/invocation/host/meta.rs:495-509 parse_visibility *)
Definition parse_visibility : string -> Result VisibilityScope :=
  parse_table "visibility"
    [("internal", Vis_Internal); ("session", Vis_Session); ("workspace", Vis_Workspace);
     ("system", Vis_System); ("client", Vis_Client); ("worker", Vis_Worker);
     ("agent", Vis_Agent); ("admin", Vis_Admin)].

(* SRC engine/invocation/host/meta.rs:511-525 parse_effect *)
Definition parse_effect : string -> Result EffectClass :=
  parse_table "effect class"
    [("pure_read", Effect_PureRead); ("deterministic_compute", Effect_DeterministicCompute);
     ("delegated_invocation", Effect_DelegatedInvocation);
     ("idempotent_write", Effect_IdempotentWrite); ("append_only_event", Effect_AppendOnlyEvent);
     ("reversible_side_effect", Effect_ReversibleSideEffect);
     ("external_side_effect", Effect_ExternalSideEffect);
     ("irreversible_side_effect", Effect_IrreversibleSideEffect)].

(* SRC engine/invocation/host/meta.rs:527-537 parse_risk *)
Definition parse_risk : string -> Result RiskLevel :=
  parse_table "risk level"
    [("low", Risk_Low); ("medium", Risk_Medium); ("high", Risk_High); ("critical", Risk_Critical)].

(* SRC engine/invocation/host/meta.rs:539-549 parse_health *)
Definition parse_health : string -> Result FunctionHealth :=
  parse_table "health"
    [("healthy", Health_Healthy); ("degraded", Health_Degraded); ("unhealthy", Health_Unhealthy);
     ("unknown", Health_Unknown)].

(* SRC engine/invocation/host/meta.rs:551-558 parse_delivery_mode *)
Definition parse_delivery_mode : string -> Result DeliveryMode :=
  parse_table "delivery mode" [("sync", Delivery_Sync)].

(* SRC engine/invocation/host/meta.rs:560-571 parse_change_class *)
Definition parse_change_class : string -> Result CatalogChangeClass :=
  parse_table "catalog change class"
    [("availability", Class_Availability); ("contract", Class_Contract);
     ("trigger", Class_Trigger); ("visibility", Class_Visibility); ("health", Class_Health)].

(* SRC engine/invocation/host/meta.rs:573-593 parse_change_kind *)
Definition parse_change_kind : string -> Result CatalogChangeKind :=
  parse_table "catalog change kind"
    [("worker_registered", WorkerRegistered); ("worker_updated", WorkerUpdated);
     ("worker_unregistered", WorkerUnregistered); ("function_registered", FunctionRegistered);
     ("function_updated", FunctionUpdated); ("function_unregistered", FunctionUnregistered);
     ("trigger_type_registered", TriggerTypeRegistered);
     ("trigger_type_updated", TriggerTypeUpdated);
     ("trigger_type_unregistered", TriggerTypeUnregistered);
     ("trigger_registered", TriggerRegistered); ("trigger_updated", TriggerUpdated);
     ("trigger_unregistered", TriggerUnregistered); ("visibility_changed", VisibilityChanged);
     ("health_changed", HealthChanged)].

(* SRC engine/invocation/host/meta.rs:595-612 change_kind_str *)
Definition change_kind_str (k : CatalogChangeKind) : string :=
  match k with
  | WorkerRegistered => "worker_registered" | WorkerUpdated => "worker_updated"
  | WorkerUnregistered => "worker_unregistered" | FunctionRegistered => "function_registered"
  | FunctionUpdated => "function_updated" | FunctionUnregistered => "function_unregistered"
  | TriggerTypeRegistered => "trigger_type_registered"
  | TriggerTypeUpdated => "trigger_type_updated"
  | TriggerTypeUnregistered => "trigger_type_unregistered"
  | TriggerRegistered => "trigger_registered" | TriggerUpdated => "trigger_updated"
  | TriggerUnregistered => "trigger_unregistered" | VisibilityChanged => "visibility_changed"
  | HealthChanged => "health_changed"
  end.

(** [value.as_str().ok_or_else(..).and_then(parse)] *)
Definition parsed {A} (message : string) (parse : string -> Result A) (v : Value) : Result A :=
  let? s := str_or message v in parse s.

(* SRC engine/invocation/host/meta.rs:430-441 optional_visibility *)
Definition optional_visibility (value : option Value) : Result (option VisibilityScope) :=
  transpose value (parsed "visibility must be a string" parse_visibility).
(* SRC engine/invocation/host/meta.rs:443-445 required_visibility *)
Definition required_visibility (payload : Value) (field : string) : Result VisibilityScope :=
  let? s := required_str payload field in parse_visibility s.
(* SRC engine/invocation/host/meta.rs:447-458 optional_effect *)
Definition optional_effect (value : option Value) : Result (option EffectClass) :=
  transpose value (parsed "effectClass must be a string" parse_effect).
(* SRC engine/invocation/host/meta.rs:460-469 optional_risk *)
Definition optional_risk (value : option Value) : Result (option RiskLevel) :=
  transpose value (parsed "maxRisk must be a string" parse_risk).
(* SRC engine/invocation/host/meta.rs:471-480 optional_health *)
Definition optional_health (value : option Value) : Result (option FunctionHealth) :=
  transpose value (parsed "health must be a string" parse_health).
(* SRC engine/invocation/host/meta.rs:482-493 optional_delivery_mode *)
Definition optional_delivery_mode (value : option Value) : Result (option DeliveryMode) :=
  transpose value (parsed "deliveryMode must be a string" parse_delivery_mode).

(** [value.as_array().ok_or_else(..)?.iter().map(..).collect()] *)
Definition parsed_items {A} (what : string) (parse : string -> Result A) (v : Value)
  : Result (list A) :=
  match as_array v with
  | Some items => try_map (parsed (what +s " entries must be strings") parse) items
  | None => policy_error (what +s " must be an array")
  end.
(* SRC engine/invocation/host/meta.rs:388-408 optional_change_classes *)
Definition optional_change_classes (value : option Value) : Result (option (list CatalogChangeClass)) :=
  transpose value (parsed_items "classes" parse_change_class).
(* SRC engine/invocation/host/meta.rs:410-428 optional_change_kinds *)
Definition optional_change_kinds (value : option Value) : Result (option (list CatalogChangeKind)) :=
  transpose value (parsed_items "kinds" parse_change_kind).

(** ** Catalog watch *)

(* SRC engine/invocation/host/meta.rs:23-38 CatalogWatchRequest *)
Record CatalogWatchRequest := {
  wr_after_revision : Z;
  wr_limit : Z;
  wr_classes : option (list CatalogChangeClass);
  wr_kinds : option (list CatalogChangeKind);
  wr_subject_prefix : option string;
  wr_owner_worker : option WorkerId
}.

(* SRC engine/invocation/host/meta.rs:41-50 CatalogWatchRequest::default *)
Definition watch_request_default : CatalogWatchRequest :=
  {| wr_after_revision := 0; wr_limit := WATCH_DEFAULT_LIMIT; wr_classes := None;
     wr_kinds := None; wr_subject_prefix := None; wr_owner_worker := None |}.

(* SRC engine/invocation/host/meta.rs:53-64 CatalogWatchResponse *)
Record CatalogWatchResponse := {
  ws_changes : list CatalogChange;
  ws_current_revision : Z;
  ws_next_revision : Z;
  ws_has_more : bool
}.

(* SRC engine/invocation/host/meta.rs:361-371 watch_limit *)
Definition watch_limit (value : option Value) : Result Z :=
  let? limit := optional_u64 value in
  match limit with
  | None => Ok WATCH_DEFAULT_LIMIT
  | Some limit =>
      if limit =? 0 then policy_error "watch limit must be greater than zero"
      else Ok (Z.min limit WATCH_MAX_LIMIT)
  end.

(* SRC engine/invocation/host/meta.rs:373-386 watch_request_from_payload *)
Definition watch_request_from_payload (payload : Value) : Result CatalogWatchRequest :=
  let? after := optional_u64 (vget payload "afterRevision") in
  let? limit := watch_limit (vget payload "limit") in
  let? classes := optional_change_classes (vget payload "classes") in
  let? kinds := optional_change_kinds (vget payload "kinds") in
  let? prefix := optional_string (vget payload "subjectPrefix") in
  let? owner := optional_string (vget payload "ownerWorker") in
  let? owner := match owner with
                | Some o => let? id := engine_id_new "worker" o in Ok (Some id)
                | None => Ok None
                end in
  Ok {| wr_after_revision := default 0 after; wr_limit := limit; wr_classes := classes;
        wr_kinds := kinds; wr_subject_prefix := prefix; wr_owner_worker := owner |}.

(* SRC engine/invocation/host/meta.rs:224-233 actor_context *)
Definition meta_actor_context (c : CausalContext) : ActorContext :=
  {| ac_actor_id := cx_actor_id c; ac_actor_kind := cx_actor_kind c;
     ac_authority_grant_id := cx_authority_grant_id c;
     ac_authority_scopes := cx_authority_scopes c; ac_session_id := cx_session_id c;
     ac_workspace_id := cx_workspace_id c |}.

(* SRC engine/invocation/host/meta.rs:244-272 is_visibility_visible *)
Definition is_visibility_visible (visibility : VisibilityScope)
    (session_id workspace_id : option string) (actor : ActorContext) : bool :=
  let admin := is_admin_like (ac_actor_kind actor) in
  let kind k := bool_decide (ac_actor_kind actor = k) in
  match visibility with
  | Vis_Internal => admin
  | Vis_Session => admin || same_id (ac_session_id actor) session_id
  | Vis_Workspace => admin || same_id (ac_workspace_id actor) workspace_id
  | Vis_System => true
  | Vis_Client => kind Actor_Client || admin
  | Vis_Worker => kind Actor_Worker || admin
  | Vis_Agent => kind Actor_Agent || admin
  | Vis_Admin => admin
  end.

(** [is_visibility_visible] of an item with a provenance. *)
Definition item_visible (visibility : VisibilityScope) (p : Provenance) (actor : ActorContext)
  : bool :=
  is_visibility_visible visibility (prov_session_id p) (prov_workspace_id p) actor.

(* SRC engine/invocation/host/meta.rs:235-242 is_change_visible_to_actor *)
Definition is_change_visible_to_actor (change : CatalogChange) (actor : ActorContext) : bool :=
  is_visibility_visible (chg_visibility change) (chg_session_id change) (chg_workspace_id change)
    actor.

(** [filter.map(test).unwrap_or(true)] *)
Definition opt_test {A} (o : option A) (test : A -> bool) : bool :=
  match o with Some a => test a | None => true end.

(** The six filters, in order. *)
(* SRC engine/invocation/host/mod.rs:155-187! EngineHost::watch_catalog *)
Definition watch_matches (actor : ActorContext) (r : CatalogWatchRequest) (c : CatalogChange)
  : bool :=
  (wr_after_revision r <? chg_after c)
  && is_change_visible_to_actor c actor
  && opt_test (wr_classes r) (fun classes => bool_decide (chg_class c ∈ classes))
  && opt_test (wr_kinds r) (fun kinds => bool_decide (chg_kind c ∈ kinds))
  && opt_test (wr_subject_prefix r) (fun prefix => starts_with (chg_subject_id c) prefix)
  && opt_test (wr_owner_worker r) (fun owner => bool_decide (chg_owner_worker c = Some owner)).

(** [changes.last().map(|c| c.after).unwrap_or(after)] *)
Definition last_after (after : Z) (changes : list CatalogChange) : Z :=
  match last changes with Some c => chg_after c | None => after end.

Section watch.
  Context {H S : Type} `{!LedgerStore S}.

(* SRC engine/invocation/host/mod.rs:133-202 EngineHost::watch_catalog *)
Definition watch_catalog (actor : ActorContext) (r : CatalogWatchRequest) (c : LiveCatalog H S)
  : Result CatalogWatchResponse :=
  let current_revision := lc_revision c in
  if current_revision <? wr_after_revision r
  then Ok {| ws_changes := []; ws_current_revision := current_revision;
             ws_next_revision := current_revision; ws_has_more := false |}
  else if wr_limit r =? 0 then policy_error "watch limit must be greater than zero"
  else
  let limit := Z.min (wr_limit r) WATCH_MAX_LIMIT in
  let? log := lg_list_catalog_changes (lc_ledger c) in
  let matching := List.filter (watch_matches actor r) log in
  let changes := take (Z.to_nat limit) matching in
  Ok {| ws_changes := changes; ws_current_revision := current_revision;
        ws_next_revision := last_after (wr_after_revision r) changes;
        ws_has_more := limit <? Z.of_nat (List.length matching) |}.
End watch.

(** ** Answers as JSON *)

Section values.
  Variable debug : string -> string.
  Variable rfc3339 : instant -> string.

(* SRC engine/invocation/host/meta.rs:326-333 error_value *)
Definition error_value (e : EngineError) : Value :=
  let stored := from_engine_error debug e in
  j{"kind" ~> se_kind stored; "message" ~> se_message stored; "details" ~> se_details stored}.

(* SRC engine/invocation/host/meta.rs:274-289 catalog_change_value *)
Definition catalog_change_value (c : CatalogChange) : Value :=
  j{"id" ~> chg_id c; "beforeRevision" ~> chg_before c; "afterRevision" ~> chg_after c;
    "kind" ~> change_kind_str (chg_kind c); "subjectId" ~> chg_subject_id c;
    "subjectKind" ~> subject_kind_as_str (chg_subject_kind c);
    "class" ~> change_class_as_str (chg_class c);
    "visibility" ~> visibility_as_str (chg_visibility c); "sessionId" ~> jstr (chg_session_id c);
    "workspaceId" ~> jstr (chg_workspace_id c); "ownerWorker" ~> jstr (chg_owner_worker c);
    "timestamp" ~> rfc3339 (chg_timestamp c)}.

(* SRC engine/invocation/host/meta.rs:291-300 invocation_result_value *)
Definition invocation_result_value (r : InvocationResult) : Value :=
  j{"invocationId" ~> ir_invocation_id r; "functionId" ~> ir_function_id r;
    "traceId" ~> ir_trace_id r; "value" ~> jopt (ir_value r);
    "error" ~> jopt (error_value <$> ir_error r); "replayedFrom" ~> jstr (ir_replayed_from r)}.

(* SRC engine/invocation/host/meta.rs:302-306 delegated_invoke_value *)
Definition delegated_invoke_value (child : InvocationResult) : Value :=
  j{"child" ~> invocation_result_value child}.
End values.

(** ** Delegated invocations *)

(** [parent_invocation_id], [idempotency_key] and [delivery_mode] are assigned. *)
Definition set_cx_delegated (parent : InvocationId) (key : option string) (mode : DeliveryMode)
    (c : CausalContext) : CausalContext :=
  {| cx_actor_id := cx_actor_id c; cx_actor_kind := cx_actor_kind c;
     cx_authority_grant_id := cx_authority_grant_id c;
     cx_authority_scopes := cx_authority_scopes c; cx_trace_id := cx_trace_id c;
     cx_parent_invocation_id := Some parent; cx_session_id := cx_session_id c;
     cx_workspace_id := cx_workspace_id c; cx_catalog_revision := cx_catalog_revision c;
     cx_trigger_id := cx_trigger_id c; cx_delivery_mode := mode; cx_idempotency_key := key;
     cx_runtime_metadata := cx_runtime_metadata c |}.

(** [child_id] is the generated id of the child. *)
(* SRC engine/invocation/host/meta.rs:308-324 delegated_child_invocation *)
Definition delegated_child_invocation (child_id : InvocationId) (i : Invocation)
  : Result Invocation :=
  let? name := required_str (inv_payload i) "functionId" in
  let? target_id := function_id_new name in
  let payload := jopt (vget (inv_payload i) "payload") in
  let? mode := optional_delivery_mode (vget (inv_payload i) "deliveryMode") in
  let delivery_mode := default Delivery_Sync mode in
  let? idempotency_key := optional_string (vget (inv_payload i) "idempotencyKey") in
  let child_context := set_cx_delegated (inv_id i) idempotency_key delivery_mode (inv_context i) in
  Ok (with_delivery_mode (new_sync child_id target_id payload child_context) delivery_mode).

(** ** Which functions the host runs itself *)

(* SRC engine/invocation/host/meta.rs:630-635 is_host_dispatched_primitive_namespace *)
Definition is_host_dispatched_primitive_namespace (namespace : string) : bool :=
  existsb (fun s => namespace =s s) ["catalog"; "worker"; "control"; "storage"; "ui"].
(* SRC engine/invocation/host/meta.rs:637-639 is_host_dispatched_primitive_function *)
Definition is_host_dispatched_primitive_function (id : FunctionId) : bool :=
  is_host_dispatched_primitive_namespace (function_namespace id).

(** ** Watching delivers the log *)


(** What an actor is to see of a log after a cursor. *)
Definition watched (actor : ActorContext) (r : CatalogWatchRequest) (log : list CatalogChange)
  : list CatalogChange := List.filter (watch_matches actor r) log.

Definition set_wr_after (after : Z) (r : CatalogWatchRequest) : CatalogWatchRequest :=
  {| wr_after_revision := after; wr_limit := wr_limit r; wr_classes := wr_classes r;
     wr_kinds := wr_kinds r; wr_subject_prefix := wr_subject_prefix r;
     wr_owner_worker := wr_owner_worker r |}.

(** The filters that do not depend on the cursor. *)
Definition watch_passes (actor : ActorContext) (r : CatalogWatchRequest) (c : CatalogChange)
  : bool := watch_matches actor (set_wr_after (chg_after c - 1) r) c.

Lemma watch_matches_split actor r c :
  watch_matches actor r c = (wr_after_revision r <? chg_after c) && watch_passes actor r c.
Proof.
  unfold watch_passes, watch_matches. simpl.
  rewrite (proj2 (Z.ltb_lt (chg_after c - 1) (chg_after c))) by lia. simpl.
  by rewrite !andb_assoc.
Qed.

Lemma sorted_last_le d x :
  StronglySorted after_lt d -> last d = Some x -> Forall (fun y => chg_after y <= chg_after x) d.
Proof.
  intros Hs Hx. apply last_Some in Hx as [l ->]. apply StronglySorted_app in Hs as (Hlx & _ & _).
  apply Forall_app. split; [|by repeat constructor]. rewrite Forall_forall. intros y Hy.
  specialize (Hlx y x Hy ltac:(set_solver)). unfold after_lt in Hlx. lia.
Qed.

(** After a page of a sorted list come exactly the elements it left out. *)
Lemma sorted_page_rest d n x :
  StronglySorted after_lt d -> last (take n d) = Some x ->
  List.filter (fun y => chg_after x <? chg_after y) d = drop n d.
Proof.
  intros Hs Hx. rewrite <- (take_drop n d) in Hs |- * at 1.
  apply StronglySorted_app in Hs as (Hlx & Ht & _).
  rewrite List.filter_app, filter_none.
  - simpl. apply forallb_filter_id. apply forallb_forall. intros y Hy. apply Z.ltb_lt.
    apply last_Some_elem_of in Hx. apply Hlx; [done|]. by apply list_elem_of_In.
  - intros y Hy. apply Z.ltb_ge. pose proof (sorted_last_le _ _ Ht Hx) as Hle.
    rewrite Forall_forall in Hle. by apply Hle.
Qed.

Lemma watched_rest actor r log n x :
  StronglySorted after_lt log ->
  last (take n (watched actor r log)) = Some x ->
  watched actor (set_wr_after (chg_after x) r) log = drop n (watched actor r log).
Proof.
  intros Hs Hx. rewrite <- (sorted_page_rest _ n x) by (done || by apply filter_sorted).
  unfold watched. rewrite filter_filter. apply List.filter_ext_in. intros y _.
  assert (wr_after_revision r < chg_after x) as Hlt.
  { apply last_Some_elem_of in Hx. apply elem_of_take in Hx as (k & Hk & _).
    apply list_elem_of_lookup_2, list_elem_of_In, List.filter_In in Hk as [_ Hm].
    rewrite watch_matches_split in Hm. bool_prop. done. }
  rewrite !watch_matches_split. unfold watch_passes, set_wr_after. simpl.
  destruct (Z.ltb_spec (chg_after x) (chg_after y)), (Z.ltb_spec (wr_after_revision r) (chg_after y));
    simpl; rewrite ?andb_true_r, ?andb_false_r; try done; lia.
Qed.

Section watching.
  Context {H S : Type} `{!LedgerStore S}.
  Implicit Types c : LiveCatalog H S.

(** Follow [next_revision] from page to page until [has_more] is false. *)
Fixpoint watch_pages (fuel : nat) (actor : ActorContext) (r : CatalogWatchRequest)
    (c : LiveCatalog H S) : Result (list CatalogChange) :=
  match fuel with
  | O => Ok []
  | Datatypes.S fuel =>
      let? page := watch_catalog actor r c in
      let? rest :=
        if ws_has_more page
        then watch_pages fuel actor (set_wr_after (ws_next_revision page) r) c else Ok [] in
      Ok (ws_changes page ++ rest)
  end.

Lemma advance_small start n :
  0 <= start -> start + Z.of_nat n <= u64_max -> advance start n = start + Z.of_nat n.
Proof.
  revert start. induction n as [|n IH]; intros start H0 Hle; simpl; [lia|].
  unfold revision_next. rewrite wrapping_add_u64_small by lia. rewrite IH by lia. lia.
Qed.

(** C40: Watching a reachable catalog page after page, from any revision, with any positive
    page size and any filter, ends and delivers exactly the changes that the actor may see
    and the filter selects, each once and in order. *)
Theorem watch_delivers_every_change_once actor r c fuel :
  catalog_reachable c -> Z.of_nat (List.length (lc_changes c)) <= u64_max ->
  lg_list_catalog_changes (lc_ledger c) = Ok (lc_changes c) ->
  0 < wr_limit r -> (List.length (lc_changes c) < fuel)%nat ->
  watch_pages fuel actor r c = Ok (List.filter (watch_matches actor r) (lc_changes c)).
Proof.
  intros Hc%log_inv_reachable Hlen Hlist Hlim Hfuel.
  destruct (contiguous_after 0 (lc_changes c) (li_contiguous _ Hc) ltac:(lia) Hlen) as [Hs Hf].
  pose proof (li_revision _ Hc) as Hrev. rewrite advance_small in Hrev by lia.
  change (List.filter (watch_matches actor r) (lc_changes c)) with (watched actor r (lc_changes c)).
  assert (List.length (watched actor r (lc_changes c)) < fuel)%nat as Hw.
  { eapply Nat.le_lt_trans; [apply List.filter_length_le|exact Hfuel]. }
  clear Hfuel. revert r Hlim Hw. induction fuel as [|fuel IH]; intros r Hlim Hw; [lia|].
  cbn [watch_pages]. unfold watch_catalog. rewrite Hlist.
  destruct (Z.ltb_spec (lc_revision c) (wr_after_revision r)) as [Hbig|_].
  { cbn. f_equal. symmetry. apply filter_none. intros x Hx. rewrite watch_matches_split.
    rewrite Forall_forall in Hf. specialize (Hf x Hx).
    rewrite (proj2 (Z.ltb_ge _ _)) by lia. done. }
  rewrite (proj2 (Z.eqb_neq _ _)) by lia. cbn.
  fold (watched actor r (lc_changes c)). set (d := watched actor r (lc_changes c)) in *.
  set (n := Z.to_nat (Z.min (wr_limit r) WATCH_MAX_LIMIT)).
  assert (1 <= n)%nat as Hn1 by (unfold n, WATCH_MAX_LIMIT; lia).
  destruct (Z.ltb_spec (Z.min (wr_limit r) WATCH_MAX_LIMIT) (Z.of_nat (List.length d))) as [Hlt|Hge].
  - destruct (last (take n d)) as [x|] eqn:Hx.
    2: { apply last_None, (f_equal List.length) in Hx. rewrite length_take in Hx. simpl in Hx.
         unfold n in *. lia. }
    unfold last_after. rewrite Hx.
    pose proof (watched_rest actor r _ n x Hs Hx) as Hrest. fold d in Hrest.
    rewrite IH, Hrest; [by rewrite take_drop|done|]. rewrite Hrest, length_drop. lia.
  - rewrite app_nil_r, take_ge; [done|]. unfold n. lia.
Qed.
End watching.

(** ** Delegation and vocabulary *)

Lemma parse_delivery_mode_ok s m : parse_delivery_mode s = Ok m -> m = Delivery_Sync.
Proof.
  unfold parse_delivery_mode, parse_table. cbn [obj_get]. destruct ("sync" =s s); [|done].
  by intros [= <-].
Qed.
Lemma optional_delivery_mode_ok v m :
  optional_delivery_mode v = Ok m -> default Delivery_Sync m = Delivery_Sync.
Proof.
  unfold optional_delivery_mode, transpose, parsed. intros Hm.
  destruct v as [v|]; [|by injection Hm as <-].
  destruct (str_or _ v) as [s|]; [|done].
  destruct (parse_delivery_mode s) as [x|] eqn:Hx; [|done].
  apply parse_delivery_mode_ok in Hx as ->. by injection Hm as <-.
Qed.

(** The child of a delegated invocation goes to the function the payload names,
    synchronously, in the context of the parent (actor, grant, scopes, session, workspace
    and trace): only the parent link, the delivery mode and the key are set. *)
Theorem delegation_keeps_authority child_id i child :
  delegated_child_invocation child_id i = Ok child ->
  inv_id child = child_id /\ inv_delivery_mode child = Delivery_Sync /\
  required_str (inv_payload i) "functionId" = Ok (inv_function_id child) /\
  exists key,
    inv_context child = set_cx_delegated (inv_id i) key Delivery_Sync (inv_context i).
Proof.
  unfold delegated_child_invocation. intros Hc.
  destruct (required_str _ _) as [name|] eqn:Hname; [|done].
  destruct (function_id_new name) as [id|] eqn:Hid; [|done].
  apply function_id_new_ok in Hid as [-> _].
  destruct (optional_delivery_mode _) as [mode|] eqn:Hm; [|done].
  apply optional_delivery_mode_ok in Hm. rewrite Hm in Hc.
  destruct (optional_string _) as [key|]; [|done]. injection Hc as <-.
  split_and!; try done. by exists key.
Qed.

Lemma parse_visibility_as_str v : parse_visibility (visibility_as_str v) = Ok v.
Proof. by destruct v. Qed.
Lemma parse_change_class_as_str c : parse_change_class (change_class_as_str c) = Ok c.
Proof. by destruct c. Qed.
Lemma parse_change_kind_str k : parse_change_kind (change_kind_str k) = Ok k.
Proof. by destruct k. Qed.

(** ** Samples *)

Definition watch_actor : ActorContext := actor_context_new "root" Actor_System "grant".
Definition one_by_one : CatalogWatchRequest :=
  {| wr_after_revision := 0; wr_limit := 1; wr_classes := None; wr_kinds := None;
     wr_subject_prefix := None; wr_owner_worker := None |}.

Lemma watch_delivers_every_change_once_witness :
  (fun r => match r with Ok l => map chg_after l | Err _ => [] end)
    (watch_pages 3 watch_actor one_by_one catalog2) = [1; 2].
Proof.
  rewrite (watch_delivers_every_change_once watch_actor one_by_one catalog2 3).
  - vm_compute. reflexivity.
  - exact catalog2_reachable.
  - vm_compute. discriminate.
  - vm_compute. reflexivity.
  - vm_compute. reflexivity.
  - apply Nat.ltb_lt. vm_compute. reflexivity.
Defined.

Definition delegating : Invocation :=
  new_sync "i1" INVOKE_FUNCTION
    (j{"functionId" ~> "demo::save"; "idempotencyKey" ~> "k2"})
    (with_scope (causal_context_new "agent" Actor_Agent "grant" "t") "files.read").

Lemma delegation_keeps_authority_witness :
  exists child, delegated_child_invocation "i2" delegating = Ok child /\
    cx_authority_scopes (inv_context child) = ["files.read"] /\
    cx_parent_invocation_id (inv_context child) = Some "i1".
Proof.
  destruct (delegated_child_invocation "i2" delegating) as [child|] eqn:Hc;
    [|vm_compute in Hc; discriminate].
  destruct (delegation_keeps_authority "i2" delegating child Hc) as (_ & _ & _ & key & Hctx).
  exists child. split; [reflexivity|]. rewrite Hctx. split; reflexivity.
Defined.
