(* ===== verification/Host.v ===== *)
(** * The engine host

    [invocation/host]: the host owns the live catalog and the primitive stores and
    puts an invocation's life together: preparation under the catalog lock, the
    lease its function asks for, the handler, the release of the lease, the
    completion of the invocation, the compensation record, and the events that
    announce leases and compensations ([invocation_handle.rs],
    [invocation_support.rs], [substrate_handle.rs]); the meta functions and the
    host-dispatched primitives, which run under the lock ([meta_invocation.rs],
    [mod.rs]); and the queue runtime, which delivers claimed items through the host
    ([durability/queue/runtime.rs]).

    A handler is a state transformer of the host: it stands for what the handler
    itself and all other tasks do to the host while it runs.  The steps of one
    invocation that do not wait for a handler are taken without interruption.
    [Tick] carries the clock before and after the handler and the generated ids.
    The lease and compensation stores are any that keep their contracts; streams
    and queue are the in-memory stores.  Parameters: the handlers, the dispatcher of
    the host-run primitives, the JSON of derived serializers, RFC 3339 texts,
    SHA-256 and the renderings of strings. *)

From stdpp Require Import base gmap strings list pretty relations.
From Stdlib Require Import ZArith Ascii String Lia.
From S2P Require Import Prelude Json Kernel Model Schema Policy Leases Paths Grants Authorization.
From S2P Require Import Queue Streams Ledger Catalog Invocation Compensation LeaseTemplates Meta.
Import JsonNotations.

#[local] Open Scope Z_scope.

(** ** JSON of records *)

Section records.
  Variable rfc3339 : instant -> string.

(** The derived serializer, with camel-case names. *)
(* SRC engine/authority/leases.rs:53-85 EngineResourceLease *)
Definition lease_value (l : EngineResourceLease) : Value :=
  j{"leaseId" ~> rl_lease_id l; "resourceKind" ~> rl_resource_kind l;
    "resourceId" ~> rl_resource_id l; "holderInvocationId" ~> rl_holder_invocation_id l;
    "functionId" ~> rl_function_id l; "actorId" ~> rl_actor_id l;
    "authorityGrantId" ~> rl_authority_grant_id l; "traceId" ~> rl_trace_id l;
    "parentInvocationId" ~> jstr (rl_parent_invocation_id l);
    "idempotencyKey" ~> jstr (rl_idempotency_key l);
    "status" ~> lease_status_as_str (rl_status l); "acquiredAt" ~> rfc3339 (rl_acquired_at l);
    "expiresAt" ~> rfc3339 (rl_expires_at l);
    "releasedAt" ~> jstr (rfc3339 <$> rl_released_at l)}.

(* SRC engine/kernel/types/function.rs:264-278 CompensationKind *)
Definition compensation_kind_str (k : CompensationKind) : string :=
  match k with
  | Comp_None => "none" | Comp_EventSourced => "eventSourced"
  | Comp_InverseCommandAvailable => "inverseCommandAvailable" | Comp_ManualOnly => "manualOnly"
  | Comp_ExternalIrreversible => "externalIrreversible"
  end.

(* SRC engine/authority/compensation.rs:51-85 EngineCompensationRecord *)
Definition compensation_value (r : EngineCompensationRecord) : Value :=
  j{"compensationId" ~> cr_compensation_id r; "invocationId" ~> cr_invocation_id r;
    "functionId" ~> cr_function_id r; "functionRevision" ~> cr_function_revision r;
    "actorId" ~> cr_actor_id r; "authorityGrantId" ~> cr_authority_grant_id r;
    "traceId" ~> cr_trace_id r; "parentInvocationId" ~> jstr (cr_parent_invocation_id r);
    "resourceLeaseIds" ~> jstrs (cr_resource_lease_ids r);
    "contract" ~> j{"kind" ~> compensation_kind_str (cc_kind (cr_contract r));
                    "notes" ~> cc_notes (cr_contract r)};
    "status" ~> compensation_status_as_str (cr_status r); "succeeded" ~> cr_succeeded r;
    "result" ~> jopt (cr_result r);
    "error" ~> jopt ((fun e => j{"kind" ~> se_kind e; "message" ~> se_message e;
                                 "details" ~> se_details e}) <$> cr_error r);
    "createdAt" ~> rfc3339 (cr_created_at r)}.
End records.

(** ** Answers of handlers *)

Inductive PanicPayload : Type := Panic_Str (s : string) | Panic_String (s : string) | Panic_Other.

(* SRC engine/invocation/host/invocation_support.rs:328-336 panic_payload_message *)
Definition panic_payload_message (p : PanicPayload) : string :=
  match p with
  | Panic_Str s => s
  | Panic_String s => s
  | Panic_Other => "non-string panic payload"
  end.

(** A handler returns or unwinds. *)
Inductive HandlerOutcome : Type :=
| Returned (answer : Result Value)
| Panicked (payload : PanicPayload).

(** [.catch_unwind().await.unwrap_or_else(..)] *)
(* SRC engine/invocation/host/invocation_handle.rs:185-195 EngineHostHandle::invoke_prepared_handler *)
Definition handler_answer (o : HandlerOutcome) : Result Value :=
  match o with
  | Returned answer => answer
  | Panicked payload => Err (HandlerFailed ("handler panicked: " +s panic_payload_message payload))
  end.

(* SRC engine/invocation/host/invocation_support.rs:5-21 release_after_primary *)
Definition release_after_primary (release : Result (option EngineResourceLease))
    (primary : Result Value) : Result Value :=
  match primary, release with
  | Ok value, Ok _ => Ok value
  | Err error, Ok _ => Err error
  | Ok _, Err error => Err error
  | Err error, Err _ => Err error
  end.

(* SRC engine/invocation/host/mod.rs:94-98 InvocationRecordingPolicy *)
Inductive InvocationRecordingPolicy : Type := RecordAll | SkipRetryableQueueDeliveryFailure.
#[global] Instance InvocationRecordingPolicy_eq_dec : EqDecision InvocationRecordingPolicy.
Proof. solve_decision. Defined.

(* SRC engine/invocation/host/invocation_support.rs:23-35 queue_retryable_delivery_failure *)
Definition queue_retryable_delivery_failure {H} (p : PreparedSyncInvocation H)
    (handler_result : Result Value) : option EngineError :=
  match handler_result with
  | Err (WorkerTransportFailure code message) =>
      if negb (is_mutating (fn_effect_class (pi_function p))) && negb (is_some (pi_idempotency p))
      then Some (WorkerTransportFailure code message) else None
  | _ => None
  end.

(** ** The host *)

(* SRC engine/invocation/host/mod.rs:108-113 EngineHost *)
Record EngineHost (H S L C : Type) := {
  eh_catalog : LiveCatalog H S;
  eh_leases : L;
  eh_compensation : C;
  eh_streams : StreamStore;
  eh_queue : gmap string EngineQueueItem
}.
Arguments eh_catalog {H S L C}.
Arguments eh_leases {H S L C}.
Arguments eh_compensation {H S L C}.
Arguments eh_streams {H S L C}.
Arguments eh_queue {H S L C}.

(** The clock before and after the handler, and the ids one invocation draws. *)
Record Tick := {
  tk_before : instant;
  tk_after : instant;
  tk_grant_event : string;
  tk_lease_id : string;
  tk_compensation_id : string
}.

Section host.
  Context {H S L C : Type} `{!LedgerStore S, !LeaseStore L, !CompensationStore C}.
  Notation host := (EngineHost H S L C).
  Variable debug : string -> string.
  Variable sha256_hex : string -> string.
  Variable encode : string -> string.
  Variable fs : FileSystem.
  Variable rfc3339 : instant -> string.
  Variable json_len : Value -> Z.
  Variable run_handler : H -> Invocation -> host -> HandlerOutcome * host.

Definition set_eh_catalog (x : LiveCatalog H S) (h : host) : host :=
  {| eh_catalog := x; eh_leases := eh_leases h; eh_compensation := eh_compensation h;
     eh_streams := eh_streams h; eh_queue := eh_queue h |}.
Definition set_eh_leases (x : L) (h : host) : host :=
  {| eh_catalog := eh_catalog h; eh_leases := x; eh_compensation := eh_compensation h;
     eh_streams := eh_streams h; eh_queue := eh_queue h |}.
Definition set_eh_compensation (x : C) (h : host) : host :=
  {| eh_catalog := eh_catalog h; eh_leases := eh_leases h; eh_compensation := x;
     eh_streams := eh_streams h; eh_queue := eh_queue h |}.
Definition set_eh_streams (x : StreamStore) (h : host) : host :=
  {| eh_catalog := eh_catalog h; eh_leases := eh_leases h; eh_compensation := eh_compensation h;
     eh_streams := x; eh_queue := eh_queue h |}.
Definition set_eh_queue (x : gmap string EngineQueueItem) (h : host) : host :=
  {| eh_catalog := eh_catalog h; eh_leases := eh_leases h; eh_compensation := eh_compensation h;
     eh_streams := eh_streams h; eh_queue := x |}.

(** An operation of the catalog, lifted to the host. *)
Definition on_catalog {A} (f : LiveCatalog H S -> A * LiveCatalog H S) (h : host) : A * host :=
  let '(a, c) := f (eh_catalog h) in (a, set_eh_catalog c h).

(** [let _ = self.publish_stream_event(event)]: a failed publish is dropped. *)
(* SRC engine/invocation/host/substrate_handle.rs:249-256 EngineHostHandle::publish_stream_event *)
Definition publish (now : instant) (event : PublishStreamEvent) (h : host) : host :=
  match stream_publish now event (eh_streams h) with
  | Ok (_, s) => set_eh_streams s h
  | Err _ => h
  end.

(** *** Leases *)

(* SRC engine/invocation/host/invocation_support.rs:231-243! EngineHost::acquire_resource_lease_for_invocation *)
Definition lease_event (type : string) (lease : EngineResourceLease) : PublishStreamEvent :=
  {| pe_topic := "resource.leases";
     pe_payload := j{"type" ~> type; "lease" ~> lease_value rfc3339 lease};
     pe_visibility := Vis_System; pe_session_id := None; pe_workspace_id := None;
     pe_producer := "resource_lease"; pe_trace_id := Some (rl_trace_id lease);
     pe_parent_invocation_id := Some (rl_holder_invocation_id lease) |}.

(* SRC engine/invocation/host/substrate_handle.rs:68-98 EngineHostHandle::acquire_resource_lease *)
Definition acquire_resource_lease (now : instant) (lease_id : string) (r : AcquireResourceLease)
    (h : host) : Result EngineResourceLease * host :=
  match ls_acquire now lease_id r (eh_leases h) with
  | (Err e, l) => (Err e, set_eh_leases l h)
  | (Ok lease, l) =>
      (Ok lease, publish now (lease_event "resource_lease.acquired" lease) (set_eh_leases l h))
  end.

(* SRC engine/invocation/host/substrate_handle.rs:100-130 EngineHostHandle::release_resource_lease *)
Definition release_resource_lease (now : instant) (lease_id : string) (h : host)
  : Result (option EngineResourceLease) * host :=
  match ls_release now lease_id (eh_leases h) with
  | (Err e, l) => (Err e, set_eh_leases l h)
  | (Ok (Some lease), l) =>
      (Ok (Some lease),
       publish now (lease_event "resource_lease.released" lease) (set_eh_leases l h))
  | (Ok None, l) => (Ok None, set_eh_leases l h)
  end.

(** The same steps under the host lock and outside it. *)
(* SRC engine/invocation/host/invocation_handle.rs:197-206 EngineHostHandle::acquire_prepared_resource_lease *)
Definition acquire_for_invocation (now : instant) (lease_id : string) (f : FunctionDefinition)
    (i : Invocation) (h : host) : Result (option EngineResourceLease) * host :=
  match fn_resource_lease f with
  | None => (Ok None, h)
  | Some requirement =>
      match lease_request_from_requirement requirement i with
      | Err e => (Err e, h)
      | Ok request =>
          let '(res, h) := acquire_resource_lease now lease_id request h in
          (let? lease := res in Ok (Some lease), h)
      end
  end.
(* SRC engine/invocation/host/invocation_support.rs:217-247 EngineHost::acquire_resource_lease_for_invocation *)
Definition acquire_resource_lease_for_invocation := acquire_for_invocation.
(* SRC engine/invocation/host/invocation_support.rs:249-276 EngineHost::release_resource_lease_sync *)
Definition release_resource_lease_sync := release_resource_lease.

(** *** Compensation *)

(* SRC engine/invocation/host/invocation_handle.rs:208-248 EngineHostHandle::record_compensation_for_result *)
Definition record_compensation_for_result (now : instant) (id : string) (i : Invocation)
    (contract : option CompensationContract) (result : InvocationResult)
    (resource_lease_ids : list string) (h : host) : option EngineCompensationRecord * host :=
  match contract with
  | None => (None, h)
  | Some contract =>
      let record := compensation_record debug now i result contract resource_lease_ids in
      match cs_record id record (eh_compensation h) with
      | (Ok record, s) =>
          (Some record,
           publish now
             {| pe_topic := "compensation.records";
                pe_payload := j{"type" ~> "compensation.recorded";
                                "compensation" ~> compensation_value rfc3339 record};
                pe_visibility := Vis_System; pe_session_id := None; pe_workspace_id := None;
                pe_producer := "compensation"; pe_trace_id := Some (ir_trace_id result);
                pe_parent_invocation_id := Some (ir_invocation_id result) |}
             (set_eh_compensation s h))
      | (Err _, s) => (None, set_eh_compensation s h)
      end
  end.
(* SRC engine/invocation/host/invocation_support.rs:278-317 EngineHost::record_compensation_for_result_sync *)
Definition record_compensation_for_result_sync := record_compensation_for_result.

(** *** Execution of a prepared invocation *)

(* SRC engine/invocation/host/invocation_handle.rs:185-195 EngineHostHandle::invoke_prepared_handler *)
Definition invoke_prepared_handler (p : PreparedSyncInvocation H) (h : host)
  : Result Value * host :=
  let '(outcome, h) := run_handler (pi_handler p) (pi_invocation p) h in
  (handler_answer outcome, h).

(** The lease, the handler and the release: the answer and the lease ids. *)
(* SRC engine/invocation/host/invocation_handle.rs:112-125! EngineHostHandle::execute_prepared_regular_with_recording_policy *)
Definition run_with_lease (t : Tick) (f : FunctionDefinition) (i : Invocation)
    (body : host -> Result Value * host) (h : host) : Result Value * list string * host :=
  match acquire_for_invocation (tk_before t) (tk_lease_id t) f i h with
  | (Ok (Some lease), h) =>
      let '(result, h) := body h in
      let '(release, h) := release_resource_lease (tk_after t) (rl_lease_id lease) h in
      (release_after_primary release result, [rl_lease_id lease], h)
  | (Ok None, h) => let '(result, h) := body h in (result, [], h)
  | (Err error, h) => (Err error, [], h)
  end.

(** [.or(compensation_status)] *)
Definition recorded_status (compensation : option EngineCompensationRecord)
    (status : option string) : option string :=
  match compensation with
  | Some record => Some (compensation_status_as_str (cr_status record))
  | None => status
  end.

(* SRC engine/invocation/host/invocation_handle.rs:109-183 EngineHostHandle::execute_prepared_regular_with_recording_policy *)
Definition execute_prepared_regular_with_recording_policy (t : Tick)
    (p : PreparedSyncInvocation H) (policy : InvocationRecordingPolicy) (h : host)
  : QueueTargetInvocation * host :=
  let f := pi_function p in
  let i := pi_invocation p in
  let '(handler_result, lease_ids, h) := run_with_lease t f i (invoke_prepared_handler p) h in
  let retryable :=
    match policy with
    | SkipRetryableQueueDeliveryFailure => queue_retryable_delivery_failure p handler_result
    | RecordAll => None
    end in
  match retryable with
  | Some error =>
      ({| qt_result := result_error i (fn_owner_worker f) (fn_revision f)
                         (cx_catalog_revision (inv_context i)) error;
          qt_recorded_invocation := false; qt_resource_lease_ids := [];
          qt_compensation_status := None; qt_compensation_id := None |}, h)
  | None =>
      let compensation_status := (fun _ => "recorded") <$> fn_compensation f in
      let '(result, h) :=
        on_catalog (finish_prepared_sync_invocation_with_contracts debug (tk_after t) p
                      handler_result lease_ids compensation_status) h in
      let '(compensation, h) :=
        record_compensation_for_result (tk_after t) (tk_compensation_id t) i (fn_compensation f)
          result lease_ids h in
      ({| qt_result := result; qt_recorded_invocation := true;
          qt_resource_lease_ids := lease_ids;
          qt_compensation_status := recorded_status compensation compensation_status;
          qt_compensation_id := cr_compensation_id <$> compensation |}, h)
  end.

(* SRC engine/invocation/host/invocation_handle.rs:100-107 EngineHostHandle::execute_prepared_regular *)
Definition execute_prepared_regular (t : Tick) (p : PreparedSyncInvocation H) (h : host)
  : InvocationResult * host :=
  let '(target, h) := execute_prepared_regular_with_recording_policy t p RecordAll h in
  (qt_result target, h).

(** *** Meta functions and host-run primitives *)

(** [dispatch] is [primitives::runtime::dispatch]; the others are the UUID of a
    catalog change, the text of metadata and the derived JSON of definitions. *)
Variable dispatch : Invocation -> host -> Result Value * host.
Variable uuid : Z -> string.
Variable metadata_text : Value -> string.
Variable function_value : FunctionDefinition -> Value.
Variable worker_value : WorkerDefinition -> Value.
Variable trigger_type_value : TriggerTypeDefinition -> Value.
Variable trigger_value : TriggerDefinition -> Value.

(** The function, and the invocation with the catalog revision it was checked
    at. *)
(* SRC engine/invocation/host/meta_invocation.rs:174-195 EngineHost::prepare_meta_invocation *)
Definition prepare_meta_invocation (now : instant) (i : Invocation) (h : host)
  : Result FunctionDefinition * Invocation :=
  let c := eh_catalog h in
  match function (inv_function_id i) c with
  | None => (Err (NotFound "function" (inv_function_id i)), i)
  | Some f =>
      let i := set_catalog_revision (lc_revision c) i in
      (let? _ := validate_invocation f i in
       let? _ := validate_invocation_grant debug sha256_hex fs now f i c in
       let? _ := check_schema debug f "request" (fn_request_schema f) (inv_payload i) in
       Ok f, i)
  end.

(* SRC engine/invocation/host/meta_invocation.rs:197-213 EngineHost::consume_invocation_budget_sync *)
Definition consume_invocation_budget_sync (now : instant) (event : string)
    (f : FunctionDefinition) (i : Invocation) (h : host) : Result host :=
  let? c := consume_budget now event f i (eh_catalog h) in Ok (set_eh_catalog c h).

(* SRC engine/invocation/host/meta_invocation.rs:232-290 EngineHost::finish_meta_invocation_with_contracts *)
Definition finish_meta_invocation_with_contracts (t : Tick) (i : Invocation)
    (f : FunctionDefinition) (value : Result Value) (idempotency : option IdempotencyReservation)
    (resource_lease_ids : list string) (contract : option CompensationContract) (h : host)
  : InvocationResult * host :=
  let revision := lc_revision (eh_catalog h) in
  let result :=
    match value with
    | Ok v => result_success i (fn_owner_worker f) (fn_revision f) revision v
    | Err err => result_error i (fn_owner_worker f) (fn_revision f) revision err
    end in
  let scope := (fun r => ik_scope (rv_key r)) <$> idempotency in
  let '(result, h) :=
    on_catalog (settle_reservation debug (tk_after t) i f idempotency result) h in
  let status := (fun _ => "recorded") <$> contract in
  let '(compensation, h) :=
    record_compensation_for_result_sync (tk_after t) (tk_compensation_id t) i contract result
      resource_lease_ids h in
  on_catalog (record_invocation_result_with_contracts (tk_after t) i result scope
                resource_lease_ids (recorded_status compensation status)) h.

(* SRC engine/invocation/host/meta_invocation.rs:215-230 EngineHost::finish_meta_invocation *)
Definition finish_meta_invocation (t : Tick) (i : Invocation) (f : FunctionDefinition)
    (value : Result Value) (idempotency : option IdempotencyReservation) (h : host)
  : InvocationResult * host :=
  finish_meta_invocation_with_contracts t i f value idempotency [] None h.

(* SRC engine/invocation/host/meta_invocation.rs:292-312 EngineHost::meta_error *)
Definition meta_error (now : instant) (i : Invocation) (err : EngineError) (h : host)
  : InvocationResult * host :=
  let c := eh_catalog h in
  let '(worker_id, revision) :=
    match function (inv_function_id i) c with
    | Some f => (fn_owner_worker f, fn_revision f)
    | None => (ENGINE_WORKER_ID, 0)
    end in
  on_catalog (record_invocation_result now i
                (result_error i worker_id revision (lc_revision c) err) None) h.

(** The steps the meta functions and the host-run primitives share; [body] is
    the function's own work. *)
(* SRC engine/invocation/host/meta_invocation.rs:10-51! EngineHost::invoke_sync_host_dispatched_primitive *)
Definition invoke_sync_with (body : Invocation -> host -> Result Value * host) (t : Tick)
    (i : Invocation) (h : host) : InvocationResult * host :=
  match prepare_meta_invocation (tk_before t) i h with
  | (Err err, i) => meta_error (tk_before t) i err h
  | (Ok f, i) =>
      let '(decision, h) :=
        on_catalog (begin_invocation_idempotency sha256_hex encode (tk_before t) f i) h in
      match decision with
      | Idem_Finished result scope =>
          on_catalog (record_invocation_result (tk_before t) i result scope) h
      | Idem_None | Idem_Reserved _ =>
          let idempotency := match decision with Idem_Reserved r => Some r | _ => None end in
          match consume_invocation_budget_sync (tk_before t) (tk_grant_event t) f i h with
          | Err err => finish_meta_invocation t i f (Err err) idempotency h
          | Ok h =>
              let '(value, lease_ids, h) := run_with_lease t f i (body i) h in
              finish_meta_invocation_with_contracts t i f value idempotency lease_ids
                (fn_compensation f) h
          end
      end
  end.

(* SRC engine/invocation/host/meta_invocation.rs:6-51 EngineHost::invoke_sync_host_dispatched_primitive *)
Definition invoke_sync_host_dispatched_primitive := invoke_sync_with dispatch.

(* SRC engine/invocation/host/meta_invocation.rs:314-333 EngineHost::meta_discover *)
Definition meta_discover (i : Invocation) (h : host) : Result Value :=
  let payload := inv_payload i in
  let? visibility := optional_visibility (vget payload "visibility") in
  let? namespace_prefix := optional_string (vget payload "namespacePrefix") in
  let? text := optional_string (vget payload "text") in
  let? effect := optional_effect (vget payload "effectClass") in
  let? max_risk := optional_risk (vget payload "maxRisk") in
  let? health := optional_health (vget payload "health") in
  let query :=
    {| fq_actor := Some (meta_actor_context (inv_context i)); fq_visibility := visibility;
       fq_namespace_prefix := namespace_prefix; fq_text := text; fq_effect_class := effect;
       fq_max_risk := max_risk; fq_health := health;
       fq_include_internal := default false (vget payload "includeInternal" ≫= as_bool) |} in
  Ok (j{"functions" ~> VArray (map function_value (discover_functions metadata_text query (eh_catalog h)))}).

(** [if !is_visibility_visible(..) { return Err(..) }] *)
Definition visible_or (kind id : string) (visibility : VisibilityScope) (p : Provenance)
    (actor : ActorContext) : Result unit :=
  if negb (item_visible visibility p actor)
  then policy_error (kind +s " " +s id +s " is not visible") else Ok tt.

(* SRC engine/invocation/host/meta_invocation.rs:335-400 EngineHost::meta_inspect *)
Definition meta_inspect (i : Invocation) (h : host) : Result Value :=
  let? kind := required_str (inv_payload i) "kind" in
  let? id := required_str (inv_payload i) "id" in
  let actor := meta_actor_context (inv_context i) in
  let c := eh_catalog h in
  let? definition :=
    if kind =s "function" then
      let? fid := function_id_new id in
      let? d := inspect_function fid (Some actor) c in Ok (function_value d)
    else if kind =s "worker" then
      let? wid := engine_id_new "worker" id in
      let? d := inspect_worker wid c in
      let? _ := visible_or "worker" id (wk_visibility d) (wk_provenance d) actor in
      Ok (worker_value d)
    else if kind =s "trigger_type" then
      let? tid := engine_id_new "trigger_type" id in
      let? d := inspect_trigger_type tid c in
      let? _ := visible_or "trigger type" id (tt_visibility d) (tt_provenance d) actor in
      Ok (trigger_type_value d)
    else if kind =s "trigger" then
      let? tid := engine_id_new "trigger" id in
      let? d := inspect_trigger tid c in
      let? _ := visible_or "trigger" id (tr_visibility d) (tr_provenance d) actor in
      Ok (trigger_value d)
    else policy_error ("unsupported inspect kind " +s kind) in
  Ok (j{"kind" ~> kind; "definition" ~> definition}).

(* SRC engine/invocation/host/meta_invocation.rs:402-417 EngineHost::meta_watch *)
Definition meta_watch (i : Invocation) (h : host) : Result Value :=
  let? request := watch_request_from_payload (inv_payload i) in
  let? response := watch_catalog (meta_actor_context (inv_context i)) request (eh_catalog h) in
  Ok (j{"changes" ~> VArray (map (catalog_change_value rfc3339) (ws_changes response));
        "currentRevision" ~> ws_current_revision response;
        "nextRevision" ~> ws_next_revision response; "hasMore" ~> ws_has_more response}).

(** The checks of [meta_promote], and what is to be promoted. *)
(* SRC engine/invocation/host/meta_invocation.rs:423-468! EngineHost::meta_promote *)
Definition promote_target (i : Invocation) (c : LiveCatalog H S)
  : Result (FunctionId * WorkerId * VisibilityScope * option string) :=
  let payload := inv_payload i in
  let? name := required_str payload "functionId" in
  let? function_id := function_id_new name in
  let? target := required_visibility payload "targetVisibility" in
  let? workspace_id := optional_string (vget payload "workspaceId") in
  let? f := ok_or (function function_id c) (NotFound "function" function_id) in
  let? owner := optional_string (vget payload "ownerWorker") in
  let? owner_worker :=
    match owner with Some o => engine_id_new "worker" o | None => Ok (fn_owner_worker f) end in
  if negb (bool_decide (fn_visibility f = Vis_Session))
  then Err (InvalidVisibilityPromotion function_id (visibility_as_str target)
              "only session-visible functions can be promoted by engine::promote")
  else
  let actor := meta_actor_context (inv_context i) in
  if negb (is_admin_like (ac_actor_kind actor))
     && negb (bool_decide (prov_session_id (fn_provenance f) = ac_session_id actor))
  then policy_error "cannot promote function from a different session"
  else match target with
       | Vis_Workspace | Vis_System => Ok (function_id, owner_worker, target, workspace_id)
       | _ => Err (InvalidVisibilityPromotion function_id (visibility_as_str target)
                     "engine::promote only supports workspace or system targets")
       end.

(* SRC engine/invocation/host/meta_invocation.rs:429-484 EngineHost::meta_promote *)
Definition meta_promote (now : instant) (i : Invocation) (h : host) : Result Value * host :=
  match promote_target i (eh_catalog h) with
  | Err e => (Err e, h)
  | Ok (function_id, owner_worker, target, workspace_id) =>
      let '(res, h) :=
        on_catalog (promote_function_visibility uuid now function_id owner_worker target
                      workspace_id) h in
      (let? revision := res in
       Ok (j{"functionId" ~> function_id; "revision" ~> (revision : Z);
             "visibility" ~> visibility_as_str target}), h)
  end.

(* SRC engine/invocation/host/meta_invocation.rs:79-88! EngineHost::invoke_sync_meta *)
Definition meta_body (now : instant) (i : Invocation) (h : host) : Result Value * host :=
  let id := inv_function_id i in
  if id =s DISCOVER_FUNCTION then (meta_discover i h, h)
  else if id =s INSPECT_FUNCTION then (meta_inspect i h, h)
  else if id =s WATCH_FUNCTION then (meta_watch i h, h)
  else if id =s PROMOTE_FUNCTION then meta_promote now i h
  else (Err (NotFound "function" id), h).

(* SRC engine/invocation/host/meta_invocation.rs:53-113 EngineHost::invoke_sync_meta *)
Definition invoke_sync_meta (t : Tick) (i : Invocation) (h : host) : InvocationResult * host :=
  invoke_sync_with (meta_body (tk_after t)) t i h.

(** *** Delegated invocations *)

(* SRC engine/invocation/host/mod.rs:79-83 PreparedDelegatedInvocation *)
Record PreparedDelegatedInvocation := {
  pd_meta_invocation : Invocation;
  pd_meta_function : FunctionDefinition;
  pd_child : PreparedSyncInvocationDecision H
}.
(* SRC engine/invocation/host/mod.rs:89-92 PreparedDelegatedInvocationDecision *)
Inductive PreparedDelegatedInvocationDecision : Type :=
| Delegated_Execute (p : PreparedDelegatedInvocation)
| Delegated_Finished (r : InvocationResult).

(** [tc] is the tick of the child, [child_id] its generated id. *)
(* SRC engine/invocation/host/meta_invocation.rs:134-172 EngineHost::prepare_delegated_invocation *)
Definition prepare_delegated_invocation (t tc : Tick) (child_id : InvocationId) (i : Invocation)
    (h : host) : PreparedDelegatedInvocationDecision * host :=
  match prepare_meta_invocation (tk_before t) i h with
  | (Err err, i) =>
      let '(r, h) := meta_error (tk_before t) i err h in (Delegated_Finished r, h)
  | (Ok f, i) =>
      match delegated_child_invocation child_id i with
      | Err err =>
          let '(r, h) := finish_meta_invocation t i f (Err err) None h in (Delegated_Finished r, h)
      | Ok child =>
          match consume_invocation_budget_sync (tk_before t) (tk_grant_event t) f i h with
          | Err err =>
              let '(r, h) := finish_meta_invocation t i f (Err err) None h in
              (Delegated_Finished r, h)
          | Ok h =>
              let '(child, h) :=
                if is_host_dispatched_primitive_function (inv_function_id child) then
                  let '(r, h) := invoke_sync_host_dispatched_primitive tc child h in (Finished r, h)
                else
                  on_catalog (prepare_sync_invocation debug sha256_hex encode fs (tk_before tc)
                                (tk_grant_event tc) child) h in
              (Delegated_Execute {| pd_meta_invocation := i; pd_meta_function := f;
                                    pd_child := child |}, h)
          end
      end
  end.

(* SRC engine/invocation/host/invocation_handle.rs:283-310 EngineHostHandle::invoke_delegated_unlocked *)
Definition invoke_delegated_unlocked (t tc : Tick) (child_id : InvocationId) (i : Invocation)
    (h : host) : InvocationResult * host :=
  match prepare_delegated_invocation t tc child_id i h with
  | (Delegated_Finished r, h) => (r, h)
  | (Delegated_Execute p, h) =>
      let '(child_result, h) :=
        match pd_child p with
        | Execute child => execute_prepared_regular tc child h
        | Finished r => (r, h)
        end in
      finish_meta_invocation t (pd_meta_invocation p) (pd_meta_function p)
        (Ok (delegated_invoke_value debug child_result)) None h
  end.

(** *** Invocation through the handle *)

(** [catalog.invoke_sync]: the handler runs under the lock, without a lease or a
    compensation record.  [call_handler] is the handler of a call that returns; a
    panic is not caught here.  The handle comes here only for [engine] functions
    that are not meta functions. *)
Variable call_handler : H -> Invocation -> host -> Result Value * host.

(* SRC engine/catalog/registry/invocation.rs:44-53 LiveCatalog::invoke_sync *)
Definition catalog_invoke_sync (t : Tick) (i : Invocation) (h : host) : InvocationResult * host :=
  let '(decision, h) :=
    on_catalog (prepare_sync_invocation debug sha256_hex encode fs (tk_before t)
                  (tk_grant_event t) i) h in
  match decision with
  | Finished r => (r, h)
  | Execute p =>
      let '(answer, h) := call_handler (pi_handler p) (pi_invocation p) h in
      on_catalog (finish_prepared_sync_invocation debug (tk_after t) p answer) h
  end.

(* SRC engine/invocation/host/meta_invocation.rs:419-427 EngineHost::meta_invoke_child *)
Definition meta_invoke_child (tc : Tick) (child_id : InvocationId) (i : Invocation) (h : host)
  : Result Value * host :=
  match delegated_child_invocation child_id i with
  | Err err => (Err err, h)
  | Ok child =>
      let '(child_result, h) :=
        if is_host_dispatched_primitive_function (inv_function_id child)
        then invoke_sync_host_dispatched_primitive tc child h
        else catalog_invoke_sync tc child h in
      (Ok (delegated_invoke_value debug child_result), h)
  end.

(* SRC engine/invocation/host/meta_invocation.rs:115-132 EngineHost::invoke_delegated *)
Definition invoke_delegated (t tc : Tick) (child_id : InvocationId) (i : Invocation) (h : host)
  : InvocationResult * host :=
  match prepare_meta_invocation (tk_before t) i h with
  | (Err err, i) => meta_error (tk_before t) i err h
  | (Ok f, i) =>
      match consume_invocation_budget_sync (tk_before t) (tk_grant_event t) f i h with
      | Err err => finish_meta_invocation t i f (Err err) None h
      | Ok h =>
          let '(value, h) := meta_invoke_child tc child_id i h in
          finish_meta_invocation t i f value None h
      end
  end.

(* SRC engine/invocation/host/mod.rs:204-220 EngineHost::invoke *)
Definition host_invoke (t tc : Tick) (child_id : InvocationId) (i : Invocation) (h : host)
  : InvocationResult * host :=
  let id := inv_function_id i in
  if negb (function_namespace id =s ENGINE_WORKER_ID) then
    if is_host_dispatched_primitive_function id then invoke_sync_host_dispatched_primitive t i h
    else catalog_invoke_sync t i h
  else if (id =s DISCOVER_FUNCTION) || (id =s INSPECT_FUNCTION) || (id =s WATCH_FUNCTION)
          || (id =s PROMOTE_FUNCTION)
  then invoke_sync_meta t i h
  else if id =s INVOKE_FUNCTION then invoke_delegated t tc child_id i h
  else catalog_invoke_sync t i h.

Definition prepare_then_execute (prepare : LiveCatalog H S -> PreparedSyncInvocationDecision H * LiveCatalog H S)
    (t : Tick) (h : host) : InvocationResult * host :=
  let '(decision, h) := on_catalog prepare h in
  match decision with
  | Execute p => execute_prepared_regular t p h
  | Finished r => (r, h)
  end.

(* SRC engine/invocation/host/invocation_handle.rs:6-32 EngineHostHandle::invoke *)
Definition invoke (t tc : Tick) (child_id : InvocationId) (i : Invocation) (h : host)
  : InvocationResult * host :=
  let id := inv_function_id i in
  if id =s INVOKE_FUNCTION then invoke_delegated_unlocked t tc child_id i h
  else if function_namespace id =s ENGINE_WORKER_ID then host_invoke t tc child_id i h
  else if is_host_dispatched_primitive_function id then host_invoke t tc child_id i h
  else prepare_then_execute
         (prepare_sync_invocation debug sha256_hex encode fs (tk_before t) (tk_grant_event t) i) t h.

(* SRC engine/invocation/host/invocation_handle.rs:34-78 EngineHostHandle::invoke_queue_target *)
Definition invoke_queue_target (t tc : Tick) (child_id : InvocationId) (i : Invocation) (h : host)
  : QueueTargetInvocation * host :=
  let id := inv_function_id i in
  let answered r :=
    {| qt_result := r; qt_recorded_invocation := true; qt_resource_lease_ids := [];
       qt_compensation_status := None; qt_compensation_id := None |} in
  if (id =s INVOKE_FUNCTION) || (function_namespace id =s ENGINE_WORKER_ID)
     || is_host_dispatched_primitive_function id
  then let '(r, h) := invoke t tc child_id i h in (answered r, h)
  else
  let '(decision, h) :=
    on_catalog (prepare_sync_invocation debug sha256_hex encode fs (tk_before t)
                  (tk_grant_event t) i) h in
  match decision with
  | Execute p =>
      execute_prepared_regular_with_recording_policy t p SkipRetryableQueueDeliveryFailure h
  | Finished r => (answered r, h)
  end.

(* SRC engine/invocation/host/invocation_handle.rs:80-98 EngineHostHandle::invoke_trigger_target *)
Definition invoke_trigger_target (t tc : Tick) (child_id : InvocationId) (i : Invocation)
    (h : host) : InvocationResult * host :=
  if bool_decide (inv_delivery_mode i = Delivery_Sync) then invoke t tc child_id i h
  else prepare_then_execute
         (prepare_trigger_target_invocation debug sha256_hex encode fs (tk_before t)
            (tk_grant_event t) i) t h.

(* SRC engine/invocation/host/invocation_handle.rs:263-281 EngineHostHandle::record_policy_stopped_invocation *)
Definition record_policy_stopped_invocation (now : instant) (i : Invocation) (worker_id : WorkerId)
    (function_revision : Z) (error : EngineError) (h : host) : InvocationResult * host :=
  on_catalog (record_invocation_result now i
    (result_error i worker_id function_revision (lc_revision (eh_catalog h)) error) None) h.
(* SRC engine/invocation/host/invocation_handle.rs:250-261 EngineHostHandle::record_trigger_prepare_failure *)
Definition record_trigger_prepare_failure := record_policy_stopped_invocation.

(** *** Queue delivery *)

(** The derived JSON of an attempt record. *)
Variable attempt_value : EngineQueueAttemptRecord -> Value.

(* SRC engine/durability/queue/runtime.rs:198-238 queue_lifecycle_stream_event *)
Definition queue_lifecycle_stream_event (event_type : string) (item : EngineQueueItem)
    (result : option (InvocationResult * bool)) : PublishStreamEvent :=
  let r := q_request item in
  let status :=
    if event_type =s "enqueue" then "ready"
    else if event_type =s "claim" then "leased"
    else if event_type =s "complete" then "completed"
    else if event_type =s "fail" then queue_status_as_str (q_status item)
    else if event_type =s "cancel" then "cancelled"
    else if event_type =s "dead_letter" then "dead_lettered"
    else queue_status_as_str (q_status item) in
  {| pe_topic := "queue.lifecycle";
     pe_payload :=
       j{"type" ~> ("queue." +s event_type); "receiptId" ~> q_receipt_id item;
         "queue" ~> q_queue item; "functionId" ~> eq_function_id r; "status" ~> status;
         "attempts" ~> q_attempts item;
         "deliveryInvocationId" ~> jstr (match result with Some (v, _) => Some (ir_invocation_id v)
                                                         | None => None end);
         "resultInvocationId" ~>
           jstr (match result with Some (v, true) => Some (ir_invocation_id v) | _ => None end);
         "error" ~> jstr (match result with Some (v, _) => error_to_string debug <$> ir_error v
                                          | None => None end);
         "attemptRecords" ~> VArray (map attempt_value (q_attempt_records item));
         "lastAttempt" ~> jopt (attempt_value <$> last (q_attempt_records item))};
     pe_visibility := Vis_Session; pe_session_id := eq_session_id r;
     pe_workspace_id := eq_workspace_id r; pe_producer := "queue";
     pe_trace_id := Some (eq_trace_id r);
     pe_parent_invocation_id := eq_parent_invocation_id r |}.

(* SRC engine/durability/queue/runtime.rs:178-188 publish_queue_lifecycle_event *)
Definition publish_queue_lifecycle_event (now : instant) (event_type : string)
    (item : EngineQueueItem) (result : option (InvocationResult * bool)) (h : host) : host :=
  publish now (queue_lifecycle_stream_event event_type item result) h.

(** An operation of the queue store, lifted to the host. *)
Definition on_queue {A} (f : gmap string EngineQueueItem -> Result (A * gmap string EngineQueueItem))
    (h : host) : Result A * host :=
  match f (eh_queue h) with
  | Ok (a, q) => (Ok a, set_eh_queue q h)
  | Err e => (Err e, h)
  end.

(* SRC engine/invocation/host/substrate_handle.rs:328-335 EngineHostHandle::enqueue_invocation *)
Definition enqueue_invocation (now : instant) (receipt : string) (r : EnqueueInvocation)
  : host -> Result EngineQueueItem * host := on_queue (queue_enqueue json_len now receipt r).
(* SRC engine/invocation/host/substrate_handle.rs:337-349 EngineHostHandle::claim_queue_item *)
Definition claim_queue_item (now : instant) (queue lease_owner : string) (lease_ms : Z)
  : host -> Result (option EngineQueueItem) * host :=
  on_queue (queue_claim now queue lease_owner lease_ms).
(* SRC engine/invocation/host/substrate_handle.rs:351-363 EngineHostHandle::claim_queue_item_by_receipt *)
Definition claim_queue_item_by_receipt (now : instant) (receipt lease_owner : string)
    (lease_ms : Z) : host -> Result (option EngineQueueItem) * host :=
  on_queue (queue_claim_by_receipt now receipt lease_owner lease_ms).

(* SRC engine/durability/queue/runtime.rs:48-125 EngineQueueRuntime::execute_claimed_item *)
Definition execute_claimed_item (t tc : Tick) (id child_id : InvocationId)
    (item : EngineQueueItem) (h : host) : Result InvocationResult * host :=
  let '(target, h) := invoke_queue_target t tc child_id (claimed_invocation id item) h in
  let '(settled, h) := on_queue (settle_claimed_item debug (tk_after t) item target) h in
  match settled with
  | Err e => (Err e, h)
  | Ok None => (Ok (qt_result target), h)
  | Ok (Some (event_type, updated)) =>
      (Ok (qt_result target),
       publish_queue_lifecycle_event (tk_after t) event_type updated
         (Some (qt_result target, qt_recorded_invocation target)) h)
  end.

(** [let Some(item) = claim? else { return Ok(None) }; publish; execute] *)
Definition drain (claim : host -> Result (option EngineQueueItem) * host) (t tc : Tick)
    (id child_id : InvocationId) (h : host) : Result (option InvocationResult) * host :=
  match claim h with
  | (Err e, h) => (Err e, h)
  | (Ok None, h) => (Ok None, h)
  | (Ok (Some item), h) =>
      let h := publish_queue_lifecycle_event (tk_before t) "claim" item None h in
      let '(r, h) := execute_claimed_item t tc id child_id item h in
      (let? r := r in Ok (Some r), h)
  end.
(* SRC engine/durability/queue/runtime.rs:16-28 EngineQueueRuntime::drain_once *)
Definition drain_once (t tc : Tick) (id child_id : InvocationId) (queue lease_owner : string)
  : host -> Result (option InvocationResult) * host :=
  drain (claim_queue_item (tk_before t) queue lease_owner 30000) t tc id child_id.
(* SRC engine/durability/queue/runtime.rs:30-46 EngineQueueRuntime::drain_receipt *)
Definition drain_receipt (t tc : Tick) (id child_id : InvocationId) (receipt lease_owner : string)
  : host -> Result (option InvocationResult) * host :=
  drain (claim_queue_item_by_receipt (tk_before t) receipt lease_owner 30000) t tc id child_id.

(* SRC engine/invocation/host/substrate_handle.rs:425-460 EngineHostHandle::record_enqueued_invocation *)
Definition record_enqueued_invocation (now : instant) (i : Invocation) (item : EngineQueueItem)
    (h : host) : InvocationResult * host :=
  let c := eh_catalog h in
  let result :=
    match function (inv_function_id i) c with
    | None => result_error i "missing" 0 (lc_revision c) (NotFound "function" (inv_function_id i))
    | Some f =>
        result_success i (fn_owner_worker f) (fn_revision f) (lc_revision c)
          (j{"queued" ~> true; "receiptId" ~> q_receipt_id item; "queue" ~> q_queue item})
    end in
  on_catalog (record_invocation_result now i result None) h.
End host.
Arguments PreparedDelegatedInvocation : clear implicits.
Arguments PreparedDelegatedInvocationDecision : clear implicits.

(** ** Guarantees *)

Section guarantees.
  Context {H S L C : Type} `{!LedgerStore S, !LeaseStore L, !CompensationStore C}.
  Notation host := (EngineHost H S L C).
  Implicit Types (h : EngineHost H S L C) (p : PreparedSyncInvocation H).
  Variable debug : string -> string.
  Variable rfc3339 : instant -> string.
  Notation execute := (execute_prepared_regular_with_recording_policy debug rfc3339).

(** *** Frames: which store a step touches *)

Lemma publish_frame now e h :
  eh_catalog (publish now e h) = eh_catalog h /\ eh_leases (publish now e h) = eh_leases h /\
  eh_compensation (publish now e h) = eh_compensation h /\ eh_queue (publish now e h) = eh_queue h.
Proof. unfold publish. by destruct (stream_publish now e (eh_streams h)) as [[? ?]|]. Qed.
Lemma publish_leases now e h : eh_leases (publish now e h) = eh_leases h.
Proof. apply publish_frame. Qed.
Lemma publish_catalog now e h : eh_catalog (publish now e h) = eh_catalog h.
Proof. apply publish_frame. Qed.
Lemma publish_compensation now e h : eh_compensation (publish now e h) = eh_compensation h.
Proof. apply publish_frame. Qed.
Lemma publish_queue now e h : eh_queue (publish now e h) = eh_queue h.
Proof. apply publish_frame. Qed.

Lemma on_catalog_leases {A} (f : LiveCatalog H S -> A * LiveCatalog H S) h :
  eh_leases (snd (on_catalog f h)) = eh_leases h.
Proof. unfold on_catalog. by destruct (f (eh_catalog h)). Qed.
Lemma on_catalog_compensation {A} (f : LiveCatalog H S -> A * LiveCatalog H S) h :
  eh_compensation (snd (on_catalog f h)) = eh_compensation h.
Proof. unfold on_catalog. by destruct (f (eh_catalog h)). Qed.

Lemma record_compensation_leases now id i contract r leases h :
  eh_leases (snd (record_compensation_for_result debug rfc3339 now id i contract r leases h))
  = eh_leases h.
Proof.
  unfold record_compensation_for_result. destruct contract as [contract|]; [|done].
  destruct (cs_record _ _ _) as [[x|e] s]; simpl; by rewrite ?publish_leases.
Qed.
Lemma record_compensation_catalog now id i contract r leases h :
  eh_catalog (snd (record_compensation_for_result debug rfc3339 now id i contract r leases h))
  = eh_catalog h.
Proof.
  unfold record_compensation_for_result. destruct contract as [contract|]; [|done].
  destruct (cs_record _ _ _) as [[x|e] s]; simpl; by rewrite ?publish_catalog.
Qed.

(** The steps after the handler leave the leases alone. *)
Lemma execute_leases run t p policy h :
  eh_leases (snd (execute run t p policy h))
  = eh_leases (snd (run_with_lease rfc3339 t (pi_function p) (pi_invocation p)
                      (invoke_prepared_handler run p) h)).
Proof.
  unfold execute_prepared_regular_with_recording_policy.
  destruct (run_with_lease _ _ _ _ _ _) as [[answer leases] h1]. cbn [snd].
  destruct (match policy with RecordAll => _ | _ => _ end) as [e|]; [done|].
  pose proof (on_catalog_leases (finish_prepared_sync_invocation_with_contracts debug (tk_after t)
    p answer leases ((fun _ => "recorded") <$> fn_compensation (pi_function p))) h1) as Hc.
  destruct (on_catalog _ h1) as [r h2]. simpl in Hc.
  pose proof (record_compensation_leases (tk_after t) (tk_compensation_id t) (pi_invocation p)
    (fn_compensation (pi_function p)) r leases h2) as Hr.
  destruct (record_compensation_for_result _ _ _ _ _ _ _ _ h2) as [x h3]. simpl in *.
  congruence.
Qed.

(** *** Leases *)

(** Other tasks use the lease store through its operations only. *)
Definition uses_leases (run : H -> Invocation -> host -> HandlerOutcome * host) : Prop :=
  forall hd i h, rtc lease_step (eh_leases h) (eh_leases (snd (run hd i h))).

Lemma lease_step_view (s s' : L) :
  lease_step s s' -> ls_inv s ->
  ls_inv s' /\ forall id, is_Some (ls_view s !! id) -> is_Some (ls_view s' !! id).
Proof.
  intros Hstep Hinv. destruct Hstep as [now id r s res s' Hfresh Ha|now id s res s' Hr].
  - destruct (ls_acquire_ok _ _ _ _ _ _ Hinv Hfresh Ha) as [Hinv' Hs]. split; [done|].
    intros j Hj. destruct Hs; [done|done|]. apply lookup_insert_is_Some'. right.
    by rewrite lookup_fmap, fmap_is_Some.
  - destruct (ls_release_ok _ _ _ _ _ Hinv Hr) as [Hinv' Hs]. split; [done|].
    unfold release_spec in Hs. intros j Hj.
    destruct (ls_view s !! id) as [l|]; [|by injection Hs as _ <-].
    case_bool_decide; injection Hs as _ <-; [|done]. apply lookup_insert_is_Some'. by right.
Qed.
Lemma lease_steps_view (s s' : L) :
  rtc lease_step s s' -> ls_inv s ->
  ls_inv s' /\ forall id, is_Some (ls_view s !! id) -> is_Some (ls_view s' !! id).
Proof.
  induction 1 as [s|s s1 s' Hstep _ IH]; [done|]. intros Hinv.
  destruct (lease_step_view _ _ Hstep Hinv) as [Hinv1 Hk].
  destruct (IH Hinv1) as [Hinv' Hk']. auto.
Qed.

Lemma release_ends now id h res h' :
  ls_inv (eh_leases h) ->
  release_resource_lease rfc3339 now id h = (res, h') ->
  forall l, ls_view (eh_leases h') !! id = Some l -> ~ held l.
Proof.
  intros Hinv. unfold release_resource_lease.
  destruct (ls_release now id (eh_leases h)) as [r s] eqn:Hr.
  destruct (ls_release_ok _ _ _ _ _ Hinv Hr) as [_ Hs]. intros Heq.
  assert (eh_leases h' = s) as ->.
  { destruct r as [[l|]|e]; simplify_eq; by rewrite ?publish_leases. }
  intros l. unfold release_spec in Hs.
  destruct (ls_view (eh_leases h) !! id) as [l0|] eqn:Hl0;
    [|injection Hs as _ <-; congruence].
  case_bool_decide as Hact; injection Hs as _ <-.
  - rewrite lookup_insert_eq. by intros [= <-].
  - rewrite Hl0. by intros [= <-].
Qed.

(** What acquiring the lease of an invocation leaves. *)
Definition acquired (now : instant) (id : string) (f : FunctionDefinition) (i : Invocation)
    (h : host) (res : Result (option EngineResourceLease)) (h' : host) : Prop :=
  match res with
  | Ok (Some lease) =>
      exists requirement r, fn_resource_lease f = Some requirement /\
        lease_request_from_requirement requirement i = Ok r /\
        lease = lease_from_request r now id /\ ls_view (eh_leases h') !! id = Some lease
  | Ok None => fn_resource_lease f = None /\ h' = h
  | Err _ => ls_view (eh_leases h') = ls_view (eh_leases h)
  end.

Lemma acquire_for_invocation_spec now id f i h res h' :
  ls_inv (eh_leases h) -> ls_view (eh_leases h) !! id = None ->
  acquire_for_invocation rfc3339 now id f i h = (res, h') ->
  ls_inv (eh_leases h') /\ acquired now id f i h res h'.
Proof.
  intros Hinv Hfresh. unfold acquire_for_invocation, acquire_resource_lease.
  destruct (fn_resource_lease f) as [req|] eqn:Hreq; [|intros [= <- <-]; by simpl].
  destruct (lease_request_from_requirement req i) as [r|e] eqn:Hr; [|by intros [= <- <-]].
  destruct (ls_acquire now id r (eh_leases h)) as [[lease|e] s] eqn:Ha;
    destruct (ls_acquire_ok _ _ _ _ _ _ Hinv Hfresh Ha) as [Hinv' Hs];
    intros [= <- <-]; rewrite ?publish_leases; split; try done.
  - inversion Hs as [| |Hv Hn Hlease Hview]; subst. exists req, r. rewrite publish_leases. simpl.
    split_and!; try done. rewrite <- Hview. apply lookup_insert_eq.
  - inversion Hs; by subst.
Qed.

(** C28: After an invocation of a function with a lease requirement has been executed,
    whatever its handler did, returned or how it failed, the lease taken for it is no longer
    active. *)
Theorem lease_released_whatever_the_handler_does run t p policy h :
  ls_inv (eh_leases h) -> ls_view (eh_leases h) !! tk_lease_id t = None -> uses_leases run ->
  is_Some (fn_resource_lease (pi_function p)) ->
  forall l, ls_view (eh_leases (snd (execute run t p policy h))) !! tk_lease_id t = Some l ->
  ~ held l.
Proof.
  intros Hinv Hfresh Hrun [req Hreq] l. rewrite execute_leases. unfold run_with_lease.
  destruct (acquire_for_invocation _ _ _ _ _ _) as [res h1] eqn:Ha.
  destruct (acquire_for_invocation_spec _ _ _ _ _ _ _ Hinv Hfresh Ha) as [Hinv1 Hres].
  destruct res as [[lease|]|e]; simpl in Hres.
  - destruct Hres as (_ & r & _ & _ & -> & _). cbn [rl_lease_id lease_from_request].
    unfold invoke_prepared_handler. specialize (Hrun (pi_handler p) (pi_invocation p) h1).
    destruct (run _ _ h1) as [o h2]. simpl in Hrun.
    destruct (lease_steps_view _ _ Hrun Hinv1) as [Hinv2 _].
    destruct (release_resource_lease _ _ _ h2) as [rel h3] eqn:Hrel. simpl.
    by apply (release_ends _ _ _ _ _ Hinv2 Hrel).
  - destruct Hres as [Hnone _]. congruence.
  - simpl. rewrite Hres. congruence.
Qed.

(** The lease of the invocation is in force. *)
Definition holds_lease (t : Tick) (requirement : ResourceLeaseRequirement) (i : Invocation)
    (h : host) : Prop :=
  exists l, ls_view (eh_leases h) !! tk_lease_id t = Some l /\ held l /\
    rl_holder_invocation_id l = inv_id i /\ rl_resource_kind l = lr_resource_kind requirement /\
    render_resource_template (lr_resource_id_template requirement) i = Ok (rl_resource_id l).

Lemma lease_request_fields requirement i r :
  lease_request_from_requirement requirement i = Ok r ->
  al_holder_invocation_id r = inv_id i /\ al_resource_kind r = lr_resource_kind requirement /\
  render_resource_template (lr_resource_id_template requirement) i = Ok (al_resource_id r).
Proof.
  unfold lease_request_from_requirement.
  destruct (negb (lr_resolver_id _ =s _)); [by destruct (lr_failure_behavior _)|].
  destruct (negb (lr_exclusive _)); [done|].
  destruct (render_resource_template _ i); [|done]. by intros [= <-].
Qed.

(** C5: Executing a prepared invocation of a function with a lease requirement depends on
    its handler only through runs in a host where the invocation holds an active lease on
    the resource that its template renders to: two handlers that agree there give the same
    outcome and the same host, so a handler is never started without the lease. *)
Theorem handler_runs_only_under_its_lease run run' t p policy h requirement :
  ls_inv (eh_leases h) -> ls_view (eh_leases h) !! tk_lease_id t = None ->
  fn_resource_lease (pi_function p) = Some requirement ->
  (forall h1, holds_lease t requirement (pi_invocation p) h1 ->
    run (pi_handler p) (pi_invocation p) h1 = run' (pi_handler p) (pi_invocation p) h1) ->
  execute run t p policy h = execute run' t p policy h.
Proof.
  intros Hinv Hfresh Hreq Hsame. unfold execute_prepared_regular_with_recording_policy.
  enough (run_with_lease rfc3339 t (pi_function p) (pi_invocation p)
            (invoke_prepared_handler run p) h
          = run_with_lease rfc3339 t (pi_function p) (pi_invocation p)
            (invoke_prepared_handler run' p) h) as -> by done.
  unfold run_with_lease.
  destruct (acquire_for_invocation _ _ _ _ _ _) as [res h1] eqn:Ha.
  destruct (acquire_for_invocation_spec _ _ _ _ _ _ _ Hinv Hfresh Ha) as [_ Hres].
  destruct res as [[lease|]|e]; simpl in Hres; [| |done].
  - destruct Hres as (req & r & Hreq' & Hr & -> & Hl). rewrite Hreq in Hreq'.
    injection Hreq' as <-. apply lease_request_fields in Hr as (Hhold & Hkind & Hrender).
    assert (holds_lease t requirement (pi_invocation p) h1) as Hh.
    { eexists. split; [exact Hl|]. done. }
    unfold invoke_prepared_handler. by rewrite (Hsame h1 Hh).
  - destruct Hres as [Hnone _]. congruence.
Qed.

(** *** Records of deliveries *)

(** Executing a prepared invocation either records its result, or it was a queue
    delivery of a function that changes nothing and holds no idempotency key, whose worker
    failed in transport: then the error is handed to the queue for a retry, and nothing
    after the handler changed the host. *)
Theorem delivery_recorded_or_safe_to_retry run t p policy h target h' answer leases h1 :
  run_with_lease rfc3339 t (pi_function p) (pi_invocation p) (invoke_prepared_handler run p) h
    = (answer, leases, h1) ->
  execute run t p policy h = (target, h') ->
  if qt_recorded_invocation target
  then recorded (pi_invocation p) (qt_result target) (eh_catalog h1) (eh_catalog h')
  else policy = SkipRetryableQueueDeliveryFailure /\
       is_mutating (fn_effect_class (pi_function p)) = false /\ pi_idempotency p = None /\
       (exists code message, answer = Err (WorkerTransportFailure code message) /\
          ir_error (qt_result target) = Some (WorkerTransportFailure code message)) /\
       h' = h1.
Proof.
  intros Hrun. unfold execute_prepared_regular_with_recording_policy. rewrite Hrun.
  destruct (match policy with RecordAll => _ | _ => _ end) as [e|] eqn:Hretry.
  - intros [= <- <-]. simpl. destruct policy; [done|]. split; [done|].
    unfold queue_retryable_delivery_failure in Hretry. destruct answer as [v|err]; [done|].
    destruct err; try done. destruct (_ && _) eqn:Hb; [|done]. injection Hretry as <-.
    apply andb_true_iff in Hb as [Hm Hi]. apply negb_true_iff in Hm, Hi.
    split_and!; try done; [by destruct (pi_idempotency p)|eauto].
  - unfold on_catalog.
    destruct (finish_prepared_sync_invocation_with_contracts _ _ _ _ _ _ _) as [r c] eqn:Hf.
    destruct (record_compensation_for_result _ _ _ _ _ _ _ _ _) as [x h3] eqn:Hx.
    intros [= <- <-]. simpl.
    pose proof (record_compensation_catalog (tk_after t) (tk_compensation_id t) (pi_invocation p)
      (fn_compensation (pi_function p)) r leases (set_eh_catalog c h1)) as Hc.
    rewrite Hx in Hc. simpl in Hc. rewrite Hc.
    exact (finish_recorded debug _ _ _ _ _ _ _ _ Hf).
Qed.

(** *** Compensation *)

(** A recorded execution of a function with a compensation contract adds exactly one
    compensation record under the invocation's id, with the contract, the leases held,
    whether it succeeded and the value returned, and the result names it. *)
Theorem execution_leaves_one_compensation_record run t p policy h target h' contract answer leases h1 :
  run_with_lease rfc3339 t (pi_function p) (pi_invocation p) (invoke_prepared_handler run p) h
    = (answer, leases, h1) ->
  execute run t p policy h = (target, h') -> qt_recorded_invocation target = true ->
  fn_compensation (pi_function p) = Some contract -> cs_inv (eh_compensation h1) ->
  unused_id (tk_compensation_id t) (cs_view (eh_compensation h1)) ->
  cs_view (eh_compensation h1) !! inv_id (pi_invocation p) = None ->
  exists r, cs_view (eh_compensation h')
            = <[inv_id (pi_invocation p) := r]> (cs_view (eh_compensation h1)) /\
    cr_contract r = contract /\ cr_resource_lease_ids r = leases /\
    cr_succeeded r = negb (is_some (ir_error (qt_result target))) /\
    cr_result r = ir_value (qt_result target) /\
    qt_compensation_id target = Some (cr_compensation_id r) /\
    qt_compensation_status target = Some "recorded".
Proof.
  intros Hrun. unfold execute_prepared_regular_with_recording_policy. rewrite Hrun.
  destruct (match policy with RecordAll => _ | _ => _ end) as [e|]; [by intros [= <- <-]|].
  intros Hx _ Hc Hinv Hu Hnone. rewrite Hc in Hx.
  pose proof (on_catalog_compensation (finish_prepared_sync_invocation_with_contracts debug
    (tk_after t) p answer leases ((fun _ => "recorded") <$> Some contract)) h1) as Hcomp.
  destruct (on_catalog _ h1) as [r h2]. simpl in Hcomp.
  unfold record_compensation_for_result in Hx. rewrite Hcomp in Hx.
  set (record := compensation_record debug _ _ _ _ _) in Hx.
  pose proof (cs_record_ok (tk_compensation_id t) record _ Hinv Hu) as Hok.
  unfold record_spec in Hok. change (cr_invocation_id record) with (inv_id (pi_invocation p)) in Hok.
  rewrite Hnone in Hok. destruct (cs_record _ _ _) as [res s]. simpl in Hok.
  injection Hok as -> Hview. injection Hx as <- <-.
  exists (set_compensation_id (tk_compensation_id t) record).
  rewrite publish_compensation. simpl. done.
Qed.

(** *** Failures *)

Lemma finish_of_error now p e leases comp (c : LiveCatalog H S) :
  let r := fst (finish_prepared_sync_invocation_with_contracts debug now p (Err e) leases comp c) in
  ir_value r = None /\ is_Some (ir_error r).
Proof.
  assert (forall r scope (c : LiveCatalog H S), ir_value r = None -> is_Some (ir_error r) ->
    let r' := fst (record_invocation_result_with_contracts now (pi_invocation p) r scope leases
                     comp c) in
    ir_value r' = None /\ is_Some (ir_error r')) as Hrec.
  { intros r scope c0 Hv He. unfold record_invocation_result_with_contracts.
    destruct (lg_append_invocation _ _) as [[[]|e'] l]; simpl; [done|]. split; [done|]. eauto. }
  unfold finish_prepared_sync_invocation_with_contracts, checked_result, error_result.
  destruct (pi_idempotency p) as [rv|].
  - destruct (lg_complete _ _ _ _ _) as [[[]|e'] l]; apply Hrec; simpl; eauto.
  - apply Hrec; simpl; eauto.
Qed.

Lemma panic_is_error run t p h payload answer leases h1 :
  (forall h0, fst (run (pi_handler p) (pi_invocation p) h0) = Panicked payload) ->
  run_with_lease rfc3339 t (pi_function p) (pi_invocation p) (invoke_prepared_handler run p) h
    = (answer, leases, h1) ->
  answer = Err (HandlerFailed ("handler panicked: " +s panic_payload_message payload)) \/
  exists e, fst (acquire_for_invocation rfc3339 (tk_before t) (tk_lease_id t) (pi_function p)
    (pi_invocation p) h) = Err e /\ answer = Err e.
Proof.
  intros Hp. unfold run_with_lease, invoke_prepared_handler.
  destruct (acquire_for_invocation _ _ _ _ _ _) as [[[lease|]|e] h2].
  - specialize (Hp h2). destruct (run _ _ h2) as [o h3]. simpl in Hp. subst.
    destruct (release_resource_lease _ _ _ h3) as [[rel|e] h4]; intros [= <- _ _]; by left.
  - specialize (Hp h2). destruct (run _ _ h2) as [o h3]. simpl in Hp. subst.
    intros [= <- _ _]. by left.
  - intros [= <- _ _]. right. by exists e.
Qed.

(** A refused or failed execution answers with an error and without a value. *)
Lemma execute_of_error run t p policy h target h' e leases h1 :
  run_with_lease rfc3339 t (pi_function p) (pi_invocation p) (invoke_prepared_handler run p) h
    = (Err e, leases, h1) ->
  execute run t p policy h = (target, h') ->
  ir_value (qt_result target) = None /\ is_Some (ir_error (qt_result target)).
Proof.
  intros Hrun. unfold execute_prepared_regular_with_recording_policy. rewrite Hrun.
  destruct (match policy with RecordAll => _ | _ => _ end) as [e'|];
    [intros [= <- _]; simpl; eauto|].
  unfold on_catalog.
  pose proof (finish_of_error (tk_after t) p e leases
    ((fun _ => "recorded") <$> fn_compensation (pi_function p)) (eh_catalog h1)) as Hf.
  destruct (finish_prepared_sync_invocation_with_contracts _ _ _ _ _ _ _) as [r c].
  destruct (record_compensation_for_result _ _ _ _ _ _ _ _ _) as [x h3].
  intros [= <- _]. exact Hf.
Qed.

(** A handler that panics is an answered invocation: the result has no value and an
    error, which is the handler failure that carries the panic's message unless the lease
    was refused before the handler could run. *)
Theorem panic_is_contained run t p policy h payload target h' :
  (forall h0, fst (run (pi_handler p) (pi_invocation p) h0) = Panicked payload) ->
  execute run t p policy h = (target, h') ->
  ir_value (qt_result target) = None /\ is_Some (ir_error (qt_result target)) /\
  let answer := fst (fst (run_with_lease rfc3339 t (pi_function p) (pi_invocation p)
                            (invoke_prepared_handler run p) h)) in
  answer = Err (HandlerFailed ("handler panicked: " +s panic_payload_message payload)) \/
  exists e, fst (acquire_for_invocation rfc3339 (tk_before t) (tk_lease_id t) (pi_function p)
    (pi_invocation p) h) = Err e /\ answer = Err e.
Proof.
  intros Hp Hx. destruct (run_with_lease _ _ _ _ _ _) as [[answer leases] h1] eqn:Hrun.
  pose proof (panic_is_error _ _ _ _ _ _ _ _ Hp Hrun) as Ha. simpl.
  assert (exists e, answer = Err e) as [e ->] by naive_solver.
  destruct (execute_of_error _ _ _ _ _ _ _ _ _ _ Hrun Hx). auto.
Qed.
End guarantees.

(** ** Promotion *)

Section promotion.
  Context {H S L C : Type} `{!LedgerStore S, !LeaseStore L, !CompensationStore C}.
  Implicit Types (h : EngineHost H S L C).
  Variable uuid : Z -> string.

Lemma promote_ok now id owner target workspace (c : LiveCatalog H S) rev :
  fst (promote_function_visibility uuid now id owner target workspace c) = Ok rev ->
  exists f, function id c = Some f /\ owner = fn_owner_worker f /\
    rev = revision_next (fn_revision f).
Proof.
  unfold promote_function_visibility, bind, reads, owned_function, function.
  destruct (lc_functions c !! id) as [entry|]; [|done]. simpl.
  destruct (String.eqb_spec (fn_owner_worker (fe_definition entry)) owner) as [<-|]; [|done].
  simpl. destruct (promoted_definition _ _ _ _) as [d|] eqn:Hd; [|done].
  unfold record_change, bind, on_ledger.
  destruct (lg_append_catalog_change _ _) as [[[]|e] l]; [|done]. simpl. intros [= <-].
  exists (fe_definition entry). split_and!; [done|done|].
  unfold promoted_definition in Hd. by destruct target, workspace; simplify_eq/=.
Qed.

Lemma promote_target_ok i (c : LiveCatalog H S) id owner target workspace :
  promote_target i c = Ok (id, owner, target, workspace) ->
  exists f, function id c = Some f /\ fn_visibility f = Vis_Session /\
    (target = Vis_Workspace \/ target = Vis_System) /\
    (is_admin_like (cx_actor_kind (inv_context i)) = true \/
     prov_session_id (fn_provenance f) = cx_session_id (inv_context i)).
Proof.
  unfold promote_target. intros Hp.
  destruct (required_str _ _) as [name|]; [|done].
  destruct (function_id_new name) as [fid|]; [|done].
  destruct (required_visibility _ _) as [tv|]; [|done].
  destruct (optional_string (vget _ "workspaceId")) as [ws|]; [|done].
  unfold ok_or in Hp. destruct (function fid c) as [f|] eqn:Hf; [|done].
  destruct (optional_string (vget _ "ownerWorker")) as [o|]; [|done].
  destruct (match o with Some _ => _ | None => _ end) as [ow|]; [|done].
  destruct (bool_decide (fn_visibility f = Vis_Session)) eqn:Hv; [|done]. simpl in Hp.
  destruct (negb _ && negb _) eqn:Hs; [done|].
  exists f. destruct tv; simplify_eq; (split; [done|]); (split; [by bool_prop|]);
    (split; [auto|]); apply andb_false_iff in Hs as [Hs|Hs]; bool_prop; auto.
Qed.

(** A successful promotion is of a session function, to workspace or system visibility, by
    an admin-like actor or from the session the function was registered in, and changes
    nothing of the host but that function's registration. *)
Theorem promotion_stays_with_the_session now i h v h' :
  meta_promote uuid now i h = (Ok v, h') ->
  exists id f target workspace,
    function id (eh_catalog h) = Some f /\ fn_visibility f = Vis_Session /\
    (target = Vis_Workspace \/ target = Vis_System) /\
    (is_admin_like (cx_actor_kind (inv_context i)) = true \/
     prov_session_id (fn_provenance f) = cx_session_id (inv_context i)) /\
    fst (promote_function_visibility uuid now id (fn_owner_worker f) target workspace
           (eh_catalog h)) = Ok (revision_next (fn_revision f)) /\
    vget v "revision" = Some (jnum (revision_next (fn_revision f))) /\
    h' = set_eh_catalog (snd (promote_function_visibility uuid now id (fn_owner_worker f) target
                                workspace (eh_catalog h))) h.
Proof.
  unfold meta_promote, on_catalog. intros Hm.
  destruct (promote_target i (eh_catalog h)) as [[[[id owner] target] ws]|] eqn:Ht; [|done].
  apply promote_target_ok in Ht as (f & Hf & Hv & Htv & Hs).
  destruct (promote_function_visibility _ _ _ _ _ _ _) as [res c] eqn:Hp.
  destruct res as [rev|]; [|done]. injection Hm as <- <-.
  destruct (promote_ok now id owner target ws (eh_catalog h) rev) as (f' & Hf' & -> & ->);
    [by rewrite Hp|]. assert (f' = f) as -> by congruence.
  exists id, f, target, ws. rewrite Hp. done.
Qed.
End promotion.

(** ** Samples *)

Notation sample_host := (EngineHost unit LedgerMemory LeaseMemory CompensationMemory).
Definition no_rfc (now : instant) : string := pretty now.
Definition host0 : sample_host :=
  {| eh_catalog := snd (sample_prepare (save_call "i1") save_catalog);
     eh_leases := lease_memory_new; eh_compensation := compensation_memory_new;
     eh_streams := stream_store_new; eh_queue := ∅ |}.
Definition tick0 : Tick :=
  {| tk_before := 3; tk_after := 5; tk_grant_event := "ev"; tk_lease_id := "l1";
     tk_compensation_id := "c1" |}.
Definition leased_save : FunctionDefinition :=
  fn_with_compensation {| cc_kind := Comp_ManualOnly; cc_notes := "restore" |}
    (fn_with_resource_lease (exclusive_template "session" "session:{sessionId}" 1000) sample_save).
Definition leased_prepared : PreparedSyncInvocation unit :=
  {| pi_invocation := pi_invocation prepared_save; pi_function := leased_save;
     pi_handler := tt; pi_idempotency := pi_idempotency prepared_save |}.
Definition saving : unit -> Invocation -> sample_host -> HandlerOutcome * sample_host :=
  fun _ _ h => (Returned (Ok (VString "saved")), h).
Definition crashing : unit -> Invocation -> sample_host -> HandlerOutcome * sample_host :=
  fun _ _ h => (Panicked (Panic_Str "boom"), h).
Notation sample_execute run :=
  (execute_prepared_regular_with_recording_policy no_debug no_rfc run tick0 leased_prepared
     RecordAll host0).

Lemma sample_leases_inv : ls_inv (eh_leases host0).
Proof. exact (proj1 (ls_new_ok (S := LeaseMemory))). Qed.

Lemma lease_released_whatever_the_handler_does_witness :
  exists l, ls_view (eh_leases (snd (sample_execute crashing))) !! "l1" = Some l /\ ~ held l.
Proof.
  eexists. split; [vm_compute; reflexivity|].
  refine (lease_released_whatever_the_handler_does no_debug no_rfc crashing tick0 leased_prepared
    RecordAll host0 sample_leases_inv _ _ _ _ _).
  - reflexivity.
  - intros hd i h. apply rtc_refl.
  - eexists. reflexivity.
  - vm_compute. reflexivity.
Defined.

(** Two handlers that differ only where the lease is not held. *)
Definition guarded_saving : unit -> Invocation -> sample_host -> HandlerOutcome * sample_host :=
  fun _ _ h =>
    match ls_view (eh_leases h) !! "l1" with
    | Some _ => (Returned (Ok (VString "saved")), h)
    | None => (Panicked Panic_Other, h)
    end.

Lemma handler_runs_only_under_its_lease_witness :
  sample_execute saving = sample_execute guarded_saving.
Proof.
  refine (handler_runs_only_under_its_lease no_debug no_rfc saving guarded_saving tick0
    leased_prepared RecordAll host0 (exclusive_template "session" "session:{sessionId}" 1000)
    sample_leases_inv _ _ _).
  - reflexivity.
  - reflexivity.
  - intros h1 (l & Hl & _). unfold guarded_saving. cbn [tk_lease_id tick0] in Hl. rewrite Hl.
    reflexivity.
Defined.

Lemma delivery_recorded_or_safe_to_retry_witness :
  recorded (pi_invocation leased_prepared) (qt_result (fst (sample_execute saving)))
    (eh_catalog (snd (run_with_lease no_rfc tick0 leased_save (pi_invocation leased_prepared)
                        (invoke_prepared_handler saving leased_prepared) host0)))
    (eh_catalog (snd (sample_execute saving))).
Proof.
  refine (delivery_recorded_or_safe_to_retry no_debug no_rfc saving tick0 leased_prepared RecordAll
    host0 (fst (sample_execute saving)) (snd (sample_execute saving)) _ _ _ _ _).
  - rewrite <- !surjective_pairing. reflexivity.
  - apply surjective_pairing.
Defined.

Lemma execution_leaves_one_compensation_record_witness :
  exists r, cs_view (eh_compensation (snd (sample_execute saving))) !! "i1" = Some r /\
    cr_resource_lease_ids r = ["l1"] /\ cr_succeeded r = true.
Proof.
  destruct (execution_leaves_one_compensation_record no_debug no_rfc saving tick0 leased_prepared
    RecordAll host0 (fst (sample_execute saving)) (snd (sample_execute saving))
    {| cc_kind := Comp_ManualOnly; cc_notes := "restore" |}
    (Ok (VString "saved")) ["l1"]
    (snd (run_with_lease no_rfc tick0 leased_save (pi_invocation leased_prepared)
            (invoke_prepared_handler saving leased_prepared) host0)))
    as (r & Hv & _ & Hl & Hs & _).
  - vm_compute. reflexivity.
  - apply surjective_pairing.
  - vm_compute. reflexivity.
  - reflexivity.
  - apply (cs_new_inv (CompensationStore := compensation_memory_store)).
  - intros i r Hr. vm_compute in Hr. discriminate.
  - vm_compute. reflexivity.
  - exists r. rewrite Hv. split; [apply lookup_insert_eq|]. split; [exact Hl|].
    rewrite Hs. vm_compute. reflexivity.
Defined.

Lemma panic_is_contained_witness :
  is_Some (ir_error (qt_result (fst (sample_execute crashing)))).
Proof.
  refine (proj1 (proj2 (panic_is_contained no_debug no_rfc crashing tick0 leased_prepared RecordAll
    host0 (Panic_Str "boom") _ (snd (sample_execute crashing)) _ _))).
  - reflexivity.
  - apply surjective_pairing.
Defined.

Definition session_fn : FunctionDefinition :=
  set_fn_scope Vis_Session (set_prov_scope (Some "s1") None provenance_system)
    (sample_fn "demo::mine" "demo").
Definition session_host : sample_host :=
  set_eh_catalog (snd (register_function no_text no_debug 2 session_fn (Some tt) false catalog1))
    host0.
Definition promote_call : Invocation :=
  new_sync "i9" PROMOTE_FUNCTION
    (j{"functionId" ~> "demo::mine"; "targetVisibility" ~> "system"})
    (with_session_id (causal_context_new "agent" Actor_Agent "grant" "t") "s1").

Lemma promotion_stays_with_the_session_witness :
  exists f, function "demo::mine" (eh_catalog session_host) = Some f /\
    fn_visibility f = Vis_Session.
Proof.
  destruct (meta_promote no_text 9 promote_call session_host) as [[v|e] h'] eqn:Hm;
    [|vm_compute in Hm; discriminate].
  destruct (promotion_stays_with_the_session no_text 9 promote_call session_host v h' Hm)
    as (id & f & target & ws & Hf & Hv & _ & _ & Hp & _).
  assert (id = "demo::mine") as ->.
  { unfold function in Hf. destruct (lc_functions (eh_catalog session_host) !! id) as [e|] eqn:He;
      [|discriminate]. revert He. change (lc_functions (eh_catalog session_host)) with
      (<["demo::mine" := {| fe_definition := set_fn_revision 1 session_fn; fe_handler := Some tt; fe_volatile := false |}]>
         (∅ : gmap string (FunctionEntry unit))).
    rewrite lookup_insert_Some, lookup_empty. intros [[<- _]|[_ He]]; [reflexivity|discriminate]. }
  exists f. split; assumption.
Defined.
