(* ===== verification/Triggers.v ===== *)
(** * The trigger runtime

    [runtime/triggers.rs]: a fired trigger becomes an ordinary invocation of its
    target function.  The invocation runs under the grant of the trigger, not of
    the caller, and carries the depth and the path of the cascade it belongs to in
    two entries of the runtime metadata; a trigger that is already on the path, or
    that lies deeper than its limit, does not fire.  What is refused is recorded
    like any other failed invocation.

    The path travels as the JSON text of an array of strings: the encoder and the
    decoder of such texts are parameters, with the hypothesis that a decoder reads
    back what the encoder wrote. *)

From stdpp Require Import base gmap strings list pretty.
From Stdlib Require Import ZArith Ascii String Lia.
From S2P Require Import Prelude Json Kernel Model Leases Paths Queue Ledger Catalog Invocation.
From S2P Require Import Compensation Policy Grants Authorization Host.
Import JsonNotations.

#[local] Open Scope Z_scope.

(* SRC engine/runtime/triggers.rs:23-23 DEFAULT_TRIGGER_MAX_DEPTH *)
Definition DEFAULT_TRIGGER_MAX_DEPTH : Z := 8.

(* SRC engine/runtime/triggers.rs:30-57 TriggerDispatchRequest *)
Record TriggerDispatchRequest := {
  td_trigger_id : TriggerId;
  td_payload : Value;
  td_actor_id : ActorId;
  td_actor_kind : ActorKind;
  td_authority_scopes : list string;
  td_runtime_metadata : gmap string string;
  td_trace_id : option TraceId;
  td_parent_invocation_id : option InvocationId;
  td_session_id : option string;
  td_workspace_id : option string;
  td_idempotency_key : option string;
  td_delivery_mode : option DeliveryMode
}.

(* SRC engine/runtime/triggers.rs:60-82! TriggerDispatchRequest::new *)
Definition trigger_dispatch_request_new (trigger_id : TriggerId) (payload : Value)
    (actor_id : ActorId) (actor_kind : ActorKind) : TriggerDispatchRequest :=
  {| td_trigger_id := trigger_id; td_payload := payload; td_actor_id := actor_id;
     td_actor_kind := actor_kind; td_authority_scopes := []; td_runtime_metadata := ∅;
     td_trace_id := None; td_parent_invocation_id := None; td_session_id := None;
     td_workspace_id := None; td_idempotency_key := None; td_delivery_mode := None |}.

(** The derived [Debug] of a delivery mode. *)
(* SRC engine/kernel/types/function.rs:67-76 DeliveryMode *)
Definition delivery_debug (m : DeliveryMode) : string :=
  match m with
  | Delivery_Sync => "Sync" | Delivery_Void => "Void" | Delivery_Enqueue => "Enqueue"
  end.

(** ** Cascades *)

(* SRC engine/runtime/triggers.rs:274-277 TriggerCascadeMetadata *)
Record TriggerCascadeMetadata := { cascade_next_depth : Z; cascade_next_path : string }.

Section cascade.
  Variable debug : string -> string.
  Variable encode_path : list string -> string.
  Variable decode_path : string -> result string (list string).

(* SRC engine/runtime/triggers.rs:308-317 trigger_depth *)
Definition trigger_depth (metadata : gmap string string) : Result Z :=
  match metadata !! RUNTIME_METADATA_TRIGGER_DEPTH with
  | None => Ok 0
  | Some value =>
      match parse_uint u32_max value with
      | Some depth => Ok depth
      | None => Err (PolicyViolation
          ("trigger cascade depth metadata must be an unsigned integer, got " +s debug value))
      end
  end.

(* SRC engine/runtime/triggers.rs:319-328 trigger_path *)
Definition trigger_path (metadata : gmap string string) : Result (list string) :=
  match metadata !! RUNTIME_METADATA_TRIGGER_PATH with
  | None => Ok []
  | Some value =>
      match decode_path value with
      | Ok path => Ok path
      | Err error => Err (PolicyViolation
          ("trigger cascade path metadata must be a JSON string array: " +s error))
      end
  end.

(** An array of strings always has a JSON text. *)
(* SRC engine/runtime/triggers.rs:279-306 trigger_cascade_metadata *)
Definition trigger_cascade_metadata (t : TriggerDefinition) (r : TriggerDispatchRequest)
  : Result TriggerCascadeMetadata :=
  let? current_depth := trigger_depth (td_runtime_metadata r) in
  let? path := trigger_path (td_runtime_metadata r) in
  let max_depth := default DEFAULT_TRIGGER_MAX_DEPTH (tr_max_depth t) in
  if max_depth <? current_depth
  then Err (PolicyViolation ("trigger cascade depth " +s pretty current_depth
              +s " exceeds max depth " +s pretty max_depth +s " for " +s tr_id t))
  else if existsb (fun id => id =s tr_id t) path
  then Err (PolicyViolation ("trigger cascade loop detected for " +s tr_id t))
  else Ok {| cascade_next_depth := saturating_add_u32 current_depth 1;
             cascade_next_path := encode_path (path ++ [tr_id t]) |}.

(** ** Preparation *)

(** The parts of the request that go into a context unchanged. *)
Definition with_lineage (r : TriggerDispatchRequest) (c : CausalContext) : CausalContext :=
  opt_with with_idempotency_key (td_idempotency_key r)
    (opt_with with_workspace_id (td_workspace_id r)
      (opt_with with_session_id (td_session_id r)
        (opt_with with_parent_invocation (td_parent_invocation_id r) c))).

Definition with_scopes (scopes : list string) (c : CausalContext) : CausalContext :=
  fold_left with_scope scopes c.

Definition with_metadata (entries : gmap string string) (c : CausalContext) : CausalContext :=
  fold_left (fun c kv => with_runtime_metadata c (fst kv) (snd kv)) (btree_entries entries) c.

(** The entries the loop does not [continue] over. *)
Definition without_cascade (metadata : gmap string string) : gmap string string :=
  delete RUNTIME_METADATA_TRIGGER_PATH (delete RUNTIME_METADATA_TRIGGER_DEPTH metadata).

(** [id] and [trace] are the generated ids. *)
(* SRC engine/runtime/triggers.rs:193-271 EngineTriggerRuntime::prepare_invocation *)
Definition prepare_trigger_invocation {H S} (id : InvocationId) (trace : TraceId)
    (r : TriggerDispatchRequest) (c : LiveCatalog H S)
  : result (option TriggerDefinition * EngineError) (TriggerDefinition * Invocation) :=
  match inspect_trigger (td_trigger_id r) c with
  | Err error => Err (None, error)
  | Ok t =>
      let requested_delivery := default (tr_delivery_mode t) (td_delivery_mode r) in
      if bool_decide (requested_delivery <> tr_delivery_mode t)
      then Err (Some t, PolicyViolation ("trigger " +s td_trigger_id r +s " only supports "
             +s delivery_debug (tr_delivery_mode t) +s " delivery for this registration"))
      else
      match trigger_cascade_metadata t r with
      | Err error => Err (Some t, error)
      | Ok cascade =>
          let context :=
            with_trigger_id
              (causal_context_new (td_actor_id r) (td_actor_kind r) (tr_authority_grant t)
                 (default trace (td_trace_id r))) (td_trigger_id r) in
          let context := with_scopes (td_authority_scopes r) context in
          let context := with_metadata (without_cascade (td_runtime_metadata r)) context in
          let context :=
            with_runtime_metadata
              (with_runtime_metadata context RUNTIME_METADATA_TRIGGER_DEPTH
                 (pretty (cascade_next_depth cascade)))
              RUNTIME_METADATA_TRIGGER_PATH (cascade_next_path cascade) in
          Ok (t, with_delivery_mode
                   (new_sync id (tr_target_function t) (td_payload r) (with_lineage r context))
                   (tr_delivery_mode t))
      end
  end.

(** The invocation that stands in the record of a refused dispatch. *)
(* SRC engine/runtime/triggers.rs:141-180! EngineTriggerRuntime::dispatch *)
Definition refused_invocation (id : InvocationId) (trace : TraceId) (t : option TriggerDefinition)
    (r : TriggerDispatchRequest) : Invocation :=
  let mode := default Delivery_Sync (td_delivery_mode r) in
  let context :=
    with_trigger_id
      (causal_context_new (td_actor_id r) (td_actor_kind r)
         (default "missing" (tr_authority_grant <$> t)) (default trace (td_trace_id r)))
      (td_trigger_id r) in
  let context := with_metadata (td_runtime_metadata r) (with_scopes (td_authority_scopes r) context) in
  with_delivery_mode
    (new_sync id (default "engine::trigger_dispatch" (tr_target_function <$> t)) (td_payload r)
       (set_cx_delivery_mode (with_lineage r context) mode)) mode.
End cascade.

(* SRC engine/runtime/triggers.rs:94-117! EngineTriggerRuntime::dispatch *)
Definition enqueue_request (t : TriggerDefinition) (i : Invocation) : EnqueueInvocation :=
  let c := inv_context i in
  {| eq_queue := default "default" (match vget (tr_config t) "queue" with
                                    | Some v => as_str v
                                    | None => None
                                    end);
     eq_function_id := inv_function_id i; eq_payload := inv_payload i;
     eq_actor_id := cx_actor_id c; eq_actor_kind := cx_actor_kind c;
     eq_authority_grant_id := cx_authority_grant_id c;
     eq_authority_scopes := cx_authority_scopes c;
     eq_runtime_metadata := cx_runtime_metadata c; eq_trace_id := cx_trace_id c;
     eq_parent_invocation_id := cx_parent_invocation_id c; eq_trigger_id := cx_trigger_id c;
     eq_session_id := cx_session_id c; eq_workspace_id := cx_workspace_id c;
     eq_idempotency_key := cx_idempotency_key c |}.

(** ** Dispatch *)

Section dispatch.
  Context {H S L C : Type} `{!LedgerStore S, !LeaseStore L, !CompensationStore C}.
  Notation host := (EngineHost H S L C).
  Variable debug sha256_hex encode : string -> string.
  Variable fs : FileSystem.
  Variable rfc3339 : instant -> string.
  Variable json_len : Value -> Z.
  Variable run_handler : H -> Invocation -> host -> HandlerOutcome * host.
  Variable dispatch : Invocation -> host -> Result Value * host.
  Variable uuid : Z -> string.
  Variable metadata_text : Value -> string.
  Variable function_value : FunctionDefinition -> Value.
  Variable worker_value : WorkerDefinition -> Value.
  Variable trigger_type_value : TriggerTypeDefinition -> Value.
  Variable trigger_value : TriggerDefinition -> Value.
  Variable call_handler : H -> Invocation -> host -> Result Value * host.
  Variable attempt_value : EngineQueueAttemptRecord -> Value.
  Variable encode_path : list string -> string.
  Variable decode_path : string -> result string (list string).

(* SRC engine/runtime/triggers.rs:89-191 EngineTriggerRuntime::dispatch *)
Definition trigger_dispatch (t tc : Tick) (id child_id : InvocationId) (trace : TraceId)
    (receipt : string) (r : TriggerDispatchRequest) (h : host) : InvocationResult * host :=
  match prepare_trigger_invocation debug encode_path decode_path id trace r (eh_catalog h) with
  | Ok (d, i) =>
      match inv_delivery_mode i with
      | Delivery_Enqueue =>
          match enqueue_invocation json_len (tk_before t) receipt (enqueue_request d i) h with
          | (Ok item, h) =>
              record_enqueued_invocation (tk_before t) i item
                (publish_queue_lifecycle_event debug attempt_value (tk_before t) "enqueue" item None h)
          | (Err error, h) => 
              record_trigger_prepare_failure (tk_before t) i (tr_owner_worker d) 0 error h
          end
      | Delivery_Void =>
          invoke_trigger_target debug sha256_hex encode fs rfc3339 run_handler dispatch uuid
            metadata_text function_value worker_value trigger_type_value trigger_value call_handler
            t tc child_id i h
      | Delivery_Sync =>
          invoke debug sha256_hex encode fs rfc3339 run_handler dispatch uuid metadata_text
            function_value worker_value trigger_type_value trigger_value call_handler
            t tc child_id i h
      end
  | Err (d, error) =>
      record_trigger_prepare_failure (tk_before t) (refused_invocation id trace d r)
        (default "engine" (tr_owner_worker <$> d)) 0 error h
  end.
End dispatch.

(** ** What a prepared invocation carries *)

Lemma with_scopes_fields scopes c :
  cx_authority_scopes (with_scopes scopes c) = cx_authority_scopes c ++ scopes /\
  cx_runtime_metadata (with_scopes scopes c) = cx_runtime_metadata c /\
  cx_authority_grant_id (with_scopes scopes c) = cx_authority_grant_id c /\
  cx_trigger_id (with_scopes scopes c) = cx_trigger_id c /\
  cx_actor_id (with_scopes scopes c) = cx_actor_id c.
Proof.
  unfold with_scopes. revert c. induction scopes as [|s scopes IH]; intros c; simpl.
  - by rewrite app_nil_r.
  - destruct (IH (with_scope c s)) as (-> & -> & -> & -> & ->). simpl. by rewrite <- app_assoc.
Qed.

Lemma with_metadata_fields m c :
  cx_runtime_metadata (with_metadata m c) = m ∪ cx_runtime_metadata c /\
  cx_authority_scopes (with_metadata m c) = cx_authority_scopes c /\
  cx_authority_grant_id (with_metadata m c) = cx_authority_grant_id c /\
  cx_trigger_id (with_metadata m c) = cx_trigger_id c /\
  cx_actor_id (with_metadata m c) = cx_actor_id c.
Proof.
  assert (forall l c, NoDup l.*1 ->
    let c' := fold_left (fun c kv => with_runtime_metadata c kv.1 kv.2) l c in
    cx_runtime_metadata c' = list_to_map l ∪ cx_runtime_metadata c /\
    cx_authority_scopes c' = cx_authority_scopes c /\
    cx_authority_grant_id c' = cx_authority_grant_id c /\ cx_trigger_id c' = cx_trigger_id c /\
    cx_actor_id c' = cx_actor_id c) as Hfold.
  { clear. induction l as [|[k v] l IH]; intros c Hnd; simpl; [by rewrite (left_id_L ∅ (∪))|].
    apply NoDup_cons in Hnd as [Hk Hnd].
    destruct (IH (with_runtime_metadata c k v) Hnd) as (-> & -> & -> & -> & ->). simpl.
    split; [|done]. rewrite <- insert_union_l, <- insert_union_r; [done|].
    by apply not_elem_of_list_to_map_1. }
  destruct (Hfold (btree_entries m) c (btree_keys_nodup m)) as [Hm H2]. split; [|exact H2].
  rewrite (list_to_map_proper _ (map_to_list m)), list_to_map_to_list in Hm; [done| |].
  - exact (btree_keys_nodup m).
  - apply btree_entries_perm.
Qed.

Lemma with_lineage_fields r c :
  cx_runtime_metadata (with_lineage r c) = cx_runtime_metadata c /\
  cx_authority_scopes (with_lineage r c) = cx_authority_scopes c /\
  cx_authority_grant_id (with_lineage r c) = cx_authority_grant_id c /\
  cx_trigger_id (with_lineage r c) = cx_trigger_id c /\
  cx_actor_id (with_lineage r c) = cx_actor_id c.
Proof.
  unfold with_lineage, opt_with.
  destruct (td_idempotency_key r), (td_workspace_id r), (td_session_id r),
    (td_parent_invocation_id r); done.
Qed.

Section cascade_theorems.
  Context {H S : Type}.
  Implicit Types (c : LiveCatalog H S) (t : TriggerDefinition) (m : gmap string string).
  Variable debug : string -> string.
  Variable encode_path : list string -> string.
  Variable decode_path : string -> result string (list string).
  Notation prepare := (prepare_trigger_invocation debug encode_path decode_path).
  Notation cascade_of := (trigger_cascade_metadata debug encode_path decode_path).

(** What a request may carry before the first trigger of a cascade fired. *)
Definition no_cascade m : Prop :=
  m !! RUNTIME_METADATA_TRIGGER_DEPTH = None /\ m !! RUNTIME_METADATA_TRIGGER_PATH = None.

(** The two entries of a cascade that fired [ids], oldest first. *)
Definition carries m (depth : Z) (ids : list string) : Prop :=
  trigger_depth debug m = Ok depth /\ trigger_path decode_path m = Ok ids.

Lemma prepare_ok id trace r c t i :
  prepare id trace r c = Ok (t, i) ->
  inspect_trigger (td_trigger_id r) c = Ok t /\ inv_id i = id /\
  inv_function_id i = tr_target_function t /\ inv_payload i = td_payload r /\
  inv_delivery_mode i = tr_delivery_mode t /\
  cx_delivery_mode (inv_context i) = tr_delivery_mode t /\
  cx_actor_id (inv_context i) = td_actor_id r /\
  cx_authority_grant_id (inv_context i) = tr_authority_grant t /\
  cx_authority_scopes (inv_context i) = td_authority_scopes r /\
  cx_trigger_id (inv_context i) = Some (td_trigger_id r) /\
  exists next, cascade_of t r = Ok next /\
    cx_runtime_metadata (inv_context i) =
      <[RUNTIME_METADATA_TRIGGER_PATH := cascade_next_path next]>
        (<[RUNTIME_METADATA_TRIGGER_DEPTH := pretty (cascade_next_depth next)]>
          (without_cascade (td_runtime_metadata r))).
Proof.
  unfold prepare_trigger_invocation. intros Hp.
  destruct (inspect_trigger _ c) as [t'|e] eqn:Ht; [|done].
  case_bool_decide as Hmode; [done|].
  destruct (cascade_of t' r) as [next|e] eqn:Hc; [|done].
  injection Hp as <- <-. unfold with_delivery_mode, new_sync. simpl.
  destruct (with_lineage_fields r (with_runtime_metadata (with_runtime_metadata
    (with_metadata (without_cascade (td_runtime_metadata r)) (with_scopes (td_authority_scopes r)
      (with_trigger_id (causal_context_new (td_actor_id r) (td_actor_kind r) (tr_authority_grant t')
         (default trace (td_trace_id r))) (td_trigger_id r)))) RUNTIME_METADATA_TRIGGER_DEPTH
       (pretty (cascade_next_depth next))) RUNTIME_METADATA_TRIGGER_PATH (cascade_next_path next)))
    as (-> & -> & -> & -> & ->). simpl.
  match goal with |- context [with_metadata ?m ?c0] =>
    destruct (with_metadata_fields m c0) as (-> & -> & -> & -> & ->) end.
  match goal with |- context [with_scopes ?s ?c0] =>
    destruct (with_scopes_fields s c0) as (-> & -> & -> & -> & ->) end.
  simpl. rewrite (right_id_L ∅ (∪)). split_and!; try done. eauto.
Qed.

(** One step of a cascade. *)
Lemma cascade_step t r next depth ids :
  carries (td_runtime_metadata r) depth ids -> cascade_of t r = Ok next ->
  depth <= default DEFAULT_TRIGGER_MAX_DEPTH (tr_max_depth t) /\ tr_id t ∉ ids /\
  next = {| cascade_next_depth := saturating_add_u32 depth 1;
            cascade_next_path := encode_path (ids ++ [tr_id t]) |}.
Proof.
  unfold trigger_cascade_metadata. intros [-> ->] Hc. simpl in Hc.
  destruct (_ <? depth) eqn:Hd; [done|].
  destruct (existsb _ ids) eqn:Hx; [done|]. injection Hc as <-.
  split; [lia|]. split; [|done]. intros Hin. apply not_true_iff_false in Hx. apply Hx.
  apply existsb_exists. exists (tr_id t). split; [by apply list_elem_of_In|]. by apply String.eqb_eq.
Qed.

(** A cascade: each trigger fires with a request that carries the two entries
    of the invocation the previous one started; the other entries, the catalog and
    the caller may change in between. *)
Inductive cascade : list TriggerDefinition -> gmap string string -> Prop :=
| cascade_start m : no_cascade m -> cascade [] m
| cascade_fire ts m id trace r c t i :
    cascade ts m ->
    td_runtime_metadata r !! RUNTIME_METADATA_TRIGGER_DEPTH = m !! RUNTIME_METADATA_TRIGGER_DEPTH ->
    td_runtime_metadata r !! RUNTIME_METADATA_TRIGGER_PATH = m !! RUNTIME_METADATA_TRIGGER_PATH ->
    prepare id trace r c = Ok (t, i) ->
    cascade (ts ++ [t]) (cx_runtime_metadata (inv_context i)).

(** [serde_json] reads back the arrays it writes. *)
Hypothesis decode_encode : forall path, decode_path (encode_path path) = Ok path.

Definition cascade_depth (n : nat) : Z := Z.min (Z.of_nat n) u32_max.

Lemma carries_ext m m' depth ids :
  m' !! RUNTIME_METADATA_TRIGGER_DEPTH = m !! RUNTIME_METADATA_TRIGGER_DEPTH ->
  m' !! RUNTIME_METADATA_TRIGGER_PATH = m !! RUNTIME_METADATA_TRIGGER_PATH ->
  carries m depth ids -> carries m' depth ids.
Proof. unfold carries, trigger_depth, trigger_path. by intros -> ->. Qed.

Lemma carries_next m (depth : Z) ids :
  in_u32 depth ->
  carries (<[RUNTIME_METADATA_TRIGGER_PATH := encode_path ids]>
             (<[RUNTIME_METADATA_TRIGGER_DEPTH := pretty depth]> m)) depth ids.
Proof.
  intros Hd. unfold carries, trigger_depth, trigger_path.
  rewrite lookup_insert_ne, lookup_insert_eq, lookup_insert_eq, decode_encode by done.
  by rewrite parse_uint_pretty by (unfold in_u32, u32_max in *; lia).
Qed.

(** The entries a cascade carries are its length and its trigger ids. *)
Lemma cascade_carries ts m :
  cascade ts m -> carries m (cascade_depth (List.length ts)) (map tr_id ts).
Proof.
  induction 1 as [m [Hd Hp]|ts m id trace r c t i Hc IH Hd Hp Hr].
  - unfold carries, trigger_depth, trigger_path. by rewrite Hd, Hp.
  - apply prepare_ok in Hr as (_ & _ & _ & _ & _ & _ & _ & _ & _ & _ & next & Hn & ->).
    apply (cascade_step t r next _ _ (carries_ext _ _ _ _ Hd Hp IH)) in Hn as (_ & _ & ->). simpl.
    rewrite map_app, length_app. simpl.
    replace (cascade_depth (List.length ts + 1)) with (saturating_add_u32 (cascade_depth (List.length ts)) 1)
      by (unfold saturating_add_u32, cascade_depth, u32_max; lia).
    apply carries_next. unfold in_u32, saturating_add_u32, cascade_depth, u32_max. lia.
Qed.

(** C9: In a chain of triggers each fired with the cascade metadata of the one before, no
    trigger fires twice and the k-th fires at a depth within its own maximum; so a chain of
    triggers that allow depth n at most has n + 1 of them at most. *)
Theorem cascades_end ts m :
  cascade ts m ->
  NoDup (map tr_id ts) /\
  (forall k t, ts !! k = Some t ->
     cascade_depth k <= default DEFAULT_TRIGGER_MAX_DEPTH (tr_max_depth t)) /\
  (forall n : nat, (forall t, t ∈ ts -> default DEFAULT_TRIGGER_MAX_DEPTH (tr_max_depth t) <= Z.of_nat n) ->
     Z.of_nat n < u32_max -> (List.length ts <= n + 1)%nat).
Proof.
  intros Hc.
  assert (NoDup (map tr_id ts) /\ forall k t, ts !! k = Some t ->
     cascade_depth k <= default DEFAULT_TRIGGER_MAX_DEPTH (tr_max_depth t)) as [Hnd Hk].
  { induction Hc as [m Hm|ts m id trace r c t i Hc [IH1 IH2] Hd Hp Hr]; [by split; [constructor|]|].
    apply cascade_carries in Hc.
    apply prepare_ok in Hr as (_ & _ & _ & _ & _ & _ & _ & _ & _ & _ & next & Hn & _).
    apply (cascade_step t r next _ _ (carries_ext _ _ _ _ Hd Hp Hc)) in Hn as (Hle & Hnot & _).
    split.
    - rewrite map_app. apply NoDup_app. split; [done|]. split; [|apply NoDup_singleton].
      intros x Hx ->%list_elem_of_singleton. done.
    - intros k t' [Hl|[Hl Hs]]%lookup_app_Some; [eauto|].
      destruct (k - List.length ts)%nat as [|n] eqn:En; [|done]. injection Hs as <-.
      by replace k with (List.length ts) by lia. }
  split; [done|]. split; [done|]. intros n Hmax Hn. destruct (decide (List.length ts <= n + 1)%nat); [done|].
  assert (n + 1 < List.length ts)%nat as Hlt by lia. apply lookup_lt_is_Some in Hlt as [t Ht].
  pose proof (Hk _ _ Ht). pose proof (Hmax t ltac:(by eapply list_elem_of_lookup_2)).
  unfold cascade_depth in *. lia.
Qed.

(** The invocation prepared for a trigger goes to the registered target under the
    trigger's own grant and delivery mode, whatever the caller is; its cascade depth is one
    more and its path is extended by the trigger, and all other runtime metadata passes
    unchanged. *)
Theorem trigger_runs_under_its_own_grant id trace r c t i depth ids :
  prepare id trace r c = Ok (t, i) -> carries (td_runtime_metadata r) depth ids ->
  inspect_trigger (td_trigger_id r) c = Ok t /\ inv_function_id i = tr_target_function t /\
  inv_delivery_mode i = tr_delivery_mode t /\
  cx_authority_grant_id (inv_context i) = tr_authority_grant t /\
  cx_authority_scopes (inv_context i) = td_authority_scopes r /\
  carries (cx_runtime_metadata (inv_context i)) (saturating_add_u32 depth 1) (ids ++ [tr_id t]) /\
  (forall key, key <> RUNTIME_METADATA_TRIGGER_DEPTH -> key <> RUNTIME_METADATA_TRIGGER_PATH ->
     cx_runtime_metadata (inv_context i) !! key = td_runtime_metadata r !! key).
Proof.
  intros (Ht & _ & Hf & _ & Hm & _ & _ & Hg & Hs & _ & next & Hn & Hmeta)%prepare_ok Hc.
  assert (in_u32 depth) as Hd.
  { destruct Hc as [Hc _]. unfold trigger_depth in Hc.
    destruct (_ !! _) as [value|]; [|injection Hc as <-; done].
    destruct (parse_uint _ _) as [n|] eqn:En; [|done]. injection Hc as <-.
    by apply parse_uint_range in En. }
  apply (cascade_step t r next _ _ Hc) in Hn as (_ & _ & ->). simpl in Hmeta. rewrite Hmeta.
  split_and!; try done.
  - apply carries_next, saturating_add_u32_range; [done|lia].
  - intros key H1 H2. unfold without_cascade.
    by rewrite !lookup_insert_ne, !lookup_delete_ne by congruence.
Qed.
End cascade_theorems.

(** ** Refused and queued dispatches *)

(** The context of a delivery is built by the same loops. *)
Lemma claimed_context_fields item :
  let r := q_request item in
  cx_runtime_metadata (claimed_context item) = eq_runtime_metadata r /\
  cx_authority_scopes (claimed_context item) = eq_authority_scopes r /\
  cx_authority_grant_id (claimed_context item) = eq_authority_grant_id r /\
  cx_trigger_id (claimed_context item) = eq_trigger_id r.
Proof.
  unfold claimed_context. destruct (q_request item) as [? ? ? ? ? grant scopes m ? parent trigger session workspace key].
  simpl.
  match goal with |- context [fold_left with_scope scopes ?c0] =>
    change (fold_left with_scope scopes c0) with (with_scopes scopes c0);
    destruct (with_scopes_fields scopes c0) as (Hs1 & Hs2 & Hs3 & Hs4 & _);
    set (c1 := with_scopes scopes c0) in * end.
  match goal with |- context [fold_left ?f (btree_entries m) c1] =>
    change (fold_left f (btree_entries m) c1) with (with_metadata m c1) end.
  destruct (with_metadata_fields m c1) as (Hm1 & Hm2 & Hm3 & Hm4 & _).
  simpl in Hs1, Hs2, Hs3, Hs4. rewrite Hs2, (right_id_L ∅ (∪)) in Hm1.
  destruct parent, trigger, session, workspace, key; simpl; split_and!; congruence.
Qed.

Lemma queue_enqueue_ok json_len now receipt r s item s' :
  queue_enqueue json_len now receipt r s = Ok (item, s') ->
  item = queue_item_new now receipt r /\ s' = <[receipt := item]> s.
Proof. unfold queue_enqueue. intros Hq. by inv_ok. Qed.

Section dispatch_theorems.
  Context {H S L C : Type} `{!LedgerStore S, !LeaseStore L, !CompensationStore C}.
  Notation host := (EngineHost H S L C).
  Implicit Types (h : host).
  Variable debug sha256_hex encode : string -> string.
  Variable fs : FileSystem.
  Variable rfc3339 : instant -> string.
  Variable json_len : Value -> Z.
  Variable dispatch : Invocation -> host -> Result Value * host.
  Variable uuid : Z -> string.
  Variable metadata_text : Value -> string.
  Variable function_value : FunctionDefinition -> Value.
  Variable worker_value : WorkerDefinition -> Value.
  Variable trigger_type_value : TriggerTypeDefinition -> Value.
  Variable trigger_value : TriggerDefinition -> Value.
  Variable attempt_value : EngineQueueAttemptRecord -> Value.
  Variable encode_path : list string -> string.
  Variable decode_path : string -> result string (list string).
  Notation prepare := (prepare_trigger_invocation debug encode_path decode_path).
  Notation fire run call :=
    (trigger_dispatch debug sha256_hex encode fs rfc3339 json_len run dispatch uuid metadata_text
       function_value worker_value trigger_type_value trigger_value call attempt_value
       encode_path decode_path).

(** The answer is the error [e], unless the ledger failed to append the record
    and the answer is that failure. *)
Definition answers_error (r : InvocationResult) (e : EngineError) : Prop :=
  ir_value r = None /\
  (ir_error r = Some e \/
   exists record (l l' : S) e', lg_append_invocation record l = (Err e', l') /\ ir_error r = Some e').

Lemma record_stopped now i worker revision e h :
  let '(r, h') := record_policy_stopped_invocation now i worker revision e h in
  recorded i r (eh_catalog h) (eh_catalog h') /\ answers_error r e /\
  h' = set_eh_catalog (eh_catalog h') h.
Proof.
  unfold record_policy_stopped_invocation, on_catalog, record_invocation_result.
  pose proof (record_recorded now i i (result_error i worker revision (lc_revision (eh_catalog h)) e)
    None [] None (eh_catalog h) (eh_catalog h) eq_refl eq_refl (conj eq_refl eq_refl)) as Hrec.
  destruct (record_invocation_result_with_contracts _ _ _ _ _ _ _) as [r c'] eqn:Hc.
  split_and!; try done. unfold record_invocation_result_with_contracts in Hc.
  destruct (lg_append_invocation _ _) as [[[]|e'] l] eqn:Ha; injection Hc as <- _;
    (split; [done|]); [by left|right; simpl; by eauto 10].
Qed.

(** A trigger dispatch that is refused (unknown or disabled trigger, wrong mode,
    cascade too deep or cyclic, target not allowed) starts no handler and no child, takes no
    lease, enqueues and publishes nothing, and leaves one record of the refusal with its
    error. *)
Theorem refused_trigger_is_recorded run call t tc id child_id trace receipt r h d e :
  prepare id trace r (eh_catalog h) = Err (d, e) ->
  let '(res, h') := fire run call t tc id child_id trace receipt r h in
  recorded (refused_invocation id trace d r) res (eh_catalog h) (eh_catalog h') /\
  answers_error res e /\
  eh_queue h' = eh_queue h /\ eh_leases h' = eh_leases h /\ eh_streams h' = eh_streams h /\
  (forall run' call', fire run' call' t tc id child_id trace receipt r h = (res, h')).
Proof.
  intros Hp. unfold trigger_dispatch at 1. rewrite Hp.
  pose proof (record_stopped (tk_before t) (refused_invocation id trace d r)
    (default "engine" (tr_owner_worker <$> d)) 0 e h) as Hs.
  unfold record_trigger_prepare_failure.
  destruct (record_policy_stopped_invocation _ _ _ _ _ _) as [res h'] eqn:Hr.
  destruct Hs as (Hrec & Herr & Hh). split_and!; try done; try (by rewrite Hh).
  intros run' call'. unfold trigger_dispatch. by rewrite Hp.
Qed.

(** A trigger with enqueue delivery leaves one queue item, from which the claimed invocation
    is rebuilt with the trigger's target, payload, grant, scopes and cascade metadata; or
    the queue refuses it, nothing is enqueued, and the answer is an error. *)
Theorem queued_trigger_keeps_its_cascade run call t tc id child_id trace receipt r h d i :
  prepare id trace r (eh_catalog h) = Ok (d, i) -> tr_delivery_mode d = Delivery_Enqueue ->
  let '(res, h') := fire run call t tc id child_id trace receipt r h in
  (eh_queue h' = eh_queue h /\ exists e, answers_error res e) \/
  exists item, eh_queue h' = <[receipt := item]> (eh_queue h) /\
    forall delivery, let ctx := inv_context (claimed_invocation delivery item) in
      inv_function_id (claimed_invocation delivery item) = tr_target_function d /\
      inv_payload (claimed_invocation delivery item) = td_payload r /\
      cx_authority_grant_id ctx = tr_authority_grant d /\
      cx_authority_scopes ctx = td_authority_scopes r /\
      cx_trigger_id ctx = Some (td_trigger_id r) /\
      cx_runtime_metadata ctx = cx_runtime_metadata (inv_context i).
Proof.
  intros Hp Hmode. unfold trigger_dispatch. rewrite Hp.
  apply prepare_ok in Hp as (_ & _ & Hf & Hpl & Hm & _ & _ & Hg & Hs & Ht & _).
  rewrite Hm, Hmode. unfold enqueue_invocation, on_queue.
  destruct (queue_enqueue _ _ _ _ _) as [[item q]|e] eqn:Hq.
  - unfold record_enqueued_invocation.
    destruct (on_catalog _ _) as [res h'] eqn:Hc. right. exists item.
    unfold on_catalog in Hc. destruct (record_invocation_result _ _ _ _ _) as [r' c'].
    injection Hc as <- <-. apply queue_enqueue_ok in Hq as [-> ->].
    split.
    { unfold publish_queue_lifecycle_event. cbn [eh_queue set_eh_catalog]. by rewrite publish_queue. }
    intros delivery. cbn zeta.
    destruct (claimed_context_fields (queue_item_new (tk_before t) receipt (enqueue_request d i)))
      as (Hmeta & Hscopes & Hgrant & Htrigger).
    split_and!; [done|done|exact (eq_trans Hgrant Hg)|exact (eq_trans Hscopes Hs)
      |exact (eq_trans Htrigger Ht)|exact Hmeta].
  - pose proof (record_stopped (tk_before t) i (tr_owner_worker d) 0 e h) as Hst.
    unfold record_trigger_prepare_failure.
    destruct (record_policy_stopped_invocation _ _ _ _ _ _) as [res h'].
    destruct Hst as (_ & He & Hh). left. split; [by rewrite Hh|]. eauto.
Qed.
End dispatch_theorems.

(** ** Samples *)

(** An encoder of paths that reads back: the decimal text of the number of the
    path in an enumeration of all lists of strings. *)
Definition path_text (path : list string) : string := pretty (Z.pos (encode path)).
Definition read_path (text : string) : result string (list string) :=
  match parse_digits text 0 with
  | Some (Z.pos p) => match decode p with Some path => Ok path | None => Err "not a path" end
  | _ => Err "not a number"
  end.
Lemma read_path_text path : read_path (path_text path) = Ok path.
Proof. unfold read_path, path_text. rewrite pretty_uint_digits by done. by rewrite decode_encode. Qed.

Definition set_tr_delivery (m : DeliveryMode) (t : TriggerDefinition) : TriggerDefinition :=
  {| tr_id := tr_id t; tr_revision := tr_revision t; tr_owner_worker := tr_owner_worker t;
     tr_trigger_type := tr_trigger_type t; tr_target_function := tr_target_function t;
     tr_config := tr_config t; tr_delivery_mode := m; tr_authority_grant := tr_authority_grant t;
     tr_idempotency_key_strategy := tr_idempotency_key_strategy t; tr_max_depth := tr_max_depth t;
     tr_visibility := tr_visibility t; tr_provenance := tr_provenance t |}.
Definition firing_catalog (m : DeliveryMode) : LiveCatalog unit LedgerMemory :=
  set_lc_triggers {[ "t1" := {| te_definition := set_tr_delivery m sample_trigger; te_volatile := false |} ]}
    triggered_catalog.
Definition tick_request : TriggerDispatchRequest :=
  trigger_dispatch_request_new "t1" Null "clock" Actor_System.
Definition forged_request : TriggerDispatchRequest :=
  {| td_trigger_id := "t1"; td_payload := Null; td_actor_id := "clock";
     td_actor_kind := Actor_System; td_authority_scopes := ["demo.read"];
     td_runtime_metadata := <[RUNTIME_METADATA_TRIGGER_DEPTH := "7"]> {[ "note" := "x" ]};
     td_trace_id := None; td_parent_invocation_id := None; td_session_id := None;
     td_workspace_id := None; td_idempotency_key := None; td_delivery_mode := None |}.
Notation sample_fire := (prepare_trigger_invocation no_debug path_text read_path "i1" "trace").
Notation sample_dispatch :=
  (trigger_dispatch no_debug no_debug no_debug sample_fs no_rfc (fun _ => 0) saving
     (fun _ h => (Ok Null, h)) no_text (fun _ => "") (fun _ => Null) (fun _ => Null)
     (fun _ => Null) (fun _ => Null) (fun _ _ h => (Ok Null, h)) (fun _ => Null)
     path_text read_path tick0 tick0 "i1" "i2" "trace" "receipt").
Definition firing_host (m : DeliveryMode) : sample_host :=
  set_eh_catalog (firing_catalog m) host0.

Definition fired (r : TriggerDispatchRequest) (m : DeliveryMode) : TriggerDefinition * Invocation :=
  match sample_fire r (firing_catalog m) with
  | Ok x => x
  | Err _ => (sample_trigger, refused_invocation "i1" "trace" None r)
  end.

Lemma cascades_end_witness :
  let m := cx_runtime_metadata (inv_context (snd (fired tick_request Delivery_Sync))) in
  cascade (H := unit) (S := LedgerMemory) no_debug path_text read_path [sample_trigger] m /\
  NoDup (map tr_id [sample_trigger]) /\ trigger_path read_path m = Ok ["t1"].
Proof.
  assert (cascade (H := unit) (S := LedgerMemory) no_debug path_text read_path [sample_trigger]
    (cx_runtime_metadata (inv_context (snd (fired tick_request Delivery_Sync))))) as Hc.
  { apply (cascade_fire no_debug path_text read_path [] ∅ "i1" "trace" tick_request
      (firing_catalog Delivery_Sync)); [by constructor|reflexivity|reflexivity|].
    vm_compute. reflexivity. }
  split; [exact Hc|]. split; [|vm_compute; reflexivity].
  exact (proj1 (cascades_end no_debug path_text read_path read_path_text _ _ Hc)).
Defined.

Lemma trigger_runs_under_its_own_grant_witness :
  exists t i, sample_fire forged_request (firing_catalog Delivery_Sync) = Ok (t, i) /\
    cx_authority_grant_id (inv_context i) = "grant" /\
    cx_runtime_metadata (inv_context i) !! RUNTIME_METADATA_TRIGGER_DEPTH = Some "8" /\
    cx_runtime_metadata (inv_context i) !! "note" = Some "x".
Proof.
  exists (fst (fired forged_request Delivery_Sync)), (snd (fired forged_request Delivery_Sync)).
  assert (sample_fire forged_request (firing_catalog Delivery_Sync) =
    Ok (fst (fired forged_request Delivery_Sync), snd (fired forged_request Delivery_Sync))) as Hf
    by (vm_compute; reflexivity).
  destruct (trigger_runs_under_its_own_grant no_debug path_text read_path read_path_text "i1" "trace"
    forged_request _ _ _ 7 [] Hf) as (_ & _ & _ & Hg & _ & _ & Hm); [by split; vm_compute|].
  split; [exact Hf|]. split; [rewrite Hg; vm_compute; reflexivity|].
  split; [vm_compute; reflexivity|]. rewrite (Hm "note") by done. vm_compute. reflexivity.
Defined.

Definition looping_request : TriggerDispatchRequest :=
  {| td_trigger_id := "t1"; td_payload := Null; td_actor_id := "clock";
     td_actor_kind := Actor_System; td_authority_scopes := [];
     td_runtime_metadata := {[ RUNTIME_METADATA_TRIGGER_PATH := path_text ["t0"; "t1"] ]};
     td_trace_id := None; td_parent_invocation_id := None; td_session_id := None;
     td_workspace_id := None; td_idempotency_key := None; td_delivery_mode := None |}.

Lemma refused_trigger_is_recorded_witness :
  let h := firing_host Delivery_Sync in
  answers_error (S := LedgerMemory) (fst (sample_dispatch looping_request h))
    (PolicyViolation "trigger cascade loop detected for t1") /\
  eh_queue (snd (sample_dispatch looping_request h)) = ∅.
Proof.
  cbn zeta.
  pose proof (refused_trigger_is_recorded no_debug no_debug no_debug sample_fs no_rfc (fun _ => 0)
    (fun _ h => (Ok Null, h)) no_text (fun _ => "") (fun _ => Null) (fun _ => Null)
    (fun _ => Null) (fun _ => Null) (fun _ => Null) path_text read_path saving
    (fun _ _ h => (Ok Null, h)) tick0 tick0 "i1" "i2" "trace" "receipt" looping_request
    (firing_host Delivery_Sync) (Some sample_trigger)
    (PolicyViolation "trigger cascade loop detected for t1") ltac:(vm_compute; reflexivity)) as Hr.
  destruct (sample_dispatch looping_request (firing_host Delivery_Sync)) as [res h'].
  destruct Hr as (_ & He & Hq & _). cbn [fst snd]. split; [exact He|]. rewrite Hq. reflexivity.
Defined.

Lemma queued_trigger_keeps_its_cascade_witness :
  let h' := snd (sample_dispatch forged_request (firing_host Delivery_Enqueue)) in
  exists item, eh_queue h' !! "receipt" = Some item /\
    cx_authority_grant_id (inv_context (claimed_invocation "d1" item)) = "grant" /\
    cx_runtime_metadata (inv_context (claimed_invocation "d1" item)) !!
      RUNTIME_METADATA_TRIGGER_DEPTH = Some "8".
Proof.
  cbn zeta.
  pose proof (queued_trigger_keeps_its_cascade no_debug no_debug no_debug sample_fs no_rfc
    (fun _ => 0) (fun _ h => (Ok Null, h)) no_text (fun _ => "") (fun _ => Null) (fun _ => Null)
    (fun _ => Null) (fun _ => Null) (fun _ => Null) path_text read_path saving
    (fun _ _ h => (Ok Null, h)) tick0 tick0 "i1" "i2" "trace" "receipt" forged_request
    (firing_host Delivery_Enqueue) (fst (fired forged_request Delivery_Enqueue))
    (snd (fired forged_request Delivery_Enqueue)) ltac:(vm_compute; reflexivity)
    ltac:(vm_compute; reflexivity)) as Hq.
  destruct (sample_dispatch forged_request (firing_host Delivery_Enqueue)) as [res h'] eqn:Hd.
  destruct Hq as [[Hq _]|(item & Hq & Hi)].
  - exfalso. apply (f_equal (fun x => eh_queue (snd x) !! "receipt")) in Hd. cbn [snd] in Hd.
    rewrite Hq in Hd. vm_compute in Hd. discriminate.
  - exists item. cbn [snd]. rewrite Hq. split; [apply lookup_insert_eq|].
    destruct (Hi "d1") as (_ & _ & -> & _ & _ & ->). split; vm_compute; reflexivity.
Defined.
