(* ===== verification/Failure.v ===== *)
(** * Failure envelopes

    The errors that leave the engine: the failure envelope
    ([shared/server/failure.rs]), capability errors ([shared/server/errors.rs]) and
    the mapping of engine, event-store and sign-in errors into them
    ([shared/server/error_mapping]), with the result that a failed capability
    invocation gives to the model ([shared/protocol/model_capabilities.rs]).

    An error of the HTTP client is what the mapping reads of it: its status, and
    whether it is a timeout or a failed connection.  The texts of SQLite failures
    and of I/O error kinds are parameters, as is the [{:?}] rendering. *)

From stdpp Require Import base gmap strings list pretty.
From Stdlib Require Import ZArith Ascii String Lia.
From S2P Require Import Prelude Json Kernel Model Messages EventStore.
Import JsonNotations.

#[local] Open Scope Z_scope.

(** ** The envelope *)

(* SRC shared/server/failure.rs:97-133 FailureCategory *)
Inductive FailureCategory :=
| Failure_InvalidRequest | Failure_InvalidModel | Failure_NotFound | Failure_Unavailable
| Failure_Conflict | Failure_Auth | Failure_Network | Failure_RateLimit | Failure_Api
| Failure_Parse | Failure_Cancelled | Failure_Capability | Failure_Engine | Failure_Persistence
| Failure_Internal | Failure_Unknown.
#[global] Instance FailureCategory_eq_dec : EqDecision FailureCategory.
Proof. solve_decision. Defined.
(* SRC shared/server/failure.rs:166-190 FailureOrigin *)
Inductive FailureOrigin :=
| Origin_Server | Origin_Engine | Origin_ModelProvider | Origin_ModelResponder
| Origin_AgentRuntime | Origin_Capability | Origin_Transport | Origin_EventStore | Origin_Auth
| Origin_Replay.
#[global] Instance FailureOrigin_eq_dec : EqDecision FailureOrigin.
Proof. solve_decision. Defined.

(* SRC shared/server/failure.rs:136-157 FailureCategory::as_str *)
Definition category_as_str (c : FailureCategory) : string :=
  match c with
  | Failure_InvalidRequest => "invalid_request"
  | Failure_InvalidModel => "invalid_model"
  | Failure_NotFound => "not_found"
  | Failure_Unavailable => "unavailable"
  | Failure_Conflict => "conflict"
  | Failure_Auth => "auth"
  | Failure_Network => "network"
  | Failure_RateLimit => "rate_limit"
  | Failure_Api => "api"
  | Failure_Parse => "parse"
  | Failure_Cancelled => "cancelled"
  | Failure_Capability => "capability"
  | Failure_Engine => "engine"
  | Failure_Persistence => "persistence"
  | Failure_Internal => "internal"
  | Failure_Unknown => "unknown"
  end.
(* SRC shared/server/failure.rs:193-208 FailureOrigin::as_str *)
Definition origin_as_str (o : FailureOrigin) : string :=
  match o with
  | Origin_Server => "server"
  | Origin_Engine => "engine"
  | Origin_ModelProvider => "model_provider"
  | Origin_ModelResponder => "model_responder"
  | Origin_AgentRuntime => "agent_runtime"
  | Origin_Capability => "capability"
  | Origin_Transport => "transport"
  | Origin_EventStore => "event_store"
  | Origin_Auth => "auth"
  | Origin_Replay => "replay"
  end.

(* SRC shared/server/failure.rs:217-236 FailureReferences *)
Record FailureReferences := {
  fr_trace_id : option string;
  fr_invocation_id : option string;
  fr_parent_invocation_id : option string;
  fr_session_id : option string;
  fr_source_event_id : option string
}.
#[global] Instance FailureReferences_eq_dec : EqDecision FailureReferences.
Proof. solve_decision. Defined.
Definition no_references : FailureReferences :=
  {| fr_trace_id := None; fr_invocation_id := None; fr_parent_invocation_id := None;
     fr_session_id := None; fr_source_event_id := None |}.
(* SRC shared/server/failure.rs:238-278 FailureEnvelope *)
Record FailureEnvelope := {
  fl_code : string;
  fl_category : FailureCategory;
  fl_message : string;
  fl_retryable : bool;
  fl_recoverable : bool;
  fl_origin : FailureOrigin;
  fl_provider : option string;
  fl_model : option string;
  fl_status_code : option Z;
  fl_error_type : option string;
  fl_retry_after_ms : option Z;
  fl_suggestion : option string;
  fl_details : option Value;
  fl_references : FailureReferences
}.

(* SRC shared/server/failure.rs:281-307 FailureEnvelope::new *)
Definition failure_new (code : string) (category : FailureCategory) (message : string)
    (retryable recoverable : bool) (origin : FailureOrigin) : FailureEnvelope :=
  {| fl_code := code; fl_category := category; fl_message := message; fl_retryable := retryable;
     fl_recoverable := recoverable; fl_origin := origin; fl_provider := None; fl_model := None;
     fl_status_code := None; fl_error_type := None; fl_retry_after_ms := None;
     fl_suggestion := None; fl_details := None; fl_references := no_references |}.
(* SRC shared/server/failure.rs:321-326 FailureEnvelope::with_details *)
Definition with_details (details : option Value) (f : FailureEnvelope) : FailureEnvelope :=
  {| fl_code := fl_code f; fl_category := fl_category f; fl_message := fl_message f;
     fl_retryable := fl_retryable f; fl_recoverable := fl_recoverable f; fl_origin := fl_origin f;
     fl_provider := fl_provider f; fl_model := fl_model f; fl_status_code := fl_status_code f;
     fl_error_type := fl_error_type f; fl_retry_after_ms := fl_retry_after_ms f;
     fl_suggestion := fl_suggestion f; fl_details := details; fl_references := fl_references f |}.
(* SRC shared/server/failure.rs:335-340 FailureEnvelope::with_error_type *)
Definition with_error_type (error_type : option string) (f : FailureEnvelope) : FailureEnvelope :=
  {| fl_code := fl_code f; fl_category := fl_category f; fl_message := fl_message f;
     fl_retryable := fl_retryable f; fl_recoverable := fl_recoverable f; fl_origin := fl_origin f;
     fl_provider := fl_provider f; fl_model := fl_model f; fl_status_code := fl_status_code f;
     fl_error_type := error_type; fl_retry_after_ms := fl_retry_after_ms f;
     fl_suggestion := fl_suggestion f; fl_details := fl_details f;
     fl_references := fl_references f |}.
(* SRC shared/server/failure.rs:328-333 FailureEnvelope::with_status_code *)
Definition with_status_code (status : option Z) (f : FailureEnvelope) : FailureEnvelope :=
  {| fl_code := fl_code f; fl_category := fl_category f; fl_message := fl_message f;
     fl_retryable := fl_retryable f; fl_recoverable := fl_recoverable f; fl_origin := fl_origin f;
     fl_provider := fl_provider f; fl_model := fl_model f; fl_status_code := status;
     fl_error_type := fl_error_type f; fl_retry_after_ms := fl_retry_after_ms f;
     fl_suggestion := fl_suggestion f; fl_details := fl_details f;
     fl_references := fl_references f |}.
(* SRC shared/server/failure.rs:349-354 FailureEnvelope::with_suggestion *)
Definition with_suggestion (suggestion : option string) (f : FailureEnvelope) : FailureEnvelope :=
  {| fl_code := fl_code f; fl_category := fl_category f; fl_message := fl_message f;
     fl_retryable := fl_retryable f; fl_recoverable := fl_recoverable f; fl_origin := fl_origin f;
     fl_provider := fl_provider f; fl_model := fl_model f; fl_status_code := fl_status_code f;
     fl_error_type := fl_error_type f; fl_retry_after_ms := fl_retry_after_ms f;
     fl_suggestion := suggestion; fl_details := fl_details f; fl_references := fl_references f |}.
Definition with_references (references : FailureReferences) (f : FailureEnvelope) : FailureEnvelope :=
  {| fl_code := fl_code f; fl_category := fl_category f; fl_message := fl_message f;
     fl_retryable := fl_retryable f; fl_recoverable := fl_recoverable f; fl_origin := fl_origin f;
     fl_provider := fl_provider f; fl_model := fl_model f; fl_status_code := fl_status_code f;
     fl_error_type := fl_error_type f; fl_retry_after_ms := fl_retry_after_ms f;
     fl_suggestion := fl_suggestion f; fl_details := fl_details f; fl_references := references |}.

(** *** As JSON

    The derived serializer leaves out the fields that are [None] and puts the
    references beside the other fields; the derived deserializer reads a missing
    or null optional field as [None]. *)

Definition optional_fields (fields : list (string * option Value)) : list (string * Value) :=
  omap (fun kv => match snd kv with Some v => Some (fst kv, v) | None => None end) fields.
Definition failure_fields (f : FailureEnvelope) : list (string * option Value) :=
  [("code", Some (VString (fl_code f)));
   ("category", Some (VString (category_as_str (fl_category f))));
   ("message", Some (VString (fl_message f)));
   ("retryable", Some (VBool (fl_retryable f)));
   ("recoverable", Some (VBool (fl_recoverable f)));
   ("origin", Some (VString (origin_as_str (fl_origin f))));
   ("provider", VString <$> fl_provider f);
   ("model", VString <$> fl_model f);
   ("statusCode", jnum <$> fl_status_code f);
   ("errorType", VString <$> fl_error_type f);
   ("retryAfterMs", jnum <$> fl_retry_after_ms f);
   ("suggestion", VString <$> fl_suggestion f);
   ("details", fl_details f);
   ("traceId", VString <$> fr_trace_id (fl_references f));
   ("invocationId", VString <$> fr_invocation_id (fl_references f));
   ("parentInvocationId", VString <$> fr_parent_invocation_id (fl_references f));
   ("sessionId", VString <$> fr_session_id (fl_references f));
   ("sourceEventId", VString <$> fr_source_event_id (fl_references f))].
(* SRC shared/server/failure.rs:391-395 FailureEnvelope::to_value *)
Definition failure_to_value (f : FailureEnvelope) : Value := jobj (optional_fields (failure_fields f)).

Definition all_categories : list FailureCategory :=
  [Failure_InvalidRequest; Failure_InvalidModel; Failure_NotFound; Failure_Unavailable;
   Failure_Conflict; Failure_Auth; Failure_Network; Failure_RateLimit; Failure_Api; Failure_Parse;
   Failure_Cancelled; Failure_Capability; Failure_Engine; Failure_Persistence; Failure_Internal;
   Failure_Unknown].
Definition all_origins : list FailureOrigin :=
  [Origin_Server; Origin_Engine; Origin_ModelProvider; Origin_ModelResponder; Origin_AgentRuntime;
   Origin_Capability; Origin_Transport; Origin_EventStore; Origin_Auth; Origin_Replay].
Definition parse_category (s : string) : option FailureCategory :=
  List.find (fun c => category_as_str c =s s) all_categories.
Definition parse_origin (s : string) : option FailureOrigin :=
  List.find (fun o => origin_as_str o =s s) all_origins.
(** An optional field: absent or null, or of the right type. *)
Definition read_optional {A} (v : Value) (key : string) (read : Value -> option A) : option (option A) :=
  match vget v key with
  | None | Some Null => Some None
  | Some w => a ← read w; Some (Some a)
  end.
Definition read_u16 (v : Value) : option Z :=
  n ← as_u64 v; if n <? 65536 then Some n else None.
(** The derived [Deserialize] of the envelope. *)
(* SRC shared/server/failure.rs:238-278 FailureEnvelope *)
Definition failure_of_value (v : Value) : option FailureEnvelope :=
  code ← vget v "code" ≫= as_str;
  category ← (vget v "category" ≫= as_str) ≫= parse_category;
  message ← vget v "message" ≫= as_str;
  retryable ← vget v "retryable" ≫= as_bool;
  recoverable ← vget v "recoverable" ≫= as_bool;
  origin ← (vget v "origin" ≫= as_str) ≫= parse_origin;
  provider ← read_optional v "provider" as_str;
  model ← read_optional v "model" as_str;
  status ← read_optional v "statusCode" read_u16;
  error_type ← read_optional v "errorType" as_str;
  retry_after ← read_optional v "retryAfterMs" as_u64;
  suggestion ← read_optional v "suggestion" as_str;
  details ← read_optional v "details" Some;
  trace ← read_optional v "traceId" as_str;
  invocation ← read_optional v "invocationId" as_str;
  parent ← read_optional v "parentInvocationId" as_str;
  session ← read_optional v "sessionId" as_str;
  source ← read_optional v "sourceEventId" as_str;
  Some {| fl_code := code; fl_category := category; fl_message := message;
          fl_retryable := retryable; fl_recoverable := recoverable; fl_origin := origin;
          fl_provider := provider; fl_model := model; fl_status_code := status;
          fl_error_type := error_type; fl_retry_after_ms := retry_after;
          fl_suggestion := suggestion; fl_details := details;
          fl_references := {| fr_trace_id := trace; fr_invocation_id := invocation;
                              fr_parent_invocation_id := parent; fr_session_id := session;
                              fr_source_event_id := source |} |}.

(** The details as an object. *)
Definition detail_fields (details : option Value) : list (string * Value) :=
  match details with
  | Some (VObject fields) => fields
  | Some value => [("details", value)]
  | None => []
  end.
(* SRC shared/server/failure.rs:397-412 FailureEnvelope::details_with_failure *)
Definition details_with_failure (f : FailureEnvelope) : Value :=
  VObject (obj_insert (detail_fields (fl_details f)) "failure" (failure_to_value f)).

(** ** Capability errors *)

(* SRC shared/server/errors.rs:74-117 CapabilityError *)
Inductive CapabilityError :=
| Cap_InvalidParams (message : string)
| Cap_NotFound (code message : string)
| Cap_Internal (message : string)
| Cap_NotAvailable (message : string)
| Cap_Custom (code message : string) (details : option Value).

(* SRC shared/server/errors.rs:120-128 CapabilityError::code *)
Definition capability_code (e : CapabilityError) : string :=
  match e with
  | Cap_InvalidParams _ => "INVALID_PARAMS"
  | Cap_NotFound code _ | Cap_Custom code _ _ => code
  | Cap_Internal _ => "INTERNAL_ERROR"
  | Cap_NotAvailable _ => "NOT_AVAILABLE"
  end.
(** The [Display] text. *)
Definition capability_text (e : CapabilityError) : string :=
  match e with
  | Cap_InvalidParams m | Cap_NotFound _ m | Cap_Internal m | Cap_NotAvailable m | Cap_Custom _ m _ => m
  end.
(* SRC shared/server/errors.rs:130-136 CapabilityError::details *)
Definition capability_details (e : CapabilityError) : option Value :=
  match e with Cap_Custom _ _ details => details | _ => None end.
(* SRC shared/server/errors.rs:186-194 CapabilityError::public_message *)
Definition public_message (e : CapabilityError) : string :=
  match e with Cap_Internal _ => "Internal error" | _ => capability_text e end.
(* SRC shared/server/errors.rs:196-205 CapabilityError::embedded_failure *)
Definition embedded_failure (e : CapabilityError) : option FailureEnvelope :=
  match e with
  | Cap_Custom _ _ (Some details) => vget details "failure" ≫= failure_of_value
  | _ => None
  end.

Definition one_of (codes : list string) (code : string) : bool := existsb (String.eqb code) codes.
(* SRC shared/server/errors.rs:208-226 category_for_capability_code *)
Definition category_for_capability_code (code : string) : FailureCategory :=
  if one_of ["INVALID_PARAMS"; "CLIENT_VERSION_UNSUPPORTED"; "INVALID_VISIBILITY_PROMOTION"] code
  then Failure_InvalidRequest
  else if one_of ["SESSION_NOT_FOUND"; "EVENT_NOT_FOUND"; "WORKSPACE_NOT_FOUND"; "BLOB_NOT_FOUND";
                  "NOT_FOUND"] code
  then Failure_NotFound
  else if one_of ["NOT_AVAILABLE"; "EVENT_STORE_BUSY"] code then Failure_Unavailable
  else if one_of ["SESSION_BUSY"; "IDEMPOTENCY_CONFLICT"; "ENGINE_OWNER_MISMATCH"] code
  then Failure_Conflict
  else if one_of ["AUTH_NOT_CONFIGURED"; "AUTH_TOKEN_EXPIRED"; "AUTH_OAUTH_ERROR";
                  "AUTH_STORAGE_ERROR"] code
  then Failure_Auth
  else if one_of ["AUTH_TRANSPORT_ERROR"] code then Failure_Network
  else if one_of ["EVENT_STORE_FAILURE"] code then Failure_Persistence
  else if one_of ["INTERNAL_ERROR"] code then Failure_Internal
  else Failure_Unknown.
(* SRC shared/server/errors.rs:228-239 retry_recover_for_category *)
Definition retry_recover_for_category (category : FailureCategory) (code : string) : bool * bool :=
  match category with
  | Failure_Conflict =>
      if one_of ["SESSION_BUSY"] code then (true, true)
      else if one_of ["IDEMPOTENCY_CONFLICT"; "ENGINE_OWNER_MISMATCH"] code then (false, true)
      else (false, false)
  | Failure_Unavailable | Failure_Network => (true, true)
  | Failure_NotFound | Failure_InvalidRequest | Failure_Auth => (false, true)
  | _ => (false, false)
  end.
(* SRC shared/server/errors.rs:138-149 CapabilityError::to_failure *)
Definition to_failure (e : CapabilityError) (origin : FailureOrigin) : FailureEnvelope :=
  match embedded_failure e with
  | Some failure => failure
  | None =>
      let code := capability_code e in
      let category := category_for_capability_code code in
      let '(retryable, recoverable) := retry_recover_for_category category code in
      with_details (capability_details e)
        (failure_new code category (public_message e) retryable recoverable origin)
  end.

(** Anything beside the six required fields. *)
Definition carries_more (f : FailureEnvelope) : bool :=
  is_some (fl_details f) || is_some (fl_provider f) || is_some (fl_model f)
  || is_some (fl_status_code f) || is_some (fl_error_type f) || is_some (fl_retry_after_ms f)
  || is_some (fl_suggestion f) || negb (bool_decide (fl_references f = no_references)).
(* SRC shared/server/errors.rs:151-184 CapabilityError::from_failure *)
Definition from_failure (f : FailureEnvelope) : CapabilityError :=
  let code := fl_code f in
  let message := fl_message f in
  let custom := Cap_Custom code message (Some (details_with_failure f)) in
  if carries_more f then custom
  else if code =s "INVALID_PARAMS" then Cap_InvalidParams message
  else if code =s "INTERNAL_ERROR" then Cap_Internal message
  else if code =s "NOT_AVAILABLE" then Cap_NotAvailable message
  else if one_of ["NOT_FOUND"; "SESSION_NOT_FOUND"; "EVENT_NOT_FOUND"; "WORKSPACE_NOT_FOUND";
                  "BLOB_NOT_FOUND"] code
  then Cap_NotFound code message
  else custom.

(** ** Errors of the engine *)

(* SRC shared/server/error_mapping/mod.rs:19-26 capability_error_to_engine *)
Definition capability_error_to_engine (e : CapabilityError) : EngineError :=
  DomainFailure "server_capability" (capability_code e) (capability_text e) (capability_details e).
(* SRC shared/server/error_mapping/mod.rs:283-302 capability_error_from_parts *)
Definition capability_error_from_parts (code message : string) (details : option Value) :
    CapabilityError :=
  if code =s "INVALID_PARAMS" then Cap_InvalidParams message
  else if code =s "INTERNAL_ERROR" then Cap_Internal message
  else if code =s "NOT_AVAILABLE" then Cap_NotAvailable message
  else if code =s "NOT_FOUND" then Cap_NotFound "NOT_FOUND" message
  else Cap_Custom code message details.

Definition engine_failure (code : string) (category : FailureCategory) (message : string)
    (retryable recoverable : bool) : FailureEnvelope :=
  failure_new code category message retryable recoverable Origin_Engine.
(** The failure of an error a domain reported. *)
(* SRC shared/server/error_mapping/mod.rs:239-263! engine_error_to_failure *)
Definition domain_failure (domain code message : string) (details : option Value) : FailureEnvelope :=
  let detail_map := [("domain", VString domain)] in
  let detail_map := match details with
                    | Some v => obj_insert detail_map "details" v | None => detail_map end in
  let capability_failure :=
    to_failure (capability_error_from_parts code message (Some (VObject detail_map)))
      Origin_Capability in
  with_error_type (Some "ENGINE_DOMAIN_FAILURE")
    (with_details (fl_details capability_failure)
       (failure_new code (fl_category capability_failure) message (fl_retryable capability_failure)
          (fl_recoverable capability_failure) Origin_Capability)).

(* SRC domains/auth/credentials/errors.rs:3-69 AuthError *)
Inductive AuthError :=
| Auth_Http (status : option Z) (is_timeout is_connect : bool)
| Auth_Json (operation message : string)
| Auth_Io (kind : string)
| Auth_OAuth (status : Z) (message : string)
| Auth_TokenExpired (message : string)
| Auth_NotConfigured (provider : string)
| Auth_MalformedProviderAuth (provider details : string)
| Auth_MalformedAuthFile (path details : string).

Section mapping.
  Variable debug : string -> string.
  Variable sql_text : SqlFailure -> string.

(* SRC shared/server/error_mapping/mod.rs:41-281 engine_error_to_failure *)
Definition engine_error_to_failure (error : EngineError) : FailureEnvelope :=
  let text := error_to_string debug error in
  match error with
  | InvalidId kind value =>
      with_details (Some (j{"kind" ~> kind; "value" ~> value}))
        (engine_failure "ENGINE_INVALID_ID" Failure_InvalidRequest text false true)
  | InvalidFunctionId value =>
      with_details (Some (j{"value" ~> value}))
        (engine_failure "ENGINE_INVALID_FUNCTION_ID" Failure_InvalidRequest text false true)
  | NotFound kind id =>
      with_details (Some (j{"kind" ~> kind; "id" ~> id}))
        (engine_failure "NOT_FOUND" Failure_NotFound (kind +s " not found: " +s id) false true)
  | OwnerMismatch kind id owner attempted =>
      with_details (Some (j{"kind" ~> kind; "id" ~> id; "owner" ~> owner;
                            "attemptedOwner" ~> attempted}))
        (engine_failure "ENGINE_OWNER_MISMATCH" Failure_Conflict
           (kind +s " " +s id +s " is owned by " +s owner +s ", not " +s attempted) false true)
  | NamespaceDenied worker_id function_id =>
      with_details (Some (j{"workerId" ~> worker_id; "functionId" ~> function_id}))
        (engine_failure "ENGINE_NAMESPACE_DENIED" Failure_Auth text false true)
  | UnsupportedDeliveryMode mode =>
      with_details (Some (j{"mode" ~> mode}))
        (engine_failure "ENGINE_UNSUPPORTED_DELIVERY_MODE" Failure_InvalidRequest text false true)
  | DeliveryModeNotAllowed function_id mode =>
      with_details (Some (j{"functionId" ~> function_id; "mode" ~> mode}))
        (engine_failure "ENGINE_DELIVERY_MODE_NOT_ALLOWED" Failure_InvalidRequest text false true)
  | IdempotencyConflict function_id key reason =>
      with_details (Some (j{"functionId" ~> function_id; "key" ~> key; "reason" ~> reason}))
        (engine_failure "IDEMPOTENCY_CONFLICT" Failure_Conflict
           ("Idempotency conflict for " +s function_id +s ": " +s reason) false true)
  | LedgerFailure operation message =>
      with_details (Some (j{"operation" ~> operation; "message" ~> message}))
        (engine_failure "ENGINE_LEDGER_FAILURE" Failure_Persistence "Engine ledger operation failed"
           false false)
  | StoredInvocationError kind message =>
      with_details (Some (j{"kind" ~> kind}))
        (with_error_type (Some kind)
           (engine_failure "ENGINE_STORED_INVOCATION_ERROR" Failure_Capability message false false))
  | InvalidSchema function_id direction message =>
      with_details (Some (j{"functionId" ~> function_id; "direction" ~> direction}))
        (engine_failure "ENGINE_INVALID_SCHEMA" Failure_InvalidRequest message false true)
  | SchemaViolation function_id direction path message =>
      with_details (Some (j{"functionId" ~> function_id; "direction" ~> direction; "path" ~> path}))
        (engine_failure "ENGINE_SCHEMA_VIOLATION" Failure_InvalidRequest message false true)
  | InvalidVisibilityPromotion function_id target reason =>
      with_details (Some (j{"functionId" ~> function_id; "target" ~> target; "reason" ~> reason}))
        (engine_failure "INVALID_VISIBILITY_PROMOTION" Failure_InvalidRequest
           ("invalid visibility promotion for " +s function_id +s " to " +s target +s ": " +s reason)
           false true)
  | PolicyViolation message =>
      engine_failure "ENGINE_POLICY_VIOLATION" Failure_InvalidRequest message false true
  | NotRoutable function_id reason =>
      with_details (Some (j{"functionId" ~> function_id; "reason" ~> reason}))
        (engine_failure "ENGINE_NOT_ROUTABLE" Failure_Unavailable text true true)
  | DomainFailure domain code message details => domain_failure domain code message details
  | WorkerTransportFailure code message =>
      with_error_type (Some "ENGINE_WORKER_TRANSPORT_FAILURE")
        (engine_failure code Failure_Engine message true true)
  | HandlerFailed message =>
      failure_new "ENGINE_HANDLER_FAILED" Failure_Capability message false false Origin_Capability
  end.
(* SRC shared/server/error_mapping/mod.rs:37-39 engine_error_to_capability_error *)
Definition engine_error_to_capability_error (error : EngineError) : CapabilityError :=
  from_failure (engine_error_to_failure error).
(* SRC shared/server/error_mapping/mod.rs:28-35 result_to_capability_value *)
Definition result_to_capability_value (r : InvocationResult) : result CapabilityError Value :=
  match ir_error r with
  | Some error => Err (engine_error_to_capability_error error)
  | None => Ok (default Null (ir_value r))
  end.

(** ** Errors of the event store and of sign-in *)

(* SRC shared/server/error_mapping/mod.rs:522-535 event_store_internal_failure *)
Definition event_store_internal_failure (kind : string) (reason : option string) : CapabilityError :=
  from_failure
    (with_details (Some (j{"kind" ~> kind; "reason" ~> jstr reason}))
       (with_error_type (Some kind)
          (failure_new "EVENT_STORE_FAILURE" Failure_Persistence "Event store operation failed"
             false false Origin_EventStore))).
Definition event_store_not_found (code what field id : string) : CapabilityError :=
  from_failure
    (with_details (Some (j{field ~> id}))
       (failure_new code Failure_NotFound (what +s " not found: " +s id) false true
          Origin_EventStore)).
(* SRC shared/server/error_mapping/mod.rs:304-385 map_event_store_error *)
Definition map_event_store_error (e : EventStoreError) : CapabilityError :=
  match e with
  | Es_SessionNotFound id => event_store_not_found "SESSION_NOT_FOUND" "Session" "sessionId" id
  | Es_EventNotFound id => event_store_not_found "EVENT_NOT_FOUND" "Event" "eventId" id
  | Es_WorkspaceNotFound id => event_store_not_found "WORKSPACE_NOT_FOUND" "Workspace" "workspaceId" id
  | Es_BlobNotFound id => event_store_not_found "BLOB_NOT_FOUND" "Blob" "blobId" id
  | Es_InvalidOperation message =>
      from_failure
        (with_details (Some (j{"reason" ~> message}))
           (failure_new "INVALID_PARAMS" Failure_InvalidRequest message false true Origin_EventStore))
  | Es_Busy operation attempts =>
      from_failure
        (with_details (Some (j{"operation" ~> operation; "attempts" ~> attempts}))
           (failure_new "EVENT_STORE_BUSY" Failure_Unavailable
              ("Event store busy during " +s operation) true true Origin_EventStore))
  | Es_Sqlite error => event_store_internal_failure "sqlite" (Some (sql_text error))
  | Es_Pool text => event_store_internal_failure "pool" (Some text)
  | Es_Serde text => event_store_internal_failure "serde" (Some text)
  | Es_Migration message => event_store_internal_failure "migration" (Some message)
  | Es_Internal message => event_store_internal_failure "internal" (Some message)
  end.

Definition auth_failure (code message : string) (retryable : bool) (details : Value) : FailureEnvelope :=
  with_details (Some details) (failure_new code Failure_Auth message retryable true Origin_Auth).
(* SRC shared/server/error_mapping/mod.rs:387-520 map_auth_error *)
Definition map_auth_error (e : AuthError) : CapabilityError :=
  from_failure
  match e with
  | Auth_NotConfigured provider =>
      with_suggestion (Some ("Run `tron auth " +s provider +s "`."))
        (auth_failure "AUTH_NOT_CONFIGURED" ("No auth configured for provider: " +s provider) false
           (j{"provider" ~> provider}))
  | Auth_TokenExpired message =>
      with_suggestion (Some "Re-authenticate the provider.")
        (auth_failure "AUTH_TOKEN_EXPIRED" "Auth token expired and refresh failed" false
           (j{"reason" ~> message}))
  | Auth_OAuth status message =>
      with_details (Some (j{"status" ~> status; "reason" ~> message}))
        (with_status_code (Some status)
           (failure_new "AUTH_OAUTH_ERROR" Failure_Auth
              ("OAuth error (" +s pretty status +s "): " +s message)
              (existsb (Z.eqb status) [408; 429; 502; 503; 504]) true Origin_Auth))
  | Auth_MalformedProviderAuth provider details =>
      with_suggestion (Some ("Run `tron auth " +s provider +s "`."))
        (auth_failure "AUTH_NOT_CONFIGURED"
           ("Malformed auth for " +s provider +s ". Re-authenticate the provider.") false
           (j{"provider" ~> provider; "reason" ~> details}))
  | Auth_MalformedAuthFile _ details =>
      with_suggestion (Some "Run `tron auth reset` if the file cannot be repaired.")
        (auth_failure "AUTH_STORAGE_ERROR"
           "Malformed auth storage. Fix the file or run `tron auth reset`." false
           (j{"reason" ~> details}))
  | Auth_Http status is_timeout is_connect =>
      let retryable := is_timeout || is_connect
        || match status with Some s => ((500 <=? s) && (s <? 600)) || (s =? 429) | None => false end in
      let error_type := if is_timeout then "timeout" else if is_connect then "connect"
                        else if is_some status then "http_status" else "request" in
      with_details (Some (j{"kind" ~> error_type}))
        (with_error_type (Some error_type)
           (with_status_code status
              (failure_new "AUTH_TRANSPORT_ERROR" Failure_Network "Auth provider request failed"
                 retryable true Origin_Auth)))
  | Auth_Json operation message =>
      auth_failure "AUTH_STORAGE_ERROR" "Auth storage JSON operation failed" false
        (j{"operation" ~> operation; "reason" ~> message})
  | Auth_Io kind =>
      with_details (Some (j{"kind" ~> kind}))
        (with_error_type (Some kind)
           (failure_new "AUTH_STORAGE_ERROR" Failure_Auth "Auth storage I/O operation failed" false
              true Origin_Auth))
  end.
End mapping.

(** ** The result of a failed capability *)

(* SRC shared/protocol/model_capabilities.rs:52-60 CapabilityResultBody *)
Inductive CapabilityResultBody :=
| Body_Text (text : string)
| Body_Blocks (blocks : list CapabilityResultContent).
(* SRC shared/protocol/model_capabilities.rs:62-77 CapabilityResult *)
Record CapabilityResult := {
  cr_content : CapabilityResultBody;
  cr_details : option Value;
  cr_is_error : option bool;
  cr_stop_turn : option bool
}.
(* SRC shared/protocol/model_capabilities.rs:99-108 text_result *)
Definition text_result (text : string) (is_error : bool) : CapabilityResult :=
  {| cr_content := Body_Blocks [ResultContent_Text text]; cr_details := None;
     cr_is_error := if is_error then Some true else None; cr_stop_turn := None |}.
(* SRC shared/protocol/model_capabilities.rs:110-121 failure_result *)
Definition failure_result (f : FailureEnvelope) : CapabilityResult :=
  {| cr_content := Body_Blocks [ResultContent_Text (fl_message f)];
     cr_details := Some (details_with_failure f); cr_is_error := Some true; cr_stop_turn := None |}.

(** ** What survives the conversions *)

Lemma optional_keys fields key : In key (map fst (optional_fields fields)) -> In key (map fst fields).
Proof.
  induction fields as [|[k [v|]] fields IH]; simpl; [done| |]; intuition.
Qed.
Lemma optional_get fields key :
  List.NoDup (map fst fields) -> vget (jobj (optional_fields fields)) key = mjoin (obj_get fields key).
Proof.
  unfold jobj. simpl. rewrite obj_get_fold. intros Hn.
  assert (obj_get (rev (optional_fields fields)) key = mjoin (obj_get fields key)) as ->;
    [|by destruct (mjoin _)].
  induction fields as [|[k o] fields IH]; [done|]. inversion Hn as [|? ? Hk Hn']; subst. simpl in *.
  destruct o as [v|]; simpl.
  - rewrite obj_get_app, IH by done. simpl. destruct (String.eqb_spec k key) as [->|]; [|by destruct (mjoin _)].
    by rewrite (obj_get_not_in fields key Hk).
  - rewrite IH by done. destruct (String.eqb_spec k key) as [->|]; [|done].
    by rewrite (obj_get_not_in fields key Hk).
Qed.

(** The numbers are within their types, and the details are not the null value (which
    reads back as no details). *)
Record failure_ok (f : FailureEnvelope) : Prop := {
  fo_status : forall n, fl_status_code f = Some n -> 0 <= n < 65536;
  fo_retry : forall n, fl_retry_after_ms f = Some n -> 0 <= n <= u64_max;
  fo_details : fl_details f <> Some Null
}.
Lemma parse_category_str c : parse_category (category_as_str c) = Some c.
Proof. by destruct c. Qed.
Lemma parse_origin_str o : parse_origin (origin_as_str o) = Some o.
Proof. by destruct o. Qed.
Lemma read_optional_str v key (o : option string) :
  vget v key = VString <$> o -> read_optional v key as_str = Some o.
Proof. unfold read_optional. intros ->. by destruct o. Qed.
Lemma read_optional_num v key read (o : option Z) :
  vget v key = jnum <$> o -> (forall n, o = Some n -> read (jnum n) = Some n) ->
  read_optional v key read = Some o.
Proof.
  unfold read_optional. intros -> Hr. destruct o as [n|]; [|done]. simpl. unfold jnum in *.
  specialize (Hr n eq_refl). by rewrite Hr.
Qed.
Lemma as_u64_jnum n : 0 <= n -> as_u64 (jnum n) = Some n.
Proof. intros Hn. unfold jnum. destruct (Z.ltb_spec n 0); [lia|done]. Qed.
Lemma read_u16_jnum n : 0 <= n < 65536 -> read_u16 (jnum n) = Some n.
Proof.
  intros Hn. unfold read_u16. rewrite as_u64_jnum by lia. simpl. destruct (Z.ltb_spec n 65536); [done|lia].
Qed.

Lemma failure_get f key : vget (failure_to_value f) key = mjoin (obj_get (failure_fields f) key).
Proof.
  apply optional_get. simpl. repeat (constructor; [simpl; intuition discriminate|]). constructor.
Qed.
Lemma failure_value_roundtrip f : failure_ok f -> failure_of_value (failure_to_value f) = Some f.
Proof.
  intros [Hs Hr Hd]. pose proof (failure_get f) as Hget. revert Hget. generalize (failure_to_value f) as v.
  intros v Hget. unfold failure_of_value.
  rewrite (Hget "code"), (Hget "category"), (Hget "message"), (Hget "retryable"), (Hget "recoverable"),
    (Hget "origin"). cbn -[read_optional parse_category parse_origin].
  rewrite parse_category_str, parse_origin_str. cbn -[read_optional].
  rewrite (read_optional_str v "provider" (fl_provider f) (Hget _)); cbn -[read_optional].
  rewrite (read_optional_str v "model" (fl_model f) (Hget _)); cbn -[read_optional].
  rewrite (read_optional_num v "statusCode" read_u16 (fl_status_code f) (Hget _))
    by (intros n Hn; apply read_u16_jnum; auto).
  cbn -[read_optional]. rewrite (read_optional_str v "errorType" (fl_error_type f) (Hget _)); cbn -[read_optional].
  rewrite (read_optional_num v "retryAfterMs" as_u64 (fl_retry_after_ms f) (Hget _))
    by (intros n Hn; apply as_u64_jnum; apply Hr in Hn; lia).
  cbn -[read_optional]. rewrite (read_optional_str v "suggestion" (fl_suggestion f) (Hget _)).
  assert (read_optional v "details" Some = Some (fl_details f)) as Hdetails.
  { unfold read_optional. rewrite Hget. simpl. by destruct (fl_details f) as [[]|]. }
  cbn -[read_optional]. rewrite Hdetails. cbn -[read_optional].
  rewrite (read_optional_str v "traceId" (fr_trace_id (fl_references f)) (Hget _)); cbn -[read_optional].
  rewrite (read_optional_str v "invocationId" (fr_invocation_id (fl_references f)) (Hget _)); cbn -[read_optional].
  rewrite (read_optional_str v "parentInvocationId" (fr_parent_invocation_id (fl_references f)) (Hget _)); cbn -[read_optional].
  rewrite (read_optional_str v "sessionId" (fr_session_id (fl_references f)) (Hget _)); cbn -[read_optional].
  rewrite (read_optional_str v "sourceEventId" (fr_source_event_id (fl_references f)) (Hget _)).
  by destruct f as [? ? ? ? ? ? ? ? ? ? ? ? ? []].
Qed.

(** A failure that the plain variants cannot hold is kept in the details. *)
Definition plain_code (code : string) : bool :=
  one_of ["INVALID_PARAMS"; "INTERNAL_ERROR"; "NOT_AVAILABLE"; "NOT_FOUND"; "SESSION_NOT_FOUND";
          "EVENT_NOT_FOUND"; "WORKSPACE_NOT_FOUND"; "BLOB_NOT_FOUND"] code.
Lemma from_failure_custom f :
  carries_more f = true \/ plain_code (fl_code f) = false ->
  from_failure f = Cap_Custom (fl_code f) (fl_message f) (Some (details_with_failure f)).
Proof.
  unfold from_failure, plain_code, one_of. simpl. intros [->|Hc]; [done|]. destruct (carries_more f); [done|].
  repeat match type of Hc with _ || _ = false => apply orb_false_iff in Hc as [-> Hc] end. done.
Qed.
Lemma to_failure_from_failure f origin :
  failure_ok f -> carries_more f = true \/ plain_code (fl_code f) = false ->
  to_failure (from_failure f) origin = f.
Proof.
  intros Hok Hc. rewrite from_failure_custom by done. unfold to_failure, embedded_failure, details_with_failure.
  simpl. rewrite obj_get_insert_eq. simpl. by rewrite failure_value_roundtrip.
Qed.

Lemma engine_failure_ok debug e : failure_ok (engine_error_to_failure debug e).
Proof.
  destruct e; try by constructor. simpl. unfold domain_failure, capability_error_from_parts.
  constructor; try done. simpl. unfold to_failure, embedded_failure.
  repeat case_match; simplify_eq/=; try done; case_match; simplify_eq/=; done.
Qed.
(** C39: Every error of the engine keeps its whole failure envelope (code, category,
    message, retryability, origin, details) through the conversion to a capability error and
    back to the failure sent to clients. *)
Theorem engine_errors_reach_clients_intact debug e origin :
  to_failure (engine_error_to_capability_error debug e) origin = engine_error_to_failure debug e.
Proof.
  apply to_failure_from_failure; [apply engine_failure_ok|].
  destruct e; try (left; reflexivity); try (right; reflexivity).
  left. unfold carries_more. simpl. by rewrite !orb_true_r.
Qed.

(** Errors of the event store and of sign-in are carried with their failure. *)
Theorem event_store_errors_are_typed sql_text e origin :
  let failure := to_failure (map_event_store_error sql_text e) origin in
  fl_origin failure = Origin_EventStore /\
  (fl_retryable failure = true <-> exists operation attempts, e = Es_Busy operation attempts).
Proof.
  cbv zeta. destruct e; cbn [map_event_store_error];
    unfold event_store_not_found, event_store_internal_failure;
    (rewrite to_failure_from_failure; [|by constructor|by left]); (split; [done|]); cbn;
    split; intros; simplify_eq; eauto; by destruct_and?; naive_solver.
Qed.

(** A failure that is worth a retry, reported by a domain through the engine, is no
    longer marked so: the failure in the details is not looked for. *)
Theorem domain_failure_loses_the_envelope :
  let error := map_auth_error (Auth_OAuth 503 "busy") in
  fl_retryable (to_failure error Origin_Capability) = true /\
  fl_retryable (engine_error_to_failure (fun s => s) (capability_error_to_engine error)) = false /\
  fl_status_code (to_failure error Origin_Capability) = Some 503 /\
  fl_status_code (engine_error_to_failure (fun s => s) (capability_error_to_engine error)) = None.
Proof. vm_compute. split_and!; reflexivity. Qed.
