(* ===== verification/GrantPrimitive.v ===== *)
(** * The grant primitives

    [engine/primitives/grant.rs]: the functions [grant::derive], [grant::inspect],
    [grant::list] and [grant::revoke], their schemas and their handler over the grant
    store of Grants, with the helpers of [engine/primitives/mod.rs] they use.

    The handler works on the in-memory store (the SQLite one answers alike, see
    GrantSqlite).  [generated] and [uuid] are the ids it draws; the reading and
    writing of RFC 3339 texts are parameters. *)

From stdpp Require Import base gmap strings list pretty.
From Stdlib Require Import ZArith Ascii String Lia.
From S2P Require Import Prelude Json Kernel Model Schema Policy Paths Grants Ledger Catalog Meta.
Import JsonNotations.

#[local] Open Scope Z_scope.

(** ** Registrations *)

(* SRC engine/primitives/mod.rs:77-97 primitive_function *)
Definition primitive_function (id worker description : string) (effect : EffectClass)
    (authority_scope_name : string) : FunctionDefinition :=
  fn_with_risk (if is_mutating effect then Risk_Medium else Risk_Low)
    (fn_with_required_authority (authority_scope authority_scope_name)
       (function_new id worker description Vis_Agent effect)).

Definition DERIVE_FUNCTION : string := "grant::derive".
Definition INSPECT_GRANT_FUNCTION : string := "grant::inspect".
Definition LIST_GRANTS_FUNCTION : string := "grant::list".
Definition REVOKE_FUNCTION : string := "grant::revoke".

Definition object_schema (required : list string) (properties : list (string * Value)) : Value :=
  j{"type" ~> "object"; "required" ~> jstrs required; "additionalProperties" ~> VBool false;
    "properties" ~> jobj properties}.
(* SRC engine/primitives/grant.rs:258-260 string_array_schema *)
Definition string_array_schema : Value :=
  j{"type" ~> "array"; "items" ~> j{"type" ~> "string"}; "minItems" ~> jnum 1}.
(* SRC engine/primitives/grant.rs:210-244 derive_schema *)
Definition derive_schema : Value :=
  object_schema
    ["parentGrantId"; "allowedCapabilities"; "allowedNamespaces"; "allowedAuthorityScopes";
     "allowedResourceKinds"; "fileRoots"; "networkPolicy"; "maxRisk"]
    ["grantId" ~> j{"type" ~> "string"};
     "parentGrantId" ~> j{"type" ~> "string"};
     "subjectActorId" ~> j{"type" ~> "string"};
     "subjectWorkerId" ~> j{"type" ~> "string"};
     "subjectInvocationId" ~> j{"type" ~> "string"};
     "allowedCapabilities" ~> string_array_schema;
     "allowedNamespaces" ~> string_array_schema;
     "allowedAuthorityScopes" ~> string_array_schema;
     "allowedResourceKinds" ~> string_array_schema;
     "resourceSelectors" ~> string_array_schema;
     "fileRoots" ~> string_array_schema;
     "networkPolicy" ~> j{"type" ~> "string";
                          "enum" ~> jstrs ["none"; "loopback"; "declared"; "unrestricted"] };
     "maxRisk" ~> j{"type" ~> "string"; "enum" ~> jstrs ["low"; "medium"; "high"; "critical"] };
     "budget" ~> j{"type" ~> "object"};
     "expiresAt" ~> j{"type" ~> "string"};
     "canDelegate" ~> j{"type" ~> "boolean"};
     "provenance" ~> j{"type" ~> "object"}].
(* SRC engine/primitives/grant.rs:246-256 list_schema *)
Definition list_schema : Value :=
  j{"type" ~> "object"; "additionalProperties" ~> VBool false;
    "properties" ~>
      j{"parentGrantId" ~> j{"type" ~> "string"};
        "lifecycle" ~> j{"type" ~> "string"; "enum" ~> jstrs ["active"; "revoked"] };
        "limit" ~> j{"type" ~> "integer"}}}.

Definition admin (f : FunctionDefinition) : FunctionDefinition :=
  set_fn_scope Vis_Admin (fn_provenance f) f.
(** The definitions, in the order of registration; the four share the handler. *)
(* SRC engine/primitives/grant.rs:29-114! registrations *)
Definition grant_registrations : list FunctionDefinition :=
  let grant_response := object_schema ["grant"] ["grant" ~> j{"type" ~> "object"}] in
  let grant_request := object_schema ["grantId"] ["grantId" ~> j{"type" ~> "string"}] in
  [admin (fn_with_response_schema grant_response
     (fn_with_request_schema derive_schema
       (fn_with_idempotency caller_system_engine_ledger
         (primitive_function DERIVE_FUNCTION "grant" "derive a narrower authority grant"
            Effect_IdempotentWrite "grant.write"))));
   admin (fn_with_response_schema
     (object_schema ["grant"] ["grant" ~> j{"type" ~> jstrs ["object"; "null"] }])
     (fn_with_request_schema grant_request
       (primitive_function INSPECT_GRANT_FUNCTION "grant" "inspect one authority grant"
          Effect_PureRead "grant.read")));
   admin (fn_with_response_schema
     (object_schema ["grants"] ["grants" ~> j{"type" ~> "array"}])
     (fn_with_request_schema list_schema
       (primitive_function LIST_GRANTS_FUNCTION "grant" "list authority grants"
          Effect_PureRead "grant.read")));
   admin (fn_with_response_schema grant_response
     (fn_with_request_schema grant_request
       (fn_with_idempotency caller_system_engine_ledger
         (primitive_function REVOKE_FUNCTION "grant" "revoke an authority grant"
            Effect_IdempotentWrite "grant.write"))))].

(** ** Payloads *)

(* SRC engine/primitives/grant.rs:268-286 optional_string_array *)
Definition optional_string_array (payload : Value) (field : string) : Result (option (list string)) :=
  match vget payload field with
  | None => Ok None
  | Some value =>
      match as_array value with
      | None => policy_error ("field " +s field +s " must be an array")
      | Some items =>
          let? l := try_map (fun item => ok_or (as_str item)
                      (PolicyViolation ("field " +s field +s " must be a string array"))) items in
          Ok (Some l)
      end
  end.
(* SRC engine/primitives/grant.rs:262-266 string_array *)
Definition string_array (payload : Value) (field : string) : Result (list string) :=
  let? l := optional_string_array payload field in
  ok_or l (PolicyViolation ("required field " +s field +s " must be a string array")).
(** [optional_string(..)?.map(Id::new).transpose()] *)
Definition optional_id (kind : string) (value : option Value) : Result (option string) :=
  let? s := optional_string value in
  match s with Some s => let? id := engine_id_new kind s in Ok (Some id) | None => Ok None end.
(* SRC engine/primitives/grant.rs:288-292 optional_grant_id *)
Definition optional_grant_id (payload : Value) (field : string) : Result (option AuthorityGrantId) :=
  optional_id "authority_grant" (vget payload field).
(* SRC engine/primitives/grant.rs:306-314 parse_lifecycle *)
Definition parse_grant_lifecycle : string -> Result EngineGrantLifecycle :=
  parse_table "grant lifecycle" [("active", Grant_Active); ("revoked", Grant_Revoked)].
(* SRC engine/primitives/grant.rs:316-326 parse_risk *)
Definition parse_grant_risk : string -> Result RiskLevel :=
  parse_table "grant risk"
    [("low", Risk_Low); ("medium", Risk_Medium); ("high", Risk_High); ("critical", Risk_Critical)].

Section handler.
  Variable fs : FileSystem.
  Variable rfc3339 : instant -> string.
  Variable parse_rfc3339 : string -> result string instant.

(* SRC engine/primitives/grant.rs:294-304 optional_datetime *)
Definition optional_datetime (payload : Value) (field : string) : Result (option instant) :=
  let? s := optional_string (vget payload field) in
  match s with
  | None => Ok None
  | Some text =>
      match parse_rfc3339 text with
      | Ok t => Ok (Some t)
      | Err error => policy_error ("invalid " +s field +s " timestamp: " +s error)
      end
  end.

(** The request in the payload of [grant::derive]. *)
(* SRC engine/primitives/grant.rs:128-181! GrantPrimitiveHandler::invoke *)
Definition derive_request (payload : Value) (trace_id : TraceId) : Result DeriveGrant :=
  let? grant_id := optional_grant_id payload "grantId" in
  let? parent := required_str payload "parentGrantId" in
  let? parent_grant_id := engine_id_new "authority_grant" parent in
  let? subject_actor_id := optional_id "actor" (vget payload "subjectActorId") in
  let? subject_worker_id := optional_id "worker" (vget payload "subjectWorkerId") in
  let? subject_invocation_id := optional_id "invocation" (vget payload "subjectInvocationId") in
  let? allowed_capabilities := string_array payload "allowedCapabilities" in
  let? allowed_namespaces := string_array payload "allowedNamespaces" in
  let? allowed_authority_scopes := string_array payload "allowedAuthorityScopes" in
  let? allowed_resource_kinds := string_array payload "allowedResourceKinds" in
  let? resource_selectors := optional_string_array payload "resourceSelectors" in
  let? file_roots := string_array payload "fileRoots" in
  let? network_policy := required_str payload "networkPolicy" in
  let? risk := required_str payload "maxRisk" in
  let? max_risk := parse_grant_risk risk in
  let? expires_at := optional_datetime payload "expiresAt" in
  Ok {| dg_grant_id := grant_id; dg_parent_grant_id := parent_grant_id;
        dg_subject_actor_id := subject_actor_id; dg_subject_worker_id := subject_worker_id;
        dg_subject_invocation_id := subject_invocation_id;
        dg_allowed_capabilities := allowed_capabilities; dg_allowed_namespaces := allowed_namespaces;
        dg_allowed_authority_scopes := allowed_authority_scopes;
        dg_allowed_resource_kinds := allowed_resource_kinds;
        dg_resource_selectors := default ["*"] resource_selectors; dg_file_roots := file_roots;
        dg_network_policy := network_policy; dg_max_risk := max_risk;
        dg_budget := default (j{}) (vget payload "budget"); dg_expires_at := expires_at;
        dg_can_delegate := default false (vget payload "canDelegate" ≫= as_bool);
        dg_provenance := default (j{}) (vget payload "provenance"); dg_trace_id := trace_id |}.

(** The derived [Serialize] of a grant. *)
(* SRC engine/authority/grants/model.rs:44-92 EngineGrant *)
Definition grant_value (g : EngineGrant) : Value :=
  j{"grantId" ~> gr_grant_id g;
    "parentGrantId" ~> jstr (gr_parent_grant_id g);
    "subjectActorId" ~> jstr (gr_subject_actor_id g);
    "subjectWorkerId" ~> jstr (gr_subject_worker_id g);
    "subjectInvocationId" ~> jstr (gr_subject_invocation_id g);
    "lifecycle" ~> grant_lifecycle_as_str (gr_lifecycle g);
    "allowedCapabilities" ~> jstrs (gr_allowed_capabilities g);
    "allowedNamespaces" ~> jstrs (gr_allowed_namespaces g);
    "allowedAuthorityScopes" ~> jstrs (gr_allowed_authority_scopes g);
    "allowedResourceKinds" ~> jstrs (gr_allowed_resource_kinds g);
    "resourceSelectors" ~> jstrs (gr_resource_selectors g);
    "fileRoots" ~> jstrs (gr_file_roots g);
    "networkPolicy" ~> gr_network_policy g;
    "maxRisk" ~> risk_debug (gr_max_risk g);
    "budget" ~> gr_budget g;
    "expiresAt" ~> jstr (rfc3339 <$> gr_expires_at g);
    "canDelegate" ~> VBool (gr_can_delegate g);
    "provenance" ~> gr_provenance g;
    "traceId" ~> gr_trace_id g;
    "revision" ~> jnum (gr_revision g);
    "createdAt" ~> rfc3339 (gr_created_at g);
    "updatedAt" ~> rfc3339 (gr_updated_at g)}.

(** The store is unchanged by an error. *)
Definition changing (r : Result (EngineGrant * GrantStore)) (s : GrantStore) :
    Result Value * GrantStore :=
  match r with
  | Ok (g, s) => (Ok (j{"grant" ~> grant_value g}), s)
  | Err e => (Err e, s)
  end.
(* SRC engine/primitives/grant.rs:125-207 GrantPrimitiveHandler::invoke *)
Definition grant_primitive (now : instant) (generated uuid : string) (i : Invocation) (s : GrantStore) :
    Result Value * GrantStore :=
  let id := inv_function_id i in
  let payload := inv_payload i in
  let trace := cx_trace_id (inv_context i) in
  if id =s DERIVE_FUNCTION then
    changing (let? request := derive_request payload trace in
              grant_derive fs now generated uuid request s) s
  else if id =s INSPECT_GRANT_FUNCTION then
    (let? name := required_str payload "grantId" in
     let? grant_id := engine_id_new "authority_grant" name in
     let? found := grant_inspect grant_id s in
     Ok (j{"grant" ~> jopt (grant_value <$> found)}), s)
  else if id =s LIST_GRANTS_FUNCTION then
    (let? parent := optional_grant_id payload "parentGrantId" in
     let? name := optional_string (vget payload "lifecycle") in
     let? lifecycle := match name with
                       | Some v => let? l := parse_grant_lifecycle v in Ok (Some l)
                       | None => Ok None
                       end in
     let? limit := optional_u64 (vget payload "limit") in
     let? grants := grant_list {| lg_parent_grant_id := parent; lg_lifecycle := lifecycle;
                                  lg_limit := default 100 limit |} s in
     Ok (j{"grants" ~> VArray (map grant_value grants)}), s)
  else if id =s REVOKE_FUNCTION then
    changing (let? name := required_str payload "grantId" in
              let? grant_id := engine_id_new "authority_grant" name in
              grant_revoke now uuid grant_id trace s) s
  else (Err (NotFound "function" id), s).
End handler.
