(* ===== verification/CapabilityGrant.v ===== *)
(** * Grants for capability invocations

    [domains/agent/loop/capability_invocation_executor/grant.rs] and the part of its
    [mod.rs] that runs a primitive: for each call of [capability::execute] by the
    model, the executor derives a grant for exactly that operation through
    [grant::derive], and invokes the function under it.

    A chain of [else if] on the operation is a table of operation names and results,
    read in order by [first_arm]; an arm that adds nothing is an arm with an empty
    result, as no later arm has its operation.  The JSON text of values and SHA-256
    are parameters. *)

From stdpp Require Import base gmap strings list pretty sorting.
From Stdlib Require Import ZArith Ascii String Lia.
From S2P Require Import Prelude Json Kernel Model Schema Policy Leases Paths Grants Authorization PolicyHash.
From S2P Require Import Resources Ledger Catalog Invocation Compensation Meta Host Messages Failure GrantPrimitive.
Import JsonNotations.

#[local] Open Scope Z_scope.

(** ** The operation *)

(** [args.get(field).and_then(Value::as_str)], and the same when not blank. *)
Definition arg_str (args : Value) (field : string) : option string := vget args field ≫= as_str.
Definition filled_arg (args : Value) (field : string) : option string :=
  match arg_str args field with Some s => if is_blank s then None else Some s | None => None end.
Definition option_list {A} (o : option A) : list A := match o with Some a => [a] | None => [] end.

(* SRC domains/agent/loop/capability_invocation_executor/grant.rs:34-37! derive_capability_runtime_grant *)
Definition operation_of (args : Value) : string := default "" (arg_str args "operation").
(* SRC domains/agent/loop/capability_invocation_executor/grant.rs:38-38! derive_capability_runtime_grant *)
Definition module_registry_read_operation (op : string) : bool :=
  list_has ["module_list"; "module_inspect"] op.
(* SRC domains/agent/loop/capability_invocation_executor/grant.rs:39-42! derive_capability_runtime_grant *)
Definition module_authoring_operation (op : string) : bool :=
  list_has ["module_proposal_record"; "module_proposal_list"; "module_proposal_inspect"] op.
(* SRC domains/agent/loop/capability_invocation_executor/grant.rs:43-46! derive_capability_runtime_grant *)
Definition module_validation_operation (op : string) : bool :=
  list_has ["module_validation_record"; "module_validation_list"; "module_validation_inspect"] op.
(* SRC domains/agent/loop/capability_invocation_executor/grant.rs:47-55! derive_capability_runtime_grant *)
Definition module_install_operation (op : string) : bool :=
  list_has ["module_install_request_record"; "module_install_request_list";
            "module_install_request_inspect"; "module_install_decision_record";
            "module_install_decision_list"; "module_install_decision_inspect"] op.
(* SRC domains/agent/loop/capability_invocation_executor/grant.rs:56-67! derive_capability_runtime_grant *)
Definition module_dependencies_operation (op : string) : bool :=
  list_has ["module_dependency_request_record"; "module_dependency_request_list";
            "module_dependency_request_inspect"; "module_dependency_decision_record";
            "module_dependency_decision_list"; "module_dependency_decision_inspect";
            "module_dependency_policy_activate"; "module_dependency_policy_list";
            "module_dependency_policy_inspect"] op.
(* SRC domains/agent/loop/capability_invocation_executor/grant.rs:68-79! derive_capability_runtime_grant *)
Definition web_research_operation (op : string) : bool :=
  list_has ["web_research_request_record"; "web_research_request_list";
            "web_research_request_inspect"; "web_research_review_record";
            "web_research_review_list"; "web_research_review_inspect";
            "web_research_source_record"; "web_research_source_list";
            "web_research_source_inspect"] op.
(* SRC domains/agent/loop/capability_invocation_executor/grant.rs:80-86! derive_capability_runtime_grant *)
Definition module_lifecycle_operation (op : string) : bool :=
  list_has ["module_lifecycle_request"; "module_lifecycle_decision"; "module_lifecycle_list";
            "module_lifecycle_inspect"] op.
(* SRC domains/agent/loop/capability_invocation_executor/grant.rs:87-93! derive_capability_runtime_grant *)
Definition module_runtime_operation (op : string) : bool :=
  list_has ["module_runtime_request"; "module_runtime_list"; "module_runtime_inspect";
            "module_runtime_cancel"] op.
(* SRC domains/agent/loop/capability_invocation_executor/grant.rs:94-101! derive_capability_runtime_grant *)
Definition context_control_operation (op : string) : bool :=
  list_has ["context_control_snapshot"; "context_control_compact"; "context_control_clear";
            "context_control_action_list"; "context_control_action_inspect"] op.
(* SRC domains/agent/loop/capability_invocation_executor/grant.rs:102-108! derive_capability_runtime_grant *)
Definition module_program_execution_operation (op : string) : bool :=
  list_has ["module_program_execution_start"; "module_program_execution_status";
            "module_program_execution_cancel"; "module_program_execution_cleanup"] op.
(* SRC domains/agent/loop/capability_invocation_executor/grant.rs:111-114! derive_capability_runtime_grant *)
Definition delegated_subagent_operation (op : string) : bool :=
  list_has ["subagent_launch"; "subagent_status"; "subagent_result"; "subagent_cancel"] op.
(* SRC domains/agent/loop/capability_invocation_executor/grant.rs:1060-1080 is_file_git_module_operation *)
Definition file_git_module_operation (op : string) : bool :=
  list_has ["filesystem_read"; "filesystem_list"; "filesystem_find"; "filesystem_glob";
            "filesystem_search_text"; "filesystem_diff"; "filesystem_write"; "filesystem_edit";
            "filesystem_apply_patch"; "git_status"; "git_diff"; "git_branch_inventory";
            "git_stage"; "git_unstage"; "git_commit"; "git_branch_start"] op.
(* SRC domains/agent/loop/capability_invocation_executor/grant.rs:1082-1093 is_memory_module_operation *)
Definition memory_module_operation (op : string) : bool :=
  list_has ["memory_status"; "memory_list"; "memory_inspect"; "memory_query_list";
            "memory_query_inspect"; "memory_decision_list"; "memory_decision_inspect"] op.
Definition PROCEDURAL_OPERATIONS : list string :=
  ["procedural_definition_record"; "procedural_state_list"; "procedural_state_inspect";
   "procedural_activation_request_record"; "procedural_activation_request_list";
   "procedural_activation_request_inspect"; "procedural_activation_decision_record";
   "procedural_activation_decision_list"; "procedural_activation_decision_inspect"].
(* SRC domains/agent/loop/capability_invocation_executor/grant.rs:1433-1446 is_procedural_module_operation *)
Definition procedural_module_operation (op : string) : bool := list_has PROCEDURAL_OPERATIONS op.
(** The operations that get neither the state functions nor their kind. *)
(* SRC domains/agent/loop/capability_invocation_executor/grant.rs:124-138! derive_capability_runtime_grant *)
Definition narrow_operation (op : string) : bool :=
  existsb (fun test => test op)
    [module_registry_read_operation; module_authoring_operation; module_validation_operation;
     module_install_operation; module_dependencies_operation; web_research_operation;
     module_lifecycle_operation; module_runtime_operation; context_control_operation;
     module_program_execution_operation; procedural_module_operation; memory_module_operation;
     delegated_subagent_operation; file_git_module_operation].

(* SRC domains/agent/loop/capability_invocation_executor/grant.rs:1053-1058 has_non_empty_string *)
Definition has_non_empty_string (value : Value) (field : string) : bool :=
  match arg_str value field with Some item => negb (is_blank item) | None => false end.
(* SRC domains/agent/loop/capability_invocation_executor/grant.rs:116-120! derive_capability_runtime_grant *)
Definition notification_push_requested (op : string) (args : Value) : bool :=
  (op =s "notification_send") && default false (vget args "pushRequested" ≫= as_bool).
(* SRC domains/agent/loop/capability_invocation_executor/grant.rs:121-123! derive_capability_runtime_grant *)
Definition web_fetch_uses_robots (op : string) (args : Value) : bool :=
  (op =s "web_fetch") && has_non_empty_string args "webRobotsPolicyResourceId"
  && has_non_empty_string args "expectedWebRobotsPolicyVersionId".

(* SRC domains/agent/loop/capability_invocation_executor/grant.rs:1474-1482 procedural_kind *)
Definition args_procedural_kind (args : Value) : option string :=
  match arg_str args "proceduralKind" with
  | Some kind => if list_has ["skill"; "rule"; "hook"; "procedure"] kind then Some kind else None
  | None => None
  end.
(* SRC domains/agent/loop/capability_invocation_executor/grant.rs:1484-1497 worker_package_list_kind *)
Definition args_worker_package_list_kind (args : Value) : option string :=
  let kind := default "worker_package" (arg_str args "workerPackageKind") in
  if list_has ["worker_package"; "worker_package_installation"; "worker_package_proposal";
               "worker_package_conformance_report"; "worker_launch_attempt"] kind
  then Some kind else None.
(* SRC domains/agent/loop/capability_invocation_executor/grant.rs:1499-1516 worker_package_inspect_kind *)
Definition args_worker_package_inspect_kind (args : Value) : option string :=
  match arg_str args "workerPackageResourceId" with
  | None => None
  | Some resource_id =>
      if starts_with resource_id "worker_package_installation:" then Some "worker_package_installation"
      else if starts_with resource_id "worker_package_proposal:" then Some "worker_package_proposal"
      else if starts_with resource_id "worker_package_conformance_report:"
      then Some "worker_package_conformance_report"
      else if starts_with resource_id "worker_launch_attempt:" then Some "worker_launch_attempt"
      else if starts_with resource_id "worker_package:" then Some "worker_package"
      else None
  end.

(** ** What the grant allows *)

(** [list.sort(); list.dedup()] *)
Fixpoint dedup (l : list string) : list string :=
  match l with
  | x :: ((y :: _) as rest) => if x =s y then dedup rest else x :: dedup rest
  | _ => l
  end.
Definition sort_dedup (l : list string) : list string := dedup (sorted_strings l).

(* SRC domains/agent/loop/capability_invocation_executor/grant.rs:124-149! derive_capability_runtime_grant *)
Definition allowed_capabilities (op : string) (target : FunctionId) : list string :=
  sort_dedup (if narrow_operation op then [target]
              else [target; "state::get"; "state::set"; "state::list"]).

(* SRC domains/agent/loop/capability_invocation_executor/grant.rs:168-292! derive_capability_runtime_grant *)
Definition scope_arms_artifacts (op : string) (args : Value) : list (list string * list string) :=
  [(["goal_create"; "goal_cancel"; "question_create"; "question_answer"],
      ["goals.write"; "resource.write"]
      ++ if list_has ["goal_cancel"; "question_create"; "question_answer"] op
         then ["goals.read"; "resource.read"] else []);
   (["goal_list"; "goal_inspect"; "question_list"; "question_inspect"],
      ["goals.read"; "resource.read"]);
   (["web_fetch"],
      ["resource.write"; "web.write"]
      ++ if web_fetch_uses_robots op args then ["resource.read"; "web.read"] else []);
   (["web_robots_check"], ["resource.read"; "resource.write"; "web.write"]);
   (["web_source_list"; "web_source_inspect"], ["resource.read"; "web.read"]);
   (["web_source_archive"], ["resource.read"; "resource.write"; "web.read"; "web.write"]);
   (["media_list"; "media_inspect"], ["media.read"; "resource.read"]);
   (["media_create"; "media_archive"],
      ["media.read"; "media.write"; "resource.read"; "resource.write"]);
   (["import_history_list"; "import_history_inspect"], ["import_history.read"; "resource.read"]);
   (["import_history_record"],
      ["import_history.read"; "import_history.write"; "resource.read"; "resource.write"]);
   (["repository_tree_list"; "repository_tree_inspect"],
      ["repository_tree.read"; "resource.read"]);
   (["repository_tree_snapshot"],
      ["repository_tree.read"; "repository_tree.write"; "resource.read"; "resource.write"]);
   (["import_preview_list"; "import_preview_inspect"], ["import_preview.read"; "resource.read"]);
   (["import_preview_record"],
      ["import_preview.read"; "import_preview.write"; "resource.read"; "resource.write"]);
   (["program_execution_list"; "program_execution_inspect"],
      ["program_execution.read"; "resource.read"]);
   (["program_execution_record"],
      ["program_execution.read"; "program_execution.write"; "resource.read"; "resource.write"]);
   (["prompt_artifact_list"; "prompt_artifact_inspect"],
      ["prompt_artifacts.read"; "resource.read"]);
   (["prompt_artifact_record"],
      ["prompt_artifacts.read"; "prompt_artifacts.write"; "resource.read"; "resource.write"]);
   (["update_diagnostic_list"; "update_diagnostic_inspect"],
      ["update_diagnostics.read"; "resource.read"]);
   (["update_diagnostic_record"],
      ["update_diagnostics.read"; "update_diagnostics.write"; "resource.read"; "resource.write"])].
(* SRC domains/agent/loop/capability_invocation_executor/grant.rs:293-439! derive_capability_runtime_grant *)
Definition scope_arms_modules : list (list string * list string) :=
  [(["memory_status"; "memory_list"; "memory_inspect"; "memory_query_list";
      "memory_query_inspect"; "memory_decision_list"; "memory_decision_inspect"],
      ["memory.read"; "resource.read"]);
   (["worker_package_list"; "worker_package_inspect"],
      ["worker.lifecycle.read"; "resource.read"]);
   (["module_list"; "module_inspect"], ["module_registry.read"; "resource.read"]);
   (["module_proposal_list"; "module_proposal_inspect"],
      ["module_authoring.read"; "resource.read"]);
   (["module_proposal_record"],
      ["module_authoring.read"; "module_authoring.write"; "resource.read"; "resource.write"]);
   (["module_validation_list"; "module_validation_inspect"],
      ["module_validation.read"; "resource.read"]);
   (["module_validation_record"],
      ["module_validation.read"; "module_validation.write"; "resource.read"; "resource.write"]);
   (["module_install_request_list"; "module_install_request_inspect";
      "module_install_decision_list"; "module_install_decision_inspect"],
      ["module_install.read"; "resource.read"]);
   (["module_install_request_record"; "module_install_decision_record"],
      ["module_install.read"; "module_install.write"; "resource.read"; "resource.write"]);
   (["module_dependency_request_list"; "module_dependency_request_inspect";
      "module_dependency_decision_list"; "module_dependency_decision_inspect";
      "module_dependency_policy_list"; "module_dependency_policy_inspect"],
      ["module_dependencies.read"; "resource.read"]);
   (["module_dependency_request_record"; "module_dependency_decision_record";
      "module_dependency_policy_activate"],
      ["module_dependencies.read"; "module_dependencies.write"; "resource.read"; "resource.write"]);
   (["web_research_request_list"; "web_research_request_inspect"; "web_research_review_list";
      "web_research_review_inspect"; "web_research_source_list"; "web_research_source_inspect"],
      ["web_research.read"; "resource.read"]);
   (["web_research_request_record"; "web_research_review_record"; "web_research_source_record"],
      ["web_research.read"; "web_research.write"; "resource.read"; "resource.write"]);
   (["module_lifecycle_list"; "module_lifecycle_inspect"],
      ["module_lifecycle.read"; "resource.read"]);
   (["module_lifecycle_request"; "module_lifecycle_decision"],
      ["module_lifecycle.read"; "module_lifecycle.write"; "resource.read"; "resource.write"]);
   (["module_runtime_list"; "module_runtime_inspect"], ["module_runtime.read"; "resource.read"]);
   (["module_runtime_request"; "module_runtime_cancel"],
      ["module_runtime.read"; "module_runtime.write"; "resource.read"; "resource.write"])].
(* SRC domains/agent/loop/capability_invocation_executor/grant.rs:440-555! derive_capability_runtime_grant *)
Definition scope_arms_work : list (list string * list string) :=
  [(["context_control_action_list"; "context_control_action_inspect"],
      ["context_control.read"; "resource.read"]);
   (["context_control_snapshot"; "context_control_compact"; "context_control_clear"],
      ["context_control.read"; "context_control.write"; "resource.read"; "resource.write"]);
   (["module_program_execution_start"],
      ["module_runtime.read"; "module_runtime.write"; "program_execution.read";
       "program_execution.write"; "jobs.read"; "jobs.write"; "resource.read"; "resource.write"]);
   (["module_program_execution_status"],
      ["module_runtime.read"; "program_execution.read"; "jobs.read"; "resource.read"]);
   (["module_program_execution_cancel"; "module_program_execution_cleanup"],
      ["module_runtime.read"; "module_runtime.write"; "program_execution.read"; "jobs.read";
       "jobs.write"; "resource.read"; "resource.write"]);
   (["job_start"], ["jobs.write"; "resource.write"]);
   (["job_status"; "job_list"; "job_log"], ["jobs.read"; "resource.read"]);
   (["job_cancel"], ["jobs.read"; "jobs.write"; "resource.read"; "resource.write"]);
   (["filesystem_read"; "filesystem_list"; "filesystem_find"; "filesystem_glob";
      "filesystem_search_text"; "filesystem_diff"],
      ["filesystem.read"; "resource.read"]);
   (["filesystem_write"; "filesystem_edit"; "filesystem_apply_patch"],
      ["filesystem.read"; "filesystem.write"; "resource.read"; "resource.write"]);
   (["git_status"; "git_diff"; "git_branch_inventory"], ["git.read"; "resource.read"]);
   (["git_stage"; "git_unstage"; "git_commit"; "git_branch_start"],
      ["git.read"; "git.write"; "resource.write"]);
   (["procedural_state_list"; "procedural_state_inspect"; "procedural_activation_request_list";
      "procedural_activation_request_inspect"; "procedural_activation_decision_list";
      "procedural_activation_decision_inspect"],
      ["procedural.read"; "resource.read"]);
   (["procedural_definition_record"; "procedural_activation_request_record";
      "procedural_activation_decision_record"],
      ["procedural.read"; "procedural.write"; "resource.read"; "resource.write"])].
(* SRC domains/agent/loop/capability_invocation_executor/grant.rs:556-586! derive_capability_runtime_grant *)
Definition scope_arms_agents (op : string) (args : Value) : list (list string * list string) :=
  [(["subagent_status"; "subagent_result"; "subagent_task_list"; "subagent_task_inspect"],
      ["subagents.read"; "resource.read"]);
   (["subagent_launch"; "subagent_cancel"],
      ["subagents.read"; "subagents.write"; "resource.read"; "resource.write"]);
   (["device_list"; "device_inspect"], ["device.read"; "resource.read"]);
   (["notification_list"; "notification_inspect"], ["notifications.read"; "resource.read"]);
   (["notification_send"; "notification_mark_read"; "notification_mark_all_read"],
      ["notifications.read"; "notifications.write"; "resource.read"; "resource.write"]
      ++ if notification_push_requested op args then ["device.read"] else [])].
(* SRC domains/agent/loop/capability_invocation_executor/grant.rs:1095-1111 delegated_subagent_module_scopes *)
Definition delegated_subagent_module_scopes (op : string) : list string :=
  ["module_runtime.read"; "program_execution.read"; "jobs.read"]
  ++ if op =s "subagent_launch" then ["module_runtime.write"; "program_execution.write"; "jobs.write"]
     else if op =s "subagent_cancel" then ["module_runtime.write"; "jobs.write"]
     else [].
Definition operation_scopes (op : string) (args : Value) : list string :=
  first_arm (Some op) (scope_arms_artifacts op args ++ scope_arms_modules ++ scope_arms_work
                       ++ scope_arms_agents op args).
(* SRC domains/agent/loop/capability_invocation_executor/grant.rs:150-167! derive_capability_runtime_grant *)
Definition allowed_authority_scopes (op : string) (args : Value) (target_scopes : list string) :
    list string :=
  sort_dedup
    (target_scopes
     ++ (if narrow_operation op then [] else ["state.read"; "state.write"])
     ++ operation_scopes op args
     ++ (if delegated_subagent_operation op then delegated_subagent_module_scopes op else [])).

(* SRC domains/agent/loop/capability_invocation_executor/grant.rs:592-596! derive_capability_runtime_grant *)
Definition network_policy_of (op : string) : string :=
  if list_has ["web_fetch"; "web_robots_check"] op then "declared" else "none".

(* SRC domains/agent/loop/capability_invocation_executor/grant.rs:1113-1124 delegated_subagent_module_resource_kinds *)
Definition delegated_subagent_module_resource_kinds (op : string) : list string :=
  ["module_runtime_state"; "program_execution_record"; "job_process"; "execution_output"]
  ++ if op =s "subagent_launch" then ["module_lifecycle_state"] else [].
(* SRC domains/agent/loop/capability_invocation_executor/grant.rs:1448-1472 procedural_resource_kinds *)
Definition procedural_resource_kinds (op : string) : list string :=
  first_arm (Some op)
    [(["procedural_definition_record"; "procedural_state_list"; "procedural_state_inspect"],
      ["procedural_record"]);
     (["procedural_activation_request_record"; "procedural_activation_request_list";
       "procedural_activation_request_inspect"],
      ["procedural_record"; "procedural_activation_request"]);
     (["procedural_activation_decision_record"; "procedural_activation_decision_list";
       "procedural_activation_decision_inspect"],
      ["procedural_record"; "procedural_activation_request"; "procedural_activation_decision"])].

(* SRC domains/agent/loop/capability_invocation_executor/grant.rs:616-693! derive_capability_runtime_grant *)
Definition kind_arms_artifacts (op : string) (args : Value) : list (list string * list string) :=
  [(["goal_create"; "goal_list"; "goal_inspect"; "goal_cancel"], ["goal"]);
   (["question_create"],
      (if is_some (vget args "goalResourceId") then ["goal"] else []) ++ ["user_question"]);
   (["question_list"; "question_inspect"], ["user_question"]);
   (["question_answer"], ["user_question"; "goal_answer"]);
   (["web_robots_check"], ["web_robots_policy"]);
   (["web_fetch"; "web_source_list"; "web_source_inspect"; "web_source_archive"],
      ["web_source"] ++ if web_fetch_uses_robots op args then ["web_robots_policy"] else []);
   (["media_create"; "media_list"; "media_inspect"; "media_archive"], ["media_artifact"]);
   (["import_history_record"; "import_history_list"; "import_history_inspect"],
      ["import_history_record"]);
   (["repository_tree_snapshot"; "repository_tree_list"; "repository_tree_inspect"],
      ["repository_tree_snapshot"]);
   (["import_preview_record"; "import_preview_list"; "import_preview_inspect"],
      ["import_preview"]);
   (["program_execution_record"; "program_execution_list"; "program_execution_inspect"],
      ["program_execution_record"]);
   (["prompt_artifact_record"; "prompt_artifact_list"; "prompt_artifact_inspect"],
      ["prompt_artifact"]);
   (["update_diagnostic_record"; "update_diagnostic_list"; "update_diagnostic_inspect"],
      ["update_diagnostic_record"]);
   (["memory_status"], ["memory_policy"; "memory_engine"]);
   (["memory_list"; "memory_inspect"], ["memory_record"]);
   (["memory_query_list"; "memory_query_inspect"], ["memory_query"]);
   (["memory_decision_list"; "memory_decision_inspect"], ["memory_decision"]);
   (["worker_package_list"], option_list (args_worker_package_list_kind args));
   (["worker_package_inspect"], option_list (args_worker_package_inspect_kind args))].
(* SRC domains/agent/loop/capability_invocation_executor/grant.rs:694-797! derive_capability_runtime_grant *)
Definition kind_arms_modules (op : string) : list (list string * list string) :=
  [(["module_list"; "module_inspect"], ["module_manifest"]);
   (["module_proposal_record"; "module_proposal_list"; "module_proposal_inspect"],
      ["module_proposal"]);
   (["module_validation_record"; "module_validation_list"; "module_validation_inspect"],
      ["module_validation_report"]);
   (["module_install_request_record"; "module_install_request_list";
      "module_install_request_inspect"; "module_install_decision_record";
      "module_install_decision_list"; "module_install_decision_inspect"],
      ["module_install_request"; "module_install_decision"]);
   (["module_dependency_request_record"; "module_dependency_request_list";
      "module_dependency_request_inspect"; "module_dependency_decision_record";
      "module_dependency_decision_list"; "module_dependency_decision_inspect";
      "module_dependency_policy_activate"; "module_dependency_policy_list";
      "module_dependency_policy_inspect"],
      ["module_dependency_request"; "module_dependency_decision"; "module_dependency_policy"]);
   (["web_research_request_record"; "web_research_request_list"; "web_research_request_inspect";
      "web_research_review_record"; "web_research_review_list"; "web_research_review_inspect";
      "web_research_source_record"; "web_research_source_list"; "web_research_source_inspect"],
      ["web_research_request"; "web_research_review"; "web_research_source"]);
   (["module_lifecycle_request"; "module_lifecycle_decision"; "module_lifecycle_list";
      "module_lifecycle_inspect"],
      ["module_lifecycle_state"]);
   (["module_runtime_request"; "module_runtime_list"; "module_runtime_inspect";
      "module_runtime_cancel"],
      ["module_runtime_state"]
      ++ if op =s "module_runtime_request" then ["module_lifecycle_state"] else []);
   (["context_control_snapshot"; "context_control_compact"; "context_control_clear";
      "context_control_action_list"; "context_control_action_inspect"],
      ["context_control_snapshot"; "context_control_action"; "context_control_epoch"]);
   (["module_program_execution_start"],
      ["module_runtime_state"; "module_lifecycle_state"; "program_execution_record";
       "job_process"; "execution_output"]);
   (["module_program_execution_status"; "module_program_execution_cancel";
      "module_program_execution_cleanup"],
      ["module_runtime_state"; "program_execution_record"; "job_process"; "execution_output"])].
(* SRC domains/agent/loop/capability_invocation_executor/grant.rs:798-870! derive_capability_runtime_grant *)
Definition kind_arms_work (op : string) (args : Value) : list (list string * list string) :=
  [(["job_start"; "job_status"; "job_list"; "job_log"; "job_cancel"],
      ["job_process"; "execution_output"]);
   (["filesystem_read"; "filesystem_list"; "filesystem_find"; "filesystem_glob";
      "filesystem_search_text"; "filesystem_diff"],
      ["materialized_file"]);
   (["filesystem_write"; "filesystem_edit"; "filesystem_apply_patch"],
      ["patch_proposal"; "materialized_file"]);
   (["git_status"; "git_diff"; "git_branch_inventory"],
      ["git_index_change"; "git_commit"; "git_branch_start"]);
   (["git_stage"; "git_unstage"], ["git_index_change"]);
   (["git_commit"], ["git_commit"]);
   (["git_branch_start"], ["git_branch_start"]);
   (["subagent_launch"; "subagent_status"; "subagent_result"; "subagent_cancel";
      "subagent_task_list"; "subagent_task_inspect"],
      ["subagent_task"]
      ++ if delegated_subagent_operation op then delegated_subagent_module_resource_kinds op else []);
   (PROCEDURAL_OPERATIONS,
      if is_some (args_procedural_kind args) then procedural_resource_kinds op else []);
   (["device_list"; "device_inspect"], ["device_registration"]);
   (["notification_list"], ["notification"]);
   (["notification_inspect"], ["notification"; "notification_delivery"]);
   (["notification_send"; "notification_mark_read"; "notification_mark_all_read"],
      ["notification"; "notification_delivery"]
      ++ if notification_push_requested op args then ["device_registration"] else [])].
(* SRC domains/agent/loop/capability_invocation_executor/grant.rs:597-615! derive_capability_runtime_grant *)
Definition allowed_resource_kinds (op : string) (args : Value) : list string :=
  (if narrow_operation op then [] else ["agent_state"])
  ++ first_arm (Some op) (kind_arms_artifacts op args ++ kind_arms_modules op ++ kind_arms_work op args).

(** ** What it selects *)

(* SRC domains/agent/loop/capability_invocation_executor/grant.rs:1302-1431 exact_resource_selector_fields *)
Definition exact_resource_selector_fields : list (list string * string) :=
  [(["goal_inspect"; "goal_cancel"; "question_create"], "goalResourceId");
   (["question_inspect"; "question_answer"], "questionResourceId");
   (["media_inspect"; "media_archive"], "mediaResourceId");
   (["import_history_inspect"], "importHistoryResourceId");
   (["repository_tree_inspect"], "repositoryTreeResourceId");
   (["import_preview_inspect"], "importPreviewResourceId");
   (["program_execution_inspect"], "programExecutionResourceId");
   (["prompt_artifact_inspect"], "promptArtifactResourceId");
   (["update_diagnostic_inspect"], "updateDiagnosticResourceId");
   (["memory_inspect"], "recordResourceId");
   (["memory_query_inspect"], "queryResourceId");
   (["memory_decision_inspect"], "decisionResourceId");
   (["context_control_action_inspect"], "contextControlActionResourceId");
   (["module_inspect"], "moduleManifestResourceId");
   (["module_proposal_inspect"], "moduleProposalResourceId");
   (["module_validation_inspect"], "moduleValidationReportResourceId");
   (["module_install_request_record"], "moduleValidationReportResourceId");
   (["module_install_request_inspect"; "module_install_decision_record"],
    "moduleInstallRequestResourceId");
   (["module_install_decision_inspect"], "moduleInstallDecisionResourceId");
   (["module_dependency_request_inspect"; "module_dependency_decision_record"],
    "moduleDependencyRequestResourceId");
   (["module_dependency_decision_inspect"; "module_dependency_policy_activate"],
    "moduleDependencyDecisionResourceId");
   (["module_dependency_policy_inspect"], "moduleDependencyPolicyResourceId");
   (["web_research_request_inspect"; "web_research_review_record"; "web_research_source_record"],
    "webResearchRequestResourceId");
   (["web_research_review_inspect"; "web_research_source_record"], "webResearchReviewResourceId");
   (["web_research_source_inspect"], "webResearchSourceResourceId");
   (["module_lifecycle_decision"; "module_lifecycle_inspect"], "moduleLifecycleResourceId");
   (["module_lifecycle_request"], "moduleInstallDecisionResourceId");
   (["module_runtime_request"], "moduleLifecycleResourceId");
   (["module_program_execution_start"], "moduleLifecycleResourceId");
   (["module_runtime_inspect"; "module_runtime_cancel"], "moduleRuntimeResourceId");
   (["module_program_execution_status"; "module_program_execution_cancel";
     "module_program_execution_cleanup"], "moduleRuntimeResourceId");
   (["module_program_execution_status"; "module_program_execution_cancel";
     "module_program_execution_cleanup"], "jobResourceId");
   (["procedural_state_inspect"], "proceduralRecordResourceId");
   (["procedural_activation_request_record"], "proceduralRecordResourceId");
   (["procedural_activation_request_inspect"; "procedural_activation_decision_record"],
    "proceduralActivationRequestResourceId");
   (["procedural_activation_decision_inspect"], "proceduralActivationDecisionResourceId")].
(** The selectors pushed for a field. *)
(* SRC domains/agent/loop/capability_invocation_executor/grant.rs:1126-1134 push_resource_selector_arg *)
Definition resource_selector_arg (args : Value) (field : string) : list string :=
  option_list ((fun id => "resource:" +s id) <$> filled_arg args field).

(** A call of a primitive by the model. *)
(* SRC domains/agent/loop/capability_invocation_executor/grant.rs:18-33! derive_capability_runtime_grant *)
Record CapabilityCall := {
  ca_actor_id : ActorId;
  ca_target : FunctionId;
  ca_target_scopes : list string;
  ca_session_id : string;
  ca_workspace_id : option string;
  ca_working_directory : string;
  ca_invocation_id : string;
  ca_model_primitive_name : string;
  ca_turn : Z;
  ca_run_id : option string;
  ca_args : Value
}.
Definition ca_operation (c : CapabilityCall) : string := operation_of (ca_args c).

(* SRC engine/invocation/model.rs:24-34! RUNTIME_METADATA_PROVIDER_INVOCATION_ID *)
Definition RUNTIME_METADATA_PROVIDER_INVOCATION_ID : string := "agent.providerInvocationId".
Definition RUNTIME_METADATA_PROVIDER_TYPE : string := "agent.providerType".
Definition RUNTIME_METADATA_RUN_ID : string := "agent.runId".
Definition RUNTIME_METADATA_MODEL_PRIMITIVE_NAME : string := "agent.modelPrimitiveName".
Definition RUNTIME_METADATA_TURN : string := "agent.turn".

Section executor.
  Variable debug : string -> string.
  Variable sha256_hex : string -> string.
  Variable json_text : Value -> string.

(** [serde_json::to_string] of a value does not fail. *)
(* SRC domains/agent/loop/capability_invocation_executor/grant.rs:1518-1544 stable_capability_invocation_material *)
Definition stable_capability_invocation_material (c : CapabilityCall) : string :=
  json_text
    (j{"runId" ~> jstr (ca_run_id c);
       "sessionId" ~> ca_session_id c;
       "turn" ~> jnum (ca_turn c);
       "providerCallId" ~> ca_invocation_id c;
       "modelPrimitiveName" ~> ca_model_primitive_name c;
       "workingDirectory" ~> ca_working_directory c;
       "workspaceId" ~> jstr (ca_workspace_id c);
       "arguments" ~> ca_args c}).
(* SRC domains/agent/loop/capability_invocation_executor/grant.rs:1546-1571 model_capability_invocation_idempotency_key *)
Definition model_capability_invocation_idempotency_key (c : CapabilityCall) : string :=
  "model-capability-invocation:v1:" +s sha256_hex (stable_capability_invocation_material c).

(* SRC domains/agent/loop/capability_invocation_executor/grant.rs:1267-1275 module_lifecycle_state_resource_id *)
Definition module_lifecycle_state_resource_id (session_id decision_id : string) : string :=
  "module_lifecycle_state:" +s sha256_hex ("session:" +s session_id +s ":" +s decision_id).
(* SRC domains/agent/loop/capability_invocation_executor/grant.rs:1277-1288 module_runtime_state_resource_id *)
Definition module_runtime_state_resource_id (session_id lifecycle_id request_id : string) : string :=
  "module_runtime_state:"
  +s sha256_hex ("session:" +s session_id +s ":" +s lifecycle_id +s ":" +s request_id).
(* SRC domains/agent/loop/capability_invocation_executor/grant.rs:1290-1300 subagent_task_resource_id *)
Definition session_subagent_task_resource_id (session_id task_id idempotency_key : string) : string :=
  "subagent_task:"
  +s sha256_hex ("session" +s ":" +s session_id +s ":" +s task_id +s ":" +s idempotency_key).

(** Each [push_..] function is the list of selectors it pushes. *)
(* SRC domains/agent/loop/capability_invocation_executor/grant.rs:1222-1237 push_module_lifecycle_request_selector *)
Definition module_lifecycle_request_selector (session_id : string) (args : Value) : list string :=
  option_list ((fun id => "resource:" +s module_lifecycle_state_resource_id session_id id)
               <$> filled_arg args "moduleInstallDecisionResourceId").
(* SRC domains/agent/loop/capability_invocation_executor/grant.rs:1239-1265 push_module_runtime_request_selector *)
Definition module_runtime_request_selector (session_id : string) (args : Value) : list string :=
  option_list
    ((fun lifecycle_id => "resource:" +s module_runtime_state_resource_id session_id lifecycle_id
        (match filled_arg args "runtimeRequestId" with
         | Some request_id => request_id
         | None => default "runtime" (arg_str args "idempotencyKey")
         end)) <$> filled_arg args "moduleLifecycleResourceId").
(* SRC domains/agent/loop/capability_invocation_executor/grant.rs:1136-1167 push_subagent_launch_selector *)
Definition subagent_launch_selector (c : CapabilityCall) : list string :=
  let task_id := default (ca_invocation_id c) (filled_arg (ca_args c) "taskId") in
  ["resource:" +s session_subagent_task_resource_id (ca_session_id c) task_id
     (model_capability_invocation_idempotency_key c)].

(** The payload of the current version, or of the last. *)
Definition current_payload (i : EngineResourceInspection) : option Value :=
  let is_current v := match res_current_version_id (ri_resource i) with
                      | Some current => current =s ver_id v
                      | None => false
                      end in
  match List.find is_current (ri_versions i) with
  | Some v => Some (ver_payload v)
  | None => ver_payload <$> last (ri_versions i)
  end.
(* SRC domains/agent/loop/capability_invocation_executor/grant.rs:1169-1220 push_delegated_subagent_followup_selectors *)
Definition delegated_subagent_followup_selectors (resources : ResourceMemory) (args : Value) :
    Result (list string) :=
  match filled_arg args "subagentTaskResourceId" with
  | None => Ok []
  | Some resource_id =>
      let? inspection := memory_inspect debug resource_id resources in
      match inspection with
      | None => Ok []
      | Some inspection =>
          if negb (res_kind (ri_resource inspection) =s "subagent_task") then Ok []
          else match current_payload inspection with
               | None => Ok []
               | Some payload =>
                   Ok (omap (fun p =>
                         match pointer payload p ≫= as_str with
                         | Some id => if is_blank id then None else Some ("resource:" +s id)
                         | None => None
                         end)
                       ["/delegation/moduleRuntimeResourceId"; "/delegation/jobResourceId";
                        "/delegation/programExecutionResourceId"])
               end
      end
  end.

Definition exact_selectors (op : string) (args : Value) : list string :=
  List.concat (map (fun '(operations, field) =>
                 if list_has operations op then resource_selector_arg args field else [])
            exact_resource_selector_fields).
Definition subagent_followup_operation (op : string) : bool :=
  list_has ["subagent_status"; "subagent_result"; "subagent_cancel"] op.
(* SRC domains/agent/loop/capability_invocation_executor/grant.rs:871-940! derive_capability_runtime_grant *)
Definition selector_list (c : CapabilityCall) (followups : list string) : list string :=
  let op := ca_operation c in
  let args := ca_args c in
  let session_id := ca_session_id c in
  map (fun kind => "kind:" +s kind) (allowed_resource_kinds op args)
  ++ (if context_control_operation op then ["session:" +s session_id] else [])
  ++ exact_selectors op args
  ++ (if op =s "module_lifecycle_request" then module_lifecycle_request_selector session_id args else [])
  ++ (if op =s "module_runtime_request" then module_runtime_request_selector session_id args else [])
  ++ (if op =s "module_program_execution_start"
      then module_runtime_request_selector session_id args else [])
  ++ (if op =s "subagent_launch"
      then resource_selector_arg args "moduleLifecycleResourceId"
           ++ module_runtime_request_selector session_id args ++ subagent_launch_selector c
      else [])
  ++ (if subagent_followup_operation op
      then resource_selector_arg args "subagentTaskResourceId" ++ followups else [])
  ++ (if procedural_module_operation op
      then option_list ((fun kind => "proceduralKind:" +s kind) <$> args_procedural_kind args) else []).
(* SRC domains/agent/loop/capability_invocation_executor/grant.rs:910-924! derive_capability_runtime_grant *)
Definition resource_selectors (resources : ResourceMemory) (c : CapabilityCall) : Result (list string) :=
  let? followups :=
    if subagent_followup_operation (ca_operation c)
    then delegated_subagent_followup_selectors resources (ca_args c) else Ok [] in
  Ok (selector_list c followups).

(** ** Deriving the grant *)

(* SRC domains/agent/loop/capability_invocation_executor/grant.rs:941-962! derive_capability_runtime_grant *)
Definition runtime_grant_idempotency_key (c : CapabilityCall) : string :=
  "capability-runtime-grant:v1:" +s sha256_hex (json_text
    (j{"version" ~> jnum 1;
       "sessionId" ~> ca_session_id c;
       "workspaceId" ~> jstr (ca_workspace_id c);
       "workingDirectory" ~> ca_working_directory c;
       "actorId" ~> ca_actor_id c;
       "targetFunctionId" ~> ca_target c;
       "targetAuthorityScopes" ~> jstrs (ca_target_scopes c);
       "providerInvocationId" ~> ca_invocation_id c;
       "modelPrimitiveName" ~> ca_model_primitive_name c;
       "operation" ~> ca_operation c;
       "turn" ~> jnum (ca_turn c);
       "runId" ~> jstr (ca_run_id c)})).
Definition runtime_budget : Value :=
  j{"remainingInvocations" ~> jnum 2; "remainingProcessMs" ~> jnum 120000}.
Definition runtime_provenance (c : CapabilityCall) : Value :=
  j{"source" ~> "agent.capability_runtime";
    "sessionId" ~> ca_session_id c;
    "workspaceId" ~> jstr (ca_workspace_id c);
    "targetFunctionId" ~> ca_target c;
    "providerInvocationId" ~> ca_invocation_id c;
    "modelPrimitiveName" ~> ca_model_primitive_name c;
    "operation" ~> ca_operation c;
    "turn" ~> jnum (ca_turn c);
    "runId" ~> jstr (ca_run_id c);
    "workingDirectory" ~> ca_working_directory c;
    "networkPolicy" ~> network_policy_of (ca_operation c)}.
(* SRC domains/agent/loop/capability_invocation_executor/grant.rs:973-1002! derive_capability_runtime_grant *)
Definition derive_fields (selectors : list string) (c : CapabilityCall) : list (string * Value) :=
  let op := ca_operation c in
  ["parentGrantId" ~> "agent-capability-runtime";
   "subjectActorId" ~> ca_actor_id c;
   "allowedCapabilities" ~> jstrs (allowed_capabilities op (ca_target c));
   "allowedNamespaces" ~> jstrs ["__no_namespace_authority__"];
   "allowedAuthorityScopes" ~> jstrs (allowed_authority_scopes op (ca_args c) (ca_target_scopes c));
   "allowedResourceKinds" ~> jstrs (allowed_resource_kinds op (ca_args c));
   "resourceSelectors" ~> jstrs selectors;
   "fileRoots" ~> jstrs [ca_working_directory c];
   "networkPolicy" ~> network_policy_of op;
   "maxRisk" ~> "medium";
   "budget" ~> runtime_budget;
   "canDelegate" ~> VBool false;
   "provenance" ~> runtime_provenance c].
(* SRC domains/agent/loop/capability_invocation_executor/grant.rs:963-972! derive_capability_runtime_grant *)
Definition derive_context (trace_id : TraceId) (c : CapabilityCall) : CausalContext :=
  with_idempotency_key
    (with_session_id
       (with_scope (causal_context_new "system:capability-runtime" Actor_System "grant" trace_id)
          "grant.write")
       (ca_session_id c))
    (runtime_grant_idempotency_key c).
Definition derive_invocation (id : InvocationId) (trace_id : TraceId) (selectors : list string)
    (c : CapabilityCall) : Invocation :=
  new_sync id DERIVE_FUNCTION (jobj (derive_fields selectors c)) (derive_context trace_id c).

(* SRC domains/agent/loop/capability_invocation_executor/grant.rs:13-16 CapabilityRuntimeGrant *)
Record CapabilityRuntimeGrant := {
  crg_grant_id : AuthorityGrantId;
  crg_authority_scopes : list string
}.
(** The scopes put into the context of the call. *)
(* SRC domains/agent/loop/capability_invocation_executor/grant.rs:1039-1046! derive_capability_runtime_grant *)
Definition causal_authority_scopes (op : string) (scopes : list string) : list string :=
  List.filter (fun scope => (scope =s "capability.execute") || starts_with op "state_"
                            || negb (list_has ["state.read"; "state.write"] scope)) scopes.

(** ** Running a primitive

    [call] is the invocation of a function by the engine host ([invoke] of Host).  The
    ids and traces that the code draws are arguments. *)
Context {W : Type}.
Variable call : Invocation -> W -> InvocationResult * W.
Variable parse_result : Value -> result string CapabilityResult.
Variable fs : FileSystem.

(* SRC domains/agent/loop/capability_invocation_executor/grant.rs:18-1051 derive_capability_runtime_grant *)
Definition derive_capability_runtime_grant (resources : ResourceMemory) (id : InvocationId)
    (trace_id : TraceId) (c : CapabilityCall) (w : W)
  : result FailureEnvelope CapabilityRuntimeGrant * W :=
  let op := ca_operation c in
  match resource_selectors resources c with
  | Err error => (Err (engine_error_to_failure debug error), w)
  | Ok selectors =>
      let '(result, w) := call (derive_invocation id trace_id selectors c) w in
      (match ir_error result, ir_value result with
       | Some error, _ => Err (engine_error_to_failure debug error)
       | None, None =>
           Err (failure_new "ENGINE_POLICY_VIOLATION" Failure_Engine
                  "Capability runtime grant derivation returned no value" false false Origin_Engine)
       | None, Some value =>
           match (vget value "grant" ≫= (fun grant => vget grant "grantId")) ≫= as_str with
           | None =>
               Err (failure_new "CAPABILITY_RESULT_INVALID" Failure_Parse
                      "Capability runtime grant derivation returned an invalid grant payload"
                      false false Origin_Engine)
           | Some grant_id =>
               match engine_id_new "authority_grant" grant_id with
               | Err error => Err (engine_error_to_failure debug error)
               | Ok grant_id =>
                   Ok {| crg_grant_id := grant_id;
                         crg_authority_scopes :=
                           causal_authority_scopes op
                             (allowed_authority_scopes op (ca_args c) (ca_target_scopes c)) |}
               end
           end
       end, w)
  end.

(** What the failed result of a call refers to. *)
Record CallReferences := {
  cf_model_primitive_name : string;
  cf_provider_invocation_id : string;
  cf_session_id : string;
  cf_trace_id : option TraceId;
  cf_parent_invocation_id : option InvocationId
}.
(* SRC domains/agent/loop/capability_invocation_executor/mod.rs:134-167 capability_failure_details *)
Definition capability_failure_details (r : CallReferences) (extra : list (string * Value))
    (f : FailureEnvelope) : FailureEnvelope :=
  let details := obj_insert (obj_insert (detail_fields (fl_details f))
                   "modelPrimitiveName" (cf_model_primitive_name r))
                   "providerInvocationId" (cf_provider_invocation_id r) in
  let details := fold_left (fun acc kv => obj_insert acc (fst kv) (snd kv)) extra details in
  with_references
    {| fr_trace_id := cf_trace_id r; fr_invocation_id := fr_invocation_id (fl_references f);
       fr_parent_invocation_id := cf_parent_invocation_id r; fr_session_id := Some (cf_session_id r);
       fr_source_event_id := fr_source_event_id (fl_references f) |}
    (with_details (Some (VObject details)) f).
(* SRC domains/agent/loop/capability_invocation_executor/mod.rs:169-188 capability_failure_result *)
Definition capability_failure_result (r : CallReferences) (extra : list (string * Value))
    (f : FailureEnvelope) : CapabilityResult :=
  failure_result (capability_failure_details r extra f).

Definition add_scopes (scopes : list string) (c : CausalContext) : CausalContext :=
  fold_left (fun c scope => if has_scope c scope then c else with_scope c scope) scopes c.
(** The context of the call, under the derived grant. *)
(* SRC domains/agent/loop/capability_invocation_executor/mod.rs:485-521! execute_capability_primitive_via_engine *)
Definition capability_context (c : CapabilityCall) (g : CapabilityRuntimeGrant) (trace_id : TraceId)
    (provider_type : string) (parent : option InvocationId) : CausalContext :=
  let metadata key v x := with_runtime_metadata x key v in
  let context :=
    with_idempotency_key
      (with_session_id
         (metadata RUNTIME_METADATA_TURN (pretty (ca_turn c))
            (metadata RUNTIME_METADATA_MODEL_PRIMITIVE_NAME (ca_model_primitive_name c)
               (metadata RUNTIME_METADATA_PROVIDER_TYPE provider_type
                  (metadata RUNTIME_METADATA_PROVIDER_INVOCATION_ID (ca_invocation_id c)
                     (with_scope
                        (metadata RUNTIME_METADATA_WORKING_DIRECTORY (ca_working_directory c)
                           (causal_context_new (ca_actor_id c) Actor_Agent (crg_grant_id g) trace_id))
                        "capability.execute")))))
         (ca_session_id c))
      (model_capability_invocation_idempotency_key c) in
  let context := match ca_run_id c with
                 | Some run_id => metadata RUNTIME_METADATA_RUN_ID run_id context
                 | None => context end in
  let context := match ca_workspace_id c with
                 | Some w => with_workspace_id context w | None => context end in
  let context := match parent with
                 | Some p => with_parent_invocation context p | None => context end in
  add_scopes (ca_target_scopes c) (add_scopes (crg_authority_scopes g) context).

Definition set_trace (trace : option TraceId) (r : CallReferences) : CallReferences :=
  {| cf_model_primitive_name := cf_model_primitive_name r;
     cf_provider_invocation_id := cf_provider_invocation_id r; cf_session_id := cf_session_id r;
     cf_trace_id := trace; cf_parent_invocation_id := cf_parent_invocation_id r |}.
(** The call with its working directory normalized and its actor. *)
Definition trusted_call (c : CapabilityCall) (working_directory : string) : CapabilityCall :=
  {| ca_actor_id := "agent:" +s ca_session_id c; ca_target := ca_target c;
     ca_target_scopes := ca_target_scopes c; ca_session_id := ca_session_id c;
     ca_workspace_id := ca_workspace_id c; ca_working_directory := working_directory;
     ca_invocation_id := ca_invocation_id c; ca_model_primitive_name := ca_model_primitive_name c;
     ca_turn := ca_turn c; ca_run_id := ca_run_id c; ca_args := ca_args c |}.
(** The result read from the answer of the host. *)
(* SRC domains/agent/loop/capability_invocation_executor/mod.rs:524-594! execute_capability_primitive_via_engine *)
Definition capability_answer (r : CallReferences) (target : FunctionId) (result : InvocationResult) :
    CapabilityResult :=
  let r := set_trace (Some (ir_trace_id result)) r in
  let refer f :=
    with_references
      {| fr_trace_id := Some (ir_trace_id result); fr_invocation_id := Some (ir_invocation_id result);
         fr_parent_invocation_id := fr_parent_invocation_id (fl_references f);
         fr_session_id := fr_session_id (fl_references f);
         fr_source_event_id := fr_source_event_id (fl_references f) |} f in
  let target_id := [("primitiveTargetId", VString target)] in
  match ir_error result, ir_value result with
  | Some error, _ => capability_failure_result r target_id (refer (engine_error_to_failure debug error))
  | None, None =>
      capability_failure_result r target_id
        (refer (failure_new "CAPABILITY_ENGINE_RESULT_MISSING" Failure_Capability
                  ("Engine capability invocation returned no result for " +s target) false false
                  Origin_Capability))
  | None, Some value =>
      match parse_result value with
      | Ok answer => answer
      | Err error =>
          capability_failure_result r (target_id ++ [("serdeError", VString error)])
            (refer (failure_new "CAPABILITY_RESULT_INVALID" Failure_Parse
                      ("Engine capability invocation returned invalid capability result for "
                       +s target) false false Origin_Capability))
      end
  end.
(** [derive_id] and [id] are the ids of the two invocations. *)
(* SRC domains/agent/loop/capability_invocation_executor/mod.rs:388-594 execute_capability_primitive_via_engine *)
Definition execute_capability_primitive_via_engine (resources : ResourceMemory)
    (derive_id id : InvocationId) (generated_trace : TraceId) (provider_type : string)
    (inherited_trace : option TraceId) (parent : option InvocationId) (c : CapabilityCall) (w : W)
  : CapabilityResult * W :=
  let r := {| cf_model_primitive_name := ca_model_primitive_name c;
              cf_provider_invocation_id := ca_invocation_id c; cf_session_id := ca_session_id c;
              cf_trace_id := inherited_trace; cf_parent_invocation_id := parent |} in
  match normalize_working_directory debug fs (ca_working_directory c) with
  | Err error =>
      (capability_failure_result r []
         (failure_new "ENGINE_POLICY_VIOLATION" Failure_Engine
            ("Capability runtime working directory is not trusted: " +s error) false false
            Origin_Engine), w)
  | Ok path =>
      let c := trusted_call c (path_display path) in
      match engine_id_new "actor" (ca_actor_id c) with
      | Err error => (capability_failure_result r [] (engine_error_to_failure debug error), w)
      | Ok _ =>
          let trace_id := default generated_trace inherited_trace in
          let '(grant, w) := derive_capability_runtime_grant resources derive_id trace_id c w in
          match grant with
          | Err failure => (capability_failure_result (set_trace (Some trace_id) r) [] failure, w)
          | Ok g =>
              let '(result, w) :=
                call (new_sync id (ca_target c) (ca_args c)
                        (capability_context c g trace_id provider_type parent)) w in
              (capability_answer r (ca_target c) result, w)
          end
      end
  end.
End executor.
