(* ===== verification/CapabilityAuthority.v ===== *)
(** * The grant of a capability invocation suffices

    The grant that [derive_capability_runtime_grant] asks for, compared with what
    [authorize_with_grant] demands of the call that follows: the scopes, kinds and
    resource selectors of each operation.  The two sides are tables of operations kept
    apart in the source; they are compared name by name, by computation. *)

From stdpp Require Import base gmap strings list pretty sorting.
From Stdlib Require Import ZArith Ascii String Lia.
From S2P Require Import Prelude Sorting Json Kernel Model Schema Policy Leases Paths Grants Authorization PolicyHash.
From S2P Require Import Resources Ledger Catalog Invocation Compensation Meta Host Messages Failure GrantPrimitive CapabilityGrant.
Import JsonNotations.

#[local] Open Scope Z_scope.

(** ** The grant suffices for its operation *)

Lemma in_dedup x l : In x (dedup l) <-> In x l.
Proof.
  induction l as [|a l IH]; [done|]. destruct l as [|b l]; [done|].
  change (dedup (a :: b :: l)) with (if a =s b then dedup (b :: l) else a :: dedup (b :: l)).
  destruct (String.eqb_spec a b) as [->|].
  - rewrite IH. simpl. tauto.
  - change (In x (a :: dedup (b :: l))) with (a = x \/ In x (dedup (b :: l))). rewrite IH. done.
Qed.
Lemma in_sort_dedup x l : In x (sort_dedup l) <-> In x l.
Proof.
  unfold sort_dedup, sorted_strings. rewrite in_dedup, <- !list_elem_of_In.
  by rewrite (merge_sort_Permutation text_le l).
Qed.
Lemma in_push_all x l : In x (push_all l) <-> In x l.
Proof.
  unfold push_all. enough (forall acc, In x (fold_left push_unique l acc) <-> In x acc \/ In x l) as ->
    by (simpl; tauto).
  induction l as [|a l IH]; intros acc; simpl; [tauto|]. rewrite IH. unfold push_unique, list_has.
  destruct (existsb _ acc) eqn:E.
  - apply existsb_exists in E as (b & Hb & ->%String.eqb_eq). intuition congruence.
  - rewrite in_app_iff. simpl. tauto.
Qed.
(** An operation with a result is named by an arm. *)
Lemma arm_names op arms x : In x (first_arm (Some op) arms) -> In op (List.concat (map fst arms)).
Proof.
  induction arms as [|[names res] arms IH]; simpl; [done|].
  destruct (list_has names op) eqn:E; intros Hx; apply in_or_app; [left; by apply list_has_In|right; auto].
Qed.

(** A table covers another when, at each name that [guard] lets pass, it gives every item
    of the other. *)
Definition arms_covered (guard : string -> bool) (mine theirs : string -> list string)
    (names : list string) : bool :=
  forallb (fun op => negb (guard op) || forallb (list_has (mine op)) (theirs op)) names.
Lemma arms_covered_in guard mine theirs names op x :
  arms_covered guard mine theirs names = true -> guard op = true -> In op names ->
  In x (theirs op) -> In x (mine op).
Proof.
  unfold arms_covered. rewrite forallb_forall. intros H Hg Hop Hx. specialize (H op Hop).
  rewrite Hg in H. simpl in H. rewrite forallb_forall in H. by apply list_has_In, H.
Qed.
Ltac apply_tables op :=
  match goal with |- ?guard = true -> In _ ?names -> In _ (first_arm _ ?theirs) -> In _ ?mine =>
    let g := eval pattern op in guard in
    let m := eval pattern op in mine in
    match g with ?g _ => match m with ?m _ =>
      apply (arms_covered_in g m (fun op => first_arm (Some op) theirs) names) end end end.

Section covering.
  Variable i : Invocation.
  Notation args := (inv_payload i).
  Hypothesis execute : is_capability_execute i = true.

Ltac robots_arguments :=
  change (match payload_str i "webRobotsPolicyResourceId" with
          | Some v => negb (is_blank v) | None => false end)
    with (has_non_empty_string args "webRobotsPolicyResourceId");
  change (match payload_str i "expectedWebRobotsPolicyVersionId" with
          | Some v => negb (is_blank v) | None => false end)
    with (has_non_empty_string args "expectedWebRobotsPolicyVersionId");
  generalize (has_non_empty_string args "webRobotsPolicyResourceId") as a,
    (has_non_empty_string args "expectedWebRobotsPolicyVersionId") as b;
  intros b a.

Lemma operation_of_payload op : operation i = Some op -> operation_of args = op.
Proof. unfold operation_of, arg_str, operation, payload_str. by intros ->. Qed.

(** The scopes asked for by an operation are granted to it. *)
Lemma scopes_granted op s :
  operation i = Some op -> In s (authority_scopes_from_invocation i) -> In s (operation_scopes op args).
Proof.
  unfold authority_scopes_from_invocation. rewrite execute. simpl negb. cbv iota.
  rewrite in_push_all. intros -> Hs. pose proof (arm_names _ _ _ Hs) as Hop. revert Hop Hs.
  unfold operation_scopes, scope_arms_artifacts, scope_arms_agents, web_fetch_uses_robots,
    web_fetch_uses_robots_policy, notification_push_requested.
  robots_arguments.
  generalize (default false (vget args "pushRequested" ≫= as_bool)) as p. intros p.
  intros Hop Hs. assert (negb (op =s "") || true = true) as Hg by apply orb_true_r. revert Hg Hop Hs.
  apply_tables op. destruct a, b, p; vm_compute; reflexivity.
Qed.

(** The kinds an operation works with are granted to it, when the kind it names is known. *)
Definition kinds_named (op : string) (args : Value) : bool :=
  (negb (op =s "worker_package_list") || is_some (args_worker_package_list_kind args))
  && (negb (procedural_module_operation op) || is_some (args_procedural_kind args)).

Lemma worker_package_kinds :
  worker_package_list_kind i = args_worker_package_list_kind args /\
  worker_package_inspect_kind i = args_worker_package_inspect_kind args.
Proof.
  split; [|done]. unfold worker_package_list_kind, args_worker_package_list_kind, list_has.
  change (payload_str i "workerPackageKind") with (arg_str args "workerPackageKind").
  generalize (default "worker_package" (arg_str args "workerPackageKind")) as k. intros k. cbn [existsb].
  rewrite !(String.eqb_sym _ k).
  repeat match goal with |- context [k =s ?s] => destruct (String.eqb_spec k s) as [->|] end; done.
Qed.
Lemma kinds_granted op k :
  operation i = Some op -> kinds_named op args = true ->
  In k (capability_execute_resource_kinds i) -> In k (allowed_resource_kinds op args).
Proof.
  unfold capability_execute_resource_kinds. intros ->.
  destruct worker_package_kinds as [-> ->]. unfold kinds_named.
  intros [Hlist Hkind]%andb_true_iff Hk. apply in_or_app. right.
  destruct (String.eqb_spec op "worker_package_list") as [->|Hnl].
  { change (In k (option_list (args_worker_package_list_kind args))).
    change (In k [default "worker_package" (args_worker_package_list_kind args)]) in Hk.
    by destruct (args_worker_package_list_kind args). }
  destruct (String.eqb_spec op "worker_package_inspect") as [->|Hni].
  { exact Hk. }
  pose proof (arm_names _ _ _ Hk) as Hop.
  assert (negb (op =s "worker_package_list") && negb (op =s "worker_package_inspect")
          && (negb (procedural_module_operation op) || is_some (args_procedural_kind args)) = true) as Hg.
  { by rewrite Hkind, (proj2 (String.eqb_neq _ _) Hnl), (proj2 (String.eqb_neq _ _) Hni). }
  clear Hkind Hlist Hnl Hni. revert Hg Hop Hk.
  unfold kind_arms_artifacts, kind_arms_work, web_fetch_uses_robots,
    web_fetch_uses_robots_policy, notification_push_requested.
  robots_arguments.
  generalize (args_worker_package_list_kind args) as w, (args_worker_package_inspect_kind args) as v,
    (is_some (args_procedural_kind args)) as q, (is_some (vget args "goalResourceId")) as g,
    (default false (vget args "pushRequested" ≫= as_bool)) as p. intros w v q g p.
  apply_tables op. destruct a, b, p, g, q; vm_compute; reflexivity.
Qed.
Lemma created_granted op k :
  operation i = Some op -> In k (created_resource_kinds_from_invocation i) ->
  In k (capability_execute_resource_kinds i).
Proof.
  unfold created_resource_kinds_from_invocation, capability_execute_resource_kinds.
  rewrite execute. simpl negb. cbv iota. rewrite in_push_all. intros -> Hk.
  pose proof (arm_names _ _ _ Hk) as Hop.
  assert (negb (op =s "") || true = true) as Hg by apply orb_true_r. revert Hg Hop Hk.
  generalize (worker_package_list_kind i) as w, (worker_package_inspect_kind i) as v,
    (web_fetch_uses_robots_policy i) as r, (is_some (vget args "goalResourceId")) as g.
  intros w v r g. apply_tables op. destruct r, g; vm_compute; reflexivity.
Qed.
End covering.

(** The fields of the arguments whose resource the grant selects, and those that the
    authorization checks. *)
Definition granted_fields (op : string) : list string :=
  map snd (List.filter (fun '(operations, _) => list_has operations op) exact_resource_selector_fields)
  ++ (if op =s "subagent_launch" then ["moduleLifecycleResourceId"] else [])
  ++ (if subagent_followup_operation op
      then ["subagentTaskResourceId"] else []).
Definition checked_fields (op : string) : list string :=
  RESOURCE_ID_FIELDS
  ++ (if list_has ["module_program_execution_status"; "module_program_execution_cancel";
                   "module_program_execution_cleanup"] op then ["jobResourceId"] else [])
  ++ (if delegated_subagent_operation op then ["subagentTaskResourceId"] else []).
Definition names_granted (op : string) (args : Value) : bool :=
  forallb (fun field => match arg_str args field with
                        | Some id => list_has (granted_fields op) field && negb (is_blank id)
                        | None => true
                        end) (checked_fields op).
(** The call names only resources its operation works on, kinds that are known, and the
    task of a subagent it launches; nothing of it is a wildcard. *)
Definition well_named (c : CapabilityCall) : bool :=
  let op := ca_operation c in
  (ca_target c =s "capability::execute") && kinds_named op (ca_args c) && names_granted op (ca_args c)
  && (negb (op =s "subagent_launch") || is_some (filled_arg (ca_args c) "taskId"))
  && negb (list_has (ca_target_scopes c) "*") && negb (ca_working_directory c =s "*").

#[local] Strategy expand [granted_fields checked_fields selector_list].
#[local] Strategy expand [resource_ids_from_invocation].
#[local] Strategy opaque [narrow_operation list_has RESOURCE_ID_FIELDS].

Section selectors.
  Variable debug : string -> string.
  Variable sha256_hex : string -> string.
  Variable json_text : Value -> string.
  Variable resources : ResourceMemory.
  Variable c : CapabilityCall.
  Variable followups : list string.
  Notation op := (ca_operation c).
  Notation selectors := (selector_list sha256_hex json_text c followups).

Lemma kind_selected k : In k (allowed_resource_kinds op (ca_args c)) -> In ("kind:" +s k) selectors.
Proof.
  unfold selector_list. intros Hk.
  apply in_or_app. left. by apply in_map.
Qed.
Lemma session_selected : context_control_operation op = true -> In ("session:" +s ca_session_id c) selectors.
Proof.
  unfold selector_list. intros ->.
  rewrite !in_app_iff. right. left. simpl. by left.
Qed.
Lemma exact_selected field id :
  In field (map snd (List.filter (fun '(operations, _) => list_has operations op)
                       exact_resource_selector_fields)) ->
  In ("resource:" +s id) (resource_selector_arg (ca_args c) field) ->
  In ("resource:" +s id) (exact_selectors op (ca_args c)).
Proof.
  unfold exact_selectors. generalize exact_resource_selector_fields as fields. intros fields.
  induction fields as [|[ops f] fields IH]; [done|]. cbn [List.filter map List.concat].
  rewrite in_app_iff. destruct (list_has ops op); [|by auto].
  intros [Hf|Hf] Hr; [left|right]; [by simpl in Hf; subst|by apply IH].
Qed.
Lemma resource_selected field id :
  In field (granted_fields op) -> arg_str (ca_args c) field = Some id -> is_blank id = false ->
  In ("resource:" +s id) selectors.
Proof.
  unfold selector_list. intros Hf Ha Hb.
  assert (In ("resource:" +s id) (resource_selector_arg (ca_args c) field)) as Hr.
  { unfold resource_selector_arg, filled_arg. rewrite Ha, Hb. by left. }
  unfold granted_fields in Hf. rewrite !in_app_iff in Hf. rewrite !in_app_iff.
  destruct Hf as [Hf|[Hf|Hf]].
  - right. right. left. by apply (exact_selected field).
  - destruct (op =s "subagent_launch"); [|done]. destruct Hf as [<-|[]].
    do 6 right. left. apply in_or_app. by left.
  - destruct (subagent_followup_operation op); [|done].
    destruct Hf as [<-|[]].
    do 7 right. left. apply in_or_app. by left.
Qed.
Lemma launch_selected id :
  op = "subagent_launch" -> filled_arg (ca_args c) "taskId" = Some id ->
  In ("resource:" +s session_subagent_task_resource_id sha256_hex (ca_session_id c) id
        (model_capability_invocation_idempotency_key sha256_hex json_text c)) selectors.
Proof.
  unfold selector_list. intros -> Ht.
  rewrite !in_app_iff. do 6 right. left. rewrite String.eqb_refl, !in_app_iff. right. right.
  unfold subagent_launch_selector. rewrite Ht. by left.
Qed.
Lemma procedural_selected kind :
  procedural_module_operation op = true -> args_procedural_kind (ca_args c) = Some kind ->
  In ("proceduralKind:" +s kind) selectors.
Proof.
  unfold selector_list. intros -> ->.
  rewrite !in_app_iff. do 8 right. by left.
Qed.

(** No selector is the wildcard. *)
Lemma option_explicit {A} (f : A -> string) (o : option A) :
  (forall a, f a <> "*") -> ~ In "*" (option_list (f <$> o)).
Proof. intros H. destruct o as [a|]; simpl; [|tauto]. intros [Ha|[]]. by apply (H a). Qed.
Lemma followups_explicit l :
  delegated_subagent_followup_selectors debug resources (ca_args c) = Ok l -> ~ In "*" l.
Proof.
  unfold delegated_subagent_followup_selectors. intros H Hin.
  destruct (filled_arg _ _) as [id|]; [|by simplify_eq].
  destruct (memory_inspect _ _ _) as [[inspection|]|]; [|by simplify_eq..].
  destruct (negb _); [by simplify_eq|]. destruct (current_payload _) as [payload|]; [|by simplify_eq].
  assert (forall a b : list string, @Ok EngineError _ a = Ok b -> a = b) as Hinj by congruence.
  apply Hinj in H. subst l. apply list_elem_of_In, list_elem_of_omap in Hin as (x & _ & Hx).
  destruct (pointer payload x ≫= as_str) as [s|]; [|done]. by destruct (is_blank s).
Qed.
Lemma selectors_explicit :
  (if subagent_followup_operation op
   then delegated_subagent_followup_selectors debug resources (ca_args c) else Ok []) = Ok followups ->
  ~ In "*" selectors.
Proof.
  unfold selector_list. intros Hl. rewrite !in_app_iff.
  assert (forall field, ~ In "*" (resource_selector_arg (ca_args c) field)) as Harg
    by (intros field; by apply option_explicit).
  intros [H|[H|[H|[H|[H|[H|[H|[H|H]]]]]]]].
  - apply in_map_iff in H as (k & Hk & _). done.
  - destruct (context_control_operation op); [|done]. by destruct H as [H|[]].
  - unfold exact_selectors in H. apply in_concat in H as (l & Hl' & H).
    apply in_map_iff in Hl' as ([ops f] & <- & _). destruct (list_has ops op); [|done]. by apply (Harg f).
  - destruct (op =s _); [|done]. revert H. by apply option_explicit.
  - destruct (op =s _); [|done]. revert H. by apply option_explicit.
  - destruct (op =s _); [|done]. revert H. by apply option_explicit.
  - destruct (op =s _); [|done]. rewrite !in_app_iff in H. destruct H as [H|[H|H]].
    + by apply (Harg "moduleLifecycleResourceId").
    + revert H. by apply option_explicit.
    + by destruct H as [H|[]].
  - destruct (subagent_followup_operation op); [|done]. apply in_app_iff in H as [H|H].
    + by apply (Harg "subagentTaskResourceId").
    + by apply (followups_explicit followups).
  - destruct (procedural_module_operation op); [|done]. revert H. by apply option_explicit.
Qed.
End selectors.

(** ** No wildcard is granted *)

Definition starless (l : list string) : Prop := Forall (fun s => s <> "*") l.
Lemma starless_not_in l : starless l -> ~ In "*" l.
Proof. unfold starless. rewrite List.Forall_forall. intros H Hin. by apply (H "*"). Qed.
Lemma starless_app l1 l2 : starless l1 -> starless l2 -> starless (l1 ++ l2).
Proof. intros. by apply Forall_app. Qed.
Lemma starless_if (b : bool) l1 l2 : starless l1 -> starless l2 -> starless (if b then l1 else l2).
Proof. by destruct b. Qed.
Lemma starless_first_arm op arms : Forall (fun arm => starless (snd arm)) arms -> starless (first_arm op arms).
Proof.
  induction 1 as [|[names l] arms Hl Harms IH]; destruct op as [op|]; simpl; try by constructor.
  by destruct (list_has names op).
Qed.
Lemma starless_known (l : list string) (o : option string) :
  starless l -> (forall k, o = Some k -> list_has l k = true) -> starless (option_list o).
Proof.
  unfold starless. rewrite List.Forall_forall. intros Hl Ho. destruct o as [k|]; simpl; [|by constructor].
  constructor; [|by constructor]. by apply Hl, list_has_In, Ho.
Qed.
Ltac starless :=
  repeat first [apply starless_app | apply starless_if | apply starless_first_arm
               | apply List.Forall_nil | apply List.Forall_cons; [try discriminate|]
               | progress cbn [snd] | done].

Definition worker_kinds : list string :=
  ["worker_package"; "worker_package_installation"; "worker_package_proposal";
   "worker_package_conformance_report"; "worker_launch_attempt"].
Lemma scopes_starless op args target_scopes :
  ~ In "*" target_scopes -> ~ In "*" (allowed_authority_scopes op args target_scopes).
Proof.
  unfold allowed_authority_scopes. rewrite in_sort_dedup, in_app_iff. intros Ht [H|H]; [done|].
  revert H. apply starless_not_in.
  unfold operation_scopes, scope_arms_artifacts, scope_arms_modules, scope_arms_work, scope_arms_agents,
    delegated_subagent_module_scopes. starless.
Qed.
Lemma kinds_starless op args : ~ In "*" (allowed_resource_kinds op args).
Proof.
  apply starless_not_in. unfold allowed_resource_kinds, kind_arms_artifacts, kind_arms_modules,
    kind_arms_work, delegated_subagent_module_resource_kinds, procedural_resource_kinds. starless.
  - apply (starless_known worker_kinds); [starless|]. intros k.
    unfold args_worker_package_list_kind. destruct (list_has _ _) eqn:E; [|done]. by intros [= <-].
  - apply (starless_known worker_kinds); [starless|]. intros k.
    unfold args_worker_package_inspect_kind. destruct (arg_str _ _) as [r|]; [|done].
    repeat (destruct (starts_with r _); [by intros [= <-]|]). done.
Qed.

(** ** The derived grant *)

(** The request in the payload of the derivation. *)
Definition runtime_request (selectors : list string) (trace : TraceId) (c : CapabilityCall) : DeriveGrant :=
  let op := ca_operation c in
  {| dg_grant_id := None; dg_parent_grant_id := "agent-capability-runtime";
     dg_subject_actor_id := Some (ca_actor_id c); dg_subject_worker_id := None;
     dg_subject_invocation_id := None;
     dg_allowed_capabilities := allowed_capabilities op (ca_target c);
     dg_allowed_namespaces := ["__no_namespace_authority__"];
     dg_allowed_authority_scopes := allowed_authority_scopes op (ca_args c) (ca_target_scopes c);
     dg_allowed_resource_kinds := allowed_resource_kinds op (ca_args c);
     dg_resource_selectors := selectors; dg_file_roots := [ca_working_directory c];
     dg_network_policy := network_policy_of op; dg_max_risk := Risk_Medium;
     dg_budget := runtime_budget; dg_expires_at := None; dg_can_delegate := false;
     dg_provenance := runtime_provenance c; dg_trace_id := trace |}.

Lemma optional_strings payload field l :
  vget payload field = Some (jstrs l) -> optional_string_array payload field = Ok (Some l).
Proof.
  unfold optional_string_array, jstrs. intros ->. simpl.
  assert (try_map (fun item => ok_or (as_str item)
    (PolicyViolation ("field " +s field +s " must be a string array"))) (map VString l) = Ok l) as ->;
    [|done].
  induction l as [|s l IH]; [done|]. simpl. by rewrite IH.
Qed.
Lemma required_strings payload field l :
  vget payload field = Some (jstrs l) -> string_array payload field = Ok l.
Proof. unfold string_array. by intros ->%optional_strings. Qed.

(** The handler of [grant::derive] reads the request back from the payload. *)
Lemma derive_request_runtime parse selectors trace c :
  is_blank (ca_actor_id c) = false ->
  derive_request parse (jobj (derive_fields selectors c)) trace = Ok (runtime_request selectors trace c).
Proof.
  intros Hactor. set (payload := jobj (derive_fields selectors c)).
  assert (forall key, vget payload key = obj_get (derive_fields selectors c) key) as Hget.
  { intros key. apply jobj_get. repeat constructor; simpl; intuition congruence. }
  unfold derive_request, optional_grant_id, optional_id, required_str, optional_datetime.
  rewrite !Hget.
  rewrite (required_strings payload "allowedCapabilities" _ (Hget _)),
    (required_strings payload "allowedNamespaces" _ (Hget _)),
    (required_strings payload "allowedAuthorityScopes" _ (Hget _)),
    (required_strings payload "allowedResourceKinds" _ (Hget _)),
    (optional_strings payload "resourceSelectors" _ (Hget _)),
    (required_strings payload "fileRoots" _ (Hget _)).
  cbn -[allowed_capabilities allowed_authority_scopes allowed_resource_kinds network_policy_of
    runtime_budget runtime_provenance engine_id_new].
  unfold engine_id_new, validate_non_empty. rewrite Hactor. reflexivity.
Qed.

(** ** The call is authorized *)

Section call.
  Variable debug : string -> string.
  Variable sha256_hex : string -> string.
  Variable json_text : Value -> string.
  Variable fs : FileSystem.
  Variable c : CapabilityCall.
  Variable runtime : CapabilityRuntimeGrant.
  Variable trace : TraceId.
  Variable provider : string.
  Variable parent : option InvocationId.
  Variable id : InvocationId.
  Notation op := (ca_operation c).
  Notation context := (capability_context sha256_hex json_text c runtime trace provider parent).
  Notation call := (new_sync id (ca_target c) (ca_args c) context).

Lemma add_scopes_context scopes x :
  let y := add_scopes scopes x in
  cx_actor_id y = cx_actor_id x /\ cx_session_id y = cx_session_id x /\
  cx_idempotency_key y = cx_idempotency_key x /\
  cx_authority_grant_id y = cx_authority_grant_id x.
Proof.
  unfold add_scopes. revert x. induction scopes as [|s scopes IH]; intros x; [done|]. simpl.
  destruct (has_scope x s); [apply IH|]. destruct (IH (with_scope x s)) as (-> & -> & -> & ->). done.
Qed.
Lemma context_fields :
  cx_actor_id context = ca_actor_id c /\ cx_session_id context = Some (ca_session_id c) /\
  cx_idempotency_key context = Some (model_capability_invocation_idempotency_key sha256_hex json_text c) /\
  cx_authority_grant_id context = crg_grant_id runtime.
Proof.
  unfold capability_context.
  match goal with |- context [add_scopes (ca_target_scopes c) (add_scopes ?l ?x)] =>
    destruct (add_scopes_context (ca_target_scopes c) (add_scopes l x)) as (-> & -> & -> & ->);
    destruct (add_scopes_context l x) as (-> & -> & -> & ->) end.
  by destruct (ca_run_id c), (ca_workspace_id c), parent.
Qed.

  Variable resources : ResourceMemory.
  Variable followups : list string.
  Variable grant_id : AuthorityGrantId.
  Variable derive_trace : TraceId.
  Variable created : instant.
  Notation selectors := (selector_list sha256_hex json_text c followups).
  Notation grant := (grant_from_request (runtime_request selectors derive_trace c) grant_id created 1).
  Hypothesis named : well_named c = true.
  Hypothesis followed : (if subagent_followup_operation op
     then delegated_subagent_followup_selectors debug resources (ca_args c) else Ok []) = Ok followups.

Lemma well_named_parts :
  ca_target c = "capability::execute" /\ kinds_named op (ca_args c) = true /\
  names_granted op (ca_args c) = true /\
  (op = "subagent_launch" -> is_Some (filled_arg (ca_args c) "taskId")) /\
  ~ In "*" (ca_target_scopes c) /\ ca_working_directory c <> "*".
Proof.
  revert named. unfold well_named. rewrite !andb_true_iff, !negb_true_iff, !String.eqb_eq, String.eqb_neq.
  intros [[[[[? ?] ?] Hlaunch] Hscopes] ?]. split_and!; try done.
  - intros Ho. rewrite Ho, String.eqb_refl in Hlaunch. by apply is_some_iff.
  - rewrite <- list_has_In. congruence.
Qed.
Lemma is_execute : is_capability_execute call = true.
Proof. unfold is_capability_execute. simpl. by rewrite (proj1 well_named_parts). Qed.

Lemma call_operation : operation call = Some op \/ operation call = None.
Proof.
  unfold operation, payload_str, ca_operation, operation_of, arg_str. simpl.
  destruct (vget (ca_args c) "operation" ≫= as_str); auto.
Qed.
Lemma call_operation_is names : operation_is call names = true -> operation call = Some op /\ In op names.
Proof.
  unfold operation_is. destruct call_operation as [->| ->]; [|done]. by rewrite list_has_In.
Qed.
Lemma call_scopes s :
  In s (authority_scopes_from_invocation call) -> In s (gr_allowed_authority_scopes grant).
Proof.
  intros Hs. simpl. unfold allowed_authority_scopes. rewrite in_sort_dedup, !in_app_iff.
  right. right. left. destruct call_operation as [Hop|Hop].
  - by apply (scopes_granted call is_execute).
  - unfold authority_scopes_from_invocation in Hs. by rewrite is_execute, Hop in Hs.
Qed.
Lemma call_kinds k :
  In k (capability_execute_resource_kinds call) -> In k (gr_allowed_resource_kinds grant).
Proof.
  intros Hk. simpl. destruct well_named_parts as (_ & Hkinds & _). destruct call_operation as [Hop|Hop].
  - by apply (kinds_granted call).
  - unfold capability_execute_resource_kinds in Hk. by rewrite Hop in Hk.
Qed.
Lemma call_created k :
  In k (created_resource_kinds_from_invocation call) -> In k (capability_execute_resource_kinds call).
Proof.
  destruct call_operation as [Hop|Hop]; [by apply (created_granted call is_execute op)|].
  unfold created_resource_kinds_from_invocation. by rewrite is_execute, Hop.
Qed.
Lemma checked_selected field r :
  In field (checked_fields op) -> arg_str (ca_args c) field = Some r ->
  In ("resource:" +s r) (gr_resource_selectors grant).
Proof.
  intros Hf Ha. destruct well_named_parts as (_ & _ & Hnames & _). unfold names_granted in Hnames.
  rewrite forallb_forall in Hnames. specialize (Hnames field Hf). rewrite Ha in Hnames.
  apply andb_true_iff in Hnames as [Hg%list_has_In Hb%negb_true_iff]. by apply (resource_selected _ _ _ _ field).
Qed.

Lemma no_wildcards more label :
  (forall label items, In (label, items) more -> ~ In "*" items) ->
  ensure_no_wildcards grant (grant_item_lists grant ++ more) label = Ok tt.
Proof.
  intros Hmore. destruct well_named_parts as (_ & _ & _ & _ & Hscopes & _).
  unfold ensure_no_wildcards. rewrite try_each_ok, List.Forall_forall. intros [l items] Hin.
  apply guard_ok. apply not_true_iff_false. rewrite list_has_In.
  apply in_app_iff in Hin as [Hin|Hin]; [|by apply (Hmore l)].
  destruct Hin as [[= <- <-]|[[= <- <-]|[[= <- <-]|[]]]].
  - by apply scopes_starless.
  - apply kinds_starless.
  - by apply (selectors_explicit debug _ _ resources).
Qed.
Lemma no_wildcard_items label : ensure_no_wildcard_grant_items grant label = Ok tt.
Proof. by apply (no_wildcards [] label). Qed.
Lemma kinds_selected label :
  ensure_kind_selectors grant (capability_execute_resource_kinds call) label = Ok tt.
Proof.
  unfold ensure_kind_selectors. apply (each_allowed (fun kind => list_has _ ("kind:" +s kind))).
  intros k Hk%call_kinds. apply list_has_In. by apply kind_selected.
Qed.
Lemma exact_selected_ok fields label :
  (forall field, In field fields -> In field (checked_fields op)) ->
  ensure_exact_payload_resource_selectors grant call fields label = Ok tt.
Proof.
  intros Hf. unfold ensure_exact_payload_resource_selectors. rewrite try_each_ok, List.Forall_forall.
  intros field Hin. change (payload_str call field) with (arg_str (ca_args c) field).
  destruct (arg_str (ca_args c) field) as [r|] eqn:Ha; [|done].
  unfold ensure_exact_resource_selector, allows_resource_id.
  rewrite (proj2 (allows_item_iff _ ("resource:" +s r))); [by rewrite orb_true_r|].
  right. by apply (checked_selected field); [apply Hf|].
Qed.
Lemma exact_one_ok field label :
  In field RESOURCE_ID_FIELDS ->
  ensure_exact_payload_resource_selectors grant call [field] label = Ok tt.
Proof.
  intros Hf. apply exact_selected_ok. intros ? [<-|[]]. apply in_or_app. by left.
Qed.

Ltac checks := rewrite ?no_wildcard_items, ?kinds_selected; cbv iota.
Ltac ifs :=
  repeat match goal with |- (if ?b then _ else _) = _ => destruct b; [reflexivity|] end; reflexivity.
Lemma procedural_ok :
  is_procedural_module_invocation call = true -> ensure_procedural_module_grant_is_explicit grant call = Ok tt.
Proof.
  intros [_ Hop]%andb_true_iff. apply call_operation_is in Hop as [_ Hop].
  unfold ensure_procedural_module_grant_is_explicit. cbv zeta. checks.
  assert (In "proceduralRecordResourceId" RESOURCE_ID_FIELDS /\
    In "proceduralActivationRequestResourceId" RESOURCE_ID_FIELDS /\
    In "proceduralActivationDecisionResourceId" RESOURCE_ID_FIELDS) as (H1 & H2 & H3)
    by (rewrite <- !list_has_In; by vm_compute).
  rewrite !exact_one_ok by done.
  change (payload_str call "proceduralKind") with (arg_str (ca_args c) "proceduralKind").
  destruct well_named_parts as (_ & Hkinds & _).
  apply andb_true_iff in Hkinds as [_ Hkind]. apply list_has_In in Hop.
  change (procedural_module_operation op = true) in Hop. rewrite Hop in Hkind.
  apply is_some_iff in Hkind as [kind Hkind].
  pose proof (procedural_selected sha256_hex json_text c followups kind Hop Hkind) as Hsel%list_has_In.
  revert Hkind. unfold args_procedural_kind.
  destruct (arg_str (ca_args c) "proceduralKind") as [k|]; [|done]. destruct (list_has _ k); [|done].
  intros [= ->]. simpl gr_resource_selectors. rewrite Hsel. simpl negb. cbv iota.
  ifs.
Qed.

Lemma program_execution_ok :
  is_module_program_execution_invocation call = true ->
  ensure_module_program_execution_grant_is_explicit grant call = Ok tt.
Proof.
  intros _. unfold ensure_module_program_execution_grant_is_explicit. cbv zeta. checks.
  rewrite exact_one_ok by (apply list_has_In; vm_compute; reflexivity).
  destruct (operation_is call ["module_program_execution_start"]); [reflexivity|].
  destruct (operation_is call ["module_program_execution_status"; _; _]) eqn:Hop; [|reflexivity].
  apply call_operation_is in Hop as [_ Hop].
  apply exact_selected_ok. unfold checked_fields. intros field Hin. rewrite !in_app_iff.
  apply list_has_In in Hop. rewrite Hop. destruct Hin as [<-|[<-|[]]].
  - left. apply list_has_In. vm_compute. reflexivity.
  - right. left. by left.
Qed.
Lemma subagent_ok :
  is_delegated_subagent_invocation call = true ->
  ensure_delegated_subagent_grant_is_explicit sha256_hex grant call = Ok tt.
Proof.
  intros _. unfold ensure_delegated_subagent_grant_is_explicit. cbv zeta. checks.
  destruct (operation_is call ["subagent_launch"]) eqn:Hop.
  { apply call_operation_is in Hop as [_ [Hop|[]]]. symmetry in Hop.
    destruct well_named_parts as (_ & _ & _ & Hlaunch & _). destruct (Hlaunch Hop) as [task Htask].
    pose proof (launch_selected sha256_hex json_text c followups task Hop Htask) as Hsel.
    unfold subagent_launch_resource_id. cbv zeta. cbn [inv_context new_sync].
    destruct context_fields as (_ & -> & -> & _). cbn [is_some].
    change (payload_str call "taskId") with (arg_str (ca_args c) "taskId").
    revert Htask. unfold filled_arg. destruct (arg_str (ca_args c) "taskId") as [v|]; [|done].
    destruct (is_blank v); [done|]. intros [= ->].
    unfold ensure_exact_resource_selector. match goal with |- (if ?b then _ else _) = _ =>
      assert (b = true) as ->; [|reflexivity] end.
    apply orb_true_iff. right. apply allows_item_iff. right. exact Hsel. }
  destruct (operation_is call ["subagent_status"; _; _]) eqn:Hop'; [|reflexivity].
  apply call_operation_is in Hop' as [_ Hop']. apply exact_selected_ok.
  intros ? [<-|[]]. unfold checked_fields. rewrite !in_app_iff. right. right.
  assert (delegated_subagent_operation op = true) as ->; [|by left].
  apply list_has_In. right. exact Hop'.
Qed.
Lemma memory_ok :
  is_memory_module_invocation call = true -> ensure_memory_module_grant_is_explicit grant call = Ok tt.
Proof.
  intros _. unfold ensure_memory_module_grant_is_explicit. cbv zeta. checks.
  rewrite !exact_one_ok by (apply list_has_In; vm_compute; reflexivity). ifs.
Qed.
Lemma context_control_ok :
  is_context_control_invocation call = true -> ensure_context_control_grant_is_explicit grant call = Ok tt.
Proof.
  intros [_ Hop]%andb_true_iff. apply call_operation_is in Hop as [_ Hop%list_has_In].
  unfold ensure_context_control_grant_is_explicit. cbv zeta. checks.
  rewrite !exact_one_ok by (apply list_has_In; vm_compute; reflexivity).
  cbn [inv_context new_sync]. destruct context_fields as (_ & -> & _).
  pose proof (session_selected sha256_hex json_text c followups Hop) as Hsel%list_has_In.
  cbn [gr_resource_selectors grant_from_request runtime_request dg_resource_selectors].
  rewrite Hsel. cbn [negb]. ifs.
Qed.
Lemma file_git_ok : ensure_file_git_module_grant_is_explicit grant = Ok tt.
Proof.
  destruct well_named_parts as (_ & _ & _ & _ & _ & Hroot). apply no_wildcards.
  intros label items [[= <- <-]|[]] [Hstar|[]]. by apply Hroot.
Qed.
Lemma privileged_ok : ensure_privileged_operations sha256_hex grant call = Ok tt.
Proof.
  unfold ensure_privileged_operations. rewrite !seq_ok.
  split_and!; unfold when; match goal with |- (if ?b then _ else _) = _ =>
    destruct b eqn:Hb; [|reflexivity] end;
  first [apply context_control_ok, Hb | apply program_execution_ok, Hb | apply procedural_ok, Hb
        | apply subagent_ok, Hb | apply memory_ok, Hb | apply file_git_ok
        | unfold ensure_jobs_grant_is_explicit; checks; reflexivity
        | apply (no_wildcards []); intros ? ? []].
Qed.

(** What remains is what the arguments of the call name. *)
Lemma delegated_checked :
  is_delegated_subagent_invocation call = true -> In "subagentTaskResourceId" (checked_fields op).
Proof.
  intros [_ Hop]%andb_true_iff. apply call_operation_is in Hop as [_ Hop%list_has_In].
  unfold checked_fields. rewrite !in_app_iff. right. right.
  unfold delegated_subagent_operation. rewrite Hop. by left.
Qed.
Lemma resources_selected r :
  In r (resource_ids_from_invocation call) -> In ("resource:" +s r) (gr_resource_selectors grant).
Proof.
  unfold resource_ids_from_invocation. rewrite in_app_iff. intros [Hr|Hr].
  - apply list_elem_of_In, list_elem_of_omap in Hr as (field & Hf%list_elem_of_In & Ha).
    apply (checked_selected field); [apply in_or_app; by left|exact Ha].
  - destruct (is_delegated_subagent_invocation call) eqn:Hd; [|done].
    destruct (payload_str call "subagentTaskResourceId") as [id'|] eqn:Ha; [|done].
    destruct Hr as [->|[]].
    by apply (checked_selected "subagentTaskResourceId"); [apply delegated_checked|exact Ha].
Qed.
Lemma selected_kinds_ok k : In k (selected_kinds call) -> In ("kind:" +s k) (gr_resource_selectors grant).
Proof.
  intros Hk. apply kind_selected, call_kinds. unfold selected_kinds in Hk.
  destruct (resource_ids_from_invocation call); [|by apply call_created].
  unfold resource_kinds_from_invocation in Hk. rewrite is_execute in Hk. by apply in_push_all.
Qed.

Lemma call_authorized now f :
  fn_id f = ca_target c -> incl (ar_scopes (fn_required_authority f)) (ca_target_scopes c) ->
  risk_rank (fn_risk_level f) <= risk_rank Risk_Medium ->
  paths_covered debug fs grant call ->
  authorize_with_grant debug sha256_hex fs now grant f call = Ok tt.
Proof.
  intros Hf Hscopes Hrisk Hpaths. apply authorize_ok. split; [|exact privileged_ok].
  constructor; try done.
  - intros field [<-|[<-|[]]]; vm_compute; congruence.
  - intros a [= <-]. exact (proj1 context_fields).
  - left. right. rewrite Hf. simpl. unfold allowed_capabilities. apply in_sort_dedup.
    destruct (narrow_operation op); by left.
  - intros s Hs. right. apply in_app_iff in Hs as [Hs|Hs]; [|by apply call_scopes].
    simpl. apply in_sort_dedup, in_app_iff. left. by apply Hscopes.
  - intros k Hk. right. unfold resource_kinds_from_invocation in Hk. rewrite is_execute in Hk.
    apply call_kinds. by apply in_push_all.
  - intros r Hr. right. right. by apply resources_selected.
  - intros k Hk. right. by apply selected_kinds_ok.
  - by right.
Qed.
End call.

(** ** Deriving, then calling *)

Section composed.
  Variable debug : string -> string.
  Variable sha256_hex : string -> string.
  Variable json_text : Value -> string.
  Variable fs : FileSystem.
  Variable rfc3339 : instant -> string.
  Variable parse_rfc3339 : string -> result string instant.

(** The host that runs the handler of the grant primitives on the store of grants. *)
Definition grant_host (now : instant) (generated uuid : string) (i : Invocation) (s : GrantStore) :
    InvocationResult * GrantStore :=
  let '(answer, s) := grant_primitive fs rfc3339 parse_rfc3339 now generated uuid i s in
  (match answer with
   | Ok v => result_success i "grant" 1 1 v
   | Err e => result_error i "grant" 1 1 e
   end, s).

Lemma grant_derive_stores created generated uuid r s g s' :
  dg_grant_id r = None -> grant_derive fs created generated uuid r s = Ok (g, s') ->
  g = grant_from_request r generated created 1 /\ gs_grants s' !! generated = Some g.
Proof.
  intros Hid. unfold grant_derive. rewrite Hid. intros H.
  destruct (validate_derive_request _ _) as [[]|]; [|done]. destruct (require_grant _ _) as [p|]; [|done].
  destruct (ensure_parent_can_derive _ _) as [[]|]; [|done].
  destruct (ensure_child_narrows_parent _ _ _) as [[]|]; [|done]. cbn [default] in H.
  destruct (is_some _); [done|]. injection H as <- <-. split; [done|].
  cbn [record_grant_event gs_grants put_grant]. apply lookup_insert_eq.
Qed.
Lemma derived_runtime_grant created generated uuid resources id trace c s runtime s' :
  is_blank (ca_actor_id c) = false ->
  derive_capability_runtime_grant debug sha256_hex json_text (grant_host created generated uuid)
    resources id trace c s = (Ok runtime, s') ->
  exists followups,
    (if subagent_followup_operation (ca_operation c)
     then delegated_subagent_followup_selectors debug resources (ca_args c) else Ok []) = Ok followups /\
    crg_grant_id runtime = generated /\
    gs_grants s' !! generated = Some (grant_from_request
      (runtime_request (selector_list sha256_hex json_text c followups) trace c) generated created 1).
Proof.
  intros Hactor. unfold derive_capability_runtime_grant, resource_selectors.
  destruct (if subagent_followup_operation _ then _ else _) as [followups|e]; [|done].
  set (selectors := selector_list sha256_hex json_text c followups).
  unfold grant_host, grant_primitive.
  change (inv_function_id (derive_invocation sha256_hex json_text id trace selectors c) =s DERIVE_FUNCTION)
    with true.
  change (inv_payload (derive_invocation sha256_hex json_text id trace selectors c))
    with (jobj (derive_fields selectors c)).
  change (cx_trace_id (inv_context (derive_invocation sha256_hex json_text id trace selectors c))) with trace.
  cbv iota. rewrite derive_request_runtime by done.
  set (r := runtime_request selectors trace c). cbv beta iota.
  destruct (grant_derive fs created generated uuid r s) as [[g s1]|e] eqn:Hd; [|done].
  apply grant_derive_stores in Hd as [-> Hs]; [|done]. cbn [changing result_success ir_error ir_value].
  change ((vget (j{"grant" ~> grant_value rfc3339 (grant_from_request r generated created 1)}) "grant"
           ≫= (fun grant => vget grant "grantId")) ≫= as_str) with (Some generated).
  cbv beta iota. unfold engine_id_new. destruct (validate_non_empty _ _) as [[]|]; [|done].
  intros [= <- <-]. by exists followups.
Qed.

(** Every path the call names, and the working directory it runs in, lies under the
    working directory of the session. *)
Definition paths_in_working_directory (c : CapabilityCall) (i : Invocation) : Prop :=
  exists paths, paths_from_invocation debug fs i = Ok paths /\
    forall p, In p paths -> exists canonical,
      canonical_string fs p = Ok canonical /\ roots_allow fs [ca_working_directory c] canonical.

End composed.

(** ** Samples *)

Definition brief (v : Value) : string := "json".
Definition no_time (s : string) : result string instant := Err "".
Definition launch_call (args : list (string * Value)) : CapabilityCall :=
  {| ca_actor_id := "agent:s"; ca_target := "capability::execute"; ca_target_scopes := ["capability.execute"];
     ca_session_id := "s"; ca_workspace_id := None; ca_working_directory := "/work";
     ca_invocation_id := "call_1"; ca_model_primitive_name := "execute"; ca_turn := 1; ca_run_id := None;
     ca_args := jobj (("operation" ~> "subagent_launch") :: ("moduleLifecycleResourceId" ~> "m") :: args) |}.
Notation named_launch := (launch_call ["taskId" ~> "task"]).
Notation sample_derivation c :=
  (derive_capability_runtime_grant no_debug no_debug brief (grant_host sample_fs no_rfc no_time 1 "g1" "u1")
     resource_memory_new "i1" "t" c (grant_store_new 0)).
Definition launch_grant : CapabilityRuntimeGrant :=
  {| crg_grant_id := "g1";
     crg_authority_scopes := causal_authority_scopes "subagent_launch"
       (allowed_authority_scopes "subagent_launch" (ca_args named_launch) ["capability.execute"]) |}.
Notation sample_launch c :=
  (new_sync "i2" "capability::execute" (ca_args c)
     (capability_context no_debug brief c launch_grant "t" "anthropic" None)).


(** The task id of a launch is optional.  Without it, the grant names the task by the
    provider's id of the call and the authorization by the id of the invocation: the
    derivation succeeds and the launch is refused. *)
Theorem unnamed_launch_is_refused :
  fst (sample_derivation (launch_call [])) = Ok launch_grant /\
  authorize_invocation no_debug no_debug sample_fs 2 Authorization.sample_execute (sample_launch (launch_call []))
    (snd (sample_derivation (launch_call [])))
  = Err (PolicyViolation ("authority grant g1 requires exact selector for subagentTaskResourceId resource "
      +s "subagent_task:session:s:i2:model-capability-invocation:v1:json on delegated subagent launch")).
Proof. split; vm_compute; reflexivity. Qed.
