(* ===== verification/ResourcePrimitive.v ===== *)
(** * The resource primitives

    [engine/primitives/resource]: the functions [resource::*] and their wrappers
    ([artifact::*], [goal::*], [claim::*], [evidence::*], [decision::*],
    [materialized_file::*], [patch::*]) over the resource store and the disk.

    The handlers run on a [World]: the in-memory resource store (the SQLite one
    refines it, see ResourceSqlite), a disk, and the number of ids drawn so far.  An
    error ends a handler and keeps what it has done until then.  The disk is any
    instance of the class [Disk]; the JSON text of values, SHA-256 in hex, RFC 3339
    texts, lower-casing, and the texts of deserialization errors are parameters.  The
    clock is read once per invocation. *)

From stdpp Require Import base gmap strings list pretty.
From Stdlib Require Import ZArith Ascii String Lia.
From S2P Require Import Prelude Sorting Json Kernel Model Schema Policy Paths Grants Ledger Catalog Meta.
From S2P Require Import UiSurface Resources Messages GrantPrimitive.
Import JsonNotations.

#[local] Open Scope Z_scope.

(** ** Serialized records *)

Section values.
  Variable rfc3339 : instant -> string.

(** The derived [Serialize] of the records of the store. *)
(* SRC engine/durability/resources/types.rs:231-242! EngineResourceScope *)
Definition resource_scope_value (s : EngineResourceScope) : Value :=
  match s with
  | ResScope_System => "system"
  | ResScope_Workspace w => j{"workspace" ~> w}
  | ResScope_Session x => j{"session" ~> x}
  end.
(* SRC engine/durability/resources/types.rs:350-382 EngineResourceTypeDefinition *)
Definition type_definition_value (d : EngineResourceTypeDefinition) : Value :=
  j{"kind" ~> ty_kind d; "schemaId" ~> ty_schema_id d; "schema" ~> ty_schema d;
    "lifecycleStates" ~> jstrs (ty_lifecycle_states d);
    "versioningMode" ~> versioning_as_str (ty_versioning_mode d);
    "allowedLinkRelations" ~> jstrs (ty_allowed_link_relations d);
    "defaultRetention" ~> ty_default_retention d; "redactionRules" ~> ty_redaction_rules d;
    "materializationRules" ~> ty_materialization_rules d;
    "requiredCapabilities" ~> ty_required_capabilities d;
    "ownerWorkerId" ~> ty_owner_worker_id d; "revision" ~> jnum (ty_revision d);
    "createdAt" ~> rfc3339 (ty_created_at d); "updatedAt" ~> rfc3339 (ty_updated_at d)}.
(* SRC engine/durability/resources/types.rs:384-414 EngineResource *)
Definition resource_value (r : EngineResource) : Value :=
  j{"resourceId" ~> res_id r; "kind" ~> res_kind r; "schemaId" ~> res_schema_id r;
    "scope" ~> resource_scope_value (res_scope r); "ownerWorkerId" ~> res_owner_worker_id r;
    "ownerActorId" ~> res_owner_actor_id r; "lifecycle" ~> res_lifecycle r;
    "policy" ~> res_policy r; "currentVersionId" ~> jstr (res_current_version_id r);
    "traceId" ~> res_trace_id r;
    "createdByInvocationId" ~> jstr (res_created_by_invocation_id r);
    "createdAt" ~> rfc3339 (res_created_at r); "updatedAt" ~> rfc3339 (res_updated_at r)}.
(* SRC engine/durability/resources/types.rs:442-454 EngineResourceLocation *)
Definition location_value (l : EngineResourceLocation) : Value :=
  j{"kind" ~> loc_kind l; "uri" ~> loc_uri l; "mimeType" ~> jstr (loc_mime_type l);
    "sizeBytes" ~> jopt (jnum <$> loc_size_bytes l)}.
(* SRC engine/durability/resources/types.rs:416-440 EngineResourceVersion *)
Definition version_value (v : EngineResourceVersion) : Value :=
  j{"versionId" ~> ver_id v; "resourceId" ~> ver_resource_id v;
    "parentVersionId" ~> jstr (ver_parent_version_id v); "contentHash" ~> ver_content_hash v;
    "state" ~> version_state_as_str (ver_state v); "payload" ~> ver_payload v;
    "locations" ~> VArray (map location_value (ver_locations v));
    "createdByInvocationId" ~> jstr (ver_created_by_invocation_id v);
    "traceId" ~> ver_trace_id v; "createdAt" ~> rfc3339 (ver_created_at v)}.
(* SRC engine/durability/resources/types.rs:456-476 EngineResourceLink *)
Definition link_value (l : EngineResourceLink) : Value :=
  j{"linkId" ~> lnk_id l; "sourceResourceId" ~> lnk_source_resource_id l;
    "targetResourceId" ~> lnk_target_resource_id l; "relation" ~> lnk_relation l;
    "metadata" ~> lnk_metadata l;
    "createdByInvocationId" ~> jstr (lnk_created_by_invocation_id l);
    "traceId" ~> lnk_trace_id l; "createdAt" ~> rfc3339 (lnk_created_at l)}.
(* SRC engine/durability/resources/types.rs:478-496 EngineResourceEvent *)
Definition resource_event_value (e : EngineResourceEvent) : Value :=
  j{"eventId" ~> rev_id e; "resourceId" ~> rev_resource_id e; "eventType" ~> rev_type e;
    "payload" ~> rev_payload e; "invocationId" ~> jstr (rev_invocation_id e);
    "traceId" ~> rev_trace_id e; "occurredAt" ~> rfc3339 (rev_occurred_at e)}.
(* SRC engine/durability/resources/types.rs:605-619 EngineResourceInspection *)
Definition inspection_value (i : EngineResourceInspection) : Value :=
  j{"resource" ~> resource_value (ri_resource i);
    "versions" ~> VArray (map version_value (ri_versions i));
    "outgoingLinks" ~> VArray (map link_value (ri_outgoing_links i));
    "incomingLinks" ~> VArray (map link_value (ri_incoming_links i));
    "events" ~> VArray (map resource_event_value (ri_events i))}.
End values.

(* SRC engine/primitives/resource/common.rs:231-241 resource_ref_from_resource *)
Definition resource_ref_from_resource (r : EngineResource) (role : string) : Value :=
  match res_current_version_id r with
  | Some version_id =>
      j{"resourceId" ~> res_id r; "kind" ~> res_kind r; "role" ~> role; "versionId" ~> version_id}
  | None => j{"resourceId" ~> res_id r; "kind" ~> res_kind r; "role" ~> role}
  end.
(* SRC engine/primitives/resource/common.rs:243-255 resource_ref_from_version *)
Definition resource_ref_from_version (v : EngineResourceVersion) (kind role : string) : Value :=
  j{"resourceId" ~> ver_resource_id v; "kind" ~> kind; "versionId" ~> ver_id v; "role" ~> role;
    "contentHash" ~> ver_content_hash v}.

(** ** The disk

    [disk_files] answers the questions about paths; [disk_metadata] is whether the entry is
    a directory and whether it is read-only. *)

Class Disk (D : Type) := {
  disk_files : D -> FileSystem;
  disk_metadata : D -> path -> option (bool * bool);
  disk_read : D -> path -> result string string;
  disk_create_dir_all : path -> D -> result string unit * D;
  disk_write : path -> string -> D -> result string unit * D
}.

Section primitives.
  Context {D : Type} {HD : Disk D}.
  Variable debug : string -> string.
  Variable json_len : Value -> Z.
  Variable rfc3339_error : string -> option string.
  Variable json_text : Value -> string.
  Variable sha256_hex : string -> string.
  Variable rfc3339 : instant -> string.
  Variable to_lowercase : string -> string.
  Variable locations_error : Value -> string.
  Variable uuid : nat -> string.
  Variable now : instant.

Record World := { w_store : ResourceMemory; w_disk : D; w_drawn : nat }.
Definition set_store (s : ResourceMemory) (w : World) : World :=
  {| w_store := s; w_disk := w_disk w; w_drawn := w_drawn w |}.
Definition set_disk (d : D) (w : World) : World :=
  {| w_store := w_store w; w_disk := d; w_drawn := w_drawn w |}.

(** A handler reads and changes the world and ends with a result. *)
Definition Handler (A : Type) : Type := World -> Result A * World.
#[global] Instance handler_ret : MRet Handler := fun A a w => (Ok a, w).
#[global] Instance handler_bind : MBind Handler := fun A B k m w =>
  match m w with
  | (Ok a, w) => k a w
  | (Err e, w) => (Err e, w)
  end.
Definition lift {A} (r : Result A) : Handler A := fun w => (r, w).
Definition throw {A} (e : EngineError) : Handler A := fun w => (Err e, w).
(** The store with four ids for each operation. *)
Definition on_store {A} (op : (nat -> string) -> ResourceMemory -> Result (A * ResourceMemory)) :
    Handler A := fun w =>
  match op (fun n => uuid (w_drawn w + n)%nat) (w_store w) with
  | Ok (a, s) => (Ok a, {| w_store := s; w_disk := w_disk w; w_drawn := (w_drawn w + 4)%nat |})
  | Err e => (Err e, {| w_store := w_store w; w_disk := w_disk w; w_drawn := (w_drawn w + 4)%nat |})
  end.
(** An operation on the disk; a failure may leave a part of it done. *)
Definition on_disk (op : D -> result string unit * D) (failure : string -> EngineError) : Handler unit :=
  fun w => match op (w_disk w) with
           | (Ok _, d) => (Ok tt, set_disk d w)
           | (Err error, d) => (Err (failure error), set_disk d w)
           end.
Definition ask {A} (query : ResourceMemory -> Result A) : Handler A := fun w => (query (w_store w), w).

Definition store_register_type (r : RegisterResourceType) : Handler EngineResourceTypeDefinition :=
  on_store (fun _ => memory_register_type debug now r).
Definition store_create (r : CreateResource) : Handler EngineResource :=
  on_store (fun ids => memory_create debug json_len rfc3339_error json_text sha256_hex now ids r).
Definition store_update (r : UpdateResource) : Handler EngineResourceVersion :=
  on_store (fun ids => memory_update debug json_len rfc3339_error json_text sha256_hex now ids r).
Definition store_link (r : LinkResources) : Handler EngineResourceLink :=
  on_store (fun ids => memory_link debug now ids r).
Definition store_inspect (id : string) : Handler (option EngineResourceInspection) :=
  ask (memory_inspect debug id).
Definition store_list (f : ListResources) : Handler (list EngineResource) := ask (memory_list debug f).

(** ** Inputs *)

Definition payload_of (i : Invocation) : Value := inv_payload i.
Definition field (i : Invocation) (name : string) : option Value := vget (inv_payload i) name.
Definition opt_text (i : Invocation) (name : string) : Handler (option string) :=
  lift (optional_string (field i name)).
Definition req_text (i : Invocation) (name : string) : Handler string :=
  lift (required_str (inv_payload i) name).
(** [optional_u64(..)?.unwrap_or(d) as usize] *)
Definition limit_or (i : Invocation) (name : string) (d : Z) : Handler Z :=
  n ← lift (optional_u64 (field i name)); mret (default d n).
(** [invocation.payload.get(field).cloned().unwrap_or_else(|| json!({}))] *)
Definition value_or (i : Invocation) (name : string) (v : Value) : Value := default v (field i name).
(** [...cloned().ok_or_else(|| PolicyViolation(message))] *)
Definition required_value (i : Invocation) (name message : string) : Handler Value :=
  lift (ok_or (field i name) (PolicyViolation message)).

(* SRC engine/primitives/resource/input.rs:60-67 non_empty_scope_id *)
Definition non_empty_scope_id (name value : string) : Result string :=
  if is_blank value then policy_error (name +s " must not be empty") else Ok value.
Definition or_else {A} (a b : option A) : option A := match a with Some _ => a | None => b end.
(* SRC engine/primitives/resource/input.rs:3-58 resource_scope_from_payload *)
Definition resource_scope_from_payload (i : Invocation) (allow_absent : bool) :
    Result EngineResourceScope :=
  let c := inv_context i in
  let? explicit := optional_string (field i "scope") in
  match explicit with
  | Some kind =>
      if kind =s "system" then Ok ResScope_System
      else if kind =s "workspace" then
        let? id := optional_string (field i "workspaceId") in
        let? id := ok_or (or_else id (cx_workspace_id c))
                     (PolicyViolation "workspace-scoped resource requires workspaceId") in
        let? id := non_empty_scope_id "workspaceId" id in Ok (ResScope_Workspace id)
      else if kind =s "session" then
        let? id := optional_string (field i "sessionId") in
        let? id := ok_or (or_else id (cx_session_id c))
                     (PolicyViolation "session-scoped resource requires sessionId") in
        let? id := non_empty_scope_id "sessionId" id in Ok (ResScope_Session id)
      else policy_error ("unsupported resource scope " +s kind)
  | None =>
      if allow_absent then policy_error "resource scope filter absent"
      else match cx_workspace_id c, cx_session_id c with
           | Some workspace_id, _ =>
               let? id := non_empty_scope_id "workspaceId" workspace_id in Ok (ResScope_Workspace id)
           | None, Some session_id =>
               let? id := non_empty_scope_id "sessionId" session_id in Ok (ResScope_Session id)
           | None, None => Ok ResScope_System
           end
  end.
(* SRC engine/primitives/resource/input.rs:69-80 versioning_mode *)
Definition versioning_mode (payload : Value) : Result EngineResourceVersioningMode :=
  let? mode := optional_string (vget payload "versioningMode") in
  let mode := default "append_only" mode in
  if mode =s "append_only" then Ok AppendOnly
  else if mode =s "current_pointer" then Ok CurrentPointer
  else policy_error ("unsupported resource versioning mode " +s mode).

(** The derived [Deserialize]: an object, or the fields in order as an array. *)
Definition read_option {A} (read : Value -> option A) (v : option Value) : option (option A) :=
  match v with
  | None | Some Null => Some None
  | Some v => match read v with Some a => Some (Some a) | None => None end
  end.
Definition location_of_fields (kind uri : option Value) (mime size : option Value) :
    option EngineResourceLocation :=
  match kind ≫= as_str, uri ≫= as_str, read_option as_str mime, read_option as_u64 size with
  | Some kind, Some uri, Some mime, Some size =>
      Some {| loc_kind := kind; loc_uri := uri; loc_mime_type := mime; loc_size_bytes := size |}
  | _, _, _, _ => None
  end.
(* SRC engine/durability/resources/types.rs:442-454 EngineResourceLocation *)
Definition location_of_value (v : Value) : option EngineResourceLocation :=
  match v with
  | VObject _ => location_of_fields (vget v "kind") (vget v "uri") (vget v "mimeType") (vget v "sizeBytes")
  | VArray [kind; uri; mime; size] => location_of_fields (Some kind) (Some uri) (Some mime) (Some size)
  | _ => None
  end.
(* SRC engine/primitives/resource/input.rs:82-92 locations *)
Definition locations (payload : Value) : Result (list EngineResourceLocation) :=
  match vget payload "locations" with
  | None => Ok []
  | Some v =>
      match as_array v ≫= mapM location_of_value with
      | Some l => Ok l
      | None => policy_error ("invalid resource locations: " +s locations_error v)
      end
  end.
(* SRC engine/primitives/resource/input.rs:120-124 optional_worker_id *)
Definition optional_worker_id (payload : Value) (name : string) : Result (option WorkerId) :=
  optional_id "worker" (vget payload name).

(** ** Shared steps *)

(* SRC engine/primitives/resource/common.rs:4-11 optional_resource_scope_filter *)
Definition optional_resource_scope_filter (i : Invocation) : Result (option EngineResourceScope) :=
  match field i "scope" with
  | None => Ok None
  | Some _ => let? scope := resource_scope_from_payload i false in Ok (Some scope)
  end.
(* SRC engine/primitives/resource/common.rs:25-52 create_typed_resource *)
Definition create_typed_resource (i : Invocation) (kind : string) (lifecycle : option string)
    (payload : option Value) : Handler EngineResource :=
  let c := inv_context i in
  resource_id ← opt_text i "resourceId";
  scope ← lift (resource_scope_from_payload i false);
  named ← opt_text i "lifecycle";
  where_ ← lift (locations (inv_payload i));
  store_create
    {| nr_resource_id := resource_id; nr_kind := kind; nr_schema_id := None; nr_scope := scope;
       nr_owner_worker_id := "resource"; nr_owner_actor_id := cx_actor_id c;
       nr_lifecycle := or_else lifecycle named; nr_policy := value_or i "policy" (j{});
       nr_initial_payload := payload; nr_locations := where_; nr_trace_id := cx_trace_id c;
       nr_invocation_id := Some (inv_id i) |}.
(* SRC engine/primitives/resource/common.rs:13-23 create_wrapper_resource *)
Definition create_wrapper_resource (i : Invocation) (kind : string) (lifecycle : option string) :
    Handler EngineResource :=
  payload ← required_value i "payload" (inv_function_id i +s " requires payload");
  create_typed_resource i kind lifecycle (Some payload).
Definition update_request (i : Invocation) (id : string) (expected lifecycle : option string)
    (payload : Value) (state : option EngineResourceVersionState)
    (where_ : list EngineResourceLocation) : UpdateResource :=
  {| up_resource_id := id; up_expected_current_version_id := expected; up_lifecycle := lifecycle;
     up_payload := payload; up_state := state; up_locations := where_;
     up_trace_id := cx_trace_id (inv_context i); up_invocation_id := Some (inv_id i) |}.
(* SRC engine/primitives/resource/common.rs:54-73 update_wrapper_resource *)
Definition update_wrapper_resource (i : Invocation) (lifecycle : option string) :
    Handler EngineResourceVersion :=
  id ← req_text i "resourceId";
  expected ← opt_text i "expectedCurrentVersionId";
  payload ← required_value i "payload" (inv_function_id i +s " requires payload");
  where_ ← lift (locations (inv_payload i));
  store_update (update_request i id expected lifecycle payload None where_).

(** [store.inspect(id)?.ok_or_else(|| NotFound)?] *)
Definition inspect_existing (id : string) : Handler EngineResourceInspection :=
  found ← store_inspect id; lift (ok_or found (NotFound "resource" id)).
(* SRC engine/primitives/resource/common.rs:157-169 ensure_resource_kind *)
Definition ensure_resource_kind (found : EngineResourceInspection) (expected : string) : Result unit :=
  let r := ri_resource found in
  if res_kind r =s expected then Ok tt
  else policy_error ("resource " +s res_id r +s " is kind " +s res_kind r +s ", expected " +s expected).
(* SRC engine/primitives/resource/common.rs:147-155 ensure_inspected_kind *)
Definition ensure_inspected_kind (found : option EngineResourceInspection) (expected : string) :
    Result unit :=
  match found with Some found => ensure_resource_kind found expected | None => Ok tt end.
Definition current_version (found : EngineResourceInspection) : option EngineResourceVersion :=
  res_current_version_id (ri_resource found)
  ≫= (fun current => List.find (fun v => ver_id v =s current) (ri_versions found)).
(* SRC engine/primitives/resource/common.rs:171-189 current_payload *)
Definition current_payload (found : EngineResourceInspection) : Result Value :=
  ok_or (ver_payload <$> current_version found)
    (PolicyViolation ("resource " +s res_id (ri_resource found) +s " has no current payload")).
Definition version_conflict (id : string) (expected actual : option string) : EngineError :=
  PolicyViolation ("resource " +s id +s " version conflict: expected " +s debug_option debug expected
                   +s ", actual " +s debug_option debug actual).
(** The version that the caller expects, when it names one, must be the current one. *)
Definition expected_version (i : Invocation) (id : string) (found : EngineResourceInspection) :
    Handler (option string) :=
  let actual := res_current_version_id (ri_resource found) in
  expected ← opt_text i "expectedCurrentVersionId";
  if is_some expected && negb (bool_decide (expected = actual))
  then throw (version_conflict id expected actual) else mret (or_else expected actual).
(* SRC engine/primitives/resource/common.rs:85-120 lifecycle_resource_by_id *)
Definition lifecycle_resource_by_id (i : Invocation) (id kind lifecycle : string) :
    Handler EngineResourceVersion :=
  found ← inspect_existing id;
  _ ← lift (ensure_resource_kind found kind);
  expected ← expected_version i id found;
  payload ← lift (current_payload found);
  store_update (update_request i id expected (Some lifecycle) payload None []).
(* SRC engine/primitives/resource/common.rs:75-83 lifecycle_wrapper_resource *)
Definition lifecycle_wrapper_resource (i : Invocation) (kind lifecycle : string) :
    Handler EngineResourceVersion :=
  id ← req_text i "resourceId"; lifecycle_resource_by_id i id kind lifecycle.
Definition link_request (i : Invocation) (source target relation : string) (metadata : Value) :
    LinkResources :=
  {| li_source_resource_id := source; li_target_resource_id := target; li_relation := relation;
     li_metadata := metadata; li_trace_id := cx_trace_id (inv_context i);
     li_invocation_id := Some (inv_id i) |}.
(* SRC engine/primitives/resource/common.rs:122-145 create_and_attach_resource *)
Definition create_and_attach_resource (i : Invocation) (kind default_relation : string) :
    Handler (EngineResource * EngineResourceLink) :=
  resource ← create_wrapper_resource i kind None;
  target ← req_text i "targetResourceId";
  relation ← opt_text i "relation";
  link ← store_link (link_request i (res_id resource) target (default default_relation relation)
                       (value_or i "metadata" (j{})));
  mret (resource, link).
(* SRC engine/primitives/resource/common.rs:218-229 resource_kind_for_version *)
Definition resource_kind_for_version (v : EngineResourceVersion) : Handler string :=
  found ← inspect_existing (ver_resource_id v); mret (res_kind (ri_resource found)).

Definition resource_response (r : EngineResource) (role : string) : Value :=
  j{"resource" ~> resource_value rfc3339 r; "resourceRefs" ~> j[resource_ref_from_resource r role] }.
Definition version_response (v : EngineResourceVersion) (kind role : string) : Value :=
  j{"version" ~> version_value rfc3339 v; "resourceRefs" ~> j[resource_ref_from_version v kind role] }.
(* SRC engine/primitives/resource/common.rs:191-203 wrapper_create_response *)
Definition wrapper_create_response (i : Invocation) (kind : string) (lifecycle : option string)
    (role : string) : Handler Value :=
  resource ← create_wrapper_resource i kind lifecycle; mret (resource_response resource role).
(* SRC engine/primitives/resource/common.rs:205-216 wrapper_version_response *)
Definition wrapper_version_response (version : EngineResourceVersion) (role : string) : Handler Value :=
  kind ← resource_kind_for_version version; mret (version_response version kind role).

(** ** Artifacts and goals *)

(** [for x in l { out.push(f(x)?) }] *)
Definition for_each {A B} (f : A -> Handler B) : list A -> Handler (list B) :=
  fix go l := match l with
              | [] => mret []
              | x :: l => y ← f x; ys ← go l; mret (y :: ys)
              end.
Definition with_payload (i : Invocation) (payload : Value) : Invocation :=
  {| inv_id := inv_id i; inv_function_id := inv_function_id i;
     inv_delivery_mode := inv_delivery_mode i; inv_payload := payload;
     inv_context := inv_context i |}.
Definition inspect_artifact (id : string) : Handler EngineResourceInspection :=
  found ← inspect_existing id; _ ← lift (ensure_resource_kind found "artifact"); mret found.

(** [object.insert(field, value)] for the fields that are present. *)
Definition insert_present (fields : list (string * option Value)) (object : list (string * Value)) :
    list (string * Value) :=
  fold_left (fun object kv => match snd kv with
                              | Some v => obj_insert object (fst kv) v
                              | None => object
                              end) fields object.
(* SRC engine/primitives/resource/artifact.rs:264-276 merge_payload_base *)
Definition merge_payload_base (i : Invocation) (payload : Value) : Value :=
  let object := insert_present
    (("resourceId", vget payload "resourceId")
     :: map (fun name => (name, field i name))
          ["scope"; "sessionId"; "workspaceId"; "lifecycle"; "policy"]) [] in
  VObject (obj_insert object "payload" payload).
(** The payload of the invocation that creates one part. *)
(* SRC engine/primitives/resource/artifact.rs:34-42! artifact_split_response *)
Definition part_payload (i : Invocation) (part : Value) : Value :=
  let child := merge_payload_base i (default part (vget part "payload")) in
  match vget part "resourceId", child with
  | Some id, VObject object => VObject (obj_insert object "resourceId" id)
  | _, _ => child
  end.
(* SRC engine/primitives/resource/artifact.rs:8-62 artifact_split_response *)
Definition artifact_split_response (i : Invocation) : Handler Value :=
  source_id ← req_text i "resourceId";
  source ← inspect_artifact source_id;
  parts ← lift (ok_or (field i "parts" ≫= as_array) (PolicyViolation "artifact::split requires parts"));
  if is_nil parts then throw (PolicyViolation "artifact::split requires at least one part")
  else
  made ← for_each (fun part =>
    artifact ← create_wrapper_resource (with_payload i (part_payload i part)) "artifact" None;
    link ← store_link (link_request i (res_id artifact) source_id "derived_from"
                         (j{"operation" ~> "artifact::split"}));
    mret (artifact, link)) parts;
  mret (j{"source" ~> resource_value rfc3339 (ri_resource source);
          "parts" ~> VArray (map (resource_value rfc3339 ∘ fst) made);
          "links" ~> VArray (map (link_value rfc3339 ∘ snd) made);
          "resourceRefs" ~>
            VArray (map (fun m => resource_ref_from_resource (fst m) "split_part") made)}).

Definition link_each (i : Invocation) (source relation : string) (metadata : Value)
    (targets : list string) : Handler (list EngineResourceLink) :=
  for_each (fun target => store_link (link_request i source target relation metadata)) targets.
Definition links_value (links : list EngineResourceLink) : Value :=
  VArray (map (link_value rfc3339) links).
(* SRC engine/primitives/resource/artifact.rs:64-100 artifact_compose_response *)
Definition artifact_compose_response (i : Invocation) : Handler Value :=
  input_ids ← lift (string_array (inv_payload i) "inputResourceIds");
  if is_nil input_ids then throw (PolicyViolation "artifact::compose requires inputResourceIds")
  else
  _ ← for_each inspect_artifact input_ids;
  artifact ← create_wrapper_resource i "artifact" None;
  links ← link_each i (res_id artifact) "derived_from" (j{"operation" ~> "artifact::compose"}) input_ids;
  mret (j{"artifact" ~> resource_value rfc3339 artifact; "links" ~> links_value links;
          "resourceRefs" ~> j[resource_ref_from_resource artifact "composed"] }).
(* SRC engine/primitives/resource/artifact.rs:102-154 artifact_merge_response *)
Definition artifact_merge_response (i : Invocation) : Handler Value :=
  target_id ← req_text i "targetResourceId";
  source_ids ← lift (string_array (inv_payload i) "sourceResourceIds");
  _ ← inspect_artifact target_id;
  _ ← for_each inspect_artifact source_ids;
  expected ← opt_text i "expectedCurrentVersionId";
  lifecycle ← opt_text i "lifecycle";
  payload ← required_value i "payload" "artifact::merge requires payload";
  where_ ← lift (locations (inv_payload i));
  version ← store_update (update_request i target_id expected lifecycle payload None where_);
  links ← link_each i target_id "supersedes" (j{"operation" ~> "artifact::merge"}) source_ids;
  mret (j{"version" ~> version_value rfc3339 version; "links" ~> links_value links;
          "resourceRefs" ~> j[resource_ref_from_version version "artifact" "merged"] }).

(** [text.chars().take(limit).collect()]: a character is a byte with the continuation bytes
    that follow it. *)
Fixpoint take_chars (limit : Z) (s : string) : string :=
  match s with
  | EmptyString => EmptyString
  | String a s =>
      if (128 <=? code a) && (code a <=? 191) then String a (take_chars limit s)
      else if limit <=? 0 then EmptyString else String a (take_chars (limit - 1) s)
  end.
(* SRC engine/primitives/resource/artifact.rs:278-299 resource_preview *)
Definition resource_preview (found : EngineResourceInspection) (limit : Z) : string :=
  let payload := default Null (ver_payload <$> current_version found) in
  let text := or_else (vget payload "summary") (or_else (vget payload "title") (vget payload "body"))
              ≫= as_str in
  take_chars limit (default (json_text payload) text).

(** The loop of the search; [matches] are in reverse. *)
(* SRC engine/primitives/resource/artifact.rs:168-187! artifact_search_response *)
Fixpoint search_loop (query : string) (limit : Z) (artifacts : list EngineResource)
    (matches : list (EngineResource * string)) : Handler (list (EngineResource * string)) :=
  match artifacts with
  | [] => mret (rev matches)
  | artifact :: artifacts =>
      found ← store_inspect (res_id artifact);
      match found with
      | None => search_loop query limit artifacts matches
      | Some found =>
          let preview := resource_preview found 512 in
          let matches :=
            if contains (to_lowercase preview) query || contains (to_lowercase (res_id artifact)) query
            then (artifact, preview) :: matches else matches in
          if limit <=? Z.of_nat (List.length matches) then mret (rev matches)
          else search_loop query limit artifacts matches
      end
  end.
Definition match_value (m : EngineResource * string) : Value :=
  j{"resource" ~> resource_value rfc3339 (fst m); "preview" ~> VString (snd m)}.
(* SRC engine/primitives/resource/artifact.rs:156-192 artifact_search_response *)
Definition artifact_search_response (i : Invocation) : Handler Value :=
  query ← req_text i "query";
  limit ← limit_or i "limit" 25;
  scope ← lift (optional_resource_scope_filter i);
  artifacts ← store_list
    {| lf_kind := Some "artifact"; lf_scope := scope; lf_lifecycle := None;
       lf_limit := Z.min (Z.max (Z.min (limit * 4) u64_max) limit) 500 |};
  matches ← search_loop (to_lowercase query) limit artifacts [];
  mret (j{"matches" ~> VArray (map match_value matches);
          "resourceRefs" ~> VArray (map (fun m => resource_ref_from_resource (fst m) "match") matches)}).

(* SRC engine/primitives/resource/artifact.rs:301-313 linked_by_relation *)
Definition linked_by_relation (goal : EngineResourceInspection) (id relation : string) : bool :=
  existsb (fun l => (lnk_target_resource_id l =s id) && (lnk_relation l =s relation))
    (ri_outgoing_links goal)
  || existsb (fun l => (lnk_source_resource_id l =s id) && (lnk_relation l =s relation))
       (ri_incoming_links goal).
(** The ids of the other ends of the links, as a sorted set. *)
(* SRC engine/primitives/resource/artifact.rs:209-214! goal_working_set_response *)
Definition linked_ids (goal_id : string) (goal : EngineResourceInspection) : list string :=
  btree_keys (delete goal_id
    (list_to_map (flat_map (fun l => [(lnk_source_resource_id l, tt); (lnk_target_resource_id l, tt)])
       (ri_outgoing_links goal ++ ri_incoming_links goal)) : gmap string unit)).
Definition projected_value (found : EngineResourceInspection) (preview_bytes : Z) : Value :=
  j{"resource" ~> resource_value rfc3339 (ri_resource found);
    "preview" ~> resource_preview found preview_bytes;
    "outgoingLinks" ~> links_value (ri_outgoing_links found);
    "incomingLinks" ~> links_value (ri_incoming_links found)}.
(* SRC engine/primitives/resource/artifact.rs:194-262 goal_working_set_response *)
Definition goal_working_set_response (i : Invocation) : Handler Value :=
  goal_id ← req_text i "goalResourceId";
  preview_bytes ← limit_or i "previewBytes" 1024;
  limit ← limit_or i "limit" 100;
  goal ← inspect_existing goal_id;
  _ ← lift (ensure_resource_kind goal "goal");
  let ids := linked_ids goal_id goal in
  found ← for_each (fun id => found ← store_inspect id; mret (found ≫= (fun f => Some (id, f))))
            (take (Z.to_nat (Z.min limit (Z.of_nat (List.length ids)))) ids);
  let found := omap id found in
  let project keep := VArray (map (fun f => projected_value (snd f) preview_bytes)
                                (List.filter keep found)) in
  mret (j{"goal" ~> resource_value rfc3339 (ri_resource goal);
          "resources" ~> project (fun _ => true);
          "links" ~> links_value (ri_outgoing_links goal ++ ri_incoming_links goal);
          "unresolvedClaims" ~> project (fun f => (res_kind (ri_resource (snd f)) =s "claim")
                                                  && (res_lifecycle (ri_resource (snd f)) =s "draft"));
          "candidateOutputs" ~> project (fun f => linked_by_relation goal (fst f) "candidate_output");
          "promotedOutputs" ~> project (fun f => linked_by_relation goal (fst f) "promoted_output")}).

(** ** Materialized files *)

(** The loop that climbs to an existing ancestor; [rest] is the path in reverse, [suffix] the names
    below it.  A path that ends in a name has a parent, so the other failure of the loop is not
    reached. *)
(* SRC engine/primitives/resource/materialized_file.rs:515-532! canonical_materialized_path *)
Fixpoint materializable (fs : FileSystem) (text : string) (absolute : bool) (rest : list component)
    (suffix : list component) : Result path :=
  let ancestor := {| p_absolute := absolute; p_components := rev rest |} in
  if fs_exists fs ancestor then
    match fs_canonicalize fs ancestor with
    | Ok resolved => Ok {| p_absolute := p_absolute resolved;
                           p_components := p_components resolved ++ suffix |}
    | Err error => policy_error ("canonicalize parent: " +s error)
    end
  else match rest with
       | Normal name :: rest => materializable fs text absolute rest (Normal name :: suffix)
       | _ => policy_error ("path " +s text +s " has no materializable name")
       end.
(** The components of a relative path below the working directory. *)
(* SRC engine/primitives/resource/materialized_file.rs:487-508! canonical_materialized_path *)
Definition relative_components (text : string) (candidate : path) : Result (list component) :=
  let? parts := try_map (fun c => match c with
      | Normal _ => Ok [c]
      | CurDir => Ok []
      | ParentDir => policy_error ("relative materialized path " +s text
                                   +s " must stay inside the active working directory")
      end) (p_components candidate) in
  let relative := List.concat parts in
  if is_nil relative then policy_error "materialized path cannot be empty" else Ok relative.
(* SRC engine/primitives/resource/materialized_file.rs:474-533 canonical_materialized_path *)
Definition canonical_materialized_path (fs : FileSystem) (i : Invocation) (text : string) : Result path :=
  let candidate := parse_path text in
  if fs_exists fs candidate then
    match fs_canonicalize fs candidate with
    | Ok p => Ok p
    | Err error => policy_error ("canonicalize " +s text +s ": " +s error)
    end
  else
  let? absolute :=
    if p_absolute candidate then Ok candidate
    else match runtime_metadata (inv_context i) RUNTIME_METADATA_WORKING_DIRECTORY with
         | Some base =>
             let? relative := relative_components text candidate in
             Ok (path_join (parse_path base) {| p_absolute := false; p_components := relative |})
         | None =>
             match fs_current_dir fs with
             | Ok cwd => Ok (path_join cwd candidate)
             | Err error => Err (HandlerFailed ("read current dir: " +s error))
             end
         end in
  materializable fs text (p_absolute absolute) (rev (p_components absolute)) [].

(** [path.parent()] *)
Definition path_parent (p : path) : option path :=
  match p_components p with
  | [] => None
  | cs => Some {| p_absolute := p_absolute p; p_components := removelast cs |}
  end.
Definition path_file_name (p : path) : option string :=
  match last (p_components p) with Some (Normal name) => Some name | _ => None end.
(* SRC engine/primitives/resource/materialized_file.rs:535-552 materialize_content_at_path *)
Definition materialize_content_at_path (canonical : path) (content : string) : Handler unit := fun w =>
  let fs := disk_files (w_disk w) in
  if fs_exists fs canonical && fs_is_dir fs canonical then
    if content =s "" then (Ok tt, w)
    else (policy_error ("cannot materialize file bytes over directory " +s path_display canonical), w)
  else
  (_ ← match path_parent canonical with
       | Some parent =>
           on_disk (disk_create_dir_all parent)
             (fun error => HandlerFailed ("create materialized file parent: " +s error))
       | None => mret tt
       end;
   on_disk (disk_write canonical content)
     (fun error => HandlerFailed ("write materialized file: " +s error))) w.

(* SRC engine/primitives/resource/materialized_file.rs:428-446 materialized_file_payload *)
Definition materialized_file_payload (canonical : path) (content content_hash : string) (d : D) : Value :=
  let metadata := disk_metadata d canonical in
  j{"canonicalPath" ~> path_display canonical;
    "relativePath" ~> default "" (path_file_name canonical);
    "entryType" ~> (if default false (fst <$> metadata) then "directory" else "file" : Value);
    "content" ~> content; "contentHash" ~> content_hash; "sizeBytes" ~> jnum (len content);
    "mimeType" ~> "text/plain";
    "metadata" ~> j{"readonly" ~> VBool (default false (snd <$> metadata))}}.
(* SRC engine/primitives/resource/materialized_file.rs:448-467 materialized_file_locations *)
Definition materialized_file_locations (canonical : path) (size_bytes : Z) (content_hash : string) :
    list EngineResourceLocation :=
  [{| loc_kind := "file"; loc_uri := path_display canonical; loc_mime_type := Some "text/plain";
      loc_size_bytes := Some size_bytes |};
   {| loc_kind := "blob"; loc_uri := "sha256:" +s content_hash; loc_mime_type := Some "text/plain";
      loc_size_bytes := Some size_bytes |}].
(* SRC engine/primitives/resource/materialized_file.rs:469-472 materialized_file_resource_id *)
Definition materialized_file_resource_id (p : path) : string :=
  "materialized_file:" +s sha256_hex (path_display p).
(* SRC engine/primitives/resource/materialized_file.rs:236-247 ensure_materialized_file_operational *)
Definition ensure_materialized_file_operational (found : EngineResourceInspection) (operation : string) :
    Result unit :=
  let r := ri_resource found in
  if res_lifecycle r =s "discarded"
  then policy_error ("materialized file resource " +s res_id r +s " is discarded and cannot be "
                     +s operation)
  else Ok tt.
(* SRC engine/primitives/resource/materialized_file.rs:402-426 current_version_for_inspection *)
Definition current_version_for_inspection (found : EngineResourceInspection) :
    Result EngineResourceVersion :=
  let r := ri_resource found in
  match res_current_version_id r with
  | None => policy_error ("resource " +s res_id r +s " has no current version")
  | Some current =>
      ok_or (List.find (fun v => ver_id v =s current) (ri_versions found))
        (PolicyViolation ("resource " +s res_id r +s " current version " +s current +s " is missing"))
  end.
(* SRC engine/primitives/resource/materialized_file.rs:389-400 current_version_for_resource *)
Definition current_version_for_resource (id : string) : Handler EngineResourceVersion :=
  found ← inspect_existing id; lift (current_version_for_inspection found).

(** What a file is written as: the path, the content and its hash, the id of its resource. *)
(* SRC engine/primitives/resource/materialized_file.rs:39-52! create_materialized_file *)
Definition file_request (i : Invocation) : Handler (path * string * string * string) := fun w =>
  (text ← req_text i "path";
   content ← opt_text i "content";
   let content := default "" content in
   canonical ← lift (canonical_materialized_path (disk_files (w_disk w)) i text);
   let content_hash := sha256_hex content in
   declared ← opt_text i "contentHash";
   if match declared with Some declared => negb (declared =s content_hash) | None => false end
   then throw (PolicyViolation ("materialized file hash mismatch for " +s path_display canonical
          +s ": declared " +s default "" declared +s ", actual " +s content_hash))
   else
   named ← opt_text i "resourceId";
   mret (canonical, content, content_hash,
         default (materialized_file_resource_id canonical) named)) w.
(** The checks on a resource that has the id already: the version to replace. *)
(* SRC engine/primitives/resource/materialized_file.rs:54-74! create_materialized_file *)
Definition replaceable (i : Invocation) (id : string) (allow_update : bool)
    (found : EngineResourceInspection) : Handler (option string) :=
  _ ← lift (ensure_resource_kind found "materialized_file");
  _ ← lift (ensure_materialized_file_operational found "updated");
  if negb allow_update
  then throw (PolicyViolation ("materialized file resource " +s id +s " already exists"))
  else expected_version i id found.
(** The resource that an update has just changed is still there ([unwrap]). *)
(* SRC engine/primitives/resource/materialized_file.rs:34-118 create_materialized_file *)
Definition create_materialized_file (i : Invocation) (allow_update : bool) :
    Handler (EngineResource * EngineResourceVersion) :=
  request ← file_request i;
  let '(canonical, content, content_hash, id) := request in
  let payload_now := fun w => (Ok (materialized_file_payload canonical content content_hash (w_disk w)), w) in
  let where_ := materialized_file_locations canonical (len content) content_hash in
  existing ← store_inspect id;
  match existing with
  | Some found =>
      expected ← replaceable i id allow_update found;
      _ ← materialize_content_at_path canonical content;
      payload ← (payload_now : Handler Value);
      version ← store_update (update_request i id expected (Some "materialized") payload None where_);
      after ← inspect_existing id;
      mret (ri_resource after, version)
  | None =>
      scope ← lift (resource_scope_from_payload i false);
      _ ← materialize_content_at_path canonical content;
      payload ← (payload_now : Handler Value);
      resource ← store_create
        {| nr_resource_id := Some id; nr_kind := "materialized_file"; nr_schema_id := None;
           nr_scope := scope; nr_owner_worker_id := "resource";
           nr_owner_actor_id := cx_actor_id (inv_context i); nr_lifecycle := Some "materialized";
           nr_policy := value_or i "policy" (j{}); nr_initial_payload := Some payload;
           nr_locations := where_; nr_trace_id := cx_trace_id (inv_context i);
           nr_invocation_id := Some (inv_id i) |};
      version ← current_version_for_resource (res_id resource);
      mret (resource, version)
  end.
Definition file_response (written : EngineResource * EngineResourceVersion) (role : string) : Value :=
  j{"version" ~> version_value rfc3339 (snd written); "resource" ~> resource_value rfc3339 (fst written);
    "resourceRefs" ~> j[resource_ref_from_version (snd written) "materialized_file" role] }.
(* SRC engine/primitives/resource/materialized_file.rs:8-19 materialized_file_create_response *)
Definition materialized_file_create_response (i : Invocation) : Handler Value :=
  written ← create_materialized_file i false; mret (file_response written "materialized").
(* SRC engine/primitives/resource/materialized_file.rs:21-32 materialized_file_update_response *)
Definition materialized_file_update_response (i : Invocation) : Handler Value :=
  written ← create_materialized_file i true; mret (file_response written "updated").
(* SRC engine/primitives/resource/materialized_file.rs:120-154 artifact_materialize_response *)
Definition artifact_materialize_response (i : Invocation) : Handler Value :=
  artifact_id ← req_text i "artifactResourceId";
  path ← req_text i "path";
  found ← inspect_artifact artifact_id;
  artifact_payload ← lift (current_payload found);
  let content := default (json_text artifact_payload) (vget artifact_payload "body" ≫= as_str) in
  resource_id ← opt_text i "resourceId";
  let payload := j{"path" ~> VString path; "content" ~> VString content;
                   "resourceId" ~> jstr resource_id} in
  written ← create_materialized_file (with_payload i payload) true;
  mret (j{"artifact" ~> resource_value rfc3339 (ri_resource found);
          "materializedFile" ~> resource_value rfc3339 (fst written);
          "version" ~> version_value rfc3339 (snd written);
          "resourceRefs" ~>
            j[resource_ref_from_version (snd written) "materialized_file" "materialized"] }).
Definition inspect_operational (id operation : string) : Handler EngineResourceInspection :=
  found ← inspect_existing id;
  _ ← lift (ensure_resource_kind found "materialized_file");
  _ ← lift (ensure_materialized_file_operational found operation);
  mret found.
(* SRC engine/primitives/resource/materialized_file.rs:156-176 materialized_file_read_response *)
Definition materialized_file_read_response (i : Invocation) : Handler Value :=
  id ← req_text i "resourceId";
  found ← inspect_operational id "read";
  payload ← lift (current_payload found);
  mret (j{"content" ~> default "" (vget payload "content" ≫= as_str);
          "resource" ~> resource_value rfc3339 (ri_resource found)}).

(** [value[key] = v] *)
Definition set_key (v : Value) (key : string) (x : Value) : Value :=
  match v with VObject fields => VObject (obj_insert fields key x) | _ => v end.
(* SRC engine/primitives/resource/materialized_file.rs:249-276 damaged_materialized_file_response *)
Definition damaged_materialized_file_response (i : Invocation) (found : EngineResourceInspection)
    (current : EngineResourceVersion) (payload : Value) (damage_reason : string)
    (actual_hash : option string) : Handler Value :=
  let damaged_payload := set_key (set_key payload "actualContentHash" (jstr actual_hash))
                           "damageReason" damage_reason in
  version ← store_update
    (update_request i (res_id (ri_resource found)) (res_current_version_id (ri_resource found))
       (Some "damaged") damaged_payload (Some Damaged) (ver_locations current));
  mret (version_response version "materialized_file" "damaged").
(* SRC engine/primitives/resource/materialized_file.rs:178-234 materialized_file_hash_verify_response *)
Definition materialized_file_hash_verify_response (i : Invocation) : Handler Value :=
  id ← req_text i "resourceId";
  found ← inspect_operational id "verified";
  current ← lift (current_version_for_inspection found);
  let payload := ver_payload current in
  canonical ← lift (ok_or (vget payload "canonicalPath" ≫= as_str)
                      (PolicyViolation "materialized file has no canonicalPath"));
  read ← ((fun w => (Ok (disk_read (w_disk w) (parse_path canonical)), w)) : Handler (result string string));
  match read with
  | Err error =>
      damaged_materialized_file_response i found current payload
        ("materialized file bytes are missing or unreadable: " +s error) None
  | Ok bytes =>
      let actual_hash := sha256_hex bytes in
      if actual_hash =s default "" (vget payload "contentHash" ≫= as_str)
      then mret (version_response current "materialized_file" "verified")
      else damaged_materialized_file_response i found current payload
             "file bytes do not match contentHash" (Some actual_hash)
  end.

(** ** Patches *)

(* SRC engine/primitives/resource/materialized_file.rs:278-317 patch_propose_response *)
Definition patch_propose_response (i : Invocation) : Handler Value :=
  target_path ← req_text i "targetPath";
  target ← opt_text i "targetResourceId";
  base_version ← opt_text i "baseVersionId";
  base_hash ← opt_text i "baseContentHash";
  diff ← req_text i "diff";
  let payload := insert_present
    [("targetPath", Some (VString target_path));
     ("targetResourceId", VString <$> target);
     ("baseVersionId", VString <$> base_version);
     ("baseContentHash", VString <$> base_hash);
     ("diff", Some (VString diff));
     ("status", Some (VString "proposed"));
     ("result", Some (value_or i "result" (j{})))] [] in
  resource ← create_typed_resource i "patch_proposal" (Some "proposed") (Some (VObject payload));
  mret (resource_response resource "patch").
(** The payload of a proposal after it was applied. *)
(* SRC engine/primitives/resource/materialized_file.rs:347-369! patch_apply_response *)
Definition applied_payload (patch_payload : Value) (target_path : string)
    (file_version : EngineResourceVersion) : Value :=
  VObject (insert_present
    [("targetPath", Some (VString target_path));
     ("targetResourceId", Some (VString (ver_resource_id file_version)));
     ("baseVersionId", VString <$> (vget patch_payload "baseVersionId" ≫= as_str));
     ("baseContentHash", VString <$> (vget patch_payload "baseContentHash" ≫= as_str));
     ("diff", Some (default (VString "") (vget patch_payload "diff")));
     ("status", Some (VString "applied"));
     ("result", Some (j{"versionId" ~> ver_id file_version}))] []).
(* SRC engine/primitives/resource/materialized_file.rs:319-387 patch_apply_response *)
Definition patch_apply_response (i : Invocation) : Handler Value :=
  patch_id ← req_text i "patchResourceId";
  patch ← inspect_existing patch_id;
  _ ← lift (ensure_resource_kind patch "patch_proposal");
  patch_payload ← lift (current_payload patch);
  target_path ← lift (ok_or (vget patch_payload "targetPath" ≫= as_str)
                        (PolicyViolation "patch proposal missing targetPath"));
  new_content ← req_text i "content";
  target ← opt_text i "targetResourceId";
  let resource_id := or_else target (vget patch_payload "targetResourceId" ≫= as_str) in
  let payload := j{"path" ~> VString target_path; "content" ~> VString new_content;
                   "resourceId" ~> jstr resource_id} in
  written ← create_materialized_file (with_payload i payload) true;
  let file_version := snd written in
  patch_version ← store_update
    (update_request i patch_id (res_current_version_id (ri_resource patch)) (Some "applied")
       (applied_payload patch_payload target_path file_version) None []);
  mret (j{"patch" ~> version_value rfc3339 patch_version;
          "version" ~> version_value rfc3339 file_version;
          "resourceRefs" ~>
            j[resource_ref_from_version patch_version "patch_proposal" "applied_patch";
              resource_ref_from_version file_version "materialized_file" "patched_file"] }).

(** ** The handler *)

Definition owner_worker (i : Invocation) : Handler WorkerId :=
  owner ← lift (optional_worker_id (inv_payload i) "ownerWorkerId"); mret (default "resource" owner).
(* SRC engine/primitives/resource/mod.rs:252-292! ResourcePrimitiveHandler::invoke *)
Definition register_type_response (i : Invocation) : Handler Value :=
  kind ← req_text i "kind";
  schema_id ← req_text i "schemaId";
  states ← lift (string_array (inv_payload i) "lifecycleStates");
  mode ← lift (versioning_mode (inv_payload i));
  relations ← lift (optional_string_array (inv_payload i) "allowedLinkRelations");
  owner ← owner_worker i;
  d ← store_register_type
    {| rt_kind := kind; rt_schema_id := schema_id;
       rt_schema := value_or i "schema" (j{"type" ~> "object"});
       rt_lifecycle_states := states; rt_versioning_mode := mode;
       rt_allowed_link_relations := default [] relations;
       rt_default_retention := value_or i "defaultRetention" (j{"class" ~> "scratch"});
       rt_redaction_rules := value_or i "redactionRules" (j{"preview" ~> "redacted"});
       rt_materialization_rules := value_or i "materializationRules" (j{});
       rt_required_capabilities := value_or i "requiredCapabilities" (j{});
       rt_owner_worker_id := owner |};
  mret (j{"typeDefinition" ~> type_definition_value rfc3339 d}).
(* SRC engine/primitives/resource/mod.rs:293-319! ResourcePrimitiveHandler::invoke *)
Definition create_response (i : Invocation) : Handler Value :=
  resource_id ← opt_text i "resourceId";
  kind ← req_text i "kind";
  schema_id ← opt_text i "schemaId";
  scope ← lift (resource_scope_from_payload i false);
  owner ← owner_worker i;
  lifecycle ← opt_text i "lifecycle";
  where_ ← lift (locations (inv_payload i));
  resource ← store_create
    {| nr_resource_id := resource_id; nr_kind := kind; nr_schema_id := schema_id; nr_scope := scope;
       nr_owner_worker_id := owner; nr_owner_actor_id := cx_actor_id (inv_context i);
       nr_lifecycle := lifecycle; nr_policy := value_or i "policy" (j{});
       nr_initial_payload := field i "payload"; nr_locations := where_;
       nr_trace_id := cx_trace_id (inv_context i); nr_invocation_id := Some (inv_id i) |};
  mret (resource_response resource "created").
(* SRC engine/primitives/resource/mod.rs:320-342! ResourcePrimitiveHandler::invoke *)
Definition update_response (i : Invocation) : Handler Value :=
  id ← req_text i "resourceId";
  expected ← opt_text i "expectedCurrentVersionId";
  lifecycle ← opt_text i "lifecycle";
  payload ← required_value i "payload" "resource update requires payload";
  where_ ← lift (locations (inv_payload i));
  version ← store_update (update_request i id expected lifecycle payload None where_);
  wrapper_version_response version "updated".
(* SRC engine/primitives/resource/mod.rs:343-363! ResourcePrimitiveHandler::invoke *)
Definition link_response (i : Invocation) : Handler Value :=
  source ← req_text i "sourceResourceId";
  target ← req_text i "targetResourceId";
  relation ← req_text i "relation";
  link ← store_link (link_request i source target relation (value_or i "metadata" (j{})));
  mret (j{"link" ~> link_value rfc3339 link}).
(* SRC engine/primitives/resource/mod.rs:364-367! ResourcePrimitiveHandler::invoke *)
Definition inspect_response (i : Invocation) : Handler Value :=
  id ← req_text i "resourceId";
  found ← store_inspect id;
  mret (j{"inspection" ~> jopt (inspection_value rfc3339 <$> found)}).
(* SRC engine/primitives/resource/mod.rs:368-376! ResourcePrimitiveHandler::invoke *)
Definition list_response (i : Invocation) : Handler Value :=
  kind ← opt_text i "kind";
  scope ← lift (optional_resource_scope_filter i);
  lifecycle ← opt_text i "lifecycle";
  limit ← limit_or i "limit" 100;
  found ← store_list {| lf_kind := kind; lf_scope := scope; lf_lifecycle := lifecycle; lf_limit := limit |};
  mret (j{"resources" ~> VArray (map (resource_value rfc3339) found)}).
(* SRC engine/primitives/resource/mod.rs:394-399! ResourcePrimitiveHandler::invoke *)
Definition inspect_kind_response (i : Invocation) (kind : string) : Handler Value :=
  id ← req_text i "resourceId";
  found ← store_inspect id;
  _ ← lift (ensure_inspected_kind found kind);
  mret (j{"inspection" ~> jopt (inspection_value rfc3339 <$> found)}).
Definition lifecycle_response (i : Invocation) (kind lifecycle : string) : Handler Value :=
  version ← lifecycle_wrapper_resource i kind lifecycle;
  wrapper_version_response version lifecycle.
(* SRC engine/primitives/resource/mod.rs:482-505! ResourcePrimitiveHandler::invoke *)
Definition attach_response (i : Invocation) (kind default_relation : string) : Handler Value :=
  made ← create_and_attach_resource i kind default_relation;
  mret (j{"resource" ~> resource_value rfc3339 (fst made); "link" ~> link_value rfc3339 (snd made);
          "resourceRefs" ~> j[resource_ref_from_resource (fst made) kind] }).
(* SRC engine/primitives/resource/mod.rs:408-480! ResourcePrimitiveHandler::invoke *)
Definition goal_complete_response (i : Invocation) : Handler Value :=
  goal_id ← req_text i "goalResourceId";
  agent_result_id ← req_text i "agentResultResourceId";
  promoted ← lift (string_array (inv_payload i) "promotedResourceIds");
  if is_nil promoted
  then throw (PolicyViolation "goal::complete requires at least one promoted resource")
  else
  decision_payload ← required_value i "decision" "goal::complete requires decision payload";
  decision ← create_typed_resource i "decision" (Some "final") (Some decision_payload);
  goal_version ← lifecycle_resource_by_id i goal_id "goal" "completed";
  link ← store_link (link_request i goal_id (res_id decision) "decided_by" (value_or i "metadata" (j{})));
  agent_link ← store_link (link_request i goal_id agent_result_id "produced"
                             (j{"role" ~> "agent_result"}));
  promoted_links ← link_each i goal_id "promoted_output" (j{}) promoted;
  mret (j{"goalVersion" ~> version_value rfc3339 goal_version;
          "decision" ~> resource_value rfc3339 decision; "link" ~> link_value rfc3339 link;
          "agentResultLink" ~> link_value rfc3339 agent_link;
          "promotedLinks" ~> links_value promoted_links;
          "resourceRefs" ~> j[resource_ref_from_version goal_version "goal" "completed";
                              resource_ref_from_resource decision "decision"] }).
Definition artifact_update_response (i : Invocation) : Handler Value :=
  version ← update_wrapper_resource i None; wrapper_version_response version "updated".

(** The functions and their handlers, in the order of the match. *)
(* SRC engine/primitives/resource/mod.rs:54-85! REGISTER_TYPE_FUNCTION *)
Definition resource_handlers : list (string * (Invocation -> Handler Value)) :=
  [("resource::register_type", register_type_response);
   ("resource::create", create_response);
   ("resource::update", update_response);
   ("resource::link", link_response);
   ("resource::inspect", inspect_response);
   ("resource::list", list_response);
   ("artifact::create", fun i => wrapper_create_response i "artifact" None "created");
   ("artifact::update", artifact_update_response);
   ("artifact::promote", fun i => lifecycle_response i "artifact" "promoted");
   ("artifact::discard", fun i => lifecycle_response i "artifact" "discarded");
   ("artifact::inspect", fun i => inspect_kind_response i "artifact");
   ("artifact::split", artifact_split_response);
   ("artifact::compose", artifact_compose_response);
   ("artifact::merge", artifact_merge_response);
   ("artifact::search", artifact_search_response);
   ("artifact::materialize", artifact_materialize_response);
   ("goal::create", fun i => wrapper_create_response i "goal" None "created");
   ("goal::complete", goal_complete_response);
   ("goal::working_set", goal_working_set_response);
   ("claim::attach", fun i => attach_response i "claim" "claims_about");
   ("evidence::attach", fun i => attach_response i "evidence" "evidence_for");
   ("decision::create", fun i => wrapper_create_response i "decision" (Some "final") "decision");
   ("materialized_file::create", materialized_file_create_response);
   ("materialized_file::read", materialized_file_read_response);
   ("materialized_file::update", materialized_file_update_response);
   ("materialized_file::promote", fun i => lifecycle_response i "materialized_file" "promoted");
   ("materialized_file::discard", fun i => lifecycle_response i "materialized_file" "discarded");
   ("materialized_file::inspect", fun i => inspect_kind_response i "materialized_file");
   ("materialized_file::hash_verify", materialized_file_hash_verify_response);
   ("patch::propose", patch_propose_response);
   ("patch::apply", patch_apply_response);
   ("patch::merge", fun i => lifecycle_response i "patch_proposal" "merged")].
(* SRC engine/primitives/resource/mod.rs:246-566! ResourcePrimitiveHandler::invoke *)
Definition resource_primitive (i : Invocation) : Handler Value :=
  match obj_get resource_handlers (inv_function_id i) with
  | Some handler => handler i
  | None => throw (NotFound "function" (inv_function_id i))
  end.
End primitives.

(** ** Schemas *)

Definition of_type (t : string) : Value := j{"type" ~> t}.
Definition array_of (item : Value) : Value := j{"type" ~> "array"; "items" ~> item}.
Definition scope_property : Value :=
  j{"type" ~> "string"; "enum" ~> jstrs ["system"; "workspace"; "session"] }.
Definition texts (names : list string) : list (string * Value) :=
  map (fun name => (name, of_type "string")) names.
Definition scope_properties : list (string * Value) :=
  ("scope", scope_property) :: texts ["sessionId"; "workspaceId"].
(* SRC engine/primitives/resource/schemas.rs:372-387 locations_schema *)
Definition locations_schema : Value :=
  array_of (object_schema ["kind"; "uri"]
    (texts ["kind"; "uri"; "mimeType"] ++ [("sizeBytes", of_type "integer")])).
(* SRC engine/primitives/resource/schemas.rs:121-126 expected_current_version_id_property *)
Definition expected_current_version_id_property : Value :=
  j{"type" ~> "string";
    "description" ~> "Optional CAS guard; use expectedCurrentVersionId, not versionId, with a prior result's version.versionId, resourceRefs[].versionId, or inspect.resource.currentVersionId."}.
(* SRC engine/primitives/resource/schemas.rs:3-22 register_type_schema *)
Definition register_type_schema : Value :=
  object_schema ["kind"; "schemaId"; "lifecycleStates"]
    (texts ["kind"; "schemaId"; "ownerWorkerId"]
     ++ [("schema", of_type "object");
         ("lifecycleStates", j{"type" ~> "array"; "items" ~> of_type "string"; "minItems" ~> jnum 1});
         ("versioningMode", j{"type" ~> "string"; "enum" ~> jstrs ["append_only"; "current_pointer"] });
         ("allowedLinkRelations", array_of (of_type "string"));
         ("defaultRetention", of_type "object"); ("redactionRules", of_type "object");
         ("materializationRules", of_type "object"); ("requiredCapabilities", of_type "object")]).
(* SRC engine/primitives/resource/schemas.rs:351-370 resource_properties *)
Definition resource_properties (include_creation : bool) : list (string * Value) :=
  (if include_creation then texts ["resourceId"; "kind"; "schemaId"; "ownerWorkerId"] else [])
  ++ scope_properties
  ++ [("lifecycle", of_type "string"); ("policy", of_type "object"); ("payload", j{});
      ("locations", locations_schema)].
(* SRC engine/primitives/resource/schemas.rs:24-31 create_schema *)
Definition resource_create_schema : Value := object_schema ["kind"] (resource_properties true).
(* SRC engine/primitives/resource/schemas.rs:33-46 update_schema *)
Definition resource_update_schema : Value :=
  object_schema ["resourceId"; "payload"]
    (texts ["resourceId"; "lifecycle"]
     ++ [("expectedCurrentVersionId", expected_current_version_id_property); ("payload", j{});
         ("locations", locations_schema)]).
(* SRC engine/primitives/resource/schemas.rs:48-60 link_schema *)
Definition resource_link_schema : Value :=
  object_schema ["sourceResourceId"; "targetResourceId"; "relation"]
    (texts ["sourceResourceId"; "targetResourceId"; "relation"] ++ [("metadata", of_type "object")]).
(* SRC engine/primitives/resource/schemas.rs:62-75 list_schema *)
Definition resource_list_schema : Value :=
  j{"type" ~> "object"; "additionalProperties" ~> VBool false;
    "properties" ~> jobj (texts ["kind"; "lifecycle"] ++ scope_properties
                          ++ [("limit", of_type "integer")])}.
(* SRC engine/primitives/resource/schemas.rs:77-93 wrapper_create_schema *)
Definition wrapper_create_schema : Value :=
  object_schema ["payload"] (("resourceId", of_type "string") :: resource_properties false).
(* SRC engine/primitives/resource/schemas.rs:95-107 wrapper_update_schema *)
Definition wrapper_update_schema : Value :=
  object_schema ["resourceId"; "payload"]
    [("resourceId", of_type "string");
     ("expectedCurrentVersionId", expected_current_version_id_property); ("payload", j{});
     ("locations", locations_schema)].
(* SRC engine/primitives/resource/schemas.rs:109-119 wrapper_lifecycle_schema *)
Definition wrapper_lifecycle_schema : Value :=
  object_schema ["resourceId"]
    [("resourceId", of_type "string");
     ("expectedCurrentVersionId", expected_current_version_id_property)].
(* SRC engine/primitives/resource/schemas.rs:128-143 artifact_split_schema *)
Definition artifact_split_schema : Value :=
  object_schema ["resourceId"; "parts"]
    (texts ["resourceId"; "lifecycle"] ++ scope_properties
     ++ [("policy", of_type "object");
         ("parts", j{"type" ~> "array"; "items" ~> of_type "object"; "minItems" ~> jnum 1})]).
(* SRC engine/primitives/resource/schemas.rs:145-162 artifact_compose_schema *)
Definition artifact_compose_schema : Value :=
  object_schema ["inputResourceIds"; "payload"]
    ([("inputResourceIds", j{"type" ~> "array"; "items" ~> of_type "string"; "minItems" ~> jnum 1});
      ("resourceId", of_type "string")] ++ resource_properties false).
(* SRC engine/primitives/resource/schemas.rs:164-178 artifact_merge_schema *)
Definition artifact_merge_schema : Value :=
  object_schema ["targetResourceId"; "sourceResourceIds"; "payload"]
    (texts ["targetResourceId"; "lifecycle"]
     ++ [("sourceResourceIds", array_of (of_type "string"));
         ("expectedCurrentVersionId", expected_current_version_id_property); ("payload", j{});
         ("locations", locations_schema)]).
(* SRC engine/primitives/resource/schemas.rs:180-193 artifact_search_schema *)
Definition artifact_search_schema : Value :=
  object_schema ["query"] (("query", of_type "string") :: scope_properties
                           ++ [("limit", of_type "integer")]).
(* SRC engine/primitives/resource/schemas.rs:195-208 goal_complete_schema *)
Definition goal_complete_schema : Value :=
  object_schema ["goalResourceId"; "agentResultResourceId"; "promotedResourceIds"; "decision"]
    (texts ["goalResourceId"; "agentResultResourceId"]
     ++ [("promotedResourceIds",
          j{"type" ~> "array"; "items" ~> of_type "string"; "minItems" ~> jnum 1});
         ("decision", of_type "object"); ("metadata", of_type "object")]).
(* SRC engine/primitives/resource/schemas.rs:210-229 attach_schema *)
Definition attach_schema : Value :=
  object_schema ["targetResourceId"; "payload"]
    (texts ["resourceId"; "targetResourceId"; "relation"] ++ resource_properties false
     ++ [("metadata", of_type "object")]).
(* SRC engine/primitives/resource/schemas.rs:244-261 resource_refs_schema *)
Definition resource_refs_schema : Value :=
  array_of (object_schema ["resourceId"; "kind"; "role"]
    (texts ["resourceId"; "kind"; "versionId"; "role"; "contentHash"; "relation"])).
(* SRC engine/primitives/resource/schemas.rs:231-242 attach_response_schema *)
Definition attach_response_schema : Value :=
  object_schema ["resource"; "link"; "resourceRefs"]
    [("resource", of_type "object"); ("link", of_type "object"); ("resourceRefs", resource_refs_schema)].
(* SRC engine/primitives/resource/schemas.rs:263-279 materialized_file_create_schema *)
Definition materialized_file_create_schema : Value :=
  object_schema ["path"; "content"]
    (texts ["resourceId"; "path"; "content"; "contentHash"] ++ scope_properties
     ++ [("policy", of_type "object")]).
(* SRC engine/primitives/resource/schemas.rs:281-298 materialized_file_update_schema *)
Definition materialized_file_update_schema : Value :=
  object_schema ["path"; "content"]
    (texts ["resourceId"; "path"; "content"; "contentHash"] ++ scope_properties
     ++ [("expectedCurrentVersionId", expected_current_version_id_property);
         ("policy", of_type "object")]).
(* SRC engine/primitives/resource/schemas.rs:300-315 artifact_materialize_schema *)
Definition artifact_materialize_schema : Value :=
  object_schema ["artifactResourceId"; "path"]
    (texts ["artifactResourceId"; "resourceId"; "path"] ++ scope_properties
     ++ [("policy", of_type "object")]).
(* SRC engine/primitives/resource/schemas.rs:317-336 patch_propose_schema *)
Definition patch_propose_schema : Value :=
  object_schema ["targetPath"; "diff"]
    (texts ["resourceId"; "targetPath"; "targetResourceId"; "baseVersionId"; "baseContentHash"; "diff"]
     ++ scope_properties ++ [("result", of_type "object"); ("policy", of_type "object")]).
(* SRC engine/primitives/resource/schemas.rs:338-349 patch_apply_schema *)
Definition patch_apply_schema : Value :=
  object_schema ["patchResourceId"; "content"] (texts ["patchResourceId"; "targetResourceId"; "content"]).

(** ** Registrations *)

Definition with_schemas (request response : Value) (f : FunctionDefinition) : FunctionDefinition :=
  fn_with_response_schema response (fn_with_request_schema request f).
Definition backed_by (kinds : list string) (f : FunctionDefinition) : FunctionDefinition :=
  fn_with_output_contract (Output_ResourceBacked kinds true) f.
Definition response_of (fields : list (string * Value)) : Value := object_schema (map fst fields) fields.
Definition resource_field : string * Value := ("resource", of_type "object").
Definition version_field : string * Value := ("version", of_type "object").
Definition refs_field : string * Value := ("resourceRefs", resource_refs_schema).
Definition links_field : string * Value := ("links", of_type "array").
Definition id_request : Value := object_schema ["resourceId"] (texts ["resourceId"]).
Definition inspection_schema : Value :=
  response_of [("inspection", j{"type" ~> jstrs ["object"; "null"] })].

(* SRC engine/primitives/resource/mod.rs:208-218 resource_read_function *)
Definition resource_read_function (id description : string) : FunctionDefinition :=
  let f := primitive_function id "resource" description Effect_PureRead "resource.read" in
  set_fn_scope Vis_System (fn_provenance f) f.
(* SRC engine/primitives/resource/mod.rs:224-242 resource_wrapper_function *)
Definition resource_wrapper_function (id description : string) (effect : EffectClass) :
    FunctionDefinition :=
  let authority := if is_mutating effect then "resource.write" else "resource.read" in
  let f := primitive_function id "resource" description effect authority in
  if requires_idempotency effect
  then backed_by ["*"] (fn_with_idempotency caller_system_engine_ledger f) else f.
(* SRC engine/primitives/resource/mod.rs:87-201! registrations *)
Definition resource_store_registrations : list FunctionDefinition :=
  let write id description :=
    fn_with_idempotency caller_session_engine_ledger
      (primitive_function id "resource" description Effect_IdempotentWrite "resource.write") in
  [admin (with_schemas register_type_schema (response_of [("typeDefinition", of_type "object")])
     (fn_with_idempotency caller_system_engine_ledger
        (primitive_function "resource::register_type" "resource"
           "register or update a typed durable resource definition" Effect_IdempotentWrite
           "resource.admin")));
   backed_by ["*"] (with_schemas resource_create_schema (response_of [resource_field; refs_field])
     (write "resource::create" "create a typed durable engine resource"));
   backed_by ["*"] (with_schemas resource_update_schema (response_of [version_field; refs_field])
     (write "resource::update" "append a compare-and-set resource version"));
   with_schemas resource_link_schema (response_of [("link", of_type "object")])
     (write "resource::link" "create a typed relation between two resources");
   with_schemas id_request inspection_schema
     (resource_read_function "resource::inspect" "inspect one resource with versions, links, and events");
   with_schemas resource_list_schema (response_of [("resources", of_type "array")])
     (resource_read_function "resource::list" "list typed resources")].
Definition create_response_schema : Value := response_of [resource_field; refs_field].
Definition version_response_schema : Value :=
  object_schema ["version"; "resourceRefs"] [version_field; resource_field; refs_field].
Definition wrapper_write (id description : string) : FunctionDefinition :=
  resource_wrapper_function id description Effect_IdempotentWrite.
Definition wrapper_read (id description : string) : FunctionDefinition :=
  resource_wrapper_function id description Effect_PureRead.
Definition lifecycle_write (id description : string) : FunctionDefinition :=
  with_schemas wrapper_lifecycle_schema version_response_schema
    (wrapper_write id
       (description +s "; use expectedCurrentVersionId, not versionId, as the optional CAS guard")).
(* SRC engine/primitives/resource/registrations.rs:31-188! resource_wrapper_registrations *)
Definition artifact_registrations : list FunctionDefinition :=
  [with_schemas wrapper_create_schema create_response_schema
     (wrapper_write "artifact::create" "create an artifact resource");
   with_schemas wrapper_update_schema version_response_schema
     (wrapper_write "artifact::update" "append an artifact resource version");
   lifecycle_write "artifact::promote" "promote an artifact resource";
   lifecycle_write "artifact::discard" "discard an artifact resource";
   with_schemas id_request inspection_schema
     (wrapper_read "artifact::inspect" "inspect an artifact resource");
   backed_by ["artifact"] (with_schemas artifact_split_schema
     (response_of [("source", of_type "object"); ("parts", of_type "array"); links_field; refs_field])
     (wrapper_write "artifact::split" "split an artifact into derived artifact resources"));
   backed_by ["artifact"] (with_schemas artifact_compose_schema
     (response_of [("artifact", of_type "object"); links_field; refs_field])
     (wrapper_write "artifact::compose" "compose input artifacts into a new artifact resource"));
   backed_by ["artifact"] (with_schemas artifact_merge_schema
     (response_of [version_field; links_field; refs_field])
     (wrapper_write "artifact::merge" "merge artifact resources into a target artifact version"));
   with_schemas artifact_search_schema (response_of [("matches", of_type "array"); refs_field])
     (wrapper_read "artifact::search" "search artifact payload previews");
   backed_by ["materialized_file"] (with_schemas artifact_materialize_schema
     (response_of [("artifact", of_type "object"); ("materializedFile", of_type "object");
                   version_field; refs_field])
     (wrapper_write "artifact::materialize" "materialize an artifact resource into a file resource"))].
(* SRC engine/primitives/resource/registrations.rs:189-281! resource_wrapper_registrations *)
Definition goal_registrations : list FunctionDefinition :=
  [with_schemas wrapper_create_schema create_response_schema
     (wrapper_write "goal::create" "create a goal resource");
   with_schemas goal_complete_schema
     (response_of [("goalVersion", of_type "object"); ("decision", of_type "object");
                   ("link", of_type "object"); ("agentResultLink", of_type "object");
                   ("promotedLinks", of_type "array"); refs_field])
     (wrapper_write "goal::complete" "complete a goal with a decision resource");
   with_schemas
     (object_schema ["goalResourceId"]
        [("goalResourceId", of_type "string"); ("previewBytes", of_type "integer");
         ("limit", of_type "integer")])
     (response_of [("goal", of_type "object"); ("resources", of_type "array"); links_field;
                   ("unresolvedClaims", of_type "array"); ("candidateOutputs", of_type "array");
                   ("promotedOutputs", of_type "array")])
     (wrapper_read "goal::working_set" "project a goal working set from resource lineage");
   with_schemas attach_schema attach_response_schema
     (wrapper_write "claim::attach" "create a claim resource and attach it to another resource");
   with_schemas attach_schema attach_response_schema
     (wrapper_write "evidence::attach" "create an evidence resource and attach it to another resource");
   with_schemas wrapper_create_schema create_response_schema
     (wrapper_write "decision::create" "create a decision resource")].
(* SRC engine/primitives/resource/registrations.rs:282-438! resource_wrapper_registrations *)
Definition file_registrations : list FunctionDefinition :=
  [backed_by ["materialized_file"] (with_schemas materialized_file_create_schema version_response_schema
     (wrapper_write "materialized_file::create" "create a materialized file resource"));
   with_schemas id_request (response_of [("content", of_type "string"); resource_field])
     (wrapper_read "materialized_file::read" "read a materialized file resource");
   backed_by ["materialized_file"] (with_schemas materialized_file_update_schema version_response_schema
     (wrapper_write "materialized_file::update" "append a materialized file resource version"));
   backed_by ["materialized_file"]
     (lifecycle_write "materialized_file::promote" "promote a materialized file resource");
   backed_by ["materialized_file"]
     (lifecycle_write "materialized_file::discard" "discard a materialized file resource");
   with_schemas id_request inspection_schema
     (wrapper_read "materialized_file::inspect" "inspect a materialized file resource");
   backed_by ["materialized_file"] (with_schemas id_request version_response_schema
     (wrapper_write "materialized_file::hash_verify"
        "verify materialized file bytes against their content hash"));
   backed_by ["patch_proposal"] (with_schemas patch_propose_schema create_response_schema
     (wrapper_write "patch::propose" "create a patch proposal resource"));
   backed_by ["patch_proposal"; "materialized_file"] (with_schemas patch_apply_schema
     (response_of [("patch", of_type "object"); version_field; refs_field])
     (wrapper_write "patch::apply" "apply a patch proposal and produce file resources"));
   backed_by ["patch_proposal"]
     (lifecycle_write "patch::merge" "merge a patch proposal resource")].
Definition resource_registrations : list FunctionDefinition :=
  resource_store_registrations ++ artifact_registrations ++ goal_registrations ++ file_registrations.
