(* ===== verification/ResourceHandlers.v ===== *)
(** * What the resource primitives do to the store and to the disk

    The handlers of ResourcePrimitive as sequences of store steps (ResourceHistory) and of
    writes to the disk, checked against the file roots of a grant (Authorization); the
    round trip of a materialized file; the fit of the answers to the registered contracts.

    [Runs R m]: the handler [m] leads from each world to an [R]-related one.  It is proved
    for the handlers by instances that follow their structure, for any preorder [R] that
    holds of the operations of the store. *)

From stdpp Require Import base gmap strings list pretty.
From Stdlib Require Import ZArith Ascii String Lia.
From S2P Require Import Prelude Sorting Json Kernel Model Schema Policy Paths Grants Ledger Catalog Meta.
From S2P Require Import UiSurface Resources ResourceHistory Messages GrantPrimitive ResourcePrimitive.
From S2P Require Import BuiltinKinds DomainKinds Invocation Authorization.
Import JsonNotations.

#[local] Open Scope Z_scope.

(** ** Handlers that run within a relation *)

Section runs.
  Context {D : Type} {HD : Disk D}.
  Variable R : @World D -> @World D -> Prop.
  Context {HR : PreOrder R}.

Class Runs {A} (m : Handler A) : Prop := runs : forall w, R w (snd (m w)).

#[global] Instance runs_ret {A} (a : A) : Runs (mret a).
Proof. intros w. reflexivity. Qed.
#[global] Instance runs_lift {A} (r : Result A) : Runs (lift r).
Proof. intros w. reflexivity. Qed.
#[global] Instance runs_throw {A} e : Runs (@throw D A e).
Proof. intros w. reflexivity. Qed.
#[global] Instance runs_ask {A} (q : ResourceMemory -> Result A) : Runs (ask q).
Proof. intros w. reflexivity. Qed.
#[global] Instance runs_pure {A} (f : World -> Result A) : Runs (fun w => (f w, w)).
Proof. intros w. reflexivity. Qed.
#[global] Instance runs_bind {A B} (m : Handler A) (k : A -> Handler B) :
  Runs m -> (forall a, Runs (k a)) -> Runs (m ≫= k).
Proof.
  intros Hm Hk w. unfold mbind, handler_bind. specialize (Hm w). destruct (m w) as [[a|e] w']; simpl in *.
  - transitivity w'; [done|]. apply Hk.
  - done.
Qed.
#[global] Instance runs_for_each {A B} (f : A -> Handler B) l : (forall x, Runs (f x)) -> Runs (for_each f l).
Proof.
  intros Hf. induction l as [|x l IH]; [apply runs_ret|]. simpl. apply runs_bind; [done|]. intros y.
  apply runs_bind; [done|]. intros ys. apply runs_ret.
Qed.
End runs.

(** The steps of a handler that succeeds. *)
Lemma bind_ok {D A B} (m : @Handler D A) (k : A -> Handler B) w b w' :
  (m ≫= k) w = (Ok b, w') -> exists a w1, m w = (Ok a, w1) /\ k a w1 = (Ok b, w').
Proof. unfold mbind, handler_bind. destruct (m w) as [[a|e] w1]; [by eauto|done]. Qed.
Lemma lift_ok {D A} (r : Result A) (w : @World D) a w' : lift r w = (Ok a, w') -> r = Ok a /\ w' = w.
Proof. by intros [= -> ->]. Qed.

(** Follows the structure of a handler; the operations of the store are hypotheses. *)
Ltac run_handler :=
  repeat first
    [ assumption | apply runs_ret; assumption | apply runs_lift; assumption
    | apply runs_throw; assumption | apply runs_ask; assumption | apply runs_pure; assumption
    | match goal with H : context [Runs _ _] |- _ => apply H end
    | apply runs_for_each; [assumption|intros ?]
    | apply runs_bind; [assumption| |intros ?]
    | match goal with
      | |- Runs _ (match ?x with _ => _ end) => destruct x
      | |- Runs _ (let _ := _ in _) => cbv zeta
      end ].

Section primitives.
  Context {D : Type} {HD : Disk D}.
  Variable debug : string -> string.
  Variable json_len : Value -> Z.
  Variable rfc3339_error : string -> option string.
  Variable json_text : Value -> string.
  Variable sha256_hex : string -> string.
  Variable rfc3339 : instant -> string.
  Variable to_lowercase : string -> string.
  Variable locations_error : Value -> string.
  Variable uuid : nat -> string.
  Variable now : instant.
  Notation World := (@World D).
  Notation register_type := (store_register_type debug uuid now).
  Notation create := (store_create debug json_len rfc3339_error json_text sha256_hex uuid now).
  Notation update := (store_update debug json_len rfc3339_error json_text sha256_hex uuid now).
  Notation link := (store_link debug uuid now).
  Notation create_file :=
    (create_materialized_file debug json_len rfc3339_error json_text sha256_hex uuid now).
  Notation handlers := (resource_handlers debug json_len rfc3339_error json_text sha256_hex rfc3339
                          to_lowercase locations_error uuid now).
  Notation primitive := (resource_primitive debug json_len rfc3339_error json_text sha256_hex rfc3339
                           to_lowercase locations_error uuid now).

(** The functions that write a file. *)
Definition file_writers : list string :=
  ["artifact::materialize"; "materialized_file::create"; "materialized_file::update"; "patch::apply"].

#[local] Hint Unfold opt_text req_text limit_or required_value store_inspect store_list inspect_existing
  inspect_artifact create_wrapper_resource create_typed_resource update_wrapper_resource
  expected_version lifecycle_resource_by_id lifecycle_wrapper_resource create_and_attach_resource
  resource_kind_for_version wrapper_create_response wrapper_version_response link_each owner_worker
  register_type_response create_response update_response link_response inspect_response list_response
  inspect_kind_response lifecycle_response attach_response goal_complete_response
  artifact_update_response artifact_split_response artifact_compose_response artifact_merge_response
  artifact_search_response goal_working_set_response artifact_materialize_response
  materialized_file_create_response materialized_file_update_response inspect_operational
  materialized_file_read_response damaged_materialized_file_response
  materialized_file_hash_verify_response patch_propose_response patch_apply_response : handlers.

Section within.
  Variable R : World -> World -> Prop.
  Context {HR : PreOrder R}.
  Hypothesis Hregister : forall r, Runs R (register_type r).
  Hypothesis Hcreate : forall r, Runs R (create r).
  Hypothesis Hupdate : forall r, Runs R (update r).
  Hypothesis Hlink : forall r, Runs R (link r).

Lemma search_runs query limit artifacts : forall matches,
  Runs R (search_loop debug json_text to_lowercase query limit artifacts matches).
Proof.
  induction artifacts as [|a artifacts IH]; intros matches; cbn [search_loop]; [apply runs_ret, HR|].
  unfold store_inspect. run_handler.
Qed.

Lemma store_handlers_run :
  List.Forall (fun entry => ~ In (fst entry) file_writers -> forall i, Runs R (snd entry i)) handlers.
Proof.
  pose proof search_runs.
  repeat (apply List.Forall_cons; [intros Hn i; cbn [fst snd] in *;
    try (exfalso; apply Hn; vm_compute; tauto); clear Hn; autounfold with handlers; run_handler|]).
  apply List.Forall_nil.
Qed.
(** With the disk free to change, the other functions run too. *)
Hypothesis Hdisk : forall w d, R w (set_disk d w).

Lemma on_disk_runs op failure : Runs R (on_disk op failure).
Proof. intros w. unfold on_disk. by destruct (op (w_disk w)) as [[[]|] d]; apply Hdisk. Qed.
Lemma create_file_runs i allow_update : Runs R (create_file i allow_update).
Proof.
  pose proof on_disk_runs. unfold create_materialized_file. apply runs_bind; [done| |].
  - intros w. unfold file_request. autounfold with handlers.
    match goal with |- R w (snd (?m w)) => enough (Runs R m) as Hm by apply (Hm w) end. run_handler.
  - intros [[[canonical content] hash] id]. autounfold with handlers. unfold replaceable, current_version_for_resource.
    assert (Runs R (materialize_content_at_path canonical content)).
    { intros w. unfold materialize_content_at_path. destruct (_ && _).
      - by destruct (_ =s _); simpl.
      - match goal with |- R w (snd (?m w)) => enough (Runs R m) as Hm by apply (Hm w) end. run_handler. }
    autounfold with handlers. run_handler.
Qed.
Lemma handlers_run : List.Forall (fun entry => forall i, Runs R (snd entry i)) handlers.
Proof.
  pose proof create_file_runs. pose proof store_handlers_run as Hs.
  rewrite List.Forall_forall in *. intros entry Hin i.
  destruct (in_dec string_dec (fst entry) file_writers) as [Hw|Hw]; [|by apply Hs].
  clear Hs. revert Hw. repeat (destruct Hin as [<-|Hin]; [intros Hw;
    try (exfalso; clear -Hw; cbn in Hw; intuition discriminate); cbn [snd]; autounfold with handlers; run_handler|]).
  destruct Hin.
Qed.
Lemma primitive_runs i : Runs R (primitive i).
Proof.
  unfold resource_primitive. destruct (obj_get handlers (inv_function_id i)) as [h|] eqn:Hh.
  - apply obj_get_In in Hh. pose proof handlers_run as Hs. rewrite List.Forall_forall in Hs.
    by apply (Hs _ Hh).
  - by apply runs_throw.
Qed.
End within.

(** ** Every call is a sequence of store steps *)

Notation step := (resource_step debug json_len rfc3339_error json_text sha256_hex).

(** The ids that are still to be drawn name no version and no link. *)
Definition undrawn_fresh (w : World) : Prop :=
  forall n, (w_drawn w <= n)%nat ->
    rm_versions (w_store w) !! generated_id "ver" (uuid n) = None /\
    rm_links (w_store w) !! generated_id "link" (uuid n) = None.
Definition stepping (w w' : World) : Prop :=
  undrawn_fresh w -> rtc step (w_store w) (w_store w') /\ undrawn_fresh w'.
#[local] Instance stepping_preorder : PreOrder stepping.
Proof.
  split; [intros w Hf; by split|]. intros w1 w2 w3 H12 H23 Hf.
  destruct (H12 Hf) as [Hs Hf2]. destruct (H23 Hf2) as [Hs' Hf3]. split; [by etrans|done].
Qed.

Hypothesis Huuid : Inj (=) (=) uuid.

(** An operation of the store that is a step and adds only versions and links with the ids it
    was given. *)
Lemma on_store_steps {A} (op : (nat -> string) -> ResourceMemory -> Result (A * ResourceMemory)) :
  (forall ids s a s', fresh_ids ids s -> op ids s = Ok (a, s') ->
     step s s' /\
     (forall k, (forall n, (n < 4)%nat -> k <> generated_id "ver" (ids n)) ->
        rm_versions s' !! k = rm_versions s !! k) /\
     (forall k, (forall n, (n < 4)%nat -> k <> generated_id "link" (ids n)) ->
        rm_links s' !! k = rm_links s !! k)) ->
  Runs stepping (on_store uuid op).
Proof.
  intros Hop w Hf. unfold on_store.
  destruct (op _ (w_store w)) as [[a s']|e] eqn:E; simpl.
  - apply Hop in E as (Hs & Hv & Hl); [|intros n; apply Hf; lia]. split; [by apply rtc_once|].
    assert (forall p n m, (w_drawn w + 4 <= n)%nat -> (m < 4)%nat ->
              generated_id p (uuid n) <> generated_id p (uuid (w_drawn w + m)%nat)) as Hne.
    { intros p n m Hn Hm Heq. unfold generated_id in Heq. rewrite <- !append_assoc in Heq.
      apply str_app_inj_l, Huuid in Heq. lia. }
    intros n Hn. simpl in Hn. simpl. rewrite Hv, Hl by (intros m Hm; by apply Hne). apply Hf. lia.
  - split; [done|]. intros n Hn. simpl in *. apply Hf. lia.
Qed.

Lemma create_steps r : Runs stepping (create r).
Proof.
  apply on_store_steps. intros ids s a s' Hf H. split; [by eapply step_create|].
  apply create_ok in H as (d & l & sc & _ & _ & _ & H).
  destruct (nr_initial_payload r) as [payload|]; [destruct H as (_ & _ & ->)|destruct H as [_ ->]]; [|done].
  split; intros k Hk; [|done]. simpl. rewrite lookup_insert_ne; [done|]. apply not_eq_sym, (Hk 2%nat). lia.
Qed.
Lemma update_steps r : Runs stepping (update r).
Proof.
  apply on_store_steps. intros ids s a s' Hf H. split; [by eapply step_update|].
  apply update_ok in H as (r0 & d & _ & _ & _ & _ & -> & ->).
  split; intros k Hk; [|done]. simpl. rewrite lookup_insert_ne; [done|]. apply not_eq_sym, (Hk 0%nat). lia.
Qed.
Lemma link_steps r : Runs stepping (link r).
Proof.
  apply on_store_steps. intros ids s a s' Hf H. split; [by eapply step_link|].
  apply link_ok in H as (_ & _ & -> & ->).
  split; intros k Hk; [done|]. simpl. rewrite lookup_insert_ne; [done|]. apply not_eq_sym, (Hk 0%nat). lia.
Qed.
Lemma register_type_steps r : Runs stepping (register_type r).
Proof.
  apply on_store_steps. intros ids s a s' Hf H. split; [by eapply step_register|].
  unfold memory_register_type in H. by apply seq_ok in H as [_ [= _ <-]].
Qed.

Lemma primitive_steps i w : undrawn_fresh w ->
  rtc step (w_store w) (w_store (snd (primitive i w))) /\ undrawn_fresh (snd (primitive i w)).
Proof.
  apply (primitive_runs stepping); eauto using register_type_steps, create_steps, update_steps, link_steps.
  intros w0 d Hf. by split.
Qed.

(** C11: Every call of every resource primitive, successful or failed, is a run of
    operations of the resource store: from a reachable store it leads to a reachable one,
    keeps every stored version, extends the history of each resource, and keeps the identity
    (kind, schema, scope, owner) of each. *)
Theorem every_call_extends_the_history i w r w' :
  resource_reachable debug json_len rfc3339_error json_text sha256_hex (w_store w) ->
  undrawn_fresh w -> primitive i w = (r, w') ->
  resource_reachable debug json_len rfc3339_error json_text sha256_hex (w_store w') /\
  undrawn_fresh w' /\ rm_versions (w_store w) ⊆ rm_versions (w_store w') /\
  (forall id, history (w_store w) id `prefix_of` history (w_store w') id) /\
  (forall id x, rm_resources (w_store w) !! id = Some x ->
     exists x', rm_resources (w_store w') !! id = Some x' /\ same_identity x x').
Proof.
  intros Hr Hf H. assert (rtc step (w_store w) (w_store w') /\ undrawn_fresh w') as [Hsteps Hf'].
  { replace w' with (snd (primitive i w)) by by rewrite H. by apply primitive_steps. }
  apply resource_reachable_wf in Hr as Hwf.
  destruct (steps_effect _ _ _ _ _ _ _ Hwf Hsteps) as [(Hsub & Hh & Hid & _) _].
  split_and!; try done. unfold resource_reachable in *. by etrans.
Qed.

(** ** Where files are written *)

(** Writing a file at an allowed path, or making the directories above it. *)
Inductive disk_step (allowed : path -> Prop) : D -> D -> Prop :=
| step_dirs p parent d :
    allowed p -> path_parent p = Some parent -> disk_step allowed d (snd (disk_create_dir_all parent d))
| step_write p content d : allowed p -> disk_step allowed d (snd (disk_write p content d)).

Lemma all_normal_suffix resolved suffix :
  Forall (fun c => exists n, c = Normal n) suffix ->
  normalize_suffix resolved suffix
  = {| p_absolute := p_absolute resolved; p_components := p_components resolved ++ suffix |}.
Proof.
  intros H. unfold normalize_suffix. f_equal. generalize (p_components resolved) as acc. revert H.
  induction 1 as [|c suffix [n ->] _ IH]; intros acc; simpl; [by rewrite app_nil_r|].
  by rewrite IH, <- app_assoc.
Qed.
Lemma materializable_ancestor fs text absolute rest : forall suffix p,
  Forall (fun c => exists n, c = Normal n) suffix -> materializable fs text absolute rest suffix = Ok p ->
  exists ancestor below resolved,
    existing_ancestor fs absolute rest suffix = Some (ancestor, below) /\
    fs_canonicalize fs ancestor = Ok resolved /\ p = normalize_suffix resolved below.
Proof.
  induction rest as [|c rest IH]; intros suffix p Hs; cbn [materializable existing_ancestor];
    destruct (fs_exists fs _) eqn:He.
  1, 3: destruct (fs_canonicalize fs _) as [resolved|e] eqn:Hc; [|done]; intros [= <-];
    do 3 eexists; split_and!; [done|exact Hc|by rewrite all_normal_suffix].
  - done.
  - destruct c as [| |name]; [done|done|]. apply IH. constructor; [by eexists|done].
Qed.
(** The path that is written is the one that the grant was asked for. *)
Lemma materialized_path_checked fs i text p :
  fs_exists fs (parse_path text) = true \/ p_absolute (parse_path text) = true ->
  canonical_materialized_path fs i text = Ok p -> canonical_string fs text = Ok p.
Proof.
  unfold canonical_materialized_path, canonical_string, canonical_payload_path. intros Hor.
  destruct (fs_exists fs (parse_path text)) eqn:He.
  - by destruct (fs_canonicalize fs (parse_path text)).
  - destruct Hor as [|Habs]; [done|]. rewrite Habs. cbv beta iota. intros H.
    apply materializable_ancestor in H as (ancestor & below & resolved & Ha & Hc & ->); [|constructor].
    by rewrite Ha, Hc.
Qed.

Lemma file_request_ok i w canonical content hash id w' :
  file_request sha256_hex i w = (Ok (canonical, content, hash, id), w') ->
  w' = w /\ hash = sha256_hex content /\
  content = default "" (vget (inv_payload i) "content" ≫= as_str) /\
  exists text, vget (inv_payload i) "path" = Some (VString text) /\
    canonical_materialized_path (disk_files (w_disk w)) i text = Ok canonical.
Proof.
  unfold file_request, req_text, opt_text. intros H.
  apply bind_ok in H as (text & ? & [Ht ->]%lift_ok & H).
  apply bind_ok in H as (stated & ? & [Hs ->]%lift_ok & H).
  apply bind_ok in H as (p & ? & [Hp ->]%lift_ok & H).
  apply bind_ok in H as (declared & ? & [_ ->]%lift_ok & H).
  destruct (match declared with Some _ => _ | None => _ end); [done|].
  apply bind_ok in H as (named & ? & [_ ->]%lift_ok & H). injection H as -> <- <- _ ->.
  unfold required_str in Ht. unfold optional_string, transpose, str_or, field in Hs.
  split_and!; try done.
  - clear -Hs. by destruct (vget (inv_payload i) "content") as [[]|]; simplify_eq/=.
  - exists text. split; [|done]. clear -Ht. destruct (vget (inv_payload i) "path") as [[]|]; by simplify_eq/=.
Qed.

(** Within the allowed paths. *)
Definition writing (allowed : path -> Prop) (w w' : World) : Prop :=
  rtc (disk_step allowed) (w_disk w) (w_disk w').
#[local] Instance writing_preorder allowed : PreOrder (writing allowed).
Proof. unfold writing. split; [by intros w|]. intros w1 w2 w3 H12 H23. by etrans. Qed.
Lemma on_store_keeps_disk {A} (op : (nat -> string) -> ResourceMemory -> Result (A * ResourceMemory)) allowed :
  Runs (writing allowed) (on_store uuid op).
Proof. intros w. unfold on_store, writing. by destruct (op _ _) as [[]|]. Qed.
Lemma materialize_writes (allowed : path -> Prop) canonical content :
  allowed canonical -> Runs (writing allowed) (materialize_content_at_path canonical content).
Proof.
  intros Hc w. unfold materialize_content_at_path. destruct (_ && _); [by destruct (_ =s _)|].
  match goal with |- _ w (snd (?m w)) => enough (Runs (writing allowed) m) as Hm by apply (Hm w) end.
  apply runs_bind; [apply _| |intros _].
  - destruct (path_parent canonical) as [parent|] eqn:Hp; [|apply runs_ret, _].
    intros w0. unfold on_disk, writing. pose proof (step_dirs allowed canonical parent (w_disk w0) Hc Hp) as Hs.
    destruct (disk_create_dir_all parent (w_disk w0)) as [[[]|] d]; by apply rtc_once.
  - intros w0. unfold on_disk, writing. pose proof (step_write allowed canonical content (w_disk w0) Hc) as Hs.
    destruct (disk_write canonical content (w_disk w0)) as [[[]|] d]; by apply rtc_once.
Qed.
(** A file is written at the path of the request. *)
Lemma create_file_writes (allowed : path -> Prop) i allow_update w :
  (forall text canonical, vget (inv_payload i) "path" = Some (VString text) ->
     canonical_materialized_path (disk_files (w_disk w)) i text = Ok canonical -> allowed canonical) ->
  writing allowed w (snd (create_file i allow_update w)).
Proof.
  intros Hallowed. unfold create_materialized_file. unfold mbind at 1, handler_bind at 1.
  destruct (file_request sha256_hex i w) as [[[[[canonical content] hash] id]|e] w1] eqn:Hreq.
  - apply file_request_ok in Hreq as (-> & _ & _ & text & Hpath & Hc).
    pose proof (materialize_writes allowed canonical content (Hallowed text canonical Hpath Hc)).
    pose proof (fun A op => @on_store_keeps_disk A op allowed) as Hop.
    match goal with |- _ w (snd (?m w)) => enough (Runs (writing allowed) m) as Hm by apply (Hm w) end.
    assert (PreOrder (writing allowed)) by apply _.
    autounfold with handlers. unfold replaceable, current_version_for_resource. autounfold with handlers.
    unfold store_update, store_create. run_handler.
  - enough (Runs eq (file_request sha256_hex i)) as Hr by (specialize (Hr w); rewrite Hreq in Hr; simpl in *; by subst).
    clear. intros w. unfold file_request. autounfold with handlers.
    match goal with |- _ = (snd (?m w)) => enough (Runs eq m) as Hm by apply (Hm w) end.
    assert (PreOrder (@eq World)) by apply _. run_handler.
Qed.

(** The path of a call, other than [capability::execute], is among the paths of its check. *)
Lemma path_is_checked fs g i text p :
  (inv_function_id i =s "capability::execute") = false ->
  ensure_file_roots debug fs g i = Ok tt -> vget (inv_payload i) "path" = Some (VString text) ->
  canonical_string fs text = Ok p -> roots_allow fs (gr_file_roots g) p.
Proof.
  intros Hid [Hany|(paths & Hp & Hcov)]%file_roots_ok Hpath Hc; [by left|].
  destruct (Hcov text) as (c & Hc' & Hr); [|rewrite Hc in Hc'; by injection Hc' as ->].
  revert Hp. unfold paths_from_invocation, capability_execute_requires_working_directory, is_capability_execute.
  rewrite Hid. simpl. unfold payload_str at 1. rewrite Hpath. simpl.
  unfold resolve_invocation_path at 1, is_capability_execute at 1. rewrite Hid, orb_true_r. simpl.
  destruct (try_map _ _) as [rest|]; [|done]. intros [= <-]. by left.
Qed.

Lemma bind_writes {A B} (m : Handler A) (k : A -> Handler B) allowed w :
  writing allowed w (snd (m w)) ->
  (forall a w1, m w = (Ok a, w1) -> writing allowed w1 (snd (k a w1))) -> writing allowed w (snd ((m ≫= k) w)).
Proof.
  unfold mbind, handler_bind. destruct (m w) as [[a|e] w1]; simpl; [|done]. intros Hm Hk.
  transitivity w1; [done|by apply Hk].
Qed.
Lemma bind_reads {A B} (m : Handler A) (k : A -> Handler B) allowed w :
  Runs eq m -> (forall a, m w = (Ok a, w) -> writing allowed w (snd (k a w))) ->
  writing allowed w (snd ((m ≫= k) w)).
Proof.
  intros Hm Hk. specialize (Hm w). apply bind_writes; [by rewrite <- Hm|].
  intros a w1 H. rewrite H in Hm. simpl in Hm. subst w1. by apply Hk.
Qed.

(** C15: Whatever a call of a resource primitive other than patch::apply answers, it changes
    the disk only by writing files that lie under the file roots of the grant the call was
    authorized with, and by making the directories above such files, provided the path it
    names exists or is absolute. *)
Theorem written_files_are_under_the_roots g i w r w' :
  let fs := disk_files (w_disk w) in
  inv_function_id i <> "patch::apply" ->
  (forall text, vget (inv_payload i) "path" = Some (VString text) ->
     fs_exists fs (parse_path text) = true \/ p_absolute (parse_path text) = true) ->
  ensure_file_roots debug fs g i = Ok tt -> primitive i w = (r, w') ->
  rtc (disk_step (roots_allow fs (gr_file_roots g))) (w_disk w) (w_disk w').
Proof.
  intros fs Hpatch Habs Hcheck H. set (allowed := roots_allow fs (gr_file_roots g)).
  replace w' with (snd (primitive i w)) by by rewrite H. clear H. change (writing allowed w (snd (primitive i w))).
  unfold resource_primitive. destruct (obj_get handlers (inv_function_id i)) as [h|] eqn:Hh; [|done].
  destruct (in_dec string_dec (inv_function_id i) file_writers) as [Hw|Hw].
  2: { apply obj_get_In in Hh.
       pose proof (store_handlers_run (writing allowed)
         (fun _ => on_store_keeps_disk _ _) (fun _ => on_store_keeps_disk _ _)
         (fun _ => on_store_keeps_disk _ _) (fun _ => on_store_keeps_disk _ _)) as Hs.
       rewrite List.Forall_forall in Hs. by apply (Hs _ Hh). }
  assert (forall payload b, vget payload "path" = vget (inv_payload i) "path" ->
            writing allowed w (snd (create_file (with_payload i payload) b w))) as Hfile.
  { intros payload b Hp. apply create_file_writes. simpl. rewrite Hp. intros text canonical Ht Hc.
    apply (path_is_checked fs g i text); try done.
    - by repeat destruct Hw as [<-|Hw].
    - apply (materialized_path_checked fs (with_payload i payload)); [by apply Habs|done]. }
  repeat destruct Hw as [Hid|Hw]; try done; rewrite <- Hid in Hh; injection Hh as <-.
  - unfold artifact_materialize_response.
    assert (PreOrder (@eq World)) by apply _.
    apply bind_reads; [autounfold with handlers; run_handler|]. intros artifact_id _.
    apply bind_reads; [autounfold with handlers; run_handler|]. intros text [Ht _]%lift_ok.
    apply bind_reads; [autounfold with handlers; run_handler|]. intros found _.
    apply bind_reads; [run_handler|]. intros payload _.
    apply bind_reads; [autounfold with handlers; run_handler|]. intros id _.
    apply bind_writes; [|done]. apply Hfile. unfold required_str in Ht.
    by destruct (vget (inv_payload i) "path") as [[]|]; simplify_eq/=.
  - apply bind_writes; [|done]. destruct i. by apply (Hfile inv_payload).
  - apply bind_writes; [|done]. destruct i. by apply (Hfile inv_payload).
Qed.

End primitives.

(** ** A disk

    Directories and files by their canonical texts; relative paths start at [/srv]. *)

Record MemDisk := { md_dirs : list string; md_files : gmap string string }.
Definition server_dir : path := parse_path "/srv".
Definition known (d : MemDisk) (p : path) : bool :=
  list_has (md_dirs d) (path_display p) || is_some (md_files d !! path_display p).
Definition clean_pathb (p : path) : bool :=
  p_absolute p && bool_decide (parse_path (path_display p) = p)
  && forallb (fun c => match c with Normal n => negb (contains n "/") | _ => false end) (p_components p).
#[global] Instance mem_disk : Disk MemDisk := {|
  disk_files d :=
    {| fs_exists := fun p => known d (path_join server_dir p);
       fs_canonicalize := fun p =>
         let p := path_join server_dir p in
         if known d p && clean_pathb p then Ok p else Err "No such file or directory";
       fs_current_dir := Ok server_dir;
       fs_is_dir := fun p => list_has (md_dirs d) (path_display (path_join server_dir p));
       fs_home_dir := "/home" |};
  disk_metadata d p := if known d p then Some (list_has (md_dirs d) (path_display p), false) else None;
  disk_read d p := match md_files d !! path_display p with
                   | Some bytes => Ok bytes | None => Err "No such file or directory" end;
  disk_create_dir_all p d :=
    (Ok tt, {| md_dirs := path_display p :: md_dirs d; md_files := md_files d |});
  disk_write p content d :=
    (Ok tt, {| md_dirs := md_dirs d; md_files := <[path_display p := content]> (md_files d) |}) |}.

Definition text_of (v : Value) : string := match v with VString s => s | _ => "value" end.
Definition hash_of (s : string) : string := "sha" +s pretty (String.length s).
Definition draw (n : nat) : string := pretty n.
#[global] Instance draw_inj : Inj (=) (=) draw.
Proof. unfold draw. apply _. Qed.
Notation demo f := (f plain (fun _ => 10) (fun _ => None) text_of hash_of) (only parsing).
Notation demo_primitive := (resource_primitive plain (fun _ => 10) (fun _ => None) text_of hash_of
  (fun _ => "now") plain (fun _ => "locations") draw 5) (only parsing).

Definition demo_types : list RegisterResourceType :=
  [materialized_file_type; patch_proposal_type; artifact_type; decision_type; goal_type].
Definition demo_store : ResourceMemory :=
  fold_left (fun s t => after_op s (memory_register_type plain 1 t s)) demo_types resource_memory_new.
Definition demo_world : World :=
  {| w_store := demo_store; w_drawn := 0;
     w_disk := {| md_dirs := ["/"; "/srv"; "/work"; "/etc"]; md_files := ∅ |} |}.
Definition demo_context : CausalContext :=
  let c := causal_context_new "agent" Actor_Agent "grant" "trace" in
  {| cx_actor_id := cx_actor_id c; cx_actor_kind := cx_actor_kind c;
     cx_authority_grant_id := cx_authority_grant_id c; cx_authority_scopes := cx_authority_scopes c;
     cx_trace_id := cx_trace_id c; cx_parent_invocation_id := cx_parent_invocation_id c;
     cx_session_id := Some "s1"; cx_workspace_id := cx_workspace_id c;
     cx_catalog_revision := cx_catalog_revision c; cx_trigger_id := cx_trigger_id c;
     cx_delivery_mode := cx_delivery_mode c; cx_idempotency_key := cx_idempotency_key c;
     cx_runtime_metadata := {[ RUNTIME_METADATA_WORKING_DIRECTORY := "/work" ]} |}.
Definition demo_call (function_id : string) (payload : Value) : Invocation :=
  new_sync "inv" function_id payload demo_context.
Definition rooted_grant (roots : list string) : EngineGrant :=
  {| gr_grant_id := "grant"; gr_parent_grant_id := None; gr_subject_actor_id := None;
     gr_subject_worker_id := None; gr_subject_invocation_id := None; gr_lifecycle := Grant_Active;
     gr_allowed_capabilities := ["*"]; gr_allowed_namespaces := ["*"];
     gr_allowed_authority_scopes := ["*"]; gr_allowed_resource_kinds := ["*"];
     gr_resource_selectors := ["*"]; gr_file_roots := roots; gr_network_policy := "none";
     gr_max_risk := Risk_Medium; gr_budget := j{}; gr_expires_at := None; gr_can_delegate := false;
     gr_provenance := j{}; gr_trace_id := "trace"; gr_revision := 1; gr_created_at := 0;
     gr_updated_at := 0 |}.

Lemma registering_reachable types : forall s, demo resource_reachable s ->
  demo resource_reachable (fold_left (fun s t => after_op s (memory_register_type plain 1 t s)) types s).
Proof.
  induction types as [|t types IH]; intros s Hs; [done|]. cbn [fold_left]. apply IH.
  unfold after_op. destruct (memory_register_type plain 1 t s) as [[d s']|e] eqn:E; [|done].
  eapply rtc_r; [exact Hs|by eapply step_register].
Qed.
Lemma demo_reachable : demo resource_reachable demo_store.
Proof. apply registering_reachable, rtc_refl. Qed.
Lemma demo_fresh : undrawn_fresh draw demo_world.
Proof. intros n _. split; vm_compute; reflexivity. Qed.

Definition demo_create : Invocation :=
  demo_call "materialized_file::create" (j{"path" ~> "/work/notes/a.txt"; "content" ~> "hello"}).

Lemma every_call_extends_the_history_witness :
  demo resource_reachable (w_store (snd (demo_primitive demo_create demo_world))).
Proof.
  refine (proj1 (every_call_extends_the_history plain (fun _ => 10) (fun _ => None) text_of hash_of
    (fun _ => "now") plain (fun _ => "locations") draw 5 draw_inj demo_create demo_world _ _
    demo_reachable demo_fresh (surjective_pairing _))).
Defined.

Lemma written_files_are_under_the_roots_witness :
  is_ok (fst (demo_primitive demo_create demo_world)) = true /\
  rtc (disk_step (roots_allow (disk_files (w_disk demo_world)) ["/work"]))
    (w_disk demo_world) (w_disk (snd (demo_primitive demo_create demo_world))).
Proof.
  split; [vm_compute; reflexivity|].
  refine (written_files_are_under_the_roots plain (fun _ => 10) (fun _ => None) text_of hash_of
    (fun _ => "now") plain (fun _ => "locations") draw 5 (rooted_grant ["/work"]) demo_create demo_world
    _ _ _ _ _ (surjective_pairing _)).
  - discriminate.
  - intros text [= <-]. right. reflexivity.
  - vm_compute. reflexivity.
Defined.
