(* ===== verification/MaterializedFiles.v ===== *)
(** * Materialized files

    A file that [materialized_file::create] or [materialized_file::update] wrote reads back
    and verifies; a relative path, a stored patch proposal and an omitted resource id show
    where the handlers do not do what their callers rely on.

    [DiskLaws] is what the operating system documents: the bytes written to a regular file
    read back, and canonical paths are absolute and have no [.] or [..]. *)

From stdpp Require Import base gmap strings list pretty.
From Stdlib Require Import ZArith Ascii String Lia.
From S2P Require Import Prelude Sorting Json Kernel Model Schema Policy Paths Grants Ledger Catalog Meta.
From S2P Require Import UiSurface Resources ResourceHistory BuiltinKinds DomainKinds Messages GrantPrimitive.
From S2P Require Import ResourcePrimitive ResourceHandlers Authorization.
Import JsonNotations.

#[local] Open Scope Z_scope.

(** ** Canonical paths *)

Definition slash_free (n : string) : bool := all_chars (fun a => negb (Ascii.eqb a "/")) n.
Definition clean_name (n : string) : Prop :=
  slash_free n = true /\ component_of n = Some (Normal n).
Definition clean_component (c : component) : Prop := exists n, c = Normal n /\ clean_name n.
Definition clean_path (p : path) : Prop := p_absolute p = true /\ Forall clean_component (p_components p).

Lemma str_rev_app_twice s : forall acc t, str_rev_app (str_rev_app s acc) t = str_rev_app acc (s +s t).
Proof. induction s as [|a s IH]; intros acc t; [done|]. simpl. by rewrite IH. Qed.
Lemma str_rev_involutive s : str_rev (str_rev s) = s.
Proof. unfold str_rev. rewrite str_rev_app_twice. simpl. apply append_nil_r. Qed.
Lemma split_on_app n rest : forall acc,
  slash_free n = true -> split_on "/" (n +s rest) acc = split_on "/" rest (str_rev_app n acc).
Proof.
  induction n as [|a n IH]; intros acc; simpl; [done|]. unfold slash_free. simpl.
  intros [Ha Hn]%andb_true_iff. apply negb_true_iff in Ha. rewrite Ha. by apply IH.
Qed.
Lemma split_join names :
  names <> [] -> Forall (fun n => slash_free n = true) names -> split_char "/" (join "/" names) = names.
Proof.
  intros Hne H. unfold split_char. induction H as [|n names Hn Hall IH]; [done|].
  destruct names as [|m names].
  - simpl. rewrite <- (append_nil_r n) at 1. rewrite split_on_app by done. simpl. f_equal. apply str_rev_involutive.
  - change (join "/" (n :: m :: names)) with (n +s "/" +s join "/" (m :: names)).
    rewrite split_on_app by done. simpl. f_equal; [apply str_rev_involutive|by apply IH].
Qed.
Lemma parse_display p : clean_path p -> parse_path (path_display p) = p.
Proof.
  destruct p as [absolute cs]. intros [Ha Hc]. simpl in Ha, Hc. subst absolute.
  assert (exists names, cs = map Normal names /\ Forall clean_name names) as (names & -> & Hn).
  { induction Hc as [|c cs (n & -> & Hn) _ (names & -> & Hns)]; [by exists []|].
    exists (n :: names). by split; [|constructor]. }
  clear Hc. unfold path_display. cbn [p_absolute p_components].
  assert (map Paths.component_text (map Normal names) = names) as ->.
  { clear. induction names as [|n names IH]; [done|]. simpl. by f_equal. }
  unfold parse_path. replace (starts_with ("/" +s join "/" names) "/") with true by (unfold starts_with; simpl; by destruct (join "/" names)).
  change (split_char "/" ("/" +s join "/" names)) with ("" :: split_char "/" (join "/" names)).
  cbn [negb andb app]. f_equal. change (omap component_of ("" :: ?l)) with (omap component_of l).
  destruct (decide (names = [])) as [->|Hne]; [done|].
  rewrite split_join; [|done|by eapply Forall_impl; [exact Hn|intros n [? _]]].
  clear Hne. induction Hn as [|n names [_ Hn] _ IH]; [done|]. cbn. rewrite Hn. by f_equal.
Qed.

Lemma split_slash_free s : forall acc,
  slash_free acc = true -> Forall (fun n => slash_free n = true) (split_on "/" s acc).
Proof.
  assert (forall a b, slash_free (str_rev_app a b) = slash_free a && slash_free b) as Hrev.
  { induction a as [|x a IH]; intros b; [done|]. simpl. rewrite IH. unfold slash_free. simpl.
    by destruct (negb _), (all_chars _ a). }
  induction s as [|a s IH]; intros acc Hacc; simpl.
  - repeat constructor. unfold str_rev. by rewrite Hrev, Hacc.
  - destruct (Ascii.eqb a "/") eqn:E.
    + constructor; [unfold str_rev; by rewrite Hrev, Hacc|by apply IH].
    + apply IH. unfold slash_free. simpl. by rewrite E.
Qed.
Definition clean_if_normal (c : component) : Prop := forall n, c = Normal n -> clean_name n.
Lemma parse_clean s : Forall clean_if_normal (p_components (parse_path s)).
Proof.
  unfold parse_path. pose proof (split_slash_free s "" eq_refl) as Hs. fold (split_char "/" s) in Hs. cbn [p_components].
  destruct (split_char "/" s) as [|first rest]; [constructor|]. apply Forall_app. split.
  { destruct (_ && _); [apply Forall_singleton; by intros n|apply Forall_nil_2]. }
  apply Forall_forall. intros c Hc n ->. apply list_elem_of_omap in Hc as (x & Hx & Hn).
  rewrite Forall_forall in Hs. specialize (Hs x Hx). unfold clean_name.
  assert (x = n) as <-. { unfold component_of in Hn. by repeat case_match; simplify_eq. }
  by split.
Qed.

(** What the operating system promises of regular files and of canonical paths.  A path is
    [regular] when it names a regular file or nothing at all: no directory, no device and no
    link.  Making the directory above it leaves it so. *)
Class DiskLaws (D : Type) {HD : Disk D} (regular : D -> path -> Prop) : Prop := {
  regular_no_dir : forall d p, regular d p -> fs_is_dir (disk_files d) p = false;
  regular_kept : forall d d' p parent, regular d p -> path_parent p = Some parent ->
    disk_create_dir_all parent d = (Ok tt, d') -> regular d' p;
  read_written : forall p content d d', regular d p ->
    disk_write p content d = (Ok tt, d') -> disk_read d' p = Ok content;
  canonical_clean : forall d p q, fs_canonicalize (disk_files d) p = Ok q -> clean_path q;
  current_clean : forall d p, fs_current_dir (disk_files d) = Ok p -> clean_path p
}.

Lemma clean_components_normal cs : Forall clean_component cs -> Forall clean_if_normal cs.
Proof. intros H. eapply Forall_impl; [exact H|]. intros c (n & -> & Hn) m [= ->]. done. Qed.
Lemma join_clean base p :
  Forall clean_if_normal (p_components base) -> Forall clean_if_normal (p_components p) ->
  Forall clean_if_normal (p_components (path_join base p)).
Proof.
  intros Hb Hp. unfold path_join. destruct (p_absolute p); [done|]. cbn [p_components].
  apply Forall_app. split; [done|]. destruct (match p_components base with [] => _ | _ => _ end); [|done].
  rewrite Forall_forall in *. intros c [Hc _]%list_elem_of_In%filter_In. by apply Hp, list_elem_of_In.
Qed.

Section round_trip.
  Context {D : Type} {HD : Disk D} {regular : D -> path -> Prop} {HL : DiskLaws D regular}.
  Variable debug : string -> string.
  Variable json_len : Value -> Z.
  Variable rfc3339_error : string -> option string.
  Variable json_text : Value -> string.
  Variable sha256_hex : string -> string.
  Variable rfc3339 : instant -> string.
  Variable to_lowercase : string -> string.
  Variable locations_error : Value -> string.
  Variable uuid : nat -> string.
  Variable now : instant.
  Notation World := (@World D).
  Notation create_file :=
    (create_materialized_file debug json_len rfc3339_error json_text sha256_hex uuid now).
  Notation primitive := (resource_primitive debug json_len rfc3339_error json_text sha256_hex rfc3339
                           to_lowercase locations_error uuid now).
  Notation reachable := (resource_reachable debug json_len rfc3339_error json_text sha256_hex).
  Notation wf := (resources_wf json_text sha256_hex).

Lemma materializable_clean d text absolute rest : forall suffix p,
  Forall clean_if_normal rest -> Forall clean_component suffix ->
  materializable (disk_files d) text absolute rest suffix = Ok p -> clean_path p.
Proof.
  induction rest as [|c rest IH]; intros suffix p Hr Hs; cbn [materializable];
    destruct (fs_exists _ _).
  1, 3: destruct (fs_canonicalize _ _) as [resolved|e] eqn:Hc; [|done]; intros [= <-];
    destruct (canonical_clean _ _ _ Hc) as [Ha Hcs]; split; [done|]; by apply Forall_app.
  - done.
  - destruct c as [| |name]; [done|done|]. apply Forall_cons in Hr as [Hn Hr]. apply IH; [done|].
    constructor; [|done]. exists name. split; [done|by apply Hn].
Qed.
Lemma relative_clean text p cs :
  Forall clean_if_normal (p_components p) -> relative_components text p = Ok cs -> Forall clean_if_normal cs.
Proof.
  unfold relative_components. intros Hc H.
  assert (forall parts, try_map (fun c => match c with
      | Normal _ => Ok [c] | CurDir => Ok []
      | ParentDir => policy_error ("relative materialized path " +s text
                                   +s " must stay inside the active working directory")
      end) (p_components p) = Ok parts -> Forall clean_if_normal (List.concat parts)) as Hparts.
  { clear H. induction Hc as [|c cs' Hc _ IH]; intros parts; [by intros [= <-]|]. cbn [try_map].
    destruct c as [| |n]; simpl; [|done|]; (destruct (try_map _ cs') as [parts'|]; [|done]);
      intros [= <-]; simpl; [by apply IH|constructor; [done|by apply IH]]. }
  destruct (try_map _ _) as [parts|]; [|done]. simpl in H. destruct (is_nil _); [done|].
  injection H as <-. by apply Hparts.
Qed.
Lemma canonical_path_clean d i text p :
  canonical_materialized_path (disk_files d) i text = Ok p -> clean_path p.
Proof.
  unfold canonical_materialized_path. destruct (fs_exists _ _).
  { destruct (fs_canonicalize _ _) eqn:Hc; [|done]. intros [= <-]. by eapply canonical_clean. }
  destruct (if p_absolute _ then _ else _) as [absolute|e] eqn:Habs; [|done]. simpl.
  apply materializable_clean; [|constructor]. apply Forall_rev.
  destruct (p_absolute (parse_path text)); [injection Habs as <-; apply parse_clean|].
  destruct (runtime_metadata _ _) as [base|].
  - destruct (relative_components text (parse_path text)) as [cs|] eqn:Hrel; [|done].
    injection Habs as <-. apply join_clean; [apply parse_clean|]. cbn [p_components].
    eapply relative_clean; [apply parse_clean|exact Hrel].
  - destruct (fs_current_dir _) as [cwd|] eqn:Hcwd; [|done]. injection Habs as <-.
    apply join_clean; [|apply parse_clean]. apply clean_components_normal.
    by destruct (current_clean _ _ Hcwd).
Qed.
(** ** Steps that succeed *)

Lemma on_store_ok {A} (op : (nat -> string) -> ResourceMemory -> Result (A * ResourceMemory)) (w : World) a w' :
  on_store uuid op w = (Ok a, w') ->
  op (fun n => uuid (w_drawn w + n)%nat) (w_store w) = Ok (a, w_store w') /\ w_disk w' = w_disk w.
Proof. unfold on_store. by destruct (op _ _) as [[b s]|e]; intros [= -> <-]. Qed.
Lemma inspect_existing_ok id (w : World) found w' :
  inspect_existing debug id w = (Ok found, w') ->
  memory_inspect debug id (w_store w) = Ok (Some found) /\ w' = w.
Proof.
  unfold inspect_existing. intros (o & w1 & Ho & [Hf ->]%lift_ok)%bind_ok.
  injection Ho as Ho <-. by destruct o; [injection Hf as <-|].
Qed.
Lemma inspect_some id s found :
  memory_inspect debug id s = Ok (Some found) ->
  rm_resources s !! id = Some (ri_resource found) /\ ri_versions found = history s id /\
  validate_token debug "resource id" id = Ok tt.
Proof.
  unfold memory_inspect. intros [Ht H]%seq_ok. by destruct (rm_resources s !! id); [injection H as <-|].
Qed.
Lemma inspect_stored id s r :
  validate_token debug "resource id" id = Ok tt -> rm_resources s !! id = Some r ->
  exists found, memory_inspect debug id s = Ok (Some found) /\ ri_resource found = r /\
    ri_versions found = history s id.
Proof. unfold memory_inspect. intros -> ->. eauto. Qed.

(** The current version of an inspection is the stored one. *)
Lemma current_stored s id found v :
  wf s -> ri_versions found = history s id -> res_current_version_id (ri_resource found) = Some (ver_id v) ->
  rm_versions s !! ver_id v = Some v -> ver_resource_id v = id ->
  current_version found = Some v /\ current_version_for_inspection found = Ok v.
Proof.
  intros Hwf Hvs Hcur Hv Hid. unfold current_version, current_version_for_inspection. rewrite Hcur, Hvs. simpl.
  assert (List.find (fun x => ver_id x =s ver_id v) (history s id) = Some v) as ->; [|done].
  destruct (List.find _ _) as [x|] eqn:Hx.
  - apply find_some in Hx as [Hin Heq%String.eqb_eq].
    apply list_elem_of_In, list_elem_of_omap in Hin as (k & Hk & Hkx).
    destruct (wf_version _ _ _ Hwf k x Hkx) as (<- & _). congruence.
  - exfalso. destruct (wf_version _ _ _ Hwf _ v Hv) as (_ & _ & Hin).
    assert (v ∈ history s id) as Hh by (apply list_elem_of_omap; exists (ver_id v); by rewrite <- Hid).
    apply list_elem_of_In in Hh. eapply find_none in Hx; [|exact Hh]. by rewrite String.eqb_refl in Hx.
Qed.

Lemma materialize_ok canonical content (w : World) w' :
  materialize_content_at_path canonical content w = (Ok tt, w') ->
  w_store w' = w_store w /\
  (regular (w_disk w) canonical -> disk_read (w_disk w') canonical = Ok content).
Proof.
  unfold materialize_content_at_path. destruct (_ && _) eqn:Hdir.
  { destruct (_ =s _); [|done]. intros [= <-]. split; [done|]. intros Hr%regular_no_dir.
    by rewrite Hr, andb_false_r in Hdir. }
  intros ([] & w1 & Hdirs & Hwrite)%bind_ok.
  assert (w_store w1 = w_store w /\ (regular (w_disk w) canonical -> regular (w_disk w1) canonical)) as [<- Hkept].
  { destruct (path_parent canonical) as [parent|] eqn:Hp; [|by injection Hdirs as <-].
    unfold on_disk in Hdirs. destruct (disk_create_dir_all _ _) as [[[]|] d] eqn:Hd; [|done].
    injection Hdirs as <-. split; [done|]. intros Hr. by eapply regular_kept. }
  unfold on_disk in Hwrite. destruct (disk_write _ _ _) as [[[]|] d] eqn:Hd; [|done]. injection Hwrite as <-.
  split; [done|]. intros Hr. eapply read_written; [|exact Hd]. auto.
Qed.

Hypothesis Huuid : Inj (=) (=) uuid.

(** The resource that a write leaves, and its bytes. *)
Record written (i : Invocation) (w : World) (canonical : path) (content : string)
    (resource : EngineResource) (version : EngineResourceVersion) (w' : World) : Prop := {
  wr_content : content = default "" (vget (inv_payload i) "content" ≫= as_str);
  wr_path : exists text, vget (inv_payload i) "path" = Some (VString text) /\
    canonical_materialized_path (disk_files (w_disk w)) i text = Ok canonical;
  wr_token : validate_token debug "resource id" (res_id resource) = Ok tt;
  wr_stored : rm_resources (w_store w') !! res_id resource = Some resource;
  wr_kind : res_kind resource = "materialized_file";
  wr_lifecycle : res_lifecycle resource = "materialized";
  wr_current : res_current_version_id resource = Some (ver_id version);
  wr_version : rm_versions (w_store w') !! ver_id version = Some version;
  wr_owner : ver_resource_id version = res_id resource;
  wr_payload : ver_payload version
    = materialized_file_payload canonical content (sha256_hex content) (w_disk w');
  wr_bytes : regular (w_disk w) canonical -> disk_read (w_disk w') canonical = Ok content
}.

Lemma store_update_ok u (w : World) v w' :
  store_update debug json_len rfc3339_error json_text sha256_hex uuid now u w = (Ok v, w') ->
  memory_update debug json_len rfc3339_error json_text sha256_hex now
    (fun n => uuid (w_drawn w + n)%nat) u (w_store w) = Ok (v, w_store w') /\ w_disk w' = w_disk w.
Proof. apply on_store_ok. Qed.
Lemma store_create_ok c (w : World) r w' :
  store_create debug json_len rfc3339_error json_text sha256_hex uuid now c w = (Ok r, w') ->
  memory_create debug json_len rfc3339_error json_text sha256_hex now
    (fun n => uuid (w_drawn w + n)%nat) c (w_store w) = Ok (r, w_store w') /\ w_disk w' = w_disk w.
Proof. apply on_store_ok. Qed.
Lemma create_lifecycle ids c l s r s' :
  memory_create debug json_len rfc3339_error json_text sha256_hex now ids c s = Ok (r, s') ->
  nr_lifecycle c = Some l -> res_lifecycle r = l.
Proof.
  unfold memory_create. intros [_ H]%seq_ok Hl.
  destruct (memory_require_type _ _ s) as [d|]; [|done]. simpl in H.
  destruct (creation_defaults c d) as [[lifecycle schema]|] eqn:Hdef; [|done]. simpl in H.
  apply seq_ok in H as [_ H]. destruct (rm_resources s !! _); [done|]. simpl in H.
  assert (lifecycle = l) as ->.
  { unfold creation_defaults in Hdef. rewrite Hl in Hdef. apply seq_ok in Hdef as [_ Hdef].
    destruct (negb _); [done|]. by injection Hdef as <- _. }
  destruct (nr_initial_payload c) as [payload|]; [|by injection H as <- _].
  destruct (memory_append_version _ _ _ _ _ _ _) as [[v s1]|]; [|done]. by injection H as <- _.
Qed.
Lemma replaceable_ok i id allow_update found (w : World) expected w' :
  replaceable debug i id allow_update found w = (Ok expected, w') ->
  w' = w /\ res_kind (ri_resource found) = "materialized_file".
Proof.
  unfold replaceable. intros ([] & ? & [Hk ->]%lift_ok & H)%bind_ok.
  apply bind_ok in H as ([] & ? & [_ ->]%lift_ok & H). destruct allow_update; [|done]. simpl in H.
  unfold expected_version, opt_text in H. apply bind_ok in H as (e & ? & [_ ->]%lift_ok & H).
  destruct (_ && _); [done|]. injection H as _ <-. split; [done|].
  unfold ensure_resource_kind in Hk. by destruct (String.eqb_spec (res_kind (ri_resource found)) "materialized_file").
Qed.

Lemma create_file_ok i allow_update w resource version w' :
  reachable (w_store w) -> reachable (w_store w') ->
  create_file i allow_update w = (Ok (resource, version), w') ->
  exists canonical content, written i w canonical content resource version w'.
Proof.
  intros Hwf%resource_reachable_wf Hwf'%resource_reachable_wf H. unfold create_materialized_file in H.
  apply bind_ok in H as ([[[canonical content] hash] id] & ? & Hreq & H).
  apply file_request_ok in Hreq as (-> & -> & Hcontent & Hpath).
  apply bind_ok in H as (existing & ? & Hex & H). injection Hex as Hex <-.
  destruct existing as [found|].
  - apply inspect_some in Hex as (Hfound & _ & Htoken).
    apply bind_ok in H as (expected & ? & [-> Hkind]%replaceable_ok & H).
    apply bind_ok in H as ([] & w2 & [Hs2 Hbytes]%materialize_ok & H).
    apply bind_ok in H as (payload & ? & [= <- <-] & H).
    apply bind_ok in H as (v & w3 & [Hup Hd3]%store_update_ok & H).
    apply bind_ok in H as (after & ? & [Hafter ->]%inspect_existing_ok & [= <- <- <-]).
    apply inspect_some in Hafter as (Hafter & _ & _).
    apply update_ok in Hup as (r & d & Hr & _ & _ & _ & Hv & Hs').
    rewrite Hs2 in *. cbn [update_request up_resource_id up_lifecycle] in *.
    rewrite Hfound in Hr. injection Hr as <-. destruct (wf_resource _ _ _ Hwf _ _ Hfound) as (Hid & _ & _).
    rewrite Hs' in Hafter. simpl in Hafter. rewrite Hid, lookup_insert_eq in Hafter. injection Hafter as Hafter.
    exists canonical, content. rewrite <- Hafter, Hv.
    split; rewrite ?Hs', ?Hd3; try done; simpl; rewrite ?Hid, ?Hv, ?lookup_insert_eq; done.
  - apply bind_ok in H as (scope & ? & [_ ->]%lift_ok & H).
    apply bind_ok in H as ([] & w2 & [Hs2 Hbytes]%materialize_ok & H).
    apply bind_ok in H as (payload & ? & [= <- <-] & H).
    apply bind_ok in H as (r & w3 & [Hc Hd3]%store_create_ok & H).
    unfold current_version_for_resource in H. apply bind_ok in H as (v & ? & Hcur & [= <- <- <-]).
    apply bind_ok in Hcur as (after & ? & [Hafter ->]%inspect_existing_ok & [Hcv ->]%lift_ok).
    apply inspect_some in Hafter as (Hafter & Hvs & Htoken).
    pose proof (create_lifecycle _ _ _ _ _ _ Hc eq_refl) as Hlife.
    apply create_ok in Hc as (d & lifecycle & schema & _ & _ & _ & Hc).
    cbn [nr_initial_payload] in Hc. destruct Hc as (_ & Hr & Hs').
    cbn [nr_kind] in *. set (v0 := version_of _ _ _ _ _ _) in *.
    assert (rm_resources (w_store w3) !! res_id r = Some r) as Hstored
      by (rewrite Hs'; simpl; apply lookup_insert_eq).
    rewrite Hafter in Hstored. injection Hstored as Hstored.
    assert (rm_versions (w_store w3) !! ver_id v0 = Some v0) as Hv0
      by (rewrite Hs'; simpl; apply lookup_insert_eq).
    assert (res_current_version_id r = Some (ver_id v0)) as Hcurrent by (rewrite Hr; done).
    destruct (current_stored (w_store w3) (res_id r) after v0) as [_ Hcv0]; try done; [by rewrite Hstored|].
    rewrite Hcv0 in Hcv. injection Hcv as <-.
    exists canonical, content. split; rewrite ?Hd3; try done; [by rewrite Hafter, Hstored|].
    by rewrite Hr.
Qed.

(** A file that was written verifies and reads back. *)
Lemma written_verifies i w canonical content resource version w' j :
  wf (w_store w') -> regular (w_disk w) canonical -> written i w canonical content resource version w' ->
  vget (inv_payload j) "resourceId" = Some (VString (res_id resource)) ->
  materialized_file_hash_verify_response debug json_len rfc3339_error json_text sha256_hex rfc3339 uuid now j w'
    = (Ok (version_response rfc3339 version "materialized_file" "verified"), w') /\
  materialized_file_read_response debug rfc3339 j w'
    = (Ok (j{"content" ~> VString content; "resource" ~> resource_value rfc3339 resource}), w').
Proof.
  intros Hwf Hdir Hw Hj.
  destruct Hw as [Hcontent (text & Htext & Hpath) Htoken Hstored Hkind Hlife Hcurrent Hversion Howner Hpayload Hbytes].
  apply canonical_path_clean, parse_display in Hpath.
  destruct (inspect_stored _ _ _ Htoken Hstored) as (found & Hfound & Hres & Hvs).
  destruct (current_stored (w_store w') (res_id resource) found version) as [Hcv Hcvi]; try done;
    [by rewrite Hres|].
  unfold materialized_file_hash_verify_response, materialized_file_read_response, inspect_operational,
    inspect_existing, req_text, required_str, store_inspect, ask, lift.
  unfold mbind, handler_bind, mret, handler_ret. rewrite Hj. simpl. rewrite Hfound. simpl.
  unfold ensure_resource_kind, ensure_materialized_file_operational, current_payload.
  rewrite Hres, Hkind, Hlife. simpl. rewrite Hcvi, Hcv. simpl. rewrite Hpayload. simpl.
  rewrite Hpath, Hbytes by done. simpl. by rewrite String.eqb_refl, ?Hres.
Qed.

(** C35: After a successful materialized_file::create or update whose path names a regular
    file or nothing (not a directory, device or link), materialized_file::read of that
    resource answers the content that was given and materialized_file::hash_verify verifies
    it, both without changing anything: the path stored in the payload is parsed back to the
    file written and the recorded hash is that of its bytes. *)
Theorem materialized_file_reads_back i w answer w' :
  In (inv_function_id i) ["materialized_file::create"; "materialized_file::update"] ->
  reachable (w_store w) -> undrawn_fresh uuid w -> primitive i w = (Ok answer, w') ->
  (forall text p, vget (inv_payload i) "path" = Some (VString text) ->
     canonical_materialized_path (disk_files (w_disk w)) i text = Ok p -> regular (w_disk w) p) ->
  exists resource version role,
    answer = file_response rfc3339 (resource, version) role /\
    forall j, vget (inv_payload j) "resourceId" = Some (VString (res_id resource)) ->
      (inv_function_id j = "materialized_file::hash_verify" ->
         primitive j w' = (Ok (version_response rfc3339 version "materialized_file" "verified"), w')) /\
      (inv_function_id j = "materialized_file::read" ->
         primitive j w'
         = (Ok (j{"content" ~> VString (default "" (vget (inv_payload i) "content" ≫= as_str));
                  "resource" ~> resource_value rfc3339 resource}), w')).
Proof.
  intros Hin Hr Hf H Hdir.
  assert (rtc (resource_step debug json_len rfc3339_error json_text sha256_hex) (w_store w) (w_store w')) as Hsteps.
  { replace w' with (snd (primitive i w)) by by rewrite H. revert Hf.
    intros Hf. by apply (primitive_steps debug json_len rfc3339_error json_text sha256_hex rfc3339 to_lowercase
      locations_error uuid now Huuid i w). }
  assert (reachable (w_store w')) as Hr' by (unfold resource_reachable in *; by etrans).
  assert (exists resource version role allow, create_file i allow w = (Ok (resource, version), w') /\
            answer = file_response rfc3339 (resource, version) role) as (resource & version & role & allow & Hc & ->).
  { revert H. unfold resource_primitive.
    destruct Hin as [<-|[<-|[]]]; simpl; intros ([resource version] & ? & Hc & [= <- <-])%bind_ok;
      exists resource, version; do 2 eexists; (split; [exact Hc|done]). }
  exists resource, version, role. split; [done|]. intros j Hj.
  destruct (create_file_ok _ _ _ _ _ _ Hr Hr' Hc) as (canonical & content & Hw).
  destruct (written_verifies i w canonical content resource version w' j) as [Hverify Hread]; try done.
  - by eapply resource_reachable_wf.
  - destruct (wr_path _ _ _ _ _ _ _ Hw) as (text & Ht & Hp). by eapply Hdir.
  - rewrite <- (wr_content _ _ _ _ _ _ _ Hw). unfold resource_primitive.
    by split; intros ->.
Qed.
(** ** An omitted resource id *)

(** The payload that a wrapper builds names a null id, which is not a string. *)
Lemma null_id_fails i allow_update w r w' :
  vget (inv_payload i) "resourceId" = Some Null -> create_file i allow_update w <> (Ok r, w').
Proof.
  intros Hid H. unfold create_materialized_file in H.
  apply bind_ok in H as (x & ? & Hreq & _). unfold file_request, req_text, opt_text in Hreq.
  do 4 (apply bind_ok in Hreq as (? & ? & [_ ->]%lift_ok & Hreq)).
  destruct (match _ with Some _ => _ | None => _ end); [done|].
  apply bind_ok in Hreq as (named & ? & [Hn _]%lift_ok & _). unfold field in Hn. by rewrite Hid in Hn.
Qed.

Theorem materialize_needs_a_resource_id i w :
  inv_function_id i = "artifact::materialize" -> vget (inv_payload i) "resourceId" = None ->
  exists e, fst (primitive i w) = Err e.
Proof.
  intros Hf Hid. unfold resource_primitive. rewrite Hf. cbn -[artifact_materialize_response].
  destruct (artifact_materialize_response _ _ _ _ _ _ _ _ i w) as [[a|e] w'] eqn:H; [|by exists e].
  exfalso. unfold artifact_materialize_response, req_text, opt_text in H.
  do 2 (apply bind_ok in H as (? & ? & [_ ->]%lift_ok & H)).
  apply bind_ok in H as (found & ? & _ & H). apply bind_ok in H as (payload & ? & _ & H).
  apply bind_ok in H as (id & ? & [Hn ->]%lift_ok & H). unfold field in Hn. rewrite Hid in Hn.
  injection Hn as <-. apply bind_ok in H as (written & ? & H & _). by eapply null_id_fails in H.
Qed.
Theorem patch_apply_needs_a_resource_id i w :
  inv_function_id i = "patch::apply" -> vget (inv_payload i) "targetResourceId" = None ->
  (forall id found payload, vget (inv_payload i) "patchResourceId" = Some (VString id) ->
     memory_inspect debug id (w_store w) = Ok (Some found) -> current_payload found = Ok payload ->
     vget payload "targetResourceId" ≫= as_str = None) ->
  exists e, fst (primitive i w) = Err e.
Proof.
  intros Hf Hid Hproposal. unfold resource_primitive. rewrite Hf. cbn -[patch_apply_response].
  destruct (patch_apply_response _ _ _ _ _ _ _ _ i w) as [[a|e] w'] eqn:H; [|by exists e].
  exfalso. unfold patch_apply_response, req_text, opt_text in H.
  apply bind_ok in H as (id & ? & [Hi ->]%lift_ok & H).
  apply bind_ok in H as (found & ? & [Hfound ->]%inspect_existing_ok & H).
  apply bind_ok in H as (? & ? & [_ ->]%lift_ok & H).
  apply bind_ok in H as (payload & ? & [Hp ->]%lift_ok & H).
  do 2 (apply bind_ok in H as (? & ? & [_ ->]%lift_ok & H)).
  apply bind_ok in H as (target & ? & [Hn ->]%lift_ok & H). unfold field in Hn. rewrite Hid in Hn.
  injection Hn as <-. apply bind_ok in H as (written & ? & H & _). eapply null_id_fails; [|exact H].
  simpl. erewrite Hproposal; [done| |exact Hfound|exact Hp].
  unfold required_str in Hi. by destruct (vget (inv_payload i) "patchResourceId") as [[]|]; simplify_eq/=.
Qed.
End round_trip.

(** ** Concrete runs *)

Lemma clean_pathb_clean p : clean_pathb p = true -> clean_path p.
Proof.
  unfold clean_pathb. intros [[Ha Hp%bool_decide_eq_true]%andb_true_iff Hn]%andb_true_iff.
  split; [done|]. pose proof (parse_clean (path_display p)) as Hc. rewrite Hp in Hc.
  rewrite Forall_forall in *. intros c Hin. rewrite forallb_forall in Hn.
  specialize (Hn c (proj1 (list_elem_of_In _ _) Hin)).
  destruct c as [| |n]; [done|done|]. exists n. split; [done|]. by apply (Hc (Normal n)).
Qed.
Lemma parent_other p parent :
  clean_path p -> path_parent p = Some parent -> path_display parent <> path_display p.
Proof.
  intros Hc Hp Hd. assert (clean_path parent) as Hc'.
  { unfold path_parent in Hp. destruct Hc as [Ha Hcs]. destruct (p_components p) as [|c cs]; [done|].
    injection Hp as <-. split; [done|]. cbn [p_components].
    rewrite (app_removelast_last c (l := c :: cs)) in Hcs by done. by apply Forall_app in Hcs as [? _]. }
  apply parse_display in Hc, Hc'. rewrite Hd, Hc in Hc'. subst parent.
  unfold path_parent in Hp. destruct (p_components p) as [|c cs] eqn:E; [done|]. injection Hp as Hp.
  apply (f_equal (fun q => List.length (p_components q))) in Hp. cbn [p_components] in Hp. rewrite E in Hp.
  pose proof (app_removelast_last c (l := c :: cs) ltac:(done)) as Hl.
  apply (f_equal List.length) in Hl. rewrite length_app in Hl. simpl in Hl, Hp. lia.
Qed.
Definition mem_regular (d : MemDisk) (p : path) : Prop :=
  clean_pathb p = true /\ list_has (md_dirs d) (path_display p) = false.
#[global] Instance mem_disk_laws : DiskLaws MemDisk mem_regular.
Proof.
  assert (forall p, clean_pathb p = true -> path_join server_dir p = p) as Hjoin.
  { intros p [Ha _]%clean_pathb_clean. unfold path_join. by rewrite Ha. }
  split.
  - intros d p [Hc Hd]. simpl. by rewrite Hjoin.
  - intros d d' p parent [Hc Hd] Hp [= <-]. split; [done|].
    apply clean_pathb_clean in Hc. pose proof (parent_other _ _ Hc Hp) as Hne.
    cbn [md_dirs]. unfold list_has in *. cbn [existsb]. rewrite Hd, orb_false_r.
    by apply String.eqb_neq.
  - intros p content d d' _ [= <-]. simpl. by rewrite lookup_insert_eq.
  - intros d p q. simpl. destruct (known d _ && _) eqn:E; [|done]. intros [= <-].
    apply clean_pathb_clean. by apply andb_true_iff in E as [_ ?].
  - intros d p [= <-]. by apply clean_pathb_clean.
Qed.

Definition answer_of {A} (r : Result A * @World MemDisk) (other : A) : A :=
  match fst r with Ok a => a | Err _ => other end.
Lemma answered {A} (r : Result A * @World MemDisk) other :
  is_ok (fst r) = true -> r = (Ok (answer_of r other), snd r).
Proof. by destruct r as [[a|e] w]. Qed.

Lemma materialized_file_reads_back_witness :
  exists resource version role,
    answer_of (demo_primitive demo_create demo_world) Null
    = file_response (fun _ => "now") (resource, version) role /\
    forall j, vget (inv_payload j) "resourceId" = Some (VString (res_id resource)) ->
      (inv_function_id j = "materialized_file::hash_verify" ->
         demo_primitive j (snd (demo_primitive demo_create demo_world))
         = (Ok (version_response (fun _ => "now") version "materialized_file" "verified"),
            snd (demo_primitive demo_create demo_world))) /\
      (inv_function_id j = "materialized_file::read" ->
         demo_primitive j (snd (demo_primitive demo_create demo_world))
         = (Ok (j{"content" ~> VString "hello"; "resource" ~> resource_value (fun _ => "now") resource}),
            snd (demo_primitive demo_create demo_world))).
Proof.
  refine (materialized_file_reads_back plain (fun _ => 10) (fun _ => None) text_of hash_of
    (fun _ => "now") plain (fun _ => "locations") draw 5 draw_inj demo_create demo_world _ _
    _ demo_reachable demo_fresh _ _).
  - left. reflexivity.
  - apply answered. vm_compute. reflexivity.
  - intros text p [= <-]. vm_compute. intros [= <-]. by split.
Defined.

(** ** Where the handlers fall short *)

Definition world_after (calls : list Invocation) : World :=
  fold_left (fun w i => snd (demo_primitive i w)) calls demo_world.
Definition answers (i : Invocation) (w : World) : bool := is_ok (fst (demo_primitive i w)).
Definition passes_roots (roots : list string) (i : Invocation) (w : World) : bool :=
  is_ok (ensure_file_roots plain (disk_files (w_disk w)) (rooted_grant roots) i).

(** The check of a relative path starts at the directory of the server, the write at the
    working directory of the session: a grant for the former writes under the latter, and a
    grant for the latter cannot write there. *)
Theorem relative_path_is_checked_elsewhere :
  let call := demo_call "materialized_file::create" (j{"path" ~> "a.txt"; "content" ~> "x"}) in
  passes_roots ["/srv"] call demo_world = true /\
  disk_read (w_disk (world_after [call])) (parse_path "/work/a.txt") = Ok "x" /\
  passes_roots ["/work"] call demo_world = false.
Proof. by vm_compute. Qed.

(** The path of a patch is in the stored proposal, which no check reads: with a grant for one
    directory, a proposal that names a file elsewhere is stored and applied. *)
Theorem patch_apply_writes_outside_the_roots :
  let propose := demo_call "resource::create"
    (j{"kind" ~> "patch_proposal"; "resourceId" ~> "p1";
       "payload" ~> j{"targetPath" ~> "/etc/hosts"; "diff" ~> ""; "status" ~> "proposed"}}) in
  let apply := demo_call "patch::apply"
    (j{"patchResourceId" ~> "p1"; "targetResourceId" ~> "f1"; "content" ~> "x"}) in
  passes_roots ["/work"] propose demo_world = true /\
  passes_roots ["/work"] apply (world_after [propose]) = true /\
  disk_read (w_disk (world_after [propose; apply])) (parse_path "/etc/hosts") = Ok "x".
Proof. by vm_compute. Qed.

(** The completion of a goal that does not exist fails, and leaves its decision behind. *)
Theorem failed_completion_keeps_its_decision :
  let complete := demo_call "goal::complete"
    (j{"goalResourceId" ~> "g1"; "agentResultResourceId" ~> "r1"; "promotedResourceIds" ~> jstrs ["x"];
       "decision" ~> j{"status" ~> "done"; "summary" ~> "ok"}}) in
  fst (demo_primitive complete demo_world) = Err (NotFound "resource" "g1") /\
  option_map res_kind (rm_resources (w_store (world_after [complete])) !! "res_0") = Some "decision".
Proof. by vm_compute. Qed.

(** A promotion makes a discarded file readable again. *)
Theorem promotion_revives_a_discarded_file :
  let on name := demo_call name (j{"resourceId" ~> "f1"}) in
  let create := demo_call "materialized_file::create"
    (j{"path" ~> "/work/a.txt"; "content" ~> "x"; "resourceId" ~> "f1"}) in
  let discarded := world_after [create; on "materialized_file::discard"] in
  answers (on "materialized_file::read") discarded = false /\
  answers (on "materialized_file::read") (snd (demo_primitive (on "materialized_file::promote") discarded))
  = true.
Proof. by vm_compute. Qed.

(** A directory is accepted as a file with no content; its verification finds no bytes and marks the
    resource as damaged. *)
Theorem verified_directory_is_damaged :
  let create := demo_call "materialized_file::create"
    (j{"path" ~> "/work"; "content" ~> ""; "resourceId" ~> "f1"}) in
  let verify := demo_call "materialized_file::hash_verify" (j{"resourceId" ~> "f1"}) in
  let lifecycle calls := res_lifecycle <$> rm_resources (w_store (world_after calls)) !! "f1" in
  lifecycle [create] = Some "materialized" /\ lifecycle [create; verify] = Some "damaged".
Proof. by vm_compute. Qed.
