(* ===== verification/ResourceContracts.v ===== *)
(** * The contracts of the resource primitives

    The functions that [engine/primitives/resource] registers are the ones its handler
    serves, the registration policy accepts them, and the answers of the handler conform to
    the response schemas that the engine checks them against.

    [Answers P m]: a handler that succeeds answers with a value that satisfies [P]. *)

From stdpp Require Import base gmap strings list pretty.
From Stdlib Require Import ZArith Ascii String Lia.
From S2P Require Import Prelude Sorting Json Kernel Model Schema Policy Paths Grants Ledger Catalog Meta.
From S2P Require Import UiSurface Resources ResourceHistory Messages GrantPrimitive ResourcePrimitive ResourceHandlers.
From S2P Require Import Invocation.
Import JsonNotations.

#[local] Open Scope Z_scope.

Section answers.
  Context {D A : Type}.
  Variable P : A -> Prop.

Class Answers (m : @Handler D A) : Prop := answers_with : forall w a w', m w = (Ok a, w') -> P a.

#[global] Instance answers_ret a : P a -> Answers (mret a).
Proof. by intros Ha w b w' [= <- <-]. Qed.
#[global] Instance answers_throw e : Answers (throw e).
Proof. by intros w b w'. Qed.
#[global] Instance answers_bind {B} (m : Handler B) (k : B -> Handler A) :
  (forall b, Answers (k b)) -> Answers (m ≫= k).
Proof. intros Hk w a w' (b & w1 & _ & H)%bind_ok. by apply (Hk b w1 a w'). Qed.
End answers.

Ltac run_answer :=
  repeat first
    [ apply answers_throw
    | apply answers_bind; intros ?
    | match goal with |- Answers _ (match ?x with _ => _ end) => destruct x end
    | progress cbv zeta
    | apply answers_ret ].

Section contracts.
  Context {D : Type} {HD : Disk D}.
  Variable debug : string -> string.
  Variable json_len : Value -> Z.
  Variable rfc3339_error : string -> option string.
  Variable json_text : Value -> string.
  Variable sha256_hex : string -> string.
  Variable rfc3339 : instant -> string.
  Variable to_lowercase : string -> string.
  Variable locations_error : Value -> string.
  Variable uuid : nat -> string.
  Variable now : instant.
  Notation handlers := (resource_handlers debug json_len rfc3339_error json_text sha256_hex rfc3339
                          to_lowercase locations_error uuid now).
  Notation primitive := (resource_primitive debug json_len rfc3339_error json_text sha256_hex rfc3339
                           to_lowercase locations_error uuid now).

Definition conforming (f : FunctionDefinition) (v : Value) : Prop :=
  check_schema debug f "response" (fn_response_schema f) v = Ok tt.
Definition handler_conforms (f : FunctionDefinition) (entry : string * (Invocation -> @Handler D Value)) : Prop :=
  fst entry = fn_id f /\ forall i, Answers (conforming f) (snd entry i).

(** References in an array, whatever their number. *)
Lemma each_item_conforms {E A B} (g : Z -> B -> result E unit) (h : A -> B) (l : list A) : forall n,
  (forall n x, g n (h x) = Ok tt) -> try_each_indexed g n (map h l) = Ok tt.
Proof. induction l as [|x l IH]; intros n Hg; [done|]. simpl. by rewrite Hg, IH. Qed.

Lemma refs_conform {A} f d (ref : A -> EngineResource) role (l : list A) path :
  validate_payload_node f d resource_refs_schema
    (VArray (map (fun x => resource_ref_from_resource (ref x) role) l)) path = Ok tt.
Proof.
  unfold resource_refs_schema. set (item := object_schema _ _).
  change (try_each_indexed (fun index ref => validate_payload_node f d item ref (path +s "[" +s pretty index +s "]")) 0
            (map (fun x => resource_ref_from_resource (ref x) role) l) = Ok tt).
  apply each_item_conforms. intros n x. unfold resource_ref_from_resource.
  by destruct (res_current_version_id (ref x)); vm_compute.
Qed.
(** An object conforms when its own checks pass and each declared property conforms. *)
Lemma object_conforms f d object children fields path :
  obj_get object "properties" = Some (VObject children) -> obj_get object "items" = None ->
  validate_payload_head f d object (VObject fields) path = Ok tt ->
  validate_additional f d object children fields path = Ok tt ->
  List.Forall (fun kv => forall v, obj_get fields (fst kv) = Some v ->
    validate_payload_node f d (snd kv) v (path +s "." +s fst kv) = Ok tt) children ->
  validate_payload_node f d (VObject object) (VObject fields) path = Ok tt.
Proof.
  intros Hp Hi Hh Ha Hc. cbn [validate_payload_node]. rewrite Hh. simpl.
  rewrite !obj_get_with_spec, Hp. simpl. rewrite Ha. simpl.
  match goal with |- context [try_each ?g children] => assert (try_each g children = Ok tt) as -> end.
  { apply try_each_ok. eapply List.Forall_impl; [|exact Hc]. intros [k child] H. simpl in *.
    destruct (obj_get fields k) as [v|]; [by apply H|done]. }
  by rewrite Hi.
Qed.

Lemma conforming_node f schema v :
  fn_response_schema f = Some schema ->
  validate_schema_definition debug (fn_id f) "response" schema = Ok tt ->
  validate_payload_node (fn_id f) "response" schema v "$" = Ok tt -> conforming f v.
Proof.
  intros Hs Hd Hn. unfold conforming, check_schema, validate_payload, validate_payload_faults.
  by rewrite Hs, Hd, Hn.
Qed.

Lemma handlers_conform : List.Forall2 handler_conforms resource_registrations handlers.
Proof.
  unfold resource_registrations, resource_store_registrations, artifact_registrations,
    goal_registrations, file_registrations. cbn [app].
  repeat (apply List.Forall2_cons; [split; [reflexivity|intros i; cbn [snd]]|]); [..|apply List.Forall2_nil].
  all: unfold register_type_response, create_response, update_response, link_response, inspect_response,
    list_response, wrapper_create_response, artifact_update_response, lifecycle_response,
    inspect_kind_response, artifact_split_response, artifact_compose_response, artifact_merge_response,
    artifact_search_response, artifact_materialize_response, goal_complete_response,
    goal_working_set_response, attach_response, materialized_file_create_response,
    materialized_file_read_response, materialized_file_update_response,
    materialized_file_hash_verify_response, patch_propose_response, patch_apply_response,
    wrapper_version_response, damaged_materialized_file_response.
  all: run_answer.
  all: unfold conforming.
  all: try (vm_compute; reflexivity).
  all: try (unfold resource_response, resource_ref_from_resource;
            match goal with |- context [res_current_version_id ?r] => destruct (res_current_version_id r) end;
            vm_compute; reflexivity).
  all: try (match goal with |- context [inspection_value _ <$> ?o] => destruct o end; vm_compute; reflexivity).
  all: eapply conforming_node; [reflexivity|vm_compute; reflexivity|].
  all: eapply object_conforms; [reflexivity|reflexivity|vm_compute; reflexivity|vm_compute; reflexivity|].
  all: repeat apply List.Forall_cons; try apply List.Forall_nil; intros v [= <-]; cbn [fst snd].
  all: lazymatch goal with |- context [resource_ref_from_resource] => apply refs_conform | _ => reflexivity end.
Qed.

Lemma registered_names : map fst handlers = map fn_id resource_registrations.
Proof. reflexivity. Qed.
Lemma registered_once : NoDup (map fn_id resource_registrations).
Proof. apply (bool_decide_eq_true_1 _). vm_compute. reflexivity. Qed.

(** The handler that serves a registered function. *)
Lemma serving_handler f i :
  In f resource_registrations -> fn_id f = inv_function_id i ->
  exists h, obj_get handlers (inv_function_id i) = Some h /\ Answers (conforming f) (h i).
Proof.
  intros Hin Hid. pose proof registered_once as Hnd. revert Hin Hid Hnd.
  induction handlers_conform as [|g [name h] fs hs [Hname Hh] _ IH]; [done|].
  cbn [map In obj_get]. simpl in Hname. subst name. intros Hin Hid [Hg Hnd]%NoDup_cons.
  destruct (String.eqb_spec (fn_id g) (inv_function_id i)) as [E|Hne].
  - exists h. split; [done|]. destruct Hin as [->|Hin]; [by apply Hh|].
    exfalso. apply Hg. rewrite E, <- Hid. by apply list_elem_of_In, in_map.
  - apply IH; try done. destruct Hin as [->|]; [congruence|done].
Qed.

Lemma registrations_accepted :
  List.Forall (fun f => validate_function_registration debug f = Ok tt) resource_registrations.
Proof. repeat (apply List.Forall_cons; [vm_compute; reflexivity|]). apply List.Forall_nil. Qed.

End contracts.

