(* ===== verification/UiPrimitive.v ===== *)
(** * The UI surface primitives

    [engine/primitives/ui]: the functions [ui::*], wrappers of the resource store for
    resources of the kind [ui_surface]: create, update, inspect, validate, expire, discard,
    and the submission of an action of a surface.

    The handlers run on the [World] of ResourcePrimitive, whose disk they leave alone.
    [parse_rfc3339] reads a timestamp or gives the text of the error. *)

From stdpp Require Import base gmap strings list pretty.
From Stdlib Require Import ZArith Ascii String Lia.
From S2P Require Import Prelude Sorting Json Kernel Model Schema Policy Paths Grants Ledger Catalog Meta.
From S2P Require Import UiSurface Resources ResourceHistory BuiltinKinds Messages GrantPrimitive.
From S2P Require Import ResourcePrimitive ResourceHandlers Invocation MaterializedFiles ResourceContracts.
Import JsonNotations.

#[local] Open Scope Z_scope.

Section ui.
  Context {D : Type}.
  Variable debug : string -> string.
  Variable json_len : Value -> Z.
  Variable parse_rfc3339 : string -> result string instant.
  Variable json_text : Value -> string.
  Variable sha256_hex : string -> string.
  Variable rfc3339 : instant -> string.
  Variable uuid : nat -> string.
  Variable now : instant.

Definition rfc3339_error (s : string) : option string :=
  match parse_rfc3339 s with Ok _ => None | Err e => Some e end.
Notation Handler := (@Handler D).
Notation create := (@store_create D debug json_len rfc3339_error json_text sha256_hex uuid now).
Notation update := (@store_update D debug json_len rfc3339_error json_text sha256_hex uuid now).

(** ** Checks *)

(* SRC engine/primitives/ui/mod.rs:351-357 normalized_surface_payload *)
Definition normalized_surface_payload (i : Invocation) : Result Value :=
  let? surface := ok_or (field i "surface") (PolicyViolation (inv_function_id i +s " requires surface")) in
  let? _ := validate_ui_surface_payload debug json_len rfc3339_error surface in Ok surface.
(* SRC engine/primitives/ui/mod.rs:401-409 default_resource_scope *)
Definition default_resource_scope (i : Invocation) : EngineResourceScope :=
  match cx_session_id (inv_context i), cx_workspace_id (inv_context i) with
  | Some session_id, _ => ResScope_Session session_id
  | None, Some workspace_id => ResScope_Workspace workspace_id
  | None, None => ResScope_System
  end.
(* SRC engine/primitives/ui/mod.rs:359-399 resource_scope_from_payload *)
Definition surface_scope_from_payload (i : Invocation) : Result EngineResourceScope :=
  let c := inv_context i in
  let? explicit := optional_string (field i "scope") in
  match explicit with
  | None => Ok (default_resource_scope i)
  | Some kind =>
      if kind =s "system" then Ok ResScope_System
      else if kind =s "workspace" then
        let? id := optional_string (field i "workspaceId") in
        let? id := ok_or (or_else id (cx_workspace_id c))
                     (PolicyViolation "workspace scoped resource requires workspaceId") in
        if is_blank id then policy_error "workspaceId must not be empty" else Ok (ResScope_Workspace id)
      else if kind =s "session" then
        let? id := optional_string (field i "sessionId") in
        let? id := ok_or (or_else id (cx_session_id c))
                     (PolicyViolation "session scoped resource requires sessionId") in
        if is_blank id then policy_error "sessionId must not be empty" else Ok (ResScope_Session id)
      else policy_error ("unsupported resource scope " +s kind)
  end.
(* SRC engine/primitives/ui/mod.rs:411-424 surface_lifecycle *)
Definition surface_lifecycle (i : Invocation) (default_state : string) : Result string :=
  let? named := optional_string (field i "lifecycle") in
  let lifecycle := default default_state named in
  if list_has ["draft"; "active"; "superseded"; "expired"; "discarded"; "damaged"] lifecycle
  then Ok lifecycle else policy_error ("unsupported ui_surface lifecycle " +s lifecycle).
(* SRC engine/primitives/ui/mod.rs:426-435 ensure_ui_surface *)
Definition ensure_ui_surface (found : EngineResourceInspection) : Result unit :=
  let r := ri_resource found in
  if res_kind r =s UI_SURFACE_KIND then Ok tt
  else policy_error ("resource " +s res_id r +s " is kind " +s res_kind r +s ", expected ui_surface").
(* SRC engine/primitives/ui/mod.rs:437-445 ensure_surface_active *)
Definition ensure_surface_active (found : EngineResourceInspection) : Result unit :=
  let r := ri_resource found in
  if list_has ["active"; "draft"] (res_lifecycle r) then Ok tt
  else policy_error ("ui_surface " +s res_id r +s " is " +s res_lifecycle r).
(* SRC engine/primitives/ui/mod.rs:447-454 current_payload *)
Definition surface_payload (found : EngineResourceInspection) : option Value :=
  ver_payload <$> current_version found.
(* SRC engine/primitives/ui/validation.rs:220-227 current_version_hash *)
Definition current_version_hash (found : EngineResourceInspection) : option string :=
  ver_content_hash <$> current_version found.
Definition names_action (action_id : string) (action : Value) : bool :=
  match vget action "actionId" ≫= as_str with Some id => id =s action_id | None => false end.
(* SRC engine/primitives/ui/mod.rs:456-469 surface_action *)
Definition surface_action (surface : Value) (action_id : string) : Result Value :=
  ok_or ((vget surface "actions" ≫= as_array) ≫= List.find (names_action action_id))
    (NotFound "ui_action" action_id).
(* SRC engine/primitives/ui/mod.rs:471-489 ensure_not_expired *)
Definition ensure_not_expired (expires_at : option string) (subject : string) : Result unit :=
  match expires_at with
  | None => policy_error (subject +s " requires expiresAt")
  | Some text =>
      match parse_rfc3339 text with
      | Err error => policy_error (subject +s " expiresAt invalid: " +s error)
      | Ok t => if t <=? now then policy_error (subject +s " is expired") else Ok tt
      end
  end.

(** ** Answers *)

(* SRC engine/primitives/ui/mod.rs:491-511 action_summaries *)
Definition action_summaries (payload : option Value) : Value :=
  match (payload ≫= (fun p => vget p "actions")) ≫= as_array with
  | None => j[]
  | Some actions =>
      VArray (map (fun action =>
        j{"actionId" ~> jopt (vget action "actionId"); "label" ~> jopt (vget action "label");
          "expiresAt" ~> jopt (vget action "expiresAt");
          "presentation" ~> jopt (vget action "presentation")}) actions)
  end.
(* SRC engine/primitives/ui/mod.rs:513-522 surface_lineage *)
Definition surface_lineage (found : option EngineResourceInspection) : Value :=
  match found with
  | None => j{}
  | Some found =>
      j{"outgoingLinks" ~> links_value rfc3339 (ri_outgoing_links found);
        "incomingLinks" ~> links_value rfc3339 (ri_incoming_links found);
        "versionCount" ~> jnum (Z.of_nat (List.length (ri_versions found)))}
  end.
(** The [{:?}] of a version state. *)
Definition version_state_debug (s : EngineResourceVersionState) : string :=
  match s with
  | Available => "Available" | Quarantined => "Quarantined" | Damaged => "Damaged"
  | Discarded => "Discarded"
  end.
(* SRC engine/primitives/ui/validation.rs:95-98 SurfaceValidation *)
Record SurfaceValidation := { sv_state : string; sv_diagnostics : list Value }.
Definition diagnosed (state code message : string) : SurfaceValidation :=
  {| sv_state := state; sv_diagnostics := [j{"code" ~> code; "message" ~> message}] |}.
(* SRC engine/primitives/ui/validation.rs:209-218 validation_error *)
Definition validation_error (state code : string) (e : EngineError) : SurfaceValidation :=
  diagnosed state code (error_to_string debug e).
(** [DateTime::parse_from_rfc3339(..).map(|t| t <= now).unwrap_or(true)] *)
Definition expired_or_invalid (v : Value) : bool :=
  match parse_rfc3339 (default "" (vget v "expiresAt" ≫= as_str)) with
  | Ok t => t <=? now
  | Err _ => true
  end.
(* SRC engine/primitives/ui/validation.rs:100-207 surface_validation_state *)
Definition surface_validation_state (found : option EngineResourceInspection) : SurfaceValidation :=
  match found with
  | None => diagnosed "invalid" "missing_surface" "ui_surface resource does not exist"
  | Some found =>
  let r := ri_resource found in
  match ensure_ui_surface found with
  | Err e => validation_error "invalid" "wrong_kind" e
  | Ok _ =>
  if res_lifecycle r =s "expired"
  then diagnosed "expired" "expired_lifecycle" "ui_surface lifecycle is expired"
  else if list_has ["damaged"; "discarded"] (res_lifecycle r)
  then diagnosed "damaged" "unavailable_lifecycle" ("ui_surface lifecycle is " +s res_lifecycle r)
  else
  match res_current_version_id r with
  | None => diagnosed "invalid" "missing_current_version" "ui_surface has no current version"
  | Some current =>
  match List.find (fun v => ver_id v =s current) (ri_versions found) with
  | None => diagnosed "damaged" "missing_current_version_record" "current ui_surface version is missing"
  | Some version =>
  if negb (bool_decide (ver_state version = Available))
  then diagnosed "damaged" "unavailable_version"
         ("current ui_surface version is " +s version_state_debug (ver_state version))
  else
  let payload := ver_payload version in
  match validate_ui_surface_payload debug json_len rfc3339_error payload with
  | Err e => validation_error "invalid" "invalid_payload" e
  | Ok _ =>
  if expired_or_invalid payload
  then diagnosed "expired" "expired_surface" "ui_surface expiresAt is expired or invalid"
  else if existsb expired_or_invalid (default [] (vget payload "actions" ≫= as_array))
  then diagnosed "expired" "expired_action" "ui_surface action is expired or invalid"
  else {| sv_state := "valid"; sv_diagnostics := [] |}
  end end end end end.

(** ** Handlers *)

(* SRC engine/primitives/ui/mod.rs:192-219 create_surface *)
Definition create_surface (i : Invocation) : Handler Value :=
  surface ← lift (normalized_surface_payload i);
  resource_id ← opt_text i "resourceId";
  scope ← lift (surface_scope_from_payload i);
  lifecycle ← lift (surface_lifecycle i "active");
  resource ← create
    {| nr_resource_id := resource_id; nr_kind := UI_SURFACE_KIND; nr_schema_id := None; nr_scope := scope;
       nr_owner_worker_id := "ui"; nr_owner_actor_id := cx_actor_id (inv_context i);
       nr_lifecycle := Some lifecycle; nr_policy := value_or i "policy" (j{});
       nr_initial_payload := Some surface; nr_locations := [];
       nr_trace_id := cx_trace_id (inv_context i); nr_invocation_id := Some (inv_id i) |};
  mret (resource_response rfc3339 resource "created").
(* SRC engine/primitives/ui/mod.rs:221-242 update_surface *)
Definition update_surface (i : Invocation) : Handler Value :=
  surface ← lift (normalized_surface_payload i);
  id ← req_text i "resourceId";
  expected ← opt_text i "expectedCurrentVersionId";
  lifecycle ← lift (surface_lifecycle i "active");
  version ← update (update_request i id expected (Some lifecycle) surface None []);
  mret (version_response rfc3339 version UI_SURFACE_KIND "updated").
(* SRC engine/primitives/ui/mod.rs:254-271! inspect_surface *)
Definition current_ref (found : option EngineResourceInspection) : option Value :=
  found ≫= (fun found =>
    let r := ri_resource found in
    res_current_version_id r ≫= (fun current : string =>
      Some (j{"resourceId" ~> res_id r; "kind" ~> res_kind r; "versionId" ~> VString current;
              "role" ~> "current"; "contentHash" ~> default "" (current_version_hash found)}))).
(* SRC engine/primitives/ui/mod.rs:244-281 inspect_surface *)
Definition inspect_surface (i : Invocation) : Handler Value :=
  id ← req_text i "surfaceResourceId";
  found ← store_inspect debug id;
  _ ← lift (match found with Some found => ensure_ui_surface found | None => Ok tt end);
  let payload := found ≫= surface_payload in
  mret (j{"inspection" ~> jopt (inspection_value rfc3339 <$> found); "surface" ~> jopt payload;
          "resourceRef" ~> jopt (current_ref found);
          "validationState" ~> sv_state (surface_validation_state found);
          "actions" ~> action_summaries payload; "lineage" ~> surface_lineage found}).
(** The current payload again, in another lifecycle. *)
(* SRC engine/primitives/ui/mod.rs:283-315! expire_surface *)
Definition retire_surface (i : Invocation) (lifecycle : string)
    (state : option EngineResourceVersionState) : Handler Value :=
  id ← req_text i "surfaceResourceId";
  found ← inspect_existing debug id;
  _ ← lift (ensure_ui_surface found);
  payload ← lift (ok_or (surface_payload found)
                    (PolicyViolation ("ui_surface " +s id +s " has no current payload")));
  expected ← opt_text i "expectedCurrentVersionId";
  version ← update (update_request i id (or_else expected (res_current_version_id (ri_resource found)))
                      (Some lifecycle) payload state []);
  mret (version_response rfc3339 version UI_SURFACE_KIND lifecycle).
Definition expire_surface (i : Invocation) : Handler Value := retire_surface i "expired" None.
(* SRC engine/primitives/ui/mod.rs:317-349 discard_surface *)
Definition discard_surface (i : Invocation) : Handler Value := retire_surface i "discarded" (Some Discarded).
(* SRC engine/primitives/ui/validation.rs:7-19 validate_surface *)
Definition validate_surface (i : Invocation) : Handler Value :=
  id ← req_text i "surfaceResourceId";
  found ← store_inspect debug id;
  let validation := surface_validation_state found in
  mret (j{"surfaceResourceId" ~> VString id; "validationState" ~> sv_state validation;
          "diagnostics" ~> VArray (sv_diagnostics validation)}).

(** The version that an action is submitted to: the current one, and available. *)
(* SRC engine/primitives/ui/validation.rs:47-73! submit_action *)
Definition submitted_version (found : EngineResourceInspection) (id version_id : string) :
    Result EngineResourceVersion :=
  let? current := ok_or (res_current_version_id (ri_resource found))
    (PolicyViolation ("ui_surface " +s id +s " has no current version")) in
  if negb (current =s version_id)
  then policy_error ("stale ui_surface version: expected " +s version_id +s ", current " +s current)
  else
  let? version := ok_or (List.find (fun v => ver_id v =s version_id) (ri_versions found))
    (NotFound "resource_version" version_id) in
  if negb (bool_decide (ver_state version = Available))
  then policy_error ("ui_surface version " +s version_id +s " is not available") else Ok version.
(** The action, not expired, whose schema the input conforms to. *)
(* SRC engine/primitives/ui/validation.rs:74-85! submit_action *)
Definition check_submission (surface : Value) (action_id : string) (user_input : Value) : Result unit :=
  let? _ := ensure_not_expired (vget surface "expiresAt" ≫= as_str) "ui_surface" in
  let? action := surface_action surface action_id in
  let? _ := ensure_not_expired (vget action "expiresAt" ≫= as_str) "ui action" in
  let? input_schema := ok_or (vget action "inputSchema")
    (PolicyViolation "ui action requires inputSchema") in
  validate_payload debug "ui::submit_action" "ui_action_input" input_schema user_input.
(* SRC engine/primitives/ui/validation.rs:21-93 submit_action *)
Definition submit_action (i : Invocation) : Handler Value :=
  id ← req_text i "surfaceResourceId";
  version_id ← req_text i "surfaceVersionId";
  action_id ← req_text i "actionId";
  idempotency_key ← req_text i "idempotencyKey";
  if is_blank idempotency_key
  then throw (PolicyViolation "ui action submission requires idempotencyKey")
  else
  let user_input := value_or i "userInput" (j{}) in
  found ← inspect_existing debug id;
  _ ← lift (ensure_ui_surface found);
  _ ← lift (ensure_surface_active found);
  version ← lift (submitted_version found id version_id);
  _ ← lift (check_submission (ver_payload version) action_id user_input);
  mret (j{"surfaceResourceId" ~> VString id; "surfaceVersionId" ~> VString version_id;
          "actionId" ~> VString action_id; "accepted" ~> VBool true; "userInput" ~> user_input}).
Definition ui_handlers : list (string * (Invocation -> Handler Value)) :=
  [("ui::create_surface", create_surface); ("ui::update_surface", update_surface);
   ("ui::inspect_surface", inspect_surface); ("ui::validate_surface", validate_surface);
   ("ui::expire_surface", expire_surface); ("ui::discard_surface", discard_surface);
   ("ui::submit_action", submit_action)].
(* SRC engine/primitives/ui/mod.rs:173-190 dispatch *)
Definition ui_dispatch (i : Invocation) : Handler Value :=
  match obj_get ui_handlers (inv_function_id i) with
  | Some handler => handler i
  | None => throw (NotFound "function" (inv_function_id i))
  end.
End ui.

(** ** Schemas and registrations *)

(* SRC engine/primitives/ui/schemas.rs:3-18 create_surface_schema *)
Definition create_surface_schema : Value :=
  object_schema ["surface"]
    (texts ["resourceId"; "scope"; "sessionId"; "workspaceId"; "lifecycle"]
     ++ [("surface", of_type "object"); ("policy", of_type "object")]).
(* SRC engine/primitives/ui/schemas.rs:20-32 update_surface_schema *)
Definition update_surface_schema : Value :=
  object_schema ["resourceId"; "expectedCurrentVersionId"; "surface"]
    (texts ["resourceId"; "expectedCurrentVersionId"; "lifecycle"] ++ [("surface", of_type "object")]).
(* SRC engine/primitives/ui/schemas.rs:34-44 expire_surface_schema *)
Definition expire_surface_schema : Value :=
  object_schema ["surfaceResourceId"] (texts ["surfaceResourceId"; "expectedCurrentVersionId"]).
(* SRC engine/primitives/ui/schemas.rs:46-56 discard_surface_schema *)
Definition discard_surface_schema : Value :=
  object_schema ["surfaceResourceId"] (texts ["surfaceResourceId"; "expectedCurrentVersionId"]).
(* SRC engine/primitives/ui/schemas.rs:58-71 submit_action_schema *)
Definition submit_action_schema : Value :=
  object_schema ["surfaceResourceId"; "surfaceVersionId"; "actionId"; "userInput"; "idempotencyKey"]
    (texts ["surfaceResourceId"; "surfaceVersionId"; "actionId"; "idempotencyKey"]
     ++ [("userInput", of_type "object")]).
(* SRC engine/primitives/ui/schemas.rs:73-86 submit_action_response_schema *)
Definition submit_action_response_schema : Value :=
  object_schema ["surfaceResourceId"; "surfaceVersionId"; "actionId"; "accepted"; "userInput"]
    (texts ["surfaceResourceId"; "surfaceVersionId"; "actionId"]
     ++ [("accepted", of_type "boolean"); ("userInput", of_type "object")]).
(* SRC engine/primitives/ui/schemas.rs:88-100 surface_resource_response_schema *)
Definition surface_resource_response_schema : Value :=
  object_schema ["resourceRefs"]
    [("surface", of_type "object"); ("resource", of_type "object"); ("version", of_type "object");
     ("resourceRefs", of_type "array")].
(* SRC engine/primitives/ui/schemas.rs:102-113 surface_version_response_schema *)
Definition surface_version_response_schema : Value :=
  object_schema ["version"; "resourceRefs"]
    [("surface", of_type "object"); ("version", of_type "object"); ("resourceRefs", of_type "array")].

Definition visible_to_system (f : FunctionDefinition) : FunctionDefinition :=
  set_fn_scope Vis_System (fn_provenance f) f.
(* SRC engine/primitives/ui/mod.rs:125-142 ui_read *)
Definition ui_read (id description : string) (request response : Value) : FunctionDefinition :=
  visible_to_system (with_schemas request response
    (primitive_function id "ui" description Effect_PureRead "ui.read")).
(* SRC engine/primitives/ui/mod.rs:144-171 ui_write *)
Definition ui_write (id description : string) (request response : Value) : FunctionDefinition :=
  visible_to_system (with_schemas request response
    (fn_with_compensation
       {| cc_kind := Comp_ManualOnly;
          cc_notes := "generated UI surface writes and action submissions retain server-owned resource versions and canonical child invocation records for manual recovery" |}
       (fn_with_resource_lease (exclusive_template UI_SURFACE_KIND "ui_surface:lifecycle" 300000)
          (fn_with_idempotency caller_system_engine_ledger
             (primitive_function id "ui" description Effect_IdempotentWrite "ui.write"))))).
Definition surface_id_request : Value :=
  object_schema ["surfaceResourceId"] (texts ["surfaceResourceId"]).
Definition object_or_null : Value := j{"type" ~> jstrs ["object"; "null"] }.
(* SRC engine/primitives/ui/mod.rs:40-123! registrations *)
Definition ui_registrations : list FunctionDefinition :=
  [backed_by [UI_SURFACE_KIND] (ui_write "ui::create_surface"
     "validate and create a runtime ui_surface resource" create_surface_schema
     surface_resource_response_schema);
   backed_by [UI_SURFACE_KIND] (ui_write "ui::update_surface"
     "compare-and-set update a runtime ui_surface resource" update_surface_schema
     surface_version_response_schema);
   ui_read "ui::inspect_surface" "inspect a runtime ui_surface resource" surface_id_request
     (object_schema ["inspection"; "validationState"; "actions"; "lineage"]
        [("inspection", object_or_null); ("surface", object_or_null); ("resourceRef", object_or_null);
         ("validationState", of_type "string"); ("actions", of_type "array");
         ("lineage", of_type "object")]);
   ui_read "ui::validate_surface" "validate a stored ui_surface against current substrate truth"
     surface_id_request
     (object_schema ["surfaceResourceId"; "validationState"; "diagnostics"]
        [("surfaceResourceId", of_type "string"); ("validationState", of_type "string");
         ("diagnostics", of_type "array")]);
   backed_by [UI_SURFACE_KIND] (ui_write "ui::expire_surface"
     "expire a ui_surface lifecycle without deleting its payload" expire_surface_schema
     surface_version_response_schema);
   backed_by [UI_SURFACE_KIND] (ui_write "ui::discard_surface"
     "discard a generated ui_surface resource" discard_surface_schema surface_version_response_schema);
   ui_write "ui::submit_action" "record a stored runtime UI action submission" submit_action_schema
     submit_action_response_schema].

(** ** Submissions *)

Section submissions.
  Context {D : Type}.
  Variable debug : string -> string.
  Variable json_len : Value -> Z.
  Variable parse_rfc3339 : string -> result string instant.
  Variable json_text : Value -> string.
  Variable sha256_hex : string -> string.
  Variable rfc3339 : instant -> string.
  Variable uuid : nat -> string.
  Variable now : instant.
  Notation World := (@World D).
  Notation submit := (@submit_action D debug parse_rfc3339 now).
  Notation dispatch := (@ui_dispatch D debug json_len parse_rfc3339 json_text sha256_hex rfc3339 uuid now).

Definition unexpired (v : Value) : Prop :=
  exists text t, names v "expiresAt" text /\ parse_rfc3339 text = Ok t /\ now < t.

(** What a submission needs: a surface that is active or a draft, its current version, an action
    of that version, neither expired, and input that conforms to the schema of the action. *)
Definition acceptable (i : Invocation) (w : World) (v : Value) : Prop :=
  exists id version_id action_id key found version action schema,
    let input := default (j{}) (vget (inv_payload i) "userInput") in
    names (inv_payload i) "surfaceResourceId" id /\ names (inv_payload i) "surfaceVersionId" version_id /\
    names (inv_payload i) "actionId" action_id /\ names (inv_payload i) "idempotencyKey" key /\
    is_blank key = false /\ memory_inspect debug id (w_store w) = Ok (Some found) /\
    res_kind (ri_resource found) = UI_SURFACE_KIND /\ In (res_lifecycle (ri_resource found)) ["active"; "draft"] /\
    res_current_version_id (ri_resource found) = Some version_id /\
    List.find (fun x => ver_id x =s version_id) (ri_versions found) = Some version /\
    ver_state version = Available /\ unexpired (ver_payload version) /\
    (vget (ver_payload version) "actions" ≫= as_array) ≫= List.find (names_action action_id) = Some action /\
    unexpired action /\ vget action "inputSchema" = Some schema /\
    validate_payload debug "ui::submit_action" "ui_action_input" schema input = Ok tt /\
    v = j{"surfaceResourceId" ~> VString id; "surfaceVersionId" ~> VString version_id;
          "actionId" ~> VString action_id; "accepted" ~> VBool true; "userInput" ~> input}.

Lemma not_expired_iff v subject :
  ensure_not_expired parse_rfc3339 now (vget v "expiresAt" ≫= as_str) subject = Ok tt <-> unexpired v.
Proof.
  unfold ensure_not_expired, unexpired, names.
  destruct (vget v "expiresAt") as [[| | |text| |]|]; simpl;
    try (split; [done|by intros (? & ? & [=] & _)]).
  destruct (parse_rfc3339 text) as [t|e] eqn:E.
  - destruct (Z.leb_spec t now); split; try done.
    + intros (? & t' & [= <-] & Ht & ?). rewrite E in Ht. injection Ht as <-. lia.
    + intros _. by exists text, t.
  - split; [done|]. intros (? & t' & [= <-] & Ht & ?). congruence.
Qed.
Lemma submitted_version_iff found id version_id version :
  submitted_version found id version_id = Ok version <->
  res_current_version_id (ri_resource found) = Some version_id /\
  List.find (fun x => ver_id x =s version_id) (ri_versions found) = Some version /\ ver_state version = Available.
Proof.
  unfold submitted_version. destruct (res_current_version_id _) as [current|]; [|split; naive_solver].
  simpl. destruct (String.eqb_spec current version_id) as [->|Hne]; simpl; [|split; naive_solver].
  destruct (List.find _ _) as [x|]; [|split; naive_solver]. simpl.
  case_bool_decide; simpl; split; naive_solver.
Qed.
Lemma check_submission_iff surface action_id input :
  check_submission debug parse_rfc3339 now surface action_id input = Ok tt <->
  unexpired surface /\ exists action schema,
    (vget surface "actions" ≫= as_array) ≫= List.find (names_action action_id) = Some action /\
    unexpired action /\ vget action "inputSchema" = Some schema /\
    validate_payload debug "ui::submit_action" "ui_action_input" schema input = Ok tt.
Proof.
  unfold check_submission, surface_action. rewrite seq_ok, not_expired_iff.
  generalize ((vget surface "actions" ≫= as_array) ≫= List.find (names_action action_id)) as found.
  intros [action|]; simpl; [|split; [by intros [_ ?]|by intros (_ & ? & ? & ? & _)]].
  rewrite seq_ok, not_expired_iff. destruct (vget action "inputSchema") as [schema|] eqn:E; simpl.
  - split; [intros (? & ? & ?); by eauto 10|]. intros (? & ? & ? & [= <-] & ? & Hs & ?).
    rewrite E in Hs. by injection Hs as ->.
  - split; [by intros (_ & _ & ?)|]. intros (_ & ? & ? & [= <-] & _ & Hs & _). congruence.
Qed.
Lemma active_iff found : ensure_surface_active found = Ok tt <-> In (res_lifecycle (ri_resource found)) ["active"; "draft"].
Proof.
  unfold ensure_surface_active. rewrite <- list_has_In. by destruct (list_has _ _).
Qed.
Lemma surface_iff found : ensure_ui_surface found = Ok tt <-> res_kind (ri_resource found) = UI_SURFACE_KIND.
Proof. unfold ensure_ui_surface. by destruct (String.eqb_spec (res_kind (ri_resource found)) UI_SURFACE_KIND). Qed.

Lemma submit_acceptable i w v w' : submit i w = (Ok v, w') -> acceptable i w v /\ w' = w.
Proof.
  unfold submit_action, req_text, acceptable.
  intros Hrun. apply bind_ok in Hrun as (id & ? & [Hid%required_iff ->]%lift_ok & H).
  apply bind_ok in H as (version_id & ? & [Hvid%required_iff ->]%lift_ok & H).
  apply bind_ok in H as (action_id & ? & [Haid%required_iff ->]%lift_ok & H).
  apply bind_ok in H as (key & ? & [Hkey%required_iff ->]%lift_ok & H).
  destruct (is_blank _) eqn:Hb; [done|].
  apply bind_ok in H as (found & ? & [Hfound ->]%inspect_existing_ok & H).
  apply bind_ok in H as ([] & ? & [Hkind%surface_iff ->]%lift_ok & H).
  apply bind_ok in H as ([] & ? & [Hactive%active_iff ->]%lift_ok & H).
  apply bind_ok in H as (version & ? & [(Hcur & Hfind & Hav)%submitted_version_iff ->]%lift_ok & H).
  apply bind_ok in H as ([] & ? & [Hc%check_submission_iff ->]%lift_ok & H).
  destruct Hc as (Hexp & action & schema & Haction & Hexp' & Hschema & Hin).
  injection H as <- <-. split; [|done]. unfold value_or, field in *. do 8 eexists. by split_and!.
Qed.

(** C37: ui::submit_action accepts a submission exactly when it carries a nonblank
    idempotency key, names a resource of the UI surface kind whose lifecycle is active or
    draft, its current version, which is available, and an action of that version, neither
    surface nor action has expired, and its input (an empty object if absent) conforms to
    the schema of the action; it then answers the submission and changes nothing. *)
Theorem submission_accepted_iff i w v w' : submit i w = (Ok v, w') <-> acceptable i w v /\ w' = w.
Proof.
  split; [apply submit_acceptable|]. unfold submit_action, req_text, acceptable.
  intros [(id & version_id & action_id & key & found & version & action & schema & Hid & Hvid & Haid & Hkey
      & Hb & Hf & Hkind & Hactive & Hcur & Hfind & Hav & Hexp & Haction & Hexp' & Hschema & Hin & ->) ->].
    apply required_iff in Hid, Hvid, Haid, Hkey. apply surface_iff in Hkind. apply active_iff in Hactive.
    unfold mbind, handler_bind, lift. rewrite Hid. cbn. rewrite Hvid. cbn. rewrite Haid. cbn. rewrite Hkey. cbn.
    rewrite Hb. unfold inspect_existing, store_inspect, ask, mbind, handler_bind, lift. rewrite Hf. cbn.
    rewrite Hkind. cbn. rewrite Hactive. cbn.
    rewrite (proj2 (submitted_version_iff found id version_id version)) by done. simpl.
    unfold value_or, field. rewrite (proj2 (check_submission_iff _ _ _)); [done|]. eauto 10.
Qed.
(** ** Retired versions *)

Hypothesis Huuid : Inj (=) (=) uuid.
Notation reachable :=
  (resource_reachable debug json_len (rfc3339_error parse_rfc3339) json_text sha256_hex).
Notation update := (@store_update D debug json_len (rfc3339_error parse_rfc3339) json_text sha256_hex uuid now).

(** Each call is a run of the store. *)
Lemma ui_steps i w : undrawn_fresh uuid w ->
  rtc (resource_step debug json_len (rfc3339_error parse_rfc3339) json_text sha256_hex) (w_store w)
    (w_store (snd (dispatch i w))) /\ undrawn_fresh uuid (snd (dispatch i w)).
Proof.
  pose proof (create_steps (D:=D) debug json_len (rfc3339_error parse_rfc3339) json_text sha256_hex uuid now Huuid).
  pose proof (update_steps (D:=D) debug json_len (rfc3339_error parse_rfc3339) json_text sha256_hex uuid now Huuid).
  pose proof (stepping_preorder (D:=D) debug json_len (rfc3339_error parse_rfc3339) json_text sha256_hex uuid).
  unfold ui_dispatch, ui_handlers. cbn [obj_get].
  match goal with |- undrawn_fresh _ w -> rtc _ _ (w_store (snd (?m w))) /\ _ =>
    enough (Runs (stepping debug json_len (rfc3339_error parse_rfc3339) json_text sha256_hex uuid) m) as Hm
      by apply (Hm w) end.
  repeat match goal with |- Runs _ (match (if ?b then _ else _) with _ => _ end) => destruct b end;
    unfold create_surface, update_surface, inspect_surface, validate_surface, expire_surface, discard_surface,
      retire_surface, submit_action, inspect_existing, store_inspect, req_text, opt_text; run_handler.
Qed.

(** A version of the surface was appended that is current, or the surface was taken out of use. *)
Definition retiring (u : UpdateResource) : Prop :=
  default Available (up_state u) = Available \/ up_lifecycle u = Some "discarded".
Lemma retired_refuses u w version w1 j v w2 r old :
  reachable (w_store w) -> undrawn_fresh uuid w -> retiring u -> update u w = (Ok version, w1) ->
  rm_resources (w_store w) !! up_resource_id u = Some r -> res_current_version_id r = Some old ->
  names (inv_payload j) "surfaceResourceId" (up_resource_id u) -> names (inv_payload j) "surfaceVersionId" old ->
  submit j w1 <> (Ok v, w2).
Proof.
  intros Hwf%resource_reachable_wf Hf Hret [Hu _]%store_update_ok Hr Hold Hid Hvid [Hacc _]%submit_acceptable.
  destruct Hacc as (id & version_id & ? & ? & found & ? & ? & ? & Hid' & Hvid' & _ & _ & _ & Hfound & _ & Hactive & Hcur & _).
  unfold names in *. rewrite Hid in Hid'. injection Hid' as <-. rewrite Hvid in Hvid'. injection Hvid' as <-.
  apply inspect_some in Hfound as (Hfound & _ & _).
  apply update_ok in Hu as (r' & d & Hr' & _ & _ & _ & Hv & Hs). rewrite Hr in Hr'. injection Hr' as <-.
  destruct (wf_resource _ _ _ Hwf _ _ Hr) as (Hrid & _).
  rewrite Hs in Hfound. simpl in Hfound. rewrite Hrid, lookup_insert_eq in Hfound. injection Hfound as Hfound.
  rewrite <- Hfound in Hactive, Hcur. unfold advance in Hactive, Hcur. simpl in Hactive, Hcur.
  destruct Hret as [Hst|Hlife]; [|rewrite Hlife in Hactive; simpl in Hactive; naive_solver].
  rewrite Hv in Hcur. simpl in Hcur. rewrite Hst in Hcur. simpl in Hcur. injection Hcur as Hcur.
  destruct (current_is_stored _ _ _ _ _ _ Hwf Hr Hold) as [y Hy].
  destruct (Hf (w_drawn w + 0)%nat) as [Hnone _]; [lia|]. congruence.
Qed.

(** Once a surface is updated, expired or discarded, no submission that names its earlier version is
    accepted. *)
Theorem replaced_surface_refuses_submissions i w answer w1 id r old j v w2 :
  reachable (w_store w) -> undrawn_fresh uuid w ->
  inv_function_id i = "ui::update_surface" /\ names (inv_payload i) "resourceId" id \/
  In (inv_function_id i) ["ui::expire_surface"; "ui::discard_surface"] /\
    names (inv_payload i) "surfaceResourceId" id ->
  dispatch i w = (Ok answer, w1) ->
  rm_resources (w_store w) !! id = Some r -> res_current_version_id r = Some old ->
  names (inv_payload j) "surfaceResourceId" id -> names (inv_payload j) "surfaceVersionId" old ->
  submit j w1 <> (Ok v, w2).
Proof.
  intros Hr Hf Hi Hrun Hid Hold Hj Hj'. unfold ui_dispatch in Hrun.
  assert (exists u version, up_resource_id u = id /\ retiring u /\ update u w = (Ok version, w1))
    as (u & version & <- & Hret & Hu).
  2: { by eapply retired_refuses. }
  destruct Hi as [[Hfn Hn]|[Hfn Hn]].
  - rewrite Hfn in Hrun. unfold update_surface, req_text, opt_text in Hrun. simpl in Hrun.
    apply bind_ok in Hrun as (surface & ? & [_ ->]%lift_ok & H).
    apply bind_ok in H as (id' & ? & [Hid'%required_iff ->]%lift_ok & H).
    apply bind_ok in H as (expected & ? & [_ ->]%lift_ok & H).
    apply bind_ok in H as (lifecycle & ? & [_ ->]%lift_ok & H).
    apply bind_ok in H as (version & ? & H & [= _ <-]). unfold names in *. rewrite Hn in Hid'. injection Hid' as <-.
    refine (ex_intro _ _ (ex_intro _ _ (conj _ (conj _ H)))); [done|by left].
  - assert (exists lifecycle state, retire_surface debug json_len parse_rfc3339 json_text sha256_hex rfc3339 uuid now
              i lifecycle state w = (Ok answer, w1) /\ (state = None \/ lifecycle = "discarded"))
      as (lifecycle & state & H & Hstate).
    { destruct Hfn as [Hfn|[Hfn|[]]]; rewrite <- Hfn in Hrun; simpl in Hrun; do 2 eexists; (split; [exact Hrun|]); auto. }
    unfold retire_surface, req_text, opt_text in H.
    apply bind_ok in H as (id' & ? & [Hid'%required_iff ->]%lift_ok & H).
    apply bind_ok in H as (found & ? & [_ ->]%inspect_existing_ok & H).
    apply bind_ok in H as ([] & ? & [_ ->]%lift_ok & H).
    apply bind_ok in H as (payload & ? & [_ ->]%lift_ok & H).
    apply bind_ok in H as (expected & ? & [_ ->]%lift_ok & H).
    apply bind_ok in H as (version & ? & H & [= _ <-]). unfold names in *. rewrite Hn in Hid'. injection Hid' as <-.
    refine (ex_intro _ _ (ex_intro _ _ (conj _ (conj _ H)))); [done|].
    destruct Hstate as [->| ->]; [by left|by right].
Qed.

End submissions.

(** ** Concrete runs *)

Definition clock_of (s : string) : result string instant := if s =s "" then Err "premature end of input" else Ok 9.
Notation demo_ui := (ui_dispatch (D:=unit) plain (fun _ => 500) clock_of text_of hash_of (fun _ => "now") draw 5)
  (only parsing).
Definition ui_world0 : @World unit :=
  {| w_store := after_op resource_memory_new (memory_register_type plain 1 ui_surface_type resource_memory_new);
     w_disk := tt; w_drawn := 0 |}.
Definition ui_call (function_id : string) (payload : Value) : Invocation :=
  demo_call function_id payload.
Definition ui_create : Invocation :=
  ui_call "ui::create_surface" (j{"resourceId" ~> "u1"; "surface" ~> sample_surface}).
Definition ui_world1 : @World unit := snd (demo_ui ui_create ui_world0).
Definition ui_rerun : Invocation :=
  ui_call "ui::submit_action"
    (j{"surfaceResourceId" ~> "u1"; "surfaceVersionId" ~> "ver_2"; "actionId" ~> "rerun";
       "userInput" ~> j{}; "idempotencyKey" ~> "k1"}).
Definition ui_supersede : Invocation :=
  ui_call "ui::update_surface"
    (j{"resourceId" ~> "u1"; "expectedCurrentVersionId" ~> "ver_2"; "surface" ~> sample_surface;
       "lifecycle" ~> "superseded"}).

Lemma ui_world1_ok :
  resource_reachable plain (fun _ => 500) (rfc3339_error clock_of) text_of hash_of (w_store ui_world1) /\
  undrawn_fresh draw ui_world1.
Proof.
  destruct (ui_steps (D:=unit) plain (fun _ => 500) clock_of text_of hash_of (fun _ => "now") draw 5 draw_inj
              ui_create ui_world0) as [Hs Hf].
  { intros n _. split; vm_compute; reflexivity. }
  split; [|exact Hf]. eapply rtc_l; [|exact Hs]. eapply (step_register _ _ _ _ _ 1 ui_surface_type).
  vm_compute. reflexivity.
Qed.

Lemma replaced_surface_refuses_submissions_witness :
  is_ok (fst (demo_ui ui_rerun ui_world1)) = true /\
  forall v w2, submit_action plain clock_of 5 ui_rerun (snd (demo_ui ui_supersede ui_world1)) <> (Ok v, w2).
Proof.
  split; [vm_compute; reflexivity|]. intros v w2.
  refine (replaced_surface_refuses_submissions plain (fun _ => 500) clock_of text_of hash_of (fun _ => "now")
    draw 5 ui_supersede ui_world1
    (match fst (demo_ui ui_supersede ui_world1) with Ok a => a | Err _ => Null end) _ "u1"
    (match rm_resources (w_store ui_world1) !! "u1" with Some r => r | None => new_resource 0 note_create "" "" "" end)
    "ver_2" ui_rerun v w2 (proj1 ui_world1_ok) (proj2 ui_world1_ok) _ _ _ _ _ _).
  - left. split; reflexivity.
  - vm_compute. reflexivity.
  - vm_compute. reflexivity.
  - vm_compute. reflexivity.
  - reflexivity.
  - reflexivity.
Defined.

(** A superseded surface is reported as valid, and refuses every submission. *)
Theorem superseded_surface_reads_as_valid :
  let w := snd (demo_ui ui_supersede ui_world1) in
  let rerun := ui_call "ui::submit_action"
    (j{"surfaceResourceId" ~> "u1"; "surfaceVersionId" ~> "ver_4"; "actionId" ~> "rerun";
       "userInput" ~> j{}; "idempotencyKey" ~> "k2"}) in
  (exists v, fst (demo_ui (ui_call "ui::validate_surface" (j{"surfaceResourceId" ~> "u1"})) w) = Ok v /\
     vget v "validationState" = Some (VString "valid")) /\
  fst (demo_ui rerun w) = Err (PolicyViolation "ui_surface u1 is superseded").
Proof. split; [eexists; split|]; vm_compute; reflexivity. Qed.
