(* ===== verification/StorePrimitives.v ===== *)
(** * The state, stream and queue primitives

    [engine/primitives/state.rs], [stream.rs] and [queue.rs]: the functions that give
    agents the scoped state, the event streams and the durable queue, with their
    schemas and registrations.

    The handlers work on the in-memory stores (State, Streams, Queue; the SQLite stores
    agree with these).  The ids that a call generates are arguments, RFC 3339 texts and
    the length of JSON texts are parameters. *)

From stdpp Require Import base gmap strings list sorting pretty.
From Stdlib Require Import ZArith Ascii String Lia.
From S2P Require Import Prelude Json Kernel Model Schema Policy Leases Grants Queue Streams State Ledger Catalog.
From S2P Require Import Meta Host Triggers GrantPrimitive ResourcePrimitive ResourceContracts.
Import JsonNotations.

#[local] Open Scope Z_scope.

(** ** Payloads *)

(** [payload.get(name).cloned().unwrap_or(Value::Null)] *)
Definition value_or_null (payload : Value) (name : string) : Value := default Null (vget payload name).
(** [optional_u64(payload.get(name))?.unwrap_or(d)] *)
Definition u64_or (payload : Value) (name : string) (d : Z) : Result Z :=
  let? n := optional_u64 (vget payload name) in Ok (default d n).
(** [optional_string(payload.get(name))?.or(inherited)] *)
Definition text_or (payload : Value) (name : string) (inherited : option string) : Result (option string) :=
  let? own := optional_string (vget payload name) in Ok (or_else own inherited).
Definition unknown_function {A} (i : Invocation) : Result A := Err (NotFound "function" (inv_function_id i)).
(** [let (a, s) = op(s)?], keeping the store of a failure. *)
Definition changes {A S} (s : S) (r : Result (A * S)) (answer : A -> Value) : Result Value * S :=
  match r with Ok (a, s') => (Ok (answer a), s') | Err e => (Err e, s) end.
Definition checked {A S} (s : S) (r : Result A) (k : A -> Result Value * S) : Result Value * S :=
  match r with Ok a => k a | Err e => (Err e, s) end.
#[local] Notation "'let+' x ':=' c 'over' s 'in' k" := (checked s c (fun x => k))
  (at level 200, x pattern, c at level 200, s at level 200, k at level 200, right associativity).

(* SRC engine/primitives/mod.rs:217-226 boolean_response_schema *)
Definition boolean_response_schema (field : string) : Value :=
  object_schema [field] [field ~> j{"type" ~> "boolean"}].
Definition typed_fields (type : string) (names : list string) : list (string * Value) :=
  map (fun name => name ~> j{"type" ~> type}) names.
Definition primitive_write (id worker description scope : string) (ledger : IdempotencyContract)
    (request response : Value) : FunctionDefinition :=
  fn_with_response_schema response (fn_with_request_schema request (fn_with_idempotency ledger
    (primitive_function id worker description Effect_IdempotentWrite scope))).
Definition primitive_read (id worker description scope : string) (request response : Value) :
    FunctionDefinition :=
  fn_with_response_schema response (fn_with_request_schema request
    (primitive_function id worker description Effect_PureRead scope)).

(** ** State *)

Section state.
  Variable rfc3339 : instant -> string.
  Variable now : instant.

(* SRC engine/primitives/mod.rs:118-148 state_scope_from_payload *)
Definition state_scope_from_payload (i : Invocation) : Result EngineStateScope :=
  let c := inv_context i in
  let? named := optional_string (vget (inv_payload i) "scope") in
  let kind := default "session" named in
  if kind =s "system" then Ok Scope_System
  else if kind =s "workspace" then
    let? id := text_or (inv_payload i) "workspaceId" (cx_workspace_id c) in
    let? id := ok_or id (PolicyViolation "workspace-scoped state requires workspaceId") in
    Ok (Scope_Workspace id)
  else if kind =s "session" then
    let? id := text_or (inv_payload i) "sessionId" (cx_session_id c) in
    let? id := ok_or id (PolicyViolation "session-scoped state requires sessionId") in
    Ok (Scope_Session id)
  else policy_error ("unsupported state scope " +s kind).

(** The derived [Serialize]. *)
(* SRC engine/durability/state.rs:17-27! EngineStateScope *)
Definition state_scope_value (s : EngineStateScope) : Value :=
  match s with
  | Scope_System => "system"
  | Scope_Workspace w => j{"workspace" ~> w}
  | Scope_Session x => j{"session" ~> x}
  end.
(* SRC engine/durability/state.rs:46-62! EngineStateEntry *)
Definition state_entry_value (e : EngineStateEntry) : Value :=
  j{"scope" ~> state_scope_value (en_scope e); "namespace" ~> en_namespace e; "key" ~> en_key e;
    "value" ~> en_value e; "revision" ~> jnum (en_revision e);
    "updatedAt" ~> rfc3339 (en_updated_at e)}.
Definition entry_response (e : EngineStateEntry) : Value := j{"entry" ~> state_entry_value e}.

(** The scope, namespace and key of a call, in this order. *)
Definition state_address (i : Invocation) : Result (EngineStateScope * string * string) :=
  let? scope := state_scope_from_payload i in
  let? namespace := required_str (inv_payload i) "namespace" in
  let? key := required_str (inv_payload i) "key" in
  Ok (scope, namespace, key).
(* SRC engine/primitives/state.rs:101-158 StatePrimitiveHandler::invoke *)
Definition state_primitive (i : Invocation) (s : StateMemory) : Result Value * StateMemory :=
  let payload := inv_payload i in
  let id := inv_function_id i in
  if id =s "state::get" then
    let+ (scope, namespace, key) := state_address i over s in
    let+ entry := state_get scope namespace key s over s in
    (Ok (j{"entry" ~> jopt (state_entry_value <$> entry)}), s)
  else if id =s "state::set" then
    let+ (scope, namespace, key) := state_address i over s in
    changes s (state_set now scope namespace key (value_or_null payload "value") s) entry_response
  else if id =s "state::delete" then
    let+ (scope, namespace, key) := state_address i over s in
    changes s (state_delete scope namespace key s) (fun deleted => j{"deleted" ~> VBool deleted})
  else if id =s "state::compare_and_set" then
    let+ (scope, namespace, key) := state_address i over s in
    let+ expected := optional_u64 (vget payload "expectedRevision") over s in
    changes s (state_compare_and_set now scope namespace key expected (value_or_null payload "value") s)
      entry_response
  else if id =s "state::list" then
    let+ scope := state_scope_from_payload i over s in
    let+ namespace := required_str payload "namespace" over s in
    let+ key_prefix := optional_string (vget payload "keyPrefix") over s in
    let+ limit := u64_or payload "limit" 100 over s in
    let+ entries := state_list scope namespace key_prefix limit s over s in
    (Ok (j{"entries" ~> VArray (map state_entry_value entries)}), s)
  else (unknown_function i, s).
End state.

Definition scope_enum : string * Value :=
  "scope" ~> j{"type" ~> "string"; "enum" ~> jstrs ["system"; "workspace"; "session"] }.
(* SRC engine/primitives/state.rs:161-169 state_scope_properties *)
Definition state_scope_properties : list (string * Value) :=
  scope_enum :: typed_fields "string" ["sessionId"; "workspaceId"; "namespace"; "key"].
(* SRC engine/primitives/state.rs:171-178 state_key_schema *)
Definition state_key_schema : Value := object_schema ["namespace"; "key"] state_scope_properties.
(* SRC engine/primitives/state.rs:180-189 state_set_schema *)
Definition state_set_schema : Value :=
  object_schema ["namespace"; "key"; "value"] (state_scope_properties ++ ["value" ~> j{}]).
(* SRC engine/primitives/state.rs:191-201 state_compare_and_set_schema *)
Definition state_compare_and_set_schema : Value :=
  object_schema ["namespace"; "key"; "value"]
    (state_scope_properties ++ ["value" ~> j{}; "expectedRevision" ~> j{"type" ~> "integer"}]).
(* SRC engine/primitives/state.rs:203-217 state_list_schema *)
Definition state_list_schema : Value :=
  object_schema ["namespace"]
    (scope_enum :: typed_fields "string" ["sessionId"; "workspaceId"; "namespace"; "keyPrefix"]
     ++ ["limit" ~> j{"type" ~> "integer"}]).
(* SRC engine/primitives/state.rs:219-231 state_entry_response_schema *)
Definition state_entry_response_schema (nullable : bool) : Value :=
  object_schema ["entry"] ["entry" ~> (if nullable then j{} else j{"type" ~> "object"})].
(* SRC engine/primitives/state.rs:17-93 registrations *)
Definition state_registrations : list FunctionDefinition :=
  [primitive_read "state::get" "state" "read scoped engine state" "state.read"
     state_key_schema (state_entry_response_schema true);
   primitive_write "state::set" "state" "write scoped engine state" "state.write"
     caller_session_engine_ledger state_set_schema (state_entry_response_schema false);
   primitive_write "state::delete" "state" "delete scoped engine state" "state.write"
     caller_session_engine_ledger state_key_schema (boolean_response_schema "deleted");
   primitive_write "state::compare_and_set" "state" "conditionally update scoped engine state"
     "state.write" caller_session_engine_ledger state_compare_and_set_schema
     (state_entry_response_schema false);
   primitive_read "state::list" "state" "list scoped engine state" "state.read"
     state_list_schema (object_schema ["entries"] (typed_fields "array" ["entries"]))].

(** ** Streams *)

Section streams.
  Variable rfc3339 : instant -> string.
  Variable now : instant.
  Variable generated : string.

(** The derived [Serialize]: the names of the variants. *)
(* SRC engine/kernel/types/catalog.rs:32-52! VisibilityScope *)
Definition visibility_name (v : VisibilityScope) : string :=
  match v with
  | Vis_Internal => "Internal" | Vis_Session => "Session" | Vis_Workspace => "Workspace"
  | Vis_System => "System" | Vis_Client => "Client" | Vis_Worker => "Worker"
  | Vis_Agent => "Agent" | Vis_Admin => "Admin"
  end.
(* SRC engine/durability/streams/mod.rs:44-68! EngineStreamEvent *)
Definition stream_event_value (e : EngineStreamEvent) : Value :=
  j{"cursor" ~> jnum (se_cursor e); "topic" ~> se_topic e; "payload" ~> se_payload e;
    "visibility" ~> visibility_name (se_visibility e); "sessionId" ~> jstr (se_session_id e);
    "workspaceId" ~> jstr (se_workspace_id e); "producer" ~> se_producer e;
    "traceId" ~> jstr (se_trace_id e); "parentInvocationId" ~> jstr (se_parent_invocation_id e);
    "createdAt" ~> rfc3339 (se_created_at e)}.

(** [optional_visibility(..)?.unwrap_or(Session)] and the scope a call names or inherits. *)
Definition stream_scope (i : Invocation) : Result (VisibilityScope * option string * option string) :=
  let c := inv_context i in
  let? visibility := optional_visibility (vget (inv_payload i) "visibility") in
  let? session := text_or (inv_payload i) "sessionId" (cx_session_id c) in
  let? workspace := text_or (inv_payload i) "workspaceId" (cx_workspace_id c) in
  Ok (default Vis_Session visibility, session, workspace).
Definition polling_actor (c : CausalContext) : StreamActorScope :=
  {| sa_session_id := cx_session_id c; sa_workspace_id := cx_workspace_id c;
     sa_admin := is_admin_like (cx_actor_kind c) |}.
(* SRC engine/primitives/stream.rs:90-179 StreamPrimitiveHandler::invoke *)
Definition stream_primitive (i : Invocation) (s : StreamStore) : Result Value * StreamStore :=
  let payload := inv_payload i in
  let c := inv_context i in
  let id := inv_function_id i in
  if id =s "stream::subscribe" then
    let+ topic := required_str payload "topic" over s in
    let+ named := optional_string (vget payload "subscriptionId") over s in
    let+ after := optional_u64 (vget payload "afterCursor") over s in
    let cursor := match after with Some cursor => cursor | None => latest_cursor topic s end in
    let+ (visibility, session, workspace) := stream_scope i over s in
    changes s (stream_subscribe now (default generated named) topic cursor visibility session workspace s)
      (fun sub => j{"subscriptionId" ~> sub_id sub; "topic" ~> sub_topic sub;
                    "cursor" ~> jnum (sub_cursor sub); "active" ~> VBool (sub_active sub)})
  else if id =s "stream::poll" then
    let+ subscription := required_str payload "subscriptionId" over s in
    let+ after := optional_u64 (vget payload "afterCursor") over s in
    let+ limit := u64_or payload "limit" 100 over s in
    let+ page := stream_poll subscription after limit (polling_actor c) s over s in
    (Ok (j{"events" ~> VArray (map stream_event_value (pg_events page));
           "nextCursor" ~> jnum (pg_next_cursor page); "hasMore" ~> VBool (pg_has_more page)}), s)
  else if id =s "stream::unsubscribe" then
    let+ subscription := required_str payload "subscriptionId" over s in
    changes s (stream_unsubscribe subscription s) (fun was => j{"unsubscribed" ~> VBool was})
  else if id =s "stream::publish" then
    let+ topic := required_str payload "topic" over s in
    let+ (visibility, session, workspace) := stream_scope i over s in
    let+ producer := optional_string (vget payload "producer") over s in
    changes s (stream_publish now
      {| pe_topic := topic; pe_payload := value_or_null payload "payload"; pe_visibility := visibility;
         pe_session_id := session; pe_workspace_id := workspace; pe_producer := default id producer;
         pe_trace_id := Some (cx_trace_id c); pe_parent_invocation_id := cx_parent_invocation_id c |} s)
      (fun cursor => j{"cursor" ~> jnum cursor})
  else (unknown_function i, s).
End streams.

(* SRC engine/primitives/stream.rs:182-196 stream_subscribe_schema *)
Definition stream_subscribe_schema : Value :=
  object_schema ["topic"]
    (typed_fields "string" ["topic"; "subscriptionId"]
     ++ ["afterCursor" ~> j{"type" ~> "integer";
           "description" ~> "Replay cursor. Omit to start at the current topic tail for live-only delivery."}]
     ++ typed_fields "string" ["visibility"; "sessionId"; "workspaceId"]).
(* SRC engine/primitives/stream.rs:198-210 stream_subscribe_response_schema *)
Definition stream_subscribe_response_schema : Value :=
  object_schema ["subscriptionId"; "topic"; "cursor"; "active"]
    (typed_fields "string" ["subscriptionId"; "topic"]
     ++ ["cursor" ~> j{"type" ~> "integer"}; "active" ~> j{"type" ~> "boolean"}]).
(* SRC engine/primitives/stream.rs:212-223 stream_poll_schema *)
Definition stream_poll_schema : Value :=
  object_schema ["subscriptionId"]
    (typed_fields "string" ["subscriptionId"] ++ typed_fields "integer" ["afterCursor"; "limit"]).
(* SRC engine/primitives/stream.rs:225-236 stream_poll_response_schema *)
Definition stream_poll_response_schema : Value :=
  object_schema ["events"; "nextCursor"; "hasMore"]
    ["events" ~> j{"type" ~> "array"}; "nextCursor" ~> j{"type" ~> "integer"};
     "hasMore" ~> j{"type" ~> "boolean"}].
(* SRC engine/primitives/stream.rs:238-245 stream_unsubscribe_schema *)
Definition stream_unsubscribe_schema : Value :=
  object_schema ["subscriptionId"] (typed_fields "string" ["subscriptionId"]).
(* SRC engine/primitives/stream.rs:247-261 stream_publish_schema *)
Definition stream_publish_schema : Value :=
  object_schema ["topic"; "payload"]
    (typed_fields "string" ["topic"] ++ ["payload" ~> j{}]
     ++ typed_fields "string" ["visibility"; "sessionId"; "workspaceId"; "producer"]).
(* SRC engine/primitives/stream.rs:17-82 registrations *)
Definition stream_registrations : list FunctionDefinition :=
  [primitive_write "stream::subscribe" "stream"
     "subscribe to a live stream; omit afterCursor to start at the topic tail" "stream.write"
     caller_session_engine_ledger stream_subscribe_schema stream_subscribe_response_schema;
   primitive_read "stream::poll" "stream" "poll a stream subscription" "stream.read"
     stream_poll_schema stream_poll_response_schema;
   primitive_write "stream::unsubscribe" "stream" "unsubscribe from a stream" "stream.write"
     caller_session_engine_ledger stream_unsubscribe_schema (boolean_response_schema "unsubscribed");
   fn_with_response_schema (object_schema ["cursor"] (typed_fields "integer" ["cursor"]))
     (fn_with_request_schema stream_publish_schema
       (fn_with_idempotency caller_system_engine_ledger
         (fn_with_required_authority (authority_scope "stream.write")
           (function_new "stream::publish" "stream" "publish an internal stream event"
              Vis_Internal Effect_AppendOnlyEvent))))].

(** ** Queue *)

Section queue.
  Variable debug : string -> string.
  Variable json_len : Value -> Z.
  Variable rfc3339 : instant -> string.
  Variable now : instant.
  Variable receipt : string.

(** The derived [Serialize]. *)
(* SRC engine/durability/queue/mod.rs:80-91! QueueAttemptOutcome *)
Definition attempt_outcome_str (o : QueueAttemptOutcome) : string :=
  match o with
  | Attempt_Completed => "completed" | Attempt_Failed => "failed"
  | Attempt_DeadLettered => "dead_lettered"
  end.
(* SRC engine/durability/queue/mod.rs:93-119! EngineQueueAttemptRecord *)
Definition attempt_value (a : EngineQueueAttemptRecord) : Value :=
  j{"attempt" ~> jnum (qa_attempt a); "outcome" ~> attempt_outcome_str (qa_outcome a);
    "leaseOwner" ~> jstr (qa_lease_owner a);
    "deliveryInvocationId" ~> jstr (qa_delivery_invocation_id a);
    "resultInvocationId" ~> jstr (qa_result_invocation_id a);
    "replayedFromInvocationId" ~> jstr (qa_replayed_from_invocation_id a);
    "error" ~> jstr (qa_error a); "recordedInvocation" ~> VBool (qa_recorded_invocation a);
    "resourceLeaseIds" ~> jstrs (qa_resource_lease_ids a);
    "compensationStatus" ~> jstr (qa_compensation_status a);
    "compensationId" ~> jstr (qa_compensation_id a)}.
(* SRC engine/durability/queue/mod.rs:121-171! EngineQueueItem *)
Definition queue_item_value (q : EngineQueueItem) : Value :=
  let r := q_request q in
  j{"receiptId" ~> q_receipt_id q; "queue" ~> eq_queue r; "functionId" ~> eq_function_id r;
    "payload" ~> eq_payload r; "actorId" ~> eq_actor_id r;
    "actorKind" ~> actor_kind_debug (eq_actor_kind r);
    "authorityGrantId" ~> eq_authority_grant_id r; "authorityScopes" ~> jstrs (eq_authority_scopes r);
    "runtimeMetadata" ~> jobj (map (fun kv => (fst kv, VString (snd kv)))
                                (btree_entries (eq_runtime_metadata r)));
    "traceId" ~> eq_trace_id r; "parentInvocationId" ~> jstr (eq_parent_invocation_id r);
    "triggerId" ~> jstr (eq_trigger_id r); "sessionId" ~> jstr (eq_session_id r);
    "workspaceId" ~> jstr (eq_workspace_id r); "idempotencyKey" ~> jstr (eq_idempotency_key r);
    "status" ~> queue_status_as_str (q_status q); "attempts" ~> jnum (q_attempts q);
    "attemptRecords" ~> VArray (map attempt_value (q_attempt_records q));
    "leaseOwner" ~> jstr (q_lease_owner q);
    "leaseExpiresAt" ~> jstr (rfc3339 <$> q_lease_expires_at q);
    "notBefore" ~> rfc3339 (q_not_before q); "createdAt" ~> rfc3339 (q_created_at q);
    "updatedAt" ~> rfc3339 (q_updated_at q)}.

(** The queue and the streams that its changes are published to. *)
Notation QueueAndStreams := (QueueMemory * StreamStore)%type.
(* SRC engine/primitives/queue.rs:128-139 QueuePrimitiveHandler::publish_lifecycle *)
Definition publish_lifecycle (event_type : string) (item : EngineQueueItem) (s : StreamStore) :
    Result (unit * StreamStore) :=
  let? (_, s) := stream_publish now (queue_lifecycle_stream_event debug attempt_value event_type item None) s in
  Ok (tt, s).
(** The request to enqueue: the named function and payload, with everything else of the caller. *)
(* SRC engine/primitives/queue.rs:156-172! QueuePrimitiveHandler::invoke *)
Definition caller_request (queue : string) (function_id : FunctionId) (i : Invocation) : EnqueueInvocation :=
  let c := inv_context i in
  {| eq_queue := queue; eq_function_id := function_id;
     eq_payload := value_or_null (inv_payload i) "payload";
     eq_actor_id := cx_actor_id c; eq_actor_kind := cx_actor_kind c;
     eq_authority_grant_id := cx_authority_grant_id c; eq_authority_scopes := cx_authority_scopes c;
     eq_runtime_metadata := cx_runtime_metadata c; eq_trace_id := cx_trace_id c;
     eq_parent_invocation_id := cx_parent_invocation_id c; eq_trigger_id := cx_trigger_id c;
     eq_session_id := cx_session_id c; eq_workspace_id := cx_workspace_id c;
     eq_idempotency_key := cx_idempotency_key c |}.
(** A change of one item: its event is published when something changed and the item is still
    there, and the answer says whether something changed. *)
(* SRC engine/primitives/queue.rs:181-229! QueuePrimitiveHandler::invoke *)
Definition settled (answer : string) (event_type : EngineQueueItem -> string) (id : string)
    (op : QueueMemory -> Result (bool * QueueMemory)) (s : QueueAndStreams) : Result Value * QueueAndStreams :=
  match op s.1 with
  | Err e => (Err e, s)
  | Ok (changed, q) =>
      match (if changed then queue_get id q else Ok None) with
      | Err e => (Err e, (q, s.2))
      | Ok None => (Ok (j{answer ~> VBool changed}), (q, s.2))
      | Ok (Some item) =>
          match publish_lifecycle (event_type item) item s.2 with
          | Ok (_, streams) => (Ok (j{answer ~> VBool changed}), (q, streams))
          | Err e => (Err e, (q, s.2))
          end
      end
  end.
Definition item_response (o : option EngineQueueItem) : Value := j{"item" ~> jopt (queue_item_value <$> o)}.
(* SRC engine/primitives/queue.rs:144-242 QueuePrimitiveHandler::invoke *)
Definition queue_primitive (i : Invocation) (s : QueueAndStreams) : Result Value * QueueAndStreams :=
  let payload := inv_payload i in
  let id := inv_function_id i in
  if id =s "queue::enqueue" then
    let+ queue := required_str payload "queue" over s in
    let+ name := required_str payload "functionId" over s in
    let+ function_id := function_id_new name over s in
    match queue_enqueue json_len now receipt (caller_request queue function_id i) s.1 with
    | Err e => (Err e, s)
    | Ok (item, q) =>
        match publish_lifecycle "enqueue" item s.2 with
        | Err e => (Err e, (q, s.2))
        | Ok (_, streams) => (Ok (item_response (Some item)), (q, streams))
        end
    end
  else if id =s "queue::claim" then
    let+ queue := required_str payload "queue" over s in
    let+ owner := required_str payload "leaseOwner" over s in
    let+ lease_ms := u64_or payload "leaseMs" 30000 over s in
    match queue_claim now queue owner (u64_as_i64 lease_ms) s.1 with
    | Err e => (Err e, s)
    | Ok (claimed, q) => (Ok (item_response claimed), (q, s.2))
    end
  else if id =s "queue::complete" then
    let+ id := required_str payload "receiptId" over s in
    settled "completed" (fun _ => "complete") id (queue_complete now id) s
  else if id =s "queue::fail" then
    let+ id := required_str payload "receiptId" over s in
    let+ max_attempts := u64_or payload "maxAttempts" 3 over s in
    let+ backoff_ms := u64_or payload "backoffMs" 0 over s in
    settled "failed" queue_failure_event_type id
      (queue_fail now id (u64_as_u32 max_attempts) (u64_as_i64 backoff_ms)) s
  else if id =s "queue::cancel" then
    let+ id := required_str payload "receiptId" over s in
    settled "cancelled" (fun _ => "cancel") id (queue_cancel now id) s
  else if id =s "queue::get" then
    let+ id := required_str payload "receiptId" over s in
    let+ item := queue_get id s.1 over s in (Ok (item_response item), s)
  else if id =s "queue::list" then
    let+ queue := required_str payload "queue" over s in
    let+ limit := u64_or payload "limit" 100 over s in
    let+ items := queue_list queue limit s.1 over s in
    (Ok (j{"items" ~> VArray (map queue_item_value items)}), s)
  else (unknown_function i, s).
End queue.

(* SRC engine/primitives/queue.rs:245-256 queue_enqueue_schema *)
Definition queue_enqueue_schema : Value :=
  object_schema ["queue"; "functionId"; "payload"]
    (typed_fields "string" ["queue"; "functionId"] ++ ["payload" ~> j{}]).
(* SRC engine/primitives/queue.rs:258-269 queue_claim_schema *)
Definition queue_claim_schema : Value :=
  object_schema ["queue"; "leaseOwner"]
    (typed_fields "string" ["queue"; "leaseOwner"] ++ typed_fields "integer" ["leaseMs"]).
(* SRC engine/primitives/queue.rs:271-278 queue_receipt_schema *)
Definition queue_receipt_schema : Value := object_schema ["receiptId"] (typed_fields "string" ["receiptId"]).
(* SRC engine/primitives/queue.rs:280-291 queue_fail_schema *)
Definition queue_fail_schema : Value :=
  object_schema ["receiptId"]
    (typed_fields "string" ["receiptId"] ++ typed_fields "integer" ["maxAttempts"; "backoffMs"]).
(* SRC engine/primitives/queue.rs:293-303 queue_list_schema *)
Definition queue_list_schema : Value :=
  object_schema ["queue"] (typed_fields "string" ["queue"] ++ typed_fields "integer" ["limit"]).
(* SRC engine/primitives/queue.rs:305-312 queue_item_response_schema *)
Definition queue_item_response_schema : Value := object_schema ["item"] ["item" ~> j{}].
(* SRC engine/primitives/queue.rs:17-120 registrations *)
Definition queue_registrations : list FunctionDefinition :=
  [primitive_write "queue::enqueue" "queue" "enqueue a durable engine invocation" "queue.write"
     caller_session_engine_ledger queue_enqueue_schema queue_item_response_schema;
   primitive_write "queue::claim" "queue" "claim a queued invocation" "queue.write"
     caller_system_engine_ledger queue_claim_schema queue_item_response_schema;
   primitive_write "queue::complete" "queue" "complete a queued invocation" "queue.write"
     caller_system_engine_ledger queue_receipt_schema (boolean_response_schema "completed");
   primitive_write "queue::fail" "queue" "fail or retry a queued invocation" "queue.write"
     caller_system_engine_ledger queue_fail_schema (boolean_response_schema "failed");
   primitive_write "queue::cancel" "queue" "cancel a queued invocation" "queue.write"
     caller_session_engine_ledger queue_receipt_schema (boolean_response_schema "cancelled");
   primitive_read "queue::get" "queue" "inspect a queued invocation" "queue.read"
     queue_receipt_schema queue_item_response_schema;
   primitive_read "queue::list" "queue" "list queued invocations" "queue.read"
     queue_list_schema (object_schema ["items"] (typed_fields "array" ["items"]))].

(** ** Queued calls run with the authority of their caller *)

(** The authority that a context carries, with the kind of its actor given apart. *)
Definition acts_with (kind : ActorKind) (c d : CausalContext) : Prop :=
  cx_actor_id d = cx_actor_id c /\ cx_actor_kind d = kind /\
  cx_authority_grant_id d = cx_authority_grant_id c /\ cx_authority_scopes d = cx_authority_scopes c /\
  cx_session_id d = cx_session_id c /\ cx_workspace_id d = cx_workspace_id c /\
  cx_runtime_metadata d = cx_runtime_metadata c /\ cx_trace_id d = cx_trace_id c.

Lemma checked_ok {A S} (s : S) (r : Result A) k v (s' : S) :
  checked s r k = (Ok v, s') -> exists a, r = Ok a /\ k a = (Ok v, s').
Proof. destruct r; [eauto|done]. Qed.
Lemma fold_left_keeps {A B C} (f : A -> B -> A) (field : A -> C) l : forall a,
  (forall a b, field (f a b) = field a) -> field (fold_left f l a) = field a.
Proof. induction l as [|b l IH]; intros a Hf; [done|]. simpl. by rewrite IH, Hf. Qed.

Lemma claimed_context_identity item :
  let r := q_request item in
  cx_actor_id (claimed_context item) = eq_actor_id r /\ cx_actor_kind (claimed_context item) = eq_actor_kind r /\
  cx_session_id (claimed_context item) = eq_session_id r /\
  cx_workspace_id (claimed_context item) = eq_workspace_id r /\ cx_trace_id (claimed_context item) = eq_trace_id r.
Proof.
  unfold claimed_context. destruct (q_request item) as [? ? ? ? ? ? scopes m ? parent trigger session workspace key].
  simpl. destruct parent, trigger, session, workspace, key; simpl; split_and!; try done;
    by rewrite !fold_left_keeps.
Qed.

(** The item under a receipt keeps its request through every change of the queue. *)
Lemma steps_keep_request json_len s s' receipt item :
  rtc (queue_step json_len) s s' -> s !! receipt = Some item ->
  exists item', s' !! receipt = Some item' /\ q_request item' = q_request item.
Proof.
  intros Hs. revert item. induction Hs as [s|s s1 s2 Hstep _ IH]; intros item Hi; [eauto|].
  assert (exists item1, s1 !! receipt = Some item1 /\ q_request item1 = q_request item) as (item1 & H1 & <-).
  { destruct (queue_step_shape _ _ _ Hstep) as [->|[(now & id & r & Hnone & _ & ->)|(id & i & i' & Hl & Hst & ->)]].
    - eauto.
    - exists item. split; [|done]. rewrite lookup_insert_ne; [done|]. congruence.
    - destruct (decide (id = receipt)) as [->|Hne]; [|rewrite lookup_insert_ne by done; eauto].
      rewrite Hi in Hl. injection Hl as <-. exists i'. rewrite lookup_insert_eq.
      by destruct (item_step_keeps _ _ Hst) as (_ & -> & _). }
  by apply IH.
Qed.

(** *** The SQLite queue *)

(** The kind that an actor has once its item is read from a row. *)
Definition stored_kind (k : ActorKind) : ActorKind := actor_kind_from_str (actor_kind_debug k).
Lemma stored_kind_is k :
  stored_kind k = match k with Actor_User | Actor_Cron | Actor_Queue => Actor_System | k => k end.
Proof. by destruct k. Qed.
Lemma stored_kind_again k : stored_kind (stored_kind k) = stored_kind k.
Proof. by destruct k. Qed.

(** The request as it was, or as a row gives it back. *)
Definition request_kept (r r' : EnqueueInvocation) : Prop :=
  r' = r \/ r' = set_eq_actor_kind r (stored_kind (eq_actor_kind r)).
Lemma reload_request r i : request_kept r (q_request i) ->
  q_request (reload i) = set_eq_actor_kind r (stored_kind (eq_actor_kind r)).
Proof.
  intros [E|E]; simpl; rewrite E; [done|]. unfold set_eq_actor_kind. simpl. f_equal. apply stored_kind_again.
Qed.
(** The row of a receipt is there, and every such row has the request. *)
Definition row_kept (receipt : string) (r : EnqueueInvocation) (t : QueueTable) : Prop :=
  existsb (fun i => q_receipt_id i =s receipt) t = true /\
  forall i, In i t -> q_receipt_id i = receipt -> request_kept r (q_request i).
Lemma update_kept receipt r t i i' :
  row_kept receipt r t -> In i t -> q_receipt_id i' = q_receipt_id i -> q_request i' = q_request (reload i) ->
  row_kept receipt r (table_update_item i' t).
Proof.
  intros [He Hall] Hi Hid Hr. unfold table_update_item. split.
  - apply existsb_exists in He as (x & Hx & Hxid). apply existsb_exists.
    exists (if q_receipt_id x =s q_receipt_id i' then i' else x). split.
    + apply in_map_iff. by exists x.
    + destruct (String.eqb_spec (q_receipt_id x) (q_receipt_id i')) as [<-|]; done.
  - intros x (y & <- & Hy)%in_map_iff. destruct (String.eqb_spec (q_receipt_id y) (q_receipt_id i')) as [_|];
      [|by apply Hall]. intros Hrec. right. rewrite Hr. apply reload_request, Hall; congruence.
Qed.
Lemma oldest_in rows i : oldest rows = Some i -> In i rows.
Proof.
  revert i. induction rows as [|x rows IH]; intros i; simpl; [done|].
  destruct (oldest rows) as [j|]; [destruct (_ <=? _)|]; intros [= <-]; auto.
Qed.
Lemma modify_kept receipt r id f t b t' :
  (forall i i', f i = Some i' -> q_receipt_id i' = q_receipt_id i /\ q_request i' = q_request i) ->
  row_kept receipt r t -> table_modify id f t = Ok (b, t') -> row_kept receipt r t'.
Proof.
  intros Hf Ht. unfold table_modify, table_get.
  destruct (List.find _ t) as [i|] eqn:Hi; [|by intros [= _ <-]]. simpl.
  destruct (f (reload i)) as [i'|] eqn:Hfi; [|by intros [= _ <-]]. intros [= _ <-].
  apply Hf in Hfi as [Hid Hr]. eapply update_kept; [done|by apply List.find_some in Hi as [? _]|done|done].
Qed.
Lemma table_run_kept json_len dup receipt r op t :
  row_kept receipt r t -> row_kept receipt r (snd (table_run json_len dup op t)).
Proof.
  intros Ht. destruct op as [now id q|now queue owner ms|now id owner ms|now id a|now id m k a|now id|id];
    simpl; unfold answer; [..|done].
  - destruct (table_enqueue _ _ _ _ _ _) as [[i t']|] eqn:E; [|done]. simpl. unfold table_enqueue in E.
    destruct (validate_queue _) as [[]|]; [|done]. destruct (validate_queue_payload _ _) as [[]|]; [|done].
    apply guard_err_ok in E as [_ E]. unfold table_insert_item in E.
    destruct (existsb _ t) eqn:Hex; [done|]. injection E as _ <-. destruct Ht as [He Hall]. split.
    + by rewrite existsb_app, He.
    + intros x [Hx|[<-|[]]]%in_app_iff; [by apply Hall|]. simpl. intros <-. simpl in Hex. congruence.
  - destruct (table_claim _ _ _ _ _) as [[o t']|] eqn:E; [|done]. simpl. unfold table_claim in E.
    destruct (validate_queue _) as [[]|]; [|done]. apply guard_err_ok in E as [_ E].
    destruct (oldest _) as [i|] eqn:Hi; [|by injection E as _ <-]. injection E as _ <-.
    apply oldest_in, List.filter_In in Hi as [Hi _]. by eapply update_kept.
  - destruct (table_claim_by_receipt _ _ _ _ _) as [[o t']|] eqn:E; [|done]. simpl.
    unfold table_claim_by_receipt, table_get in E. apply guard_err_ok in E as [_ E].
    destruct (List.find _ t) as [i|] eqn:Hi; [|by injection E as _ <-]. cbn [fmap option_fmap option_map] in E.
    destruct (_ || _); injection E as _ <-; [done|]. apply List.find_some in Hi as [Hi _]. by eapply update_kept.
  - destruct (table_complete_with_attempt _ _ _ _) as [[b t']|] eqn:E; [|done]. revert E.
    apply modify_kept; [|done]. intros i i' H. unfold complete_item in H. repeat case_match; by simplify_eq.
  - destruct (table_fail_with_attempt _ _ _ _ _ _) as [[b t']|] eqn:E; [|done]. revert E.
    apply modify_kept; [|done]. intros i i' H. unfold fail_item in H. repeat case_match; by simplify_eq.
  - destruct (table_cancel _ _ _) as [[b t']|] eqn:E; [|done]. revert E.
    apply modify_kept; [|done]. intros i i' H. unfold cancel_item in H. repeat case_match; by simplify_eq.
Qed.

Lemma delivered_as r item :
  q_request item = r ->
  let c := claimed_context item in
  cx_actor_id c = eq_actor_id r /\ cx_actor_kind c = eq_actor_kind r /\
  cx_authority_grant_id c = eq_authority_grant_id r /\ cx_authority_scopes c = eq_authority_scopes r /\
  cx_session_id c = eq_session_id r /\ cx_workspace_id c = eq_workspace_id r /\
  cx_runtime_metadata c = eq_runtime_metadata r /\ cx_trace_id c = eq_trace_id r.
Proof.
  intros Hr. destruct (claimed_context_fields item) as (Hm & Hs & Hg & _).
  destruct (claimed_context_identity item) as (Ha & Hk & Hses & Hw & Ht). rewrite Hr in *. simpl. by split_and!.
Qed.


(** ** Polling shows only visible events *)

(** What the caller of a poll may see: administrators everything, others what is for agents, clients
    or the system, and what belongs to their session or workspace. *)
Definition may_see (c : CausalContext) (e : EngineStreamEvent) : Prop :=
  is_admin_like (cx_actor_kind c) = true \/
  In (se_visibility e) [Vis_System; Vis_Agent; Vis_Client] \/
  se_visibility e = Vis_Session /\ (exists session, cx_session_id c = Some session /\ se_session_id e = Some session) \/
  se_visibility e = Vis_Workspace /\
    (exists workspace, cx_workspace_id c = Some workspace /\ se_workspace_id e = Some workspace).

Lemma same_id_iff a b : same_id a b = true <-> exists x, a = Some x /\ b = Some x.
Proof.
  unfold same_id. destruct a as [x|], b as [y|]; simpl; try (split; [done|by intros (? & ? & ?)]).
  rewrite String.eqb_eq. split; [intros ->; eauto|]. by intros (z & [= ->] & [= ->]).
Qed.
Lemma event_visible_may_see c e : event_visible (polling_actor c) e = true -> may_see c e.
Proof.
  unfold event_visible, stream_scope_visible, may_see, polling_actor. simpl.
  destruct (is_admin_like _); [by left|].
  destruct (se_visibility e); intros H; try done; right; simpl; try tauto.
  - right. left. by apply same_id_iff in H.
  - do 2 right. by apply same_id_iff in H.
Qed.

Theorem polled_events_are_visible rfc3339 now generated i s answer s' :
  inv_function_id i = "stream::poll" -> stream_primitive rfc3339 now generated i s = (Ok answer, s') ->
  s' = s /\ exists id sub events,
    names (inv_payload i) "subscriptionId" id /\ ss_subscriptions s !! id = Some sub /\
    vget answer "events" = Some (VArray (map (stream_event_value rfc3339) events)) /\
    Forall (fun e => In e (ss_events s) /\ se_topic e = sub_topic sub /\ may_see (inv_context i) e) events.
Proof.
  intros Hid H. unfold stream_primitive in H. rewrite Hid in H.
  change ("stream::poll" =s "stream::subscribe") with false in H. rewrite String.eqb_refl in H. cbv iota in H.
  apply checked_ok in H as (id & Hname%required_iff & H). apply checked_ok in H as (after & _ & H).
  apply checked_ok in H as (limit & _ & H). apply checked_ok in H as (page & Hpage & [= <- <-]).
  split; [done|]. unfold stream_poll in Hpage.
  destruct (poll_subscription _ _ _ _) as [sub|] eqn:Hsub; [|done]. injection Hpage as <-.
  exists id, sub, (take (Z.to_nat (Z.min limit 500)) (merge_sort cursor_le (List.filter (event_visible (polling_actor (inv_context i)))
     (List.filter (fun e => default (sub_cursor sub) after <? se_cursor e)
        (List.filter (fun e => se_topic e =s sub_topic sub) (ss_events s)))))).
  split_and!; [done| |reflexivity|].
  - unfold poll_subscription in Hsub. destruct (ss_subscriptions s !! id) as [x|]; simpl in Hsub.
    2: { by destruct (limit =? 0). }
    repeat (case_match; [done|]). by injection Hsub as ->.
  - apply Forall_take. rewrite merge_sort_Permutation. apply Forall_forall. intros e He.
    apply list_elem_of_In in He. rewrite !List.filter_In in He. destruct He as [[[He Ht] _] Hv].
    apply String.eqb_eq in Ht. eauto using event_visible_may_see.
Qed.

(** ** State is read back *)

Section state_calls.
  Variable rfc3339 : instant -> string.
  Notation call now := (state_primitive rfc3339 now).

Definition state_writers : list string := ["state::set"; "state::compare_and_set"].

(** What a successful write stores and answers. *)
Lemma write_ok now i s answer s' :
  In (inv_function_id i) state_writers -> call now i s = (Ok answer, s') ->
  exists scope ns key e, state_address i = Ok (scope, ns, key) /\ state_key scope ns key = Ok (scope, (ns, key)) /\
    s' = <[(scope, (ns, key)) := e]> s /\ en_value e = value_or_null (inv_payload i) "value" /\
    en_revision e = match s !! (scope, (ns, key)) with
                    | Some old => saturating_add_u64 (en_revision old) 1 | None => 1 end /\
    answer = entry_response rfc3339 e.
Proof.
  intros Hin H.
  assert (exists scope ns key, state_address i = Ok (scope, ns, key) /\
    changes s (state_set now scope ns key (value_or_null (inv_payload i) "value") s) (entry_response rfc3339)
    = (Ok answer, s')) as (scope & ns & key & Ha & Hs).
  { destruct Hin as [Hid|[Hid|[]]]; unfold state_primitive in H; rewrite <- Hid in H; cbv iota beta in H.
    - change ("state::set" =s "state::get") with false in H. rewrite String.eqb_refl in H.
      apply checked_ok in H as ([[scope ns] key] & Ha & H). eauto.
    - change ("state::compare_and_set" =s "state::get") with false in H.
      change ("state::compare_and_set" =s "state::set") with false in H.
      change ("state::compare_and_set" =s "state::delete") with false in H. rewrite String.eqb_refl in H.
      apply checked_ok in H as ([[scope ns] key] & Ha & H). apply checked_ok in H as (expected & _ & H).
      exists scope, ns, key. split; [done|]. unfold state_compare_and_set, state_get in H.
      unfold state_set. destruct (state_key scope ns key) as [k|] eqn:Hk; [|done]. simpl in *.
      case_bool_decide; [done|]. unfold state_set in H. by rewrite Hk in H. }
  unfold state_set in Hs. destruct (state_key scope ns key) as [k|] eqn:Hk; [|done].
  pose proof (state_key_ok _ _ _ _ Hk) as ->. injection Hs as <- <-. do 4 eexists. by split_and!.
Qed.

Theorem written_state_is_read_back now i s answer s' later j :
  In (inv_function_id i) state_writers -> call now i s = (Ok answer, s') ->
  inv_function_id j = "state::get" ->
  call later j s' = (if decide (state_address j = state_address i) then Ok answer else (call later j s).1, s').
Proof.
  intros Hin H Hj. destruct (write_ok _ _ _ _ _ Hin H) as (scope & ns & key & e & Ha & Hk & -> & _ & _ & ->).
  unfold state_primitive. rewrite Hj, String.eqb_refl, Ha.
  destruct (state_address j) as [[[scope' ns'] key']|e'] eqn:Haj.
  2: { by rewrite decide_False. }
  cbn [checked]. unfold state_get. destruct (decide _) as [[= -> -> ->]|Hne].
  - rewrite Hk. cbn [checked]. by rewrite lookup_insert_eq.
  - destruct (state_key scope' ns' key') as [k|] eqn:Hk'; [|done]. apply state_key_ok in Hk' as ->.
    cbn [checked]. rewrite lookup_insert_ne; [done|congruence].
Qed.
End state_calls.

(** ** Casts that lose *)

Definition queue_call (function : string) (payload : Value) : Invocation :=
  new_sync "call" function payload (causal_context_new "agent" Actor_Agent "grant" "trace").
Definition after_call (call : Invocation) (now : instant) (s : QueueMemory * StreamStore) :
    QueueMemory * StreamStore :=
  (queue_primitive id (fun _ => 4) no_rfc now "receipt" call s).2.
Definition one_queued : QueueMemory * StreamStore :=
  after_call (queue_call "queue::enqueue" (j{"queue" ~> "work"; "functionId" ~> "state::get"; "payload" ~> j{}}))
    0 (queue_memory_new, stream_store_new).

(** A bound of attempts is cut to its low 32 bits: with 2^32 attempts allowed, the first failure of an
    item is its last. *)
Theorem large_attempt_bound_is_cut :
  q_status <$> (after_call (queue_call "queue::fail" (j{"receiptId" ~> "receipt"; "maxAttempts" ~> jnum (2 ^ 32)}))
                  1 one_queued).1 !! "receipt" = Some Q_DeadLettered.
Proof. vm_compute. reflexivity. Qed.

(** A lease of 2^63 milliseconds or more becomes negative and lasts one millisecond: another caller
    claims the same item right after. *)
Theorem long_lease_lasts_a_millisecond :
  let claim owner := queue_call "queue::claim"
    (j{"queue" ~> "work"; "leaseOwner" ~> VString owner; "leaseMs" ~> jnum (2 ^ 63)}) in
  let s := after_call (claim "first") 1 one_queued in
  q_lease_owner <$> s.1 !! "receipt" = Some (Some "first") /\
  q_lease_owner <$> (after_call (claim "second") 1000001 s).1 !! "receipt" = Some (Some "second").
Proof. vm_compute. done. Qed.

(** ** Answers conform to their schemas *)

Section store_contracts.
  Variable debug : string -> string.
  Variable json_len : Value -> Z.
  Variable rfc3339 : instant -> string.
  Variable now : instant.
  Variable generated : string.

Lemma changes_ok {A S} (s : S) (r : Result (A * S)) answer v (s' : S) :
  changes s r answer = (Ok v, s') -> exists a, r = Ok (a, s') /\ v = answer a.
Proof. destruct r as [[a s1]|]; [|done]. intros [= <- <-]. eauto. Qed.
Lemma settled_ok answer event id op s v s' :
  settled debug now answer event id op s = (Ok v, s') -> exists changed, v = j{answer ~> VBool changed}.
Proof. unfold settled. repeat case_match; intros [= <- <-]; eauto. Qed.

Ltac pick_branch H :=
  repeat match type of H with
         | context [if ?a =s ?b then _ else _] =>
             let r := eval vm_compute in (a =s b) in change (a =s b) with r in H; cbv iota in H
         end.
Ltac read_answer H :=
  repeat first
    [ apply checked_ok in H as (? & ? & H)
    | apply changes_ok in H as (? & ? & ->)
    | apply settled_ok in H as [? ->]
    | match type of H with (let '_ := ?x in _) = _ => destruct x end
    | match type of H with match ?x with _ => _ end = _ => destruct x; try discriminate H end
    | injection H as <- <- ].
Lemma any_conforms f d v path : validate_payload_node f d (j{}) v path = Ok tt.
Proof. by destruct v. Qed.
Lemma integer_conforms f d n path : validate_payload_node f d (j{"type" ~> "integer"}) (jnum n) path = Ok tt.
Proof.
  unfold jnum. destruct (n <? 0); [done|]. unfold validate_payload_node, validate_payload_head.
  cbn. by destruct (n <=? 9223372036854775807).
Qed.
Ltac answer_conforms :=
  eapply conforming_node; [reflexivity|vm_compute; reflexivity|];
  eapply object_conforms; [reflexivity|reflexivity|reflexivity|reflexivity|];
  repeat apply List.Forall_cons; try apply List.Forall_nil; intros v [= <-]; cbn [fst snd];
  first [apply any_conforms|apply integer_conforms|reflexivity].

Theorem store_answers_conform f i v :
  (In f state_registrations /\ (exists s s', state_primitive rfc3339 now i s = (Ok v, s')) \/
   In f stream_registrations /\ (exists s s', stream_primitive rfc3339 now generated i s = (Ok v, s')) \/
   In f queue_registrations /\
     (exists s s', queue_primitive debug json_len rfc3339 now generated i s = (Ok v, s'))) ->
  fn_id f = inv_function_id i -> conforming debug f v.
Proof.
  intros [[Hin (s & s' & H)]|[[Hin (s & s' & H)]|[Hin (s & s' & H)]]] Hid;
    repeat (destruct Hin as [<-|Hin]); try destruct Hin; simpl in Hid;
    unfold state_primitive, stream_primitive, queue_primitive in H; rewrite <- Hid in H; pick_branch H;
    read_answer H.
  all: answer_conforms.
Qed.
End store_contracts.

(** ** Witnesses *)

Definition enqueue_call : Invocation :=
  queue_call "queue::enqueue" (j{"queue" ~> "work"; "functionId" ~> "state::get"; "payload" ~> j{"key" ~> "k"}}).
Definition enqueued : Result Value * (QueueMemory * StreamStore) :=
  queue_primitive id (fun _ => 4) no_rfc 0 "receipt" enqueue_call (queue_memory_new, stream_store_new).
Definition claimed_queue : QueueMemory :=
  match queue_claim 1 "work" "drainer" 1000 enqueued.2.1 with Ok (_, q) => q | Err _ => ∅ end.

