(* ===== verification/PrimitiveRuntime.v ===== *)
(** * Trigger, catalog, worker and storage primitives

    [engine/primitives/trigger.rs]: [trigger::dispatch], which fires a registered trigger
    through the trigger runtime of Triggers.  [engine/primitives/runtime.rs] with
    [invocation/host/runtime_host.rs]: the primitives that the host dispatches itself
    because they read or change its catalog ([catalog::*], [worker::*]), its resources
    ([ui::*], see UiPrimitive) or its database ([storage::*]); and their registrations
    ([catalog.rs], [worker.rs], [storage.rs]).

    The database runtime (shared/storage) is the class [StorageRuntime]: each operation
    answers with the JSON of its report or with the text of an error.  The JSON of catalog
    items is a parameter, as in Host. *)

From stdpp Require Import base gmap strings list pretty.
From Stdlib Require Import ZArith Ascii String Lia.
From S2P Require Import Prelude Json Kernel Model Schema Policy Leases Paths Grants Queue Streams Ledger Catalog.
From S2P Require Import Invocation Compensation Meta Host Triggers GrantPrimitive ResourcePrimitive UiPrimitive StorePrimitives.
Import JsonNotations.

#[local] Open Scope Z_scope.

(** ** Trigger dispatch *)

Section trigger.
  Context {H S L C : Type} `{!LedgerStore S, !LeaseStore L, !CompensationStore C}.
  Notation host := (EngineHost H S L C).
  (** The trigger runtime, given the clock, the ids and the request ([trigger_dispatch]). *)
  Variable run_trigger : TriggerDispatchRequest -> host -> InvocationResult * host.

(* SRC engine/primitives/trigger.rs:128-137 parse_delivery_mode *)
Definition parse_trigger_delivery_mode (value : string) : Result DeliveryMode :=
  match obj_get [("sync", Delivery_Sync); ("Sync", Delivery_Sync); ("void", Delivery_Void);
                 ("Void", Delivery_Void); ("enqueue", Delivery_Enqueue); ("Enqueue", Delivery_Enqueue)] value with
  | Some mode => Ok mode
  | None => policy_error ("unsupported deliveryMode " +s value)
  end.
(* SRC engine/primitives/trigger.rs:115-126 optional_delivery_mode *)
Definition optional_trigger_delivery_mode (value : option Value) : Result (option DeliveryMode) :=
  transpose value (parsed "deliveryMode must be a string" parse_trigger_delivery_mode).

(** The request made for a call: the trigger with the authority, the scope and the trace of the
    caller. *)
(* SRC engine/primitives/trigger.rs:55-80! TriggerPrimitiveHandler::dispatch *)
Definition dispatch_request (i : Invocation) : Result TriggerDispatchRequest :=
  let payload := inv_payload i in
  let c := inv_context i in
  let? name := required_str payload "triggerId" in
  let? trigger_id := engine_id_new "trigger" name in
  let? mode := optional_trigger_delivery_mode (vget payload "deliveryMode") in
  let? key := text_or payload "targetIdempotencyKey" (cx_idempotency_key c) in
  Ok {| td_trigger_id := trigger_id; td_payload := value_or_null payload "payload";
        td_actor_id := cx_actor_id c; td_actor_kind := cx_actor_kind c;
        td_authority_scopes := cx_authority_scopes c; td_runtime_metadata := cx_runtime_metadata c;
        td_trace_id := Some (cx_trace_id c); td_parent_invocation_id := Some (inv_id i);
        td_session_id := cx_session_id c; td_workspace_id := cx_workspace_id c;
        td_idempotency_key := key; td_delivery_mode := mode |}.
(** The answer: an answer of the target with a receipt counts as queued. *)
(* SRC engine/primitives/trigger.rs:87-111! TriggerPrimitiveHandler::dispatch *)
Definition dispatch_response (r : TriggerDispatchRequest) (result : InvocationResult) : Value :=
  let target := default Null (ir_value result) in
  let receipt := vget target "receiptId" in
  VObject (insert_present
    [("dispatched", Some (VBool true)); ("triggerId", Some (VString (td_trigger_id r)));
     ("invocationId", Some (VString (ir_invocation_id result)));
     ("traceId", Some (VString (ir_trace_id result))); ("result", Some target);
     ("deliveryMode", (fun m => VString (delivery_as_str m)) <$> td_delivery_mode r);
     ("replayedFrom", VString <$> ir_replayed_from result); ("receiptId", receipt);
     ("queued", Some (VBool (is_some receipt)))] []).
(** [handle] is the error of a host handle that is not installed or gone. *)
(* SRC engine/primitives/trigger.rs:55-112 TriggerPrimitiveHandler::dispatch *)
Definition trigger_primitive (handle : option EngineError) (i : Invocation) (h : host) : Result Value * host :=
  if negb (inv_function_id i =s "trigger::dispatch") then (unknown_function i, h)
  else match dispatch_request i with
       | Err e => (Err e, h)
       | Ok r =>
           match handle with
           | Some e => (Err e, h)
           | None =>
               let '(result, h) := run_trigger r h in
               (match ir_error result with Some e => Err e | None => Ok (dispatch_response r result) end, h)
           end
       end.
End trigger.

(* SRC engine/primitives/trigger.rs:139-151 trigger_dispatch_schema *)
Definition trigger_dispatch_schema : Value :=
  object_schema ["triggerId"; "payload"]
    ["triggerId" ~> j{"type" ~> "string"}; "payload" ~> j{};
     "deliveryMode" ~> j{"type" ~> "string";
       "enum" ~> jstrs ["sync"; "Sync"; "void"; "Void"; "enqueue"; "Enqueue"] };
     "targetIdempotencyKey" ~> j{"type" ~> "string"}].
(* SRC engine/primitives/trigger.rs:153-170 trigger_dispatch_response_schema *)
Definition trigger_dispatch_response_schema : Value :=
  object_schema ["dispatched"; "triggerId"; "invocationId"; "traceId"; "queued"; "result"]
    (typed_fields "boolean" ["dispatched"; "queued"]
     ++ typed_fields "string" ["triggerId"; "invocationId"; "traceId"; "deliveryMode"; "receiptId"; "replayedFrom"]
     ++ ["result" ~> j{}]).
(* SRC engine/primitives/trigger.rs:17-35 registrations *)
Definition trigger_registrations : list FunctionDefinition :=
  [primitive_write "trigger::dispatch" "trigger"
     "dispatch a registered trigger through the engine trigger runtime" "trigger.dispatch"
     caller_session_engine_ledger trigger_dispatch_schema trigger_dispatch_response_schema].

(** ** Host-dispatched primitives *)

Class StorageRuntime (St : Type) := {
  sr_stats : St -> result string Value;
  sr_checkpoint : St -> result string Value * St;
  sr_export_snapshot : string -> St -> result string Value * St;
  sr_retention_run : bool -> Z -> St -> result string Value * St
}.

Section runtime.
  Context {H S L C D St : Type} `{!LedgerStore S, !LeaseStore L, !CompensationStore C, !StorageRuntime St}.
  Notation host := (EngineHost H S L C).
  Variable rfc3339 : instant -> string.
  Variable json_text : Value -> string.
  Variable metadata_text : Value -> string.
  Variable function_value : FunctionDefinition -> Value.
  Variable worker_value : WorkerDefinition -> Value.
  Variable trigger_type_value : TriggerTypeDefinition -> Value.
  Variable trigger_value : TriggerDefinition -> Value.
  (** The UI primitives on the resources of the host ([ui_dispatch]). *)
  Variable run_ui : Invocation -> @Handler D Value.
  Variable uuid : Z -> string.
  Variable now : instant.

(** The part of the host that the primitives reach. *)
Record Runtime := { rt_host : host; rt_world : @World D; rt_storage : option St }.
Definition set_rt_host (h : host) (r : Runtime) : Runtime :=
  {| rt_host := h; rt_world := rt_world r; rt_storage := rt_storage r |}.
Definition set_rt_world (w : World) (r : Runtime) : Runtime :=
  {| rt_host := rt_host r; rt_world := w; rt_storage := rt_storage r |}.
Definition set_rt_storage (s : St) (r : Runtime) : Runtime :=
  {| rt_host := rt_host r; rt_world := rt_world r; rt_storage := Some s |}.

(* SRC engine/primitives/runtime.rs:301-311 optional_string *)
Definition runtime_optional_string (value : option Value) : Result (option string) :=
  match value with
  | None | Some Null => Ok None
  | Some (VString s) => Ok (Some s)
  | Some other => policy_error ("expected string, got " +s json_text other)
  end.
(* SRC engine/primitives/runtime.rs:313-324 optional_u64 *)
Definition runtime_optional_u64 (value : option Value) : Result (option Z) :=
  match value with
  | None | Some Null => Ok None
  | Some (VNumber n) => match as_u64 (VNumber n) with
                        | Some u => Ok (Some u)
                        | None => policy_error "expected unsigned integer"
                        end
  | Some other => policy_error ("expected integer, got " +s json_text other)
  end.
(* SRC engine/primitives/runtime.rs:326-342 optional_visibility *)
Definition runtime_optional_visibility (value : option Value) : Result (option VisibilityScope) :=
  let? named := runtime_optional_string value in
  match named with
  | None => Ok None
  | Some name =>
      match parse_visibility name with
      | Ok v => Ok (Some v)
      | Err _ => policy_error ("unknown visibility " +s name)
      end
  end.
(* SRC engine/primitives/runtime.rs:242-251 actor_context *)
Definition runtime_actor_context (c : CausalContext) : ActorContext :=
  {| ac_actor_id := cx_actor_id c; ac_actor_kind := cx_actor_kind c;
     ac_authority_grant_id := cx_authority_grant_id c; ac_authority_scopes := cx_authority_scopes c;
     ac_session_id := cx_session_id c; ac_workspace_id := cx_workspace_id c |}.

(* SRC engine/invocation/host/meta_invocation.rs:486-499 EngineHost::visible_workers *)
Definition visible_workers (actor : ActorContext) (h : host) : list WorkerDefinition :=
  List.filter (fun w => item_visible (wk_visibility w) (wk_provenance w) actor) (workers (eh_catalog h)).
(* SRC engine/invocation/host/meta_invocation.rs:501-514 EngineHost::visible_triggers *)
Definition visible_triggers (actor : ActorContext) (h : host) : list TriggerDefinition :=
  List.filter (fun t => item_visible (tr_visibility t) (tr_provenance t) actor) (triggers (eh_catalog h)).
(* SRC engine/invocation/host/meta_invocation.rs:516-529 EngineHost::visible_trigger_types *)
Definition visible_trigger_types (actor : ActorContext) (h : host) : list TriggerTypeDefinition :=
  List.filter (fun t => item_visible (tt_visibility t) (tt_provenance t) actor) (trigger_types (eh_catalog h)).

(** A query of an actor for functions, with everything else open. *)
Definition actor_query (actor : ActorContext) (visibility : option VisibilityScope)
    (prefix : option string) (internal : bool) : FunctionQuery :=
  {| fq_actor := Some actor; fq_visibility := visibility; fq_namespace_prefix := prefix;
     fq_text := None; fq_effect_class := None; fq_max_risk := None; fq_health := None;
     fq_include_internal := internal |}.
Definition found_functions (q : FunctionQuery) (h : host) : list FunctionDefinition :=
  discover_functions metadata_text q (eh_catalog h).
(** The four lists of a catalog answer. *)
Definition catalog_snapshot (q : FunctionQuery) (actor : ActorContext) (h : host) : Value :=
  j{"functions" ~> VArray (map function_value (found_functions q h));
    "workers" ~> VArray (map worker_value (visible_workers actor h));
    "triggers" ~> VArray (map trigger_value (visible_triggers actor h));
    "triggerTypes" ~> VArray (map trigger_type_value (visible_trigger_types actor h))}.

(* SRC engine/primitives/runtime.rs:78-100 catalog_list *)
Definition catalog_list (i : Invocation) (h : host) : Result Value :=
  let payload := inv_payload i in
  let actor := runtime_actor_context (inv_context i) in
  let? visibility := runtime_optional_visibility (vget payload "visibility") in
  let? prefix := runtime_optional_string (vget payload "namespacePrefix") in
  let internal := default false (vget payload "includeInternal" ≫= as_bool) in
  Ok (catalog_snapshot (actor_query actor visibility prefix internal) actor h).
(* SRC engine/primitives/runtime.rs:102-130 catalog_watch_snapshot *)
Definition catalog_watch_snapshot (i : Invocation) (h : host) : Result Value :=
  let? response := meta_watch rfc3339 i h in
  let actor := runtime_actor_context (inv_context i) in
  Ok (j{"changes" ~> default (j[]) (vget response "changes");
        "snapshot" ~> catalog_snapshot (actor_query actor None None false) actor h;
        "currentRevision" ~> default Null (vget response "currentRevision");
        "nextRevision" ~> default Null (vget response "nextRevision");
        "hasMore" ~> default (VBool false) (vget response "hasMore")}).
(* SRC engine/primitives/runtime.rs:132-137 worker_list *)
Definition worker_list (i : Invocation) (h : host) : Result Value :=
  let actor := runtime_actor_context (inv_context i) in
  Ok (j{"workers" ~> VArray (map worker_value (visible_workers actor h))}).
Definition named_worker (i : Invocation) : Result WorkerId :=
  let? name := required_str (inv_payload i) "workerId" in engine_id_new "worker" name.
(* SRC engine/primitives/runtime.rs:139-154 worker_get *)
Definition worker_get (i : Invocation) (h : host) : Result Value :=
  let? id := named_worker i in
  let actor := runtime_actor_context (inv_context i) in
  let? w := inspect_worker id (eh_catalog h) in
  if negb (item_visible (wk_visibility w) (wk_provenance w) actor)
  then policy_error ("worker " +s id +s " is not visible")
  else Ok (j{"worker" ~> worker_value w}).
(* SRC engine/primitives/runtime.rs:156-193 worker_health *)
Definition worker_health (i : Invocation) (h : host) : Result Value :=
  let? id := named_worker i in
  let actor := runtime_actor_context (inv_context i) in
  let? w := inspect_worker id (eh_catalog h) in
  let functions := List.filter (fun f => fn_owner_worker f =s id)
                     (found_functions (actor_query actor None None true) h) in
  let triggers := List.filter (fun t => tr_owner_worker t =s id) (visible_triggers actor h) in
  let health := if existsb (fun f => negb (is_routable (fn_health f))) functions
                then "unhealthy" else "healthy" in
  Ok (j{"worker" ~> worker_value w; "functions" ~> VArray (map function_value functions);
        "triggers" ~> VArray (map trigger_value triggers); "health" ~> VString health}).
(* SRC engine/primitives/runtime.rs:195-208 worker_disconnect *)
Definition primitive_worker_disconnect (i : Invocation) (h : host) : Result Value * host :=
  match named_worker i with
  | Err e => (Err e, h)
  | Ok id =>
      if negb (bool_decide (worker_is_volatile id (eh_catalog h) = Some true))
      then (policy_error ("worker::disconnect can only disconnect volatile workers (" +s id +s ")"), h)
      else match inspect_worker id (eh_catalog h) with
           | Err e => (Err e, h)
           | Ok w =>
               let '(r, h) := on_catalog (unregister_worker uuid now id (wk_owner_actor w)) h in
               (let? _ := r in Ok (j{"disconnected" ~> VBool true}), h)
           end
  end.

(* SRC engine/invocation/host/mod.rs:234-236 storage_error *)
Definition storage_error {A} (r : result string A) : Result A :=
  match r with Ok a => Ok a | Err e => Err (HandlerFailed ("storage primitive failed: " +s e)) end.
(** [host.storage_runtime()?] and an operation on it, answered under a field. *)
(* SRC engine/invocation/host/mod.rs:224-231 EngineHost::storage_runtime *)
Definition on_storage (field : string) (op : St -> result string Value * St) (r : Runtime) :
    Result Value * Runtime :=
  match rt_storage r with
  | None => (policy_error "storage primitives require a SQLite-backed engine host", r)
  | Some s =>
      let '(report, s) := op s in
      (let? report := storage_error report in Ok (j{field ~> report}), set_rt_storage s r)
  end.
(* SRC engine/primitives/runtime.rs:35-35 storage_stats *)
Definition storage_stats (r : Runtime) : Result Value * Runtime :=
  on_storage "stats" (fun s => (sr_stats s, s)) r.
(* SRC engine/primitives/runtime.rs:36-36 storage_checkpoint *)
Definition storage_checkpoint (r : Runtime) : Result Value * Runtime := on_storage "checkpoint" sr_checkpoint r.
(* SRC engine/primitives/runtime.rs:37-40 storage_export_snapshot *)
Definition storage_export_snapshot (i : Invocation) (r : Runtime) : Result Value * Runtime :=
  match required_str (inv_payload i) "snapshotPath" with
  | Err e => (Err e, r)
  | Ok path => on_storage "export" (sr_export_snapshot path) r
  end.
(* SRC engine/primitives/runtime.rs:41-45 storage_retention_run *)
Definition storage_retention_run (i : Invocation) (r : Runtime) : Result Value * Runtime :=
  let dry_run := default false (vget (inv_payload i) "dryRun" ≫= as_bool) in
  match runtime_optional_u64 (vget (inv_payload i) "verboseRetentionDays") with
  | Err e => (Err e, r)
  | Ok days => on_storage "retention" (sr_retention_run dry_run (default 7 days)) r
  end.

Definition reading (f : Invocation -> host -> Result Value) (i : Invocation) (r : Runtime) :
    Result Value * Runtime := (f i (rt_host r), r).
Definition on_world (f : Invocation -> @Handler D Value) (i : Invocation) (r : Runtime) :
    Result Value * Runtime := let '(a, w) := f i (rt_world r) in (a, set_rt_world w r).
(** The arms of [dispatch], by the names of the functions. *)
Definition runtime_handlers : list (string * (Invocation -> Runtime -> Result Value * Runtime)) :=
  [("catalog::list", reading catalog_list);
   ("catalog::inspect", reading (fun i => meta_inspect function_value worker_value trigger_type_value trigger_value i));
   ("catalog::watch_snapshot", reading catalog_watch_snapshot);
   ("worker::list", reading worker_list); ("worker::get", reading worker_get);
   ("worker::health", reading worker_health);
   ("worker::disconnect", fun i r => let '(a, h) := primitive_worker_disconnect i (rt_host r) in (a, set_rt_host h r));
   ("ui::create_surface", on_world run_ui); ("ui::update_surface", on_world run_ui);
   ("ui::inspect_surface", on_world run_ui); ("ui::validate_surface", on_world run_ui);
   ("ui::expire_surface", on_world run_ui); ("ui::discard_surface", on_world run_ui);
   ("ui::submit_action", on_world run_ui);
   ("storage::stats", fun _ => storage_stats); ("storage::checkpoint", fun _ => storage_checkpoint);
   ("storage::export_snapshot", storage_export_snapshot);
   ("storage::retention_run", storage_retention_run)].
(* SRC engine/primitives/runtime.rs:48-76 dispatch *)
Definition runtime_dispatch (i : Invocation) (r : Runtime) : Result Value * Runtime :=
  match obj_get runtime_handlers (inv_function_id i) with
  | Some handler => handler i r
  | None => (unknown_function i, r)
  end.
End runtime.

(** ** Registrations *)

Definition open_schema (properties : list (string * Value)) : Value :=
  j{"type" ~> "object"; "additionalProperties" ~> VBool false; "properties" ~> jobj properties}.
(* SRC engine/primitives/storage.rs:96-101 system_registration *)
Definition system_visible (f : FunctionDefinition) : FunctionDefinition :=
  set_fn_scope Vis_System (fn_provenance f) f.
(* SRC engine/primitives/mod.rs:228-237 nullable_response_schema *)
Definition nullable_response_schema (field : string) : Value := object_schema [field] [field ~> j{}].

(* SRC engine/primitives/catalog.rs:71-88 catalog_read *)
Definition catalog_read (id description : string) (request response : Value) : FunctionDefinition :=
  system_visible (primitive_read id "catalog" description "catalog.read" request response).
(* SRC engine/primitives/catalog.rs:90-100 list_schema *)
Definition catalog_list_schema : Value :=
  open_schema ["includeInternal" ~> j{"type" ~> "boolean"}; "namespacePrefix" ~> j{"type" ~> "string"};
                   "visibility" ~> j{"type" ~> "string"}].
(* SRC engine/primitives/catalog.rs:102-112 inspect_schema *)
Definition catalog_inspect_schema : Value :=
  object_schema ["kind"; "id"]
    ["kind" ~> j{"type" ~> "string"; "enum" ~> jstrs ["function"; "worker"; "trigger_type"; "trigger"] };
     "id" ~> j{"type" ~> "string"}].
(* SRC engine/primitives/catalog.rs:114-127 watch_snapshot_schema *)
Definition watch_snapshot_schema : Value :=
  open_schema
    (typed_fields "integer" ["afterRevision"; "limit"]
     ++ ["classes" ~> j{"type" ~> "array"; "items" ~> j{"type" ~> "string"}};
         "kinds" ~> j{"type" ~> "array"; "items" ~> j{"type" ~> "string"}}]
     ++ typed_fields "string" ["subjectPrefix"; "ownerWorker"]).
(* SRC engine/primitives/catalog.rs:19-69 registrations *)
Definition catalog_registrations : list FunctionDefinition :=
  [catalog_read "catalog::list" "list live catalog functions, workers, triggers, and trigger types"
     catalog_list_schema
     (object_schema ["functions"; "workers"; "triggers"; "triggerTypes"]
        (typed_fields "array" ["functions"; "workers"; "triggers"; "triggerTypes"]));
   catalog_read "catalog::inspect" "inspect one live catalog item" catalog_inspect_schema
     (object_schema ["kind"; "definition"] ["kind" ~> j{"type" ~> "string"}; "definition" ~> j{}]);
   catalog_read "catalog::watch_snapshot" "return catalog changes and current catalog snapshot"
     watch_snapshot_schema
     (object_schema ["changes"; "snapshot"; "currentRevision"; "nextRevision"; "hasMore"]
        ["changes" ~> j{"type" ~> "array"}; "snapshot" ~> j{"type" ~> "object"};
         "currentRevision" ~> j{"type" ~> "integer"}; "nextRevision" ~> j{"type" ~> "integer"};
         "hasMore" ~> j{"type" ~> "boolean"}])].

(* SRC engine/primitives/worker.rs:91-100 list_schema *)
Definition worker_list_schema : Value :=
  open_schema ["includeInternal" ~> j{"type" ~> "boolean"}; "visibility" ~> j{"type" ~> "string"}].
(* SRC engine/primitives/worker.rs:102-109 worker_id_schema *)
Definition worker_id_schema : Value := object_schema ["workerId"] (typed_fields "string" ["workerId"]).
(* SRC engine/primitives/worker.rs:111-121 disconnect_schema *)
Definition disconnect_schema : Value := object_schema ["workerId"] (typed_fields "string" ["workerId"; "reason"]).
(* SRC engine/primitives/worker.rs:18-89 registrations *)
Definition worker_registrations : list FunctionDefinition :=
  [primitive_read "worker::list" "worker" "list live engine workers" "worker.read" worker_list_schema
     (object_schema ["workers"] (typed_fields "array" ["workers"]));
   primitive_read "worker::get" "worker" "inspect one live engine worker" "worker.read"
     worker_id_schema (nullable_response_schema "worker");
   fn_with_response_schema (boolean_response_schema "disconnected")
     (fn_with_request_schema disconnect_schema
       (fn_with_compensation
          {| cc_kind := Comp_ManualOnly;
             cc_notes := "worker disconnect unregisters volatile catalog entries; reconnecting the worker restores capabilities from its own registration handshake" |}
         (fn_with_risk Risk_High
           (fn_with_required_authority (authority_scope "worker.write")
             (fn_with_idempotency caller_system_engine_ledger
               (primitive_function "worker::disconnect" "worker"
                  "disconnect a volatile local worker and unregister its entries"
                  Effect_IdempotentWrite "worker.write"))))));
   primitive_read "worker::health" "worker" "report worker health and owned catalog entries"
     "worker.read" worker_id_schema
     (object_schema ["worker"; "functions"; "triggers"; "health"]
        ["worker" ~> j{}; "functions" ~> j{"type" ~> "array"}; "triggers" ~> j{"type" ~> "array"};
         "health" ~> j{"type" ~> "string"}])].

(* SRC engine/primitives/storage.rs:103-109 empty_schema *)
Definition empty_schema : Value := open_schema [].
(* SRC engine/primitives/storage.rs:111-120 export_schema *)
Definition export_schema : Value := object_schema ["snapshotPath"] (typed_fields "string" ["snapshotPath"]).
(* SRC engine/primitives/storage.rs:122-131 retention_schema *)
Definition retention_schema : Value :=
  open_schema ["dryRun" ~> j{"type" ~> "boolean"}; "verboseRetentionDays" ~> j{"type" ~> "integer"}].
(** A mutating storage function: its risk is set once more. *)
Definition storage_write (id description : string) (request : Value) (field : string) : FunctionDefinition :=
  system_visible (fn_with_response_schema (object_schema [field] (typed_fields "object" [field]))
    (fn_with_request_schema request
      (fn_with_risk Risk_Medium (fn_with_idempotency caller_session_engine_ledger
        (primitive_function id "storage" description Effect_IdempotentWrite "storage.write"))))).
(* SRC engine/primitives/storage.rs:21-94 registrations *)
Definition storage_registrations : list FunctionDefinition :=
  [system_visible (primitive_read "storage::stats" "storage"
     "report unified engine storage size and table ownership" "storage.read" empty_schema
     (object_schema ["stats"] (typed_fields "object" ["stats"])));
   storage_write "storage::checkpoint" "checkpoint unified storage WAL into the main SQLite file"
     empty_schema "checkpoint";
   storage_write "storage::export_snapshot"
     "export unified storage into a portable single-file SQLite snapshot" export_schema "export";
   storage_write "storage::retention_run" "run unified storage retention and blob cleanup"
     retention_schema "retention"].

(** ** Two answers that mislead *)

(** An answer of the target that happens to have a receipt, given at once. *)
Definition receipt_answer (receipt : Value) : InvocationResult :=
  result_success (queue_call "shop::buy" (j{})) "shop" 1 1 (j{"receiptId" ~> receipt}).
Definition at_once : TriggerDispatchRequest :=
  {| td_trigger_id := "t"; td_payload := Null; td_actor_id := "a"; td_actor_kind := Actor_Agent;
     td_authority_scopes := []; td_runtime_metadata := ∅; td_trace_id := None;
     td_parent_invocation_id := None; td_session_id := None; td_workspace_id := None;
     td_idempotency_key := None; td_delivery_mode := Some Delivery_Sync |}.

(** A target that ran synchronously and answers with a field [receiptId] of its own is reported as
    queued; when that field is not a string, the answer breaks the schema of [trigger::dispatch] and
    the call fails although the target has run. *)
Theorem receipt_of_the_target_reads_as_queued :
  vget (dispatch_response at_once (receipt_answer "A-17")) "queued" = Some (VBool true) /\
  vget (dispatch_response at_once (receipt_answer "A-17")) "deliveryMode" = Some (VString "sync") /\
  existsb (fun f => is_ok (check_schema id f "response" (fn_response_schema f)
                             (dispatch_response at_once (receipt_answer (jnum 17))))) trigger_registrations = false.
Proof. split_and!; vm_compute; reflexivity. Qed.
