(* ===== verification/DomainService.v ===== *)
(** * Services of the domains

    The workers of [domains/] keep their records as resources and announce what they do on
    streams, through the handle of the host ([invocation/host/substrate_handle.rs]).  A
    [Service] is such a handler: it runs on a [World] of ResourcePrimitive whose second part
    is the stream store, and fails with a capability error.  What a service has done before
    it fails stays done. *)

From stdpp Require Import base gmap strings list pretty.
From Stdlib Require Import ZArith Ascii String Lia.
From S2P Require Import Prelude Json Kernel Model Streams Resources ResourceHistory ResourcePrimitive.
From S2P Require Import ResourceHandlers Failure.

#[local] Open Scope Z_scope.

Notation Host := (@World StreamStore) (only parsing).
Definition host_streams (w : @World StreamStore) : StreamStore := w_disk w.
Definition Service (A : Type) : Type := @World StreamStore -> result CapabilityError A * @World StreamStore.
#[global] Instance service_ret : MRet Service := fun A a w => (Ok a, w).
#[global] Instance service_bind : MBind Service := fun A B k m w =>
  match m w with
  | (Ok a, w) => k a w
  | (Err e, w) => (Err e, w)
  end.
(** A check, and an error. *)
Definition attempt {A} (r : result CapabilityError A) : Service A := fun w => (r, w).
Definition refuse {A} (e : CapabilityError) : Service A := fun w => (Err e, w).

(** An operation of the host, with its error mapped. *)
Definition on_engine {A} (failure : EngineError -> CapabilityError) (m : @Handler StreamStore A) : Service A :=
  fun w => match m w with
           | (Ok a, w) => (Ok a, w)
           | (Err e, w) => (Err (failure e), w)
           end.
(* SRC engine/invocation/host/substrate_handle.rs:249-256! EngineHostHandle::publish_stream_event *)
Definition host_publish (now : instant) (event : PublishStreamEvent) : @Handler StreamStore Z := fun w =>
  match stream_publish now event (w_disk w) with
  | Ok (cursor, s) => (Ok cursor, set_disk s w)
  | Err e => (Err e, w)
  end.

(** ** Derived deserialization

    A struct is read from an object, or from an array of its fields in order; a variant without
    fields from its name, or from an object with its name and null. *)

Definition record_fields (names : list string) (v : Value) : option (string -> option Value) :=
  match v with
  | VObject fields => Some (obj_get fields)
  | VArray values =>
      if bool_decide (List.length values = List.length names)
      then Some (obj_get (List.combine names values)) else None
  | _ => None
  end.
Definition read_field {A} (get : string -> option Value) (name : string) (read : Value -> option A) : option A :=
  get name ≫= read.
Definition read_optional_field {A} (get : string -> option Value) (name : string) (read : Value -> option A) :
    option (option A) :=
  match get name with
  | None | Some Null => Some None
  | Some v => match read v with Some a => Some (Some a) | None => None end
  end.
Definition read_variant {A} (table : list (string * A)) (v : Value) : option A :=
  match v with
  | VString name => obj_get table name
  | VObject [(name, Null)] => obj_get table name
  | _ => None
  end.

(** ** Inversion *)

Lemma service_bind_ok {A B} (m : Service A) (k : A -> Service B) w b w' :
  (m ≫= k) w = (Ok b, w') -> exists a w1, m w = (Ok a, w1) /\ k a w1 = (Ok b, w').
Proof. unfold mbind, service_bind. destruct (m w) as [[a|] w1]; [eauto|done]. Qed.
Lemma attempt_ok {A} (r : result CapabilityError A) w a w' :
  attempt r w = (Ok a, w') -> r = Ok a /\ w' = w.
Proof. by intros [= -> ->]. Qed.
Lemma on_engine_ok {A} failure (m : Handler A) w a w' :
  on_engine failure m w = (Ok a, w') -> m w = (Ok a, w').
Proof. unfold on_engine. destruct (m w) as [[b|e] w1]; [by intros [= <- <-]|done]. Qed.

Lemma ask_ok {A} (query : ResourceMemory -> Result A) (w : @World StreamStore) a w' :
  ask query w = (Ok a, w') -> query (w_store w) = Ok a /\ w' = w.
Proof. by intros [= -> ->]. Qed.

(** ** Runs *)

Section service_runs.
  Variable R : @World StreamStore -> @World StreamStore -> Prop.
  Context `{!PreOrder R}.

Class ServiceRuns {A} (m : Service A) : Prop := service_runs : forall w, R w (snd (m w)).
#[global] Instance service_runs_ret {A} (a : A) : ServiceRuns (mret a).
Proof. intros w. reflexivity. Qed.
#[global] Instance service_runs_attempt {A} (r : result CapabilityError A) : ServiceRuns (attempt r).
Proof. intros w. reflexivity. Qed.
#[global] Instance service_runs_refuse {A} e : ServiceRuns (@refuse A e).
Proof. intros w. reflexivity. Qed.
#[global] Instance service_runs_engine {A} failure (m : Handler A) : Runs R m -> ServiceRuns (on_engine failure m).
Proof. intros Hm w. specialize (Hm w). unfold on_engine. by destruct (m w) as [[]]. Qed.
#[global] Instance service_runs_bind {A B} (m : Service A) (k : A -> Service B) :
  ServiceRuns m -> (forall a, ServiceRuns (k a)) -> ServiceRuns (m ≫= k).
Proof.
  intros Hm Hk w. unfold mbind, service_bind. specialize (Hm w). destruct (m w) as [[a|e] w']; simpl in *.
  - transitivity w'; [done|]. apply Hk.
  - done.
Qed.
End service_runs.

Ltac run_service :=
  repeat first
    [ assumption
    | match goal with H : context [ServiceRuns _ _] |- _ => apply H end
    | apply service_runs_ret; assumption | apply service_runs_attempt; assumption
    | apply service_runs_refuse; assumption
    | apply service_runs_engine
    | apply service_runs_bind; [assumption| |intros ?]
    | match goal with
      | |- ServiceRuns _ (match ?x with _ => _ end) => destruct x
      end
    | progress cbv zeta ].
