(* ===== verification/Approval.v ===== *)
(** * The approval domain

    [domains/approval]: durable approval requests, decisions bound to the current version of
    a request, and the check that a later action relies on.  A request and a decision are
    resources whose payload is a serialized record ([types.rs]); [approval::decide] makes a
    new version of the request and records the decision for that version;
    [approval::check] answers with an outcome, and only one of the outcomes allows.

    The JSON text of instants and its parser, the RFC 3339 parser of the payload, and the
    texts of deserialization errors are parameters. *)

From stdpp Require Import base gmap strings list pretty.
From Stdlib Require Import ZArith Ascii String Lia.
From S2P Require Import Prelude Json Kernel Model Schema Streams Resources ResourceHistory BuiltinKinds Queue.
From S2P Require Import Failure ResourcePrimitive ResourceHandlers MaterializedFiles DomainService.
Import JsonNotations.

#[local] Open Scope Z_scope.

(** ** Records *)

(* SRC domains/approval/types.rs:34-42 ApprovalRequestState *)
Inductive ApprovalRequestState : Type :=
| Request_Pending | Request_Decided | Request_Expired | Request_Revoked.
#[global] Instance ApprovalRequestState_eq_dec : EqDecision ApprovalRequestState.
Proof. solve_decision. Defined.
(* SRC domains/approval/types.rs:69-76 ApprovalDecisionState *)
Inductive ApprovalDecisionState : Type := Decision_Approved | Decision_Denied | Decision_Revoked.
#[global] Instance ApprovalDecisionState_eq_dec : EqDecision ApprovalDecisionState.
Proof. solve_decision. Defined.
(* SRC domains/approval/types.rs:78-85 ApprovalIdempotency *)
Record ApprovalIdempotency := {
  ai_key : option string;
  ai_invocation_id : string;
  ai_function_id : string
}.
(* SRC domains/approval/types.rs:87-94 ApprovalRequestRevision *)
Record ApprovalRequestRevision := {
  rr_number : Z;
  rr_current_version_id : option string
}.
(* SRC domains/approval/types.rs:96-103 ApprovalDecisionRevision *)
Record ApprovalDecisionRevision := {
  dr_number : Z;
  dr_expected_request_version_id : string;
  dr_recorded_request_version_id : string
}.
(* SRC domains/approval/types.rs:12-32 ApprovalRequestRecord *)
Record ApprovalRequestRecord := {
  aq_schema_version : string;
  aq_state : ApprovalRequestState;
  aq_requester : Value;
  aq_action : Value;
  aq_scope : Value;
  aq_risk_class : string;
  aq_created_at : instant;
  aq_expires_at : instant;
  aq_freshness : Value;
  aq_evidence_refs : list Value;
  aq_resource_selectors : list Value;
  aq_trace_refs : list Value;
  aq_replay_refs : list Value;
  aq_denial_behavior : Value;
  aq_idempotency : ApprovalIdempotency;
  aq_revision : ApprovalRequestRevision
}.
(* SRC domains/approval/types.rs:44-67 ApprovalDecisionRecord *)
Record ApprovalDecisionRecord := {
  ad_schema_version : string;
  ad_request_resource_id : string;
  ad_request_version_id : string;
  ad_state : ApprovalDecisionState;
  ad_decision_actor : Value;
  ad_decided_at : instant;
  ad_expires_at : instant;
  ad_freshness_until : option instant;
  ad_action : Value;
  ad_scope : Value;
  ad_risk_class : string;
  ad_evidence_refs : list Value;
  ad_resource_selectors : list Value;
  ad_trace_refs : list Value;
  ad_replay_refs : list Value;
  ad_denial_behavior : Value;
  ad_idempotency : ApprovalIdempotency;
  ad_revision : ApprovalDecisionRevision
}.
(* SRC domains/approval/types.rs:105-114 ApprovalCheckRequirement *)
Record ApprovalCheckRequirement := {
  rq_request_resource_id : string;
  rq_decision_resource_id : option string;
  rq_action : Value;
  rq_scope : Value;
  rq_risk_class : string;
  rq_resource_selectors : list Value
}.
(* SRC domains/approval/types.rs:116-128 ApprovalCheckOutcome *)
Inductive ApprovalCheckOutcome : Type :=
| Check_Approved | Check_Denied | Check_Expired | Check_Pending | Check_Missing | Check_Malformed
| Check_Stale | Check_ScopeMismatch.
#[global] Instance ApprovalCheckOutcome_eq_dec : EqDecision ApprovalCheckOutcome.
Proof. solve_decision. Defined.
(* SRC domains/approval/types.rs:130-139 ApprovalCheckResult *)
Record ApprovalCheckResult := {
  cr_schema_version : string;
  cr_allowed : bool;
  cr_outcome : ApprovalCheckOutcome;
  cr_reason : string;
  cr_explanation : Value
}.
(* SRC domains/approval/types.rs:5-6 REQUEST_SCHEMA_VERSION *)
Definition REQUEST_SCHEMA_VERSION : string := "tron.approval_request.v1".
(* SRC domains/approval/types.rs:7-8 DECISION_SCHEMA_VERSION *)
Definition DECISION_SCHEMA_VERSION : string := "tron.approval_decision.v1".
(* SRC domains/approval/types.rs:9-10 CHECK_SCHEMA_VERSION *)
Definition CHECK_SCHEMA_VERSION : string := "tron.approval_check.v1".

(** The derived names of the variants. *)
Definition request_states : list (string * ApprovalRequestState) :=
  [("pending", Request_Pending); ("decided", Request_Decided); ("expired", Request_Expired);
   ("revoked", Request_Revoked)].
Definition request_state_str (s : ApprovalRequestState) : string :=
  match s with
  | Request_Pending => "pending" | Request_Decided => "decided" | Request_Expired => "expired"
  | Request_Revoked => "revoked"
  end.
Definition decision_states : list (string * ApprovalDecisionState) :=
  [("approved", Decision_Approved); ("denied", Decision_Denied); ("revoked", Decision_Revoked)].
(* SRC domains/approval/support.rs:30-36 ApprovalDecisionState::as_lifecycle *)
Definition as_lifecycle (s : ApprovalDecisionState) : string :=
  match s with Decision_Approved => "approved" | Decision_Denied => "denied" | Decision_Revoked => "revoked" end.
Definition outcome_str (o : ApprovalCheckOutcome) : string :=
  match o with
  | Check_Approved => "approved" | Check_Denied => "denied" | Check_Expired => "expired"
  | Check_Pending => "pending" | Check_Missing => "missing" | Check_Malformed => "malformed"
  | Check_Stale => "stale" | Check_ScopeMismatch => "scope_mismatch"
  end.

(** ** Errors and payloads *)

(* SRC domains/approval/errors.rs:4-8 invalid_params *)
Definition invalid_params {A} (message : string) : result CapabilityError A := Err (Cap_InvalidParams message).

(* SRC domains/approval/support.rs:223-237 optional_string *)
Definition approval_optional_string (payload : Value) (field : string) : result CapabilityError (option string) :=
  match vget payload field with
  | None => Ok None
  | Some v =>
      match as_str v with
      | Some s => if is_blank s then invalid_params (field +s " must be a non-empty string") else Ok (Some s)
      | None => invalid_params (field +s " must be a non-empty string")
      end
  end.
(* SRC domains/approval/support.rs:219-221 required_string *)
Definition approval_required_string (payload : Value) (field : string) : result CapabilityError string :=
  let? s := approval_optional_string payload field in
  ok_or s (Cap_InvalidParams (field +s " is required")).
(* SRC domains/approval/support.rs:251-265 optional_object *)
Definition approval_optional_object (payload : Value) (field : string) : result CapabilityError (option Value) :=
  match vget payload field with
  | None => Ok None
  | Some (VObject o) => Ok (Some (VObject o))
  | Some _ => invalid_params (field +s " must be an object")
  end.
(* SRC domains/approval/support.rs:239-249 required_object *)
Definition approval_required_object (payload : Value) (field : string) : result CapabilityError Value :=
  let? v := approval_optional_object payload field in
  let? v := ok_or v (Cap_InvalidParams (field +s " is required")) in
  match v with
  | VObject (_ :: _) => Ok v
  | _ => invalid_params (field +s " must be a non-empty object")
  end.
(* SRC domains/approval/support.rs:267-278 optional_array *)
Definition approval_optional_array (payload : Value) (field : string) : result CapabilityError (list Value) :=
  match vget payload field with
  | None => Ok []
  | Some v => ok_or (as_array v) (Cap_InvalidParams (field +s " must be an array"))
  end.
(* SRC domains/approval/support.rs:309-312 merge_arrays *)
Definition merge_arrays (left right : list Value) : list Value := left ++ right.
(* SRC domains/approval/support.rs:315-319! or_if_empty *)
Definition or_if_empty (own default_value : list Value) : list Value := if is_nil own then default_value else own.
(* SRC domains/approval/support.rs:18-27 decision_state *)
Definition decision_state (value : string) : result CapabilityError ApprovalDecisionState :=
  match obj_get decision_states value with
  | Some s => Ok s
  | None => invalid_params ("unsupported approval decision state " +s value)
  end.

(** ** Parts of the records *)

(* SRC domains/approval/support.rs:136-144 resource_scope *)
Definition approval_scope (i : Invocation) : EngineResourceScope :=
  match cx_session_id (inv_context i), cx_workspace_id (inv_context i) with
  | Some session, _ => ResScope_Session session
  | None, Some workspace => ResScope_Workspace workspace
  | None, None => ResScope_System
  end.
(* SRC domains/approval/support.rs:146-154 approval_policy *)
Definition approval_policy (kind : string) : Value :=
  j{"owner" ~> "approval"; "kind" ~> VString kind; "authority" ~> "approval.write";
    "approvalIsAuthority" ~> VBool false; "executionAuthoritySource" ~> "engine_authority_grant"}.
(* SRC domains/approval/support.rs:156-165 requester *)
Definition requester (i : Invocation) : Value :=
  let c := inv_context i in
  j{"actorKind" ~> VString (actor_kind_debug (cx_actor_kind c)); "actorId" ~> VString (cx_actor_id c);
    "functionId" ~> VString (inv_function_id i); "invocationId" ~> VString (inv_id i);
    "sessionId" ~> jstr (cx_session_id c); "workspaceId" ~> jstr (cx_workspace_id c)}.
(* SRC domains/approval/support.rs:167-173 idempotency *)
Definition approval_idempotency (i : Invocation) : ApprovalIdempotency :=
  {| ai_key := cx_idempotency_key (inv_context i); ai_invocation_id := inv_id i;
     ai_function_id := inv_function_id i |}.
(* SRC domains/approval/support.rs:175-182 with_trace_ref *)
Definition with_trace_ref (refs : list Value) (i : Invocation) : list Value :=
  refs ++ [j{"traceId" ~> VString (cx_trace_id (inv_context i)); "invocationId" ~> VString (inv_id i);
             "functionId" ~> VString (inv_function_id i)}].
(* SRC domains/approval/support.rs:184-191 with_replay_ref *)
Definition with_replay_ref (refs : list Value) (i : Invocation) : list Value :=
  refs ++ [j{"source" ~> "engine_invocation_ledger"; "invocationId" ~> VString (inv_id i);
             "traceId" ~> VString (cx_trace_id (inv_context i))}].
(* SRC domains/approval/support.rs:193-202 resource_ref *)
Definition approval_resource_ref (r : EngineResource) (label : string) : Value :=
  j{"role" ~> VString label; "kind" ~> VString (res_kind r); "resourceId" ~> VString (res_id r);
    "versionId" ~> jstr (res_current_version_id r); "schemaId" ~> VString (res_schema_id r);
    "lifecycle" ~> VString (res_lifecycle r)}.
(* SRC domains/approval/support.rs:204-217 version_ref *)
Definition approval_version_ref (r : EngineResource) (v : EngineResourceVersion) (label : string) : Value :=
  j{"role" ~> VString label; "kind" ~> VString (res_kind r); "resourceId" ~> VString (res_id r);
    "versionId" ~> VString (ver_id v); "schemaId" ~> VString (res_schema_id r);
    "lifecycle" ~> VString (res_lifecycle r)}.
(* SRC domains/approval/support.rs:92-99 current_payload *)
Definition approval_current_payload (found : EngineResourceInspection) : option (string * Value) :=
  (fun v => (ver_id v, ver_payload v)) <$> current_version found.

(* SRC domains/approval/support.rs:39-56 request_mismatch_reason *)
Definition request_mismatch_reason (request : ApprovalRequestRecord) (r : ApprovalCheckRequirement) : option string :=
  if negb (bool_decide (aq_action request = rq_action r)) then Some "approval_request_action_mismatch"
  else if negb (bool_decide (aq_scope request = rq_scope r)) then Some "approval_request_scope_mismatch"
  else if negb (aq_risk_class request =s rq_risk_class r) then Some "approval_request_risk_mismatch"
  else if negb (bool_decide (aq_resource_selectors request = rq_resource_selectors r))
  then Some "approval_request_resource_selector_mismatch" else None.
(* SRC domains/approval/support.rs:58-75 decision_mismatch_reason *)
Definition decision_mismatch_reason (decision : ApprovalDecisionRecord) (r : ApprovalCheckRequirement) : option string :=
  if negb (bool_decide (ad_action decision = rq_action r)) then Some "approval_decision_action_mismatch"
  else if negb (bool_decide (ad_scope decision = rq_scope r)) then Some "approval_decision_scope_mismatch"
  else if negb (ad_risk_class decision =s rq_risk_class r) then Some "approval_decision_risk_mismatch"
  else if negb (bool_decide (ad_resource_selectors decision = rq_resource_selectors r))
  then Some "approval_decision_resource_selector_mismatch" else None.
(* SRC domains/approval/support.rs:77-90 check_result *)
Definition check_result (outcome : ApprovalCheckOutcome) (reason : string) (explanation : Value) : ApprovalCheckResult :=
  {| cr_schema_version := CHECK_SCHEMA_VERSION; cr_allowed := bool_decide (outcome = Check_Approved);
     cr_outcome := outcome; cr_reason := reason; cr_explanation := explanation |}.

(** ** Schemas *)

Definition typed (name type : string) : string * Value := name ~> j{"type" ~> VString type}.
(* SRC domains/approval/contract.rs:109-129 request_schema *)
Definition approval_request_schema : Value :=
  j{"type" ~> "object";
    "required" ~> j["action"; "scope"; "riskClass"; "expiresAt"; "denialBehavior"];
    "additionalProperties" ~> VBool false;
    "properties" ~>
      jobj [typed "requestId" "string"; typed "requester" "object"; typed "action" "object";
            typed "scope" "object"; typed "riskClass" "string"; typed "expiresAt" "string";
            typed "freshness" "object"; typed "evidenceRefs" "array"; typed "resourceSelectors" "array";
            typed "traceRefs" "array"; typed "replayRefs" "array"; typed "denialBehavior" "object"] }.
(* SRC domains/approval/contract.rs:131-159 decide_schema *)
Definition decide_schema : Value :=
  j{"type" ~> "object";
    "required" ~> j["requestResourceId"; "expectedRequestVersionId"; "state"; "decisionActor"; "expiresAt"];
    "additionalProperties" ~> VBool false;
    "properties" ~>
      jobj [typed "requestResourceId" "string"; typed "expectedRequestVersionId" "string";
            "state" ~> j{"type" ~> "string"; "enum" ~> j["approved"; "denied"; "revoked"] };
            typed "decisionActor" "object"; typed "expiresAt" "string"; typed "freshnessUntil" "string";
            typed "action" "object"; typed "scope" "object"; typed "riskClass" "string";
            typed "evidenceRefs" "array"; typed "resourceSelectors" "array"; typed "traceRefs" "array";
            typed "replayRefs" "array"; typed "denialBehavior" "object"] }.
(* SRC domains/approval/contract.rs:161-175 check_schema *)
Definition check_schema : Value :=
  j{"type" ~> "object"; "required" ~> j["requestResourceId"; "action"; "scope"; "riskClass"];
    "additionalProperties" ~> VBool false;
    "properties" ~>
      jobj [typed "requestResourceId" "string"; typed "decisionResourceId" "string"; typed "action" "object";
            typed "scope" "object"; typed "riskClass" "string"; typed "resourceSelectors" "array"] }.
(* SRC domains/approval/contract.rs:177-191 request_response_schema *)
Definition request_response_schema : Value :=
  j{"type" ~> "object";
    "required" ~> j["schemaVersion"; "status"; "requestResourceId"; "requestVersionId"; "streamCursor";
                    "resourceRefs"];
    "additionalProperties" ~> VBool true;
    "properties" ~>
      jobj [typed "schemaVersion" "string"; typed "status" "string"; typed "requestResourceId" "string";
            typed "requestVersionId" "string"; typed "streamCursor" "integer"; typed "resourceRefs" "array"] }.
(* SRC domains/approval/contract.rs:193-209 decide_response_schema *)
Definition decide_response_schema : Value :=
  j{"type" ~> "object";
    "required" ~> j["schemaVersion"; "status"; "decisionResourceId"; "decisionVersionId"; "requestResourceId";
                    "requestVersionId"; "streamCursor"; "resourceRefs"];
    "additionalProperties" ~> VBool true;
    "properties" ~>
      jobj [typed "schemaVersion" "string"; typed "status" "string"; typed "decisionResourceId" "string";
            typed "decisionVersionId" "string"; typed "requestResourceId" "string";
            typed "requestVersionId" "string"; typed "streamCursor" "integer"; typed "resourceRefs" "array"] }.
(* SRC domains/approval/contract.rs:211-224 check_response_schema *)
Definition check_response_schema : Value :=
  j{"type" ~> "object"; "required" ~> j["schemaVersion"; "allowed"; "outcome"; "reason"; "explanation"];
    "additionalProperties" ~> VBool false;
    "properties" ~>
      jobj [typed "schemaVersion" "string"; typed "allowed" "boolean"; typed "outcome" "string";
            typed "reason" "string"; typed "explanation" "object"] }.

Section approval.
  Variable debug : string -> string.
  Variable json_len : Value -> Z.
  Variable rfc3339_error : string -> option string.
  Variable json_text : Value -> string.
  Variable sha256_hex : string -> string.
  (** The JSON text of an instant, the parser of such a text, and the parser of RFC 3339 texts with
      the text of its error. *)
  Variable json_instant : instant -> string.
  Variable read_instant : string -> option instant.
  Variable parse_rfc3339 : string -> result string instant.
  (** The texts of deserialization errors. *)
  Variable request_error decision_error : Value -> string.
  Variable uuid : nat -> string.
  Variable now : instant.
Notation create := (@store_create StreamStore debug json_len rfc3339_error json_text sha256_hex uuid now).
Notation update := (@store_update StreamStore debug json_len rfc3339_error json_text sha256_hex uuid now).
Notation link := (@store_link StreamStore debug uuid now).
Notation inspect := (@store_inspect StreamStore debug).

(* SRC domains/approval/errors.rs:10-16 engine_error *)
Definition approval_engine_error (e : EngineError) : CapabilityError :=
  Cap_Custom "APPROVAL_ENGINE" (error_to_string debug e) None.
Notation engine := (on_engine approval_engine_error).

(* SRC domains/approval/support.rs:280-286 required_datetime *)
Definition approval_required_datetime (payload : Value) (field : string) : result CapabilityError instant :=
  let? s := approval_required_string payload field in
  match parse_rfc3339 s with
  | Ok t => Ok t
  | Err e => invalid_params (field +s " must be RFC3339: " +s e)
  end.
(* SRC domains/approval/support.rs:288-298 optional_datetime *)
Definition approval_optional_datetime (payload : Value) (field : string) : result CapabilityError (option instant) :=
  let? s := approval_optional_string payload field in
  match s with
  | None => Ok None
  | Some s => match parse_rfc3339 s with
              | Ok t => Ok (Some t)
              | Err e => invalid_params (field +s " must be RFC3339: " +s e)
              end
  end.
(* SRC domains/approval/support.rs:101-106 freshness_stale_at *)
Definition freshness_stale_at (freshness : Value) : option instant :=
  match or_else (vget freshness "staleAt" ≫= as_str) (vget freshness "freshnessUntil" ≫= as_str) with
  | Some text => match parse_rfc3339 text with Ok t => Some t | Err _ => None end
  | None => None
  end.

(** ** Serialization *)

Definition idempotency_value (a : ApprovalIdempotency) : Value :=
  j{"key" ~> jstr (ai_key a); "invocationId" ~> VString (ai_invocation_id a);
    "functionId" ~> VString (ai_function_id a)}.
Definition request_revision_value (r : ApprovalRequestRevision) : Value :=
  match rr_current_version_id r with
  | Some v => j{"number" ~> jnum (rr_number r); "currentVersionId" ~> VString v}
  | None => j{"number" ~> jnum (rr_number r)}
  end.
Definition decision_revision_value (r : ApprovalDecisionRevision) : Value :=
  j{"number" ~> jnum (dr_number r);
    "expectedRequestVersionId" ~> VString (dr_expected_request_version_id r);
    "recordedRequestVersionId" ~> VString (dr_recorded_request_version_id r)}.
(* SRC domains/approval/types.rs:13-33! ApprovalRequestRecord *)
Definition approval_request_value (r : ApprovalRequestRecord) : Value :=
  j{"schemaVersion" ~> VString (aq_schema_version r); "state" ~> VString (request_state_str (aq_state r));
    "requester" ~> aq_requester r; "action" ~> aq_action r; "scope" ~> aq_scope r;
    "riskClass" ~> VString (aq_risk_class r); "createdAt" ~> VString (json_instant (aq_created_at r));
    "expiresAt" ~> VString (json_instant (aq_expires_at r)); "freshness" ~> aq_freshness r;
    "evidenceRefs" ~> VArray (aq_evidence_refs r);
    "resourceSelectors" ~> VArray (aq_resource_selectors r); "traceRefs" ~> VArray (aq_trace_refs r);
    "replayRefs" ~> VArray (aq_replay_refs r); "denialBehavior" ~> aq_denial_behavior r;
    "idempotency" ~> idempotency_value (aq_idempotency r);
    "revision" ~> request_revision_value (aq_revision r)}.
(* SRC domains/approval/types.rs:45-69! ApprovalDecisionRecord *)
Definition approval_decision_value (d : ApprovalDecisionRecord) : Value :=
  jobj (["schemaVersion" ~> VString (ad_schema_version d);
    "requestResourceId" ~> VString (ad_request_resource_id d);
    "requestVersionId" ~> VString (ad_request_version_id d); "state" ~> VString (as_lifecycle (ad_state d));
    "decisionActor" ~> ad_decision_actor d; "decidedAt" ~> VString (json_instant (ad_decided_at d));
    "expiresAt" ~> VString (json_instant (ad_expires_at d))]
   ++ match ad_freshness_until d with
      | Some t => ["freshnessUntil" ~> VString (json_instant t)]
      | None => []
      end ++
   ["action" ~> ad_action d; "scope" ~> ad_scope d; "riskClass" ~> VString (ad_risk_class d);
    "evidenceRefs" ~> VArray (ad_evidence_refs d);
    "resourceSelectors" ~> VArray (ad_resource_selectors d); "traceRefs" ~> VArray (ad_trace_refs d);
    "replayRefs" ~> VArray (ad_replay_refs d); "denialBehavior" ~> ad_denial_behavior d;
    "idempotency" ~> idempotency_value (ad_idempotency d);
    "revision" ~> decision_revision_value (ad_revision d)]).

Definition read_text_instant (v : Value) : option instant := as_str v ≫= read_instant.
Definition idempotency_of_value (v : Value) : option ApprovalIdempotency :=
  get ← record_fields ["key"; "invocationId"; "functionId"] v;
  key ← read_optional_field get "key" as_str;
  invocation_id ← read_field get "invocationId" as_str;
  function_id ← read_field get "functionId" as_str;
  Some {| ai_key := key; ai_invocation_id := invocation_id; ai_function_id := function_id |}.
Definition request_revision_of_value (v : Value) : option ApprovalRequestRevision :=
  get ← record_fields ["number"; "currentVersionId"] v;
  number ← read_field get "number" as_u64;
  current ← read_optional_field get "currentVersionId" as_str;
  Some {| rr_number := number; rr_current_version_id := current |}.
Definition decision_revision_of_value (v : Value) : option ApprovalDecisionRevision :=
  get ← record_fields ["number"; "expectedRequestVersionId"; "recordedRequestVersionId"] v;
  number ← read_field get "number" as_u64;
  expected ← read_field get "expectedRequestVersionId" as_str;
  recorded ← read_field get "recordedRequestVersionId" as_str;
  Some {| dr_number := number; dr_expected_request_version_id := expected;
          dr_recorded_request_version_id := recorded |}.
(* SRC domains/approval/types.rs:13-33! ApprovalRequestRecord *)
Definition approval_request_of_value (v : Value) : option ApprovalRequestRecord :=
  get ← record_fields
    ["schemaVersion"; "state"; "requester"; "action"; "scope"; "riskClass"; "createdAt"; "expiresAt";
     "freshness"; "evidenceRefs"; "resourceSelectors"; "traceRefs"; "replayRefs"; "denialBehavior";
     "idempotency"; "revision"] v;
  schema_version ← read_field get "schemaVersion" as_str;
  state ← read_field get "state" (read_variant request_states);
  requester ← read_field get "requester" Some;
  action ← read_field get "action" Some;
  scope ← read_field get "scope" Some;
  risk_class ← read_field get "riskClass" as_str;
  created_at ← read_field get "createdAt" read_text_instant;
  expires_at ← read_field get "expiresAt" read_text_instant;
  freshness ← read_field get "freshness" Some;
  evidence ← read_field get "evidenceRefs" as_array;
  selectors ← read_field get "resourceSelectors" as_array;
  traces ← read_field get "traceRefs" as_array;
  replays ← read_field get "replayRefs" as_array;
  denial ← read_field get "denialBehavior" Some;
  idempotency ← read_field get "idempotency" idempotency_of_value;
  revision ← read_field get "revision" request_revision_of_value;
  Some {| aq_schema_version := schema_version; aq_state := state; aq_requester := requester;
          aq_action := action; aq_scope := scope; aq_risk_class := risk_class;
          aq_created_at := created_at; aq_expires_at := expires_at; aq_freshness := freshness;
          aq_evidence_refs := evidence; aq_resource_selectors := selectors; aq_trace_refs := traces;
          aq_replay_refs := replays; aq_denial_behavior := denial; aq_idempotency := idempotency;
          aq_revision := revision |}.
(* SRC domains/approval/types.rs:45-69! ApprovalDecisionRecord *)
Definition approval_decision_of_value (v : Value) : option ApprovalDecisionRecord :=
  get ← record_fields
    ["schemaVersion"; "requestResourceId"; "requestVersionId"; "state"; "decisionActor"; "decidedAt";
     "expiresAt"; "freshnessUntil"; "action"; "scope"; "riskClass"; "evidenceRefs"; "resourceSelectors";
     "traceRefs"; "replayRefs"; "denialBehavior"; "idempotency"; "revision"] v;
  schema_version ← read_field get "schemaVersion" as_str;
  request_id ← read_field get "requestResourceId" as_str;
  request_version ← read_field get "requestVersionId" as_str;
  state ← read_field get "state" (read_variant decision_states);
  actor ← read_field get "decisionActor" Some;
  decided_at ← read_field get "decidedAt" read_text_instant;
  expires_at ← read_field get "expiresAt" read_text_instant;
  freshness_until ← read_optional_field get "freshnessUntil" read_text_instant;
  action ← read_field get "action" Some;
  scope ← read_field get "scope" Some;
  risk_class ← read_field get "riskClass" as_str;
  evidence ← read_field get "evidenceRefs" as_array;
  selectors ← read_field get "resourceSelectors" as_array;
  traces ← read_field get "traceRefs" as_array;
  replays ← read_field get "replayRefs" as_array;
  denial ← read_field get "denialBehavior" Some;
  idempotency ← read_field get "idempotency" idempotency_of_value;
  revision ← read_field get "revision" decision_revision_of_value;
  Some {| ad_schema_version := schema_version; ad_request_resource_id := request_id;
          ad_request_version_id := request_version; ad_state := state; ad_decision_actor := actor;
          ad_decided_at := decided_at; ad_expires_at := expires_at; ad_freshness_until := freshness_until;
          ad_action := action; ad_scope := scope; ad_risk_class := risk_class;
          ad_evidence_refs := evidence; ad_resource_selectors := selectors; ad_trace_refs := traces;
          ad_replay_refs := replays; ad_denial_behavior := denial; ad_idempotency := idempotency;
          ad_revision := revision |}.

(** ** Explanations *)

(* SRC domains/approval/explanation.rs:71-80 requirement_summary *)
Definition requirement_summary (r : ApprovalCheckRequirement) : Value :=
  j{"requestResourceId" ~> VString (rq_request_resource_id r);
    "decisionResourceId" ~> jstr (rq_decision_resource_id r); "action" ~> rq_action r;
    "scope" ~> rq_scope r; "riskClass" ~> VString (rq_risk_class r);
    "resourceSelectors" ~> VArray (rq_resource_selectors r)}.
Definition explained_request (found : EngineResourceInspection) (request : ApprovalRequestRecord)
    (version_id : string) : Value :=
  j{"resourceId" ~> VString (res_id (ri_resource found)); "versionId" ~> VString version_id;
    "state" ~> VString (request_state_str (aq_state request));
    "expiresAt" ~> VString (json_instant (aq_expires_at request)); "freshness" ~> aq_freshness request;
    "evidenceRefs" ~> VArray (aq_evidence_refs request);
    "resourceSelectors" ~> VArray (aq_resource_selectors request);
    "traceRefs" ~> VArray (aq_trace_refs request); "replayRefs" ~> VArray (aq_replay_refs request);
    "denialBehavior" ~> aq_denial_behavior request;
    "revision" ~> request_revision_value (aq_revision request)}.
(* SRC domains/approval/explanation.rs:7-29 request_explanation *)
Definition request_explanation (r : ApprovalCheckRequirement) (found : EngineResourceInspection)
    (request : ApprovalRequestRecord) (version_id : string) : Value :=
  j{"requirement" ~> requirement_summary r; "request" ~> explained_request found request version_id}.
(* SRC domains/approval/explanation.rs:31-69 decision_explanation *)
Definition decision_explanation (r : ApprovalCheckRequirement) (found : EngineResourceInspection)
    (request : ApprovalRequestRecord) (version_id : string) (decided : EngineResourceInspection)
    (decision : ApprovalDecisionRecord) (decision_version_id : string) : Value :=
  j{"requirement" ~> requirement_summary r; "request" ~> explained_request found request version_id;
    "decision" ~>
      j{"resourceId" ~> VString (res_id (ri_resource decided)); "versionId" ~> VString decision_version_id;
        "state" ~> VString (as_lifecycle (ad_state decision));
        "expiresAt" ~> VString (json_instant (ad_expires_at decision));
        "freshnessUntil" ~> jstr (json_instant <$> ad_freshness_until decision);
        "evidenceRefs" ~> VArray (ad_evidence_refs decision);
        "resourceSelectors" ~> VArray (ad_resource_selectors decision);
        "traceRefs" ~> VArray (ad_trace_refs decision); "replayRefs" ~> VArray (ad_replay_refs decision);
        "denialBehavior" ~> ad_denial_behavior decision;
        "revision" ~> decision_revision_value (ad_revision decision)} }.

(** ** Requests *)

(* SRC domains/approval/support.rs:108-134 publish_lifecycle_event *)
Definition publish_lifecycle_event (i : Invocation) (event_type : string) (payload : Value) : Service Z :=
  let c := inv_context i in
  engine (host_publish now
    {| pe_topic := "approval.lifecycle";
       pe_payload := j{"type" ~> VString event_type; "approvalIsAuthority" ~> VBool false;
                       "executionAuthoritySource" ~> "engine_authority_grant";
                       "authorityGrantId" ~> VString (cx_authority_grant_id c);
                       "actorId" ~> VString (cx_actor_id c); "payload" ~> payload};
       pe_visibility := Vis_System; pe_session_id := cx_session_id c; pe_workspace_id := cx_workspace_id c;
       pe_producer := "approval"; pe_trace_id := Some (cx_trace_id c);
       pe_parent_invocation_id := Some (inv_id i) |}).

(* SRC domains/approval/service.rs:29-49! request_approval_value *)
Definition requested_record (i : Invocation) (payload : Value) : result CapabilityError ApprovalRequestRecord :=
  let? own := approval_optional_object payload "requester" in
  let? action := approval_required_object payload "action" in
  let? scope := approval_required_object payload "scope" in
  let? risk_class := approval_required_string payload "riskClass" in
  let? expires_at := approval_required_datetime payload "expiresAt" in
  let? freshness := approval_optional_object payload "freshness" in
  let? evidence := approval_optional_array payload "evidenceRefs" in
  let? selectors := approval_optional_array payload "resourceSelectors" in
  let? traces := approval_optional_array payload "traceRefs" in
  let? replays := approval_optional_array payload "replayRefs" in
  let? denial := approval_required_object payload "denialBehavior" in
  Ok {| aq_schema_version := REQUEST_SCHEMA_VERSION; aq_state := Request_Pending;
        aq_requester := default (requester i) own; aq_action := action; aq_scope := scope;
        aq_risk_class := risk_class; aq_created_at := now; aq_expires_at := expires_at;
        aq_freshness := default (j{}) freshness; aq_evidence_refs := evidence;
        aq_resource_selectors := selectors; aq_trace_refs := with_trace_ref traces i;
        aq_replay_refs := with_replay_ref replays i; aq_denial_behavior := denial;
        aq_idempotency := approval_idempotency i;
        aq_revision := {| rr_number := 1; rr_current_version_id := None |} |}.
(* SRC domains/approval/service.rs:58-71! request_approval_value *)
Definition approval_resource (i : Invocation) (id kind schema_id lifecycle label : string) (payload : Value) :
    CreateResource :=
  {| nr_resource_id := Some id; nr_kind := kind; nr_schema_id := Some schema_id; nr_scope := approval_scope i;
     nr_owner_worker_id := "approval"; nr_owner_actor_id := cx_actor_id (inv_context i);
     nr_lifecycle := Some lifecycle; nr_policy := approval_policy label; nr_initial_payload := Some payload;
     nr_locations := []; nr_trace_id := cx_trace_id (inv_context i); nr_invocation_id := Some (inv_id i) |}.
(* SRC domains/approval/service.rs:22-105 request_approval_value *)
Definition request_approval_value (i : Invocation) (payload : Value) : Service Value :=
  request ← attempt (requested_record i payload);
  if is_blank (aq_risk_class request) then refuse (Cap_InvalidParams "riskClass must not be empty")
  else
  own_id ← attempt (approval_optional_string payload "requestId");
  let id := default (APPROVAL_REQUEST_KIND +s ":" +s inv_id i) own_id in
  resource ← engine (create (approval_resource i id APPROVAL_REQUEST_KIND APPROVAL_REQUEST_SCHEMA_ID "pending"
    "request" (approval_request_value request)));
  version_id ← attempt (ok_or (res_current_version_id resource)
    (Cap_InvalidParams "approval request resource was created without an initial version"));
  cursor ← publish_lifecycle_event i "approval.requested"
    (j{"requestResourceId" ~> VString (res_id resource); "requestVersionId" ~> VString version_id;
       "state" ~> "pending"; "riskClass" ~> VString (aq_risk_class request); "action" ~> aq_action request;
       "scope" ~> aq_scope request; "resourceSelectors" ~> VArray (aq_resource_selectors request);
       "evidenceRefs" ~> VArray (aq_evidence_refs request); "traceRefs" ~> VArray (aq_trace_refs request);
       "replayRefs" ~> VArray (aq_replay_refs request); "denialBehavior" ~> aq_denial_behavior request});
  mret (j{"schemaVersion" ~> VString REQUEST_SCHEMA_VERSION; "status" ~> "pending";
          "requestResourceId" ~> VString (res_id resource); "requestVersionId" ~> VString version_id;
          "streamCursor" ~> jnum cursor;
          "resourceRefs" ~> j[approval_resource_ref resource "approval_request"] }).

(** ** Decisions *)

(* SRC domains/approval/service.rs:137-139! decide_approval_value *)
Definition decided_request (request : ApprovalRequestRecord) (expected : string) : ApprovalRequestRecord :=
  {| aq_schema_version := aq_schema_version request; aq_state := Request_Decided;
     aq_requester := aq_requester request; aq_action := aq_action request; aq_scope := aq_scope request;
     aq_risk_class := aq_risk_class request; aq_created_at := aq_created_at request;
     aq_expires_at := aq_expires_at request; aq_freshness := aq_freshness request;
     aq_evidence_refs := aq_evidence_refs request; aq_resource_selectors := aq_resource_selectors request;
     aq_trace_refs := aq_trace_refs request; aq_replay_refs := aq_replay_refs request;
     aq_denial_behavior := aq_denial_behavior request; aq_idempotency := aq_idempotency request;
     aq_revision := {| rr_number := Z.min (rr_number (aq_revision request) + 1) u64_max;
                       rr_current_version_id := Some expected |} |}.
(* SRC domains/approval/service.rs:154-196! decide_approval_value *)
Definition decided_record (i : Invocation) (payload : Value) (request_id expected recorded : string)
    (state : ApprovalDecisionState) (request : ApprovalRequestRecord) :
    result CapabilityError ApprovalDecisionRecord :=
  let? actor := approval_required_object payload "decisionActor" in
  let? expires_at := approval_required_datetime payload "expiresAt" in
  let? freshness_until := approval_optional_datetime payload "freshnessUntil" in
  let? action := approval_optional_object payload "action" in
  let? scope := approval_optional_object payload "scope" in
  let? risk_class := approval_optional_string payload "riskClass" in
  let? evidence := approval_optional_array payload "evidenceRefs" in
  let? selectors := approval_optional_array payload "resourceSelectors" in
  let? traces := approval_optional_array payload "traceRefs" in
  let? replays := approval_optional_array payload "replayRefs" in
  let? denial := approval_optional_object payload "denialBehavior" in
  Ok {| ad_schema_version := DECISION_SCHEMA_VERSION; ad_request_resource_id := request_id;
        ad_request_version_id := recorded; ad_state := state; ad_decision_actor := actor; ad_decided_at := now;
        ad_expires_at := expires_at; ad_freshness_until := freshness_until;
        ad_action := default (aq_action request) action; ad_scope := default (aq_scope request) scope;
        ad_risk_class := default (aq_risk_class request) risk_class;
        ad_evidence_refs := merge_arrays (aq_evidence_refs request) evidence;
        ad_resource_selectors := or_if_empty selectors (aq_resource_selectors request);
        ad_trace_refs := with_trace_ref (merge_arrays (aq_trace_refs request) traces) i;
        ad_replay_refs := with_replay_ref (merge_arrays (aq_replay_refs request) replays) i;
        ad_denial_behavior := default (aq_denial_behavior request) denial;
        ad_idempotency := approval_idempotency i;
        ad_revision := {| dr_number := 1; dr_expected_request_version_id := expected;
                          dr_recorded_request_version_id := recorded |} |}.
(* SRC domains/approval/service.rs:141-150! decide_approval_value *)
Definition decided_update (i : Invocation) (request_id expected : string) (request : ApprovalRequestRecord) :
    UpdateResource :=
  {| up_resource_id := request_id; up_expected_current_version_id := Some expected;
     up_lifecycle := Some "decided"; up_payload := approval_request_value request; up_state := None;
     up_locations := []; up_trace_id := cx_trace_id (inv_context i); up_invocation_id := Some (inv_id i) |}.
(* SRC domains/approval/service.rs:197-214! decide_approval_value *)
Definition decision_resource (i : Invocation) (decision : ApprovalDecisionRecord) : CreateResource :=
  approval_resource i (APPROVAL_DECISION_KIND +s ":" +s inv_id i) APPROVAL_DECISION_KIND
    APPROVAL_DECISION_SCHEMA_ID (as_lifecycle (ad_state decision)) "decision" (approval_decision_value decision).
(* SRC domains/approval/service.rs:224-234! decide_approval_value *)
Definition decision_link (i : Invocation) (resource_id : string) (decision : ApprovalDecisionRecord) :
    LinkResources :=
  {| li_source_resource_id := resource_id; li_target_resource_id := ad_request_resource_id decision;
     li_relation := "decision_for";
     li_metadata := j{"state" ~> VString (as_lifecycle (ad_state decision));
                      "requestVersionId" ~> VString (ad_request_version_id decision)};
     li_trace_id := cx_trace_id (inv_context i); li_invocation_id := Some (inv_id i) |}.
(* SRC domains/approval/service.rs:237-241! decide_approval_value *)
Definition decision_event (state : ApprovalDecisionState) : string :=
  match state with
  | Decision_Approved => "approval.decided" | Decision_Denied => "approval.denied"
  | Decision_Revoked => "approval.revoked"
  end.
(** The request a decision is about: its resource, of the right kind and at the expected version,
    and its record. *)
(* SRC domains/approval/service.rs:116-136! decide_approval_value *)
Definition request_to_decide (request_id expected : string) :
    Service (EngineResource * ApprovalRequestRecord) :=
  found ← engine (inspect request_id);
  found ← attempt (ok_or found (Cap_InvalidParams ("approval request " +s request_id +s " missing")));
  if negb (res_kind (ri_resource found) =s APPROVAL_REQUEST_KIND)
  then refuse (Cap_InvalidParams ("resource " +s request_id +s " is not an approval request"))
  else
  current ← attempt (ok_or (approval_current_payload found)
    (Cap_InvalidParams "approval request has no current payload"));
  if negb (current.1 =s expected)
  then refuse (Cap_InvalidParams ("approval request revision conflict: expected " +s expected +s ", actual "
                                  +s current.1))
  else
  request ← attempt (ok_or (approval_request_of_value current.2)
    (Cap_InvalidParams ("malformed approval request payload: " +s request_error current.2)));
  mret (ri_resource found, request).
(* SRC domains/approval/service.rs:107-277 decide_approval_value *)
Definition decide_approval_value (i : Invocation) (payload : Value) : Service Value :=
  request_id ← attempt (approval_required_string payload "requestResourceId");
  expected ← attempt (approval_required_string payload "expectedRequestVersionId");
  state ← attempt (approval_required_string payload "state");
  state ← attempt (decision_state state);
  found ← request_to_decide request_id expected;
  let request := decided_request found.2 expected in
  version ← engine (update (decided_update i request_id expected request));
  decision ← attempt (decided_record i payload request_id expected (ver_id version) state request);
  let lifecycle := as_lifecycle state in
  resource ← engine (create (decision_resource i decision));
  decision_version_id ← attempt (ok_or (res_current_version_id resource)
    (Cap_InvalidParams "approval decision resource was created without an initial version"));
  _ ← engine (link (decision_link i (res_id resource) decision));
  cursor ← publish_lifecycle_event i (decision_event state)
    (j{"requestResourceId" ~> VString request_id; "requestVersionId" ~> VString (ver_id version);
       "decisionResourceId" ~> VString (res_id resource);
       "decisionVersionId" ~> VString decision_version_id; "state" ~> VString lifecycle;
       "riskClass" ~> VString (ad_risk_class decision); "action" ~> ad_action decision;
       "scope" ~> ad_scope decision; "resourceSelectors" ~> VArray (ad_resource_selectors decision);
       "evidenceRefs" ~> VArray (ad_evidence_refs decision); "traceRefs" ~> VArray (ad_trace_refs decision);
       "replayRefs" ~> VArray (ad_replay_refs decision); "denialBehavior" ~> ad_denial_behavior decision});
  mret (j{"schemaVersion" ~> VString DECISION_SCHEMA_VERSION; "status" ~> VString lifecycle;
          "decisionResourceId" ~> VString (res_id resource);
          "decisionVersionId" ~> VString decision_version_id;
          "requestResourceId" ~> VString request_id; "requestVersionId" ~> VString (ver_id version);
          "streamCursor" ~> jnum cursor;
          "resourceRefs" ~> j[approval_version_ref found.1 version "approval_request";
                              approval_resource_ref resource "approval_decision"] }).

(** ** Checks *)

(** Whether there is a limit and it lies before the instant. *)
Definition passed (limit : option instant) (at_ : instant) : bool :=
  match limit with Some t => t <? at_ | None => false end.

(** The part of a check that concerns the decision, once the request is current and matches. *)
(* SRC domains/approval/service.rs:407-594! check_approval_at *)
Definition check_decision (r : ApprovalCheckRequirement) (at_ : instant) (found : EngineResourceInspection)
    (request : ApprovalRequestRecord) (version_id decision_id : string) : Service ApprovalCheckResult :=
  let explained := request_explanation r found request version_id in
  decided ← engine (inspect decision_id);
  match decided with
  | None => mret (check_result Check_Missing "approval_decision_missing" explained)
  | Some decided =>
    if negb (res_kind (ri_resource decided) =s APPROVAL_DECISION_KIND)
    then mret (check_result Check_Malformed "approval_decision_wrong_kind"
      (j{"request" ~> explained; "decisionResourceId" ~> VString decision_id;
         "kind" ~> VString (res_kind (ri_resource decided))}))
    else
    match approval_current_payload decided with
    | None => mret (check_result Check_Malformed "approval_decision_missing_payload" explained)
    | Some (decision_version_id, decision_payload) =>
      match approval_decision_of_value decision_payload with
      | None => mret (check_result Check_Malformed "approval_decision_malformed"
          (j{"request" ~> explained; "decisionResourceId" ~> VString decision_id;
             "decisionVersionId" ~> VString decision_version_id;
             "error" ~> VString (decision_error decision_payload)}))
      | Some decision =>
        let explained := decision_explanation r found request version_id decided decision decision_version_id in
        if negb (ad_request_resource_id decision =s rq_request_resource_id r)
        then mret (check_result Check_ScopeMismatch "approval_decision_request_mismatch" explained)
        else if negb (version_id =s ad_request_version_id decision)
        then mret (check_result Check_Stale "approval_decision_not_bound_to_current_request_revision" explained)
        else if ad_expires_at decision <? at_
        then mret (check_result Check_Expired "approval_decision_expired" explained)
        else if passed (ad_freshness_until decision) at_
        then mret (check_result Check_Stale "approval_decision_freshness_stale" explained)
        else match decision_mismatch_reason decision r with
        | Some reason => mret (check_result Check_ScopeMismatch reason explained)
        | None =>
          match ad_state decision with
          | Decision_Approved => mret (check_result Check_Approved "approval_decision_approved" explained)
          | Decision_Denied => mret (check_result Check_Denied "approval_decision_denied" explained)
          | Decision_Revoked => mret (check_result Check_Denied "approval_decision_revoked" explained)
          end
        end
      end
    end
  end.
(* SRC domains/approval/service.rs:299-406! check_approval_at *)
Definition check_approval_at (r : ApprovalCheckRequirement) (at_ : instant) : Service ApprovalCheckResult :=
  found ← engine (inspect (rq_request_resource_id r));
  match found with
  | None => mret (check_result Check_Missing "approval_request_missing" (j{"requirement" ~> requirement_summary r}))
  | Some found =>
    if negb (res_kind (ri_resource found) =s APPROVAL_REQUEST_KIND)
    then mret (check_result Check_Malformed "approval_request_wrong_kind"
      (j{"requestResourceId" ~> VString (rq_request_resource_id r);
         "kind" ~> VString (res_kind (ri_resource found))}))
    else
    match approval_current_payload found with
    | None => mret (check_result Check_Malformed "approval_request_missing_payload"
        (j{"requestResourceId" ~> VString (rq_request_resource_id r)}))
    | Some (version_id, payload) =>
      match approval_request_of_value payload with
      | None => mret (check_result Check_Malformed "approval_request_malformed"
          (j{"requestResourceId" ~> VString (rq_request_resource_id r);
             "requestVersionId" ~> VString version_id; "error" ~> VString (request_error payload)}))
      | Some request =>
        let explained := request_explanation r found request version_id in
        if aq_expires_at request <? at_
        then mret (check_result Check_Expired "approval_request_expired" explained)
        else if passed (freshness_stale_at (aq_freshness request)) at_
        then mret (check_result Check_Stale "approval_request_stale" explained)
        else match request_mismatch_reason request r with
        | Some reason => mret (check_result Check_ScopeMismatch reason explained)
        | None =>
          match rq_decision_resource_id r with
          | None =>
              if bool_decide (aq_state request = Request_Pending)
              then mret (check_result Check_Pending "approval_decision_pending" explained)
              else mret (check_result Check_Missing "approval_decision_missing" explained)
          | Some decision_id => check_decision r at_ found request version_id decision_id
          end
        end
      end
    end
  end.
(* SRC domains/approval/service.rs:284-291! check_approval_value *)
Definition requirement_of (payload : Value) : result CapabilityError ApprovalCheckRequirement :=
  let? request_id := approval_required_string payload "requestResourceId" in
  let? decision_id := approval_optional_string payload "decisionResourceId" in
  let? action := approval_required_object payload "action" in
  let? scope := approval_required_object payload "scope" in
  let? risk_class := approval_required_string payload "riskClass" in
  let? selectors := approval_optional_array payload "resourceSelectors" in
  Ok {| rq_request_resource_id := request_id; rq_decision_resource_id := decision_id; rq_action := action;
        rq_scope := scope; rq_risk_class := risk_class; rq_resource_selectors := selectors |}.
(* SRC domains/approval/types.rs:131-139! ApprovalCheckResult *)
Definition check_result_value (r : ApprovalCheckResult) : Value :=
  j{"schemaVersion" ~> VString (cr_schema_version r); "allowed" ~> VBool (cr_allowed r);
    "outcome" ~> VString (outcome_str (cr_outcome r)); "reason" ~> VString (cr_reason r);
    "explanation" ~> cr_explanation r}.
(* SRC domains/approval/service.rs:279-296 check_approval_value *)
Definition check_approval_value (payload : Value) : Service Value :=
  r ← attempt (requirement_of payload);
  result ← check_approval_at r now;
  mret (check_result_value result).

(* SRC domains/approval/handlers.rs:9-35! operation_bindings *)
Definition approval_handlers (i : Invocation) : list (string * Service Value) :=
  [("request", request_approval_value i (inv_payload i));
   ("decide", decide_approval_value i (inv_payload i));
   ("check", check_approval_value (inv_payload i))].

(** ** What a passing check means *)

(** The record in the current version of a resource of a kind. *)
Definition recorded {A} (of_value : Value -> option A) (kind : string) (s : ResourceMemory)
    (id version_id : string) (record : A) : Prop :=
  exists found payload, memory_inspect debug id s = Ok (Some found) /\ res_kind (ri_resource found) = kind /\
    approval_current_payload found = Some (version_id, payload) /\ of_value payload = Some record.
Definition recorded_request : ResourceMemory -> string -> string -> ApprovalRequestRecord -> Prop :=
  recorded approval_request_of_value APPROVAL_REQUEST_KIND.
Definition recorded_decision : ResourceMemory -> string -> string -> ApprovalDecisionRecord -> Prop :=
  recorded approval_decision_of_value APPROVAL_DECISION_KIND.

(** An approved decision that is recorded for the current version of the request, both of them in
    time, fresh, and about the same action, scope, risk and resources as the requirement. *)
Definition approval_holds (s : ResourceMemory) (at_ : instant) (r : ApprovalCheckRequirement) : Prop :=
  exists version_id request decision_id decision_version_id decision,
    recorded_request s (rq_request_resource_id r) version_id request /\
    at_ <= aq_expires_at request /\
    (forall t, freshness_stale_at (aq_freshness request) = Some t -> at_ <= t) /\
    aq_action request = rq_action r /\ aq_scope request = rq_scope r /\
    aq_risk_class request = rq_risk_class r /\ aq_resource_selectors request = rq_resource_selectors r /\
    rq_decision_resource_id r = Some decision_id /\
    recorded_decision s decision_id decision_version_id decision /\
    ad_request_resource_id decision = rq_request_resource_id r /\
    ad_request_version_id decision = version_id /\ ad_state decision = Decision_Approved /\
    at_ <= ad_expires_at decision /\
    (forall t, ad_freshness_until decision = Some t -> at_ <= t) /\
    ad_action decision = rq_action r /\ ad_scope decision = rq_scope r /\
    ad_risk_class decision = rq_risk_class r /\ ad_resource_selectors decision = rq_resource_selectors r.

Lemma request_matches request r : request_mismatch_reason request r = None <->
  aq_action request = rq_action r /\ aq_scope request = rq_scope r /\
  aq_risk_class request = rq_risk_class r /\ aq_resource_selectors request = rq_resource_selectors r.
Proof.
  unfold request_mismatch_reason. rewrite <- (String.eqb_eq (aq_risk_class request)).
  repeat case_bool_decide; destruct (aq_risk_class request =s rq_risk_class r); naive_solver.
Qed.
Lemma decision_matches decision r : decision_mismatch_reason decision r = None <->
  ad_action decision = rq_action r /\ ad_scope decision = rq_scope r /\
  ad_risk_class decision = rq_risk_class r /\ ad_resource_selectors decision = rq_resource_selectors r.
Proof.
  unfold decision_mismatch_reason. rewrite <- (String.eqb_eq (ad_risk_class decision)).
  repeat case_bool_decide; destruct (ad_risk_class decision =s rq_risk_class r); naive_solver.
Qed.
(** A limit, where there is one, has not passed. *)
Lemma in_time (limit : option instant) (at_ : instant) :
  passed limit at_ = false <-> forall t, limit = Some t -> at_ <= t.
Proof.
  unfold passed. destruct limit as [t|]; [|naive_solver]. rewrite Z.ltb_ge. split; [by intros ? ? [= <-]|auto].
Qed.

Lemma checks_read_only r at_ w : snd (check_approval_at r at_ w) = w.
Proof.
  unfold check_approval_at, check_decision, on_engine, store_inspect, ask, mret, service_ret, mbind, service_bind.
  repeat case_match; simplify_eq/=; auto.
Qed.

Lemma allowed_is_approved outcome reason explanation :
  cr_allowed (check_result outcome reason explanation) = true -> outcome = Check_Approved.
Proof. by intros ?%bool_decide_eq_true. Qed.
Ltac refused Hr Hok :=
  exfalso; unfold mret, service_ret in Hr; injection Hr as <-; apply allowed_is_approved in Hok; discriminate.
Lemma check_decision_iff r at_ found request version_id decision_id w :
  (exists result, check_decision r at_ found request version_id decision_id w = (Ok result, w) /\
     cr_allowed result = true) <->
  exists decision_version_id decision, recorded_decision (w_store w) decision_id decision_version_id decision /\
    ad_request_resource_id decision = rq_request_resource_id r /\
    ad_request_version_id decision = version_id /\ ad_state decision = Decision_Approved /\
    at_ <= ad_expires_at decision /\
    (forall t, ad_freshness_until decision = Some t -> at_ <= t) /\
    ad_action decision = rq_action r /\ ad_scope decision = rq_scope r /\
    ad_risk_class decision = rq_risk_class r /\ ad_resource_selectors decision = rq_resource_selectors r.
Proof.
  unfold check_decision, on_engine, store_inspect, ask, mbind, service_bind. split.
  - intros (result & Hr & Hok).
    destruct (memory_inspect debug decision_id (w_store w)) as [[decided|]|e] eqn:Hf; [|refused Hr Hok|done].
    destruct (_ =s _) eqn:Hk in Hr; [|refused Hr Hok]. apply String.eqb_eq in Hk. simpl in Hr.
    destruct (approval_current_payload decided) as [[v payload]|] eqn:Hp; [|refused Hr Hok].
    destruct (approval_decision_of_value payload) as [d|] eqn:Hd; [|refused Hr Hok].
    destruct (ad_request_resource_id d =s _) eqn:Hid; [|refused Hr Hok]. apply String.eqb_eq in Hid. simpl in Hr.
    destruct (version_id =s _) eqn:Hv; [|refused Hr Hok]. apply String.eqb_eq in Hv. simpl in Hr.
    destruct (ad_expires_at d <? at_) eqn:He; [refused Hr Hok|]. apply Z.ltb_ge in He.
    destruct (passed (ad_freshness_until d) at_) eqn:Hu;
      [refused Hr Hok|]. rewrite in_time in Hu.
    destruct (decision_mismatch_reason d r) eqn:Hm; [refused Hr Hok|]. apply decision_matches in Hm as (? & ? & ? & ?).
    destruct (ad_state d) eqn:Hst; [|refused Hr Hok|refused Hr Hok].
    exists v, d. split_and!; try done. by exists decided, payload.
  - intros (v & d & (decided & payload & Hf & Hk & Hp & Hd) & Hid & Hv & Hst & He & Hu & Hm).
    rewrite Hf. cbn. rewrite Hk, String.eqb_refl. cbn. rewrite Hp, Hd, Hid, String.eqb_refl. cbn.
    rewrite Hv, String.eqb_refl. cbn. apply Z.ltb_ge in He. rewrite He. rewrite (proj2 (in_time _ _) Hu).
    apply decision_matches in Hm. rewrite Hm, Hst. by eexists.
Qed.

(** A check fails closed: it allows exactly when an approval holds. *)
Theorem check_passes_iff_approval_holds r at_ w :
  (exists result, check_approval_at r at_ w = (Ok result, w) /\ cr_allowed result = true) <->
  approval_holds (w_store w) at_ r.
Proof.
  unfold check_approval_at, approval_holds. split.
  - intros (result & Hr & Hok). unfold on_engine, store_inspect, ask, mbind, service_bind in Hr.
    destruct (memory_inspect debug _ (w_store w)) as [[found|]|e] eqn:Hf; [|refused Hr Hok|done].
    destruct (_ =s _) eqn:Hk in Hr; [|refused Hr Hok]. apply String.eqb_eq in Hk. simpl in Hr.
    destruct (approval_current_payload found) as [[v payload]|] eqn:Hp; [|refused Hr Hok].
    destruct (approval_request_of_value payload) as [q|] eqn:Hq; [|refused Hr Hok].
    destruct (aq_expires_at q <? at_) eqn:He; [refused Hr Hok|]. apply Z.ltb_ge in He.
    destruct (passed (freshness_stale_at (aq_freshness q)) at_) eqn:Hu;
      [refused Hr Hok|]. rewrite in_time in Hu.
    destruct (request_mismatch_reason q r) eqn:Hm; [refused Hr Hok|]. apply request_matches in Hm as (? & ? & ? & ?).
    destruct (rq_decision_resource_id r) as [id|]; [|case_bool_decide; refused Hr Hok].
    destruct (proj1 (check_decision_iff r at_ found q v id w)) as (dv & d & Hd); [by exists result|].
    exists v, q, id, dv, d. split; [by exists found, payload|]. naive_solver.
  - intros (v & q & id & dv & d & (found & payload & Hf & Hk & Hp & Hq) & He & Hu & ? & ? & ? & ? & Hid & Hd).
    unfold on_engine, store_inspect, ask, mbind, service_bind.
    rewrite Hf. cbn. rewrite Hk, String.eqb_refl. cbn. rewrite Hp, Hq. apply Z.ltb_ge in He. rewrite He.
    rewrite (proj2 (in_time _ _) Hu). rewrite (proj2 (request_matches q r)) by done. rewrite Hid.
    apply check_decision_iff. by exists dv, d.
Qed.

(** ** Runs of the store *)

Hypothesis Huuid : Inj (=) (=) uuid.
Notation step := (resource_step debug json_len rfc3339_error json_text sha256_hex).
Notation reachable := (resource_reachable debug json_len rfc3339_error json_text sha256_hex).
Notation stepping := (stepping (D:=StreamStore) debug json_len rfc3339_error json_text sha256_hex uuid).

Lemma host_publish_ok event (w : @World StreamStore) cursor w' :
  host_publish now event w = (Ok cursor, w') -> w_store w' = w_store w.
Proof. unfold host_publish. destruct (stream_publish now event (w_disk w)) as [[]|]; [by intros [= _ <-]|done]. Qed.
Lemma publish_steps event : Runs stepping (host_publish now event).
Proof.
  intros w Hf. unfold host_publish. by destruct (stream_publish now event (w_disk w)) as [[]|].
Qed.

(** Every call is a run of the resource store, whether it ends well or not. *)
Lemma approval_steps i name service w : In (name, service) (approval_handlers i) -> undrawn_fresh uuid w ->
  rtc step (w_store w) (w_store (snd (service w))) /\ undrawn_fresh uuid (snd (service w)).
Proof.
  pose proof (create_steps (D:=StreamStore) debug json_len rfc3339_error json_text sha256_hex uuid now Huuid) as Hc.
  pose proof (update_steps (D:=StreamStore) debug json_len rfc3339_error json_text sha256_hex uuid now Huuid) as Hu.
  pose proof (link_steps (D:=StreamStore) debug json_len rfc3339_error json_text sha256_hex uuid now Huuid) as Hl.
  pose proof (stepping_preorder (D:=StreamStore) debug json_len rfc3339_error json_text sha256_hex uuid) as Hp.
  assert (forall id, Runs stepping (inspect id)) as Hi by by intros id v Hf.
  assert (forall r at_, ServiceRuns stepping (check_approval_at r at_)) as Hk.
  { intros r at_ v. rewrite checks_read_only. reflexivity. }
  pose proof publish_steps as Hpub.
  intros Hin. enough (ServiceRuns stepping service) as Hm by apply (Hm w).
  destruct Hin as [[= _ <-]|[[= _ <-]|[[= _ <-]|[]]]].
  - unfold request_approval_value, publish_lifecycle_event. run_service; auto.
  - unfold decide_approval_value, request_to_decide, publish_lifecycle_event. run_service; auto.
  - unfold check_approval_value. run_service; auto.
Qed.

(** ** Decisions *)

Lemma request_to_decide_ok request_id expected w r request w' :
  request_to_decide request_id expected w = (Ok (r, request), w') ->
  recorded_request (w_store w) request_id expected request /\ w' = w.
Proof.
  unfold request_to_decide. intros H.
  apply service_bind_ok in H as (found & ? & [Hf ->]%on_engine_ok%ask_ok & H).
  apply service_bind_ok in H as (found' & ? & [Hf' ->]%attempt_ok & H).
  destruct found as [found|]; [|done]. injection Hf' as <-.
  destruct (_ =s _) eqn:Hk in H; [|done]. apply String.eqb_eq in Hk. simpl in H.
  apply service_bind_ok in H as (current & ? & [Hc ->]%attempt_ok & H).
  destruct (approval_current_payload found) as [[v payload]|] eqn:Hp; [|done]. injection Hc as <-.
  simpl in H. destruct (v =s expected) eqn:Hv; [|done]. apply String.eqb_eq in Hv as ->. simpl in H.
  apply service_bind_ok in H as (q & ? & [Hq ->]%attempt_ok & H). injection H as <- <- <-. split; [|done].
  destruct (approval_request_of_value payload) as [q'|] eqn:Hq'; [|done]. injection Hq as ->.
  by exists found, payload.
Qed.

(** What a decision does: a new version of the request, a decision resource, and a link. *)
Lemma decide_ok i payload w answer w1 :
  decide_approval_value i payload w = (Ok answer, w1) ->
  exists request_id expected state request version wu decision resource wc k wl,
    approval_required_string payload "requestResourceId" = Ok request_id /\
    (exists text, approval_required_string payload "state" = Ok text /\ decision_state text = Ok state) /\
    recorded_request (w_store w) request_id expected request /\
    update (decided_update i request_id expected (decided_request request expected)) w = (Ok version, wu) /\
    decided_record i payload request_id expected (ver_id version) state (decided_request request expected) =
      Ok decision /\
    create (decision_resource i decision) wu = (Ok resource, wc) /\
    link (decision_link i (res_id resource) decision) wc = (Ok k, wl) /\ w_store w1 = w_store wl /\
    vget answer "decisionResourceId" = Some (VString (res_id resource)).
Proof.
  unfold decide_approval_value. intros H.
  apply service_bind_ok in H as (request_id & ? & [Hid ->]%attempt_ok & H).
  apply service_bind_ok in H as (expected & ? & [_ ->]%attempt_ok & H).
  apply service_bind_ok in H as (text & ? & [Ht ->]%attempt_ok & H).
  apply service_bind_ok in H as (state & ? & [Hst ->]%attempt_ok & H).
  apply service_bind_ok in H as ([r request] & ? & [Hq ->]%request_to_decide_ok & H).
  apply service_bind_ok in H as (version & wu & Hu%on_engine_ok & H).
  apply service_bind_ok in H as (decision & ? & [Hd ->]%attempt_ok & H).
  apply service_bind_ok in H as (resource & wc & Hc%on_engine_ok & H).
  apply service_bind_ok in H as (dv & ? & [_ ->]%attempt_ok & H).
  apply service_bind_ok in H as (k & wl & Hl%on_engine_ok & H).
  apply service_bind_ok in H as (cursor & wp & Hp%on_engine_ok%host_publish_ok & H).
  injection H as <- <-.
  exists request_id, expected, state, request, version, wu, decision, resource, wc, k, wl.
  split_and!; try done. by exists text.
Qed.

Lemma decided_steps u c l w version wu resource wc k wl :
  undrawn_fresh uuid w -> update u w = (Ok version, wu) -> create c wu = (Ok resource, wc) ->
  link l wc = (Ok k, wl) -> rtc step (w_store w) (w_store wu) /\ rtc step (w_store wu) (w_store wl).
Proof.
  intros Hf Hu Hc Hl.
  pose proof (update_steps (D:=StreamStore) debug json_len rfc3339_error json_text sha256_hex uuid now Huuid u w Hf)
    as [Hsu Hfu]. rewrite Hu in Hsu, Hfu.
  pose proof (create_steps (D:=StreamStore) debug json_len rfc3339_error json_text sha256_hex uuid now Huuid c wu Hfu)
    as [Hsc Hfc]. rewrite Hc in Hsc, Hfc.
  pose proof (link_steps (D:=StreamStore) debug json_len rfc3339_error json_text sha256_hex uuid now Huuid l wc Hfc)
    as [Hsl _]. rewrite Hl in Hsl. split; [done|by etrans].
Qed.
Lemma recorded_current {A} (of_value : Value -> option A) kind s id version_id record :
  recorded of_value kind s id version_id record ->
  exists r, rm_resources s !! id = Some r /\ res_current_version_id r = Some version_id.
Proof.
  intros (found & payload & (Hr & _)%inspect_some & _ & Hp & _). exists (ri_resource found). split; [done|].
  unfold approval_current_payload, current_version in Hp.
  destruct (res_current_version_id (ri_resource found)) as [k|]; [|done]. simpl in Hp.
  destruct (List.find _ _) as [v|] eqn:Hf; [|done]. apply List.find_some in Hf as [_ Hf].
  apply String.eqb_eq in Hf. injection Hp as <- _. by rewrite Hf.
Qed.

(** C18: After a successful approval::decide on a request, whatever happens later in the
    resource store, a check of that request passes only on a decision that is recorded for a
    version of the request made by this call or later: no decision about an earlier version,
    approved or not, passes again. *)
Theorem decision_ends_earlier_approvals i payload w answer w1 w2 r at_ result :
  reachable (w_store w) -> undrawn_fresh uuid w ->
  decide_approval_value i payload w = (Ok answer, w1) ->
  approval_required_string payload "requestResourceId" = Ok (rq_request_resource_id r) ->
  rtc step (w_store w1) (w_store w2) ->
  check_approval_at r at_ w2 = (Ok result, w2) -> cr_allowed result = true ->
  exists decision_id version_id decision,
    rq_decision_resource_id r = Some decision_id /\
    recorded_decision (w_store w2) decision_id version_id decision /\
    rm_versions (w_store w) !! ad_request_version_id decision = None.
Proof.
  intros Hr Hf Hd Hid Hsteps Hc Hok.
  destruct (proj1 (check_passes_iff_approval_holds r at_ w2)) as
    (version_id & request & decision_id & dv & decision & Hq & _ & _ & _ & _ & _ & _ & Hdid & Hrec & _ & Hv & _).
  { by exists result. }
  exists decision_id, dv, decision. split_and!; [done..|].
  apply decide_ok in Hd as (id & expected & state & q & version & wu & d & resource & wc & k & wl & Hid' & _ & _ & Hu
    & _ & Hcr & Hl & Hst & _).
  rewrite Hid in Hid'. injection Hid' as <-.
  destruct (decided_steps _ _ _ _ _ _ _ _ _ _ Hf Hu Hcr Hl) as [_ Hs1]. rewrite <- Hst in Hs1.
  apply store_update_ok in Hu as [Hu _]. apply recorded_current in Hq as (r2 & Hr2 & Hcur).
  destruct (update_replaces_current debug json_len rfc3339_error json_text sha256_hex (w_store w) (w_store wu)
    (w_store w2) now (fun n => uuid (w_drawn w + n)%nat)
    (decided_update i (rq_request_resource_id r) expected (decided_request q expected)) version r2)
    as (k' & Hk & Hnew).
  - by eapply resource_reachable_wf.
  - intros n. apply Hf. lia.
  - done.
  - done.
  - by etrans.
  - done.
  - rewrite Hv. congruence.
Qed.

(** ** Round trips *)

Hypothesis read_back : forall t, read_instant (json_instant t) = Some t.

Lemma idempotency_read_back a : idempotency_of_value (idempotency_value a) = Some a.
Proof. by destruct a as [[key|] ? ?]. Qed.
Lemma read_number n : 0 <= n -> as_u64 (jnum n) = Some n.
Proof. intros H. unfold jnum. by destruct (Z.ltb_spec n 0); [lia|]. Qed.
Lemma request_revision_read_back r :
  0 <= rr_number r -> request_revision_of_value (request_revision_value r) = Some r.
Proof.
  intros H%read_number. destruct r as [n current]. cbn [rr_number] in H. revert H.
  unfold request_revision_value. cbn [rr_number rr_current_version_id]. generalize (jnum n) as v. intros v H.
  destruct current; cbv -[as_u64]; by rewrite H.
Qed.
Lemma decision_revision_read_back r :
  0 <= dr_number r -> decision_revision_of_value (decision_revision_value r) = Some r.
Proof.
  intros H%read_number. destruct r as [n ? ?]. cbn [dr_number] in H. revert H.
  unfold decision_revision_value. cbn [dr_number]. generalize (jnum n) as v. intros v H.
  cbv -[as_u64]; by rewrite H.
Qed.
Lemma request_read_back q :
  0 <= rr_number (aq_revision q) -> approval_request_of_value (approval_request_value q) = Some q.
Proof.
  intros H%request_revision_read_back. pose proof (idempotency_read_back (aq_idempotency q)) as Hi. revert H Hi.
  unfold approval_request_value.
  generalize (request_revision_value (aq_revision q)) as rv, (idempotency_value (aq_idempotency q)) as iv.
  intros rv iv Hr Hi. destruct q as [? st]; simpl in Hr, Hi. destruct st;
    cbv -[idempotency_of_value request_revision_of_value]; by rewrite !read_back, Hi, Hr.
Qed.
Lemma decision_read_back d :
  0 <= dr_number (ad_revision d) -> approval_decision_of_value (approval_decision_value d) = Some d.
Proof.
  intros H%decision_revision_read_back. pose proof (idempotency_read_back (ad_idempotency d)) as Hi. revert H Hi.
  unfold approval_decision_value.
  generalize (decision_revision_value (ad_revision d)) as rv, (idempotency_value (ad_idempotency d)) as iv.
  intros rv iv Hr Hi. destruct d as [? ? ? st ? ? ? [until|]]; simpl in Hr, Hi; destruct st;
    cbv -[idempotency_of_value decision_revision_of_value]; by rewrite !read_back, Hi, Hr.
Qed.

(** ** An approved request passes *)

Lemma recorded_stored {A} (of_value : Value -> option A) s id r v record :
  resources_wf json_text sha256_hex s -> validate_token debug "resource id" id = Ok tt ->
  rm_resources s !! id = Some r -> res_current_version_id r = Some (ver_id v) ->
  rm_versions s !! ver_id v = Some v -> ver_resource_id v = id -> of_value (ver_payload v) = Some record ->
  recorded of_value (res_kind r) s id (ver_id v) record.
Proof.
  intros Hwf Ht Hr Hcur Hv Hid Hrec. destruct (inspect_stored debug id s r Ht Hr) as (found & Hf & <- & Hvs).
  exists found, (ver_payload v). split_and!; try done.
  unfold approval_current_payload. destruct (current_stored json_text sha256_hex s id found v) as [-> _]; done.
Qed.
Lemma recorded_unique {A} (of_value : Value -> option A) kind s id v1 v2 record1 record2 :
  recorded of_value kind s id v1 record1 -> recorded of_value kind s id v2 record2 -> v1 = v2 /\ record1 = record2.
Proof.
  intros (f1 & p1 & Hf1 & _ & Hp1 & H1) (f2 & p2 & Hf2 & _ & Hp2 & H2). rewrite Hf1 in Hf2. injection Hf2 as <-.
  rewrite Hp1 in Hp2. injection Hp2 as <- <-. rewrite H1 in H2. by injection H2 as <-.
Qed.

Lemma created_id ids c s r s' :
  memory_create debug json_len rfc3339_error json_text sha256_hex now ids c s = Ok (r, s') ->
  forall id, nr_resource_id c = Some id -> res_id r = id /\ validate_token debug "resource id" id = Ok tt.
Proof.
  unfold memory_create, validate_create_request. intros [Hv H]%seq_ok id Hid. rewrite Hid in Hv, H.
  apply seq_ok in Hv as [_ Hv]. apply seq_ok in Hv as [Ht _]. split; [|exact Ht].
  destruct (memory_require_type _ _ s) as [d|]; [|done]. simpl in H.
  destruct (creation_defaults c d) as [[lifecycle schema]|]; [|done]. simpl in H.
  apply seq_ok in H as [_ H]. destruct (rm_resources s !! _); [done|]. simpl in H.
  destruct (nr_initial_payload c) as [payload|]; [|by injection H as <- _].
  destruct (memory_append_version _ _ _ _ _ _ _) as [[v s1]|]; [|done]. by injection H as <- _.
Qed.

Lemma decided_record_ok i payload id expected version state q d :
  decided_record i payload id expected version state q = Ok d ->
  ad_request_resource_id d = id /\ ad_request_version_id d = version /\ ad_state d = state /\
  dr_number (ad_revision d) = 1 /\
  approval_required_datetime payload "expiresAt" = Ok (ad_expires_at d) /\
  approval_optional_datetime payload "freshnessUntil" = Ok (ad_freshness_until d) /\
  (exists own, approval_optional_object payload "action" = Ok own /\ ad_action d = default (aq_action q) own) /\
  (exists own, approval_optional_object payload "scope" = Ok own /\ ad_scope d = default (aq_scope q) own) /\
  (exists own, approval_optional_string payload "riskClass" = Ok own /\
     ad_risk_class d = default (aq_risk_class q) own) /\
  (exists own, approval_optional_array payload "resourceSelectors" = Ok own /\
     ad_resource_selectors d = or_if_empty own (aq_resource_selectors q)).
Proof.
  unfold decided_record. intros H.
  repeat match type of H with match ?x with Ok _ => _ | Err _ => _ end = _ => destruct x eqn:?; [|done] end.
  injection H as <-. cbn [ad_request_resource_id ad_request_version_id ad_state ad_revision dr_number ad_expires_at
    ad_freshness_until ad_action ad_scope ad_risk_class ad_resource_selectors]. split_and!; eauto.
Qed.

(** The state of a request and its decision after a decision. *)
Lemma decide_records i payload w answer w1 :
  reachable (w_store w) -> undrawn_fresh uuid w -> decide_approval_value i payload w = (Ok answer, w1) ->
  exists request_id expected state request recorded_id decision decision_id version_id,
    approval_required_string payload "requestResourceId" = Ok request_id /\
    (exists text, approval_required_string payload "state" = Ok text /\ decision_state text = Ok state) /\
    recorded_request (w_store w) request_id expected request /\
    decided_record i payload request_id expected recorded_id state (decided_request request expected) =
      Ok decision /\
    vget answer "decisionResourceId" = Some (VString decision_id) /\
    (0 <= rr_number (aq_revision request) ->
     recorded_request (w_store w1) request_id recorded_id (decided_request request expected)) /\
    recorded_decision (w_store w1) decision_id version_id decision.
Proof.
  intros Hr Hf Hd.
  apply decide_ok in Hd as (id & expected & state & q & version & wu & d & resource & wc & k & wl & Hid & Hst & Hq
    & Hu & Hdec & Hc & Hl & Hw1 & Hans).
  destruct (decided_steps _ _ _ _ _ _ _ _ _ _ Hf Hu Hc Hl) as [Hs1 Hs2]. rewrite <- Hw1 in Hs2.
  assert (reachable (w_store wu)) as Hru by (unfold resource_reachable in *; by etrans).
  assert (reachable (w_store w1)) as Hr1 by (unfold resource_reachable in *; by etrans).
  apply resource_reachable_wf in Hru as Hwfu. apply resource_reachable_wf in Hr1 as Hwf.
  destruct (steps_effect _ _ _ _ _ _ _ Hwfu Hs2) as [(Hsub & _) _].
  apply store_create_ok in Hc as [Hc _]. destruct (created_id _ _ _ _ _ Hc _ eq_refl) as [Hrid Htoken].
  apply create_ok in Hc as (dt & lifecycle & schema & _ & Hnew & _ & Hc). cbn [nr_initial_payload decision_resource approval_resource] in Hc.
  destruct Hc as (_ & Hres & Hsc). apply store_update_ok in Hu as [Hu _].
  apply update_ok in Hu as (r & dq & Hr' & _ & _ & _ & Hver & Hsu).
  unfold store_link in Hl. apply on_store_ok in Hl as [Hl _]. apply link_ok in Hl as (_ & _ & _ & Hsl).
  set (v0 := version_of _ _ _ _ _ _) in Hsc, Hres.
  assert (rm_resources (w_store w1) = rm_resources (w_store wc)) as Hres1 by (rewrite Hw1, Hsl; done).
  assert (rm_versions (w_store w1) = rm_versions (w_store wc)) as Hver1 by (rewrite Hw1, Hsl; done).
  exists id, expected, state, q, (ver_id version), d, (res_id resource), (ver_id v0).
  split_and!; try done.
  - intros Hn. destruct Hq as (found & ? & (Hfound & _ & Hidt)%inspect_some & Hk & _).
    change (rm_resources (w_store w) !! id = Some r) in Hr'. rewrite Hr' in Hfound. injection Hfound as ->.
    assert (res_id (ri_resource found) = id) as Hfid.
    { apply resource_reachable_wf in Hr as Hwf0. by destruct (wf_resource _ _ _ Hwf0 _ _ Hr'). }
    unfold recorded_request. rewrite <- Hk.
    apply (recorded_stored approval_request_of_value (w_store w1) id
             (advance now version (Some "decided") (ri_resource found)) version); try done.
    + rewrite Hres1, Hsc. simpl. rewrite Hsu in Hnew |- *. simpl in Hnew |- *. rewrite Hfid in *.
      apply lookup_insert_None in Hnew as [_ Hne]. rewrite Hres. simpl.
      by rewrite !lookup_insert_ne, lookup_insert_eq by congruence.
    + by rewrite Hver.
    + eapply lookup_weaken; [|exact Hsub]. rewrite Hsu. simpl. apply lookup_insert_eq.
    + by rewrite Hver.
    + rewrite Hver. simpl. apply request_read_back. simpl. unfold u64_max. lia.
  - unfold recorded_decision. replace APPROVAL_DECISION_KIND with (res_kind resource) by by rewrite Hres.
    apply (recorded_stored approval_decision_of_value (w_store w1) (res_id resource) resource v0); try done.
    + by rewrite Hrid.
    + rewrite Hres1, Hsc. simpl. apply lookup_insert_eq.
    + by rewrite Hres.
    + rewrite Hver1, Hsc. simpl. apply lookup_insert_eq.
    + simpl. apply decision_read_back.
      by apply decided_record_ok in Hdec as (_ & _ & _ & -> & _).
Qed.

(** C19: After a successful approval::decide with the state approved and no overrides, the
    check of the same action, scope, risk and resources with the decision that the answer
    names passes, for as long as neither the request nor the decision has expired or gone
    stale. *)
Theorem approved_request_passes_the_check i payload w answer w1 expected request expires until r at_ decision_id :
  reachable (w_store w) -> undrawn_fresh uuid w ->
  decide_approval_value i payload w = (Ok answer, w1) ->
  approval_required_string payload "requestResourceId" = Ok (rq_request_resource_id r) ->
  approval_required_string payload "state" = Ok "approved" ->
  (forall f, In f ["action"; "scope"; "riskClass"; "resourceSelectors"] -> vget payload f = None) ->
  approval_required_datetime payload "expiresAt" = Ok expires -> at_ <= expires ->
  approval_optional_datetime payload "freshnessUntil" = Ok until -> passed until at_ = false ->
  recorded_request (w_store w) (rq_request_resource_id r) expected request ->
  0 <= rr_number (aq_revision request) ->
  at_ <= aq_expires_at request -> passed (freshness_stale_at (aq_freshness request)) at_ = false ->
  request_mismatch_reason request r = None ->
  vget answer "decisionResourceId" = Some (VString decision_id) -> rq_decision_resource_id r = Some decision_id ->
  exists result, check_approval_at r at_ w1 = (Ok result, w1) /\ cr_allowed result = true.
Proof.
  intros Hr Hf Hd Hid Hst Hown Hexp Hle Huntil Hpass Hreq Hn Hqexp Hstale Hm Hans Hdid.
  apply decide_records in Hd as (id & expected' & state & q & recorded_id & d & did & dv & Hid' & (text & Ht & Hstate)
    & Hq & Hdec & Hans' & Hq1 & Hd1); [|done..].
  rewrite Hid in Hid'. injection Hid' as <-. rewrite Hans in Hans'. injection Hans' as <-.
  rewrite Hst in Ht. injection Ht as <-. injection Hstate as <-.
  destruct (recorded_unique _ _ _ _ _ _ _ _ Hreq Hq) as [<- <-].
  apply decided_record_ok in Hdec as (E1 & E2 & E3 & _ & E4 & E5 & (? & Ha & E6) & (? & Hs & E7) & (? & Hrc & E8)
    & (? & Hsel & E9)).
  rewrite Hexp in E4. injection E4 as E4. rewrite Huntil in E5. injection E5 as E5.
  unfold approval_optional_object, approval_optional_string, approval_optional_array in Ha, Hs, Hrc, Hsel.
  rewrite Hown in Ha, Hs, Hrc, Hsel by (simpl; auto). simplify_eq.
  apply request_matches in Hm as (M1 & M2 & M3 & M4). rewrite in_time in Hpass, Hstale.
  apply check_passes_iff_approval_holds.
  exists (ad_request_version_id d), (decided_request request expected), decision_id, dv, d.
  split_and!; simpl in *; try done; try congruence; auto. by rewrite E9.

Qed.
End approval.

(** ** Concrete runs *)

(** Instants are written in unary and read back. *)
Fixpoint marks (n : nat) : string := match n with O => "" | S n => String "1"%char (marks n) end.
Definition clock_text (t : instant) : string := if t <? 0 then "-" +s marks (Z.to_nat (- t)) else marks (Z.to_nat t).
Definition clock_read (s : string) : option instant :=
  match s with
  | String "-"%char s => Some (- Z.of_nat (String.length s))
  | s => Some (Z.of_nat (String.length s))
  end.
Lemma marks_length n : String.length (marks n) = n.
Proof. induction n; simpl; congruence. Qed.
Lemma clock_read_back t : clock_read (clock_text t) = Some t.
Proof.
  unfold clock_text, clock_read. destruct (Z.ltb_spec t 0) as [H|H].
  - change (Some (- Z.of_nat (String.length (marks (Z.to_nat (- t))))) = Some t). rewrite marks_length. f_equal. lia.
  - rewrite <- (Z2Nat.id t H) at 2. destruct (Z.to_nat t) as [|n]; [done|].
    change (Some (Z.of_nat (S (String.length (marks n)))) = Some (Z.of_nat (S n))). by rewrite marks_length.
Qed.
Definition clock_parse (s : string) : result string instant :=
  match clock_read s with Some t => Ok t | None => Err "invalid" end.

Notation demo_decide now := (decide_approval_value plain (fun _ => 500) (fun _ => None) text_of hash_of clock_text
  clock_read clock_parse (fun _ => "error") draw now) (only parsing).
Notation demo_request now := (request_approval_value plain (fun _ => 500) (fun _ => None) text_of hash_of clock_text
  clock_parse draw now) (only parsing).
Notation demo_check := (check_approval_at plain clock_text clock_read clock_parse (fun _ => "error")
  (fun _ => "error")) (only parsing).

Definition approval_world0 : @World StreamStore :=
  {| w_store := fold_left (fun s t => after_op s (memory_register_type plain 1 t s))
       [approval_request_type; approval_decision_type] resource_memory_new;
     w_disk := stream_store_new; w_drawn := 0 |}.
Definition approval_call (id function_id : string) (payload : Value) : Invocation :=
  new_sync id function_id payload demo_context.
Definition deploy : Value := j{"tool" ~> "deploy"}.
Definition ask_payload : Value :=
  j{"requestId" ~> "q1"; "action" ~> deploy; "scope" ~> deploy; "riskClass" ~> "high";
    "expiresAt" ~> "111111111"; "denialBehavior" ~> j{"onDenied" ~> "stop"} }.
Definition decide_payload (version state : string) : Value :=
  j{"requestResourceId" ~> "q1"; "expectedRequestVersionId" ~> VString version; "state" ~> VString state;
    "decisionActor" ~> j{"actorId" ~> "user"}; "expiresAt" ~> "11111111"}.
Definition approval_world1 : @World StreamStore := snd (demo_request 1 (approval_call "a" "approval::request" ask_payload) ask_payload approval_world0).
Definition approve_run : result CapabilityError Value * @World StreamStore :=
  demo_decide 2 (approval_call "b" "approval::decide" (decide_payload "ver_2" "approved"))
    (decide_payload "ver_2" "approved") approval_world1.
Definition approval_world2 : @World StreamStore := snd approve_run.
Definition deploy_requirement (decision : string) : ApprovalCheckRequirement :=
  {| rq_request_resource_id := "q1"; rq_decision_resource_id := Some decision; rq_action := deploy;
     rq_scope := deploy; rq_risk_class := "high"; rq_resource_selectors := [] |}.
Definition answer_or {A} (a : A) (r : result CapabilityError A) : A := match r with Ok a => a | Err _ => a end.

Lemma approval_world1_ok :
  resource_reachable plain (fun _ => 500) (fun _ => None) text_of hash_of (w_store approval_world1) /\
  undrawn_fresh draw approval_world1.
Proof.
  destruct (approval_steps plain (fun _ => 500) (fun _ => None) text_of hash_of clock_text clock_read clock_parse
    (fun _ => "error") (fun _ => "error") draw 1 draw_inj (approval_call "a" "approval::request" ask_payload) "request"
    (demo_request 1 (approval_call "a" "approval::request" ask_payload) ask_payload) approval_world0) as [Hs Hf].
  { by left. }
  { intros n _. split; vm_compute; reflexivity. }
  split; [|exact Hf].
  eapply rtc_l; [eapply (step_register _ _ _ _ _ 1 approval_request_type); vm_compute; reflexivity|].
  eapply rtc_l; [eapply (step_register _ _ _ _ _ 1 approval_decision_type); vm_compute; reflexivity|].
  exact Hs.
Qed.
Lemma approve_answers : approve_run = (Ok (answer_or Null (fst approve_run)), approval_world2).
Proof. vm_compute. reflexivity. Qed.
Lemma approve_world2_check :
  demo_check (deploy_requirement "approval_decision:b") 3 approval_world2 =
    (Ok (answer_or (check_result Check_Missing "" Null)
           (fst (demo_check (deploy_requirement "approval_decision:b") 3 approval_world2))), approval_world2).
Proof. vm_compute. reflexivity. Qed.

Lemma decision_ends_earlier_approvals_witness :
  exists decision_id version_id decision,
    rq_decision_resource_id (deploy_requirement "approval_decision:b") = Some decision_id /\
    recorded_decision plain clock_read (w_store approval_world2) decision_id version_id decision /\
    rm_versions (w_store approval_world1) !! ad_request_version_id decision = None.
Proof.
  refine (decision_ends_earlier_approvals plain (fun _ => 500) (fun _ => None) text_of hash_of clock_text clock_read
    clock_parse (fun _ => "error") (fun _ => "error") draw 2 draw_inj _ _ approval_world1 _ approval_world2
    approval_world2 (deploy_requirement "approval_decision:b") 3 _ (proj1 approval_world1_ok) (proj2 approval_world1_ok)
    approve_answers _ (rtc_refl _ _) approve_world2_check _); vm_compute; reflexivity.
Defined.

Definition first_request : ApprovalRequestRecord :=
  {| aq_schema_version := REQUEST_SCHEMA_VERSION; aq_state := Request_Pending;
     aq_requester := requester (approval_call "a" "approval::request" ask_payload); aq_action := deploy;
     aq_scope := deploy; aq_risk_class := "high"; aq_created_at := 1; aq_expires_at := 9; aq_freshness := j{};
     aq_evidence_refs := []; aq_resource_selectors := [];
     aq_trace_refs := with_trace_ref [] (approval_call "a" "approval::request" ask_payload);
     aq_replay_refs := with_replay_ref [] (approval_call "a" "approval::request" ask_payload);
     aq_denial_behavior := j{"onDenied" ~> "stop"};
     aq_idempotency := approval_idempotency (approval_call "a" "approval::request" ask_payload);
     aq_revision := {| rr_number := 1; rr_current_version_id := None |} |}.
Lemma approved_request_passes_the_check_witness :
  exists result, demo_check (deploy_requirement "approval_decision:b") 3 approval_world2 = (Ok result, approval_world2) /\
    cr_allowed result = true.
Proof.
  refine (approved_request_passes_the_check plain (fun _ => 500) (fun _ => None) text_of hash_of clock_text clock_read
    clock_parse (fun _ => "error") (fun _ => "error") draw 2 draw_inj clock_read_back _ _ approval_world1 _ approval_world2
    "ver_2" first_request 8 None (deploy_requirement "approval_decision:b") 3 "approval_decision:b"
    (proj1 approval_world1_ok) (proj2 approval_world1_ok) approve_answers _ _ _ _ _ _ _ _ _ _ _ _ _ _).
  all: try (vm_compute; reflexivity).
  - intros f Hin. repeat destruct Hin as [<-|Hin]; try reflexivity. destruct Hin.
  - vm_compute. discriminate.
  - do 2 eexists. split; [vm_compute; reflexivity|]. split; [reflexivity|]. split; vm_compute; reflexivity.
  - vm_compute. discriminate.
  - vm_compute. discriminate.
Defined.

(** A decision with an empty actor conforms to the schema of the request and is refused after the request has
    its new version: the approval that held is stale from then on, although nothing was decided. *)
Theorem refused_decision_ends_the_approval :
  let payload := j{"requestResourceId" ~> "q1"; "expectedRequestVersionId" ~> "ver_4"; "state" ~> "approved";
                   "decisionActor" ~> j{}; "expiresAt" ~> "11111111"} in
  let run := demo_decide 3 (approval_call "c" "approval::decide" payload) payload approval_world2 in
  let outcome w := match fst (demo_check (deploy_requirement "approval_decision:b") 3 w) with
                   | Ok r => Some (cr_outcome r) | Err _ => None end in
  validate_payload plain "approval::decide" "request" decide_schema payload = Ok tt /\
  fst run = Err (Cap_InvalidParams "decisionActor must be a non-empty object") /\
  rm_resources (w_store (snd run)) !! "approval_decision:c" = None /\
  outcome approval_world2 = Some Check_Approved /\ outcome (snd run) = Some Check_Stale.
Proof. split_and!; vm_compute; reflexivity. Qed.
