(* ===== verification/WorkerProtocol.v ===== *)
(** * WorkerProtocol

    The messages between the engine and a local external worker
    ([engine/runtime/worker_protocol.rs]) and the checks of scoped tokens,
    capability metadata, namespaces and stream topics
    ([engine/runtime/external_workers/validation.rs]).

    The parsing of an RFC 3339 text is a parameter. *)

From stdpp Require Import base strings list gmap.
From Stdlib Require Import ZArith Ascii String Lia.
From S2P Require Import Prelude Json Kernel Model Grants PolicyHash.
Import JsonNotations.

#[local] Open Scope Z_scope.

(** ** Messages *)

(* SRC engine/runtime/worker_protocol.rs:26-27 WORKER_PROTOCOL_VERSION *)
Definition WORKER_PROTOCOL_VERSION : Z := 1.
(* SRC engine/runtime/worker_protocol.rs:55-67 WorkerIdentity *)
Record WorkerIdentity := {
  wi_worker_id : WorkerId;
  wi_worker_name : string;
  wi_worker_version : option string;
  wi_sandboxed : bool
}.
(* SRC engine/runtime/worker_protocol.rs:70-79 WorkerIdentity::from_worker *)
Definition identity_from_worker (w : WorkerDefinition) : WorkerIdentity :=
  {| wi_worker_id := wk_id w; wi_worker_name := wk_id w; wi_worker_version := None;
     wi_sandboxed := false |}.
(* SRC engine/runtime/worker_protocol.rs:82-90 WorkerAuthPolicy *)
Inductive WorkerAuthPolicy := LoopbackBearer | SandboxToken.
(* SRC engine/runtime/worker_protocol.rs:98-106 WorkerRegistrationMode *)
Inductive WorkerRegistrationMode := Volatile | Durable.
(* SRC engine/runtime/worker_protocol.rs:114-124 WorkerVisibility *)
Inductive WorkerVisibility := WorkerVis_Session | WorkerVis_Workspace | WorkerVis_System.
(* SRC engine/runtime/worker_protocol.rs:205-215 WorkerHealth *)
Inductive WorkerHealth := WorkerHealth_Healthy | WorkerHealth_Unhealthy | WorkerHealth_Disconnected.
#[global] Instance WorkerAuthPolicy_eq_dec : EqDecision WorkerAuthPolicy.
Proof. solve_decision. Defined.
#[global] Instance WorkerRegistrationMode_eq_dec : EqDecision WorkerRegistrationMode.
Proof. solve_decision. Defined.
#[global] Instance WorkerVisibility_eq_dec : EqDecision WorkerVisibility.
Proof. solve_decision. Defined.
#[global] Instance WorkerHealth_eq_dec : EqDecision WorkerHealth.
Proof. solve_decision. Defined.

(* SRC engine/runtime/worker_protocol.rs:133-141 WorkerVisibility::as_visibility_scope *)
Definition as_visibility_scope (v : WorkerVisibility) : VisibilityScope :=
  match v with
  | WorkerVis_Session => Vis_Session
  | WorkerVis_Workspace => Vis_Workspace
  | WorkerVis_System => Vis_System
  end.
Definition worker_visibility_debug (v : WorkerVisibility) : string :=
  match v with
  | WorkerVis_Session => "Session" | WorkerVis_Workspace => "Workspace" | WorkerVis_System => "System"
  end.
(** The [snake_case] texts of the enums. *)
Definition worker_visibility_str (v : WorkerVisibility) : string :=
  visibility_as_str (as_visibility_scope v).
Definition registration_mode_str (m : WorkerRegistrationMode) : string :=
  match m with Volatile => "volatile" | Durable => "durable" end.
Definition worker_health_str (h : WorkerHealth) : string :=
  match h with
  | WorkerHealth_Healthy => "healthy" | WorkerHealth_Unhealthy => "unhealthy"
  | WorkerHealth_Disconnected => "disconnected"
  end.

(* SRC engine/runtime/worker_protocol.rs:144-172 ScopedWorkerToken *)
Record ScopedWorkerToken := {
  tk_plugin_id : string;
  tk_namespace_claims : list string;
  tk_authority_grant_id : AuthorityGrantId;
  tk_authority_grant_revision : Z;
  tk_authority_grant_hash : string;
  tk_resource_selectors : list string;
  tk_visibility_ceiling : WorkerVisibility;
  tk_trust_tier : string;
  tk_session_id : option string;
  tk_workspace_id : option string;
  tk_expires_at : option string;
  tk_signature_status : string
}.
(** [bootstrap_hash] is [bootstrap_grant_policy_hash] of the worker's grant, whose
    [expect] panics on an unknown grant. *)
(* SRC engine/runtime/worker_protocol.rs:175-202 ScopedWorkerToken::loopback *)
Definition token_loopback (bootstrap_hash : AuthorityGrantId -> string) (w : WorkerDefinition) :
    ScopedWorkerToken :=
  let claims := match wk_namespace_claims w with [] => [wk_id w] | l => l end in
  {| tk_plugin_id := "session_generated." +s wk_id w; tk_namespace_claims := claims;
     tk_authority_grant_id := wk_authority_grant w; tk_authority_grant_revision := 1;
     tk_authority_grant_hash := bootstrap_hash (wk_authority_grant w);
     tk_resource_selectors := map (fun claim => "stream:" +s claim +s ":*") claims;
     tk_visibility_ceiling := WorkerVis_Session; tk_trust_tier := "session_generated";
     tk_session_id := None; tk_workspace_id := None; tk_expires_at := None;
     tk_signature_status := "session_scoped" |}.

(* SRC engine/runtime/worker_protocol.rs:255-291 WorkerHello *)
Record WorkerHello := {
  wh_protocol_version : Z;
  wh_worker : WorkerDefinition;
  wh_loopback_only : bool;
  wh_identity : WorkerIdentity;
  wh_auth_policy : WorkerAuthPolicy;
  wh_registration_mode : WorkerRegistrationMode;
  wh_default_visibility : WorkerVisibility;
  wh_session_id : option string;
  wh_workspace_id : option string;
  wh_heartbeat_interval_ms : Z;
  wh_supported_capabilities : list string;
  wh_worker_token : ScopedWorkerToken
}.
(* SRC engine/runtime/worker_protocol.rs:294-312 WorkerHello::loopback *)
Definition hello_loopback (bootstrap_hash : AuthorityGrantId -> string) (w : WorkerDefinition) :
    WorkerHello :=
  {| wh_protocol_version := WORKER_PROTOCOL_VERSION; wh_worker := w; wh_loopback_only := true;
     wh_identity := identity_from_worker w; wh_auth_policy := LoopbackBearer;
     wh_registration_mode := Volatile; wh_default_visibility := WorkerVis_Session;
     wh_session_id := None; wh_workspace_id := None; wh_heartbeat_interval_ms := 15000;
     wh_supported_capabilities := []; wh_worker_token := token_loopback bootstrap_hash w |}.
(* SRC engine/runtime/worker_protocol.rs:314-321 WorkerHello::with_session_scope *)
Definition hello_with_session_scope (session : string) (h : WorkerHello) : WorkerHello :=
  let t := wh_worker_token h in
  {| wh_protocol_version := wh_protocol_version h; wh_worker := wh_worker h;
     wh_loopback_only := wh_loopback_only h; wh_identity := wh_identity h;
     wh_auth_policy := wh_auth_policy h; wh_registration_mode := wh_registration_mode h;
     wh_default_visibility := wh_default_visibility h; wh_session_id := Some session;
     wh_workspace_id := wh_workspace_id h; wh_heartbeat_interval_ms := wh_heartbeat_interval_ms h;
     wh_supported_capabilities := wh_supported_capabilities h;
     wh_worker_token :=
       {| tk_plugin_id := tk_plugin_id t; tk_namespace_claims := tk_namespace_claims t;
          tk_authority_grant_id := tk_authority_grant_id t;
          tk_authority_grant_revision := tk_authority_grant_revision t;
          tk_authority_grant_hash := tk_authority_grant_hash t;
          tk_resource_selectors := tk_resource_selectors t;
          tk_visibility_ceiling := tk_visibility_ceiling t; tk_trust_tier := tk_trust_tier t;
          tk_session_id := Some session; tk_workspace_id := tk_workspace_id t;
          tk_expires_at := tk_expires_at t; tk_signature_status := tk_signature_status t |} |}.

(* SRC engine/runtime/worker_protocol.rs:333-341 CatalogSnapshot *)
Record CatalogSnapshot := {
  sn_functions : list FunctionDefinition;
  sn_triggers : list TriggerDefinition
}.
(* SRC engine/runtime/worker_protocol.rs:343-351 RegisterFunction *)
Record RegisterFunction := {
  rf_definition : FunctionDefinition;
  rf_default_visibility : VisibilityScope
}.
(* SRC engine/runtime/worker_protocol.rs:361-391 WorkerInvoke *)
Record WorkerInvoke := {
  wv_invocation_id : InvocationId;
  wv_function_id : FunctionId;
  wv_payload : Value;
  wv_actor_kind : ActorKind;
  wv_authority_grant_id : AuthorityGrantId;
  wv_authority_scopes : list string;
  wv_trace_id : TraceId;
  wv_parent_invocation_id : option InvocationId;
  wv_trigger_id : option TriggerId;
  wv_idempotency_key : option string;
  wv_session_id : option string;
  wv_workspace_id : option string;
  wv_timeout_ms : Z
}.
(* SRC engine/runtime/worker_protocol.rs:393-403 WorkerInvocationResult *)
Record WorkerInvocationResult := {
  wr_invocation_id : InvocationId;
  wr_result : option Value;
  wr_error : option Value
}.
(* SRC engine/runtime/worker_protocol.rs:405-417 WorkerCatalogChange *)
Record WorkerCatalogChange := {
  wc_subject_id : string;
  wc_owner_worker : WorkerId;
  wc_kind : string;
  wc_catalog_revision : Z
}.
(* SRC engine/runtime/worker_protocol.rs:419-441 WorkerStreamPublish *)
Record WorkerStreamPublish := {
  ws_worker_id : WorkerId;
  ws_topic : string;
  ws_payload : Value;
  ws_visibility : VisibilityScope;
  ws_session_id : option string;
  ws_workspace_id : option string;
  ws_trace_id : option TraceId;
  ws_parent_invocation_id : option InvocationId;
  ws_idempotency_key : string
}.
(* SRC engine/runtime/worker_protocol.rs:29-53 WorkerProtocolMessage *)
Inductive WorkerProtocolMessage :=
| Msg_Hello (hello : WorkerHello)
| Msg_CatalogSnapshot (snapshot : CatalogSnapshot)
| Msg_RegisterFunction (message : RegisterFunction)
| Msg_RegisterTrigger (definition : TriggerDefinition)
| Msg_PublishStream (message : WorkerStreamPublish)
| Msg_Invoke (message : WorkerInvoke)
| Msg_Result (result : WorkerInvocationResult)
| Msg_CatalogChange (change : WorkerCatalogChange)
| Msg_Heartbeat (worker_id : WorkerId) (sequence : Z)
| Msg_Disconnect (worker_id : WorkerId) (reason : string).

(** ** Namespaces and topics *)

(** [s.strip_prefix(p)] and [s.strip_suffix(p)] *)
Definition strip_prefix (s p : string) : option string :=
  if starts_with s p then Some (drop_str (String.length p) s) else None.
Definition strip_suffix (s p : string) : option string :=
  str_rev <$> strip_prefix (str_rev s) (str_rev p).

(** [value.split(|ch| matches!(ch, ':' | '.' | '/' | '#'))] *)
Definition is_separator (a : ascii) : bool := existsb (Ascii.eqb a) [":"; "."; "/"; "#"]%char.
Fixpoint segments (s current : string) : list string :=
  match s with
  | "" => [current]
  | String a s' =>
      if is_separator a then current :: segments s' "" else segments s' (current +s String a "")
  end.

(* SRC engine/runtime/external_workers/validation.rs:252-265 namespace_claim_matches_value *)
Definition namespace_claim_matches_value (claim value : string) : bool :=
  let claim := trim claim in
  let value := trim value in
  if (claim =s "") || (value =s "") then false
  else (value =s claim) || starts_with value (claim +s "::") || starts_with value (claim +s ".")
       || starts_with value (claim +s "/") || existsb (fun segment => segment =s claim) (segments value "").
(* SRC engine/runtime/external_workers/validation.rs:235-239 namespace_claims_value *)
Definition namespace_claims_value (claims : list string) (value : string) : bool :=
  existsb (fun claim => namespace_claim_matches_value claim value) claims.
(* SRC engine/runtime/external_workers/validation.rs:267-275 stream_selector_matches_topic *)
Definition stream_selector_matches_topic (selector topic : string) : bool :=
  match strip_prefix (trim selector) "stream:" with
  | None => false
  | Some selector =>
      match strip_suffix selector ":*" with
      | Some prefix => namespace_claim_matches_value prefix topic
      | None => selector =s topic
      end
  end.
(* SRC engine/runtime/external_workers/validation.rs:241-246 stream_topic_allowed_by_token *)
Definition stream_topic_allowed_by_token (token : ScopedWorkerToken) (topic : string) : bool :=
  existsb (fun selector => stream_selector_matches_topic selector topic) (tk_resource_selectors token).
(* SRC engine/runtime/external_workers/validation.rs:277-283 visibility_rank *)
Definition visibility_rank (v : WorkerVisibility) : Z :=
  match v with WorkerVis_Session => 0 | WorkerVis_Workspace => 1 | WorkerVis_System => 2 end.

(** ** Tokens and metadata *)

Section validation.
  Variable debug : string -> string.
  Variable parse_rfc3339 : string -> result string instant.

(** The [{:?}] rendering of a list of strings. *)
Definition debug_strings (l : list string) : string := "[" +s join ", " (map debug l) +s "]".

Fixpoint first_error (checks : list (Result unit)) : Result unit :=
  match checks with
  | [] => Ok tt
  | Ok _ :: rest => first_error rest
  | Err e :: _ => Err e
  end.
Definition require (condition : bool) (message : string) : Result unit :=
  if condition then Ok tt else policy_error message.

(* SRC engine/runtime/external_workers/validation.rs:54-79! validate_worker_token *)
Definition validate_scope_binding (hello : WorkerHello) : Result unit :=
  let token := wh_worker_token hello in
  match wh_default_visibility hello with
  | WorkerVis_Session =>
      match wh_session_id hello with
      | None => policy_error "session-visible workers require sessionId"
      | Some session_id =>
          require (bool_decide (tk_session_id token = Some session_id))
            "session-visible workers require workerToken.sessionId binding"
      end
  | WorkerVis_Workspace =>
      match wh_workspace_id hello with
      | None => policy_error "workspace-visible workers require workspaceId"
      | Some workspace_id =>
          require (bool_decide (tk_workspace_id token = Some workspace_id))
            "workspace-visible workers require workerToken.workspaceId binding"
      end
  | WorkerVis_System => Ok tt
  end.
(* SRC engine/runtime/external_workers/validation.rs:94-105! validate_worker_token *)
Definition validate_token_expiry (now : instant) (token : ScopedWorkerToken) : Result unit :=
  match tk_expires_at token with
  | None => Ok tt
  | Some text =>
      match parse_rfc3339 text with
      | Err error => policy_error ("invalid worker token expiry: " +s error)
      | Ok expires_at => require (negb (expires_at <=? now)) "worker scoped token is expired"
      end
  end.
(* SRC engine/runtime/external_workers/validation.rs:5-109 validate_worker_token *)
Definition validate_worker_token (now : instant) (hello : WorkerHello) : Result unit :=
  let token := wh_worker_token hello in
  let? _ := require (negb (is_blank (tk_plugin_id token))) "workerToken.pluginId is required" in
  let? _ := require (match tk_namespace_claims token with [] => false | _ => true end)
              "workerToken.namespaceClaims must not be empty" in
  let? _ := first_error (map (fun claim =>
              require (namespace_claims_value (tk_namespace_claims token) claim)
                ("worker namespace claim " +s claim +s " exceeds scoped token claims "
                 +s debug_strings (tk_namespace_claims token)))
              (wk_namespace_claims (wh_worker hello))) in
  let? _ := require (wk_authority_grant (wh_worker hello) =s tk_authority_grant_id token)
              ("worker authority grant " +s wk_authority_grant (wh_worker hello)
               +s " does not match scoped token grant " +s tk_authority_grant_id token) in
  let? _ := require (negb ((tk_authority_grant_revision token =? 0)
                           || is_blank (tk_authority_grant_hash token)))
              "workerToken authority grant revision and hash are required" in
  let? _ := require (match tk_resource_selectors token with [] => false | _ => true end)
              "workerToken.resourceSelectors must not be empty" in
  let? _ := require (negb (existsb (fun selector => trim selector =s "*") (tk_resource_selectors token)))
              "workerToken.resourceSelectors must be scoped; wildcard selectors are not allowed" in
  let? _ := require (visibility_rank (wh_default_visibility hello)
                     <=? visibility_rank (tk_visibility_ceiling token))
              ("worker visibility " +s worker_visibility_debug (wh_default_visibility hello)
               +s " exceeds token visibility ceiling "
               +s worker_visibility_debug (tk_visibility_ceiling token)) in
  let? _ := validate_scope_binding hello in
  let? _ := match tk_session_id token with
            | Some expected => require (bool_decide (wh_session_id hello = Some expected))
                                 "worker sessionId does not match scoped token"
            | None => Ok tt
            end in
  let? _ := match tk_workspace_id token with
            | Some expected => require (bool_decide (wh_workspace_id hello = Some expected))
                                 "worker workspaceId does not match scoped token"
            | None => Ok tt
            end in
  validate_token_expiry now token.

(** [metadata.get(key).and_then(Value::as_str).unwrap_or_default()] *)
Definition metadata_str (d : FunctionDefinition) (key : string) : string :=
  match vget (fn_metadata d) key with Some (VString s) => s | _ => "" end.
(* SRC engine/runtime/external_workers/validation.rs:111-187 validate_external_capability_metadata *)
Definition validate_external_capability_metadata (definition : FunctionDefinition)
    (namespace_claims : list string) (token : ScopedWorkerToken) : Result unit :=
  if negb (is_agent_visible (fn_visibility definition)) then Ok tt
  else
  let id := "external visible function " +s fn_id definition in
  let? _ := require (is_some (fn_request_schema definition) && is_some (fn_response_schema definition))
              (id +s " requires request and response schemas") in
  let? _ := first_error (map (fun key =>
              require (is_some (vget (fn_metadata definition) key))
                (id +s " requires capability metadata `" +s key +s "`"))
              ["contractId"; "implementationId"; "pluginId"; "trustTier"; "contextPrimerLevel";
               "runtimeRequirements"]) in
  let contract_id := metadata_str definition "contractId" in
  let implementation_id := metadata_str definition "implementationId" in
  let plugin_id := metadata_str definition "pluginId" in
  let trust_tier := metadata_str definition "trustTier" in
  let? _ := require (plugin_id =s tk_plugin_id token)
              (id +s " pluginId " +s plugin_id +s " does not match scoped token plugin "
               +s tk_plugin_id token) in
  let? _ := require (trust_tier =s tk_trust_tier token)
              (id +s " trustTier " +s trust_tier +s " does not match scoped token trust "
               +s tk_trust_tier token) in
  let contract_namespace :=
    match split_once contract_id "::" with Some (namespace, _) => namespace | None => contract_id end in
  require (namespace_claims_value namespace_claims (function_namespace (fn_id definition))
           && namespace_claims_value namespace_claims contract_namespace
           && namespace_claims_value namespace_claims implementation_id)
    (id +s " metadata must stay within namespace claims " +s debug_strings namespace_claims).

(* SRC engine/runtime/external_workers/validation.rs:218-233 external_health_state *)
Definition external_health_state (definition : FunctionDefinition) (token : ScopedWorkerToken) : string :=
  if bool_decide (fn_health definition = Health_Healthy)
     && (tk_trust_tier token =s "session_generated")
     && ((tk_signature_status token =s "session_scoped")
         || (tk_signature_status token =s "engine_issued"))
  then "healthy" else "candidate".
(* SRC engine/runtime/external_workers/validation.rs:189-216 stamp_external_capability_metadata *)
Definition stamp_external_capability_metadata (definition : FunctionDefinition)
    (token : ScopedWorkerToken) : FunctionDefinition :=
  if negb (is_agent_visible (fn_visibility definition)) then definition
  else
  match fn_metadata definition with
  | VObject metadata =>
      set_fn_metadata
        (VObject (obj_insert (obj_insert (obj_insert (obj_insert metadata
           "pluginId" (VString (tk_plugin_id token)))
           "trustTier" (VString (tk_trust_tier token)))
           "signatureStatus" (VString (tk_signature_status token)))
           "healthState" (VString (external_health_state definition token))))
        definition
  | _ => definition
  end.

(** ** What the checks accept *)

Lemma require_ok b message : require b message = Ok tt <-> b = true.
Proof. by destruct b. Qed.
Lemma first_error_ok {A} (f : A -> bool) (text : A -> string) l :
  first_error (map (fun x => require (f x) (text x)) l) = Ok tt <-> Forall (fun x => f x = true) l.
Proof.
  induction l as [|x l IH]; simpl; [split; [constructor|done]|].
  rewrite Forall_cons, <- IH. unfold require. destruct (f x); [|split; [done|by intros [??]]]. tauto.
Qed.

(** The worker speaks in the scope that its token binds. *)
Definition bound_scope (v : WorkerVisibility) (session workspace : option string)
    (token : ScopedWorkerToken) : Prop :=
  (v = WorkerVis_Session -> is_Some session /\ tk_session_id token = session) /\
  (v = WorkerVis_Workspace -> is_Some workspace /\ tk_workspace_id token = workspace) /\
  (forall s, tk_session_id token = Some s -> session = Some s) /\
  (forall w, tk_workspace_id token = Some w -> workspace = Some w).

(** What a token allows the worker that presents it. *)
Record within_token (now : instant) (hello : WorkerHello) (token : ScopedWorkerToken) : Prop := {
  wt_plugin : is_blank (tk_plugin_id token) = false;
  wt_claims_nonempty : tk_namespace_claims token <> [];
  wt_claims : Forall (fun claim => namespace_claims_value (tk_namespace_claims token) claim = true)
                (wk_namespace_claims (wh_worker hello));
  wt_grant : wk_authority_grant (wh_worker hello) = tk_authority_grant_id token;
  wt_revision : tk_authority_grant_revision token <> 0;
  wt_hash : is_blank (tk_authority_grant_hash token) = false;
  wt_selectors_nonempty : tk_resource_selectors token <> [];
  wt_selectors : Forall (fun s => trim s <> "*") (tk_resource_selectors token);
  wt_ceiling : visibility_rank (wh_default_visibility hello)
               <= visibility_rank (tk_visibility_ceiling token);
  wt_scope : bound_scope (wh_default_visibility hello) (wh_session_id hello) (wh_workspace_id hello) token;
  wt_expiry : forall text, tk_expires_at token = Some text ->
    exists at_, parse_rfc3339 text = Ok at_ /\ now < at_
}.

Lemma scope_binding_ok hello :
  validate_scope_binding hello = Ok tt <->
  (wh_default_visibility hello = WorkerVis_Session ->
   is_Some (wh_session_id hello) /\ tk_session_id (wh_worker_token hello) = wh_session_id hello) /\
  (wh_default_visibility hello = WorkerVis_Workspace ->
   is_Some (wh_workspace_id hello) /\ tk_workspace_id (wh_worker_token hello) = wh_workspace_id hello).
Proof.
  unfold validate_scope_binding. destruct (wh_default_visibility hello).
  - destruct (wh_session_id hello) as [x|]; [rewrite require_ok, bool_decide_eq_true|].
    + split; [intros; split; [eauto|done]|]. intros [H _]. by destruct (H eq_refl).
    + split; [done|]. intros [H _]. by destruct (H eq_refl) as [[??] _].
  - destruct (wh_workspace_id hello) as [x|]; [rewrite require_ok, bool_decide_eq_true|].
    + split; [intros; split; [done|eauto]|]. intros [_ H]. by destruct (H eq_refl).
    + split; [done|]. intros [_ H]. by destruct (H eq_refl) as [[??] _].
  - by split.
Qed.
Lemma binding_ok (o x : option string) message :
  match o with Some e => require (bool_decide (x = Some e)) message | None => Ok tt end = Ok tt <->
  (forall e, o = Some e -> x = Some e).
Proof.
  destruct o as [e|]; [rewrite require_ok, bool_decide_eq_true|by split].
  split; [by intros -> ? [= <-]|]. intros H. by apply H.
Qed.
Lemma token_expiry_ok now token :
  validate_token_expiry now token = Ok tt <->
  (forall text, tk_expires_at token = Some text -> exists at_, parse_rfc3339 text = Ok at_ /\ now < at_).
Proof.
  unfold validate_token_expiry. destruct (tk_expires_at token) as [text|]; [|by split].
  destruct (parse_rfc3339 text) as [at_|e] eqn:E.
  - rewrite require_ok, negb_true_iff, Z.leb_gt. split; [intros ? ? [= <-]; eauto|].
    intros H. destruct (H text eq_refl) as (? & ? & ?). congruence.
  - split; [done|]. intros H. destruct (H text eq_refl) as (? & ? & ?). congruence.
Qed.
Lemma nonempty_ok {A} (l : list A) message :
  require (match l with [] => false | _ => true end) message = Ok tt <-> l <> [].
Proof. by destruct l. Qed.

Lemma no_wildcard_ok l :
  existsb (fun s => trim s =s "*") l = false <-> Forall (fun s => trim s <> "*") l.
Proof.
  induction l as [|s l IH]; simpl; [split; [constructor|done]|].
  by rewrite Forall_cons, orb_false_iff, IH, String.eqb_neq.
Qed.

(** The token check accepts exactly the hellos within their token. *)
Lemma worker_token_ok now hello :
  validate_worker_token now hello = Ok tt <-> within_token now hello (wh_worker_token hello).
Proof.
  unfold validate_worker_token. cbv zeta. rewrite !seq_ok, !nonempty_ok, first_error_ok, scope_binding_ok,
    !binding_ok, token_expiry_ok, !require_ok, !negb_true_iff, orb_false_iff, Z.eqb_neq, Z.leb_le,
    String.eqb_eq, no_wildcard_ok.
  split.
  - intros (? & ? & ? & ? & [? ?] & ? & ? & ? & [? ?] & ? & ? & ?). constructor; auto. by split_and!.
  - intros []. destruct wt_scope0 as (? & ? & ? & ?). by split_and!.
Qed.
End validation.
