(* ===== verification/ExternalWorkers.v ===== *)
(** * ExternalWorkers

    The runtime of local external workers ([engine/runtime/external_workers]):
    connections accepted from a hello with a scoped token, heartbeats and timeouts,
    registration of functions and triggers, publication on streams, disconnection,
    and the proxy that sends an invocation to a worker.  Last, the loop of a worker's
    socket ([transport/runtime/external_workers.rs]) over parsed frames.

    The runtime works on the host of Host: it registers through the catalog and
    publishes by invoking [stream::publish].  [proxy] makes the handler of a function
    from the invoker of a connection.  Ids and ticks of a publication are in
    [PublishIds].  Ids built from constants are valid, so their checks are left
    out. *)

From stdpp Require Import base gmap strings list pretty relations.
From Stdlib Require Import ZArith Ascii String Lia.
From S2P Require Import Prelude Json Kernel Model Policy Paths Grants Authorization PolicyHash.
From S2P Require Import Leases LeaseTemplates Streams Ledger Catalog Invocation Compensation Meta Host WorkerProtocol.
Import JsonNotations.

#[local] Open Scope Z_scope.

(** ** The proxy *)

(* SRC engine/runtime/external_workers/proxy.rs:49-51 worker_result_error_code *)
Definition worker_result_error_code (error : Value) : option string :=
  match vget error "code" with Some (VString s) => Some s | _ => None end.
(* SRC engine/runtime/external_workers/proxy.rs:53-59 worker_result_error_message *)
Definition worker_result_error_message (json_text : Value -> string) (error : Value) : string :=
  match vget error "message" with Some (VString s) => s | _ => json_text error end.
(* SRC engine/runtime/external_workers/proxy.rs:17-46 ExternalFunctionProxyHandler::invoke *)
Definition proxy_invoke (json_text : Value -> string)
    (invoker : WorkerInvoke -> Result WorkerInvocationResult) (i : Invocation) : Result Value :=
  let c := inv_context i in
  let? result := invoker
    {| wv_invocation_id := inv_id i; wv_function_id := inv_function_id i;
       wv_payload := inv_payload i; wv_actor_kind := cx_actor_kind c;
       wv_authority_grant_id := cx_authority_grant_id c;
       wv_authority_scopes := cx_authority_scopes c; wv_trace_id := cx_trace_id c;
       wv_parent_invocation_id := cx_parent_invocation_id c; wv_trigger_id := cx_trigger_id c;
       wv_idempotency_key := cx_idempotency_key c; wv_session_id := cx_session_id c;
       wv_workspace_id := cx_workspace_id c; wv_timeout_ms := 30000 |} in
  match wr_error result with
  | Some error =>
      if bool_decide (worker_result_error_code error = Some "WORKER_DISCONNECTED")
      then Err (WorkerTransportFailure "WORKER_DISCONNECTED" (worker_result_error_message json_text error))
      else Err (HandlerFailed (json_text error))
  | None => Ok (default Null (wr_result result))
  end.

(** ** Connections *)

(* SRC engine/runtime/external_workers/mod.rs:48-48 WORKER_LIFECYCLE_TOPIC *)
Definition WORKER_LIFECYCLE_TOPIC : string := "worker.lifecycle".

(** The sets of ids are maps to [tt], read in key order. *)
(* SRC engine/runtime/external_workers/mod.rs:57-86 ExternalWorkerConnection *)
Record ExternalWorkerConnection := {
  xc_worker_id : WorkerId;
  xc_owner_actor : ActorId;
  xc_heartbeat_sequence : Z;
  xc_last_heartbeat_at : instant;
  xc_loopback_only : bool;
  xc_registration_mode : WorkerRegistrationMode;
  xc_default_visibility : WorkerVisibility;
  xc_session_id : option string;
  xc_workspace_id : option string;
  xc_worker_token : ScopedWorkerToken;
  xc_health : WorkerHealth;
  xc_functions : gmap string unit;
  xc_triggers : gmap string unit
}.
Definition set_heartbeat (sequence : Z) (now : instant) (c : ExternalWorkerConnection) :
    ExternalWorkerConnection :=
  {| xc_worker_id := xc_worker_id c; xc_owner_actor := xc_owner_actor c;
     xc_heartbeat_sequence := sequence; xc_last_heartbeat_at := now;
     xc_loopback_only := xc_loopback_only c; xc_registration_mode := xc_registration_mode c;
     xc_default_visibility := xc_default_visibility c; xc_session_id := xc_session_id c;
     xc_workspace_id := xc_workspace_id c; xc_worker_token := xc_worker_token c;
     xc_health := xc_health c; xc_functions := xc_functions c; xc_triggers := xc_triggers c |}.
Definition set_owned (functions triggers : gmap string unit) (health : WorkerHealth)
    (c : ExternalWorkerConnection) : ExternalWorkerConnection :=
  {| xc_worker_id := xc_worker_id c; xc_owner_actor := xc_owner_actor c;
     xc_heartbeat_sequence := xc_heartbeat_sequence c;
     xc_last_heartbeat_at := xc_last_heartbeat_at c;
     xc_loopback_only := xc_loopback_only c; xc_registration_mode := xc_registration_mode c;
     xc_default_visibility := xc_default_visibility c; xc_session_id := xc_session_id c;
     xc_workspace_id := xc_workspace_id c; xc_worker_token := xc_worker_token c;
     xc_health := health; xc_functions := functions; xc_triggers := triggers |}.

(* SRC engine/runtime/external_workers/lifecycle.rs:390-396 lifecycle_visibility *)
Definition lifecycle_visibility (c : ExternalWorkerConnection) : VisibilityScope :=
  match xc_default_visibility c with
  | WorkerVis_Session =>
      if negb (is_some (xc_session_id c)) then Vis_System else Vis_Session
  | WorkerVis_Workspace =>
      if negb (is_some (xc_workspace_id c)) then Vis_System else Vis_Workspace
  | WorkerVis_System => Vis_System
  end.

(** The generated ids of a publication and the ticks of its invocation. *)
Record PublishIds := {
  pb_now : instant;
  pb_trace : TraceId;
  pb_key : string;
  pb_invocation : InvocationId;
  pb_tick : Tick;
  pb_child_tick : Tick;
  pb_child : InvocationId
}.

(* SRC engine/runtime/external_workers/mod.rs:88-93 EngineExternalWorkerRuntime *)
Record ExternalRuntime (H S L C I : Type) := {
  er_host : EngineHost H S L C;
  er_connections : gmap string ExternalWorkerConnection;
  er_invokers : gmap string I
}.
Arguments er_host {H S L C I}.
Arguments er_connections {H S L C I}.
Arguments er_invokers {H S L C I}.

Section runtime.
  Context {H S L C I : Type} `{!LedgerStore S, !LeaseStore L, !CompensationStore C}.
  Notation host := (EngineHost H S L C).
  Notation runtime := (ExternalRuntime H S L C I).
  Variable debug : string -> string.
  Variable sha256_hex : string -> string.
  Variable encode : string -> string.
  Variable fs : FileSystem.
  Variable rfc3339 : instant -> string.
  Variable parse_rfc3339 : string -> result string instant.
  Variable run_handler : H -> Invocation -> host -> HandlerOutcome * host.
  Variable dispatch : Invocation -> host -> Result Value * host.
  Variable uuid : Z -> string.
  Variable json_text : Value -> string.
  Variable function_value : FunctionDefinition -> Value.
  Variable worker_value : WorkerDefinition -> Value.
  Variable trigger_type_value : TriggerTypeDefinition -> Value.
  Variable trigger_value : TriggerDefinition -> Value.
  Variable call_handler : H -> Invocation -> host -> Result Value * host.
  Variable proxy : I -> H.

(* SRC engine/runtime/external_workers/mod.rs:96-104 EngineExternalWorkerRuntime::new *)
Definition runtime_new (h : host) : runtime :=
  {| er_host := h; er_connections := ∅; er_invokers := ∅ |}.
Definition set_er_host (h : host) (rt : runtime) : runtime :=
  {| er_host := h; er_connections := er_connections rt; er_invokers := er_invokers rt |}.
Definition set_er_connections (x : gmap string ExternalWorkerConnection) (rt : runtime) : runtime :=
  {| er_host := er_host rt; er_connections := x; er_invokers := er_invokers rt |}.
Definition set_er_invokers (x : gmap string I) (rt : runtime) : runtime :=
  {| er_host := er_host rt; er_connections := er_connections rt; er_invokers := x |}.

(** Operations of the runtime: an answer and the next runtime, [?] as [andThen]. *)
Definition R (A : Type) : Type := runtime -> Result A * runtime.
Definition rret {A} (a : A) : R A := fun rt => (Ok a, rt).
Definition andThen {A B} (m : R A) (k : A -> R B) : R B := fun rt =>
  match m rt with (Ok a, rt) => k a rt | (Err e, rt) => (Err e, rt) end.
Definition asks {A} (f : runtime -> Result A) : R A := fun rt => (f rt, rt).
Definition updates (f : runtime -> runtime) : R unit := fun rt => (Ok tt, f rt).
Definition on_host_catalog {A} (f : LiveCatalog H S -> Result A * LiveCatalog H S) : R A := fun rt =>
  let '(r, h) := on_catalog f (er_host rt) in (r, set_er_host h rt).
#[local] Notation "'let!' x ':=' m 'in' k" := (andThen m (fun x => k))
  (at level 200, x pattern, m at level 200, k at level 200, right associativity).
#[local] Notation "m ;; k" := (andThen m (fun _ => k)) (at level 100, k at level 200, right associativity).
Fixpoint each {A} (f : A -> R unit) (l : list A) : R unit :=
  match l with [] => rret tt | x :: l => f x ;; each f l end.

Definition catalog_of (rt : runtime) : LiveCatalog H S := eh_catalog (er_host rt).
Definition no_connection (id : WorkerId) : EngineError := NotFound "external worker connection" id.
(* SRC engine/runtime/external_workers/lifecycle.rs:356-366 EngineExternalWorkerRuntime::connection_mut *)
Definition connection_of (id : WorkerId) : R ExternalWorkerConnection :=
  asks (fun rt => ok_or (er_connections rt !! id) (no_connection id)).
Definition put_connection (id : WorkerId) (c : ExternalWorkerConnection) : R unit :=
  updates (fun rt => set_er_connections (<[id := c]> (er_connections rt)) rt).

(** [self.host.invoke(..)]: the error of the result is the error of the call. *)
Definition host_invocation (ids : PublishIds) (i : Invocation) : R Z := fun rt =>
  let '(r, h) := invoke debug sha256_hex encode fs rfc3339 run_handler dispatch uuid json_text
                   function_value worker_value trigger_type_value trigger_value call_handler
                   (pb_tick ids) (pb_child_tick ids) (pb_child ids) i (er_host rt) in
  (match ir_error r with Some e => Err e | None => Ok (ir_catalog_revision r) end, set_er_host h rt).

Definition opt_value (o : option string) : Value := match o with Some s => VString s | None => Null end.
(** [payload["sessionId"] = ..] when there is one. *)
Definition with_field (key : string) (o : option string) (fields : list (string * Value)) :
    list (string * Value) :=
  match o with Some s => obj_insert fields key (VString s) | None => fields end.

(** The serialized [WorkerLifecycleEvent]. *)
(* SRC engine/runtime/worker_protocol.rs:223-253 WorkerLifecycleEvent *)
Definition lifecycle_event_value (ids : PublishIds) (event_type : string) (c : ExternalWorkerConnection)
    (reason : option string) (catalog_revision : Z) : Value :=
  VObject
    [("eventType", VString event_type); ("workerId", VString (xc_worker_id c));
     ("registrationMode", VString (registration_mode_str (xc_registration_mode c)));
     ("visibility", VString (worker_visibility_str (xc_default_visibility c)));
     ("sessionId", opt_value (xc_session_id c)); ("workspaceId", opt_value (xc_workspace_id c));
     ("health", VString (worker_health_str (xc_health c))); ("reason", opt_value reason);
     ("functions", VArray (map VString (btree_keys (xc_functions c))));
     ("triggers", VArray (map VString (btree_keys (xc_triggers c))));
     ("catalogRevision", VNumber (PosInt catalog_revision)); ("traceId", VString (pb_trace ids));
     ("timestamp", VString (rfc3339 (pb_now ids)))].

Definition scoped_context (session workspace : option string) (c : CausalContext) : CausalContext :=
  let c := match session with Some s => with_session_id c s | None => c end in
  match workspace with Some w => with_workspace_id c w | None => c end.

(* SRC engine/runtime/external_workers/lifecycle.rs:201-266 EngineExternalWorkerRuntime::publish_lifecycle_event *)
Definition publish_lifecycle_event (ids : PublishIds) (event_type : string)
    (c : ExternalWorkerConnection) (reason : option string) : R unit :=
  let! revision := asks (fun rt => Ok (lc_revision (catalog_of rt))) in
  let context :=
    scoped_context (xc_session_id c) (xc_workspace_id c)
      (with_idempotency_key
         (with_scope (with_scope
            (causal_context_new "worker-runtime" Actor_System "worker-runtime" (pb_trace ids))
            "stream.write") ENGINE_INTERNAL_INVOKE_SCOPE)
         ("worker-lifecycle:" +s event_type +s ":" +s xc_worker_id c +s ":" +s pretty revision
          +s ":" +s pb_key ids)) in
  let payload :=
    with_field "workspaceId" (xc_workspace_id c)
      (with_field "sessionId" (xc_session_id c)
         [("topic", VString WORKER_LIFECYCLE_TOPIC);
          ("payload", lifecycle_event_value ids event_type c reason revision);
          ("visibility", VString (visibility_as_str (lifecycle_visibility c)));
          ("producer", VString "worker-runtime")]) in
  host_invocation ids
         (with_delivery_mode (new_sync (pb_invocation ids) "stream::publish" (VObject payload) context)
            Delivery_Sync) ;;
  rret tt.

(** ** Lifecycle *)

(* SRC engine/runtime/external_workers/lifecycle.rs:268-290 EngineExternalWorkerRuntime::catalog_snapshot_for *)
Definition catalog_snapshot_for (id : WorkerId) (rt : runtime) : CatalogSnapshot :=
  let authority_grant := match er_connections rt !! id with
                         | Some c => tk_authority_grant_id (xc_worker_token c)
                         | None => "worker-runtime"
                         end in
  {| sn_functions :=
       discover_functions json_text
         {| fq_actor := Some (actor_context_new ("worker:" +s id) Actor_Worker authority_grant);
            fq_visibility := None; fq_namespace_prefix := None; fq_text := None;
            fq_effect_class := None; fq_max_risk := None; fq_health := None;
            fq_include_internal := false |} (catalog_of rt);
     sn_triggers := [] |}.

(* SRC engine/runtime/external_workers/lifecycle.rs:292-354 EngineExternalWorkerRuntime::validate_worker_grant *)
Definition runtime_validate_worker_grant (hello : WorkerHello) (c : LiveCatalog H S) : Result unit :=
  let token := wh_worker_token hello in
  let id := tk_authority_grant_id token in
  let? found := grant_inspect id (lc_grants c) in
  match found with
  | None => policy_error ("worker scoped token references unknown authority grant " +s id)
  | Some grant =>
      let? _ := require (bool_decide (gr_lifecycle grant = Grant_Active))
                  ("worker scoped token grant " +s id +s " is not active") in
      let? _ := require (gr_revision grant =? tk_authority_grant_revision token)
                  ("worker scoped token grant revision " +s pretty (tk_authority_grant_revision token)
                   +s " does not match active revision " +s pretty (gr_revision grant)) in
      let? _ := require (tk_authority_grant_hash token =s grant_policy_hash sha256_hex encode rfc3339 grant)
                  ("worker scoped token grant hash does not match active grant " +s id) in
      let? _ := match gr_subject_worker_id grant with
                | Some subject =>
                    require (subject =s wk_id (wh_worker hello))
                      ("worker scoped token grant subject worker " +s subject +s " does not match "
                       +s wk_id (wh_worker hello))
                | None => Ok tt
                end in
      let? _ := match gr_subject_actor_id grant with
                | Some subject =>
                    let expected := "worker:" +s wk_id (wh_worker hello) in
                    require (subject =s expected)
                      ("worker scoped token grant subject actor " +s subject +s " does not match "
                       +s expected)
                | None => Ok tt
                end in
      if existsb (fun namespace => namespace =s "*") (gr_allowed_namespaces grant) then Ok tt
      else first_error (map (fun claim =>
             require (namespace_claims_value (gr_allowed_namespaces grant) claim)
               ("worker namespace claim " +s claim +s " is not allowed by scoped token grant namespaces "
                +s debug_strings debug (gr_allowed_namespaces grant)))
             (wk_namespace_claims (wh_worker hello)))
  end.

(* SRC engine/runtime/external_workers/lifecycle.rs:15-54! EngineExternalWorkerRuntime::hello *)
Definition validate_hello (now : instant) (hello : WorkerHello) (c : LiveCatalog H S) : Result unit :=
  let? _ := require (wh_protocol_version hello =? WORKER_PROTOCOL_VERSION)
              ("unsupported worker protocol version " +s pretty (wh_protocol_version hello)) in
  let? _ := require (wh_loopback_only hello) "external workers are loopback-only in this package" in
  let? _ := require (bool_decide (wh_auth_policy hello = LoopbackBearer))
              "external workers currently require loopback bearer authentication" in
  let? _ := require (bool_decide (wk_kind (wh_worker hello) = Worker_External))
              "worker protocol can only register external workers" in
  let? _ := require (wi_worker_id (wh_identity hello) =s wk_id (wh_worker hello))
              ("worker identity " +s wi_worker_id (wh_identity hello)
               +s " does not match definition " +s wk_id (wh_worker hello)) in
  let? _ := require (negb (bool_decide (wh_registration_mode hello = Durable)
                           && negb (wh_loopback_only hello)))
              "durable workers must be authenticated local workers" in
  let? _ := require (negb (bool_decide (wh_default_visibility hello = WorkerVis_Workspace)
                           && negb (is_some (wh_workspace_id hello))))
              "workspace-visible workers require workspaceId" in
  let? _ := validate_worker_token debug parse_rfc3339 now hello in
  runtime_validate_worker_grant hello c.

(* SRC engine/runtime/external_workers/lifecycle.rs:59-76! EngineExternalWorkerRuntime::hello *)
Definition new_connection (now : instant) (hello : WorkerHello) : ExternalWorkerConnection :=
  {| xc_worker_id := wk_id (wh_worker hello); xc_owner_actor := wk_owner_actor (wh_worker hello);
     xc_heartbeat_sequence := 0; xc_last_heartbeat_at := now; xc_loopback_only := true;
     xc_registration_mode := wh_registration_mode hello;
     xc_default_visibility := wh_default_visibility hello; xc_session_id := wh_session_id hello;
     xc_workspace_id := wh_workspace_id hello; xc_worker_token := wh_worker_token hello;
     xc_health := WorkerHealth_Healthy; xc_functions := ∅; xc_triggers := ∅ |}.

Definition is_volatile (m : WorkerRegistrationMode) : bool := bool_decide (m = Volatile).

(* SRC engine/runtime/external_workers/lifecycle.rs:11-86 EngineExternalWorkerRuntime::hello *)
Definition worker_hello (ids : PublishIds) (hello : WorkerHello) : R CatalogSnapshot :=
  let worker_id := wk_id (wh_worker hello) in
  asks (fun rt => validate_hello (pb_now ids) hello (catalog_of rt)) ;;
  on_host_catalog (register_worker uuid (pb_now ids) (wh_worker hello)
                          (is_volatile (wh_registration_mode hello))) ;;
  put_connection worker_id (new_connection (pb_now ids) hello) ;;
  let! snapshot := asks (fun rt => Ok (catalog_snapshot_for worker_id rt)) in
  let! connection := connection_of worker_id in
  publish_lifecycle_event ids "worker.connected" connection None ;;
  rret snapshot.

(* SRC engine/runtime/external_workers/lifecycle.rs:88-106 EngineExternalWorkerRuntime::heartbeat *)
Definition worker_heartbeat (now : instant) (worker_id : WorkerId) (sequence : Z) : R unit :=
  let! connection := connection_of worker_id in
  if bool_decide (xc_health connection = WorkerHealth_Disconnected)
  then asks (fun _ => policy_error ("worker " +s worker_id +s " is disconnected"))
  else if sequence <=? xc_heartbeat_sequence connection
  then asks (fun _ => policy_error ("stale heartbeat " +s pretty sequence +s " for worker " +s worker_id))
  else put_connection worker_id (set_heartbeat sequence now connection).

Definition runtime_actor : ActorContext :=
  actor_context_new "worker-runtime" Actor_System "worker-runtime".

(* SRC engine/runtime/external_workers/lifecycle.rs:378-383! EngineExternalWorkerRuntime::mark_durable_worker_disconnected *)
Definition mark_unhealthy (now : instant) (function_id : string) : R unit :=
  let! id := asks (fun _ => function_id_new function_id) in
  let! definition := asks (fun rt => inspect_function id (Some runtime_actor) (catalog_of rt)) in
  on_host_catalog (register_function uuid debug now (set_fn_health Health_Unhealthy definition) None false) ;;
  rret tt.
(* SRC engine/runtime/external_workers/lifecycle.rs:368-387 EngineExternalWorkerRuntime::mark_durable_worker_disconnected *)
Definition mark_durable_worker_disconnected (now : instant) (c : ExternalWorkerConnection) : R unit :=
  each (mark_unhealthy now) (btree_keys (xc_functions c)) ;;
  let! worker := asks (fun rt => inspect_worker (xc_worker_id c) (catalog_of rt)) in
  on_host_catalog (register_worker uuid now (set_wk_lifecycle Lifecycle_Stopped worker) false) ;;
  rret tt.

(* SRC engine/runtime/external_workers/lifecycle.rs:133-182 EngineExternalWorkerRuntime::disconnect *)
Definition worker_disconnect (ids ids' : PublishIds) (worker_id : WorkerId) (reason : string) : R unit :=
  fun rt =>
  match er_connections rt !! worker_id with
  | None => (Ok tt, rt)
  | Some connection =>
      (updates (fun rt => set_er_invokers (delete worker_id (er_invokers rt))
                            (set_er_connections (delete worker_id (er_connections rt)) rt)) ;;
       if is_volatile (xc_registration_mode connection) then
         on_host_catalog (unregister_worker uuid (pb_now ids) (xc_worker_id connection)
                                 (xc_owner_actor connection)) ;;
         publish_lifecycle_event ids
           (if reason =s "heartbeat timeout" then "worker.heartbeat_timeout" else "worker.disconnected")
           connection (Some reason) ;;
         publish_lifecycle_event ids' "worker.unregistered" connection (Some reason)
       else
         mark_durable_worker_disconnected (pb_now ids) connection ;;
         publish_lifecycle_event ids "worker.disconnected" connection (Some reason) ;;
         publish_lifecycle_event ids' "worker.health_changed"
           (set_owned (xc_functions connection) (xc_triggers connection) WorkerHealth_Disconnected
              connection) (Some reason)) rt
  end.

(** [now.signed_duration_since(..).to_std().unwrap_or(ZERO) > timeout] *)
Definition timed_out (now : instant) (timeout : Z) (c : ExternalWorkerConnection) : bool :=
  timeout <? Z.max 0 (now - xc_last_heartbeat_at c).
(** [gen] gives the ids of the disconnection of a worker. *)
(* SRC engine/runtime/external_workers/lifecycle.rs:108-131 EngineExternalWorkerRuntime::disconnect_timed_out *)
Definition disconnect_timed_out (now : instant) (gen : WorkerId -> PublishIds * PublishIds) (timeout : Z) :
    R (list WorkerId) :=
  let! expired := asks (fun rt => Ok (map xc_worker_id
                      (List.filter (timed_out now timeout) (btree_values (er_connections rt))))) in
  each (fun id => worker_disconnect (gen id).1 (gen id).2 id "heartbeat timeout") expired ;;
  rret expired.

(** ** Registration *)

(* SRC engine/runtime/external_workers/registration.rs:11-25 EngineExternalWorkerRuntime::attach_invoker *)
Definition attach_invoker (worker_id : WorkerId) (invoker : I) : R unit :=
  connection_of worker_id ;;
  updates (fun rt => set_er_invokers (<[worker_id := invoker]> (er_invokers rt)) rt).

(* SRC engine/runtime/external_workers/registration.rs:54-65! EngineExternalWorkerRuntime::register_function *)
Definition bind_definition (c : ExternalWorkerConnection) (d : FunctionDefinition) : FunctionDefinition :=
  let health := match xc_health c with
                | WorkerHealth_Healthy => Health_Healthy | _ => Health_Unhealthy end in
  let p := fn_provenance d in
  set_fn_scope (fn_visibility d)
    (set_prov_scope
       (match xc_session_id c with Some s => Some s | None => prov_session_id p end)
       (match xc_workspace_id c with Some w => Some w | None => prov_workspace_id p end) p)
    (set_fn_health health d).

Definition catalog_change_of (subject : string) (worker_id : WorkerId) (kind : string) (revision : Z) :
    WorkerCatalogChange :=
  {| wc_subject_id := subject; wc_owner_worker := worker_id; wc_kind := kind;
     wc_catalog_revision := revision |}.

(* SRC engine/runtime/external_workers/registration.rs:27-103 EngineExternalWorkerRuntime::register_function *)
Definition worker_register_function (ids : PublishIds) (message : RegisterFunction) : R WorkerCatalogChange :=
  let worker_id := fn_owner_worker (rf_definition message) in
  let! connection := connection_of worker_id in
  asks (fun _ => require (bool_decide (xc_health connection = WorkerHealth_Healthy))
                        ("worker " +s worker_id +s " is not healthy")) ;;
  let expected := as_visibility_scope (xc_default_visibility connection) in
  asks (fun _ => require (bool_decide (rf_default_visibility message = expected)
                               && bool_decide (fn_visibility (rf_definition message) = expected))
         "external worker function visibility must match the worker default visibility") ;;
  let id := fn_id (rf_definition message) in
  let definition := bind_definition connection (rf_definition message) in
  let! worker := asks (fun rt => inspect_worker worker_id (catalog_of rt)) in
  asks (fun _ => validate_external_capability_metadata debug definition (wk_namespace_claims worker)
                        (xc_worker_token connection)) ;;
  let definition := stamp_external_capability_metadata definition (xc_worker_token connection) in
  let! handler := asks (fun rt => Ok (proxy <$> er_invokers rt !! worker_id)) in
  on_host_catalog (register_function uuid debug (pb_now ids) definition handler
                          (is_volatile (xc_registration_mode connection))) ;;
  let! connection := connection_of worker_id in
  let connection := set_owned (<[id := tt]> (xc_functions connection)) (xc_triggers connection)
                      (xc_health connection) connection in
  put_connection worker_id connection ;;
  publish_lifecycle_event ids "worker.function_registered" connection None ;;
  asks (fun rt => Ok (catalog_change_of id worker_id "function_registered" (lc_revision (catalog_of rt)))).

(* SRC engine/runtime/external_workers/registration.rs:208-258 validate_worker_trigger *)
Definition validate_worker_trigger (c : ExternalWorkerConnection) (trigger : TriggerDefinition)
    (catalog : LiveCatalog H S) : Result unit :=
  let token := xc_worker_token c in
  let? _ := require (bool_decide (tr_visibility trigger = as_visibility_scope (xc_default_visibility c)))
              "external worker trigger visibility must match the worker default visibility" in
  let? _ := require (tr_authority_grant trigger =s tk_authority_grant_id token)
              "external worker trigger authority grant must match the scoped token" in
  let? _ := require (namespace_claims_value (tk_namespace_claims token) (tr_id trigger))
              ("external worker trigger " +s tr_id trigger
               +s " must stay within scoped token namespace claims "
               +s debug_strings debug (tk_namespace_claims token)) in
  let? _ := require (namespace_claims_value (tk_namespace_claims token)
                       (function_namespace (tr_target_function trigger)))
              ("external worker trigger target " +s tr_target_function trigger
               +s " must stay within scoped token namespace claims "
               +s debug_strings debug (tk_namespace_claims token)) in
  let? target := inspect_function (tr_target_function trigger) (Some runtime_actor) catalog in
  require (fn_owner_worker target =s xc_worker_id c)
    ("external worker trigger " +s tr_id trigger +s " cannot target function "
     +s tr_target_function trigger +s " owned by " +s fn_owner_worker target).

(* SRC engine/runtime/external_workers/registration.rs:105-140 EngineExternalWorkerRuntime::register_trigger *)
Definition worker_register_trigger (ids : PublishIds) (trigger : TriggerDefinition) : R WorkerCatalogChange :=
  let worker_id := tr_owner_worker trigger in
  let! connection := connection_of worker_id in
  asks (fun _ => require (bool_decide (xc_health connection = WorkerHealth_Healthy))
                        ("worker " +s worker_id +s " is not healthy")) ;;
  asks (fun rt => validate_worker_trigger connection trigger (catalog_of rt)) ;;
  let id := tr_id trigger in
  on_host_catalog (register_trigger uuid (pb_now ids) trigger
                          (is_volatile (xc_registration_mode connection))) ;;
  let! connection := connection_of worker_id in
  let connection := set_owned (xc_functions connection) (<[id := tt]> (xc_triggers connection))
                      (xc_health connection) connection in
  put_connection worker_id connection ;;
  publish_lifecycle_event ids "worker.trigger_registered" connection None ;;
  asks (fun rt => Ok (catalog_change_of id worker_id "trigger_registered" (lc_revision (catalog_of rt)))).

(** ** Publication *)

(** [message.session_id.is_some() && message.session_id != connection.session_id] *)
Definition other_scope (claimed own : option string) : bool :=
  is_some claimed && negb (bool_decide (claimed = own)).
(* SRC engine/runtime/external_workers/registration.rs:260-329 validate_worker_stream_publish *)
Definition validate_worker_stream_publish (c : ExternalWorkerConnection) (m : WorkerStreamPublish) :
    Result unit :=
  let? _ := require (bool_decide (ws_visibility m = as_visibility_scope (xc_default_visibility c)))
              "external worker stream visibility must match the worker default visibility" in
  let? _ := require (stream_topic_allowed_by_token (xc_worker_token c) (ws_topic m))
              ("external worker stream topic " +s ws_topic m +s " is not allowed by scoped token selectors "
               +s debug_strings debug (tk_resource_selectors (xc_worker_token c))) in
  match xc_default_visibility c with
  | WorkerVis_Session =>
      match xc_session_id c with
      | None => policy_error "session-visible worker stream requires connection sessionId"
      | Some expected =>
          let? _ := require (bool_decide (ws_session_id m = Some expected))
                      "external worker stream sessionId must match the scoped worker session" in
          require (negb (other_scope (ws_workspace_id m) (xc_workspace_id c)))
            "external worker stream workspaceId must match the scoped worker workspace"
      end
  | WorkerVis_Workspace =>
      match xc_workspace_id c with
      | None => policy_error "workspace-visible worker stream requires connection workspaceId"
      | Some expected =>
          let? _ := require (bool_decide (ws_workspace_id m = Some expected))
                      "external worker stream workspaceId must match the scoped worker workspace" in
          require (negb (other_scope (ws_session_id m) (xc_session_id c)))
            "external worker stream sessionId must match the scoped worker session"
      end
  | WorkerVis_System =>
      require (negb (is_some (ws_session_id m) || is_some (ws_workspace_id m)))
        "system-visible worker streams must not claim session or workspace scope"
  end.

Definition or_else (a b : option string) : option string := match a with Some _ => a | None => b end.
(** The invocation of [stream::publish] for a worker's message. *)
(* SRC engine/runtime/external_workers/registration.rs:161-204! EngineExternalWorkerRuntime::publish_stream *)
Definition stream_invocation (ids : PublishIds) (c : ExternalWorkerConnection) (m : WorkerStreamPublish) :
    Invocation :=
  let context :=
    with_idempotency_key
      (with_scope (with_scope
         (causal_context_new ("worker:" +s ws_worker_id m) Actor_Worker
            (tk_authority_grant_id (xc_worker_token c)) (default (pb_trace ids) (ws_trace_id m)))
         "stream.write") ENGINE_INTERNAL_INVOKE_SCOPE)
      (ws_idempotency_key m) in
  let context := match ws_parent_invocation_id m with
                 | Some parent => with_parent_invocation context parent
                 | None => context
                 end in
  let context := scoped_context (or_else (ws_session_id m) (xc_session_id c))
                   (or_else (ws_workspace_id m) (xc_workspace_id c)) context in
  let payload :=
    with_field "workspaceId" (ws_workspace_id m)
      (with_field "sessionId" (ws_session_id m)
         [("topic", VString (ws_topic m)); ("payload", ws_payload m);
          ("visibility", VString (visibility_as_str (ws_visibility m)));
          ("producer", VString (ws_worker_id m))]) in
  with_delivery_mode (new_sync (pb_invocation ids) "stream::publish" (VObject payload) context)
    Delivery_Sync.

(* SRC engine/runtime/external_workers/registration.rs:142-205 EngineExternalWorkerRuntime::publish_stream *)
Definition worker_publish_stream (ids : PublishIds) (m : WorkerStreamPublish) : R WorkerCatalogChange :=
  let! connection := connection_of (ws_worker_id m) in
  asks (fun _ => require (bool_decide (xc_health connection = WorkerHealth_Healthy))
                   ("worker " +s ws_worker_id m +s " is not healthy")) ;;
  asks (fun _ => validate_worker_stream_publish connection m) ;;
  let! revision := host_invocation ids (stream_invocation ids connection m) in
  rret (catalog_change_of (ws_worker_id m) (ws_worker_id m) "stream_published" revision).

(** ** Messages *)

(* SRC engine/runtime/external_workers/mod.rs:106-141 EngineExternalWorkerRuntime::handle_message *)
Definition handle_message (ids ids' : PublishIds) (message : WorkerProtocolMessage) :
    R (option WorkerProtocolMessage) :=
  match message with
  | Msg_Hello hello =>
      let! snapshot := worker_hello ids hello in rret (Some (Msg_CatalogSnapshot snapshot))
  | Msg_RegisterFunction m =>
      let! change := worker_register_function ids m in rret (Some (Msg_CatalogChange change))
  | Msg_RegisterTrigger d =>
      let! change := worker_register_trigger ids d in rret (Some (Msg_CatalogChange change))
  | Msg_PublishStream m =>
      let! change := worker_publish_stream ids m in rret (Some (Msg_CatalogChange change))
  | Msg_Heartbeat id sequence => worker_heartbeat (pb_now ids) id sequence ;; rret None
  | Msg_Disconnect id reason => worker_disconnect ids ids' id reason ;; rret None
  | Msg_Result _ | Msg_Invoke _ | Msg_CatalogSnapshot _ | Msg_CatalogChange _ => rret None
  end.

(* SRC engine/runtime/external_workers/mod.rs:143-155 EngineExternalWorkerRuntime::invocation_result_from_worker *)
Definition invocation_result_from_worker (invocation_id : InvocationId) (r : WorkerInvocationResult) : Value :=
  VObject [("invocationId", VString invocation_id); ("workerInvocationId", VString (wr_invocation_id r));
           ("result", default Null (wr_result r)); ("error", default Null (wr_error r))].

(** ** The socket *)

(** One parsed frame of a socket whose hellos so far named [worker_id]; a result
    frame goes to the pending invocations of the socket and not to the runtime. *)
(* SRC transport/runtime/external_workers.rs:104-125! run_external_worker_socket *)
Definition socket_frame (ids ids' : PublishIds) (invoker : I) (message : WorkerProtocolMessage)
    (worker_id : option WorkerId) (rt : runtime)
  : Result (option WorkerProtocolMessage) * option WorkerId * runtime :=
  let worker_id := match message with
                   | Msg_Hello hello => Some (wk_id (wh_worker hello))
                   | _ => worker_id
                   end in
  match message with
  | Msg_Result _ => (Ok None, worker_id, rt)
  | _ =>
      let '(response, rt) := handle_message ids ids' message rt in
      let rt := match worker_id, response with
                | Some id, Ok _ => (attach_invoker id invoker rt).2
                | _, _ => rt
                end in
      (response, worker_id, rt)
  end.
(** The end of a socket. *)
(* SRC transport/runtime/external_workers.rs:148-157! run_external_worker_socket *)
Definition socket_closed (ids ids' : PublishIds) (worker_id : option WorkerId) (rt : runtime) : runtime :=
  match worker_id with
  | Some id => (worker_disconnect ids ids' id "websocket disconnected" rt).2
  | None => rt
  end.

(** ** What an invocation leaves alone *)

(** The registrations of the catalog. *)
Definition registrations (c : LiveCatalog H S) :=
  (lc_workers c, lc_functions c, lc_triggers c, lc_trigger_types c).
Definition quiet (h h' : host) : Prop := registrations (eh_catalog h') = registrations (eh_catalog h).

Lemma record_registrations now i r scope leases comp c :
  registrations (snd (record_invocation_result_with_contracts now i r scope leases comp c)) = registrations c.
Proof. unfold record_invocation_result_with_contracts. by repeat case_match. Qed.
Lemma settle_registrations now i f idem r c :
  registrations (snd (settle_reservation debug now i f idem r c)) = registrations c.
Proof.
  unfold settle_reservation, complete_invocation_idempotency. destruct idem as [rv|]; [|done].
  by repeat case_match; simplify_eq.
Qed.
Lemma refuse_registrations now i f idem e c :
  registrations (snd (refuse_reserved debug now i f idem e c)) = registrations c.
Proof.
  unfold refuse_reserved. pose proof (settle_registrations now i f idem (error_result f i (lc_revision c) e) c) as Hs.
  destruct (settle_reservation _ _ _ _ _ _ _) as [r c1]. simpl in *.
  unfold record_invocation_result. by rewrite record_registrations.
Qed.
Lemma prepare_reserved_registrations now ev i f handler idem c :
  registrations (snd (prepare_reserved debug now ev i f handler idem c)) = registrations c.
Proof.
  unfold prepare_reserved. destruct (check_schema _ _ _ _ _); [|apply refuse_registrations].
  destruct handler as [x|]; [|apply refuse_registrations].
  destruct (consume_budget now ev f i c) as [c1|] eqn:E; [|apply refuse_registrations].
  unfold consume_budget in E. destruct (consume_invocation_budget _ _ _ _) as [[? g]|]; [|done].
  by injection E as <-.
Qed.
Lemma prepare_registrations now ev i c :
  registrations (snd (prepare_sync_invocation debug sha256_hex encode fs now ev i c)) = registrations c.
Proof.
  unfold prepare_sync_invocation, prepare_invocation, finished, record_invocation_result.
  destruct (lc_functions c !! inv_function_id i) as [entry|]; simpl; [|by rewrite record_registrations].
  destruct (check_invocation _ _ _ _ _ _ _ _); simpl; [|by rewrite record_registrations].
  destruct (idempotency_lookup _ _ _ _) as [[r|]|]; simpl;
    [|apply prepare_reserved_registrations|by rewrite record_registrations].
  destruct (lg_reserve now r (lc_ledger c)) as [[[e|e]|e] l]; simpl;
    rewrite ?prepare_reserved_registrations, ?record_registrations; done.
Qed.
Lemma finish_registrations now p answer leases comp c :
  registrations (snd (finish_prepared_sync_invocation_with_contracts debug now p answer leases comp c))
  = registrations c.
Proof.
  unfold finish_prepared_sync_invocation_with_contracts. destruct (pi_idempotency p) as [r|].
  - destruct (lg_complete _ _ _ _ _) as [[[]|e] l]; by rewrite record_registrations.
  - by rewrite record_registrations.
Qed.

(** A handler of [stream::publish] that registers nothing. *)
Definition publishes_only (run : H -> Invocation -> host -> HandlerOutcome * host) : Prop :=
  forall x i h, inv_function_id i = "stream::publish" -> quiet h (run x i h).2.

Lemma run_with_lease_quiet t f i body (h : host) :
  (forall h, quiet h (body h).2) -> quiet h (run_with_lease rfc3339 t f i body h).2.
Proof.
  intros Hb. unfold run_with_lease, acquire_for_invocation, acquire_resource_lease.
  assert (forall now e (x : host), eh_catalog (publish now e x) = eh_catalog x) as Hp
    by (intros; apply publish_catalog).
  assert (forall now id (x : host), quiet x (release_resource_lease rfc3339 now id x).2) as Hr.
  { intros now id x. unfold release_resource_lease, quiet. by destruct (ls_release _ _ _) as [[[?|]|] ?]; simpl; rewrite ?Hp. }
  destruct (fn_resource_lease f) as [q|].
  2:{ specialize (Hb h). by destruct (body h). }
  destruct (lease_request_from_requirement q i) as [request|]; [|done].
  destruct (ls_acquire _ _ _ _) as [[lease|e] l]; simpl; [|done].
  match goal with |- context [body ?x] => pose proof (Hb x) as Hbx; destruct (body x) as [r h1] end.
  simpl in *. pose proof (Hr (tk_after t) (rl_lease_id lease) h1) as Hrel.
  destruct (release_resource_lease _ _ _ h1) as [rel h2]. simpl in *. unfold quiet in *.
  rewrite Hp in Hbx. simpl in Hbx. congruence.
Qed.

Lemma prepare_reserved_target now ev i f handler idem (c c' : LiveCatalog H S) (p : PreparedSyncInvocation H) :
  prepare_reserved debug now ev i f handler idem c = (Execute p, c') -> pi_invocation p = i.
Proof.
  assert (forall err, refuse_reserved debug now i f idem err c <> (Execute p, c')) as Hno.
  { intros err. unfold refuse_reserved. by destruct (settle_reservation _ _ _ _ _ _ _). }
  unfold prepare_reserved. destruct (check_schema _ _ _ _ _); [|by intros ?%Hno].
  destruct handler as [x|]; [|by intros ?%Hno].
  destruct (consume_budget now ev f i c) as [c1|]; [|by intros ?%Hno]. by intros [= <- _].
Qed.
Lemma prepare_target now ev i (c c' : LiveCatalog H S) (p : PreparedSyncInvocation H) :
  prepare_sync_invocation debug sha256_hex encode fs now ev i c = (Execute p, c') ->
  inv_function_id (pi_invocation p) = inv_function_id i.
Proof.
  unfold prepare_sync_invocation, prepare_invocation, finished.
  destruct (lc_functions c !! inv_function_id i) as [entry|]; [|done]. cbv zeta.
  destruct (check_invocation _ _ _ _ _ _ _ _); [|done].
  destruct (idempotency_lookup _ _ _ _) as [[r|]|]; [|by intros ->%prepare_reserved_target|done].
  destruct (lg_reserve now r (lc_ledger c)) as [[[e|e]|e] l]; [|done|done].
  by intros ->%prepare_reserved_target.
Qed.

Lemma execute_quiet t (p : PreparedSyncInvocation H) (h : host) :
  publishes_only run_handler -> inv_function_id (pi_invocation p) = "stream::publish" ->
  quiet h (execute_prepared_regular debug rfc3339 run_handler t p h).2.
Proof.
  intros Hquiet Hi. unfold execute_prepared_regular, execute_prepared_regular_with_recording_policy.
  pose proof (run_with_lease_quiet t (pi_function p) (pi_invocation p)
    (invoke_prepared_handler run_handler p) h) as Hrun.
  destruct (run_with_lease _ _ _ _ _ _) as [[answer leases] h1]. simpl in *.
  assert (quiet h h1) as Hq.
  { apply Hrun. intros x. unfold invoke_prepared_handler. specialize (Hquiet (pi_handler p) _ x Hi).
    by destruct (run_handler _ _ x). }
  unfold on_catalog. pose proof (finish_registrations (tk_after t) p answer leases
    ((fun _ => "recorded") <$> fn_compensation (pi_function p)) (eh_catalog h1)) as Hf.
  destruct (finish_prepared_sync_invocation_with_contracts _ _ _ _ _ _ _) as [r c1]. simpl in *.
  match goal with |- context [record_compensation_for_result ?a ?b ?x ?id ?i ?k ?r ?l ?h2] =>
    pose proof (record_compensation_catalog a b x id i k r l h2) as Hc;
    destruct (record_compensation_for_result a b x id i k r l h2) as [comp h3] end.
  simpl in *. unfold quiet in *. rewrite Hc. simpl. congruence.
Qed.

Lemma invoke_quiet ids i rt :
  publishes_only run_handler -> inv_function_id i = "stream::publish" ->
  quiet (er_host rt) (er_host (host_invocation ids i rt).2).
Proof.
  intros Hquiet Hi. unfold host_invocation, invoke. rewrite Hi. simpl.
  unfold prepare_then_execute, on_catalog.
  pose proof (prepare_registrations (tk_before (pb_tick ids)) (tk_grant_event (pb_tick ids)) i
                (eh_catalog (er_host rt))) as Hp.
  destruct (prepare_sync_invocation _ _ _ _ _ _ _ _) as [[p|r] c1] eqn:Eprep; simpl in *; [|exact Hp].
  apply prepare_target in Eprep. rewrite Hi in Eprep.
  match goal with |- context [execute_prepared_regular _ _ _ ?t p ?h] =>
    pose proof (execute_quiet t p h Hquiet Eprep) as He;
    destruct (execute_prepared_regular debug rfc3339 run_handler t p h) as [r h2] end.
  simpl in *. unfold quiet in *. simpl in He. congruence.
Qed.

(** ** What the registry operations change *)

Lemma bind_inv {A B} (m : M A) (k : A -> M B) (c c' : LiveCatalog H S) b :
  Catalog.bind m k c = (Ok b, c') -> exists a c1, m c = (Ok a, c1) /\ k a c1 = (Ok b, c').
Proof. unfold Catalog.bind. destruct (m c) as [[a|] c1]; [|done]. eauto. Qed.
Lemma reads_inv {A} (f : LiveCatalog H S -> Result A) c c' a :
  reads f c = (Ok a, c') -> f c = Ok a /\ c' = c.
Proof. by intros [= <- <-]. Qed.
Lemma ledger_inv {A} (f : S -> Result A * S) (c c' : LiveCatalog H S) r :
  on_ledger f c = (r, c') -> registrations c' = registrations c.
Proof. unfold on_ledger. destruct (f (lc_ledger c)). by intros [= <- <-]. Qed.
Lemma record_inv now kind subject (c c' : LiveCatalog H S) r :
  record_change uuid now kind subject c = (r, c') -> registrations c' = registrations c.
Proof.
  unfold record_change, Catalog.bind, on_ledger, modify.
  destruct (lg_append_catalog_change _ _) as [[[]|] ?]; by intros [= <- <-].
Qed.
Ltac catalog_ok :=
  repeat match goal with
    | H : Catalog.bind _ _ _ = (Ok _, _) |- _ => apply bind_inv in H as (? & ? & ? & ?)
    | H : reads _ _ = (Ok _, _) |- _ => apply reads_inv in H as [? ->]
    | H : modify _ _ = (Ok _, _) |- _ => unfold modify in H; injection H as ?
    | H : ret _ _ = (Ok _, _) |- _ => unfold ret in H; injection H as ? ?
    | H : on_ledger _ _ = (_, _) |- _ => apply ledger_inv in H
    | H : record_change _ _ _ _ _ = (_, _) |- _ => apply record_inv in H
    | H : (if ?b then on_ledger _ else on_ledger _) _ = _ |- _ => destruct b
    end.
Ltac solve_registrations := unfold registrations in *; simpl in *; simplify_eq/=; congruence.

Lemma remove_function_ok now id (c c' : LiveCatalog H S) :
  remove_function_entry uuid now id c = (Ok tt, c') ->
  registrations c' = (lc_workers c, delete id (lc_functions c), lc_triggers c, lc_trigger_types c).
Proof.
  unfold remove_function_entry. destruct (lc_functions c !! id) eqn:E; intros Ho.
  - catalog_ok; subst; solve_registrations.
  - injection Ho as <-. unfold registrations. by rewrite delete_id.
Qed.
Lemma remove_trigger_ok now id (c c' : LiveCatalog H S) :
  remove_trigger_entry uuid now id c = (Ok tt, c') ->
  registrations c' = (lc_workers c, lc_functions c, delete id (lc_triggers c), lc_trigger_types c).
Proof.
  unfold remove_trigger_entry. destruct (lc_triggers c !! id) eqn:E; intros Ho.
  - catalog_ok; subst; solve_registrations.
  - injection Ho as <-. unfold registrations. by rewrite delete_id.
Qed.
Lemma remove_trigger_type_ok now id (c c' : LiveCatalog H S) :
  remove_trigger_type_entry uuid now id c = (Ok tt, c') ->
  registrations c' = (lc_workers c, lc_functions c, lc_triggers c, delete id (lc_trigger_types c)).
Proof.
  unfold remove_trigger_type_entry. destruct (lc_trigger_types c !! id) eqn:E; intros Ho.
  - catalog_ok; subst; solve_registrations.
  - injection Ho as <-. unfold registrations. by rewrite delete_id.
Qed.

Notation Registrations := (gmap string WorkerEntry * gmap string (FunctionEntry H)
  * gmap string TriggerEntry * gmap string TriggerTypeEntry)%type.
Lemma for_each_ok {A} (f : A -> @M H S unit) (update : A -> Registrations -> Registrations) xs c c' :
  (forall x c c', f x c = (Ok tt, c') -> registrations c' = update x (registrations c)) ->
  for_each f xs c = (Ok tt, c') ->
  registrations c' = fold_left (fun r x => update x r) xs (registrations c).
Proof.
  intros Hf. revert c. induction xs as [|x xs IH]; intros c; simpl; [by intros [= <-]|].
  intros ([] & c1 & Hx & Hr)%bind_inv. rewrite (IH c1 Hr). by rewrite (Hf x c c1 Hx).
Qed.
Lemma fold_delete {A B} (project : A -> gmap string B) (update : string -> A -> A) xs r k :
  (forall x r, project (update x r) = delete x (project r)) ->
  project (fold_left (fun r x => update x r) xs r) !! k
  = if decide (k ∈ xs) then None else project r !! k.
Proof.
  intros Hu. revert r. induction xs as [|x xs IH]; intros r; cbn [fold_left].
  - by rewrite decide_False by apply not_elem_of_nil.
  - rewrite IH, Hu. destruct (decide (k ∈ xs)); [by rewrite decide_True by set_solver|].
    destruct (decide (k = x)) as [->|Hne].
    + rewrite lookup_delete_eq. by rewrite decide_True by set_solver.
    + rewrite lookup_delete_ne by done. by rewrite decide_False by set_solver.
Qed.
Lemma fold_frame {A B C'} (project : A -> C') (update : B -> A -> A) xs r :
  (forall x r, project (update x r) = project r) ->
  project (fold_left (fun r x => update x r) xs r) = project r.
Proof. intros Hu. revert r. induction xs as [|x xs IH]; intros r; [done|]. simpl. by rewrite IH, Hu. Qed.

Lemma ids_where_spec {A} (test : A -> bool) (m : gmap string A) k :
  k ∈ ids_where test m <-> exists e, m !! k = Some e /\ test e = true.
Proof.
  unfold ids_where. rewrite list_elem_of_In, in_map_iff. split.
  - intros ([k' e] & <- & Hin%filter_In). destruct Hin as [Hin Ht]. exists e.
    split; [|done]. by apply elem_of_btree_entries, list_elem_of_In.
  - intros (e & Hk & Ht). exists (k, e). split; [done|]. apply filter_In.
    split; [|done]. by apply list_elem_of_In, elem_of_btree_entries.
Qed.

Definition drop_function (id : string) (r : Registrations) : Registrations :=
  let '(w, f, t, y) := r in (w, delete id f, t, y).
Definition drop_trigger (id : string) (r : Registrations) : Registrations :=
  let '(w, f, t, y) := r in (w, f, delete id t, y).
Definition drop_trigger_type (id : string) (r : Registrations) : Registrations :=
  let '(w, f, t, y) := r in (w, f, t, delete id y).

(** The entries that fail the test. *)
Definition without {A} (test : A -> bool) (m m' : gmap string A) : Prop :=
  forall k, m' !! k = match m !! k with Some e => if test e then None else Some e | None => None end.
Lemma without_ids {A} (test : A -> bool) (m m' : gmap string A) :
  (forall k, m' !! k = if decide (k ∈ ids_where test m) then None else m !! k) -> without test m m'.
Proof.
  intros Hm k. rewrite Hm. destruct (decide _) as [Hin|Hno].
  - apply ids_where_spec in Hin as (e & -> & ->). done.
  - destruct (m !! k) as [e|] eqn:E; [|done]. destruct (test e) eqn:Et; [|done].
    exfalso. apply Hno, ids_where_spec. eauto.
Qed.
Lemma remove_functions_ok now test (c c' : LiveCatalog H S) :
  for_each (remove_function_entry uuid now) (ids_where test (lc_functions c)) c = (Ok tt, c') ->
  lc_workers c' = lc_workers c /\ without test (lc_functions c) (lc_functions c') /\
  lc_triggers c' = lc_triggers c.
Proof.
  intros Hf%(for_each_ok _ drop_function); [|intros; by apply remove_function_ok in H0].
  assert (forall x r, (drop_function x r).1.1.1 = r.1.1.1) as H1 by (by intros x [[[??]?]?]).
  assert (forall x r, (drop_function x r).1.1.2 = delete x r.1.1.2) as H2 by (by intros x [[[??]?]?]).
  assert (forall x r, (drop_function x r).1.2 = r.1.2) as H3 by (by intros x [[[??]?]?]).
  split_and!.
  - change (lc_workers c') with (registrations c').1.1.1. rewrite Hf.
    by rewrite (fold_frame (fun r : Registrations => r.1.1.1) drop_function _ _ H1).
  - apply without_ids. intros k. change (lc_functions c') with (registrations c').1.1.2. rewrite Hf.
    by rewrite (fold_delete (fun r : Registrations => r.1.1.2) drop_function _ _ k H2).
  - change (lc_triggers c') with (registrations c').1.2. rewrite Hf.
    by rewrite (fold_frame (fun r : Registrations => r.1.2) drop_function _ _ H3).
Qed.
Lemma remove_triggers_ok now test (c c' : LiveCatalog H S) :
  for_each (remove_trigger_entry uuid now) (ids_where test (lc_triggers c)) c = (Ok tt, c') ->
  lc_workers c' = lc_workers c /\ lc_functions c' = lc_functions c /\
  without test (lc_triggers c) (lc_triggers c').
Proof.
  intros Hf%(for_each_ok _ drop_trigger); [|intros; by apply remove_trigger_ok in H0].
  assert (forall x r, (drop_trigger x r).1.1 = r.1.1) as H1 by (by intros x [[[??]?]?]).
  assert (forall x r, (drop_trigger x r).1.2 = delete x r.1.2) as H2 by (by intros x [[[??]?]?]).
  pose proof (fold_frame (fun r : Registrations => r.1.1) drop_trigger (ids_where test (lc_triggers c))
    (registrations c) H1) as Hw. simpl in Hw. rewrite <- Hf in Hw. injection Hw as Hw Hfun.
  split_and!; [done..|]. apply without_ids. intros k.
  change (lc_triggers c') with (registrations c').1.2. rewrite Hf.
  by rewrite (fold_delete (fun r : Registrations => r.1.2) drop_trigger _ _ k H2).
Qed.
Lemma remove_trigger_types_ok now ids (c c' : LiveCatalog H S) :
  for_each (remove_trigger_type_entry uuid now) ids c = (Ok tt, c') ->
  lc_workers c' = lc_workers c /\ lc_functions c' = lc_functions c /\ lc_triggers c' = lc_triggers c.
Proof.
  intros Hf%(for_each_ok _ drop_trigger_type); [|intros; by apply remove_trigger_type_ok in H0].
  assert (forall x r, (drop_trigger_type x r).1 = r.1) as H1 by (by intros x [[[??]?]?]).
  pose proof (fold_frame (fun r : Registrations => r.1) drop_trigger_type ids (registrations c) H1) as Hw.
  rewrite <- Hf in Hw. by injection Hw as -> -> ->.
Qed.

Definition volatile_function (id : WorkerId) (e : FunctionEntry H) : bool :=
  fe_volatile e && (fn_owner_worker (fe_definition e) =s id).
Definition volatile_trigger (id : WorkerId) (e : TriggerEntry) : bool :=
  te_volatile e && (tr_owner_worker (te_definition e) =s id).
(** Unregistering a worker removes what is volatile and its own. *)
Lemma unregister_worker_ok now id owner (c c' : LiveCatalog H S) :
  unregister_worker uuid now id owner c = (Ok tt, c') ->
  lc_workers c' = delete id (lc_workers c) /\
  without (volatile_function id) (lc_functions c) (lc_functions c') /\
  without (volatile_trigger id) (lc_triggers c) (lc_triggers c').
Proof.
  unfold unregister_worker, cleanup_owned_volatile. intros Ho.
  apply bind_inv in Ho as (d & c0 & Hd%reads_inv & Ho). destruct Hd as [_ ->].
  apply bind_inv in Ho as ([] & c1 & Hclean & Ho). catalog_ok. subst.
  repeat match goal with H : Ok _ = Ok _ |- _ => injection H as <- end.
  repeat match goal with u : unit |- _ => destruct u end.
  match goal with H : for_each (remove_function_entry _ _) _ _ = _ |- _ =>
    apply remove_functions_ok in H as (Hw1 & Hf1 & Ht1) end.
  match goal with H : for_each (remove_trigger_entry _ _) _ _ = _ |- _ =>
    apply remove_triggers_ok in H as (Hw2 & Hf2 & Ht2) end.
  match goal with H : for_each (remove_trigger_type_entry _ _) _ _ = _ |- _ =>
    apply remove_trigger_types_ok in H as (Hw3 & Hf3 & Ht3) end.
  repeat match goal with H : registrations _ = registrations _ |- _ => injection H as ? ? ? ? end.
  simpl. split_and!; [congruence| |].
  - match type of Hf1 with without _ _ ?m1 => match goal with |- without _ _ ?m =>
      replace m with m1 by congruence end end. exact Hf1.
  - rewrite Ht1 in Ht2. match type of Ht2 with without _ _ ?m1 => match goal with |- without _ _ ?m =>
      replace m with m1 by congruence end end. exact Ht2.
Qed.

Lemma register_worker_ok now d v (c c' : LiveCatalog H S) r :
  register_worker uuid now d v c = (Ok r, c') ->
  registrations c' =
  (<[wk_id d := {| we_definition := set_wk_revision r d; we_volatile := v |}]> (lc_workers c),
   lc_functions c, lc_triggers c, lc_trigger_types c).
Proof.
  unfold register_worker. intros Ho. apply bind_inv in Ho as (? & ? & ? & Ho). catalog_ok.
  match goal with x : CatalogChangeKind * Z |- _ => destruct x as [kind rev] end.
  catalog_ok; subst; solve_registrations.
Qed.
Lemma register_function_ok now d handler v (c c' : LiveCatalog H S) r :
  register_function uuid debug now d handler v c = (Ok r, c') ->
  registrations c' =
  (lc_workers c,
   <[fn_id d := {| fe_definition := set_fn_revision r d; fe_handler := handler; fe_volatile := v |}]>
     (lc_functions c), lc_triggers c, lc_trigger_types c).
Proof.
  unfold register_function. intros Ho. apply bind_inv in Ho as (? & ? & ? & Ho). catalog_ok.
  match goal with x : CatalogChangeKind * Z |- _ => destruct x as [kind rev] end.
  catalog_ok; subst; solve_registrations.
Qed.
Lemma register_trigger_ok now d v (c c' : LiveCatalog H S) r :
  register_trigger uuid now d v c = (Ok r, c') ->
  registrations c' =
  (lc_workers c, lc_functions c,
   <[tr_id d := {| te_definition := set_tr_revision r d; te_volatile := v |}]> (lc_triggers c),
   lc_trigger_types c).
Proof.
  unfold register_trigger. intros Ho. apply bind_inv in Ho as (x & ? & ? & Ho). catalog_ok.
  destruct x as [kind rev]. catalog_ok; subst; solve_registrations.
Qed.

Lemma bind_err {A B} (m : @M H S A) (k : A -> @M H S B) c c' e :
  Catalog.bind m k c = (Err e, c') ->
  m c = (Err e, c') \/ exists a c1, m c = (Ok a, c1) /\ k a c1 = (Err e, c').
Proof. unfold Catalog.bind. destruct (m c) as [[a|] c1]; [eauto|]. intros [= -> ->]. by left. Qed.
Ltac catalog_err :=
  repeat match goal with
    | H : Catalog.bind _ _ _ = (Err _, _) |- _ =>
        apply bind_err in H as [H|(? & ? & ? & H)]
    | H : reads _ _ = (Err _, _) |- _ => unfold reads in H; injection H as ? <-
    | H : modify _ _ = (Err _, _) |- _ => unfold modify in H; discriminate H
    | H : ret _ _ = (Err _, _) |- _ => unfold ret in H; discriminate H
    | x : CatalogChangeKind * Z |- _ => destruct x
    | H : (if ?b then on_ledger _ else on_ledger _) _ = _ |- _ => destruct b
    | H : on_ledger _ _ = (_, _) |- _ => apply ledger_inv in H
    | H : record_change _ _ _ _ _ = (_, _) |- _ => apply record_inv in H
    | H : reads _ _ = (Ok _, _) |- _ => apply reads_inv in H as [? ->]
    | H : modify _ _ = (Ok _, _) |- _ => unfold modify in H; injection H as ?
    end; try congruence.

Lemma register_worker_err now d v (c c' : LiveCatalog H S) e :
  register_worker uuid now d v c = (Err e, c') -> registrations c' = registrations c.
Proof. unfold register_worker. intros Ho. catalog_err. Qed.
Lemma register_function_err now d handler v (c c' : LiveCatalog H S) e :
  register_function uuid debug now d handler v c = (Err e, c') -> registrations c' = registrations c.
Proof. unfold register_function. intros Ho. catalog_err. Qed.
Lemma register_trigger_err now d v (c c' : LiveCatalog H S) e :
  register_trigger uuid now d v c = (Err e, c') -> registrations c' = registrations c.
Proof. unfold register_trigger. intros Ho. catalog_err. Qed.

(** A function is replaced only by its owner. *)
Lemma register_function_owner now d handler v (c c' : LiveCatalog H S) r e :
  register_function uuid debug now d handler v c = (Ok r, c') -> lc_functions c !! fn_id d = Some e ->
  fn_owner_worker (fe_definition e) = fn_owner_worker d.
Proof.
  unfold register_function. intros Ho He. catalog_ok.
  repeat match goal with H : match lc_functions c !! _ with _ => _ end = Ok _ |- _ => rewrite He in H end.
  match goal with H : (if negb (?a =s ?b) then _ else _) = Ok _ |- _ =>
    destruct (String.eqb_spec a b); [done|discriminate H] end.
Qed.

(** Entries of other workers stay. *)
Definition keeps_functions_but (id : WorkerId) (c c' : LiveCatalog H S) : Prop :=
  forall k e, lc_functions c !! k = Some e -> fn_owner_worker (fe_definition e) <> id ->
    lc_functions c' !! k = Some e.
Lemma keeps_but_eq id (c c' : LiveCatalog H S) : lc_functions c' = lc_functions c -> keeps_functions_but id c c'.
Proof. by intros E k e; rewrite E. Qed.
Lemma keeps_but_trans id (c1 c2 c3 : LiveCatalog H S) :
  keeps_functions_but id c1 c2 -> keeps_functions_but id c2 c3 -> keeps_functions_but id c1 c3.
Proof. intros H1 H2 k e Hk Ho. auto. Qed.

Lemma register_function_keeps now d handler v (c : LiveCatalog H S) :
  keeps_functions_but (fn_owner_worker d) c (register_function uuid debug now d handler v c).2.
Proof.
  destruct (register_function uuid debug now d handler v c) as [[r|e] c'] eqn:E; simpl.
  - intros k e Hk Ho. pose proof (register_function_ok _ _ _ _ _ _ _ E) as Hr.
    injection Hr as _ -> _ _. destruct (decide (k = fn_id d)) as [->|Hne].
    + exfalso. eauto using register_function_owner.
    + by rewrite lookup_insert_ne.
  - apply keeps_but_eq. apply register_function_err in E. by injection E.
Qed.
Lemma for_each_keeps {A} (f : A -> @M H S unit) (J : LiveCatalog H S -> Prop) xs c :
  (forall x c, x ∈ xs -> J c -> J (f x c).2) -> J c -> J (for_each f xs c).2.
Proof.
  revert c. induction xs as [|x xs IH]; intros c Hf Hc; [done|]. simpl. unfold Catalog.bind.
  assert (J (f x c).2) as Hx by (apply Hf; [left|done]).
  destruct (f x c) as [[[]|] c1]; [|done]. apply IH; [|done]. intros; apply Hf; [by right|done].
Qed.
Lemma bind_keeps {A B} (m : @M H S A) (k : A -> @M H S B) (J : LiveCatalog H S -> Prop) c :
  J (m c).2 -> (forall a c1, m c = (Ok a, c1) -> J c1 -> J (k a c1).2) -> J (Catalog.bind m k c).2.
Proof. unfold Catalog.bind. intros Hm Hk. destruct (m c) as [[a|] c1] eqn:E; [by apply Hk|done]. Qed.

Lemma remove_function_any now k (c : LiveCatalog H S) :
  lc_functions (remove_function_entry uuid now k c).2 = lc_functions c \/
  lc_functions (remove_function_entry uuid now k c).2 = delete k (lc_functions c).
Proof.
  unfold remove_function_entry. destruct (lc_functions c !! k) as [e|]; [|by left].
  unfold Catalog.bind. destruct (record_change uuid now _ _ c) as [r c1] eqn:E.
  apply record_inv in E. injection E as ? Hf ? ?. destruct r; simpl; rewrite Hf; auto.
Qed.
Lemma remove_trigger_any now k (c : LiveCatalog H S) :
  lc_functions (remove_trigger_entry uuid now k c).2 = lc_functions c.
Proof.
  unfold remove_trigger_entry. destruct (lc_triggers c !! k) as [e|]; [|done].
  unfold Catalog.bind. destruct (record_change uuid now _ _ c) as [r c1] eqn:E.
  apply record_inv in E. injection E as ? Hf ? ?. by destruct r.
Qed.
Lemma remove_trigger_type_any now k (c : LiveCatalog H S) :
  lc_functions (remove_trigger_type_entry uuid now k c).2 = lc_functions c.
Proof.
  unfold remove_trigger_type_entry. destruct (lc_trigger_types c !! k) as [e|]; [|done].
  unfold Catalog.bind. destruct (record_change uuid now _ _ c) as [r c1] eqn:E.
  apply record_inv in E. injection E as ? Hf ? ?. by destruct r.
Qed.

Lemma cleanup_keeps now id (c : LiveCatalog H S) :
  keeps_functions_but id c (cleanup_owned_volatile uuid now id c).2.
Proof.
  unfold cleanup_owned_volatile. apply bind_keeps; [by intros ?|]. intros ids c0 [[= <-] ->]%reads_inv _.
  apply bind_keeps.
  { apply (for_each_keeps _ (fun c' => keeps_functions_but id c c')); [|by intros ?].
    intros k c' (e0 & He0 & [_ Ho%String.eqb_eq]%andb_prop)%ids_where_spec Hc' k' e Hk Hne.
    destruct (remove_function_any now k c') as [-> | ->]; [by apply Hc'|].
    rewrite lookup_delete_ne; [by apply Hc'|]. intros <-. congruence. }
  intros [] c1 _ H1. apply bind_keeps; [done|]. intros ids c2 [[= <-] ->]%reads_inv _.
  apply bind_keeps.
  { apply (for_each_keeps _ (fun c' => keeps_functions_but id c c')); [|done].
    intros k c' _ Hc' k' e Hk Hne. rewrite remove_trigger_any. by apply Hc'. }
  intros [] c2 _ H2. apply bind_keeps; [done|]. intros ids c3 [[= <-] ->]%reads_inv _.
  apply (for_each_keeps _ (fun c' => keeps_functions_but id c c')); [|done].
  intros k c' _ Hc' k' e Hk Hne. rewrite remove_trigger_type_any. by apply Hc'.
Qed.
Lemma unregister_worker_keeps now id owner (c : LiveCatalog H S) :
  keeps_functions_but id c (unregister_worker uuid now id owner c).2.
Proof.
  unfold unregister_worker. apply bind_keeps; [by intros ?|]. intros d c0 [_ ->]%reads_inv _.
  apply bind_keeps; [apply cleanup_keeps|]. intros [] c1 _ H1. apply bind_keeps.
  { destruct (record_change uuid now _ _ c1) as [r c2] eqn:E. apply record_inv in E.
    injection E as ? Hf ? ?. intros k e Hk Hne. simpl. rewrite Hf. by apply H1. }
  intros [] c2 _ H2. apply bind_keeps.
  { destruct (on_ledger _ c2) as [r c3] eqn:E. apply ledger_inv in E.
    injection E as ? Hf ? ?. intros k e Hk Hne. simpl. rewrite Hf. by apply H2. }
  intros [] c3 _ H3. exact H3.
Qed.

Hypothesis quiet_publish : publishes_only run_handler.

(** ** The invariant of connections

    With [tracking] the invariant speaks of the functions that are registered for a connection, which
    other work of the host can take away; without it, of the connections alone. *)

Section tracking.
  Variable tracking : bool.

(** The functions of a connection are registered for its worker, with its durability. *)
Definition tracks (c : LiveCatalog H S) (connection : ExternalWorkerConnection) : Prop :=
  forall f, is_Some (xc_functions connection !! f) ->
    exists e, lc_functions c !! f = Some e /\ fn_id (fe_definition e) = f /\
      fn_owner_worker (fe_definition e) = xc_worker_id connection /\
      fe_volatile e = is_volatile (xc_registration_mode connection).
(** A connection stays within the token that it presented. *)
Record connection_ok (id : WorkerId) (connection : ExternalWorkerConnection) (c : LiveCatalog H S) : Prop := {
  co_id : xc_worker_id connection = id;
  co_health : xc_health connection = WorkerHealth_Healthy;
  co_ceiling : visibility_rank (xc_default_visibility connection)
               <= visibility_rank (tk_visibility_ceiling (xc_worker_token connection));
  co_scope : bound_scope (xc_default_visibility connection) (xc_session_id connection)
               (xc_workspace_id connection) (xc_worker_token connection);
  co_selectors : Forall (fun s => trim s <> "*") (tk_resource_selectors (xc_worker_token connection));
  co_triggers : forall t, is_Some (xc_triggers connection !! t) ->
    namespace_claims_value (tk_namespace_claims (xc_worker_token connection)) t = true;
  co_tracks : tracking = true -> tracks c connection
}.
Definition runtime_inv (rt : runtime) : Prop :=
  map_Forall (fun id connection => connection_ok id connection (catalog_of rt)) (er_connections rt).

Lemma connection_ok_keeps id k connection (c c' : LiveCatalog H S) :
  keeps_functions_but k c c' -> id <> k -> connection_ok id connection c -> connection_ok id connection c'.
Proof.
  intros Hk Hne []. constructor; auto. intros Htr f Hf. destruct (co_tracks0 Htr f Hf) as (e & He & Hid & Ho & Hv).
  exists e. split_and!; auto. apply Hk; [done|congruence].
Qed.
Lemma connection_ok_eq id connection (c c' : LiveCatalog H S) :
  lc_functions c' = lc_functions c -> connection_ok id connection c -> connection_ok id connection c'.
Proof.
  intros E []. constructor; auto. intros Htr f Hf. rewrite E. by apply co_tracks0.
Qed.
Lemma inv_untracked rt rt' :
  tracking = false -> er_connections rt' = er_connections rt -> runtime_inv rt -> runtime_inv rt'.
Proof.
  intros Hf E Hi id connection. rewrite E. intros Hc. destruct (Hi _ _ Hc). constructor; auto. congruence.
Qed.
Lemma inv_quiet h rt :
  quiet (er_host rt) h -> runtime_inv rt -> runtime_inv (set_er_host h rt).
Proof.
  intros Hq Hi id connection Hc. eapply connection_ok_eq; [|by apply Hi].
  unfold quiet in Hq. injection Hq as ? Hf ? ?. exact Hf.
Qed.

(** *** Composition *)

Lemma andThen_keeps {A B} (m : R A) (k : A -> R B) (J : runtime -> Prop) rt :
  J (m rt).2 -> (forall a rt1, m rt = (Ok a, rt1) -> J rt1 -> J (k a rt1).2) -> J (andThen m k rt).2.
Proof. unfold andThen. intros Hm Hk. destruct (m rt) as [[a|] rt1] eqn:E; [by apply Hk|done]. Qed.
Lemma andThen_inv {A B} (m : R A) (k : A -> R B) rt rt' b :
  andThen m k rt = (Ok b, rt') -> exists a rt1, m rt = (Ok a, rt1) /\ k a rt1 = (Ok b, rt').
Proof. unfold andThen. destruct (m rt) as [[a|] rt1]; [|done]. eauto. Qed.
Lemma asks_inv {A} (f : runtime -> Result A) rt rt' a : asks f rt = (Ok a, rt') -> f rt = Ok a /\ rt' = rt.
Proof. by intros [= <- <-]. Qed.
Lemma on_host_catalog_inv {A} (f : LiveCatalog H S -> Result A * LiveCatalog H S) rt r rt' :
  on_host_catalog f rt = (r, rt') ->
  f (catalog_of rt) = (r, catalog_of rt') /\ er_connections rt' = er_connections rt /\
  er_invokers rt' = er_invokers rt.
Proof.
  unfold on_host_catalog, on_catalog, catalog_of. destruct (f _) as [r' c1] eqn:E. by intros [= <- <-].
Qed.
Lemma each_keeps {A} (f : A -> R unit) (J : runtime -> Prop) xs rt :
  (forall x rt, J rt -> J (f x rt).2) -> J rt -> J (each f xs rt).2.
Proof.
  intros Hf. revert rt. induction xs as [|x xs IH]; intros rt Hr; [done|]. simpl.
  apply andThen_keeps; [by apply Hf|]. intros [] rt1 _. apply IH.
Qed.

Lemma host_invocation_frame ids i rt :
  er_connections (host_invocation ids i rt).2 = er_connections rt /\
  er_invokers (host_invocation ids i rt).2 = er_invokers rt.
Proof. unfold host_invocation. by destruct (invoke _ _ _ _ _ _ _ _ _ _ _ _ _ _ _ _ _ _ _) as [??]. Qed.
Lemma lifecycle_frame ids event c reason rt :
  publishes_only run_handler ->
  let rt' := (publish_lifecycle_event ids event c reason rt).2 in
  registrations (catalog_of rt') = registrations (catalog_of rt) /\
  er_connections rt' = er_connections rt /\ er_invokers rt' = er_invokers rt.
Proof.
  intros Hq. unfold publish_lifecycle_event, andThen, asks. cbv beta iota zeta.
  match goal with |- context [host_invocation ids ?i rt] =>
    pose proof (invoke_quiet ids i rt Hq eq_refl) as Hi;
    destruct (host_invocation_frame ids i rt) as [Hc Hv];
    destruct (host_invocation ids i rt) as [[r|] rt1] end; simpl in *; by split_and!.
Qed.
Lemma inv_publish ids event c reason rt :
  publishes_only run_handler -> runtime_inv rt -> runtime_inv (publish_lifecycle_event ids event c reason rt).2.
Proof.
  intros Hq Hi. destruct (lifecycle_frame ids event c reason rt Hq) as (Hr & Hc & _). cbv zeta in *.
  intros id connection. rewrite Hc. intros Hid. injection Hr as ? Hf ? ?.
  eapply connection_ok_eq; [exact Hf|by apply Hi].
Qed.
Lemma inv_invoke ids i rt :
  publishes_only run_handler -> inv_function_id i = "stream::publish" ->
  runtime_inv rt -> runtime_inv (host_invocation ids i rt).2.
Proof.
  intros Hq Hid Hi. pose proof (invoke_quiet ids i rt Hq Hid) as Hr.
  destruct (host_invocation_frame ids i rt) as [Hc _].
  intros k connection. rewrite Hc. intros Hk. injection Hr as ? Hf ? ?.
  eapply connection_ok_eq; [exact Hf|by apply Hi].
Qed.

(** A registry operation that leaves the functions of all but one worker. *)
Lemma inv_catalog {A} k (f : LiveCatalog H S -> Result A * LiveCatalog H S) rt :
  keeps_functions_but k (catalog_of rt) (f (catalog_of rt)).2 -> er_connections rt !! k = None ->
  runtime_inv rt -> runtime_inv (on_host_catalog f rt).2.
Proof.
  intros Hk Hno Hi. destruct (on_host_catalog f rt) as [r rt'] eqn:E. apply on_host_catalog_inv in E as (Ef & Hc & _).
  rewrite Ef in Hk. simpl in *. intros id connection. rewrite Hc. intros Hid.
  eapply connection_ok_keeps; [exact Hk|congruence|by apply Hi].
Qed.
Lemma inv_catalog_eq {A} (f : LiveCatalog H S -> Result A * LiveCatalog H S) rt :
  lc_functions (f (catalog_of rt)).2 = lc_functions (catalog_of rt) ->
  runtime_inv rt -> runtime_inv (on_host_catalog f rt).2.
Proof.
  intros Hk Hi. destruct (on_host_catalog f rt) as [r rt'] eqn:E. apply on_host_catalog_inv in E as (Ef & Hc & _).
  rewrite Ef in Hk. simpl in *. intros id connection. rewrite Hc. intros Hid.
  eapply connection_ok_eq; [exact Hk|by apply Hi].
Qed.
Lemma register_worker_functions now d v (c : LiveCatalog H S) :
  lc_functions (register_worker uuid now d v c).2 = lc_functions c.
Proof.
  destruct (register_worker uuid now d v c) as [[r|e] c'] eqn:E; simpl;
    [apply register_worker_ok in E|apply register_worker_err in E]; by injection E.
Qed.
Lemma register_trigger_functions now d v (c : LiveCatalog H S) :
  lc_functions (register_trigger uuid now d v c).2 = lc_functions c.
Proof.
  destruct (register_trigger uuid now d v c) as [[r|e] c'] eqn:E; simpl;
    [apply register_trigger_ok in E|apply register_trigger_err in E]; by injection E.
Qed.

(** *** The operations keep the invariant *)

Lemma validate_hello_ok now hello (c : LiveCatalog H S) :
  validate_hello now hello c = Ok tt ->
  within_token parse_rfc3339 now hello (wh_worker_token hello) /\
  runtime_validate_worker_grant hello c = Ok tt.
Proof.
  unfold validate_hello. rewrite !seq_ok. intros (_ & _ & _ & _ & _ & _ & _ & Ht & Hg).
  split; [by apply worker_token_ok in Ht|done].
Qed.
Lemma new_connection_ok now hello (c : LiveCatalog H S) :
  within_token parse_rfc3339 now hello (wh_worker_token hello) ->
  connection_ok (wk_id (wh_worker hello)) (new_connection now hello) c.
Proof.
  intros []. constructor; simpl; auto; [by intros t [? ?]|by intros _ f [? ?]].
Qed.
Lemma inv_put id connection rt :
  connection_ok id connection (catalog_of rt) -> runtime_inv rt ->
  runtime_inv (put_connection id connection rt).2.
Proof.
  intros Hok Hi. intros k c. simpl. change (catalog_of _) with (catalog_of rt).
  intros [[<- <-]|[_ Hk]]%lookup_insert_Some; [done|by apply Hi].
Qed.
Lemma connection_of_inv id rt rt' connection :
  connection_of id rt = (Ok connection, rt') -> er_connections rt !! id = Some connection /\ rt' = rt.
Proof.
  unfold connection_of. intros [Hc ->]%asks_inv. by destruct (er_connections rt !! id); simplify_eq/=.
Qed.

Lemma inv_hello ids hello rt : runtime_inv rt -> runtime_inv (worker_hello ids hello rt).2.
Proof.
  intros Hi. unfold worker_hello. apply andThen_keeps; [done|]. intros [] rt0 [Hv ->]%asks_inv _.
  apply validate_hello_ok in Hv as [Hw _].
  apply andThen_keeps; [by apply inv_catalog_eq; [apply register_worker_functions|]|].
  intros r rt1 _ H1. apply andThen_keeps; [apply inv_put; [by apply new_connection_ok|done]|].
  intros [] rt2 _ H2. apply andThen_keeps; [done|]. intros s rt3 [_ ->]%asks_inv _.
  apply andThen_keeps; [done|]. intros c rt3 [_ ->]%connection_of_inv _.
  apply andThen_keeps; [by apply inv_publish|]. by intros.
Qed.
Lemma inv_heartbeat now id sequence rt : runtime_inv rt -> runtime_inv (worker_heartbeat now id sequence rt).2.
Proof.
  intros Hi. unfold worker_heartbeat. apply andThen_keeps; [done|].
  intros c rt1 [Hc ->]%connection_of_inv _. repeat case_match; try done.
  apply inv_put; [|done]. destruct (Hi _ _ Hc). by constructor.
Qed.
Lemma inv_register_trigger ids d rt : runtime_inv rt -> runtime_inv (worker_register_trigger ids d rt).2.
Proof.
  intros Hi. unfold worker_register_trigger. apply andThen_keeps; [done|].
  intros c rt1 [Hc ->]%connection_of_inv _. apply andThen_keeps; [done|]. intros [] rt1 [_ ->]%asks_inv _.
  apply andThen_keeps; [done|]. intros [] rt1 [Hv ->]%asks_inv _.
  apply andThen_keeps; [by apply inv_catalog_eq; [apply register_trigger_functions|]|].
  intros r rt1 E H1. apply on_host_catalog_inv in E as (_ & Hconn & _).
  apply andThen_keeps; [done|]. intros c' rt2 [Hc' ->]%connection_of_inv _.
  rewrite Hconn, Hc in Hc'. injection Hc' as <-.
  apply andThen_keeps.
  { apply inv_put; [|done]. rewrite <- Hconn in Hc. destruct (H1 _ _ Hc). constructor; simpl; auto.
    intros t. destruct (decide (t = tr_id d)) as [->|Hne]; [|rewrite lookup_insert_ne by done; auto].
    intros _. unfold validate_worker_trigger in Hv. cbv zeta in Hv.
    repeat setoid_rewrite seq_ok in Hv. destruct Hv as (_ & _ & Hv & _). by apply require_ok in Hv. }
  intros [] rt2 _ H2. apply andThen_keeps; [by apply inv_publish|]. by intros.
Qed.
Lemma inv_publish_stream ids m rt : runtime_inv rt -> runtime_inv (worker_publish_stream ids m rt).2.
Proof.
  intros Hi. unfold worker_publish_stream. apply andThen_keeps; [done|].
  intros c rt1 [Hc ->]%connection_of_inv _. do 2 (apply andThen_keeps; [done|]; intros [] ? [_ ->]%asks_inv _).
  apply andThen_keeps; [by apply inv_invoke|]. by intros.
Qed.
(** A worker that registers a function of its own. *)
Lemma inv_register now d handler connection rt rt1 r :
  runtime_inv rt -> er_connections rt !! fn_owner_worker d = Some connection ->
  on_host_catalog (register_function uuid debug now d handler
    (is_volatile (xc_registration_mode connection))) rt = (r, rt1) ->
  runtime_inv rt1 /\ er_connections rt1 = er_connections rt.
Proof.
  intros Hi Hc (Ef & Hconn & _)%on_host_catalog_inv. split; [|done].
  pose proof (register_function_keeps now d handler (is_volatile (xc_registration_mode connection))
    (catalog_of rt)) as Hk.
  rewrite Ef in Hk. simpl in Hk. intros k c'. rewrite Hconn. intros Hc'.
  destruct (decide (k = fn_owner_worker d)) as [->|Hne];
    [|by eapply connection_ok_keeps; [exact Hk| |apply Hi]].
  rewrite Hc in Hc'. injection Hc' as <-. destruct (Hi _ _ Hc). constructor; auto.
  intros Htr f Hf. destruct (co_tracks0 Htr f Hf) as (e & He & Hfid & Hfo & Hfv).
  destruct r as [r|err]; [|apply register_function_err in Ef; injection Ef as ? -> ? ?; eauto].
  pose proof (register_function_ok _ _ _ _ _ _ _ Ef) as Hr. injection Hr as ? -> ? ?.
  destruct (decide (f = fn_id d)) as [->|Hnf]; [|rewrite lookup_insert_ne by done; eauto].
  rewrite lookup_insert_eq. eexists. split_and!; [done|done| |done]. simpl. congruence.
Qed.
Lemma stamped_same d token :
  let d' := stamp_external_capability_metadata d token in
  fn_id d' = fn_id d /\ fn_owner_worker d' = fn_owner_worker d.
Proof. unfold stamp_external_capability_metadata. by repeat case_match. Qed.
Lemma inv_register_function ids m rt : runtime_inv rt -> runtime_inv (worker_register_function ids m rt).2.
Proof.
  intros Hi. unfold worker_register_function. apply andThen_keeps; [done|].
  intros c rt1 [Hc ->]%connection_of_inv _. do 2 (apply andThen_keeps; [done|]; intros [] ? [_ ->]%asks_inv _).
  apply andThen_keeps; [done|]. intros w rt1 [_ ->]%asks_inv _.
  apply andThen_keeps; [done|]. intros [] rt1 [_ ->]%asks_inv _.
  apply andThen_keeps; [done|]. intros handler rt1 [_ ->]%asks_inv _.
  destruct (stamped_same (bind_definition c (rf_definition m)) (xc_worker_token c)) as [Hid Ho].
  cbv zeta in Hid, Ho. change (fn_id (bind_definition _ _)) with (fn_id (rf_definition m)) in Hid.
  change (fn_owner_worker (bind_definition _ _)) with (fn_owner_worker (rf_definition m)) in Ho.
  set (d := stamp_external_capability_metadata _ _) in *. rewrite <- Ho, <- Hid in *.
  assert (forall r rt1, _ -> runtime_inv rt1 /\ _) as Hreg
    by exact (fun r rt1 => inv_register (pb_now ids) d handler c rt rt1 r Hi Hc).
  apply andThen_keeps; [destruct (on_host_catalog _ rt) as [r rt1]; by destruct (Hreg _ _ eq_refl)|].
  intros r rt1 E _. destruct (Hreg _ _ E) as [H1 Hconn]. apply on_host_catalog_inv in E as (Ef & _ & _).
  apply andThen_keeps; [done|]. intros c' rt2 [Hc' ->]%connection_of_inv _.
  rewrite Hconn, Hc in Hc'. injection Hc' as <-. apply andThen_keeps.
  { apply inv_put; [|done]. rewrite <- Hconn in Hc. destruct (H1 _ _ Hc). constructor; simpl; auto.
    intros Htr f. destruct (decide (f = fn_id d)) as [->|Hne];
      [|simpl; rewrite lookup_insert_ne by done; by apply co_tracks0].
    intros _. pose proof (register_function_ok _ _ _ _ _ _ _ Ef) as Hr. injection Hr as ? Hfun ? ?.
    simpl. rewrite Hfun, lookup_insert_eq. eexists. by split_and!. }
  intros [] rt2 _ H2. apply andThen_keeps; [by apply inv_publish|]. by intros.
Qed.

(** *** Disconnection *)

(** A function that is registered under its own id, for the worker. *)
Definition owned_entry (id : WorkerId) (f : string) (c : LiveCatalog H S) : Prop :=
  exists e, lc_functions c !! f = Some e /\ fn_id (fe_definition e) = f /\
    fn_owner_worker (fe_definition e) = id.
(** A function that cannot run: unhealthy and without a handler. *)
Definition unrunnable (f : string) (c : LiveCatalog H S) : Prop :=
  exists e, lc_functions c !! f = Some e /\ fn_health (fe_definition e) = Health_Unhealthy /\
    fe_handler e = None.

Lemma inspect_function_entry f actor (c : LiveCatalog H S) d :
  inspect_function f actor c = Ok d -> exists e, lc_functions c !! f = Some e /\ fe_definition e = d.
Proof.
  unfold inspect_function, function. destruct (lc_functions c !! f) as [e|]; [|done]. simpl.
  destruct (negb _); [done|]. intros [= <-]. eauto.
Qed.
Lemma function_id_new_same s id : function_id_new s = Ok id -> id = s.
Proof. unfold function_id_new. intros E. inv_ok; done. Qed.

(** What marking one function changes. *)
Lemma mark_unhealthy_frame now id f rt r rt' :
  owned_entry id f (catalog_of rt) -> mark_unhealthy now f rt = (r, rt') ->
  er_connections rt' = er_connections rt /\ er_invokers rt' = er_invokers rt /\
  lc_workers (catalog_of rt') = lc_workers (catalog_of rt) /\
  (registrations (catalog_of rt') = registrations (catalog_of rt) /\ r <> Ok tt \/
   exists d rev, lc_functions (catalog_of rt) !! f = Some d /\
     lc_functions (catalog_of rt') =
       <[f := {| fe_definition := set_fn_revision rev (set_fn_health Health_Unhealthy (fe_definition d));
                 fe_handler := None; fe_volatile := false |}]> (lc_functions (catalog_of rt))).
Proof.
  intros (e & He & Hid & Ho). unfold mark_unhealthy, andThen, asks.
  destruct (function_id_new f) as [f'|err] eqn:Ef; [|intros [= <- <-]; by split_and!; auto].
  apply function_id_new_same in Ef as ->.
  destruct (inspect_function f (Some runtime_actor) (catalog_of rt)) as [d|err] eqn:Ed;
    [|intros [= <- <-]; by split_and!; auto].
  apply inspect_function_entry in Ed as (e' & He' & <-). rewrite He in He'. injection He' as <-.
  destruct (on_host_catalog _ rt) as [[rev|err] rt1] eqn:E; intros [= <- <-];
    apply on_host_catalog_inv in E as (Er & Hc & Hv); split_and!; auto.
  - apply register_function_ok in Er. by injection Er.
  - right. exists e, rev. split; [done|]. apply register_function_ok in Er. injection Er as ? Hf ? ?.
    rewrite Hf. simpl. by rewrite Hid.
  - apply register_function_err in Er. by injection Er.
  - left. split; [|done]. by apply register_function_err in Er.
Qed.

Lemma mark_keeps_owned now id f rt r rt' k :
  owned_entry id f (catalog_of rt) -> mark_unhealthy now f rt = (r, rt') ->
  owned_entry id k (catalog_of rt) -> owned_entry id k (catalog_of rt').
Proof.
  intros Hf E (e & He & Hid & Ho).
  destruct (mark_unhealthy_frame now id f rt r rt' Hf E) as (_ & _ & _ & [[Hr _]|(d & rev & Hd & Hr)]).
  - injection Hr as _ Hfun _ _. exists e. by rewrite Hfun.
  - unfold owned_entry. rewrite Hr. destruct (decide (k = f)) as [->|Hne].
    + rewrite lookup_insert_eq. rewrite He in Hd. injection Hd as <-. eexists. by split_and!.
    + rewrite lookup_insert_ne by done. by exists e.
Qed.
Lemma mark_keeps_inv now id f rt :
  owned_entry id f (catalog_of rt) -> er_connections rt !! id = None -> runtime_inv rt ->
  runtime_inv (mark_unhealthy now f rt).2.
Proof.
  intros Hf Hno Hi. destruct (mark_unhealthy now f rt) as [r rt'] eqn:E. simpl.
  destruct (mark_unhealthy_frame now id f rt r rt' Hf E) as (Hc & _ & _ & [[Hr _]|(d & rev & Hd & Hr)]);
    intros k c; rewrite Hc; intros Hk.
  - eapply connection_ok_eq; [|by apply Hi]. by injection Hr.
  - eapply (connection_ok_keeps k id); [|congruence|by apply Hi]. intros k' e He Ho.
    rewrite Hr, lookup_insert_ne; [done|]. intros <-. destruct Hf as (e' & He' & _ & Ho'). congruence.
Qed.
Lemma mark_makes_unrunnable now id f rt rt' :
  owned_entry id f (catalog_of rt) -> mark_unhealthy now f rt = (Ok tt, rt') -> unrunnable f (catalog_of rt').
Proof.
  intros Hf E. destruct (mark_unhealthy_frame now id f rt _ rt' Hf E) as (_ & _ & _ & [[_ Hr]|(d & rev & Hd & Hr)]);
    [done|]. unfold unrunnable. rewrite Hr, lookup_insert_eq. eexists. by split_and!.
Qed.
Lemma mark_keeps_unrunnable now id f rt r rt' k :
  owned_entry id f (catalog_of rt) -> mark_unhealthy now f rt = (r, rt') ->
  unrunnable k (catalog_of rt) -> unrunnable k (catalog_of rt').
Proof.
  intros Hf E Hk. destruct (mark_unhealthy_frame now id f rt r rt' Hf E) as (_ & _ & _ & [[Hr _]|(d & rev & Hd & Hr)]).
  - injection Hr as _ Hfun _ _. unfold unrunnable. by rewrite Hfun.
  - unfold unrunnable. rewrite Hr. destruct (decide (k = f)) as [->|Hne].
    + rewrite lookup_insert_eq. eexists. by split_and!.
    + by rewrite lookup_insert_ne.
Qed.

Lemma mark_all now id fns rt :
  Forall (fun f => owned_entry id f (catalog_of rt)) fns -> er_connections rt !! id = None -> runtime_inv rt ->
  let '(r, rt') := each (mark_unhealthy now) fns rt in
  runtime_inv rt' /\ er_connections rt' = er_connections rt /\ er_invokers rt' = er_invokers rt /\
  lc_workers (catalog_of rt') = lc_workers (catalog_of rt) /\
  (forall k, unrunnable k (catalog_of rt) -> unrunnable k (catalog_of rt')) /\
  (r = Ok tt -> Forall (fun f => unrunnable f (catalog_of rt')) fns).
Proof.
  revert rt. induction fns as [|f fns IH]; intros rt Hall Hno Hi; simpl; [by split_and!|].
  apply Forall_cons in Hall as [Hf Hall]. unfold andThen.
  pose proof (mark_keeps_inv now id f rt Hf Hno Hi) as Hi1.
  destruct (mark_unhealthy now f rt) as [[[]|err] rt1] eqn:E; simpl in Hi1;
    pose proof (mark_unhealthy_frame now id f rt _ rt1 Hf E) as (Hc & Hv & Hw & _).
  - specialize (IH rt1). destruct (each (mark_unhealthy now) fns rt1) as [r rt'].
    destruct IH as (H1 & H2 & H3 & H4 & H5 & H6); [|by rewrite Hc|done|].
    { eapply Forall_impl; [exact Hall|]. intros k. by eapply mark_keeps_owned. }
    split_and!; [done|congruence..| |].
    + intros k Hk. apply H5. by eapply mark_keeps_unrunnable.
    + intros Hr. apply Forall_cons. split; [apply H5; by eapply mark_makes_unrunnable|auto].
  - split_and!; auto; [|done]. intros k. by eapply mark_keeps_unrunnable.
Qed.

Definition forget (id : WorkerId) (rt : runtime) : runtime :=
  set_er_invokers (delete id (er_invokers rt)) (set_er_connections (delete id (er_connections rt)) rt).
Lemma inv_forget id rt : runtime_inv rt -> runtime_inv (forget id rt).
Proof. intros Hi k c. simpl. intros [_ Hk]%lookup_delete_Some. by apply Hi. Qed.
Lemma owned_functions id connection (c : LiveCatalog H S) :
  tracking = true -> connection_ok id connection c ->
  Forall (fun f => owned_entry id f c) (btree_keys (xc_functions connection)).
Proof.
  intros Htr []. apply Forall_forall. intros f Hf. unfold btree_keys in Hf.
  apply list_elem_of_fmap in Hf as ([f' []] & -> & Hf). apply elem_of_btree_entries in Hf.
  destruct (co_tracks0 Htr f') as (e & He & Hid & Ho & _); [eauto|]. exists e. split_and!; auto. congruence.
Qed.
Lemma mark_connections now f rt : er_connections (mark_unhealthy now f rt).2 = er_connections rt.
Proof.
  unfold mark_unhealthy. apply (andThen_keeps _ _ (fun x => er_connections x = er_connections rt)); [done|].
  intros f' rt1 [_ ->]%asks_inv _. apply (andThen_keeps _ _ (fun x => er_connections x = er_connections rt)); [done|].
  intros d rt1 [_ ->]%asks_inv _. apply (andThen_keeps _ _ (fun x => er_connections x = er_connections rt)).
  - destruct (on_host_catalog _ rt) as [r rt1] eqn:E. apply on_host_catalog_inv in E as (_ & Hc & _). exact Hc.
  - by intros.
Qed.
Lemma mark_durable_connections now connection rt :
  er_connections (mark_durable_worker_disconnected now connection rt).2 = er_connections rt.
Proof.
  unfold mark_durable_worker_disconnected. apply (andThen_keeps _ _ (fun x => er_connections x = er_connections rt)).
  { apply each_keeps; [|done]. intros f x <-. apply mark_connections. }
  intros [] rt1 _ H1. apply (andThen_keeps _ _ (fun x => er_connections x = er_connections rt)); [done|].
  intros w rt2 [_ ->]%asks_inv _. apply (andThen_keeps _ _ (fun x => er_connections x = er_connections rt)).
  - destruct (on_host_catalog _ rt1) as [r rt2] eqn:E. apply on_host_catalog_inv in E as (_ & Hc & _). simpl. congruence.
  - by intros.
Qed.
Lemma inv_mark_durable now id connection rt :
  connection_ok id connection (catalog_of rt) -> er_connections rt !! id = None -> runtime_inv rt ->
  runtime_inv (mark_durable_worker_disconnected now connection rt).2.
Proof.
  intros Hok Hno Hi. destruct (bool_eq_dec tracking true) as [Htr|Htr%not_true_is_false];
    [|eapply inv_untracked; [done|apply mark_durable_connections|done]].
  unfold mark_durable_worker_disconnected.
  pose proof (mark_all now id _ rt (owned_functions _ _ _ Htr Hok) Hno Hi) as Hm.
  destruct (each (mark_unhealthy now) _ rt) as [r rt1] eqn:E. destruct Hm as (H1 & _).
  apply andThen_keeps; [by rewrite E|]. rewrite E. intros [] rt2 [= -> <-] _.
  apply andThen_keeps; [done|]. intros w rt2 [_ ->]%asks_inv _.
  apply andThen_keeps; [by apply inv_catalog_eq; [apply register_worker_functions|]|]. by intros.
Qed.
Lemma inv_disconnect ids ids' id reason rt :
  runtime_inv rt -> runtime_inv (worker_disconnect ids ids' id reason rt).2.
Proof.
  intros Hi. unfold worker_disconnect. destruct (er_connections rt !! id) as [connection|] eqn:Hc; [|done].
  pose proof (Hi _ _ Hc) as Hok. apply andThen_keeps; [by apply inv_forget|].
  intros [] rt1 [= <-] H1. fold (forget id rt).
  assert (er_connections (forget id rt) !! id = None) as Hno by apply lookup_delete_eq.
  destruct (is_volatile _).
  - apply andThen_keeps.
    + eapply inv_catalog; [apply unregister_worker_keeps| |done]. by rewrite (co_id _ _ _ Hok).
    + intros [] rt2 _ H2. apply andThen_keeps; [by apply inv_publish|]. intros [] rt3 _ H3. by apply inv_publish.
  - apply andThen_keeps; [apply (inv_mark_durable _ id); [exact Hok|exact Hno|exact H1]|]. intros [] rt2 _ H2.
    apply andThen_keeps; [by apply inv_publish|]. intros [] rt3 _ H3. by apply inv_publish.
Qed.

Lemma inv_attach id invoker rt : runtime_inv rt -> runtime_inv (attach_invoker id invoker rt).2.
Proof.
  intros Hi. unfold attach_invoker. apply andThen_keeps; [done|].
  intros c rt1 [_ ->]%connection_of_inv _. exact Hi.
Qed.
Lemma inv_message ids ids' message rt : runtime_inv rt -> runtime_inv (handle_message ids ids' message rt).2.
Proof.
  intros Hi. destruct message; simpl; try done; apply andThen_keeps; try (by intros).
  - by apply inv_hello.
  - by apply inv_register_function.
  - by apply inv_register_trigger.
  - by apply inv_publish_stream.
  - by apply inv_heartbeat.
  - by apply inv_disconnect.
Qed.
Lemma inv_timeouts now gen timeout rt : runtime_inv rt -> runtime_inv (disconnect_timed_out now gen timeout rt).2.
Proof.
  intros Hi. unfold disconnect_timed_out. apply andThen_keeps; [done|]. intros expired rt1 [_ ->]%asks_inv _.
  apply andThen_keeps; [|by intros]. apply each_keeps; [|done]. intros id rt1. apply inv_disconnect.
Qed.
End tracking.

(** *** Reachable runtimes *)

(** Messages from any worker, timeouts, sockets that attach their invoker, and the [work] that the host does
    otherwise. *)
Inductive worker_step (work : host -> host -> Prop) : runtime -> runtime -> Prop :=
| step_message ids ids' message rt : worker_step work rt (handle_message ids ids' message rt).2
| step_timeouts now gen timeout rt : worker_step work rt (disconnect_timed_out now gen timeout rt).2
| step_attach id invoker rt : worker_step work rt (attach_invoker id invoker rt).2
| step_host h rt : work (er_host rt) h -> worker_step work rt (set_er_host h rt).
Definition reachable_runtime (work : host -> host -> Prop) (rt : runtime) : Prop :=
  exists h, rtc (worker_step work) (runtime_new h) rt.

Lemma runtime_inv_reachable tracking work rt :
  (forall rt h, work (er_host rt) h -> runtime_inv tracking rt -> runtime_inv tracking (set_er_host h rt)) ->
  reachable_runtime work rt -> runtime_inv tracking rt.
Proof.
  intros Hwork [h Hs]. assert (runtime_inv tracking (runtime_new h)) as H0 by apply map_Forall_empty.
  induction Hs as [rt|rt1 rt2 rt3 Hstep _ IH]; [done|]. apply IH. destruct Hstep.
  - by apply inv_message.
  - by apply inv_timeouts.
  - by apply inv_attach.
  - by apply Hwork.
Qed.
Lemma reachable_runtime_inv rt : reachable_runtime quiet rt -> runtime_inv true rt.
Proof. apply runtime_inv_reachable. intros. by apply inv_quiet. Qed.

(** C32: In every runtime reached by any sequence of worker messages, timeouts, attached
    sockets and any other work of the host, each connection is within the visibility and the
    session or workspace of its token, has no wildcard selector and only triggers in the
    namespaces of its token. If moreover the other work of the host registers and
    unregisters nothing (as worker::disconnect would), each function of a connection is
    registered in the catalog as its own, volatile exactly when the worker is. The handler
    of stream::publish is assumed to register nothing. *)
Theorem connections_stay_within_their_token work rt id connection :
  reachable_runtime work rt -> er_connections rt !! id = Some connection ->
  let token := xc_worker_token connection in
  xc_worker_id connection = id /\
  visibility_rank (xc_default_visibility connection) <= visibility_rank (tk_visibility_ceiling token) /\
  bound_scope (xc_default_visibility connection) (xc_session_id connection)
    (xc_workspace_id connection) token /\
  Forall (fun s => trim s <> "*") (tk_resource_selectors token) /\
  (forall t, is_Some (xc_triggers connection !! t) ->
     namespace_claims_value (tk_namespace_claims token) t = true) /\
  ((forall h h', work h h' -> quiet h h') -> forall f, is_Some (xc_functions connection !! f) ->
     exists e, lc_functions (catalog_of rt) !! f = Some e /\
       fn_owner_worker (fe_definition e) = id /\
       fe_volatile e = is_volatile (xc_registration_mode connection)).
Proof.
  intros Hr Hc. assert (runtime_inv false rt) as Hi.
  { revert Hr. apply runtime_inv_reachable. intros x h _. by apply inv_untracked. }
  destruct (Hi _ _ Hc). cbv zeta. split_and!; auto. intros Hq f Hf.
  assert (runtime_inv true rt) as Hi'.
  { revert Hr. apply runtime_inv_reachable. intros x h Hw. by apply inv_quiet, Hq. }
  destruct (co_tracks _ _ _ _ (Hi' _ _ Hc) eq_refl f Hf) as (e & He & _ & Ho & Hv).
  exists e. split_and!; auto. congruence.
Qed.

Lemma publish_ok ids event c reason rt rt' :
  publish_lifecycle_event ids event c reason rt = (Ok tt, rt') ->
  registrations (catalog_of rt') = registrations (catalog_of rt) /\
  er_connections rt' = er_connections rt /\ er_invokers rt' = er_invokers rt.
Proof. intros E. pose proof (lifecycle_frame ids event c reason rt quiet_publish) as Hp. by rewrite E in Hp. Qed.

(** The end of a volatile registration. *)
Lemma volatile_disconnect_ok ids ids' event connection reason rt rt' :
  andThen (on_host_catalog (unregister_worker uuid (pb_now ids) (xc_worker_id connection)
             (xc_owner_actor connection)))
    (fun _ => andThen (publish_lifecycle_event ids event connection (Some reason))
       (fun _ => publish_lifecycle_event ids' "worker.unregistered" connection (Some reason))) rt
  = (Ok tt, rt') ->
  er_connections rt' = er_connections rt /\ er_invokers rt' = er_invokers rt /\
  lc_workers (catalog_of rt') = delete (xc_worker_id connection) (lc_workers (catalog_of rt)) /\
  without (volatile_function (xc_worker_id connection)) (lc_functions (catalog_of rt))
    (lc_functions (catalog_of rt')) /\
  without (volatile_trigger (xc_worker_id connection)) (lc_triggers (catalog_of rt))
    (lc_triggers (catalog_of rt')).
Proof.
  intros ([] & rt1 & Hu & ([] & rt2 & (Hp1 & Hp2 & Hp3)%publish_ok & (Hq1 & Hq2 & Hq3)%publish_ok)%andThen_inv)%andThen_inv.
  apply on_host_catalog_inv in Hu as (Hu & Hc & Hv). apply unregister_worker_ok in Hu as (Hw & Hf & Ht).
  rewrite Hp1 in Hq1. injection Hq1 as -> -> -> _. split_and!; auto; congruence.
Qed.
(** The end of a durable one. *)
Lemma durable_disconnect_ok ids ids' connection connection' reason id rt rt' :
  connection_ok true id connection (catalog_of rt) -> er_connections rt !! id = None -> runtime_inv true rt ->
  andThen (mark_durable_worker_disconnected (pb_now ids) connection)
    (fun _ => andThen (publish_lifecycle_event ids "worker.disconnected" connection (Some reason))
       (fun _ => publish_lifecycle_event ids' "worker.health_changed" connection' (Some reason))) rt
  = (Ok tt, rt') ->
  er_connections rt' = er_connections rt /\ er_invokers rt' = er_invokers rt /\
  Forall (fun f => unrunnable f (catalog_of rt')) (btree_keys (xc_functions connection)).
Proof.
  intros Hok Hno Hi.
  intros ([] & rt1 & Hu & ([] & rt2 & (Hp1 & Hp2 & Hp3)%publish_ok & (Hq1 & Hq2 & Hq3)%publish_ok)%andThen_inv)%andThen_inv.
  unfold mark_durable_worker_disconnected in Hu. apply andThen_inv in Hu as ([] & rt3 & He & Hu).
  pose proof (mark_all true (pb_now ids) id _ rt (owned_functions true _ _ _ eq_refl Hok) Hno Hi) as Hm. rewrite He in Hm.
  destruct Hm as (_ & Hc & Hv & _ & _ & Hall). specialize (Hall eq_refl).
  apply andThen_inv in Hu as (w & rt4 & [_ ->]%asks_inv & Hu).
  apply andThen_inv in Hu as (r & rt5 & Hw & [= <-]). apply on_host_catalog_inv in Hw as (Hw & Hc2 & Hv2).
  apply register_worker_ok in Hw. rewrite Hp1 in Hq1. rewrite Hw in Hq1. injection Hq1 as _ Hf _ _.
  split_and!; [congruence..|]. eapply Forall_impl; [exact Hall|]. intros f. unfold unrunnable. by rewrite Hf.
Qed.

(** C33: In a runtime where other work of the host registers and unregisters nothing, a
    successful disconnect of a connected worker removes its connection and its invoker, and
    each function that the connection lists is then either out of the catalog or unhealthy
    and without a handler. If the connection is volatile, the registration of the worker is
    gone and exactly the volatile functions and triggers of that worker were removed.
    Functions that the connection does not list, such as those of an earlier durable
    connection replaced by a second hello, are not covered. The handler of stream::publish
    is assumed to register nothing. *)
Theorem disconnected_worker_cannot_run ids ids' id reason rt rt' connection :
  reachable_runtime quiet rt -> er_connections rt !! id = Some connection ->
  worker_disconnect ids ids' id reason rt = (Ok tt, rt') ->
  er_connections rt' = delete id (er_connections rt) /\ er_invokers rt' !! id = None /\
  (forall f, is_Some (xc_functions connection !! f) ->
     lc_functions (catalog_of rt') !! f = None \/
     exists e, lc_functions (catalog_of rt') !! f = Some e /\
       fn_health (fe_definition e) = Health_Unhealthy /\ fe_handler e = None) /\
  (xc_registration_mode connection = Volatile ->
     lc_workers (catalog_of rt') !! id = None /\
     without (volatile_function id) (lc_functions (catalog_of rt)) (lc_functions (catalog_of rt')) /\
     without (volatile_trigger id) (lc_triggers (catalog_of rt)) (lc_triggers (catalog_of rt'))).
Proof.
  intros Hr Hc. pose proof (reachable_runtime_inv rt Hr) as Hi. pose proof (Hi _ _ Hc) as Hok.
  unfold worker_disconnect. rewrite Hc. fold (forget id rt).
  intros ([] & rt1 & [= <-] & Hd)%andThen_inv. fold (forget id rt) in Hd.
  pose proof (co_id _ _ _ _ Hok) as Hid. unfold is_volatile in Hd.
  case_bool_decide as Hmode.
  - apply volatile_disconnect_ok in Hd as (-> & -> & -> & Hf & Ht). rewrite Hid in *.
    split_and!; [done|apply lookup_delete_eq| |by rewrite lookup_delete_eq].
    intros f Hfn. left. destruct (co_tracks _ _ _ _ Hok eq_refl f Hfn) as (e & He & _ & Ho & Hv).
    rewrite Hf. change (lc_functions (catalog_of (forget id rt))) with (lc_functions (catalog_of rt)).
    rewrite He. unfold volatile_function. rewrite Ho, Hid, Hv, String.eqb_refl. unfold is_volatile.
    by rewrite bool_decide_true.
  - apply (durable_disconnect_ok ids ids' connection _ reason id) in Hd as (-> & -> & Hall);
      [|exact Hok|apply lookup_delete_eq|by apply inv_forget].
    split_and!; [done|apply lookup_delete_eq| |done]. intros f [[] Hfn]. right.
    rewrite Forall_forall in Hall. apply Hall. unfold btree_keys. apply list_elem_of_fmap.
    exists (f, tt). split; [done|]. by apply elem_of_btree_entries.
Qed.

(** *** Accepted hellos and publications *)

(** The grant a token names allows the worker of a hello. *)
Record grant_allows (hello : WorkerHello) (grant : EngineGrant) : Prop := {
  ga_active : gr_lifecycle grant = Grant_Active;
  ga_revision : gr_revision grant = tk_authority_grant_revision (wh_worker_token hello);
  ga_hash : tk_authority_grant_hash (wh_worker_token hello)
            = grant_policy_hash sha256_hex encode rfc3339 grant;
  ga_worker : forall w, gr_subject_worker_id grant = Some w -> w = wk_id (wh_worker hello);
  ga_actor : forall a, gr_subject_actor_id grant = Some a -> a = "worker:" +s wk_id (wh_worker hello);
  ga_claims : In "*" (gr_allowed_namespaces grant) \/
    Forall (fun claim => namespace_claims_value (gr_allowed_namespaces grant) claim = true)
      (wk_namespace_claims (wh_worker hello))
}.
Lemma subject_ok (subject : option string) (expected : string) (text : string -> string) :
  match subject with
  | Some s => require (s =s expected) (text s)
  | None => Ok tt
  end = Ok tt <-> forall s, subject = Some s -> s = expected.
Proof.
  destruct subject as [s|]; [|naive_solver]. rewrite require_ok, String.eqb_eq. naive_solver.
Qed.
Lemma worker_grant_ok hello (c : LiveCatalog H S) :
  runtime_validate_worker_grant hello c = Ok tt ->
  exists grant, grant_inspect (tk_authority_grant_id (wh_worker_token hello)) (lc_grants c) = Ok (Some grant) /\
    grant_allows hello grant.
Proof.
  unfold runtime_validate_worker_grant. cbv zeta.
  destruct (grant_inspect _ _) as [[grant|]|]; [|done|done]. cbv beta iota. rewrite !seq_ok, !subject_ok, !require_ok.
  intros (Ha & Hr & Hh & Hw & Hact & Hc). exists grant. split; [done|]. apply bool_decide_eq_true in Ha.
  apply Z.eqb_eq in Hr. apply String.eqb_eq in Hh. constructor; auto.
  destruct (existsb _ _) eqn:E.
  - left. apply existsb_exists in E as (x & Hx & ->%String.eqb_eq). done.
  - right. by apply first_error_ok in Hc.
Qed.

(** C31: When a worker hello is accepted, the worker is an external, loopback-only one that
    names itself, everything it asks for is within its scoped token (namespaces, grant,
    selectors without wildcards, visibility ceiling, session and workspace binding, expiry),
    the grant of the token is active at the revision and policy hash of the token and allows
    this worker and its namespaces, and exactly its connection was added. *)
Theorem accepted_hello_is_authorized ids hello rt snapshot rt' :
  worker_hello ids hello rt = (Ok snapshot, rt') ->
  wh_loopback_only hello = true /\ wk_kind (wh_worker hello) = Worker_External /\
  wi_worker_id (wh_identity hello) = wk_id (wh_worker hello) /\
  within_token parse_rfc3339 (pb_now ids) hello (wh_worker_token hello) /\
  (exists grant,
     grant_inspect (tk_authority_grant_id (wh_worker_token hello)) (lc_grants (catalog_of rt))
     = Ok (Some grant) /\ grant_allows hello grant) /\
  er_connections rt'
  = <[wk_id (wh_worker hello) := new_connection (pb_now ids) hello]> (er_connections rt).
Proof.
  unfold worker_hello. intros ([] & rt0 & [Hv ->]%asks_inv & Hx)%andThen_inv.
  apply andThen_inv in Hx as (r & rt1 & (_ & Hc & _)%on_host_catalog_inv & Hx).
  apply andThen_inv in Hx as ([] & rt2 & [= <-] & Hx).
  apply andThen_inv in Hx as (s & rt3 & [_ ->]%asks_inv & Hx).
  apply andThen_inv in Hx as (c & rt3 & [_ ->]%connection_of_inv & Hx).
  apply andThen_inv in Hx as ([] & rt3 & (_ & Hp & _)%publish_ok & [= _ <-]).
  pose proof (validate_hello_ok _ _ _ Hv) as [Ht Hg]. unfold validate_hello in Hv.
  rewrite !seq_ok, !require_ok in Hv. destruct Hv as (_ & Hl & _ & Hk & Hi & _).
  apply bool_decide_eq_true in Hk. apply String.eqb_eq in Hi.
  split_and!; auto; [by apply worker_grant_ok|]. by rewrite Hp; simpl; rewrite Hc.
Qed.

(** A message published for a worker is on a topic of its token and in the session and
    workspace of its connection. *)
Theorem publication_stays_in_scope ids m rt change rt' :
  worker_publish_stream ids m rt = (Ok change, rt') ->
  exists c, er_connections rt !! ws_worker_id m = Some c /\ xc_health c = WorkerHealth_Healthy /\
    ws_visibility m = as_visibility_scope (xc_default_visibility c) /\
    stream_topic_allowed_by_token (xc_worker_token c) (ws_topic m) = true /\
    cx_session_id (inv_context (stream_invocation ids c m)) = xc_session_id c /\
    cx_workspace_id (inv_context (stream_invocation ids c m)) = xc_workspace_id c.
Proof.
  unfold worker_publish_stream. intros (c & rt1 & [Hc ->]%connection_of_inv & Hx)%andThen_inv.
  apply andThen_inv in Hx as ([] & rt1 & [Hh ->]%asks_inv & Hx).
  apply andThen_inv in Hx as ([] & rt1 & [Hv ->]%asks_inv & _).
  apply require_ok, bool_decide_eq_true in Hh. exists c. split; [done|]. split; [done|].
  unfold validate_worker_stream_publish in Hv. rewrite !seq_ok, !require_ok in Hv.
  destruct Hv as (Hs & Ht & Hv). apply bool_decide_eq_true in Hs. split; [done|]. split; [done|].
  unfold stream_invocation, other_scope in *. simpl.
  destruct (ws_parent_invocation_id m), (xc_default_visibility c), (xc_session_id c), (xc_workspace_id c),
    (ws_session_id m), (ws_workspace_id m); simpl in *; rewrite ?seq_ok, ?require_ok in Hv;
    repeat case_bool_decide; simpl in *; naive_solver.
Qed.
End runtime.

(** ** Samples *)

Notation sample_runtime := (ExternalRuntime unit LedgerMemory LeaseMemory CompensationMemory unit).
(** [stream::publish] is registered by the worker of the stream primitives. *)
Definition stream_catalog : sample_catalog :=
  snd (register_function no_text no_debug 2
         (function_new "stream::publish" "stream" "Publishes" Vis_System Effect_PureRead) (Some tt) false
         (snd (register_worker no_text 1 (sample_worker "stream") false catalog0))).
Definition runtime0 : sample_runtime := runtime_new (set_eh_catalog stream_catalog host0).
Definition publish_ids (now : instant) : PublishIds :=
  {| pb_now := now; pb_trace := "t"; pb_key := "k"; pb_invocation := "i"; pb_tick := tick0;
     pb_child_tick := tick0; pb_child := "i2" |}.
Definition no_instant (s : string) : result string instant := Err "".
Definition no_call : unit -> Invocation -> sample_host -> Result Value * sample_host :=
  fun _ _ h => (Ok Null, h).
Definition no_dispatch : Invocation -> sample_host -> Result Value * sample_host := fun _ h => (Ok Null, h).
Definition no_json {A} (a : A) : Value := Null.
Definition sample_hash (id : AuthorityGrantId) : string :=
  grant_policy_hash no_debug no_debug no_rfc (bootstrap_grant id 0).
Definition sample_hello : WorkerHello :=
  hello_with_session_scope "s1" (hello_loopback sample_hash (sample_worker "demo")).

Definition durable (h : WorkerHello) : WorkerHello :=
  {| wh_protocol_version := wh_protocol_version h; wh_worker := wh_worker h;
     wh_loopback_only := wh_loopback_only h; wh_identity := wh_identity h;
     wh_auth_policy := wh_auth_policy h; wh_registration_mode := Durable;
     wh_default_visibility := wh_default_visibility h; wh_session_id := wh_session_id h;
     wh_workspace_id := wh_workspace_id h; wh_heartbeat_interval_ms := wh_heartbeat_interval_ms h;
     wh_supported_capabilities := wh_supported_capabilities h;
     wh_worker_token := wh_worker_token h |}.
Definition greet_fn : FunctionDefinition :=
  {| fn_id := "demo::greet"; fn_revision := 1; fn_owner_worker := "demo"; fn_description := "Greets";
     fn_request_schema := Some (j{"type" ~> "object"}); fn_response_schema := Some (j{"type" ~> "object"});
     fn_opaque_response := false; fn_tags := []; fn_visibility := Vis_Session;
     fn_effect_class := Effect_PureRead; fn_risk_level := Risk_Low; fn_idempotency := None;
     fn_resource_lease := None; fn_compensation := None; fn_output_contract := Output_None;
     fn_required_authority := {| ar_scopes := [] |}; fn_allowed_delivery_modes := [Delivery_Sync];
     fn_health := Health_Healthy; fn_provenance := provenance_system;
     fn_metadata := j{"contractId" ~> "demo::greet"; "implementationId" ~> "demo.greet";
                      "pluginId" ~> "session_generated.demo"; "trustTier" ~> "session_generated";
                      "contextPrimerLevel" ~> "none"; "runtimeRequirements" ~> "none"} |}.
Definition greet_registration : RegisterFunction :=
  {| rf_definition := greet_fn; rf_default_visibility := Vis_Session |}.

Definition no_word {A} (a : A) : string := "".
Notation sample_message now message :=
  (handle_message no_debug no_debug no_debug sample_fs no_rfc no_instant saving no_dispatch no_text no_word
     no_json no_json no_json no_json no_call (fun u : unit => u) (publish_ids now) (publish_ids now) message).
Notation sample_hello_at now hello :=
  (worker_hello no_debug no_debug no_debug sample_fs no_rfc no_instant saving no_dispatch no_text no_word
     no_json no_json no_json no_json no_call (publish_ids now) hello).
Notation sample_disconnect now :=
  (worker_disconnect no_debug no_debug no_debug sample_fs no_rfc saving no_dispatch no_text no_word
     no_json no_json no_json no_json no_call (publish_ids now) (publish_ids now)).
Definition runtime1 : sample_runtime := snd (sample_message 3 (Msg_Hello sample_hello) runtime0).
Definition runtime2 : sample_runtime := snd (attach_invoker "demo" tt runtime1).
Definition runtime3 : sample_runtime :=
  snd (sample_message 4 (Msg_RegisterFunction greet_registration) runtime2).

Lemma saving_publishes_only : publishes_only saving.
Proof. intros x i h _. reflexivity. Defined.
Notation sample_reachable rt :=
  (reachable_runtime no_debug no_debug no_debug sample_fs no_rfc no_instant saving no_dispatch no_text
     no_word no_json no_json no_json no_json no_call (fun u : unit => u) quiet rt).
Lemma runtime3_reachable : sample_reachable runtime3.
Proof.
  exists (set_eh_catalog stream_catalog host0).
  apply rtc_l with runtime1; [unfold runtime1; apply step_message|].
  apply rtc_l with runtime2; [unfold runtime2; apply step_attach|].
  apply rtc_once. unfold runtime3. apply step_message.
Defined.
Definition demo_connection : ExternalWorkerConnection :=
  set_owned {["demo::greet" := tt]} ∅ WorkerHealth_Healthy (new_connection 3 sample_hello).
Lemma runtime3_connection : er_connections runtime3 !! "demo" = Some demo_connection.
Proof. vm_compute. reflexivity. Defined.

Lemma connections_stay_within_their_token_witness :
  is_Some (xc_functions demo_connection !! "demo::greet") /\
  exists e, lc_functions (catalog_of runtime3) !! "demo::greet" = Some e /\
    fn_owner_worker (fe_definition e) = "demo" /\ fe_volatile e = true.
Proof.
  split; [by exists tt|].
  destruct (connections_stay_within_their_token no_debug no_debug no_debug sample_fs no_rfc no_instant saving
    no_dispatch no_text no_word no_json no_json no_json no_json no_call (fun u : unit => u)
    saving_publishes_only quiet runtime3 "demo" demo_connection runtime3_reachable runtime3_connection)
    as (_ & _ & _ & _ & _ & Hf).
  destruct (Hf (fun h h' Hq => Hq) "demo::greet") as (e & He & Ho & Hv); [by exists tt|]. exists e. split_and!; assumption.
Defined.

Definition runtime4 : sample_runtime := snd (sample_disconnect 5 "demo" "bye" runtime3).
Lemma disconnected_worker_cannot_run_witness :
  er_connections runtime3 !! "demo" = Some demo_connection /\
  lc_workers (catalog_of runtime4) !! "demo" = None /\ er_connections runtime4 !! "demo" = None.
Proof.
  split; [exact runtime3_connection|].
  destruct (disconnected_worker_cannot_run no_debug no_debug no_debug sample_fs no_rfc no_instant saving
    no_dispatch no_text no_word no_json no_json no_json no_json no_call (fun u : unit => u)
    saving_publishes_only (publish_ids 5) (publish_ids 5) "demo" "bye" runtime3 runtime4 demo_connection
    runtime3_reachable runtime3_connection) as (Hc & _ & _ & Hv).
  - unfold runtime4. vm_compute. reflexivity.
  - split; [apply Hv; reflexivity|]. rewrite Hc. apply lookup_delete_eq.
Defined.

Lemma accepted_hello_is_authorized_witness :
  exists grant, grant_inspect "grant" (lc_grants (catalog_of runtime0)) = Ok (Some grant) /\
    gr_lifecycle grant = Grant_Active.
Proof.
  destruct (sample_hello_at 3 sample_hello runtime0) as [[snapshot|e] rt'] eqn:E;
    [|vm_compute in E; discriminate].
  destruct (accepted_hello_is_authorized no_debug no_debug no_debug sample_fs no_rfc no_instant saving
    no_dispatch no_text no_word no_json no_json no_json no_json no_call
    saving_publishes_only (publish_ids 3) sample_hello runtime0 snapshot rt' E)
    as (_ & _ & _ & _ & (grant & Hg & Ha) & _).
  exists grant. split; [exact Hg|]. destruct Ha. assumption.
Defined.

(** A hello without a session is refused, but the socket that sent it has taken the
    worker's name: when it closes, the connected worker is disconnected. *)
Definition refused_hello : WorkerHello := hello_loopback sample_hash (sample_worker "demo").
Notation refused_frame :=
  (socket_frame no_debug no_debug no_debug sample_fs no_rfc no_instant saving no_dispatch no_text no_word
     no_json no_json no_json no_json no_call (fun u : unit => u) (publish_ids 5) (publish_ids 5) tt
     (Msg_Hello refused_hello) None runtime3).
Theorem refused_hello_disconnects_the_worker :
  (exists e, refused_frame = (Err e, Some "demo", runtime3)) /\
  er_connections (socket_closed no_debug no_debug no_debug sample_fs no_rfc saving no_dispatch no_text no_word
    no_json no_json no_json no_json no_call (publish_ids 6) (publish_ids 6)
    (snd (fst refused_frame)) (snd refused_frame)) !! "demo" = None.
Proof. split; [eexists; vm_compute; reflexivity|vm_compute; reflexivity]. Qed.

(** A durable worker that says hello again has an empty connection: its function stays
    registered as healthy, with its handler, when it disconnects. *)
Definition durable1 : sample_runtime := snd (sample_message 3 (Msg_Hello (durable sample_hello)) runtime0).
Definition durable2 : sample_runtime := snd (attach_invoker "demo" tt durable1).
Definition durable3 : sample_runtime :=
  snd (sample_message 4 (Msg_RegisterFunction greet_registration) durable2).
Definition durable4 : sample_runtime := snd (sample_message 5 (Msg_Hello (durable sample_hello)) durable3).
Definition function_status (rt : sample_runtime) (id : string) : option (FunctionHealth * option unit) :=
  (fun e => (fn_health (fe_definition e), fe_handler e)) <$> lc_functions (catalog_of rt) !! id.
Theorem second_hello_forgets_the_functions :
  function_status (snd (sample_disconnect 6 "demo" "bye" durable3)) "demo::greet"
  = Some (Health_Unhealthy, None) /\
  fst (sample_disconnect 6 "demo" "bye" durable4) = Ok tt /\
  function_status (snd (sample_disconnect 6 "demo" "bye" durable4)) "demo::greet"
  = Some (Health_Healthy, Some tt).
Proof. vm_compute. split_and!; reflexivity. Qed.
