(* ===== verification/Bootstrap.v ===== *)
(** * The bootstrap of the engine's own functions

    [engine/primitives/workers.rs] and [invocation/host/bootstrap.rs]: the workers and
    functions that the engine provides itself, and their registration in the catalog when
    a host is made.  A worker or function that is there already is kept when it is the
    same, replaced when the same owner has another contract, and refused otherwise. *)

From stdpp Require Import base gmap strings list pretty.
From Stdlib Require Import ZArith Ascii String Lia.
From S2P Require Import Prelude Json Kernel Model Schema Policy Leases Paths Grants Queue Streams Ledger Catalog.
From S2P Require Import Compensation Meta Host Triggers GrantPrimitive ResourcePrimitive UiPrimitive StorePrimitives.
From S2P Require Import PrimitiveRuntime ExternalWorkers.
Import JsonNotations.

#[local] Open Scope Z_scope.

(** ** The built-in workers and functions *)

(* SRC engine/primitives/workers.rs:51-59 primitive_worker *)
Definition primitive_worker (id : WorkerId) (kind : WorkerKind) : WorkerDefinition :=
  with_namespace_claim id (worker_new id kind "system" "engine-system").
(* SRC engine/primitives/workers.rs:11-32 primitive_workers *)
Definition primitive_workers : list WorkerDefinition :=
  let resource_worker :=
    fold_left (fun w claim => with_namespace_claim claim w)
      ["artifact"; "goal"; "claim"; "evidence"; "decision"; "materialized_file"; "patch"]
      (primitive_worker "resource" Worker_System) in
  [primitive_worker "stream" Worker_Stream; primitive_worker "state" Worker_State;
   primitive_worker "queue" Worker_Queue; resource_worker; primitive_worker "trigger" Worker_System;
   primitive_worker "grant" Worker_System; primitive_worker "catalog" Worker_System;
   primitive_worker "ui" Worker_System; primitive_worker "worker" Worker_System;
   primitive_worker "storage" Worker_System].

(** [PartialEq] of the parts of a contract. *)
#[global] Instance IdempotencyKeySource_eq_dec : EqDecision IdempotencyKeySource.
Proof. solve_decision. Defined.
#[global] Instance ReplayBehavior_eq_dec : EqDecision ReplayBehavior.
Proof. solve_decision. Defined.
#[global] Instance LedgerKind_eq_dec : EqDecision LedgerKind.
Proof. solve_decision. Defined.
#[global] Instance IdempotencyContract_eq_dec : EqDecision IdempotencyContract.
Proof. solve_decision. Defined.
#[global] Instance AuthorityRequirement_eq_dec : EqDecision AuthorityRequirement.
Proof. solve_decision. Defined.
#[global] Instance Provenance_eq_dec : EqDecision Provenance.
Proof. solve_decision. Defined.
#[global] Instance ResourceLeaseFailureBehavior_eq_dec : EqDecision ResourceLeaseFailureBehavior.
Proof. solve_decision. Defined.
#[global] Instance ResourceLeaseRequirement_eq_dec : EqDecision ResourceLeaseRequirement.
Proof. solve_decision. Defined.
#[global] Instance CompensationContract_eq_dec : EqDecision CompensationContract.
Proof. solve_decision. Defined.
#[global] Instance DurableOutputContract_eq_dec : EqDecision DurableOutputContract.
Proof. solve_decision. Defined.

(* SRC engine/invocation/host/meta.rs:121-141 same_meta_function_contract *)
Definition same_meta_function_contract (existing expected : FunctionDefinition) : bool :=
  (fn_id existing =s fn_id expected) && (fn_owner_worker existing =s fn_owner_worker expected)
  && (fn_description existing =s fn_description expected)
  && bool_decide (fn_request_schema existing = fn_request_schema expected)
  && bool_decide (fn_response_schema existing = fn_response_schema expected)
  && bool_decide (fn_opaque_response existing = fn_opaque_response expected)
  && bool_decide (fn_tags existing = fn_tags expected)
  && bool_decide (fn_visibility existing = fn_visibility expected)
  && bool_decide (fn_effect_class existing = fn_effect_class expected)
  && bool_decide (fn_risk_level existing = fn_risk_level expected)
  && bool_decide (fn_idempotency existing = fn_idempotency expected)
  && bool_decide (fn_required_authority existing = fn_required_authority expected)
  && bool_decide (fn_allowed_delivery_modes existing = fn_allowed_delivery_modes expected)
  && bool_decide (fn_health existing = fn_health expected)
  && bool_decide (fn_provenance existing = fn_provenance expected)
  && bool_decide (fn_metadata existing = fn_metadata expected).
(* SRC engine/invocation/host/bootstrap.rs:145-168 same_primitive_function_contract *)
Definition same_primitive_function_contract (existing expected : FunctionDefinition) : bool :=
  same_meta_function_contract existing expected
  && bool_decide (fn_resource_lease existing = fn_resource_lease expected)
  && bool_decide (fn_compensation existing = fn_compensation expected)
  && bool_decide (fn_output_contract existing = fn_output_contract expected).

(** ** Registration in the catalog *)

(* SRC engine/kernel/types/worker.rs:6-33! WorkerKind *)
Definition worker_kind_debug (k : WorkerKind) : string :=
  match k with
  | Worker_InProcess => "InProcess" | Worker_External => "External" | Worker_Sandbox => "Sandbox"
  | Worker_Agent => "Agent" | Worker_Client => "Client" | Worker_System => "System"
  | Worker_Queue => "Queue" | Worker_Stream => "Stream" | Worker_Cron => "Cron"
  | Worker_State => "State" | Worker_Mcp => "Mcp"
  end.

Section bootstrap.
  Context {H S : Type} `{!LedgerStore S}.
  Notation catalog := (LiveCatalog H S).
  Variable uuid : Z -> string.
  Variable debug : string -> string.
  Variable now : instant.
  (** The handlers of the workers that serve their functions themselves. *)
  Variable handler_of : WorkerId -> H.
  #[local] Notation "m ;; k" := (bind m (fun _ => k)) (at level 100, k at level 200, right associativity).

(* SRC engine/primitives/mod.rs:69-75 PrimitiveFunctionRegistration *)
Record PrimitiveFunctionRegistration := { pr_definition : FunctionDefinition; pr_handler : option H }.
(* SRC engine/primitives/mod.rs:108-116 handled_registration *)
Definition handled_registration (f : FunctionDefinition) : PrimitiveFunctionRegistration :=
  {| pr_definition := f; pr_handler := Some (handler_of (fn_owner_worker f)) |}.
(* SRC engine/primitives/mod.rs:99-106 host_dispatched_registration *)
Definition host_dispatched_registration (f : FunctionDefinition) : PrimitiveFunctionRegistration :=
  {| pr_definition := f; pr_handler := None |}.
(* SRC engine/primitives/workers.rs:34-49 primitive_function_definitions *)
Definition primitive_function_definitions : list PrimitiveFunctionRegistration :=
  map handled_registration
    (stream_registrations ++ state_registrations ++ queue_registrations ++ resource_registrations
     ++ trigger_registrations ++ grant_registrations)
  ++ map host_dispatched_registration
    (catalog_registrations ++ ui_registrations ++ worker_registrations ++ storage_registrations).

(* SRC engine/invocation/host/bootstrap.rs:101-117! EngineHost::bootstrap_primitive_capabilities *)
Definition install_worker (w : WorkerDefinition) : @M H S unit := fun c =>
  match worker (wk_id w) c with
  | Some existing =>
      if bool_decide (wk_kind existing = wk_kind w)
         && bool_decide (wk_namespace_claims existing = wk_namespace_claims w)
      then (Ok tt, c)
      else (policy_error ("primitive namespace " +s wk_id w +s " already claimed by incompatible worker "
                          +s worker_kind_debug (wk_kind existing)), c)
  | None => (register_worker uuid now w false ;; ret tt) c
  end.
(* SRC engine/invocation/host/bootstrap.rs:119-139! EngineHost::bootstrap_primitive_capabilities *)
Definition install_function (same : FunctionDefinition -> FunctionDefinition -> bool)
    (r : PrimitiveFunctionRegistration) : @M H S unit := fun c =>
  let d := pr_definition r in
  let register := register_function uuid debug now d (pr_handler r) false ;; ret tt in
  match function (fn_id d) c with
  | Some existing =>
      if fn_owner_worker existing =s fn_owner_worker d
      then if same existing d then (Ok tt, c) else register c
      else (Err (OwnerMismatch "function" (fn_id existing) (fn_owner_worker existing) (fn_owner_worker d)), c)
  | None => register c
  end.
(* SRC engine/invocation/host/bootstrap.rs:100-142 EngineHost::bootstrap_primitive_capabilities *)
Definition bootstrap_primitive_capabilities : @M H S unit :=
  Catalog.for_each install_worker primitive_workers ;;
  Catalog.for_each (install_function same_primitive_function_contract) primitive_function_definitions.
(* SRC engine/invocation/host/bootstrap.rs:57-74! EngineHost::bootstrap_meta_capabilities *)
Definition install_engine_worker : @M H S unit := fun c =>
  match worker ENGINE_WORKER_ID c with
  | Some w =>
      if negb (bool_decide (wk_kind w = Worker_System))
         || negb (existsb (fun claim => claim =s ENGINE_WORKER_ID) (wk_namespace_claims w))
      then (policy_error "reserved engine namespace already has a non-system owner", c) else (Ok tt, c)
  | None => (register_worker uuid now meta_engine_worker false ;; ret tt) c
  end.
(* SRC engine/invocation/host/bootstrap.rs:55-98 EngineHost::bootstrap_meta_capabilities *)
Definition bootstrap_meta_capabilities : @M H S unit :=
  install_engine_worker ;;
  Catalog.for_each (install_function same_meta_function_contract)
    (map host_dispatched_registration meta_function_definitions) ;;
  bootstrap_primitive_capabilities.
(** The catalog of a new host, with the grants of its stores. *)
(* SRC engine/invocation/host/bootstrap.rs:41-53 EngineHost::from_catalog_and_primitives *)
Definition from_catalog_and_primitives (c : catalog) (grants : GrantStore) : Result catalog :=
  match bootstrap_meta_capabilities (set_lc_grants grants c) with
  | (Ok _, c) => Ok c
  | (Err e, _) => Err e
  end.
End bootstrap.

(** ** What a bootstrap leaves *)

Section settled.
  Context {H S : Type} `{!LedgerStore S}.
  Notation catalog := (LiveCatalog H S).
  Variable uuid : Z -> string.
  Variable debug : string -> string.
  Variable handler_of : WorkerId -> H.
  Notation registration := (@PrimitiveFunctionRegistration H).
  Notation bootstrap now := (@bootstrap_meta_capabilities H S _ uuid debug now handler_of).

Definition registered_id (r : registration) : FunctionId := fn_id (pr_definition r).
(** A worker that the bootstrap accepts is in the catalog; so is a function. *)
Definition has_worker (w : WorkerDefinition) (c : catalog) : Prop :=
  exists e, worker (wk_id w) c = Some e /\ wk_kind e = wk_kind w /\ wk_namespace_claims e = wk_namespace_claims w.
Definition has_function (same : FunctionDefinition -> FunctionDefinition -> bool) (r : registration)
    (c : catalog) : Prop :=
  exists e, function (registered_id r) c = Some e /\
    fn_owner_worker e = fn_owner_worker (pr_definition r) /\ same e (pr_definition r) = true.
(** The comparison of contracts leaves the revision out. *)
Definition ignores_revision (same : FunctionDefinition -> FunctionDefinition -> bool) : Prop :=
  forall n d, same (set_fn_revision n d) d = true.

Lemma same_meta_refl : ignores_revision same_meta_function_contract.
Proof. intros n d. unfold same_meta_function_contract. simpl. by rewrite !String.eqb_refl, !bool_decide_eq_true_2. Qed.
Lemma same_primitive_refl : ignores_revision same_primitive_function_contract.
Proof.
  intros n d. unfold same_primitive_function_contract. rewrite same_meta_refl. simpl.
  by rewrite !bool_decide_eq_true_2.
Qed.

Lemma has_function_kept now same r c :
  has_function same r c -> install_function uuid debug now same r c = (Ok tt, c).
Proof.
  intros (e & He & Ho & Hs). unfold install_function. unfold registered_id in He.
  by rewrite He, Ho, String.eqb_refl, Hs.
Qed.
Lemma has_worker_kept now w c : has_worker w c -> install_worker uuid now w c = (Ok tt, c).
Proof.
  intros (e & He & Hk & Hc). unfold install_worker.
  by rewrite He, Hk, Hc, !bool_decide_eq_true_2.
Qed.

(** Changes of one function or one worker. *)
Definition only_function (id : FunctionId) (c c' : catalog) : Prop :=
  lc_workers c' = lc_workers c /\ forall k, k <> id -> lc_functions c' !! k = lc_functions c !! k.
Definition only_worker (id : WorkerId) (c c' : catalog) : Prop :=
  lc_functions c' = lc_functions c /\ forall k, k <> id -> lc_workers c' !! k = lc_workers c !! k.

Lemma install_function_ok now same r c c' :
  ignores_revision same -> install_function uuid debug now same r c = (Ok tt, c') ->
  has_function same r c' /\ only_function (registered_id r) c c'.
Proof.
  intros Hsame Hi. unfold install_function in Hi.
  assert (forall v, (bind (register_function uuid debug now (pr_definition r) (pr_handler r) false)
    (fun _ => ret tt)) c = (Ok v, c') -> has_function same r c' /\ only_function (registered_id r) c c') as Hreg.
  { intros v Hb. apply bind_inv in Hb as (n & c1 & Hr & [= <- <-]).
    apply register_function_ok in Hr. unfold registrations in Hr. injection Hr as Hw Hf _ _. split.
    - exists (set_fn_revision n (pr_definition r)). unfold function, registered_id.
      by rewrite Hf, lookup_insert_eq.
    - split; [done|]. intros k Hk. by rewrite Hf, lookup_insert_ne. }
  destruct (function _ c) as [e|] eqn:He; [|by eapply Hreg].
  destruct (String.eqb_spec (fn_owner_worker e) (fn_owner_worker (pr_definition r))) as [Ho|]; [|done].
  destruct (same e (pr_definition r)) eqn:Hs; [|by eapply Hreg].
  injection Hi as <-. split; [|by split]. by exists e.
Qed.
Lemma install_worker_ok now w c c' :
  install_worker uuid now w c = (Ok tt, c') -> has_worker w c' /\ only_worker (wk_id w) c c'.
Proof.
  intros Hi. unfold install_worker in Hi. destruct (worker (wk_id w) c) as [e|] eqn:He.
  - case_match eqn:Hb; [|done]. injection Hi as <-. split; [|by split]. bool_prop. by exists e.
  - apply bind_inv in Hi as (n & c1 & Hr & [= <-]). apply register_worker_ok in Hr.
    unfold registrations in Hr. injection Hr as Hw Hf _ _. split.
    + exists (set_wk_revision n w). unfold worker. by rewrite Hw, lookup_insert_eq.
    + split; [done|]. intros k Hk. by rewrite Hw, lookup_insert_ne.
Qed.

Lemma has_function_frame same r c c' :
  lc_functions c' !! registered_id r = lc_functions c !! registered_id r ->
  has_function same r c -> has_function same r c'.
Proof. unfold has_function, function. by intros ->. Qed.
Lemma has_worker_frame w c c' :
  lc_workers c' !! wk_id w = lc_workers c !! wk_id w -> has_worker w c -> has_worker w c'.
Proof. unfold has_worker, worker. by intros ->. Qed.

(** A loop of installations with distinct ids. *)
Lemma install_functions_ok now same rs : forall c c',
  ignores_revision same -> NoDup (map registered_id rs) ->
  Catalog.for_each (install_function uuid debug now same) rs c = (Ok tt, c') ->
  Forall (fun r => has_function same r c') rs /\ lc_workers c' = lc_workers c /\
  forall k, k ∉ map registered_id rs -> lc_functions c' !! k = lc_functions c !! k.
Proof.
  induction rs as [|r rs IH]; intros c c' Hsame Hnd Hi; simpl in Hi.
  { injection Hi as <-. by split_and!. }
  apply NoDup_cons in Hnd as [Hr Hnd]. apply bind_inv in Hi as ([] & c1 & H1 & H2).
  destruct (install_function_ok _ _ _ _ _ Hsame H1) as [Hhas [Hw1 Hf1]].
  destruct (IH _ _ Hsame Hnd H2) as (Hall & Hw2 & Hf2). split_and!.
  - constructor; [|done]. by apply (has_function_frame _ _ c1); [apply Hf2|].
  - congruence.
  - intros k [Hk1 Hk2]%not_elem_of_cons. by rewrite Hf2, Hf1.
Qed.
Lemma install_workers_ok now ws : forall c c',
  NoDup (map wk_id ws) -> Catalog.for_each (install_worker uuid now) ws c = (Ok tt, c') ->
  Forall (fun w => has_worker w c') ws /\ lc_functions c' = lc_functions c /\
  forall k, k ∉ map wk_id ws -> lc_workers c' !! k = lc_workers c !! k.
Proof.
  induction ws as [|w ws IH]; intros c c' Hnd Hi; simpl in Hi.
  { injection Hi as <-. by split_and!. }
  apply NoDup_cons in Hnd as [Hr Hnd]. apply bind_inv in Hi as ([] & c1 & H1 & H2).
  destruct (install_worker_ok _ _ _ _ H1) as [Hhas [Hf1 Hw1]].
  destruct (IH _ _ Hnd H2) as (Hall & Hf2 & Hw2). split_and!.
  - constructor; [|done]. by apply (has_worker_frame _ c1); [apply Hw2|].
  - congruence.
  - intros k [Hk1 Hk2]%not_elem_of_cons. by rewrite Hw2, Hw1.
Qed.
Lemma for_each_kept {A} (f : A -> @M H S unit) xs c :
  Forall (fun x => f x c = (Ok tt, c)) xs -> Catalog.for_each f xs c = (Ok tt, c).
Proof. induction 1 as [|x xs Hx _ IH]; [done|]. simpl. unfold bind. by rewrite Hx. Qed.

Definition meta_registrations : list registration := map host_dispatched_registration meta_function_definitions.
Lemma registered_distinct :
  NoDup (map registered_id (meta_registrations ++ primitive_function_definitions handler_of)) /\
  NoDup (map wk_id primitive_workers).
Proof. split; apply (bool_decide_eq_true_1 _); vm_compute; reflexivity. Qed.

(** The engine's worker, as the bootstrap checks it. *)
Definition has_engine_worker (c : catalog) : Prop :=
  exists w, worker ENGINE_WORKER_ID c = Some w /\ wk_kind w = Worker_System /\
    In ENGINE_WORKER_ID (wk_namespace_claims w).
Lemma engine_worker_kept now c : has_engine_worker c -> install_engine_worker uuid now c = (Ok tt, c).
Proof.
  intros (w & Hw & Hk & Hc). unfold install_engine_worker. rewrite Hw, Hk, bool_decide_eq_true_2 by done.
  assert (existsb (fun claim => claim =s ENGINE_WORKER_ID) (wk_namespace_claims w) = true) as ->; [|done].
  apply existsb_exists. eauto using String.eqb_refl.
Qed.
Lemma install_engine_worker_ok now c c' :
  install_engine_worker uuid now c = (Ok tt, c') -> has_engine_worker c'.
Proof.
  unfold install_engine_worker. destruct (worker ENGINE_WORKER_ID c) as [w|] eqn:Hw.
  - case_match eqn:Hb; [done|]. intros [= <-]. exists w. bool_prop. split_and!; try done.
    apply existsb_exists in H1 as (x & Hx & ->%String.eqb_eq). done.
  - intros Hi. apply bind_inv in Hi as (n & c1 & Hr & [= <-]). apply register_worker_ok in Hr.
    unfold registrations in Hr. injection Hr as Hws _ _ _. exists (set_wk_revision n meta_engine_worker).
    unfold worker. rewrite Hws. split_and!; [by rewrite lookup_insert_eq|done|by left].
Qed.

(** After a successful bootstrap, over any ledger and from any catalog, the workers and functions are
    there with their contracts, and bootstrapping again at any later time changes nothing. *)
Theorem bootstrap_settles now c c' :
  bootstrap now c = (Ok tt, c') ->
  has_engine_worker c' /\ Forall (fun w => has_worker w c') primitive_workers /\
  Forall (fun r => has_function same_meta_function_contract r c') meta_registrations /\
  Forall (fun r => has_function same_primitive_function_contract r c') (primitive_function_definitions handler_of) /\
  forall later, bootstrap later c' = (Ok tt, c').
Proof.
  intros Hb. destruct registered_distinct as [Hnd Hndw]. rewrite map_app in Hnd.
  apply NoDup_app in Hnd as (Hndm & Hdisj & Hndp).
  unfold bootstrap_meta_capabilities, bootstrap_primitive_capabilities in Hb.
  apply bind_inv in Hb as ([] & c1 & He & Hb). apply bind_inv in Hb as ([] & c2 & Hm & Hb).
  apply bind_inv in Hb as ([] & c3 & Hw & Hp).
  apply install_engine_worker_ok in He.
  destruct (install_functions_ok _ _ _ _ _ same_meta_refl Hndm Hm) as (Hmeta & Hw2 & _).
  destruct (install_workers_ok _ _ _ _ Hndw Hw) as (Hworkers & Hf3 & Hw3).
  destruct (install_functions_ok _ _ _ _ _ same_primitive_refl Hndp Hp) as (Hprims & Hw4 & Hf4).
  assert (has_engine_worker c') as Hengine.
  { destruct He as (w & Hw1 & Hrest). exists w. split; [|done]. unfold worker in *.
    rewrite Hw4, Hw3, Hw2; [done|]. apply (bool_decide_eq_true_1 _). vm_compute. reflexivity. }
  assert (Forall (fun w => has_worker w c') primitive_workers) as Hworkers'.
  { eapply Forall_impl; [exact Hworkers|]. intros w. apply has_worker_frame. by rewrite Hw4. }
  assert (Forall (fun r => has_function same_meta_function_contract r c') meta_registrations) as Hmeta'.
  { rewrite Forall_forall in Hmeta |- *. intros r Hr. apply (has_function_frame _ _ c2); [|by apply Hmeta].
    rewrite Hf4, Hf3; [done|]. apply Hdisj, list_elem_of_fmap. eauto. }
  split_and!; try done. intros later. unfold bootstrap_meta_capabilities, bootstrap_primitive_capabilities, bind.
  rewrite engine_worker_kept by done. rewrite for_each_kept.
  2: { eapply Forall_impl; [exact Hmeta'|]. intros r. apply has_function_kept. }
  rewrite for_each_kept.
  2: { eapply Forall_impl; [exact Hworkers'|]. intros w. apply has_worker_kept. }
  apply for_each_kept. eapply Forall_impl; [exact Hprims|]. intros r. apply has_function_kept.
Qed.
Lemma from_catalog_settles now c grants c' :
  from_catalog_and_primitives uuid debug now handler_of c grants = Ok c' ->
  forall later, bootstrap later c' = (Ok tt, c').
Proof.
  unfold from_catalog_and_primitives. destruct (bootstrap_meta_capabilities _ _ _ _ _) as [[[]|] c1] eqn:Hrun; [|done].
  intros [= ->]. by apply bootstrap_settles in Hrun as (_ & _ & _ & _ & Hlater).
Qed.
End settled.

(** ** A new host *)

Section new_host.
  Context {H : Type}.
  Variable uuid : Z -> string.
  Variable debug : string -> string.
  Variable handler_of : WorkerId -> H.
  Variable now seeded : instant.
  Notation new_catalog := (from_catalog_and_primitives uuid debug now handler_of
    (@with_ledger_store H LedgerMemory ledger_memory_new (grant_store_new seeded)) (grant_store_new seeded)).
  Notation registrations := (meta_registrations ++ primitive_function_definitions handler_of).

(** The functions without a handler are exactly those that the host routes to itself, and the
    dispatch of the host has an arm for each. *)
Lemma host_dispatched_are_served {L C D St} `{!LeaseStore L, !CompensationStore C, !StorageRuntime St} rfc3339
    json_text metadata_text fv wv ttv tv run_ui :
  Forall (fun r => is_some (pr_handler r) = negb (is_host_dispatched_primitive_function (registered_id r)) /\
      (pr_handler r = None -> is_Some (obj_get (@runtime_handlers H LedgerMemory L C D St _ _ rfc3339 json_text
         metadata_text fv wv ttv tv run_ui uuid now) (registered_id r))))
    (primitive_function_definitions handler_of).
Proof.
  repeat (apply Forall_cons; split; [split; [vm_compute; reflexivity|
    first [discriminate|intros _; eexists; reflexivity]]|]). apply Forall_nil_2.
Qed.

Definition booted : LiveCatalog H LedgerMemory :=
  match new_catalog with Ok c => c | Err _ => with_ledger_store ledger_memory_new (grant_store_new seeded) end.
Lemma new_catalog_booted : new_catalog = Ok booted.
Proof. unfold booted. assert (is_ok new_catalog = true) by (vm_compute; reflexivity). by destruct new_catalog. Qed.
Definition registered_entry (r : PrimitiveFunctionRegistration) : FunctionEntry H :=
  {| fe_definition := pr_definition r; fe_handler := pr_handler r; fe_volatile := false |}.
Lemma booted_functions :
  map (fun r => lc_functions booted !! registered_id r) registrations
  = map (fun r => Some (registered_entry r)) registrations.
Proof. vm_compute. reflexivity. Qed.
Lemma booted_workers :
  map (fun w => worker (wk_id w) booted) (meta_engine_worker :: primitive_workers)
  = map Some (meta_engine_worker :: primitive_workers).
Proof. vm_compute. reflexivity. Qed.
Lemma booted_size : size (lc_functions booted) = List.length registrations.
Proof. vm_compute. reflexivity. Qed.

Lemma map_list_eq {A B} (f g : A -> B) l : map f l = map g l -> forall x, In x l -> f x = g x.
Proof. induction l as [|y l IH]; [done|]. intros [= Hy Hl] x [<-|Hx]; auto. Qed.

Lemma booted_entries id e :
  lc_functions booted !! id = Some e <->
  exists r, In r registrations /\ registered_id r = id /\ e = registered_entry r.
Proof.
  pose proof (map_list_eq _ _ _ booted_functions) as Hall. split.
  - intros He. destruct (registered_distinct handler_of) as [Hnd _].
    set (m := list_to_map (map (fun r => (registered_id r, registered_entry r)) registrations)
                : gmap string (FunctionEntry H)).
    assert ((map (fun r => (registered_id r, registered_entry r)) registrations).*1 = map registered_id registrations)
      as Hfst by (rewrite <- list_fmap_compose; done).
    assert (forall r, In r registrations -> m !! registered_id r = Some (registered_entry r)) as Hm.
    { intros r Hr. apply elem_of_list_to_map; [by rewrite Hfst|].
      apply list_elem_of_In, in_map_iff. eauto. }
    assert (lc_functions booted = m) as Heq.
    { symmetry. apply map_subseteq_size_eq.
      - apply map_subseteq_spec. intros k x Hk. apply elem_of_list_to_map_2, list_elem_of_In, in_map_iff in Hk.
        destruct Hk as (r & [= <- <-] & Hr). by apply Hall.
      - rewrite booted_size. unfold m. rewrite map_size_list_to_map by (by rewrite Hfst). by rewrite length_map. }
    rewrite Heq in He. apply elem_of_list_to_map_2, list_elem_of_In, in_map_iff in He.
    destruct He as (r & [= <- <-] & Hr). eauto.
  - intros (r & Hr & <- & ->). by apply Hall.
Qed.

(** C17: Making a host on a new catalog succeeds: its catalog has exactly the functions of
    the engine (five meta functions and every registered primitive), each with its own
    definition and handler, and their workers; the primitives without a handler are exactly
    those that the host routes to itself, each with an arm in the dispatch; bootstrapping
    again changes nothing. *)
Theorem new_host_serves_its_primitives {L C D St} `{!LeaseStore L, !CompensationStore C, !StorageRuntime St} rfc3339
    json_text metadata_text fv wv ttv tv run_ui :
  exists c, new_catalog = Ok c /\
    (forall id e, lc_functions c !! id = Some e <->
       exists r, In r registrations /\ registered_id r = id /\ e = registered_entry r) /\
    Forall (fun w => worker (wk_id w) c = Some w) (meta_engine_worker :: primitive_workers) /\
    Forall (fun r => is_some (pr_handler r) = negb (is_host_dispatched_primitive_function (registered_id r)) /\
        (pr_handler r = None -> is_Some (obj_get (@runtime_handlers H LedgerMemory L C D St _ _ rfc3339 json_text
           metadata_text fv wv ttv tv run_ui uuid now) (registered_id r))))
      (primitive_function_definitions handler_of) /\
    forall later, bootstrap_meta_capabilities uuid debug later handler_of c = (Ok tt, c).
Proof.
  exists booted. split_and!.
  - exact new_catalog_booted.
  - exact booted_entries.
  - apply Forall_forall. intros w Hw. apply (map_list_eq _ _ _ booted_workers). by apply list_elem_of_In.
  - apply host_dispatched_are_served.
  - exact (from_catalog_settles _ _ _ _ _ _ _ new_catalog_booted).
Qed.
End new_host.

(** ** A hidden worker is shown *)

(** A worker of the engine is internal: [worker::get] refuses to show it to an agent, and
    [worker::health] shows it. *)
Definition booted_host : EngineHost unit LedgerMemory LeaseMemory CompensationMemory :=
  {| eh_catalog := booted (fun n => pretty n) id (fun _ => tt) 5 0; eh_leases := lease_memory_new;
     eh_compensation := compensation_memory_new; eh_streams := stream_store_new; eh_queue := ∅ |}.
Definition worker_text (w : WorkerDefinition) : Value := VString (wk_id w).
Definition function_text (f : FunctionDefinition) : Value := VString (fn_id f).
Theorem worker_health_shows_hidden_workers :
  let call name := queue_call name (j{"workerId" ~> "state"}) in
  worker_get worker_text (call "worker::get") booted_host = policy_error "worker state is not visible" /\
  match worker_health (fun _ => "") function_text worker_text (fun _ => Null) (call "worker::health") booted_host with
  | Ok v => vget v "worker" = Some (VString "state")
  | Err _ => False
  end.
Proof. split; vm_compute; reflexivity. Qed.

(** ** Disconnecting a worker *)

(** [worker::disconnect] removes the worker it names, which is volatile, with the volatile functions and
    triggers of that worker, and nothing else; in particular it leaves the workers of the engine. *)
Theorem disconnect_removes_only_the_worker {H S L C} `{!LedgerStore S, !LeaseStore L, !CompensationStore C}
    uuid now i (h h' : EngineHost H S L C) v :
  primitive_worker_disconnect uuid now i h = (Ok v, h') ->
  exists id, names (inv_payload i) "workerId" id /\ worker_is_volatile id (eh_catalog h) = Some true /\
    lc_workers (eh_catalog h') = delete id (lc_workers (eh_catalog h)) /\
    without (volatile_function id) (lc_functions (eh_catalog h)) (lc_functions (eh_catalog h')) /\
    without (volatile_trigger id) (lc_triggers (eh_catalog h)) (lc_triggers (eh_catalog h')).
Proof.
  unfold primitive_worker_disconnect, named_worker. destruct (required_str _ _) as [name|] eqn:Hname; [|done].
  apply required_iff in Hname. unfold engine_id_new. destruct (validate_non_empty _ _) as [[]|]; [|done].
  case_bool_decide as Hv; [|done]. simpl.
  destruct (inspect_worker name (eh_catalog h)) as [w|]; [|done]. unfold on_catalog.
  destruct (unregister_worker _ _ _ _ _) as [[[]|] c] eqn:Hu; [|done]. intros [= _ <-].
  apply unregister_worker_ok in Hu as (Hw & Hf & Ht). exists name. by split_and!.
  Unshelve. all: try exact (fun s => s). exact (fun s => Err s).
Qed.
